(* ===== verification/_CoqProject ===== *)
-Q . S2P
Prelude.v
JsNumber.v
JsText.v
JsValue.v
JsArray.v
NumOrder.v
Json.v
JsonRoundTrip.v
Effects.v
ConfigPatch.v
GatewayClient.v
GatewayFacts.v
Oidc.v
Routes.v
AuthRoutes.v
ModelsApi.v
BudgetsApi.v
TenantsApi.v
ConfigApi.v
FinopsApi.v
SemanticApi.v
ObservabilityApi.v
CatalogApi.v
ApiFacts.v
ApiClient.v
BrowserAuth.v
AuthRefresh.v
Shell.v
Toast.v
Csv.v
ConfigView.v
UsageApi.v
HealthView.v
ObservabilityPage.v
RoutingInsights.v
RequestExplorer.v
ReplayPage.v
SemanticViews.v
FinopsPage.v
ConsoleClient.v
CatalogClient.v
DashboardPage.v
ConsoleFacts.v
RoutingPage.v
RoutingFacts.v
RoutingView.v
SemanticPage.v
SemanticTables.v
ToolsPage.v
ToolsView.v
SettingsPage.v
ModelDialogs.v
TenantStore.v
GlobalStore.v
GlobalConfigPage.v
ProvidersPage.v
AdminPages.v
TenantDialogs.v
GlobalConfigView.v
ExplorerView.v
EntryDialogs.v
TenantDetail.v
DetailPanels.v
LogsPage.v
LogsView.v
FinopsView.v
FinopsTables.v
RouteTable.v
