(* ===== verification/Prelude.v ===== *)
(** * Verification of the PrismGateway console

    PrismGateway is a gateway to language models.  Its backend (backend/, Go) serves
    the models; its console (frontend/, TypeScript, Next.js) administers it.  This
    development verifies the TypeScript of the console: the server-side routes under
    src/frontend/src/app/api with the gateway client they share, the code of the browser
    that keeps a session, the hooks through which the pages fetch and write, and the logic
    of the pages; and, where a page's promise depends on it, the stores of the gateway that
    merge what a page writes.

    ** The program and how its parts interact

    A page of the console fetches and writes through hooks (features/*/api), which call
    routes of the console's own server, show what was refused, and invalidate the cached
    queries that a write makes stale.  The route reads
    the caller's token from a cookie or a header (requireAdminBearer,
    requireTenantAuth), and calls the gateway through gatewayAdminFetch, which chooses
    the credential (the caller's token, or the system API key when there is none),
    refreshes an expired token once, and turns an error status into an exception that
    the route's catch clause reports.  The auth routes exchange codes and refresh
    tokens with the identity provider and set the cookies.  In the browser, the
    provider of auth-context.tsx keeps the session in localStorage and in React state
    and refreshes it, and lib/api/client.ts repeats a request after a refresh that all
    its requests share.

    ** Files

    The language and its standard library, as far as the sources use them:
    - [JsNumber]: numbers as IEEE binary64 values, with the conversions from and to
      text; [JsText]: strings, percent and form encoding, UTF-8, dates; [JsValue]:
      the values of JSON with undefined, property access, conversions, objects with
      their order of keys; [JsArray]: sort, Set and Map; [NumOrder]: the order of numbers,
      comparators and the best of a list; [Json]: JSON.parse and
      JSON.stringify; [JsonRoundTrip]: which values survive the way through both.
    - [Effects]: a handler is a computation [M] over a [World] (environment, cookies,
      the network, the clock) and a [State] (what was sent).  The network is any
      function of the history and the request, so a theorem for all worlds covers every
      behaviour of the peers.  The file has the proof rules ([spec], [sends],
      [raises], [answers]) and the tactics every route's proof uses.

    The server of the console:
    - [ConfigPatch] (lib/server/admin-model-patch.ts and
      features/providers/api/provider-config-canonical.ts): what is sent about a
      model or a provider.
    - [GatewayClient] (lib/server/gateway-admin-client.ts, require-admin-bearer.ts,
      require-tenant-auth.ts): [gatewayAdminFetch], the operations on it, and the
      guards; [GatewayFacts]: its theorems.
    - [Oidc] (lib/auth/oidc.ts, lib/auth/roles.ts): base64url, PKCE, the authorization
      address, reading a token, the canonical role.
    - [Routes]: the shapes the routes share, with their laws; [AuthRoutes] (app/api/auth);
      [ModelsApi] (models, route-groups); [BudgetsApi] (budgets); [TenantsApi]
      (tenants, providers); [ConfigApi] (global-config, admin, dashboard, health,
      version, logs, settings); [FinopsApi] (finops and lib/finops-fetch.ts);
      [SemanticApi] (semantic); [ObservabilityApi] (observability, routing);
      [CatalogApi] (benchmarks, model-catalog, tool-catalog, tool-routing);
      [ApiFacts]: theorems over the list of all routes.  A handler is named after its
      path and method, as in [budgets_tenants_GET].

    The browser:
    - [ApiClient] (lib/api/client.ts): the requests as tasks that run interleaved, one
      event delivering what one task waits for.
    - [BrowserAuth] (lib/auth/session.ts, the provider of lib/auth/auth-context.tsx and
      the callback page): localStorage and the provider's state; [AuthRefresh]: the
      provider's refresh under concurrent calls.
    - [Shell] (app/(app)/layout.tsx, lib/auth/guards.tsx, components/auth and
      components/layout): the guards of the pages, the sidebar, the header and the theme.
    - [Toast] (hooks/use-toast.ts): the list of toasts and its timers.

    The pages:
    - [ConsoleClient] and [CatalogClient] (features/*/api): the fetches and mutations of
      the hooks, a mutation being what it sends and the effects of its callbacks
      ([MutationHook], [settles]); [ConsoleFacts]: theorems over the list of all mutations,
      and a write followed from the page to the gateway.
    - [UsageApi] (features/observability/api): the queries of the observability views,
      paging and the model-health table.
    - [ConfigView] (features/providers/lib, features/global-config/lib,
      features/dashboard/lib): what the pages read out of the global configuration.
    - [Csv]: the exports of all pages, and a reader of CSV files they are held against.
    - [HealthView], [RoutingInsights], [RequestExplorer] (features/observability/components),
      [ObservabilityPage] (app/(app)/observability/page.tsx) and [ReplayPage]
      (app/(app)/routing/replay/page.tsx): the tables, rankings, distributions, filters and
      pages of the observability views, and the replay page with its requests in any order;
      [ExplorerView]: what the request explorer and the replay page render of them.
    - [FinopsPage] and [FinopsView] (app/(app)/budgets/page.tsx), [RoutingPage] with [RoutingFacts]
      (app/(app)/routing/page.tsx), [SemanticPage] (app/(app)/semantic/page.tsx),
      [LogsPage] (app/(app)/logs/page.tsx), [ToolsPage] (app/(app)/tools/page.tsx),
      [SettingsPage] (app/(app)/settings/page.tsx): queries, derived data, forms and what
      they save; [FinopsTables], [RoutingView], [SemanticTables], [LogsView] and [ToolsView]: the
      cards, tables, drawers and dialogs of the first five as views of their data.
    - [ModelDialogs] (features/models/components): the forms of the model dialogs, their
      checks, and the model or update they submit.
    - [TenantDialogs] (features/tenants/components): the forms of a tenant's dialogs, their
      checks and patches; [TenantStore] (backend/internal/storage/postgres.go): the
      normalization and merge such a patch goes through in the gateway.
    - [GlobalStore] (backend/internal/storage/postgres.go and
      backend/internal/httpapi/admin_global_config_handler.go): the versions of the global
      configuration, its canonical form, and what an administrator reads;
      [GlobalConfigPage] (app/(app)/global-config/page.tsx and features/global-config/components):
      the editors of its sections and their saves, down to the store; [GlobalConfigView]: the
      cards of the sections, the inputs of the editors and the switch between them; [ProvidersPage]
      (app/(app)/providers/page.tsx and features/providers/components): the switch and the
      dialogs of the providers, down to the store.  A map of Go is walked in any order; the
      theorems that depend on the order quantify over it.
    - [DashboardPage] (app/(app)/dashboard/page.tsx and features/dashboard/components): its
      cards, health checks and links; [SemanticViews] (features/observability/components):
      the views of the semantic cache, of semantic routing and of the router's latencies;
      [TenantDetail] (features/tenants/components): the details of a tenant, its API keys and
      their rotation; [DetailPanels] (features/models, providers, route-groups and
      budgets/components): the details of a model, a provider and a route group, and the table
      of the budgets.
    - [AdminPages]: the tenants, configuration history, benchmarks and models pages.
    - [EntryDialogs] (features/model-catalog, tool-catalog, route-groups and the API key dialog
      of features/tenants): the dialogs of catalogue entries, API keys and route groups.
    - [RouteTable]: the addresses the hooks call against the files under app/api, by the
      rule by which Next.js finds a handler.

    ** What the theorems show

    - Credentials: which calls carry the system API key, what the guard denies, that
      every guarded route denies before it does anything, and which routes serve an
      anonymous caller under the system key.
    - Errors and totality: every route answers as long as its peers answer with a
      status a response can carry; the client's errors are reportable.
    - Sessions: login, refresh and logout seen through the cookies of a browser that
      stores what it is sent; the checks of a refresh token; the exchange of a code
      only with its own state and verifier, from the login button to the callback.
    - Concurrency: one refresh at a time in the API client and in the provider, over
      all schedules; who is woken by its end and who is not.
    - Data: the patches hold what the caller gave, typed and under the names of the
      gateway; round trips of base64url, tokens and query strings; bounds of pages;
      counts of distributions; the split of a batch of tenants; exports that read back.
    - Pages: what a page counts as changed is what differs, what it sends is what was
      changed, and editing leaves the rest alone; a refused write is shown and a done one
      refreshes what shows it; a denial is not shown as empty data; tenants the caller may
      not see are in no table; the loops over pages of rows end, and find every row; names
      reach their handlers.
    - Composition: a configuration written on a page reaches the gateway as one request,
      unchanged, and the answer comes back; a tool-routing test shows on its page what the
      gateway decided, through the route and its ephemeral key; an edit of a model makes, on
      the console's server, the patch its form shows; what the tenant dialogs save is, merged
      by the gateway's store, what they show again; a save of a section of the global
      configuration leaves the other sections alone, and credentials of AWS providers are
      stored as they were typed, trimmed.
    - Views: the recommended model is the best eligible one, the tables and distributions count
      exactly, a percentile is the nearest rank in binary64, an answer in the cache of the FinOps
      page belongs to its request, and the replay page never keeps a spinner.  The rankings of the
      FinOps page hold the top rows and its timeline every request once; an audit row opens its own
      details; an editor of a section hands over its edits once or, cancelled, nothing.
    - Navigation: a link of the sidebar leads to a page its session may see, and a guarded page
      shows its content to no other role.
    - Details: the panels of a tenant show what its dialogs saved; a rotated key is shown until
      it is closed; the table of the budgets is sorted as its columns say.
    - Flaws: where a page or the gateway does not do what it means to, a theorem shows it, such
      as [section_save_overwrites_secret] and [provider_toggle_races].

    ** Bounds, fuel and approximations

    [Json.json_parse] runs with twice the length of the text as fuel;
    [Json.json_parse_complete] shows that this is enough: more fuel parses nothing
    more.  [usage_loop] has the source's own bound of 500 pages.  [dashboard_loop] has no
    bound in the source: its fuel counts pages, running out is a value of its own (None),
    and [dashboard_paging] gives the fuel that is enough.  Every other recursion is
    structural.  Offsets and limits of pages are integers below 2^53, where a number
    counts exactly.
    Texts of runtime errors (a TypeError's message) are representative: no theorem
    depends on them, apart from the search for ECONNREFUSED in an error's message.
    toLowerCase, toUpperCase and the white space of patterns are those of ASCII; sorting by code units is
    sorting by bytes of UTF-8; localeCompare is any total order (the class [Collation]);
    the time zone of the browser is a parameter of what shows or reads local times;
    property names inherited from
    Object.prototype count as absent; a lone surrogate cannot occur, since strings are
    UTF-8 texts.  The server's fetch rejects an address without a scheme; other
    malformed addresses are requests to a network that may reject them.  Promise.all
    takes the requests of its elements in list order, one of the orders of the event
    loop; the components with real concurrency ([ApiClient], [AuthRefresh]) have every
    order.  Logging to the console is left out.

    ** What is not modelled

    The Go backend, which is another program in another language, apart from the stores of
    the tenant and global configurations; markup and styles, charts and the setters of plain
    inputs; the usage documentation, which is text; branding and formatting
    through Intl.  The cache of react-query is present as the contract of its options:
    which callback runs on which outcome, and which keys it invalidates.  The random bytes
    and SHA-256 of the browser's crypto object and its URL class are parameters.

    ** Plan

    What is left of the program's own code are the layouts of the dialogs and charts around the
    modelled data, and the parts of the gateway behind the routes the console calls. *)

From stdpp Require Export base list strings numbers option.
From Stdlib Require Export ZArith String Ascii Lia Bool.

(** stdpp blocks the reduction of string append; the texts here compute. *)
#[global] Arguments String.append !_ _ / : simpl nomatch.

(** What a computation sends and rejects with: see [Effects]. *)
Create HintDb effects.

(** ** Strings *)

(** Induction over a string three characters at a time. *)
Lemma string_ind3 (P : string -> Prop) :
  P ""%string -> (forall a, P (String a EmptyString)) -> (forall a b, P (String a (String b ""))) ->
  (forall a b c t, P t -> P (String a (String b (String c t)))) -> forall s, P s.
Proof.
  intros H0 H1 H2 H3. fix IH 1. intros [|a [|b [|c t]]];
    [exact H0|exact (H1 a)|exact (H2 a b)|exact (H3 a b c t (IH t))].
Qed.

(** ** Numbers *)

(** A quotient and a remainder, as an equation and a bound. *)
Ltac divide n d :=
  let q := fresh "q" in let r := fresh "r" in
  let Hq := fresh "Hq" in let Hr := fresh "Hr" in
  assert (Hq := N.div_mod n d ltac:(discriminate)); assert (Hr := N.mod_lt n d ltac:(discriminate));
  set (q := (n / d)%N) in *; set (r := (n mod d)%N) in *; clearbody q r.

(** ** Lists *)

Lemma existsb_elem (id : string) (l : list string) :
  existsb (String.eqb id) l = true <-> id ∈ l.
Proof.
  rewrite existsb_exists, list_elem_of_In. split.
  - by intros (x & Hx & ->%String.eqb_eq).
  - intros H. exists id. split; [done|apply String.eqb_refl].
Qed.

Lemma filter_NoDup (f : string -> bool) (l : list string) :
  base.NoDup l -> base.NoDup (List.filter f l).
Proof. rewrite !NoDup_ListNoDup. apply List.NoDup_filter. Qed.
