(* ===== verification/JsNumber.v ===== *)
(** * JavaScript numbers

    A JavaScript number is an IEEE 754 binary64 value.  The model uses the
    Standard Library's executable specification of binary64 ([spec_float] with
    53 bits of precision and maximal exponent 1024), so additions, products
    and quotients round exactly as the engine rounds them.  The file also has
    the conversions the sources use: [Number(string)], [parseInt(s, 10)],
    [Number.prototype.toString], [Math.trunc], [Math.round], [Math.min] and
    [Math.max]. *)

From S2P Require Import Prelude.
From Stdlib Require Import SpecFloat.
Local Open Scope Z_scope.

Abbreviation num := spec_float (only parsing).

(** ** Arithmetic *)

Definition num_of_Z (z : Z) : num := binary_normalize 53 1024 z 0 false.
Definition num_nan : num := S754_nan.
Definition num_zero : num := S754_zero false.
Definition num_inf (neg : bool) : num := S754_infinity neg.

Definition num_add (x y : num) : num := SFadd 53 1024 x y.
Definition num_sub (x y : num) : num := SFsub 53 1024 x y.
Definition num_mul (x y : num) : num := SFmul 53 1024 x y.
Definition num_div (x y : num) : num := SFdiv 53 1024 x y.

(** The quotient of two integers, correctly rounded. *)
Definition num_of_ratio (neg : bool) (n d : positive) : num :=
  SFdiv 53 1024 (S754_finite neg n 0) (S754_finite false d 0).

(** ** Comparison and classification *)

Definition num_eqb (x y : num) : bool := SFeqb x y.
Definition num_ltb (x y : num) : bool := SFltb x y.
Definition num_leb (x y : num) : bool := SFleb x y.
Definition num_geb (x y : num) : bool := SFleb y x.
Definition num_gtb (x y : num) : bool := SFltb y x.

Definition num_is_nan (x : num) : bool :=
  match x with S754_nan => true | _ => false end.

(** [Number.isFinite] *)
Definition num_is_finite (x : num) : bool :=
  match x with S754_zero _ | S754_finite _ _ _ => true | _ => false end.

(** A number is falsy exactly when it is +0, -0 or NaN. *)
Definition num_truthy (x : num) : bool :=
  match x with S754_zero _ | S754_nan => false | _ => true end.

(** [Math.min] and [Math.max] of two arguments: NaN wins, and -0 is below +0. *)
Definition num_min (x y : num) : num :=
  if num_is_nan x || num_is_nan y then num_nan
  else match x, y with
       | S754_zero s, S754_zero t => S754_zero (s || t)
       | _, _ => if num_ltb y x then y else x
       end.

Definition num_max (x y : num) : num :=
  if num_is_nan x || num_is_nan y then num_nan
  else match x, y with
       | S754_zero s, S754_zero t => S754_zero (s && t)
       | _, _ => if num_ltb x y then y else x
       end.

(** ** Rounding to an integer *)

(** [Math.trunc] *)
Definition num_trunc (x : num) : num :=
  match x with
  | S754_finite s m e =>
      if 0 <=? e then x
      else let q := Z.pos m / 2 ^ (- e) in
           if q =? 0 then S754_zero s
           else binary_normalize 53 1024 (if s then - q else q) 0 s
  | _ => x
  end.

(** [Math.round]: the nearest integer, ties towards +infinity. *)
Definition num_round (x : num) : num :=
  match x with
  | S754_finite s m e =>
      if 0 <=? e then x
      else let d := 2 ^ (- e) in
           let v := if s then - Z.pos m else Z.pos m in
           let q := (2 * v + d) / (2 * d) in
           if q =? 0 then S754_zero s
           else binary_normalize 53 1024 q 0 s
  | _ => x
  end.

(** [Math.ceil] *)
Definition num_ceil (x : num) : num :=
  match x with
  | S754_finite s m e =>
      if 0 <=? e then x
      else let d := 2 ^ (- e) in
           let v := if s then - Z.pos m else Z.pos m in
           let q := - (- v / d) in
           if q =? 0 then S754_zero s
           else binary_normalize 53 1024 q 0 s
  | _ => x
  end.

(** [Math.floor] *)
Definition num_floor (x : num) : num :=
  match x with
  | S754_finite s m e =>
      if 0 <=? e then x
      else let d := 2 ^ (- e) in
           let v := if s then - Z.pos m else Z.pos m in
           let q := v / d in
           if q =? 0 then S754_zero s
           else binary_normalize 53 1024 q 0 s
  | _ => x
  end.

(** [Math.abs] *)
Definition num_abs (x : num) : num := SFabs x.

(** The integer a number denotes, when it denotes one. *)
Definition num_to_Z (x : num) : option Z :=
  match x with
  | S754_zero _ => Some 0
  | S754_finite s m e =>
      let v := if s then - Z.pos m else Z.pos m in
      if 0 <=? e then Some (v * 2 ^ e)
      else if v mod 2 ^ (- e) =? 0 then Some (v / 2 ^ (- e)) else None
  | _ => None
  end.

(** ** Decimal input *)

Definition is_digit (c : ascii) : bool :=
  let n := nat_of_ascii c in Nat.leb 48 n && Nat.leb n 57.
Definition digit_value (c : ascii) : Z := Z.of_nat (nat_of_ascii c) - 48.

(** Reads the longest prefix of digits: the value, how many were read, the rest. *)
Fixpoint scan_digits (acc : Z) (count : nat) (s : string) : Z * nat * string :=
  match s with
  | String c s' =>
      if is_digit c then scan_digits (10 * acc + digit_value c) (S count) s'
      else (acc, count, s)
  | EmptyString => (acc, count, s)
  end.

(** The double nearest to [mant * 10 ^ ex].  Outside of the clamped range the
    answer is already infinity or zero, whatever the mantissa. *)
Definition decimal_to_num (neg : bool) (mant ex : Z) : num :=
  match mant with
  | Z.pos m =>
      if 400 <? ex then S754_infinity neg
      else if ex + Z.log2 mant <? -400 then S754_zero neg
      else if 0 <=? ex then
        binary_normalize 53 1024 (if neg then - (mant * 10 ^ ex) else mant * 10 ^ ex) 0 neg
      else num_of_ratio neg m (Z.to_pos (10 ^ (- ex)))
  | _ => S754_zero neg
  end.

(** An exponent part: [e] or [E], an optional sign and at least one digit.
    Without one the text is left as it is. *)
Definition scan_exponent (s : string) : Z * string :=
  let digits (sign : Z) (t : string) :=
    match scan_digits 0 0 t with
    | (v, S _, rest) => (sign * v, rest)
    | _ => (0, s)
    end in
  match s with
  | String c t =>
      if (Ascii.eqb c "e" || Ascii.eqb c "E")%bool then
        match t with
        | String "+" u => digits 1 u
        | String "-" u => digits (-1) u
        | _ => digits 1 t
        end
      else (0, s)
  | EmptyString => (0, s)
  end.

(** An unsigned decimal literal; [None] when it has no digit. *)
Definition scan_decimal (s : string) : option (Z * Z * string) :=
  let '(ip, ni, rest) := scan_digits 0 0 s in
  let '(m, nf, rest') :=
    match rest with
    | String "." t =>
        let '(m, nf, u) := scan_digits ip 0 t in
        if (Nat.eqb ni 0 && Nat.eqb nf 0)%bool then (ip, 0%nat, rest) else (m, nf, u)
    | _ => (ip, 0%nat, rest)
    end in
  if (Nat.eqb ni 0 && Nat.eqb nf 0)%bool then None
  else let '(ex, rest'') := scan_exponent rest' in
       Some (m, ex - Z.of_nat nf, rest'').

Definition digit_in_base (base : Z) (c : ascii) : option Z :=
  let n := Z.of_nat (nat_of_ascii c) in
  let v := if (48 <=? n) && (n <=? 57) then n - 48
           else if (97 <=? n) && (n <=? 122) then n - 87
           else if (65 <=? n) && (n <=? 90) then n - 55 else 99 in
  if v <? base then Some v else None.

Fixpoint read_base (base acc : Z) (s : string) : option Z :=
  match s with
  | EmptyString => Some acc
  | String c s' => match digit_in_base base c with
                   | Some v => read_base base (base * acc + v) s'
                   | None => None
                   end
  end.

Definition read_prefixed (s : string) : option num :=
  let go base t := match t with
                   | EmptyString => None
                   | _ => num_of_Z <$> read_base base 0 t
                   end in
  match s with
  | String "0" (String c t) =>
      if (Ascii.eqb c "x" || Ascii.eqb c "X")%bool then go 16 t
      else if (Ascii.eqb c "o" || Ascii.eqb c "O")%bool then go 8 t
      else if (Ascii.eqb c "b" || Ascii.eqb c "B")%bool then go 2 t
      else None
  | _ => None
  end.

(** [Number(s)] of a string that has been trimmed of white space. *)
Definition number_of_trimmed (s : string) : num :=
  let unsigned neg t :=
    if String.eqb t "Infinity" then S754_infinity neg
    else match scan_decimal t with
         | Some (m, ex, EmptyString) => decimal_to_num neg m ex
         | _ => num_nan
         end in
  match s with
  | EmptyString => num_zero
  | String "-" t => unsigned true t
  | String "+" t => unsigned false t
  | _ => match read_prefixed s with
         | Some v => v
         | None => unsigned false s
         end
  end.

(** [parseInt(s, 10)] of a string trimmed at its start: the longest prefix of
    digits, NaN without one.  The sign of a zero is kept. *)
Definition parse_int_trimmed (s : string) : num :=
  let digits neg t :=
    match scan_digits 0 0 t with
    | (v, S _, _) => decimal_to_num neg v 0
    | _ => num_nan
    end in
  match s with
  | String "-" t => digits true t
  | String "+" t => digits false t
  | _ => digits false s
  end.

(** ** Decimal output: [Number.prototype.toString] *)

Fixpoint Z_digits_aux (fuel : nat) (z : Z) (acc : string) : string :=
  match fuel with
  | O => acc
  | S f => let acc' := String (ascii_of_nat (Z.to_nat (z mod 10) + 48)) acc in
           if z <? 10 then acc' else Z_digits_aux f (z / 10) acc'
  end.

(** The decimal digits of a non-negative integer; [log2 z + 1] rounds are enough. *)
Definition Z_digits (z : Z) : string := Z_digits_aux (S (Z.to_nat (Z.log2 z))) z "".

Definition Z_to_string (z : Z) : string :=
  if z <? 0 then String "-" (Z_digits (- z)) else Z_digits z.

(** [p / q < 10 ^ j], exactly. *)
Definition ratio_lt_pow10 (p q j : Z) : bool :=
  if 0 <=? j then p <? q * 10 ^ j else p * 10 ^ (- j) <? q.

(** The [n] with [10 ^ (n - 1) <= p / q < 10 ^ n], from an estimate that is
    one too small at most. *)
Definition dec_exponent (p q est : Z) : Z :=
  if ratio_lt_pow10 p q est then est
  else if ratio_lt_pow10 p q (est + 1) then est + 1 else est + 2.

(** The shortest decimal [s * 10 ^ (n - k)] with [k] digits that reads back as
    [x], searched from one digit upwards; 17 digits always suffice for
    binary64. *)
Fixpoint shortest_digits (fuel : nat) (x : num) (p q n k : Z) : option (Z * Z) :=
  match fuel with
  | O => None
  | S f =>
      let j := n - k in
      let a := if 0 <=? j then p else p * 10 ^ (- j) in
      let b := if 0 <=? j then q * 10 ^ j else q in
      let lo := a / b in
      let r := a mod b in
      let near := if 2 * r <? b then [lo; lo + 1]
                  else if b <? 2 * r then [lo + 1; lo]
                  else if Z.even lo then [lo; lo + 1] else [lo + 1; lo] in
      let fits s := (10 ^ (k - 1) <=? s) && (s <=? 10 ^ k)
                    && num_eqb (decimal_to_num false s j) x in
      match filter (fun s => fits s = true) near with
      | s :: _ => if s =? 10 ^ k then Some (1, n + 1) else Some (s, n)
      | [] => shortest_digits f x p q n (k + 1)
      end
  end.

Fixpoint zeros (n : nat) : string :=
  match n with O => "" | S m => String "0" (zeros m) end.

(** The layout of [Number::toString] for the digits [s] and the exponent [n]. *)
Definition layout_decimal (ds : string) (n : Z) : string :=
  let k := Z.of_nat (String.length ds) in
  if (k <=? n) && (n <=? 21) then (ds ++ zeros (Z.to_nat (n - k)))%string
  else if (0 <? n) && (n <=? 21) then
    (substring 0 (Z.to_nat n) ds ++ "."
       ++ substring (Z.to_nat n) (String.length ds) ds)%string
  else if (-6 <? n) && (n <=? 0) then ("0." ++ zeros (Z.to_nat (- n)) ++ ds)%string
  else let e := n - 1 in
       let es := if 0 <=? e then ("e+" ++ Z_digits e)%string
                 else ("e-" ++ Z_digits (- e))%string in
       match ds with
       | String d EmptyString => String d es
       | String d rest => String d ("." ++ rest ++ es)
       | EmptyString => es
       end.

Definition positive_to_string (m : positive) (e : Z) : string :=
  let p := if 0 <=? e then Z.pos m * 2 ^ e else Z.pos m in
  let q := if 0 <=? e then 1 else 2 ^ (- e) in
  let est := (Z.log2 (Z.pos m) + e) * 30103 / 100000 in
  let n := dec_exponent p q est in
  match shortest_digits 17 (S754_finite false m e) p q n 1 with
  | Some (s, n') => layout_decimal (Z_digits s) n'
  | None => layout_decimal (Z_digits (p / q)) n
  end.

Definition num_to_string (x : num) : string :=
  match x with
  | S754_nan => "NaN"
  | S754_zero _ => "0"
  | S754_infinity s => if s then "-Infinity" else "Infinity"
  | S754_finite s m e =>
      if s then String "-" (positive_to_string m e) else positive_to_string m e
  end.

(** [x.toFixed(d)]: the decimal with [d] digits nearest to [x], the larger one of two
    that are equally near; from 10^21 on, the text of [x]. *)
Definition fixed_digits (d : nat) (n : Z) : string :=
  let ds := Z_digits n in
  let padded := (zeros (S d - String.length ds) ++ ds)%string in
  let k := (String.length padded - d)%nat in
  match d with
  | O => ds
  | S _ => (substring 0 k padded ++ "." ++ substring k d padded)%string
  end.

Definition to_fixed (d : nat) (x : num) : string :=
  match x with
  | S754_zero _ => fixed_digits d 0
  | S754_finite s m e =>
      let p := Z.pos m * 10 ^ Z.of_nat d in
      let n := if 0 <=? e then p * 2 ^ e else (2 * p + 2 ^ (- e)) / (2 * 2 ^ (- e)) in
      if num_geb (num_abs x) (num_of_Z (10 ^ 21)) then num_to_string x
      else if s then String "-" (fixed_digits d n) else fixed_digits d n
  | _ => num_to_string x
  end.

(** [parseFloat(s)] of a string trimmed at its start: the longest prefix that is a
    decimal literal, NaN without one. *)
Definition parse_float_trimmed (s : string) : num :=
  let unsigned neg t :=
    if String.prefix "Infinity" t then S754_infinity neg
    else match scan_decimal t with
         | Some (m, ex, _) => decimal_to_num neg m ex
         | None => num_nan
         end in
  match s with
  | String "-" t => unsigned true t
  | String "+" t => unsigned false t
  | _ => unsigned false s
  end.

(** ** Clamping *)

Lemma num_ltb_leb (x y : num) : num_ltb x y = true -> num_leb x y = true.
Proof. unfold num_ltb, num_leb, SFltb, SFleb. by destruct (SFcompare x y) as [[]|]. Qed.

(** [Math.min(200, Math.max(1, x))] of a finite number. *)
Lemma clamp_bounds (x : num) :
  num_is_finite x = true ->
  let r := num_min (num_of_Z 200) (num_max (num_of_Z 1) x) in
  num_leb (num_of_Z 1) r = true /\ num_leb r (num_of_Z 200) = true /\ num_is_finite r = true.
Proof.
  intros Hx. assert (Hn : num_is_nan x = false) by (by destruct x).
  assert (Hm : num_max (num_of_Z 1) x = if num_ltb (num_of_Z 1) x then x else num_of_Z 1)
    by (by destruct x).
  assert (Hlo : forall y, num_is_nan y = false ->
            num_min (num_of_Z 200) y = if num_ltb y (num_of_Z 200) then y else num_of_Z 200)
    by (by intros []).
  cbv zeta. rewrite Hm. destruct (num_ltb (num_of_Z 1) x) eqn:E1; [|by vm_compute].
  rewrite (Hlo x Hn). destruct (num_ltb x (num_of_Z 200)) eqn:E2; [|by vm_compute].
  auto using num_ltb_leb.
Qed.

Lemma floor_bounds (x : num) :
  num_is_finite x = true ->
  let r := num_max (num_of_Z 0) x in num_leb (num_of_Z 0) r = true /\ num_is_finite r = true.
Proof.
  intros Hx. by destruct x as [[]|s| |[] m e].
Qed.
