(* ===== verification/JsText.v ===== *)
(** * JavaScript strings and URL text

    A JavaScript string is modelled by the bytes of its UTF-8 encoding
    ([String.string]).  On that representation percent-encoding is bytewise,
    comparison with an ASCII literal is equality, and white space beyond ASCII
    is a fixed set of byte sequences.  The file has the string methods the
    sources call, [encodeURIComponent], [URLSearchParams] and base64. *)

From S2P Require Import Prelude JsNumber.
Local Open Scope string_scope.

(** ** String methods *)

Fixpoint str_rev_app (s acc : string) : string :=
  match s with
  | EmptyString => acc
  | String c s' => str_rev_app s' (String c acc)
  end.
Definition str_rev (s : string) : string := str_rev_app s "".

Definition byte (n : nat) : ascii := ascii_of_nat n.
Definition code (c : ascii) : nat := nat_of_ascii c.

Definition starts_with (p s : string) : bool := String.prefix p s.

Fixpoint str_drop (n : nat) (s : string) : string :=
  match n, s with
  | S m, String _ s' => str_drop m s'
  | _, _ => s
  end.

(** [s.slice(n)] *)
Definition slice_from (n : nat) (s : string) : string := str_drop n s.

(** [s.includes(sub)] *)
Fixpoint str_includes (sub s : string) : bool :=
  starts_with sub s ||
  match s with
  | EmptyString => false
  | String _ s' => str_includes sub s'
  end.

(** [s.toLowerCase()] on the ASCII letters; letters beyond ASCII are left alone (what the
    sources lower are schemes, roles, states and names of models and providers). *)
Definition lower_ascii (c : ascii) : ascii :=
  let n := code c in
  if (Nat.leb 65 n && Nat.leb n 90)%bool then byte (n + 32) else c.

Fixpoint str_lower (s : string) : string :=
  match s with
  | EmptyString => ""
  | String c s' => String (lower_ascii c) (str_lower s')
  end.

(** [s.split(c)] for a one-character separator: never the empty list. *)
Fixpoint str_split (sep : ascii) (s : string) : list string :=
  match s with
  | EmptyString => [""]
  | String c s' =>
      if Ascii.eqb c sep then "" :: str_split sep s'
      else match str_split sep s' with
           | w :: ws => String c w :: ws
           | [] => [String c ""]
           end
  end.

(** [ws.join(sep)] *)
Fixpoint str_join (sep : string) (ws : list string) : string :=
  match ws with
  | [] => ""
  | [w] => w
  | w :: ws' => w ++ sep ++ str_join sep ws'
  end.

(** [s.replace(/a/g, b)] for single characters *)
Fixpoint str_replace_char (a b : ascii) (s : string) : string :=
  match s with
  | EmptyString => ""
  | String c s' => String (if Ascii.eqb c a then b else c) (str_replace_char a b s')
  end.

Fixpoint strip_leading (c : ascii) (s : string) : string :=
  match s with
  | String d s' => if Ascii.eqb c d then strip_leading c s' else s
  | EmptyString => ""
  end.

(** [s.replace(/c+$/, '')] *)
Definition strip_trailing (c : ascii) (s : string) : string :=
  str_rev (strip_leading c (str_rev s)).

(** [s.replace(/\/$/, '')] *)
Definition strip_one_slash (s : string) : string :=
  match str_rev s with
  | String "/" t => str_rev t
  | _ => s
  end.

(** ** White space and [trim] *)

(** One white-space or line-terminator character at the start of [s], if any:
    U+0009-000D, U+0020, U+00A0, U+1680, U+2000-200A, U+2028, U+2029, U+202F,
    U+205F, U+3000 and U+FEFF, in UTF-8. *)
Definition ws_here (b1 b2 b3 : nat) : nat :=
  if (Nat.leb 9 b1 && Nat.leb b1 13 || Nat.eqb b1 32)%bool then 1
  else if (Nat.eqb b1 194 && Nat.eqb b2 160)%bool then 2
  else if (Nat.eqb b1 225 && Nat.eqb b2 154 && Nat.eqb b3 128
           || Nat.eqb b1 226 && Nat.eqb b2 128 && Nat.leb 128 b3 && Nat.leb b3 138
           || Nat.eqb b1 226 && Nat.eqb b2 128 && Nat.leb 168 b3 && Nat.leb b3 169
           || Nat.eqb b1 226 && Nat.eqb b2 128 && Nat.eqb b3 175
           || Nat.eqb b1 226 && Nat.eqb b2 129 && Nat.eqb b3 159
           || Nat.eqb b1 227 && Nat.eqb b2 128 && Nat.eqb b3 128
           || Nat.eqb b1 239 && Nat.eqb b2 187 && Nat.eqb b3 191)%bool then 3
  else 0.

Definition nth_byte (n : nat) (s : string) : nat :=
  match String.get n s with Some c => code c | None => 0 end.

Fixpoint trim_start_fuel (fuel : nat) (s : string) : string :=
  match fuel with
  | O => s
  | S f => match ws_here (nth_byte 0 s) (nth_byte 1 s) (nth_byte 2 s) with
           | O => s
           | n => trim_start_fuel f (str_drop n s)
           end
  end.

(** At the end of a text, the bytes of a character come last byte first. *)
Definition ws_back (c1 c2 c3 : nat) : nat :=
  if Nat.eqb (ws_here c1 0 0) 1 then 1
  else if Nat.eqb (ws_here c2 c1 0) 2 then 2
  else if Nat.eqb (ws_here c3 c2 c1) 3 then 3 else 0.

Fixpoint trim_rev_fuel (fuel : nat) (r : string) : string :=
  match fuel with
  | O => r
  | S f => match ws_back (nth_byte 0 r) (nth_byte 1 r) (nth_byte 2 r) with
           | O => r
           | n => trim_rev_fuel f (str_drop n r)
           end
  end.

(** Each round of the two loops drops a byte at least, so the length is fuel
    enough. *)
Definition str_trim_start (s : string) : string := trim_start_fuel (String.length s) s.
Definition str_trim_end (s : string) : string :=
  str_rev (trim_rev_fuel (String.length s) (str_rev s)).
Definition str_trim (s : string) : string := str_trim_end (str_trim_start s).

(** [Number(s)] and [parseInt(s, 10)] *)
Definition number_of_string (s : string) : num := number_of_trimmed (str_trim s).
Definition parse_int (s : string) : num := parse_int_trimmed (str_trim_start s).
Definition parse_float (s : string) : num := parse_float_trimmed (str_trim_start s).

(** ** UTF-8 *)

(** The continuation bytes still due after a byte, with the bounds of the first
    of them (which exclude overlong forms, surrogates and values past U+10FFFF). *)
Definition utf8_lead (b : nat) : option (nat * nat * nat) :=
  if Nat.leb b 127 then Some (0, 0, 0)%nat
  else if (Nat.leb 194 b && Nat.leb b 223)%bool then Some (1, 128, 191)%nat
  else if Nat.eqb b 224 then Some (2, 160, 191)%nat
  else if Nat.eqb b 237 then Some (2, 128, 159)%nat
  else if (Nat.leb 225 b && Nat.leb b 239)%bool then Some (2, 128, 191)%nat
  else if Nat.eqb b 240 then Some (3, 144, 191)%nat
  else if Nat.eqb b 244 then Some (3, 128, 143)%nat
  else if (Nat.leb 241 b && Nat.leb b 243)%bool then Some (3, 128, 191)%nat
  else None.

Fixpoint utf8_ok (due lo hi : nat) (s : string) : bool :=
  match s with
  | EmptyString => Nat.eqb due 0
  | String c s' =>
      match due with
      | O => match utf8_lead (code c) with
             | Some (d, l, h) => utf8_ok d l h s'
             | None => false
             end
      | S d => Nat.leb lo (code c) && Nat.leb (code c) hi && utf8_ok d 128 191 s'
      end
  end.
Definition utf8_valid (s : string) : bool := utf8_ok 0 0 0 s.

(** [buffer.toString('utf8')]: an ill-formed sequence becomes U+FFFD.  [part] is
    the sequence being read, which is dropped when it breaks off. *)
Definition replacement : string := String (byte 239) (String (byte 191) (String (byte 189) "")).

Definition lossy_lead (k : nat -> nat -> nat -> string -> string) (c : ascii) : string :=
  match utf8_lead (code c) with
  | Some (O, _, _) => String c (k 0 0 0 "")
  | Some (d, l, h) => k d l h (String c "")
  | None => replacement ++ k 0 0 0 ""
  end.

Fixpoint utf8_lossy (due lo hi : nat) (part s : string) : string :=
  match s with
  | EmptyString => if Nat.eqb due 0 then "" else replacement
  | String c s' =>
      let next d l h p := utf8_lossy d l h p s' in
      match due with
      | O => lossy_lead next c
      | S d =>
          if (Nat.leb lo (code c) && Nat.leb (code c) hi)%bool then
            match d with
            | O => part ++ String c (next 0 0 0 "")
            | S _ => next d 128 191 (part ++ String c "")
            end
          else replacement ++ lossy_lead next c
      end
  end.
Definition utf8_decode (bytes : string) : string := utf8_lossy 0 0 0 "" bytes.

(** The characters of a text, each as the bytes of its encoding. *)
Definition continuation (c : ascii) : bool := (Nat.leb 128 (code c) && Nat.leb (code c) 191)%bool.
Fixpoint utf8_chars (s : string) : list string :=
  match s with
  | EmptyString => []
  | String c s' =>
      match utf8_chars s' with
      | String d h :: t => if continuation d then String c (String d h) :: t
                           else String c "" :: String d h :: t
      | r => String c "" :: r
      end
  end.

(** The units a string counts: one per character, two per character outside of the basic
    plane.  A cut through such a character leaves half of it, which reads as the
    replacement character. *)
Definition char_units (c : string) : nat := if Nat.eqb (String.length c) 4 then 2 else 1.
Definition str_units (s : string) : nat := list_sum (map char_units (utf8_chars s)).

Fixpoint take_units (n : nat) (cs : list string) : string :=
  match n, cs with
  | S n', c :: cs' =>
      if Nat.eqb (char_units c) 1 then c ++ take_units n' cs'
      else match n' with
           | O => replacement
           | S n'' => c ++ take_units n'' cs'
           end
  | _, _ => ""
  end.

Fixpoint drop_units (n : nat) (cs : list string) : string :=
  match n, cs with
  | S n', c :: cs' =>
      if Nat.eqb (char_units c) 1 then drop_units n' cs'
      else match n' with
           | O => replacement ++ String.concat "" cs'
           | S n'' => drop_units n'' cs'
           end
  | _, _ => String.concat "" cs
  end.

(** [s.slice(0, n)] and [s.slice(-n)] *)
Definition str_first (n : nat) (s : string) : string := take_units n (utf8_chars s).
Definition str_last (n : nat) (s : string) : string := drop_units (str_units s - n) (utf8_chars s).

(** The UTF-8 encoding of a code point. *)
Definition utf8_encode (n : N) : string :=
  let cont k := ascii_of_N (128 + (n / k) mod 64) in
  if (n <? 128)%N then String (ascii_of_N n) ""
  else if (n <? 2048)%N then String (ascii_of_N (192 + n / 64)) (String (cont 1%N) "")
  else if (n <? 65536)%N then
    String (ascii_of_N (224 + n / 4096)) (String (cont 64%N) (String (cont 1%N) ""))
  else
    String (ascii_of_N (240 + n / 262144))
      (String (cont 4096%N) (String (cont 64%N) (String (cont 1%N) ""))).

(** A binary string (one character per byte, as [atob] returns) as UTF-8. *)
Fixpoint latin1_to_utf8 (s : string) : string :=
  match s with
  | EmptyString => ""
  | String c s' => utf8_encode (N_of_ascii c) ++ latin1_to_utf8 s'
  end.

(** ** Percent-encoding *)

Definition hex_char (n : nat) : ascii :=
  if Nat.ltb n 10 then byte (48 + n) else byte (55 + n).

Definition hex_value (c : ascii) : option nat :=
  let n := code c in
  if (Nat.leb 48 n && Nat.leb n 57)%bool then Some (n - 48)%nat
  else if (Nat.leb 65 n && Nat.leb n 70)%bool then Some (n - 55)%nat
  else if (Nat.leb 97 n && Nat.leb n 102)%bool then Some (n - 87)%nat
  else None.

Definition is_alnum (c : ascii) : bool :=
  let n := code c in
  (Nat.leb 48 n && Nat.leb n 57) || (Nat.leb 65 n && Nat.leb n 90)
  || (Nat.leb 97 n && Nat.leb n 122).

Definition percent (c : ascii) (rest : string) : string :=
  String "%" (String (hex_char (Nat.div (code c) 16))
                     (String (hex_char (Nat.modulo (code c) 16)) rest)).

(** The characters [encodeURIComponent] leaves alone. *)
Definition uri_unreserved (c : ascii) : bool :=
  is_alnum c || str_includes (String c "") "-_.!~*'()".

Fixpoint encodeURIComponent (s : string) : string :=
  match s with
  | EmptyString => ""
  | String c s' =>
      if uri_unreserved c then String c (encodeURIComponent s')
      else percent c (encodeURIComponent s')
  end.

(** Undoes the escapes; [None] (the URIError) on a malformed one. *)
Fixpoint percent_decode (s : string) : option string :=
  match s with
  | EmptyString => Some ""
  | String "%" (String h (String l s')) =>
      match hex_value h, hex_value l, percent_decode s' with
      | Some a, Some b, Some t => Some (String (byte (16 * a + b)) t)
      | _, _, _ => None
      end
  | String "%" _ => None
  | String c s' => match percent_decode s' with
                   | Some t => Some (String c t)
                   | None => None
                   end
  end.

Definition decodeURIComponent (s : string) : option string :=
  match percent_decode s with
  | Some t => if utf8_valid t then Some t else None
  | None => None
  end.

(** ** [URLSearchParams] *)

(** The application/x-www-form-urlencoded serializer. *)
Definition form_unreserved (c : ascii) : bool :=
  is_alnum c || str_includes (String c "") "*-._".

Fixpoint form_encode_text (s : string) : string :=
  match s with
  | EmptyString => ""
  | String c s' =>
      if Ascii.eqb c " " then String "+" (form_encode_text s')
      else if form_unreserved c then String c (form_encode_text s')
      else percent c (form_encode_text s')
  end.

Definition form_pair (kv : string * string) : string :=
  form_encode_text kv.1 ++ "=" ++ form_encode_text kv.2.

(** [params.toString()] *)
Definition params_to_string (ps : list (string * string)) : string :=
  str_join "&" (map form_pair ps).

(** The parser's decoding: [+] is a space, a malformed escape stays as it is. *)
Fixpoint form_decode_text (s : string) : string :=
  match s with
  | EmptyString => ""
  | String "%" ((String h (String l s')) as rest) =>
      match hex_value h, hex_value l with
      | Some a, Some b => String (byte (16 * a + b)) (form_decode_text s')
      | _, _ => String "%" (form_decode_text rest)
      end
  | String c s' => String (if Ascii.eqb c "+" then " "%char else c) (form_decode_text s')
  end.

(** The text before and after the first [sep], if there is one. *)
Fixpoint split_once (sep : ascii) (s : string) : string * option string :=
  match s with
  | EmptyString => ("", None)
  | String c s' =>
      if Ascii.eqb c sep then ("", Some s')
      else let '(a, b) := split_once sep s' in (String c a, b)
  end.

Definition parse_form_pair (w : string) : string * string :=
  let '(k, v) := split_once "=" w in
  (form_decode_text k, match v with Some t => form_decode_text t | None => "" end).

(** [new URLSearchParams(query)] for a query without its question mark. *)
Definition parse_params (q : string) : list (string * string) :=
  map parse_form_pair (List.filter (fun w => negb (String.eqb w "")) (str_split "&" q)).

(** [params.get(k)]: the first value of the name. *)
Fixpoint params_get (k : string) (ps : list (string * string)) : option string :=
  match ps with
  | [] => None
  | (k', v) :: ps' => if String.eqb k k' then Some v else params_get k ps'
  end.

(** [params.set(k, v)]: the first entry of the name is replaced and later ones
    dropped, or the pair is appended. *)
Fixpoint params_set (k v : string) (ps : list (string * string)) : list (string * string) :=
  match ps with
  | [] => [(k, v)]
  | (k', v') :: ps' =>
      if String.eqb k k'
      then (k, v) :: List.filter (fun kv => negb (String.eqb k kv.1)) ps'
      else (k', v') :: params_set k v ps'
  end.

(** [params.append(k, v)] *)
Definition params_append (k v : string) (ps : list (string * string)) :=
  (ps ++ [(k, v)])%list.

(** ** Dates *)

(** [z] in decimal, with leading zeros up to [n] digits *)
Definition pad (n : nat) (z : Z) : string :=
  zeros (n - String.length (Z_digits z)) ++ Z_digits z.

(** Year, month and day of a count of days since 1970-01-01, in the proleptic
    Gregorian calendar (years start in March while counting). *)
Definition civil_from_days (days : Z) : Z * Z * Z :=
  (let z := days + 719468 in
   let era := z / 146097 in
   let doe := z - era * 146097 in
   let yoe := (doe - doe / 1460 + doe / 36524 - doe / 146096) / 365 in
   let doy := doe - (365 * yoe + yoe / 4 - yoe / 100) in
   let mp := (5 * doy + 2) / 153 in
   let d := doy - (153 * mp + 2) / 5 + 1 in
   let m := if mp <? 10 then mp + 3 else mp - 9 in
   (yoe + era * 400 + (if m <=? 2 then 1 else 0), m, d))%Z.

(** A year of an ISO text: four digits, or a sign and six beyond them. *)
Definition iso_year (y : Z) : string :=
  if (0 <=? y)%Z && (y <=? 9999)%Z then pad 4 y
  else if (y <? 0)%Z then "-" ++ pad 6 (- y)%Z else "+" ++ pad 6 y.

(** [new Date(ms).toISOString()] *)
Definition iso_string (ms : Z) : string :=
  let days := (ms / 86400000)%Z in
  let t := (ms mod 86400000)%Z in
  let '(y, m, d) := civil_from_days days in
  iso_year y ++ "-" ++ pad 2 m ++ "-" ++ pad 2 d ++ "T"
    ++ pad 2 (t / 3600000)%Z ++ ":" ++ pad 2 (t / 60000 mod 60)%Z ++ ":"
    ++ pad 2 (t / 1000 mod 60)%Z ++ "." ++ pad 3 (t mod 1000)%Z ++ "Z".

(** ** Round trips *)

Lemma byte_code (c : ascii) : byte (code c) = c.
Proof. apply ascii_nat_embedding. Qed.

Lemma hex_roundtrip (c : ascii) :
  hex_value (hex_char (Nat.div (code c) 16)) = Some (Nat.div (code c) 16) /\
  hex_value (hex_char (Nat.modulo (code c) 16)) = Some (Nat.modulo (code c) 16).
Proof. destruct c as [[] [] [] [] [] [] [] []]; vm_compute; auto. Qed.

Lemma code_split (c : ascii) :
  byte (16 * Nat.div (code c) 16 + Nat.modulo (code c) 16) = c.
Proof. rewrite <- Nat.div_mod_eq. apply byte_code. Qed.

Lemma percent_decode_percent (c : ascii) (s : string) :
  percent_decode (percent c s) =
  match percent_decode s with Some t => Some (String c t) | None => None end.
Proof.
  unfold percent. cbn [percent_decode].
  destruct (hex_roundtrip c) as [-> ->]. by rewrite code_split.
Qed.

Lemma percent_decode_plain (c : ascii) (s : string) :
  c <> "%"%char ->
  percent_decode (String c s) =
  match percent_decode s with Some t => Some (String c t) | None => None end.
Proof. by destruct c as [[] [] [] [] [] [] [] []]. Qed.

Lemma form_decode_percent (c : ascii) (s : string) :
  form_decode_text (percent c s) = String c (form_decode_text s).
Proof.
  unfold percent. cbn [form_decode_text].
  destruct (hex_roundtrip c) as [-> ->]. by rewrite code_split.
Qed.

Lemma form_decode_plain (c : ascii) (s : string) :
  c <> "%"%char ->
  form_decode_text (String c s) =
  String (if Ascii.eqb c "+" then " "%char else c) (form_decode_text s).
Proof. by destruct c as [[] [] [] [] [] [] [] []]. Qed.

Lemma uri_unreserved_not_percent (c : ascii) : uri_unreserved c = true -> c <> "%"%char.
Proof. by intros ? ->. Qed.

Lemma percent_decode_encode (s : string) : percent_decode (encodeURIComponent s) = Some s.
Proof.
  induction s as [|c s IH]; cbn [encodeURIComponent]; [done|].
  destruct (uri_unreserved c) eqn:E.
  - by rewrite (percent_decode_plain _ _ (uri_unreserved_not_percent _ E)), IH.
  - by rewrite percent_decode_percent, IH.
Qed.

Lemma decode_encode (s : string) :
  utf8_valid s = true -> decodeURIComponent (encodeURIComponent s) = Some s.
Proof. intros H. unfold decodeURIComponent. by rewrite percent_decode_encode, H. Qed.

(** What encodeURIComponent writes, a query string reads. *)
Lemma form_decode_uri (s : string) : form_decode_text (encodeURIComponent s) = s.
Proof.
  induction s as [|c s IH]; cbn [encodeURIComponent]; [done|].
  destruct (uri_unreserved c) eqn:E; [|by rewrite form_decode_percent, IH].
  rewrite form_decode_plain, IH by by apply uri_unreserved_not_percent.
  by destruct (Ascii.eqb_spec c "+") as [->|].
Qed.

Lemma form_decode_encode (s : string) : form_decode_text (form_encode_text s) = s.
Proof.
  induction s as [|c s IH]; cbn [form_encode_text]; [done|].
  destruct (Ascii.eqb_spec c " ") as [->|Hsp].
  - by rewrite form_decode_plain, IH.
  - destruct (form_unreserved c) eqn:E; [|by rewrite form_decode_percent, IH].
    rewrite form_decode_plain, IH by (by intros ->).
    destruct (Ascii.eqb_spec c "+") as [->|]; [discriminate E | done].
Qed.

(** Every character satisfies [p]. *)
Fixpoint str_all (p : ascii -> bool) (s : string) : bool :=
  match s with
  | EmptyString => true
  | String c s' => p c && str_all p s'
  end.

Lemma str_all_app (p : ascii -> bool) (a b : string) :
  str_all p (a ++ b) = str_all p a && str_all p b.
Proof. induction a as [|c a IH]; cbn; [done|]. by rewrite IH, andb_assoc. Qed.

Lemma str_all_mono (p q : ascii -> bool) (s : string) :
  (forall c, p c = true -> q c = true) -> str_all p s = true -> str_all q s = true.
Proof.
  intros H. induction s as [|c s IH]; cbn; [done|].
  intros [Hc Hs]%andb_true_iff. by rewrite (H c Hc), (IH Hs).
Qed.

Lemma str_app_assoc (a b c : string) : (a ++ b) ++ c = a ++ (b ++ c).
Proof. induction a as [|x a IH]; cbn; [done|]. by rewrite IH. Qed.

Lemma str_app_nil (a : string) : a ++ "" = a.
Proof. induction a as [|x a IH]; cbn; [done|]. by rewrite IH. Qed.

Lemma str_rev_app_spec (s acc : string) : str_rev_app s acc = str_rev s ++ acc.
Proof.
  unfold str_rev. revert acc. induction s as [|c s IH]; intros acc; cbn; [done|].
  rewrite IH, (IH (String c "")), str_app_assoc. done.
Qed.

Lemma str_rev_cons (c : ascii) (s : string) : str_rev (String c s) = str_rev s ++ String c "".
Proof. unfold str_rev. cbn. apply str_rev_app_spec. Qed.

Lemma str_rev_append (a b : string) : str_rev (a ++ b) = str_rev b ++ str_rev a.
Proof.
  induction a as [|c a IH]; cbn [String.append]; [by rewrite str_app_nil|].
  by rewrite !str_rev_cons, IH, str_app_assoc.
Qed.

Lemma str_rev_rev (s : string) : str_rev (str_rev s) = s.
Proof. induction s as [|c s IH]; [done|]. by rewrite str_rev_cons, str_rev_append, IH. Qed.

Lemma str_all_rev (p : ascii -> bool) (s : string) : str_all p (str_rev s) = str_all p s.
Proof.
  induction s as [|c s IH]; [done|].
  rewrite str_rev_cons, str_all_app, IH. cbn. by rewrite andb_true_r, andb_comm.
Qed.

(** *** Trimming twice *)

Section Trim.
Context (white : nat -> nat -> nat -> nat) (white_empty : white 0 0 0 = 0).

Definition white_at (s : string) : nat := white (nth_byte 0 s) (nth_byte 1 s) (nth_byte 2 s).

(** The loop of both directions *)
Fixpoint trim_loop (fuel : nat) (s : string) : string :=
  match fuel with
  | O => s
  | S f => match white_at s with O => s | n => trim_loop f (str_drop n s) end
  end.

Lemma trim_loop_fixed (fuel : nat) (s : string) : white_at s = 0 -> trim_loop fuel s = s.
Proof. intros H. destruct fuel; cbn; [done|]. by rewrite H. Qed.

Lemma str_drop_suffix (n : nat) (s : string) :
  exists p, s = p ++ str_drop n s /\ (0 < n -> s <> "" -> String.length (str_drop n s) < String.length s).
Proof.
  revert s. induction n as [|n IH]; intros s; [exists ""; split; [by destruct s|lia]|].
  destruct s as [|c s]; [by exists ""|]. destruct (IH s) as (p & Hp & Hl).
  exists (String c p). cbn. split; [by rewrite <- Hp|]. intros _ _.
  destruct n; [destruct s; cbn; lia|]. destruct s as [|d s]; [cbn; lia|]. specialize (Hl ltac:(lia) ltac:(done)). lia.
Qed.

Lemma trim_loop_stops (fuel : nat) (s : string) :
  String.length s <= fuel -> white_at (trim_loop fuel s) = 0 /\ exists p, s = p ++ trim_loop fuel s.
Proof.
  revert s. induction fuel as [|f IH]; intros s Hs.
  - destruct s; cbn in Hs; [|lia]. split; [exact white_empty|by exists ""].
  - cbn. destruct (white_at s) as [|n] eqn:E; [split; [done|by exists ""]|].
    assert (s <> "") by (intros ->; unfold white_at in E; cbn in E; congruence).
    destruct (str_drop_suffix (S n) s) as (p & Hp & Hl). specialize (Hl ltac:(lia) ltac:(done)).
    destruct (IH (str_drop (S n) s) ltac:(lia)) as [H1 [p' H2]]. split; [exact H1|].
    exists (p ++ p'). rewrite str_app_assoc. change (s = p ++ p' ++ trim_loop f (str_drop (S n) s)).
    by rewrite <- H2.
Qed.
End Trim.

Lemma trim_start_loop (fuel : nat) (s : string) : trim_start_fuel fuel s = trim_loop ws_here fuel s.
Proof. revert s. induction fuel; intros s; cbn; [done|]. unfold white_at. by destruct (ws_here _ _ _). Qed.
Lemma trim_rev_loop (fuel : nat) (s : string) : trim_rev_fuel fuel s = trim_loop ws_back fuel s.
Proof. revert s. induction fuel; intros s; cbn; [done|]. unfold white_at. by destruct (ws_back _ _ _). Qed.

(** A character is seen in the bytes it has: more of them hide none. *)
Lemma ws_here_more (a b c a' b' c' : nat) :
  (a = 0 \/ a' = a) -> (b = 0 \/ b' = b) -> (c = 0 \/ c' = c) ->
  ws_here a' b' c' = 0 -> ws_here a b c = 0.
Proof.
  intros [->| ->]; [done|]. intros [->| ->] Hc.
  - unfold ws_here. destruct (Nat.leb 9 a && Nat.leb a 13 || Nat.eqb a 32)%bool; [done|].
    by rewrite !andb_false_r.
  - destruct Hc as [->| ->]; [|done]. unfold ws_here.
    destruct (Nat.leb 9 a && Nat.leb a 13 || Nat.eqb a 32)%bool; [done|].
    destruct (Nat.eqb a 194 && Nat.eqb b 160)%bool; [done|]. by rewrite !andb_false_r.
Qed.

Lemma nth_byte_prefix (n : nat) (s t : string) : nth_byte n s = 0 \/ nth_byte n (s ++ t) = nth_byte n s.
Proof.
  revert n. induction s as [|c s IH]; intros n; [by left; destruct n|].
  destruct n as [|n]; [by right|]. apply IH.
Qed.

Lemma str_rev_length (s : string) : String.length (str_rev s) = String.length s.
Proof.
  induction s as [|c s IH]; [done|]. rewrite str_rev_cons. cbn. rewrite <- IH.
  generalize (str_rev s) as r. induction r as [|d r IHr]; cbn; [done|]. by rewrite IHr.
Qed.

Lemma str_trim_twice (s : string) : str_trim (str_trim s) = str_trim s.
Proof.
  unfold str_trim at 2 3. set (a := str_trim_start s).
  assert (Ha : white_at ws_here a = 0).
  { subst a. unfold str_trim_start. rewrite trim_start_loop. by apply trim_loop_stops. }
  unfold str_trim_end at 1 2. rewrite trim_rev_loop. rewrite <- (str_rev_length a).
  destruct (trim_loop_stops ws_back eq_refl (String.length (str_rev a)) (str_rev a) (le_n _)) as [Hr [p Hp]].
  set (r := trim_loop _ _ _) in *.
  assert (Hs : white_at ws_here (str_rev r) = 0).
  { unfold white_at in *. assert (Ea : a = str_rev r ++ str_rev p) by (by rewrite <- str_rev_append, <- Hp, str_rev_rev).
    rewrite Ea in Ha. eapply ws_here_more; [..|exact Ha]; apply nth_byte_prefix. }
  unfold str_trim, str_trim_start. rewrite trim_start_loop, trim_loop_fixed by done.
  unfold str_trim_end. rewrite trim_rev_loop, str_rev_rev. by rewrite trim_loop_fixed.
Qed.

(** A text without a given character, in the way the splitters see it. *)
Fixpoint lacks (sep : ascii) (s : string) : bool :=
  match s with
  | EmptyString => true
  | String c s' => negb (Ascii.eqb c sep) && lacks sep s'
  end.

Lemma lacks_all (sep : ascii) (s : string) :
  lacks sep s = str_all (fun c => negb (Ascii.eqb c sep)) s.
Proof. induction s as [|c s IH]; cbn; [done|]. by rewrite IH. Qed.

Lemma lacks_app (sep : ascii) (a b : string) :
  lacks sep (a ++ b) = lacks sep a && lacks sep b.
Proof. induction a as [|c a IH]; cbn; [done|]. by rewrite IH, andb_assoc. Qed.

Lemma percent_lacks (sep c : ascii) (s : string) :
  sep = "&"%char \/ sep = "="%char -> lacks sep (percent c s) = lacks sep s.
Proof. intros [-> | ->]; destruct c as [[] [] [] [] [] [] [] []]; reflexivity. Qed.

Lemma form_encode_lacks (sep : ascii) (s : string) :
  sep = "&"%char \/ sep = "="%char -> lacks sep (form_encode_text s) = true.
Proof.
  intros Hsep. induction s as [|c s IH]; cbn [form_encode_text]; [done|].
  destruct (Ascii.eqb_spec c " ") as [->|Hsp].
  - destruct Hsep as [-> | ->]; exact IH.
  - destruct (form_unreserved c) eqn:E; [|by rewrite percent_lacks].
    cbn [lacks]. rewrite IH, andb_true_r.
    destruct (Ascii.eqb_spec c sep) as [->|]; [|done].
    by destruct Hsep as [-> | ->].
Qed.

Lemma split_once_app (sep : ascii) (a b : string) :
  lacks sep a = true -> split_once sep (a ++ String sep b) = (a, Some b).
Proof.
  induction a as [|c a IH]; cbn; [by rewrite Ascii.eqb_refl|].
  destruct (Ascii.eqb c sep); [done|]. cbn. intros H. by rewrite (IH H).
Qed.

Lemma str_split_lacks (sep : ascii) (a : string) :
  lacks sep a = true -> str_split sep a = [a].
Proof.
  induction a as [|c a IH]; cbn; [done|].
  destruct (Ascii.eqb c sep); [done|]. cbn. intros H. by rewrite (IH H).
Qed.

Lemma str_split_app (sep : ascii) (a b : string) :
  lacks sep a = true -> str_split sep (a ++ String sep b) = a :: str_split sep b.
Proof.
  induction a as [|c a IH]; cbn; [by rewrite Ascii.eqb_refl|].
  destruct (Ascii.eqb c sep); [done|]. cbn. intros H. by rewrite (IH H).
Qed.

Lemma form_pair_lacks_amp (kv : string * string) : lacks "&" (form_pair kv) = true.
Proof.
  unfold form_pair. rewrite !lacks_app, !form_encode_lacks by auto. reflexivity.
Qed.

Lemma form_pair_nonempty (kv : string * string) : String.eqb (form_pair kv) "" = false.
Proof. unfold form_pair. by destruct (form_encode_text kv.1). Qed.

Lemma parse_form_pair_pair (kv : string * string) : parse_form_pair (form_pair kv) = kv.
Proof.
  unfold parse_form_pair, form_pair. cbn [String.append].
  rewrite split_once_app by (apply form_encode_lacks; auto).
  rewrite !form_decode_encode. by destruct kv.
Qed.

Lemma str_split_join_pairs (kv : string * string) (ps : list (string * string)) :
  str_split "&" (params_to_string (kv :: ps)) = map form_pair (kv :: ps).
Proof.
  unfold params_to_string. revert kv. induction ps as [|kv' ps IH]; intros kv.
  - apply str_split_lacks, form_pair_lacks_amp.
  - change (str_join "&" (map form_pair (kv :: kv' :: ps))) with
      (form_pair kv ++ String "&" (str_join "&" (map form_pair (kv' :: ps)))).
    rewrite str_split_app by apply form_pair_lacks_amp. by rewrite IH.
Qed.

(** Every list of pairs survives being written as a query string and parsed. *)
Lemma parse_params_to_string (ps : list (string * string)) :
  parse_params (params_to_string ps) = ps.
Proof.
  destruct ps as [|kv ps]; [done|]. unfold parse_params.
  rewrite str_split_join_pairs. generalize (kv :: ps) as l. clear.
  induction l as [|kv l IH]; cbn [map List.filter]; [done|].
  rewrite form_pair_nonempty. cbn [negb map]. by rewrite parse_form_pair_pair, IH.
Qed.

(** ** Reading an entry after a change *)

Lemma params_get_set (k k' v : string) (ps : list (string * string)) :
  params_get k (params_set k' v ps) =
  if String.eqb k k' then Some v else params_get k ps.
Proof.
  induction ps as [|[k2 v2] ps IH]; cbn; [done|].
  destruct (String.eqb_spec k' k2) as [<-|Hne]; cbn.
  - destruct (String.eqb_spec k k') as [->|Hk]; [done|].
    clear IH. induction ps as [|[k3 v3] ps IH]; cbn; [done|].
    destruct (String.eqb_spec k' k3) as [<-|]; cbn; [|by rewrite IH].
    destruct (String.eqb_spec k k'); [congruence|done].
  - rewrite IH. destruct (String.eqb_spec k k2) as [->|]; [|done].
    destruct (String.eqb_spec k2 k'); [congruence|done].
Qed.

Lemma params_get_filter (k n : string) (jar : list (string * string)) :
  params_get k (List.filter (fun kv => negb (String.eqb kv.1 n)) jar) =
  if String.eqb k n then None else params_get k jar.
Proof.
  induction jar as [|[a v] jar IH]; cbn; [by destruct (String.eqb k n)|].
  destruct (String.eqb_spec a n) as [->|Ha]; cbn; rewrite IH; [by destruct (String.eqb k n)|].
  destruct (String.eqb_spec k a) as [->|Hk]; [|done].
  by rewrite (proj2 (String.eqb_neq a n) Ha).
Qed.
