(* ===== verification/JsValue.v ===== *)
(** * JavaScript values

    The values that flow through the handlers: what JSON can carry, and
    [undefined].  An object is its list of own properties in enumeration order,
    array-index names first in numeric order, the others in the order they were
    added.  Own properties called toString or valueOf, which would change how an
    object converts to a string, are treated as any other property. *)

From S2P Require Import Prelude JsNumber JsText.
From Stdlib Require Import SpecFloat.
Local Open Scope string_scope.

Unset Elimination Schemes.
Inductive js : Type :=
| JUndef
| JNull
| JBool (b : bool)
| JNum (n : num)
| JStr (s : string)
| JArr (l : list js)
| JObj (m : list (string * js)).
Set Elimination Schemes.

(** ** Objects *)

Abbreviation obj := (list (string * js)).

Fixpoint obj_get (k : string) (m : obj) : option js :=
  match m with
  | [] => None
  | (k', v) :: m' => if String.eqb k k' then Some v else obj_get k m'
  end.

(** [hasOwnProperty], and the [in] operator on such an object *)
Definition obj_has (k : string) (m : obj) : bool :=
  match obj_get k m with Some _ => true | None => false end.

(** The array index a property name denotes: a canonical decimal below 2^32 - 1. *)
Definition index_of_key (k : string) : option Z :=
  match read_base 10 0 k with
  | Some z => if (String.eqb (Z_to_string z) k && (z <? 4294967295)%Z)%bool
              then Some z else None
  | None => None
  end.

(** Whether a new property called [k] is enumerated before one called [k']. *)
Definition key_before (k k' : string) : bool :=
  match index_of_key k, index_of_key k' with
  | Some i, Some j => (i <? j)%Z
  | Some _, None => true
  | None, _ => false
  end.

Fixpoint obj_insert (k : string) (v : js) (m : obj) : obj :=
  match m with
  | [] => [(k, v)]
  | (k', v') :: m' =>
      if key_before k k' then (k, v) :: m else (k', v') :: obj_insert k v m'
  end.

Fixpoint obj_update (k : string) (v : js) (m : obj) : obj :=
  match m with
  | [] => []
  | (k', v') :: m' =>
      if String.eqb k k' then (k', v) :: m' else (k', v') :: obj_update k v m'
  end.

(** [o[k] = v] *)
Definition obj_set (k : string) (v : js) (m : obj) : obj :=
  if obj_has k m then obj_update k v m else obj_insert k v m.

(** [delete o[k]] *)
Definition obj_del (k : string) (m : obj) : obj :=
  List.filter (fun kv => negb (String.eqb k kv.1)) m.

(** [{ ...m, ...over }] *)
Definition obj_spread (m over : obj) : obj :=
  fold_left (fun acc kv => obj_set kv.1 kv.2 acc) over m.

(** An object literal, its properties defined from left to right. *)
Definition object (kvs : list (string * js)) : js := JObj (obj_spread [] kvs).

(** ** Tests and coercions *)

Definition truthy (v : js) : bool :=
  match v with
  | JUndef | JNull => false
  | JBool b => b
  | JNum n => num_truthy n
  | JStr s => negb (String.eqb s "")
  | JArr _ | JObj _ => true
  end.

Definition nullish (v : js) : bool :=
  match v with JUndef | JNull => true | _ => false end.
Definition is_undefined (v : js) : bool :=
  match v with JUndef => true | _ => false end.
Definition is_string (v : js) : bool := match v with JStr _ => true | _ => false end.
Definition is_number (v : js) : bool := match v with JNum _ => true | _ => false end.
Definition is_array (v : js) : bool := match v with JArr _ => true | _ => false end.
(** [v && typeof v === 'object'] *)
Definition is_object (v : js) : bool :=
  match v with JArr _ | JObj _ => true | _ => false end.
(** [v === s] for a string [s] *)
Definition is_str (v : js) (s : string) : bool :=
  match v with JStr t => String.eqb t s | _ => false end.

(** [a || b] and [a ?? b], both operands being evaluated values *)
Definition js_or (a b : js) : js := if truthy a then a else b.
Definition js_coalesce (a b : js) : js := if nullish a then b else a.

(** [v?.k]: undefined on null and undefined; JSON primitives have no own
    property the sources read but their length. *)
Definition opt_get (v : js) (k : string) : js :=
  match v with
  | JObj m => match obj_get k m with Some x => x | None => JUndef end
  | JArr l => if String.eqb k "length" then JNum (num_of_Z (Z.of_nat (List.length l))) else JUndef
  | _ => JUndef
  end.

(** [String(v)] *)
Fixpoint js_to_string (v : js) : string :=
  match v with
  | JUndef => "undefined"
  | JNull => "null"
  | JBool b => if b then "true" else "false"
  | JNum n => num_to_string n
  | JStr s => s
  | JArr l =>
      (fix go (first : bool) (l : list js) : string :=
         match l with
         | [] => ""
         | x :: l' =>
             (if first then "" else ",")
               ++ (match x with JUndef | JNull => "" | _ => js_to_string x end)
               ++ go false l'
         end) true l
  | JObj _ => "[object Object]"
  end.

(** [Number(v)] *)
Definition js_to_number (v : js) : num :=
  match v with
  | JUndef => num_nan
  | JNull => num_zero
  | JBool b => num_of_Z (if b then 1 else 0)
  | JNum n => n
  | JStr s => number_of_string s
  | JArr _ => number_of_string (js_to_string v)
  | JObj _ => num_nan
  end.

(** Whether [+] and the comparisons see the value as a text. *)
Definition prim_string (v : js) : bool :=
  match v with JStr _ | JArr _ | JObj _ => true | _ => false end.

(** [a + b], [a - b], [a * b] and [a / b] *)
Definition js_add (a b : js) : js :=
  if (prim_string a || prim_string b)%bool then JStr (js_to_string a ++ js_to_string b)
  else JNum (num_add (js_to_number a) (js_to_number b)).
Definition js_sub (a b : js) : js := JNum (num_sub (js_to_number a) (js_to_number b)).
Definition js_mul (a b : js) : js := JNum (num_mul (js_to_number a) (js_to_number b)).
Definition js_div (a b : js) : js := JNum (num_div (js_to_number a) (js_to_number b)).

(** [a > b] and [a >= b]: two texts are compared as texts. *)
Definition js_gt (a b : js) : bool :=
  if (prim_string a && prim_string b)%bool
  then match String.compare (js_to_string a) (js_to_string b) with Gt => true | _ => false end
  else num_gtb (js_to_number a) (js_to_number b).
Definition js_ge (a b : js) : bool :=
  if (prim_string a && prim_string b)%bool
  then match String.compare (js_to_string a) (js_to_string b) with Lt => false | _ => true end
  else num_geb (js_to_number a) (js_to_number b).

Definition js_of_option (o : option string) : js :=
  match o with Some s => JStr s | None => JNull end.
Definition js_of_Z (z : Z) : js := JNum (num_of_Z z).
Definition js_array (v : js) : list js := match v with JArr l => l | _ => [] end.


(** ** Induction over nested values *)

Section js_ind_nested.
Variable P : js -> Prop.
Hypothesis HU : P JUndef.
Hypothesis HN : P JNull.
Hypothesis HB : forall b, P (JBool b).
Hypothesis HD : forall n, P (JNum n).
Hypothesis HS : forall s, P (JStr s).
Hypothesis HA : forall l, Forall P l -> P (JArr l).
Hypothesis HO : forall m, Forall (fun kv => P kv.2) m -> P (JObj m).

Fixpoint js_nested_ind (v : js) : P v :=
  match v with
  | JUndef => HU
  | JNull => HN
  | JBool b => HB b
  | JNum n => HD n
  | JStr s => HS s
  | JArr l => HA l ((fix go l : Forall P l :=
                       match l with
                       | [] => List.Forall_nil _
                       | x :: l' => List.Forall_cons _ x l' (js_nested_ind x) (go l')
                       end) l)
  | JObj m => HO m ((fix go m : Forall (fun kv => P kv.2) m :=
                       match m with
                       | [] => List.Forall_nil _
                       | x :: m' => List.Forall_cons _ x m' (js_nested_ind x.2) (go m')
                       end) m)
  end.
End js_ind_nested.

(** ** Laws of objects *)

Create HintDb js.
Create Rewrite HintDb js.

Lemma obj_get_insert_eq (k : string) (v : js) (m : obj) :
  obj_has k m = false -> obj_get k (obj_insert k v m) = Some v.
Proof.
  unfold obj_has. induction m as [|[k' v'] m IH]; cbn.
  - by rewrite String.eqb_refl.
  - destruct (String.eqb_spec k k') as [->|Hne]; [done|]. intros H.
    destruct (key_before k k'); cbn.
    + by rewrite String.eqb_refl.
    + destruct (String.eqb_spec k k'); [done|]. auto.
Qed.

Lemma obj_get_insert_ne (k k' : string) (v : js) (m : obj) :
  k <> k' -> obj_get k' (obj_insert k v m) = obj_get k' m.
Proof.
  intros Hne. induction m as [|[k2 v2] m IH]; cbn.
  - destruct (String.eqb_spec k' k); [congruence|done].
  - destruct (key_before k k2); cbn.
    + destruct (String.eqb_spec k' k); [congruence|done].
    + by rewrite IH.
Qed.

Lemma obj_get_update_eq (k : string) (v : js) (m : obj) :
  obj_has k m = true -> obj_get k (obj_update k v m) = Some v.
Proof.
  unfold obj_has. induction m as [|[k' v'] m IH]; cbn; [done|].
  destruct (String.eqb_spec k k') as [->|Hne]; cbn.
  - by rewrite String.eqb_refl.
  - destruct (String.eqb_spec k k'); [congruence|]. auto.
Qed.

Lemma obj_get_update_ne (k k' : string) (v : js) (m : obj) :
  k <> k' -> obj_get k' (obj_update k v m) = obj_get k' m.
Proof.
  intros Hne. induction m as [|[k2 v2] m IH]; cbn; [done|].
  destruct (String.eqb_spec k k2) as [->|]; cbn.
  - destruct (String.eqb_spec k' k2); [congruence|done].
  - by rewrite IH.
Qed.

Lemma obj_get_set_eq (k : string) (v : js) (m : obj) :
  obj_get k (obj_set k v m) = Some v.
Proof.
  unfold obj_set. destruct (obj_has k m) eqn:E.
  - by apply obj_get_update_eq.
  - by apply obj_get_insert_eq.
Qed.

Lemma obj_get_set_ne (k k' : string) (v : js) (m : obj) :
  k <> k' -> obj_get k' (obj_set k v m) = obj_get k' m.
Proof.
  intros Hne. unfold obj_set. destruct (obj_has k m).
  - by apply obj_get_update_ne.
  - by apply obj_get_insert_ne.
Qed.

Lemma obj_set_same (k : string) (v : js) (m : obj) : obj_get k m = Some v -> obj_set k v m = m.
Proof.
  intros H. unfold obj_set.
  assert (obj_has k m = true) as -> by (unfold obj_has; by rewrite H).
  induction m as [|[k' v'] m IH]; [done|]. cbn in H |- *.
  destruct (String.eqb k k'); [by injection H as ->|]. by rewrite IH.
Qed.

Lemma obj_get_del_eq (k : string) (m : obj) : obj_get k (obj_del k m) = None.
Proof.
  induction m as [|[k' v'] m IH]; cbn; [done|].
  destruct (String.eqb_spec k k') as [->|]; cbn; [done|].
  destruct (String.eqb_spec k k'); [congruence|done].
Qed.

Lemma obj_get_del_ne (k k' : string) (m : obj) :
  k <> k' -> obj_get k' (obj_del k m) = obj_get k' m.
Proof.
  intros Hne. unfold obj_del. induction m as [|[k2 v2] m IH]; cbn; [done|].
  destruct (String.eqb_spec k k2) as [->|]; cbn.
  - destruct (String.eqb_spec k' k2); [congruence|done].
  - by rewrite IH.
Qed.

(** The property names of an object grow by the one that is set. *)
Lemma obj_set_keys (k : string) (v : js) (m : obj) (x : string) :
  In x (map fst (obj_set k v m)) -> x = k \/ In x (map fst m).
Proof.
  unfold obj_set. destruct (obj_has k m).
  - induction m as [|[k' v'] m IH]; cbn; [tauto|].
    destruct (String.eqb_spec k k'); cbn; intuition.
  - induction m as [|[k' v'] m IH]; cbn; [intuition|].
    destruct (key_before k k'); cbn; intuition.
Qed.

Lemma obj_get_In (k : string) (v : js) (m : obj) : obj_get k m = Some v -> In (k, v) m.
Proof.
  induction m as [|[k' v'] m IH]; cbn; [done|].
  destruct (String.eqb_spec k k') as [->|]; [intros [= ->]; auto | auto].
Qed.

Lemma obj_get_not_In (k : string) (m : obj) :
  ~ In k (map fst m) -> obj_get k m = None.
Proof.
  induction m as [|[k' v'] m IH]; cbn; [done|]. intros H.
  destruct (String.eqb_spec k k') as [->|]; [tauto|]. apply IH. tauto.
Qed.

#[export] Hint Rewrite obj_get_set_eq obj_get_del_eq : js.

(** ** Well-formed values *)

(** Every object inside has each property once. *)
Fixpoint wf (v : js) : Prop :=
  match v with
  | JArr l => (fix all (l : list js) : Prop :=
                 match l with [] => True | x :: l' => wf x /\ all l' end) l
  | JObj m => List.NoDup (map fst m) /\
              (fix all (m : list (string * js)) : Prop :=
                 match m with [] => True | (_, x) :: m' => wf x /\ all m' end) m
  | _ => True
  end.

Lemma wf_arr (l : list js) : wf (JArr l) <-> Forall wf l.
Proof.
  induction l as [|x l IH]; [by split; [constructor|]|].
  split; [intros [Hx Hl]; constructor; [done|by apply IH]|].
  intros H. inversion H; subst. split; [done|by apply IH].
Qed.

Lemma wf_obj (m : obj) : wf (JObj m) <-> List.NoDup (map fst m) /\ Forall (fun kv => wf kv.2) m.
Proof.
  cbn [wf]. enough (H : (fix all (m : list (string * js)) : Prop :=
                 match m with [] => True | (_, x) :: m' => wf x /\ all m' end) m
               <-> Forall (fun kv => wf kv.2) m) by tauto.
  induction m as [|[k x] m IH]; [by split; [constructor|]|].
  split; [intros [Hx Hl]; constructor; [done|by apply IH]|].
  intros H. inversion H; subst. split; [done|by apply IH].
Qed.

Lemma wf_get (k : string) (v : js) (m : obj) : wf (JObj m) -> obj_get k m = Some v -> wf v.
Proof.
  intros [_ H]%wf_obj Hk%obj_get_In. exact (proj1 (List.Forall_forall _ _) H _ Hk).
Qed.

Lemma wf_opt_get (k : string) (v : js) : wf v -> wf (opt_get v k).
Proof.
  intros Hv. destruct v as [| | | | |l|m]; try done; cbn [opt_get].
  - by destruct (String.eqb k "length").
  - destruct (obj_get k m) eqn:E; [|done]. by eapply wf_get.
Qed.

Lemma obj_has_In (k : string) (m : obj) : obj_has k m = false -> ~ In k (map fst m).
Proof.
  unfold obj_has. induction m as [|[k' v'] m IH]; cbn; [tauto|].
  destruct (String.eqb_spec k k') as [->|]; [done|]. intros H [?|?]; [congruence|]. by apply IH.
Qed.

Lemma obj_update_fst (k : string) (v : js) (m : obj) : map fst (obj_update k v m) = map fst m.
Proof.
  induction m as [|[k' v'] m IH]; cbn; [done|]. destruct (String.eqb k k'); cbn; [done|]. by rewrite IH.
Qed.

Lemma obj_insert_perm (k : string) (v : js) (m : obj) : Permutation (obj_insert k v m) ((k, v) :: m).
Proof.
  induction m as [|[k' v'] m IH]; cbn; [done|]. destruct (key_before k k'); [done|].
  rewrite IH. constructor.
Qed.

Lemma obj_set_NoDup (k : string) (v : js) (m : obj) :
  List.NoDup (map fst m) -> List.NoDup (map fst (obj_set k v m)).
Proof.
  intros H. unfold obj_set. destruct (obj_has k m) eqn:E; [by rewrite obj_update_fst|].
  eapply Permutation_NoDup; [symmetry; apply Permutation_map, obj_insert_perm|].
  cbn. constructor; [by apply obj_has_In|done].
Qed.

Lemma obj_set_values (P : js -> Prop) (k : string) (v : js) (m : obj) :
  P v -> Forall (fun kv => P kv.2) m -> Forall (fun kv => P kv.2) (obj_set k v m).
Proof.
  intros Hv Hm. unfold obj_set. destruct (obj_has k m).
  - clear - Hv Hm. induction Hm as [|[k' v'] m Hx Hm IH]; cbn; [constructor|].
    destruct (String.eqb k k'); by constructor.
  - rewrite obj_insert_perm. by constructor.
Qed.

Lemma wf_set (k : string) (v : js) (m : obj) :
  wf v -> wf (JObj m) -> wf (JObj (obj_set k v m)).
Proof.
  intros Hv [Hn Hm]%wf_obj. apply wf_obj. split; [by apply obj_set_NoDup|].
  by apply (obj_set_values wf).
Qed.

(** Spreading a well-formed object copies its properties. *)
Lemma obj_get_spread (k : string) (m acc : obj) :
  List.NoDup (map fst m) ->
  obj_get k (obj_spread acc m) = match obj_get k m with Some v => Some v | None => obj_get k acc end.
Proof.
  unfold obj_spread. revert acc. induction m as [|[k0 v0] m IH]; intros acc; cbn; [done|].
  intros H. inversion H as [|? ? Hn Hm]; subst. rewrite (IH _ Hm).
  destruct (String.eqb_spec k k0) as [->|Hne].
  - by rewrite (obj_get_not_In k0 m Hn), obj_get_set_eq.
  - destruct (obj_get k m); [done|]. by apply obj_get_set_ne.
Qed.

Lemma obj_set_Forall (P : string * js -> Prop) (k : string) (v : js) (m : obj) :
  P (k, v) -> Forall P m -> Forall P (obj_set k v m).
Proof.
  intros Hv Hm. unfold obj_set. destruct (obj_has k m).
  - clear - Hv Hm. induction Hm as [|[k' v'] m Hx Hm IH]; cbn; [constructor|].
    destruct (String.eqb_spec k k') as [<-|]; by constructor.
  - rewrite obj_insert_perm. by constructor.
Qed.

Lemma obj_del_NoDup (k : string) (m : obj) :
  List.NoDup (map fst m) -> List.NoDup (map fst (obj_del k m)).
Proof.
  unfold obj_del. induction m as [|[k' v'] m IH]; cbn; [done|]. intros H.
  inversion H as [|? ? Hn Hm]; subst. destruct (negb (String.eqb k k')); cbn; [|auto].
  constructor; [|auto]. intros Hi. apply Hn. apply in_map_iff in Hi as ([a b] & <- & Hf).
  apply filter_In in Hf as [Hf _]. by apply (in_map fst) in Hf.
Qed.

Lemma obj_spread_NoDup (m acc : obj) :
  List.NoDup (map fst acc) -> List.NoDup (map fst (obj_spread acc m)).
Proof.
  unfold obj_spread. revert acc. induction m as [|[k v] m IH]; intros acc H; cbn; [done|].
  by apply IH, obj_set_NoDup.
Qed.
