(* ===== verification/JsArray.v ===== *)
(** * Arrays, sets and maps of JavaScript

    What the pages use of the standard library to arrange rows: Array.prototype.sort,
    Set and Map with their order of insertion, sums by reduce, and localeCompare, whose
    order depends on the browser's locale and is a class with the laws the language
    guarantees. *)

From S2P Require Import Prelude JsNumber JsText JsValue.
From stdpp Require Import sorting.
From Stdlib Require Import SpecFloat Sorting.Sorted.
Local Open Scope string_scope.

(** ** Sorting *)

(** [after a b]: the comparison function answers a number above zero on [a] and [b].
    The sort is stable; for a consistent comparison the order of the result is the one
    every engine gives. *)
Section Sort.
Context {A : Type} (after : A -> A -> bool).

Fixpoint sort_insert (x : A) (l : list A) : list A :=
  match l with
  | [] => [x]
  | y :: l' => if after x y then y :: sort_insert x l' else x :: l
  end.

Definition js_sort (l : list A) : list A := fold_right sort_insert [] l.

(** A comparison the language calls consistent. *)
Record consistent : Prop := {
  after_asym : forall x y, after x y = true -> after y x = false;
  after_trans : forall x y z, after x y = false -> after y z = false -> after x z = false;
}.
End Sort.

(** [(a, b) => a - b] and [(a, b) => b - a] on a numeric key *)
Definition ascending {A} (key : A -> num) (a b : A) : bool :=
  num_gtb (num_sub (key a) (key b)) num_zero.
Definition descending {A} (key : A -> num) (a b : A) : bool :=
  num_gtb (num_sub (key b) (key a)) num_zero.

(** [a.localeCompare(b)]: negative, zero or positive, a total preorder. *)
Class Collation := {
  localeCompare : string -> string -> Z;
  localeCompare_sym : forall a b, Z.sgn (localeCompare b a) = (- Z.sgn (localeCompare a b))%Z;
  localeCompare_trans : forall a b c,
    (localeCompare a b <= 0)%Z -> (localeCompare b c <= 0)%Z -> (localeCompare a c <= 0)%Z;
}.

(** [(a, b) => key(a).localeCompare(key(b))] *)
Definition by_text `{Collation} {A} (key : A -> string) (a b : A) : bool :=
  (0 <? localeCompare (key a) (key b))%Z.

(** The default order of [sort()].  The language compares UTF-16 units, the model the bytes of
    UTF-8, which is another order only between the characters from U+E000 to U+FFFF and those
    above; what the sources sort by default is sorted only to be compared. *)
Definition by_code (a b : string) : bool :=
  match String.compare a b with Gt => true | _ => false end.

(** ** Set *)

(** [set.add(k)] and [new Set(l)]: each member once, in the order of first arrival. *)
Definition set_has (k : string) (s : list string) : bool := existsb (String.eqb k) s.
Definition set_add (s : list string) (k : string) : list string :=
  if set_has k s then s else (s ++ [k])%list.
Definition js_set (l : list string) : list string := fold_left set_add l [].

(** ** Map *)

(** A map with keys of text is the list of its entries in order of insertion. *)
Section Map.
Context {A : Type}.

Fixpoint map_get (k : string) (m : list (string * A)) : option A :=
  match m with
  | [] => None
  | (k', v) :: m' => if String.eqb k k' then Some v else map_get k m'
  end.

Fixpoint map_set (k : string) (v : A) (m : list (string * A)) : list (string * A) :=
  match m with
  | [] => [(k, v)]
  | (k', v') :: m' => if String.eqb k k' then (k, v) :: m' else (k', v') :: map_set k v m'
  end.

(** [new Map(entries)] *)
Definition js_map (l : list (string * A)) : list (string * A) :=
  fold_left (fun m kv => map_set kv.1 kv.2 m) l [].

Definition map_keys (m : list (string * A)) : list string := map fst m.
End Map.

(** ** Sums *)

(** [l.reduce((sum, x) => sum + key(x), 0)] *)
Definition sum_by {A} (key : A -> num) (l : list A) : num :=
  fold_left (fun sum x => num_add sum (key x)) l num_zero.

Definition num_length {A} (l : list A) : num := num_of_Z (Z.of_nat (List.length l)).

(** ** Laws of sorting *)

Section SortLaws.
Context {A : Type} (after : A -> A -> bool).

Lemma sort_insert_perm (x : A) (l : list A) : Permutation (sort_insert after x l) (x :: l).
Proof.
  induction l as [|y l IH]; cbn; [done|]. destruct (after x y); [|done].
  rewrite IH. apply Permutation_swap.
Qed.

Lemma js_sort_perm (l : list A) : Permutation (js_sort after l) l.
Proof. induction l as [|x l IH]; cbn; [done|]. by rewrite sort_insert_perm, IH. Qed.

Lemma js_sort_elem (l : list A) (x : A) : In x (js_sort after l) <-> In x l.
Proof.
  split; apply Permutation_in; [|apply Permutation_sym]; apply js_sort_perm.
Qed.

Lemma js_sort_length (l : list A) : List.length (js_sort after l) = List.length l.
Proof. apply Permutation_length, js_sort_perm. Qed.

Hypothesis Hafter : consistent after.

Lemma sort_insert_sorted (x : A) (l : list A) :
  StronglySorted (fun a b => after a b = false) l ->
  StronglySorted (fun a b => after a b = false) (sort_insert after x l).
Proof.
  induction 1 as [|y l Hs IH Hall]; cbn; [by repeat constructor|].
  destruct (after x y) eqn:E.
  - constructor; [done|]. apply List.Forall_forall. intros z Hz.
    apply (Permutation_in _ (sort_insert_perm x l)) in Hz as [<-|Hz].
    + by apply (after_asym _ Hafter).
    + rewrite List.Forall_forall in Hall. by apply Hall.
  - constructor; [by constructor|]. constructor; [done|].
    revert Hall. apply List.Forall_impl. intros z Hz. by apply (after_trans _ Hafter x y z).
Qed.

Lemma js_sort_sorted (l : list A) : StronglySorted (fun a b => after a b = false) (js_sort after l).
Proof. induction l as [|x l IH]; cbn; [constructor|]. by apply sort_insert_sorted. Qed.

(** The first element of a sorted list is not after any of its elements. *)
Lemma js_sort_head (l : list A) (x : A) :
  head (js_sort after l) = Some x -> In x l /\ Forall (fun y => after x y = false) l.
Proof.
  intros Hh. pose proof (js_sort_sorted l) as Hs.
  destruct (js_sort after l) as [|y r] eqn:E; [done|]. injection Hh as ->.
  split; [apply (js_sort_elem l x); rewrite E; by left|].
  apply List.Forall_forall. intros z Hz%js_sort_elem. rewrite E in Hz.
  destruct Hz as [<-|Hz].
  - destruct (after x x) eqn:Ex; [|done]. pose proof (after_asym _ Hafter x x Ex). congruence.
  - apply StronglySorted_inv in Hs as [_ Hall]. rewrite List.Forall_forall in Hall.
    by apply Hall.
Qed.
End SortLaws.

(** Insertion leaves the order of the elements of one class alone. *)
Lemma sort_insert_filter {A} (after : A -> A -> bool) (p : A -> bool) (x : A) (l : list A) :
  (forall y, In y l -> p x = true -> p y = true -> after x y = false) ->
  List.filter p (sort_insert after x l) = List.filter p (x :: l).
Proof.
  induction l as [|y l IH]; intros Hp; [done|]. cbn [sort_insert].
  destruct (after x y) eqn:E; [|done]. cbn [List.filter].
  rewrite IH by (intros; apply Hp; cbn; auto). cbn [List.filter].
  destruct (p x) eqn:Ex, (p y) eqn:Ey; try done.
  rewrite (Hp y ltac:(by left) eq_refl Ey) in E. done.
Qed.

(** The sort is stable: elements that compare equal keep their order. *)
Lemma js_sort_stable {A} (after : A -> A -> bool) (p : A -> bool) (l : list A) :
  (forall x y, In x l -> In y l -> p x = true -> p y = true -> after x y = false) ->
  List.filter p (js_sort after l) = List.filter p l.
Proof.
  induction l as [|x l IH]; intros Hp; [done|]. cbn [js_sort fold_right].
  fold (js_sort after l). rewrite sort_insert_filter.
  - cbn [List.filter]. rewrite IH; [done|]. intros; apply Hp; cbn; auto.
  - intros y Hy. apply Hp; [by left|right]. by apply js_sort_elem in Hy.
Qed.

(** ** Orders *)

Lemma by_text_consistent `{Collation} {A} (key : A -> string) : consistent (by_text key).
Proof.
  assert (Hsym : forall a b, (0 < localeCompare a b <-> localeCompare b a < 0)%Z).
  { intros a b. pose proof (localeCompare_sym a b). lia. }
  unfold by_text. split.
  - intros x y Hxy%Z.ltb_lt. apply Z.ltb_ge. apply Hsym in Hxy. lia.
  - intros x y z Hxy%Z.ltb_ge Hyz%Z.ltb_ge. apply Z.ltb_ge. eauto using localeCompare_trans.
Qed.

Lemma by_text_sorted `{Collation} {A} (key : A -> string) (l : list A) :
  StronglySorted (fun a b => (localeCompare (key a) (key b) <= 0)%Z) (js_sort (by_text key) l).
Proof.
  induction (js_sort_sorted (by_text key) (by_text_consistent key) l) as [|x r Hs IH Hall];
    [constructor|]. constructor; [done|].
  revert Hall. apply List.Forall_impl. intros y Hy. unfold by_text in Hy. by apply Z.ltb_ge in Hy.
Qed.

(** The order of the code units is such an order. *)
Lemma compare_sym (a b : string) : String.compare b a = CompOpp (String.compare a b).
Proof. apply String.compare_antisym. Qed.

Lemma compare_le_trans (a b c : string) :
  String.compare a b <> Gt -> String.compare b c <> Gt -> String.compare a c <> Gt.
Proof.
  revert b c. induction a as [|x a IH]; intros [|y b] [|z c]; cbn; try done.
  unfold Ascii.compare. intros H1 H2.
  destruct (N.compare_spec (N_of_ascii x) (N_of_ascii y)) as [E1|E1|E1]; try done;
    destruct (N.compare_spec (N_of_ascii y) (N_of_ascii z)) as [E2|E2|E2]; try done;
    destruct (N.compare_spec (N_of_ascii x) (N_of_ascii z)) as [E3|E3|E3]; try done; try lia.
  by apply (IH b c).
Qed.

Lemma by_code_consistent : consistent by_code.
Proof.
  unfold by_code. split.
  - intros x y. rewrite (compare_sym x y). by destruct (String.compare x y).
  - intros x y z Hx Hy.
    assert (H : String.compare x z <> Gt).
    { apply (compare_le_trans x y z); [by destruct (String.compare x y)|by destruct (String.compare y z)]. }
    by destruct (String.compare x z).
Qed.

(** Sorting by default is a normal form: two lists are permutations of each other exactly when
    they are sorted into the same list. *)
Lemma by_code_antisym (a b : string) : by_code a b = false -> by_code b a = false -> a = b.
Proof.
  unfold by_code. rewrite (compare_sym a b). intros H1 H2. apply String.compare_eq_iff.
  by destruct (String.compare a b).
Qed.

Lemma sort_code_perm (a b : list string) :
  js_sort by_code a = js_sort by_code b <-> Permutation a b.
Proof.
  split.
  - intros H. rewrite <- (js_sort_perm by_code a), <- (js_sort_perm by_code b). by rewrite H.
  - intros H. apply (StronglySorted_unique_strong (fun x y => by_code x y = false)).
    + intros x y _ _. apply by_code_antisym.
    + apply js_sort_sorted, by_code_consistent.
    + apply js_sort_sorted, by_code_consistent.
    + by rewrite !js_sort_perm.
Qed.

Definition code_compare (a b : string) : Z :=
  match String.compare a b with Lt => -1 | Eq => 0 | Gt => 1 end.

(** A collation by code units, for concrete inputs. *)
Definition code_collation : Collation.
Proof.
  refine {| localeCompare := code_compare |}; unfold code_compare.
  - intros a b. rewrite (compare_sym a b). by destruct (String.compare a b).
  - intros a b c. intros H1 H2. pose proof (compare_le_trans a b c) as H.
    destruct (String.compare a b), (String.compare b c), (String.compare a c); try lia;
      exfalso; apply H; congruence.
Defined.

(** ** Laws of sets and maps *)

Lemma set_has_In (k : string) (s : list string) : set_has k s = true <-> In k s.
Proof. unfold set_has. by rewrite existsb_elem, list_elem_of_In. Qed.

Lemma set_add_In (s : list string) (k x : string) : In x (set_add s k) <-> In x s \/ x = k.
Proof.
  unfold set_add. destruct (set_has k s) eqn:E.
  - apply set_has_In in E. split; [tauto|]. intros [?| ->]; done.
  - rewrite in_app_iff. cbn. intuition congruence.
Qed.

Lemma set_add_NoDup (s : list string) (k : string) : List.NoDup s -> List.NoDup (set_add s k).
Proof.
  intros H. unfold set_add. destruct (set_has k s) eqn:E; [done|].
  apply NoDup_ListNoDup, list.NoDup_app. rewrite NoDup_ListNoDup. split; [done|].
  split; [|apply NoDup_singleton].
  intros x Hx Hk%list_elem_of_singleton. subst x. apply list_elem_of_In, set_has_In in Hx. congruence.
Qed.

Lemma set_fold_In (l s : list string) (x : string) :
  In x (fold_left set_add l s) <-> In x s \/ In x l.
Proof.
  revert s. induction l as [|k l IH]; intros s; cbn; [tauto|].
  rewrite IH, set_add_In. intuition congruence.
Qed.

Lemma set_fold_NoDup (l s : list string) : List.NoDup s -> List.NoDup (fold_left set_add l s).
Proof. revert s. induction l as [|k l IH]; intros s Hs; cbn; auto using set_add_NoDup. Qed.

Lemma js_set_In (l : list string) (x : string) : In x (js_set l) <-> In x l.
Proof. unfold js_set. rewrite set_fold_In. cbn. tauto. Qed.

Lemma js_set_NoDup (l : list string) : List.NoDup (js_set l).
Proof. apply set_fold_NoDup. constructor. Qed.

Section MapLaws.
Context {A : Type}.
Implicit Types (m : list (string * A)).

Lemma map_get_set (k k' : string) (v : A) m :
  map_get k (map_set k' v m) = if String.eqb k k' then Some v else map_get k m.
Proof.
  induction m as [|[k0 v0] m IH]; cbn; [done|].
  destruct (String.eqb k' k0) eqn:E0; cbn.
  - apply String.eqb_eq in E0 as <-. by destruct (String.eqb k k').
  - rewrite IH. destruct (String.eqb k k0) eqn:E1; [|done].
    apply String.eqb_eq in E1 as <-. by rewrite String.eqb_sym, E0.
Qed.

Lemma map_set_keys (k : string) (v : A) m : map_keys (map_set k v m) = set_add (map_keys m) k.
Proof.
  unfold set_add, map_keys. induction m as [|[k' v'] m IH]; cbn; [done|].
  destruct (String.eqb k k') eqn:E; cbn.
  - by apply String.eqb_eq in E as ->.
  - rewrite IH. unfold set_has. by destruct (existsb (String.eqb k) (map fst m)).
Qed.

Lemma map_set_NoDup (k : string) (v : A) m :
  List.NoDup (map_keys m) -> List.NoDup (map_keys (map_set k v m)).
Proof. rewrite map_set_keys. apply set_add_NoDup. Qed.

Lemma map_get_In (k : string) (v : A) m : map_get k m = Some v -> In (k, v) m.
Proof.
  induction m as [|[k' v'] m IH]; cbn; [done|]. destruct (String.eqb k k') eqn:E.
  - apply String.eqb_eq in E as ->. intros [= ->]. by left.
  - intros H. right. by apply IH.
Qed.

Lemma map_In_get (k : string) (v : A) m :
  List.NoDup (map_keys m) -> In (k, v) m -> map_get k m = Some v.
Proof.
  induction m as [|[k' v'] m IH]; cbn; [done|]. intros Hnd [[= -> ->]|Hin].
  - by rewrite String.eqb_refl.
  - apply NoDup_cons_iff in Hnd as [Hk Hnd]. destruct (String.eqb k k') eqn:E; [|auto].
    apply String.eqb_eq in E as <-. exfalso. apply Hk. by apply (in_map fst) in Hin.
Qed.
End MapLaws.

(** ** Grouping *)

(** A loop that files elements under their keys: [upd] makes the new value of a key from its
    old one, if there is one, and the element; elements without a key are skipped. *)
Section Group.
Context {E A : Type} (key : E -> option string) (upd : option A -> E -> A).

Definition group_step (m : list (string * A)) (e : E) : list (string * A) :=
  match key e with
  | Some k => map_set k (upd (map_get k m) e) m
  | None => m
  end.

Definition group_by (l : list E) : list (string * A) := fold_left group_step l [].

Definition has_key (k : string) (e : E) : bool :=
  match key e with Some k' => String.eqb k k' | None => false end.

(** What a key's elements make of its value *)
Definition group_value (l : list E) : option A := fold_left (fun acc e => Some (upd acc e)) l None.

Lemma group_fold_get (k : string) (l : list E) (m : list (string * A)) :
  map_get k (fold_left group_step l m)
  = fold_left (fun acc e => Some (upd acc e)) (List.filter (has_key k) l) (map_get k m).
Proof.
  revert m. induction l as [|e l IH]; intros m; cbn; [done|].
  rewrite IH. unfold group_step, has_key. destruct (key e) as [k'|]; [|done].
  destruct (String.eqb k k') eqn:Ek; rewrite map_get_set, Ek; [|done].
  by apply String.eqb_eq in Ek as <-.
Qed.

Lemma group_by_get (k : string) (l : list E) :
  map_get k (group_by l) = group_value (List.filter (has_key k) l).
Proof. apply group_fold_get. Qed.

Lemma group_fold_keys (l : list E) (m : list (string * A)) :
  map_keys (fold_left group_step l m) = fold_left set_add (omap key l) (map_keys m).
Proof.
  revert m. induction l as [|e l IH]; intros m; cbn [fold_left omap list_omap]; [done|].
  rewrite IH. unfold group_step. destruct (key e) as [k|]; [|done]. cbn [fold_left].
  by rewrite map_set_keys.
Qed.

Lemma group_by_keys (l : list E) : map_keys (group_by l) = js_set (omap key l).
Proof. apply group_fold_keys. Qed.
End Group.

(** A map with unique keys is its keys with their values. *)
Lemma map_of_keys {A} (m : list (string * A)) :
  List.NoDup (map_keys m) -> m = omap (fun k => (fun v => (k, v)) <$> map_get k m) (map_keys m).
Proof.
  intros Hnd.
  assert (H : forall l, (forall kv, In kv l -> map_get kv.1 m = Some kv.2) ->
                        l = omap (fun k => (fun v => (k, v)) <$> map_get k m) (map fst l)).
  { induction l as [|[k v] l IH]; intros Hl; cbn; [done|].
    pose proof (Hl (k, v) ltac:(by left)) as Hk. cbn in Hk. rewrite Hk. cbn. f_equal. apply IH. intros kv Hkv. apply Hl. by right. }
  apply H. intros [k v] Hkv. by apply map_In_get.
Qed.

Lemma map_of_values {A} (m : list (string * A)) (f : string -> A) :
  List.NoDup (map_keys m) -> (forall k, In k (map_keys m) -> map_get k m = Some (f k)) ->
  m = map (fun k => (k, f k)) (map_keys m).
Proof.
  intros Hnd H. rewrite (map_of_keys m Hnd) at 1.
  induction (map_keys m) as [|k ks IH]; cbn; [done|].
  rewrite (H k) by (by left). cbn. f_equal.
  apply IH; [by inversion Hnd|]. intros k' ?. apply H. by right.
Qed.

Lemma group_by_NoDup {E A} (key : E -> option string) (upd : option A -> E -> A) (l : list E) :
  List.NoDup (map_keys (group_by key upd l)).
Proof. rewrite group_by_keys. apply js_set_NoDup. Qed.

(** ** Lists as texts *)

(** [l.join(sep)]: null and undefined are empty. *)
Definition js_join (sep : string) (l : list js) : string :=
  str_join sep (map (fun v => if nullish v then "" else js_to_string v) l).

(** [text.split(sep).map((s) => s.trim()).filter(Boolean)] *)
Definition split_clean (sep : ascii) (text : string) : list string :=
  List.filter (fun s => negb (String.eqb s "")) (map str_trim (str_split sep text)).

(** A text that trimming and splitting leave as it is *)
Definition clean_item (sep : ascii) (s : string) : Prop :=
  str_trim s = s /\ s <> "" /\ lacks sep s = true.

Lemma join_texts (sep : string) (ls : list string) : js_join sep (map JStr ls) = str_join sep ls.
Proof. unfold js_join. by rewrite map_map, map_id. Qed.

Lemma split_join (sep : ascii) (ls : list string) :
  ls <> [] -> Forall (fun s => lacks sep s = true) ls ->
  str_split sep (str_join (String sep "") ls) = ls.
Proof.
  intros Hne H. induction H as [|l ls Hl Hls IH]; [done|].
  destruct ls as [|l' ls]; [by apply str_split_lacks|].
  change (str_join (String sep "") (l :: l' :: ls))
    with (l ++ String sep (str_join (String sep "") (l' :: ls))).
  rewrite str_split_app by done. by rewrite IH.
Qed.

Lemma keep_clean (sep : ascii) (ls : list string) :
  Forall (clean_item sep) ls ->
  List.filter (fun s => negb (String.eqb s "")) (map str_trim ls) = ls.
Proof.
  induction 1 as [|l ls (Ht & Hne & _) _ IH]; [done|]. cbn. rewrite Ht.
  destruct (String.eqb_spec l ""); [done|]. cbn. by rewrite IH.
Qed.

(** Clean texts survive being joined and split again. *)
Lemma split_clean_join (sep : ascii) (ls : list string) :
  Forall (clean_item sep) ls -> split_clean sep (str_join (String sep "") ls) = ls.
Proof.
  intros H. destruct ls as [|l ls]; [done|]. unfold split_clean.
  rewrite split_join; [by apply (keep_clean sep)|done|].
  eapply List.Forall_impl; [|exact H]. by intros s (_ & _ & ?).
Qed.

Lemma split_clean_items (sep : ascii) (text : string) :
  Forall (fun u => u <> "" /\ exists raw, u = str_trim raw) (split_clean sep text).
Proof.
  apply List.Forall_forall. intros u Hu. apply filter_In in Hu as [Hu Hne].
  apply in_map_iff in Hu as (raw & <- & _).
  split; [|by exists raw]. by destruct (String.eqb_spec (str_trim raw) "").
Qed.
