(* ===== verification/NumOrder.v ===== *)
(** * The order of finite numbers

    Sorting by [(a, b) => a - b] is right only if the sign of a rounded difference is the sign
    of the difference.  Here finite binary64 numbers are read as integers, in units of the
    smallest subnormal; comparisons and the signs of differences are those of these integers. *)

From S2P Require Import Prelude JsNumber JsText JsValue JsArray.
From Stdlib Require Import SpecFloat Sorting.Sorted ZifyBool.
Local Open Scope Z_scope.

(** A finite number in the representation every operation returns *)
Definition num_ok (x : num) : bool := num_is_finite x && valid_binary 53 1024 x.

Definition units (x : num) : Z :=
  match x with
  | S754_finite s m e => cond_Zopp s (Zpos m * 2 ^ (e + 1074))
  | _ => 0
  end.

(** ** Mantissas *)

Lemma digits_size (m : positive) : digits2_pos m = Pos.size m.
Proof. induction m as [m IH|m IH|]; cbn; by rewrite ?IH. Qed.

Lemma digits_bounds (m : positive) :
  2 ^ (Zpos (digits2_pos m) - 1) <= Zpos m < 2 ^ Zpos (digits2_pos m).
Proof.
  rewrite digits_size. pose proof (Pos.size_gt m) as Hg. pose proof (Pos.size_le m) as Hl.
  split; [|lia]. assert (2 ^ Zpos (Pos.size m) = 2 * 2 ^ (Zpos (Pos.size m) - 1))
    by (rewrite <- Z.pow_succ_r by lia; f_equal; lia). lia.
Qed.

Lemma bounded_mantissa (m : positive) (e : Z) :
  bounded 53 1024 m e = true ->
  -1074 <= e /\ Zpos m < 2 ^ 53 /\ (-1074 < e -> 2 ^ 52 <= Zpos m).
Proof.
  unfold bounded, canonical_mantissa, fexp, emin. intros [Hc _]%andb_prop. apply Z.eqb_eq in Hc.
  pose proof (digits_bounds m) as [Hl Hu]. split; [lia|]. split.
  - eapply Z.lt_le_trans; [exact Hu|]. apply Z.pow_le_mono_r; lia.
  - intros He. eapply Z.le_trans; [|exact Hl]. apply Z.pow_le_mono_r; lia.
Qed.

Lemma units_compare_pos (m1 m2 : positive) (e1 e2 : Z) :
  bounded 53 1024 m1 e1 = true -> bounded 53 1024 m2 e2 = true ->
  (Zpos m1 * 2 ^ (e1 + 1074) ?= Zpos m2 * 2 ^ (e2 + 1074)) =
  match e1 ?= e2 with Lt => Lt | Gt => Gt | Eq => Pos.compare m1 m2 end.
Proof.
  intros (H1 & U1 & L1)%bounded_mantissa (H2 & U2 & L2)%bounded_mantissa.
  assert (Hlt : forall (ma mb : positive) ea eb, -1074 <= ea -> ea < eb -> Zpos ma < 2 ^ 53 -> 2 ^ 52 <= Zpos mb ->
                Zpos ma * 2 ^ (ea + 1074) < Zpos mb * 2 ^ (eb + 1074)).
  { intros ma mb ea eb Ha Hab Hma Hmb. replace (eb + 1074) with ((eb - ea - 1) + 1 + (ea + 1074)) by lia.
    rewrite (Z.pow_add_r 2 (eb - ea - 1 + 1) (ea + 1074)), (Z.pow_add_r 2 (eb - ea - 1) 1), Z.mul_assoc by lia.
    pose proof (Z.pow_pos_nonneg 2 (ea + 1074) ltac:(lia) ltac:(lia)) as Hp.
    pose proof (Z.pow_pos_nonneg 2 (eb - ea - 1) ltac:(lia) ltac:(lia)) as Hq.
    apply Z.mul_lt_mono_pos_r; [exact Hp|]. change (2 ^ 53) with (2 * 2 ^ 52) in Hma. change (2 ^ 1) with 2. nia. }
  destruct (Z.compare_spec e1 e2) as [->|He|He].
  - rewrite <- Zmult_compare_compat_r; [done|].
    pose proof (Z.pow_pos_nonneg 2 (e2 + 1074) ltac:(lia) ltac:(lia)). lia.
  - apply Z.compare_lt_iff, Hlt; auto. apply L2. lia.
  - apply Z.compare_gt_iff, Hlt; auto. apply L1. lia.
Qed.

(** ** Comparison *)

Lemma compare_units (x y : num) :
  num_ok x = true -> num_ok y = true -> SFcompare x y = Some (units x ?= units y).
Proof.
  unfold num_ok. destruct x as [s1|s1| |s1 m1 e1], y as [s2|s2| |s2 m2 e2]; cbn [num_is_finite valid_binary andb]; try done;
    intros H1 H2; cbn [SFcompare units].
  - destruct (bounded_mantissa _ _ H2) as (H & _ & _).
    pose proof (Z.pow_pos_nonneg 2 (e2 + 1074) ltac:(lia) ltac:(lia)). f_equal. symmetry.
    destruct s2; cbn [cond_Zopp]; [apply Z.compare_gt_iff|apply Z.compare_lt_iff]; nia.
  - destruct (bounded_mantissa _ _ H1) as (H & _ & _).
    pose proof (Z.pow_pos_nonneg 2 (e1 + 1074) ltac:(lia) ltac:(lia)). f_equal. symmetry.
    destruct s1; cbn [cond_Zopp]; [apply Z.compare_lt_iff|apply Z.compare_gt_iff]; nia.
  - pose proof (units_compare_pos _ _ _ _ H1 H2) as Hc.
    destruct (bounded_mantissa _ _ H1) as (Hb1 & _ & _), (bounded_mantissa _ _ H2) as (Hb2 & _ & _).
    pose proof (Z.pow_pos_nonneg 2 (e1 + 1074) ltac:(lia) ltac:(lia)).
    pose proof (Z.pow_pos_nonneg 2 (e2 + 1074) ltac:(lia) ltac:(lia)). f_equal.
    destruct s1, s2; cbn [cond_Zopp]; symmetry.
    + rewrite Z.compare_opp, Z.compare_antisym, Hc. by destruct (e1 ?= e2).
    + apply Z.compare_lt_iff. nia.
    + apply Z.compare_gt_iff. nia.
    + exact Hc.
Qed.

(** ** Differences *)

Lemma iter_shr (p : positive) (mrs : shr_record) :
  0 <= shr_m mrs -> shr_m (SpecFloat.iter_pos shr_1 p mrs) = shr_m mrs / 2 ^ Zpos p.
Proof.
  assert (H1 : forall r, 0 <= shr_m r -> shr_m (shr_1 r) = shr_m r / 2).
  { intros [[|[m|m|]|m] r s] H; cbn in *; try lia; try done.
    - rewrite Pos2Z.inj_xI. apply Z.div_unique with 1; lia.
    - rewrite Pos2Z.inj_xO. apply Z.div_unique with 0; lia. }
  assert (Hpow : forall p, 0 < 2 ^ Zpos p) by (intros; apply Z.pow_pos_nonneg; lia).
  assert (Hdbl : forall p a, a / 2 ^ Zpos p / 2 ^ Zpos p = a / 2 ^ Zpos p~0).
  { intros q a. pose proof (Hpow q). rewrite Z.div_div by lia. f_equal. rewrite <- Z.pow_add_r by lia. f_equal. lia. }
  revert mrs. induction p as [p IH|p IH|]; intros mrs Hm; cbn [SpecFloat.iter_pos].
  - assert (Hs : shr_m (shr_1 mrs) = shr_m mrs / 2) by (by apply H1).
    assert (Hs0 : 0 <= shr_m mrs / 2) by (apply Z.div_pos; lia).
    assert (H0 : shr_m (SpecFloat.iter_pos shr_1 p (shr_1 mrs)) = shr_m mrs / 2 / 2 ^ Zpos p) by (rewrite IH, Hs; lia).
    rewrite IH, H0, Hdbl; [|rewrite H0; apply Z.div_pos; [exact Hs0|apply Hpow]].
    pose proof (Hpow (p~0)%positive). by rewrite Z.div_div by lia.
  - assert (H0 : shr_m (SpecFloat.iter_pos shr_1 p mrs) = shr_m mrs / 2 ^ Zpos p) by (by apply IH).
    rewrite IH, H0, Hdbl; [done|]. rewrite H0. apply Z.div_pos; [exact Hm|apply Hpow].
  - by apply H1.
Qed.

(** Rounding an integer number of units never gives zero. *)
Lemma shr_positive (m : positive) (e : Z) (l : location) :
  -1074 <= e ->
  let r := shr_fexp 53 1024 (Zpos m) e l in 0 < shr_m r.1 /\ -1074 <= r.2.
Proof.
  intros He. unfold shr_fexp, shr, fexp, emin. cbn [Zdigits2].
  pose proof (digits_bounds m) as [Hl _].
  assert (Hm : shr_m (shr_record_of_loc (Zpos m) l) = Zpos m) by (by destruct l as [|[]]).
  destruct (_ - e) as [|p|p] eqn:E; cbn [fst snd]; rewrite ?Hm; [lia| |lia].
  rewrite iter_shr, Hm by (rewrite Hm; lia). split; [|lia].
  apply Z.div_str_pos. split; [lia|]. eapply Z.le_trans; [|exact Hl]. apply Z.pow_le_mono_r; lia.
Qed.

Lemma round_positive (s : bool) (m : positive) (e : Z) :
  -1074 <= e ->
  SFcompare (binary_round 53 1024 s m e) num_zero = Some (if s then Lt else Gt).
Proof.
  intros He. unfold binary_round. set (t := fexp _ _ _).
  assert (Hx : exists mz ez, shl_align m e t = (mz, ez) /\ -1074 <= ez).
  { unfold shl_align. destruct (t - e) as [|d|d] eqn:E; eexists _, _; (split; [reflexivity|]); try lia.
    subst t. unfold fexp, emin. lia. }
  destruct Hx as (mz & ez & -> & Hz). unfold binary_round_aux.
  pose proof (shr_positive mz ez loc_Exact Hz) as H. cbn zeta in H.
  destruct (shr_fexp 53 1024 (Zpos mz) ez loc_Exact) as [r1 e1]. cbn [fst snd] in H. destruct H as [H1 He1].
  assert (H2 : 0 < round_nearest_even (shr_m r1) (loc_of_shr_record r1)).
  { unfold round_nearest_even. destruct (loc_of_shr_record r1) as [|[]]; try destruct (Z.even _); lia. }
  destruct (round_nearest_even _ _) as [|m2|m2]; try lia.
  pose proof (shr_positive m2 e1 loc_Exact He1) as H3. cbn zeta in H3.
  destruct (shr_fexp 53 1024 (Zpos m2) e1 loc_Exact) as [r2 e2]. cbn [fst snd] in H3. destruct H3 as [H3 _].
  destruct (shr_m r2) as [|m3|m3]; try lia. by destruct (e2 <=? _), s.
Qed.

Lemma shl_align_units (m : positive) (e ez : Z) :
  -1074 <= ez <= e -> Zpos (fst (shl_align m e ez)) * 2 ^ (ez + 1074) = Zpos m * 2 ^ (e + 1074).
Proof.
  intros He. assert (Hit : forall d, Zpos (Pos.iter xO m d) = Zpos m * 2 ^ Zpos d).
  { intros d. induction d as [|d IH] using Pos.peano_ind; [cbn; lia|].
    rewrite Pos.iter_succ, Pos2Z.inj_xO, IH, Pos2Z.inj_succ, Z.pow_succ_r by lia. ring. }
  unfold shl_align. destruct (ez - e) as [|d|d] eqn:E; cbn [fst]; [f_equal; f_equal; lia|lia|].
  rewrite Hit. replace (e + 1074) with (Zpos d + (ez + 1074)) by lia. rewrite (Z.pow_add_r 2 (Zpos d)) by lia. ring.
Qed.

Lemma normalize_sign (d e : Z) (s : bool) :
  -1074 <= e -> SFcompare (binary_normalize 53 1024 d e s) num_zero = Some (d ?= 0).
Proof. intros He. destruct d as [|m|m]; cbn [binary_normalize]; [done|by rewrite round_positive..]. Qed.

(** The sign of a difference is the order of its operands. *)
Lemma sub_units (x y : num) :
  num_ok x = true -> num_ok y = true -> SFcompare (num_sub x y) num_zero = Some (units x ?= units y).
Proof.
  intros Hx Hy. pose proof (compare_units x y Hx Hy) as Hc. unfold num_ok in *. rewrite <- Hc.
  destruct x as [s1|s1| |s1 m1 e1], y as [s2|s2| |s2 m2 e2]; cbn [num_is_finite andb] in *; try done.
  - by destruct s1, s2.
  - by destruct s2.
  - cbn [valid_binary] in *. unfold num_sub, SFsub. destruct (bounded_mantissa _ _ Hx) as (H1 & _ & _), (bounded_mantissa _ _ Hy) as (H2 & _ & _).
    rewrite normalize_sign, Hc by lia. f_equal.
    pose proof (shl_align_units m1 e1 (Z.min e1 e2) ltac:(lia)) as A1.
    pose proof (shl_align_units m2 e2 (Z.min e1 e2) ltac:(lia)) as A2.
    pose proof (Z.pow_pos_nonneg 2 (Z.min e1 e2 + 1074) ltac:(lia) ltac:(lia)) as Hp.
    set (P := 2 ^ (Z.min e1 e2 + 1074)) in *. cbn [units]. rewrite <- A1, <- A2.
    set (a := Zpos (fst (shl_align m1 e1 (Z.min e1 e2)))). set (b := Zpos (fst (shl_align m2 e2 (Z.min e1 e2)))).
    rewrite <- Z.compare_sub. rewrite (Zmult_compare_compat_r (cond_Zopp s1 a) (cond_Zopp s2 b) P) by lia.
    destruct s1, s2; cbn [cond_Zopp]; f_equal; lia.
Qed.

Lemma ltb_units (x y : num) :
  num_ok x = true -> num_ok y = true -> num_ltb x y = (units x <? units y).
Proof. intros Hx Hy. unfold num_ltb, SFltb, Z.ltb. rewrite compare_units by done. by destruct (_ ?= _). Qed.
Lemma leb_units (x y : num) :
  num_ok x = true -> num_ok y = true -> num_leb x y = (units x <=? units y).
Proof. intros Hx Hy. unfold num_leb, SFleb, Z.leb. rewrite compare_units by done. by destruct (_ ?= _). Qed.
Lemma eqb_units (x y : num) :
  num_ok x = true -> num_ok y = true -> num_eqb x y = (units x =? units y).
Proof.
  intros Hx Hy. unfold num_eqb, SFeqb. rewrite compare_units by done.
  destruct (Z.compare_spec (units x) (units y)); lia.
Qed.

(** [a - b > 0] *)
Lemma gtb_sub_units (x y : num) :
  num_ok x = true -> num_ok y = true -> num_gtb (num_sub x y) num_zero = (units y <? units x).
Proof.
  intros Hx Hy. pose proof (sub_units x y Hx Hy) as H. unfold num_gtb, SFltb, Z.ltb.
  rewrite (Z.compare_antisym (units x)). destruct (num_sub x y) as [[]|[]| |[] ? ?]; cbn in H; try done;
    by injection H as <-.
Qed.

(** ** Comparison functions *)

(** The sign of what a comparison function answers; NaN counts as zero. *)
Definition num_sign (x : num) : Z :=
  if num_ltb x num_zero then -1 else if num_ltb num_zero x then 1 else 0.

(** [a - b], [b.f - a.f], and [c1 || c2] *)
Definition cmp_num {A} (key : A -> num) (a b : A) : Z := num_sign (num_sub (key a) (key b)).
Definition cmp_down {A} (key : A -> num) (a b : A) : Z := num_sign (num_sub (key b) (key a)).
Definition cmp_text `{Collation} {A} (key : A -> string) (a b : A) : Z := localeCompare (key a) (key b).
Definition cmp_or {A} (c1 c2 : A -> A -> Z) (a b : A) : Z := if c1 a b =? 0 then c2 a b else c1 a b.
Definition cmp_rev {A} (c : A -> A -> Z) (a b : A) : Z := - c a b.

Definition sort_with {A} (cmp : A -> A -> Z) : list A -> list A := js_sort (fun a b => 0 <? cmp a b).

(** A total preorder on the elements of interest *)
Record ordered_on {A} (P : A -> Prop) (cmp : A -> A -> Z) : Prop := {
  cmp_sym : forall x y, P x -> P y -> Z.sgn (cmp y x) = - Z.sgn (cmp x y);
  cmp_trans : forall x y z, P x -> P y -> P z -> cmp x y <= 0 -> cmp y z <= 0 -> cmp x z <= 0;
}.

Section SortOn.
Context {A : Type} (P : A -> Prop) (cmp : A -> A -> Z) (Hcmp : ordered_on P cmp).

Lemma insert_sorted_on (x : A) (l : list A) :
  P x -> Forall P l -> StronglySorted (fun a b => cmp a b <= 0) l ->
  StronglySorted (fun a b => cmp a b <= 0) (sort_insert (fun a b => 0 <? cmp a b) x l).
Proof.
  intros Hx Hl. induction 1 as [|y l Hs IH Hall]; cbn; [by repeat constructor|].
  apply List.Forall_cons_iff in Hl as [Hy Hl]. destruct (Z.ltb_spec 0 (cmp x y)) as [E|E].
  - constructor; [by apply IH|]. apply List.Forall_forall. intros z Hz.
    apply (Permutation_in _ (sort_insert_perm _ x l)) in Hz as [<-|Hz].
    + pose proof (cmp_sym P cmp Hcmp x y Hx Hy). lia.
    + rewrite List.Forall_forall in Hall. by apply Hall.
  - constructor; [by constructor|]. constructor; [done|]. apply List.Forall_forall. intros z Hz.
    rewrite List.Forall_forall in Hall, Hl. apply (cmp_trans P cmp Hcmp x y z); auto.
Qed.

Lemma sort_sorted_on (l : list A) : Forall P l -> StronglySorted (fun a b => cmp a b <= 0) (sort_with cmp l).
Proof.
  induction 1 as [|x l Hx Hl IH]; cbn; [constructor|]. apply insert_sorted_on; auto.
  apply List.Forall_forall. intros y Hy%js_sort_elem. rewrite List.Forall_forall in Hl. by apply Hl.
Qed.
End SortOn.

Lemma sort_with_perm {A} (cmp : A -> A -> Z) (l : list A) : Permutation (sort_with cmp l) l.
Proof. apply js_sort_perm. Qed.

Lemma sign_sub (x y : num) :
  num_ok x = true -> num_ok y = true -> num_sign (num_sub x y) = Z.sgn (units x - units y).
Proof.
  intros Hx Hy. pose proof (sub_units x y Hx Hy) as H. unfold num_sign, num_ltb, SFltb.
  assert (Hz : SFcompare num_zero (num_sub x y) = Some (CompOpp (units x ?= units y)))
    by (destruct (num_sub x y) as [[]|[]| |[] ? ?]; cbn in H |- *; try done; by injection H as <-).
  rewrite H, Hz. destruct (Z.compare_spec (units x) (units y)); cbn; lia.
Qed.

Lemma cmp_num_ordered {A} (key : A -> num) : ordered_on (fun a => num_ok (key a) = true) (cmp_num key).
Proof.
  split; unfold cmp_num.
  - intros x y Hx Hy. rewrite !sign_sub by done. lia.
  - intros x y z Hx Hy Hz. rewrite !sign_sub by done. lia.
Qed.

Lemma cmp_rev_ordered {A} (P : A -> Prop) (c : A -> A -> Z) : ordered_on P c -> ordered_on P (cmp_rev c).
Proof.
  intros [Hs Ht]. unfold cmp_rev. split.
  - intros x y Hx Hy. specialize (Hs x y Hx Hy). lia.
  - intros x y z Hx Hy Hz H1 H2. pose proof (Hs x y Hx Hy). pose proof (Hs y z Hy Hz). pose proof (Hs x z Hx Hz).
    pose proof (Ht z y x Hz Hy Hx). lia.
Qed.

Lemma ordered_weaken {A} (P Q : A -> Prop) (c : A -> A -> Z) :
  (forall x, Q x -> P x) -> ordered_on P c -> ordered_on Q c.
Proof. intros H [Hs Ht]. split; eauto. Qed.

Lemma cmp_down_ordered {A} (key : A -> num) : ordered_on (fun a => num_ok (key a) = true) (cmp_down key).
Proof.
  split; unfold cmp_down.
  - intros x y Hx Hy. rewrite !sign_sub by done. lia.
  - intros x y z Hx Hy Hz. rewrite !sign_sub by done. lia.
Qed.

Lemma cmp_text_ordered `{Collation} {A} (key : A -> string) : ordered_on (fun _ => True) (cmp_text key).
Proof.
  split; unfold cmp_text.
  - intros x y _ _. apply localeCompare_sym.
  - intros x y z _ _ _. apply localeCompare_trans.
Qed.

Lemma cmp_or_ordered {A} (P : A -> Prop) (c1 c2 : A -> A -> Z) :
  ordered_on P c1 -> ordered_on P c2 -> ordered_on P (cmp_or c1 c2).
Proof.
  intros [S1 T1] [S2 T2]. unfold cmp_or. split.
  - intros x y Hx Hy. specialize (S1 x y Hx Hy). specialize (S2 x y Hx Hy).
    destruct (Z.eqb_spec (c1 x y) 0), (Z.eqb_spec (c1 y x) 0); lia.
  - intros x y z Hx Hy Hz. pose proof (S1 x y Hx Hy). pose proof (S1 y z Hy Hz). pose proof (S1 x z Hx Hz).
    pose proof (T1 x y z Hx Hy Hz). pose proof (T1 z y x Hz Hy Hx). pose proof (T2 x y z Hx Hy Hz).
    pose proof (T1 y z x Hy Hz Hx). pose proof (T1 z x y Hz Hx Hy). pose proof (T1 y x z Hy Hx Hz). pose proof (T1 x z y Hx Hz Hy).
    destruct (Z.eqb_spec (c1 x y) 0), (Z.eqb_spec (c1 y z) 0), (Z.eqb_spec (c1 x z) 0); lia.
Qed.

Create HintDb orders.
#[export] Hint Resolve cmp_num_ordered cmp_down_ordered cmp_rev_ordered cmp_text_ordered cmp_or_ordered : orders.

(** ** The best of a list by folding *)

(** [(best, row) => !best || better(row, best) ? row : best] *)
Definition best_step {A} (better : A -> A -> bool) (best : option A) (row : A) : option A :=
  match best with
  | None => Some row
  | Some b => if better row b then Some row else Some b
  end.
Definition best_by {A} (better : A -> A -> bool) (l : list A) : option A := fold_left (best_step better) l None.

Section Best.
Context {A : Type} (better : A -> A -> bool) (P : A -> Prop) (score : A -> Z).
Hypothesis better_score : forall x y, P x -> P y -> better x y = (score x <? score y).

Lemma best_fold (l : list A) (b : A) :
  P b -> Forall P l ->
  exists r, fold_left (best_step better) l (Some b) = Some r /\ (r = b \/ In r l) /\
            score r <= score b /\ Forall (fun x => score r <= score x) l.
Proof.
  intros Hb Hl. revert b Hb. induction Hl as [|x l Hx Hl IH]; intros b Hb; cbn [fold_left best_step].
  - exists b. repeat split; auto. lia.
  - rewrite better_score by done. destruct (Z.ltb_spec (score x) (score b)).
    + destruct (IH x Hx) as (r & -> & Hin & Hxr & Hall). exists r.
      repeat split; [destruct Hin; cbn; auto|lia|by constructor].
    + destruct (IH b Hb) as (r & -> & Hin & Hbr & Hall). exists r.
      repeat split; [destruct Hin; cbn; auto|lia|constructor; [lia|done]].
Qed.

(** The best is an element that none is better than; only an empty list has none. *)
Lemma best_by_least (l : list A) :
  Forall P l ->
  match best_by better l with
  | None => l = []
  | Some r => In r l /\ Forall (fun x => score r <= score x) l
  end.
Proof.
  intros Hl. unfold best_by. destruct Hl as [|x l Hx Hl]; [done|]. cbn [fold_left best_step].
  destruct (best_fold l x Hx Hl) as (r & -> & Hin & Hxr & Hall).
  split; [destruct Hin; cbn; auto|by constructor].
Qed.
End Best.

(** The least and the most of a list by a number of its elements *)
Lemma best_least_by {A} (key : A -> num) (l : list A) :
  Forall (fun a => num_ok (key a) = true) l ->
  match best_by (fun a best => num_ltb (key a) (key best)) l with
  | None => l = []
  | Some r => In r l /\ Forall (fun a => num_ltb (key a) (key r) = false) l
  end.
Proof.
  intros Hl.
  pose proof (best_by_least _ (fun a => num_ok (key a) = true) (fun a => units (key a)) ltac:(intros; by apply ltb_units) l Hl) as H.
  destruct (best_by _ l) as [r|]; [|done]. destruct H as [Hin Hr]. split; [done|].
  rewrite List.Forall_forall in *. intros a Ha. rewrite ltb_units by auto. apply Z.ltb_ge. auto.
Qed.

Lemma best_most_by {A} (key : A -> num) (l : list A) :
  Forall (fun a => num_ok (key a) = true) l ->
  match best_by (fun a best => num_gtb (key a) (key best)) l with
  | None => l = []
  | Some r => In r l /\ Forall (fun a => num_gtb (key a) (key r) = false) l
  end.
Proof.
  intros Hl.
  pose proof (best_by_least (fun a best => num_gtb (key a) (key best)) (fun a => num_ok (key a) = true) (fun a => - units (key a))
    ltac:(intros x y Hx Hy; cbn beta; change (num_gtb ?a ?b) with (num_ltb b a); rewrite ltb_units by done;
          destruct (Z.ltb_spec (units (key y)) (units (key x))); symmetry; [apply Z.ltb_lt|apply Z.ltb_ge]; lia) l Hl) as H.
  destruct (best_by _ l) as [r|]; [|done]. destruct H as [Hin Hr]. split; [done|].
  rewrite List.Forall_forall in *. intros a Ha. change (num_gtb ?a ?b) with (num_ltb b a).
  rewrite ltb_units by auto. apply Z.ltb_ge. specialize (Hr a Ha). cbn in Hr. lia.
Qed.

(** ** Signs *)

Lemma eqb_sub_units (x y : num) :
  num_ok x = true -> num_ok y = true -> num_eqb (num_sub x y) num_zero = (units x =? units y).
Proof.
  intros Hx Hy. unfold num_eqb, SFeqb. rewrite (sub_units x y Hx Hy).
  destruct (Z.compare_spec (units x) (units y)); lia.
Qed.

Lemma sign_opp (x : num) : num_sign (SFopp x) = - num_sign x.
Proof. by destruct x as [[]|[]| |[] ? ?]. Qed.

Lemma compare_of_Z (z : Z) : SFcompare (num_of_Z z) num_zero = Some (z ?= 0).
Proof. apply normalize_sign. lia. Qed.

Lemma sign_of_Z (z : Z) : num_sign (num_of_Z z) = Z.sgn z.
Proof.
  pose proof (compare_of_Z z) as H. unfold num_sign, num_ltb, SFltb. rewrite H.
  destruct z; [done| |done]. destruct (num_of_Z _) as [[]|[]| |[] ? ?]; cbn in H |- *; congruence.
Qed.

Lemma eqb_of_Z (z : Z) : num_eqb (num_of_Z z) num_zero = (z =? 0).
Proof. unfold num_eqb, SFeqb. rewrite compare_of_Z. by destruct z. Qed.

(** Only the signs of a comparison matter. *)
Lemma ordered_ext {A} (P : A -> Prop) (c c' : A -> A -> Z) :
  (forall x y, P x -> P y -> Z.sgn (c x y) = Z.sgn (c' x y)) -> ordered_on P c' -> ordered_on P c.
Proof.
  intros H [Hs Ht]. split.
  - intros x y Hx Hy. rewrite (H y x), (H x y) by done. auto.
  - intros x y z Hx Hy Hz H1 H2. pose proof (H x y Hx Hy). pose proof (H y z Hy Hz). pose proof (H x z Hx Hz).
    pose proof (Ht x y z Hx Hy Hz). lia.
Qed.
