(* ===== verification/Json.v ===== *)
(** * JSON.parse and JSON.stringify

    The text format the console speaks on every wire: request and response
    bodies, and the session kept in localStorage.  [json_parse] is a
    recursive-descent parser of the JSON grammar on the UTF-8 text; its fuel is
    twice the length of the text, because each pair of nested calls consumes a
    character.  [json_stringify] writes a value the way [JSON.stringify] does
    without indentation: undefined members are left out, undefined elements and
    non-finite numbers become null. *)

From S2P Require Import Prelude JsNumber JsText JsValue.
Local Open Scope string_scope.

Definition quote : ascii := "034".
Definition backslash : ascii := "092".

(** ** Output *)

Definition hex_lower (n : nat) : ascii :=
  if Nat.ltb n 10 then byte (48 + n) else byte (87 + n).

Definition json_escape_char (c : ascii) : string :=
  if Ascii.eqb c quote then String backslash (String quote "")
  else if Ascii.eqb c backslash then String backslash (String backslash "")
  else if Nat.ltb (code c) 32 then
    match code c with
    | 8 => String backslash "b"
    | 9 => String backslash "t"
    | 10 => String backslash "n"
    | 12 => String backslash "f"
    | 13 => String backslash "r"
    | n => String backslash
             ("u00" ++ String (hex_lower (Nat.div n 16)) (String (hex_lower (Nat.modulo n 16)) ""))
    end
  else String c "".

Fixpoint json_escape (s : string) : string :=
  match s with
  | EmptyString => ""
  | String c s' => json_escape_char c ++ json_escape s'
  end.

Definition json_quote (s : string) : string :=
  String quote (json_escape s ++ String quote "").

Definition json_num (n : num) : string :=
  if num_is_finite n then num_to_string n else "null".

Fixpoint json_str (v : js) : string :=
  match v with
  | JUndef | JNull => "null"
  | JBool b => if b then "true" else "false"
  | JNum n => json_num n
  | JStr s => json_quote s
  | JArr l => "[" ++ str_join "," (map json_str l) ++ "]"
  | JObj m =>
      "{" ++ str_join ","
               ((fix go (m : list (string * js)) : list string :=
                   match m with
                   | [] => []
                   | (k, x) :: m' =>
                       if is_undefined x then go m'
                       else (json_quote k ++ ":" ++ json_str x) :: go m'
                   end) m)
          ++ "}"
  end.

(** [JSON.stringify(v)]: undefined has no text. *)
Definition json_stringify (v : js) : option string :=
  if is_undefined v then None else Some (json_str v).

(** ** Input *)

Fixpoint skip_ws (s : string) : string :=
  match s with
  | String c s' =>
      if (Ascii.eqb c " " || Ascii.eqb c "009" || Ascii.eqb c "010" || Ascii.eqb c "013")%bool
      then skip_ws s' else s
  | EmptyString => ""
  end.

Definition hex4 (a b c d : ascii) : option N :=
  match hex_value a, hex_value b, hex_value c, hex_value d with
  | Some w, Some x, Some y, Some z => Some (N.of_nat (4096 * w + 256 * x + 16 * y + z))
  | _, _, _, _ => None
  end.

Definition simple_escape (c : ascii) : option ascii :=
  if (Ascii.eqb c quote || Ascii.eqb c backslash || Ascii.eqb c "/")%bool then Some c
  else if Ascii.eqb c "b" then Some (byte 8)
  else if Ascii.eqb c "f" then Some (byte 12)
  else if Ascii.eqb c "n" then Some (byte 10)
  else if Ascii.eqb c "r" then Some (byte 13)
  else if Ascii.eqb c "t" then Some (byte 9)
  else None.

(** A surrogate pair written as two escapes is one code point. *)
Definition pair_code (hi lo : N) : option N :=
  if ((55296 <=? hi) && (hi <=? 56319) && (56320 <=? lo) && (lo <=? 57343))%N%bool
  then Some (65536 + (hi - 55296) * 1024 + (lo - 56320))%N else None.

Definition cons_text (t : string) (r : option (string * string)) : option (string * string) :=
  match r with Some (u, rest) => Some (t ++ u, rest) | None => None end.

(** The characters of a string literal after its opening quote, and what
    follows the closing one. *)
Fixpoint parse_chars (s : string) : option (string * string) :=
  match s with
  | EmptyString => None
  | String c s1 =>
      if Ascii.eqb c quote then Some ("", s1)
      else if Ascii.eqb c backslash then
        match s1 with
        | String e s2 =>
            if Ascii.eqb e "u" then
              match s2 with
              | String a (String b (String c4 (String d s6))) =>
                  match hex4 a b c4 d with
                  | None => None
                  | Some u =>
                      match s6 with
                      | String x (String y (String a' (String b' (String c' (String d' s12))))) =>
                          match (if (Ascii.eqb x backslash && Ascii.eqb y "u")%bool
                                 then match hex4 a' b' c' d' with
                                      | Some u' => pair_code u u'
                                      | None => None
                                      end
                                 else None) with
                          | Some cp => cons_text (utf8_encode cp) (parse_chars s12)
                          | None => cons_text (utf8_encode u) (parse_chars s6)
                          end
                      | _ => cons_text (utf8_encode u) (parse_chars s6)
                      end
                  end
              | _ => None
              end
            else match simple_escape e with
                 | Some r => cons_text (String r "") (parse_chars s2)
                 | None => None
                 end
        | EmptyString => None
        end
      else if Nat.ltb (code c) 32 then None
      else cons_text (String c "") (parse_chars s1)
  end.

Definition parse_json_exponent (neg : bool) (m : Z) (nf : nat) (s : string)
  : option (num * string) :=
  let finish ex rest := Some (decimal_to_num neg m (ex - Z.of_nat nf), rest) in
  let digits sign t := match scan_digits 0 0 t with
                       | (v, S _, rest) => finish (sign * v)%Z rest
                       | _ => None
                       end in
  match s with
  | String c t =>
      if (Ascii.eqb c "e" || Ascii.eqb c "E")%bool then
        match t with
        | String "+" u => digits 1%Z u
        | String "-" u => digits (-1)%Z u
        | _ => digits 1%Z t
        end
      else finish 0%Z s
  | EmptyString => finish 0%Z s
  end.

(** The number grammar: no leading zero, digits on both sides of a point. *)
Definition parse_json_number (s : string) : option (num * string) :=
  let '(neg, t) := match s with String "-" t => (true, t) | _ => (false, s) end in
  match scan_digits 0 0 t with
  | (_, O, _) => None
  | (ip, ni, rest) =>
      if (starts_with "0" t && Nat.ltb 1 ni)%bool then None
      else match rest with
           | String "." u =>
               match scan_digits ip 0 u with
               | (m, S nf, r) => parse_json_exponent neg m (S nf) r
               | _ => None
               end
           | _ => parse_json_exponent neg ip 0 rest
           end
  end.

Definition parse_literal (s : string) : option (js * string) :=
  if starts_with "true" s then Some (JBool true, str_drop 4 s)
  else if starts_with "false" s then Some (JBool false, str_drop 5 s)
  else if starts_with "null" s then Some (JNull, str_drop 4 s)
  else match parse_json_number s with
       | Some (n, rest) => Some (JNum n, rest)
       | None => None
       end.

Fixpoint parse_value (fuel : nat) (s : string) : option (js * string) :=
  match fuel with
  | O => None
  | S f =>
      match skip_ws s with
      | EmptyString => None
      | String c t =>
          if Ascii.eqb c "{" then
            match skip_ws t with
            | String "}" u => Some (JObj [], u)
            | _ => match parse_members f [] t with
                   | Some (m, rest) => Some (JObj m, rest)
                   | None => None
                   end
            end
          else if Ascii.eqb c "[" then
            match skip_ws t with
            | String "]" u => Some (JArr [], u)
            | _ => match parse_elements f t with
                   | Some (l, rest) => Some (JArr l, rest)
                   | None => None
                   end
            end
          else if Ascii.eqb c quote then
            match parse_chars t with
            | Some (u, rest) => Some (JStr u, rest)
            | None => None
            end
          else parse_literal (String c t)
      end
  end
with parse_elements (fuel : nat) (s : string) : option (list js * string) :=
  match fuel with
  | O => None
  | S f =>
      match parse_value f s with
      | None => None
      | Some (v, r) =>
          match skip_ws r with
          | String "," r' => match parse_elements f r' with
                             | Some (l, rest) => Some (v :: l, rest)
                             | None => None
                             end
          | String "]" r' => Some ([v], r')
          | _ => None
          end
      end
  end
with parse_members (fuel : nat) (acc : list (string * js)) (s : string)
  : option (list (string * js) * string) :=
  match fuel with
  | O => None
  | S f =>
      match skip_ws s with
      | String c t =>
          if Ascii.eqb c quote then
            match parse_chars t with
            | None => None
            | Some (k, r) =>
                match skip_ws r with
                | String ":" r' =>
                    match parse_value f r' with
                    | None => None
                    | Some (v, r2) =>
                        match skip_ws r2 with
                        | String "," r3 => parse_members f (obj_set k v acc) r3
                        | String "}" r3 => Some (obj_set k v acc, r3)
                        | _ => None
                        end
                    end
                | _ => None
                end
            end
          else None
      | EmptyString => None
      end
  end.

(** [JSON.parse(s)]: [None] is the SyntaxError. *)
Definition json_parse (s : string) : option js :=
  match parse_value (2 * String.length s + 2) s with
  | Some (v, rest) => if String.eqb (skip_ws rest) "" then Some v else None
  | None => None
  end.

(** ** What is parsed is well formed *)

Lemma wf_literal (s : string) (v : js) (r : string) : parse_literal s = Some (v, r) -> wf v.
Proof.
  unfold parse_literal. intros H.
  repeat (match type of H with
          | (if ?b then _ else _) = _ => destruct b
          | match ?x with _ => _ end = _ => destruct x
          | Some _ = Some _ => injection H as <- <-
          end; try done).
Qed.

Lemma wf_nil : wf (JObj []).
Proof. split; [constructor|done]. Qed.

Lemma parse_wf (fuel : nat) :
  (forall s v r, parse_value fuel s = Some (v, r) -> wf v) /\
  (forall s l r, parse_elements fuel s = Some (l, r) -> Forall wf l) /\
  (forall acc s m r, wf (JObj acc) -> parse_members fuel acc s = Some (m, r) -> wf (JObj m)).
Proof.
  induction fuel as [|f (IHv & IHe & IHm)]; [done|].
  split; [|split]; [intros s v r|intros s l r|intros acc s m r Hacc];
    cbn [parse_value parse_elements parse_members]; intros Hp;
    repeat (case_match; try discriminate Hp); simplify_eq;
    eauto using wf_literal, wf_nil, wf_set.
  all: try (by apply wf_arr; eauto).
  all: try done.
Qed.

Lemma json_parse_wf (s : string) (v : js) : json_parse s = Some v -> wf v.
Proof.
  unfold json_parse. destruct (parse_value _ s) as [[u r]|] eqn:E; [|done].
  destruct (String.eqb _ _); [|done]. intros [= <-]. by eapply (proj1 (parse_wf _)).
Qed.

(** ** The fuel of the parser is enough *)

Lemma skip_ws_length (s : string) : String.length (skip_ws s) <= String.length s.
Proof. induction s as [|c s IH]; cbn; [done|]. case_match; cbn; lia. Qed.

Lemma cons_text_some (t : string) (o : option (string * string)) (u r : string) :
  cons_text t o = Some (u, r) -> exists u', o = Some (u', r).
Proof. destruct o as [[u' r']|]; [|done]. cbn. intros [= _ <-]. by eexists. Qed.

Lemma parse_chars_length (n : nat) (s u r : string) :
  String.length s <= n -> parse_chars s = Some (u, r) -> String.length r < String.length s.
Proof.
  revert s u. induction n as [|n IH]; intros [|c s1] u Hn Hp; cbn [parse_chars String.length] in *;
    try done; try lia.
  repeat (case_match; try discriminate Hp); simplify_eq; try lia;
    try (apply cons_text_some in Hp as (u' & Hp); cbn [String.length] in *;
         eapply IH in Hp; [cbn [String.length] in *; lia|cbn [String.length] in *; lia]).
Qed.

Lemma scan_digits_length (acc : Z) (n : nat) (s : string) :
  let '(_, m, r) := scan_digits acc n s in String.length r + m = String.length s + n.
Proof.
  revert acc n. induction s as [|c s IH]; intros acc n; cbn [scan_digits]; [done|].
  destruct (is_digit c); [|done]. specialize (IH (10 * acc + digit_value c)%Z (S n)).
  destruct (scan_digits _ (S n) s) as [[v m] r]. cbn. lia.
Qed.

Lemma exponent_length (neg : bool) (m : Z) (nf : nat) (s : string) (n : num) (r : string) :
  parse_json_exponent neg m nf s = Some (n, r) -> String.length r <= String.length s.
Proof.
  unfold parse_json_exponent. intros Hp.
  assert (Hd : forall sign t, match scan_digits 0 0 t with
      | (v, S _, rest) => Some (decimal_to_num neg m (sign * v - Z.of_nat nf), rest)
      | _ => None end = Some (n, r) -> String.length r <= String.length t).
  { intros sign t. assert (H := scan_digits_length 0 0 t).
    destruct (scan_digits 0 0 t) as [[v [|k]] rest]; [done|]. intros [= _ <-]. lia. }
  destruct s as [|c t]; [by injection Hp as _ <-|].
  destruct (_ || _)%bool; [|by injection Hp as _ <-].
  destruct t as [|d u]; [by apply Hd in Hp; cbn in *; lia|].
  destruct d as [[] [] [] [] [] [] [] []]; apply Hd in Hp; cbn [String.length] in *; lia.
Qed.

Lemma number_length (s : string) (n : num) (r : string) :
  parse_json_number s = Some (n, r) -> String.length r < String.length s.
Proof.
  unfold parse_json_number.
  assert (Hgo : forall neg t, match scan_digits 0 0 t with
    | (_, O, _) => None
    | (ip, ni, rest) =>
        if (starts_with "0" t && Nat.ltb 1 ni)%bool then None
        else match rest with
             | String "." u => match scan_digits ip 0 u with
                               | (m, S nf, r) => parse_json_exponent neg m (S nf) r
                               | _ => None
                               end
             | _ => parse_json_exponent neg ip 0 rest
             end
    end = Some (n, r) -> String.length r < String.length t).
  { intros neg t. assert (H := scan_digits_length 0 0 t).
    destruct (scan_digits 0 0 t) as [[ip [|ni]] rest]; [done|]. destruct (_ && _)%bool; [done|].
    assert (Hplain : parse_json_exponent neg ip 0 rest = Some (n, r) ->
      String.length r < String.length t) by (intros He%exponent_length; lia).
    destruct rest as [|d u]; [exact Hplain|].
    destruct d as [[] [] [] [] [] [] [] []]; try exact Hplain.
    assert (H' := scan_digits_length ip 0 u).
    destruct (scan_digits ip 0 u) as [[m [|nf]] r0]; [done|]. intros He%exponent_length.
    cbn [String.length] in H. lia. }
  destruct (match s with String "-" t => (true, t) | _ => (false, s) end) as [neg t] eqn:E.
  intros Hp%Hgo. enough (String.length t <= String.length s) by lia. clear - E.
  destruct s as [|d u]; [by simplify_eq|].
  destruct d as [[] [] [] [] [] [] [] []]; simplify_eq; cbn; lia.
Qed.

Lemma str_drop_length (k : nat) (s : string) :
  String.length (str_drop k s) <= String.length s.
Proof. revert s. induction k as [|k IH]; intros [|c s]; cbn; [done|done|done|]. specialize (IH s). lia. Qed.

Lemma literal_length (s : string) (v : js) (r : string) :
  parse_literal s = Some (v, r) -> String.length r < String.length s.
Proof.
  unfold parse_literal. destruct s as [|c t]; [done|].
  assert (Hd : forall k, String.length (str_drop (S k) (String c t)) < String.length (String c t)).
  { intros k. cbn. assert (H := str_drop_length k t). lia. }
  destruct (starts_with "true" _); [intros [= _ <-]; exact (Hd 3)|].
  destruct (starts_with "false" _); [intros [= _ <-]; exact (Hd 4)|].
  destruct (starts_with "null" _); [intros [= _ <-]; exact (Hd 3)|].
  destruct (parse_json_number (String c t)) as [[n r0]|] eqn:E; [|done].
  intros [= _ <-]. by eapply number_length.
Qed.

(** Closes a goal about the length of what is left, from the facts in the context. *)
Ltac shorter := cbn [String.length] in *; lia.

Lemma parse_length (fuel : nat) :
  (forall s v r, parse_value fuel s = Some (v, r) -> String.length r < String.length s) /\
  (forall s l r, parse_elements fuel s = Some (l, r) -> String.length r < String.length s) /\
  (forall acc s m r, parse_members fuel acc s = Some (m, r) -> String.length r < String.length s).
Proof.
  induction fuel as [|f (IHv & IHe & IHm)]; [done|].
  split; [|split]; [intros s v r|intros s l r|intros acc s m r];
    cbn [parse_value parse_elements parse_members]; intros Hp.
  - assert (Hs := skip_ws_length s). destruct (skip_ws s) as [|c t]; [done|].
    assert (Ht := skip_ws_length t).
    repeat (case_match; try discriminate Hp); simplify_eq;
      repeat match goal with
      | H : parse_members _ _ _ = Some _ |- _ => apply IHm in H
      | H : parse_elements _ _ = Some _ |- _ => apply IHe in H
      | H : parse_chars _ = Some _ |- _ => eapply parse_chars_length in H; [|done]
      | H : parse_literal _ = Some _ |- _ => apply literal_length in H
      end; shorter.
  - destruct (parse_value f s) as [[v0 r0]|] eqn:Ev; [|done]. apply IHv in Ev.
    assert (Hs := skip_ws_length r0).
    repeat (case_match; try discriminate Hp); simplify_eq;
      repeat match goal with
      | H : parse_elements _ _ = Some _ |- _ => apply IHe in H
      end; shorter.
  - assert (Hs := skip_ws_length s). destruct (skip_ws s) as [|c t]; [done|].
    destruct (Ascii.eqb c quote); [|done]. destruct (parse_chars t) as [[k r0]|] eqn:Ec; [|done].
    eapply parse_chars_length in Ec; [|done]. assert (Hr := skip_ws_length r0).
    destruct (skip_ws r0) as [|d r1]; [done|].
    destruct d as [[] [] [] [] [] [] [] []]; try discriminate Hp.
    destruct (parse_value f r1) as [[v r2]|] eqn:Ev; [|done]. apply IHv in Ev.
    assert (Hr2 := skip_ws_length r2).
    repeat (case_match; try discriminate Hp); simplify_eq;
      repeat match goal with
      | H : parse_members _ _ _ = Some _ |- _ => apply IHm in H
      end; shorter.
Qed.

(** What some fuel parses, fuel of twice the length parses too. *)
Lemma parse_enough (n : nat) :
  (forall s x, parse_value n s = Some x ->
     forall m, 2 * String.length s + 1 <= m -> parse_value m s = Some x) /\
  (forall s x, parse_elements n s = Some x ->
     forall m, 2 * String.length s + 2 <= m -> parse_elements m s = Some x) /\
  (forall acc s x, parse_members n acc s = Some x ->
     forall m, 2 * String.length s + 2 <= m -> parse_members m acc s = Some x).
Proof.
  induction n as [|n (IHv & IHe & IHm)]; [done|].
  split; [|split]; [intros s x Hp [|m] Hm|intros s x Hp [|m] Hm|intros acc s x Hp [|m] Hm]; try lia;
    cbn [parse_value parse_elements parse_members] in *.
  - assert (Hs := skip_ws_length s). destruct (skip_ws s) as [|c t]; [done|].
    destruct (Ascii.eqb c "{").
    { destruct (parse_members n [] t) as [y|] eqn:Em.
      - rewrite (IHm _ _ _ Em) by shorter. exact Hp.
      - destruct (skip_ws t) as [|d u]; [done|].
        destruct d as [[] [] [] [] [] [] [] []]; try discriminate Hp; exact Hp. }
    destruct (Ascii.eqb c "["); [|exact Hp].
    destruct (parse_elements n t) as [y|] eqn:Ee.
    + rewrite (IHe _ _ Ee) by shorter. exact Hp.
    + destruct (skip_ws t) as [|d u]; [done|].
      destruct d as [[] [] [] [] [] [] [] []]; try discriminate Hp; exact Hp.
  - destruct (parse_value n s) as [[v r]|] eqn:Ev; [|done].
    rewrite (IHv _ _ Ev) by shorter. apply (proj1 (parse_length n)) in Ev.
    assert (Hr := skip_ws_length r). destruct (skip_ws r) as [|d u]; [done|].
    destruct (parse_elements n u) as [y|] eqn:Ee.
    + rewrite (IHe _ _ Ee) by shorter. exact Hp.
    + destruct d as [[] [] [] [] [] [] [] []]; try discriminate Hp; exact Hp.
  - assert (Hs := skip_ws_length s). destruct (skip_ws s) as [|c t]; [done|].
    destruct (Ascii.eqb c quote); [|done]. destruct (parse_chars t) as [[k r0]|] eqn:Ec; [|done].
    eapply parse_chars_length in Ec; [|done]. assert (Hr := skip_ws_length r0).
    destruct (skip_ws r0) as [|d r1]; [done|].
    destruct d as [[] [] [] [] [] [] [] []]; try discriminate Hp.
    destruct (parse_value n r1) as [[v r2]|] eqn:Ev; [|done].
    rewrite (IHv _ _ Ev) by shorter. apply (proj1 (parse_length n)) in Ev.
    assert (Hr2 := skip_ws_length r2). destruct (skip_ws r2) as [|d u]; [done|].
    destruct (parse_members n (obj_set k v acc) u) as [y|] eqn:Em.
    + rewrite (IHm _ _ _ Em) by shorter. exact Hp.
    + destruct d as [[] [] [] [] [] [] [] []]; try discriminate Hp; exact Hp.
Qed.

(** [json_parse] gives a value exactly when the grammar does, whatever the fuel. *)
Lemma json_parse_complete (s : string) (v : js) :
  json_parse s = Some v <->
  exists n r, parse_value n s = Some (v, r) /\ skip_ws r = "".
Proof.
  unfold json_parse. split.
  - destruct (parse_value _ s) as [[u r]|] eqn:E; [|done].
    destruct (String.eqb_spec (skip_ws r) ""); [|done]. intros [= <-]. eauto.
  - intros (n & r & Hp & Hr).
    rewrite (proj1 (parse_enough n) s (v, r) Hp) by lia. by rewrite Hr.
Qed.
