(* ===== verification/JsonRoundTrip.v ===== *)
(** * JSON.parse after JSON.stringify

    A value that JSON can carry survives the trip over the wire: what one side writes with
    [json_str], the other side reads back with [json_parse]. *)

From S2P Require Import Prelude JsNumber JsText JsValue Json.
From Stdlib Require Import SpecFloat Sorting.Sorted.
Local Open Scope string_scope.

(** A number whose text reads back as itself; both sides compute, so a concrete number is
    checked by evaluation. *)
Definition num_reads (n : num) : Prop :=
  num_is_finite n = true /\ parse_json_number (num_to_string n) = Some (n, "").

(** The values that survive: nothing is undefined, numbers read back, and the properties of
    an object are in the order in which assigning them one by one enumerates them. *)
Fixpoint carried (v : js) : Prop :=
  match v with
  | JUndef => False
  | JNum n => num_reads n
  | JArr l => (fix go (l : list js) : Prop :=
                 match l with [] => True | x :: l' => carried x /\ go l' end) l
  | JObj m => obj_spread [] m = m /\
              (fix go (m : list (string * js)) : Prop :=
                 match m with [] => True | (_, x) :: m' => carried x /\ go m' end) m
  | _ => True
  end.

Lemma carried_arr (l : list js) : carried (JArr l) <-> Forall carried l.
Proof.
  induction l as [|x l IH]; [by split|]. rewrite List.Forall_cons_iff, <- IH. done.
Qed.

Lemma carried_obj (m : obj) :
  carried (JObj m) <-> obj_spread [] m = m /\ Forall (fun kv => carried kv.2) m.
Proof.
  cbn. generalize (obj_spread [] m = m) as P. intros P. apply and_iff_compat_l.
  induction m as [|[k x] m IH]; [by split|]. rewrite List.Forall_cons_iff, <- IH. done.
Qed.

(** ** What may follow a value *)

Definition stops (rest : string) : Prop :=
  match rest with
  | EmptyString => True
  | String c _ => c = ","%char \/ c = "]"%char \/ c = "}"%char
  end.

(** ** Numbers *)

Lemma stops_digits (rest : string) (acc : Z) (k : nat) :
  stops rest -> scan_digits acc k rest = (acc, k, rest).
Proof. destruct rest as [|c rest]; [done|]. by intros [->|[->| ->]]. Qed.

Lemma scan_digits_app (s rest : string) (acc : Z) (k : nat) (v : Z) (c : nat) (r : string) :
  stops rest -> scan_digits acc k s = (v, c, r) -> scan_digits acc k (s ++ rest) = (v, c, r ++ rest).
Proof.
  intros Hr. revert acc k. induction s as [|d s IH]; intros acc k; cbn.
  - intros [= <- <- <-]. by apply stops_digits.
  - destruct (is_digit d); [apply IH|]. by intros [= <- <- <-].
Qed.

Lemma exponent_app (neg : bool) (m : Z) (nf : nat) (s rest : string) (n : num) (r : string) :
  stops rest -> parse_json_exponent neg m nf s = Some (n, r) ->
  parse_json_exponent neg m nf (s ++ rest) = Some (n, r ++ rest).
Proof.
  intros Hr. unfold parse_json_exponent.
  assert (Hd : forall sign t,
    match scan_digits 0 0 t with
    | (v, S _, rest') => Some (decimal_to_num neg m (sign * v - Z.of_nat nf), rest')
    | _ => None end = Some (n, r) ->
    match scan_digits 0 0 (t ++ rest) with
    | (v, S _, rest') => Some (decimal_to_num neg m (sign * v - Z.of_nat nf), rest')
    | _ => None end = Some (n, r ++ rest)).
  { intros sign t. destruct (scan_digits 0 0 t) as [[v [|c]] r'] eqn:E; [done|].
    rewrite (scan_digits_app t rest 0 0 v (S c) r' Hr E). by intros [= <- <-]. }
  destruct s as [|c t]; cbn [String.append].
  - intros [= <- <-]. destruct rest as [|c rest]; [done|]. by destruct Hr as [->|[->| ->]].
  - destruct (_ || _)%bool; [|by intros [= <- <-]].
    destruct t as [|d u].
    + cbn. done.
    + cbn [String.append]. destruct d as [[] [] [] [] [] [] [] []]; first [apply Hd|apply (Hd 1%Z (String _ u))].
Qed.

Lemma number_app (s rest : string) (n : num) (r : string) :
  stops rest -> parse_json_number s = Some (n, r) -> parse_json_number (s ++ rest) = Some (n, r ++ rest).
Proof.
  intros Hr. unfold parse_json_number.
  set (split := fun s : string => match s with String "-" t => (true, t) | _ => (false, s) end).
  assert (Hs : s <> "" -> split (s ++ rest) = ((split s).1, (split s).2 ++ rest)).
  { destruct s as [|c s]; [done|]. intros _.
    destruct c as [[] [] [] [] [] [] [] []]; done. }
  change (match s with String "-" t => (true, t) | _ => (false, s) end) with (split s).
  change (match s ++ rest with String "-" t => (true, t) | _ => (false, s ++ rest) end) with (split (s ++ rest)).
  destruct (decide (s = "")) as [-> |Hne]; [done|]. rewrite (Hs Hne).
  destruct (split s) as [neg t]. cbn [fst snd].
  destruct (scan_digits 0 0 t) as [[ip [|ni]] r'] eqn:E; [done|].
  rewrite (scan_digits_app t rest 0 0 ip (S ni) r' Hr E).
  assert (Ht : starts_with "0" (t ++ rest) = starts_with "0" t).
  { destruct t as [|c t]; [done|]. unfold starts_with. cbn. case_match; [|done].
    by destruct t, rest. }
  rewrite Ht. destruct (starts_with "0" t && Nat.ltb 1 (S ni))%bool; [done|].
  assert (He : parse_json_exponent neg ip 0 r' = Some (n, r) ->
               parse_json_exponent neg ip 0 (r' ++ rest) = Some (n, r ++ rest)) by (by apply exponent_app).
  destruct r' as [|c u].
  { intros H. specialize (He H). cbn [String.append] in He |- *. destruct rest as [|c rest]; [done|].
    by destruct Hr as [->|[->| ->]]. }
  destruct c as [[] [] [] [] [] [] [] []]; try exact He.
  cbn [String.append]. destruct (scan_digits ip 0 u) as [[m [|nf]] r1] eqn:E1; [done|].
  rewrite (scan_digits_app u rest ip 0 m (S nf) r1 Hr E1). by apply exponent_app.
Qed.

(** ** Strings *)

Lemma parse_chars_u00 (a b : ascii) (u : N) (s : string) :
  hex4 "0" "0" a b = Some u -> (u < 256)%N ->
  parse_chars (String backslash (String "u" (String "0" (String "0" (String a (String b s))))))
  = cons_text (utf8_encode u) (parse_chars s).
Proof.
  intros Hu Hlt. cbn [parse_chars]. cbn -[hex4 pair_code cons_text utf8_encode parse_chars].
  rewrite Hu. destruct s as [|x [|y [|a' [|b' [|c' [|d' s12]]]]]]; try done.
  destruct (_ && _)%bool; [|done]. destruct (hex4 a' b' c' d') as [u'|]; [|done].
  unfold pair_code. destruct (N.leb_spec 55296 u); [lia|done].
Qed.

Lemma parse_escaped (c : ascii) (s : string) :
  parse_chars (json_escape_char c ++ s) = cons_text (String c "") (parse_chars s).
Proof.
  destruct c as [[] [] [] [] [] [] [] []];
    first [reflexivity
          |etransitivity; [eapply parse_chars_u00; [vm_compute; reflexivity|vm_compute; reflexivity]|reflexivity]].
Qed.

Lemma parse_quoted (s rest : string) :
  parse_chars (json_escape s ++ String quote rest) = Some (s, rest).
Proof.
  induction s as [|c s IH]; [done|]. cbn [json_escape].
  rewrite str_app_assoc, parse_escaped, IH. done.
Qed.

(** ** Values *)

(** A character a value's text may start with: neither white space nor a closing bracket. *)
Definition opens (c : ascii) : bool :=
  negb (Ascii.eqb c " " || Ascii.eqb c "009" || Ascii.eqb c "010" || Ascii.eqb c "013" ||
        Ascii.eqb c "]" || Ascii.eqb c "}").

Lemma opens_ws (c : ascii) (s : string) : opens c = true -> skip_ws (String c s) = String c s.
Proof. by destruct c as [[] [] [] [] [] [] [] []]. Qed.

Lemma stops_ws (rest : string) : stops rest -> skip_ws rest = rest.
Proof. destruct rest as [|c rest]; [done|]. by intros [->|[->| ->]]. Qed.

Lemma number_head (s : string) (n : num) (r : string) :
  parse_json_number s = Some (n, r) ->
  exists c t, s = String c t /\ (c = "-"%char \/ is_digit c = true).
Proof.
  destruct s as [|c t]; [done|]. intros H. exists c, t. split; [done|].
  destruct (is_digit c) eqn:Ed; [by right|left]. unfold parse_json_number in H.
  destruct c as [[] [] [] [] [] [] [] []]; first [done|discriminate H|exfalso; cbn in H; rewrite ?Ed in H; done].
Qed.

Lemma number_literal (s : string) (n : num) (rest : string) (f : nat) :
  parse_json_number s = Some (n, "") -> stops rest ->
  parse_value (S f) (s ++ rest) = Some (JNum n, rest).
Proof.
  intros Hp Hr. assert (Ha := number_app s rest n "" Hr Hp).
  apply number_head in Hp as (c & t & -> & Hc). cbn [String.append] in *.
  assert (Hlit : parse_literal (String c (t ++ rest)) = Some (JNum n, rest)).
  { unfold parse_literal. rewrite Ha. unfold starts_with.
    by destruct c as [[] [] [] [] [] [] [] []]; destruct Hc. }
  cbn [parse_value]. rewrite opens_ws by (by destruct c as [[] [] [] [] [] [] [] []]; destruct Hc).
  rewrite Hlit. by destruct c as [[] [] [] [] [] [] [] []]; destruct Hc.
Qed.

Definition member (kv : string * js) : string := json_quote kv.1 ++ ":" ++ json_str kv.2.

Lemma json_str_obj (m : obj) :
  Forall (fun kv => carried kv.2) m ->
  json_str (JObj m) = "{" ++ str_join "," (map member m) ++ "}".
Proof.
  intros H. cbn [json_str]. do 3 f_equal.
  induction H as [|[k x] m Hx _ IH]; [done|]. cbn [map]. by rewrite <- IH; destruct x.
Qed.

Lemma carried_opens (v : js) :
  carried v -> exists c t, json_str v = String c t /\ opens c = true.
Proof.
  destruct v as [| |b|n|s|l|m]; cbn [carried].
  - done.
  - intros _. by eexists _, _.
  - intros _. destruct b; by eexists _, _.
  - intros [Hf Hn]. cbn [json_str]. unfold json_num. rewrite Hf.
    apply number_head in Hn as (c & t & -> & Hc). exists c, t. split; [done|].
    by destruct c as [[] [] [] [] [] [] [] []]; destruct Hc.
  - intros _. by eexists _, _.
  - intros _. by eexists _, _.
  - intros _. by eexists _, _.
Qed.

(** With enough fuel the parser reads the text of [v] and leaves what follows it. *)
Definition reads (v : js) : Prop :=
  forall rest, stops rest ->
  exists n0, forall n, n0 <= n -> parse_value n (json_str v ++ rest) = Some (v, rest).

(** What follows the first of the joined texts. *)
Definition joined_tail (ws : list string) (close : string) : string :=
  match ws with [] => close | _ => "," ++ str_join "," ws ++ close end.

Lemma join_cons (w : string) (ws : list string) (close : string) :
  str_join "," (w :: ws) ++ close = w ++ joined_tail ws close.
Proof.
  destruct ws as [|w' ws]; [done|]. cbn [str_join joined_tail]. by rewrite !str_app_assoc.
Qed.

Lemma joined_tail_stops (ws : list string) (rest : string) :
  stops (joined_tail ws ("]" ++ rest)) /\ stops (joined_tail ws ("}" ++ rest)).
Proof. destruct ws; cbn; auto. Qed.

Lemma elements_read (l : list js) (x : js) (rest : string) :
  reads x -> Forall reads l ->
  exists n0, forall n, n0 <= n ->
    parse_elements n (str_join "," (map json_str (x :: l)) ++ "]" ++ rest) = Some (x :: l, rest).
Proof.
  intros Hx Hl. revert x Hx. induction Hl as [|y l Hy Hl IH]; intros x Hx;
    cbn [map]; rewrite join_cons.
  - destruct (Hx ("]" ++ rest)) as [n0 H]; [cbn; auto|]. exists (S n0). intros [|n] Hn; [lia|].
    cbn [parse_elements joined_tail]. rewrite H by lia. done.
  - destruct (IH y Hy) as [n1 H1].
    destruct (Hx (joined_tail (json_str y :: map json_str l) ("]" ++ rest))) as [n0 H];
      [apply joined_tail_stops|].
    exists (S (n0 + n1)). intros [|n] Hn; [lia|]. cbn [parse_elements]. rewrite H by lia.
    cbn [joined_tail]. change ("," ++ ?s) with (String "," s). cbn [skip_ws]. cbn -[parse_elements].
    cbn [map] in H1. cbn in H1. by rewrite H1 by lia.
Qed.

Lemma members_read (m : obj) (k : string) (x : js) (acc : obj) (rest : string) :
  reads x -> Forall (fun kv => reads kv.2) m ->
  exists n0, forall n, n0 <= n ->
    parse_members n acc (str_join "," (map member ((k, x) :: m)) ++ "}" ++ rest)
    = Some (obj_spread acc ((k, x) :: m), rest).
Proof.
  intros Hx Hm. revert k x acc Hx. induction Hm as [|[k' y] m Hy Hm IH]; intros k x acc Hx;
    cbn [map]; rewrite join_cons.
  all: unfold member at 1; cbn [fst snd]; unfold json_quote; cbn [String.append];
    rewrite !str_app_assoc; cbn [String.append].
  - destruct (Hx ("}" ++ rest)) as [n0 H]; [cbn; auto|]. exists (S n0). intros [|n] Hn; [lia|].
    cbn [parse_members skip_ws]. cbn -[parse_chars parse_value json_escape obj_spread].
    rewrite parse_quoted. cbn -[parse_value obj_spread]. rewrite H by lia. done.
  - destruct (IH k' y (obj_set k x acc) Hy) as [n1 H1].
    destruct (Hx (joined_tail (member (k', y) :: map member m) ("}" ++ rest))) as [n0 H];
      [apply joined_tail_stops|].
    exists (S (n0 + n1)). intros [|n] Hn; [lia|].
    cbn [parse_members skip_ws]. cbn -[parse_chars parse_value parse_members json_escape obj_spread joined_tail member].
    rewrite parse_quoted. cbn -[parse_value parse_members obj_spread joined_tail member].
    rewrite H by lia. cbn [joined_tail].
    cbn -[parse_members obj_spread member]. cbn -[parse_members obj_spread member] in H1.
    by rewrite H1 by lia.
Qed.

(** The text of a nonempty joined list starts as its first text does. *)
Lemma join_opens (w : string) (ws : list string) (close : string) :
  (exists c t, w = String c t /\ opens c = true) ->
  exists c t, str_join "," (w :: ws) ++ close = String c t /\ opens c = true.
Proof. intros (c & t & -> & Hc). rewrite join_cons. by exists c, (t ++ joined_tail ws close). Qed.

Lemma carried_reads (v : js) : carried v -> reads v.
Proof.
  induction v as [| |b|n|s|l IH|m IH] using js_nested_ind; intros Hv rest Hr.
  - done.
  - exists 1. intros [|n] Hn; [lia|]. by destruct rest.
  - exists 1. intros [|n] Hn; [lia|]. by destruct b, rest.
  - destruct Hv as [Hf Hn]. exists 1. intros [|f] Hle; [lia|]. cbn [json_str]. unfold json_num.
    rewrite Hf. by apply number_literal.
  - exists 1. intros [|n] Hn; [lia|]. cbn [json_str]. unfold json_quote. cbn [String.append].
    rewrite str_app_assoc. cbn [String.append].
    change (match parse_chars (json_escape s ++ String quote rest) with
            | Some (u, r) => Some (JStr u, r) | None => None end = Some (JStr s, rest)).
    by rewrite parse_quoted.
  - apply carried_arr in Hv. destruct l as [|x l]; [exists 1; intros [|n] Hn; [lia|done]|].
    destruct (elements_read l x rest) as [n0 H].
    1: by apply List.Forall_cons_iff in IH as [Hx _]; apply List.Forall_cons_iff in Hv as [? _]; apply Hx.
    { apply List.Forall_forall. intros y Hy. eapply List.Forall_forall in IH; [|by right].
      apply IH. by eapply List.Forall_forall in Hv; [|by right]. }
    apply List.Forall_cons_iff in Hv as [Hx _]. apply carried_opens in Hx.
    destruct (join_opens _ (map json_str l) ("]" ++ rest) Hx) as (c & t & Et & Hc).
    exists (S n0). intros [|n] Hn; [lia|]. specialize (H n ltac:(lia)).
    change (json_str (JArr (x :: l)) ++ rest)
      with (String "[" ((str_join "," (map json_str (x :: l)) ++ "]") ++ rest)).
    rewrite str_app_assoc. cbn [map] in *. rewrite Et in *. cbn [parse_value].
    rewrite opens_ws by done. cbn -[skip_ws parse_elements]. rewrite (opens_ws c t Hc), H. by destruct c as [[] [] [] [] [] [] [] []].
  - apply carried_obj in Hv as [Hs Hv]. rewrite json_str_obj by done.
    destruct m as [|[k x] m]; [exists 1; intros [|n] Hn; [lia|done]|].
    destruct (members_read m k x [] rest) as [n0 H].
    1: by apply List.Forall_cons_iff in IH as [Hx _]; apply List.Forall_cons_iff in Hv as [? _]; apply Hx.
    { apply List.Forall_forall. intros y Hy. eapply List.Forall_forall in IH; [|by right].
      apply IH. by eapply List.Forall_forall in Hv; [|by right]. }
    destruct (join_opens (member (k, x)) (map member m) ("}" ++ rest)) as (c & t & Et & Hc);
      [by eexists _, _|].
    exists (S n0). intros [|n] Hn; [lia|]. specialize (H n ltac:(lia)). rewrite Hs in H.
    change (("{" ++ str_join "," (map member ((k, x) :: m)) ++ "}") ++ rest)
      with (String "{" ((str_join "," (map member ((k, x) :: m)) ++ "}") ++ rest)).
    rewrite str_app_assoc. cbn [map] in *. rewrite Et in *. cbn [parse_value].
    rewrite opens_ws by done. cbn -[skip_ws parse_members]. rewrite (opens_ws c t Hc), H. by destruct c as [[] [] [] [] [] [] [] []].
Qed.

(** What one side of the wire writes, the other reads back. *)
Lemma json_parse_str (v : js) : carried v -> json_parse (json_str v) = Some v.
Proof.
  intros Hv. apply json_parse_complete. destruct (carried_reads v Hv "" I) as [n H].
  exists n, "". split; [|done]. rewrite <- (H n (le_n n)). by rewrite str_app_nil.
Qed.

(** ** What JSON leaves of a value *)

(** A property that is undefined is dropped; an undefined element and a number that is not
    finite become null. *)
Fixpoint on_wire (v : js) : js :=
  match v with
  | JUndef => JNull
  | JNum n => if num_is_finite n then JNum n else JNull
  | JArr l => JArr (map on_wire l)
  | JObj m => JObj ((fix go (m : list (string * js)) : list (string * js) :=
                       match m with
                       | [] => []
                       | (k, x) :: m' => if is_undefined x then go m' else (k, on_wire x) :: go m'
                       end) m)
  | _ => v
  end.

Lemma on_wire_defined (v : js) : is_undefined (on_wire v) = false.
Proof. destruct v as [| | |n| | |]; try done. cbn. by destruct (num_is_finite n). Qed.

Lemma json_str_on_wire (v : js) : json_str (on_wire v) = json_str v.
Proof.
  induction v as [| |b|n|s|l IH|m IH] using js_nested_ind; try done.
  - cbn. unfold json_num. destruct (num_is_finite n) eqn:E; cbn; [|done]. unfold json_num. by rewrite E.
  - cbn. do 3 f_equal. induction IH as [|x l Hx _ IHl]; [done|]. cbn. by rewrite Hx, IHl.
  - cbn. do 3 f_equal. induction IH as [|[k x] m Hx _ IHm]; [done|]. cbn in Hx |- *.
    destruct (is_undefined x) eqn:E; [exact IHm|]. by rewrite on_wire_defined, Hx, IHm.
Qed.

Lemma json_parse_on_wire (v : js) : carried (on_wire v) -> json_parse (json_str v) = Some (on_wire v).
Proof. rewrite <- (json_str_on_wire v). apply json_parse_str. Qed.

(** The properties that are left *)
Definition wire_props (m : obj) : obj :=
  match on_wire (JObj m) with JObj m' => m' | _ => [] end.

Lemma on_wire_obj (m : obj) : on_wire (JObj m) = JObj (wire_props m).
Proof. done. Qed.

Lemma wire_props_get (m : obj) (k : string) :
  List.NoDup (map fst m) ->
  obj_get k (wire_props m) =
  match obj_get k m with Some v => if is_undefined v then None else Some (on_wire v) | None => None end.
Proof.
  induction m as [|[k' v] m IH]; intros Hd; [done|]. cbn [map] in Hd. apply List.NoDup_cons_iff in Hd as [Hk Hd].
  specialize (IH Hd). cbn [obj_get]. unfold wire_props in *. cbn. cbn in IH.
  destruct (String.eqb_spec k k') as [->|Hne].
  - destruct (is_undefined v); [|cbn; by rewrite String.eqb_refl].
    rewrite IH. cbn in Hk. by rewrite (obj_get_not_In _ _ Hk).
  - destruct (is_undefined v); [exact IH|]. cbn. apply String.eqb_neq in Hne. by rewrite Hne.
Qed.

(** ** Objects keep the order JSON gives back *)

(** The names are distinct and in the order of enumeration: none belongs before an earlier one. *)
Definition enumerated (m : obj) : Prop :=
  List.NoDup (map fst m) /\ StronglySorted (fun a b => key_before b.1 a.1 = false) m.

Lemma key_before_asym (a b : string) : key_before a b = true -> key_before b a = false.
Proof. unfold key_before. destruct (index_of_key a), (index_of_key b); try done. rewrite Z.ltb_lt, Z.ltb_ge. lia. Qed.

Lemma key_before_trans (a b c : string) :
  key_before a b = true -> key_before b c = true -> key_before a c = true.
Proof. unfold key_before. destruct (index_of_key a), (index_of_key b), (index_of_key c); try done. rewrite !Z.ltb_lt. lia. Qed.

Lemma insert_sorted (k : string) (v : js) (m : obj) :
  StronglySorted (fun a b => key_before b.1 a.1 = false) m ->
  StronglySorted (fun a b => key_before b.1 a.1 = false) (obj_insert k v m).
Proof.
  induction 1 as [|[k' v'] m Hs IH Hall]; cbn; [apply SSorted_cons; constructor|].
  destruct (key_before k k') eqn:E.
  - apply SSorted_cons; [by apply SSorted_cons|]. apply List.Forall_cons; [by apply key_before_asym|].
    eapply List.Forall_impl; [|exact Hall]. intros x Hx. cbn in *.
    destruct (key_before x.1 k) eqn:Ex; [|done]. by rewrite (key_before_trans _ _ _ Ex E) in Hx.
  - constructor; [exact IH|]. eapply (Permutation_Forall (symmetry (obj_insert_perm k v m))).
    by constructor.
Qed.

Lemma update_sorted (k : string) (v : js) (m : obj) :
  StronglySorted (fun a b => key_before b.1 a.1 = false) m ->
  StronglySorted (fun a b => key_before b.1 a.1 = false) (obj_update k v m).
Proof.
  assert (Hf : forall (P : string -> Prop) m, Forall (fun b : string * js => P b.1) m ->
                                      Forall (fun b => P b.1) (obj_update k v m)).
  { intros P l. induction 1 as [|[k' v'] l Hx Hl IH]; cbn; [done|]. case_match; by constructor. }
  induction 1 as [|[k' v'] m Hs IH Hall]; cbn; [constructor|].
  destruct (String.eqb k k'); constructor; auto. by apply (Hf (fun x => key_before x k' = false)).
Qed.

Lemma enumerated_set (k : string) (v : js) (m : obj) : enumerated m -> enumerated (obj_set k v m).
Proof.
  intros [Hd Hs]. split; [by apply obj_set_NoDup|]. unfold obj_set.
  destruct (obj_has k m); [by apply update_sorted|by apply insert_sorted].
Qed.

Lemma enumerated_spread (m acc : obj) : enumerated acc -> enumerated (obj_spread acc m).
Proof.
  revert acc. induction m as [|kv m IH]; intros acc H; cbn; [done|]. by apply IH, enumerated_set.
Qed.

Lemma insert_last (k : string) (v : js) (m : obj) :
  Forall (fun a => key_before k a.1 = false) m -> obj_insert k v m = (m ++ [(k, v)])%list.
Proof. induction 1 as [|[k' v'] m Hx _ IH]; cbn; [done|]. cbn in Hx. by rewrite Hx, IH. Qed.

Lemma spread_enumerated (m acc : obj) :
  enumerated (acc ++ m)%list -> obj_spread acc m = (acc ++ m)%list.
Proof.
  revert acc. induction m as [|[k v] m IH]; intros acc H; cbn; [by rewrite app_nil_r|].
  destruct H as [Hd Hs]. assert (Hk : obj_set k v acc = (acc ++ [(k, v)])%list).
  { unfold obj_set. rewrite map_app in Hd. apply List.NoDup_remove_2 in Hd.
    assert (obj_has k acc = false) as ->.
    { unfold obj_has. rewrite obj_get_not_In; [done|]. intros Hin. apply Hd, in_app_iff. by left. }
    apply insert_last. clear -Hs. induction acc as [|a acc IH]; [done|].
    cbn in Hs. apply StronglySorted_inv in Hs as [Hs Ha]. constructor; [|by apply IH].
    apply List.Forall_app in Ha as [_ Ha]. by apply List.Forall_cons_iff in Ha as [Ha _]. }
  change (obj_spread (obj_set k v acc) m = (acc ++ (k, v) :: m)%list).
  rewrite Hk, IH; rewrite <- app_assoc; [done|by split].
Qed.

Lemma spread_fixed (m : obj) : obj_spread [] m = m <-> enumerated m.
Proof.
  split; [|apply (spread_enumerated m [])].
  intros <-. apply enumerated_spread. by repeat constructor.
Qed.

(** Setting a property to a value JSON can carry leaves such an object. *)
Lemma carried_set (k : string) (v : js) (m : obj) :
  carried (JObj m) -> carried v -> carried (JObj (obj_set k v m)).
Proof.
  rewrite !carried_obj, !spread_fixed. intros [He Hv] Hx. split; [by apply enumerated_set|].
  by apply (obj_set_values carried).
Qed.
