(* ===== verification/Effects.v ===== *)
(** * The effects of a route handler

    A handler of the console's server runs in a request: it reads its
    environment and the request's cookies, sends HTTP requests, reads the clock,
    and returns a response or rejects.  [M] is that: a computation over a
    [World], which answers the requests, and a [State], which records what was
    sent.  The network is a function of everything sent so far, so a theorem
    over all worlds covers every behaviour of the peers, repeated requests
    answered differently included. *)

From S2P Require Import Prelude JsNumber JsText JsValue Json.
Local Open Scope string_scope.

(** ** Errors *)

(** A rejected promise: the client's own error class, or any other Error. *)
Inductive exn : Type :=
| GatewayAdminError (message : string) (statusCode : option Z) (details : js)
| JsError (message : string).

Definition exn_message (e : exn) : string :=
  match e with GatewayAdminError m _ _ => m | JsError m => m end.

(** An Error the pages give a status property: [e.status = status].  The pages never ask for
    the class of an error, so it is the client's error without details. *)
Definition error_with_status (message : string) (status : Z) : exn :=
  GatewayAdminError message (Some status) JUndef.
Definition exn_status (e : exn) : option Z :=
  match e with GatewayAdminError _ s _ => s | JsError _ => None end.

Inductive outcome (A : Type) : Type :=
| Ok (a : A)
| Throw (e : exn).
Arguments Ok {A} a.
Arguments Throw {A} e.

(** ** HTTP *)

Record HttpRequest := mkHttpRequest {
  http_method : string;
  http_url : string;
  http_headers : list (string * string);
  http_body : option string;
}.

(** [res_body] is [None] when reading the body fails. *)
Record HttpResponse := mkHttpResponse {
  res_status : Z;
  res_statusText : string;
  res_headers : list (string * string);
  res_body : option string;
}.

(** [res.ok] *)
Definition res_ok (r : HttpResponse) : bool :=
  (200 <=? res_status r)%Z && (res_status r <=? 299)%Z.

(** ** The world and the state *)

(** [process.env], as far as the sources read it. *)
Record Env := mkEnv {
  GATEWAY_BASE_URL : option string;
  GATEWAY_ADMIN_API_KEY : option string;
  GATEWAY_ADMIN_URL : option string;
  NEXTAUTH_URL : option string;
  NODE_ENV : option string;
  KEYCLOAK_ISSUER_INTERNAL : option string;
  KEYCLOAK_ISSUER_PUBLIC : option string;
  KEYCLOAK_CLIENT_ID : option string;
}.

Record World := mkWorld {
  env : Env;
  cookies : list (string * string);
  net : list HttpRequest -> HttpRequest -> outcome HttpResponse;
  clock : nat -> Z;
}.

(** What has been sent, oldest first, and how often the clock was read. *)
Record State := mkState {
  sent : list HttpRequest;
  ticks : nat;
}.

Definition M (A : Type) : Type := World -> State -> outcome A * State.

#[export] Instance M_ret : MRet M := fun A a w s => (Ok a, s).
#[export] Instance M_bind : MBind M := fun A B f m w s =>
  match m w s with
  | (Ok a, s') => f a w s'
  | (Throw e, s') => (Throw e, s')
  end.
#[export] Instance M_join : MJoin M := fun A m w s =>
  match m w s with
  | (Ok p, s') => p w s'
  | (Throw e, s') => (Throw e, s')
  end.

Definition throw {A} (e : exn) : M A := fun w s => (Throw e, s).

(** [try { m } catch (e) { h(e) }] *)
Definition try_catch {A} (m : M A) (h : exn -> M A) : M A := fun w s =>
  match m w s with
  | (Throw e, s') => h e w s'
  | r => r
  end.

Definition ask {A} (f : World -> A) : M A := fun w s => (Ok (f w), s).

(** [Date.now()] *)
Definition date_now : M Z := fun w s =>
  (Ok (clock w (ticks s)), mkState (sent s) (S (ticks s))).

(** The server's fetch rejects an address that is not absolute before anything
    is sent. *)
Definition absolute_url (url : string) : bool :=
  starts_with "http://" (str_lower url) || starts_with "https://" (str_lower url).

Definition fetch (r : HttpRequest) : M HttpResponse := fun w s =>
  if absolute_url (http_url r) then
    (net w (sent s) r, mkState (sent s ++ [r])%list (ticks s))
  else (Throw (JsError "Failed to parse URL"), s).

(** The fetch of a page, which resolves a relative address against its origin. *)
Definition page_fetch (r : HttpRequest) : M HttpResponse := fun w s =>
  (net w (sent s) r, mkState (sent s ++ [r])%list (ticks s)).

(** [res.text()] and [res.json()] *)
Definition res_text (r : HttpResponse) : M string :=
  match res_body r with
  | Some t => mret t
  | None => throw (JsError "terminated")
  end.

Definition parse_text (t : string) : M js :=
  match json_parse t with
  | Some v => mret v
  | None => throw (JsError "Unexpected token in JSON")
  end.

Definition res_json (r : HttpResponse) : M js := t ← res_text r; parse_text t.

(** [await res.json().catch(() => ({}))] *)
Definition res_json_or_empty (r : HttpResponse) : M js :=
  try_catch (res_json r) (fun _ => mret (JObj [])).

(** [v.k]: a TypeError on null and undefined. *)
Definition get (v : js) (k : string) : M js :=
  if nullish v then throw (JsError "Cannot read properties of null or undefined")
  else mret (opt_get v k).

(** [v.toString()] *)
Definition to_string_method (v : js) : M string :=
  if nullish v then throw (JsError "Cannot read properties of null or undefined")
  else mret (js_to_string v).

(** [decodeURIComponent(s)]: a URIError on a malformed text. *)
Definition decode_uri (s : string) : M string :=
  match decodeURIComponent s with
  | Some t => mret t
  | None => throw (JsError "URI malformed")
  end.

(** An environment variable that is set to a non-empty text. *)
Definition truthy_env (o : option string) : option string :=
  match o with Some s => if String.eqb s "" then None else Some s | None => None end.
Definition env_or (o : option string) (d : string) : string :=
  match truthy_env o with Some s => s | None => d end.
Definition in_production (w : World) : bool :=
  match NODE_ENV (env w) with Some s => String.eqb s "production" | None => false end.

(** [cookieStore.get(k)?.value] *)
Definition cookie (k : string) : M (option string) :=
  ask (fun w => params_get k (cookies w)).

(** The outcome of a promise as a value. *)
Definition settle {A} (m : M A) : M (outcome A) := fun w s =>
  let '(o, s') := m w s in (Ok o, s').

(** The values of a list of outcomes, or the first rejection. *)
Fixpoint collect {A} (os : list (outcome A)) : outcome (list A) :=
  match os with
  | [] => Ok []
  | Ok a :: os' => match collect os' with Ok l => Ok (a :: l) | Throw e => Throw e end
  | Throw e :: _ => Throw e
  end.

Fixpoint settle_all {A B} (f : A -> M B) (l : list A) : M (list (outcome B)) :=
  match l with
  | [] => mret []
  | a :: l' => o ← settle (f a); os ← settle_all f l'; mret (o :: os)
  end.

Definition of_outcome {A} (o : outcome A) : M A :=
  match o with Ok a => mret a | Throw e => throw e end.

(** [Promise.all(l.map(f))]: every element runs, also after a rejection; the
    requests of different elements are taken in list order, one of the orders
    the event loop may produce. *)
Definition promise_all {A B} (f : A -> M B) (l : list A) : M (list B) :=
  os ← settle_all f l; of_outcome (collect os).

(** ** Requests and responses of a route *)

(** Header names are in lower case; the query is without its question mark. *)
Record Request := mkRequest {
  req_headers : list (string * string);
  req_query : string;
  req_body : string;
}.

Definition header (k : string) (r : Request) : option string := params_get k (req_headers r).
Definition searchParams (r : Request) : list (string * string) := parse_params (req_query r).
(** [searchParams.get(k)] *)
Definition query (k : string) (r : Request) : option string := params_get k (searchParams r).
(** [searchParams.get(k) || d] *)
Definition query_or (k d : string) (r : Request) : string := env_or (query k r) d.
(** [request.json()] *)
Definition req_json (r : Request) : M js := parse_text (req_body r).
(** [request.json().catch(() => ({}))] *)
Definition req_json_or_empty (r : Request) : M js :=
  try_catch (req_json r) (fun _ => mret (JObj [])).

Inductive body : Type :=
| BodyJson (v : js)
| BodyRaw (s : string)
| BodyNull.

Record NextResponse := mkResponse {
  out_status : Z;
  out_body : body;
  out_headers : list (string * string);
}.

(** The statuses a Response may be constructed with, and those that forbid a
    body. *)
Definition status_in_range (z : Z) : bool := (200 <=? z)%Z && (z <=? 599)%Z.
Definition null_body_status (z : Z) : bool :=
  (z =? 204)%Z || (z =? 205)%Z || (z =? 304)%Z.
Definition json_status (z : Z) : bool := status_in_range z && negb (null_body_status z).

(** [NextResponse.json(v, { status })]: a RangeError or TypeError when the
    status cannot carry a JSON body, or the value has no JSON text. *)
Definition next_json_status (v : js) (status : Z) : M NextResponse :=
  if negb (status_in_range status) then throw (JsError "init[status] must be in the range of 200 to 599")
  else if null_body_status status then throw (JsError "Response with null body status cannot have body")
  else if is_undefined v then throw (JsError "Value is not JSON serializable")
  else mret (mkResponse status (BodyJson v) []).

Definition next_json (v : js) : M NextResponse := next_json_status v 200.

(** [error.statusCode || 500] *)
Definition status_or_500 (o : option Z) : Z :=
  match o with Some z => if (z =? 0)%Z then 500%Z else z | None => 500%Z end.

(** [{ error: text }] *)
Definition error_body (text : string) : js := JObj [("error", JStr text)].

(** The catch clause most routes end in: a gateway error keeps its status and
    details, anything else is the route's own message with status 500. *)
Definition gateway_catch (fallback : string) (e : exn) : M NextResponse :=
  match e with
  | GatewayAdminError m code details =>
      next_json_status (JObj [("error", JStr m); ("details", details)]) (status_or_500 code)
  | JsError _ => next_json_status (error_body fallback) 500
  end.

(** What the client of a route gets: a handler that rejects is a 500 without a text. *)
Definition http_of (o : outcome NextResponse) : HttpResponse :=
  match o with
  | Ok r => mkHttpResponse (out_status r) "" (out_headers r)
              (Some (match out_body r with BodyJson v => json_str v | BodyRaw t => t | BodyNull => "" end))
  | Throw _ => mkHttpResponse 500 "" [] (Some "")
  end.

(** ** Sample worlds, for the witnesses *)

Definition demo_env : Env :=
  mkEnv (Some "http://gw:8000") (Some "system-key") None (Some "http://ui:3000")
    (Some "production") None None None.
Definition demo_world (jar : list (string * string))
    (answers : HttpRequest -> outcome HttpResponse) : World :=
  mkWorld demo_env jar (fun _ r => answers r) (fun _ => 1700000000000%Z).
Definition reply (status : Z) (text : string) : outcome HttpResponse :=
  Ok (mkHttpResponse status "" [] (Some text)).
Definition reply_json (status : Z) (v : js) : outcome HttpResponse := reply status (json_str v).
Definition start : State := mkState [] 0.
Definition posting (v : js) : Request := mkRequest [] "" (json_str v).
Definition anonymous : Request := mkRequest [] "" "".

(** ** Reasoning about handlers *)

(** [spec w m Q]: from any state, [m] only appends to what was sent, and its
    outcome and the appended requests satisfy [Q]. *)
Definition spec {A} (w : World) (m : M A) (Q : outcome A -> list HttpRequest -> Prop) : Prop :=
  forall s, exists new, sent (m w s).2 = (sent s ++ new)%list /\ Q (m w s).1 new.

Section Rules.
Context (w : World).

Lemma spec_mono {A} (m : M A) (Q Q' : outcome A -> list HttpRequest -> Prop) :
  spec w m Q -> (forall o n, Q o n -> Q' o n) -> spec w m Q'.
Proof. intros H HQ s. destruct (H s) as (n & ? & ?). eauto. Qed.

Lemma spec_ret {A} (a : A) (Q : outcome A -> list HttpRequest -> Prop) :
  Q (Ok a) [] -> spec w (mret a) Q.
Proof. intros H s. exists []. cbn. by rewrite app_nil_r. Qed.

Lemma spec_throw {A} (e : exn) (Q : outcome A -> list HttpRequest -> Prop) :
  Q (Throw e) [] -> spec w (throw e) Q.
Proof. intros H s. exists []. cbn. by rewrite app_nil_r. Qed.

Lemma spec_ask {A} (f : World -> A) (Q : outcome A -> list HttpRequest -> Prop) :
  Q (Ok (f w)) [] -> spec w (ask f) Q.
Proof. intros H s. exists []. cbn. by rewrite app_nil_r. Qed.

Lemma spec_now (Q : outcome Z -> list HttpRequest -> Prop) :
  (forall z, Q (Ok z) []) -> spec w date_now Q.
Proof. intros H s. exists []. cbn. rewrite app_nil_r. auto. Qed.

Lemma spec_bind {A B} (m : M A) (f : A -> M B) Q1 (Q : outcome B -> list HttpRequest -> Prop) :
  spec w m Q1 ->
  (forall a n1, Q1 (Ok a) n1 -> spec w (f a) (fun o n2 => Q o (n1 ++ n2)%list)) ->
  (forall e n1, Q1 (Throw e) n1 -> Q (Throw e) n1) ->
  spec w (m ≫= f) Q.
Proof.
  intros Hm Hf He s. destruct (Hm s) as (n1 & Hs & H1).
  unfold mbind, M_bind. destruct (m w s) as [[a|e] s'] eqn:E; cbn in Hs, H1.
  - destruct (Hf a n1 H1 s') as (n2 & Hs2 & H2).
    exists (n1 ++ n2)%list. by rewrite Hs2, Hs, app_assoc.
  - exists n1. cbn. auto.
Qed.

Lemma spec_join {A} (m : M (M A)) Q1 (Q : outcome A -> list HttpRequest -> Prop) :
  spec w m Q1 ->
  (forall p n1, Q1 (Ok p) n1 -> spec w p (fun o n2 => Q o (n1 ++ n2)%list)) ->
  (forall e n1, Q1 (Throw e) n1 -> Q (Throw e) n1) ->
  spec w (mjoin m) Q.
Proof. exact (spec_bind m (fun p => p) Q1 Q). Qed.

Lemma spec_try {A} (m : M A) (h : exn -> M A) Q1 (Q : outcome A -> list HttpRequest -> Prop) :
  spec w m Q1 ->
  (forall a n1, Q1 (Ok a) n1 -> Q (Ok a) n1) ->
  (forall e n1, Q1 (Throw e) n1 -> spec w (h e) (fun o n2 => Q o (n1 ++ n2)%list)) ->
  spec w (try_catch m h) Q.
Proof.
  intros Hm Ha Hh s. destruct (Hm s) as (n1 & Hs & H1).
  unfold try_catch. destruct (m w s) as [[a|e] s'] eqn:E; cbn in Hs, H1.
  - exists n1. cbn. auto.
  - destruct (Hh e n1 H1 s') as (n2 & Hs2 & H2).
    exists (n1 ++ n2)%list. by rewrite Hs2, Hs, app_assoc.
Qed.

(** A fetch sends its request and answers with one of the world's answers, or
    rejects a relative address and sends nothing. *)
Lemma spec_fetch (r : HttpRequest) (Q : outcome HttpResponse -> list HttpRequest -> Prop) :
  (absolute_url (http_url r) = true -> forall past, Q (net w past r) [r]) ->
  (absolute_url (http_url r) = false -> Q (Throw (JsError "Failed to parse URL")) []) ->
  spec w (fetch r) Q.
Proof.
  intros Hy Hn s. unfold fetch. destruct (absolute_url (http_url r)).
  - exists [r]. cbn. auto.
  - exists []. cbn. rewrite app_nil_r. auto.
Qed.
End Rules.

(** ** Evaluating single effects *)

Lemma starts_with_app (p s t : string) :
  starts_with p s = true -> starts_with p (s ++ t) = true.
Proof.
  unfold starts_with. revert s.
  induction p as [|c p IH]; intros s; [by destruct (s ++ t)|].
  destruct s as [|c' s]; cbn; [done|]. destruct (ascii_dec c c'); [apply IH|done].
Qed.

Lemma str_lower_app (s t : string) : str_lower (s ++ t) = str_lower s ++ str_lower t.
Proof. induction s as [|c s IH]; cbn; [done|]. by rewrite IH. Qed.

Lemma absolute_url_app (base path : string) :
  absolute_url base = true -> absolute_url (base ++ path) = true.
Proof.
  unfold absolute_url. rewrite str_lower_app. intros H.
  apply orb_true_iff in H as [H|H]; apply orb_true_iff; auto using starts_with_app.
Qed.

Lemma fetch_eval (r : HttpRequest) (w : World) (s : State) :
  absolute_url (http_url r) = true ->
  fetch r w s = (net w (sent s) r, mkState (sent s ++ [r])%list (ticks s)).
Proof. unfold fetch. by intros ->. Qed.

(** What reading a body as JSON gives. *)
Definition body_json (r : HttpResponse) : outcome js :=
  match res_body r with
  | None => Throw (JsError "terminated")
  | Some t => match json_parse t with
              | Some v => Ok v
              | None => Throw (JsError "Unexpected token in JSON")
              end
  end.

Lemma res_json_eval (r : HttpResponse) (w : World) (s : State) :
  res_json r w s = (body_json r, s).
Proof.
  unfold res_json, res_text, body_json, mbind, M_bind. destruct (res_body r) as [t|]; [|done].
  cbn. unfold parse_text. by destruct (json_parse t).
Qed.

(** ** What a computation sends *)

(** Every request [m] sends satisfies [P]. *)
Definition sends {A} (w : World) (P : HttpRequest -> Prop) (m : M A) : Prop :=
  spec w m (fun _ new => Forall P new).

(** [m] sends nothing. *)
Definition quiet {A} (w : World) (m : M A) : Prop := sends w (fun _ => False) m.

Section Sends.
Context (w : World) (P : HttpRequest -> Prop).

Lemma sends_ret {A} (a : A) : sends w P (mret a).
Proof. by apply spec_ret. Qed.

Lemma sends_throw {A} (e : exn) : sends w P (throw (A := A) e).
Proof. by apply spec_throw. Qed.

Lemma sends_ask {A} (f : World -> A) : sends w P (ask f).
Proof. by apply spec_ask. Qed.

Lemma sends_now : sends w P date_now.
Proof. by apply spec_now. Qed.

Lemma sends_bind {A B} (m : M A) (f : A -> M B) :
  sends w P m -> (forall a, sends w P (f a)) -> sends w P (m ≫= f).
Proof.
  intros Hm Hf. eapply spec_bind; [exact Hm| |done].
  intros a n1 H1. eapply spec_mono; [apply Hf|]. intros o n2 H2. by apply Forall_app.
Qed.

Lemma sends_try {A} (m : M A) (h : exn -> M A) :
  sends w P m -> (forall e, sends w P (h e)) -> sends w P (try_catch m h).
Proof.
  intros Hm Hh. eapply spec_try; [exact Hm|done|].
  intros e n1 H1. eapply spec_mono; [apply Hh|]. intros o n2 H2. by apply Forall_app.
Qed.

Lemma sends_fetch (r : HttpRequest) : P r -> sends w P (fetch r).
Proof. intros Hr. apply spec_fetch; [intros _ past; auto | done]. Qed.

Lemma sends_settle {A} (m : M A) : sends w P m -> sends w P (settle m).
Proof.
  intros Hm s. destruct (Hm s) as (n & Hs & Hn). exists n.
  unfold settle. by destruct (m w s).
Qed.

Lemma sends_settle_all {A B} (f : A -> M B) (l : list A) :
  (forall a, sends w P (f a)) -> sends w P (settle_all f l).
Proof.
  intros Hf. induction l as [|a l IH]; cbn [settle_all]; [apply sends_ret|].
  apply sends_bind; [by apply sends_settle|]. intros o.
  apply sends_bind; [exact IH|]. intros os. apply sends_ret.
Qed.

Lemma sends_promise_all {A B} (f : A -> M B) (l : list A) :
  (forall a, sends w P (f a)) -> sends w P (promise_all f l).
Proof.
  intros Hf. apply sends_bind; [by apply sends_settle_all|].
  intros os. by destruct (collect os); [apply sends_ret|apply sends_throw].
Qed.

Lemma sends_if {A} (b : bool) (m1 m2 : M A) :
  sends w P m1 -> sends w P m2 -> sends w P (if b then m1 else m2).
Proof. by destruct b. Qed.
End Sends.

Lemma sends_impl {A} (w : World) (P P' : HttpRequest -> Prop) (m : M A) :
  (forall r, P r -> P' r) -> sends w P m -> sends w P' m.
Proof. intros HP Hm. eapply spec_mono; [exact Hm|]. intros o n. apply Forall_impl, HP. Qed.

(** A step that only computes a value. *)
Definition yields {A} (w : World) (m : M A) (a : A) : Prop := forall s, m w s = (Ok a, s).

Lemma yields_bind {A B} (w : World) (m : M A) (a : A) (f : A -> M B) (s : State) :
  yields w m a -> (m ≫= f) w s = f a w s.
Proof. intros H. unfold mbind, M_bind. by rewrite H. Qed.

Lemma spec_yields {A B} (w : World) (m : M A) (a : A) (f : A -> M B)
    (Q : outcome B -> list HttpRequest -> Prop) :
  yields w m a -> spec w (f a) Q -> spec w (m ≫= f) Q.
Proof. intros H Hf s. rewrite (yields_bind w m a f s H). apply Hf. Qed.

Lemma sends_yields {A B} (w : World) (P : HttpRequest -> Prop) (m : M A) (a : A) (f : A -> M B) :
  yields w m a -> sends w P (f a) -> sends w P (m ≫= f).
Proof. apply spec_yields. Qed.

Lemma yields_ask {A} (w : World) (f : World -> A) : yields w (ask f) (f w).
Proof. done. Qed.

Lemma yields_get (w : World) (v : js) (k : string) :
  nullish v = false -> yields w (get v k) (opt_get v k).
Proof. intros H s. unfold get. by rewrite H. Qed.

(** What a request's body parses to, [{}] when it does not parse. *)
Definition body_or_empty (r : Request) : js :=
  match json_parse (req_body r) with Some v => v | None => JObj [] end.

Lemma yields_req_json_or_empty (w : World) (r : Request) :
  yields w (req_json_or_empty r) (body_or_empty r).
Proof.
  intros s. unfold req_json_or_empty, try_catch, req_json, parse_text, body_or_empty.
  by destruct (json_parse (req_body r)).
Qed.

Lemma quiet_sends {A} (w : World) (P : HttpRequest -> Prop) (m : M A) : quiet w m -> sends w P m.
Proof. apply sends_impl. tauto. Qed.

Lemma quiet_sent {A} (w : World) (m : M A) (s : State) : quiet w m -> sent (m w s).2 = sent s.
Proof.
  intros H. destruct (H s) as ([|r n] & -> & Hn); [by rewrite app_nil_r|].
  by inversion Hn.
Qed.

#[export] Hint Resolve sends_ret sends_throw sends_ask sends_now sends_bind sends_try
  sends_settle sends_promise_all sends_if : effects.

(** Splits a computation into its steps. *)
Ltac step_sends :=
  repeat first
    [ match goal with |- forall _, _ => intro end
    | assumption
    | apply sends_ret | apply sends_throw | apply sends_ask | apply sends_now
    | apply sends_bind | apply sends_try | apply sends_promise_all
    | match goal with
      | |- sends _ _ (if ?b then _ else _) => destruct b
      | |- sends _ _ (match ?x with _ => _ end) => destruct x
      end ].

Section QuietSteps.
Context (w : World) (P : HttpRequest -> Prop).

Lemma sends_res_text (r : HttpResponse) : sends w P (res_text r).
Proof. unfold res_text. step_sends. Qed.

Lemma sends_parse_text (t : string) : sends w P (parse_text t).
Proof. unfold parse_text. step_sends. Qed.

Lemma sends_res_json (r : HttpResponse) : sends w P (res_json r).
Proof. apply sends_bind; [apply sends_res_text|]. intros. apply sends_parse_text. Qed.

Lemma sends_json_or_empty (r : HttpResponse) : sends w P (res_json_or_empty r).
Proof. apply sends_try; [apply sends_res_json|intros; apply sends_ret]. Qed.

Lemma sends_get (v : js) (k : string) : sends w P (get v k).
Proof. unfold get. step_sends. Qed.

Lemma sends_to_string (v : js) : sends w P (to_string_method v).
Proof. unfold to_string_method. step_sends. Qed.

Lemma sends_decode_uri (s : string) : sends w P (decode_uri s).
Proof. unfold decode_uri. step_sends. Qed.

Lemma sends_cookie (k : string) : sends w P (cookie k).
Proof. apply sends_ask. Qed.

Lemma sends_req_json (r : Request) : sends w P (req_json r).
Proof. apply sends_parse_text. Qed.

Lemma sends_req_json_or_empty (r : Request) : sends w P (req_json_or_empty r).
Proof. apply sends_try; [apply sends_req_json|]. intros. apply sends_ret. Qed.

Lemma sends_next_json_status (v : js) (z : Z) : sends w P (next_json_status v z).
Proof. unfold next_json_status. step_sends. Qed.

Lemma sends_next_json (v : js) : sends w P (next_json v).
Proof. apply sends_next_json_status. Qed.

Lemma sends_gateway_catch (t : string) (e : exn) : sends w P (gateway_catch t e).
Proof. unfold gateway_catch. step_sends; apply sends_next_json_status. Qed.
End QuietSteps.

#[export] Hint Resolve sends_res_text sends_parse_text sends_res_json sends_json_or_empty sends_get sends_to_string
  sends_decode_uri sends_cookie sends_req_json sends_req_json_or_empty sends_next_json_status
  sends_next_json sends_gateway_catch : effects.

(** Closes [sends] goals from the hints, splitting the computation. *)
Ltac solve_sends :=
  repeat first
    [ assumption
    | solve [auto 1 with effects nocore]
    | match goal with |- forall _, _ => intro end
    | progress cbv zeta
    | apply sends_bind | apply sends_try | apply sends_promise_all
    | match goal with
      | |- sends _ _ (if ?b then _ else _) => destruct b
      | |- sends _ _ (match ?x with _ => _ end) => destruct x
      end ].

(** A computation that returns another one: both send only what satisfies [P]. *)
Definition sends_later {A} (w : World) (P : HttpRequest -> Prop) (m : M (M A)) : Prop :=
  spec w m (fun o n => Forall P n /\ match o with Ok p => sends w P p | Throw _ => True end).

Lemma sends_join {A} (w : World) (P : HttpRequest -> Prop) (m : M (M A)) :
  sends_later w P m -> sends w P (mjoin m).
Proof.
  intros Hm. eapply spec_join; [exact Hm| |by intros e n [? _]].
  intros p n1 [H1 Hp]. eapply spec_mono; [exact Hp|]. intros o n2 H2. by apply Forall_app.
Qed.

(** ** What a computation rejects with *)

(** Every error [m] rejects with satisfies [E]. *)
Definition raises {A} (w : World) (E : exn -> Prop) (m : M A) : Prop :=
  spec w m (fun o _ => match o with Throw e => E e | Ok _ => True end).

(** [m] never rejects. *)
Definition answers {A} (w : World) (m : M A) : Prop := raises w (fun _ => False) m.

(** An error whose status, if it has one, a JSON response can carry. *)
Definition reportable (e : exn) : Prop :=
  match e with
  | GatewayAdminError _ (Some code) _ => json_status code = true
  | _ => True
  end.

Lemma reportable_status (m : string) (code : option Z) (d : js) :
  reportable (GatewayAdminError m code d) -> json_status (status_or_500 code) = true.
Proof.
  destruct code as [z|]; [|done]. cbn. intros H.
  destruct (Z.eqb_spec z 0) as [->|]; [done|exact H].
Qed.

(** A world whose peers answer with statuses a Response can be built with. *)
Definition sane (w : World) : Prop :=
  forall past r, match net w past r with
                 | Ok res => res_ok res = true \/ json_status (res_status res) = true
                 | Throw e => reportable e
                 end.

Section Raises.
Context (w : World) (E : exn -> Prop).

Lemma raises_ret {A} (a : A) : raises w E (mret a).
Proof. by apply spec_ret. Qed.

Lemma raises_throw {A} (e : exn) : E e -> raises w E (throw (A := A) e).
Proof. intros. by apply spec_throw. Qed.

Lemma raises_ask {A} (f : World -> A) : raises w E (ask f).
Proof. by apply spec_ask. Qed.

Lemma raises_now : raises w E date_now.
Proof. by apply spec_now. Qed.

Lemma raises_bind {A B} (m : M A) (f : A -> M B) :
  raises w E m -> (forall a, raises w E (f a)) -> raises w E (m ≫= f).
Proof.
  intros Hm Hf. eapply spec_bind; [exact Hm| |auto].
  intros a n1 _. eapply spec_mono; [apply Hf|auto].
Qed.

Lemma raises_try {A} (E1 : exn -> Prop) (m : M A) (h : exn -> M A) :
  raises w E1 m -> (forall e, E1 e -> raises w E (h e)) -> raises w E (try_catch m h).
Proof.
  intros Hm Hh. eapply spec_try; [exact Hm|auto|].
  intros e n1 He. eapply spec_mono; [by apply Hh|auto].
Qed.

Lemma raises_settle_all {A B} (f : A -> M B) (l : list A) :
  (forall a, raises w E (f a)) ->
  spec w (settle_all f l) (fun o _ =>
    match o with
    | Ok os => Forall (fun x => match x with Throw e => E e | Ok _ => True end) os
    | Throw _ => False
    end).
Proof.
  intros Hf. induction l as [|a l IH]; cbn [settle_all]; [by apply spec_ret|].
  eapply spec_bind with (Q1 := fun o _ => match o with
    | Ok x => match x with Throw e => E e | Ok _ => True end | Throw _ => False end).
  - intros s. destruct (Hf a s) as (n & Hs & Hn). exists n. unfold settle.
    by destruct (f a w s).
  - intros x n1 Hx. eapply spec_bind; [exact IH| |auto].
    intros os n2 Hos. apply spec_ret. auto.
  - auto.
Qed.

Lemma collect_throw {A} (os : list (outcome A)) (e : exn) :
  collect os = Throw e -> In (Throw e) os.
Proof.
  induction os as [|[a|e'] os IH]; cbn; [done| |].
  - destruct (collect os); [done|]. intros [= ->]. auto.
  - intros [= ->]. auto.
Qed.

Lemma raises_promise_all {A B} (f : A -> M B) (l : list A) :
  (forall a, raises w E (f a)) -> raises w E (promise_all f l).
Proof.
  intros Hf. eapply spec_bind; [exact (raises_settle_all f l Hf)| |done].
  intros os n Hos. destruct (collect os) as [bs|e] eqn:Ec; [by apply raises_ret|].
  apply raises_throw. apply collect_throw in Ec.
  exact (proj1 (List.Forall_forall _ _) Hos _ Ec).
Qed.

Lemma raises_if {A} (b : bool) (m1 m2 : M A) :
  raises w E m1 -> raises w E m2 -> raises w E (if b then m1 else m2).
Proof. by destruct b. Qed.
End Raises.

Lemma raises_mono {A} (w : World) (E E' : exn -> Prop) (m : M A) :
  raises w E m -> (forall e, E e -> E' e) -> raises w E' m.
Proof. intros Hm HE. eapply spec_mono; [exact Hm|]. intros [a|e] n; auto. Qed.

Lemma answers_ok {A} (w : World) (m : M A) (s : State) :
  answers w m -> exists a, (m w s).1 = Ok a.
Proof. intros H. destruct (H s) as (n & _ & Ha). destruct (m w s) as [[a|e] s']; [eauto|done]. Qed.

Lemma answers_raises {A} (w : World) (E : exn -> Prop) (m : M A) : answers w m -> raises w E m.
Proof. intros H. eapply raises_mono; [exact H|done]. Qed.

Section Reportable.
Context (w : World).

Lemma raises_fetch (r : HttpRequest) : sane w -> raises w reportable (fetch r).
Proof.
  intros Hw. apply spec_fetch; [|done]. intros _ past. specialize (Hw past r).
  by destruct (net w past r).
Qed.

Lemma raises_js {A} (m : string) : raises w reportable (throw (A := A) (JsError m)).
Proof. by apply raises_throw. Qed.

Lemma raises_res_text (r : HttpResponse) : raises w reportable (res_text r).
Proof. unfold res_text. destruct (res_body r); [apply raises_ret|apply raises_js]. Qed.

Lemma raises_parse_text (t : string) : raises w reportable (parse_text t).
Proof. unfold parse_text. destruct (json_parse t); [apply raises_ret|apply raises_js]. Qed.

Lemma raises_res_json (r : HttpResponse) : raises w reportable (res_json r).
Proof. apply raises_bind; [apply raises_res_text|]. intros. apply raises_parse_text. Qed.

Lemma raises_json_or_empty (E : exn -> Prop) (r : HttpResponse) :
  raises w E (res_json_or_empty r).
Proof. eapply raises_try; [apply raises_res_json|]. intros. apply raises_ret. Qed.

Lemma raises_get (v : js) (k : string) : raises w reportable (get v k).
Proof. unfold get. destruct (nullish v); [apply raises_js|apply raises_ret]. Qed.

Lemma raises_to_string (v : js) : raises w reportable (to_string_method v).
Proof. unfold to_string_method. destruct (nullish v); [apply raises_js|apply raises_ret]. Qed.

Lemma raises_decode_uri (s : string) : raises w reportable (decode_uri s).
Proof. unfold decode_uri. destruct (decodeURIComponent s); [apply raises_ret|apply raises_js]. Qed.

Lemma raises_cookie (E : exn -> Prop) (k : string) : raises w E (cookie k).
Proof. apply raises_ask. Qed.

Lemma raises_req_json (r : Request) : raises w reportable (req_json r).
Proof. apply raises_parse_text. Qed.

Lemma answers_req_json_or_empty (E : exn -> Prop) (r : Request) : raises w E (req_json_or_empty r).
Proof. eapply raises_try; [apply raises_req_json|]. intros. apply raises_ret. Qed.

Lemma raises_next_json_status (v : js) (z : Z) : raises w reportable (next_json_status v z).
Proof.
  unfold next_json_status. repeat (apply raises_if; [apply raises_js|]). apply raises_ret.
Qed.

Lemma raises_next_json (v : js) : raises w reportable (next_json v).
Proof. apply raises_next_json_status. Qed.

Lemma answers_next_json_status (v : js) (z : Z) :
  json_status z = true -> is_undefined v = false -> answers w (next_json_status v z).
Proof.
  unfold json_status, next_json_status. intros [-> ->%negb_true_iff]%andb_true_iff ->.
  apply raises_ret.
Qed.

Lemma answers_gateway_catch (t : string) (e : exn) : reportable e -> answers w (gateway_catch t e).
Proof.
  destruct e; intros He; apply answers_next_json_status; try done. by eapply reportable_status.
Qed.
End Reportable.

#[export] Hint Resolve raises_ret raises_js raises_ask raises_now raises_fetch raises_res_text
  raises_parse_text raises_res_json raises_json_or_empty raises_get raises_to_string raises_decode_uri raises_cookie
  raises_req_json answers_req_json_or_empty raises_next_json_status raises_next_json
  answers_gateway_catch : effects.

Ltac solve_raises :=
  repeat first
    [ assumption
    | solve [auto 1 with effects nocore]
    | match goal with |- forall _, _ => intro end
    | progress cbv zeta
    | apply raises_bind | apply raises_promise_all
    | match goal with
      | |- raises _ _ (if ?b then _ else _) => destruct b
      | |- raises _ _ (match ?x with _ => _ end) => destruct x
      end ].
