(* ===== verification/ConfigPatch.v ===== *)
(** * Patches for the gateway's configuration

    The gateway merges a PATCH body into maps keyed by Go field names.  Two
    functions translate the console's snake_case objects into that vocabulary:
    [buildAdminModelPatchPayload] (src/frontend/src/lib/server/admin-model-patch.ts)
    for models, and [canonicalizeProviderPatchForGlobalConfig]
    (src/frontend/src/features/providers/api/provider-config-canonical.ts) for
    providers. *)

From S2P Require Import Prelude JsNumber JsText JsValue.
From Stdlib Require Import SpecFloat.
Local Open Scope string_scope.

(** ** Models *)

Module ModelPatch.

(** The own properties of a value the code treats as a record. *)
Definition own (v : js) : obj := match v with JObj m => m | _ => [] end.

Definition isPresent (o : obj) (snake pascal : string) : bool :=
  obj_has snake o || obj_has pascal o.

Definition field (o : obj) (k : string) : js :=
  match obj_get k o with Some v => v | None => JUndef end.

Definition numFrom (o : obj) (snake pascal : string) : option num :=
  if negb (isPresent o snake pascal) then None
  else let v := js_coalesce (field o snake) (field o pascal) in
       if (nullish v || is_str v "")%bool then None
       else let n := js_to_number v in
            if num_is_finite n then Some n else None.

Definition intFrom (o : obj) (snake pascal : string) : option num :=
  match numFrom o snake pascal with
  | None => None
  | Some n => Some (num_trunc n)
  end.

(** [if (c) o[k] = v] *)
Definition put (c : bool) (k : string) (v : js) (o : obj) : obj :=
  if c then obj_set k v o else o.

(** [if (n !== undefined) o[k] = n] *)
Definition put_num (k : string) (n : option num) (o : obj) : obj :=
  match n with Some x => obj_set k (JNum x) o | None => o end.

(** [typeof v === 'string' ? v.trim() : ''] *)
Definition trimmed (v : js) : string :=
  match v with JStr s => str_trim s | _ => "" end.

Definition put_finite (k : string) (v : js) (o : obj) : obj :=
  if is_undefined v then o
  else let n := js_to_number v in put (num_is_finite n) k (JNum n) o.

Definition put_trimmed (k : string) (v : js) (o : obj) : obj :=
  if is_undefined v then o
  else put (negb (String.eqb (trimmed v) "")) k (JStr (trimmed v)) o.

Definition executionPayload (execution : obj) : obj :=
  let endpoint := js_coalesce (field execution "endpoint") (field execution "Endpoint") in
  let protocol := js_coalesce (field execution "protocol") (field execution "Protocol") in
  put (negb (String.eqb (trimmed protocol) "")) "protocol" (JStr (trimmed protocol))
    (put (negb (String.eqb (trimmed endpoint) "")) "endpoint" (JStr (trimmed endpoint)) []).

(** One observable field as it is sent; [None] when the element is null, whose
    properties cannot be read. *)
Definition mapField (f : js) : option (string * string * string) :=
  if nullish f then None
  else let text k := js_to_string (js_coalesce (opt_get f k) (JStr "")) in
       Some (str_trim (text "path"), text "type", text "role").

Definition fieldObject (f : string * string * string) : js :=
  let '(path, type, role) := f in
  JObj [("path", JStr path); ("type", JStr type); ("role", JStr role)].

Definition observablePayload (observable : obj) : option js :=
  match mapM mapField (js_array (field observable "fields")) with
  | Some fs =>
      let kept := List.filter (fun f => negb (String.eqb f.1.1 "")) fs in
      Some (JObj [("fields", JArr (map fieldObject kept))])
  | None => None
  end.

Definition pricingPayload (p : obj) : obj :=
  put_num "CompletionPer1M" (numFrom p "completion_per_1m" "CompletionPer1M")
    (put_num "PromptPer1M" (numFrom p "prompt_per_1m" "PromptPer1M") []).

Definition mockText (m : obj) (snake pascal : string) : js :=
  JStr (js_to_string (js_coalesce (js_coalesce (field m snake) (field m pascal)) (JStr ""))).

Definition mockPayload (m : obj) : obj :=
  let enabled := js_coalesce (field m "enabled") (field m "Enabled") in
  put (isPresent m "fixed_response" "FixedResponse") "FixedResponse"
    (mockText m "fixed_response" "FixedResponse")
  (put (isPresent m "error_message" "ErrorMessage") "ErrorMessage"
    (mockText m "error_message" "ErrorMessage")
  (put_num "ErrorStatus" (intFrom m "error_status" "ErrorStatus")
  (put_num "ErrorRate" (numFrom m "error_rate" "ErrorRate")
  (put_num "DelayMaxMs" (intFrom m "delay_max_ms" "DelayMaxMs")
  (put_num "DelayMinMs" (intFrom m "delay_min_ms" "DelayMinMs")
  (put (isPresent m "enabled" "Enabled") "Enabled" (JBool (truthy enabled)) [])))))).

Definition put_nonempty (k : string) (m : obj) (o : obj) : obj :=
  match m with [] => o | _ => obj_set k (JObj m) o end.

(** The payload up to the nested objects. *)
Definition scalarPayload (input : js) : obj :=
  let enabledVal := js_coalesce (opt_get input "Enabled") (opt_get input "enabled") in
  let base_url := opt_get input "base_url" in
  put (negb (is_undefined base_url)) "base_url" (JStr (trimmed base_url))
  (put_trimmed "name" (opt_get input "name")
  (put_trimmed "provider_model_id" (opt_get input "provider_model_id")
  (put_finite "markup_percentage" (opt_get input "markup_percentage")
  (put_finite "infrastructure_monthly_usd" (opt_get input "infrastructure_monthly_usd")
  (put (negb (is_undefined (opt_get input "type"))) "Type" (opt_get input "type")
  (put (negb (is_undefined (opt_get input "provider"))) "Provider" (opt_get input "provider")
  (put (negb (is_undefined enabledVal)) "Enabled" (JBool (truthy enabledVal)) []))))))).

Definition withNested (k : string) (v : js) (payload : obj -> obj) (o : obj) : obj :=
  if is_object v then put_nonempty k (payload (own v)) o else o.

(** [None] is the TypeError of reading a property of null. *)
Definition buildAdminModelPatchPayload (input : js) : option obj :=
  if nullish input then None
  else
    let out := withNested "execution" (opt_get input "execution") executionPayload
                 (scalarPayload input) in
    let observable := opt_get input "observable" in
    match (if is_object observable
           then match observablePayload (own observable) with
                | Some v => Some (obj_set "observable" v out)
                | None => None
                end
           else Some out) with
    | None => None
    | Some out =>
        Some (withNested "Mock" (opt_get input "mock") mockPayload
               (withNested "Pricing" (opt_get input "pricing") pricingPayload out))
    end.

(** The fields of the stored model a patch may touch. *)
Definition patchable : list string :=
  ["Enabled"; "Provider"; "Type"; "infrastructure_monthly_usd"; "markup_percentage";
   "provider_model_id"; "name"; "base_url"; "execution"; "observable"; "Pricing"; "Mock"].

(** *** What a payload may hold *)

Definition finite_number (v : js) : Prop := exists n, v = JNum n /\ num_is_finite n = true.
Definition nonempty_text (v : js) : Prop := exists t, v = JStr t /\ t <> "".

(** The type of every field of the payload. *)
Definition field_type (k : string) (v : js) : Prop :=
  if existsb (String.eqb k) ["infrastructure_monthly_usd"; "markup_percentage"] then finite_number v
  else if existsb (String.eqb k) ["provider_model_id"; "name"] then nonempty_text v
  else if String.eqb k "base_url" then exists t, v = JStr t
  else if String.eqb k "Enabled" then exists b, v = JBool b
  else if String.eqb k "execution" then
    exists o, v = JObj o /\ o <> [] /\ Forall (fun kv => nonempty_text kv.2) o
  else if String.eqb k "Pricing" then
    exists o, v = JObj o /\ o <> [] /\ Forall (fun kv => finite_number kv.2) o
  else if existsb (String.eqb k) ["Mock"; "observable"] then exists o, v = JObj o /\ o <> []
  else existsb (String.eqb k) ["Provider"; "Type"] = true /\ v <> JUndef.

Definition typed (kv : string * js) : Prop := In kv.1 patchable /\ field_type kv.1 kv.2.

Section Puts.
Context (P : string * js -> Prop) (k : string) (o : obj) (Ho : Forall P o).

Lemma put_ok (c : bool) (v : js) : (c = true -> P (k, v)) -> Forall P (put c k v o).
Proof. intros Hv. destruct c; [|exact Ho]. apply obj_set_Forall; auto. Qed.

Lemma put_num_ok (n : option num) :
  (forall x, n = Some x -> P (k, JNum x)) -> Forall P (put_num k n o).
Proof. intros Hv. destruct n; [|exact Ho]. apply obj_set_Forall; auto. Qed.

Lemma put_finite_ok (v : js) :
  (forall n, num_is_finite n = true -> P (k, JNum n)) -> Forall P (put_finite k v o).
Proof. intros Hv. unfold put_finite. destruct (is_undefined v); [exact Ho|]. apply put_ok. auto. Qed.

Lemma put_trimmed_ok (v : js) :
  (forall t, t <> "" -> P (k, JStr t)) -> Forall P (put_trimmed k v o).
Proof.
  intros Hv. unfold put_trimmed. destruct (is_undefined v); [exact Ho|]. apply put_ok.
  intros Ht. apply Hv. intros E. by rewrite E in Ht.
Qed.

Lemma put_nonempty_ok (m : obj) : (m <> [] -> P (k, JObj m)) -> Forall P (put_nonempty k m o).
Proof. intros Hv. destruct m; [exact Ho|]. apply obj_set_Forall; [by apply Hv|exact Ho]. Qed.

Lemma nested_ok (v : js) (payload : obj -> obj) :
  (forall m, payload m <> [] -> P (k, JObj (payload m))) -> Forall P (withNested k v payload o).
Proof. intros Hv. unfold withNested. destruct (is_object v); [apply put_nonempty_ok, Hv|exact Ho]. Qed.
End Puts.

Lemma numFrom_finite (o : obj) (a b : string) (n : num) :
  numFrom o a b = Some n -> num_is_finite n = true.
Proof.
  unfold numFrom. cbv zeta. destruct (negb _); [done|]. destruct (nullish _ || _)%bool; [done|].
  destruct (num_is_finite _) eqn:E; [|done]. by intros [= <-].
Qed.

Lemma executionPayload_ok (m : obj) : Forall (fun kv => nonempty_text kv.2) (executionPayload m).
Proof.
  unfold executionPayload. cbv zeta.
  apply put_ok; [apply put_ok; [constructor|]|]; intros H; eexists; split; try reflexivity;
    intros E; by rewrite E in H.
Qed.

Lemma pricingPayload_ok (m : obj) : Forall (fun kv => finite_number kv.2) (pricingPayload m).
Proof.
  unfold pricingPayload. apply put_num_ok; [apply put_num_ok; [constructor|]|];
    intros x Hx%numFrom_finite; by exists x.
Qed.

Ltac in_list := cbn; tauto.

Lemma scalarPayload_ok (input : js) : Forall typed (scalarPayload input).
Proof.
  unfold scalarPayload. cbv zeta.
  apply put_ok; [|intros _; split; [in_list|by eexists]].
  apply put_trimmed_ok; [|intros t Ht; split; [in_list|by exists t]].
  apply put_trimmed_ok; [|intros t Ht; split; [in_list|by exists t]].
  apply put_finite_ok; [|intros n Hn; split; [in_list|by exists n]].
  apply put_finite_ok; [|intros n Hn; split; [in_list|by exists n]].
  apply put_ok; [|intros H; split; [in_list|split; [done|cbn; intros E; by rewrite E in H]]].
  apply put_ok; [|intros H; split; [in_list|split; [done|cbn; intros E; by rewrite E in H]]].
  apply put_ok; [constructor|]. intros _; split; [in_list|by eexists].
Qed.



End ModelPatch.

(** ** Providers *)

Module ProviderPatch.

Definition SNAKE_TO_PASCAL (k : string) : option string :=
  params_get k
    [("base_url", "BaseURL"); ("enabled", "Enabled"); ("type", "Type");
     ("api_key_env", "APIKeyEnv"); ("api_version", "ApiVersion");
     ("organization", "Organization"); ("project", "Project");
     ("timeout_ms", "TimeoutMs"); ("max_retries", "MaxRetries");
     ("has_api_key", "HasAPIKey"); ("api_key_source", "APIKeySource");
     ("last_credential_update", "LastCredentialUpdate")].

(** The first loop: known snake_case names, under their Go names. *)
Definition addAlias (result : obj) (kv : string * js) : obj :=
  if is_undefined kv.2 then result
  else match SNAKE_TO_PASCAL kv.1 with
       | Some pascal => obj_set pascal kv.2 result
       | None => result
       end.

(** The second loop: every other name as it is, overriding the first. *)
Definition addExplicit (result : obj) (kv : string * js) : obj :=
  if is_undefined kv.2 then result
  else match SNAKE_TO_PASCAL kv.1 with
       | Some _ => result
       | None => obj_set kv.1 kv.2 result
       end.

Definition canonicalizeProviderPatchForGlobalConfig (patch : obj) : obj :=
  fold_left addExplicit patch (fold_left addAlias patch []).

(** *** What canonicalization does to a field *)

Definition aliases : list (string * string) :=
  [("base_url", "BaseURL"); ("enabled", "Enabled"); ("type", "Type");
   ("api_key_env", "APIKeyEnv"); ("api_version", "ApiVersion");
   ("organization", "Organization"); ("project", "Project");
   ("timeout_ms", "TimeoutMs"); ("max_retries", "MaxRetries");
   ("has_api_key", "HasAPIKey"); ("api_key_source", "APIKeySource");
   ("last_credential_update", "LastCredentialUpdate")].

(** The console's name of a Go field, for the twelve that have one. *)
Definition alias_of (p : string) : option string :=
  params_get p (map (fun e => (e.2, e.1)) aliases).

Definition defined (o : option js) : option js :=
  match o with Some v => if is_undefined v then None else Some v | None => None end.

(** A field of the canonical patch: the explicit Go name, else its alias. *)
Definition canonical_field (patch : obj) (p : string) : option js :=
  match SNAKE_TO_PASCAL p with
  | Some _ => None
  | None =>
      match defined (obj_get p patch), alias_of p with
      | Some v, _ => Some v
      | None, Some snake => defined (obj_get snake patch)
      | None, None => None
      end
  end.

Lemma snake_alias (k p : string) : SNAKE_TO_PASCAL k = Some p -> alias_of p = Some k.
Proof.
  unfold SNAKE_TO_PASCAL. cbn [params_get].
  repeat (match goal with
          | |- (if String.eqb k ?x then _ else _) = _ -> _ =>
              destruct (String.eqb_spec k x) as [->|]; [by intros [= <-]|]
          end). done.
Qed.

Lemma alias_snake (k p : string) : alias_of p = Some k -> SNAKE_TO_PASCAL k = Some p.
Proof.
  unfold alias_of, aliases. cbn [map params_get fst snd].
  repeat (match goal with
          | |- (if String.eqb p ?x then _ else _) = _ -> _ =>
              destruct (String.eqb_spec p x) as [->|]; [by intros [= <-]|]
          end). done.
Qed.

Lemma alias_not_snake (k p : string) : alias_of p = Some k -> SNAKE_TO_PASCAL p = None.
Proof.
  unfold alias_of, aliases. cbn [map params_get fst snd].
  repeat (match goal with
          | |- (if String.eqb p ?x then _ else _) = _ -> _ =>
              destruct (String.eqb_spec p x) as [->|]; [done|]
          end). done.
Qed.

Lemma get_addAlias (acc : obj) (k : string) (v : js) (p : string) :
  obj_get p (addAlias acc (k, v)) =
  if negb (is_undefined v) && (match alias_of p with Some s => String.eqb s k | None => false end)
  then Some v else obj_get p acc.
Proof.
  unfold addAlias. cbn [fst snd]. destruct (is_undefined v); [done|]. cbn [negb andb].
  destruct (SNAKE_TO_PASCAL k) as [q|] eqn:Ek.
  - destruct (decide (p = q)) as [->|Hne].
    + by rewrite (snake_alias k q Ek), String.eqb_refl, obj_get_set_eq.
    + rewrite obj_get_set_ne by congruence. destruct (alias_of p) as [s|] eqn:Ea; [|done].
      destruct (String.eqb_spec s k) as [->|]; [|done].
      apply alias_snake in Ea. congruence.
  - destruct (alias_of p) as [s|] eqn:Ea; [|done].
    destruct (String.eqb_spec s k) as [->|]; [|done]. apply alias_snake in Ea. congruence.
Qed.

Lemma get_addExplicit (acc : obj) (k : string) (v : js) (p : string) :
  obj_get p (addExplicit acc (k, v)) =
  if negb (is_undefined v) && (match SNAKE_TO_PASCAL p with Some _ => false | None => String.eqb p k end)
  then Some v else obj_get p acc.
Proof.
  unfold addExplicit. cbn [fst snd]. destruct (is_undefined v); [done|]. cbn [negb andb].
  destruct (decide (p = k)) as [->|Hne].
  - destruct (SNAKE_TO_PASCAL k); [done|]. by rewrite String.eqb_refl, obj_get_set_eq.
  - assert (String.eqb p k = false) as -> by by apply String.eqb_neq.
    assert ((match SNAKE_TO_PASCAL p with Some _ => false | None => false end) = false) as ->
      by by destruct (SNAKE_TO_PASCAL p).
    destruct (SNAKE_TO_PASCAL k); [done|]. by rewrite obj_get_set_ne.
Qed.

Lemma defined_absent (k : string) (m : obj) : ~ In k (map fst m) -> defined (obj_get k m) = None.
Proof. intros H. by rewrite obj_get_not_In. Qed.

Lemma get_aliases (patch acc : obj) (p : string) :
  List.NoDup (map fst patch) ->
  obj_get p (fold_left addAlias patch acc) =
  match alias_of p with
  | Some s => match defined (obj_get s patch) with Some v => Some v | None => obj_get p acc end
  | None => obj_get p acc
  end.
Proof.
  revert acc. induction patch as [|[k v] patch IH]; intros acc H; cbn [fold_left].
  - by destruct (alias_of p).
  - inversion H as [|? ? Hn Hm]; subst. rewrite (IH _ Hm), get_addAlias.
    destruct (alias_of p) as [s|]; [|by rewrite andb_false_r].
    cbn [obj_get]. destruct (String.eqb_spec s k) as [->|Hne].
    + rewrite (defined_absent k patch Hn). cbn. by destruct (is_undefined v).
    + by rewrite andb_false_r.
Qed.

Lemma get_explicits (patch acc : obj) (p : string) :
  List.NoDup (map fst patch) -> SNAKE_TO_PASCAL p = None ->
  obj_get p (fold_left addExplicit patch acc) =
  match defined (obj_get p patch) with Some v => Some v | None => obj_get p acc end.
Proof.
  revert acc. induction patch as [|[k v] patch IH]; intros acc H Hp; cbn [fold_left]; [done|].
  inversion H as [|? ? Hn Hm]; subst. rewrite (IH _ Hm Hp), get_addExplicit, Hp. cbn [obj_get].
  destruct (String.eqb_spec p k) as [->|Hne].
  - rewrite (defined_absent k patch Hn). cbn. by destruct (is_undefined v).
  - by rewrite andb_false_r.
Qed.

Lemma get_explicits_snake (patch acc : obj) (p : string) :
  SNAKE_TO_PASCAL p <> None -> obj_get p (fold_left addExplicit patch acc) = obj_get p acc.
Proof.
  intros Hp. revert acc. induction patch as [|[k v] patch IH]; intros acc; cbn [fold_left]; [done|].
  rewrite IH, get_addExplicit. by destruct (SNAKE_TO_PASCAL p); [rewrite andb_false_r|].
Qed.

Lemma canonical_get (patch : obj) (p : string) :
  List.NoDup (map fst patch) ->
  obj_get p (canonicalizeProviderPatchForGlobalConfig patch) = canonical_field patch p.
Proof.
  intros H. unfold canonicalizeProviderPatchForGlobalConfig, canonical_field.
  destruct (SNAKE_TO_PASCAL p) eqn:Ep.
  - rewrite get_explicits_snake by congruence. rewrite get_aliases by done.
    destruct (alias_of p) as [k|] eqn:Ea; [|done]. apply alias_not_snake in Ea. congruence.
  - rewrite get_explicits, get_aliases by done.
    destruct (defined (obj_get p patch)), (alias_of p) as [k|]; try done.
    by destruct (defined (obj_get k patch)).
Qed.

(** A provider patch reaches the gateway under the Go field names, and nothing is
    lost: a field of the canonical patch is the one the console gave under the Go
    name, or else under its snake_case alias; the aliases themselves, and fields
    that are undefined, are gone. *)
Theorem canonical_provider_patch (patch : obj) (p : string) :
  List.NoDup (map fst patch) ->
  obj_get p (canonicalizeProviderPatchForGlobalConfig patch) = canonical_field patch p.
Proof. apply canonical_get. Qed.

Lemma canonical_provider_patch_witness :
  obj_get "BaseURL" (canonicalizeProviderPatchForGlobalConfig
    [("base_url", JStr "http://a"); ("BaseURL", JStr "http://b"); ("enabled", JBool true)])
  = canonical_field [("base_url", JStr "http://a"); ("BaseURL", JStr "http://b");
                     ("enabled", JBool true)] "BaseURL" /\
  canonical_field [("base_url", JStr "http://a"); ("BaseURL", JStr "http://b");
                   ("enabled", JBool true)] "BaseURL" = Some (JStr "http://b").
Proof.
  split; [|reflexivity].
  apply (canonical_provider_patch [("base_url", JStr "http://a"); ("BaseURL", JStr "http://b");
                                   ("enabled", JBool true)] "BaseURL").
  repeat constructor; cbn; intuition discriminate.
Defined.

End ProviderPatch.
