(* ===== verification/GatewayClient.v ===== *)
(** * The server-side gateway client

    src/frontend/src/lib/server/gateway-admin-client.ts, and the two guards that
    stand before it, require-admin-bearer.ts and require-tenant-auth.ts.  Every
    route of the console reaches the gateway through [gatewayAdminFetch], which
    chooses the credential, refreshes an expired token once, and turns an error
    status into a [GatewayAdminError]. *)

From S2P Require Import Prelude JsNumber JsText JsValue Json Effects ConfigPatch.
Import ModelPatch ProviderPatch.
Local Open Scope string_scope.

Definition MOCK_SESSION_SENTINEL : string := "__mock_session__".

(** ** [gatewayAdminFetch] *)

(** The options besides the token: method, extra headers, body. *)
Record FetchInit := mkInit {
  init_method : string;
  init_headers : list (string * string);
  init_body : option string;
}.
Definition get_init : FetchInit := mkInit "GET" [] None.

Definition useBearer (requestAuthToken : option string) : bool :=
  match requestAuthToken with
  | Some t => negb (String.eqb t "") && negb (String.eqb t MOCK_SESSION_SENTINEL)
  | None => false
  end.

(** [{ ...h, ...over }] on header objects *)
Definition headers_spread (h over : list (string * string)) : list (string * string) :=
  fold_left (fun acc kv => params_set kv.1 kv.2 acc) over h.

Definition gateway_request (base path : string) (init : FetchInit)
    (credential : string * string) : HttpRequest :=
  mkHttpRequest (init_method init) (base ++ path)
    (headers_spread [("Content-Type", "application/json"); credential] (init_headers init))
    (init_body init).

Definition bearer (token : string) : string * string := ("Authorization", "Bearer " ++ token).

Definition credential_of (requestAuthToken : option string) (key : string) : string * string :=
  match requestAuthToken with
  | Some t => if useBearer requestAuthToken then bearer t else ("X-API-Key", key)
  | None => ("X-API-Key", key)
  end.

(** [throw new GatewayAdminError(`Gateway error ${status}: ${text}`, ...)] *)
Definition throw_status {A} (r : HttpResponse) : M A :=
  text ← res_text r;
  throw (GatewayAdminError ("Gateway error " ++ Z_to_string (res_status r) ++ ": " ++ text)
           (Some (res_status r))
           (JObj [("status", js_of_Z (res_status r)); ("response", JStr text)])).

(** What the function returns for an answer: the rejection of an error status,
    or the value to settle with, which for [return res.json()] is a promise
    still to be waited for, outside of the try block. *)
Definition settle_response (r : HttpResponse) : M (M js) :=
  if negb (res_ok r) then throw_status r
  else if (res_status r =? 204)%Z then mret (mret JNull)
  else mret (res_json r).

Definition refresh_request (e : Env) : HttpRequest :=
  mkHttpRequest "POST"
    (match truthy_env (NEXTAUTH_URL e) with
     | Some u => u ++ "/api/auth/refresh-server"
     | None => "/api/auth/refresh-server"
     end)
    [("Content-Type", "application/json")] None.

(** The refresh and the retry after a 401: [Some p] returns [p], [None] falls
    through to the handling of the first answer. *)
Definition refresh_and_retry (base path : string) (init : FetchInit) : M (option (M js)) :=
  try_catch
    (e ← ask env;
     refreshRes ← fetch (refresh_request e);
     if res_ok refreshRes then
       refreshData ← res_json refreshRes;
       ok ← get refreshData "ok";
       token ← get refreshData "access_token";
       if (truthy ok && truthy token)%bool then
         retryRes ← fetch (gateway_request base path init (bearer (js_to_string token)));
         p ← settle_response retryRes;
         mret (Some p)
       else mret None
     else mret None)
    (fun _ => mret None).

Definition unreachable (base path : string) : exn :=
  GatewayAdminError "Backend unreachable. Check GATEWAY_BASE_URL or Docker port mapping."
    (Some 503%Z)
    (JObj [("baseUrl", JStr base); ("path", JStr path); ("error", JStr "ECONNREFUSED")]).

Definition gateway_exchange (base path : string) (init : FetchInit)
    (requestAuthToken : option string) (key : string) : M js :=
  mjoin
    (try_catch
       (res ← fetch (gateway_request base path init (credential_of requestAuthToken key));
        early ← (if ((res_status res =? 401)%Z && useBearer requestAuthToken)%bool
                 then refresh_and_retry base path init else mret None);
        match early with
        | Some p => mret p
        | None => settle_response res
        end)
       (fun error =>
          if str_includes "ECONNREFUSED" (exn_message error)
          then throw (unreachable base path) else throw error)).

Definition gatewayAdminFetch (path : string) (init : FetchInit)
    (requestAuthToken : option string) : M js :=
  e ← ask env;
  match truthy_env (GATEWAY_BASE_URL e) with
  | None => throw (GatewayAdminError "Missing GATEWAY_BASE_URL" (Some 500%Z) JUndef)
  | Some base =>
      match useBearer requestAuthToken, truthy_env (GATEWAY_ADMIN_API_KEY e) with
      | false, None => throw (GatewayAdminError "Missing GATEWAY_ADMIN_API_KEY" (Some 500%Z) JUndef)
      | _, key => gateway_exchange base path init requestAuthToken
                    (match key with Some k => k | None => "" end)
      end
  end.

(** ** The token of a request *)

Definition getAdminAuthToken (request : Request) : M (option string) :=
  mock ← cookie "is_mock_session";
  if (match mock with Some v => String.eqb v "1" | None => false end) then
    mret (Some MOCK_SESSION_SENTINEL)
  else
    fromCookie ← cookie "admin_access_token";
    match truthy_env fromCookie with
    | Some t => mret (Some t)
    | None =>
        match header "authorization" request with
        | Some h => if starts_with "Bearer " h then mret (Some (str_trim (slice_from 7 h)))
                    else mret None
        | None => mret None
        end
    end.

(** [{ token } | { response }] *)
Inductive auth : Type :=
| Token (token : string)
| Denied (response : NextResponse).

Definition requireAdminBearer (request : Request) : M auth :=
  token ← getAdminAuthToken request;
  match truthy_env token with
  | None => r ← next_json_status (error_body "Authentication required") 401; mret (Denied r)
  | Some t => mret (Token t)
  end.

Definition requireTenantAuth (request : Request) : M auth :=
  token ← getAdminAuthToken request;
  match truthy_env token with
  | None => r ← next_json_status (error_body "Authentication required") 401; mret (Denied r)
  | Some t => mret (Token t)
  end.

(** ** The operations of the admin API *)

Definition send (method : string) (body : option js) : FetchInit :=
  mkInit method [] (match body with Some v => json_stringify v | None => None end).

(** A write guarded by optimistic concurrency: [version.toString()] fails on
    null and undefined, before anything is sent. *)
Definition send_versioned (method path : string) (body : option js) (version : js)
    (tok : option string) : M js :=
  v ← to_string_method version;
  gatewayAdminFetch path
    (mkInit method [("If-Match-Version", v)]
       (match body with Some b => json_stringify b | None => None end)) tok.

(** [Object.entries(v)], and the properties [{ ...v }] copies. *)
Definition entries (v : js) : obj :=
  match v with
  | JObj m => m
  | JArr l => imap (fun i x => (Z_to_string (Z.of_nat i), x)) l
  | JStr t => imap (fun i c => (Z_to_string (Z.of_nat i), JStr c)) (utf8_chars t)
  | _ => []
  end.

Definition getVersion : M js := gatewayAdminFetch "/admin/version" get_init None.
Definition getTenants (tok : option string) : M js :=
  gatewayAdminFetch "/admin/tenants" get_init tok.
Definition getModels (tok : option string) : M js :=
  gatewayAdminFetch "/admin/models" get_init tok.
Definition getProviders (tok : option string) : M js :=
  gatewayAdminFetch "/admin/providers" get_init tok.
Definition getSystemHealth (tok : option string) : M js :=
  gatewayAdminFetch "/admin/health/system" get_init tok.
Definition getRouteGroups : M js := gatewayAdminFetch "/admin/route-groups" get_init None.
Definition getFeatures : M js := gatewayAdminFetch "/admin/features" get_init None.

Definition getTenantConfig (tenantId : string) (tok : option string) : M js :=
  gatewayAdminFetch ("/admin/tenants/" ++ tenantId ++ "/config") get_init tok.

Definition patchTenantConfig (tenantId : string) (config version : js) (tok : option string) : M js :=
  send_versioned "PATCH" ("/admin/tenants/" ++ tenantId ++ "/config")
    (Some (JObj [("budgets", config)])) version tok.

Definition patchTenantConfigGeneric (tenantId : string) (patch version : js) (tok : option string)
  : M js :=
  send_versioned "PATCH" ("/admin/tenants/" ++ tenantId ++ "/config") (Some patch) version tok.

(** [config.config?.selection?.route_groups || {}] *)
Definition route_groups_of (config : js) : M js :=
  c ← get config "config";
  mret (js_or (opt_get (opt_get c "selection") "route_groups") (JObj [])).

(** [config.version || 1] *)
Definition version_of (config : js) : M js :=
  v ← get config "version"; mret (js_or v (js_of_Z 1)).

Definition routeGroup (e : string * js) : js := JObj [("id", JStr e.1); ("models", e.2)].

Definition getRouteGroupsFromTenantConfig (tenantId : string) (tok : option string) : M (list js) :=
  config ← getTenantConfig tenantId tok;
  routeGroups ← route_groups_of config;
  mret (map routeGroup (entries routeGroups)).

(** [{ ...currentRouteGroups, [routeGroupId]: models }] as a selection patch *)
Definition selection_patch (current : js) (routeGroupId : string) (models : js) : js :=
  JObj [("selection",
         JObj [("route_groups",
                JObj (obj_set routeGroupId models (obj_spread [] (entries current))))])].

Definition createRouteGroupInTenantConfig (tenantId routeGroupId : string) (models : js)
    (tok : option string) : M js :=
  config ← getTenantConfig tenantId tok;
  currentRouteGroups ← route_groups_of config;
  version ← version_of config;
  patchTenantConfigGeneric tenantId
    (selection_patch currentRouteGroups routeGroupId models) version tok.

Definition updateRouteGroupInTenantConfig (tenantId routeGroupId : string) (models : js)
    (tok : option string) : M js :=
  config ← getTenantConfig tenantId tok;
  currentRouteGroups ← route_groups_of config;
  version ← version_of config;
  patchTenantConfigGeneric tenantId
    (selection_patch currentRouteGroups routeGroupId models) version tok.

Definition deleteRouteGroupFromTenantConfig (tenantId routeGroupId : string) (tok : option string)
  : M js :=
  gatewayAdminFetch ("/admin/tenants/" ++ encodeURIComponent tenantId ++ "/route-groups/"
                       ++ encodeURIComponent routeGroupId) (send "DELETE" None) tok.

Definition getModelBenchmarks (windowHours : num) (tok : option string) : M js :=
  gatewayAdminFetch ("/admin/benchmarks/models?window_hours=" ++ num_to_string windowHours)
    get_init tok.
Definition deleteModelBenchmarks (tok : option string) : M js :=
  gatewayAdminFetch "/admin/benchmarks/models" (send "DELETE" None) tok.
Definition getBenchmarks (tok : option string) : M js :=
  gatewayAdminFetch "/admin/benchmarks" get_init tok.
Definition getBenchmark (benchmarkId : string) (tok : option string) : M js :=
  gatewayAdminFetch ("/admin/benchmarks/" ++ benchmarkId) get_init tok.
Definition getBenchmarkSummary (tok : option string) : M js :=
  gatewayAdminFetch "/admin/benchmarks/summary" get_init tok.
Definition createBenchmark (request : js) (tok : option string) : M js :=
  gatewayAdminFetch "/admin/benchmarks" (send "POST" (Some request)) tok.

Definition createModel (model version : js) (tok : option string) : M js :=
  send_versioned "POST" "/admin/models" (Some model) version tok.

Definition updateModel (modelId : string) (model version : js) (tok : option string) : M js :=
  match buildAdminModelPatchPayload model with
  | None => throw (JsError "Cannot read properties of null or undefined")
  | Some patch => send_versioned "PATCH" ("/admin/models/" ++ modelId) (Some (JObj patch)) version tok
  end.

Definition deleteModel (modelId : string) (version : js) (tok : option string) : M js :=
  send_versioned "DELETE" ("/admin/models/" ++ modelId) None version tok.

Definition createTenant (tenantId : js) (environment : string) (tok : option string) : M js :=
  gatewayAdminFetch "/admin/tenants"
    (send "POST" (Some (JObj [("tenant_id", tenantId); ("environment", JStr environment)]))) tok.
Definition deleteTenant (tenantId : string) (tok : option string) : M js :=
  gatewayAdminFetch ("/admin/tenants/" ++ tenantId) (send "DELETE" None) tok.
Definition getTenantApiKeys (tenantId : string) (tok : option string) : M js :=
  gatewayAdminFetch ("/admin/tenants/" ++ tenantId ++ "/api-keys") get_init tok.

Definition month_param (month : option string) : string :=
  match truthy_env month with Some m => "?month=" ++ m | None => "" end.
Definition getTenantUsage (tenantId : string) (month tok : option string) : M js :=
  gatewayAdminFetch ("/admin/tenants/" ++ tenantId ++ "/usage" ++ month_param month) get_init tok.
Definition getTenantUsageSummary (tenantId : string) (month tok : option string) : M js :=
  gatewayAdminFetch ("/admin/tenants/" ++ tenantId ++ "/usage/summary" ++ month_param month)
    get_init tok.
Definition getTenantBudgetStatus (tenantId : string) (tok : option string) : M js :=
  gatewayAdminFetch ("/admin/tenants/" ++ tenantId ++ "/budgets/status") get_init tok.

Definition getGlobalConfig (tok : option string) : M js :=
  gatewayAdminFetch "/admin/config/global" get_init tok.
Definition patchGlobalConfig (config version : js) (tok : option string) : M js :=
  send_versioned "PATCH" "/admin/config/global" (Some config) version tok.
Definition getGlobalConfigChanges (limit offset : num) (tok : option string) : M js :=
  gatewayAdminFetch ("/admin/config/global/changes?limit=" ++ num_to_string limit
                       ++ "&offset=" ++ num_to_string offset) get_init tok.

Definition createTenantApiKey (tenantId : string) (data : js) (tok : option string) : M js :=
  gatewayAdminFetch ("/admin/tenants/" ++ tenantId ++ "/api-keys") (send "POST" (Some data)) tok.
Definition rotateTenantApiKey (tenantId keyId : string) (tok : option string) : M js :=
  gatewayAdminFetch ("/admin/tenants/" ++ tenantId ++ "/api-keys/" ++ keyId ++ "/rotate")
    (send "POST" None) tok.
Definition revokeTenantApiKey (tenantId keyId : string) (tok : option string) : M js :=
  gatewayAdminFetch ("/admin/tenants/" ++ tenantId ++ "/api-keys/" ++ keyId ++ "/revoke")
    (send "POST" None) tok.
Definition testTenantPiiConnection (tenantId : string) (payload : js) (tok : option string) : M js :=
  gatewayAdminFetch ("/admin/tenants/" ++ tenantId ++ "/pii/test-connection")
    (send "POST" (Some payload)) tok.

Definition getProvidersConfig : M js :=
  globalConfig ← getGlobalConfig None;
  c ← get globalConfig "config";
  mret (js_or (opt_get c "providers") (JObj [])).

Definition getConversationDialog (conversationId workflowId tenantId : string)
    (tok : option string) : M js :=
  gatewayAdminFetch ("/admin/conversations/" ++ encodeURIComponent conversationId
    ++ "/dialog?workflow_id=" ++ encodeURIComponent workflowId
    ++ "&tenant_id=" ++ encodeURIComponent tenantId) get_init tok.

(** [{ providers: { [providerId]: patch } }] *)
Definition providers_patch (providerId : string) (patch : obj) : js :=
  JObj [("providers", JObj [(providerId, JObj patch)])].

Definition patchProviderConfig (providerId : string) (patch : obj) (version : js)
    (tok : option string) : M js :=
  send_versioned "PATCH" "/admin/config/global"
    (Some (providers_patch providerId (canonicalizeProviderPatchForGlobalConfig patch)))
    version tok.

(** The credential update of an AWS provider. *)
Definition aws_patch (credentials : js) : obj :=
  [("type", JStr "aws_bedrock");
   ("aws_access_key_id", opt_get credentials "aws_access_key_id");
   ("aws_secret_access_key", opt_get credentials "aws_secret_access_key");
   ("aws_region", opt_get credentials "aws_region")].

(** The credential update of any other provider, stamped with the time. *)
Definition key_patch (credentials : js) (stamp : string) : obj :=
  [("credentials", credentials);
   ("has_api_key", JBool (truthy (opt_get credentials "api_key")));
   ("api_key_source", JStr "global_config");
   ("last_credential_update", JStr stamp)].

(** The [in] operator is a TypeError on a primitive. *)
Definition updateProviderCredentials (providerId : string) (credentials version : js)
    (tok : option string) : M js :=
  if negb (is_object credentials)
  then throw (JsError "Cannot use 'in' operator to search for 'aws_access_key_id'")
  else if obj_has "aws_access_key_id" (own credentials) then
    patchProviderConfig providerId (aws_patch credentials) version tok
  else
    t ← date_now;
    patchProviderConfig providerId (key_patch credentials (iso_string t)) version tok.

(** ** Guarded handlers *)

(** [const auth = await requireAdminBearer(request)
     if ('response' in auth) return auth.response] *)
Definition with_admin (request : Request) (k : string -> M NextResponse) : M NextResponse :=
  a ← requireAdminBearer request;
  match a with Denied r => mret r | Token t => k t end.

(** The same with [requireTenantAuth]. *)
Definition with_tenant (request : Request) (k : string -> M NextResponse) : M NextResponse :=
  a ← requireTenantAuth request;
  match a with Denied r => mret r | Token t => k t end.
