(* ===== verification/GatewayFacts.v ===== *)
(** * Correctness of the gateway client

    What [gatewayAdminFetch] sends (which credential, how many requests), what it
    answers (the reading of a status and a body, the refresh after a 401), what
    it rejects with, and what the guards in front of it let through. *)

From S2P Require Import Prelude JsNumber JsText JsValue Json Effects ConfigPatch GatewayClient.
Import ModelPatch ProviderPatch.
Local Open Scope string_scope.

(** ** What is sent *)

Create HintDb gateway.

Section Traffic.
Context (w : World) (P : HttpRequest -> Prop).

Lemma later_settle (r : HttpResponse) : sends_later w P (settle_response r).
Proof.
  unfold sends_later, settle_response.
  destruct (negb (res_ok r)).
  - unfold throw_status. eapply spec_bind with (Q1 := fun _ n => n = []).
    + unfold res_text. destruct (res_body r); [by apply spec_ret | by apply spec_throw].
    + intros t n ->. apply spec_throw. auto.
    + intros e n ->. auto.
  - destruct (res_status r =? 204)%Z; apply spec_ret; split; auto with effects.
Qed.

Lemma later_mono {A B} (m : M A) (f : A -> M (M B)) :
  sends w P m -> (forall a, sends_later w P (f a)) -> sends_later w P (m ≫= f).
Proof.
  intros Hm Hf. eapply spec_bind; [exact Hm| |auto].
  intros a n1 H1. eapply spec_mono; [apply Hf|].
  intros o n2 [H2 ?]. split; [by apply Forall_app|done].
Qed.

(** An optional promise, as the retry produces it. *)
Definition sends_early (m : M (option (M js))) : Prop :=
  spec w m (fun o n => Forall P n /\
              match o with Ok (Some p) => sends w P p | _ => True end).

Lemma early_none : sends_early (mret None).
Proof. apply spec_ret. auto. Qed.

Lemma early_bind {A} (m : M A) (f : A -> M (option (M js))) :
  sends w P m -> (forall a, sends_early (f a)) -> sends_early (m ≫= f).
Proof.
  intros Hm Hf. eapply spec_bind; [exact Hm| |auto].
  intros a n1 H1. eapply spec_mono; [apply Hf|].
  intros o n2 [H2 ?]. split; [by apply Forall_app|done].
Qed.

Lemma early_settle (r : HttpResponse) :
  sends_early (p ← settle_response r; mret (Some p)).
Proof.
  eapply spec_bind; [apply later_settle| |].
  - intros p n [Hn Hp]. apply spec_ret. by rewrite app_nil_r.
  - intros e n [Hn _]. auto.
Qed.

Lemma early_refresh (base path : string) (init : FetchInit) :
  P (refresh_request (env w)) ->
  (forall t, P (gateway_request base path init (bearer t))) ->
  sends_early (refresh_and_retry base path init).
Proof.
  intros Hr Ht. unfold refresh_and_retry.
  eapply spec_try with (Q1 := fun o n => Forall P n /\
              match o with Ok (Some p) => sends w P p | _ => True end).
  2: auto. 2: { intros e n [Hn _]. apply spec_ret. by rewrite app_nil_r. }
  eapply spec_bind with (Q1 := fun o n => o = Ok (env w) /\ n = []); [by apply spec_ask| |by intros ? ? []].
  intros e n [[= ->] ->].
  apply early_bind; [by apply sends_fetch|]. intros refreshRes.
  destruct (res_ok refreshRes); [|apply early_none].
  apply early_bind; [auto with effects|]. intros data.
  apply early_bind; [auto with effects|]. intros ok.
  apply early_bind; [auto with effects|]. intros token.
  destruct (truthy ok && truthy token); [|apply early_none].
  apply early_bind; [by apply sends_fetch|]. intros retryRes. apply early_settle.
Qed.

(** The requests of one call: the first one, and for a bearer token the refresh
    and the retry. *)
Lemma sends_exchange (base path : string) (init : FetchInit) (tok : option string) (key : string) :
  P (gateway_request base path init (credential_of tok key)) ->
  (useBearer tok = true -> P (refresh_request (env w)) /\
     forall t, P (gateway_request base path init (bearer t))) ->
  sends w P (gateway_exchange base path init tok key).
Proof.
  intros H1 H2. apply sends_join.
  eapply spec_try with (Q1 := fun o n => Forall P n /\
                          match o with Ok p => sends w P p | Throw _ => True end).
  2: auto.
  2: { intros e n [Hn _]. destruct (str_includes _ _); apply spec_throw; by rewrite app_nil_r. }
  apply later_mono; [by apply sends_fetch|]. intros res.
  eapply spec_bind with (Q1 := fun o n => Forall P n /\
              match o with Ok (Some p) => sends w P p | _ => True end).
  - destruct ((res_status res =? 401)%Z && useBearer tok) eqn:E; [|by apply early_none].
    apply andb_true_iff in E as [_ E]. destruct (H2 E). by apply early_refresh.
  - intros [p|] n [Hn Hp]; cbn.
    + apply spec_ret. rewrite app_nil_r. auto.
    + eapply spec_mono; [apply later_settle|]. intros o n2 [? ?].
      split; [by apply Forall_app|done].
  - intros e n [Hn _]. auto.
Qed.

Lemma sends_gateway (path : string) (init : FetchInit) (tok : option string) :
  (forall base key, truthy_env (GATEWAY_BASE_URL (env w)) = Some base ->
     (useBearer tok = false -> truthy_env (GATEWAY_ADMIN_API_KEY (env w)) = Some key) ->
     P (gateway_request base path init (credential_of tok key))) ->
  (useBearer tok = true -> P (refresh_request (env w)) /\
     forall base t, truthy_env (GATEWAY_BASE_URL (env w)) = Some base ->
       P (gateway_request base path init (bearer t))) ->
  sends w P (gatewayAdminFetch path init tok).
Proof.
  intros H1 H2. unfold gatewayAdminFetch.
  eapply spec_bind with (Q1 := fun o n => o = Ok (env w) /\ n = []); [by apply spec_ask| |by intros ? ? []].
  intros e n [[= ->] ->]. cbn [app].
  destruct (truthy_env (GATEWAY_BASE_URL (env w))) as [base|] eqn:Eb; [|by apply spec_throw].
  destruct (useBearer tok) eqn:Eu, (truthy_env (GATEWAY_ADMIN_API_KEY (env w))) as [k|] eqn:Ek;
    try (by apply spec_throw);
    (apply sends_exchange; [by apply H1|]); rewrite Eu; try done;
    intros _; destruct (H2 eq_refl); auto.
Qed.
End Traffic.

(** ** Credentials *)

Definition carries_api_key (r : HttpRequest) : bool :=
  match params_get "X-API-Key" (http_headers r) with Some _ => true | None => false end.

Lemma params_get_spread (k : string) (h over : list (string * string)) :
  params_get k over = None -> params_get k (headers_spread h over) = params_get k h.
Proof.
  unfold headers_spread. revert h. induction over as [|[k2 v2] over IH]; intros h H; cbn; [done|].
  cbn in H. destruct (String.eqb_spec k k2) as [->|Hne]; [done|].
  rewrite (IH _ H), params_get_set. by destruct (String.eqb_spec k k2).
Qed.

Lemma gateway_request_header (base path k : string) (init : FetchInit) (cred : string * string) :
  params_get k (init_headers init) = None -> k <> "Content-Type" ->
  params_get k (http_headers (gateway_request base path init cred)) =
  if String.eqb k cred.1 then Some cred.2 else None.
Proof.
  intros Hi Hk. unfold gateway_request; cbn [http_headers].
  rewrite params_get_spread by done. destruct cred as [k1 v1]. cbn [params_get fst snd].
  destruct (String.eqb_spec k "Content-Type"); [congruence|].
  by destruct (String.eqb k k1).
Qed.

Lemma credential_bearer (tok : option string) (key : string) :
  useBearer tok = true -> exists t, tok = Some t /\ credential_of tok key = bearer t.
Proof.
  destruct tok as [t|]; [|done]. intros H. exists t. split; [done|].
  unfold credential_of. by rewrite H.
Qed.

Lemma credential_key (tok : option string) (key : string) :
  useBearer tok = false -> credential_of tok key = ("X-API-Key", key).
Proof. destruct tok as [t|]; [|done]. intros H. unfold credential_of. by rewrite H. Qed.

(** ** The answer of a single exchange *)

(** The error an error status becomes. *)
Definition status_error (r : HttpResponse) (text : string) : exn :=
  GatewayAdminError ("Gateway error " ++ Z_to_string (res_status r) ++ ": " ++ text)
    (Some (res_status r))
    (JObj [("status", js_of_Z (res_status r)); ("response", JStr text)]).

(** What the catch clause of [gatewayAdminFetch] turns an error into. *)
Definition reported (base path : string) (e : exn) : exn :=
  if str_includes "ECONNREFUSED" (exn_message e) then unreachable base path else e.

(** What a caller should get for an answer, with no refresh involved. *)
Definition answer (base path : string) (o : outcome HttpResponse) : outcome js :=
  match o with
  | Throw e => Throw (reported base path e)
  | Ok r =>
      if res_ok r then
        if (res_status r =? 204)%Z then Ok JNull
        else body_json r
      else Throw (reported base path
                    match res_body r with
                    | Some t => status_error r t
                    | None => JsError "terminated"
                    end)
  end.

Definition is_401 (o : outcome HttpResponse) : bool :=
  match o with Ok r => (res_status r =? 401)%Z | Throw _ => false end.

Lemma settle_answer (base path : string) (r : HttpResponse) (w : World) (s : State) :
  mjoin (try_catch (settle_response r)
           (fun error => if str_includes "ECONNREFUSED" (exn_message error)
                         then throw (unreachable base path) else throw error)) w s
  = (answer base path (Ok r), s).
Proof.
  unfold answer, settle_response, mjoin, M_join, try_catch, reported.
  destruct (res_ok r); cbn [negb].
  - destruct (res_status r =? 204)%Z; [done|]. apply res_json_eval.
  - unfold throw_status, res_text, mbind, M_bind. destruct (res_body r) as [t|]; cbn.
    + unfold status_error. cbn [exn_message]. by destruct (str_includes _ _).
    + reflexivity.
Qed.

(** The client as it is configured: an absolute gateway address, and a
    credential to use. *)
Record configured (w : World) (tok : option string) (base key : string) : Prop := {
  conf_base : truthy_env (GATEWAY_BASE_URL (env w)) = Some base;
  conf_url : absolute_url base = true;
  conf_key : useBearer tok = true \/ truthy_env (GATEWAY_ADMIN_API_KEY (env w)) = Some key;
}.

(** The key that is passed on when a token is used is never read. *)
Lemma gateway_configured (w : World) (tok : option string) (base key path : string)
    (init : FetchInit) (s : State) :
  configured w tok base key ->
  exists key', gatewayAdminFetch path init tok w s = gateway_exchange base path init tok key' w s
            /\ credential_of tok key' = credential_of tok key.
Proof.
  intros [Hb Hu Hk]. unfold gatewayAdminFetch, ask, mbind, M_bind. rewrite Hb.
  destruct (useBearer tok) eqn:Eu.
  - destruct (credential_bearer _ key Eu) as (t & -> & ->).
    destruct (truthy_env (GATEWAY_ADMIN_API_KEY (env w))) as [k|];
      eexists; (split; [done|]); unfold credential_of; by rewrite Eu.
  - destruct Hk as [Hk|Hk]; [done|]. rewrite Hk. by exists key.
Qed.

Lemma gateway_url (base path : string) (init : FetchInit) (cred : string * string) :
  absolute_url base = true ->
  absolute_url (http_url (gateway_request base path init cred)) = true.
Proof. apply absolute_url_app. Qed.

(** Without a refresh, the call is one request and its answer. *)
Lemma gateway_single (w : World) (tok : option string) (base key path : string)
    (init : FetchInit) (s : State) :
  configured w tok base key ->
  let r := gateway_request base path init (credential_of tok key) in
  useBearer tok = false \/ is_401 (net w (sent s) r) = false ->
  gatewayAdminFetch path init tok w s =
    (answer base path (net w (sent s) r), mkState (sent s ++ [r])%list (ticks s)).
Proof.
  intros Hc r Hno. destruct (gateway_configured w tok base key path init s Hc) as (key' & -> & Hcred).
  unfold gateway_exchange. unfold mjoin at 1, M_join at 1, try_catch at 1, mbind at 1, M_bind at 1.
  rewrite Hcred, (fetch_eval _ w s (gateway_url base path init _ (conf_url _ _ _ _ Hc))).
  fold r. destruct (net w (sent s) r) as [res|e] eqn:En.
  - assert (((res_status res =? 401)%Z && useBearer tok)%bool = false) as ->.
    { destruct Hno as [->| H]; [apply andb_false_r|]. cbn in H. by rewrite H. }
    apply (settle_answer base path res w).
  - cbn. unfold reported. by destruct (str_includes _ _).
Qed.

(** ** The refresh after a 401 *)

(** The token an answer of the refresh endpoint grants. *)
Definition granted_token (o : outcome HttpResponse) : option string :=
  match o with
  | Ok r =>
      if res_ok r then
        match body_json r with
        | Ok v => if (truthy (opt_get v "ok") && truthy (opt_get v "access_token"))%bool
                  then Some (js_to_string (opt_get v "access_token")) else None
        | Throw _ => None
        end
      else None
  | Throw _ => None
  end.

(** The promise a successful retry leaves. *)
Definition retried (o : outcome HttpResponse) : option HttpResponse :=
  match o with Ok r => if res_ok r then Some r else None | Throw _ => None end.

Lemma retried_ok (o : outcome HttpResponse) (r : HttpResponse) :
  retried o = Some r -> res_ok r = true.
Proof. destruct o as [x|]; cbn; [|done]. destruct (res_ok x) eqn:E; congruence. Qed.

(** The promise [return res.json()] leaves for an answer with a good status. *)
Definition promise_of (r : HttpResponse) : M js :=
  if (res_status r =? 204)%Z then mret JNull else res_json r.

Lemma settle_ok (r : HttpResponse) :
  res_ok r = true -> settle_response r = mret (promise_of r).
Proof.
  intros H. unfold settle_response, promise_of. rewrite H. by destruct (res_status r =? 204)%Z.
Qed.

Lemma settle_bad (r : HttpResponse) (w : World) (s : State) :
  res_ok r = false -> exists e, settle_response r w s = (Throw e, s).
Proof.
  intros H. unfold settle_response. rewrite H. cbn.
  unfold throw_status, res_text, mbind, M_bind. destruct (res_body r); cbn; eauto.
Qed.

Definition after (s : State) (rs : list HttpRequest) : State :=
  mkState (sent s ++ rs)%list (ticks s).

Lemma refresh_relative (base path : string) (init : FetchInit) (w : World) (s : State) :
  absolute_url (http_url (refresh_request (env w))) = false ->
  refresh_and_retry base path init w s = (Ok None, s).
Proof.
  intros Hr. unfold refresh_and_retry, try_catch, ask, mbind, M_bind, fetch. by rewrite Hr.
Qed.

Lemma refresh_eval (base path : string) (init : FetchInit) (w : World) (s : State) :
  absolute_url base = true ->
  absolute_url (http_url (refresh_request (env w))) = true ->
  let f := refresh_request (env w) in
  refresh_and_retry base path init w s =
  match granted_token (net w (sent s) f) with
  | None => (Ok None, after s [f])
  | Some t =>
      let q := gateway_request base path init (bearer t) in
      (Ok (promise_of <$> retried (net w (sent s ++ [f])%list q)), after s [f; q])
  end.
Proof.
  intros Hb Hr f.
  unfold refresh_and_retry, try_catch, ask, mbind, M_bind, mret, M_ret. cbn beta iota.
  rewrite (fetch_eval _ w s Hr). fold f.
  destruct (net w (sent s) f) as [r|e]; cbn [granted_token]; [|done].
  destruct (res_ok r); [|done]. rewrite res_json_eval.
  destruct (body_json r) as [v|e]; [|done].
  unfold get, mret, M_ret. destruct (nullish v) eqn:Ev; [by destruct v|].
  destruct (truthy (opt_get v "ok") && truthy (opt_get v "access_token"))%bool; [|done].
  rewrite (fetch_eval _ w _ (gateway_url base path init _ Hb)).
  cbn [sent ticks]. unfold after. rewrite <- app_assoc. cbn [app].
  destruct (net w _ _) as [r3|e3]; [|done]. cbn [retried].
  destruct (res_ok r3) eqn:E3.
  - by rewrite (settle_ok _ E3).
  - by destruct (settle_bad r3 w (mkState (sent s ++ [f; gateway_request base path init
      (bearer (js_to_string (opt_get v "access_token")))])%list (ticks s)) E3) as [e ->].
Qed.

Lemma promise_answer (base path : string) (r : HttpResponse) (w : World) (s : State) :
  res_ok r = true -> promise_of r w s = (answer base path (Ok r), s).
Proof.
  intros H. unfold promise_of, answer. rewrite H. destruct (res_status r =? 204)%Z; [done|].
  apply res_json_eval.
Qed.

(** The call from the answer to its first request on. *)
Lemma exchange_401 (base path : string) (init : FetchInit) (tok : option string) (key : string)
    (w : World) (s : State) (r1 : HttpResponse) :
  absolute_url base = true -> useBearer tok = true ->
  let q := gateway_request base path init (credential_of tok key) in
  net w (sent s) q = Ok r1 -> res_status r1 = 401%Z ->
  gateway_exchange base path init tok key w s =
  match refresh_and_retry base path init w (after s [q]) with
  | (Ok (Some p), s') => p w s'
  | (_, s') => (answer base path (Ok r1), s')
  end.
Proof.
  intros Hb Hu q Hn H401. unfold gateway_exchange.
  unfold mjoin at 1, M_join at 1, try_catch at 1, mbind at 1, M_bind at 1.
  rewrite (fetch_eval _ w s (gateway_url base path init _ Hb)). fold q. rewrite Hn, H401, Hu.
  cbn [Z.eqb Pos.eqb andb]. unfold mbind at 1, M_bind at 1. fold (after s [q]).
  destruct (refresh_and_retry base path init w (after s [q])) as [[[p|]|e] s'] eqn:Er; [done| |].
  - apply (settle_answer base path r1 w).
  - exfalso. unfold refresh_and_retry, try_catch in Er.
    match type of Er with
    | match ?x with _ => _ end = _ => destruct x as [[a|e0] s0]; unfold mret, M_ret in Er; congruence
    end.
Qed.

(** ** What is rejected *)

Section Rejections.
Context (w : World) (Hw : sane w).

Definition raises_early (m : M (option (M js))) : Prop :=
  spec w m (fun o _ => match o with
                       | Ok (Some p) => raises w reportable p
                       | Ok None => True
                       | Throw e => reportable e
                       end).

Lemma raises_settle (past : list HttpRequest) (q : HttpRequest) (r : HttpResponse) :
  net w past q = Ok r ->
  spec w (settle_response r) (fun o _ => match o with
                                         | Ok p => raises w reportable p
                                         | Throw e => reportable e
                                         end).
Proof.
  intros Hr. specialize (Hw past q). rewrite Hr in Hw. unfold settle_response.
  destruct (res_ok r) eqn:Eo; cbn [negb].
  - destruct (res_status r =? 204)%Z; apply spec_ret; auto with effects.
  - destruct Hw as [|Hs]; [done|]. unfold throw_status.
    eapply spec_bind; [apply raises_res_text| |auto].
    intros t n _. by apply spec_throw.
Qed.

Lemma spec_fetch_net (q : HttpRequest) :
  spec w (fetch q) (fun o _ => match o with
                               | Ok r => exists past, net w past q = Ok r
                               | Throw e => reportable e
                               end).
Proof.
  apply spec_fetch; [|done]. intros _ past. specialize (Hw past q).
  destruct (net w past q) eqn:E; eauto.
Qed.

Lemma answers_refresh (base path : string) (init : FetchInit) :
  raises_early (refresh_and_retry base path init).
Proof.
  unfold refresh_and_retry.
  eapply spec_try with (Q1 := fun o _ => match o with
                       | Ok (Some p) => raises w reportable p
                       | Ok None => True
                       | Throw e => reportable e
                       end); [|auto|intros; by apply spec_ret].
  eapply spec_bind; [apply raises_ask with (E := reportable)| |auto]. intros e _ _.
  eapply spec_bind; [by apply raises_fetch| |auto]. intros r _ _.
  destruct (res_ok r); [|by apply spec_ret].
  eapply spec_bind; [apply raises_res_json| |auto]. intros v _ _.
  eapply spec_bind; [apply raises_get| |auto]. intros ok _ _.
  eapply spec_bind; [apply raises_get| |auto]. intros token _ _.
  destruct (truthy ok && truthy token); [|by apply spec_ret].
  eapply spec_bind; [apply spec_fetch_net| |auto]. intros r3 n [past H3].
  eapply spec_bind; [eapply raises_settle, H3| |auto]. intros p n2 Hp. by apply spec_ret.
Qed.

Lemma reportable_reported (base path : string) (e : exn) :
  reportable e -> reportable (reported base path e).
Proof. unfold reported. by destruct (str_includes _ _). Qed.

Lemma raises_exchange (base path : string) (init : FetchInit) (tok : option string) (key : string) :
  raises w reportable (gateway_exchange base path init tok key).
Proof.
  eapply spec_join with (Q1 := fun o _ => match o with
                                          | Ok p => raises w reportable p
                                          | Throw e => reportable e
                                          end); [| |auto].
  2: { intros p n Hp. eapply spec_mono; [exact Hp|auto]. }
  eapply spec_try with (Q1 := fun o _ => match o with
                                         | Ok p => raises w reportable p
                                         | Throw e => reportable e
                                         end); [|auto|].
  2: { intros e n He. apply (reportable_reported base path) in He. unfold reported in He.
       destruct (str_includes _ _); by apply spec_throw. }
  eapply spec_bind; [apply spec_fetch_net| |auto]. intros res n [past Hres].
  eapply spec_bind with (Q1 := fun o _ => match o with
                       | Ok (Some p) => raises w reportable p
                       | Ok None => True
                       | Throw e => reportable e
                       end); [| |auto].
  - destruct (_ && _)%bool; [apply answers_refresh|by apply spec_ret].
  - intros [p|] n' Hp; [by apply spec_ret|]. eapply spec_mono; [eapply raises_settle, Hres|auto].
Qed.

Lemma raises_gateway (path : string) (init : FetchInit) (tok : option string) :
  raises w reportable (gatewayAdminFetch path init tok).
Proof.
  unfold gatewayAdminFetch. apply raises_bind; [apply raises_ask|]. intros e.
  destruct (truthy_env _); [|by apply raises_throw].
  destruct (useBearer tok), (truthy_env _);
    first [apply raises_exchange | by apply raises_throw].
Qed.
End Rejections.

(** ** Guards *)

(** The token of a request, as a function. *)
Definition request_token (w : World) (request : Request) : option string :=
  if (match params_get "is_mock_session" (cookies w) with
      | Some v => String.eqb v "1" | None => false end)
  then Some MOCK_SESSION_SENTINEL
  else match truthy_env (params_get "admin_access_token" (cookies w)) with
       | Some t => Some t
       | None => match header "authorization" request with
                 | Some h => if starts_with "Bearer " h then Some (str_trim (slice_from 7 h))
                             else None
                 | None => None
                 end
       end.

Definition auth_required : NextResponse :=
  mkResponse 401 (BodyJson (error_body "Authentication required")) [].

Lemma token_eval (request : Request) (w : World) (s : State) :
  getAdminAuthToken request w s = (Ok (request_token w request), s).
Proof.
  unfold getAdminAuthToken, request_token, cookie, ask, mbind, M_bind, mret, M_ret.
  destruct (match params_get "is_mock_session" (cookies w) with
            | Some v => String.eqb v "1" | None => false end); [done|].
  destruct (truthy_env (params_get "admin_access_token" (cookies w))); [done|].
  destruct (header "authorization" request) as [h|]; [|done]. by destruct (starts_with "Bearer " h).
Qed.

Lemma guard_eval (request : Request) (w : World) (s : State) :
  requireAdminBearer request w s =
  (Ok (match truthy_env (request_token w request) with
       | Some t => Token t | None => Denied auth_required end), s).
Proof.
  unfold requireAdminBearer. unfold mbind at 1, M_bind at 1. rewrite token_eval.
  by destruct (truthy_env (request_token w request)).
Qed.

Lemma tenant_guard_eval (request : Request) (w : World) (s : State) :
  requireTenantAuth request w s = requireAdminBearer request w s.
Proof. reflexivity. Qed.

(** Without a credential the handler answers 401 and does nothing else. *)
Definition guarded (h : Request -> M NextResponse) : Prop :=
  forall w request s, truthy_env (request_token w request) = None ->
    h request w s = (Ok auth_required, s).

(** What a guard promises to the routes: it reads the token of the request, denies
    with the fixed answer when there is none, and does nothing else. *)
Class Guard (g : Request -> M auth) : Prop :=
  guard_law : forall request w s,
    g request w s = (Ok (match truthy_env (request_token w request) with
                         | Some t => Token t | None => Denied auth_required end), s).

#[export] Instance admin_guard : Guard requireAdminBearer.
Proof. intros request w s. apply guard_eval. Qed.

#[export] Instance tenant_guard : Guard requireTenantAuth.
Proof. intros request w s. rewrite tenant_guard_eval. apply guard_eval. Qed.

(** A route that stands behind any guard. *)
Lemma guarded_by (g : Request -> M auth) `{!Guard g} (k : Request -> string -> M NextResponse) :
  guarded (fun request => a ← g request;
                          match a with Denied r => mret r | Token t => k request t end).
Proof. intros w request s H. unfold mbind, M_bind. by rewrite (guard_law (g := g)), H. Qed.

Lemma guarded_with_admin (k : Request -> string -> M NextResponse) :
  guarded (fun request => with_admin request (k request)).
Proof. exact (guarded_by requireAdminBearer k). Qed.

Lemma guarded_with_tenant (k : Request -> string -> M NextResponse) :
  guarded (fun request => with_tenant request (k request)).
Proof. exact (guarded_by requireTenantAuth k). Qed.

Lemma guarded_try (h : Request -> M NextResponse) (c : exn -> M NextResponse) :
  guarded h -> guarded (fun request => try_catch (h request) c).
Proof. intros Hh w request s H. unfold try_catch. by rewrite (Hh w request s H). Qed.

Section GuardSteps.
Context (w : World) (P : HttpRequest -> Prop) (E : exn -> Prop).

Lemma sends_token (request : Request) : sends w P (getAdminAuthToken request).
Proof. intros s. exists []. by rewrite token_eval, app_nil_r. Qed.

Lemma raises_token (request : Request) : raises w E (getAdminAuthToken request).
Proof. intros s. exists []. by rewrite token_eval, app_nil_r. Qed.

Lemma sends_with_admin (request : Request) (k : string -> M NextResponse) :
  (forall t, truthy_env (request_token w request) = Some t -> sends w P (k t)) ->
  sends w P (with_admin request k).
Proof.
  intros Hk s. unfold with_admin, mbind, M_bind. rewrite guard_eval.
  destruct (truthy_env (request_token w request)) as [t|]; [by apply Hk|].
  exists []. by rewrite app_nil_r.
Qed.

Lemma raises_with_admin (request : Request) (k : string -> M NextResponse) :
  (forall t, raises w E (k t)) -> raises w E (with_admin request k).
Proof.
  intros Hk s. unfold with_admin, mbind, M_bind. rewrite guard_eval.
  destruct (truthy_env (request_token w request)) as [t|]; [by apply Hk|].
  exists []. by rewrite app_nil_r.
Qed.

Lemma raises_with_tenant (request : Request) (k : string -> M NextResponse) :
  (forall t, raises w E (k t)) -> raises w E (with_tenant request k).
Proof. exact (raises_with_admin request k). Qed.
End GuardSteps.

#[export] Hint Resolve raises_gateway sends_token raises_token : effects.

Lemma truthy_env_idem (o : option string) (t : string) :
  truthy_env o = Some t -> truthy_env (Some t) = Some t.
Proof. destruct o as [x|]; [|done]. cbn. destruct (String.eqb x "") eqn:E; [done|]. intros [= ->]. by rewrite E. Qed.

Lemma starts_with_split (p s : string) : starts_with p s = true -> exists t, s = p ++ t.
Proof.
  unfold starts_with. revert s. induction p as [|c p IH]; intros s; [by exists s|].
  destruct s as [|c' s]; cbn; [done|]. destruct (ascii_dec c c') as [->|]; [|done].
  intros H. destruct (IH s H) as [t ->]. by exists t.
Qed.

Lemma slice_app (p t : string) : slice_from (String.length p) (p ++ t) = t.
Proof. unfold slice_from. induction p as [|c p IH]; cbn; [by destruct t|done]. Qed.

(** What a call is after a 401 on its token. *)
Lemma gateway_401_eval (w : World) (tok : option string) (base key path : string)
    (init : FetchInit) (s : State) (r1 : HttpResponse) :
  configured w tok base key -> useBearer tok = true ->
  let q := gateway_request base path init (credential_of tok key) in
  let f := refresh_request (env w) in
  net w (sent s) q = Ok r1 -> res_status r1 = 401%Z ->
  gatewayAdminFetch path init tok w s =
  if absolute_url (http_url f) then
    match granted_token (net w (sent s ++ [q])%list f) with
    | None => (answer base path (Ok r1), after s [q; f])
    | Some t =>
        let q' := gateway_request base path init (bearer t) in
        (match retried (net w (sent s ++ [q; f])%list q') with
         | Some r3 => answer base path (Ok r3)
         | None => answer base path (Ok r1)
         end, after s [q; f; q'])
    end
  else (answer base path (Ok r1), after s [q]).
Proof.
  intros Hc Hu q f Hn H401.
  destruct (gateway_configured w tok base key path init s Hc) as (key' & -> & Hcred).
  assert (Hb := conf_url _ _ _ _ Hc). unfold q in Hn. rewrite <- Hcred in Hn.
  rewrite (exchange_401 base path init tok key' w s r1 Hb Hu Hn H401), Hcred. fold q.
  destruct (absolute_url (http_url f)) eqn:Ef; [|by rewrite refresh_relative].
  rewrite (refresh_eval base path init w (after s [q]) Hb Ef). fold f. cbn [sent after].
  destruct (granted_token _) as [t|];
    [|unfold after; cbn [sent ticks]; by rewrite <- app_assoc].
  cbv zeta. rewrite <- app_assoc. cbn [app]. unfold after; cbn [sent ticks].
  rewrite <- app_assoc. cbn [app].
  destruct (retried _) as [r3|] eqn:E3; [|done]. cbn [fmap option_fmap option_map].
  exact (promise_answer base path r3 w _ (retried_ok _ _ E3)).
Qed.

(** Which calls carry the system key. *)
Lemma sends_key_use (w : World) (path : string) (init : FetchInit) (tok : option string) :
  params_get "X-API-Key" (init_headers init) = None ->
  sends w (fun r => carries_api_key r = negb (useBearer tok)) (gatewayAdminFetch path init tok).
Proof.
  intros Hi. apply sends_gateway.
  - intros base key Hb Hk. unfold carries_api_key. rewrite gateway_request_header by done.
    destruct (useBearer tok) eqn:Eu.
    + by destruct (credential_bearer tok key Eu) as (t & -> & ->).
    + by rewrite (credential_key tok key Eu).
  - intros Hu. rewrite Hu. split; [done|]. intros base t _.
    unfold carries_api_key. by rewrite gateway_request_header.
Qed.

(** A call that is answered with a JSON body. *)
Definition serves (w : World) (s : State) (r : HttpRequest) (v : js) : Prop :=
  exists res, net w (sent s) r = Ok res /\ res_ok res = true /\ res_status res <> 204%Z /\
              body_json res = Ok v.

Lemma gateway_ok (w : World) (tok : option string) (base key path : string) (init : FetchInit)
    (s : State) (v : js) :
  configured w tok base key ->
  let r := gateway_request base path init (credential_of tok key) in
  serves w s r v ->
  gatewayAdminFetch path init tok w s = (Ok v, after s [r]).
Proof.
  intros Hc r (res & Hn & Ho & H2 & Hb).
  rewrite (gateway_single w tok base key path init s Hc); fold r; rewrite Hn.
  - cbn [answer]. rewrite Ho, Hb. by destruct (Z.eqb_spec (res_status res) 204).
  - right. cbn. unfold res_ok in Ho. apply Z.eqb_neq. intros E. by rewrite E in Ho.
Qed.

(** Whatever comes of it, a configured call sends its request first. *)
Lemma gateway_first (w : World) (tok : option string) (base key path : string) (init : FetchInit)
    (s : State) :
  configured w tok base key ->
  exists rest, sent (gatewayAdminFetch path init tok w s).2 =
    (sent s ++ gateway_request base path init (credential_of tok key) :: rest)%list.
Proof.
  intros Hc. set (q := gateway_request base path init (credential_of tok key)).
  destruct (useBearer tok) eqn:Hu.
  2: { rewrite (gateway_single w tok base key path init s Hc) by auto. by exists []. }
  destruct (is_401 (net w (sent s) q)) eqn:H4.
  2: { rewrite (gateway_single w tok base key path init s Hc) by auto. by exists []. }
  destruct (net w (sent s) q) as [r1|e] eqn:Hn; [|done]. apply Z.eqb_eq in H4.
  rewrite (gateway_401_eval w tok base key path init s r1 Hc Hu Hn H4).
  destruct (absolute_url _); [|by exists []].
  destruct (granted_token _); by eexists.
Qed.

Lemma serves_wf (w : World) (s : State) (r : HttpRequest) (v : js) : serves w s r v -> wf v.
Proof.
  intros (res & _ & _ & _ & Hb). unfold body_json in Hb.
  destruct (res_body res) as [t|]; [|done]. destruct (json_parse t) eqn:E; [|done].
  injection Hb as <-. by eapply json_parse_wf.
Qed.

(** ** Properties *)

(** C1: The system API key leaves the server only when there is no token to use:
    a call with a usable token sends no request with an X-API-Key header, and a
    call without one sends no request without it. *)
Theorem gateway_api_key_use (w : World) (path : string) (init : FetchInit) (tok : option string) :
  params_get "X-API-Key" (init_headers init) = None ->
  sends w (fun r => carries_api_key r = negb (useBearer tok)) (gatewayAdminFetch path init tok).
Proof. apply sends_key_use. Qed.

Lemma gateway_api_key_use_witness :
  sends (demo_world [] (fun _ => reply 200 "{}")) (fun r => carries_api_key r = false)
    (gatewayAdminFetch "/admin/tenants" get_init (Some "jwt")).
Proof. apply (gateway_api_key_use _ _ _ (Some "jwt")). reflexivity. Defined.

(** A call that needs no refresh is one request, and its result is the
    specified reading of the answer: null for a 204, the parsed body for another
    good status, the [GatewayAdminError] with the status for an error status,
    and 503 for a refused connection. *)
Theorem gateway_single_answer (w : World) (tok : option string) (base key path : string)
    (init : FetchInit) (s : State) :
  configured w tok base key ->
  let r := gateway_request base path init (credential_of tok key) in
  useBearer tok = false \/ is_401 (net w (sent s) r) = false ->
  gatewayAdminFetch path init tok w s = (answer base path (net w (sent s) r), after s [r]).
Proof. apply gateway_single. Qed.

Lemma gateway_single_answer_witness :
  let w := demo_world [] (fun _ => reply 404 "no such tenant") in
  gatewayAdminFetch "/admin/tenants" get_init None w start =
    (Throw (status_error (mkHttpResponse 404 "" [] None) "no such tenant"),
     after start [gateway_request "http://gw:8000" "/admin/tenants" get_init
                    ("X-API-Key", "system-key")]).
Proof.
  refine (gateway_single_answer (demo_world [] (fun _ => reply 404 "no such tenant")) None
            "http://gw:8000" "system-key" "/admin/tenants" get_init start _ _).
  - split; [reflexivity | reflexivity | right; reflexivity].
  - left. reflexivity.
Defined.

(** C2: After a 401 on a token, the client asks for one refresh and repeats the
    request at most once.  The caller gets the answer to the repeated request
    when that one succeeds, and in every other case the original 401: a repeated
    request that fails is reported with the status of the first one. *)
Theorem gateway_after_401 (w : World) (tok : option string) (base key path : string)
    (init : FetchInit) (s : State) (r1 : HttpResponse) :
  configured w tok base key -> useBearer tok = true ->
  let q := gateway_request base path init (credential_of tok key) in
  let f := refresh_request (env w) in
  net w (sent s) q = Ok r1 -> res_status r1 = 401%Z ->
  gatewayAdminFetch path init tok w s =
  if absolute_url (http_url f) then
    match granted_token (net w (sent s ++ [q])%list f) with
    | None => (answer base path (Ok r1), after s [q; f])
    | Some t =>
        let q' := gateway_request base path init (bearer t) in
        (match retried (net w (sent s ++ [q; f])%list q') with
         | Some r3 => answer base path (Ok r3)
         | None => answer base path (Ok r1)
         end, after s [q; f; q'])
    end
  else (answer base path (Ok r1), after s [q]).
Proof. apply gateway_401_eval. Qed.

Lemma gateway_after_401_witness :
  let w := demo_world [] (fun r => if String.eqb (http_method r) "POST"
                                   then reply 401 "{}" else reply 401 "expired") in
  gatewayAdminFetch "/admin/tenants" get_init (Some "jwt") w start =
    (Throw (status_error (mkHttpResponse 401 "" [] None) "expired"),
     after start [gateway_request "http://gw:8000" "/admin/tenants" get_init (bearer "jwt");
                  refresh_request demo_env]).
Proof.
  refine (gateway_after_401
            (demo_world [] (fun r => if String.eqb (http_method r) "POST"
                                     then reply 401 "{}" else reply 401 "expired"))
            (Some "jwt") "http://gw:8000" "" "/admin/tenants" get_init start
            (mkHttpResponse 401 "" [] (Some "expired")) _ _ _ _).
  - split; [reflexivity | reflexivity | left; reflexivity].
  - reflexivity.
  - reflexivity.
  - reflexivity.
Defined.

(** A client that is not configured sends nothing: without a gateway address,
    or without the system API key when there is no token to use, the call
    rejects with status 500 and the state is untouched. *)
Theorem gateway_unconfigured (w : World) (path : string) (init : FetchInit)
    (tok : option string) (s : State) :
  truthy_env (GATEWAY_BASE_URL (env w)) = None \/
  (useBearer tok = false /\ truthy_env (GATEWAY_ADMIN_API_KEY (env w)) = None) ->
  exists m, gatewayAdminFetch path init tok w s =
              (Throw (GatewayAdminError m (Some 500%Z) JUndef), s).
Proof.
  intros H. unfold gatewayAdminFetch, ask, mbind, M_bind.
  destruct (truthy_env (GATEWAY_BASE_URL (env w))) as [base|]; [|by eexists].
  destruct H as [|[-> ->]]; [done|]. by eexists.
Qed.

Lemma gateway_unconfigured_witness :
  exists m,
    gatewayAdminFetch "/admin/tenants" get_init None
      (mkWorld (mkEnv (Some "http://gw") None None None None None None None) []
         (fun _ _ => reply 200 "{}") (fun _ => 0%Z)) start =
    (Throw (GatewayAdminError m (Some 500%Z) JUndef), start).
Proof.
  apply (gateway_unconfigured
           (mkWorld (mkEnv (Some "http://gw") None None None None None None None) []
              (fun _ _ => reply 200 "{}") (fun _ => 0%Z))).
  right. split; reflexivity.
Defined.

(** Every error of the client can be reported: as long as the peers answer
    with statuses a response may carry, whatever [gatewayAdminFetch] rejects with
    has a status the catch clauses of the routes can send on. *)
Theorem gateway_errors_reportable (w : World) (path : string) (init : FetchInit)
    (tok : option string) (s : State) :
  sane w ->
  match gatewayAdminFetch path init tok w s with
  | (Throw e, _) => reportable e
  | (Ok _, _) => True
  end.
Proof.
  intros Hw. destruct (raises_gateway w Hw path init tok s) as (n & _ & H).
  destruct (gatewayAdminFetch path init tok w s) as [[v|e] s']; exact H.
Qed.

Lemma demo_sane (jar : list (string * string)) (status : Z) (text : string) :
  json_status status = true -> sane (demo_world jar (fun _ => reply status text)).
Proof. intros H past r. by right. Qed.

Lemma gateway_errors_reportable_witness :
  match gatewayAdminFetch "/admin/models" get_init None
          (demo_world [] (fun _ => reply 404 "gone")) start with
  | (Throw e, _) => reportable e
  | (Ok _, _) => True
  end.
Proof.
  apply (gateway_errors_reportable (demo_world [] (fun _ => reply 404 "gone"))).
  apply demo_sane. reflexivity.
Defined.

(** The guard denies exactly the requests without a credential: no mock
    session cookie, no access-token cookie, and no Authorization header that
    carries a bearer token beyond white space. *)
Theorem guard_denies_exactly (request : Request) (w : World) (s : State) :
  requireAdminBearer request w s = (Ok (Denied auth_required), s) <->
  params_get "is_mock_session" (cookies w) <> Some "1" /\
  truthy_env (params_get "admin_access_token" (cookies w)) = None /\
  (forall t, header "authorization" request = Some ("Bearer " ++ t) -> str_trim t = "").
Proof.
  rewrite guard_eval. unfold request_token. split.
  - destruct (match params_get "is_mock_session" (cookies w) with
              | Some v => String.eqb v "1" | None => false end) eqn:Em; [done|].
    destruct (truthy_env (params_get "admin_access_token" (cookies w))) as [t|] eqn:Ea;
      [by rewrite (truthy_env_idem _ _ Ea)|].
    intros H. split; [|split; [done|]].
    + intros Hm. by rewrite Hm in Em.
    + intros u Hu. rewrite Hu in H. rewrite (starts_with_app "Bearer " "Bearer " u eq_refl) in H.
      change 7 with (String.length "Bearer ") in H. rewrite slice_app in H.
      cbn in H. by destruct (String.eqb_spec (str_trim u) "").
  - intros (Hm & -> & Hh).
    assert ((match params_get "is_mock_session" (cookies w) with
             | Some v => String.eqb v "1" | None => false end) = false) as ->.
    { destruct (params_get _ _) as [v|]; [|done]. apply String.eqb_neq. congruence. }
    destruct (header "authorization" request) as [h|]; [|done].
    destruct (starts_with "Bearer " h) eqn:Eh; [|done].
    apply starts_with_split in Eh as [t ->]. change 7 with (String.length "Bearer "). rewrite slice_app. by rewrite (Hh t eq_refl).
Qed.

(** A mock session passes the guard and reaches the gateway with the system
    API key: a client that sends the cookie is_mock_session=1, whatever else it
    sends, is given the sentinel token, and every request made with that token
    carries the X-API-Key header. *)
Theorem mock_session_uses_api_key (request : Request) (w : World) (s : State) :
  params_get "is_mock_session" (cookies w) = Some "1" ->
  requireAdminBearer request w s = (Ok (Token MOCK_SESSION_SENTINEL), s) /\
  forall path, sends w (fun r => carries_api_key r = true)
                 (gatewayAdminFetch path get_init (Some MOCK_SESSION_SENTINEL)).
Proof.
  intros Hm. split.
  - rewrite guard_eval. unfold request_token. by rewrite Hm.
  - intros path. apply sends_gateway; [|done]. intros base key _ _.
    unfold carries_api_key. by rewrite gateway_request_header.
Qed.

Lemma mock_session_uses_api_key_witness :
  let w := demo_world [("is_mock_session", "1")] (fun _ => reply 200 "{}") in
  requireAdminBearer anonymous w start = (Ok (Token MOCK_SESSION_SENTINEL), start) /\
  forall path, sends w (fun r => carries_api_key r = true)
                 (gatewayAdminFetch path get_init (Some MOCK_SESSION_SENTINEL)).
Proof.
  apply (mock_session_uses_api_key anonymous
           (demo_world [("is_mock_session", "1")] (fun _ => reply 200 "{}")) start).
  reflexivity.
Defined.
