(* ===== verification/Oidc.v ===== *)
(** * Tokens and roles

    src/frontend/src/lib/auth/oidc.ts (base64url, PKCE, the authorization URL, the
    decoding of a token's payload) and src/frontend/src/lib/auth/roles.ts (the
    canonical role of a set of claims).  The random bytes and the SHA-256 digest
    come from the browser's crypto object and are parameters. *)

From S2P Require Import Prelude JsNumber JsText JsValue Json.
Local Open Scope string_scope.

(** ** Base64 *)

Definition b64_alphabet : string :=
  "ABCDEFGHIJKLMNOPQRSTUVWXYZabcdefghijklmnopqrstuvwxyz0123456789+/".

Definition b64_char (n : N) : ascii :=
  match String.get (N.to_nat n) b64_alphabet with Some c => c | None => "=" end.

Definition b64_value (c : ascii) : option N :=
  let n := N_of_ascii c in
  (if (65 <=? n) && (n <=? 90) then Some (n - 65)
   else if (97 <=? n) && (n <=? 122) then Some (n - 71)
   else if (48 <=? n) && (n <=? 57) then Some (n + 4)
   else if n =? 43 then Some 62
   else if n =? 47 then Some 63
   else None)%N.

(** The four sextets of three bytes. *)
Definition sextets (a b c : ascii) : N * N * N * N :=
  let n := (N_of_ascii a * 65536 + N_of_ascii b * 256 + N_of_ascii c)%N in
  (n / 262144, n / 4096 mod 64, n / 64 mod 64, n mod 64)%N.

(** [btoa] of a binary string *)
Fixpoint btoa (s : string) : string :=
  match s with
  | EmptyString => ""
  | String a (String b (String c t)) =>
      let '(w, x, y, z) := sextets a b c in
      String (b64_char w) (String (b64_char x) (String (b64_char y) (String (b64_char z) (btoa t))))
  | String a (String b EmptyString) =>
      let '(w, x, y, _) := sextets a b (byte 0) in
      String (b64_char w) (String (b64_char x) (String (b64_char y) "="))
  | String a EmptyString =>
      let '(w, x, _, _) := sextets a (byte 0) (byte 0) in
      String (b64_char w) (String (b64_char x) "==")
  end.

(** The bytes of a run of base64 characters without padding. *)
Fixpoint b64_groups (s : string) : option string :=
  match s with
  | EmptyString => Some ""
  | String a (String b (String c (String d t))) =>
      match b64_value a, b64_value b, b64_value c, b64_value d, b64_groups t with
      | Some w, Some x, Some y, Some z, Some u =>
          Some (String (ascii_of_N (w * 4 + x / 16))
                 (String (ascii_of_N (x mod 16 * 16 + y / 4))
                   (String (ascii_of_N (y mod 4 * 64 + z)) u)))
      | _, _, _, _, _ => None
      end
  | String a (String b (String c EmptyString)) =>
      match b64_value a, b64_value b, b64_value c with
      | Some w, Some x, Some y =>
          Some (String (ascii_of_N (w * 4 + x / 16))
                 (String (ascii_of_N (x mod 16 * 16 + y / 4)) ""))
      | _, _, _ => None
      end
  | String a (String b EmptyString) =>
      match b64_value a, b64_value b with
      | Some w, Some x => Some (String (ascii_of_N (w * 4 + x / 16)) "")
      | _, _ => None
      end
  | String _ EmptyString => None
  end.

Fixpoint keep_chars (p : ascii -> bool) (s : string) : string :=
  match s with
  | EmptyString => ""
  | String c s' => if p c then String c (keep_chars p s') else keep_chars p s'
  end.

Definition ascii_space (c : ascii) : bool :=
  let n := code c in
  (Nat.eqb n 9 || Nat.eqb n 10 || Nat.eqb n 12 || Nat.eqb n 13 || Nat.eqb n 32)%bool.

(** Up to two padding characters at the end. *)
Definition strip_padding (s : string) : string :=
  match str_rev s with
  | String "=" (String "=" t) => str_rev t
  | String "=" t => str_rev t
  | _ => s
  end.

(** [atob]: white space is dropped, padding counts only in a text of a multiple
    of four characters, and anything outside of the alphabet is an error. *)
Definition atob (s : string) : option string :=
  let t := keep_chars (fun c => negb (ascii_space c)) s in
  b64_groups (if Nat.eqb (Nat.modulo (String.length t) 4) 0 then strip_padding t else t).

Definition base64UrlEncode (bytes : string) : string :=
  strip_trailing "=" (str_replace_char "/" "_" (str_replace_char "+" "-" (btoa bytes))).

(** ** oidc.ts *)

(** [randomString(length)], given the bytes that were drawn *)
Definition randomString (bytes : string) : string := base64UrlEncode bytes.

Section Pkce.
(** [crypto.subtle.digest('SHA-256', ...)] *)
Variable sha256 : string -> string.

Definition generatePkce (bytes : string) : string * string :=
  let verifier := randomString bytes in (verifier, base64UrlEncode (sha256 verifier)).
End Pkce.

Record AuthUrlParams := mkAuthUrlParams {
  p_issuer : string;
  p_clientId : string;
  p_redirectUri : string;
  p_scope : option string;
  p_state : string;
  p_nonce : string;
  p_codeChallenge : string;
}.

Definition auth_query (p : AuthUrlParams) : list (string * string) :=
  [("client_id", p_clientId p); ("redirect_uri", p_redirectUri p);
   ("response_type", "code");
   ("scope", match p_scope p with
             | Some s => if String.eqb s "" then "openid profile email" else s
             | None => "openid profile email" end);
   ("state", p_state p); ("nonce", p_nonce p);
   ("code_challenge", p_codeChallenge p); ("code_challenge_method", "S256")].

Definition buildAuthUrl (p : AuthUrlParams) : string :=
  strip_one_slash (p_issuer p) ++ "/protocol/openid-connect/auth" ++ "?"
    ++ params_to_string (auth_query p).

(** The payload of a token; [JNull] when it cannot be read.  [atob] yields one
    character per byte, so the JSON text is read as Latin-1. *)
Definition oidc_decodeJwtPayload (token : string) : js :=
  match str_split "." token with
  | _ :: payload :: _ =>
      match atob (str_replace_char "_" "/" (str_replace_char "-" "+" payload)) with
      | Some bytes => match json_parse (latin1_to_utf8 bytes) with
                      | Some v => v
                      | None => JNull
                      end
      | None => JNull
      end
  | _ => JNull
  end.

(** ** roles.ts *)

Inductive CanonicalRole := Admin | Audit | LocalAdmin | Finance | User.

Definition extractRolesFromClaims (claims : js) : option (list js) :=
  if negb (is_object claims) then None
  else match opt_get claims "roles" with
       | JArr roles => Some roles
       | _ => match opt_get (opt_get claims "realm_access") "roles" with
              | JArr roles => Some roles
              | _ => None
              end
       end.

Definition has_role (set : list string) (r : string) : bool := existsb (String.eqb r) set.

(** The roles are strings; [toLowerCase] is applied to each. *)
Definition deriveCanonicalRole (roles : option (list string)) : option CanonicalRole :=
  match roles with
  | None | Some [] => None
  | Some rs =>
      let set := map str_lower rs in
      if (has_role set "admin" || has_role set "platform_admin")%bool then Some Admin
      else if has_role set "audit" then Some Audit
      else if has_role set "local_admin" then Some LocalAdmin
      else if (has_role set "finance" || has_role set "financial")%bool then Some Finance
      else if has_role set "user" then Some User
      else None
  end.

Definition getDisplayRole (role : option CanonicalRole) : option string :=
  match role with
  | Some Admin => Some "Admin"
  | Some Audit => Some "Audit"
  | Some LocalAdmin => Some "Local Admin"
  | Some Finance => Some "Finance"
  | Some User => Some "User"
  | None => None
  end.

(** ** Base64 round trip *)

(** [btoa] without its padding, and the padding. *)
Fixpoint b64_core (s : string) : string :=
  match s with
  | EmptyString => ""
  | String a (String b (String c t)) =>
      let '(w, x, y, z) := sextets a b c in
      String (b64_char w) (String (b64_char x) (String (b64_char y) (String (b64_char z) (b64_core t))))
  | String a (String b EmptyString) =>
      let '(w, x, y, _) := sextets a b (byte 0) in
      String (b64_char w) (String (b64_char x) (String (b64_char y) ""))
  | String a EmptyString =>
      let '(w, x, _, _) := sextets a (byte 0) (byte 0) in
      String (b64_char w) (String (b64_char x) "")
  end.

Fixpoint b64_pad (s : string) : string :=
  match s with
  | String _ (String _ (String _ t)) => b64_pad t
  | String _ (String _ EmptyString) => "="
  | String _ EmptyString => "=="
  | EmptyString => ""
  end.

Lemma b64_char_value (n : N) : (n < 64)%N -> b64_value (b64_char n) = Some n.
Proof.
  intros H. assert (Hall : forallb (fun k => match b64_value (b64_char (N.of_nat k)) with
      | Some m => N.eqb m (N.of_nat k) | None => false end) (seq 0 64) = true) by reflexivity.
  rewrite forallb_forall in Hall. specialize (Hall (N.to_nat n)).
  rewrite N2Nat.id in Hall. destruct (b64_value (b64_char n)) as [m|].
  - f_equal. apply N.eqb_eq, Hall. apply List.in_seq. lia.
  - discriminate Hall. apply List.in_seq. lia.
Qed.

Lemma byte_lt (c : ascii) : (N_of_ascii c < 256)%N.
Proof. apply N_ascii_bounded. Qed.

(** The sextets of three bytes are below 64 and give the bytes back. *)
Lemma sextets_spec (a b c : ascii) :
  let '(w, x, y, z) := sextets a b c in
  ((w < 64)%N /\ (x < 64)%N /\ (y < 64)%N /\ (z < 64)%N) /\
  N_of_ascii a = (w * 4 + x / 16)%N /\ N_of_ascii b = (x mod 16 * 16 + y / 4)%N /\
  N_of_ascii c = (y mod 4 * 64 + z)%N.
Proof.
  unfold sextets. assert (Ha := byte_lt a). assert (Hb := byte_lt b). assert (Hc := byte_lt c).
  generalize dependent (N_of_ascii a). generalize dependent (N_of_ascii b).
  generalize dependent (N_of_ascii c). intros n3 H3 n2 H2 n1 H1.
  set (n := (n1 * 65536 + n2 * 256 + n3)%N).
  assert (Ex : (n / 4096 = n / 64 / 64)%N) by (by rewrite N.Div0.div_div).
  assert (Ew : (n / 262144 = n / 64 / 64 / 64)%N) by (by rewrite !N.Div0.div_div).
  rewrite Ex, Ew. assert (Hn : n = (n1 * 65536 + n2 * 256 + n3)%N) by done. clearbody n.
  divide n 64%N. divide q 64%N. divide q0 64%N. divide r1 16%N. divide r0 4%N. lia.
Qed.

Definition b64_plain (c : ascii) : bool := match b64_value c with Some _ => true | None => false end.
(** The URL-safe alphabet: letters, digits, - and _. *)
Definition url_safe (c : ascii) : bool :=
  (b64_plain c && negb (Ascii.eqb c "+") && negb (Ascii.eqb c "/"))
  || Ascii.eqb c "-" || Ascii.eqb c "_".

Definition to_url (s : string) : string := str_replace_char "/" "_" (str_replace_char "+" "-" s).
Definition from_url (s : string) : string := str_replace_char "_" "/" (str_replace_char "-" "+" s).

Lemma btoa_core (s : string) : btoa s = b64_core s ++ b64_pad s.
Proof.
  induction s as [|a|a b|a b c t IH] using string_ind3; cbn [btoa b64_core b64_pad];
    [done| | |]; destruct (sextets _ _ _) as [[[w x] y] z]; [done|done|].
  cbn [String.append]. by rewrite IH.
Qed.

Lemma b64_core_plain (s : string) : str_all b64_plain (b64_core s) = true.
Proof.
  induction s as [|a|a b|a b c t IH] using string_ind3; cbn [b64_core]; [done| | |];
    match goal with |- context [sextets ?a ?b ?c] => assert (H := sextets_spec a b c) end;
    destruct (sextets _ _ _) as [[[w x] y] z]; destruct H as ((? & ? & ? & ?) & _);
    cbn [str_all]; unfold b64_plain at 1; rewrite !b64_char_value by done;
    unfold b64_plain; rewrite ?b64_char_value by done; done.
Qed.

(** Unpadded base64 decodes to the bytes it was made from. *)
Lemma b64_groups_core (s : string) : b64_groups (b64_core s) = Some s.
Proof.
  induction s as [|a|a b|a b c t IH] using string_ind3; cbn [b64_core]; [done| | |];
    match goal with |- context [sextets ?a ?b ?c] => assert (H := sextets_spec a b c) end;
    destruct (sextets _ _ _) as [[[w x] y] z]; destruct H as ((? & ? & ? & ?) & Ea & Eb & Ec);
    cbn [b64_groups]; rewrite ?b64_char_value, ?IH by done; rewrite <- Ea, <- ?Eb, <- ?Ec;
    by rewrite ?ascii_N_embedding.
Qed.

Lemma str_replace_app (a b : ascii) (s t : string) :
  str_replace_char a b (s ++ t) = str_replace_char a b s ++ str_replace_char a b t.
Proof. induction s as [|c s IH]; cbn; [done|]. by rewrite IH. Qed.

Lemma from_to_url (s : string) : str_all b64_plain s = true -> from_url (to_url s) = s.
Proof.
  unfold from_url, to_url. induction s as [|c s IH]; [done|]. cbn [str_all str_replace_char].
  intros [Hc Hs]%andb_true_iff. rewrite (IH Hs). f_equal. clear IH Hs.
  by destruct c as [[] [] [] [] [] [] [] []].
Qed.

Lemma to_url_safe (s : string) : str_all b64_plain s = true -> str_all url_safe (to_url s) = true.
Proof.
  unfold to_url. induction s as [|c s IH]; [done|]. cbn [str_all str_replace_char].
  intros [Hc Hs]%andb_true_iff. rewrite (IH Hs), andb_true_r. clear IH Hs.
  by destruct c as [[] [] [] [] [] [] [] []].
Qed.

Lemma to_url_length (s : string) : String.length (to_url s) = String.length s.
Proof. unfold to_url. induction s as [|c s IH]; cbn; [done|]. by rewrite IH. Qed.

(** Padding is what [strip_trailing] takes off. *)
Lemma strip_trailing_pad (t : string) (s : string) :
  lacks "=" t = true -> strip_trailing "=" (t ++ b64_pad s) = t.
Proof.
  rewrite lacks_all, <- str_all_rev. intros H. unfold strip_trailing.
  rewrite str_rev_append.
  assert (Hl : strip_leading "=" (str_rev t) = str_rev t).
  { destruct (str_rev t) as [|c u]; [done|]. cbn [strip_leading str_all] in *.
    rewrite Ascii.eqb_sym. by destruct (Ascii.eqb c "="). }
  assert (Hp : strip_leading "=" (str_rev (b64_pad s) ++ str_rev t) = strip_leading "=" (str_rev t)).
  { induction s as [|a|a b|a b c u IH] using string_ind3; [done|done|done|exact IH]. }
  by rewrite Hp, Hl, str_rev_rev.
Qed.

Lemma to_url_pad (s : string) : to_url (b64_pad s) = b64_pad s.
Proof. by induction s as [|a|a b|a b c u IH] using string_ind3. Qed.

Lemma url_safe_lacks (sep : ascii) (s : string) :
  url_safe sep = false -> str_all url_safe s = true -> lacks sep s = true.
Proof.
  intros Hs. rewrite lacks_all. apply str_all_mono. intros c Hc.
  destruct (Ascii.eqb_spec c sep); [congruence|done].
Qed.

Lemma base64UrlEncode_core (bytes : string) : base64UrlEncode bytes = to_url (b64_core bytes).
Proof.
  assert (E : base64UrlEncode bytes = strip_trailing "=" (to_url (b64_core bytes) ++ b64_pad bytes)).
  { unfold base64UrlEncode. rewrite btoa_core, !str_replace_app. fold (to_url (b64_core bytes)).
    by rewrite <- (to_url_pad bytes) at 2. }
  rewrite E. apply strip_trailing_pad.
  apply url_safe_lacks, to_url_safe, b64_core_plain; reflexivity.
Qed.

Lemma base64UrlEncode_safe (bytes : string) : str_all url_safe (base64UrlEncode bytes) = true.
Proof. rewrite base64UrlEncode_core. apply to_url_safe, b64_core_plain. Qed.

Lemma keep_all (p : ascii -> bool) (s : string) : str_all p s = true -> keep_chars p s = s.
Proof.
  induction s as [|c s IH]; [done|]. cbn. intros [-> Hs]%andb_true_iff. by rewrite IH.
Qed.

Lemma strip_padding_plain (s : string) : str_all b64_plain s = true -> strip_padding s = s.
Proof.
  rewrite <- str_all_rev. unfold strip_padding. destruct (str_rev s) as [|c u]; [done|].
  cbn [str_all]. intros [Hc _]%andb_true_iff. by destruct c as [[] [] [] [] [] [] [] []].
Qed.

Lemma atob_core (s : string) : atob (b64_core s) = Some s.
Proof.
  assert (Hp := b64_core_plain s). unfold atob. rewrite keep_all.
  - rewrite (strip_padding_plain _ Hp). destruct (Nat.eqb _ _); apply b64_groups_core.
  - revert Hp. apply str_all_mono. intros c. by destruct c as [[] [] [] [] [] [] [] []].
Qed.

Lemma latin1_ascii (s : string) :
  str_all (fun c => N_of_ascii c <? 128)%N s = true -> latin1_to_utf8 s = s.
Proof.
  induction s as [|c s IH]; [done|]. cbn [str_all latin1_to_utf8].
  intros [Hc Hs]%andb_true_iff. rewrite (IH Hs). clear IH Hs.
  by destruct c as [[] [] [] [] [] [] [] []].
Qed.

Lemma b64_core_length (s : string) :
  String.length (b64_core s) = (4 * String.length s + 2) / 3.
Proof.
  induction s as [|a|a b|a b c t IH] using string_ind3; [done|done|done|].
  cbn [b64_core String.length]. destruct (sextets a b c) as [[[w x] y] z].
  cbn [String.length]. rewrite IH.
  replace (4 * S (S (S (String.length t))) + 2) with (4 * String.length t + 2 + 4 * 3) by lia.
  rewrite Nat.div_add by lia. lia.
Qed.

(** ** Properties *)

(** A token's payload is read back: for a token whose second part is the
    base64url text of some bytes, decoding gives the JSON value of those bytes,
    whatever the header and the signature, with no dependence on padding; for
    ASCII bytes that is the value of the very text that was encoded. *)
Theorem jwt_payload_roundtrip (head payload signature : string) :
  lacks "." head = true ->
  str_all (fun c => N_of_ascii c <? 128)%N payload = true ->
  oidc_decodeJwtPayload (head ++ "." ++ base64UrlEncode payload ++ "." ++ signature) =
  match json_parse payload with Some v => v | None => JNull end.
Proof.
  intros Hh Ha. unfold oidc_decodeJwtPayload. cbn [String.append].
  rewrite (str_split_app _ _ _ Hh).
  rewrite str_split_app by (apply url_safe_lacks, base64UrlEncode_safe; reflexivity).
  fold (from_url (base64UrlEncode payload)).
  rewrite base64UrlEncode_core, from_to_url, atob_core by apply b64_core_plain.
  by rewrite latin1_ascii.
Qed.

Lemma jwt_payload_roundtrip_witness :
  let payload := json_str (JObj [("roles", JArr [JStr "admin"])]) in
  oidc_decodeJwtPayload ("e30" ++ "." ++ base64UrlEncode payload ++ "." ++ "sig") =
  match json_parse payload with Some v => v | None => JNull end.
Proof. apply jwt_payload_roundtrip; reflexivity. Defined.

(** The PKCE pair meets RFC 7636: from 64 random bytes and a 32-byte digest the
    verifier has 86 characters and the challenge 43, both from the URL-safe
    alphabet, and the challenge is the encoded digest of the verifier. *)
Theorem pkce_well_formed (sha256 : string -> string) (bytes : string) :
  String.length bytes = 64 -> (forall s, String.length (sha256 s) = 32) ->
  let '(verifier, challenge) := generatePkce sha256 bytes in
  String.length verifier = 86 /\ String.length challenge = 43 /\
  str_all url_safe verifier = true /\ str_all url_safe challenge = true /\
  atob (from_url challenge) = Some (sha256 verifier).
Proof.
  intros Hb Hd. unfold generatePkce, randomString.
  split; [by rewrite base64UrlEncode_core, to_url_length, b64_core_length, Hb|].
  split; [by rewrite base64UrlEncode_core, to_url_length, b64_core_length, Hd|].
  do 2 (split; [apply base64UrlEncode_safe|]).
  by rewrite (base64UrlEncode_core (sha256 _)), from_to_url, atob_core by apply b64_core_plain.
Qed.

Fixpoint repeat_char (n : nat) (c : ascii) : string :=
  match n with 0 => "" | S m => String c (repeat_char m c) end.

Lemma pkce_well_formed_witness :
  let '(verifier, challenge) := generatePkce (fun _ => repeat_char 32 "x") (repeat_char 64 "r") in
  String.length verifier = 86 /\ String.length challenge = 43 /\
  str_all url_safe verifier = true /\ str_all url_safe challenge = true /\
  atob (from_url challenge) = Some (repeat_char 32 "x").
Proof.
  apply (pkce_well_formed (fun _ => repeat_char 32 "x") (repeat_char 64 "r")); reflexivity.
Defined.

Lemma lacks_rev (sep : ascii) (s : string) : lacks sep (str_rev s) = lacks sep s.
Proof. by rewrite !lacks_all, str_all_rev. Qed.

Lemma strip_one_slash_lacks (sep : ascii) (s : string) :
  lacks sep s = true -> lacks sep (strip_one_slash s) = true.
Proof.
  intros H. unfold strip_one_slash. rewrite <- lacks_rev in H.
  destruct (str_rev s) as [|c u] eqn:E; [by rewrite <- lacks_rev, E|].
  assert (Hs : lacks sep s = true) by (by rewrite <- lacks_rev, E).
  cbn [lacks] in H. apply andb_true_iff in H as [_ Hu].
  destruct c as [[] [] [] [] [] [] [] []]; try exact Hs. by rewrite lacks_rev.
Qed.

(** The authorization address carries what it was given: its query, from the
    first question mark on, parses back to the client, the redirect address, the
    scope (the default one when none is given), the state, the nonce and the PKCE
    challenge, whatever characters they contain. *)
Theorem auth_url_roundtrip (p : AuthUrlParams) :
  lacks "?" (p_issuer p) = true ->
  exists endpoint q, split_once "?" (buildAuthUrl p) = (endpoint, Some q) /\
    parse_params q = auth_query p.
Proof.
  intros Hi. unfold buildAuthUrl. rewrite <- str_app_assoc. cbn [String.append].
  rewrite split_once_app.
  - do 2 eexists. split; [reflexivity|]. apply parse_params_to_string.
  - by rewrite lacks_app, (strip_one_slash_lacks _ _ Hi).
Qed.

Lemma auth_url_roundtrip_witness :
  let p := mkAuthUrlParams "https://id.example/realms/r/" "admin ui" "http://ui/cb?x=1&y" None
             "s" "n" "c" in
  exists endpoint q, split_once "?" (buildAuthUrl p) = (endpoint, Some q) /\
    parse_params q = auth_query p.
Proof. apply auth_url_roundtrip. reflexivity. Defined.

(** The privilege order of the roles. *)
Definition role_rank (r : option CanonicalRole) : nat :=
  match r with
  | None => 0 | Some User => 1 | Some Finance => 2 | Some LocalAdmin => 3 | Some Audit => 4
  | Some Admin => 5
  end.

Lemma has_role_mono (rs rs' : list string) (r : string) :
  (forall x, In x rs -> In x rs') ->
  has_role (map str_lower rs) r = true -> has_role (map str_lower rs') r = true.
Proof.
  unfold has_role. rewrite !existsb_exists. intros H (x & Hx & He). exists x. split; [|done].
  apply in_map_iff in Hx as (y & <- & Hy). apply in_map. auto.
Qed.

(** More roles never give a lower canonical role: if every role of one list
    occurs in another, the other's canonical role ranks at least as high.  So
    neither the order of the roles nor duplicates matter. *)
Theorem canonical_role_monotone (rs rs' : list string) :
  (forall x, In x rs -> In x rs') ->
  role_rank (deriveCanonicalRole (Some rs)) <= role_rank (deriveCanonicalRole (Some rs')).
Proof.
  intros H. assert (Hm := has_role_mono rs rs').
  assert (E : forall l, deriveCanonicalRole (Some l) =
    let set := map str_lower l in
      if (has_role set "admin" || has_role set "platform_admin")%bool then Some Admin
      else if has_role set "audit" then Some Audit
      else if has_role set "local_admin" then Some LocalAdmin
      else if (has_role set "finance" || has_role set "financial")%bool then Some Finance
      else if has_role set "user" then Some User
      else None) by (by intros []).
  rewrite !E. cbv zeta.
  repeat match goal with
  | |- context [has_role (map str_lower rs) ?r] =>
      let Hr := fresh in
      pose proof (Hm r H) as Hr; destruct (has_role (map str_lower rs) r); cbn [orb];
      [rewrite Hr by done; rewrite ?orb_true_r; cbn [orb]|clear Hr]
  end;
  repeat match goal with |- context [if ?b then _ else _] => destruct b end; cbn; lia.
Qed.

Lemma canonical_role_monotone_witness :
  role_rank (deriveCanonicalRole (Some ["FINANCE"; "user"]))
    <= role_rank (deriveCanonicalRole (Some ["user"; "Admin"; "FINANCE"])).
Proof. apply canonical_role_monotone. intros x [<-|[<-|[]]]; cbn; auto. Defined.
