(* ===== verification/Routes.v ===== *)
(** * The shapes of the routes

    Almost every route of src/frontend/src/app/api is a guard, some calls of the
    gateway client, and the same catch clause.  This file has those shapes as
    combinators, the array methods the routes call on untyped data, and the two
    laws the shapes give every route that has them: without a credential it
    answers 401 and sends nothing, and it never rejects as long as the peers
    answer with statuses a response may carry. *)

From S2P Require Import Prelude JsNumber JsText JsValue Json.
From S2P Require Import Effects ConfigPatch GatewayClient GatewayFacts.
Local Open Scope string_scope.

(** ** Shapes *)

(** [try { guard; body } catch (error) { gateway error or 500 }] *)
Definition admin_route (request : Request) (fallback : string)
    (k : string -> M NextResponse) : M NextResponse :=
  try_catch (with_admin request k) (gateway_catch fallback).

Definition tenant_route (request : Request) (fallback : string)
    (k : string -> M NextResponse) : M NextResponse :=
  try_catch (with_tenant request k) (gateway_catch fallback).

(** The same without a guard. *)
Definition open_route (fallback : string) (m : M NextResponse) : M NextResponse :=
  try_catch m (gateway_catch fallback).

(** The same with a token that is optional. *)
Definition token_route (request : Request) (fallback : string)
    (k : option string -> M NextResponse) : M NextResponse :=
  try_catch (t ← getAdminAuthToken request; k t) (gateway_catch fallback).

Definition bad_request (text : string) : M NextResponse := next_json_status (error_body text) 400.

(** [new NextResponse(null, { status })] *)
Definition no_content (status : Z) : M NextResponse := mret (mkResponse status BodyNull []).

(** [v || []] where an array method follows: a TypeError on anything else. *)
Definition js_list (v : js) : M (list js) :=
  match v with
  | JArr l => mret l
  | _ => throw (JsError "is not a function")
  end.
Definition list_or_empty (v : js) : M (list js) := js_list (js_or v (JArr [])).

(** [l.find(p)], where the predicate may throw *)
Fixpoint find_elem (p : js -> M bool) (l : list js) : M (option js) :=
  match l with
  | [] => mret None
  | x :: l' => b ← p x; if (b : bool) then mret (Some x) else find_elem p l'
  end.

(** [l.filter(p)] and [l.map(f)], where the function may throw *)
Fixpoint filter_elems (p : js -> M bool) (l : list js) : M (list js) :=
  match l with
  | [] => mret []
  | x :: l' => b ← p x; r ← filter_elems p l'; mret (if (b : bool) then x :: r else r)
  end.
Fixpoint map_elems {A B} (f : A -> M B) (l : list A) : M (list B) :=
  match l with
  | [] => mret []
  | x :: l' => y ← f x; r ← map_elems f l'; mret (y :: r)
  end.

(** [l.map((item, index) => ...)] *)
Fixpoint map_indexed {A B} (f : nat -> A -> M B) (i : nat) (l : list A) : M (list B) :=
  match l with
  | [] => mret []
  | x :: l' => y ← f i x; r ← map_indexed f (S i) l'; mret (y :: r)
  end.

(** [Promise.all([a, b])]: both run, the first rejection wins. *)
Definition promise_both {A B} (a : M A) (b : M B) : M (A * B) :=
  x ← settle a; y ← settle b;
  match x, y with
  | Ok u, Ok v => mret (u, v)
  | Throw e, _ => throw e
  | _, Throw e => throw e
  end.

(** [v ?? d] on strings that are maybe absent *)
Definition str_coalesce (o : option string) (d : string) : string :=
  match o with Some s => s | None => d end.

(** [error instanceof GatewayAdminError && error.statusCode === z] *)
Definition status_is (z : Z) (e : exn) : bool :=
  match e with GatewayAdminError _ (Some c) _ => (c =? z)%Z | _ => false end.
Definition details_of (e : exn) : js :=
  match e with GatewayAdminError _ _ d => d | JsError _ => JUndef end.

(** ** Their laws *)

Section Laws.
Context (w : World).

Lemma guarded_admin_route (fallback : string) (k : Request -> string -> M NextResponse) :
  guarded (fun request => admin_route request fallback (k request)).
Proof. apply (guarded_try (fun request => with_admin request (k request))), guarded_with_admin. Qed.

Lemma guarded_tenant_route (fallback : string) (k : Request -> string -> M NextResponse) :
  guarded (fun request => tenant_route request fallback (k request)).
Proof. apply (guarded_try (fun request => with_tenant request (k request))), guarded_with_tenant. Qed.

Lemma answers_try_gateway (m : M NextResponse) (fallback : string) :
  raises w reportable m -> answers w (try_catch m (gateway_catch fallback)).
Proof. intros Hm. eapply raises_try; [exact Hm|]. intros e. apply answers_gateway_catch. Qed.

Lemma answers_admin_route (request : Request) (fallback : string) (k : string -> M NextResponse) :
  (forall t, raises w reportable (k t)) -> answers w (admin_route request fallback k).
Proof. intros Hk. by apply answers_try_gateway, raises_with_admin. Qed.

Lemma answers_tenant_route (request : Request) (fallback : string) (k : string -> M NextResponse) :
  (forall t, raises w reportable (k t)) -> answers w (tenant_route request fallback k).
Proof. intros Hk. by apply answers_try_gateway, raises_with_tenant. Qed.

Lemma answers_open_route (fallback : string) (m : M NextResponse) :
  raises w reportable m -> answers w (open_route fallback m).
Proof. apply answers_try_gateway. Qed.

Lemma answers_token_route (request : Request) (fallback : string)
    (k : option string -> M NextResponse) :
  (forall t, raises w reportable (k t)) -> answers w (token_route request fallback k).
Proof.
  intros Hk. apply answers_try_gateway, raises_bind; [apply raises_token|exact Hk].
Qed.

Lemma raises_js_list (v : js) : raises w reportable (js_list v).
Proof. unfold js_list. solve_raises. Qed.

Lemma raises_list_or_empty (v : js) : raises w reportable (list_or_empty v).
Proof. apply raises_js_list. Qed.

Lemma raises_no_content (z : Z) : raises w reportable (no_content z).
Proof. apply raises_ret. Qed.

Lemma raises_bad_request (t : string) : raises w reportable (bad_request t).
Proof. apply raises_next_json_status. Qed.

Lemma raises_find (p : js -> M bool) (l : list js) :
  (forall x, raises w reportable (p x)) -> raises w reportable (find_elem p l).
Proof.
  intros Hp. induction l as [|x l IH]; cbn [find_elem]; [apply raises_ret|].
  apply raises_bind; [apply Hp|]. intros b. by destruct b; [apply raises_ret|].
Qed.

Lemma raises_filter (p : js -> M bool) (l : list js) :
  (forall x, raises w reportable (p x)) -> raises w reportable (filter_elems p l).
Proof.
  intros Hp. induction l as [|x l IH]; cbn [filter_elems]; [apply raises_ret|].
  apply raises_bind; [apply Hp|]. intros b. apply raises_bind; [exact IH|].
  intros r. apply raises_ret.
Qed.

Lemma raises_map {A B} (f : A -> M B) (l : list A) :
  (forall x, raises w reportable (f x)) -> raises w reportable (map_elems f l).
Proof.
  intros Hf. induction l as [|x l IH]; cbn [map_elems]; [apply raises_ret|].
  apply raises_bind; [apply Hf|]. intros b. apply raises_bind; [exact IH|].
  intros r. apply raises_ret.
Qed.

Lemma raises_map_indexed {A B} (f : nat -> A -> M B) (i : nat) (l : list A) :
  (forall j x, raises w reportable (f j x)) -> raises w reportable (map_indexed f i l).
Proof.
  intros Hf. revert i. induction l as [|x l IH]; intros i; cbn [map_indexed]; [apply raises_ret|].
  apply raises_bind; [apply Hf|]. intros y. apply raises_bind; [apply IH|]. intros r. apply raises_ret.
Qed.

Lemma spec_settle {A} (m : M A) (Q : outcome A -> list HttpRequest -> Prop) :
  spec w m Q ->
  spec w (settle m) (fun o n => match o with Ok x => Q x n | Throw _ => False end).
Proof.
  intros Hm s. destruct (Hm s) as (n & Hs & Hn). exists n. unfold settle.
  by destruct (m w s).
Qed.

Lemma raises_settle_any {A} (E : exn -> Prop) (m : M A) :
  raises w (fun _ => True) m -> raises w E (settle m).
Proof.
  intros Hm. eapply spec_mono; [apply (spec_settle m _ Hm)|]. by intros [o|e] n.
Qed.

Lemma raises_both {A B} (E : exn -> Prop) (a : M A) (b : M B) :
  raises w E a -> raises w E b -> raises w E (promise_both a b).
Proof.
  intros Ha Hb. eapply spec_bind; [apply (spec_settle a _ Ha)| |done].
  intros x n1 Hx. eapply spec_bind; [apply (spec_settle b _ Hb)| |done].
  intros y n2 Hy. destruct x as [u|e], y as [v|e'];
    [by apply spec_ret|by apply spec_throw|by apply spec_throw|by apply spec_throw].
Qed.

(** What is sent by the array methods and the pair. *)
Context (P : HttpRequest -> Prop).

Lemma sends_js_list (v : js) : sends w P (js_list v).
Proof. unfold js_list. solve_sends. Qed.

Lemma sends_both {A B} (a : M A) (b : M B) :
  sends w P a -> sends w P b -> sends w P (promise_both a b).
Proof.
  intros Ha Hb. unfold promise_both. apply sends_bind; [by apply sends_settle|]. intros x.
  apply sends_bind; [by apply sends_settle|]. intros y. destruct x, y; auto with effects.
Qed.

Lemma sends_find (p : js -> M bool) (l : list js) :
  (forall x, sends w P (p x)) -> sends w P (find_elem p l).
Proof.
  intros Hp. induction l as [|x l IH]; cbn [find_elem]; [apply sends_ret|].
  apply sends_bind; [apply Hp|]. intros b. by destruct b; [apply sends_ret|].
Qed.
End Laws.

(** A request with a token runs the body of the route. *)
Section Run.
Context (w : World) (request : Request) (t fallback : string).
Context (Ht : truthy_env (request_token w request) = Some t).

Lemma with_admin_run (k : string -> M NextResponse) (s : State) :
  with_admin request k w s = k t w s.
Proof. unfold with_admin, mbind, M_bind. by rewrite guard_eval, Ht. Qed.

Lemma admin_route_ok (k : string -> M NextResponse) (s s' : State) (r : NextResponse) :
  k t w s = (Ok r, s') -> admin_route request fallback k w s = (Ok r, s').
Proof. intros H. unfold admin_route, try_catch. by rewrite with_admin_run, H. Qed.

(** The catch clause sends nothing. *)
Lemma admin_route_sent (k : string -> M NextResponse) (s : State) :
  sent (admin_route request fallback k w s).2 = sent (k t w s).2.
Proof.
  unfold admin_route, try_catch. rewrite with_admin_run.
  destruct (k t w s) as [[r|e] s']; [done|]. cbn [snd].
  apply quiet_sent, sends_gateway_catch.
Qed.
End Run.

(** What a computation sends after one that sent nothing else. *)
Lemma bind_sent {A B} (m : M A) (f : A -> M B) (w : World) (s s' : State) (a : A) :
  m w s = (Ok a, s') -> sent ((m ≫= f) w s).2 = sent (f a w s').2.
Proof. intros H. unfold mbind, M_bind. by rewrite H. Qed.

Lemma bind_run {A B} (m : M A) (f : A -> M B) (w : World) (s s' : State) (a : A) :
  m w s = (Ok a, s') -> (m ≫= f) w s = f a w s'.
Proof. intros H. unfold mbind, M_bind. by rewrite H. Qed.

Lemma spec_sent {A B} (m : M A) (f : A -> M B) (w : World) (s : State) :
  (forall a, quiet w (f a)) -> sent ((m ≫= f) w s).2 = sent (m w s).2.
Proof.
  intros Hf. unfold mbind, M_bind. destruct (m w s) as [[a|e] s']; [|done].
  by apply quiet_sent.
Qed.

#[export] Hint Resolve raises_js_list raises_list_or_empty raises_bad_request raises_no_content
  sends_js_list : effects.

Lemma raises_try_gateway (w : World) (m : M NextResponse) (t : string) :
  raises w reportable m -> raises w reportable (try_catch m (gateway_catch t)).
Proof. intros Hm. by apply answers_raises, answers_try_gateway. Qed.

Lemma raises_try_same {A} (w : World) (m : M A) (h : exn -> M A) :
  raises w reportable m -> (forall e, reportable e -> raises w reportable (h e)) ->
  raises w reportable (try_catch m h).
Proof. apply raises_try. Qed.

#[export] Hint Constants Opaque : effects.

(** Unfolds the computation at the head of a goal. *)
Ltac head_of t := match t with ?f _ => head_of f | _ => t end.
Ltac unfold_step :=
  match goal with |- raises _ _ ?m => let h := head_of m in progress unfold h end.

(** One step of a route: the rule for its head, a hint, or its definition. *)
Ltac route_step :=
  lazymatch goal with
  | |- forall _, _ => intro
  | |- raises _ _ (gatewayAdminFetch _ _ _) => apply raises_gateway; assumption
  | |- raises _ _ (fetch _) => apply raises_fetch; assumption
  | |- raises _ _ (_ ≫= _) => apply raises_bind
  | |- raises _ _ (promise_all _ _) => apply raises_promise_all
  | |- raises _ _ (promise_both _ _) => apply raises_both
  | |- raises _ _ (find_elem _ _) => apply raises_find
  | |- raises _ _ (filter_elems _ _) => apply raises_filter
  | |- raises _ _ (map_elems _ _) => apply raises_map
  | |- raises _ _ (map_indexed _ _ _) => apply raises_map_indexed
  | |- raises _ _ (with_admin _ _) => apply raises_with_admin
  | |- raises _ _ (with_tenant _ _) => apply raises_with_tenant
  | |- raises _ _ (try_catch _ (gateway_catch _)) => apply raises_try_gateway
  | |- raises _ _ (try_catch _ _) => apply raises_try_same
  | |- raises _ _ (throw (JsError _)) => apply raises_js
  | |- raises _ _ (throw _) => apply raises_throw; first [assumption | done]
  | |- raises _ _ (if ?b then _ else _) => destruct b
  | |- raises _ _ (match ?x with _ => _ end) => destruct x
  | |- raises _ _ _ => first [ solve [auto 1 with effects nocore] | progress cbv zeta | unfold_step ]
  end.
Ltac solve_route := repeat route_step.
