(* ===== verification/AuthRoutes.v ===== *)
(** * The session routes

    src/frontend/src/app/api/auth: the exchange of an authorization code
    (callback/route.ts), the two refreshes of an access token (refresh/route.ts,
    called by the browser with a token in the body, and refresh-server/route.ts,
    called by the gateway client and reading the cookie), the session check, the
    public configuration, logout and the mock session.  The properties follow the
    tokens: what leaves for the issuer, what a browser stores, and what the guards
    of the other routes then see. *)

From S2P Require Import Prelude JsNumber JsText JsValue Json Effects.
From S2P Require Import ConfigPatch GatewayClient GatewayFacts Oidc.
Local Open Scope string_scope.

(** ** Shared pieces *)

Definition default_issuer : string := "http://localhost:8080/realms/router".
Definition KEYCLOAK_ISSUER (e : Env) : string := env_or (KEYCLOAK_ISSUER_INTERNAL e) default_issuer.
Definition PUBLIC_ISSUER (e : Env) : string := env_or (KEYCLOAK_ISSUER_PUBLIC e) default_issuer.
Definition CLIENT_ID (e : Env) : string := env_or (KEYCLOAK_CLIENT_ID e) "router-ui".

Definition formEncode (data : list (string * string)) : string :=
  str_join "&" (map (fun kv => encodeURIComponent kv.1 ++ "=" ++ encodeURIComponent kv.2) data).

Definition token_request (issuer : string) (data : list (string * string)) : HttpRequest :=
  mkHttpRequest "POST" (issuer ++ "/protocol/openid-connect/token")
    [("Content-Type", "application/x-www-form-urlencoded")] (Some (formEncode data)).

(** [data?.error_description || data?.error || `HTTP ${res.status}`] *)
Definition exchange_error (r : HttpResponse) (data : js) : js :=
  js_or (opt_get data "error_description")
    (js_or (opt_get data "error") (JStr ("HTTP " ++ Z_to_string (res_status r)))).

(** [headers.append('Set-Cookie', v)]: white space around the value is dropped; a
    line break, a NUL or a character beyond Latin-1 inside is a TypeError. *)
Fixpoint strip_http_ws (s : string) : string :=
  match s with
  | String c s' => if str_includes (String c "") (String (byte 9) (String (byte 10)
                        (String (byte 13) " "))) then strip_http_ws s' else s
  | EmptyString => ""
  end.
Fixpoint header_text (s : string) : bool :=
  match s with
  | EmptyString => true
  | String c s' =>
      let n := code c in
      negb (Nat.eqb n 0 || Nat.eqb n 10 || Nat.eqb n 13 || Nat.leb 196 n) && header_text s'
  end.
Definition append_cookie (v : string) (r : NextResponse) : M NextResponse :=
  let v' := str_rev (strip_http_ws (str_rev (strip_http_ws v))) in
  if header_text v'
  then mret (mkResponse (out_status r) (out_body r) (out_headers r ++ [("set-cookie", v')])%list)
  else throw (JsError "Headers.append: invalid header value").

(** The text of a token cookie. *)
Definition token_cookie (name token : string) (maxAge : js) (secure : bool) : string :=
  name ++ "=" ++ encodeURIComponent token ++ "; Path=/; HttpOnly; SameSite=Lax; Max-Age="
    ++ js_to_string maxAge ++ (if secure then "; Secure" else "").

(** [process.env.NODE_ENV === 'production' && !origin.includes('localhost')] *)
Definition secure_for (request : Request) (w : World) : bool :=
  let origin := match truthy_env (header "origin" request) with
                | Some o => o
                | None => env_or (header "referer" request) ""
                end in
  in_production w && negb (str_includes "localhost" origin).

(** ** callback/route.ts *)

Definition callback_missing (code verifier client_id redirect_uri : js) : M NextResponse :=
  next_json_status
    (JObj [("error", JStr "Missing required fields");
           ("details", JObj [("code", JBool (truthy code)); ("verifier", JBool (truthy verifier));
                             ("client_id", JBool (truthy client_id));
                             ("redirect_uri", JBool (truthy redirect_uri))])]) 400.

Definition callback_exchange (e : Env) (code verifier client_id redirect_uri : js) : HttpRequest :=
  token_request (strip_one_slash (KEYCLOAK_ISSUER e))
    [("grant_type", "authorization_code"); ("client_id", js_to_string client_id);
     ("code", js_to_string code); ("redirect_uri", js_to_string redirect_uri);
     ("code_verifier", js_to_string verifier)].

Definition callback_session (request : Request) (data : js) : M NextResponse :=
  accessToken ← get data "access_token";
  let refreshToken := opt_get data "refresh_token" in
  let expiresIn := opt_get data "expires_in" in
  let refreshExpiresIn := opt_get data "refresh_expires_in" in
  if negb (truthy accessToken) then
    next_json_status (error_body "No access token returned") 502
  else
    secure ← ask (secure_for request);
    resp ← next_json (JObj [("access_token", accessToken); ("id_token", opt_get data "id_token");
                            ("refresh_token", refreshToken); ("expires_in", expiresIn);
                            ("refresh_expires_in", refreshExpiresIn)]);
    resp ← append_cookie (token_cookie "admin_access_token" (js_to_string accessToken)
                            (js_or expiresIn (js_of_Z 3600)) secure) resp;
    if truthy refreshToken then
      append_cookie (token_cookie "admin_refresh_token" (js_to_string refreshToken)
                       (js_or refreshExpiresIn (js_of_Z 604800)) secure) resp
    else mret resp.

Definition callback_POST (request : Request) : M NextResponse :=
  try_catch
    (body ← req_json_or_empty request;
     code ← get body "code";
     let verifier := opt_get body "verifier" in
     let client_id := opt_get body "client_id" in
     let redirect_uri := opt_get body "redirect_uri" in
     if negb (truthy code && truthy verifier && truthy client_id && truthy redirect_uri)
     then callback_missing code verifier client_id redirect_uri
     else
       e ← ask env;
       res ← fetch (callback_exchange e code verifier client_id redirect_uri);
       data ← res_json_or_empty res;
       if negb (res_ok res) then
         next_json_status (JObj [("error", exchange_error res data)]) (res_status res)
       else callback_session request data)
    (fun error =>
       next_json_status (JObj [("error", JStr "Unexpected error");
                               ("details", JStr (exn_message error))]) 500).

(** ** refresh/route.ts *)

(** [Buffer.from(s, 'base64url')]: both alphabets are read, a padding character
    ends the text, other characters are skipped, and so is a last sextet that
    completes no byte. *)
Definition buffer_value (c : ascii) : bool :=
  match b64_value c with Some _ => true | None => false end.
Fixpoint before_char (sep : ascii) (s : string) : string :=
  match s with
  | EmptyString => ""
  | String c s' => if Ascii.eqb c sep then "" else String c (before_char sep s')
  end.
Definition buffer_from_base64url (s : string) : string :=
  let t := keep_chars buffer_value
             (str_replace_char "_" "/" (str_replace_char "-" "+" (before_char "=" s))) in
  let t := if Nat.eqb (Nat.modulo (String.length t) 4) 1
           then str_rev (str_drop 1 (str_rev t)) else t in
  match b64_groups t with Some b => b | None => "" end.

Definition refresh_decodeJwtPayload (token : js) : js :=
  match token with
  | JStr t =>
      match str_split "." t with
      | _ :: p :: _ =>
          match json_parse (utf8_decode (buffer_from_base64url p)) with
          | Some v => v
          | None => JNull
          end
      | _ => JNull
      end
  | _ => JNull
  end.

Definition asString (v : js) : option string := match v with JStr s => Some s | _ => None end.
Definition asNumber (v : js) : js := match v with JNum _ => v | _ => JUndef end.

(** The body and the parse error: what [Object.keys] or [in] rejects counts as a
    body that could not be parsed. *)
Definition refresh_body (request : Request) : M (js * option exn) :=
  try_catch
    (body ← req_json request;
     if is_object body then mret (body, None)
     else throw (JsError "Cannot use 'in' operator to search for 'refresh_token'"))
    (fun e => mret (JObj [], Some e)).

Definition keys_of (v : js) : js := JArr (map (fun kv => JStr kv.1) (entries v)).

Definition refresh_missing (w : World) (body : js) (parseError : option exn) : M NextResponse :=
  next_json_status
    (JObj [("ok", JBool false); ("error", JStr "Missing refresh_token");
           ("debug", if in_production w then JUndef
                     else JObj [("parseError", JStr (match parseError with
                                                     | Some e => "Error: " ++ exn_message e
                                                     | None => "null" end));
                                ("bodyKeys", keys_of body)])]) 400.

Definition matchesClient (e : Env) (payload : js) : bool :=
  is_str (opt_get payload "azp") (CLIENT_ID e).
Definition matchesIssuer (e : Env) (payload : js) : bool :=
  is_str (opt_get payload "iss") (KEYCLOAK_ISSUER e)
  || is_str (opt_get payload "iss") (PUBLIC_ISSUER e).
Definition isSupportedRefreshType (payload : js) : bool :=
  is_str (opt_get payload "typ") "Refresh" || is_str (opt_get payload "typ") "Offline".

Definition refresh_mismatch (e : Env) (payload : js) : M NextResponse :=
  next_json_status
    (JObj [("ok", JBool false);
           ("error", JStr "Refresh token does not match router-ui router realm context");
           ("debug", JObj [("matchesClient", JBool (matchesClient e payload));
                           ("matchesIssuer", JBool (matchesIssuer e payload));
                           ("isSupportedRefreshType", JBool (isSupportedRefreshType payload));
                           ("expectedIssuers", JArr [JStr (KEYCLOAK_ISSUER e); JStr (PUBLIC_ISSUER e)]);
                           ("actualIssuer", opt_get payload "iss")])]) 400.

Definition refresh_exchange (e : Env) (refresh_token : string) : HttpRequest :=
  token_request (KEYCLOAK_ISSUER e)
    [("grant_type", "refresh_token"); ("client_id", CLIENT_ID e);
     ("refresh_token", refresh_token)].

Definition exchange_failed (res : HttpResponse) (data : js) : M NextResponse :=
  next_json_status (JObj [("ok", JBool false); ("error", exchange_error res data)])
    (res_status res).

Definition no_access_token : M NextResponse :=
  next_json_status (JObj [("ok", JBool false); ("error", JStr "No access token returned")]) 502.

Definition unexpected_error : M NextResponse :=
  next_json_status (JObj [("ok", JBool false); ("error", JStr "Unexpected error")]) 500.

(** [a || b] on texts that may be missing *)
Definition text_or (o : option string) (d : js) : js :=
  match truthy_env o with Some t => JStr t | None => d end.

Definition refresh_session (request : Request) (refresh_token data : js) : M NextResponse :=
  access ← get data "access_token";
  let newRefreshToken := asString (opt_get data "refresh_token") in
  let expiresIn := asNumber (opt_get data "expires_in") in
  let refreshExpiresIn := asNumber (opt_get data "refresh_expires_in") in
  match truthy_env (asString access) with
  | None => no_access_token
  | Some accessToken =>
      resp ← next_json (JObj [("ok", JBool true); ("access_token", JStr accessToken);
                              ("refresh_token", text_or newRefreshToken refresh_token);
                              ("expires_in", expiresIn);
                              ("refresh_expires_in", refreshExpiresIn)]);
      secure ← ask (secure_for request);
      resp ← append_cookie (token_cookie "admin_access_token" accessToken
                              (js_or expiresIn (js_of_Z 3600)) secure) resp;
      match truthy_env newRefreshToken with
      | Some t => append_cookie (token_cookie "admin_refresh_token" t
                                   (js_or refreshExpiresIn (js_of_Z 604800)) secure) resp
      | None => mret resp
      end
  end.

Definition refresh_POST (request : Request) : M NextResponse :=
  try_catch
    ('(body, parseError) ← refresh_body request;
     let refresh_token := opt_get body "refresh_token" in
     if negb (truthy refresh_token) then
       w ← ask (fun w => w); refresh_missing w body parseError
     else
       e ← ask env;
       let payload := refresh_decodeJwtPayload refresh_token in
       if negb (isSupportedRefreshType payload && matchesClient e payload
                && matchesIssuer e payload)
       then refresh_mismatch e payload
       else
         res ← fetch (refresh_exchange e (js_to_string refresh_token));
         data ← res_json_or_empty res;
         if negb (res_ok res) then exchange_failed res data
         else refresh_session request refresh_token data)
    (fun _ => unexpected_error).

(** ** refresh-server/route.ts *)

Definition refresh_server_session (refreshToken : string) (data : js) : M NextResponse :=
  access ← get data "access_token";
  let newRefreshToken := asString (opt_get data "refresh_token") in
  let expiresIn := match opt_get data "expires_in" with JNum n => JNum n | _ => js_of_Z 3600 end in
  match truthy_env (asString access) with
  | None => no_access_token
  | Some accessToken =>
      resp ← next_json (JObj [("ok", JBool true); ("access_token", JStr accessToken);
                              ("refresh_token", text_or newRefreshToken (JStr refreshToken));
                              ("expires_in", expiresIn)]);
      secure ← ask in_production;
      resp ← append_cookie (token_cookie "admin_access_token" accessToken expiresIn secure) resp;
      match truthy_env newRefreshToken with
      | Some t => append_cookie (token_cookie "admin_refresh_token" t (js_of_Z 604800) secure) resp
      | None => mret resp
      end
  end.

Definition refresh_server_POST : M NextResponse :=
  try_catch
    (stored ← cookie "admin_refresh_token";
     match truthy_env stored with
     | None => next_json_status (JObj [("ok", JBool false);
                                       ("error", JStr "No refresh token available")]) 401
     | Some refreshToken =>
         e ← ask env;
         res ← fetch (refresh_exchange e refreshToken);
         data ← res_json_or_empty res;
         if negb (res_ok res) then exchange_failed res data
         else refresh_server_session refreshToken data
     end)
    (fun _ => unexpected_error).

(** ** session/route.ts *)

Definition unauthenticated : M NextResponse := next_json (JObj [("authenticated", JBool false)]).

Definition session_of (claims : js) : M NextResponse :=
  let email := js_or (opt_get claims "email") (JStr "") in
  let sub := js_or (opt_get claims "sub") (JStr "me") in
  let displayName := js_or (opt_get claims "preferred_username") (js_or email sub) in
  let exp := opt_get claims "exp" in
  expired ← (if truthy exp then
               t ← date_now;
               mret (num_ltb (num_mul (js_to_number exp) (num_of_Z 1000)) (num_of_Z t))
             else mret false);
  if (expired : bool) then unauthenticated
  else next_json (JObj [("authenticated", JBool true);
                        ("user", JObj [("id", sub); ("name", displayName); ("email", email)])]).

Definition session_GET : M NextResponse :=
  try_catch
    (stored ← cookie "admin_access_token";
     match truthy_env stored with
     | None => unauthenticated
     | Some token => try_catch (session_of (oidc_decodeJwtPayload token)) (fun _ => unauthenticated)
     end)
    (fun _ => unauthenticated).

(** ** config/route.ts *)

Definition public_config (e : Env) : M NextResponse :=
  next_json (JObj [("issuer", JStr (PUBLIC_ISSUER e)); ("clientId", JStr (CLIENT_ID e));
                   ("configured", JBool true)]).

Definition config_request (e : Env) : HttpRequest :=
  mkHttpRequest "GET" (env_or (GATEWAY_ADMIN_URL e) "http://localhost:8000" ++ "/admin/config/global")
    (("Content-Type", "application/json") ::
     match truthy_env (GATEWAY_ADMIN_API_KEY e) with
     | Some k => [("X-API-Key", k)]
     | None => []
     end) None.

(** The answer from the gateway's configuration, if it names an issuer. *)
Definition configured_issuer (e : Env) : M (option NextResponse) :=
  try_catch
    (res ← fetch (config_request e);
     if res_ok res then
       data ← res_json res;
       let issuer := opt_get (opt_get (opt_get (opt_get data "config") "auth") "jwt") "issuer" in
       if truthy issuer then
         r ← next_json (JObj [("issuer", issuer); ("clientId", JStr "router-ui");
                              ("configured", JBool true)]);
         mret (Some r)
       else mret None
     else mret None)
    (fun _ => mret None).

Definition auth_config_GET : M NextResponse :=
  e ← ask env;
  try_catch
    (early ← configured_issuer e;
     match early with Some r => mret r | None => public_config e end)
    (fun _ => public_config e).

(** ** logout/route.ts and mock/route.ts *)

Definition expired_flags : string := "Max-Age=0; Expires=Thu, 01 Jan 1970 00:00:00 GMT".

Definition logout_POST : M NextResponse :=
  resp ← next_json (JObj [("ok", JBool true)]);
  secure ← ask in_production;
  let flags := "Path=/; HttpOnly; SameSite=Lax; " ++ expired_flags
                 ++ (if (secure : bool) then "; Secure" else "") in
  resp ← append_cookie ("admin_access_token=; " ++ flags) resp;
  append_cookie ("admin_refresh_token=; " ++ flags) resp.

Definition mock_flags : string := "Path=/; HttpOnly; SameSite=Lax".
Definition mock_POST : M NextResponse :=
  resp ← next_json (JObj [("ok", JBool true)]);
  append_cookie ("is_mock_session=1; " ++ mock_flags ++ "; Max-Age=86400") resp.
Definition mock_DELETE : M NextResponse :=
  resp ← next_json (JObj [("ok", JBool true)]);
  append_cookie ("is_mock_session=; " ++ mock_flags ++ "; " ++ expired_flags) resp.

(** ** What a browser keeps *)

(** A Set-Cookie text: name, value and attributes. *)
Definition parse_set_cookie (text : string) : option (string * string * list string) :=
  match str_split ";" text with
  | named :: attrs =>
      match split_once "=" named with
      | (n, Some v) => Some (n, v, map (slice_from 1) attrs)
      | _ => None
      end
  | [] => None
  end.

Definition expires_now (attr : string) : bool :=
  String.eqb attr "Max-Age=0" || starts_with "Max-Age=-" attr.

(** The jar after a Set-Cookie header, as the server reads it back: the value is
    percent-decoded when it can be. *)
Definition store_cookie (jar : list (string * string)) (text : string) : list (string * string) :=
  match parse_set_cookie text with
  | Some (n, v, attrs) =>
      if existsb expires_now attrs
      then List.filter (fun kv => negb (String.eqb kv.1 n)) jar
      else params_set n (match decodeURIComponent v with Some t => t | None => v end) jar
  | None => jar
  end.

Definition set_cookies (r : NextResponse) : list string :=
  map snd (List.filter (fun kv => String.eqb kv.1 "set-cookie") (out_headers r)).

Definition jar_after (w : World) (r : NextResponse) : World :=
  mkWorld (env w) (fold_left store_cookie (set_cookies r) (cookies w)) (net w) (clock w).

(** A cookie lifetime as the issuer sends it: a run of digits, not zero. *)
Definition lifetime (s : string) : bool :=
  str_all is_digit s && negb (String.eqb s "") && negb (String.eqb s "0").

(** ** Cookie texts *)

Lemma percent_all (p : ascii -> bool) (c : ascii) (s : string) :
  p "%"%char = true -> (forall n, (n < 16)%nat -> p (hex_char n) = true) ->
  str_all p (percent c s) = str_all p s.
Proof.
  intros H0 Hh. unfold percent. cbn [str_all]. rewrite H0, !Hh; [done| |].
  - apply Nat.mod_upper_bound. lia.
  - apply Nat.Div0.div_lt_upper_bound. pose proof (nat_ascii_bounded c). unfold code. lia.
Qed.

Lemma encode_all (p : ascii -> bool) (s : string) :
  p "%"%char = true -> (forall c, uri_unreserved c = true -> p c = true) ->
  str_all p (encodeURIComponent s) = true.
Proof.
  intros H0 Hu. induction s as [|c s IH]; cbn [encodeURIComponent]; [done|].
  destruct (uri_unreserved c) eqn:E.
  - cbn [str_all]. by rewrite (Hu c E), IH.
  - rewrite percent_all; [done|done|]. intros n Hn. apply Hu.
    do 16 (destruct n as [|n]; [reflexivity|]). lia.
Qed.

Lemma encode_segment (s : string) (c : ascii) :
  uri_unreserved c = false -> c <> "%"%char -> lacks c (encodeURIComponent s) = true.
Proof.
  intros H Hp. rewrite lacks_all. apply encode_all.
  - by destruct (Ascii.eqb_spec "%" c).
  - intros d Hd. destruct (Ascii.eqb_spec d c) as [->|]; [by rewrite H in Hd|done].
Qed.

Lemma encode_lacks (sep : ascii) (s : string) :
  sep = ";"%char \/ sep = "="%char \/ sep = "&"%char -> lacks sep (encodeURIComponent s) = true.
Proof.
  intros H. rewrite lacks_all. apply encode_all.
  - by destruct H as [-> | [-> | ->]].
  - intros c Hc. destruct (Ascii.eqb_spec c sep) as [->|]; [|done].
    by destruct H as [-> | [-> | ->]].
Qed.

Lemma strip_ws_head (c : ascii) (s : string) :
  is_alnum c = true -> strip_http_ws (String c s) = String c s.
Proof. by destruct c as [[] [] [] [] [] [] [] []]. Qed.

Lemma append_plain (v head : string) (c d : ascii) (tail : string) (r : NextResponse)
    (w : World) (s : State) :
  v = String c tail -> is_alnum c = true -> v = head ++ String d "" -> is_alnum d = true ->
  header_text v = true ->
  append_cookie v r w s =
  (Ok (mkResponse (out_status r) (out_body r) (out_headers r ++ [("set-cookie", v)])%list), s).
Proof.
  intros H1 Hc H2 Hd Ht. unfold append_cookie.
  assert (strip_http_ws v = v) as ->.
  { rewrite H1. by apply strip_ws_head. }
  assert (strip_http_ws (str_rev v) = str_rev v) as ->.
  { rewrite H2, str_rev_append. change (str_rev (String d "")) with (String d "").
    cbn [String.append]. by apply strip_ws_head. }
  by rewrite str_rev_rev, Ht.
Qed.

Lemma header_text_all (s : string) :
  header_text s =
  str_all (fun c => negb (Nat.eqb (code c) 0 || Nat.eqb (code c) 10 || Nat.eqb (code c) 13
                          || Nat.leb 196 (code c))%bool) s.
Proof. induction s as [|c s IH]; cbn [header_text str_all]; [done|]. by rewrite IH. Qed.

Lemma digits_last (s : string) :
  str_all is_digit s = true -> s <> "" ->
  exists t d, s = t ++ String d "" /\ is_alnum d = true.
Proof.
  induction s as [|c s IH]; [done|]. intros [Hc Hs]%andb_true_iff _.
  destruct (decide (s = "")) as [->|Hne].
  - exists "", c. split; [done|]. by destruct c as [[] [] [] [] [] [] [] []].
  - destruct (IH Hs Hne) as (t & d & -> & Hd). by exists (String c t), d.
Qed.

(** ** A stored token *)

Section Stored.
Context (name token : string) (maxAge : js) (secure : bool).
Context (Hname : name = "admin_access_token" \/ name = "admin_refresh_token").
Context (Hage : lifetime (js_to_string maxAge) = true).

Lemma lifetime_digits : str_all is_digit (js_to_string maxAge) = true.
Proof. unfold lifetime in Hage. by destruct (str_all is_digit _). Qed.

Lemma lifetime_nonempty : js_to_string maxAge <> "".
Proof.
  unfold lifetime in Hage. intros H. by rewrite H in Hage.
Qed.

Lemma name_all (p : ascii -> bool) :
  (forall c, is_alnum c = true -> p c = true) -> p "_"%char = true -> str_all p name = true.
Proof.
  intros Ha H_. destruct Hname as [-> | ->]; cbn [str_all]; by rewrite H_, !Ha by reflexivity.
Qed.

Lemma token_cookie_text : header_text (token_cookie name token maxAge secure) = true.
Proof.
  rewrite header_text_all. unfold token_cookie. rewrite !str_all_app.
  rewrite name_all; [|by intros [[] [] [] [] [] [] [] []]|done].
  rewrite encode_all; [|done|by intros [[] [] [] [] [] [] [] []]].
  rewrite (str_all_mono is_digit _ (js_to_string maxAge));
    [by destruct secure|by intros [[] [] [] [] [] [] [] []]|apply lifetime_digits].
Qed.

Lemma token_cookie_last :
  exists t d, token_cookie name token maxAge secure = t ++ String d "" /\ is_alnum d = true.
Proof.
  unfold token_cookie.
  set (lit := "; Path=/; HttpOnly; SameSite=Lax; Max-Age="). destruct secure.
  - exists (name ++ "=" ++ encodeURIComponent token ++ lit ++ js_to_string maxAge ++ "; Secur"),
      "e"%char.
    by rewrite !str_app_assoc.
  - destruct (digits_last _ lifetime_digits lifetime_nonempty) as (t & d & -> & Hd).
    exists (name ++ "=" ++ encodeURIComponent token ++ lit ++ t), d.
    by rewrite str_app_nil, !str_app_assoc.
Qed.

Lemma append_token (r : NextResponse) (w : World) (s : State) :
  append_cookie (token_cookie name token maxAge secure) r w s =
  (Ok (mkResponse (out_status r) (out_body r)
         (out_headers r ++ [("set-cookie", token_cookie name token maxAge secure)])%list), s).
Proof.
  destruct token_cookie_last as (t & d & Hl & Hd).
  assert (exists u, token_cookie name token maxAge secure = String "a" u) as [u Hu]
    by (destruct Hname as [-> | ->]; eexists; reflexivity).
  exact (append_plain _ t "a" d u r w s Hu eq_refl Hl Hd token_cookie_text).
Qed.

Lemma lifetime_lacks : lacks ";" (js_to_string maxAge) = true.
Proof.
  rewrite lacks_all. eapply str_all_mono; [|apply lifetime_digits].
  by intros [[] [] [] [] [] [] [] []].
Qed.

Lemma token_cookie_pair : lacks ";" (name ++ "=" ++ encodeURIComponent token) = true.
Proof. rewrite !lacks_app, encode_lacks by auto. by destruct Hname as [-> | ->]. Qed.

Lemma lifetime_keeps : expires_now ("Max-Age=" ++ js_to_string maxAge) = false.
Proof.
  unfold lifetime in Hage. revert Hage. destruct (js_to_string maxAge) as [|c t]; [done|].
  intros [[[Hc _]%andb_true_iff _]%andb_true_iff H0]%andb_true_iff.
  unfold expires_now. apply orb_false_iff. split.
  - cbn. apply negb_true_iff in H0. exact H0.
  - by destruct c as [[] [] [] [] [] [] [] []].
Qed.

Lemma token_cookie_parse :
  exists attrs, parse_set_cookie (token_cookie name token maxAge secure) =
    Some (name, encodeURIComponent token, attrs) /\ existsb expires_now attrs = false.
Proof.
  assert (Hs : token_cookie name token maxAge secure =
    (name ++ "=" ++ encodeURIComponent token) ++ String ";" (" Path=/" ++ String ";"
      (" HttpOnly" ++ String ";" (" SameSite=Lax" ++ String ";"
        (" Max-Age=" ++ js_to_string maxAge ++ (if secure then "; Secure" else "")))))).
  { unfold token_cookie. rewrite !str_app_assoc. reflexivity. }
  unfold parse_set_cookie. rewrite Hs, str_split_app by apply token_cookie_pair.
  rewrite !str_split_app by reflexivity.
  change ("=" ++ encodeURIComponent token) with (String "=" (encodeURIComponent token)).
  rewrite (split_once_app "=" name) by (by destruct Hname as [-> | ->]).
  eexists. split; [reflexivity|]. destruct secure.
  - change "; Secure" with (String ";" " Secure"). rewrite <- str_app_assoc, str_split_app
      by (rewrite lacks_app; exact lifetime_lacks).
    change (existsb expires_now ["Path=/"; "HttpOnly"; "SameSite=Lax";
              "Max-Age=" ++ js_to_string maxAge; "Secure"] = false).
    cbn [existsb]. by rewrite lifetime_keeps.
  - rewrite str_app_nil, str_split_lacks by (rewrite lacks_app; exact lifetime_lacks).
    change (existsb expires_now ["Path=/"; "HttpOnly"; "SameSite=Lax";
              "Max-Age=" ++ js_to_string maxAge] = false).
    cbn [existsb]. by rewrite lifetime_keeps.
Qed.

Lemma store_token (jar : list (string * string)) :
  utf8_valid token = true ->
  store_cookie jar (token_cookie name token maxAge secure) = params_set name token jar.
Proof.
  intros Hu. unfold store_cookie. destruct token_cookie_parse as (attrs & -> & ->).
  by rewrite decode_encode.
Qed.
End Stored.

(** ** Evaluating the routes *)

(** The token a refresh request carries. *)
Definition offered (request : Request) : js :=
  match json_parse (req_body request) with
  | Some body => if is_object body then opt_get body "refresh_token" else JUndef
  | None => JUndef
  end.

Lemma yields_refresh_body (w : World) (request : Request) :
  exists body err, yields w (refresh_body request) (body, err) /\
                   opt_get body "refresh_token" = offered request.
Proof.
  unfold yields, refresh_body, try_catch, req_json, parse_text, offered, mbind, M_bind.
  destruct (json_parse (req_body request)) as [body|]; [|by do 2 eexists].
  cbn. destruct (is_object body); by do 2 eexists.
Qed.

(** The checks a refresh token has to pass. *)
Definition acceptable (e : Env) (token : js) : bool :=
  let p := refresh_decodeJwtPayload token in
  isSupportedRefreshType p && matchesClient e p && matchesIssuer e p.

Definition refresh_accepted (w : World) (request : Request) (token : js) : M NextResponse :=
  res ← fetch (refresh_exchange (env w) (js_to_string token));
  data ← res_json_or_empty res;
  if negb (res_ok res) then exchange_failed res data else refresh_session request token data.

Lemma refresh_eval_body (w : World) (request : Request) (s : State) :
  truthy (offered request) = true ->
  refresh_POST request w s =
  try_catch (if negb (acceptable (env w) (offered request))
             then refresh_mismatch (env w) (refresh_decodeJwtPayload (offered request))
             else refresh_accepted w request (offered request))
    (fun _ => unexpected_error) w s.
Proof.
  intros Ht. destruct (yields_refresh_body w request) as (body & err & Hy & Hb).
  unfold refresh_POST, try_catch. rewrite (yields_bind w _ _ _ s Hy). cbn beta iota.
  rewrite Hb, Ht. cbn [negb]. rewrite (yields_bind w _ _ _ s (yields_ask w env)).
  unfold acceptable. by destruct (isSupportedRefreshType _ && _ && _)%bool.
Qed.

Lemma refresh_no_token (w : World) (request : Request) :
  truthy (offered request) = false -> quiet w (refresh_POST request).
Proof.
  intros Ht s. destruct (yields_refresh_body w request) as (body & err & Hy & Hb).
  unfold refresh_POST, try_catch. rewrite (yields_bind w _ _ _ s Hy). cbn beta iota.
  rewrite Hb, Ht. exists []. by rewrite app_nil_r.
Qed.

Lemma yields_res_json (w : World) (r : HttpResponse) (v : js) :
  body_json r = Ok v -> yields w (res_json r) v.
Proof. intros H s. by rewrite res_json_eval, H. Qed.

Lemma yields_json_or_empty (w : World) (r : HttpResponse) (v : js) :
  body_json r = Ok v -> yields w (res_json_or_empty r) v.
Proof. intros H s. unfold res_json_or_empty, try_catch. by rewrite res_json_eval, H. Qed.

Lemma sends_append (w : World) (P : HttpRequest -> Prop) (v : string) (r : NextResponse) :
  sends w P (append_cookie v r).
Proof. unfold append_cookie. step_sends. Qed.
#[export] Hint Resolve sends_append : effects.

Lemma sends_refresh_session (w : World) (P : HttpRequest -> Prop) (request : Request)
    (token data : js) : sends w P (refresh_session request token data).
Proof. unfold refresh_session, no_access_token. solve_sends. Qed.
#[export] Hint Resolve sends_refresh_session : effects.

Lemma sends_accepted (w : World) (P : HttpRequest -> Prop) (request : Request) (token : js) :
  P (refresh_exchange (env w) (js_to_string token)) -> sends w P (refresh_accepted w request token).
Proof.
  intros HP. unfold refresh_accepted, exchange_failed.
  apply sends_bind; [by apply sends_fetch|]. intros res. solve_sends.
Qed.

(** What an issuer grants: an access token, maybe a refresh token, and lifetimes. *)
Record grants (data : js) (access : string) (refresh : option string) : Prop := {
  gr_access : opt_get data "access_token" = JStr access;
  gr_access_text : truthy_env (Some access) = Some access /\ utf8_valid access = true;
  gr_refresh : truthy_env (asString (opt_get data "refresh_token")) = refresh;
  gr_refresh_text : match refresh with Some r => utf8_valid r = true | None => True end;
  gr_life : lifetime (js_to_string (js_or (asNumber (opt_get data "expires_in"))
                                       (js_of_Z 3600))) = true;
  gr_refresh_life : lifetime (js_to_string (js_or (asNumber (opt_get data "refresh_expires_in"))
                                               (js_of_Z 604800))) = true;
}.

Lemma opt_get_defined (v : js) (k t : string) : opt_get v k = JStr t -> nullish v = false.
Proof. by destruct v. Qed.

(** The jar once both tokens are stored. *)
Definition with_tokens (access : string) (refresh : option string) (jar : list (string * string))
  : list (string * string) :=
  let jar' := params_set "admin_access_token" access jar in
  match refresh with Some r => params_set "admin_refresh_token" r jar' | None => jar' end.

Lemma refresh_session_eval (w : World) (request : Request) (s : State) (token data : js)
    (access : string) (refresh : option string) :
  grants data access refresh ->
  exists resp, refresh_session request token data w s = (Ok resp, s) /\ out_status resp = 200%Z /\
    cookies (jar_after w resp) = with_tokens access refresh (cookies w).
Proof.
  intros [Ha [Ht Hu] Hr Hru Hl Hrl]. unfold refresh_session.
  assert (Hn := opt_get_defined _ _ _ Ha).
  rewrite (yields_bind w _ _ _ s (yields_get w data "access_token" Hn)). rewrite Ha, Hr.
  change (asString (JStr access)) with (Some access). rewrite Ht.
  unfold mbind, M_bind. cbn - [js_of_Z token_cookie secure_for append_cookie].
  rewrite append_token by auto. destruct refresh as [r|]; cbn - [js_of_Z token_cookie secure_for append_cookie].
  - rewrite append_token by auto. eexists. split; [reflexivity|]. split; [reflexivity|].
    cbn - [js_of_Z token_cookie secure_for store_cookie]. by rewrite !store_token by auto.
  - eexists. split; [reflexivity|]. split; [reflexivity|].
    cbn - [js_of_Z token_cookie secure_for store_cookie]. by rewrite store_token by auto.
Qed.

Lemma exchange_url (issuer : string) (data : list (string * string)) :
  absolute_url issuer = true -> absolute_url (http_url (token_request issuer data)) = true.
Proof. apply absolute_url_app. Qed.

Lemma with_tokens_access (access : string) (refresh : option string) (jar : list (string * string)) :
  params_get "admin_access_token" (with_tokens access refresh jar) = Some access.
Proof. unfold with_tokens. destruct refresh; by rewrite !params_get_set. Qed.

Lemma with_tokens_other (k access : string) (refresh : option string)
    (jar : list (string * string)) :
  k <> "admin_access_token" -> k <> "admin_refresh_token" ->
  params_get k (with_tokens access refresh jar) = params_get k jar.
Proof.
  intros H1%String.eqb_neq H2%String.eqb_neq. unfold with_tokens.
  destruct refresh; by rewrite !params_get_set, ?H1, ?H2.
Qed.

(** With the access token in its jar, and no mock session, a browser passes the guard as
    that token. *)
Lemma guard_with_tokens (w : World) (request : Request) (s : State) (access : string)
    (refresh : option string) (jar : list (string * string)) :
  cookies w = with_tokens access refresh jar -> truthy_env (Some access) = Some access ->
  params_get "is_mock_session" jar <> Some "1" ->
  requireAdminBearer request w s = (Ok (Token access), s).
Proof.
  intros Hj Ht Hm. rewrite guard_eval. unfold request_token. rewrite Hj.
  rewrite with_tokens_access, with_tokens_other, Ht by done.
  destruct (params_get "is_mock_session" jar) as [v|]; [|by rewrite Ht].
  destruct (String.eqb_spec v "1") as [->|]; [done|by rewrite Ht].
Qed.

(** *** Logging out *)

Definition without (names : list string) (jar : list (string * string)) : list (string * string) :=
  fold_left (fun j n => List.filter (fun kv => negb (String.eqb kv.1 n)) j) names jar.

Lemma logout_eval (w : World) (s : State) :
  exists resp, logout_POST w s = (Ok resp, s) /\ out_status resp = 200%Z /\
    cookies (jar_after w resp) =
      without ["admin_access_token"; "admin_refresh_token"] (cookies w).
Proof.
  unfold logout_POST, mbind, M_bind, ask.
  destruct (in_production w); eexists; (split; [vm_compute; reflexivity|]);
    split; reflexivity.
Qed.

(** *** The session check *)

Definition reports (authenticated : bool) (o : outcome NextResponse) : Prop :=
  match o with
  | Ok r => out_status r = 200%Z /\
            exists v, out_body r = BodyJson v /\ opt_get v "authenticated" = JBool authenticated
  | Throw _ => False
  end.

(** The expiry the session check reads from a token, compared with a time. *)
Definition token_expired (token : string) (now : Z) : bool :=
  let exp := opt_get (oidc_decodeJwtPayload token) "exp" in
  truthy exp && num_ltb (num_mul (js_to_number exp) (num_of_Z 1000)) (num_of_Z now).

Lemma session_eval (w : World) (s : State) :
  reports (match truthy_env (params_get "admin_access_token" (cookies w)) with
           | Some token => negb (token_expired token (clock w (ticks s)))
           | None => false
           end) (session_GET w s).1.
Proof.
  unfold session_GET, cookie, ask, mbind, M_bind, try_catch.
  destruct (truthy_env (params_get "admin_access_token" (cookies w))) as [token|]; [|by split; eauto].
  unfold session_of, token_expired, mbind, M_bind.
  destruct (truthy (opt_get (oidc_decodeJwtPayload token) "exp")); cbn [andb negb];
    [|by split; eauto].
  unfold date_now, mret, M_ret.
  destruct (num_ltb _ _); by split; eauto.
Qed.

(** *** The gateway's refresh, served by the console itself *)

(** The cookies a server finds in a request's Cookie header. *)
Definition jar_of (q : HttpRequest) : list (string * string) :=
  match params_get "Cookie" (http_headers q) with
  | Some h => map (fun p => match split_once "=" (str_trim p) with
                            | (n, Some v) => (n, v)
                            | (n, None) => ("", n)
                            end) (str_split ";" h)
  | None => []
  end.

(** The world's refresh address is this console: it answers with what
    refresh-server/route.ts computes from the request's own cookies. *)
Definition serves_refresh (w : World) : Prop :=
  forall past, net w past (refresh_request (env w)) =
    Ok (http_of (refresh_server_POST
                   (mkWorld (env w) (jar_of (refresh_request (env w))) (net w) (clock w))
                   (mkState past 0)).1).

Lemma refresh_never_granted (w : World) (past : list HttpRequest) :
  serves_refresh w -> granted_token (net w past (refresh_request (env w))) = None.
Proof. intros ->. reflexivity. Qed.

(** *** The public configuration *)

Lemma public_issuer_set (e : Env) : truthy (JStr (PUBLIC_ISSUER e)) = true.
Proof.
  cbn. unfold PUBLIC_ISSUER, env_or. destruct (KEYCLOAK_ISSUER_PUBLIC e) as [x|]; [|done]. cbn.
  by destruct (String.eqb x "") eqn:E; [|rewrite E].
Qed.

Lemma configured_issuer_eval (w : World) (s : State) :
  exists o s', configured_issuer (env w) w s = (Ok o, s') /\
    match o with
    | Some r => exists v, r = mkResponse 200 (BodyJson v) [] /\
                  truthy (opt_get v "issuer") = true /\ opt_get v "configured" = JBool true
    | None => True
    end.
Proof.
  unfold configured_issuer, try_catch. unfold mbind at 1, M_bind at 1.
  destruct (fetch (config_request (env w)) w s) as [[res|e] s1]; [|by exists None, s1].
  destruct (res_ok res); [|by exists None, s1].
  unfold mbind at 1, M_bind at 1. rewrite res_json_eval.
  destruct (body_json res) as [data|]; [|by exists None, s1]. cbv zeta.
  destruct (truthy (opt_get _ "issuer")) eqn:E; [|by exists None, s1].
  do 2 eexists. split; [reflexivity|]. cbn. eexists. split; [reflexivity|]. split; [exact E|reflexivity].
Qed.

(** *** The code exchange *)

(** The issuer's answer has the types the protocol gives its fields. *)
Definition well_typed (data : js) : Prop :=
  asNumber (opt_get data "expires_in") = opt_get data "expires_in" /\
  asNumber (opt_get data "refresh_expires_in") = opt_get data "refresh_expires_in" /\
  match opt_get data "refresh_token" with JStr _ | JUndef => True | _ => False end.

Lemma typed_refresh (data : js) (refresh : option string) :
  truthy_env (asString (opt_get data "refresh_token")) = refresh -> well_typed data ->
  (truthy (opt_get data "refresh_token") = true /\
   exists r, refresh = Some r /\ opt_get data "refresh_token" = JStr r) \/
  (truthy (opt_get data "refresh_token") = false /\ refresh = None).
Proof.
  intros Hr (_ & _ & Ht). destruct (opt_get data "refresh_token") as [| | | |r| |]; try done.
  - by right.
  - cbn in Hr |- *. destruct (String.eqb r "") eqn:E; [by right|]. left. eauto.
Qed.

Lemma callback_session_eval (w : World) (request : Request) (s : State) (data : js)
    (access : string) (refresh : option string) :
  grants data access refresh -> well_typed data ->
  exists resp, callback_session request data w s = (Ok resp, s) /\ out_status resp = 200%Z /\
    cookies (jar_after w resp) = with_tokens access refresh (cookies w).
Proof.
  intros [Ha [Ht Hu] Hr Hru Hl Hrl] Hty. assert (Hn := opt_get_defined _ _ _ Ha).
  destruct (typed_refresh data refresh Hr Hty) as [[Hrt (r & -> & Hrs)]|[Hrt ->]];
    destruct Hty as (He & Hre & _); rewrite He in Hl; rewrite Hre in Hrl;
    unfold callback_session;
    rewrite (yields_bind w _ _ _ s (yields_get w data "access_token" Hn)), Ha, Hrt;
    change (truthy (JStr access)) with (negb (String.eqb access ""));
    (assert (String.eqb access "" = false) as ->
       by (clear - Ht; cbn in Ht; by destruct (String.eqb access "")));
    unfold mbind, M_bind; cbn - [js_of_Z token_cookie secure_for append_cookie opt_get];
    rewrite append_token by auto.
  - rewrite Hrs. change (js_to_string (JStr r)) with r. rewrite append_token by auto.
    eexists. split; [reflexivity|]. split; [reflexivity|].
    cbn - [js_of_Z token_cookie secure_for store_cookie opt_get]. by rewrite !store_token by auto.
  - eexists. split; [reflexivity|]. split; [reflexivity|].
    cbn - [js_of_Z token_cookie secure_for store_cookie opt_get]. by rewrite store_token by auto.
Qed.

(** The four fields of a login request. *)
Definition login_fields : list string := ["code"; "verifier"; "client_id"; "redirect_uri"].
Definition complete (request : Request) : bool :=
  forallb (fun k => truthy (opt_get (body_or_empty request) k)) login_fields.

Definition login_exchange (w : World) (request : Request) : HttpRequest :=
  let f := opt_get (body_or_empty request) in
  callback_exchange (env w) (f "code") (f "verifier") (f "client_id") (f "redirect_uri").

Lemma complete_object (request : Request) :
  complete request = true -> nullish (body_or_empty request) = false.
Proof. unfold complete. by destruct (body_or_empty request). Qed.

Lemma callback_eval (w : World) (request : Request) (s : State) :
  nullish (body_or_empty request) = false ->
  callback_POST request w s =
  try_catch
    (if complete request then
       res ← fetch (login_exchange w request);
       data ← res_json_or_empty res;
       if negb (res_ok res) then
         next_json_status (JObj [("error", exchange_error res data)]) (res_status res)
       else callback_session request data
     else
       let f := opt_get (body_or_empty request) in
       callback_missing (f "code") (f "verifier") (f "client_id") (f "redirect_uri"))
    (fun error =>
       next_json_status (JObj [("error", JStr "Unexpected error");
                               ("details", JStr (exn_message error))]) 500) w s.
Proof.
  intros Hn. unfold callback_POST, try_catch.
  rewrite (yields_bind w _ _ _ s (yields_req_json_or_empty w request)).
  rewrite (yields_bind w _ _ _ s (yields_get w _ "code" Hn)). cbv zeta.
  unfold complete, login_fields. cbn [forallb].
  rewrite andb_true_r, !andb_assoc.
  destruct (_ && _)%bool; cbn [negb]; [|done].
  by rewrite (yields_bind w _ _ _ s (yields_ask w env)).
Qed.

(** ** Properties *)

(** C8: The browser's refresh forwards only tokens that passed every check: whatever
    the route sends is the exchange of the token in the body, and that token is a
    refresh or offline token issued by the expected realm for this client. *)
Theorem refresh_forwards_checked (w : World) (request : Request) :
  sends w (fun r => r = refresh_exchange (env w) (js_to_string (offered request)) /\
                    acceptable (env w) (offered request) = true)
    (refresh_POST request).
Proof.
  destruct (truthy (offered request)) eqn:Ht;
    [|by apply quiet_sends, refresh_no_token].
  intros s. rewrite (refresh_eval_body w request s Ht). revert s.
  apply sends_try; [|intros; apply sends_next_json_status].
  destruct (acceptable (env w) (offered request)) eqn:Ha; cbn [negb].
  - by apply sends_accepted.
  - apply sends_next_json_status.
Qed.

(** A refresh token of the wrong type, client or issuer is answered with 400
    and nothing is sent; a body without a token likewise. *)
Theorem refresh_rejects (w : World) (request : Request) (s : State) :
  truthy (offered request) && acceptable (env w) (offered request) = false ->
  exists resp, refresh_POST request w s = (Ok resp, s) /\ out_status resp = 400%Z /\
               out_headers resp = [].
Proof.
  destruct (truthy (offered request)) eqn:Ht; cbn [andb].
  - intros Ha. rewrite (refresh_eval_body w request s Ht), Ha. by eexists.
  - intros _. destruct (yields_refresh_body w request) as (body & err & Hy & Hb).
    unfold refresh_POST, try_catch. rewrite (yields_bind w _ _ _ s Hy). cbn beta iota.
    rewrite Hb, Ht. by eexists.
Qed.

(** A refresh that succeeds renews the session: the response is 200, a browser
    that stores its cookies holds exactly the new tokens and its other cookies, and
    the guard then lets its requests through with the new access token. *)
Theorem refresh_renews_session (w : World) (request : Request) (s : State) (res : HttpResponse)
    (data : js) (access : string) (refresh : option string) :
  truthy (offered request) = true -> acceptable (env w) (offered request) = true ->
  absolute_url (KEYCLOAK_ISSUER (env w)) = true ->
  net w (sent s) (refresh_exchange (env w) (js_to_string (offered request))) = Ok res ->
  res_ok res = true -> body_json res = Ok data -> grants data access refresh ->
  exists resp s', refresh_POST request w s = (Ok resp, s') /\ out_status resp = 200%Z /\
    cookies (jar_after w resp) = with_tokens access refresh (cookies w) /\
    (params_get "is_mock_session" (cookies w) <> Some "1" ->
     forall next s2, requireAdminBearer next (jar_after w resp) s2 = (Ok (Token access), s2)).
Proof.
  intros Ht Ha Hb Hn Hok Hd Hg.
  rewrite (refresh_eval_body w request s Ht), Ha. cbn [negb].
  unfold try_catch, refresh_accepted. unfold mbind at 1, M_bind at 1.
  rewrite fetch_eval, Hn by by apply exchange_url. cbn beta iota.
  rewrite (yields_bind w _ _ _ _ (yields_json_or_empty w res data Hd)), Hok. cbn [negb].
  destruct (refresh_session_eval w request
              (after s [refresh_exchange (env w) (js_to_string (offered request))])
              (offered request) data access refresh Hg) as (resp & He & Hs & Hj).
  unfold after in He. rewrite He. do 2 eexists. split; [reflexivity|]. split; [done|].
  split; [done|]. intros Hm next s2.
  exact (guard_with_tokens _ next s2 access refresh _ Hj (proj1 (gr_access_text _ _ _ Hg)) Hm).
Qed.

Definition demo_refresh_token : string :=
  "h.eyJ0eXAiOiJSZWZyZXNoIiwiYXpwIjoicm91dGVyLXVpIiwiaXNzIjoiaHR0cDovL2xvY2FsaG9zdDo4MDgwL3JlYWxtcy9yb3V0ZXIifQ.s".
Definition demo_grant : js :=
  JObj [("access_token", JStr "new"); ("expires_in", js_of_Z 300);
        ("refresh_token", JStr "next"); ("refresh_expires_in", js_of_Z 1800)].
Definition demo_refresh : Request := posting (JObj [("refresh_token", JStr demo_refresh_token)]).

Lemma refresh_rejects_witness :
  exists resp, refresh_POST (posting (JObj [("refresh_token", JStr "opaque")]))
                 (demo_world [] (fun _ => reply_json 200 demo_grant)) start = (Ok resp, start) /\
    out_status resp = 400%Z /\ out_headers resp = [].
Proof.
  apply (refresh_rejects (demo_world [] (fun _ => reply_json 200 demo_grant))
           (posting (JObj [("refresh_token", JStr "opaque")])) start).
  vm_compute. reflexivity.
Defined.

Lemma refresh_renews_session_witness :
  let w := demo_world [("theme", "dark")] (fun _ => reply_json 200 demo_grant) in
  exists resp s', refresh_POST demo_refresh w start = (Ok resp, s') /\ out_status resp = 200%Z /\
    cookies (jar_after w resp) = with_tokens "new" (Some "next") (cookies w) /\
    (params_get "is_mock_session" (cookies w) <> Some "1" ->
     forall next s2, requireAdminBearer next (jar_after w resp) s2 = (Ok (Token "new"), s2)).
Proof.
  apply (refresh_renews_session
           (demo_world [("theme", "dark")] (fun _ => reply_json 200 demo_grant)) demo_refresh start
           (mkHttpResponse 200 "" [] (Some (json_str demo_grant))) demo_grant "new" (Some "next"));
    try (vm_compute; reflexivity).
  constructor; try split; vm_compute; reflexivity.
Defined.

(** Logging out removes both token cookies from the browser, so that without a
    mock session and a bearer header its next request is denied; a mock session,
    which logout leaves alone, is still let through. *)
Theorem logout_ends_session (w : World) (s : State) :
  exists resp, logout_POST w s = (Ok resp, s) /\ out_status resp = 200%Z /\
    forall next s2, header "authorization" next = None ->
      requireAdminBearer next (jar_after w resp) s2 =
      (Ok (if decide (params_get "is_mock_session" (cookies w) = Some "1")
           then Token MOCK_SESSION_SENTINEL else Denied auth_required), s2).
Proof.
  destruct (logout_eval w s) as (resp & He & Hs & Hj). exists resp. split; [done|]. split; [done|].
  intros next s2 Hh. rewrite guard_eval. unfold request_token. rewrite Hj, Hh.
  unfold without. cbn [fold_left]. rewrite !params_get_filter. cbn.
  destruct (params_get "is_mock_session" (cookies w)) as [v|]; [|done].
  destruct (String.eqb_spec v "1") as [->|Hv]; [done|].
  by rewrite decide_False by congruence.
Qed.

(** The session check always answers 200, and says authenticated exactly when the
    access-token cookie is present and does not carry an expiry in the past.  The
    signature is not looked at, and a token that cannot be decoded has no expiry. *)
Theorem session_reports_cookie (w : World) (s : State) :
  reports (match truthy_env (params_get "admin_access_token" (cookies w)) with
           | Some token => negb (token_expired token (clock w (ticks s)))
           | None => false
           end) (session_GET w s).1.
Proof. apply session_eval. Qed.

(** A cookie that is not a token at all passes the session check: with no payload
    to decode, the route reports an authenticated user. *)
Theorem session_accepts_garbage (w : World) (s : State) (token : string) :
  truthy_env (params_get "admin_access_token" (cookies w)) = Some token ->
  oidc_decodeJwtPayload token = JNull -> reports true (session_GET w s).1.
Proof.
  intros Hc Hd. generalize (session_eval w s). rewrite Hc. unfold token_expired. by rewrite Hd.
Qed.

Lemma session_accepts_garbage_witness :
  reports true (session_GET (demo_world [("admin_access_token", "not a token")]
                               (fun _ => reply 200 "")) start).1.
Proof.
  apply (session_accepts_garbage (demo_world [("admin_access_token", "not a token")]
                               (fun _ => reply 200 "")) start "not a token");
    vm_compute; reflexivity.
Defined.

(** The public configuration never fails: whatever the gateway does, the route
    answers 200 with a non-empty issuer and configured set. *)
Theorem auth_config_answers (w : World) (s : State) :
  exists v s', auth_config_GET w s = (Ok (mkResponse 200 (BodyJson v) []), s') /\
    truthy (opt_get v "issuer") = true /\ opt_get v "configured" = JBool true.
Proof.
  unfold auth_config_GET. rewrite (yields_bind w _ _ _ s (yields_ask w env)).
  unfold try_catch, mbind, M_bind.
  destruct (configured_issuer_eval w s) as (o & s1 & -> & Ho).
  destruct o as [r|].
  - destruct Ho as (v & -> & Hi & Hc). do 2 eexists. split; [reflexivity|done].
  - do 2 eexists. split; [reflexivity|]. split; [|reflexivity]. apply public_issuer_set.
Qed.

(** The client's refresh never succeeds.  The gateway client asks the console's
    own refresh-server route for a new token, but its request carries no cookie, and
    that route reads the refresh token from a cookie: so when the refresh address is
    the console, a call that meets a 401 always ends in that 401, whatever refresh
    token the caller's browser holds. *)
Theorem gateway_refresh_ineffective (w : World) (tok : option string) (base key path : string)
    (init : FetchInit) (s : State) (r1 : HttpResponse) :
  serves_refresh w -> configured w tok base key -> useBearer tok = true ->
  let q := gateway_request base path init (credential_of tok key) in
  net w (sent s) q = Ok r1 -> res_status r1 = 401%Z ->
  gatewayAdminFetch path init tok w s =
  (answer base path (Ok r1),
   after s (if absolute_url (http_url (refresh_request (env w)))
            then [q; refresh_request (env w)] else [q])).
Proof.
  intros Hr Hc Hu q Hn H4. rewrite (gateway_401_eval w tok base key path init s r1 Hc Hu Hn H4).
  destruct (absolute_url (http_url (refresh_request (env w)))); [|done].
  by rewrite (refresh_never_granted w _ Hr).
Qed.

Lemma gateway_refresh_ineffective_witness :
  let w := demo_world [("admin_refresh_token", "r")]
             (fun r => if String.eqb (http_method r) "POST"
                       then Ok (mkHttpResponse 401 "" [] (Some (json_str
                              (JObj [("ok", JBool false);
                                     ("error", JStr "No refresh token available")]))))
                       else reply 401 "expired") in
  gatewayAdminFetch "/admin/tenants" get_init (Some "jwt") w start =
    (Throw (status_error (mkHttpResponse 401 "" [] None) "expired"),
     after start [gateway_request "http://gw:8000" "/admin/tenants" get_init (bearer "jwt");
                  refresh_request demo_env]).
Proof.
  refine (gateway_refresh_ineffective
            (demo_world [("admin_refresh_token", "r")]
             (fun r => if String.eqb (http_method r) "POST"
                       then Ok (mkHttpResponse 401 "" [] (Some (json_str
                              (JObj [("ok", JBool false);
                                     ("error", JStr "No refresh token available")]))))
                       else reply 401 "expired"))
            (Some "jwt") "http://gw:8000" "" "/admin/tenants" get_init start
            (mkHttpResponse 401 "" [] (Some "expired")) _ _ _ _ _).
  - intros past. reflexivity.
  - split; [reflexivity | reflexivity | left; reflexivity].
  - reflexivity.
  - reflexivity.
  - reflexivity.
Defined.

(** A login starts a session: with all four fields in the body and an issuer that
    grants tokens, the code is exchanged once, the response is 200, and a browser
    that stores its cookies passes the guard as the granted access token. *)
Theorem callback_starts_session (w : World) (request : Request) (s : State) (res : HttpResponse)
    (data : js) (access : string) (refresh : option string) :
  complete request = true -> absolute_url (http_url (login_exchange w request)) = true ->
  net w (sent s) (login_exchange w request) = Ok res -> res_ok res = true ->
  body_json res = Ok data -> grants data access refresh -> well_typed data ->
  exists resp, callback_POST request w s = (Ok resp, after s [login_exchange w request]) /\
    out_status resp = 200%Z /\
    (params_get "is_mock_session" (cookies w) <> Some "1" ->
     forall next s2, requireAdminBearer next (jar_after w resp) s2 = (Ok (Token access), s2)).
Proof.
  intros Hc Hb Hn Hok Hd Hg Hty. rewrite (callback_eval w request s (complete_object _ Hc)), Hc.
  unfold try_catch. unfold mbind at 1, M_bind at 1. rewrite fetch_eval, Hn by done. cbn beta iota.
  rewrite (yields_bind w _ _ _ _ (yields_json_or_empty w res data Hd)), Hok. cbn [negb].
  destruct (callback_session_eval w request (after s [login_exchange w request]) data access
              refresh Hg Hty) as (resp & He & Hs & Hj).
  unfold after in He |- *. rewrite He. exists resp. split; [done|]. split; [done|].
  intros Hm next s2.
  exact (guard_with_tokens _ next s2 access refresh _ Hj (proj1 (gr_access_text _ _ _ Hg)) Hm).
Qed.

Definition demo_login : Request :=
  posting (JObj [("code", JStr "c0de"); ("verifier", JStr "v"); ("client_id", JStr "router-ui");
                 ("redirect_uri", JStr "http://ui:3000/callback")]).

Lemma callback_starts_session_witness :
  let w := demo_world [] (fun _ => reply_json 200 demo_grant) in
  exists resp, callback_POST demo_login w start = (Ok resp, after start [login_exchange w demo_login]) /\
    out_status resp = 200%Z /\
    (params_get "is_mock_session" (cookies w) <> Some "1" ->
     forall next s2, requireAdminBearer next (jar_after w resp) s2 = (Ok (Token "new"), s2)).
Proof.
  apply (callback_starts_session (demo_world [] (fun _ => reply_json 200 demo_grant)) demo_login start
           (mkHttpResponse 200 "" [] (Some (json_str demo_grant))) demo_grant "new" (Some "next"));
    try (vm_compute; reflexivity).
  - constructor; try split; vm_compute; reflexivity.
  - repeat split.
Defined.

(** A login that misses a field sends nothing: the code leaves the server only
    together with its verifier, client and redirect address, in one exchange. *)
Theorem callback_exchanges_complete (w : World) (request : Request) :
  sends w (fun r => r = login_exchange w request /\ complete request = true)
    (callback_POST request).
Proof.
  intros s. destruct (nullish (body_or_empty request)) eqn:Hn.
  - exists []. rewrite app_nil_r. unfold callback_POST, try_catch.
    rewrite (yields_bind w _ _ _ s (yields_req_json_or_empty w request)).
    unfold get, mbind, M_bind. by rewrite Hn.
  - rewrite (callback_eval w request s Hn). revert s.
    apply sends_try; [|intros; apply sends_next_json_status].
    destruct (complete request); [|apply sends_next_json_status].
    apply sends_bind; [by apply sends_fetch|]. intros res. unfold callback_session. solve_sends.
Qed.
