(* ===== verification/ModelsApi.v ===== *)
(** * The model and route-group routes

    src/frontend/src/app/api/models, api/admin/models and api/route-groups.  A
    model lives in the gateway's catalogue, its version and its enabled flag in the
    global configuration; a route group lives in the configuration of a tenant and
    is written by a patch of the whole selection. *)

From S2P Require Import Prelude JsNumber JsText JsValue Json Effects.
From S2P Require Import ConfigPatch GatewayClient GatewayFacts Routes.
Import ModelPatch.
Local Open Scope string_scope.

(** ** models/route.ts *)

(** [(result as { data?: unknown[] }).data || []] *)
Definition data_or_empty (result : js) : M js :=
  d ← get result "data"; mret (js_or d (JArr [])).

Definition models_GET (request : Request) : M NextResponse :=
  admin_route request "Failed to fetch models" (fun token =>
    result ← getModels (Some token);
    d ← data_or_empty result;
    next_json (JObj [("data", d)])).

(** The provider model id a Bedrock model is patched with. *)
Definition bedrock_pid (body : js) : string :=
  match opt_get body "provider_model_id" with
  | JStr s => if String.eqb (str_trim s) "" then str_trim (js_to_string (opt_get body "id"))
              else str_trim s
  | _ => str_trim (js_to_string (opt_get body "id"))
  end.

Definition patch_bedrock (body result : js) (token : string) : M unit :=
  if is_str (opt_get body "provider") "bedrock" then
    let pid := bedrock_pid body in
    newVersion ← get result "version";
    if (negb (String.eqb pid "") && negb (nullish newVersion))%bool then
      try_catch
        (_ ← updateModel (js_to_string (opt_get body "id"))
               (JObj [("provider_model_id", JStr pid)]) newVersion (Some token);
         mret tt)
        (fun _ => mret tt)
    else mret tt
  else mret tt.

Definition models_POST (request : Request) : M NextResponse :=
  admin_route request "Failed to create model" (fun token =>
    body ← req_json request;
    id ← get body "id";
    if negb (truthy id && truthy (opt_get body "provider"))
    then bad_request "Missing required fields: id and provider"
    else
      globalConfig ← getGlobalConfig (Some token);
      currentVersion ← version_of globalConfig;
      result ← createModel body currentVersion (Some token);
      _ ← patch_bedrock body result token;
      next_json_status result 201).

(** ** models/[modelId]/route.ts *)

(** [String(m.Name ?? m.name ?? '') === modelId] *)
Definition config_name (m : js) : M string :=
  n ← get m "Name";
  mret (js_to_string (js_coalesce n (js_coalesce (opt_get m "name") (JStr "")))).

Definition model_GET (modelId : string) (request : Request) : M NextResponse :=
  admin_route request "Failed to fetch model" (fun token =>
    result ← getModels (Some token);
    d ← get result "data";
    models ← list_or_empty d;
    found ← find_elem (fun m => i ← get m "id"; mret (is_str i modelId)) models;
    match found with
    | None => next_json_status (error_body ("Model " ++ modelId ++ " not found")) 404
    | Some model =>
        globalConfig ← getGlobalConfig (Some token);
        globalVersion ← version_of globalConfig;
        let globalModels := js_array (opt_get (opt_get globalConfig "config") "models") in
        entry ← find_elem (fun m => n ← config_name m; mret (String.eqb n modelId)) globalModels;
        let enabled := match entry with
                       | Some g => opt_get g "Enabled"
                       | None => opt_get model "Enabled"
                       end in
        next_json (JObj [("data",
          JObj (obj_set "version" globalVersion
                 (obj_set "Enabled" enabled (obj_spread [] (entries model)))))])
    end).

Definition model_PATCH (modelId : string) (request : Request) : M NextResponse :=
  admin_route request "Failed to update model" (fun token =>
    body ← req_json request;
    globalConfig ← getGlobalConfig (Some token);
    currentVersion ← version_of globalConfig;
    result ← updateModel modelId body currentVersion (Some token);
    next_json result).

Definition model_DELETE (modelId : string) (request : Request) : M NextResponse :=
  admin_route request "Failed to delete model" (fun token =>
    globalConfig ← getGlobalConfig (Some token);
    currentVersion ← version_of globalConfig;
    _ ← deleteModel modelId currentVersion (Some token);
    next_json (JObj [("message", JStr "Model deleted successfully")])).

(** ** route-groups/route.ts *)

Definition route_groups_GET (request : Request) : M NextResponse :=
  admin_route request "Failed to fetch route groups" (fun token =>
    match truthy_env (query "tenantId" request) with
    | None => bad_request "tenantId is required"
    | Some tenantId =>
        routeGroups ← getRouteGroupsFromTenantConfig tenantId (Some token);
        next_json (JObj [("data", JArr routeGroups)])
    end).

Definition route_groups_POST (request : Request) : M NextResponse :=
  admin_route request "Failed to create route group" (fun token =>
    body ← req_json request;
    tenantId ← get body "tenantId";
    if negb (truthy tenantId) then bad_request "tenantId is required"
    else if negb (truthy (opt_get body "id")) then bad_request "Missing required field: id"
    else
      result ← createRouteGroupInTenantConfig (js_to_string tenantId)
                 (js_to_string (opt_get body "id")) (js_or (opt_get body "models") (JArr []))
                 (Some token);
      next_json_status result 201).

(** ** route-groups/[routeGroupId]/route.ts *)

(** The tenant of the query, or the 400 that is returned in its place. *)
Definition with_tenant_id (request : Request) (k : string -> M NextResponse) : M NextResponse :=
  match truthy_env (query "tenantId" request) with
  | None => bad_request "tenantId is required"
  | Some tenantId => k tenantId
  end.

Definition route_group_GET (routeGroupId : string) (request : Request) : M NextResponse :=
  admin_route request "Failed to fetch route group" (fun token =>
    with_tenant_id request (fun tenantId =>
      routeGroups ← getRouteGroupsFromTenantConfig tenantId (Some token);
      found ← find_elem (fun rg => i ← get rg "id"; mret (is_str i routeGroupId)) routeGroups;
      match found with
      | None => next_json_status (error_body ("Route group " ++ routeGroupId ++ " not found")) 404
      | Some rg =>
          tenantConfig ← getTenantConfig tenantId (Some token);
          version ← version_of tenantConfig;
          next_json (JObj [("data", JObj (obj_set "version" version (obj_spread [] (entries rg))))])
      end)).

Definition route_group_PATCH (routeGroupId : string) (request : Request) : M NextResponse :=
  admin_route request "Failed to update route group" (fun token =>
    with_tenant_id request (fun tenantId =>
      body ← req_json request;
      models ← get body "models";
      result ← updateRouteGroupInTenantConfig tenantId routeGroupId (js_or models (JArr []))
                 (Some token);
      next_json result)).

Definition route_group_DELETE (routeGroupId : string) (request : Request) : M NextResponse :=
  admin_route request "Failed to delete route group" (fun token =>
    with_tenant_id request (fun tenantId =>
      _ ← deleteRouteGroupFromTenantConfig tenantId routeGroupId (Some token);
      next_json (JObj [("message", JStr "Route group deleted successfully")]))).

(** ** Reading and writing a tenant's selection *)

Definition config_path (tenantId : string) : string := "/admin/tenants/" ++ tenantId ++ "/config".

(** The version a write is guarded with: the one that was read, or 1. *)
Definition version_text (config : js) : string :=
  js_to_string (js_or (opt_get config "version") (js_of_Z 1)).

Lemma version_defined (config : js) : nullish (js_or (opt_get config "version") (js_of_Z 1)) = false.
Proof. unfold js_or. destruct (opt_get config "version"); cbn; try done; by case_match. Qed.

Lemma send_versioned_eval (method path : string) (body : option js) (version : js)
    (tok : option string) (w : World) (s : State) :
  nullish version = false ->
  send_versioned method path body version tok w s =
  gatewayAdminFetch path
    (mkInit method [("If-Match-Version", js_to_string version)]
       (match body with Some b => json_stringify b | None => None end)) tok w s.
Proof.
  intros Hv. unfold send_versioned, to_string_method. rewrite Hv. reflexivity.
Qed.

(** The route groups a tenant's configuration has. *)
Definition groups_of (config : js) : js :=
  js_or (opt_get (opt_get (opt_get config "config") "selection") "route_groups") (JObj []).

Lemma yields_groups (w : World) (config : js) :
  nullish config = false -> yields w (route_groups_of config) (groups_of config).
Proof.
  intros Hn s. unfold route_groups_of.
  by rewrite (yields_bind w _ _ _ s (yields_get w config "config" Hn)).
Qed.

Lemma yields_version (w : World) (config : js) :
  nullish config = false ->
  yields w (version_of config) (js_or (opt_get config "version") (js_of_Z 1)).
Proof.
  intros Hn s. unfold version_of.
  by rewrite (yields_bind w _ _ _ s (yields_get w config "version" Hn)).
Qed.

(** The write of one group: the configuration is read, and the patch is sent under
    the version that was read. *)
Definition group_write (base tenantId routeGroupId : string) (models config : js)
    (credential : string * string) : HttpRequest :=
  gateway_request base (config_path tenantId)
    (mkInit "PATCH" [("If-Match-Version", version_text config)]
       (json_stringify (selection_patch (groups_of config) routeGroupId models))) credential.

Lemma update_group_sent (w : World) (s : State) (tok : option string)
    (base key tenantId routeGroupId : string) (models config : js) :
  configured w tok base key -> nullish config = false ->
  let q := gateway_request base (config_path tenantId) get_init (credential_of tok key) in
  serves w s q config ->
  exists rest,
    sent (updateRouteGroupInTenantConfig tenantId routeGroupId models tok w s).2 =
    (sent s ++ q :: group_write base tenantId routeGroupId models config (credential_of tok key)
            :: rest)%list.
Proof.
  intros Hc Hn q Hs. unfold updateRouteGroupInTenantConfig.
  rewrite (bind_sent _ _ w s (after s [q]) config)
    by (by apply (gateway_ok w tok base key (config_path tenantId) get_init s config Hc)).
  rewrite (yields_bind w _ _ _ _ (yields_groups w config Hn)).
  rewrite (yields_bind w _ _ _ _ (yields_version w config Hn)).
  unfold patchTenantConfigGeneric. rewrite send_versioned_eval by apply version_defined.
  destruct (gateway_first w tok base key (config_path tenantId)
    (mkInit "PATCH" [("If-Match-Version", version_text config)]
       (json_stringify (selection_patch (groups_of config) routeGroupId models)))
    (after s [q]) Hc) as [rest Hr].
  exists rest. etransitivity; [exact Hr|]. cbn [sent after]. by rewrite <- app_assoc.
Qed.

(** The groups a selection patch writes. *)
Definition written_groups (patch : js) : js := opt_get (opt_get patch "selection") "route_groups".

Lemma selection_patch_group (m : obj) (routeGroupId : string) (models : js) (k : string) :
  List.NoDup (map fst m) ->
  opt_get (written_groups (selection_patch (JObj m) routeGroupId models)) k =
  if String.eqb k routeGroupId then models else opt_get (JObj m) k.
Proof.
  intros Hm. change (opt_get (JObj (obj_set routeGroupId models (obj_spread [] m))) k =
    if String.eqb k routeGroupId then models else opt_get (JObj m) k).
  cbn [opt_get]. destruct (String.eqb_spec k routeGroupId) as [->|Hk].
  - by rewrite obj_get_set_eq.
  - rewrite obj_get_set_ne by congruence. rewrite obj_get_spread by done.
    by destruct (obj_get k m).
Qed.

(** ** Bedrock models *)

Lemma patch_bedrock_runs (w : World) (s : State) (body result : js) (t base key : string) :
  configured w (Some t) base key -> is_str (opt_get body "provider") "bedrock" = true ->
  bedrock_pid body <> "" -> nullish (opt_get result "version") = false ->
  nullish result = false ->
  exists patch rest s',
    buildAdminModelPatchPayload (JObj [("provider_model_id", JStr (bedrock_pid body))]) = Some patch /\
    patch_bedrock body result t w s = (Ok tt, s') /\
    sent s' = (sent s ++ gateway_request base ("/admin/models/" ++ js_to_string (opt_get body "id"))
      (mkInit "PATCH" [("If-Match-Version", js_to_string (opt_get result "version"))]
         (json_stringify (JObj patch))) (credential_of (Some t) key) :: rest)%list.
Proof.
  intros Hc Hp Hpid Hv Hn. unfold patch_bedrock. rewrite Hp.
  destruct (buildAdminModelPatchPayload _) as [patch|] eqn:Eb; [|done].
  rewrite (yields_bind w _ _ _ s (yields_get w result "version" Hn)).
  rewrite Hv. assert (String.eqb (bedrock_pid body) "" = false) as -> by by apply String.eqb_neq.
  cbn [negb andb]. unfold updateModel. rewrite Eb.
  destruct (gateway_first w (Some t) base key ("/admin/models/" ++ js_to_string (opt_get body "id"))
    (mkInit "PATCH" [("If-Match-Version", js_to_string (opt_get result "version"))]
       (json_stringify (JObj patch))) s Hc) as [rest Hr].
  exists patch, rest. unfold try_catch, mbind, M_bind. rewrite send_versioned_eval by done.
  destruct (gatewayAdminFetch _ _ _ w s) as [[v|e] s']; exists s'; (split; [done|]);
    (split; [done|exact Hr]).
Qed.

(** ** Properties *)

(** C9: Updating a route group is a read and a write under the version that was read,
    and the write changes nothing but that group: the patch holds the new models
    under the group's name and, for every other name, exactly what the tenant's
    configuration had there. *)
Theorem route_group_update_keeps_others (w : World) (request : Request) (s : State)
    (t tenantId routeGroupId base key : string) (body config : js) (groups : obj) :
  truthy_env (request_token w request) = Some t ->
  truthy_env (query "tenantId" request) = Some tenantId ->
  json_parse (req_body request) = Some body -> nullish body = false ->
  configured w (Some t) base key ->
  serves w s (gateway_request base (config_path tenantId) get_init (credential_of (Some t) key))
    config ->
  opt_get (opt_get (opt_get config "config") "selection") "route_groups" = JObj groups ->
  exists patch rest,
    sent (route_group_PATCH routeGroupId request w s).2 =
      (sent s ++ gateway_request base (config_path tenantId) get_init (credential_of (Some t) key)
              :: gateway_request base (config_path tenantId)
                   (mkInit "PATCH" [("If-Match-Version", version_text config)] (json_stringify patch))
                   (credential_of (Some t) key)
              :: rest)%list /\
    forall k, opt_get (written_groups patch) k =
              if String.eqb k routeGroupId then js_or (opt_get body "models") (JArr [])
              else opt_get (JObj groups) k.
Proof.
  intros Ht Hq Hb Hn Hc Hs Hg.
  assert (Hcfg : nullish config = false) by (by destruct config).
  assert (Hgr : groups_of config = JObj groups) by (unfold groups_of; by rewrite Hg).
  assert (Hwf : List.NoDup (map fst groups)).
  { assert (wf (JObj groups)) as [Hwf _]; [|exact Hwf]. rewrite <- Hg.
    repeat apply wf_opt_get. exact (serves_wf _ _ _ _ Hs). }
  destruct (update_group_sent w s (Some t) base key tenantId routeGroupId
              (js_or (opt_get body "models") (JArr [])) config Hc Hcfg Hs) as [rest Hr].
  exists (selection_patch (groups_of config) routeGroupId (js_or (opt_get body "models") (JArr []))),
    rest.
  split; [|intros k; rewrite Hgr; by apply selection_patch_group].
  unfold route_group_PATCH. rewrite (admin_route_sent w request t _ Ht).
  unfold with_tenant_id. rewrite Hq.
  assert (Hj : req_json request w s = (Ok body, s)) by (unfold req_json, parse_text; by rewrite Hb).
  rewrite (bind_sent _ _ w s s body Hj).
  rewrite (yields_bind w _ _ _ s (yields_get w body "models" Hn)).
  rewrite spec_sent by (intros; apply sends_next_json). exact Hr.
Qed.

Definition demo_groups : js :=
  JObj [("version", js_of_Z 7);
        ("config", JObj [("selection", JObj [("route_groups",
           JObj [("fast", JArr [JStr "m1"]); ("cheap", JArr [JStr "m2"])])])])].
Definition demo_update : Request :=
  mkRequest [("authorization", "Bearer jwt")] "tenantId=acme"
    (json_str (JObj [("models", JArr [JStr "m3"])])).

Lemma route_group_update_keeps_others_witness :
  let w := demo_world [] (fun _ => reply_json 200 demo_groups) in
  exists patch rest,
    sent (route_group_PATCH "fast" demo_update w start).2 =
      (sent start ++
       gateway_request "http://gw:8000" (config_path "acme") get_init (credential_of (Some "jwt") "")
       :: gateway_request "http://gw:8000" (config_path "acme")
            (mkInit "PATCH" [("If-Match-Version", version_text demo_groups)] (json_stringify patch))
            (credential_of (Some "jwt") "")
       :: rest)%list /\
    forall k, opt_get (written_groups patch) k =
      if String.eqb k "fast"
      then js_or (opt_get (JObj [("models", JArr [JStr "m3"])]) "models") (JArr [])
      else opt_get (JObj [("fast", JArr [JStr "m1"]); ("cheap", JArr [JStr "m2"])]) k.
Proof.
  apply (route_group_update_keeps_others
           (demo_world [] (fun _ => reply_json 200 demo_groups)) demo_update start "jwt" "acme" "fast"
           "http://gw:8000" "" (JObj [("models", JArr [JStr "m3"])]) demo_groups
           [("fast", JArr [JStr "m1"]); ("cheap", JArr [JStr "m2"])]).
  1,2,3,4,7: vm_compute; reflexivity.
  - split; [reflexivity | reflexivity | left; reflexivity].
  - exists (mkHttpResponse 200 "" [] (Some (json_str demo_groups))).
    split; [reflexivity|]. split; [reflexivity|]. split; [discriminate|]. vm_compute. reflexivity.
Defined.

(** Creating a Bedrock model succeeds once the gateway has created it: the
    provider's model id is patched in afterwards under the version of the new
    configuration, and whatever comes of that patch, the answer is 201 with the
    created model. *)
Theorem bedrock_create_answers_201 (w : World) (request : Request) (s : State)
    (t base key : string) (body config result : js) :
  let cred := credential_of (Some t) key in
  let read := gateway_request base "/admin/config/global" get_init cred in
  let create := gateway_request base "/admin/models"
                  (mkInit "POST" [("If-Match-Version", version_text config)] (json_stringify body))
                  cred in
  truthy_env (request_token w request) = Some t ->
  json_parse (req_body request) = Some body -> truthy (opt_get body "id") = true ->
  is_str (opt_get body "provider") "bedrock" = true -> bedrock_pid body <> "" ->
  configured w (Some t) base key -> nullish config = false ->
  serves w s read config -> serves w (after s [read]) create result ->
  nullish (opt_get result "version") = false ->
  exists patch rest s',
    models_POST request w s = (Ok (mkResponse 201 (BodyJson result) []), s') /\
    sent s' = (sent s ++ read :: create ::
      gateway_request base ("/admin/models/" ++ js_to_string (opt_get body "id"))
        (mkInit "PATCH" [("If-Match-Version", js_to_string (opt_get result "version"))]
           (json_stringify (JObj patch))) cred :: rest)%list.
Proof.
  intros cred read create Ht Hb Hid Hp Hpid Hc Hcfg Hr Hcr Hv.
  assert (Hres : nullish result = false) by (by destruct result).
  assert (Hbody : nullish body = false) by (by destruct body).
  assert (Hpt : truthy (opt_get body "provider") = true).
  { destruct (opt_get body "provider") as [| | | |p| |]; try done. cbn in Hp |- *.
    apply String.eqb_eq in Hp as ->. done. }
  destruct (patch_bedrock_runs w (after s [read; create]) body result t base key Hc Hp Hpid Hv Hres)
    as (patch & rest & s' & _ & Hpb & Hs').
  exists patch, rest, s'. split.
  2: { rewrite Hs'. cbn [sent after]. by rewrite <- app_assoc. }
  unfold models_POST. apply (admin_route_ok w request t _ Ht).
  assert (Hj : req_json request w s = (Ok body, s)) by (unfold req_json, parse_text; by rewrite Hb).
  rewrite (bind_run _ _ w s s body Hj).
  rewrite (yields_bind w _ _ _ s (yields_get w body "id" Hbody)), Hid, Hpt. cbn [negb andb].
  rewrite (bind_run _ _ w s (after s [read]) config)
    by (by apply (gateway_ok w (Some t) base key "/admin/config/global" get_init s config Hc)).
  rewrite (yields_bind w _ _ _ _ (yields_version w config Hcfg)).
  rewrite (bind_run _ _ w _ (after s [read; create]) result).
  - by rewrite (bind_run _ _ w _ s' tt Hpb); destruct result.
  - unfold createModel. rewrite send_versioned_eval by apply version_defined.
    etransitivity;
      [exact (gateway_ok w (Some t) base key "/admin/models" _ (after s [read]) result Hc Hcr)|].
    unfold after. cbn [sent ticks]. by rewrite <- app_assoc.
Qed.

Definition demo_model : js :=
  JObj [("id", JStr "claude"); ("provider", JStr "bedrock"); ("version", js_of_Z 4)].
Definition demo_create : Request :=
  mkRequest [("authorization", "Bearer jwt")] "" (json_str demo_model).

Lemma bedrock_create_answers_201_witness :
  let w := demo_world [] (fun r => if String.eqb (http_method r) "PATCH" then reply 500 "no"
                                   else reply_json 200 demo_model) in
  exists patch rest s',
    models_POST demo_create w start = (Ok (mkResponse 201 (BodyJson demo_model) []), s') /\
    sent s' =
      (sent start ++
       gateway_request "http://gw:8000" "/admin/config/global" get_init (credential_of (Some "jwt") "")
       :: gateway_request "http://gw:8000" "/admin/models"
            (mkInit "POST" [("If-Match-Version", version_text demo_model)]
               (json_stringify demo_model)) (credential_of (Some "jwt") "")
       :: gateway_request "http://gw:8000"
            ("/admin/models/" ++ js_to_string (opt_get demo_model "id"))
            (mkInit "PATCH" [("If-Match-Version", js_to_string (opt_get demo_model "version"))]
               (json_stringify (JObj patch))) (credential_of (Some "jwt") "")
       :: rest)%list.
Proof.
  apply (bedrock_create_answers_201
           (demo_world [] (fun r => if String.eqb (http_method r) "PATCH" then reply 500 "no"
                                    else reply_json 200 demo_model)) demo_create start
           "jwt" "http://gw:8000" "" demo_model demo_model demo_model);
    [vm_compute; reflexivity | vm_compute; reflexivity | vm_compute; reflexivity
    | vm_compute; reflexivity | vm_compute; discriminate | | reflexivity | |
    | vm_compute; reflexivity].
  - split; [reflexivity | reflexivity | left; reflexivity].
  - exists (mkHttpResponse 200 "" [] (Some (json_str demo_model))).
    split; [reflexivity|]. split; [reflexivity|]. split; [discriminate|]. vm_compute. reflexivity.
  - exists (mkHttpResponse 200 "" [] (Some (json_str demo_model))).
    split; [reflexivity|]. split; [reflexivity|]. split; [discriminate|]. vm_compute. reflexivity.
Defined.
