(* ===== verification/BudgetsApi.v ===== *)
(** * The budget routes

    src/frontend/src/app/api/budgets: the budgets of the gateway, and the page of
    tenant budgets, which is assembled here from the configuration and the budget
    status of every tenant the caller may read. *)

From S2P Require Import Prelude JsNumber JsText JsValue Json Effects.
From S2P Require Import ConfigPatch GatewayClient GatewayFacts Routes ModelsApi.
Import ModelPatch.
Local Open Scope string_scope.

(** ** budgets/route.ts, budgets/overview/route.ts, budgets/[budgetId]/route.ts *)

Definition budgets_GET (request : Request) : M NextResponse :=
  admin_route request "Failed to fetch budgets" (fun token =>
    result ← gatewayAdminFetch "/admin/budgets" get_init (Some token);
    d ← data_or_empty result;
    next_json (JObj [("data", d)])).

Definition budgets_POST (request : Request) : M NextResponse :=
  admin_route request "Failed to create budget" (fun token =>
    body ← req_json request;
    tenant_id ← get body "tenant_id";
    if (negb (truthy tenant_id) || negb (truthy (opt_get body "name"))
        || negb (truthy (opt_get body "limit_usd")) || negb (truthy (opt_get body "window_hours"))
        || is_undefined (opt_get body "alert_threshold"))%bool
    then bad_request "Missing required fields: tenant_id, name, limit_usd, window_hours, alert_threshold"
    else
      result ← gatewayAdminFetch "/admin/budgets" (send "POST" (Some body)) (Some token);
      next_json_status result 201).

Definition budgets_overview_GET (request : Request) : M NextResponse :=
  admin_route request "Failed to fetch budget overview" (fun token =>
    result ← gatewayAdminFetch "/admin/budgets/overview" get_init (Some token);
    next_json result).

Definition budget_GET (budgetId : string) (request : Request) : M NextResponse :=
  admin_route request "Failed to fetch budget" (fun token =>
    result ← gatewayAdminFetch ("/admin/budgets/" ++ budgetId) get_init (Some token);
    next_json result).

Definition budget_PATCH (budgetId : string) (request : Request) : M NextResponse :=
  admin_route request "Failed to update budget" (fun token =>
    body ← req_json request;
    result ← gatewayAdminFetch ("/admin/budgets/" ++ budgetId) (send "PATCH" (Some body))
               (Some token);
    next_json result).

Definition budget_DELETE (budgetId : string) (request : Request) : M NextResponse :=
  admin_route request "Failed to delete budget" (fun token =>
    _ ← gatewayAdminFetch ("/admin/budgets/" ++ budgetId) (send "DELETE" None) (Some token);
    no_content 204).

(** ** budgets/tenants/route.ts *)

Inductive BudgetHealth := healthy | warning | exceeded | not_configured.

Definition health_text (h : BudgetHealth) : string :=
  match h with
  | healthy => "healthy"
  | warning => "warning"
  | exceeded => "exceeded"
  | not_configured => "not_configured"
  end.

(** 0.8 and 1.0 *)
Definition default_warn : js := JNum (decimal_to_num false 8 (-1)).
Definition default_hard : js := js_of_Z 1.

Definition budget_health (monthlyUsd pctEffective warnPct hardPct : js) : BudgetHealth :=
  if (negb (nullish monthlyUsd) && js_gt monthlyUsd (js_of_Z 0))%bool then
    if js_ge pctEffective hardPct then exceeded
    else if js_ge pctEffective warnPct then warning
    else healthy
  else not_configured.

Definition buildBudgetRow (tenant config status : js) : M js :=
  c ← get config "config";
  spend ← get status "spend_usd";
  tenant_id ← get tenant "tenant_id";
  let budgetConfig := opt_get c "budgets" in
  let enforcementConfig := opt_get c "budget_enforcement" in
  let thresholds := opt_get enforcementConfig "thresholds" in
  let monthlyUsd := js_coalesce (opt_get budgetConfig "monthly_usd") JNull in
  let currentSpend := js_coalesce spend (js_of_Z 0) in
  let reservedUsd := js_coalesce (opt_get status "reserved_usd") (js_of_Z 0) in
  let effectiveSpendUsd :=
    js_coalesce (opt_get status "effective_spend_usd") (js_add currentSpend reservedUsd) in
  let budgetUsd :=
    js_coalesce (opt_get status "budget_usd") (js_coalesce monthlyUsd (js_of_Z 0)) in
  let pct := js_coalesce (opt_get status "pct") (js_of_Z 0) in
  let pctEffective :=
    js_coalesce (opt_get status "pct_effective")
      (if js_gt budgetUsd (js_of_Z 0) then js_div effectiveSpendUsd budgetUsd else js_of_Z 0) in
  let warnPct := js_coalesce (opt_get thresholds "warn_pct")
                   (js_coalesce (opt_get status "warn_pct") default_warn) in
  let hardPct := js_coalesce (opt_get thresholds "hard_pct")
                   (js_coalesce (opt_get status "hard_pct") default_hard) in
  mret (JObj
    [("tenant_id", tenant_id); ("monthly_usd", monthlyUsd);
     ("timezone", js_coalesce (opt_get budgetConfig "timezone") JNull);
     ("enforcement_enabled", js_coalesce (opt_get enforcementConfig "enabled")
        (js_coalesce (opt_get status "enforcement_enabled") (JBool false)));
     ("enforcement_mode", js_coalesce (opt_get enforcementConfig "mode")
        (js_coalesce (opt_get status "enforcement_mode") JNull));
     ("warn_pct", warnPct); ("hard_pct", hardPct); ("current_spend_usd", currentSpend);
     ("reserved_usd", reservedUsd); ("effective_spend_usd", effectiveSpendUsd);
     ("remaining_usd", js_sub budgetUsd effectiveSpendUsd); ("pct", pct);
     ("pct_effective", pctEffective);
     ("status", JStr (health_text (budget_health monthlyUsd pctEffective warnPct hardPct)));
     ("version", opt_get config "version");
     ("enforcement_paused", js_coalesce (opt_get enforcementConfig "paused") (JBool false));
     ("enforcement_pause_until", js_coalesce (opt_get enforcementConfig "pause_until") JNull);
     ("override_limit_usd", js_coalesce (opt_get enforcementConfig "override_limit_usd") JNull);
     ("override_reason", js_coalesce (opt_get enforcementConfig "override_reason") JNull)]).

(** The row of one tenant: nothing when it cannot be read.  The catch clause names
    the tenant in its log line, so a null tenant rejects the whole page. *)
Definition tenant_row (token : string) (tenant : js) : M (option js) :=
  try_catch
    (id ← get tenant "tenant_id";
     '(config, status) ← promise_both (getTenantConfig (js_to_string id) (Some token))
                           (getTenantBudgetStatus (js_to_string id) (Some token));
     row ← buildBudgetRow tenant config status;
     mret (Some row))
    (fun _ => _ ← get tenant "tenant_id"; mret None).

(** The rows that are not null. *)
Definition present_rows (rows : list (option js)) : list js := omap (fun r => r) rows.

(** The guard stands before the try block. *)
Definition budgets_tenants_GET (request : Request) : M NextResponse :=
  with_admin request (fun token =>
    open_route "Failed to fetch tenant budgets"
      (tenantsResponse ← gatewayAdminFetch "/admin/tenants" get_init (Some token);
       d ← get tenantsResponse "data";
       tenants ← list_or_empty d;
       rows ← promise_all (tenant_row token) tenants;
       next_json (JObj [("data", JArr (present_rows rows))]))).

(** ** budgets/tenants/[tenantId]/route.ts *)

(** [if (v !== undefined) o[k] = v] *)
Definition put_defined (k : string) (v : js) (o : obj) : obj :=
  put (negb (is_undefined v)) k v o.
Definition any_defined (vs : list js) : bool := existsb (fun v => negb (is_undefined v)) vs.

Definition thresholds_patch (warn_pct hard_pct : js) : obj :=
  put_defined "hard_pct" hard_pct (put_defined "warn_pct" warn_pct []).

Definition enforcement_patch (body : js) : obj :=
  let f := opt_get body in
  let o := put_defined "mode" (f "enforcement_mode")
             (put_defined "enabled" (f "enforcement_enabled") []) in
  let o := put (any_defined [f "warn_pct"; f "hard_pct"]) "thresholds"
             (JObj (thresholds_patch (f "warn_pct") (f "hard_pct"))) o in
  put_defined "override_reason" (f "override_reason")
    (put_defined "override_limit_usd" (f "override_limit_usd")
      (put_defined "pause_until" (f "enforcement_pause_until")
        (put_defined "paused" (f "enforcement_paused") o))).

Definition budget_patch (body : js) : obj :=
  let f := opt_get body in
  let o := put (any_defined [f "monthly_usd"; f "timezone"]) "budgets"
             (JObj (put_defined "timezone" (f "timezone")
                      (put_defined "monthly_usd" (f "monthly_usd") []))) [] in
  put (any_defined [f "enforcement_enabled"; f "enforcement_mode"; f "warn_pct"; f "hard_pct";
                    f "enforcement_paused"; f "enforcement_pause_until"; f "override_limit_usd";
                    f "override_reason"])
    "budget_enforcement" (JObj (enforcement_patch body)) o.

Definition budget_tenant_PATCH (tenantId : string) (request : Request) : M NextResponse :=
  token_route request "Failed to update tenant budget" (fun token =>
    body ← req_json request;
    version ← get body "version";
    if is_undefined version then bad_request "Missing required field: version"
    else
      result ← patchTenantConfigGeneric tenantId (JObj (budget_patch body)) version token;
      next_json result).

(** ** Fields of a patch *)

Lemma field_put_ne (c : bool) (k k' : string) (v : js) (o : obj) :
  k <> k' -> opt_get (JObj (put c k v o)) k' = opt_get (JObj o) k'.
Proof. intros H. unfold put. destruct c; [|done]. cbn. by rewrite obj_get_set_ne. Qed.

Lemma field_put_eq (c : bool) (k : string) (v : js) (o : obj) :
  opt_get (JObj (put c k v o)) k = if c then v else opt_get (JObj o) k.
Proof. unfold put. destruct c; [|done]. cbn. by rewrite obj_get_set_eq. Qed.

Lemma field_defined_eq (k : string) (v : js) (o : obj) :
  opt_get (JObj o) k = JUndef -> opt_get (JObj (put_defined k v o)) k = v.
Proof. intros H. unfold put_defined. rewrite field_put_eq, H. by destruct v. Qed.

Lemma field_defined_ne (k k' : string) (v : js) (o : obj) :
  k <> k' -> opt_get (JObj (put_defined k v o)) k' = opt_get (JObj o) k'.
Proof. apply field_put_ne. Qed.

(** A nested object that is only there when one of its fields is: reading a field
    through it gives the field, also when the object is absent. *)
Lemma nested_field (vs : list js) (k f : string) (inner o : obj) (v : js) :
  In v vs -> opt_get (JObj o) k = JUndef -> opt_get (JObj inner) f = v ->
  opt_get (opt_get (JObj (put (any_defined vs) k (JObj inner) o)) k) f = v.
Proof.
  intros Hv Ho Hf. rewrite field_put_eq, Ho. destruct (any_defined vs) eqn:E; [done|].
  assert (is_undefined v = true); [|by destruct v].
  apply not_false_iff_true. intros Hd. apply not_true_iff_false in E. apply E.
  apply existsb_exists. exists v. by rewrite Hd.
Qed.

Ltac field_steps :=
  repeat first [ rewrite field_defined_ne by discriminate | rewrite field_put_ne by discriminate
               | rewrite field_defined_eq ];
  try reflexivity.

(** ** Rows of the page *)

Lemma settle_all_In {A B} (f : A -> M B) (l : list A) (w : World) (s s' : State)
    (os : list (outcome B)) (o : outcome B) :
  settle_all f l w s = (Ok os, s') -> In o os ->
  exists a s1, In a l /\ (f a w s1).1 = o.
Proof.
  revert s os. induction l as [|a l IH]; intros s os; cbn [settle_all]; [by intros [= <- <-]|].
  unfold mbind, M_bind, settle, mret, M_ret. destruct (f a w s) as [o1 s1] eqn:E1.
  destruct (settle_all f l w s1) as [[os'|e] s2] eqn:E2; [|done]. intros [= <- <-] [<-|Ho].
  - exists a, s. rewrite E1. split; [by left|done].
  - destruct (IH s1 os' E2 Ho) as (a' & s1' & Ha & He). exists a', s1'. split; [by right|done].
Qed.

Lemma collect_In {A} (os : list (outcome A)) (l : list A) (b : A) :
  collect os = Ok l -> In b l -> In (Ok b) os.
Proof.
  revert l. induction os as [|[a|e] os IH]; intros l; cbn; [by intros [= <-]| |done].
  destruct (collect os) as [l'|]; [|done]. intros [= <-] [<-|Hb]; [by left|right; by eapply IH].
Qed.

Lemma promise_all_In {A B} (f : A -> M B) (l : list A) (w : World) (s s' : State) (bs : list B)
    (b : B) :
  promise_all f l w s = (Ok bs, s') -> In b bs -> exists a s1, In a l /\ (f a w s1).1 = Ok b.
Proof.
  unfold promise_all, mbind, M_bind. destruct (settle_all f l w s) as [[os|e] s1] eqn:E; [|done].
  unfold of_outcome. destruct (collect os) as [bs'|] eqn:Ec; [|done]. intros [= <- <-] Hb.
  exact (settle_all_In f l w s s1 os (Ok b) E (collect_In os bs' b Ec Hb)).
Qed.

(** A row that comes from a tenant's own configuration and budget status, both of
    which the gateway gave out. *)
Definition backed (w : World) (token : string) (row : js) : Prop :=
  exists tenant config status s1 s2 s3,
    (getTenantConfig (js_to_string (opt_get tenant "tenant_id")) (Some token) w s1).1 = Ok config /\
    (getTenantBudgetStatus (js_to_string (opt_get tenant "tenant_id")) (Some token) w s2).1
      = Ok status /\
    (buildBudgetRow tenant config status w s3).1 = Ok row /\
    opt_get row "tenant_id" = opt_get tenant "tenant_id".

Lemma row_tenant (tenant config status row : js) (w : World) (s : State) :
  (buildBudgetRow tenant config status w s).1 = Ok row ->
  opt_get row "tenant_id" = opt_get tenant "tenant_id".
Proof.
  unfold buildBudgetRow, get, mbind, M_bind.
  destruct (nullish config); [done|]. destruct (nullish status); [done|].
  destruct (nullish tenant); [done|]. by intros [= <-].
Qed.

Lemma both_ok {A B} (a : M A) (b : M B) (w : World) (s s' : State) (x : A) (y : B) :
  promise_both a b w s = (Ok (x, y), s') ->
  (a w s).1 = Ok x /\ exists s1, (b w s1).1 = Ok y.
Proof.
  unfold promise_both, settle, mbind, M_bind.
  destruct (a w s) as [[u|e] s1] eqn:Ea; destruct (b w s1) as [[v|e'] s2] eqn:Eb; try done.
  intros [= <- <- <-]. split; [done|]. exists s1. by rewrite Eb.
Qed.

Lemma tenant_row_backed (w : World) (token : string) (tenant row : js) (s : State) :
  (tenant_row token tenant w s).1 = Ok (Some row) -> backed w token row.
Proof.
  unfold tenant_row, try_catch. unfold mbind at 1, M_bind at 1. unfold get at 1.
  destruct (nullish tenant) eqn:Hn.
  { unfold throw, mbind, M_bind, get. by rewrite Hn. }
  unfold mret at 1, M_ret at 1. unfold mbind at 1, M_bind at 1.
  destruct (promise_both _ _ w s) as [[[config status]|e] s1] eqn:Ep.
  2: { unfold mbind, M_bind, get. by rewrite Hn. }
  destruct (both_ok _ _ _ _ _ _ _ Ep) as [Ha [s2 Hb]].
  unfold mbind at 1, M_bind at 1.
  destruct (buildBudgetRow tenant config status w s1) as [[r|e] s3] eqn:Er.
  2: { unfold mbind, M_bind, get. by rewrite Hn. }
  intros [= <-]. assert (Hr : (buildBudgetRow tenant config status w s1).1 = Ok r) by (by rewrite Er).
  exists tenant, config, status, s, s2, s1. split_and!; try done. by eapply row_tenant.
Qed.

Lemma present_rows_In (rows : list (option js)) (r : js) : In r (present_rows rows) -> In (Some r) rows.
Proof.
  unfold present_rows. induction rows as [|[x|] rows IH]; cbn; [done| |auto].
  intros [->|H]; [by left|right; auto].
Qed.

(** The answer of a catch clause has no data. *)
Lemma catch_no_data {P : Prop} (t : string) (e : exn) (w : World) (s : State) (resp : NextResponse)
    (v : js) (rows : list js) :
  (gateway_catch t e w s).1 = Ok resp -> out_body resp = BodyJson v ->
  opt_get v "data" = JArr rows -> P.
Proof.
  unfold gateway_catch, next_json_status. intros H.
  destruct e; repeat (case_match; try done); injection H as <-; by intros [= <-].
Qed.

Lemma enforcement_thresholds (body : js) (f : string) (v : js) :
  In v [opt_get body "warn_pct"; opt_get body "hard_pct"] ->
  opt_get (JObj (thresholds_patch (opt_get body "warn_pct") (opt_get body "hard_pct"))) f = v ->
  opt_get (opt_get (opt_get (JObj (budget_patch body)) "budget_enforcement") "thresholds") f = v.
Proof.
  intros Hv Hf. unfold budget_patch. cbv zeta. rewrite field_put_eq.
  destruct (any_defined [opt_get body "enforcement_enabled"; _; _; _; _; _; _; _]) eqn:E.
  - unfold enforcement_patch. cbv zeta.
    repeat rewrite field_defined_ne by discriminate.
    apply nested_field; [done| |done]. by repeat rewrite field_defined_ne by discriminate.
  - rewrite field_put_ne by discriminate.
    assert (is_undefined v = true); [|by destruct v].
    apply not_false_iff_true. intros Hd. apply not_true_iff_false in E. apply E.
    apply existsb_exists. exists v. rewrite Hd. split; [cbn in *; tauto|done].
Qed.

(** ** Properties *)

(** The budget patch says what the body says: every one of the ten fields, read
    back from its place in the patch, is the field of the body, and a field the body
    leaves out is left out, also when its whole group is. *)
Theorem budget_patch_faithful (body : js) :
  let p := JObj (budget_patch body) in
  let budgets := opt_get p "budgets" in
  let enforcement := opt_get p "budget_enforcement" in
  opt_get budgets "monthly_usd" = opt_get body "monthly_usd" /\
  opt_get budgets "timezone" = opt_get body "timezone" /\
  opt_get enforcement "enabled" = opt_get body "enforcement_enabled" /\
  opt_get enforcement "mode" = opt_get body "enforcement_mode" /\
  opt_get (opt_get enforcement "thresholds") "warn_pct" = opt_get body "warn_pct" /\
  opt_get (opt_get enforcement "thresholds") "hard_pct" = opt_get body "hard_pct" /\
  opt_get enforcement "paused" = opt_get body "enforcement_paused" /\
  opt_get enforcement "pause_until" = opt_get body "enforcement_pause_until" /\
  opt_get enforcement "override_limit_usd" = opt_get body "override_limit_usd" /\
  opt_get enforcement "override_reason" = opt_get body "override_reason".
Proof.
  cbv zeta.
  assert (Hb : opt_get (JObj (budget_patch body)) "budgets" =
    opt_get (JObj (put (any_defined [opt_get body "monthly_usd"; opt_get body "timezone"]) "budgets"
      (JObj (put_defined "timezone" (opt_get body "timezone")
               (put_defined "monthly_usd" (opt_get body "monthly_usd") []))) [])) "budgets")
    by (unfold budget_patch; by rewrite field_put_ne).
  rewrite Hb. clear Hb.
  split_and!; [apply nested_field; [cbn; tauto|done|field_steps]..
              | | | | | | | |].
  1,2,5,6,7,8: unfold budget_patch; apply nested_field;
    [cbn; tauto|by rewrite field_put_ne|unfold enforcement_patch; cbv zeta; field_steps].
  1,2: apply enforcement_thresholds; [cbn; tauto|unfold thresholds_patch; field_steps].
Qed.

(** The page of tenant budgets invents no row: every row in the answer is the row
    of a tenant whose configuration and budget status the gateway both gave out to
    the caller, and carries that tenant's id. *)
Theorem budget_rows_backed (w : World) (request : Request) (s : State) (t : string)
    (resp : NextResponse) (v : js) (rows : list js) :
  truthy_env (request_token w request) = Some t ->
  (budgets_tenants_GET request w s).1 = Ok resp -> out_body resp = BodyJson v ->
  opt_get v "data" = JArr rows -> Forall (backed w t) rows.
Proof.
  intros Ht. unfold budgets_tenants_GET. rewrite (with_admin_run w request t Ht).
  unfold open_route, try_catch. unfold mbind at 1, M_bind at 1.
  destruct (gatewayAdminFetch _ _ _ w s) as [[resp1|e] s1]; [|by apply catch_no_data].
  unfold mbind at 1, M_bind at 1. destruct (get resp1 "data" w s1) as [[d|e] s2];
    [|by apply catch_no_data].
  unfold mbind at 1, M_bind at 1. destruct (list_or_empty d w s2) as [[ts|e] s3];
    [|by apply catch_no_data].
  unfold mbind at 1, M_bind at 1.
  destruct (promise_all (tenant_row t) ts w s3) as [[rs|e] s4] eqn:Ep; [|by apply catch_no_data].
  intros [= <-] [= <-]. cbn. intros [= <-]. apply List.Forall_forall. intros row Hrow.
  apply present_rows_In in Hrow.
  destruct (promise_all_In _ _ _ _ _ _ _ Ep Hrow) as (tenant & sx & _ & Hx).
  exact (tenant_row_backed w t tenant row sx Hx).
Qed.

Definition demo_page (r : HttpRequest) : outcome HttpResponse :=
  let url := http_url r in
  if String.eqb url "http://gw:8000/admin/tenants" then
    reply_json 200 (JObj [("data", JArr [JObj [("tenant_id", JStr "a")];
                                         JObj [("tenant_id", JStr "b")]])])
  else if str_includes "/b/" url then reply 403 "forbidden"
  else reply_json 200 (JObj [("version", js_of_Z 1)]).
Definition demo_caller : Request := mkRequest [("authorization", "Bearer jwt")] "" "".
Definition demo_rows : list js :=
  Eval vm_compute in
    match (budgets_tenants_GET demo_caller (demo_world [] demo_page) start).1 with
    | Ok r => match out_body r with BodyJson v => js_array (opt_get v "data") | _ => [] end
    | Throw _ => []
    end.

(** The tenant that is denied has no row. *)
Lemma budget_rows_backed_witness :
  Forall (backed (demo_world [] demo_page) "jwt") demo_rows /\
  map (fun r => opt_get r "tenant_id") demo_rows = [JStr "a"].
Proof.
  split; [|reflexivity].
  apply (budget_rows_backed (demo_world [] demo_page) demo_caller start "jwt"
           (mkResponse 200 (BodyJson (JObj [("data", JArr demo_rows)])) [])
           (JObj [("data", JArr demo_rows)]) demo_rows);
    [reflexivity | vm_compute; reflexivity | reflexivity | reflexivity].
Defined.
