(* ===== verification/TenantsApi.v ===== *)
(** * The tenant and provider routes

    src/frontend/src/app/api/tenants and api/providers.  The reads of a tenant stand
    behind [requireTenantAuth]; the writes and the provider routes take the token if
    there is one. *)

From S2P Require Import Prelude JsNumber JsText JsValue Json Effects ConfigPatch.
From S2P Require Import GatewayClient GatewayFacts Routes ModelsApi BudgetsApi.
Import ModelPatch ProviderPatch.
Local Open Scope string_scope.

(** ** tenants/route.ts *)

Definition tenants_GET (request : Request) : M NextResponse :=
  token_route request "Failed to fetch tenants" (fun token =>
    result ← getTenants token;
    d ← data_or_empty result;
    next_json d).

Definition environments : list string := ["DEV"; "STAGING"; "PROD"].

Definition tenants_POST (request : Request) : M NextResponse :=
  open_route "Failed to create tenant"
    (body ← req_json request;
     tenant_id ← get body "tenant_id";
     let environment := opt_get body "environment" in
     if negb (truthy tenant_id) then bad_request "tenant_id is required"
     else if negb (truthy environment
                   && existsb (String.eqb (js_to_string environment)) environments)
     then bad_request "environment is required"
     else
       token ← getAdminAuthToken request;
       result ← createTenant tenant_id (js_to_string environment) token;
       next_json_status result 201).

(** ** tenants/[tenantId] *)

Definition tenant_GET (tenantId : string) (request : Request) : M NextResponse :=
  tenant_route request "Failed to fetch tenant config" (fun token =>
    config ← getTenantConfig tenantId (Some token);
    next_json config).

Definition tenant_DELETE (tenantId : string) (request : Request) : M NextResponse :=
  tenant_route request "Failed to delete tenant" (fun token =>
    _ ← deleteTenant tenantId (Some token);
    no_content 204).

Definition tenant_api_keys_GET (tenantId : string) (request : Request) : M NextResponse :=
  tenant_route request "Failed to fetch tenant API keys" (fun token =>
    result ← getTenantApiKeys tenantId (Some token);
    next_json result).

Definition tenant_usage_GET (tenantId : string) (request : Request) : M NextResponse :=
  let month := truthy_env (query "month" request) in
  tenant_route request "Failed to fetch tenant usage" (fun token =>
    result ← getTenantUsage tenantId month (Some token);
    next_json result).

Definition tenant_budgets_status_GET (tenantId : string) (request : Request) : M NextResponse :=
  tenant_route request "Failed to fetch tenant budget status" (fun token =>
    data ← getTenantBudgetStatus tenantId (Some token);
    next_json data).

Definition tenant_budget_PATCH (tenantId : string) (request : Request) : M NextResponse :=
  open_route "Failed to update tenant budget"
    (body ← req_json request;
     version ← get body "version";
     if is_undefined version
     then bad_request "version is required for optimistic concurrency control"
     else
       let config := put_defined "timezone" (opt_get body "timezone")
                       (put_defined "monthly_usd" (opt_get body "monthly_usd") []) in
       token ← getAdminAuthToken request;
       result ← patchTenantConfig tenantId (JObj config) version token;
       next_json result).

Definition tenant_config_PATCH (tenantId : string) (request : Request) : M NextResponse :=
  open_route "Failed to update tenant config"
    (body ← req_json request;
     version ← get body "version";
     let patch := opt_get body "patch" in
     if is_undefined version
     then bad_request "version is required for optimistic concurrency control"
     else if negb (is_object patch) then bad_request "patch is required and must be an object"
     else
       token ← getAdminAuthToken request;
       result ← patchTenantConfigGeneric tenantId patch version token;
       next_json result).

(** The log line reads a property of the result, which fails on null. *)
Definition tenant_api_key_create_POST (tenantId : string) (request : Request) : M NextResponse :=
  open_route "Failed to create API key"
    (body ← req_json request;
     token ← getAdminAuthToken request;
     result ← createTenantApiKey tenantId body token;
     _ ← get result "api_key";
     next_json result).

Definition tenant_api_key_rotate_POST (tenantId keyId : string) (request : Request)
  : M NextResponse :=
  token_route request "Failed to rotate API key" (fun token =>
    result ← rotateTenantApiKey tenantId keyId token;
    next_json result).

Definition tenant_api_key_revoke_POST (tenantId keyId : string) (request : Request)
  : M NextResponse :=
  token_route request "Failed to revoke API key" (fun token =>
    result ← revokeTenantApiKey tenantId keyId token;
    next_json result).

Definition tenant_pii_test_POST (tenantId : string) (request : Request) : M NextResponse :=
  open_route "Failed to test PII connection"
    (body ← req_json request;
     let f := opt_get (js_or body (JObj [])) in
     if (negb (truthy (f "request_url")) || negb (truthy (f "response_url"))
         || negb (is_number (f "timeout_ms")))%bool
     then bad_request "Missing or invalid payload"
     else
       token ← getAdminAuthToken request;
       result ← testTenantPiiConnection tenantId
                  (JObj (put (truthy (f "api_key")) "api_key" (f "api_key")
                    [("request_url", f "request_url"); ("response_url", f "response_url");
                     ("timeout_ms", f "timeout_ms")])) token;
       next_json result).

(** ** providers *)

Definition providers_GET (request : Request) : M NextResponse :=
  token_route request "Failed to fetch providers" (fun token =>
    result ← getProviders token;
    d ← data_or_empty result;
    next_json (JObj [("data", d)])).

(** The version of the global configuration, 1 when it cannot be read. *)
Definition provider_version (token : option string) : M js :=
  try_catch
    (gc ← getGlobalConfig token;
     mret (match opt_get gc "version" with JNum n => JNum n | _ => js_of_Z 1 end))
    (fun _ => mret (js_of_Z 1)).

Definition provider_GET (providerId : string) (request : Request) : M NextResponse :=
  token_route request "Failed to fetch provider" (fun token =>
    result ← getProviders token;
    d ← get result "data";
    providers ← list_or_empty d;
    found ← find_elem (fun p => i ← get p "id"; mret (is_str i providerId)) providers;
    match found with
    | None => next_json_status (error_body ("Provider " ++ providerId ++ " not found")) 404
    | Some provider =>
        version ← provider_version token;
        next_json (JObj [("data", provider); ("version", version)])
    end).

(** The fields the route takes out of a configuration patch. *)
Definition credential_fields : list string := ["credentials"; "api_key"; "api_secret"].
Definition safe_config (config : js) : obj :=
  fold_left (fun o k => obj_del k o) credential_fields (obj_spread [] (entries config)).

Definition provider_PATCH (providerId : string) (request : Request) : M NextResponse :=
  open_route "Failed to update provider"
    (body ← req_json request;
     config ← get body "config";
     let version := opt_get body "version" in
     if negb (truthy config && is_number version)
     then bad_request "Missing required fields: config and version"
     else
       token ← getAdminAuthToken request;
       result ← patchProviderConfig providerId (safe_config config) version token;
       next_json result).

Definition credentials_updated (result : js) : M NextResponse :=
  v ← get result "version";
  next_json (JObj [("message", JStr "Credentials updated successfully");
                   ("has_api_key", JBool true); ("api_key_source", JStr "global_config");
                   ("version", v)]).

(** The three AWS fields, trimmed, or the 400 for the first one that is missing. *)
Definition aws_credentials (credentials : js) : string + js :=
  let ak := trimmed (opt_get credentials "aws_access_key_id") in
  let sk := trimmed (opt_get credentials "aws_secret_access_key") in
  let region := trimmed (opt_get credentials "aws_region") in
  if String.eqb ak "" then inl "AWS Access Key ID is required"
  else if String.eqb sk "" then inl "AWS Secret Access Key is required"
  else if String.eqb region "" then inl "AWS Region is required"
  else inr (JObj [("aws_access_key_id", JStr ak); ("aws_secret_access_key", JStr sk);
                  ("aws_region", JStr region)]).

(** [!credentials.api_key || credentials.api_key.trim() === '']: a TypeError on a
    key that is not a text. *)
Definition api_key_missing (credentials : js) : M bool :=
  match opt_get credentials "api_key" with
  | JStr k => mret (String.eqb (str_trim k) "")
  | v => if truthy v then throw (JsError "trim is not a function") else mret true
  end.

Definition provider_credentials_POST (providerId : string) (request : Request) : M NextResponse :=
  open_route "Failed to update credentials"
    (body ← req_json request;
     credentials ← get body "credentials";
     let version := opt_get body "version" in
     if negb (truthy credentials && is_number version)
     then bad_request "Missing required fields: credentials and version"
     else if String.eqb providerId "bedrock" then
       match aws_credentials credentials with
       | inl text => bad_request text
       | inr aws =>
           token ← getAdminAuthToken request;
           result ← updateProviderCredentials providerId aws version token;
           credentials_updated result
       end
     else
       missing ← api_key_missing credentials;
       if (missing : bool) then bad_request "API key is required"
       else
         token ← getAdminAuthToken request;
         result ← updateProviderCredentials providerId credentials version token;
         credentials_updated result).

(** ** What a provider patch keeps *)

Lemma get_fold_del (ks : list string) (k : string) (m : obj) :
  obj_get k (fold_left (fun o x => obj_del x o) ks m) =
  if existsb (String.eqb k) ks then None else obj_get k m.
Proof.
  revert m. induction ks as [|x ks IH]; intros m; cbn; [done|]. rewrite IH.
  destruct (String.eqb_spec k x) as [->|Hne]; cbn.
  - rewrite obj_get_del_eq. by destruct (existsb _ _).
  - by rewrite obj_get_del_ne by congruence.
Qed.

Lemma safe_config_get (m : obj) (k : string) :
  List.NoDup (map fst m) ->
  obj_get k (safe_config (JObj m)) =
  if existsb (String.eqb k) credential_fields then None else obj_get k m.
Proof.
  intros H. unfold safe_config. rewrite get_fold_del. cbn [entries].
  rewrite obj_get_spread by done. by destruct (obj_get k m).
Qed.

Lemma safe_config_NoDup (config : js) : List.NoDup (map fst (safe_config config)).
Proof.
  unfold safe_config. generalize credential_fields as ks.
  assert (H : List.NoDup (map fst (obj_spread [] (entries config)))).
  { apply obj_spread_NoDup. constructor. }
  revert H. generalize (obj_spread [] (entries config)) as m.
  intros m H ks. revert m H. induction ks as [|k ks IH]; intros m H; cbn; [done|].
  by apply IH, obj_del_NoDup.
Qed.

(** The fields of the patch the gateway gets. *)
Lemma provider_fields (m : obj) (p : string) :
  List.NoDup (map fst m) -> SNAKE_TO_PASCAL p = None -> alias_of p = None ->
  obj_get p (canonicalizeProviderPatchForGlobalConfig (safe_config (JObj m))) =
  if existsb (String.eqb p) credential_fields then None else defined (obj_get p m).
Proof.
  intros Hm Hs Ha. rewrite canonical_get by apply safe_config_NoDup.
  unfold canonical_field. rewrite Hs, Ha, safe_config_get by done.
  destruct (existsb _ _); [done|]. by destruct (defined (obj_get p m)).
Qed.

(** ** Properties *)

(** A provider's configuration patch never carries the three credential fields
    (credentials, api_key, api_secret), and carries every other field as it was
    given: whatever the route sends as a PATCH is the provider's patch with exactly
    those fields.  Credentials under any other name, such as
    aws_secret_access_key, are among the fields that pass. *)
Theorem provider_patch_fields (w : World) (request : Request) (providerId : string) (body : js)
    (m : obj) :
  json_parse (req_body request) = Some body -> opt_get body "config" = JObj m ->
  sends w (fun r => http_method r = "PATCH" ->
             exists o, http_body r = json_stringify (providers_patch providerId o) /\
               forall p, SNAKE_TO_PASCAL p = None -> alias_of p = None ->
                 obj_get p o = if existsb (String.eqb p) credential_fields then None
                               else defined (obj_get p m))
    (provider_PATCH providerId request).
Proof.
  intros Hb Hc. assert (Hn : nullish body = false) by (by destruct body).
  assert (Hm : List.NoDup (map fst m)).
  { assert (wf (JObj m)) as [Hm _]; [|exact Hm]. rewrite <- Hc.
    by apply wf_opt_get, (json_parse_wf (req_body request)). }
  apply sends_try; [|intros; apply sends_gateway_catch].
  apply (sends_yields w _ _ body); [intros s; unfold req_json, parse_text; by rewrite Hb|].
  apply (sends_yields w _ _ _ _ (yields_get w body "config" Hn)). rewrite Hc. cbv zeta.
  destruct (negb _); [apply sends_next_json_status|].
  apply sends_bind; [apply sends_token|]. intros tok.
  apply sends_bind; [|intros; apply sends_next_json].
  unfold patchProviderConfig, send_versioned. apply sends_bind; [apply sends_to_string|]. intros v.
  apply sends_gateway; [|intros _; split; [done|]]; intros; eexists; (split; [reflexivity|]);
    intros p Hs Ha; by apply provider_fields.
Qed.

Definition demo_config : obj :=
  [("base_url", JStr "http://x"); ("api_key", JStr "k"); ("aws_secret_access_key", JStr "s")].
Definition demo_patch : Request :=
  posting (JObj [("config", JObj demo_config); ("version", js_of_Z 1)]).

(** The sample patch is sent, without its key and with its AWS secret. *)
Lemma provider_patch_fields_witness :
  let w := demo_world [] (fun _ => reply 200 "{}") in
  sends w (fun r => http_method r = "PATCH" ->
             exists o, http_body r = json_stringify (providers_patch "p" o) /\
               forall p, SNAKE_TO_PASCAL p = None -> alias_of p = None ->
                 obj_get p o = if existsb (String.eqb p) credential_fields then None
                               else defined (obj_get p demo_config))
    (provider_PATCH "p" demo_patch) /\
  map http_body (sent (provider_PATCH "p" demo_patch w start).2) =
    [json_stringify (providers_patch "p"
       [("BaseURL", JStr "http://x"); ("aws_secret_access_key", JStr "s")])].
Proof.
  split.
  - apply (provider_patch_fields (demo_world [] (fun _ => reply 200 "{}")) demo_patch "p"
             (JObj [("config", JObj demo_config); ("version", js_of_Z 1)]) demo_config);
      vm_compute; reflexivity.
  - vm_compute. reflexivity.
Defined.
