(* ===== verification/ConfigApi.v ===== *)
(** * Configuration, health, audit log and connection tests

    src/frontend/src/app/api: global-config, admin/config, admin/models, dashboard,
    system-health, health, version, logs/audit and settings. *)

From S2P Require Import Prelude JsNumber JsText JsValue Json Effects.
From S2P Require Import ConfigPatch GatewayClient GatewayFacts Routes ModelsApi.
Import ModelPatch.
Local Open Scope string_scope.

(** ** Query strings *)

(** [if (v) qs.set(k, v)] *)
Definition set_given (k : string) (v : option string) (qs : list (string * string))
  : list (string * string) :=
  match truthy_env v with Some t => params_set k t qs | None => qs end.

(** The parameters that are copied when the caller gives them. *)
Definition copy_given (ks : list string) (request : Request) (qs : list (string * string))
  : list (string * string) :=
  fold_left (fun acc k => set_given k (query k request) acc) ks qs.

(** [qs.set('limit', limit); qs.set('offset', offset)] with the usual defaults *)
Definition set_page (request : Request) (qs : list (string * string)) : list (string * string) :=
  params_set "offset" (query_or "offset" "0" request)
    (params_set "limit" (query_or "limit" "50" request) qs).

(** A read of the gateway whose body is passed on. *)
Definition forward (path : string) (token : option string) : M NextResponse :=
  data ← gatewayAdminFetch path get_init token; next_json data.

(** ** global-config *)

Definition global_config_GET (request : Request) : M NextResponse :=
  token_route request "Failed to fetch global config" (fun token =>
    result ← getGlobalConfig token;
    next_json result).

Definition global_config_PATCH (request : Request) : M NextResponse :=
  open_route "Failed to update global config"
    (body ← req_json request;
     config ← get body "config";
     let version := opt_get body "version" in
     if negb (truthy config && is_number version)
     then bad_request "Missing required fields: config and version"
     else
       token ← getAdminAuthToken request;
       result ← patchGlobalConfig config version token;
       next_json result).

Definition global_config_changes_GET (request : Request) : M NextResponse :=
  let limit := parse_int (query_or "limit" "50" request) in
  let offset := parse_int (query_or "offset" "0" request) in
  token_route request "Failed to fetch global config changes" (fun token =>
    result ← getGlobalConfigChanges limit offset token;
    next_json result).

(** ** admin *)

Definition admin_models_GET (request : Request) : M NextResponse :=
  token_route request "Failed to fetch models" (forward "/admin/models").

Definition config_diff_GET (request : Request) : M NextResponse :=
  admin_route request "Failed to fetch config diff" (fun token =>
    match truthy_env (query "from_version" request), truthy_env (query "to_version" request) with
    | Some fromVersion, Some toVersion =>
        let qs := params_set "to_version" toVersion (params_set "from_version" fromVersion
                    (set_given "tenant_id" (query "tenant_id" request)
                      [("scope", query_or "scope" "global" request)])) in
        forward ("/admin/config/diff?" ++ params_to_string qs) (Some token)
    | _, _ => bad_request "from_version and to_version are required"
    end).

(** The catch clause of the history routes. *)
Definition typed_catch (fallback : string) (e : exn) : M NextResponse :=
  match e with
  | GatewayAdminError m code details =>
      next_json_status
        (JObj [("error", JObj [("message", JStr m);
                               ("type", js_or (opt_get details "type") (JStr "gateway_error"))])])
        (status_or_500 code)
  | JsError _ =>
      next_json_status
        (JObj [("error", JObj [("message", JStr fallback); ("type", JStr "internal_error")])]) 500
  end.

Definition config_history_GET (request : Request) : M NextResponse :=
  try_catch
    (token ← getAdminAuthToken request;
     let qs := set_page request (copy_given ["scope"; "tenant_id"] request []) in
     forward ("/admin/config/history?" ++ params_to_string qs) token)
    (typed_catch "Failed to fetch config history").

Definition config_versions_GET (request : Request) : M NextResponse :=
  try_catch
    (token ← getAdminAuthToken request;
     let qs := set_page request
                 (set_given "tenant_id" (query "tenant_id" request)
                    [("scope", query_or "scope" "global" request)]) in
     forward ("/admin/config/versions?" ++ params_to_string qs) token)
    (typed_catch "Failed to fetch config versions").

(** [error.statusCode ?? 500] *)
Definition code_or_500 (o : option Z) : Z := match o with Some z => z | None => 500%Z end.
Definition js_of_code (o : option Z) : js := match o with Some z => js_of_Z z | None => JUndef end.

Definition apply_catch (e : exn) : M NextResponse :=
  match e with
  | GatewayAdminError m code _ =>
      next_json_status (JObj [("error", JStr m); ("status", js_of_code code)]) (code_or_500 code)
  | JsError _ => next_json_status (error_body "Unexpected error") 500
  end.

(** JSON texts can denote an infinite number, which the second test refuses. *)
Definition config_apply_POST (request : Request) : M NextResponse :=
  try_catch
    (with_admin request (fun token =>
       body ← req_json_or_empty request;
       match opt_get body "version" with
       | JNum n =>
           if num_is_finite n then
             data ← gatewayAdminFetch "/admin/config/global/apply"
                      (send "POST" (Some (JObj [("version", JNum n)]))) (Some token);
             next_json data
           else bad_request "version (number) is required"
       | _ => bad_request "version (number) is required"
       end))
    apply_catch.

(** ** Health, version and dashboard *)

Definition health_GET : M NextResponse := next_json (JObj [("status", JStr "ok")]).

Definition message_body (m : string) : js := JObj [("error", JObj [("message", JStr m)])].

Definition system_health_GET (request : Request) : M NextResponse :=
  try_catch
    (with_admin request (fun token =>
       result ← getSystemHealth (Some token);
       next_json result))
    (fun e => match e with
              | GatewayAdminError m code _ => next_json_status (message_body m) (status_or_500 code)
              | JsError _ => next_json_status (message_body "Health check failed") 500
              end).

(** The line breaks are \n or \r\n; a \r that is left is trimmed with the line. *)
Definition property_of (rawLine : string) : option (string * string) :=
  let line := str_trim rawLine in
  if (String.eqb line "" || starts_with "#" line)%bool then None
  else match split_once "=" line with
       | (key, Some value) =>
           if String.eqb (str_trim key) "" then None else Some (str_trim key, str_trim value)
       | (_, None) => None
       end.

Definition parseProperties (content : string) : list (string * string) :=
  fold_left (fun out line => match property_of line with
                             | Some (k, v) => params_set k v out
                             | None => out
                             end) (str_split (byte 10) content) [].

(** The file public/version/version.txt is an argument: [None] when it cannot be
    read. *)
Definition version_GET (file : option string) : M NextResponse :=
  let prop k := match file with
                | Some bytes => js_of_option
                                  (truthy_env (params_get k (parseProperties (utf8_decode bytes))))
                | None => JNull
                end in
  next_json (JObj [("version", prop "version"); ("details", prop "details")]).

(** The seven reads of the dashboard, none of which is given a token. *)
Definition dashboard_reads : list (M js) :=
  [getVersion; getTenants None; getModels None; getProviders None; getRouteGroups; getFeatures;
   getModelBenchmarks (num_of_Z 24) None].

Definition dashboard_GET : M NextResponse :=
  open_route "Failed to fetch dashboard data"
    (all ← promise_all (fun m => m) dashboard_reads;
     match all with
     | [version; tenants; models; providers; routeGroups; features; benchmarks] =>
         t ← data_or_empty tenants;
         m ← data_or_empty models;
         p ← data_or_empty providers;
         r ← data_or_empty routeGroups;
         b ← data_or_empty benchmarks;
         next_json (JObj [("version", version); ("tenants", t); ("models", m); ("providers", p);
                          ("routeGroups", r); ("features", features); ("benchmarks", b)])
     | _ => throw (JsError "seven reads")
     end).

(** ** logs/audit *)

(** [Math.min(200, Math.max(1, Number.isFinite(x) ? x : 50))] and the like *)
Definition finite_or (x d : num) : num := if num_is_finite x then x else d.
Definition audit_limit (request : Request) : num :=
  num_min (num_of_Z 200)
    (num_max (num_of_Z 1)
       (finite_or (number_of_string (query_or "limit" "50" request)) (num_of_Z 50))).
Definition audit_offset (request : Request) : num :=
  num_max (num_of_Z 0)
    (finite_or (number_of_string (query_or "offset" "0" request)) (num_of_Z 0)).

Definition audit_query (request : Request) : list (string * string) :=
  params_set "offset" (num_to_string (audit_offset request))
    (params_set "limit" (num_to_string (audit_limit request))
       (copy_given ["from"; "to"; "tenant_id"; "jwt_sub"; "status"] request [])).

Definition audit_GET (request : Request) : M NextResponse :=
  token_route request "Failed to fetch audit logs" (fun token =>
    data ← gatewayAdminFetch ("/admin/audit/requests?" ++ params_to_string (audit_query request))
             get_init token;
    let rows := js_array (opt_get data "data") in
    let count := num_of_Z (Z.of_nat (List.length rows)) in
    let pagination := js_coalesce (opt_get data "pagination")
      (JObj [("limit", JNum (audit_limit request)); ("offset", JNum (audit_offset request));
             ("returned", JNum count); ("total", JNum (num_add (audit_offset request) count))]) in
    next_json (JObj [("data", JArr rows); ("pagination", pagination)])).

(** The CSV exports: the body of the upstream answer, under the caller's token. *)
Definition csv_export (request : Request) (path filename fallback : string) : M NextResponse :=
  with_admin request (fun token =>
    e ← ask env;
    match truthy_env (GATEWAY_BASE_URL e) with
    | None => next_json_status (error_body "Missing GATEWAY_BASE_URL") 500
    | Some baseUrl =>
        try_catch
          (resp ← fetch (mkHttpRequest "GET" (baseUrl ++ path) [bearer token] None);
           text ← res_text resp;
           if negb (res_ok resp) then
             next_json_status
               (JObj [("error", JStr ("Upstream error (" ++ Z_to_string (res_status resp) ++ ")"));
                      ("details", JStr text)]) (res_status resp)
           else
             mret (mkResponse 200 (BodyRaw text)
               [("content-type", str_coalesce (params_get "content-type" (res_headers resp))
                                   "text/csv; charset=utf-8");
                ("content-disposition",
                 str_coalesce (params_get "content-disposition" (res_headers resp))
                   ("attachment; filename=" ++ json_quote filename));
                ("cache-control", "no-store")]))
          (fun _ => next_json_status (error_body fallback) 500)
    end).

Definition audit_export_GET (request : Request) : M NextResponse :=
  csv_export request
    ("/admin/audit/requests/export.csv?" ++ params_to_string (searchParams request))
    "audit_export.csv" "Failed to fetch audit export".

(** ** settings *)

(** [/^\d+$/.test(s)] and [/^https?:\/\//i.test(s)] *)
Definition all_digits (s : string) : bool := negb (String.eqb s "") && str_all is_digit s.
Definition has_scheme (s : string) : bool := absolute_url s.

Definition normalizeEndpoint (raw : string) : string :=
  let value := strip_trailing "/" (str_trim raw) in
  if String.eqb value "" then ""
  else if all_digits value then "http://localhost:" ++ value
  else if (starts_with "localhost:" value || starts_with "127.0.0.1:" value)%bool
  then "http://" ++ value
  else if negb (has_scheme value) then "http://" ++ value
  else value.

Definition not_ok (text : string) : list (string * js) :=
  [("ok", JBool false); ("error", JStr text)].

Definition test_connection_GET (request : Request) : M NextResponse :=
  try_catch
    (match truthy_env (query "endpoint" request) with
     | None => next_json_status (JObj (not_ok "Missing endpoint")) 400
     | Some endpoint =>
         let normalized := normalizeEndpoint endpoint in
         if String.eqb normalized "" then next_json_status (JObj (not_ok "Invalid endpoint")) 400
         else
           t0 ← date_now;
           try_catch
             (res ← fetch (mkHttpRequest "GET" (normalized ++ "/healthz") [] None);
              t1 ← date_now;
              let duration := ("responseTimeMs", js_of_Z (t1 - t0)) in
              if res_ok res then next_json (JObj [("ok", JBool true); duration])
              else next_json_status
                     (JObj (not_ok ("HTTP " ++ Z_to_string (res_status res)) ++ [duration])%list) 502)
             (fun err =>
                t1 ← date_now;
                next_json_status
                  (JObj (not_ok (exn_message err) ++ [("responseTimeMs", js_of_Z (t1 - t0))])%list)
                  502)
     end)
    (fun _ => next_json_status (JObj (not_ok "Invalid request")) 400).

(** A number as the status of a response: the conversion to unsigned short. *)
Definition status_of_num (n : num) : Z :=
  match num_to_Z (num_trunc n) with Some z => (z mod 65536)%Z | None => 0%Z end.

Definition keycloak_body (ok : bool) (status message : js) : js :=
  JObj [("ok", JBool ok); ("status", status); ("message", message)].

Definition keycloak_test_POST (request : Request) : M NextResponse :=
  try_catch
    (with_admin request (fun token =>
       body ← req_json_or_empty request;
       let jwks_url := opt_get (js_or body (JObj [])) "jwks_url" in
       if negb (truthy jwks_url) then
         next_json_status (keycloak_body false (js_of_Z 400) (JStr "jwks_url is required")) 400
       else
         data ← gatewayAdminFetch "/admin/test-connection"
                  (send "POST" (Some (JObj [("url", jwks_url); ("type", JStr "jwks")])))
                  (Some token);
         if truthy (opt_get data "ok") then
           next_json (keycloak_body true (js_coalesce (opt_get data "status") (js_of_Z 200))
                        (JStr "Keycloak JWKS reachable"))
         else
           next_json_status
             (keycloak_body false (js_coalesce (opt_get data "status") (js_of_Z 500))
                (js_or (opt_get data "error") (JStr "Failed to connect to JWKS")))
             (match opt_get data "status" with JNum n => status_of_num n | _ => 500%Z end)))
    (fun e => match e with
              | GatewayAdminError m code _ =>
                  next_json_status (keycloak_body false (js_of_Z (code_or_500 code)) (JStr m))
                    (code_or_500 code)
              | JsError m => next_json_status (keycloak_body false (js_of_Z 500) (JStr m)) 500
              end).

(** ** Properties *)

Lemma finite_or_finite (x d : num) : num_is_finite d = true -> num_is_finite (finite_or x d) = true.
Proof. unfold finite_or. by destruct (num_is_finite x) eqn:E. Qed.

(** Whatever the caller writes into limit and offset (no number, a huge one,
    Infinity, NaN), the audit log is asked for a finite page of 1 to 200 rows
    from an offset that is not negative. *)
Theorem audit_page_bounded (request : Request) :
  exists limit offset,
    params_get "limit" (audit_query request) = Some (num_to_string limit) /\
    params_get "offset" (audit_query request) = Some (num_to_string offset) /\
    num_leb (num_of_Z 1) limit = true /\ num_leb limit (num_of_Z 200) = true /\
    num_leb (num_of_Z 0) offset = true /\
    num_is_finite limit = true /\ num_is_finite offset = true.
Proof.
  exists (audit_limit request), (audit_offset request). unfold audit_query.
  rewrite !params_get_set. cbn [String.eqb Ascii.eqb Bool.eqb]. rewrite ?params_get_set.
  destruct (clamp_bounds _ (finite_or_finite
    (number_of_string (query_or "limit" "50" request)) (num_of_Z 50) eq_refl)) as (? & ? & ?).
  destruct (floor_bounds _ (finite_or_finite
    (number_of_string (query_or "offset" "0" request)) (num_of_Z 0) eq_refl)) as (? & ?).
  auto 10.
Qed.

(** A normalized endpoint is empty or an absolute address. *)
Lemma normalizeEndpoint_absolute (raw : string) :
  normalizeEndpoint raw = "" \/ absolute_url (normalizeEndpoint raw) = true.
Proof.
  unfold normalizeEndpoint. set (value := strip_trailing "/" (str_trim raw)).
  destruct (String.eqb value ""); [by left|]. right.
  destruct (all_digits value); [by apply absolute_url_app|].
  destruct (starts_with "localhost:" value || starts_with "127.0.0.1:" value)%bool;
    [by apply absolute_url_app|].
  unfold has_scheme. destruct (absolute_url value) eqn:E; cbn [negb];
    [exact E|by apply absolute_url_app].
Qed.

Definition health_probe (endpoint : string) : HttpRequest :=
  mkHttpRequest "GET" (normalizeEndpoint endpoint ++ "/healthz") [] None.

Definition probe_ok (o : outcome HttpResponse) : bool :=
  match o with Ok res => res_ok res | Throw _ => false end.

(** The connection test always answers.  Without a usable endpoint it says 400
    and sends nothing; otherwise it sends one GET, without any credential, to the
    health path of the endpoint, and answers 200 exactly when that is answered
    with a 2xx status, else 502. *)
Theorem test_connection_probes (w : World) (request : Request) (s : State) :
  exists r s', test_connection_GET request w s = (Ok r, s') /\
    match truthy_env (query "endpoint" request) with
    | Some endpoint =>
        if String.eqb (normalizeEndpoint endpoint) ""
        then out_status r = 400%Z /\ sent s' = sent s
        else sent s' = (sent s ++ [health_probe endpoint])%list /\
             out_status r = if probe_ok (net w (sent s) (health_probe endpoint))
                            then 200%Z else 502%Z
    | None => out_status r = 400%Z /\ sent s' = sent s
    end.
Proof.
  unfold test_connection_GET. destruct (truthy_env (query "endpoint" request)) as [endpoint|];
    [|by do 2 eexists].
  cbv zeta. destruct (String.eqb_spec (normalizeEndpoint endpoint) "") as [E|E];
    [by do 2 eexists|].
  destruct (normalizeEndpoint_absolute endpoint) as [?|Ha]; [done|].
  unfold date_now, mbind, M_bind, try_catch. fold (health_probe endpoint).
  rewrite (fetch_eval (health_probe endpoint) w) by (by apply absolute_url_app). cbn [sent ticks].
  destruct (net w (sent s) (health_probe endpoint)) as [res|e]; cbn [probe_ok];
    [|by do 2 eexists].
  destruct (res_ok res); by do 2 eexists.
Qed.
