(* ===== verification/FinopsApi.v ===== *)
(** * The FinOps routes and the statistics batch

    src/frontend/src/app/api/finops (usage, requests, statistics and the billing
    report) and src/frontend/src/lib/finops-fetch.ts, the page-side reader that
    collects the statistics of several tenants. *)

From S2P Require Import Prelude JsNumber JsText JsValue Json Effects ConfigPatch.
From S2P Require Import GatewayClient GatewayFacts Routes ModelsApi ConfigApi.
Local Open Scope string_scope.

(** ** The routes *)

(** The guard stands before the try block. *)
Definition finops_route (request : Request) (catch : exn -> M NextResponse)
    (k : string -> M NextResponse) : M NextResponse :=
  with_admin request (fun token => try_catch (k token) catch).

(** A read whose body is wrapped in [{ data }]. *)
Definition wrap (path : string) (token : string) : M NextResponse :=
  data ← gatewayAdminFetch path get_init (Some token);
  next_json (JObj [("data", data)]).

(** The catch clause that reports a missing upstream endpoint as 502. *)
Definition not_found_catch (endpoint fallback : string) (e : exn) : M NextResponse :=
  if status_is 404 e then
    next_json_status (JObj [("error", JStr ("Upstream endpoint not found: " ++ endpoint));
                            ("details", details_of e)]) 502
  else gateway_catch fallback e.

Definition api_key_usage_GET (apiKeyId : string) (request : Request) : M NextResponse :=
  finops_route request (gateway_catch "Failed to fetch API key drilldown") (fun token =>
    let qs := set_page request [("window_hours", query_or "window_hours" "720" request)] in
    wrap ("/admin/api-keys/" ++ encodeURIComponent apiKeyId ++ "/usage?" ++ params_to_string qs)
      token).

Definition api_keys_requests_GET (request : Request) : M NextResponse :=
  finops_route request (gateway_catch "Failed to fetch API keys raw usage requests") (fun token =>
    let qs := set_page request
      (copy_given ["from"; "to"; "tenant_id"; "api_key_name"; "model"; "provider"; "status"]
         request []) in
    wrap ("/admin/api-keys/requests?" ++ params_to_string qs) token).

(** [windowDays ?? (windowHours ? String(Math.max(1, Math.ceil(Number(windowHours) / 24))) : '30')] *)
Definition resolvedWindowDays (request : Request) : string :=
  match query "window_days" request with
  | Some d => d
  | None =>
      match truthy_env (query "window_hours" request) with
      | Some h => num_to_string (num_max (num_of_Z 1)
                    (num_ceil (num_div (number_of_string h) (num_of_Z 24))))
      | None => "30"
      end
  end.

Definition api_keys_usage_GET (request : Request) : M NextResponse :=
  finops_route request (not_found_catch "/admin/api-keys/usage" "Failed to fetch API keys usage")
    (fun token =>
       let qs := set_page request
         (copy_given ["window_hours"; "tenant_id"; "status"; "provider"; "model"; "api_key_name"]
            request [("window_days", resolvedWindowDays request)]) in
       wrap ("/admin/api-keys/usage?" ++ params_to_string qs) token).

Definition billing_report_GET (request : Request) : M NextResponse :=
  csv_export request
    ("/admin/billing/report.csv?window_hours="
       ++ encodeURIComponent (query_or "window_hours" "720" request))
    "billing_report.csv" "Failed to fetch billing report".

Definition jwt_sub_usage_GET (jwtSub : string) (request : Request) : M NextResponse :=
  finops_route request
    (not_found_catch "/admin/jwt-subs/{jwt_sub}/usage" "Failed to fetch JWT sub usage detail")
    (fun token =>
       let qs := copy_given ["from"; "to"; "tenant_id"; "group_by"] request [] in
       wrap ("/admin/jwt-subs/" ++ encodeURIComponent jwtSub ++ "/usage?" ++ params_to_string qs)
         token).

Definition jwt_subs_requests_GET (request : Request) : M NextResponse :=
  finops_route request (gateway_catch "Failed to fetch JWT subs raw usage requests") (fun token =>
    let qs := set_page request
      (copy_given ["from"; "to"; "tenant_id"; "jwt_sub"; "model"; "provider"; "status"]
         request []) in
    wrap ("/admin/jwt-subs/requests?" ++ params_to_string qs) token).

Definition jwt_subs_usage_GET (request : Request) : M NextResponse :=
  finops_route request (not_found_catch "/admin/jwt-subs/usage" "Failed to fetch JWT subs usage")
    (fun token =>
       let qs := set_page request
         (copy_given ["from"; "to"; "tenant_id"; "provider"; "model"; "status"; "jwt_sub";
                      "sort_by"; "sort_order"] request []) in
       wrap ("/admin/jwt-subs/usage?" ++ params_to_string qs) token).

(** [v == null ? d : Number(v)] *)
Definition number_or (v d : js) : js := if nullish v then d else JNum (js_to_number v).
(** [Number(v ?? 0)] and [String(v ?? '')] *)
Definition number_of (v : js) : js := JNum (js_to_number (js_coalesce v (js_of_Z 0))).
Definition text_of (v : js) : js := JStr (js_to_string (js_coalesce v (JStr ""))).

Definition traffic_item (item : js) : M js :=
  b ← get item "bucket";
  mret (JObj [("bucket", text_of b); ("requests", number_of (opt_get item "requests"));
              ("successes", number_of (opt_get item "successes"));
              ("errors", number_of (opt_get item "errors"))]).

Definition health_item (item : js) : M js :=
  p ← get item "provider";
  mret (JObj [("provider", text_of p); ("requests", number_of (opt_get item "total_requests"));
              ("success_rate", number_of (opt_get item "success_rate"));
              ("avg_latency_ms", number_of (opt_get item "avg_latency_ms"))]).

Definition tenant_request_stats_GET (request : Request) : M NextResponse :=
  finops_route request (gateway_catch "Failed to fetch tenant request stats") (fun token =>
    match truthy_env (query "tenant_id" request) with
    | None => bad_request "tenant_id is required"
    | Some tenantId =>
        data ← gatewayAdminFetch
          ("/admin/requests/stats?tenant_id=" ++ encodeURIComponent tenantId
             ++ "&window_hours=" ++ encodeURIComponent (query_or "window_hours" "24" request)
             ++ "&bucket=" ++ encodeURIComponent (query_or "bucket" "hour" request))
          get_init (Some token);
        let summary := js_coalesce (opt_get data "summary") (JObj []) in
        traffic ← map_elems traffic_item (js_array (opt_get data "traffic_over_time"));
        health ← map_elems health_item (js_array (opt_get data "provider_health"));
        next_json (JObj [("data", JObj
          [("tenant_id", JStr tenantId);
           ("total_requests", number_or (opt_get summary "total_requests") (js_of_Z 0));
           ("success_rate", number_or (opt_get summary "success_rate") JNull);
           ("avg_latency_ms", number_or (opt_get summary "avg_latency_ms") JNull);
           ("errors", number_or (opt_get summary "errors") JNull);
           ("traffic_over_time", JArr traffic); ("provider_health", JArr health)])])
    end).

(** *** usage-summaries *)

Definition model_usage (name : js) (entry : js) : js :=
  JObj [("model", name); ("cost_usd", number_of (opt_get entry "cost_usd"));
        ("requests", number_of (opt_get entry "requests"))].

Definition usage_models (payload : js) : M (list js) :=
  match payload with
  | JArr l => map_elems (fun m => n ← get m "model"; mret (model_usage (text_of n) m)) l
  | JObj o => mret (map (fun e => model_usage (JStr e.1) e.2) o)
  | _ => mret []
  end.

Definition usage_row (tenant_id cost requests : js) (models : list js) : js :=
  JObj [("tenant_id", tenant_id); ("total_cost_usd", cost); ("total_requests", requests);
        ("models", JArr models)].

Definition forbidden_error (e : exn) : bool := status_is 401 e || status_is 403 e.

Definition tenant_summary (month token : string) (t : js) : M js :=
  try_catch
    (id ← get t "tenant_id";
     d ← getTenantUsageSummary (js_to_string id) (Some month) (Some token);
     models ← usage_models (opt_get d "models");
     mret (usage_row id
       (number_of (js_coalesce (opt_get d "total_cost_usd") (opt_get d "cost_usd")))
       (number_of (js_coalesce (opt_get d "total_requests") (opt_get d "requests"))) models))
    (fun e =>
       if forbidden_error e then throw e
       else id ← get t "tenant_id"; mret (usage_row id (js_of_Z 0) (js_of_Z 0) [])).

Definition usage_summaries_GET (request : Request) : M NextResponse :=
  finops_route request (gateway_catch "Failed to fetch usage summaries") (fun token =>
    match truthy_env (query "month" request) with
    | None => bad_request "Missing required query param: month (YYYY-MM)"
    | Some month =>
        tenantsResp ← getTenants (Some token);
        summaries ← promise_all (tenant_summary month token)
                      (js_array (opt_get tenantsResp "data"));
        next_json (JObj [("data", JArr summaries)])
    end).

(** ** lib/finops-fetch.ts *)

Definition denied_status (z : Z) : bool := ((z =? 401)%Z || (z =? 403)%Z)%bool.

Definition assertFinopsUnauthorized (resp : HttpResponse) : M unit :=
  if negb (denied_status (res_status resp)) then mret tt
  else
    body ← res_json_or_empty resp;
    let error := opt_get body "error" in
    let msg := match error with
               | JStr s => s
               | _ => match opt_get error "message" with
                      | JStr s => s
                      | _ => if (res_status resp =? 403)%Z then "Access denied" else "Unauthorized"
                      end
               end in
    throw (error_with_status msg (res_status resp)).

Record TrafficTotals := mkTotals { t_requests : num; t_successes : num }.

(** The reducer over the traffic buckets. *)
Definition add_traffic (acc : TrafficTotals) (item : js) : M TrafficTotals :=
  r ← get item "requests";
  mret (mkTotals
    (num_add (t_requests acc) (js_to_number (js_coalesce r (js_of_Z 0))))
    (num_add (t_successes acc) (js_to_number (js_coalesce (opt_get item "successes") (js_of_Z 0))))).

Fixpoint traffic_totals (acc : TrafficTotals) (l : list js) : M TrafficTotals :=
  match l with
  | [] => mret acc
  | x :: l' => acc' ← add_traffic acc x; traffic_totals acc' l'
  end.

Record TenantRequestStatsRow := mkStats {
  s_tenant_id : string;
  s_total_requests : num;
  s_successful_requests : num;
  s_success_rate : option num;
  s_avg_latency_ms : option num;
}.

Definition parseTenantStatsPayload (tenantId : string) (payload : js) : M TenantRequestStatsRow :=
  let row := js_coalesce (opt_get payload "data") (JObj []) in
  totals ← traffic_totals (mkTotals num_zero num_zero) (js_array (opt_get row "traffic_over_time"));
  let num k := js_to_number (js_coalesce (opt_get row k) (js_of_Z 0)) in
  let seen := num_gtb (t_requests totals) num_zero in
  let totalRequests := if seen then t_requests totals else num "total_requests" in
  let successfulRequests :=
    if seen then t_successes totals
    else num_round (num_mul (num "total_requests") (num "success_rate")) in
  mret (mkStats tenantId totalRequests successfulRequests
    (if num_gtb totalRequests num_zero then Some (num_div successfulRequests totalRequests) else None)
    (let l := opt_get row "avg_latency_ms" in if nullish l then None else Some (js_to_number l))).

Definition stats_request (tenantId : string) (windowHours : num) : HttpRequest :=
  mkHttpRequest "GET"
    ("/api/finops/tenant-request-stats?tenant_id=" ++ encodeURIComponent tenantId
       ++ "&window_hours=" ++ encodeURIComponent (num_to_string windowHours) ++ "&bucket=hour")
    [] None.

(** The loop, tenant by tenant; 401 and 403 put the tenant on the forbidden list. *)
Fixpoint fetchTenantRequestStatsBatch (tenantIds : list string) (windowHours : num)
  : M (list TenantRequestStatsRow * list string) :=
  match tenantIds with
  | [] => mret ([], [])
  | tenantId :: rest =>
      resp ← page_fetch (stats_request tenantId windowHours);
      if denied_status (res_status resp) then
        '(rows, forbidden) ← fetchTenantRequestStatsBatch rest windowHours;
        mret (rows, tenantId :: forbidden)
      else if negb (res_ok resp) then
        errBody ← res_json_or_empty resp;
        error ← get errBody "error";
        throw (JsError (match error with
                        | JStr s => s
                        | _ => "Request failed (" ++ Z_to_string (res_status resp) ++ ")"
                        end))
      else
        data ← res_json resp;
        row ← parseTenantStatsPayload tenantId data;
        '(rows, forbidden) ← fetchTenantRequestStatsBatch rest windowHours;
        mret (row :: rows, forbidden)
  end.

(** ** The batch *)

(** The answer each tenant's request gets, when they are sent in order. *)
Fixpoint batch_answers (w : World) (past : list HttpRequest) (tenantIds : list string) (h : num)
  : list (string * outcome HttpResponse) :=
  match tenantIds with
  | [] => []
  | t :: rest =>
      (t, net w past (stats_request t h))
        :: batch_answers w (past ++ [stats_request t h])%list rest h
  end.

Definition denied_answer (o : outcome HttpResponse) : bool :=
  match o with Ok resp => denied_status (res_status resp) | Throw _ => false end.

(** An answer the batch can use: a refusal, or statistics whose buckets are
    values with properties. *)
Definition usable_answer (o : outcome HttpResponse) : Prop :=
  exists resp, o = Ok resp /\
    (denied_status (res_status resp) = true \/
     (res_ok resp = true /\ exists data, body_json resp = Ok data /\
        Forall (fun x => nullish x = false)
          (js_array (opt_get (js_coalesce (opt_get data "data") (JObj [])) "traffic_over_time")))).

Lemma traffic_totals_run (w : World) (acc : TrafficTotals) (l : list js) (s : State) :
  Forall (fun x => nullish x = false) l ->
  exists acc', traffic_totals acc l w s = (Ok acc', s).
Proof.
  intros Hl. revert acc. induction Hl as [|x l Hx Hl IH]; intros acc; [by exists acc|].
  cbn [traffic_totals]. unfold add_traffic, get, mbind, M_bind. rewrite Hx. apply IH.
Qed.

Lemma parse_stats_run (w : World) (tenantId : string) (data : js) (s : State) :
  Forall (fun x => nullish x = false)
    (js_array (opt_get (js_coalesce (opt_get data "data") (JObj [])) "traffic_over_time")) ->
  exists row, parseTenantStatsPayload tenantId data w s = (Ok row, s) /\ s_tenant_id row = tenantId.
Proof.
  intros Hl. unfold parseTenantStatsPayload, mbind, M_bind.
  destruct (traffic_totals_run w (mkTotals num_zero num_zero) _ s Hl) as (acc & ->).
  by eexists.
Qed.

Definition tenants_where (p : outcome HttpResponse -> bool)
    (answers : list (string * outcome HttpResponse)) : list string :=
  map fst (List.filter (fun a => p a.2) answers).

(** The run of the batch, answer by answer *)
Lemma batch_run (w : World) (tenantIds : list string) (h : num) (s : State) :
  Forall (fun a => usable_answer a.2) (batch_answers w (sent s) tenantIds h) ->
  let answers := batch_answers w (sent s) tenantIds h in
  exists rows,
    fetchTenantRequestStatsBatch tenantIds h w s =
      (Ok (rows, tenants_where denied_answer answers),
       mkState (sent s ++ map (fun t => stats_request t h) tenantIds)%list (ticks s)) /\
    map s_tenant_id rows = tenants_where (fun o => negb (denied_answer o)) answers.
Proof.
  revert s. induction tenantIds as [|t rest IH]; intros [past n]; cbn [batch_answers sent].
  { intros _. exists []. cbn. by rewrite app_nil_r. }
  intros [Hu Hr]%Forall_cons_1. destruct (IH (mkState (past ++ [stats_request t h])%list n) Hr)
    as (rows & Hrun & Hids). cbn [sent] in Hrun, Hids.
  rewrite <- app_assoc in Hrun. cbn [fetchTenantRequestStatsBatch].
  unfold page_fetch. unfold mbind at 1, M_bind at 1. cbn [sent ticks].
  destruct Hu as (resp & Hn & Hd). cbn [snd] in Hn. rewrite Hn.
  unfold tenants_where. cbn [List.filter map snd denied_answer].
  destruct (denied_status (res_status resp)) eqn:Ed.
  - exists rows. unfold mbind, M_bind. by rewrite Hrun.
  - destruct Hd as [?|(Ho & data & Hb & Hl)]; [done|]. rewrite Ho. cbn [negb].
    set (s1 := mkState _ _) in Hrun |- *.
    destruct (parse_stats_run w t data s1 Hl) as (row & Hp & Hid).
    exists (row :: rows). unfold mbind, M_bind. rewrite res_json_eval, Hb, Hp, Hrun.
    cbn. by rewrite Hid, Hids.
Qed.

(** The batch asks for every tenant once, in order, and splits them by the
    answer: when each answer is a refusal (401, 403) or readable statistics, it
    returns, the refused tenants are exactly the forbidden list, and every other
    tenant has its row, both in the order of the request. *)
Theorem stats_batch_splits (w : World) (tenantIds : list string) (h : num) (s : State) :
  Forall (fun a => usable_answer a.2) (batch_answers w (sent s) tenantIds h) ->
  let answers := batch_answers w (sent s) tenantIds h in
  exists rows,
    fetchTenantRequestStatsBatch tenantIds h w s =
      (Ok (rows, tenants_where denied_answer answers),
       mkState (sent s ++ map (fun t => stats_request t h) tenantIds)%list (ticks s)) /\
    map s_tenant_id rows = tenants_where (fun o => negb (denied_answer o)) answers.
Proof. apply batch_run. Qed.

Lemma stats_batch_splits_witness :
  let w := demo_world [] (fun r => if str_includes "t2" (http_url r) then reply 403 "no"
                                   else reply 200 "{}") in
  exists rows,
    fetchTenantRequestStatsBatch ["t1"; "t2"; "t3"] (num_of_Z 24) w start =
      (Ok (rows, ["t2"]),
       mkState (map (fun t => stats_request t (num_of_Z 24)) ["t1"; "t2"; "t3"]) 0) /\
    map s_tenant_id rows = ["t1"; "t3"].
Proof.
  intros w.
  assert (Hok : usable_answer (reply 200 "{}")).
  { eexists. split; [reflexivity|]. right. split; [reflexivity|]. exists (JObj []).
    split; [reflexivity|constructor]. }
  assert (Hno : usable_answer (reply 403 "no")).
  { eexists. split; [reflexivity|]. left. reflexivity. }
  apply (stats_batch_splits w ["t1"; "t2"; "t3"] (num_of_Z 24) start).
  constructor; [exact Hok|]. constructor; [exact Hno|]. constructor; [exact Hok|constructor].
Defined.
