(* ===== verification/SemanticApi.v ===== *)
(** * The semantic routing routes

    src/frontend/src/app/api/semantic: anchors, routes, the threshold of a tenant,
    and the three tools (suggest, calibrate, test). *)

From S2P Require Import Prelude JsNumber JsText JsValue Json Effects.
From S2P Require Import ConfigPatch GatewayClient GatewayFacts Routes ConfigApi.
Local Open Scope string_scope.

(** [/admin/...?tenant_id=...] *)
Definition tenant_path (path tenantId : string) : string :=
  path ++ "?tenant_id=" ++ encodeURIComponent tenantId.

(** The tenant of the query, or 400. *)
Definition with_tenant_query (request : Request) (k : string -> M NextResponse) : M NextResponse :=
  match truthy_env (query "tenant_id" request) with
  | None => bad_request "tenant_id is required"
  | Some tenantId => k tenantId
  end.

(** A write whose answer is passed on. *)
Definition write (method path : string) (body : js) (token : option string) : M NextResponse :=
  data ← gatewayAdminFetch path (send method (Some body)) token; next_json data.

(** ** Anchors *)

(** [serializeParams]: every value that is given, in order *)
Definition serializeParams (params : list (string * option string)) : string :=
  params_to_string
    (fold_left (fun acc kv => match kv.2 with
                              | Some v => params_set kv.1 v acc
                              | None => acc
                              end) params []).

Definition anchors_GET (request : Request) : M NextResponse :=
  token_route request "Failed to fetch semantic anchors" (fun token =>
    forward ("/v1/semantic/anchors?" ++ serializeParams
      [("limit", Some (str_coalesce (query "limit" request) "50"));
       ("offset", Some (str_coalesce (query "offset" request) "0"));
       ("include_anchor_text", Some (str_coalesce (query "include_anchor_text" request) "false"));
       ("tenant_id", query "tenant_id" request)]) token).

(** The path with the tenant, when there is one. *)
Definition maybe_tenant_path (path : string) (request : Request) : string :=
  match truthy_env (query "tenant_id" request) with
  | Some tenantId => tenant_path path tenantId
  | None => path
  end.

Definition anchors_POST (request : Request) : M NextResponse :=
  token_route request "Failed to create semantic anchor" (fun token =>
    body ← req_json request;
    write "POST" (maybe_tenant_path "/v1/semantic/anchors" request) body token).

Definition anchor_path (name : string) (request : Request) : string :=
  maybe_tenant_path ("/v1/semantic/anchors/" ++ encodeURIComponent name) request.

Definition anchor_PATCH (name : string) (request : Request) : M NextResponse :=
  token_route request "Failed to update semantic anchor" (fun token =>
    body ← req_json request;
    write "PATCH" (anchor_path name request) body token).

Definition anchor_DELETE (name : string) (request : Request) : M NextResponse :=
  token_route request "Failed to delete semantic anchor" (fun token =>
    _ ← gatewayAdminFetch (anchor_path name request) (send "DELETE" None) token;
    next_json (JObj [("status", JStr "deleted")])).

(** ** Tools and routes with a body *)

Definition tenantIdFromRequest (request : Request) (body : js) : M (option string) :=
  match truthy_env (query "tenant_id" request) with
  | Some t => mret (Some t)
  | None =>
      fromBody ← get body "tenant_id";
      match fromBody with
      | JStr s => mret (truthy_env (Some (str_trim s)))
      | _ => mret None
      end
  end.

(** A POST of everything in the body but the tenant, which moves to the query. *)
Definition semantic_post (path fallback : string) (request : Request) : M NextResponse :=
  token_route request fallback (fun token =>
    body ← req_json_or_empty request;
    tenantId ← tenantIdFromRequest request body;
    match tenantId with
    | None => bad_request "tenant_id is required"
    | Some t =>
        write "POST" (tenant_path path t)
          (JObj (obj_del "tenant_id" (obj_spread [] (entries body)))) token
    end).

Definition suggest_POST : Request -> M NextResponse :=
  semantic_post "/admin/semantic/anchors/suggest" "Failed to suggest anchors".
Definition calibrate_POST : Request -> M NextResponse :=
  semantic_post "/admin/semantic/anchors/calibrate" "Failed to calibrate semantic threshold".
Definition semantic_test_POST : Request -> M NextResponse :=
  semantic_post "/admin/semantic/test" "Failed to run semantic test".
Definition semantic_routes_POST : Request -> M NextResponse :=
  semantic_post "/admin/semantic/routes" "Failed to create semantic route".

Definition semantic_routes_GET (request : Request) : M NextResponse :=
  token_route request "Failed to fetch semantic routes" (fun token =>
    with_tenant_query request (fun tenantId =>
      forward (tenant_path "/admin/semantic/routes" tenantId) token)).

Definition semantic_route_path (name tenantId : string) : string :=
  tenant_path ("/admin/semantic/routes/" ++ encodeURIComponent name) tenantId.

(** The read of one route is a PATCH with an empty body. *)
Definition semantic_route_GET (name : string) (request : Request) : M NextResponse :=
  token_route request "Failed to fetch semantic route" (fun token =>
    with_tenant_query request (fun tenantId =>
      write "PATCH" (semantic_route_path name tenantId) (JObj []) token)).

Definition semantic_route_PATCH (name : string) (request : Request) : M NextResponse :=
  token_route request "Failed to update semantic route" (fun token =>
    with_tenant_query request (fun tenantId =>
      body ← req_json_or_empty request;
      write "PATCH" (semantic_route_path name tenantId) body token)).

Definition semantic_route_DELETE (name : string) (request : Request) : M NextResponse :=
  token_route request "Failed to delete semantic route" (fun token =>
    with_tenant_query request (fun tenantId =>
      _ ← gatewayAdminFetch (semantic_route_path name tenantId) (send "DELETE" None) token;
      next_json (JObj [("status", JStr "deleted")]))).

(** ** The threshold *)

Definition extractThresholdFromConfig (config : js) : js :=
  if negb (truthy config) then JNull
  else
    let semantic := js_coalesce (opt_get (opt_get config "routing") "semantic")
                      (opt_get config "semantic") in
    match opt_get semantic "threshold_default", opt_get config "threshold_default" with
    | JNum n, _ => JNum n
    | _, JNum n => JNum n
    | _, _ => JNull
    end.

Definition threshold_GET (request : Request) : M NextResponse :=
  token_route request "Failed to fetch semantic threshold" (fun token =>
    with_tenant_query request (fun tenantId =>
      data ← gatewayAdminFetch ("/admin/tenants/" ++ tenantId ++ "/config") get_init token;
      config ← get data "config";
      next_json (JObj [("tenant_id", JStr tenantId);
                       ("threshold_default", extractThresholdFromConfig config)]))).

Definition threshold_PATCH (request : Request) : M NextResponse :=
  token_route request "Failed to update semantic threshold" (fun token =>
    body ← req_json request;
    tenantId ← get body "tenant_id";
    let threshold_default := opt_get body "threshold_default" in
    if negb (truthy tenantId && is_number threshold_default)
    then bad_request "tenant_id and threshold_default are required"
    else
      write "PATCH" ("/admin/tenants/" ++ js_to_string tenantId ++ "/semantic-threshold")
        (JObj [("threshold_default", threshold_default)]) token).
