(* ===== verification/ObservabilityApi.v ===== *)
(** * The observability and routing routes

    src/frontend/src/app/api/observability and api/routing: request logs, metrics,
    the request explorer, the routing insights with their distributions, and the
    replay of a request. *)

From S2P Require Import Prelude JsNumber JsText JsValue Json Effects ConfigPatch.
From S2P Require Import GatewayClient GatewayFacts Routes ModelsApi ConfigApi FinopsApi.
Local Open Scope string_scope.

(** ** Reads that are passed on *)

Definition cost_analytics_GET (request : Request) : M NextResponse :=
  token_route request "Failed to fetch cost analytics"
    (forward "/admin/observability/cost-analytics").

Definition model_performance_GET (request : Request) : M NextResponse :=
  token_route request "Failed to fetch model performance"
    (forward ("/admin/benchmarks/models?window_hours=" ++ query_or "window_hours" "24" request)).

Definition semantic_correlation_GET (request : Request) : M NextResponse :=
  admin_route request "Failed to fetch semantic correlation" (fun token =>
    forward "/admin/observability/semantic-correlation" (Some token)).

Definition semantic_routing_GET (request : Request) : M NextResponse :=
  admin_route request "Failed to fetch semantic routing analytics" (fun token =>
    forward "/admin/observability/semantic-routing" (Some token)).

(** [queryString ? `path?${queryString}` : path] *)
Definition with_query (path : string) (qs : list (string * string)) : string :=
  let text := params_to_string qs in
  if String.eqb text "" then path else path ++ "?" ++ text.

Definition router_performance_GET (request : Request) : M NextResponse :=
  admin_route request "Failed to fetch router performance" (fun token =>
    forward (with_query "/admin/router/performance"
      (copy_given ["from"; "to"; "tenant_id"; "model"; "provider"; "status"; "bucket"] request []))
      (Some token)).

Definition semantic_cache_GET (request : Request) : M NextResponse :=
  admin_route request "Failed to fetch semantic cache analytics" (fun token =>
    forward (with_query "/admin/observability/semantic-cache"
      (copy_given ["tenant_id"; "limit"] request [])) (Some token)).

(** ** logs/route.ts *)

(** [v ? String(v) : undefined] *)
Definition text_if (v : js) : js := if truthy v then JStr (js_to_string v) else JUndef.
Definition truth (v : js) : js := JBool (truthy v).

Definition log_row (item : js) : M js :=
  c ← get item "cache";
  let cache := js_coalesce c (JObj []) in
  let cacheStatus := str_lower (js_to_string (js_coalesce (opt_get cache "status") (JStr ""))) in
  let f := opt_get item in
  mret (JObj [("timestamp", text_of (f "timestamp")); ("tenant_id", text_of (f "tenant_id"));
              ("model", text_of (f "model")); ("provider", text_of (f "provider"));
              ("latency_ms", number_of (f "latency_ms")); ("status", text_of (f "status"));
              ("fallback_used", truth (f "fallback_used"));
              ("cache_status", text_if (JStr cacheStatus))]).

(** [Number(data?.pagination?.k ?? d)] *)
Definition page_field (data : js) (k : string) (d : num) : js :=
  JNum (js_to_number (js_coalesce (opt_get (opt_get data "pagination") k) (JNum d))).

Definition page_info (data : js) (limit offset : num) (count : nat) : js :=
  let n := num_of_Z (Z.of_nat count) in
  JObj [("limit", page_field data "limit" limit); ("offset", page_field data "offset" offset);
        ("returned", page_field data "returned" n); ("total", page_field data "total" n)].

Definition logs_GET (request : Request) : M NextResponse :=
  let limit := audit_limit request in
  let offset := audit_offset request in
  token_route request "Failed to fetch observability logs" (fun token =>
    data ← gatewayAdminFetch ("/admin/requests/recent?limit=" ++ num_to_string limit
                                ++ "&offset=" ++ num_to_string offset) get_init token;
    logs ← map_elems log_row (js_array (opt_get data "data"));
    let pagination := page_info data limit offset (List.length logs) in
    next_json (JObj [("logs", JArr logs); ("total", opt_get pagination "total");
                     ("pagination", pagination)])).

(** ** metrics/route.ts *)

(** [v == null ? null : Number(v) * 100] *)
Definition percent_or_null (v : js) : js :=
  if nullish v then JNull else JNum (num_mul (js_to_number v) (num_of_Z 100)).

Definition summary_metrics (summary : js) : js :=
  let f := opt_get summary in
  JObj [("total_requests_24h", number_or (f "total_requests") JNull);
        ("success_rate", percent_or_null (f "success_rate"));
        ("avg_latency_ms", number_or (f "avg_latency_ms") JNull);
        ("cache_hit_rate", JNull);
        ("fallback_rate", percent_or_null (f "fallback_rate"));
        ("fallback_count", number_or (f "fallback_requests") JNull);
        ("total_cost_24h", JNull)].

Definition metrics_traffic (item : js) : M js :=
  b ← get item "bucket";
  mret (JObj [("time_bucket", text_of b); ("requests", number_of (opt_get item "requests"));
              ("successes", number_of (opt_get item "successes"));
              ("errors", number_of (opt_get item "errors"))]).

Definition metrics_health (item : js) : M js :=
  p ← get item "provider";
  mret (JObj [("provider", text_of p);
              ("success_rate", js_mul (number_of (opt_get item "success_rate")) (js_of_Z 100));
              ("avg_latency", number_of (opt_get item "avg_latency_ms"));
              ("total_requests", number_of (opt_get item "total_requests"))]).

Definition metrics_path (request : Request) : string :=
  "/admin/requests/stats?window_hours=" ++ query_or "window_hours" "24" request
    ++ "&bucket=" ++ query_or "bucket" "hour" request.

Definition metrics_catch (request : Request) (e : exn) : M NextResponse :=
  match e with
  | GatewayAdminError _ _ _ => gateway_catch "" e
  | JsError _ =>
      next_json_status
        (JObj [("error", JStr "Failed to fetch observability metrics");
               ("details", JStr ("Backend " ++ metrics_path request ++ " request failed"))]) 500
  end.

Definition metrics_GET (request : Request) : M NextResponse :=
  try_catch
    (token ← getAdminAuthToken request;
     data ← gatewayAdminFetch (metrics_path request) get_init token;
     let summary := js_coalesce (opt_get data "summary") (JObj []) in
     let trafficOverTime := js_array (opt_get data "traffic_over_time") in
     traffic ← map_elems metrics_traffic trafficOverTime;
     health ← map_elems metrics_health (js_array (opt_get data "provider_health"));
     next_json (JObj
       [("metrics", summary_metrics summary); ("traffic_data", JArr traffic);
        ("provider_health", JArr health); ("summary", summary);
        ("status_breakdown", js_coalesce (opt_get data "status_breakdown") (JObj []));
        ("traffic_over_time", JArr trafficOverTime);
        ("window_hours", match opt_get data "window_hours" with
                         | JNum n => JNum n
                         | _ => JNum (number_of_string (query_or "window_hours" "24" request))
                         end);
        ("raw_backend", data)]))
    (metrics_catch request).

(** ** real-metrics/route.ts *)

Record Accumulator := mkAcc { a_requests : num; a_successes : num; a_latency : num }.

Definition add_stats (acc : Accumulator) (row : js) : M Accumulator :=
  r ← get row "requests";
  let safe v := finite_or (js_to_number (js_coalesce v (js_of_Z 0))) num_zero in
  let requests := safe r in
  mret (mkAcc (num_add (a_requests acc) requests)
          (num_add (a_successes acc) (safe (opt_get row "successes")))
          (num_add (a_latency acc) (num_mul (safe (opt_get row "avg_latency_ms")) requests))).

Fixpoint stats_totals (acc : Accumulator) (l : list js) : M Accumulator :=
  match l with
  | [] => mret acc
  | x :: l' => acc' ← add_stats acc x; stats_totals acc' l'
  end.

Definition real_metrics_GET (request : Request) : M NextResponse :=
  open_route "Failed to fetch real metrics"
    (let tenantId := query_or "tenant_id" "tenant_a" request in
     month ← (match truthy_env (query "month" request) with
              | Some m => mret m
              | None => t ← date_now; mret (String.substring 0 7 (iso_string t))
              end);
     let windowDays := query_or "window_days" "7" request in
     token ← getAdminAuthToken request;
     '(usageSummary, modelsStats) ← promise_both
        (gatewayAdminFetch ("/admin/tenants/" ++ tenantId ++ "/usage/summary?month=" ++ month)
           get_init token)
        (gatewayAdminFetch ("/admin/tenants/" ++ tenantId ++ "/models/stats?window_days="
                              ++ windowDays) get_init token);
     totals ← stats_totals (mkAcc num_zero num_zero num_zero) (js_array (opt_get modelsStats "stats"));
     let per x := if num_gtb (a_requests totals) num_zero
                  then JNum (num_div x (a_requests totals)) else JNull in
     let successRate := if num_gtb (a_requests totals) num_zero
                        then js_mul (per (a_successes totals)) (js_of_Z 100) else JNull in
     total ← get usageSummary "total_requests";
     next_json (JObj [("total_requests", js_coalesce total JNull);
                      ("total_cost", js_coalesce (opt_get usageSummary "total_cost_usd") JNull);
                      ("success_rate", successRate); ("avg_latency_ms", per (a_latency totals))])).

(** ** request-explorer *)

(** [new Date(x).toISOString()]: a RangeError outside of the range of dates. *)
Definition iso_of_num (x : num) : M string :=
  match num_to_Z (num_trunc x) with
  | Some z => if (Z.abs z <=? 8640000000000000)%Z then mret (iso_string z)
              else throw (JsError "Invalid time value")
  | None => throw (JsError "Invalid time value")
  end.

Definition created_timestamp (created : js) : M (option string) :=
  let createdSeconds := js_to_number created in
  if (num_is_finite createdSeconds && num_gtb createdSeconds num_zero)%bool then
    t ← iso_of_num (num_mul createdSeconds (num_of_Z 1000)); mret (Some t)
  else mret None.

Fixpoint first_present (l : list js) : js :=
  match l with
  | [] => JUndef
  | [v] => v
  | v :: l' => js_coalesce v (first_present l')
  end.

Definition object_or_undefined (v : js) : js := if is_object v then v else JUndef.

Definition explorer_row (offset : num) (index : nat) (item : js) : M js :=
  created ← get item "created";
  ts ← created_timestamp created;
  let f := opt_get item in
  let resolved := match ts with
                  | Some t => JStr t
                  | None => first_present [f "timestamp"; f "created_at"; f "started_at";
                                           f "completed_at"]
                  end in
  mret (JObj
    [("id", JStr (js_to_string (js_coalesce (f "request_id")
              (JStr (num_to_string (num_add offset (num_of_Z (Z.of_nat index))))))));
     ("request_id", text_of (f "request_id"));
     ("timestamp", if truthy resolved then JStr (js_to_string resolved) else JStr "");
     ("tenant_id", text_of (f "tenant_id")); ("model", text_of (f "model"));
     ("provider", text_of (f "provider")); ("strategy", text_of (f "strategy"));
     ("latency_ms", number_of (f "latency_ms")); ("status", text_of (f "status"));
     ("fallback_used", truth (f "fallback_used")); ("attempt", number_or (f "attempt") JUndef);
     ("cache_status", text_if (opt_get (f "cache") "status")); ("raw_request", item);
     ("decision_reason", text_if (f "decision_reason")); ("error_type", text_if (f "error_type"));
     ("metadata", object_or_undefined (f "metadata"));
     ("pii_webhook_request_decision", text_if (f "pii_webhook_request_decision"));
     ("pii_webhook_response_decision", text_if (f "pii_webhook_response_decision"));
     ("routing_snapshot", object_or_undefined (f "routing_snapshot"));
     ("decision_snapshot", object_or_undefined (f "decision_snapshot"));
     ("workflow_id", text_if (f "workflow_id"));
     ("conversation_id", text_if (f "conversation_id"))]).

(** The own keys of the table; anything else is 24 hours. *)
Definition window_of (timeRange : string) : string :=
  if String.eqb timeRange "1h" then "1"
  else if String.eqb timeRange "24h" then "24"
  else if String.eqb timeRange "7d" then "168"
  else if String.eqb timeRange "30d" then "720"
  else "24".

Definition explorer_query (request : Request) : list (string * string) :=
  params_set "window_hours" (window_of (query_or "time_range" "24h" request))
    (copy_given ["tenant_id"; "model"; "provider"; "status"; "fallback_used"; "workflow_id";
                 "conversation_id"] request
       [("limit", num_to_string (audit_limit request));
        ("offset", num_to_string (audit_offset request))]).

Definition request_explorer_GET (request : Request) : M NextResponse :=
  admin_route request "Failed to fetch request explorer data" (fun token =>
    data ← gatewayAdminFetch ("/admin/requests/recent?" ++ params_to_string (explorer_query request))
             get_init (Some token);
    requests ← map_indexed (explorer_row (audit_offset request)) 0 (js_array (opt_get data "data"));
    let pagination := page_info data (audit_limit request) (audit_offset request)
                        (List.length requests) in
    next_json (JObj [("requests", JArr requests); ("total", opt_get pagination "total");
                     ("pagination", pagination)])).

(** The id is decoded before the guard: a malformed one is a 500. *)
Definition explorer_replay_POST (rawId : string) (request : Request) : M NextResponse :=
  open_route "Failed to replay request"
    (requestId ← decode_uri rawId;
     with_admin request (fun token =>
       data ← gatewayAdminFetch
                ("/admin/replay/" ++ encodeURIComponent requestId ++ "?mode=deterministic")
                (send "POST" None) (Some token);
       next_json data)).

Definition explorer_routing_catch (e : exn) : M NextResponse :=
  if status_is 404 e then next_json_status (error_body "routing snapshot not found") 404
  else gateway_catch "Failed to fetch request routing snapshot" e.

Definition explorer_routing_GET (rawId : string) (request : Request) : M NextResponse :=
  try_catch
    (requestId ← decode_uri rawId;
     with_admin request (fun token =>
       forward ("/admin/requests/" ++ encodeURIComponent requestId ++ "/routing") (Some token)))
    explorer_routing_catch.

(** ** routing-insights/route.ts *)

Definition insights_limit (request : Request) : num :=
  num_min (num_of_Z 200)
    (num_max (num_of_Z 1)
       (finite_or (number_of_string (query_or "limit" "200" request)) (num_of_Z 200))).

Record Decision := mkDecision {
  d_strategy : string;
  d_model : string;
  d_route_group : option string;
  d_row : js;
}.

Definition decision_of (index : nat) (item : js) : M Decision :=
  rid ← get item "request_id";
  let f := opt_get item in
  timestamp ← (if truthy (f "created")
               then iso_of_num (num_mul (js_to_number (f "created")) (num_of_Z 1000))
               else mret "");
  let strategy := js_to_string (js_coalesce (f "strategy") (JStr "")) in
  let model := js_to_string (js_coalesce (f "model") (JStr "")) in
  let group := if truthy (f "route_group") then Some (js_to_string (f "route_group")) else None in
  mret (mkDecision strategy model group (JObj
    [("id", JStr (js_to_string (js_coalesce rid
              (JStr ("req-" ++ Z_to_string (Z.of_nat index))))));
     ("timestamp", JStr timestamp); ("tenant_id", text_of (f "tenant_id"));
     ("request_id", text_of rid); ("selected_model", JStr model);
     ("provider", text_of (f "provider")); ("strategy", JStr strategy);
     ("route_group", match group with Some g => JStr g | None => JUndef end);
     ("fallback_used", truth (f "fallback_used")); ("status", text_of (f "status"));
     ("latency_ms", number_of (f "latency_ms"));
     ("cache_status", JStr (if truthy (f "cache_hit") then "hit" else "miss"));
     ("decision_reason", text_if (f "decision_reason"));
     ("error_type", text_if (f "error_type"))])).

(** A Map from names to counts, in the order of first appearance. *)
Fixpoint count_up (k : string) (m : list (string * Z)) : list (string * Z) :=
  match m with
  | [] => [(k, 1%Z)]
  | (k', n) :: m' => if String.eqb k k' then (k', (n + 1)%Z) :: m' else (k', n) :: count_up k m'
  end.

(** [if (name) map.set(name, (map.get(name) || 0) + 1)] over the decisions *)
Definition distribution (name : Decision -> option string) (ds : list Decision)
  : list (string * Z) :=
  fold_left (fun m d => match truthy_env (name d) with
                        | Some k => count_up k m
                        | None => m
                        end) ds [].

Definition distribution_js (label : string) (m : list (string * Z)) : js :=
  JArr (map (fun e => JObj [(label, JStr e.1); ("count", js_of_Z e.2)]) m).

(** [v != null ? v * 100 : null] *)
Definition times_100_or_null (v : js) : js :=
  if nullish v then JNull else js_mul v (js_of_Z 100).

Definition insights_metrics (summary : js) : js :=
  let f := opt_get summary in
  JObj [("total_routed_requests", number_of (f "total_requests"));
        ("smart_routing_usage_pct", JNull);
        ("fallback_usage_pct", times_100_or_null (f "fallback_rate"));
        ("avg_latency_ms", number_of (f "avg_latency_ms"));
        ("success_rate", times_100_or_null (f "success_rate"));
        ("cache_hit_rate", times_100_or_null (f "cache_hit_rate"))].

Definition routing_insights_GET (request : Request) : M NextResponse :=
  let windowHours := query_or "window_hours" "24" request in
  let filters := ["tenant_id"; "provider"; "status"] in
  let statsParams := copy_given filters request [("window_hours", windowHours)] in
  let requestsParams := copy_given filters request
    [("window_hours", windowHours); ("limit", num_to_string (insights_limit request))] in
  admin_route request "Failed to fetch routing insights" (fun token =>
    '(statsData, requestsData) ← promise_both
       (gatewayAdminFetch ("/admin/requests/stats?" ++ params_to_string statsParams) get_init
          (Some token))
       (gatewayAdminFetch ("/admin/requests?" ++ params_to_string requestsParams) get_init
          (Some token));
    let summary := js_or (opt_get statsData "summary") (JObj []) in
    decisions ← map_indexed decision_of 0 (js_array (opt_get requestsData "data"));
    next_json (JObj
      [("metrics", insights_metrics summary); ("decisions", JArr (map d_row decisions));
       ("strategy_distribution",
        distribution_js "strategy" (distribution (fun d => Some (d_strategy d)) decisions));
       ("route_group_distribution",
        distribution_js "route_group" (distribution d_route_group decisions));
       ("model_distribution",
        distribution_js "model" (distribution (fun d => Some (d_model d)) decisions));
       ("provider_health", JArr (js_array (opt_get statsData "provider_health")));
       ("status_breakdown", js_or (opt_get statsData "status_breakdown") (JObj []));
       ("traffic_over_time", JArr (js_array (opt_get statsData "traffic_over_time")));
       ("summary", summary);
       ("window_hours", JNum (js_to_number
          (js_coalesce (opt_get statsData "window_hours") (JStr windowHours))))])).

(** ** routing *)

Definition routing_catch (fallback : string) (e : exn) : M NextResponse :=
  let out m t s := next_json_status (JObj [("error", JObj [("message", JStr m); ("type", JStr t)])]) s in
  match e with
  | GatewayAdminError m code _ => out m "gateway_error" (status_or_500 code)
  | JsError _ => out fallback "internal_error" 500%Z
  end.

Definition object_or (v d : js) : js := if is_object v then v else d.

Definition replay_body (response : js) : js :=
  let root := object_or response (JObj []) in
  let replayResult := object_or (opt_get root "replay_result") root in
  let decisionSnapshot :=
    object_or (opt_get root "decision_snapshot")
      (object_or_undefined (opt_get replayResult "decision_snapshot")) in
  let routingSnapshotFull :=
    object_or (opt_get root "routing_snapshot")
      (object_or (opt_get root "routing_snapshot_full")
         (object_or_undefined (opt_get replayResult "routing_snapshot"))) in
  let decisionReason :=
    match opt_get root "decision_reason", opt_get replayResult "decision_reason",
          opt_get decisionSnapshot "reason" with
    | JStr s, _, _ => JStr s
    | _, JStr s, _ => JStr s
    | _, _, JStr s => JStr s
    | _, _, _ => JUndef
    end in
  JObj (obj_set "routing_snapshot_full" routingSnapshotFull
         (obj_set "decision_snapshot" decisionSnapshot
           (obj_set "decision_reason" decisionReason (obj_spread [] (entries replayResult))))).

Definition replay_POST (requestId : string) (request : Request) : M NextResponse :=
  try_catch
    (with_admin request (fun token =>
       response ← gatewayAdminFetch
                    ("/admin/replay/" ++ encodeURIComponent requestId ++ "?mode=deterministic")
                    (send "POST" None) (Some token);
       next_json (replay_body response)))
    (routing_catch "Failed to run replay").

Definition routing_snapshot_GET (requestId : string) (request : Request) : M NextResponse :=
  try_catch
    (with_admin request (fun token =>
       forward ("/admin/requests/" ++ encodeURIComponent requestId ++ "/routing") (Some token)))
    (routing_catch "Failed to fetch routing snapshot").

(** ** The distributions *)

Fixpoint count_of (k : string) (m : list (string * Z)) : Z :=
  match m with
  | [] => 0%Z
  | (k', n) :: m' => if String.eqb k k' then n else count_of k m'
  end.

Definition all_positive (m : list (string * Z)) : Prop := Forall (fun e => (0 < e.2)%Z) m.

Lemma count_of_up (k k' : string) (m : list (string * Z)) :
  count_of k (count_up k' m) = (count_of k m + if String.eqb k k' then 1 else 0)%Z.
Proof.
  induction m as [|[x n] m IH]; cbn [count_up]; [done|].
  destruct (String.eqb_spec k' x) as [->|Hne]; cbn [count_of].
  - destruct (String.eqb k x); lia.
  - rewrite IH. destruct (String.eqb_spec k x) as [->|]; [|done].
    destruct (String.eqb_spec x k'); [congruence|lia].
Qed.

Lemma count_up_fst (k x : string) (m : list (string * Z)) :
  In x (map fst (count_up k m)) <-> x = k \/ In x (map fst m).
Proof.
  induction m as [|[y n] m IH]; cbn [count_up map In fst]; [intuition congruence|].
  destruct (String.eqb_spec k y) as [->|]; cbn [map In fst]; [intuition congruence|].
  rewrite IH. intuition congruence.
Qed.

Lemma count_up_NoDup (k : string) (m : list (string * Z)) :
  List.NoDup (map fst m) -> List.NoDup (map fst (count_up k m)).
Proof.
  induction m as [|[y n] m IH]; cbn [count_up map fst]; intros H; [constructor; [by intros []|done]|].
  destruct (String.eqb_spec k y) as [->|]; [done|]. inversion H; subst. constructor; [|auto].
  rewrite count_up_fst. cbn [fst]. intros [->|?]; done.
Qed.

Lemma count_up_positive (k : string) (m : list (string * Z)) :
  all_positive m -> all_positive (count_up k m).
Proof.
  unfold all_positive. induction 1 as [|[y n] m Hn Hm IH]; cbn [count_up]; [by repeat constructor|].
  destruct (String.eqb k y); constructor; cbn in *; auto; lia.
Qed.

(** The entries of a table with unique keys are its positive counts. *)
Lemma count_of_In (m : list (string * Z)) (k : string) (n : Z) :
  List.NoDup (map fst m) -> all_positive m -> In (k, n) m <-> count_of k m = n /\ (0 < n)%Z.
Proof.
  intros Hd Hp. induction m as [|[x v] m IH]; [cbn; intuition lia|].
  inversion Hd as [|? ? Hx Hd']; subst. inversion Hp as [|? ? Hv Hp']; subst. cbn in Hv.
  cbn [count_of In]. destruct (String.eqb_spec k x) as [->|Hne].
  - split; [intros [[= <-]|Hin]; [done|]|intros [-> _]; auto].
    contradict Hx. by apply (in_map fst) in Hin.
  - rewrite IH by done. intuition congruence.
Qed.

Definition named (name : Decision -> option string) (k : string) (d : Decision) : bool :=
  match truthy_env (name d) with Some k' => String.eqb k k' | None => false end.

Lemma distribution_fold (name : Decision -> option string) (ds : list Decision)
    (m : list (string * Z)) :
  let m' := fold_left (fun m d => match truthy_env (name d) with
                                  | Some k => count_up k m
                                  | None => m
                                  end) ds m in
  List.NoDup (map fst m) -> all_positive m ->
  List.NoDup (map fst m') /\ all_positive m' /\
  forall k, count_of k m' =
            (count_of k m + Z.of_nat (List.length (List.filter (named name k) ds)))%Z.
Proof.
  revert m. induction ds as [|d ds IH]; intros m m' Hd Hp; cbn [fold_left] in m'.
  { split; [done|]. split; [done|]. intros k. subst m'. cbn [List.filter List.length]. lia. }
  subst m'. destruct (truthy_env (name d)) as [k0|] eqn:E.
  - destruct (IH (count_up k0 m)) as (H1 & H2 & H3); auto using count_up_NoDup, count_up_positive.
    split; [done|]. split; [done|]. intros k. rewrite H3, count_of_up.
    cbn [List.filter]. unfold named at 2. rewrite E. destruct (String.eqb k k0); cbn; lia.
  - destruct (IH m Hd Hp) as (H1 & H2 & H3). split; [done|]. split; [done|].
    intros k. rewrite H3. cbn [List.filter]. unfold named at 2. by rewrite E.
Qed.

(** A distribution of the routing insights lists every name once, and exactly
    the names that occur: an entry says (k, n) if and only if n decisions, at
    least one, are named k.  Decisions without a name are not counted. *)
Theorem distribution_counts (name : Decision -> option string) (ds : list Decision) :
  List.NoDup (map fst (distribution name ds)) /\
  forall k n, In (k, n) (distribution name ds) <->
              Z.of_nat (List.length (List.filter (named name k) ds)) = n /\ (0 < n)%Z.
Proof.
  destruct (distribution_fold name ds []) as (Hd & Hp & Hc); [constructor|constructor|].
  split; [exact Hd|]. intros k n. unfold distribution.
  rewrite (count_of_In _ k n Hd Hp), Hc. cbn. by rewrite Z.add_0_l.
Qed.
