(* ===== verification/CatalogApi.v ===== *)
(** * Benchmarks, catalogues and the tool-routing test

    src/frontend/src/app/api: benchmarks, model-catalog, tool-catalog and
    tool-routing/test, which creates an inference key for the tenant, uses it once
    and revokes it. *)

From S2P Require Import Prelude JsNumber JsText JsValue Json Effects ConfigPatch.
From S2P Require Import GatewayClient GatewayFacts Routes ModelsApi ConfigApi ObservabilityApi.
Local Open Scope string_scope.

(** ** benchmarks *)

(** A catch clause with an answer of its own for a missing endpoint. *)
Definition on_404 (answer404 : M NextResponse) (fallback : string) (e : exn) : M NextResponse :=
  if status_is 404 e then answer404 else gateway_catch fallback e.

Definition benchmarks_GET (request : Request) : M NextResponse :=
  try_catch
    (with_admin request (fun token =>
       result ← getBenchmarks (Some token);
       d ← data_or_empty result;
       next_json (JObj [("data", d)])))
    (on_404 (next_json (JObj [("data", JArr [])])) "Failed to fetch benchmarks").

Definition benchmarks_POST (request : Request) : M NextResponse :=
  try_catch
    (with_admin request (fun token =>
       body ← req_json request;
       tenant_id ← get body "tenant_id";
       if negb (truthy tenant_id && truthy (opt_get body "models") && truthy (opt_get body "prompts"))
       then bad_request "Missing required fields: tenant_id, models, prompts"
       else
         result ← createBenchmark (JObj [("tenant_id", tenant_id); ("models", opt_get body "models");
                                         ("prompts", opt_get body "prompts")]) (Some token);
         next_json_status result 201))
    (on_404 (next_json_status
       (error_body "Benchmark creation is not available in the current backend version") 501)
       "Failed to create benchmark").

Definition benchmark_GET (benchmarkId : string) (request : Request) : M NextResponse :=
  admin_route request "Failed to fetch benchmark" (fun token =>
    result ← getBenchmark benchmarkId (Some token);
    next_json result).

Definition benchmarks_summary_GET (request : Request) : M NextResponse :=
  try_catch
    (with_admin request (fun token =>
       result ← getBenchmarkSummary (Some token);
       next_json result))
    (on_404 (next_json (JObj [("total_benchmarks", js_of_Z 0); ("avg_latency_ms", js_of_Z 0);
                              ("success_rate", js_of_Z 0)])) "Failed to fetch benchmark summary").

Definition benchmarks_models_GET (request : Request) : M NextResponse :=
  let windowHours := parse_int (query_or "window_hours" "24" request) in
  token_route request "Failed to fetch benchmarks" (fun token =>
    result ← getModelBenchmarks windowHours token;
    next_json result).

Definition benchmarks_models_DELETE (request : Request) : M NextResponse :=
  token_route request "Failed to clear benchmark history" (fun token =>
    result ← deleteModelBenchmarks token;
    next_json result).

(** ** model-catalog and tool-catalog, which differ in the path and the messages *)

Section Catalog.
Variables (path name : string).

Definition catalog_list (request : Request) : M NextResponse :=
  admin_route request ("Failed to fetch " ++ name) (fun token =>
    result ← gatewayAdminFetch (with_query path (searchParams request)) get_init (Some token);
    next_json result).

Definition catalog_create (request : Request) : M NextResponse :=
  admin_route request ("Failed to create " ++ name ++ " entry") (fun token =>
    body ← req_json request;
    result ← gatewayAdminFetch path (send "POST" (Some body)) (Some token);
    next_json_status result 201).

Definition entry_path (provider id : string) : string :=
  path ++ "/" ++ encodeURIComponent provider ++ "/" ++ encodeURIComponent id.

Definition catalog_update (provider id : string) (request : Request) : M NextResponse :=
  admin_route request ("Failed to update " ++ name ++ " entry") (fun token =>
    body ← req_json request;
    result ← gatewayAdminFetch (entry_path provider id) (send "PUT" (Some body)) (Some token);
    next_json result).

Definition catalog_delete (provider id : string) (request : Request) : M NextResponse :=
  admin_route request ("Failed to delete " ++ name ++ " entry") (fun token =>
    _ ← gatewayAdminFetch (entry_path provider id) (send "DELETE" None) (Some token);
    no_content 204).
End Catalog.

Definition model_catalog_GET := catalog_list "/admin/model-catalog" "model catalog".
Definition model_catalog_POST := catalog_create "/admin/model-catalog" "model catalog".
Definition model_catalog_PUT := catalog_update "/admin/model-catalog" "model catalog".
Definition model_catalog_DELETE := catalog_delete "/admin/model-catalog" "model catalog".
Definition tool_catalog_GET := catalog_list "/admin/tool-catalog" "tool catalog".
Definition tool_catalog_POST := catalog_create "/admin/tool-catalog" "tool catalog".
Definition tool_catalog_PUT := catalog_update "/admin/tool-catalog" "tool catalog".
Definition tool_catalog_DELETE := catalog_delete "/admin/tool-catalog" "tool catalog".

(** ** tool-routing/test *)

Definition key_path (tenantId : string) : string :=
  "/admin/tenants/" ++ encodeURIComponent tenantId ++ "/api-keys".
Definition revoke_path (tenantId keyId : string) : string :=
  key_path tenantId ++ "/" ++ encodeURIComponent keyId ++ "/revoke".

Definition revokeEphemeralKey (tenantId keyId : string) (token : option string) : M unit :=
  _ ← gatewayAdminFetch (revoke_path tenantId keyId) (send "POST" None) token; mret tt.

(** [revokeEphemeralKey(...).catch(() => {})] *)
Definition revoke_quietly (tenantId keyId : string) (token : option string) : M unit :=
  try_catch (revokeEphemeralKey tenantId keyId token) (fun _ => mret tt).

Definition key_request : FetchInit :=
  send "POST" (Some (JObj [("name", JStr "__tool_routing_test__");
                           ("scopes", JArr [JStr "inference"])])).

(** The key and its id, or the response that is returned instead. *)
Definition create_ephemeral (tenantId : string) (token : option string)
  : M (NextResponse + (js * js)) :=
  try_catch
    (createResult ← gatewayAdminFetch (key_path tenantId) key_request token;
     let key := opt_get createResult "key" in
     let id := opt_get createResult "id" in
     if negb (truthy key && truthy id) then
       r ← next_json_status (error_body "Failed to obtain test credentials for tenant") 500;
       mret (inl r)
     else mret (inr (key, id)))
    (fun e =>
       r ← (match e with
            | GatewayAdminError m code _ => next_json_status (error_body m) (code_or_500 code)
            | JsError _ => next_json_status (error_body "Failed to create test credentials") 500
            end);
       mret (inl r)).

Definition inference_request (base : string) (key body : js) : HttpRequest :=
  mkHttpRequest "POST" (base ++ "/v1/chat/completions")
    [("Content-Type", "application/json"); ("X-API-Key", js_to_string key)]
    (json_stringify body).

(** The headers that are copied from the answer when they are set. *)
Definition tool_headers (r : HttpResponse) : list (string * string) :=
  fold_left (fun acc k => set_given k (params_get k (res_headers r)) acc)
    ["x-tool-route"; "x-tool-action"; "x-tool-route-similarity"; "x-selected-model"]
    [("content-type", "application/json")].

(** [new Response(text, { status, headers })]: a RangeError outside of 200 to 599, a
    TypeError for a status that forbids a body. *)
Definition raw_response (text : string) (status : Z) (headers : list (string * string))
  : M NextResponse :=
  if json_status status then mret (mkResponse status (BodyRaw text) headers)
  else throw (JsError "Response with null body status cannot have body").

(** The use of the key: nothing is returned before the key is revoked. *)
Definition use_and_revoke (base tenantId : string) (key id body : js) (token : option string)
  : M NextResponse :=
  inference ← settle (fetch (inference_request base key body));
  _ ← revoke_quietly tenantId (js_to_string id) token;
  match inference with
  | Throw _ => next_json_status (error_body "Backend unreachable") 503
  | Ok res =>
      responseText ← res_text res;
      raw_response responseText (res_status res) (tool_headers res)
  end.

Definition tool_test_POST (request : Request) : M NextResponse :=
  e ← ask env;
  match truthy_env (query "tenant_id" request), truthy_env (GATEWAY_BASE_URL e) with
  | None, _ => bad_request "tenant_id is required"
  | Some _, None => next_json_status (error_body "Missing GATEWAY_BASE_URL") 500
  | Some tenantId, Some base =>
      match json_parse (req_body request) with
      | None => bad_request "Invalid request body"
      | Some body =>
          token ← getAdminAuthToken request;
          created ← create_ephemeral tenantId token;
          match created with
          | inl r => mret r
          | inr (key, id) => use_and_revoke base tenantId key id body token
          end
      end
  end.

(** ** The life of the ephemeral key *)

Lemma revoke_quietly_run (w : World) (tok : option string) (base key tenantId id : string)
    (s : State) :
  configured w tok base key ->
  exists s' rest, revoke_quietly tenantId id tok w s = (Ok tt, s') /\
    sent s' = (sent s ++ gateway_request base (revoke_path tenantId id) (send "POST" None)
                           (credential_of tok key) :: rest)%list.
Proof.
  intros Hc.
  destruct (gateway_first w tok base key (revoke_path tenantId id) (send "POST" None) s Hc)
    as (rest & Hr).
  unfold revoke_quietly, revokeEphemeralKey, try_catch, mbind, M_bind.
  destruct (gatewayAdminFetch _ _ _ w s) as [[v|e] s']; cbn in Hr; by exists s', rest.
Qed.

Lemma create_ephemeral_ok (w : World) (tok : option string) (base key tenantId : string)
    (created : js) (s : State) :
  configured w tok base key ->
  let r := gateway_request base (key_path tenantId) key_request (credential_of tok key) in
  serves w s r created ->
  truthy (opt_get created "key") = true -> truthy (opt_get created "id") = true ->
  create_ephemeral tenantId tok w s =
  (Ok (inr (opt_get created "key", opt_get created "id")), after s [r]).
Proof.
  intros Hc r Hr Hk Hi. unfold create_ephemeral, try_catch, mbind, M_bind.
  rewrite (gateway_ok w tok base key _ _ s created Hc Hr). cbv zeta. by rewrite Hk, Hi.
Qed.

(** What the caller is answered, from the outcome of the inference alone. *)
Definition test_answer (o : outcome HttpResponse) : outcome NextResponse :=
  match o with
  | Throw _ => Ok (mkResponse 503 (BodyJson (error_body "Backend unreachable")) [])
  | Ok res =>
      match res_body res with
      | None => Throw (JsError "terminated")
      | Some text =>
          if json_status (res_status res)
          then Ok (mkResponse (res_status res) (BodyRaw text) (tool_headers res))
          else Throw (JsError "Response with null body status cannot have body")
      end
  end.

Lemma use_and_revoke_run (w : World) (tok : option string) (base syskey tenantId : string)
    (key id body : js) (s : State) :
  configured w tok base syskey ->
  let use := inference_request base key body in
  let revoke := gateway_request base (revoke_path tenantId (js_to_string id)) (send "POST" None)
                  (credential_of tok syskey) in
  exists s' rest,
    use_and_revoke base tenantId key id body tok w s = (test_answer (net w (sent s) use), s') /\
    sent s' = (sent s ++ use :: revoke :: rest)%list.
Proof.
  intros Hc use revoke.
  assert (Ha : absolute_url (http_url use) = true)
    by (apply absolute_url_app, (conf_url _ _ _ _ Hc)).
  unfold use_and_revoke, settle, mbind, M_bind. fold use. rewrite (fetch_eval use w s Ha).
  set (s1 := mkState _ _).
  destruct (revoke_quietly_run w tok base syskey tenantId (js_to_string id) s1 Hc)
    as (s' & rest & Hr & Hs). rewrite Hr.
  exists s', rest. fold revoke in Hs. subst s1. cbn [sent] in Hs. rewrite <- app_assoc in Hs.
  split; [|exact Hs]. destruct (net w (sent s) use) as [res|e]; cbn [test_answer]; [|done].
  unfold res_text, raw_response. destruct (res_body res); [|done].
  cbn. by destruct (json_status (res_status res)).
Qed.

(** The whole handler, once a key with an id was created *)
Lemma tool_test_run (w : World) (request : Request) (s : State)
    (base syskey tenantId : string) (body created : js) :
  let tok := request_token w request in
  let create := gateway_request base (key_path tenantId) key_request (credential_of tok syskey) in
  let use := inference_request base (opt_get created "key") body in
  let revoke := gateway_request base (revoke_path tenantId (js_to_string (opt_get created "id")))
                  (send "POST" None) (credential_of tok syskey) in
  configured w tok base syskey ->
  truthy_env (query "tenant_id" request) = Some tenantId ->
  json_parse (req_body request) = Some body ->
  serves w s create created ->
  truthy (opt_get created "key") = true -> truthy (opt_get created "id") = true ->
  exists s' rest,
    tool_test_POST request w s = (test_answer (net w (sent s ++ [create])%list use), s') /\
    sent s' = (sent s ++ create :: use :: revoke :: rest)%list.
Proof.
  intros tok create use revoke Hc Ht Hb Hs Hk Hi.
  unfold tool_test_POST, ask, mbind, M_bind.
  rewrite Ht, (conf_base _ _ _ _ Hc), Hb, token_eval. fold tok.
  rewrite (create_ephemeral_ok w tok base syskey tenantId created s Hc Hs Hk Hi). fold create.
  destruct (use_and_revoke_run w tok base syskey tenantId (opt_get created "key")
              (opt_get created "id") body (after s [create]) Hc) as (s' & rest & Hr & Ha).
  exists s', rest. rewrite Hr. fold use. cbn [sent after] in Ha |- *.
  split; [done|]. by rewrite Ha, <- app_assoc.
Qed.


