(* ===== verification/ApiFacts.v ===== *)
(** * Laws of the whole API

    What holds of every route: the guarded routes answer 401 and send nothing
    without a credential, every route answers in a sane world, and the routes that
    are not guarded act under the system API key for an anonymous caller. *)

From S2P Require Import Prelude JsNumber JsText JsValue Json Effects ConfigPatch GatewayClient GatewayFacts Routes.
From S2P Require Import AuthRoutes ModelsApi BudgetsApi TenantsApi ConfigApi FinopsApi SemanticApi ObservabilityApi CatalogApi.
Local Open Scope string_scope.

Section Lists.
(** The segments of the dynamic paths. *)
Variables (id id2 : string).

(** The routes behind [requireAdminBearer] or [requireTenantAuth]. *)
Definition guarded_routes : list (Request -> M NextResponse) :=
  [models_GET; models_POST; model_GET id; model_PATCH id; model_DELETE id;
   route_groups_GET; route_groups_POST; route_group_GET id; route_group_PATCH id;
   route_group_DELETE id;
   budgets_GET; budgets_POST; budgets_overview_GET; budget_GET id; budget_PATCH id;
   budget_DELETE id; budgets_tenants_GET;
   tenant_GET id; tenant_DELETE id; tenant_api_keys_GET id; tenant_usage_GET id;
   tenant_budgets_status_GET id;
   config_diff_GET; config_apply_POST; system_health_GET; audit_export_GET; keycloak_test_POST;
   api_key_usage_GET id; api_keys_requests_GET; api_keys_usage_GET; billing_report_GET;
   jwt_sub_usage_GET id; jwt_subs_requests_GET; jwt_subs_usage_GET; tenant_request_stats_GET;
   usage_summaries_GET;
   semantic_correlation_GET; semantic_routing_GET; router_performance_GET; semantic_cache_GET;
   request_explorer_GET; routing_insights_GET; replay_POST id; routing_snapshot_GET id;
   benchmarks_GET; benchmarks_POST; benchmark_GET id; benchmarks_summary_GET;
   model_catalog_GET; model_catalog_POST; model_catalog_PUT id id2; model_catalog_DELETE id id2;
   tool_catalog_GET; tool_catalog_POST; tool_catalog_PUT id id2; tool_catalog_DELETE id id2].

(** The routes that take a token if there is one. *)
Definition open_routes : list (Request -> M NextResponse) :=
  [budget_tenant_PATCH id; tenants_GET; tenants_POST; tenant_budget_PATCH id;
   tenant_config_PATCH id; tenant_api_key_create_POST id; tenant_api_key_rotate_POST id id2;
   tenant_api_key_revoke_POST id id2; tenant_pii_test_POST id;
   providers_GET; provider_GET id; provider_PATCH id; provider_credentials_POST id;
   global_config_GET; global_config_PATCH; global_config_changes_GET; admin_models_GET;
   config_history_GET; config_versions_GET; audit_GET; (fun _ => dashboard_GET);
   anchors_GET; anchors_POST; anchor_PATCH id; anchor_DELETE id; suggest_POST; calibrate_POST;
   semantic_test_POST; semantic_routes_POST; semantic_routes_GET; semantic_route_GET id;
   semantic_route_PATCH id; semantic_route_DELETE id; threshold_GET; threshold_PATCH;
   cost_analytics_GET; model_performance_GET; logs_GET; metrics_GET; real_metrics_GET;
   benchmarks_models_GET; benchmarks_models_DELETE].
End Lists.

(** ** The guard *)

Section Denied.
Context (w : World) (request : Request) (s : State).
Context (H : truthy_env (request_token w request) = None).

Lemma admin_denied (k : string -> M NextResponse) :
  with_admin request k w s = (Ok auth_required, s).
Proof. exact (guarded_with_admin (fun _ => k) w request s H). Qed.

Lemma tenant_denied (k : string -> M NextResponse) :
  with_tenant request k w s = (Ok auth_required, s).
Proof. exact (guarded_with_tenant (fun _ => k) w request s H). Qed.

Lemma try_admin_denied (k : string -> M NextResponse) (c : exn -> M NextResponse) :
  try_catch (with_admin request k) c w s = (Ok auth_required, s).
Proof. exact (guarded_try _ c (guarded_with_admin (fun _ => k)) w request s H). Qed.

Lemma try_tenant_denied (k : string -> M NextResponse) (c : exn -> M NextResponse) :
  try_catch (with_tenant request k) c w s = (Ok auth_required, s).
Proof. exact (guarded_try _ c (guarded_with_tenant (fun _ => k)) w request s H). Qed.
End Denied.

Lemma all_guarded (id id2 : string) : Forall guarded (guarded_routes id id2).
Proof.
  repeat (constructor;
    [intros w request s H;
     first [exact (try_admin_denied w request s H _ _) | exact (try_tenant_denied w request s H _ _)
           | exact (admin_denied w request s H _)]|]).
  constructor.
Qed.

(** ** Answers *)

Section Answers.
Context (w : World) (Hw : sane w).

Lemma answers_finops (request : Request) (c : exn -> M NextResponse) (k : string -> M NextResponse) :
  (forall t, raises w reportable (k t)) -> (forall e, reportable e -> answers w (c e)) ->
  answers w (finops_route request c k).
Proof.
  intros Hk Hc. apply raises_with_admin. intros t. eapply raises_try; [apply Hk|exact Hc].
Qed.

Lemma answers_not_found (p t : string) (e : exn) : reportable e -> answers w (not_found_catch p t e).
Proof.
  intros He. unfold not_found_catch. destruct (status_is 404 e);
    [by apply answers_next_json_status|by apply answers_gateway_catch].
Qed.

Lemma answers_on_404 (m : M NextResponse) (t : string) (e : exn) :
  answers w m -> reportable e -> answers w (on_404 m t e).
Proof.
  intros Hm He. unfold on_404. destruct (status_is 404 e); [done|by apply answers_gateway_catch].
Qed.

Lemma answers_try (m : M NextResponse) (c : exn -> M NextResponse) :
  raises w reportable m -> (forall e, reportable e -> answers w (c e)) ->
  answers w (try_catch m c).
Proof. apply raises_try. Qed.

Lemma answers_with_admin (request : Request) (k : string -> M NextResponse) :
  (forall t, answers w (k t)) -> answers w (with_admin request k).
Proof. apply raises_with_admin. Qed.

Lemma answers_csv (request : Request) (path file t : string) :
  answers w (csv_export request path file t).
Proof.
  apply answers_with_admin. intros tok. apply raises_bind; [apply raises_ask|]. intros e.
  destruct (truthy_env _); [|by apply answers_next_json_status].
  apply answers_try; [solve_route|]. intros. by apply answers_next_json_status.
Qed.

Lemma raises_stats (acc : Accumulator) (l : list js) : raises w reportable (stats_totals acc l).
Proof.
  revert acc. induction l as [|x l IH]; intros acc; cbn [stats_totals]; [apply raises_ret|].
  apply raises_bind; [solve_route|exact IH].
Qed.

Lemma raises_promise_list {A} (l : list (M A)) :
  Forall (raises w reportable) l -> raises w reportable (promise_all (fun m => m) l).
Proof.
  intros Hl. unfold promise_all.
  assert (Hs : spec w (settle_all (fun m => m) l) (fun o _ =>
    match o with
    | Ok os => Forall (fun x => match x with Throw e => reportable e | Ok _ => True end) os
    | Throw _ => False
    end)).
  { induction Hl as [|m l Hm Hl IH]; cbn [settle_all]; [by apply spec_ret|].
    eapply spec_bind; [apply (spec_settle w m _ Hm)| |done]. intros x n Hx.
    eapply spec_bind; [exact IH| |done]. intros os n2 Hos. apply spec_ret. by constructor. }
  eapply spec_bind; [exact Hs| |done]. intros os n Hos. cbn in Hos.
  destruct (collect os) as [bs|e] eqn:Ec; [by apply raises_ret|].
  apply raises_throw. apply collect_throw in Ec. exact (proj1 (List.Forall_forall _ _) Hos _ Ec).
Qed.

Lemma answers_dashboard : answers w dashboard_GET.
Proof.
  apply answers_open_route. apply raises_bind.
  - apply raises_promise_list. repeat constructor; solve_route.
  - solve_route.
Qed.
End Answers.
#[export] Hint Resolve raises_stats : effects.

(** A catch clause that builds one response for each kind of error. *)
Ltac solve_catch :=
  let e := fresh "e" in let He := fresh "He" in
  intros e He; destruct e as [? [?|] ?|?];
  first [ by apply answers_next_json_status
        | apply answers_next_json_status; [exact (reportable_status _ _ _ He)|done]
        | by apply answers_gateway_catch ].

(** Finds the shape of a route, unfolding it. *)
Ltac answers_shape :=
  lazymatch goal with
  | |- answers _ dashboard_GET => by apply answers_dashboard
  | |- answers _ (csv_export _ _ _ _) => by apply answers_csv
  | |- answers _ (admin_route _ _ _) => apply answers_admin_route
  | |- answers _ (tenant_route _ _ _) => apply answers_tenant_route
  | |- answers _ (token_route _ _ _) => apply answers_token_route
  | |- answers _ (open_route _ _) => apply answers_open_route
  | |- answers _ (with_admin _ _) => apply answers_with_admin; intro; answers_shape
  | |- answers _ (finops_route _ (gateway_catch _) _) =>
      apply answers_finops; [|apply answers_gateway_catch]
  | |- answers _ (finops_route _ (not_found_catch _ _) _) =>
      apply answers_finops; [|apply answers_not_found]
  | |- answers _ (try_catch _ (on_404 _ _)) =>
      apply answers_try; [|intros e; apply answers_on_404; by apply answers_next_json_status]
  | |- answers _ (try_catch _ _) => apply answers_try; [|solve_catch]
  | |- answers _ ?m => let h := head_of m in progress unfold h; cbv zeta beta; answers_shape
  end.
Ltac solve_answers := intros request; answers_shape; solve_route.

Lemma all_answer (w : World) (id id2 : string) : sane w ->
  Forall (fun h => forall request, answers w (h request))
    (guarded_routes id id2 ++ open_routes id id2).
Proof.
  intros Hw. apply Forall_app. split; repeat (constructor; [solve_answers|]); constructor.
Qed.

(** ** The system key *)

Section SystemKey.
Context (w : World) (request : Request).
Context (Hu : useBearer (request_token w request) = false).

Definition with_key (r : HttpRequest) : Prop := carries_api_key r = true.

Lemma sends_with_key (path : string) (init : FetchInit) (tok : option string) :
  useBearer tok = false -> params_get "X-API-Key" (init_headers init) = None ->
  sends w with_key (gatewayAdminFetch path init tok).
Proof.
  intros Ht Hi. eapply sends_impl; [|by apply sends_key_use].
  intros r Hr. unfold with_key. by rewrite Hr, Ht.
Qed.

Lemma sends_token_bind {B} (f : option string -> M B) :
  sends w with_key (f (request_token w request)) ->
  sends w with_key (getAdminAuthToken request ≫= f).
Proof. apply sends_yields. intros s. apply token_eval. Qed.

Lemma sends_map {A B} (P : HttpRequest -> Prop) (f : A -> M B) (l : list A) :
  (forall x, sends w P (f x)) -> sends w P (map_elems f l).
Proof.
  intros Hf. induction l as [|x l IH]; cbn [map_elems]; [apply sends_ret|].
  apply sends_bind; [apply Hf|]. intros y. apply sends_bind; [exact IH|]. intros r. apply sends_ret.
Qed.

Lemma sends_stats (P : HttpRequest -> Prop) (acc : Accumulator) (l : list js) :
  sends w P (stats_totals acc l).
Proof.
  revert acc. induction l as [|x l IH]; intros acc; cbn [stats_totals]; [apply sends_ret|].
  apply sends_bind; [unfold add_stats; solve_sends|exact IH].
Qed.

Lemma sends_promise_list {A} (P : HttpRequest -> Prop) (l : list (M A)) :
  Forall (sends w P) l -> sends w P (promise_all (fun m => m) l).
Proof.
  intros Hl. apply sends_bind; [|intros os; destruct (collect os); [apply sends_ret|apply sends_throw]].
  induction Hl as [|m l Hm Hl IH]; cbn [settle_all]; [apply sends_ret|].
  apply sends_bind; [by apply sends_settle|]. intros o. apply sends_bind; [exact IH|].
  intros os. apply sends_ret.
Qed.
End SystemKey.
#[export] Hint Resolve sends_stats : effects.

Ltac key_step :=
  lazymatch goal with
  | |- forall _, _ => intro
  | |- sends _ _ (gatewayAdminFetch _ _ _) =>
      apply sends_with_key; [first [assumption | reflexivity]|reflexivity]
  | |- sends _ _ (getAdminAuthToken _ ≫= _) => apply sends_token_bind
  | |- sends _ _ (promise_all (fun m => m) dashboard_reads) =>
      apply sends_promise_list; unfold dashboard_reads
  | |- Forall _ _ => constructor
  | |- sends _ _ (_ ≫= _) => apply sends_bind
  | |- sends _ _ (promise_both _ _) => apply sends_both
  | |- sends _ _ (find_elem _ _) => apply sends_find
  | |- sends _ _ (map_elems _ _) => apply sends_map
  | |- sends _ _ (try_catch _ _) => apply sends_try
  | |- sends _ _ (throw _) => apply sends_throw
  | |- sends _ _ (if ?b then _ else _) => destruct b
  | |- sends _ _ (match ?x with _ => _ end) => destruct x
  | |- sends _ _ ?m =>
      first [ solve [auto 1 with effects nocore] | progress cbv zeta
            | let h := head_of m in progress unfold h ]
  end.

Lemma anonymous_key (w : World) (request : Request) (id id2 : string) :
  useBearer (request_token w request) = false ->
  Forall (fun h => sends w with_key (h request)) (open_routes id id2).
Proof. intros Hu. repeat (constructor; [solve [repeat key_step]|]). constructor. Qed.

Lemma blank_token (o : option string) : truthy_env o = None -> useBearer o = false.
Proof. destruct o as [t|]; [|done]. cbn. by destruct (String.eqb t ""). Qed.

(** ** Properties *)

(** C6: Every guarded route denies a request without a credential: it answers 401
    with the fixed body, sends nothing to anyone, and reads no clock.  The list has
    the 56 handlers of the API that call requireAdminBearer or requireTenantAuth
    before anything else. *)
Theorem guarded_routes_deny (id id2 : string) (h : Request -> M NextResponse) (w : World)
    (request : Request) (s : State) :
  In h (guarded_routes id id2) -> truthy_env (request_token w request) = None ->
  h request w s = (Ok auth_required, s).
Proof.
  intros Hh. exact (proj1 (List.Forall_forall _ _) (all_guarded id id2) h Hh w request s).
Qed.

Lemma guarded_routes_deny_witness :
  model_DELETE "gpt-4o" anonymous (demo_world [] (fun _ => reply 200 "{}")) start =
  (Ok auth_required, start).
Proof.
  apply (guarded_routes_deny "gpt-4o" "" (model_DELETE "gpt-4o")
           (demo_world [] (fun _ => reply 200 "{}")) anonymous start);
    [do 4 right; left; reflexivity | reflexivity].
Defined.



(** C19: The routes without a guard act under the system API key for a caller who has
    no credential: whatever such a route sends for an anonymous request carries the
    X-API-Key header.  The list has the writes of tenant configurations, budgets,
    API keys, providers and the global configuration. *)
Theorem open_routes_use_system_key (w : World) (id id2 : string) (h : Request -> M NextResponse)
    (request : Request) :
  In h (open_routes id id2) -> truthy_env (request_token w request) = None ->
  sends w (fun r => carries_api_key r = true) (h request).
Proof.
  intros Hh Ht.
  exact (proj1 (List.Forall_forall _ _) (anonymous_key w request id id2 (blank_token _ Ht)) h Hh).
Qed.

Definition config_write : Request :=
  posting (JObj [("version", js_of_Z 3); ("patch", JObj [("enabled", JBool false)])]).

(** The witness also shows that the write is sent. *)
Lemma open_routes_use_system_key_witness :
  let w := demo_world [] (fun _ => reply 200 "{}") in
  sends w (fun r => carries_api_key r = true) (tenant_config_PATCH "acme" config_write) /\
  map http_method (sent (tenant_config_PATCH "acme" config_write w start).2) = ["PATCH"].
Proof.
  split.
  - apply (open_routes_use_system_key (demo_world [] (fun _ => reply 200 "{}")) "acme" ""
             (tenant_config_PATCH "acme") config_write);
      [do 4 right; left; reflexivity | reflexivity].
  - vm_compute. reflexivity.
Defined.
