(* ===== verification/ApiClient.v ===== *)
(** * The browser's API client and its refresh queue

    src/frontend/src/lib/api/client.ts.  The client is one object shared by every
    request of the page; the requests run interleaved, and the shared state is the
    flag [isRefreshing] and the queue of callbacks.  Each request is a task, and its
    phase says which await it has reached; an event delivers what a task waits for.
    The events may come in any order, so every schedule of the event loop is among
    the traces. *)

From stdpp Require Import sets.
From S2P Require Import Prelude JsNumber JsText JsValue Json Effects GatewayClient.
Local Open Scope string_scope.

(** ** Data *)

Record ApiClientConfig := mkApiConfig {
  baseURL : string;
  apiKey : option string;
  bearerToken : option string;
}.

(** [rc_body] is [JUndef] when there is none. *)
Record RequestConfig := mkRequestConfig {
  rc_method : option string;
  rc_headers : list (string * string);
  rc_body : js;
  rc_params : list (string * js);
}.
Definition get_config : RequestConfig := mkRequestConfig None [] JUndef [].

(** What a task does next.  A task holds its resolved address and its options. *)
Inductive phase : Type :=
| Fetching (url : string) (cfg : RequestConfig)
| Refreshing (url : string) (cfg : RequestConfig) (session refreshToken : js)
| RefreshBody (url : string) (cfg : RequestConfig) (session refreshToken : js) (res : HttpResponse)
| RefreshError (url : string) (cfg : RequestConfig)
| Waiting (url : string) (cfg : RequestConfig)
| Resumed (url : string) (cfg : RequestConfig) (refreshed : bool)
| Retrying
| Reading (res : HttpResponse)
| Done (o : outcome (js * Z)).

(** The client and what it touches: the session in localStorage, the page's
    location, and the requests that were sent. *)
Record Client := mkClient {
  config : ApiClientConfig;
  isRefreshing : bool;
  refreshQueue : list nat;
  tasks : list phase;
  storage : option string;
  location : option string;
  log : list HttpRequest;
}.

Definition new_client (c : ApiClientConfig) (stored : option string) : Client :=
  mkClient c false [] [] stored None [].

Definition set_task (i : nat) (p : phase) (c : Client) : Client :=
  mkClient (config c) (isRefreshing c) (refreshQueue c) (<[i := p]> (tasks c)) (storage c)
    (location c) (log c).
Definition set_refreshing (b : bool) (c : Client) : Client :=
  mkClient (config c) b (refreshQueue c) (tasks c) (storage c) (location c) (log c).
Definition set_queue (q : list nat) (c : Client) : Client :=
  mkClient (config c) (isRefreshing c) q (tasks c) (storage c) (location c) (log c).
Definition set_storage (o : option string) (c : Client) : Client :=
  mkClient (config c) (isRefreshing c) (refreshQueue c) (tasks c) o (location c) (log c).
Definition set_location (u : string) (c : Client) : Client :=
  mkClient (config c) (isRefreshing c) (refreshQueue c) (tasks c) (storage c) (Some u) (log c).
Definition set_config (k : ApiClientConfig) (c : Client) : Client :=
  mkClient k (isRefreshing c) (refreshQueue c) (tasks c) (storage c) (location c) (log c).
Definition add_log (r : HttpRequest) (c : Client) : Client :=
  mkClient (config c) (isRefreshing c) (refreshQueue c) (tasks c) (storage c) (location c)
    (log c ++ [r])%list.
Definition add_task (p : phase) (c : Client) : Client :=
  mkClient (config c) (isRefreshing c) (refreshQueue c) (tasks c ++ [p])%list (storage c)
    (location c) (log c).

(** ** Operations *)

Definition getHeaders (k : ApiClientConfig) (custom : list (string * string))
  : list (string * string) :=
  let headers := headers_spread [("Content-Type", "application/json")] custom in
  let headers := match truthy_env (apiKey k) with
                 | Some key => params_set "X-API-Key" key headers
                 | None => headers
                 end in
  match truthy_env (bearerToken k) with
  | Some t => params_set "Authorization" ("Bearer " ++ t) headers
  | None => headers
  end.

(** The request a task sends, under the headers of the moment. *)
Definition client_request (k : ApiClientConfig) (url : string) (cfg : RequestConfig) : HttpRequest :=
  mkHttpRequest (match truthy_env (rc_method cfg) with Some m => m | None => "GET" end) url
    (getHeaders k (rc_headers cfg))
    (if truthy (rc_body cfg) then json_stringify (rc_body cfg) else None).

Definition refresh_post (refreshToken : js) : HttpRequest :=
  mkHttpRequest "POST" "/api/auth/refresh" [("Content-Type", "application/json")]
    (Some (json_str (JObj [("refresh_token", refreshToken)]))).

(** [handleTokenRefresh] up to its first await, on behalf of task [i]. *)
Definition begin_refresh (i : nat) (url : string) (cfg : RequestConfig) (c : Client) : Client :=
  if isRefreshing c then
    set_task i (Waiting url cfg) (set_queue (refreshQueue c ++ [i])%list c)
  else
    let no_refresh c := set_task i (Resumed url cfg false) (set_refreshing false c) in
    match truthy_env (storage c) with
    | None => no_refresh c
    | Some stored =>
        match json_parse stored with
        | None => no_refresh (set_queue [] c)
        | Some session =>
            let refreshToken := opt_get session "refreshToken" in
            if negb (truthy refreshToken) then no_refresh c
            else set_task i (Refreshing url cfg session refreshToken)
                   (add_log (refresh_post refreshToken) (set_refreshing true c))
        end
    end.

(** [this.refreshQueue.forEach(cb => cb())]: each callback resolves its promise
    with true. *)
Definition resolve_waiter (c : Client) (i : nat) : Client :=
  match tasks c !! i with
  | Some (Waiting url cfg) => set_task i (Resumed url cfg true) c
  | _ => c
  end.
Definition flush_queue (c : Client) : Client :=
  set_queue [] (fold_left resolve_waiter (refreshQueue c) c).

(** The return of [handleTokenRefresh], its finally block included. *)
Definition end_refresh (i : nat) (url : string) (cfg : RequestConfig) (refreshed : bool)
    (c : Client) : Client :=
  set_task i (Resumed url cfg refreshed) (set_refreshing false c).

(** The catch clause: the queue is dropped. *)
Definition fail_refresh (i : nat) (url : string) (cfg : RequestConfig) (c : Client) : Client :=
  end_refresh i url cfg false (set_queue [] c).

(** [Date.now() + seconds * 1000] *)
Definition expiry (now : Z) (seconds : js) : js :=
  js_add (js_of_Z now) (js_mul seconds (js_of_Z 1000)).

(** The session with the granted tokens; the clock is read once or twice. *)
Definition updatedSession (session refreshToken data : js) (now1 now2 : Z) : js :=
  let refreshExpiresIn := opt_get data "refresh_expires_in" in
  JObj (obj_spread (obj_spread [] (entries session))
    [("accessToken", opt_get data "access_token");
     ("refreshToken", js_or (opt_get data "refresh_token") refreshToken);
     ("expiresAt", expiry now1 (js_or (opt_get data "expires_in") (js_of_Z 3600)));
     ("refreshExpiresAt", if truthy refreshExpiresIn then expiry now2 refreshExpiresIn
                          else opt_get session "refreshExpiresAt")]).

(** The answer to the refresh has arrived. *)
Definition refresh_answered (i : nat) (url : string) (cfg : RequestConfig) (session rt : js)
    (o : outcome HttpResponse) (c : Client) : Client :=
  match o with
  | Throw _ => fail_refresh i url cfg c
  | Ok res =>
      if res_ok res then set_task i (RefreshBody url cfg session rt res) c
      else set_task i (RefreshError url cfg) c
  end.

(** Its body has been read.  A body without a token is read a second time, which
    fails, and the error is only logged. *)
Definition refresh_read (i : nat) (url : string) (cfg : RequestConfig) (session rt : js)
    (res : HttpResponse) (now1 now2 : Z) (c : Client) : Client :=
  match body_json res with
  | Throw _ => fail_refresh i url cfg c
  | Ok data =>
      if nullish data then fail_refresh i url cfg c
      else if (truthy (opt_get data "ok") && truthy (opt_get data "access_token"))%bool then
        end_refresh i url cfg true
          (flush_queue (set_storage (Some (json_str (updatedSession session rt data now1 now2))) c))
      else set_task i (RefreshError url cfg) c
  end.

Definition api_error (res : HttpResponse) : exn :=
  JsError ("API Error: " ++ Z_to_string (res_status res) ++ " " ++ res_statusText res).

(** [if (!response.ok) throw ...; await response.json()] *)
Definition read_or_fail (i : nat) (res : HttpResponse) (c : Client) : Client :=
  if res_ok res then set_task i (Reading res) c else set_task i (Done (Throw (api_error res))) c.

Definition first_answered (i : nat) (url : string) (cfg : RequestConfig)
    (o : outcome HttpResponse) (c : Client) : Client :=
  match o with
  | Throw e => set_task i (Done (Throw e)) c
  | Ok res => if (res_status res =? 401)%Z then begin_refresh i url cfg c else read_or_fail i res c
  end.

(** What follows [await this.handleTokenRefresh()]. *)
Definition after_refresh (i : nat) (url : string) (cfg : RequestConfig) (refreshed : bool)
    (c : Client) : Client :=
  if refreshed then set_task i Retrying (add_log (client_request (config c) url cfg) c)
  else set_task i (Done (Throw (JsError "Session expired, please login again")))
         (set_location "/login" c).

Definition body_read (i : nat) (res : HttpResponse) (c : Client) : Client :=
  set_task i (Done (match body_json res with
                    | Ok data => Ok (data, res_status res)
                    | Throw e => Throw e
                    end)) c.

(** ** Events *)

Inductive event : Type :=
| Start (endpoint : string) (cfg : RequestConfig)
| Settle (i : nat) (o : outcome HttpResponse)
| Resume (i : nat) (now1 now2 : Z)
| SetApiKey (key : string)
| SetBearer (token : string)
| Store (o : option string).

Section Steps.
(** The platform's URL class: the address of an endpoint under a base with
    parameters appended, [None] for a TypeError. *)
Variable new_URL : string -> string -> list (string * string) -> option string.

(** [request] up to its first await. *)
Definition start_request (endpoint : string) (cfg : RequestConfig) (c : Client) : Client :=
  match new_URL endpoint (baseURL (config c))
          (map (fun kv => (kv.1, js_to_string kv.2)) (rc_params cfg)) with
  | None => add_task (Done (Throw (JsError "Invalid URL"))) c
  | Some url => add_task (Fetching url cfg) (add_log (client_request (config c) url cfg) c)
  end.

(** One event; [None] when nothing waits for it. *)
Definition client_step (ev : event) (c : Client) : option Client :=
  match ev with
  | Start endpoint cfg => Some (start_request endpoint cfg c)
  | Settle i o =>
      match tasks c !! i with
      | Some (Fetching url cfg) => Some (first_answered i url cfg o c)
      | Some (Refreshing url cfg session rt) => Some (refresh_answered i url cfg session rt o c)
      | Some Retrying => Some (match o with
                               | Throw e => set_task i (Done (Throw e)) c
                               | Ok res => read_or_fail i res c
                               end)
      | _ => None
      end
  | Resume i now1 now2 =>
      match tasks c !! i with
      | Some (RefreshBody url cfg session rt res) =>
          Some (refresh_read i url cfg session rt res now1 now2 c)
      | Some (RefreshError url cfg) => Some (end_refresh i url cfg false (flush_queue c))
      | Some (Resumed url cfg refreshed) => Some (after_refresh i url cfg refreshed c)
      | Some (Reading res) => Some (body_read i res c)
      | _ => None
      end
  | SetApiKey key => Some (set_config (mkApiConfig (baseURL (config c)) (Some key)
                                         (bearerToken (config c))) c)
  | SetBearer token => Some (set_config (mkApiConfig (baseURL (config c)) (apiKey (config c))
                                           (Some token)) c)
  | Store o => Some (set_storage o c)
  end.

(** A trace of events. *)
Fixpoint run (evs : list event) (c : Client) : option Client :=
  match evs with
  | [] => Some c
  | ev :: rest => c' ← client_step ev c; run rest c'
  end.

Inductive reaches (c : Client) : Client -> Prop :=
| reaches_refl : reaches c c
| reaches_step (c1 c2 : Client) (ev : event) :
    reaches c c1 -> client_step ev c1 = Some c2 -> reaches c c2.

End Steps.

(** ** The invariant *)

Definition is_leader (p : phase) : bool :=
  match p with Refreshing _ _ _ _ | RefreshBody _ _ _ _ _ | RefreshError _ _ => true | _ => false end.
Definition is_waiting (p : phase) : bool :=
  match p with Waiting _ _ => true | _ => false end.

Definition leaders (l : list phase) : nat := List.length (List.filter is_leader l).

(** One refresh at most is under way, and the flag says so; the queue holds waiting
    tasks, each once, and only during a refresh. *)
Record client_inv (c : Client) : Prop := {
  inv_leader : leaders (tasks c) = if isRefreshing c then 1 else 0;
  inv_queue : forall i, i ∈ refreshQueue c -> exists url cfg, tasks c !! i = Some (Waiting url cfg);
  inv_nodup : base.NoDup (refreshQueue c);
  inv_idle : isRefreshing c = false -> refreshQueue c = [];
}.

Lemma leaders_insert (l : list phase) (i : nat) (old p : phase) :
  l !! i = Some old ->
  leaders (<[i := p]> l) + Nat.b2n (is_leader old) = leaders l + Nat.b2n (is_leader p).
Proof.
  unfold leaders. revert i. induction l as [|x l IH]; intros [|i]; [done|done| |].
  - intros [= ->]. cbn. destruct (is_leader old), (is_leader p); cbn; lia.
  - intros Hl. specialize (IH i Hl). change (<[S i := p]> (x :: l)) with (x :: <[i := p]> l).
    cbn [List.filter]. destruct (is_leader x); cbn [List.length]; lia.
Qed.

Lemma leaders_app (l : list phase) (p : phase) :
  leaders (l ++ [p])%list = leaders l + Nat.b2n (is_leader p).
Proof.
  unfold leaders. rewrite List.filter_app, List.length_app. cbn. by destruct (is_leader p).
Qed.

(** The only leader is counted. *)
Lemma leader_refreshing (c : Client) (i : nat) (p : phase) :
  client_inv c -> tasks c !! i = Some p -> is_leader p = true -> isRefreshing c = true.
Proof.
  intros Hc Hp Hl. assert (H := leaders_insert (tasks c) i p Retrying Hp).
  rewrite (inv_leader c Hc), Hl in H. cbn in H. destruct (isRefreshing c); [done|lia].
Qed.

(** A task that is neither a leader nor waiting moves on. *)
Lemma inv_set_task (c : Client) (i : nat) (old p : phase) :
  client_inv c -> tasks c !! i = Some old -> is_waiting old = false -> is_leader old = is_leader p ->
  client_inv (set_task i p c).
Proof.
  intros [Hl Hq Hd Hi] Ho Hw Hp. constructor; cbn [set_task tasks isRefreshing refreshQueue]; [|intros j Hj|done|done].
  - assert (H := leaders_insert (tasks c) i old p Ho). rewrite Hp, Hl in H. lia.
  - destruct (Hq j Hj) as (url & cfg & Ht). exists url, cfg.
    rewrite list_lookup_insert_ne; [done|]. intros ->. rewrite Ho in Ht. by simplify_eq.
Qed.

(** Changes outside of the refresh state. *)
Lemma inv_frame (c c' : Client) :
  client_inv c -> isRefreshing c' = isRefreshing c -> refreshQueue c' = refreshQueue c ->
  tasks c' = tasks c -> client_inv c'.
Proof. intros [Hl Hq Hd Hi] H1 H2 H3. constructor; rewrite ?H1, ?H2, ?H3; auto. Qed.

(** The leader returns, with the queue empty. *)
Lemma inv_end_refresh (c : Client) (i : nat) (old : phase) (url : string) (cfg : RequestConfig)
    (b : bool) :
  leaders (tasks c) = 1 -> tasks c !! i = Some old -> is_leader old = true -> refreshQueue c = [] ->
  client_inv (end_refresh i url cfg b c).
Proof.
  intros Hn Ho Hl Hq. unfold end_refresh.
  constructor; cbn [set_task set_refreshing tasks isRefreshing refreshQueue];
    [|rewrite Hq; intros j Hj; by apply elem_of_nil in Hj|rewrite Hq; constructor|done].
  assert (H := leaders_insert (tasks c) i old (Resumed url cfg b) Ho). rewrite Hl in H. cbn in H. lia.
Qed.

(** What waking the queue does to each task. *)
Definition woken (q : list nat) (j : nat) (p : phase) : phase :=
  match p with
  | Waiting url cfg => if decide (j ∈ q) then Resumed url cfg true else p
  | _ => p
  end.

Lemma woken_cons (i : nat) (q : list nat) (j : nat) (p : phase) :
  woken q j (woken [i] j p) = woken (i :: q) j p.
Proof.
  destruct p as [| | | |url cfg| | | |]; try done. cbn.
  destruct (decide (j ∈ [i])) as [Hi|Hi]; cbn; [by rewrite decide_True by set_solver|].
  destruct (decide (j ∈ q)) as [Hq|Hq]; [by rewrite decide_True by set_solver|].
  by rewrite decide_False by set_solver.
Qed.

Lemma resolve_waiter_task (c : Client) (i j : nat) :
  tasks (resolve_waiter c i) !! j = woken [i] j <$> tasks c !! j.
Proof.
  unfold resolve_waiter. destruct (tasks c !! i) as [p|] eqn:Ei.
  - destruct (decide (j = i)) as [->|Hne].
    + rewrite Ei. destruct p; cbn; rewrite ?Ei; try done.
      rewrite list_lookup_insert_eq by (by eapply lookup_lt_Some).
      by rewrite decide_True by set_solver.
    + assert (Hw : woken [i] j <$> tasks c !! j = tasks c !! j).
      { destruct (tasks c !! j) as [[]|]; cbn; try done. by rewrite decide_False by set_solver. }
      rewrite Hw. destruct p; cbn; try done. by rewrite list_lookup_insert_ne.
  - destruct (tasks c !! j) as [p|] eqn:Ej; [|done]. destruct p; cbn; try done.
    rewrite decide_False; [done|]. intros ->%list_elem_of_singleton. congruence.
Qed.

Lemma resolve_waiter_frame (c : Client) (i : nat) :
  let c' := resolve_waiter c i in
  isRefreshing c' = isRefreshing c /\ config c' = config c /\ storage c' = storage c /\
  log c' = log c /\ leaders (tasks c') = leaders (tasks c).
Proof.
  unfold resolve_waiter. destruct (tasks c !! i) as [p|] eqn:Ei; [|done]. destruct p; try done.
  cbv zeta. cbn [set_task tasks isRefreshing config storage log]. do 4 (split; [done|]).
  assert (H := leaders_insert (tasks c) i _ (Resumed url cfg true) Ei). cbn in H. lia.
Qed.

Lemma flush_tasks (q : list nat) (c : Client) :
  let c' := fold_left resolve_waiter q c in
  (isRefreshing c' = isRefreshing c /\ config c' = config c /\ storage c' = storage c /\
   log c' = log c /\ leaders (tasks c') = leaders (tasks c)) /\
  forall j, tasks c' !! j = woken q j <$> tasks c !! j.
Proof.
  revert c. induction q as [|i q IH]; intros c; cbn.
  - split; [done|]. intros j. destruct (tasks c !! j) as [[]|]; cbn; try done.
  - destruct (IH (resolve_waiter c i)) as ((H1 & H2 & H3 & H4 & H5) & H6).
    destruct (resolve_waiter_frame c i) as (F1 & F2 & F3 & F4 & F5).
    split; [by rewrite H1, H2, H3, H4, H5|]. intros j. rewrite H6, resolve_waiter_task.
    destruct (tasks c !! j) as [p|]; [|done]. cbn. by rewrite woken_cons.
Qed.

Lemma inv_flush_end (c : Client) (i : nat) (old : phase) (url : string) (cfg : RequestConfig)
    (b : bool) :
  client_inv c -> tasks c !! i = Some old -> is_leader old = true ->
  client_inv (end_refresh i url cfg b (flush_queue c)).
Proof.
  intros Hc Ho Hl. destruct (flush_tasks (refreshQueue c) c) as ((_ & _ & _ & _ & Hn) & Ht).
  apply (inv_end_refresh _ i old); [| |done|done]; cbn [flush_queue set_queue tasks].
  - rewrite Hn, (inv_leader c Hc). by rewrite (leader_refreshing c i old).
  - rewrite Ht, Ho. by destruct old.
Qed.

Lemma inv_fail (c : Client) (i : nat) (old : phase) (url : string) (cfg : RequestConfig) :
  client_inv c -> tasks c !! i = Some old -> is_leader old = true ->
  client_inv (fail_refresh i url cfg c).
Proof.
  intros Hc Ho Hl. apply (inv_end_refresh (set_queue [] c) i old); [|done|done|done].
  cbn [set_queue tasks]. by rewrite (inv_leader c Hc), (leader_refreshing c i old).
Qed.

Lemma inv_begin (c : Client) (i : nat) (old : phase) (url : string) (cfg : RequestConfig) :
  client_inv c -> tasks c !! i = Some old -> is_waiting old = false -> is_leader old = false ->
  client_inv (begin_refresh i url cfg c).
Proof.
  intros Hc Ho Hw Hl. unfold begin_refresh.
  assert (Hins := fun p => leaders_insert (tasks c) i old p Ho). rewrite Hl in Hins.
  assert (Hi : i ∉ refreshQueue c).
  { intros Hi. destruct (inv_queue c Hc i Hi) as (u & k & Hk). rewrite Ho in Hk. by simplify_eq. }
  destruct (isRefreshing c) eqn:Er.
  - destruct Hc as [Hn Hq Hd Hidle].
    constructor; cbn [set_task set_queue tasks isRefreshing refreshQueue]; [|intros j Hj| |congruence].
    + specialize (Hins (Waiting url cfg)). cbn in Hins. lia.
    + destruct (decide (j = i)) as [->|Hne].
      * exists url, cfg. by rewrite list_lookup_insert_eq by (by eapply lookup_lt_Some).
      * destruct (Hq j) as (u & k & Hk); [set_solver|]. exists u, k.
        by rewrite list_lookup_insert_ne.
    + apply list.NoDup_app. split; [done|]. split; [set_solver|apply NoDup_singleton].
  - assert (Hq := inv_idle c Hc Er). assert (Hn := inv_leader c Hc). rewrite Er in Hn.
    assert (Hoff : client_inv (set_task i (Resumed url cfg false) (set_refreshing false c))).
    { apply (inv_set_task _ i old); [|done|done|by rewrite Hl].
      apply (inv_frame c); [done|by rewrite Er|done|done]. }
    destruct (truthy_env (storage c)) as [stored|]; [|done].
    destruct (json_parse stored) as [session|].
    + destruct (truthy (opt_get session "refreshToken")); cbn [negb]; [|done].
      constructor; cbn [set_task add_log set_refreshing tasks isRefreshing refreshQueue]; rewrite ?Hq;
        [|intros j Hj; by apply elem_of_nil in Hj|constructor|done].
      specialize (Hins (Refreshing url cfg session (opt_get session "refreshToken"))).
      cbn in Hins. lia.
    + eapply inv_frame; [exact Hoff|done|by cbn|done].
Qed.

Section Invariant.
Context (new_URL : string -> string -> list (string * string) -> option string).
Let step := client_step new_URL.

Lemma inv_start (endpoint : string) (cfg : RequestConfig) (c : Client) :
  client_inv c -> client_inv (start_request new_URL endpoint cfg c).
Proof.
  intros [Hl Hq Hd Hi]. unfold start_request.
  assert (Hadd : forall p c', isRefreshing c' = isRefreshing c -> refreshQueue c' = refreshQueue c ->
            tasks c' = tasks c -> is_leader p = false -> client_inv (add_task p c')).
  { intros p c' H1 H2 H3 Hp. constructor; cbn [add_task tasks isRefreshing refreshQueue];
      rewrite ?H1, ?H2, ?H3; [|intros j Hj|done|done].
    - rewrite leaders_app, Hl, Hp. cbn. lia.
    - destruct (Hq j Hj) as (u & k & Hk). exists u, k. by apply lookup_app_l_Some. }
  destruct (new_URL _ _ _); by apply Hadd.
Qed.

Lemma inv_read_or_fail (i : nat) (old : phase) (res : HttpResponse) (c : Client) :
  client_inv c -> tasks c !! i = Some old -> is_waiting old = false -> is_leader old = false ->
  client_inv (read_or_fail i res c).
Proof. intros. unfold read_or_fail. destruct (res_ok res); by apply (inv_set_task _ i old). Qed.

Lemma inv_step (ev : event) (c c' : Client) :
  client_inv c -> step ev c = Some c' -> client_inv c'.
Proof.
  intros Hc. destruct ev as [endpoint cfg|i o|i now1 now2|key|token|o]; cbn [step client_step].
  - intros [= <-]. by apply inv_start.
  - destruct (tasks c !! i) as [p|] eqn:Ei; [|done]. destruct p; try done; intros [= <-].
    + destruct o as [res|e]; cbn [first_answered]; [|by eapply inv_set_task].
      destruct (res_status res =? 401)%Z; [by eapply inv_begin|by eapply inv_read_or_fail].
    + destruct o as [res|e]; cbn [refresh_answered]; [|by eapply inv_fail].
      destruct (res_ok res); by eapply inv_set_task.
    + destruct o as [res|e]; [by eapply inv_read_or_fail|by eapply inv_set_task].
  - destruct (tasks c !! i) as [p|] eqn:Ei; [|done]. destruct p; try done; intros [= <-].
    + unfold refresh_read. destruct (body_json res) as [data|e]; [|by eapply inv_fail].
      destruct (nullish data); [by eapply inv_fail|]. destruct (_ && _)%bool.
      * eapply inv_flush_end; [by eapply inv_frame|done|done].
      * by eapply inv_set_task.
    + by eapply inv_flush_end.
    + unfold after_refresh. destruct refreshed.
      * eapply (inv_set_task _ i); [by eapply inv_frame|done|done|done].
      * eapply (inv_set_task _ i); [by eapply inv_frame|done|done|done].
    + by eapply inv_set_task.
  - intros [= <-]. by eapply inv_frame.
  - intros [= <-]. by eapply inv_frame.
  - intros [= <-]. by eapply inv_frame.
Qed.

Lemma inv_reaches (c c' : Client) : client_inv c -> reaches new_URL c c' -> client_inv c'.
Proof. intros Hc. induction 1; [done|]. by eapply inv_step. Qed.
End Invariant.

Lemma inv_new (k : ApiClientConfig) (stored : option string) : client_inv (new_client k stored).
Proof. constructor; try done; [intros i Hi; by apply elem_of_nil in Hi|constructor]. Qed.

(** ** Who is woken, and who is not *)

Lemma leader_counted (l : list phase) (i : nat) (p : phase) :
  l !! i = Some p -> is_leader p = true -> 0 < leaders l.
Proof. intros Hp Hl. assert (H := leaders_insert l i p Retrying Hp). rewrite Hl in H. cbn in H. lia. Qed.

Lemma counted_leader (l : list phase) :
  0 < leaders l -> exists i p, l !! i = Some p /\ is_leader p = true.
Proof.
  unfold leaders. induction l as [|x l IH]; cbn; [lia|]. destruct (is_leader x) eqn:E.
  - intros _. by exists 0, x.
  - intros H. destruct (IH H) as (i & p & Hp). by exists (S i), p.
Qed.

Lemma leader_unique (l : list phase) (i j : nat) (p q : phase) :
  leaders l <= 1 -> l !! i = Some p -> l !! j = Some q ->
  is_leader p = true -> is_leader q = true -> i = j.
Proof.
  intros Hn Hi Hj Hp Hq. destruct (decide (i = j)) as [|Hne]; [done|].
  assert (H := leaders_insert l i p Retrying Hi). rewrite Hp in H. cbn in H.
  assert (Hc : 0 < leaders (<[i := Retrying]> l)).
  { eapply (leader_counted _ j q); [|done]. by rewrite list_lookup_insert_ne. }
  lia.
Qed.

(** Not in the queue, and waiting. *)
Definition stranded (j : nat) (c : Client) : Prop :=
  (j ∉ refreshQueue c) /\ exists url cfg, tasks c !! j = Some (Waiting url cfg).

Lemma stranded_set (i j : nat) (old p : phase) (c : Client) :
  tasks c !! i = Some old -> is_waiting old = false -> stranded j c -> stranded j (set_task i p c).
Proof.
  intros Ho Hw (Hq & url & cfg & Hj). split; [done|]. exists url, cfg.
  cbn [set_task tasks]. rewrite list_lookup_insert_ne; [done|].
  intros ->. rewrite Hj in Ho. by simplify_eq.
Qed.

Lemma stranded_frame (j : nat) (c c' : Client) :
  refreshQueue c' = refreshQueue c \/ refreshQueue c' = [] -> tasks c' = tasks c ->
  stranded j c -> stranded j c'.
Proof.
  intros Hq Ht (Hn & H). split; [|by rewrite Ht].
  destruct Hq as [->| ->]; [done|]. apply not_elem_of_nil.
Qed.

Lemma stranded_flush (j : nat) (c : Client) : stranded j c -> stranded j (flush_queue c).
Proof.
  intros (Hq & url & cfg & Hj). split; [apply not_elem_of_nil|]. exists url, cfg.
  destruct (flush_tasks (refreshQueue c) c) as (_ & Ht). cbn [flush_queue set_queue tasks].
  rewrite Ht, Hj. cbn. by rewrite decide_False.
Qed.

Lemma flush_other (i : nat) (old : phase) (c : Client) :
  tasks c !! i = Some old -> is_waiting old = false -> tasks (flush_queue c) !! i = Some old.
Proof.
  intros Ho Hw. destruct (flush_tasks (refreshQueue c) c) as (_ & Ht).
  cbn [flush_queue set_queue tasks]. rewrite Ht, Ho. by destruct old.
Qed.

Lemma stranded_begin (i j : nat) (old : phase) (url : string) (cfg : RequestConfig) (c : Client) :
  tasks c !! i = Some old -> is_waiting old = false -> stranded j c ->
  stranded j (begin_refresh i url cfg c).
Proof.
  intros Ho Hw Hj. assert (Hne : j <> i).
  { intros ->. destruct Hj as (_ & u & k & Hk). rewrite Ho in Hk. by simplify_eq. }
  unfold begin_refresh. destruct (isRefreshing c).
  - apply (stranded_set i j old); [done|done|]. destruct Hj as (Hq & Hj). split; [|done].
    cbn [set_queue refreshQueue]. rewrite elem_of_app, list_elem_of_singleton. tauto.
  - destruct (truthy_env (storage c)); [destruct (json_parse _) as [session|];
      [destruct (truthy (opt_get session "refreshToken"))|]|]; cbn [negb];
      apply (stranded_set i j old); try done; (apply (stranded_frame j c); [|done|exact Hj]); cbn; auto.
Qed.

(** A stranded task stays: no event reaches it. *)
Lemma stranded_step (new_URL : string -> string -> list (string * string) -> option string)
    (ev : event) (j : nat) (c c' : Client) :
  stranded j c -> client_step new_URL ev c = Some c' -> stranded j c'.
Proof.
  intros Hj. assert (Hset : forall i old p c0, tasks c0 !! i = Some old -> is_waiting old = false ->
    stranded j c0 -> stranded j (set_task i p c0)) by (intros; by eapply stranded_set).
  assert (Hrof : forall i old res, tasks c !! i = Some old -> is_waiting old = false ->
    stranded j (read_or_fail i res c)).
  { intros i old res H1 H2. unfold read_or_fail. destruct (res_ok res); by eapply Hset. }
  assert (Hfail : forall i old url cfg, tasks c !! i = Some old -> is_waiting old = false ->
    stranded j (fail_refresh i url cfg c)).
  { intros i old url cfg H1 H2. eapply (Hset i old); [done|done|].
    apply (stranded_frame j c); [by right|done|exact Hj]. }
  destruct ev as [endpoint cfg|i o|i now1 now2|key|token|o]; cbn [client_step].
  - intros [= <-]. destruct Hj as (Hq & url & k & Hj). unfold start_request.
    destruct (new_URL _ _ _); (split; [done|]); exists url, k; by apply lookup_app_l_Some.
  - destruct (tasks c !! i) as [p|] eqn:Ei; [|done]. destruct p; try done; intros [= <-].
    + destruct o as [res|e]; cbn [first_answered]; [|by eapply Hset].
      destruct (res_status res =? 401)%Z; [by eapply stranded_begin|by eapply Hrof].
    + destruct o as [res|e]; cbn [refresh_answered]; [|by eapply Hfail].
      destruct (res_ok res); by eapply Hset.
    + destruct o as [res|e]; [by eapply Hrof|by eapply Hset].
  - destruct (tasks c !! i) as [p|] eqn:Ei; [|done]. destruct p; try done; intros [= <-].
    + unfold refresh_read. destruct (body_json res) as [data|e]; [|by eapply Hfail].
      destruct (nullish data); [by eapply Hfail|]. destruct (_ && _)%bool; [|by eapply Hset].
      eapply Hset; [by eapply flush_other|done|].
      match goal with |- stranded _ (set_refreshing _ ?c0) => apply (stranded_frame j c0) end;
        [by left|done|].
      apply stranded_flush, (stranded_frame j c); [by left|done|exact Hj].
    + eapply Hset; [by eapply flush_other|done|].
      apply (stranded_frame j (flush_queue c)); [by left|done|by apply stranded_flush].
    + unfold after_refresh. destruct refreshed; (eapply Hset; [done|done|]);
        (apply (stranded_frame j c); [by left|done|exact Hj]).
    + by eapply Hset.
  - intros [= <-]. apply (stranded_frame j c); [by left|done|exact Hj].
  - intros [= <-]. apply (stranded_frame j c); [by left|done|exact Hj].
  - intros [= <-]. apply (stranded_frame j c); [by left|done|exact Hj].
Qed.

Lemma stranded_reaches (new_URL : string -> string -> list (string * string) -> option string)
    (j : nat) (c c' : Client) :
  stranded j c -> reaches new_URL c c' -> stranded j c'.
Proof. intros Hj. induction 1; [done|]. by eapply stranded_step. Qed.

(** ** The token of the requests *)

Definition sets_credential (ev : event) : bool :=
  match ev with SetApiKey _ | SetBearer _ => true | _ => false end.

(** A request of the refresh, or one under the credentials [k]. *)
Definition sent_under (k : ApiClientConfig) (r : HttpRequest) : Prop :=
  (exists rt, r = refresh_post rt) \/ exists url cfg, r = client_request k url cfg.

Definition keeps_token (k : ApiClientConfig) (c : Client) : Prop :=
  config c = k /\ Forall (sent_under k) (log c).

Lemma keeps_same (k : ApiClientConfig) (c c' : Client) :
  keeps_token k c -> config c' = config c -> log c' = log c -> keeps_token k c'.
Proof. intros [Hk Hl] H1 H2. split; congruence. Qed.

Lemma keeps_add (k : ApiClientConfig) (r : HttpRequest) (c : Client) :
  keeps_token k c -> sent_under k r -> keeps_token k (add_log r c).
Proof. intros [Hk Hl] Hr. split; [done|]. apply Forall_app. auto. Qed.

Lemma keeps_flush (k : ApiClientConfig) (c : Client) :
  keeps_token k c -> keeps_token k (flush_queue c).
Proof.
  intros Hc. destruct (flush_tasks (refreshQueue c) c) as ((_ & H1 & _ & H2 & _) & _).
  by apply (keeps_same k c).
Qed.

Lemma keeps_begin (k : ApiClientConfig) (i : nat) (url : string) (cfg : RequestConfig) (c : Client) :
  keeps_token k c -> keeps_token k (begin_refresh i url cfg c).
Proof.
  intros Hc. unfold begin_refresh. destruct (isRefreshing c); [by apply (keeps_same k c)|].
  destruct (truthy_env (storage c)); [|by apply (keeps_same k c)].
  destruct (json_parse _) as [session|]; [|by apply (keeps_same k c)].
  destruct (truthy (opt_get session "refreshToken")); [|by apply (keeps_same k c)]. cbn [negb].
  apply (keeps_same k (add_log (refresh_post (opt_get session "refreshToken")) c)); [|done|done].
  apply keeps_add; [done|]. left. by eexists.
Qed.

Lemma keeps_request (k : ApiClientConfig) (url : string) (cfg : RequestConfig) (c : Client) :
  keeps_token k c -> keeps_token k (add_log (client_request (config c) url cfg) c).
Proof. intros Hc. apply keeps_add; [done|]. right. destruct Hc as [-> _]. by do 2 eexists. Qed.

Lemma keeps_step (new_URL : string -> string -> list (string * string) -> option string)
    (k : ApiClientConfig) (ev : event) (c c' : Client) :
  sets_credential ev = false -> keeps_token k c -> client_step new_URL ev c = Some c' ->
  keeps_token k c'.
Proof.
  intros He Hc. destruct ev as [endpoint cfg|i o|i now1 now2|key|token|o]; try done;
    cbn [client_step].
  - intros [= <-]. unfold start_request. destruct (new_URL _ _ _) as [url|];
      [|by apply (keeps_same k c)].
    apply (keeps_same k (add_log (client_request (config c) url cfg) c)); [|done|done].
    by apply keeps_request.
  - destruct (tasks c !! i) as [p|]; [|done]. destruct p; try done; intros [= <-].
    + destruct o as [res|e]; cbn [first_answered]; [|by apply (keeps_same k c)].
      destruct (res_status res =? 401)%Z; [by apply keeps_begin|].
      unfold read_or_fail. destruct (res_ok res); by apply (keeps_same k c).
    + destruct o as [res|e]; cbn [refresh_answered]; [|by apply (keeps_same k c)].
      destruct (res_ok res); by apply (keeps_same k c).
    + destruct o as [res|e]; [|by apply (keeps_same k c)].
      unfold read_or_fail. destruct (res_ok res); by apply (keeps_same k c).
  - destruct (tasks c !! i) as [p|]; [|done]. destruct p; try done; intros [= <-].
    + unfold refresh_read. destruct (body_json res) as [data|e]; [|by apply (keeps_same k c)].
      destruct (nullish data); [by apply (keeps_same k c)|].
      destruct (_ && _)%bool; [|by apply (keeps_same k c)].
      match goal with |- keeps_token _ (end_refresh _ _ _ _ ?c0) => apply (keeps_same k c0) end;
        [|done|done]. apply keeps_flush. by apply (keeps_same k c).
    + apply (keeps_same k (flush_queue c)); [|done|done]. by apply keeps_flush.
    + unfold after_refresh. destruct refreshed; [|by apply (keeps_same k c)].
      apply (keeps_same k (add_log (client_request (config c) url cfg) c)); [|done|done].
      by apply keeps_request.
    + by apply (keeps_same k c).
  - intros [= <-]. by apply (keeps_same k c).
Qed.

Lemma keeps_run (new_URL : string -> string -> list (string * string) -> option string)
    (k : ApiClientConfig) (evs : list event) (c c' : Client) :
  forallb (fun ev => negb (sets_credential ev)) evs = true ->
  keeps_token k c -> run new_URL evs c = Some c' -> keeps_token k c'.
Proof.
  revert c. induction evs as [|ev evs IH]; intros c; cbn [forallb run]; [by intros _ ? [= <-]|].
  intros [He%negb_true_iff Hes]%andb_true_iff Hc.
  destruct (client_step new_URL ev c) as [c1|] eqn:Es; [|done]. cbn. intros Hr.
  apply (IH c1); [done|by eapply keeps_step|done].
Qed.

Lemma run_reaches (new_URL : string -> string -> list (string * string) -> option string)
    (evs : list event) (c0 c c' : Client) :
  reaches new_URL c0 c -> run new_URL evs c = Some c' -> reaches new_URL c0 c'.
Proof.
  revert c. induction evs as [|ev evs IH]; intros c Hc; cbn [run]; [by intros [= <-]|].
  destruct (client_step new_URL ev c) as [c1|] eqn:Es; [|done]. cbn.
  apply IH. by eapply reaches_step.
Qed.

(** ** Properties *)

(** C3: At most one refresh is under way, in every state any schedule can reach: the
    flag isRefreshing is up exactly while some request carries out the refresh, no
    two requests do, and the queue holds requests that wait, each once, and is empty
    when no refresh is under way. *)
Theorem refresh_exclusive (new_URL : string -> string -> list (string * string) -> option string)
    (k : ApiClientConfig) (stored : option string) (c : Client) :
  reaches new_URL (new_client k stored) c ->
  (isRefreshing c = true <-> exists i p, tasks c !! i = Some p /\ is_leader p = true) /\
  (forall i j p q, tasks c !! i = Some p -> tasks c !! j = Some q ->
     is_leader p = true -> is_leader q = true -> i = j) /\
  base.NoDup (refreshQueue c) /\
  (forall i, i ∈ refreshQueue c -> exists url cfg, tasks c !! i = Some (Waiting url cfg)) /\
  (isRefreshing c = false -> refreshQueue c = []).
Proof.
  intros Hr. assert (Hc := inv_reaches new_URL _ c (inv_new k stored) Hr).
  assert (Hn := inv_leader c Hc). split; [|split; [|split; [|split]]].
  - split; [intros Hf; apply counted_leader; rewrite Hn, Hf; lia|].
    intros (i & p & Hp & Hl). by eapply leader_refreshing.
  - intros i j p q Hi Hj. apply (leader_unique (tasks c) i j p q); [|done|done].
    destruct (isRefreshing c); lia.
  - apply (inv_nodup c Hc).
  - apply (inv_queue c Hc).
  - apply (inv_idle c Hc).
Qed.

(** Two requests meet a 401: the first refreshes, the second waits. *)
Definition demo_url (endpoint base : string) (ps : list (string * string)) : option string :=
  Some (base ++ endpoint).
Definition demo_client : Client :=
  new_client (mkApiConfig "http://gw:8000" None (Some "old"))
    (Some (json_str (JObj [("refreshToken", JStr "rt")]))).
Definition two_401 : list event :=
  [Start "/a" get_config; Start "/b" get_config; Settle 0 (reply 401 ""); Settle 1 (reply 401 "")].
Definition two_waiting : Client :=
  match run demo_url two_401 demo_client with Some c => c | None => demo_client end.

Lemma two_waiting_reached : reaches demo_url demo_client two_waiting.
Proof.
  apply (run_reaches demo_url two_401 demo_client demo_client); [constructor|].
  vm_compute. reflexivity.
Qed.

Lemma refresh_exclusive_witness :
  isRefreshing two_waiting = true /\ refreshQueue two_waiting = [1] /\
  (isRefreshing two_waiting = false -> refreshQueue two_waiting = []).
Proof.
  split; [reflexivity|]. split; [reflexivity|].
  exact (proj2 (proj2 (proj2 (proj2
    (refresh_exclusive demo_url (mkApiConfig "http://gw:8000" None (Some "old"))
       (Some (json_str (JObj [("refreshToken", JStr "rt")]))) two_waiting two_waiting_reached))))).
Defined.

(** A refresh that ends with an answer wakes everyone: when the answer refuses,
    or when it grants a token, each request in the queue goes on to its retry (also
    after a refusal), the queue is empty, and the flag is down. *)
Theorem refresh_answer_wakes_queue
    (new_URL : string -> string -> list (string * string) -> option string)
    (c c' : Client) (i : nat) (p : phase) (now1 now2 : Z) :
  tasks c !! i = Some p ->
  match p with
  | RefreshError _ _ => True
  | RefreshBody _ _ _ _ res =>
      exists data, body_json res = Ok data /\ truthy (opt_get data "ok") = true /\
                   truthy (opt_get data "access_token") = true
  | _ => False
  end ->
  client_step new_URL (Resume i now1 now2) c = Some c' ->
  refreshQueue c' = [] /\ isRefreshing c' = false /\
  forall j url cfg, j ∈ refreshQueue c -> tasks c !! j = Some (Waiting url cfg) ->
    tasks c' !! j = Some (Resumed url cfg true).
Proof.
  intros Hp Hcase. cbn [client_step]. rewrite Hp.
  assert (Hend : forall url cfg b c1, is_waiting p = false -> tasks c1 = tasks c ->
    refreshQueue c1 = refreshQueue c -> forall j u k, j ∈ refreshQueue c ->
    tasks c !! j = Some (Waiting u k) ->
    tasks (end_refresh i url cfg b (flush_queue c1)) !! j = Some (Resumed u k true)).
  { intros url cfg b c1 Hw Ht Hq j u k Hj Hk. unfold end_refresh.
    destruct (flush_tasks (refreshQueue c1) c1) as (_ & Hf).
    cbn [set_task set_refreshing flush_queue set_queue tasks].
    rewrite list_lookup_insert_ne by (intros ->; rewrite Hp in Hk; by simplify_eq).
    rewrite Hf, Ht, Hk, Hq. cbn. by rewrite decide_True. }
  destruct p as [| |url cfg session rt res|url cfg| | | | |]; try done; intros [= <-].
  - destruct Hcase as (data & Hb & Hok & Htok). unfold refresh_read. rewrite Hb.
    assert (nullish data = false) as -> by (by destruct data). rewrite Hok, Htok. cbn [andb].
    split; [done|]. split; [done|]. by apply Hend.
  - split; [done|]. split; [done|]. by apply Hend.
Qed.

Definition refused : Client :=
  match run demo_url [Settle 0 (reply 400 "{}")] two_waiting with Some c => c | None => demo_client end.
Definition woken_up : Client :=
  match client_step demo_url (Resume 0 1 1) refused with Some c => c | None => demo_client end.

Lemma refresh_answer_wakes_queue_witness :
  refreshQueue woken_up = [] /\ isRefreshing woken_up = false /\
  forall j url cfg, j ∈ refreshQueue refused -> tasks refused !! j = Some (Waiting url cfg) ->
    tasks woken_up !! j = Some (Resumed url cfg true).
Proof.
  apply (refresh_answer_wakes_queue demo_url refused woken_up 0
           (RefreshError "http://gw:8000/a" get_config) 1 1); [reflexivity|exact I|reflexivity].
Defined.

(** A refresh that is rejected strands everyone: when the refresh request itself
    fails, each request in the queue waits forever, whatever happens afterwards. *)
Theorem rejected_refresh_strands
    (new_URL : string -> string -> list (string * string) -> option string)
    (k : ApiClientConfig) (stored : option string) (c c1 c' : Client) (i j : nat)
    (url : string) (cfg : RequestConfig) (session rt : js) (e : exn) :
  reaches new_URL (new_client k stored) c ->
  tasks c !! i = Some (Refreshing url cfg session rt) -> j ∈ refreshQueue c ->
  client_step new_URL (Settle i (Throw e)) c = Some c1 -> reaches new_URL c1 c' ->
  exists u q, tasks c' !! j = Some (Waiting u q).
Proof.
  intros Hr Hi Hj Hs Hr'. assert (Hc := inv_reaches new_URL _ c (inv_new k stored) Hr).
  cbn [client_step] in Hs. rewrite Hi in Hs. injection Hs as <-.
  destruct (stranded_reaches new_URL j (fail_refresh i url cfg c) c') as (_ & H); [|done|done].
  apply (stranded_set i j (Refreshing url cfg session rt)); [done|done|].
  split; [apply not_elem_of_nil|]. apply (inv_queue c Hc j Hj).
Qed.

Definition refresh_rejected : Client :=
  match client_step demo_url (Settle 0 (Throw (JsError "offline"))) two_waiting with
  | Some c => c | None => demo_client
  end.

(** The first request is told that its session expired, and a third one starts. *)
Definition later_on : Client :=
  match run demo_url [Resume 0 1 1; Start "/c" get_config] refresh_rejected with
  | Some c => c | None => demo_client
  end.

Lemma rejected_refresh_strands_witness : exists u q, tasks later_on !! 1 = Some (Waiting u q).
Proof.
  apply (rejected_refresh_strands demo_url (mkApiConfig "http://gw:8000" None (Some "old"))
    (Some (json_str (JObj [("refreshToken", JStr "rt")]))) two_waiting refresh_rejected later_on 0 1
    "http://gw:8000/a" get_config (JObj [("refreshToken", JStr "rt")]) (JStr "rt")
    (JsError "offline")).
  - exact two_waiting_reached.
  - reflexivity.
  - apply list_elem_of_singleton. reflexivity.
  - reflexivity.
  - apply (run_reaches demo_url [Resume 0 1 1; Start "/c" get_config] refresh_rejected
             refresh_rejected); [constructor|vm_compute; reflexivity].
Defined.

(** A refresh does not change the token the client sends: as long as nobody calls
    setApiKey or setBearerToken, every request in any schedule is the refresh itself
    or goes out under the credentials the client started with, the retries after a
    successful refresh included. *)
Theorem retries_keep_token (new_URL : string -> string -> list (string * string) -> option string)
    (k : ApiClientConfig) (stored : option string) (evs : list event) (c : Client) :
  forallb (fun ev => negb (sets_credential ev)) evs = true ->
  run new_URL evs (new_client k stored) = Some c ->
  Forall (sent_under k) (log c).
Proof.
  intros He Hr. apply (keeps_run new_URL k evs (new_client k stored) c); [done| |done].
  split; [done|constructor].
Qed.

Definition granted_json : js := JObj [("ok", JBool true); ("access_token", JStr "new")].
Definition full_round : list event :=
  [Start "/a" get_config; Settle 0 (reply 401 ""); Settle 0 (reply_json 200 granted_json);
   Resume 0 1 1; Resume 0 1 1].
Definition after_round : Client :=
  match run demo_url full_round demo_client with Some c => c | None => demo_client end.

Lemma retries_keep_token_witness :
  List.length (log after_round) = 3 /\
  Forall (sent_under (mkApiConfig "http://gw:8000" None (Some "old"))) (log after_round).
Proof.
  split; [vm_compute; reflexivity|].
  apply (retries_keep_token demo_url (mkApiConfig "http://gw:8000" None (Some "old"))
    (Some (json_str (JObj [("refreshToken", JStr "rt")]))) full_round after_round); vm_compute; reflexivity.
Defined.
