(* ===== verification/BrowserAuth.v ===== *)
(** * The session of the browser

    src/frontend/src/lib/auth/session.ts, the provider of
    src/frontend/src/lib/auth/auth-context.tsx (restoring a session, logging in and
    out) and the page src/frontend/src/app/(auth)/auth/callback/page.tsx that ends a
    login.  A page runs in [B]: it may send requests, and it has localStorage, the
    provider's React state, the query cache and the location. *)

From S2P Require Import Prelude JsNumber JsText JsValue Json Effects GatewayClient.
From S2P Require Import GatewayFacts Oidc ApiClient.
Local Open Scope string_scope.

(** ** The page *)

(** An operation on the query cache. *)
Inductive cache_op := RemoveQueries (key : string) | InvalidateQueries (key : string).

(** [p_session] is [JNull] when nobody is logged in; [p_started] is the callback
    page's [exchangeStartedRef]. *)
Record Page := mkPage {
  p_storage : list (string * string);
  p_session : js;
  p_loading : bool;
  p_cache : list cache_op;
  p_visited : list string;
  p_message : string;
  p_started : bool;
}.

Definition B (A : Type) : Type := World -> State -> Page -> outcome A * State * Page.

#[export] Instance B_ret : MRet B := fun A a w s p => (Ok a, s, p).
#[export] Instance B_bind : MBind B := fun A C f m w s p =>
  match m w s p with
  | (Ok a, s', p') => f a w s' p'
  | (Throw e, s', p') => (Throw e, s', p')
  end.

(** What a page shares with a route: requests, the clock, reading a body. *)
Definition lift {A} (m : M A) : B A := fun w s p => let '(o, s') := m w s in (o, s', p).
Definition throw_b {A} (e : exn) : B A := fun w s p => (Throw e, s, p).
Definition catch_b {A} (m : B A) (h : exn -> B A) : B A := fun w s p =>
  match m w s p with
  | (Throw e, s', p') => h e w s' p'
  | r => r
  end.
(** [try { m } finally { f }], for an [f] that does not fail. *)
Definition finally {A} (m : B A) (f : Page -> Page) : B A := fun w s p =>
  let '(o, s', p') := m w s p in (o, s', f p').
Definition update (f : Page -> Page) : B unit := fun w s p => (Ok tt, s, f p).
Definition page {A} (f : Page -> A) : B A := fun w s p => (Ok (f p), s, p).

(** ** localStorage and React state *)

Definition with_storage (l : list (string * string)) (p : Page) : Page :=
  mkPage l (p_session p) (p_loading p) (p_cache p) (p_visited p) (p_message p) (p_started p).
Definition with_session (v : js) (p : Page) : Page :=
  mkPage (p_storage p) v (p_loading p) (p_cache p) (p_visited p) (p_message p) (p_started p).
Definition with_loading (b : bool) (p : Page) : Page :=
  mkPage (p_storage p) (p_session p) b (p_cache p) (p_visited p) (p_message p) (p_started p).
Definition with_cache (l : list cache_op) (p : Page) : Page :=
  mkPage (p_storage p) (p_session p) (p_loading p) (p_cache p ++ l)%list (p_visited p)
    (p_message p) (p_started p).
Definition visit (u : string) (p : Page) : Page :=
  mkPage (p_storage p) (p_session p) (p_loading p) (p_cache p) (p_visited p ++ [u])%list
    (p_message p) (p_started p).
Definition with_message (m : string) (p : Page) : Page :=
  mkPage (p_storage p) (p_session p) (p_loading p) (p_cache p) (p_visited p) m (p_started p).
Definition with_started (p : Page) : Page :=
  mkPage (p_storage p) (p_session p) (p_loading p) (p_cache p) (p_visited p) (p_message p) true.

Definition item (k : string) (p : Page) : option string := params_get k (p_storage p).
Definition set_item (k v : string) (p : Page) : Page :=
  with_storage (params_set k v (p_storage p)) p.
Definition remove_item (k : string) (p : Page) : Page :=
  with_storage (List.filter (fun kv => negb (String.eqb kv.1 k)) (p_storage p)) p.

(** ** session.ts *)

Definition SESSION_KEY : string := "ai_gateway_session".

Definition getStoredSession (p : Page) : js :=
  match truthy_env (item SESSION_KEY p) with
  | None => JNull
  | Some stored => match json_parse stored with Some session => session | None => JNull end
  end.

Definition setStoredSession (session : js) (p : Page) : Page :=
  set_item SESSION_KEY (json_str session) p.

Definition clearSession (p : Page) : Page := remove_item SESSION_KEY p.

Definition createMockSession (now : Z) : js :=
  JObj [("user", JObj [("id", JStr "mock-user-1"); ("email", JStr "dev@aigateway.local");
                       ("name", JStr "Development User"); ("role", JStr "admin")]);
        ("accessToken", JStr "mock-access-token");
        ("expiresAt", js_of_Z (now + 24 * 60 * 60 * 1000)); ("isMock", JBool true)].

(** ** auth-context.tsx *)

Definition clearGlobalConfigQueries : Page -> Page :=
  with_cache [RemoveQueries "globalConfig"; RemoveQueries "globalConfigChanges"].
Definition invalidateGlobalAccessQueries : Page -> Page :=
  with_cache [InvalidateQueries "replayGlobalAccess"; InvalidateQueries "observabilityGlobalAccess"].

(** [clearSession(); setSession(null)] *)
Definition end_session (p : Page) : Page := with_session JNull (clearSession p).

Definition page_request (method url : string) : HttpRequest := mkHttpRequest method url [] None.

(** *** Restoring a session *)

(** The refresh on start: whether the session was restored. *)
Definition refresh_on_init (storedSession : js) : B bool :=
  catch_b
    (refreshRes ← lift (page_fetch (refresh_post (opt_get storedSession "refreshToken")));
     refreshData ← lift (res_json refreshRes);
     ok ← lift (get refreshData "ok");
     if (res_ok refreshRes && truthy ok && truthy (opt_get refreshData "access_token"))%bool then
       t1 ← lift date_now;
       t2 ← (if truthy (opt_get refreshData "refresh_expires_in") then lift date_now else mret t1);
       let refreshedSession := updatedSession storedSession (opt_get storedSession "refreshToken")
                                 refreshData t1 t2 in
       _ ← update (setStoredSession refreshedSession);
       _ ← update (with_session refreshedSession);
       _ ← update invalidateGlobalAccessQueries;
       _ ← update (with_loading false);
       mret true
     else _ ← update end_session; mret false)
    (fun _ => _ ← update end_session; mret false).

(** The session that was found: whether it is used. *)
Definition restore_stored (storedSession : js) : B bool :=
  now ← lift date_now;
  let expiresAt := opt_get storedSession "expiresAt" in
  if (truthy expiresAt && js_gt expiresAt (js_of_Z now))%bool then
    _ ← update (with_session storedSession);
    _ ← update (with_loading false);
    mret true
  else if truthy (opt_get storedSession "refreshToken") then
    let refreshExpiresAt := opt_get storedSession "refreshExpiresAt" in
    if (negb (truthy refreshExpiresAt) || js_gt refreshExpiresAt (js_of_Z now))%bool
    then refresh_on_init storedSession
    else _ ← update end_session; mret false
  else _ ← update end_session; mret false.

Definition restoreSession : B unit :=
  finally
    (catch_b
       (storedSession ← page getStoredSession;
        restored ← (if truthy storedSession then restore_stored storedSession else mret false);
        if (restored : bool) then mret tt else update end_session)
       (fun _ => update end_session))
    (with_loading false).

(** *** Logging in and out *)

(** What the browser's crypto object and location give to a login. *)
Record LoginInputs := mkLoginInputs {
  l_verifier_bytes : string;
  l_state_bytes : string;
  l_nonce_bytes : string;
  l_origin : string;
}.

Definition login_mock : B unit :=
  now ← lift date_now;
  let mockSession := createMockSession now in
  _ ← update (setStoredSession mockSession);
  _ ← update (with_session mockSession);
  _ ← catch_b (_ ← lift (page_fetch (page_request "POST" "/api/auth/mock")); mret tt)
        (fun _ => mret tt);
  _ ← update invalidateGlobalAccessQueries;
  update (visit "/dashboard").

(** [x || d] as a text *)
Definition text_or (v : js) (d : string) : string := if truthy v then js_to_string v else d.

Section Login.
Variable sha256 : string -> string.

Definition login_oidc (inputs : LoginInputs) : B unit :=
  res ← lift (page_fetch (page_request "GET" "/api/auth/config"));
  if negb (res_ok res) then throw_b (JsError "Failed to load auth config")
  else
    authConfig ← lift (res_json res);
    let issuer := text_or (opt_get authConfig "issuer") "http://localhost:8080/realms/router" in
    let clientId := text_or (opt_get authConfig "clientId") "router-ui" in
    let redirectUri := l_origin inputs ++ "/auth/callback" in
    let '(verifier, challenge) := generatePkce sha256 (l_verifier_bytes inputs) in
    let state := randomString (l_state_bytes inputs) in
    let nonce := randomString (l_nonce_bytes inputs) in
    _ ← update (set_item "oidc_pkce_verifier" verifier);
    _ ← update (set_item "oidc_state" state);
    _ ← update (set_item "oidc_nonce" nonce);
    _ ← update (set_item "oidc_issuer" issuer);
    _ ← update (set_item "oidc_client_id" clientId);
    _ ← update (set_item "oidc_redirect_uri" redirectUri);
    update (visit (buildAuthUrl (mkAuthUrlParams issuer clientId redirectUri
      (Some "openid profile email offline_access") state nonce challenge))).

Definition login (mock : bool) (inputs : LoginInputs) : B unit :=
  _ ← update (with_loading true);
  finally
    (catch_b (if mock then login_mock else login_oidc inputs) (fun _ => mret tt))
    (with_loading false).
End Login.

(** The end-session address of the issuer.  [new URL] keeps an absolute address and
    its own query; a relative one is a TypeError. *)
Definition end_session_url (issuer : string) (idToken clientId : js) (origin : string)
  : option string :=
  let endpoint := issuer ++ "/protocol/openid-connect/logout" in
  if absolute_url endpoint then
    let hint := if truthy idToken then [("id_token_hint", js_to_string idToken)]
                else if truthy clientId then [("client_id", js_to_string clientId)] else [] in
    Some (endpoint ++ "?" ++ params_to_string
            (hint ++ [("post_logout_redirect_uri", (origin ++ "/login")%string)])%list)
  else None.

Definition logout (origin : string) : B unit :=
  idToken ← page (fun p => opt_get (getStoredSession p) "idToken");
  _ ← update end_session;
  _ ← update clearGlobalConfigQueries;
  _ ← update (with_cache [RemoveQueries "replayGlobalAccess";
                          RemoveQueries "observabilityGlobalAccess"]);
  _ ← catch_b
        (_ ← lift (page_fetch (page_request "POST" "/api/auth/logout"));
         catch_b (_ ← lift (page_fetch (page_request "DELETE" "/api/auth/mock")); mret tt)
           (fun _ => mret tt))
        (fun _ => mret tt);
  left ← catch_b
        (res ← lift (page_fetch (page_request "GET" "/api/auth/config"));
         cfg ← lift (res_json res);
         let issuer := opt_get cfg "issuer" in
         if truthy issuer then
           match end_session_url (js_to_string issuer) idToken (opt_get cfg "clientId") origin with
           | Some url => _ ← update (visit url); mret true
           | None => throw_b (JsError "Invalid URL")
           end
         else mret false)
        (fun _ => mret false);
  if (left : bool) then mret tt else update (visit "/login").

Definition refreshSession : B unit :=
  storedSession ← page getStoredSession;
  update (with_session storedSession).

(** ** callback/page.tsx *)

Definition code_post (code verifier issuer clientId redirectUri : string) : HttpRequest :=
  mkHttpRequest "POST" "/api/auth/callback" [("Content-Type", "application/json")]
    (Some (json_str (JObj [("code", JStr code); ("verifier", JStr verifier); ("issuer", JStr issuer);
                           ("client_id", JStr clientId); ("redirect_uri", JStr redirectUri)]))).

Definition exchanged_key (state : string) : string := "oidc_exchanged_" ++ state.

(** The roles of the claims as texts.  [r.toLowerCase()] of anything but a string is
    a TypeError. *)
Fixpoint role_texts (l : list js) : option (list string) :=
  match l with
  | [] => Some []
  | JStr s :: l' => cons s <$> role_texts l'
  | _ :: _ => None
  end.

Definition role_name (r : CanonicalRole) : string :=
  match r with
  | Admin => "admin" | Audit => "audit" | LocalAdmin => "local_admin" | Finance => "finance"
  | User => "user"
  end.

(** [deriveCanonicalRole(extractRolesFromClaims(claims)) || 'user'] *)
Definition claimed_role (claims : js) : option string :=
  match extractRolesFromClaims claims with
  | None => Some "user"
  | Some l =>
      rs ← role_texts l;
      Some (match deriveCanonicalRole (Some rs) with Some r => role_name r | None => "user" end)
  end.

(** [decodeJwtPayload] of a value: anything but a string has no [split], which the
    function's own catch clause turns into null. *)
Definition decode_claims (token : js) : js :=
  match token with JStr t => oidc_decodeJwtPayload t | _ => JNull end.

(** The session of a grant; the clock is read for what the token does not say. *)
Definition callback_new_session (data : js) (role : string) (exp refreshExp : js) : js :=
  let accessToken := opt_get data "access_token" in
  let idToken := opt_get data "id_token" in
  let claims := decode_claims (if truthy idToken then idToken else accessToken) in
  let email := js_or (opt_get claims "email") (JStr "") in
  let sub := js_or (opt_get claims "sub") (JStr "me") in
  let displayName := js_or (opt_get claims "preferred_username") (js_or email sub) in
  JObj [("user", JObj [("id", sub); ("name", displayName); ("email", email); ("role", JStr role)]);
        ("accessToken", accessToken); ("idToken", idToken);
        ("refreshToken", opt_get data "refresh_token"); ("expiresAt", exp);
        ("refreshExpiresAt", refreshExp)].

Definition oidc_items : list string :=
  ["oidc_pkce_verifier"; "oidc_state"; "oidc_nonce"; "oidc_issuer"; "oidc_client_id";
   "oidc_redirect_uri"].

Definition remove_items (ks : list string) (p : Page) : Page :=
  fold_left (fun q k => remove_item k q) ks p.

(** From the answer of the exchange on. *)
Definition finish_login (state : string) (data : js) : B unit :=
  let claims := decode_claims (if truthy (opt_get data "id_token") then opt_get data "id_token"
                               else opt_get data "access_token") in
  match claimed_role claims with
  | None => throw_b (JsError "r.toLowerCase is not a function")
  | Some role =>
      exp ← (if truthy (opt_get claims "exp")
             then mret (js_mul (opt_get claims "exp") (js_of_Z 1000))
             else t ← lift date_now;
                  mret (expiry t (js_or (opt_get data "expires_in") (js_of_Z 3600))));
      refreshExp ← (if truthy (opt_get data "refresh_expires_in")
                    then t ← lift date_now; mret (expiry t (opt_get data "refresh_expires_in"))
                    else mret JUndef);
      _ ← update clearSession;
      _ ← update (setStoredSession (callback_new_session data role exp refreshExp));
      _ ← update (set_item (exchanged_key state) "1");
      _ ← update (remove_items oidc_items);
      _ ← refreshSession;
      update (visit "/dashboard")
  end.

Definition exchange_code (code state verifier issuer clientId redirectUri : string) : B unit :=
  catch_b
    (res ← lift (page_fetch (code_post code verifier issuer clientId redirectUri));
     data ← lift (res_json_or_empty res);
     if negb (res_ok res) then
       update (with_message (text_or (opt_get data "error") "Failed to complete login."))
     else if negb (truthy (opt_get data "access_token")) then
       update (with_message "Failed to receive access token.")
     else finish_login state data)
    (fun _ => update (with_message "Failed to complete login.")).

(** The effect of the page, with the parameters of its address. *)
Definition callback_run (codeParam stateParam : option string) : B unit :=
  started ← page p_started;
  if (started : bool) then mret tt
  else
    match truthy_env codeParam, truthy_env stateParam with
    | Some code, Some state =>
        storedState ← page (item "oidc_state");
        if negb (match truthy_env storedState with
                 | Some t => String.eqb t state | None => false end)
        then update (with_message "Invalid login state. Please try again.")
        else
          verifier ← page (fun p => truthy_env (item "oidc_pkce_verifier" p));
          redirectUriStored ← page (fun p => truthy_env (item "oidc_redirect_uri" p));
          issuer ← page (fun p => env_or (item "oidc_issuer" p) "");
          clientId ← page (fun p => env_or (item "oidc_client_id" p) "router-ui");
          match verifier, redirectUriStored with
          | None, _ =>
              update (with_message "Missing PKCE verifier. Please restart the login process.")
          | Some _, None =>
              update (with_message "Missing redirect URI. Please restart the login process.")
          | Some v, Some redirectUri =>
              alreadyExchanged ← page (item (exchanged_key state));
              if (match alreadyExchanged with Some x => String.eqb x "1" | None => false end) then
                _ ← update (with_message "Login already completed. Redirecting...");
                update (visit "/dashboard")
              else
                _ ← update with_started;
                exchange_code code state v issuer clientId redirectUri
          end
    | _, _ => update (with_message "Invalid login response. Missing parameters.")
    end.

(** ** Storage *)

Lemma item_set (k k' v : string) (p : Page) :
  item k (set_item k' v p) = if String.eqb k k' then Some v else item k p.
Proof. apply params_get_set. Qed.

Lemma item_remove (k k' : string) (p : Page) :
  item k (remove_item k' p) = if String.eqb k k' then None else item k p.
Proof. apply params_get_filter. Qed.

Lemma item_end_session (p : Page) : item SESSION_KEY (end_session p) = None.
Proof. exact (item_remove SESSION_KEY SESSION_KEY p). Qed.

(** ** Restoring *)

(** How restoring a session may end: logged out, with the stored session as it is,
    or with a refreshed session, which is also stored. *)
Definition logged_out (p' : Page) : Prop := p_session p' = JNull /\ item SESSION_KEY p' = None.

Definition kept (now : Z) (p p' : Page) (new : list HttpRequest) : Prop :=
  let expiresAt := opt_get (getStoredSession p) "expiresAt" in
  truthy expiresAt = true /\ js_gt expiresAt (js_of_Z now) = true /\
  p_session p' = getStoredSession p /\ p_storage p' = p_storage p /\ new = [].

Definition refreshed (p p' : Page) (new : list HttpRequest) : Prop :=
  let old := getStoredSession p in
  let rt := opt_get old "refreshToken" in
  exists data t1 t2, truthy (opt_get data "access_token") = true /\
    p_session p' = updatedSession old rt data t1 t2 /\
    item SESSION_KEY p' = Some (json_str (p_session p')) /\ new = [refresh_post rt].

(** A step that ends with a session as [good] says, or logged out. *)
Definition restores (w : World) (p0 : Page) (good : Z -> Page -> list HttpRequest -> Prop)
    (m : B bool) : Prop :=
  forall s p, p_storage p = p_storage p0 ->
  exists s' p' (used : bool) new, m w s p = (Ok used, s', p') /\ sent s' = (sent s ++ new)%list /\
    if used then good (clock w (ticks s)) p' new else logged_out p'.

Lemma refresh_on_init_runs (w : World) (p0 : Page) :
  restores w p0 (fun _ => refreshed p0) (refresh_on_init (getStoredSession p0)).
Proof.
  intros s p Hp. unfold refresh_on_init. set (old := getStoredSession p0).
  set (q := refresh_post (opt_get old "refreshToken")).
  unfold catch_b, lift, page_fetch, mbind, B_bind.
  destruct (net w (sent s) q) as [res|e] eqn:En.
  2: { do 3 eexists. exists [q]. split; [reflexivity|]. split; [done|].
       split; [done|apply item_end_session]. }
  rewrite res_json_eval. destruct (body_json res) as [data|e].
  2: { do 3 eexists. exists [q]. split; [reflexivity|]. split; [done|].
       split; [done|apply item_end_session]. }
  unfold get. destruct (nullish data) eqn:Ed.
  { do 3 eexists. exists [q]. split; [reflexivity|]. split; [done|].
    split; [done|apply item_end_session]. }
  unfold mret, M_ret. destruct (res_ok res && truthy (opt_get data "ok") &&
    truthy (opt_get data "access_token"))%bool eqn:Ec.
  2: { do 3 eexists. exists [q]. split; [reflexivity|]. split; [done|].
       split; [done|apply item_end_session]. }
  apply andb_true_iff in Ec as [_ Htok].
  destruct (truthy (opt_get data "refresh_expires_in")) eqn:Er; unfold date_now; cbn;
    do 3 eexists; exists [q]; (split; [reflexivity|]); (split; [done|]);
    exists data; do 2 eexists; (split; [done|]); (split; [reflexivity|]); (split; [|done]);
    apply params_get_set.
Qed.

Lemma restore_stored_runs (w : World) (p0 : Page) :
  restores w p0 (fun now p' new => kept now p0 p' new \/ refreshed p0 p' new)
    (restore_stored (getStoredSession p0)).
Proof.
  intros s p Hp. unfold restore_stored, lift, date_now, mbind, B_bind.
  set (old := getStoredSession p0). set (now := clock w (ticks s)).
  assert (Hout : exists s' p' (used : bool) new,
    (Ok false, mkState (sent s) (S (ticks s)), end_session p) = (Ok used, s', p') /\
    sent s' = (sent s ++ new)%list /\
    if used then kept now p0 p' new \/ refreshed p0 p' new else logged_out p').
  { do 3 eexists. exists []. split; [reflexivity|]. rewrite app_nil_r. split; [done|].
    split; [done|apply item_end_session]. }
  destruct (truthy (opt_get old "expiresAt") && js_gt (opt_get old "expiresAt") (js_of_Z now))%bool
    eqn:Ev.
  { apply andb_true_iff in Ev as [H1 H2]. do 3 eexists. exists []. split; [reflexivity|].
    rewrite app_nil_r. split; [done|]. left. by split. }
  destruct (truthy (opt_get old "refreshToken")); [|exact Hout].
  destruct (negb _ || _)%bool; [|exact Hout].
  destruct (refresh_on_init_runs w p0 (mkState (sent s) (S (ticks s))) p Hp)
    as (s' & p' & used & new & Hm & Hs & Hc).
  exists s', p', used, new. split; [exact Hm|]. split; [exact Hs|]. destruct used; auto.
Qed.


(** ** The end of a login *)

(** After the exchange nothing more is sent, whatever was granted. *)
Lemma finish_login_quiet (w : World) (state : string) (data : js) (s : State) (p : Page) :
  sent (finish_login state data w s p).1.2 = sent s.
Proof.
  unfold finish_login. destruct (claimed_role _) as [role|]; [|done].
  unfold mbind, B_bind, lift, date_now.
  destruct (truthy (opt_get (decode_claims _) "exp")), (truthy (opt_get data "refresh_expires_in"));
    done.
Qed.

Lemma exchange_code_sends (w : World) (code state v issuer clientId redirectUri : string)
    (s : State) (p : Page) :
  exists s' p', exchange_code code state v issuer clientId redirectUri w s p = (Ok tt, s', p') /\
    sent s' = (sent s ++ [code_post code v issuer clientId redirectUri])%list.
Proof.
  unfold exchange_code. set (q := code_post code v issuer clientId redirectUri).
  unfold catch_b, mbind, B_bind, lift, page_fetch.
  destruct (net w (sent s) q) as [res|e]; [|by do 2 eexists].
  unfold res_json_or_empty, try_catch. rewrite res_json_eval. set (s1 := mkState _ _).
  assert (H : forall data, exists s' p',
    match (if negb (res_ok res)
           then update (with_message (text_or (opt_get data "error") "Failed to complete login."))
           else if negb (truthy (opt_get data "access_token"))
                then update (with_message "Failed to receive access token.")
                else finish_login state data) w s1 p with
    | (Throw _, s', p') => update (with_message "Failed to complete login.") w s' p'
    | r => r
    end = (Ok tt, s', p') /\ sent s' = (sent s ++ [q])%list).
  { intros data. destruct (negb (res_ok res)); [by do 2 eexists|].
    destruct (negb (truthy (opt_get data "access_token"))); [by do 2 eexists|].
    assert (Hq := finish_login_quiet w state data s1 p).
    destruct (finish_login state data w s1 p) as [[[[]|e] s'] p']; cbn in Hq; by do 2 eexists. }
  destruct (body_json res); apply H.
Qed.

(** What the page needs to exchange a code: the parameters of the address, the state
    that was stored for the login, its verifier and redirect address, and no earlier
    exchange. *)
Record exchangeable (codeParam stateParam : option string) (p : Page)
    (code state verifier redirectUri : string) : Prop := {
  ex_code : truthy_env codeParam = Some code;
  ex_state : truthy_env stateParam = Some state;
  ex_stored : truthy_env (item "oidc_state" p) = Some state;
  ex_verifier : truthy_env (item "oidc_pkce_verifier" p) = Some verifier;
  ex_redirect : truthy_env (item "oidc_redirect_uri" p) = Some redirectUri;
  ex_once : item (exchanged_key state) p <> Some "1";
  ex_started : p_started p = false;
}.

Definition login_post (p : Page) (code verifier redirectUri : string) : HttpRequest :=
  code_post code verifier (env_or (item "oidc_issuer" p) "")
    (env_or (item "oidc_client_id" p) "router-ui") redirectUri.

(** Runs the page's checks with the facts that are known about them. *)
Ltac run_callback :=
  unfold callback_run, page, update, mbind, B_bind;
  repeat (progress cbn [negb] || match goal with H : ?x = _ |- context [?x] => rewrite H end).

Lemma callback_exchanges (w : World) (codeParam stateParam : option string) (s : State) (p : Page)
    (code state verifier redirectUri : string) :
  exchangeable codeParam stateParam p code state verifier redirectUri ->
  exists s' p', callback_run codeParam stateParam w s p = (Ok tt, s', p') /\
    sent s' = (sent s ++ [login_post p code verifier redirectUri])%list.
Proof.
  intros [Hc Hs Hst Hv Hr Ho Hf].
  assert (He := String.eqb_refl state).
  assert (Hx : match item (exchanged_key state) p with
               | Some x => String.eqb x "1" | None => false end = false).
  { destruct (item (exchanged_key state) p) as [x|]; [|done].
    destruct (String.eqb_spec x "1") as [->|]; [done|done]. }
  run_callback. apply exchange_code_sends.
Qed.


(** ** From the login to the callback *)

Lemma text_or_str (t d : string) : d <> "" -> text_or (JStr t) d <> "".
Proof.
  intros Hd. unfold text_or. cbn. destruct (String.eqb_spec t "") as [->|]; [done|].
  by destruct t.
Qed.

Lemma truthy_nonempty (t : string) : t <> "" -> truthy_env (Some t) = Some t.
Proof. intros H. cbn. by destruct (String.eqb_spec t ""). Qed.

Lemma encode_nonempty (bytes : string) : bytes <> "" -> base64UrlEncode bytes <> "".
Proof.
  intros Hb E. apply (f_equal String.length) in E.
  rewrite base64UrlEncode_core, to_url_length, b64_core_length in E. cbn [String.length] in E.
  destruct bytes as [|c b]; [done|]. cbn [String.length] in E.
  apply Nat.div_small_iff in E; lia.
Qed.

Section Agreement.
Context (sha256 : string -> string) (inputs : LoginInputs).
Let verifier := randomString (l_verifier_bytes inputs).
Let state := randomString (l_state_bytes inputs).

(** The parameters of the authorization address of a login. *)
Definition login_params (issuer clientId : string) : AuthUrlParams :=
  mkAuthUrlParams issuer clientId (l_origin inputs ++ "/auth/callback")
    (Some "openid profile email offline_access") state (randomString (l_nonce_bytes inputs))
    (base64UrlEncode (sha256 verifier)).

(** The page a login leaves behind. *)
Definition login_page (issuer clientId : string) (p : Page) : Page :=
  with_loading false (visit (buildAuthUrl (login_params issuer clientId))
    (set_item "oidc_redirect_uri" (l_origin inputs ++ "/auth/callback")
      (set_item "oidc_client_id" clientId
        (set_item "oidc_issuer" issuer
          (set_item "oidc_nonce" (randomString (l_nonce_bytes inputs))
            (set_item "oidc_state" state
              (set_item "oidc_pkce_verifier" verifier (with_loading true p)))))))).

Lemma login_runs (w : World) (s : State) (p : Page) (res : HttpResponse) (cfg : js) :
  net w (sent s) (page_request "GET" "/api/auth/config") = Ok res ->
  res_ok res = true -> body_json res = Ok cfg ->
  exists s', login sha256 false inputs w s p =
    (Ok tt, s', login_page (text_or (opt_get cfg "issuer") "http://localhost:8080/realms/router")
                  (text_or (opt_get cfg "clientId") "router-ui") p).
Proof.
  intros Hn Ho Hb. unfold login, login_oidc, finally, catch_b, mbind, B_bind, lift, page_fetch.
  unfold update at 1. rewrite Hn, Ho. cbn [negb]. rewrite res_json_eval, Hb. by eexists.
Qed.

(** C17: A login and its callback belong together: the browser is sent to the issuer
    with a state and the challenge of a verifier; when the issuer sends it back with a
    code and that state, the page exchanges the code with that very verifier, and
    with the issuer, the client and the redirect address of the authorization
    address. *)
Theorem login_callback_agree (w : World) (s : State) (p : Page) (res : HttpResponse) (cfg : js)
    (issuer clientId code : string) :
  net w (sent s) (page_request "GET" "/api/auth/config") = Ok res ->
  res_ok res = true -> body_json res = Ok cfg ->
  opt_get cfg "issuer" = JStr issuer -> opt_get cfg "clientId" = JStr clientId ->
  l_verifier_bytes inputs <> "" -> l_state_bytes inputs <> "" -> code <> "" ->
  item (exchanged_key state) p <> Some "1" -> p_started p = false ->
  exists s1 p1 params, login sha256 false inputs w s p = (Ok tt, s1, p1) /\
    p_visited p1 = (p_visited p ++ [buildAuthUrl params])%list /\
    p_codeChallenge params = base64UrlEncode (sha256 verifier) /\
    forall s2, exists s3 p3,
      callback_run (Some code) (Some (p_state params)) w s2 p1 = (Ok tt, s3, p3) /\
      sent s3 = (sent s2 ++ [code_post code verifier (p_issuer params) (p_clientId params)
                              (p_redirectUri params)])%list.
Proof.
  intros Hn Ho Hb Hi Hc Hv Hst Hcode Hx Hf.
  destruct (login_runs w s p res cfg Hn Ho Hb) as (s1 & Hl). rewrite Hi, Hc in Hl.
  set (iss := text_or (JStr issuer) "http://localhost:8080/realms/router") in Hl.
  set (cid := text_or (JStr clientId) "router-ui") in Hl.
  assert (Hiss : iss <> "") by (by apply text_or_str).
  assert (Hcid : cid <> "") by (by apply text_or_str).
  exists s1, (login_page iss cid p), (login_params iss cid).
  split; [exact Hl|]. split; [done|]. split; [done|]. intros s2.
  set (p1 := login_page iss cid p).
  assert (Hit : forall k, item k p1 = item k (set_item "oidc_redirect_uri"
    (l_origin inputs ++ "/auth/callback") (set_item "oidc_client_id" cid (set_item "oidc_issuer" iss
      (set_item "oidc_nonce" (randomString (l_nonce_bytes inputs)) (set_item "oidc_state" state
        (set_item "oidc_pkce_verifier" verifier p))))))) by done.
  destruct (callback_exchanges w (Some code) (Some state) s2 p1 code state verifier
    (l_origin inputs ++ "/auth/callback")) as (s3 & p3 & H3 & Hs3).
  - assert (state <> "") by (by apply encode_nonempty).
    constructor; try (by apply truthy_nonempty); rewrite ?Hit, ?item_set; cbn [String.eqb];
      try done; try (by apply truthy_nonempty).
    + apply truthy_nonempty. by apply encode_nonempty.
    + apply truthy_nonempty. by destruct (l_origin inputs).
  - exists s3, p3. split; [exact H3|]. rewrite Hs3. unfold login_post.
    assert (item "oidc_issuer" p1 = Some iss) as -> by (by rewrite Hit, !item_set).
    assert (item "oidc_client_id" p1 = Some cid) as -> by (by rewrite Hit, !item_set).
    unfold env_or. by rewrite (truthy_nonempty iss Hiss), (truthy_nonempty cid Hcid).
Qed.
End Agreement.

Definition blank_page : Page := mkPage [] JNull false [] [] "" false.
Definition demo_login : LoginInputs := mkLoginInputs "verifier" "state" "nonce" "http://ui:3000".

Lemma login_callback_agree_witness :
  let cfg := JObj [("issuer", JStr "http://id/realms/r"); ("clientId", JStr "ui")] in
  let w := demo_world [] (fun _ => reply_json 200 cfg) in
  exists s1 p1 params,
    login (fun x => x) false demo_login w start blank_page = (Ok tt, s1, p1) /\
    p_visited p1 = ([] ++ [buildAuthUrl params])%list /\
    p_codeChallenge params = base64UrlEncode (randomString "verifier") /\
    forall s2, exists s3 p3,
      callback_run (Some "code") (Some (p_state params)) w s2 p1 = (Ok tt, s3, p3) /\
      sent s3 = (sent s2 ++ [code_post "code" (randomString "verifier") (p_issuer params)
                              (p_clientId params) (p_redirectUri params)])%list.
Proof.
  intros cfg w.
  apply (login_callback_agree (fun x => x) demo_login w start blank_page
           (mkHttpResponse 200 "" [] (Some (json_str cfg))) cfg "http://id/realms/r" "ui" "code").
  - reflexivity.
  - reflexivity.
  - vm_compute. reflexivity.
  - reflexivity.
  - reflexivity.
  - discriminate.
  - discriminate.
  - discriminate.
  - discriminate.
  - reflexivity.
Defined.
