(* ===== verification/AuthRefresh.v ===== *)
(** * The refresh of the provider

    [refreshAccessToken] and [ensureValidSession] of
    src/frontend/src/lib/auth/auth-context.tsx.  Components call them at any time,
    with the session of the render they belong to; a refresh awaits its answer while
    others call again, and [refreshPromiseRef] is what keeps them to a single
    request.  The reading of the answer and of its body are one step, since nothing
    of the provider is read or written between them. *)

From S2P Require Import Prelude JsNumber JsText JsValue Json Effects GatewayClient.
From S2P Require Import Oidc ApiClient BrowserAuth.
Local Open Scope string_scope.

(** ** The provider *)

Inductive promise : Type :=
| Pending
| Settled (b : bool).

(** [a_ref] is [refreshPromiseRef.current]; [a_flights] has the session each refresh
    under way started from; [a_sent] the requests that were sent. *)
Record Provider := mkProvider {
  a_page : Page;
  a_refreshing : bool;
  a_ref : option promise;
  a_flights : list js;
  a_sent : list HttpRequest;
}.

Definition new_provider (p : Page) : Provider := mkProvider p false None [] [].

(** [session || getStoredSession()] *)
Definition current_session (session : js) (p : Page) : js := js_or session (getStoredSession p).

(** A call of [refreshAccessToken] up to its first await: [runRefresh] runs to its
    finally block when there is no refresh token, and only then is its promise put
    into the ref. *)
Definition refreshAccessToken (session : js) (a : Provider) : Provider * promise :=
  match a_ref a with
  | Some pr => (a, pr)
  | None =>
      let current := current_session session (a_page a) in
      let rt := opt_get current "refreshToken" in
      if negb (truthy rt) then
        (mkProvider (a_page a) false (Some (Settled false)) (a_flights a) (a_sent a), Settled false)
      else
        (mkProvider (a_page a) true (Some Pending) (a_flights a ++ [current])%list
           (a_sent a ++ [refresh_post rt])%list, Pending)
  end.

(** [new Date(x).toISOString()] outside of production, which throws for a date out of
    range. *)
Definition valid_date (v : js) : bool :=
  match num_to_Z (num_trunc (js_to_number v)) with
  | Some z => (Z.abs z <=? 8640000000000000)%Z
  | None => false
  end.

(** The session a refresh ends with; [None] when it fails. *)
Definition refreshed_session (production : bool) (current : js) (o : outcome HttpResponse)
    (now1 now2 : Z) : option js :=
  match o with
  | Throw _ => None
  | Ok res =>
      match body_json res with
      | Throw _ => None
      | Ok data =>
          if (res_ok res && truthy (opt_get data "ok") && truthy (opt_get data "access_token"))%bool
          then
            let newSession := updatedSession current (opt_get current "refreshToken") data now1 now2 in
            if (production || valid_date (opt_get newSession "expiresAt"))%bool
            then Some newSession else None
          else None
      end
  end.

(** The end of the refresh that started from [current], and what it returns. *)
Definition finish_refresh (production : bool) (current : js) (o : outcome HttpResponse)
    (now1 now2 : Z) (p : Page) : Page * bool :=
  match refreshed_session production current o now1 now2 with
  | Some newSession =>
      (invalidateGlobalAccessQueries (with_session newSession (setStoredSession newSession p)), true)
  | None => (end_session p, false)
  end.

(** A call of [ensureValidSession] with the clock at [now]. *)
Definition ensureValidSession (session : js) (now : Z) (a : Provider) : Provider * promise :=
  let current := current_session session (a_page a) in
  if negb (truthy current) then (a, Settled false)
  else
    let refreshExpiresAt := opt_get current "refreshExpiresAt" in
    if negb (js_ge (js_of_Z (now + 60000)) (opt_get current "expiresAt")) then (a, Settled true)
    else if (truthy refreshExpiresAt && js_ge (js_of_Z now) refreshExpiresAt)%bool then
      (mkProvider (end_session (a_page a)) (a_refreshing a) (a_ref a) (a_flights a) (a_sent a),
       Settled false)
    else refreshAccessToken session a.

(** ** Events *)

Inductive auth_event : Type :=
| CallRefresh (session : js)
| CallEnsure (session : js) (now : Z)
| Answered (i : nat) (o : outcome HttpResponse) (now1 now2 : Z)
| PageChanged (p : Page).

Section Machine.
Variable production : bool.

Definition auth_step (ev : auth_event) (a : Provider) : option Provider :=
  match ev with
  | CallRefresh session => Some (refreshAccessToken session a).1
  | CallEnsure session now => Some (ensureValidSession session now a).1
  | Answered i o now1 now2 =>
      current ← a_flights a !! i;
      Some (mkProvider (finish_refresh production current o now1 now2 (a_page a)).1 false None
              (delete i (a_flights a)) (a_sent a))
  | PageChanged p => Some (mkProvider p (a_refreshing a) (a_ref a) (a_flights a) (a_sent a))
  end.

Inductive auth_reaches (a : Provider) : Provider -> Prop :=
| auth_refl : auth_reaches a a
| auth_next (a1 a2 : Provider) (ev : auth_event) :
    auth_reaches a a1 -> auth_step ev a1 = Some a2 -> auth_reaches a a2.

(** Either nothing is under way, or exactly one refresh is, and the ref holds it. *)
Definition auth_inv (a : Provider) : Prop :=
  (a_flights a = [] /\ a_refreshing a = false /\ a_ref a <> Some Pending) \/
  (exists current, a_flights a = [current] /\ a_refreshing a = true /\ a_ref a = Some Pending).

Lemma inv_refresh (session : js) (a : Provider) :
  auth_inv a -> auth_inv (refreshAccessToken session a).1.
Proof.
  intros Ha. unfold refreshAccessToken. destruct (a_ref a) as [pr|] eqn:Er; [done|].
  destruct Ha as [(Hf & Hr & _)|(c & _ & _ & Hp)]; [|congruence].
  destruct (truthy (opt_get (current_session session (a_page a)) "refreshToken")); cbn.
  - right. eexists. by rewrite Hf.
  - left. by rewrite Hf.
Qed.

Lemma inv_auth_step (ev : auth_event) (a a' : Provider) :
  auth_inv a -> auth_step ev a = Some a' -> auth_inv a'.
Proof.
  intros Ha. destruct ev as [session|session now|i o now1 now2|p]; cbn [auth_step].
  - intros [= <-]. by apply inv_refresh.
  - intros [= <-]. unfold ensureValidSession. cbv zeta.
    destruct (negb (truthy _)); [done|]. destruct (negb _); [done|].
    destruct (_ && _)%bool; [done|]. by apply inv_refresh.
  - destruct Ha as [(-> & _)|(c & -> & _)]; [done|]. destruct i; [|done].
    cbn. intros [= <-]. by left.
  - intros [= <-]. done.
Qed.

Lemma inv_auth_reaches (a a' : Provider) : auth_inv a -> auth_reaches a a' -> auth_inv a'.
Proof. intros Ha. induction 1; [done|]. by eapply inv_auth_step. Qed.

(** A promise that is settled stays in the ref, and no request is sent any more. *)
Lemma settled_step (ev : auth_event) (a a' : Provider) (b : bool) :
  a_flights a = [] -> a_ref a = Some (Settled b) -> auth_step ev a = Some a' ->
  a_flights a' = [] /\ a_ref a' = Some (Settled b) /\ a_sent a' = a_sent a.
Proof.
  intros Hf Hr. assert (Hs : forall session, refreshAccessToken session a = (a, Settled b))
    by (intros session; unfold refreshAccessToken; by rewrite Hr).
  destruct ev as [session|session now|i o now1 now2|p]; cbn [auth_step].
  - rewrite Hs. by intros [= <-].
  - intros [= <-]. unfold ensureValidSession. cbv zeta. rewrite Hs.
    destruct (negb (truthy _)); [done|]. destruct (negb _); [done|]. by destruct (_ && _)%bool.
  - by rewrite Hf.
  - by intros [= <-].
Qed.

Lemma settled_reaches (a a' : Provider) (b : bool) :
  a_flights a = [] -> a_ref a = Some (Settled b) -> auth_reaches a a' ->
  a_flights a' = [] /\ a_ref a' = Some (Settled b) /\ a_sent a' = a_sent a.
Proof.
  intros Hf Hr. induction 1 as [|a1 a2 ev H1 (IHf & IHr & IHs) He]; [done|].
  destruct (settled_step ev a1 a2 b IHf IHr He) as (? & ? & ->). auto.
Qed.
End Machine.

(** ** Properties *)


Definition with_token : js := JObj [("refreshToken", JStr "rt")].


(** A refresh without a refresh token is the last one: its promise, already
    settled to false, stays in the ref, so that every later call, also with a session
    that has a refresh token, is told that the refresh failed and sends nothing. *)
Theorem refresh_without_token_sticks (production : bool) (p : Page) (a a1 a2 : Provider)
    (session : js) :
  auth_reaches production (new_provider p) a -> a_ref a = None ->
  truthy (opt_get (current_session session (a_page a)) "refreshToken") = false ->
  auth_step production (CallRefresh session) a = Some a1 -> auth_reaches production a1 a2 ->
  a_sent a2 = a_sent a /\
  forall later, refreshAccessToken later a2 = (a2, Settled false).
Proof.
  intros Hr Hn Ht Hs Hr2.
  assert (Ha : auth_inv a) by (eapply inv_auth_reaches; [|exact Hr]; by left).
  cbn [auth_step] in Hs. unfold refreshAccessToken in Hs. rewrite Hn, Ht in Hs. cbn in Hs.
  injection Hs as <-.
  assert (Hf : a_flights a = []) by (destruct Ha as [(Hf & _)|(c & _ & _ & Hp)]; congruence).
  apply (settled_reaches production _ a2 false) in Hr2 as (_ & H2 & H3); [|exact Hf|done].
  split; [exact H3|]. intros later. unfold refreshAccessToken. by rewrite H2.
Qed.

Lemma refresh_without_token_sticks_witness :
  let stuck := (refreshAccessToken (JObj []) (new_provider blank_page)).1 in
  let a2 := mkProvider (with_session with_token blank_page) false (a_ref stuck) [] [] in
  a_sent a2 = [] /\ forall later, refreshAccessToken later a2 = (a2, Settled false).
Proof.
  intros stuck a2.
  apply (refresh_without_token_sticks true blank_page (new_provider blank_page) stuck a2 (JObj [])).
  - apply auth_refl.
  - reflexivity.
  - reflexivity.
  - reflexivity.
  - apply (auth_next true stuck stuck a2 (PageChanged (with_session with_token blank_page)));
      [apply auth_refl|reflexivity].
Defined.
