(* ===== verification/Shell.v ===== *)
(** * The shell of the console

    What every page of src/frontend/src/app/(app) stands in: the guards of
    src/frontend/src/lib/auth/guards.tsx and src/frontend/src/components/auth, with the roles
    each page admits; the redirects of the first page, the login page and the guard; the
    sidebar of src/frontend/src/components/layout with what a role sees of it and its open
    groups; the menu of the user; the accent colour and the collapsed sidebar kept in
    localStorage. *)

From S2P Require Import Prelude JsNumber JsText JsValue JsArray Effects Oidc BrowserAuth.
Local Open Scope string_scope.

(** ** What the provider gives its pages *)

Definition session_user (p : Page) : js := js_or (opt_get (p_session p) "user") JNull.
Definition isAuthenticated (p : Page) : bool := truthy (p_session p).
(** [user?.role ?? null] *)
Definition user_role (p : Page) : js := js_coalesce (opt_get (session_user p) "role") JNull.

(** [list.includes(role as CanonicalRole)] *)
Definition role_in (roles : list CanonicalRole) (role : js) : bool :=
  existsb (fun r => is_str role (role_name r)) roles.

(** ** Guards *)

Inductive Screen := Checking (message : string) | Nothing | InsufficientPermissions | Content.

(** The screen, and the address that is pushed once it is shown *)
Definition AuthGuard (p : Page) : Screen * option string :=
  if p_loading p then (Checking "Checking session...", None)
  else if isAuthenticated p then (Content, None) else (Nothing, Some "/login").

Definition RequireAdminRole (allowedRoles : list CanonicalRole) (p : Page) : Screen :=
  if p_loading p then Nothing
  else if (truthy (user_role p) && role_in allowedRoles (user_role p))%bool then Content
  else InsufficientPermissions.

Definition default_roles : list CanonicalRole := [Admin].

Definition dashboard_roles : list CanonicalRole := [Admin; LocalAdmin; User; Audit; Finance].
Definition tenants_roles : list CanonicalRole := [Admin; LocalAdmin; User].
Definition providers_roles : list CanonicalRole := [Admin; LocalAdmin; User].
Definition settings_roles : list CanonicalRole := [Admin; LocalAdmin; User].
Definition config_history_roles : list CanonicalRole := [Admin; LocalAdmin; User].
Definition observability_roles : list CanonicalRole := [Admin; Audit; Finance].
Definition logs_roles : list CanonicalRole := [Admin; Audit].
Definition budgets_roles : list CanonicalRole := [Admin; Finance].
Definition semantic_roles : list CanonicalRole := [Admin].

(** The pages under the guard of the session: None is a page without a guard of its own *)
Definition page_guards : list (string * option (list CanonicalRole)) :=
  [("/dashboard", Some dashboard_roles); ("/tenants", Some tenants_roles); ("/models", None);
   ("/providers", Some providers_roles); ("/route-groups", Some default_roles); ("/routing", Some default_roles);
   ("/semantic", Some semantic_roles); ("/tools", Some default_roles); ("/benchmarks", Some default_roles);
   ("/budgets", Some budgets_roles); ("/observability", Some observability_roles); ("/routing/replay", None);
   ("/replay", Some default_roles); ("/global-config", Some default_roles);
   ("/config-history", Some config_history_roles); ("/logs", Some logs_roles); ("/settings", Some settings_roles);
   ("/usage-doc", None)].

(** The layout of the pages: the session first, then the guard of the page *)
Definition AppLayout (guard : option (list CanonicalRole)) (p : Page) : Screen * option string :=
  match AuthGuard p with
  | (Content, push) => (match guard with Some roles => RequireAdminRole roles p | None => Content end, push)
  | other => other
  end.

(** ** Redirects *)

Definition HomePage (p : Page) : option string :=
  if p_loading p then None else Some (if isAuthenticated p then "/dashboard" else "/login").
Definition LoginPage (p : Page) : Screen * option string :=
  if p_loading p then (Checking "Checking session...", None)
  else if isAuthenticated p then (Nothing, Some "/dashboard") else (Content, None).

(** Where a page of the console sends the browser; an address that is no page sends it nowhere *)
Definition redirect (path : string) (p : Page) : option string :=
  if String.eqb path "/" then HomePage p
  else if String.eqb path "/login" then (LoginPage p).2
  else match map_get path page_guards with
       | Some guard => (AppLayout guard p).2
       | None => None
       end.

Fixpoint follow (fuel : nat) (path : string) (p : Page) : string :=
  match fuel, redirect path p with
  | S fuel', Some next => follow fuel' next p
  | _, _ => path
  end.

(** ** The sidebar *)

Record NavigationItem := mkItem { ni_name : string; ni_href : string; ni_requiresRole : option (list CanonicalRole) }.
Record NavGroup := mkGroup { ng_id : string; ng_label : string; ng_prominent : bool; ng_items : list NavigationItem }.

Definition navigationGroups : list NavGroup :=
  [mkGroup "core" "Configuration" false
     [mkItem "Global Config" "/global-config" (Some [Admin]); mkItem "Tenants" "/tenants" (Some [Admin; LocalAdmin; User]);
      mkItem "Models" "/models" (Some [Admin]); mkItem "Providers" "/providers" (Some [Admin]);
      mkItem "Route Groups" "/route-groups" (Some [Admin])];
   mkGroup "ai-routing" "Routing Intelligence" true
     [mkItem "Routing" "/routing" (Some [Admin]); mkItem "Semantic" "/semantic" (Some [Admin]);
      mkItem "Tool Routing" "/tools" (Some [Admin])];
   mkGroup "monitoring" "Monitoring" false
     [mkItem "Observability" "/observability" (Some [Admin; Audit; Finance]); mkItem "Logs" "/logs" (Some [Admin; Audit]);
      mkItem "Replay" "/routing/replay" (Some [Admin]); mkItem "LLM Benchmarks" "/benchmarks" (Some [Admin])];
   mkGroup "governance" "Governance" false [mkItem "Budgets" "/budgets" (Some [Admin; Finance])];
   mkGroup "system" "System" false
     [mkItem "Config History" "/config-history" (Some [Admin]); mkItem "Settings" "/settings" (Some [Admin]);
      mkItem "Usage Doc" "/usage-doc" (Some [Admin])]].

Definition dashboardItem : NavigationItem :=
  mkItem "Dashboard" "/dashboard" (Some [Admin; LocalAdmin; User; Audit; Finance]).

Definition item_visible (role : js) (item : NavigationItem) : bool :=
  match ni_requiresRole item with
  | None => true
  | Some roles => truthy role && role_in roles role
  end.
Definition filterItems (items : list NavigationItem) (role : js) : list NavigationItem := List.filter (item_visible role) items.

Definition visibleGroups (role : js) : list NavGroup :=
  List.filter (fun g => negb (Nat.eqb (List.length (ng_items g)) 0))
    (map (fun g => mkGroup (ng_id g) (ng_label g) (ng_prominent g) (filterItems (ng_items g) role)) navigationGroups).
Definition visibleDashboard (role : js) : bool := Nat.ltb 0 (List.length (filterItems [dashboardItem] role)).
Definition flatNavItems (role : js) : list NavigationItem := flat_map ng_items (visibleGroups role).

(** The open groups: an object whose missing names are closed *)
Definition isGroupOpen (openGroups : list (string * bool)) (id : string) : bool :=
  match map_get id openGroups with Some b => b | None => false end.
Definition hasActive (pathname : string) (g : NavGroup) : bool :=
  existsb (fun item => String.eqb pathname (ni_href item)) (ng_items g).
(** The effect of a new address or role, and the button of a group *)
Definition open_active (pathname : string) (role : js) (openGroups : list (string * bool)) : list (string * bool) :=
  fold_left (fun next g => if hasActive pathname g then map_set (ng_id g) true next else next) (visibleGroups role) openGroups.
Definition toggleGroup (id : string) (openGroups : list (string * bool)) : list (string * bool) :=
  map_set id (negb (isGroupOpen openGroups id)) openGroups.

Inductive NavLink := ToPage (item : NavigationItem) (active : bool) | GroupButton (g : NavGroup) (expanded : bool) | AboutButton.

Definition page_link (pathname : string) (item : NavigationItem) : NavLink := ToPage item (String.eqb pathname (ni_href item)).
Definition group_links (pathname : string) (openGroups : list (string * bool)) (g : NavGroup) : list NavLink :=
  let expanded := isGroupOpen openGroups (ng_id g) in
  GroupButton g expanded ::
  (if expanded
   then map (page_link pathname) (ng_items g) ++ (if String.eqb (ng_id g) "system" then [AboutButton] else [])
   else []).
Definition Sidebar (isCollapsed : bool) (pathname : string) (role : js) (openGroups : list (string * bool)) : list NavLink :=
  (if visibleDashboard role then [page_link pathname dashboardItem] else []) ++
  (if isCollapsed then map (page_link pathname) (flatNavItems role) ++ [AboutButton]
   else flat_map (group_links pathname openGroups) (visibleGroups role)).

(** ** The menu of the user: the name and the line under it *)

Definition canonical_of (role : js) : option CanonicalRole :=
  List.find (fun r => is_str role (role_name r)) [Admin; Audit; LocalAdmin; Finance; User].
Definition UserMenu (p : Page) : option (js * js) :=
  let user := session_user p in
  if negb (truthy user) then None
  else Some (opt_get user "name",
             match getDisplayRole (canonical_of (opt_get user "role")) with
             | Some label => JStr label
             | None => opt_get user "email"
             end).

(** ** What the shell keeps in localStorage *)

Inductive ThemeAccent := Magenta | Blue | Violet | Green.
Definition accent_name (a : ThemeAccent) : string :=
  match a with Magenta => "magenta" | Blue => "blue" | Violet => "violet" | Green => "green" end.
(** The primary colour and that of the ring *)
Definition themeAccents : list (string * (string * string)) :=
  [("magenta", ("326 78% 56%", "326 78% 56%")); ("blue", ("221.2 83.2% 53.3%", "221.2 83.2% 53.3%"));
   ("violet", ("262.1 83.3% 57.8%", "262.1 83.3% 57.8%")); ("green", ("142.1 76.2% 36.3%", "142.1 76.2% 36.3%"))].

(** The style of the document, and an error for a name without colours *)
Definition applyThemeAccent (accent : string) (style : list (string * string)) : option (list (string * string)) :=
  match map_get accent themeAccents with
  | Some (primary, ring) => Some (map_set "--ring" ring (map_set "--primary" primary style))
  | None => None
  end.
Definition getStoredAccent (p : Page) : string :=
  match item "theme-accent" p with
  | Some v => if String.eqb v "" then "magenta" else v
  | None => "magenta"
  end.
Definition setStoredAccent (accent : string) : Page -> Page := set_item "theme-accent" accent.

(** The accent in state, the style, and the page; the effect of the first rendering *)
Definition accent_load (style : list (string * string)) (p : Page) : string * option (list (string * string)) :=
  (getStoredAccent p, applyThemeAccent (getStoredAccent p) style).
Definition changeAccent (accent : ThemeAccent) (style : list (string * string)) (p : Page)
    : string * option (list (string * string)) * Page :=
  (accent_name accent, applyThemeAccent (accent_name accent) style, setStoredAccent (accent_name accent) p).

Definition sidebar_load (p : Page) : bool :=
  match item "sidebar-collapsed" p with Some v => String.eqb v "true" | None => false end.
Definition sidebar_toggle (isCollapsed : bool) (p : Page) : bool * Page :=
  (negb isCollapsed, set_item "sidebar-collapsed" (if isCollapsed then "false" else "true") p).

(** ** Links and guards agree *)

Definition all_items : list NavigationItem := dashboardItem :: flat_map ng_items navigationGroups.

Lemma visible_groups_items (role : js) (g : NavGroup) (it : NavigationItem) :
  In g (visibleGroups role) -> In it (ng_items g) -> In it all_items /\ item_visible role it = true.
Proof.
  unfold visibleGroups. rewrite filter_In, in_map_iff. intros [(g0 & <- & Hg) _]. cbn [ng_items].
  unfold filterItems. rewrite filter_In. intros [Hi ?]. split; [|done].
  right. apply in_flat_map. eauto.
Qed.

Lemma sidebar_items (isCollapsed active : bool) (pathname : string) (role : js) (openGroups : list (string * bool))
    (it : NavigationItem) :
  In (ToPage it active) (Sidebar isCollapsed pathname role openGroups) -> In it all_items /\ item_visible role it = true.
Proof.
  unfold Sidebar. intros [H|H]%in_app_or.
  - unfold visibleDashboard, filterItems in H. cbn [List.filter] in H.
    destruct (item_visible role dashboardItem) eqn:E; [|done]. destruct H as [[= <- _]|[]]. split; [by left|done].
  - destruct isCollapsed.
    + apply in_app_or in H as [H|[H|[]]]; [|done]. apply in_map_iff in H as (i & [= -> _] & Hi).
      apply in_flat_map in Hi as (g & ? & ?). by eapply visible_groups_items.
    + apply in_flat_map in H as (g & Hg & [H|H]); [done|]. destruct (isGroupOpen _ _); [|done].
      apply in_app_or in H as [H|H].
      * apply in_map_iff in H as (i & [= -> _] & Hi). by eapply visible_groups_items.
      * destruct (String.eqb _ _); [by destruct H as [|[]]|done].
Qed.

Definition role_subset (a b : list CanonicalRole) : bool :=
  forallb (fun r => existsb (fun r' => String.eqb (role_name r) (role_name r')) b) a.

Lemma role_in_subset (a b : list CanonicalRole) (role : js) :
  role_subset a b = true -> role_in a role = true -> role_in b role = true.
Proof.
  unfold role_subset, role_in. rewrite forallb_forall, !existsb_exists. intros H (r & Hr & Hs).
  specialize (H r Hr). apply existsb_exists in H as (r' & ? & E). apply String.eqb_eq in E. exists r'. by rewrite <- E.
Qed.

(** An item asks for roles the guard of its page admits *)
Definition item_guarded (it : NavigationItem) : bool :=
  match map_get (ni_href it) page_guards, ni_requiresRole it with
  | Some None, Some _ => true
  | Some (Some roles), Some required => role_subset required roles
  | _, _ => false
  end.

Lemma items_guarded (it : NavigationItem) : In it all_items -> item_guarded it = true.
Proof. revert it. apply forallb_forall. reflexivity. Qed.

Lemma layout_ready (guard : option (list CanonicalRole)) (p : Page) :
  p_loading p = false -> isAuthenticated p = true ->
  AppLayout guard p = (match guard with Some roles => RequireAdminRole roles p | None => Content end, None).
Proof. intros Hl Ha. unfold AppLayout, AuthGuard. by rewrite Hl, Ha. Qed.

Definition unguarded_pages : list string := ["/models"; "/routing/replay"; "/usage-doc"].
(** Pages that admit a role the sidebar does not show them to *)
Definition unlinked_pages (r : CanonicalRole) : list string :=
  match r with
  | Admin => ["/replay"]
  | LocalAdmin | User => ["/models"; "/providers"; "/routing/replay"; "/config-history"; "/settings"; "/usage-doc"]
  | Audit | Finance => unguarded_pages
  end.

Definition shows (path : string) (p : Page) : bool :=
  match map_get path page_guards with
  | Some guard => match (AppLayout guard p).1 with Content => true | _ => false end
  | None => false
  end.
Definition links (path : string) (role : js) : bool :=
  existsb (fun it => String.eqb path (ni_href it) && item_visible role it)%bool all_items.

Lemma layout_content (guard : option (list CanonicalRole)) (p : Page) :
  (AppLayout guard p).1 = Content ->
  p_loading p = false /\ isAuthenticated p = true /\ forall roles, guard = Some roles -> role_in roles (user_role p) = true.
Proof.
  unfold AppLayout, AuthGuard, RequireAdminRole. destruct (p_loading p); [done|].
  destruct (isAuthenticated p); [|done]. cbn. intros H. repeat split. intros roles ->.
  destruct (truthy _); [|done]. by destruct (role_in _ _).
Qed.

Lemma shows_role (path : string) (p : Page) (r : CanonicalRole) :
  p_loading p = false -> isAuthenticated p = true -> user_role p = JStr (role_name r) ->
  shows path p = match map_get path page_guards with
                 | Some (Some roles) => role_in roles (JStr (role_name r))
                 | Some None => true
                 | None => false
                 end.
Proof.
  intros Hl Ha Hr. unfold shows. destruct (map_get path page_guards) as [guard|]; [|done].
  rewrite layout_ready by done. unfold RequireAdminRole. rewrite Hl, Hr.
  destruct guard as [roles|]; [|done]. cbn [fst]. by destruct r; cbn; destruct (role_in _ _).
Qed.


Definition signed_in (r : CanonicalRole) : Page :=
  mkPage [] (JObj [("user", JObj [("name", JStr "Ann"); ("email", JStr "ann@x"); ("role", JStr (role_name r))])]) false [] [] "" false.


(** Three pages have no guard of their own: any session, with any role or none, sees them. *)
Theorem unguarded_pages_open (p : Page) (path : string) :
  p_loading p = false -> isAuthenticated p = true -> In path unguarded_pages -> shows path p = true.
Proof.
  intros Hl Ha Hin. assert (Hg : map_get path page_guards = Some None) by (by repeat destruct Hin as [<-|Hin]).
  unfold shows. by rewrite Hg, layout_ready.
Qed.

(** ** Redirects end *)

Lemma redirect_cases (path : string) (p : Page) :
  redirect path p =
    if p_loading p then None
    else if isAuthenticated p then if (String.eqb path "/" || String.eqb path "/login")%bool then Some "/dashboard" else None
    else if String.eqb path "/" then Some "/login"
    else if String.eqb path "/login" then None
    else match map_get path page_guards with Some _ => Some "/login" | None => None end.
Proof.
  unfold redirect, HomePage, LoginPage, AppLayout, AuthGuard.
  destruct (String.eqb path "/"), (String.eqb path "/login"), (p_loading p), (isAuthenticated p), (map_get path page_guards);
    reflexivity.
Qed.

Local Ltac settle_at path Hl Ha :=
  cbn [orb String.eqb Ascii.eqb Bool.eqb]; rewrite (redirect_cases path), Hl, Ha;
  cbn [orb String.eqb Ascii.eqb Bool.eqb]; rewrite redirect_cases, Hl, Ha.

(** After two redirects at most the browser stays where it is; without a session, that is the
    login page from every page of the console, and with one it is never the login page. *)
Theorem redirects_settle (path : string) (p : Page) :
  redirect (follow 2 path p) p = None /\
  (p_loading p = false -> isAuthenticated p = false ->
     (path = "/" \/ map_get path page_guards <> None) -> follow 2 path p = "/login") /\
  (p_loading p = false -> isAuthenticated p = true -> follow 2 path p <> "/login").
Proof.
  cbn [follow]. rewrite (redirect_cases path).
  destruct (p_loading p) eqn:Hl, (isAuthenticated p) eqn:Ha; [by rewrite redirect_cases, Hl..| |].
  - destruct (String.eqb_spec path "/") as [->|H1]; [by settle_at "/dashboard" Hl Ha|].
    destruct (String.eqb_spec path "/login") as [->|H2]; [by settle_at "/dashboard" Hl Ha|].
    cbn [orb]. rewrite redirect_cases, Hl, Ha, (proj2 (String.eqb_neq _ _) H1), (proj2 (String.eqb_neq _ _) H2). done.
  - destruct (String.eqb_spec path "/") as [->|H1]; [by settle_at "/login" Hl Ha|].
    destruct (String.eqb_spec path "/login") as [->|H2]; [by rewrite redirect_cases, Hl, Ha|].
    destruct (map_get path page_guards) eqn:Hg; [by settle_at "/login" Hl Ha|].
    rewrite redirect_cases, Hl, Ha, (proj2 (String.eqb_neq _ _) H1), (proj2 (String.eqb_neq _ _) H2), Hg.
    split; [done|]. split; [intros _ _ []|]; done.
Qed.

(** ** The open groups of the sidebar *)

Lemma open_fold (pathname id : string) (gs : list NavGroup) (o : list (string * bool)) :
  isGroupOpen (fold_left (fun next g => if hasActive pathname g then map_set (ng_id g) true next else next) gs o) id
  = (existsb (fun g => String.eqb id (ng_id g) && hasActive pathname g) gs || isGroupOpen o id)%bool.
Proof.
  revert o. induction gs as [|g gs IH]; intros o; [done|]. cbn [fold_left existsb]. rewrite IH.
  destruct (hasActive pathname g) eqn:E; unfold isGroupOpen.
  - rewrite map_get_set. destruct (String.eqb id (ng_id g)); cbn; [by rewrite orb_true_r|done].
  - by rewrite andb_false_r.
Qed.

(** The group of the page that is shown is open after every change of address or role; the others
    stay as they were, and the button of a group changes that group alone. *)
Theorem active_group_open (pathname id : string) (role : js) (o : list (string * bool)) :
  (forall g, In g (visibleGroups role) -> hasActive pathname g = true ->
     isGroupOpen (open_active pathname role o) (ng_id g) = true) /\
  (isGroupOpen o id = true -> isGroupOpen (open_active pathname role o) id = true) /\
  (forall id', isGroupOpen (toggleGroup id o) id' = if String.eqb id' id then negb (isGroupOpen o id) else isGroupOpen o id').
Proof.
  unfold open_active. repeat split.
  - intros g Hg Ha. rewrite open_fold. apply orb_true_intro. left. apply existsb_exists. exists g.
    by rewrite String.eqb_refl.
  - intros H. by rewrite open_fold, H, orb_true_r.
  - intros id'. unfold toggleGroup, isGroupOpen at 1. rewrite map_get_set. by destruct (String.eqb id' id).
Qed.

(** ** What is kept *)

Lemma item_stored (k v : string) (p : Page) : item k (set_item k v p) = Some v.
Proof. by rewrite item_set, String.eqb_refl. Qed.

(** An accent that was chosen, and the width of the sidebar, are what the next page loads. *)
Theorem shell_preferences_kept (a : ThemeAccent) (isCollapsed : bool) (style : list (string * string)) (p : Page) :
  (let '(name, applied, p') := changeAccent a style p in
   accent_load style p' = (name, applied) /\ exists colours, applied = Some colours) /\
  (let '(now, p') := sidebar_toggle isCollapsed p in sidebar_load p' = now).
Proof.
  unfold changeAccent, sidebar_toggle, accent_load, sidebar_load, getStoredAccent, setStoredAccent.
  rewrite !item_stored. destruct a, isCollapsed; cbn; eauto.
Qed.

(** A stored accent without colours breaks the effect that applies it: nothing checks the name. *)
Theorem stale_accent_breaks (p : Page) (style : list (string * string)) :
  (accent_load style (setStoredAccent "orange" p)).2 = None.
Proof. unfold accent_load, getStoredAccent, setStoredAccent. by rewrite item_stored. Qed.
