(* ===== verification/Toast.v ===== *)
(** * Toasts

    src/frontend/src/hooks/use-toast.ts: the module's counter, its list of toasts, the
    timers of the toasts that are to go, and the components that listen.  A toast is
    the object of its properties; the function in onOpenChange is not a value of the
    model, its call with false is the event [Dismiss] with the toast's id. *)

From stdpp Require Import sets.
From S2P Require Import Prelude JsNumber JsText JsValue Json Effects.
Local Open Scope string_scope.

Definition TOAST_LIMIT : nat := 1.
Definition MAX_SAFE_INTEGER : Z := 9007199254740991.

(** [toastId?: string] *)
Inductive Action : Type :=
| ADD_TOAST (toast : obj)
| UPDATE_TOAST (toast : obj)
| DISMISS_TOAST (toastId : option string)
| REMOVE_TOAST (toastId : option string).

(** [views] is the state of each component that listens, by its number. *)
Record ToastState := mkToasts {
  count : Z;
  toasts : list obj;
  toastTimeouts : list string;
  listeners : list nat;
  views : list (nat * list obj);
}.

Definition initial_toasts : ToastState := mkToasts 0 [] [] [] [].

(** [t.id]: absent ids are undefined. *)
Definition toast_id (t : obj) : js := opt_get (JObj t) "id".
Definition has_id (id : string) (t : obj) : bool := is_str (toast_id t) id.
(** [t.id === u.id] *)
Definition same_id (t u : obj) : bool :=
  match toast_id t, toast_id u with
  | JStr a, JStr b => String.eqb a b
  | JUndef, JUndef => true
  | _, _ => false
  end.

(** [genId()]: the new count and the id *)
Definition genId (n : Z) : Z * string :=
  let n' := ((n + 1) mod MAX_SAFE_INTEGER)%Z in (n', Z_to_string n').

(** [addToRemoveQueue]: a timer per id *)
Definition addToRemoveQueue (timers : list string) (toastId : string) : list string :=
  if existsb (String.eqb toastId) timers then timers else (timers ++ [toastId])%list.

(** The ids [forEach] visits. *)
Definition ids_of (l : list obj) : list string :=
  omap (fun t => match toast_id t with JStr s => Some s | _ => None end) l.

Definition close (t : obj) : obj := obj_set "open" (JBool false) t.

(** The reducer: the toasts and the timers it leaves. *)
Definition reducer (l : list obj) (timers : list string) (action : Action)
  : list obj * list string :=
  match action with
  | ADD_TOAST toast => (firstn TOAST_LIMIT (toast :: l), timers)
  | UPDATE_TOAST toast =>
      (map (fun t => if same_id t toast then obj_spread t toast else t) l, timers)
  | DISMISS_TOAST toastId =>
      (map (fun t => if match toastId with Some id => has_id id t | None => true end
                     then close t else t) l,
       match truthy_env toastId with
       | Some id => addToRemoveQueue timers id
       | None => fold_left addToRemoveQueue (ids_of l) timers
       end)
  | REMOVE_TOAST None => ([], timers)
  | REMOVE_TOAST (Some id) => (List.filter (fun t => negb (has_id id t)) l, timers)
  end.

(** [listener(memoryState)] for every listener *)
Definition notify (l : list obj) (ls : list nat) (vs : list (nat * list obj))
  : list (nat * list obj) :=
  map (fun v => if existsb (Nat.eqb v.1) ls then (v.1, l) else v) vs.

Definition dispatch (action : Action) (s : ToastState) : ToastState :=
  let '(l, timers) := reducer (toasts s) (toastTimeouts s) action in
  mkToasts (count s) l timers (listeners s) (notify l (listeners s) (views s)).

(** [toast(props)], and the id of the toast *)
Definition toast (props : obj) (s : ToastState) : ToastState * string :=
  let '(n, id) := genId (count s) in
  let t := obj_set "open" (JBool true) (obj_set "id" (JStr id) (obj_spread [] props)) in
  (dispatch (ADD_TOAST t) (mkToasts n (toasts s) (toastTimeouts s) (listeners s) (views s)), id).

(** ** Events *)

(** [Render] is the first render of a component that calls [useToast]; [Listen] and
    [Unlisten] are its effect and the clean-up, which also run around every change of
    the component's state. *)
Inductive toast_event : Type :=
| Toast (props : obj)
| Update (id : string) (props : obj)
| Dismiss (toastId : option string)
| Fire (toastId : string)
| Render (n : nat)
| Listen (n : nat)
| Unlisten (n : nat).

Fixpoint remove_first (n : nat) (l : list nat) : list nat :=
  match l with
  | [] => []
  | m :: l' => if Nat.eqb n m then l' else m :: remove_first n l'
  end.

Definition set_view (n : nat) (l : list obj) (vs : list (nat * list obj)) : list (nat * list obj) :=
  (n, l) :: List.filter (fun v => negb (Nat.eqb v.1 n)) vs.

(** A timer that fires is deleted first. *)
Definition toast_step (ev : toast_event) (s : ToastState) : option ToastState :=
  match ev with
  | Toast props => Some (toast props s).1
  | Update id props => Some (dispatch (UPDATE_TOAST (obj_set "id" (JStr id) (obj_spread [] props))) s)
  | Dismiss toastId => Some (dispatch (DISMISS_TOAST toastId) s)
  | Fire id =>
      if existsb (String.eqb id) (toastTimeouts s) then
        Some (dispatch (REMOVE_TOAST (Some id))
          (mkToasts (count s) (toasts s)
             (List.filter (fun x => negb (String.eqb x id)) (toastTimeouts s)) (listeners s) (views s)))
      else None
  | Render n =>
      Some (mkToasts (count s) (toasts s) (toastTimeouts s) (listeners s)
              (set_view n (toasts s) (views s)))
  | Listen n =>
      Some (mkToasts (count s) (toasts s) (toastTimeouts s) (listeners s ++ [n])%list (views s))
  | Unlisten n =>
      Some (mkToasts (count s) (toasts s) (toastTimeouts s) (remove_first n (listeners s)) (views s))
  end.

Inductive toast_reaches : ToastState -> Prop :=
| toast_start : toast_reaches initial_toasts
| toast_next (s s' : ToastState) (ev : toast_event) :
    toast_reaches s -> toast_step ev s = Some s' -> toast_reaches s'.

(** ** The invariant *)

Definition toast_inv (s : ToastState) : Prop :=
  List.length (toasts s) <= TOAST_LIMIT /\ base.NoDup (toastTimeouts s).

Lemma queue_NoDup (timers : list string) (id : string) :
  base.NoDup timers -> base.NoDup (addToRemoveQueue timers id).
Proof.
  intros H. unfold addToRemoveQueue. destruct (existsb (String.eqb id) timers) eqn:E; [done|].
  apply list.NoDup_app. split; [done|]. split; [|apply NoDup_singleton].
  intros x Hx ->%list_elem_of_singleton. apply existsb_elem in Hx. congruence.
Qed.

Lemma queue_fold_NoDup (ids : list string) (timers : list string) :
  base.NoDup timers -> base.NoDup (fold_left addToRemoveQueue ids timers).
Proof. revert timers. induction ids as [|id ids IH]; intros t Ht; cbn; auto using queue_NoDup. Qed.

Lemma queue_elem (timers : list string) (id : string) : id ∈ addToRemoveQueue timers id.
Proof.
  unfold addToRemoveQueue. destruct (existsb (String.eqb id) timers) eqn:E.
  - by apply existsb_elem.
  - apply elem_of_app. right. by apply list_elem_of_singleton.
Qed.

Lemma inv_dispatch (action : Action) (s : ToastState) :
  toast_inv s -> toast_inv (dispatch action s).
Proof.
  intros [Hl Hd]. unfold toast_inv, dispatch.
  destruct action as [t|t|toastId|[id|]]; cbn [reducer toasts toastTimeouts].
  - split; [|done]. rewrite List.length_firstn. lia.
  - split; [by rewrite List.length_map|done].
  - split; [by rewrite List.length_map|].
    destruct (truthy_env toastId); auto using queue_NoDup, queue_fold_NoDup.
  - split; [|done]. etransitivity; [apply List.filter_length_le|done].
  - split; [cbn; lia|done].
Qed.

Lemma inv_toast_step (ev : toast_event) (s s' : ToastState) :
  toast_inv s -> toast_step ev s = Some s' -> toast_inv s'.
Proof.
  intros Hs. destruct ev as [props|id props|toastId|id|n|n|n]; cbn [toast_step].
  - intros [= <-]. unfold toast. destruct (genId (count s)) as [n id]. by apply inv_dispatch.
  - intros [= <-]. by apply inv_dispatch.
  - intros [= <-]. by apply inv_dispatch.
  - destruct (existsb _ _); [|done]. intros [= <-]. apply inv_dispatch.
    destruct Hs as [Hl Hd]. split; [done|]. by apply filter_NoDup.
  - by intros [= <-].
  - by intros [= <-].
  - by intros [= <-].
Qed.

Lemma inv_toast_reaches (s : ToastState) : toast_reaches s -> toast_inv s.
Proof.
  induction 1; [split; [cbn; lia|constructor]|]. by eapply inv_toast_step.
Qed.

(** ** Properties *)

(** In every state the page can reach there is at most one toast and at most one
    timer per toast, and dismissing works from there: the toast's timer is set, and
    once it fires no toast with that id is left and neither is the timer. *)
Theorem toasts_limited_and_removed (s : ToastState) :
  toast_reaches s ->
  (List.length (toasts s) <= TOAST_LIMIT /\ base.NoDup (toastTimeouts s)) /\
  forall id, id <> "" ->
    exists s1 s2, toast_step (Dismiss (Some id)) s = Some s1 /\ toast_step (Fire id) s1 = Some s2 /\
      Forall (fun t => has_id id t = false) (toasts s2) /\ ~ id ∈ toastTimeouts s2.
Proof.
  intros Hs. split; [exact (inv_toast_reaches s Hs)|]. intros id Hid.
  assert (Ht : truthy_env (Some id) = Some id) by (cbn; by destruct (String.eqb_spec id "")).
  do 2 eexists. split; [reflexivity|]. cbn [toast_step].
  unfold dispatch at 1. cbn [reducer toastTimeouts]. rewrite Ht.
  rewrite (proj2 (existsb_elem id _) (queue_elem _ id)). split; [reflexivity|].
  cbn [dispatch reducer toasts toastTimeouts]. split.
  - apply List.Forall_forall. intros t Hin. apply List.filter_In in Hin as [_ H].
    by apply negb_true_iff in H.
  - intros Hin. apply list_elem_of_In, List.filter_In in Hin as [_ H].
    by rewrite String.eqb_refl in H.
Qed.

Definition one_toast : ToastState := (toast [("title", JStr "saved")] initial_toasts).1.

Lemma toasts_limited_and_removed_witness :
  (List.length (toasts one_toast) <= TOAST_LIMIT /\ base.NoDup (toastTimeouts one_toast)) /\
  forall id, id <> "" ->
    exists s1 s2, toast_step (Dismiss (Some id)) one_toast = Some s1 /\
      toast_step (Fire id) s1 = Some s2 /\
      Forall (fun t => has_id id t = false) (toasts s2) /\ ~ id ∈ toastTimeouts s2.
Proof.
  apply (toasts_limited_and_removed one_toast).
  apply (toast_next initial_toasts one_toast (Toast [("title", JStr "saved")]));
    [apply toast_start|reflexivity].
Defined.
