(* ===== verification/Csv.v ===== *)
(** * The CSV exports of the pages

    features/benchmarks/utils/export-csv.ts, features/budgets/utils/export-csv.ts and the
    export buttons of the pages.  An export is a computation that reads the clock and
    yields the file the browser downloads, its name and its text.  The rows are records
    with the fields the export reads, typed as the sources type them.  A reference reader
    of CSV ([csv_read]) says what a file means. *)

From S2P Require Import Prelude JsNumber JsText JsValue JsArray Json Effects.
Local Open Scope string_scope.

Definition dquote : ascii := ascii_of_nat 34.
Definition newline : ascii := ascii_of_nat 10.

(** ** The reference reader *)

(** A record ends at a line feed, a field at a comma; a field that starts with a quote
    runs to the quote that closes it, and two quotes in it stand for one (RFC 4180). *)
Inductive csv_mode := AtStart | Plain | Quoted | Closing.

(** The document read so far is never empty and no record in it is: a character is added
    to its first field, a field to its first record, a record to its front. *)
Definition push_char (c : ascii) (d : list (list string)) : list (list string) :=
  match d with
  | (f :: r) :: d' => (String c f :: r) :: d'
  | _ => d
  end.
Definition push_field (d : list (list string)) : list (list string) :=
  match d with
  | r :: d' => ("" :: r) :: d'
  | [] => []
  end.
Definition push_record (d : list (list string)) : list (list string) := [""] :: d.

Fixpoint csv_scan (m : csv_mode) (s : string) : list (list string) :=
  match s with
  | EmptyString => [[""]]
  | String c s' =>
      match m with
      | Quoted => if Ascii.eqb c dquote then csv_scan Closing s' else push_char c (csv_scan Quoted s')
      | _ =>
          if Ascii.eqb c "," then push_field (csv_scan AtStart s')
          else if Ascii.eqb c newline then push_record (csv_scan AtStart s')
          else if Ascii.eqb c dquote then
            match m with
            | AtStart => csv_scan Quoted s'
            | Closing => push_char c (csv_scan Quoted s')
            | _ => push_char c (csv_scan Plain s')
            end
          else push_char c (csv_scan Plain s')
      end
  end.

Definition csv_read (s : string) : list (list string) := csv_scan AtStart s.

(** ** Cells *)

Fixpoint has_char (c : ascii) (s : string) : bool :=
  match s with
  | EmptyString => false
  | String d s' => (Ascii.eqb d c || has_char c s')%bool
  end.

(** The replacement of each quote by two, and a text between quotes *)
Fixpoint double_quotes (s : string) : string :=
  match s with
  | EmptyString => ""
  | String c s' => if Ascii.eqb c dquote then String c (String c (double_quotes s'))
                   else String c (double_quotes s')
  end.
Definition in_quotes (s : string) : string := String dquote (s ++ String dquote "").

(** escapeCSVValue of the benchmarks: a text or a number is converted to a text first. *)
Definition escapeCSVValue (stringValue : string) : string :=
  if (has_char "," stringValue || has_char dquote stringValue || has_char newline stringValue)%bool
  then in_quotes (double_quotes stringValue)
  else stringValue.

(** escapeCSV of the budgets, which also takes null and undefined *)
Definition escapeCSV (value : option string) : string :=
  match value with
  | None => ""
  | Some stringValue =>
      if (has_char "," stringValue || has_char dquote stringValue || has_char newline stringValue)%bool
      then in_quotes (double_quotes stringValue)
      else stringValue
  end.

(** The cell of the model health, request explorer and budget risk exports *)
Definition escapeCell (value : string) : string := in_quotes (double_quotes value).

(** The cell of the exports of budgets/page.tsx: quoted when it has a comma, and nothing
    is doubled (the replacement of a quote there is a quote). *)
Definition commaCell (v : string) : string := if has_char "," v then in_quotes v else v.

(** [[headers, ...rows].join('\n')] *)
Definition csv_lines (lines : list (list string)) : string :=
  str_join (String newline "") (map (str_join ",") lines).

(** ** Downloads *)

Record download := mkDownload { file_name : string; file_text : string }.

Section Exports.
(** Year, month, day, hours and minutes of an instant in the browser's time zone *)
Context (local_time : Z -> Z * Z * Z * Z * Z).

Definition file_stamp (now : Z) : string :=
  let '(y, mo, d, h, mi) := local_time now in
  Z_to_string y ++ pad 2 mo ++ pad 2 d ++ "_" ++ pad 2 h ++ pad 2 mi.

(** *** Benchmarks *)

Record BenchmarkModelAggregate := mkBenchmark {
  bm_model : string;
  bm_provider : string;
  bm_avg_latency_ms : num;
  bm_p95_latency_ms : num;
  bm_success_rate : num;
  bm_avg_cost_usd : num;
  bm_samples : num;
}.

Definition getHealthStatus (successRate : num) : string :=
  if num_geb successRate (number_of_string "0.99") then "healthy"
  else if num_geb successRate (number_of_string "0.8") then "degraded"
  else "failing".

Definition formatDate (date : Z) : string :=
  let '(y, mo, d, _, _) := local_time date in
  Z_to_string y ++ "-" ++ pad 2 mo ++ "-" ++ pad 2 d.

Definition getWindowLabel (windowHours : num) : string :=
  if num_eqb windowHours (num_of_Z 1) then "1h"
  else if num_eqb windowHours (num_of_Z 6) then "6h"
  else if num_eqb windowHours (num_of_Z 24) then "24h"
  else if num_eqb windowHours (num_of_Z 72) then "72h"
  else if num_eqb windowHours (num_of_Z 168) then "168h"
  else num_to_string windowHours ++ "h".

Definition fixed_or_blank (d : nat) (x : num) : string :=
  if num_is_finite x then to_fixed d x else "".

Definition benchmark_headers : list string :=
  ["generated_at"; "window_hours"; "model"; "provider"; "avg_latency_ms"; "p95_latency_ms";
   "success_rate"; "avg_cost_usd"; "samples"; "status"].

Definition benchmark_cells (generatedAt : string) (windowHours : num) (row : BenchmarkModelAggregate)
    : list string :=
  [generatedAt; num_to_string windowHours; bm_model row; bm_provider row;
   fixed_or_blank 2 (bm_avg_latency_ms row); fixed_or_blank 2 (bm_p95_latency_ms row);
   fixed_or_blank 3 (bm_success_rate row); fixed_or_blank 6 (bm_avg_cost_usd row);
   num_to_string (bm_samples row); getHealthStatus (bm_success_rate row)].

Definition exportBenchmarksToCSV (rows : list BenchmarkModelAggregate) (windowHours : num)
    : M (option download) :=
  if Nat.eqb (List.length rows) 0 then mret None
  else
    t ← date_now;
    let csvRows := map (fun row => map escapeCSVValue (benchmark_cells (iso_string t) windowHours row))
                       rows in
    now ← date_now;
    mret (Some (mkDownload
      ("benchmarks_" ++ getWindowLabel windowHours ++ "_" ++ formatDate now ++ ".csv")
      (csv_lines (benchmark_headers :: csvRows)))).

(** *** Budgets *)

Record TenantBudget := mkBudget {
  tb_tenant_id : string;
  tb_monthly_usd : option num;
  tb_enforcement_mode : option string;
  tb_warn_pct : option num;
  tb_hard_pct : option num;
  tb_current_spend_usd : num;
  tb_reserved_usd : option num;
  tb_effective_spend_usd : option num;
  tb_remaining_usd : num;
  tb_status : string;
  tb_enforcement_paused : bool;
  tb_override_limit_usd : option num;
}.

(** The projection of the export, and of calculateProjectedSpend on the page *)
Definition elapsedFraction (windowHours : num) : num :=
  if num_eqb windowHours (num_of_Z 24) then number_of_string "0.1"
  else if num_eqb windowHours (num_of_Z 168) then number_of_string "0.3"
  else number_of_string "0.5".

Definition projected_spend (windowHours currentSpend : num) : num :=
  let f := elapsedFraction windowHours in
  if num_gtb f num_zero then num_div currentSpend f else currentSpend.

Definition effectiveLimit (budget : TenantBudget) : num :=
  match tb_override_limit_usd budget with
  | Some limit => limit
  | None => default num_zero (tb_monthly_usd budget)
  end.

Definition progressPct (budget : TenantBudget) : num :=
  let limit := effectiveLimit budget in
  if num_gtb limit num_zero
  then num_mul (num_div (tb_current_spend_usd budget) limit) (num_of_Z 100)
  else num_zero.

Definition overrideState (budget : TenantBudget) : string :=
  if tb_enforcement_paused budget then "paused"
  else match tb_override_limit_usd budget with Some _ => "override" | None => "none" end.

Definition budget_headers : list string :=
  ["generated_at"; "window"; "tenant_id"; "spend_usd"; "limit_usd"; "progress_pct";
   "projected_spend_usd"; "status"; "override"].

Definition budget_cells (generatedAt : string) (windowHours : num) (projectedFn : num -> num)
    (budget : TenantBudget) : list string :=
  [generatedAt; num_to_string windowHours ++ "h"; tb_tenant_id budget;
   to_fixed 6 (tb_current_spend_usd budget); to_fixed 6 (effectiveLimit budget);
   to_fixed 3 (progressPct budget); to_fixed 6 (projectedFn (tb_current_spend_usd budget));
   tb_status budget; overrideState budget].

Definition exportBudgetsToCSV (budgets : list TenantBudget) (windowHours : num)
    (calculateProjectedSpend : option (num -> num)) : M download :=
  now ← date_now;
  let generatedAt := iso_string now in
  let projectedFn := default (projected_spend windowHours) calculateProjectedSpend in
  let rows := map (fun b => map (fun c => escapeCSV (Some c))
                              (budget_cells generatedAt windowHours projectedFn b)) budgets in
  mret (mkDownload ("budgets_" ++ hd "" (str_split "T" generatedAt) ++ ".csv")
                   (csv_lines (budget_headers :: rows))).

(** *** Model health *)

Record HealthRow := mkHealthRow {
  hr_model : string;
  hr_provider : string;
  hr_model_type : string;
  hr_samples : num;
  hr_effective_spend : num;
  hr_avg_cost_usd : num;
  hr_avg_latency_ms : num;
  hr_p95_latency_ms : num;
  hr_success_rate : num;
  hr_status : string;
}.

Definition health_headers : list string :=
  ["model"; "provider"; "model_type"; "requests"; "effective_spend";
   "avg_cost_per_request_effective"; "avg_latency_ms"; "p95_latency_ms"; "success_rate"; "status"].

Definition health_cells (row : HealthRow) : list string :=
  [hr_model row; hr_provider row; hr_model_type row; num_to_string (hr_samples row);
   num_to_string (hr_effective_spend row); num_to_string (hr_avg_cost_usd row);
   num_to_string (hr_avg_latency_ms row); num_to_string (hr_p95_latency_ms row);
   num_to_string (hr_success_rate row); hr_status row].

Definition exportModelHealthCsv (sortedRows : list HealthRow) : M download :=
  let csv := csv_lines (map escapeCell health_headers
                          :: map (fun row => map escapeCell (health_cells row)) sortedRows) in
  now ← date_now;
  mret (mkDownload ("model_health_" ++ file_stamp now ++ ".csv") csv).

(** *** Request explorer, routing decisions and request logs *)

Definition bool_text (b : bool) : string := if b then "true" else "false".
(** [String(x ?? '')] *)
Definition num_or_blank (x : option num) : string :=
  match x with Some n => num_to_string n | None => "" end.

Record RequestRow := mkRequestRow {
  rq_timestamp : string;
  rq_tenant_id : string;
  rq_request_id : string;
  rq_model : string;
  rq_provider : string;
  rq_strategy : string;
  rq_latency_ms : option num;
  rq_status : string;
  rq_fallback_used : bool;
  rq_cache_status : option string;
}.

Definition request_headers : list string :=
  ["timestamp"; "tenant_id"; "request_id"; "model"; "provider"; "strategy"; "latency_ms"; "status";
   "fallback_used"].

Definition request_cells (r : RequestRow) : list string :=
  [rq_timestamp r; rq_tenant_id r; rq_request_id r; rq_model r; rq_provider r; rq_strategy r;
   num_or_blank (rq_latency_ms r); rq_status r; bool_text (rq_fallback_used r)].

Definition exportRequestsToCsv (sortedRequests : list RequestRow) : M download :=
  let content := csv_lines (map escapeCell request_headers
                              :: map (fun r => map escapeCell (request_cells r)) sortedRequests) in
  now ← date_now;
  mret (mkDownload ("request_explorer_" ++ file_stamp now ++ ".csv") content).

Definition decision_headers : list string :=
  ["timestamp"; "tenant_id"; "request_id"; "model"; "provider"; "strategy"; "fallback_used";
   "status"; "latency_ms"].

Definition decision_cells (r : RequestRow) : list string :=
  [rq_timestamp r; rq_tenant_id r; rq_request_id r; rq_model r; rq_provider r; rq_strategy r;
   bool_text (rq_fallback_used r); rq_status r;
   match rq_latency_ms r with Some n => num_to_string n | None => "undefined" end].

Definition exportRoutingDecisionsToCsv (sortedDecisions : list RequestRow) : M download :=
  let content := csv_lines (decision_headers :: map decision_cells sortedDecisions) in
  now ← date_now;
  mret (mkDownload ("routing_decisions_" ++ file_stamp now ++ ".csv") content).

Definition log_headers : list string :=
  ["timestamp"; "tenant_id"; "model"; "provider"; "latency_ms"; "status"; "fallback_used";
   "cache.status"].

Definition log_cells (r : RequestRow) : list string :=
  [rq_timestamp r; rq_tenant_id r; rq_model r; rq_provider r; num_or_blank (rq_latency_ms r);
   rq_status r; bool_text (rq_fallback_used r); default "" (rq_cache_status r)].

Definition exportLogsToCsv (sortedLogs : list RequestRow) : M download :=
  let content := csv_lines (log_headers :: map log_cells sortedLogs) in
  now ← date_now;
  mret (mkDownload ("request_logs_" ++ file_stamp now ++ ".csv") content).

(** *** Router performance *)

Record TimeseriesRow := mkTimeseriesRow {
  ts_bucket_start : string;
  ts_requests : option num;
  ts_avg_router_pre_ms : option num;
  ts_avg_llm_latency_ms : option num;
  ts_avg_router_post_ms : option num;
  ts_avg_total_latency_ms : option num;
  ts_p95_router_pre_ms : option num;
  ts_p95_llm_latency_ms : option num;
  ts_p95_router_post_ms : option num;
}.

Definition timeseries_headers : list string :=
  ["bucket_start"; "requests"; "avg_router_pre_ms"; "avg_llm_latency_ms"; "avg_router_post_ms";
   "avg_total_latency_ms"; "p95_router_pre_ms"; "p95_llm_latency_ms"; "p95_router_post_ms"].

Definition timeseries_cells (row : TimeseriesRow) : list string :=
  ts_bucket_start row ::
  map num_or_blank
    [ts_requests row; ts_avg_router_pre_ms row; ts_avg_llm_latency_ms row;
     ts_avg_router_post_ms row; ts_avg_total_latency_ms row; ts_p95_router_pre_ms row;
     ts_p95_llm_latency_ms row; ts_p95_router_post_ms row].

Definition exportRouterPerformanceCsv (timeseries : list TimeseriesRow) : M download :=
  let content := csv_lines (timeseries_headers :: map timeseries_cells timeseries) in
  now ← date_now;
  mret (mkDownload ("router_performance_" ++ file_stamp now ++ ".csv") content).

(** *** The exports of the FinOps page *)

(** [x == null ? '-' : String(x)], [s || '-'] and [s ?? '-'] *)
Definition num_or_dash (x : option num) : string :=
  match x with Some n => num_to_string n | None => "-" end.
Definition text_or_dash (s : string) : string := if String.eqb s "" then "-" else s.
Definition opt_text_or_dash (s : option string) : string := text_or_dash (default "" s).
Definition text_or_dash_null (s : option string) : string := default "-" s.

(** [lines.push(data.map(cell).join(','))] after the line of the headers *)
Definition comma_table (headers : list string) (rows : list (list string)) : string :=
  csv_lines (headers :: map (map commaCell) rows).

Record ModelRow := mkModelRow {
  mr_model : string;
  mr_provider : option string;
  mr_model_type : option string;
  mr_requests : num;
  mr_effective_spend : num;
  mr_avg_cost_per_request : num;
}.

Definition efficiency_cells (r : ModelRow) : list string :=
  [mr_model r; text_or_dash_null (mr_provider r); text_or_dash_null (mr_model_type r);
   num_to_string (mr_requests r); num_to_string (mr_effective_spend r);
   num_to_string (mr_avg_cost_per_request r)].

Definition efficiency_headers : list string :=
  ["model"; "provider"; "model_type"; "requests"; "effective_spend"; "avg_cost_per_request"].

Definition handleExportModelEfficiency (selectedMonth : string) (dashboardModelRows : list ModelRow)
    : M download :=
  mret (mkDownload ("model_cost_efficiency_" ++ selectedMonth ++ ".csv")
         (comma_table efficiency_headers (map efficiency_cells dashboardModelRows))).

Record AnalyticsRow := mkAnalyticsRow {
  an_tenant_id : string;
  an_requests : num;
  an_spend_usd : num;
  an_success_rate : option num;
  an_avg_latency_ms : option num;
  an_top_model : option string;
  an_budget_usd : option num;
  an_remaining_budget_usd : option num;
  an_utilization_pct : option num;
  an_status : string;
}.

Definition analytics_headers : list string :=
  ["generated_at"; "window"; "tenant_id"; "requests"; "spend_usd"; "success_rate"; "avg_latency_ms";
   "top_model"; "budget_usd"; "remaining_budget_usd"; "utilization_pct"; "status"].

Definition analytics_cells (generatedAt : string) (windowHours : num) (row : AnalyticsRow) : list string :=
  [generatedAt; num_to_string windowHours ++ "h"; an_tenant_id row; num_to_string (an_requests row);
   num_to_string (an_spend_usd row); num_or_dash (an_success_rate row);
   num_or_dash (an_avg_latency_ms row); text_or_dash_null (an_top_model row);
   num_or_dash (an_budget_usd row); num_or_dash (an_remaining_budget_usd row);
   num_or_dash (an_utilization_pct row); an_status row].

Definition handleExportTenantAnalytics (selectedMonth : string) (windowHours : num)
    (analyticsRows : list AnalyticsRow) : M download :=
  now ← date_now;
  mret (mkDownload ("tenant_analytics_" ++ selectedMonth ++ ".csv")
         (comma_table analytics_headers
            (map (analytics_cells (iso_string now) windowHours) analyticsRows))).

Record ApiKeyUsageRow := mkApiKeyUsageRow {
  ak_api_key_id : string;
  ak_api_key_name : string;
  ak_tenant_id : string;
  ak_requests : num;
  ak_total_cost_usd : num;
  ak_success_rate : option num;
  ak_avg_latency_ms : option num;
  ak_top_model : option string;
  ak_top_provider : option string;
  ak_last_seen_at : option string;
}.

(** [Number(requests) > 0 ? Number(cost) / Number(requests) : 0] *)
Definition avg_cost (requests cost : num) : num :=
  if num_gtb requests num_zero then num_div cost requests else num_zero.

Definition api_key_headers : list string :=
  ["generated_at"; "window"; "api_key_id"; "api_key_name"; "tenant_id"; "requests"; "total_cost_usd";
   "avg_cost_per_request"; "success_rate"; "avg_latency_ms"; "top_model"; "top_provider";
   "last_seen_at"].

Definition api_key_cells (generatedAt : string) (windowHours : num) (row : ApiKeyUsageRow) : list string :=
  [generatedAt; num_to_string windowHours ++ "h"; ak_api_key_id row; text_or_dash (ak_api_key_name row);
   ak_tenant_id row; num_to_string (ak_requests row); num_to_string (ak_total_cost_usd row);
   num_to_string (avg_cost (ak_requests row) (ak_total_cost_usd row));
   num_or_dash (ak_success_rate row); num_or_dash (ak_avg_latency_ms row);
   opt_text_or_dash (ak_top_model row); opt_text_or_dash (ak_top_provider row);
   opt_text_or_dash (ak_last_seen_at row)].

Definition exportApiKeyUsage (windowHours : num) (apiKeyUsageRows : list ApiKeyUsageRow) : M download :=
  now ← date_now;
  mret (mkDownload ("api_key_usage_" ++ file_stamp now ++ ".csv")
         (comma_table api_key_headers
            (map (api_key_cells (iso_string now) windowHours) apiKeyUsageRows))).

Record JwtSubUsageRow := mkJwtSubUsageRow {
  js_jwt_sub : string;
  js_tenant_id : string;
  js_requests : num;
  js_prompt_tokens : num;
  js_completion_tokens : num;
  js_total_tokens : num;
  js_total_cost_usd : num;
  js_first_seen : option string;
  js_last_seen : option string;
}.

Definition jwt_sub_headers : list string :=
  ["generated_at"; "window"; "jwt_sub"; "tenant_id"; "requests"; "prompt_tokens";
   "completion_tokens"; "total_tokens"; "total_cost_usd"; "avg_cost_per_request"; "first_seen";
   "last_seen"].

Definition jwt_sub_cells (generatedAt : string) (windowHours : num) (row : JwtSubUsageRow) : list string :=
  [generatedAt; num_to_string windowHours ++ "h"; js_jwt_sub row; text_or_dash (js_tenant_id row);
   num_to_string (js_requests row); num_to_string (js_prompt_tokens row);
   num_to_string (js_completion_tokens row); num_to_string (js_total_tokens row);
   num_to_string (js_total_cost_usd row);
   num_to_string (avg_cost (js_requests row) (js_total_cost_usd row));
   opt_text_or_dash (js_first_seen row); opt_text_or_dash (js_last_seen row)].

Definition exportJwtSubUsage (windowHours : num) (jwtSubUsageRows : list JwtSubUsageRow) : M download :=
  now ← date_now;
  mret (mkDownload ("jwt_sub_usage_" ++ file_stamp now ++ ".csv")
         (comma_table jwt_sub_headers
            (map (jwt_sub_cells (iso_string now) windowHours) jwtSubUsageRows))).

(** A raw request of an API key, or of a JWT subject *)
Record RawUsageRow := mkRawUsageRow {
  ru_timestamp : string;
  ru_tenant_id : string;
  ru_subject : string;
  ru_api_key_id : string;
  ru_request_id : string;
  ru_model : string;
  ru_provider : string;
  ru_status : string;
  ru_latency_ms : num;
  ru_cost_usd : num;
  ru_prompt_tokens : num;
  ru_cached_tokens : option num;
  ru_completion_tokens : num;
  ru_total_tokens : num;
}.

Definition raw_counts (row : RawUsageRow) : list string :=
  map num_to_string
    [ru_latency_ms row; ru_cost_usd row; ru_prompt_tokens row;
     default num_zero (ru_cached_tokens row); ru_completion_tokens row; ru_total_tokens row].

Definition api_key_raw_headers : list string :=
  ["timestamp"; "tenant_id"; "api_key_name"; "api_key_id"; "request_id"; "model"; "provider";
   "status"; "latency_ms"; "cost_usd"; "prompt_tokens"; "cached_tokens"; "completion_tokens";
   "total_tokens"].

Definition api_key_raw_cells (row : RawUsageRow) : list string :=
  (map text_or_dash
     [ru_timestamp row; ru_tenant_id row; ru_subject row; ru_api_key_id row; ru_request_id row;
      ru_model row; ru_provider row; ru_status row] ++ raw_counts row)%list.

Definition exportApiKeyRawUsage (apiKeyRawRows : list RawUsageRow) : M download :=
  now ← date_now;
  mret (mkDownload ("api_key_raw_usage_" ++ file_stamp now ++ ".csv")
         (comma_table api_key_raw_headers (map api_key_raw_cells apiKeyRawRows))).

Definition jwt_sub_raw_headers : list string :=
  ["timestamp"; "tenant_id"; "jwt_sub"; "request_id"; "model"; "provider"; "status"; "latency_ms";
   "cost_usd"; "prompt_tokens"; "cached_tokens"; "completion_tokens"; "total_tokens"].

Definition jwt_sub_raw_cells (row : RawUsageRow) : list string :=
  (map text_or_dash
     [ru_timestamp row; ru_tenant_id row; ru_subject row; ru_request_id row; ru_model row;
      ru_provider row; ru_status row] ++ raw_counts row)%list.

Definition exportJwtSubRawUsage (jwtSubRawRows : list RawUsageRow) : M download :=
  now ← date_now;
  mret (mkDownload ("jwt_sub_raw_usage_" ++ file_stamp now ++ ".csv")
         (comma_table jwt_sub_raw_headers (map jwt_sub_raw_cells jwtSubRawRows))).

Record AnomalyRow := mkAnomalyRow {
  ar_timestamp : string;
  ar_tenant_id : string;
  ar_model : string;
  ar_provider : string;
  ar_expected_cost_usd : num;
  ar_observed_cost_usd : num;
  ar_deviation_pct : num;
  ar_anomaly_type : string;
  ar_status : string;
}.

Definition anomaly_headers : list string :=
  ["timestamp"; "tenant_id"; "model"; "provider"; "expected_cost_usd"; "observed_cost_usd";
   "deviation_pct"; "anomaly_type"; "status"].

Definition anomaly_cells (a : AnomalyRow) : list string :=
  [ar_timestamp a; ar_tenant_id a; text_or_dash (ar_model a); text_or_dash (ar_provider a);
   to_fixed 6 (ar_expected_cost_usd a); to_fixed 6 (ar_observed_cost_usd a);
   to_fixed 2 (ar_deviation_pct a); ar_anomaly_type a; ar_status a].

Definition exportAnomalies (anomalies : list AnomalyRow) : M download :=
  now ← date_now;
  mret (mkDownload ("anomaly_detection_" ++ file_stamp now ++ ".csv")
         (comma_table anomaly_headers (map anomaly_cells anomalies))).

Record RiskRow := mkRiskRow {
  rr_tenant_id : string;
  rr_current_spend_usd : num;
  rr_budget_usd : num;
  rr_utilization_pct : num;
  rr_status : string;
  rr_enforcement_mode : option string;
  rr_warn_pct : option num;
  rr_hard_pct : option num;
}.

Definition risk_headers : list string :=
  ["generated_at"; "month"; "tenant_id"; "current_spend_usd"; "budget_usd"; "utilization_pct";
   "status"; "enforcement_mode"; "warn_pct"; "hard_pct"].

Definition risk_cells (now selectedMonth : string) (r : RiskRow) : list string :=
  [now; selectedMonth; rr_tenant_id r; num_to_string (rr_current_spend_usd r);
   num_to_string (rr_budget_usd r); num_to_string (rr_utilization_pct r); rr_status r;
   default "" (rr_enforcement_mode r); num_or_blank (rr_warn_pct r); num_or_blank (rr_hard_pct r)].

(** The table of budgets at risk is sorted by utilization, the highest first. *)
Definition exportBudgetRisk (selectedMonth : string) (riskRows : list RiskRow) : M download :=
  let sorted := js_sort (descending rr_utilization_pct) riskRows in
  now ← date_now;
  mret (mkDownload ("finops_budget_risk_" ++ selectedMonth ++ ".csv")
         (csv_lines (map escapeCell risk_headers
                       :: map (fun r => map escapeCell (risk_cells (iso_string now) selectedMonth r))
                              sorted))).
End Exports.

(** ** Reading back *)

Definition push_text (t : string) (d : list (list string)) : list (list string) :=
  match d with
  | (f :: r) :: d' => ((t ++ f) :: r) :: d'
  | _ => d
  end.

(** What may follow a field *)
Definition delimited (rest : string) : Prop :=
  match rest with
  | EmptyString => True
  | String c _ => c = ","%char \/ c = newline
  end.

(** The text [raw] stands for the cell [cell] wherever a field can be. *)
Definition reads_back (raw cell : string) : Prop :=
  forall rest, delimited rest -> csv_scan AtStart (raw ++ rest) = push_text cell (csv_scan AtStart rest).

Definition plain_cell (s : string) : bool :=
  negb (has_char "," s || has_char dquote s || has_char newline s).

Lemma push_char_shape (c : ascii) (d : list (list string)) :
  (exists f r d', d = (f :: r) :: d') -> exists f r d', push_char c d = (f :: r) :: d'.
Proof. intros (f & r & d' & ->). cbn. eauto. Qed.

Lemma scan_shape (m : csv_mode) (s : string) : exists f r d, csv_scan m s = (f :: r) :: d.
Proof.
  revert m. induction s as [|c s IH]; intros m; cbn [csv_scan]; [by repeat eexists|].
  destruct m; repeat case_match; unfold push_record, push_field;
    auto using push_char_shape; try (by repeat eexists);
    destruct (IH AtStart) as (f & r & d & ->); by repeat eexists.
Qed.

Lemma push_text_nil (m : csv_mode) (s : string) : push_text "" (csv_scan m s) = csv_scan m s.
Proof. by destruct (scan_shape m s) as (f & r & d & ->). Qed.

Lemma push_text_cons (c : ascii) (t : string) (m : csv_mode) (s : string) :
  push_char c (push_text t (csv_scan m s)) = push_text (String c t) (csv_scan m s).
Proof. by destruct (scan_shape m s) as (f & r & d & ->). Qed.

(** After a field, all modes but the quoted one agree. *)
Lemma delimited_mode (m : csv_mode) (rest : string) :
  delimited rest -> m <> Quoted -> csv_scan m rest = csv_scan AtStart rest.
Proof.
  destruct rest as [|c rest]; cbn [delimited]; [by destruct m|].
  intros [-> | ->] Hm; by destruct m.
Qed.

Lemma scan_plain (s rest : string) (m : csv_mode) :
  plain_cell s = true -> delimited rest -> m = AtStart \/ m = Plain ->
  csv_scan m (s ++ rest) = push_text s (csv_scan AtStart rest).
Proof.
  revert m. induction s as [|c s IH]; intros m Hp Hd Hm.
  - cbn [String.append]. rewrite push_text_nil. apply delimited_mode; [done|]. by destruct Hm as [-> | ->].
  - unfold plain_cell in Hp, IH. cbn [has_char] in Hp.
    apply negb_true_iff in Hp. apply orb_false_iff in Hp as [Hp Hn]. apply orb_false_iff in Hp as [Hc Hq].
    apply orb_false_iff in Hn as [En Hn], Hc as [Ec Hc], Hq as [Eq Hq].
    change (String c s ++ rest) with (String c (s ++ rest)).
    assert (E : csv_scan m (String c (s ++ rest)) = push_char c (csv_scan Plain (s ++ rest))).
    { cbn [csv_scan]. rewrite Ec, En, Eq. by destruct Hm as [-> | ->]. }
    rewrite E, (IH Plain); [apply push_text_cons| |done|by right].
    by rewrite Hc, Hq, Hn.
Qed.

Lemma scan_quoted (s rest : string) :
  delimited rest ->
  csv_scan Quoted (double_quotes s ++ String dquote rest) = push_text s (csv_scan AtStart rest).
Proof.
  intros Hd. induction s as [|c s IH].
  - cbn [double_quotes String.append csv_scan]. rewrite Ascii.eqb_refl, push_text_nil.
    by apply delimited_mode.
  - cbn [double_quotes]. destruct (Ascii.eqb c dquote) eqn:E.
    + apply Ascii.eqb_eq in E as ->.
      cbn [String.append csv_scan]. rewrite !Ascii.eqb_refl.
      change (Ascii.eqb dquote ",") with false. change (Ascii.eqb dquote newline) with false.
      cbv iota. rewrite IH. apply push_text_cons.
    + cbn [String.append csv_scan]. rewrite E, IH. apply push_text_cons.
Qed.

(** *** The encodings of a cell *)

Lemma plain_reads_back (s : string) : plain_cell s = true -> reads_back s s.
Proof. intros Hp rest Hd. apply scan_plain; auto. Qed.

Lemma quoted_reads_back (s : string) : reads_back (in_quotes (double_quotes s)) s.
Proof.
  intros rest Hd. unfold in_quotes. cbn [String.append csv_scan].
  change (Ascii.eqb dquote ",") with false. change (Ascii.eqb dquote newline) with false.
  rewrite Ascii.eqb_refl. cbv iota. rewrite str_app_assoc. by apply scan_quoted.
Qed.

Lemma cell_reads_back (s : string) : reads_back (escapeCell s) s.
Proof. apply quoted_reads_back. Qed.

Lemma escape_reads_back (s : string) : reads_back (escapeCSVValue s) s.
Proof.
  unfold escapeCSVValue. destruct (_ || _ || _)%bool eqn:E; [apply quoted_reads_back|].
  apply plain_reads_back. unfold plain_cell. by rewrite E.
Qed.

Lemma comma_reads_back (s : string) :
  has_char dquote s = false -> has_char newline s = false -> reads_back (commaCell s) s.
Proof.
  intros Hq Hn. unfold commaCell. destruct (has_char "," s) eqn:Hc.
  - assert (E : double_quotes s = s).
    { clear Hn Hc. induction s as [|c s IH]; [done|]. cbn in Hq |- *.
      apply orb_false_iff in Hq as [-> Hq]. by rewrite IH. }
    rewrite <- E at 1. apply quoted_reads_back.
  - apply plain_reads_back. unfold plain_cell. by rewrite Hc, Hq, Hn.
Qed.

(** *** Records and documents *)

Fixpoint push_cells (cells : list string) (d : list (list string)) : list (list string) :=
  match cells with
  | [] => d
  | [c] => push_text c d
  | c :: cells' => push_text c (push_field (push_cells cells' d))
  end.

Definition record_reads (raws cells : list string) : Prop :=
  cells <> [] /\ Forall2 reads_back raws cells.

(** What may follow a record *)
Definition ended (rest : string) : Prop :=
  match rest with EmptyString => True | String c _ => c = newline end.

Lemma ended_delimited (rest : string) : ended rest -> delimited rest.
Proof. destruct rest; cbn; [done|]. by right. Qed.

Lemma record_reads_back (raws cells : list string) (rest : string) :
  record_reads raws cells -> ended rest ->
  csv_scan AtStart (str_join "," raws ++ rest) = push_cells cells (csv_scan AtStart rest).
Proof.
  intros [Hne H] He. induction H as [|raw cell raws cells Hr Hrs IH]; [done|].
  destruct Hrs as [|raw' cell' raws cells Hr' Hrs].
  - cbn [str_join push_cells]. by apply Hr, ended_delimited.
  - cbn [str_join]. rewrite !str_app_assoc.
    cbn [push_cells]. rewrite Hr by (by left). f_equal.
    cbn [String.append csv_scan]. cbv iota. f_equal. apply IH. done.
Qed.

Lemma push_cells_line (cells : list string) (d : list (list string)) :
  cells <> [] -> push_cells cells (push_record d) = cells :: d.
Proof.
  unfold push_record. induction cells as [|c [|c' cells] IH]; intros Hne; [done| |].
  - cbn. by rewrite str_app_nil.
  - cbn [push_cells] in *. rewrite IH by done. cbn. by rewrite str_app_nil.
Qed.

Lemma push_cells_last (cells : list string) : cells <> [] -> push_cells cells [[""]] = [cells].
Proof. apply (push_cells_line cells []). Qed.

(** A document is read as the records it was written from. *)
Lemma document_reads_back (lines cells : list (list string)) :
  Forall2 record_reads lines cells -> cells <> [] -> csv_read (csv_lines lines) = cells.
Proof.
  unfold csv_read, csv_lines. intros H Hne.
  induction H as [|raws cs lines cells Hr Hrs IH]; [done|]. pose proof (proj1 Hr) as Hc.
  destruct Hrs as [|raws' cs' lines cells Hr' Hrs].
  - cbn [map str_join]. rewrite <- (str_app_nil (str_join "," raws)).
    rewrite (record_reads_back raws cs "") by done. by apply push_cells_last.
  - cbn [map str_join] in IH |- *.
    rewrite (record_reads_back raws cs) by done.
    change (csv_scan AtStart (String newline "" ++ ?x)) with (push_record (csv_scan AtStart x)).
    rewrite push_cells_line by done. f_equal. apply IH. done.
Qed.

Lemma cells_read (enc : string -> string) (cells : list string) :
  (forall s, reads_back (enc s) s) -> cells <> [] -> record_reads (map enc cells) cells.
Proof.
  intros He Hne. split; [done|]. clear Hne. induction cells; constructor; auto.
Qed.

Lemma comma_cells_read (cells : list string) :
  Forall (fun c => has_char dquote c = false /\ has_char newline c = false) cells ->
  cells <> [] -> record_reads (map commaCell cells) cells.
Proof.
  intros H Hne. split; [done|]. clear Hne.
  induction H as [|c cs [Hq Hn] Hcs IH]; constructor; auto using comma_reads_back.
Qed.

Lemma headers_read (headers : list string) :
  headers <> [] -> forallb plain_cell headers = true -> record_reads headers headers.
Proof.
  intros Hne Hp. split; [done|]. clear Hne. induction headers as [|h hs IH]; [constructor|].
  cbn in Hp. apply andb_true_iff in Hp as [H1 H2]. constructor; auto using plain_reads_back.
Qed.

(** A table of encoded cells below a line of headers *)
Lemma table_reads_back {R} (enc : string -> string) (cells : R -> list string) (raw headers : list string)
    (rows : list R) :
  (forall s, reads_back (enc s) s) -> (forall r, cells r <> []) -> record_reads raw headers ->
  csv_read (csv_lines (raw :: map (fun r => map enc (cells r)) rows)) = headers :: map cells rows.
Proof.
  intros He Hc Hh. apply document_reads_back; [|done]. constructor; [done|].
  induction rows as [|r rows IH]; constructor; auto using cells_read.
Qed.

(** The computation yields a file that reads as [records]. *)
Definition yields_table (m : M download) (w : World) (s : State) (records : list (list string)) : Prop :=
  match (m w s).1 with
  | Ok d => csv_read (file_text d) = records
  | Throw _ => False
  end.

(** The instant the next reading of the clock gives, as the exports print it *)
Definition stamp_of (w : World) (s : State) : string := iso_string (clock w (ticks s)).

#[local] Ltac solve_table :=
  intros; unfold yields_table;
  first
    [ apply (table_reads_back escapeCell); [exact cell_reads_back|done|];
      by apply (cells_read escapeCell); [exact cell_reads_back|]
    | apply (table_reads_back escapeCSVValue); [exact escape_reads_back|done|by apply headers_read] ].

(** C24: the five exports that double quotes lose nothing.  The file of the benchmarks, the
    budgets, the model health, the request explorer and the budgets at risk reads back, by a
    reader that knows nothing of the console, as the header and one record per row with
    exactly the texts of its cells, whatever commas, quotes and line feeds they hold. *)
Theorem quoted_exports_read_back (local_time : Z -> Z * Z * Z * Z * Z) (w : World) (s : State) :
  (forall row rows windowHours,
     exists d, (exportBenchmarksToCSV local_time (row :: rows) windowHours w s).1 = Ok (Some d) /\
       csv_read (file_text d)
       = benchmark_headers :: map (benchmark_cells (stamp_of w s) windowHours) (row :: rows)) /\
  (forall budgets windowHours f,
     yields_table (exportBudgetsToCSV budgets windowHours f) w s
       (budget_headers :: map (budget_cells (stamp_of w s) windowHours
                                 (default (projected_spend windowHours) f)) budgets)) /\
  (forall rows, yields_table (exportModelHealthCsv local_time rows) w s
                  (health_headers :: map health_cells rows)) /\
  (forall rows, yields_table (exportRequestsToCsv local_time rows) w s
                  (request_headers :: map request_cells rows)) /\
  (forall month rows, yields_table (exportBudgetRisk month rows) w s
     (risk_headers :: map (risk_cells (stamp_of w s) month)
                          (js_sort (descending rr_utilization_pct) rows))).
Proof.
  repeat split; try solve_table.
  eexists. split; [reflexivity|]. solve_table.
Qed.

(** the exports of the FinOps page and of the logs quote too little.  A table of
    commaCell reads back as long as no cell holds a quote or a line feed; but an API key
    called with a quote and a comma is read as another name, and a request log whose model
    has a comma has one field more than there are headers. *)
Theorem comma_exports_misread (local_time : Z -> Z * Z * Z * Z * Z) (w : World) (s : State) :
  (forall windowHours rows,
     Forall (fun row => Forall (fun c => has_char dquote c = false /\ has_char newline c = false)
                               (api_key_cells (stamp_of w s) windowHours row)) rows ->
     yields_table (exportApiKeyUsage local_time windowHours rows) w s
       (api_key_headers :: map (api_key_cells (stamp_of w s) windowHours) rows)) /\
  (exists row, csv_read (comma_table api_key_headers [api_key_cells "" (num_of_Z 24) row])
               <> [api_key_headers; api_key_cells "" (num_of_Z 24) row]) /\
  (exists log, yields_table (exportLogsToCsv local_time [log]) w s
                 [log_headers; ["t"; "acme"; "a"; "b"; "openai"; ""; "ok"; "false"; ""]] /\
               rq_model log = "a,b" /\ List.length (log_cells log) = List.length log_headers).
Proof.
  split; [|split].
  - intros windowHours rows H. unfold yields_table. cbn -[csv_lines csv_read comma_table api_key_cells].
    apply document_reads_back; [|done]. constructor; [by apply headers_read|].
    induction H as [|row rows Hr Hrs IH]; [constructor|]. cbn [map]. constructor; [|apply IH].
    by apply comma_cells_read.
  - exists (mkApiKeyUsageRow "k" ("x" ++ String dquote (",y" ++ String dquote "")) "acme"
              num_zero num_zero None None None None None).
    vm_compute. discriminate.
  - exists (mkRequestRow "t" "acme" "r" "a,b" "openai" "" None "ok" false None).
    split; [|done]. by vm_compute.
Qed.

(** The hypothesis holds of a row without quotes. *)
Lemma comma_exports_misread_witness :
  let w := demo_world [] (fun _ => reply 200 "") in
  let row := mkApiKeyUsageRow "k1" "billing, EU" "acme" (num_of_Z 4) (num_of_Z 2) None None None None None in
  yields_table (exportApiKeyUsage (fun _ => (2025, 1, 2, 3, 4)%Z) (num_of_Z 24) [row]) w start
    [api_key_headers; api_key_cells (stamp_of w start) (num_of_Z 24) row].
Proof.
  intros w row.
  apply (proj1 (comma_exports_misread (fun _ => (2025, 1, 2, 3, 4)%Z) w start)).
  constructor; [|constructor]. repeat (constructor; [by vm_compute|]). constructor.
Defined.
