(* ===== verification/ConfigView.v ===== *)
(** * Readers of the configuration

    What the pages show of the gateway's configuration document:
    features/providers/lib (the list of providers), features/global-config/lib (prices, the
    base of a merge) and features/dashboard/lib/config-utils.ts (values by path). *)

From S2P Require Import Prelude JsNumber JsText JsValue JsArray Json Effects ConfigPatch GatewayClient.
From Stdlib Require Import SpecFloat Sorting.Sorted.
Local Open Scope string_scope.

(** ** The list of providers *)

Module ProviderView.

(** [raw && typeof raw === 'object' ? raw : {}] *)
Definition asRecord (raw : js) : js := if is_object raw then raw else JObj [].

Fixpoint getStr (pc : js) (keys : list string) : option string :=
  match keys with
  | [] => None
  | k :: keys' =>
      match opt_get pc k with
      | JStr v => if String.eqb v "" then getStr pc keys' else Some v
      | _ => getStr pc keys'
      end
  end.

Fixpoint getNum (pc : js) (keys : list string) : option num :=
  match keys with
  | [] => None
  | k :: keys' =>
      match opt_get pc k with
      | JNum v => if num_is_nan v then getNum pc keys' else Some v
      | _ => getNum pc keys'
      end
  end.

Definition getEnabled (pc : js) : bool :=
  let e := js_coalesce (opt_get pc "Enabled") (opt_get pc "enabled") in
  if nullish e then true else truthy e.

Inductive key_source := SourceEnv | SourceStored | SourceMissing.

#[export] Instance key_source_eq_dec : EqDecision key_source.
Proof. solve_decision. Defined.

Definition normalizeApiKeySource (raw : js) : key_source :=
  let s := match raw with JStr t => str_lower t | _ => "" end in
  if (String.eqb s "env" || String.eqb s "environment")%bool then SourceEnv
  else if (String.eqb s "stored" || String.eqb s "global_config" || String.eqb s "global config")%bool
  then SourceStored
  else SourceMissing.

Inductive provider_status := Disabled | MissingCredentials | Ready.

#[export] Instance provider_status_eq_dec : EqDecision provider_status.
Proof. solve_decision. Defined.

Definition deriveStatus (enabled hasApiKey : bool) (source : key_source) : provider_status :=
  if negb enabled then Disabled
  else if (negb hasApiKey && bool_decide (source = SourceMissing))%bool then MissingCredentials
  else if negb hasApiKey then MissingCredentials
  else Ready.

(** [Boolean(s?.trim())] *)
Definition filled (s : option string) : bool :=
  match s with Some t => negb (String.eqb (str_trim t) "") | None => false end.

Definition isAwsBedrockReady (type : string) (awsAccessKeyId awsRegion : option string) : bool :=
  (String.eqb type "aws_bedrock" && filled awsAccessKeyId && filled awsRegion)%bool.

(** Absent properties are None. *)
Record ProviderWithVersion := mkProvider {
  id : string;
  type : string;
  enabled : bool;
  has_api_key : bool;
  api_key_source : key_source;
  base_url : option string;
  status : provider_status;
  api_version : option string;
  organization : option string;
  project : option string;
  timeout_ms : option num;
  max_retries : option num;
  last_credential_update : option string;
  version : js;
  aws_access_key_id : option string;
  aws_region : option string;
  aws_secret_configured : option bool;
}.

Definition bedrockViewModel (id : string) (pc documentVersion : js) : ProviderWithVersion :=
  let enabled := getEnabled pc in
  let awsAccessKeyId := getStr pc ["AwsAccessKeyID"; "aws_access_key_id"] in
  let awsRegion := getStr pc ["AwsRegion"; "aws_region"] in
  let awsSecretInMap := filled (getStr pc ["AwsSecretAccessKey"; "aws_secret_access_key"]) in
  let bedrockReady := isAwsBedrockReady "aws_bedrock" awsAccessKeyId awsRegion in
  let apiKeySource := if bedrockReady then SourceStored else SourceMissing in
  {| id := id; type := "aws_bedrock"; enabled := enabled; has_api_key := bedrockReady;
     api_key_source := apiKeySource; base_url := getStr pc ["BaseURL"; "base_url"];
     status := deriveStatus enabled bedrockReady apiKeySource;
     api_version := getStr pc ["ApiVersion"; "api_version"];
     organization := getStr pc ["Organization"; "organization"];
     project := getStr pc ["Project"; "project"];
     timeout_ms := getNum pc ["TimeoutMs"; "timeout_ms"];
     max_retries := getNum pc ["MaxRetries"; "max_retries"];
     last_credential_update := getStr pc ["LastCredentialUpdate"; "last_credential_update"];
     version := documentVersion; aws_access_key_id := awsAccessKeyId; aws_region := awsRegion;
     aws_secret_configured := Some (awsSecretInMap || bedrockReady)%bool |}.

Definition providerEntryToViewModel (id : string) (entry documentVersion : js) : ProviderWithVersion :=
  let pc := asRecord entry in
  let enabled := getEnabled pc in
  let type := match getStr pc ["Type"; "type"] with Some t => t | None => id end in
  if (String.eqb type "aws_bedrock" || String.eqb id "bedrock")%bool
  then bedrockViewModel id pc documentVersion
  else
    let apiKeyEnv := getStr pc ["APIKeyEnv"; "api_key_env"] in
    let hasApiKey :=
      match js_coalesce (opt_get pc "HasAPIKey") (opt_get pc "has_api_key") with
      | JBool b => b
      | _ => bool_decide (is_Some apiKeyEnv)
      end in
    let source := normalizeApiKeySource
                    (js_coalesce (opt_get pc "APIKeySource") (opt_get pc "api_key_source")) in
    let apiKeySource :=
      if (bool_decide (source = SourceMissing) && bool_decide (is_Some apiKeyEnv))%bool
      then SourceEnv else source in
    {| id := id; type := type; enabled := enabled; has_api_key := hasApiKey;
       api_key_source := apiKeySource; base_url := getStr pc ["BaseURL"; "base_url"];
       status := deriveStatus enabled hasApiKey apiKeySource;
       api_version := getStr pc ["ApiVersion"; "api_version"];
       organization := getStr pc ["Organization"; "organization"];
       project := getStr pc ["Project"; "project"];
       timeout_ms := getNum pc ["TimeoutMs"; "timeout_ms"];
       max_retries := getNum pc ["MaxRetries"; "max_retries"];
       last_credential_update := getStr pc ["LastCredentialUpdate"; "last_credential_update"];
       version := documentVersion; aws_access_key_id := None; aws_region := None;
       aws_secret_configured := None |}.

Definition providersFromGlobalConfig `{Collation} (globalConfig : js) : list ProviderWithVersion :=
  let config := opt_get globalConfig "config" in
  if negb (truthy config) then []
  else
    let v := opt_get globalConfig "version" in
    let raw := opt_get config "providers" in
    let list := map (fun e => providerEntryToViewModel e.1 e.2 v)
                    (if is_object raw then entries raw else []) in
    let ids := js_set (map id list) in
    js_sort (by_text id)
      (if set_has "bedrock" ids then list
       else (list ++ [providerEntryToViewModel "bedrock" (JObj []) v])%list).

(** [catalogProviderIdsForModels]: the ids a model can be bound to *)
Definition ALWAYS_OFFERED_PROVIDER_IDS : list string := ["bedrock"].

Definition catalogProviderIdsForModels `{Collation} (runtimeProviders : option (list string))
    : list string :=
  js_sort (by_text (fun k => k))
    (fold_left set_add ALWAYS_OFFERED_PROVIDER_IDS (js_set (default [] runtimeProviders))).

(** *** provider-display.ts *)

Definition isAwsBedrockProvider (p : ProviderWithVersion) : bool :=
  (String.eqb (type p) "aws_bedrock" || String.eqb (id p) "bedrock")%bool.

(** [toUpperCase] on the ASCII letters *)
Definition upper_ascii (c : ascii) : ascii :=
  let n := code c in if (Nat.leb 97 n && Nat.leb n 122)%bool then byte (n - 32) else c.

Definition providerDisplayTitle (id : string) : string :=
  if String.eqb id "bedrock" then "AWS Bedrock"
  else match id with
       | EmptyString => "Provider"
       | String c rest => String (upper_ascii c) rest
       end.

Definition providerDetailHeading (id : string) : string :=
  if String.eqb id "bedrock" then "AWS Bedrock Provider"
  else providerDisplayTitle id ++ " Provider".

Definition maskAwsAccessKeyId (value : option string) : string :=
  match value with
  | None | Some EmptyString => "—"
  | Some v => if Nat.leb (str_units v) 8 then "••••••••"
              else str_first 4 v ++ "…" ++ str_last 4 v
  end.

(** *** Properties *)

Lemma view_id (k : string) (e v : js) : id (providerEntryToViewModel k e v) = k.
Proof. unfold providerEntryToViewModel. by destruct (_ || _)%bool. Qed.

Lemma view_ids (l : obj) (v : js) :
  map id (map (fun e => providerEntryToViewModel e.1 e.2 v) l) = map fst l.
Proof. rewrite map_map. apply map_ext. intros e. apply view_id. Qed.

(** The entries of the document, with an empty one for Bedrock when it has none *)
Definition with_bedrock (m : obj) : obj :=
  if set_has "bedrock" (map fst m) then m else (m ++ [("bedrock", JObj [])])%list.

Lemma with_bedrock_NoDup (m : obj) : List.NoDup (map fst m) -> List.NoDup (map fst (with_bedrock m)).
Proof.
  intros H. unfold with_bedrock. destruct (set_has "bedrock" (map fst m)) eqn:E; [done|].
  rewrite map_app. pose proof (set_add_NoDup (map fst m) "bedrock" H) as Hs.
  unfold set_add in Hs. by rewrite E in Hs.
Qed.

Lemma with_bedrock_has (m : obj) : In "bedrock" (map fst (with_bedrock m)).
Proof.
  unfold with_bedrock. destruct (set_has "bedrock" (map fst m)) eqn:E; [by apply set_has_In|].
  rewrite map_app, in_app_iff. right. by left.
Qed.

Lemma set_has_js_set (k : string) (l : list string) : set_has k (js_set l) = set_has k l.
Proof. apply eq_true_iff_eq. by rewrite !set_has_In, js_set_In. Qed.

Section WithCollation.
Context `{Collation}.

Lemma providers_unfold (doc : obj) (c : obj) (m : obj) :
  obj_get "config" doc = Some (JObj c) -> obj_get "providers" c = Some (JObj m) ->
  providersFromGlobalConfig (JObj doc)
  = js_sort (by_text id) (map (fun e => providerEntryToViewModel e.1 e.2
                                          (opt_get (JObj doc) "version")) (with_bedrock m)).
Proof.
  intros Hc Hm. unfold providersFromGlobalConfig, with_bedrock.
  cbn [opt_get]. rewrite Hc. cbn [truthy negb opt_get]. rewrite Hm. cbn [is_object entries].
  rewrite set_has_js_set, view_ids. f_equal. destruct (set_has "bedrock" (map fst m)); [done|].
  by rewrite map_app.
Qed.

(** the list of providers shows the document.  For a document whose providers are an
    object with unique keys, the list is sorted by id, has each id once, has Bedrock, and is
    a permutation of the views of the entries of the document, with the view of an empty
    entry for Bedrock when the document has none. *)
Theorem providers_listed (doc c m : obj) :
  obj_get "config" doc = Some (JObj c) -> obj_get "providers" c = Some (JObj m) ->
  List.NoDup (map fst m) ->
  let list := providersFromGlobalConfig (JObj doc) in
  StronglySorted (fun a b => (localeCompare (id a) (id b) <= 0)%Z) list /\
  List.NoDup (map id list) /\ In "bedrock" (map id list) /\
  Permutation list (map (fun e => providerEntryToViewModel e.1 e.2 (opt_get (JObj doc) "version"))
                        (with_bedrock m)).
Proof.
  intros Hc Hm Hnd. cbv zeta. rewrite (providers_unfold doc c m Hc Hm).
  set (views := map _ (with_bedrock m)).
  pose proof (js_sort_perm (by_text id) views) as Hp.
  pose proof (Permutation_map id Hp) as Hids. unfold views in Hids at 2. rewrite view_ids in Hids.
  repeat split.
  - apply by_text_sorted.
  - apply (Permutation_NoDup (Permutation_sym Hids)), with_bedrock_NoDup, Hnd.
  - apply (Permutation_in _ (Permutation_sym Hids)), with_bedrock_has.
  - exact Hp.
Qed.

Lemma catalog_ids (ids : list string) :
  Permutation (catalogProviderIdsForModels (Some ids)) (set_add (js_set ids) "bedrock").
Proof. apply js_sort_perm. Qed.
End WithCollation.

#[local] Existing Instance code_collation.

Definition demo_document : js :=
  JObj [("version", js_of_Z 7);
        ("config", JObj [("providers", JObj [("openai", JObj [("APIKeyEnv", JStr "OPENAI_API_KEY")]);
                                             ("mistral", JObj [("Enabled", JBool false)])])])].

Lemma providers_listed_witness :
  map id (providersFromGlobalConfig demo_document) = ["bedrock"; "mistral"; "openai"] /\
  In "bedrock" (map id (providersFromGlobalConfig demo_document)).
Proof.
  split; [by vm_compute|].
  refine (proj1 (proj2 (proj2 (providers_listed
    [("version", js_of_Z 7);
     ("config", JObj [("providers", JObj [("openai", JObj [("APIKeyEnv", JStr "OPENAI_API_KEY")]);
                                          ("mistral", JObj [("Enabled", JBool false)])])])]
    _ _ eq_refl eq_refl _)))).
  repeat constructor; cbn; intuition discriminate.
Defined.

(** *** Secrets *)

(** The properties that hold a credential *)
Definition secret_fields : list string :=
  ["AwsSecretAccessKey"; "aws_secret_access_key"; "APIKey"; "api_key"].

(** Two secrets the view does not tell apart: both blank or both not *)
Definition same_fill (s t : string) : Prop :=
  String.eqb (str_trim s) "" = String.eqb (str_trim t) "" /\ String.eqb s "" = String.eqb t "".

Lemma opt_get_set_ne (m : obj) (k k' : string) (v : js) :
  k <> k' -> opt_get (JObj (obj_set k' v m)) k = opt_get (JObj m) k.
Proof. intros Hne. cbn. by rewrite obj_get_set_ne. Qed.

(** Two entries that agree outside of the secrets *)
Definition agree (pc pc' : js) : Prop :=
  forall k, ~ In k secret_fields -> opt_get pc k = opt_get pc' k.

Lemma getStr_agree (pc pc' : js) (keys : list string) :
  agree pc pc' -> forallb (fun k => negb (existsb (String.eqb k) secret_fields)) keys = true ->
  getStr pc keys = getStr pc' keys.
Proof.
  intros Ha. induction keys as [|k keys IH]; cbn [forallb getStr]; [done|].
  intros [Hk Hks]%andb_true_iff. rewrite (Ha k), IH; [done|done|].
  intros Hin. apply negb_true_iff in Hk.
  rewrite (proj2 (existsb_elem k secret_fields)) in Hk; [done|]. by apply list_elem_of_In.
Qed.

Lemma getNum_agree (pc pc' : js) (keys : list string) :
  agree pc pc' -> forallb (fun k => negb (existsb (String.eqb k) secret_fields)) keys = true ->
  getNum pc keys = getNum pc' keys.
Proof.
  intros Ha. induction keys as [|k keys IH]; cbn [forallb getNum]; [done|].
  intros [Hk Hks]%andb_true_iff. rewrite (Ha k), IH; [done|done|].
  intros Hin. apply negb_true_iff in Hk.
  rewrite (proj2 (existsb_elem k secret_fields)) in Hk; [done|]. by apply list_elem_of_In.
Qed.

Lemma agree_set (m : obj) (k : string) (v v' : js) :
  In k secret_fields -> agree (JObj (obj_set k v m)) (JObj (obj_set k v' m)).
Proof. intros Hk x Hx. rewrite !opt_get_set_ne; [done|congruence..]. Qed.

Lemma opt_get_set_eq (m : obj) (k : string) (v : js) : opt_get (JObj (obj_set k v m)) k = v.
Proof. cbn. by rewrite obj_get_set_eq. Qed.

(** The view only tells whether there is a secret. *)
Lemma secret_filled (m : obj) (k s t : string) :
  In k secret_fields -> same_fill s t ->
  filled (getStr (JObj (obj_set k (JStr s) m)) ["AwsSecretAccessKey"; "aws_secret_access_key"])
  = filled (getStr (JObj (obj_set k (JStr t) m)) ["AwsSecretAccessKey"; "aws_secret_access_key"]).
Proof.
  intros Hk [Ht He]. cbn in Hk. cbn [getStr].
  destruct Hk as [<-|[<-|[<-|[<-|[]]]]];
    repeat first [rewrite opt_get_set_eq | rewrite (opt_get_set_ne m) by discriminate].
  - rewrite He. destruct (String.eqb t ""); [done|]. cbn. by rewrite Ht.
  - destruct (opt_get (JObj m) "AwsSecretAccessKey") as [| | | |x| |];
      try destruct (String.eqb x ""); rewrite ?He; destruct (String.eqb t ""); try done; cbn; by rewrite ?Ht.
  - done.
  - done.
Qed.

(** the list of providers does not disclose a secret.  The view of an entry is the same
    for any two secrets in any of its credential fields that are both blank or both filled:
    it says at most that there is one. *)
Theorem provider_view_hides_secrets (k : string) (m : obj) (field s t : string) (v : js) :
  In field secret_fields -> same_fill s t ->
  providerEntryToViewModel k (JObj (obj_set field (JStr s) m)) v
  = providerEntryToViewModel k (JObj (obj_set field (JStr t) m)) v.
Proof.
  intros Hf Hst. pose proof (agree_set m field (JStr s) (JStr t) Hf) as Ha.
  unfold providerEntryToViewModel, bedrockViewModel, getEnabled. cbn [asRecord is_object].
  rewrite (secret_filled m field s t Hf Hst).
  rewrite !(getStr_agree _ _ _ Ha), !(getNum_agree _ _ _ Ha) by reflexivity.
  rewrite !(Ha "Enabled"), !(Ha "enabled"), !(Ha "HasAPIKey"), !(Ha "has_api_key"),
    !(Ha "APIKeySource"), !(Ha "api_key_source"); [done|cbn; intuition discriminate..].
Qed.

Lemma provider_view_hides_secrets_witness :
  providerEntryToViewModel "bedrock"
    (JObj (obj_set "aws_secret_access_key" (JStr "hunter2") [("aws_region", JStr "eu-west-1")])) (js_of_Z 1)
  = providerEntryToViewModel "bedrock"
      (JObj (obj_set "aws_secret_access_key" (JStr "s3cr3t") [("aws_region", JStr "eu-west-1")])) (js_of_Z 1).
Proof.
  apply (provider_view_hides_secrets "bedrock" [("aws_region", JStr "eu-west-1")] "aws_secret_access_key").
  - cbn. tauto.
  - by split.
Defined.

(** A provider is shown as ready exactly when it is enabled and has a key. *)
Lemma status_ready (k : string) (e v : js) :
  let p := providerEntryToViewModel k e v in
  status p = Ready <-> enabled p = true /\ has_api_key p = true.
Proof.
  assert (H : forall b h s, deriveStatus b h s = Ready <-> b = true /\ h = true).
  { intros [] [] []; cbn; intuition discriminate. }
  unfold providerEntryToViewModel. destruct (_ || _)%bool; apply H.
Qed.

End ProviderView.

(** ** Prices, merge base and values by path *)

Module ConfigRead.

Definition price_num (v : js) : option num :=
  match v with
  | JNum n => if num_is_nan n then None else Some n
  | JStr s => if String.eqb (str_trim s) "" then None
              else let n := parse_float s in if num_is_nan n then None else Some n
  | _ => None
  end.

(** [a ?? b] on optional values *)
Definition or_else {A} (a b : option A) : option A := match a with Some _ => a | None => b end.

(** The prices of a prompt and of a completion *)
Definition readPricingFields (pricing : js) : num * num :=
  let p := ProviderView.asRecord pricing in
  let prompt := or_else (or_else (price_num (opt_get p "prompt_per_1m"))
                                 (price_num (opt_get p "PromptPer1M")))
                        (price_num (opt_get p "promptPer1M")) in
  let completion := or_else (or_else (price_num (opt_get p "completion_per_1m"))
                                     (price_num (opt_get p "CompletionPer1M")))
                            (price_num (opt_get p "completionPer1M")) in
  (default num_zero prompt, default num_zero completion).

(** The document a PATCH starts from: the cached one, or the one the editor was given.
    [cached] is the value of the query cache under globalConfig. *)
Definition getLatestGlobalConfigRecord (cached : js) (fallback : obj) : obj :=
  match opt_get cached "config" with
  | JObj cfg => obj_spread [] cfg
  | _ => obj_spread [] fallback
  end.

(** [key in current] and [current[key]] for an object or an array *)
Definition prop (v : js) (key : string) : option js :=
  match v with
  | JObj m => obj_get key m
  | JArr l => if String.eqb key "length" then Some (opt_get v "length") else obj_get key (entries v)
  | _ => None
  end.

Fixpoint walk (current : js) (keys : list string) : js :=
  match keys with
  | [] => current
  | key :: keys' =>
      match prop current key with
      | Some v => walk v keys'
      | None => JUndef
      end
  end.

Definition getNestedValue (o : js) (path : string) : js :=
  if negb (truthy o) then JUndef else walk o (str_split "." path).

Fixpoint getFirstValue (o : js) (paths : list string) : js :=
  match paths with
  | [] => JUndef
  | path :: paths' =>
      let value := getNestedValue o path in
      if nullish value then getFirstValue o paths' else value
  end.

(** null is [JNull], undefined [JUndef]. *)
Definition formatDurationMs (value : js) : js :=
  match value with
  | JUndef => JUndef
  | JNull => JNull
  | _ =>
      let ms := js_to_number value in
      if negb (num_is_finite ms) then JUndef
      else if num_geb ms (num_of_Z 1000) then
        let seconds := num_div ms (num_of_Z 1000) in
        let secondsLabel := match num_to_Z seconds with
                            | Some _ => num_to_string seconds
                            | None => to_fixed 1 seconds
                            end in
        JStr (num_to_string ms ++ " ms (" ++ secondsLabel ++ " s)")
      else JStr (num_to_string ms ++ " ms")
  end.

Definition formatBooleanLabel (value : js) (yesLabel noLabel : string) : option string :=
  if nullish value then None else Some (if truthy value then yesLabel else noLabel).

(** *** Properties *)

Lemma price_num_num (v : js) (n : num) : price_num v = Some n -> num_is_nan n = false.
Proof.
  destruct v; cbn; try done.
  - destruct (num_is_nan n0) eqn:E; [done|]. by intros [= <-].
  - destruct (String.eqb _ _); [done|]. destruct (num_is_nan (parse_float s)) eqn:E; [done|].
    by intros [= <-].
Qed.

(** prices survive the trip through the gateway's vocabulary.  What the models editor
    reads from the price object that the PATCH of a model sends is the two numbers it was
    given, under whichever of the two spellings; and what is read is never NaN. *)
Theorem pricing_roundtrip (p : obj) (prompt completion : num) :
  ModelPatch.numFrom p "prompt_per_1m" "PromptPer1M" = Some prompt ->
  ModelPatch.numFrom p "completion_per_1m" "CompletionPer1M" = Some completion ->
  readPricingFields (JObj (ModelPatch.pricingPayload p)) = (prompt, completion) /\
  num_is_nan prompt = false /\ num_is_nan completion = false.
Proof.
  intros Hp Hc.
  assert (Hn : forall a b n, ModelPatch.numFrom p a b = Some n -> num_is_nan n = false).
  { intros a b n Hn%ModelPatch.numFrom_finite. by destruct n. }
  pose proof (Hn _ _ _ Hp) as Np. pose proof (Hn _ _ _ Hc) as Nc.
  split; [|done]. unfold ModelPatch.pricingPayload. rewrite Hp, Hc.
  unfold readPricingFields. cbn -[num_is_nan key_before].
  change (key_before "CompletionPer1M" "PromptPer1M") with false. cbn -[num_is_nan].
  by rewrite Np, Nc.
Qed.

Lemma pricing_roundtrip_witness :
  readPricingFields (JObj (ModelPatch.pricingPayload
    [("prompt_per_1m", js_of_Z 3); ("CompletionPer1M", JStr "15")])) = (num_of_Z 3, num_of_Z 15).
Proof.
  exact (proj1 (pricing_roundtrip [("prompt_per_1m", js_of_Z 3); ("CompletionPer1M", JStr "15")]
                  (num_of_Z 3) (num_of_Z 15) eq_refl ltac:(by vm_compute))).
Defined.

Lemma walk_app (v : js) (ks ls : list string) : walk v (ks ++ ls) = walk (walk v ks) ls.
Proof.
  revert v. induction ks as [|k ks IH]; intros v; cbn; [done|].
  destruct (prop v k); [apply IH|]. by destruct ls.
Qed.
End ConfigRead.
