(* ===== verification/UsageApi.v ===== *)
(** * The query functions of the observability pages

    src/frontend/src/features/observability/api: what the pages fetch from the console's own
    server, how they page through it, and the health of the models computed from the usage of
    the API keys; with the access probe of src/frontend/src/features/routing/api.  The cache of
    react-query around these functions is a library; its retry rule is the [retryUnlessDenied]
    every query passes to it. *)

From S2P Require Import Prelude JsNumber JsText JsValue JsArray Json Effects.
From S2P Require Import GatewayClient Routes FinopsApi.
From Stdlib Require Import SpecFloat Sorting.Sorted.
Local Open Scope string_scope.

(** ** Shared *)

Definition page_get (url : string) : M HttpResponse := page_fetch (mkHttpRequest "GET" url [] None).

(** [v == null ? null : Number(v)] and [v == null ? null : String(v)] *)
Definition opt_num (v : js) : option num := if nullish v then None else Some (js_to_number v).
Definition opt_text (v : js) : option string := if nullish v then None else Some (js_to_string v).
(** [Number(v ?? d)] and [String(v ?? d)] *)
Definition num_of (v : js) (d : num) : num := js_to_number (js_coalesce v (JNum d)).
Definition str_of (v : js) (d : string) : string := js_to_string (js_coalesce v (JStr d)).

(** The text of an error body: its error, or the message of its error *)
Definition error_text (raw : js) (fallback : string) : string :=
  match raw with
  | JStr s => s
  | JObj m => if obj_has "message" m then js_to_string (opt_get raw "message") else fallback
  | _ => fallback
  end.

Definition parseObservabilityErrorResponse {A} (res : HttpResponse) (fallbackMessage : string) : M A :=
  errorData ← res_json_or_empty res;
  throw (error_with_status (error_text (opt_get errorData "error") fallbackMessage) (res_status res)).

(** The retry option of the queries: the count of failures so far and the last error *)
Definition retryUnlessDenied (failureCount : nat) (error : exn) : bool :=
  match exn_status error with
  | Some s => if denied_status s then false else Nat.ltb failureCount 2
  | None => Nat.ltb failureCount 2
  end.

Definition get_or_raise (url fallback : string) : M js :=
  res ← page_get url;
  if negb (res_ok res) then parseObservabilityErrorResponse res fallback else res_json res.

(** [if (v) params.append(k, v)] *)
Definition append_given (k : string) (v : option string) (ps : list (string * string))
    : list (string * string) :=
  match truthy_env v with Some t => params_append k t ps | None => ps end.
(** [if (n) params.append(k, String(n))] *)
Definition append_num (k : string) (v : option num) (ps : list (string * string))
    : list (string * string) :=
  match v with
  | Some n => if num_truthy n then params_append k (num_to_string n) ps else ps
  | None => ps
  end.
Definition append_bool (k : string) (v : option bool) (ps : list (string * string))
    : list (string * string) :=
  match v with Some b => params_append k (if b then "true" else "false") ps | None => ps end.

(** ** use-observability.ts, use-real-metrics.ts, use-routing-insights.ts *)

Definition fetchObservabilityMetrics (windowHours : num) (bucket : string) : M js :=
  get_or_raise ("/api/observability/metrics?"
    ++ params_to_string [("window_hours", num_to_string windowHours); ("bucket", bucket)])
    "Failed to fetch metrics".

Record RequestLogsFilters := mkLogsFilters {
  lf_tenant_id : option string;
  lf_model : option string;
  lf_provider : option string;
  lf_status : option string;
  lf_time_range : option string;
}.

Definition fetchRequestLogs (limit offset : num) (f : RequestLogsFilters) : M js :=
  let params :=
    append_given "time_range" (lf_time_range f)
      (append_given "status" (lf_status f)
        (append_given "provider" (lf_provider f)
          (append_given "model" (lf_model f)
            (append_given "tenant_id" (lf_tenant_id f)
              [("limit", num_to_string limit); ("offset", num_to_string offset)])))) in
  get_or_raise ("/api/observability/logs?" ++ params_to_string params) "Failed to fetch logs".

Definition fetchCostAnalytics : M js :=
  get_or_raise "/api/observability/cost-analytics" "Failed to fetch cost analytics".

Definition fetchRealMetrics (tenantId month : string) (windowDays : num) : M js :=
  get_or_raise ("/api/observability/real-metrics?"
    ++ params_to_string [("tenant_id", tenantId); ("month", month);
                         ("window_days", num_to_string windowDays)])
    "Failed to fetch real metrics".

Record InsightsFilters := mkInsightsFilters {
  if_tenant_id : option string;
  if_model : option string;
  if_provider : option string;
  if_status : option string;
  if_fallback_used : option bool;
  if_window_hours : option num;
  if_limit : option num;
  if_offset : option num;
}.

Definition fetchRoutingInsights (f : InsightsFilters) : M js :=
  let params :=
    append_num "offset" (if_offset f) (append_num "limit" (if_limit f)
      (append_num "window_hours" (if_window_hours f)
        (append_bool "fallback_used" (if_fallback_used f)
          (append_given "status" (if_status f) (append_given "provider" (if_provider f)
            (append_given "model" (if_model f) (append_given "tenant_id" (if_tenant_id f) []))))))) in
  get_or_raise ("/api/observability/routing-insights?" ++ params_to_string params)
    "Failed to fetch routing insights".

(** ** use-request-explorer.ts *)

Record ExplorerFilters := mkExplorerFilters {
  ef_tenant_id : option string;
  ef_model : option string;
  ef_provider : option string;
  ef_status : option string;
  ef_fallback_used : option bool;
  ef_time_range : option string;
  ef_workflow_id : option string;
  ef_conversation_id : option string;
  ef_limit : option num;
  ef_offset : option num;
}.

Definition explorer_params (f : ExplorerFilters) : list (string * string) :=
  params_append "offset" (num_to_string (default num_zero (ef_offset f)))
    (params_append "limit" (num_to_string (default (num_of_Z 50) (ef_limit f)))
      (append_given "conversation_id" (ef_conversation_id f)
        (append_given "workflow_id" (ef_workflow_id f)
          (append_given "time_range" (ef_time_range f)
            (append_bool "fallback_used" (ef_fallback_used f)
              (append_given "status" (ef_status f) (append_given "provider" (ef_provider f)
                (append_given "model" (ef_model f)
                  (append_given "tenant_id" (ef_tenant_id f) []))))))))).

Definition fetchRequestExplorer (f : ExplorerFilters) : M js :=
  res ← page_get ("/api/observability/request-explorer?" ++ params_to_string (explorer_params f));
  if negb (res_ok res) then throw (JsError "Failed to fetch request explorer data") else res_json res.

(** [JNull] stands for the null of a snapshot that does not exist. *)
Definition fetchRequestRoutingSnapshot (requestId : option string) : M js :=
  match truthy_env requestId with
  | None => mret JNull
  | Some id =>
      res ← page_get ("/api/observability/request-explorer/" ++ encodeURIComponent id ++ "/routing");
      if (res_status res =? 404)%Z then mret JNull
      else if negb (res_ok res)
           then parseObservabilityErrorResponse res "Failed to fetch routing snapshot"
           else res_json res
  end.

Definition replayRequest (requestId : string) : M js :=
  res ← page_fetch (mkHttpRequest "POST"
          ("/api/observability/request-explorer/" ++ encodeURIComponent requestId ++ "/replay") [] None);
  if negb (res_ok res) then parseObservabilityErrorResponse res "Replay failed." else res_json res.

(** ** Access probes *)

Definition fetchObservabilityGlobalAccess : M unit :=
  res ← page_get "/api/observability/metrics?window_hours=1&bucket=hour";
  if denied_status (res_status res) then parseObservabilityErrorResponse res "Access denied"
  else if negb (res_ok res) then
    body ← res_json_or_empty res;
    throw (error_with_status
      (match opt_get body "error" with
       | JStr s => s
       | _ => "Request failed (" ++ Z_to_string (res_status res) ++ ")"
       end) (res_status res))
  else mret tt.

Definition fetchReplayGlobalAccess : M unit :=
  res ← page_get "/api/routing/requests/__replay_access__/routing";
  if denied_status (res_status res) then parseObservabilityErrorResponse res "Access denied"
  else if (negb (res_ok res) && negb (res_status res =? 404)%Z)%bool then
    parseObservabilityErrorResponse res ("Request failed (" ++ Z_to_string (res_status res) ++ ")")
  else mret tt.

(** ** fetch-api-keys-usage.ts *)

Record UsageRow := mkUsageRow {
  u_api_key_id : string;
  u_api_key_name : string;
  u_tenant_id : string;
  u_requests : num;
  u_avg_cost_per_request_effective : option num;
  u_success_rate : option num;
  u_avg_latency_ms : option num;
  u_top_model : option string;
  u_top_provider : option string;
  u_last_seen_at : option string;
}.

Record Pagination := mkPagination {
  pg_limit : num;
  pg_offset : num;
  pg_returned : num;
  pg_total : num;
}.

Record UsagePage := mkUsagePage { up_data : list UsageRow; up_pagination : Pagination }.

(** What a row of the gateway's list is on the page; a null row is a TypeError. *)
Definition usage_of (row : js) : UsageRow :=
  let f := opt_get row in
  mkUsageRow (str_of (f "api_key_id") "") (str_of (f "api_key_name") "") (str_of (f "tenant_id") "")
    (num_of (f "requests") num_zero) (opt_num (f "avg_cost_per_request_effective"))
    (opt_num (f "success_rate")) (opt_num (f "avg_latency_ms")) (opt_text (f "top_model"))
    (opt_text (f "top_provider"))
    (if nullish (f "last_seen") then opt_text (f "last_seen_at") else opt_text (f "last_seen")).

Definition usageRow (row : js) : M UsageRow := _ ← get row "api_key_id"; mret (usage_of row).

(** Limits and offsets are integers, below 2^53, where numbers count exactly. *)
Definition usage_request (windowHours : num) (limit offset : Z) : HttpRequest :=
  mkHttpRequest "GET"
    ("/api/finops/api-keys/usage?"
       ++ params_to_string [("window_hours", num_to_string windowHours); ("limit", Z_to_string limit);
                            ("offset", Z_to_string offset)]) [] None.

(** The rows of an answer, which the gateway nests in one or two data properties *)
Definition usage_rows (payload : js) : list js :=
  match payload with
  | JArr l => l
  | _ => js_array (opt_get payload "data")
  end.

Definition usage_pagination (raw payload : js) : M js :=
  match payload with
  | JObj m => if obj_has "pagination" m
              then mret (js_coalesce (opt_get payload "pagination") (JObj []))
              else p ← get raw "pagination"; mret (js_coalesce p (JObj []))
  | _ => p ← get raw "pagination"; mret (js_coalesce p (JObj []))
  end.

Definition fetchApiKeysUsage (windowHours : num) (limit offset : Z) : M UsagePage :=
  resp ← page_fetch (usage_request windowHours limit offset);
  if negb (res_ok resp) then
    _ ← assertFinopsUnauthorized resp;
    mret (mkUsagePage [] (mkPagination (num_of_Z limit) (num_of_Z offset) num_zero num_zero))
  else
    raw ← res_json resp;
    let payload := js_coalesce (opt_get raw "data") raw in
    data ← map_elems usageRow (usage_rows payload);
    p ← usage_pagination raw payload;
    mret (mkUsagePage data
      (mkPagination (num_of (opt_get p "limit") (num_of_Z limit))
         (num_of (opt_get p "offset") (num_of_Z offset))
         (num_of (opt_get p "returned") (num_length data)) (num_of (opt_get p "total") (num_length data)))).

(** The loop over the pages: [pages] are left, the next one starts at [offset]. *)
Fixpoint usage_loop (pages : nat) (windowHours : num) (offset : Z) : M (list UsageRow) :=
  match pages with
  | O => mret []
  | S pages' =>
      resp ← fetchApiKeysUsage windowHours 200 offset;
      let batch := up_data resp in
      match batch with
      | [] => mret []
      | _ => if Nat.ltb (List.length batch) 200 then mret batch
             else rest ← usage_loop pages' windowHours (offset + Z.of_nat (List.length batch));
                  mret (batch ++ rest)%list
      end
  end.

Definition maxPages : nat := 500.

Definition fetchAllApiKeysUsage (windowHours : num) : M (list UsageRow) :=
  usage_loop maxPages windowHours 0.

Record ModelCount := mkModelCount {
  mc_model : string;
  mc_requests : num;
  mc_effective_spend : num;
  mc_avg_cost : option num;
}.

Record RecentRequest := mkRecentRequest {
  rc_request_id : string;
  rc_timestamp : string;
  rc_model : string;
  rc_provider : string;
  rc_latency_ms : num;
  rc_status : string;
}.

Record Drilldown := mkDrilldown {
  dd_api_key_id : string;
  dd_requests_by_model : list ModelCount;
  dd_requests_by_provider : list (string * num);
  dd_traffic_over_time : list (string * num * num);
  dd_recent_requests : list RecentRequest;
}.

Definition model_count (row : js) : M ModelCount :=
  m ← get row "model";
  let f := opt_get row in
  let requests := num_of (f "requests") num_zero in
  mret (mkModelCount (str_of m "-") requests
    (if nullish (f "effective_spend")
     then num_mul (num_of (f "avg_cost_per_request_effective") num_zero) requests
     else js_to_number (f "effective_spend"))
    (opt_num (f "avg_cost_per_request_effective"))).

Definition provider_count (row : js) : M (string * num) :=
  p ← get row "provider"; mret (str_of p "-", num_of (opt_get row "requests") num_zero).

Definition traffic_count (row : js) : M (string * num * num) :=
  b ← get row "bucket";
  mret (str_of b "", num_of (opt_get row "requests") num_zero, num_of (opt_get row "errors") num_zero).

Definition recent_request (row : js) : M RecentRequest :=
  id ← get row "request_id";
  let f := opt_get row in
  mret (mkRecentRequest (str_of id "") (str_of (f "timestamp") "") (str_of (f "model") "-")
    (str_of (f "provider") "-") (num_of (f "latency_ms") num_zero) (str_of (f "status") "")).

Definition drilldown_request (apiKeyId : string) (windowHours limit : num) : HttpRequest :=
  mkHttpRequest "GET"
    ("/api/finops/api-keys/" ++ encodeURIComponent apiKeyId ++ "/usage?"
       ++ params_to_string [("window_hours", num_to_string windowHours); ("limit", num_to_string limit);
                            ("offset", "0")]) [] None.

Definition fetchApiKeyDrilldown (apiKeyId : string) (windowHours : num) (limit : option num)
    : M (option Drilldown) :=
  resp ← page_fetch (drilldown_request apiKeyId windowHours (default (num_of_Z 50) limit));
  if negb (res_ok resp) then _ ← assertFinopsUnauthorized resp; mret None
  else
    raw ← res_json resp;
    let payload := js_coalesce (opt_get raw "data") raw in
    byModel ← map_elems model_count (js_array (opt_get payload "requests_by_model"));
    byProvider ← map_elems provider_count (js_array (opt_get payload "requests_by_provider"));
    traffic ← map_elems traffic_count (js_array (opt_get payload "traffic_over_time"));
    recent ← map_elems recent_request (js_array (opt_get payload "recent_requests"));
    mret (Some (mkDrilldown (str_of (opt_get payload "api_key_id") apiKeyId) byModel byProvider
                  traffic recent)).

(** ** use-model-health-usage.ts *)

(** A model of the catalogue, with the fields the page reads *)
Record CatalogModel := mkCatalogModel {
  cm_id : string;
  cm_provider : option string;
  cm_type : option string;
}.

Record ModelHealthUsageRow := mkHealth {
  mh_model : string;
  mh_provider : string;
  mh_avg_latency_ms : num;
  mh_p95_latency_ms : option num;
  mh_success_rate : num;
  mh_avg_cost_usd : num;
  mh_samples : num;
  mh_effective_spend : num;
  mh_model_type : string;
}.

Definition normalizeModelType (raw : option string) : string :=
  let t := str_lower (str_trim (default "" raw)) in
  if String.eqb t "" then "llm"
  else if String.eqb t "ml" then "ml"
  else if String.eqb t "embedding" then "embedding"
  else "llm".

Definition isOkStatus (status : string) : bool := String.eqb (str_lower (str_trim status)) "ok".

(** None where the index is out of range and the answer undefined *)
Definition percentile95Sorted (sorted : list num) : option num :=
  match sorted with
  | [] => Some num_zero
  | _ => match num_to_Z (num_sub (num_ceil (num_mul (number_of_string "0.95") (num_length sorted)))
                                 (num_of_Z 1)) with
         | Some idx => sorted !! Z.to_nat (Z.max 0 idx)
         | None => None
         end
  end.

(** [if (!m || m === '-') continue] *)
Definition named_model (m : string) : option string :=
  if (String.eqb m "" || String.eqb m "-")%bool then None else Some m.

Definition count_key (row : ModelCount) : option string := named_model (mc_model row).
Definition add_count (prev : option (num * num)) (row : ModelCount) : num * num :=
  let '(requests, spend) := default (num_zero, num_zero) prev in
  (num_add requests (mc_requests row), num_add spend (mc_effective_spend row)).

Definition aggRequests (drilldowns : list Drilldown) : list (string * (num * num)) :=
  group_by count_key add_count (List.concat (map dd_requests_by_model drilldowns)).

Definition recent_key (r : RecentRequest) : option string := named_model (rc_model r).
Definition add_recent (prev : option (list RecentRequest)) (r : RecentRequest) : list RecentRequest :=
  (default [] prev ++ [r])%list.

(** The loop over the recent requests: the ids seen so far, and the requests by model *)
Definition recent_step (st : list string * list (string * list RecentRequest)) (r : RecentRequest)
    : list string * list (string * list RecentRequest) :=
  let '(seen, byModel) := st in
  let identified := negb (String.eqb (rc_request_id r) "") in
  if (identified && set_has (rc_request_id r) seen)%bool then st
  else ((if identified then set_add seen (rc_request_id r) else seen),
        group_step recent_key add_recent byModel r).

Definition recentByModel (drilldowns : list Drilldown) : list (string * list RecentRequest) :=
  (fold_left recent_step (List.concat (map dd_recent_requests drilldowns)) ([], [])).2.

Definition provider_votes (l : list RecentRequest) : list (string * num) :=
  group_by (fun r => Some (if String.eqb (rc_provider r) "" then "unknown" else rc_provider r))
           (fun prev _ => num_add (default num_zero prev) (num_of_Z 1)) l.

(** The provider of a row: the catalogue's, or the one most recent requests went to *)
Definition row_provider (cat : option CatalogModel) (votes : option (list (string * num))) : string :=
  let provider := default "unknown" (c ← cat; cm_provider c) in
  match votes with
  | Some (v :: vs) =>
      if (String.eqb provider "unknown" || String.eqb provider "")%bool
      then default provider (fst <$> head (js_sort (descending snd) (v :: vs)))
      else provider
  | _ => provider
  end.

Definition health_row (catalogById : list (string * CatalogModel)) (model : string) (sums : num * num)
    (votes : option (list (string * num))) (recentList : list RecentRequest) : ModelHealthUsageRow :=
  let cat := map_get model catalogById in
  let latencies := List.filter (fun n => num_is_finite n && num_geb n num_zero)%bool
                               (map rc_latency_ms recentList) in
  let sortedLat := js_sort (ascending (fun n => n)) latencies in
  let ok := List.filter (fun r => isOkStatus (rc_status r)) recentList in
  mkHealth model (row_provider cat votes)
    (match latencies with
     | [] => num_zero
     | _ => num_div (sum_by (fun n => n) latencies) (num_length latencies)
     end)
    (percentile95Sorted sortedLat)
    (match recentList with
     | [] => num_of_Z 1
     | _ => num_div (num_length ok) (num_length recentList)
     end)
    (num_div sums.2 sums.1) sums.1 sums.2 (normalizeModelType (c ← cat; cm_type c)).

Definition aggregateModelHealthFromDrilldowns `{Collation} (drilldowns : list Drilldown)
    (models : list CatalogModel) : list ModelHealthUsageRow :=
  let catalogById := js_map (map (fun m => (cm_id m, m)) models) in
  let recent := recentByModel drilldowns in
  let providerVotes := map (fun e => (e.1, provider_votes e.2)) recent in
  let rows := omap (fun e : string * (num * num) =>
    let '(model, sums) := e in
    if num_leb sums.1 num_zero then None
    else Some (health_row catalogById model sums (map_get model providerVotes)
                 (default [] (map_get model recent))))
    (aggRequests drilldowns) in
  js_sort (by_text mh_model) rows.

(** The value of [toNumber]: a finite number, or zero *)
Definition toNumber (v : js) : num :=
  let n := js_to_number v in if num_is_finite n then n else num_zero.

(** [a ?? b ?? c] *)
Definition first_of (a b c : js) : js := js_coalesce (js_coalesce a b) c.

(** The list in the answer of the benchmarks: the body, or one of three properties *)
Definition benchmark_items (json : js) : list js :=
  match json with
  | JArr l => l
  | _ => match opt_get json "models" with
         | JArr l => l
         | _ => match opt_get json "items" with
                | JArr l => l
                | _ => js_array (opt_get json "data")
                end
         end
  end.

(** A row of the benchmarks, shared by the fallback of the health table and by
    useModelPerformance, which has no spend and no type *)
Definition performance_row (catalogById : list (string * CatalogModel)) (item : js)
    : M ModelHealthUsageRow :=
  rate ← get item "success_rate";
  let f := opt_get item in
  let successRateRaw := toNumber (first_of rate (f "successRate") (js_of_Z 0)) in
  let model := js_to_string (first_of (f "model") (f "model_name") (JStr "unknown")) in
  let samples := num_max num_zero (num_floor (toNumber (first_of (f "samples") (f "requests") (f "count")))) in
  let avg_cost_usd := toNumber (first_of (f "avg_cost_usd") (f "avg_cost") (f "cost_usd")) in
  mret (mkHealth model (str_of (f "provider") "unknown")
    (toNumber (first_of (f "avg_latency_ms") (f "avg_latency") (f "latency_ms")))
    (Some (toNumber (first_of (f "p95_latency_ms") (f "p95_latency") (f "p95_ms"))))
    (if num_gtb successRateRaw (num_of_Z 1) then num_div successRateRaw (num_of_Z 100) else successRateRaw)
    avg_cost_usd samples (num_mul avg_cost_usd samples)
    (normalizeModelType (c ← map_get model catalogById; cm_type c))).

Definition performance_url (windowHours : num) : string :=
  "/api/observability/model-performance?window_hours=" ++ num_to_string windowHours.

Definition fetchBenchmarkModelHealthRows (windowHours : num) (models : list CatalogModel)
    : M (list ModelHealthUsageRow) :=
  res ← page_get (performance_url windowHours);
  if negb (res_ok res) then mret []
  else json ← res_json res;
       map_elems (performance_row (js_map (map (fun m => (cm_id m, m)) models))) (benchmark_items json).

(** useModelPerformance of use-real-metrics.ts; the spend and the type of a row are not used *)
Definition fetchModelPerformance (windowHours : num) : M (list ModelHealthUsageRow) :=
  res ← page_get (performance_url windowHours);
  if negb (res_ok res) then parseObservabilityErrorResponse res "Failed to fetch model performance"
  else json ← res_json res; map_elems (performance_row []) (benchmark_items json).

(** The catalogue's models, typed as the source types them *)
Definition catalog_model (m : js) : CatalogModel :=
  mkCatalogModel (js_to_string (opt_get m "id"))
    (match opt_get m "provider" with JStr s => Some s | _ => None end)
    (match opt_get m "type" with JStr s => Some s | _ => None end).

Definition fetchModelsCatalog : M (list CatalogModel) :=
  res ← page_get "/api/models";
  if negb (res_ok res) then mret []
  else data ← res_json res; d ← get data "data"; mret (map catalog_model (js_array d)).

(** The query of the health page: a drilldown that fails counts as none. *)
Definition fetchModelHealth `{Collation} (windowHours : num) : M (list ModelHealthUsageRow) :=
  models ← fetchModelsCatalog;
  apiKeys ← fetchAllApiKeysUsage windowHours;
  drilldowns ← promise_all
    (fun k => try_catch (fetchApiKeyDrilldown (u_api_key_id k) windowHours (Some (num_of_Z 50)))
                        (fun _ => mret None)) apiKeys;
  match aggregateModelHealthFromDrilldowns (omap (fun d => d) drilldowns) models with
  | [] => fetchBenchmarkModelHealthRows windowHours models
  | usageRows => mret usageRows
  end.

(** ** The health table against a reference *)

(** The requests without those whose id came before; a request without an id is kept. *)
Fixpoint first_seen (seen : list string) (l : list RecentRequest) : list RecentRequest :=
  match l with
  | [] => []
  | r :: l' =>
      if String.eqb (rc_request_id r) "" then r :: first_seen seen l'
      else if set_has (rc_request_id r) seen then first_seen seen l'
      else r :: first_seen (set_add seen (rc_request_id r)) l'
  end.

(** The counts and the recent requests of one model, over all API keys *)
Definition counts_of (drilldowns : list Drilldown) (m : string) : list ModelCount :=
  List.filter (has_key count_key m) (List.concat (map dd_requests_by_model drilldowns)).
Definition recents_of (drilldowns : list Drilldown) (m : string) : list RecentRequest :=
  List.filter (has_key recent_key m) (first_seen [] (List.concat (map dd_recent_requests drilldowns))).

Definition reference_row (drilldowns : list Drilldown) (models : list CatalogModel) (m : string)
    : ModelHealthUsageRow :=
  let counts := counts_of drilldowns m in
  let recent := recents_of drilldowns m in
  health_row (js_map (map (fun c => (cm_id c, c)) models)) m
    (sum_by mc_requests counts, sum_by mc_effective_spend counts)
    (match recent with [] => None | _ => Some (provider_votes recent) end) recent.

(** One row per model that was counted and has requests, sorted by model *)
Definition reference_health `{Collation} (drilldowns : list Drilldown) (models : list CatalogModel)
    : list ModelHealthUsageRow :=
  js_sort (by_text mh_model)
    (map (reference_row drilldowns models)
       (List.filter (fun m => negb (num_leb (sum_by mc_requests (counts_of drilldowns m)) num_zero))
          (js_set (omap count_key (List.concat (map dd_requests_by_model drilldowns)))))).

Lemma recent_fold (l : list RecentRequest) (seen : list string) (m : list (string * list RecentRequest)) :
  (fold_left recent_step l (seen, m)).2
  = fold_left (group_step recent_key add_recent) (first_seen seen l) m.
Proof.
  revert seen m. induction l as [|r l IH]; intros seen m; cbn [fold_left first_seen]; [done|].
  unfold recent_step at 2. destruct (String.eqb (rc_request_id r) "") eqn:E; cbn [negb andb].
  - apply IH.
  - destruct (set_has (rc_request_id r) seen); apply IH.
Qed.

Lemma group_value_counts (l : list ModelCount) :
  group_value add_count l
  = match l with [] => None | _ => Some (sum_by mc_requests l, sum_by mc_effective_spend l) end.
Proof.
  assert (H : forall l a b, fold_left (fun acc e => Some (add_count acc e)) l (Some (a, b))
    = Some (fold_left (fun s x => num_add s (mc_requests x)) l a,
            fold_left (fun s x => num_add s (mc_effective_spend x)) l b)).
  { clear l. induction l as [|x l IH]; intros a b; cbn; [done|]. apply IH. }
  destruct l as [|x l]; [done|]. apply H.
Qed.

Lemma group_value_recent (l : list RecentRequest) :
  group_value add_recent l = match l with [] => None | _ => Some l end.
Proof.
  assert (H : forall l a, fold_left (fun acc e => Some (add_recent acc e)) l (Some a) = Some (a ++ l)%list).
  { clear l. induction l as [|x l IH]; intros a; cbn; [by rewrite app_nil_r|].
    rewrite IH. cbn. by rewrite <- app_assoc. }
  destruct l as [|x l]; [done|]. apply (H l [x]).
Qed.

Lemma map_get_map {A B} (f : A -> B) (k : string) (m : list (string * A)) :
  map_get k (map (fun e => (e.1, f e.2)) m) = f <$> map_get k m.
Proof. induction m as [|[k' v] m IH]; cbn; [done|]. by destruct (String.eqb k k'). Qed.

Lemma recent_get (drilldowns : list Drilldown) (m : string) :
  map_get m (recentByModel drilldowns)
  = match recents_of drilldowns m with [] => None | l => Some l end.
Proof.
  unfold recentByModel. rewrite recent_fold.
  etransitivity; [apply group_by_get|].
  rewrite group_value_recent. unfold recents_of. by destruct (List.filter _ _).
Qed.

Lemma has_key_In {E} (key : E -> option string) (k : string) (l : list E) :
  In k (omap key l) -> List.filter (has_key key k) l <> [].
Proof.
  rewrite <- list_elem_of_In, list_elem_of_omap. intros (e & He%list_elem_of_In & Hk) Hf.
  assert (Hin : In e (List.filter (has_key key k) l)).
  { apply filter_In. split; [done|]. unfold has_key. by rewrite Hk, String.eqb_refl. }
  by rewrite Hf in Hin.
Qed.

Lemma agg_entries (drilldowns : list Drilldown) :
  aggRequests drilldowns
  = map (fun k => (k, (sum_by mc_requests (counts_of drilldowns k),
                       sum_by mc_effective_spend (counts_of drilldowns k))))
        (js_set (omap count_key (List.concat (map dd_requests_by_model drilldowns)))).
Proof.
  unfold aggRequests.
  rewrite (map_of_values _ (fun k => (sum_by mc_requests (counts_of drilldowns k),
             sum_by mc_effective_spend (counts_of drilldowns k))) (group_by_NoDup _ _ _)) at 1;
    rewrite group_by_keys; [done|].
  intros k Hk. rewrite group_by_get, group_value_counts. unfold counts_of.
  apply js_set_In, has_key_In in Hk. by destruct (List.filter _ _).
Qed.

(** C22: the health table is the reference.  The maps the page fills in one pass over the
    drilldowns give, for every list of drilldowns and every catalogue, exactly the table that
    filters the counts and the recent requests of each model: one row per counted model with
    requests, its requests and spend summed over all keys, its latency and success rate over
    the recent requests whose id was not seen before, sorted by model. *)
Theorem aggregate_is_reference `{Collation} (drilldowns : list Drilldown) (models : list CatalogModel) :
  aggregateModelHealthFromDrilldowns drilldowns models = reference_health drilldowns models.
Proof.
  unfold aggregateModelHealthFromDrilldowns, reference_health. f_equal. rewrite agg_entries.
  induction (js_set _) as [|m ms IH]; cbn -[num_leb]; [done|].
  destruct (num_leb _ _) eqn:E; cbn [negb map]; rewrite IH; [done|].
  f_equal. unfold reference_row. rewrite map_get_map, recent_get.
  by destruct (recents_of drilldowns m).
Qed.

(** ** Paging *)

Lemma map_elems_run {A B} (f : A -> M B) (g : A -> B) (w : World) (s : State) (l : list A) :
  Forall (fun x => f x w s = (Ok (g x), s)) l -> map_elems f l w s = (Ok (map g l), s).
Proof.
  induction 1 as [|x l Hx Hl IH]; [done|]. cbn [map_elems map].
  unfold mbind, M_bind. by rewrite Hx, IH.
Qed.

(** A server that holds [rows] and answers the page at each offset with the 200 rows from it,
    whatever was asked before *)
Definition serves (w : World) (request : Z -> HttpRequest) (rows : list js) : Prop :=
  forall past k, k <= List.length rows ->
    exists resp, net w past (request (Z.of_nat k)) = Ok resp /\ res_ok resp = true /\
      body_json resp = Ok (JObj [("data", JObj [("data", JArr (take 200 (drop k rows)))])]).

Definition page_requests (request : Z -> HttpRequest) (first pages : nat) : list HttpRequest :=
  map (fun i => request (Z.of_nat (200 * i))) (seq first pages).

Lemma usage_page_run (w : World) (h : num) (rows : list js) (k : nat) (s : State) :
  serves w (usage_request h 200) rows -> Forall (fun x => nullish x = false) rows ->
  k <= List.length rows ->
  exists p, fetchApiKeysUsage h 200 (Z.of_nat k) w s
            = (Ok (mkUsagePage (map usage_of (take 200 (drop k rows))) p),
               mkState (sent s ++ [usage_request h 200 (Z.of_nat k)])%list (ticks s)).
Proof.
  intros Hs Hrows Hk. destruct (Hs (sent s) k Hk) as (resp & Hn & Ho & Hb).
  unfold fetchApiKeysUsage, page_fetch. unfold mbind at 1, M_bind at 1. rewrite Hn, Ho. cbn [negb].
  unfold mbind at 1, M_bind at 1. rewrite res_json_eval, Hb.
  cbn [opt_get obj_get String.eqb Ascii.eqb Bool.eqb js_coalesce nullish usage_rows js_array].
  unfold mbind at 1, M_bind at 1.
  rewrite (map_elems_run usageRow usage_of).
  - cbn. by eexists.
  - apply Forall_take, Forall_drop. revert Hrows. apply List.Forall_impl. intros x Hx.
    unfold usageRow, get. by rewrite Hx.
Qed.

Lemma take_all_drop {A} (l : list A) (k : nat) :
  List.length (take 200 (drop k l)) < 200 -> take 200 (drop k l) = drop k l.
Proof. rewrite length_take. intros H. apply take_ge. lia. Qed.

(** The loop from page [i] on, with pages to spare *)
Lemma usage_loop_run (w : World) (h : num) (rows : list js) (pages i : nat) (s : State) :
  serves w (usage_request h 200) rows -> Forall (fun x => nullish x = false) rows ->
  200 * i <= List.length rows <= 200 * (i + pages) ->
  exists n, n <= pages /\
    usage_loop pages h (Z.of_nat (200 * i)) w s
    = (Ok (map usage_of (drop (200 * i) rows)),
       mkState (sent s ++ page_requests (usage_request h 200) i n)%list (ticks s)).
Proof.
  intros Hs Hrows. revert i s. induction pages as [|pages IH]; intros i s Hi; cbn [usage_loop].
  { exists 0. split; [done|]. rewrite drop_ge by lia. cbn. rewrite app_nil_r. by destruct s. }
  destruct (usage_page_run w h rows (200 * i) s Hs Hrows ltac:(lia)) as (p & Hp).
  set (s1 := mkState _ _) in Hp. unfold mbind, M_bind. rewrite Hp. cbn [up_data].
  rewrite length_map, length_take, length_drop.
  destruct (map usage_of (take 200 (drop (200 * i) rows))) eqn:E.
  - exists 1. split; [lia|]. apply map_eq_nil in E.
    assert (Hd : drop (200 * i) rows = []).
    { rewrite <- E. symmetry. apply take_all_drop. rewrite E. cbn. lia. }
    by rewrite Hd.
  - rewrite <- E. destruct (Nat.ltb_spec (Nat.min 200 (List.length rows - 200 * i)) 200) as [Hlt|Hge].
    + exists 1. split; [lia|]. rewrite take_ge by (rewrite length_drop; lia). done.
    + destruct (IH (S i) s1 ltac:(lia)) as (n & Hn & Hrun).
      exists (S n). split; [lia|].
      replace (Z.of_nat (200 * i) + Z.of_nat (Nat.min 200 (List.length rows - 200 * i)))%Z
        with (Z.of_nat (200 * S i)) by lia.
      assert (Hd : drop (200 * i) rows = (take 200 (drop (200 * i) rows) ++ drop (200 * S i) rows)%list).
      { rewrite <- (take_drop 200 (drop (200 * i) rows)) at 1. rewrite drop_drop.
        by replace (200 * i + 200) with (200 * S i) by lia. }
      rewrite Hrun. rewrite Hd at 2. rewrite map_app. unfold s1, page_requests. cbn [sent ticks seq map mret M_ret].
      by rewrite <- app_assoc.
Qed.

Lemma quiet_map_elems {A B} (w : World) (f : A -> M B) (l : list A) :
  (forall x, quiet w (f x)) -> quiet w (map_elems f l).
Proof.
  intros Hf. induction l as [|x l IH]; [apply sends_ret|]. cbn [map_elems].
  apply sends_bind; [apply Hf|]. intros y. apply sends_bind; [exact IH|]. intros r. apply sends_ret.
Qed.

Lemma quiet_unauthorized (w : World) (resp : HttpResponse) : quiet w (assertFinopsUnauthorized resp).
Proof. unfold assertFinopsUnauthorized, quiet. solve_sends. Qed.

(** A fetch and quiet work after it send that one request. *)
Lemma fetch_once {A} (w : World) (r : HttpRequest) (f : HttpResponse -> M A) (s : State) :
  (forall resp, quiet w (f resp)) -> sent ((page_fetch r ≫= f) w s).2 = (sent s ++ [r])%list.
Proof.
  intros Hf. unfold page_fetch, mbind, M_bind.
  destruct (net w (sent s) r) as [resp|e]; [|done]. by rewrite quiet_sent.
Qed.

Lemma one_request {A} (w : World) (r : HttpRequest) (f : HttpResponse -> M A) :
  (forall resp, quiet w (f resp)) -> spec w (page_fetch r ≫= f) (fun _ new => List.length new = 1).
Proof.
  intros Hf s. exists [r]. split; [by apply fetch_once|done].
Qed.

Lemma usage_one_request (w : World) (h : num) (limit offset : Z) :
  spec w (fetchApiKeysUsage h limit offset) (fun _ new => List.length new = 1).
Proof.
  apply one_request. intros resp. unfold quiet.
  destruct (negb (res_ok resp)).
  - apply sends_bind; [apply quiet_unauthorized|]. intros. apply sends_ret.
  - apply sends_bind; [apply sends_res_json|]. intros raw. cbv zeta.
    apply sends_bind; [|intros data].
    + apply quiet_map_elems. intros x. apply sends_bind; [apply sends_get|]. intros. apply sends_ret.
    + unfold usage_pagination. solve_sends.
Qed.

Lemma usage_loop_bounded (w : World) (h : num) (pages : nat) (offset : Z) :
  spec w (usage_loop pages h offset) (fun _ new => List.length new <= pages).
Proof.
  revert offset. induction pages as [|pages IH]; intros offset; cbn [usage_loop].
  { by apply spec_ret. }
  eapply spec_bind; [apply usage_one_request| |cbn; lia].
  cbn beta. intros resp n1 H1. destruct (up_data resp) as [|row batch]; [apply spec_ret; rewrite length_app; cbn; lia|].
  destruct (Nat.ltb _ 200); [apply spec_ret; rewrite length_app; cbn; lia|].
  eapply spec_bind; [apply IH| |cbn; intros; rewrite length_app; lia].
  cbn. intros rest n2 H2. apply spec_ret. rewrite !length_app. cbn. lia.
Qed.

(** C23: paging through the API keys ends, and finds them all.  Whatever the server answers,
    the loop makes at most 500 requests.  Against a server that holds up to 100,000 rows and
    answers each page with the 200 rows from the offset, it returns every row, in order, each
    once, and asks for consecutive pages from the first one. *)
Theorem usage_paging_complete (w : World) (h : num) :
  spec w (fetchAllApiKeysUsage h) (fun _ new => List.length new <= 500) /\
  (forall rows s,
     serves w (usage_request h 200) rows -> Forall (fun x => nullish x = false) rows ->
     (Z.of_nat (List.length rows) <= 100000)%Z ->
     exists n, n <= 500 /\
       fetchAllApiKeysUsage h w s
       = (Ok (map usage_of rows),
          mkState (sent s ++ page_requests (usage_request h 200) 0 n)%list (ticks s))).
Proof.
  split; [apply usage_loop_bounded|]. intros rows s Hs Hr Hl.
  assert (H500 : List.length rows <= 200 * (0 + maxPages)).
  { unfold maxPages. lia. }
  apply (usage_loop_run w h rows maxPages 0 s Hs Hr). lia.
Qed.

(** A server of two keys, whatever the page *)
Definition two_keys : list js := [JObj [("api_key_id", JStr "a")]; JObj [("api_key_id", JStr "b")]].
Definition two_keys_world : World :=
  demo_world [] (fun r =>
    match List.find (fun k => String.eqb (http_url r) (http_url (usage_request (num_of_Z 24) 200 (Z.of_nat k))))
                    [0; 1; 2] with
    | Some k => reply_json 200 (JObj [("data", JObj [("data", JArr (take 200 (drop k two_keys)))])])
    | None => reply 404 ""
    end).

Lemma usage_paging_complete_witness :
  exists n, n <= 500 /\
    fetchAllApiKeysUsage (num_of_Z 24) two_keys_world start
    = (Ok (map usage_of two_keys),
       mkState (page_requests (usage_request (num_of_Z 24) 200) 0 n) 0).
Proof.
  apply (proj2 (usage_paging_complete two_keys_world (num_of_Z 24)) two_keys start).
  - intros past k Hk. cbn in Hk.
    assert (Hc : k = 0 \/ k = 1 \/ k = 2) by lia.
    destruct Hc as [->|[->| ->]]; (eexists; split; [|split]); [vm_compute; reflexivity..|].
    all: vm_compute; reflexivity.
  - repeat constructor.
  - cbn. lia.
Defined.
