(* ===== verification/HealthView.v ===== *)
(** * The model health view

    src/frontend/src/features/observability/components/model-health-view.tsx: the rows of the
    table with their status, filters, sorting, the key figures, the recommended model with its
    explanation, and the comparison of latencies between two windows. *)

From S2P Require Import Prelude JsNumber JsText JsValue JsArray NumOrder Effects UsageApi.
From Stdlib Require Import SpecFloat Sorting.Sorted.
Local Open Scope string_scope.

(** ** Rows *)

Inductive HealthStatus := Healthy | Degraded | Failing.
Inductive RecommendationState := Recommended | Eligible | Excluded.

#[export] Instance HealthStatus_eq_dec : EqDecision HealthStatus.
Proof. solve_decision. Defined.

Definition WINDOW_OPTIONS : list (string * Z) := [("24h", 24%Z); ("72h", 72%Z); ("7d", 168%Z)].

Definition STATUS_SORT_WEIGHT (s : HealthStatus) : num :=
  num_of_Z (match s with Healthy => 3 | Degraded => 2 | Failing => 1 end).

Definition p98 : num := number_of_string "0.98".
Definition p90 : num := number_of_string "0.9".

Definition getStatus (successRate : num) : HealthStatus :=
  if num_geb successRate p98 then Healthy
  else if num_geb successRate p90 then Degraded
  else Failing.

Definition status_text (s : HealthStatus) : string :=
  match s with Healthy => "healthy" | Degraded => "degraded" | Failing => "failing" end.

Definition formatPercent (value : num) : string :=
  if negb (num_is_finite value) then "0.0%" else to_fixed 1 (num_mul value (num_of_Z 100)) ++ "%".

Record ModelHealthRow := mkRow {
  row_item : ModelHealthUsageRow;
  row_status : HealthStatus;
  row_cost_per_latency : num;
}.

Definition r_model (r : ModelHealthRow) : string := mh_model (row_item r).
Definition r_provider (r : ModelHealthRow) : string := mh_provider (row_item r).
Definition r_success (r : ModelHealthRow) : num := mh_success_rate (row_item r).
Definition r_latency (r : ModelHealthRow) : num := mh_avg_latency_ms (row_item r).
Definition r_cost (r : ModelHealthRow) : num := mh_avg_cost_usd (row_item r).
Definition r_samples (r : ModelHealthRow) : num := mh_samples (row_item r).
(** [Number(row.p95_latency_ms)] *)
Definition r_p95 (r : ModelHealthRow) : num := default num_nan (mh_p95_latency_ms (row_item r)).

Definition modelRowKey (r : ModelHealthRow) : string := r_model r ++ "::" ++ r_provider r.

Definition view_row (item : ModelHealthUsageRow) : ModelHealthRow :=
  mkRow item (getStatus (mh_success_rate item))
    (if num_gtb (mh_avg_latency_ms item) num_zero
     then num_div (mh_avg_cost_usd item) (mh_avg_latency_ms item) else num_inf false).
Definition rows_of (data : list ModelHealthUsageRow) : list ModelHealthRow := map view_row data.

(** ** Filters and sorting *)

Definition providerOptions `{Collation} (rows : list ModelHealthRow) : list string :=
  js_sort (by_text (fun p => p)) (js_set (map r_provider rows)).

(** [None] is the filter all. *)
Definition filteredRows (providerFilter : option string) (statusFilter : option HealthStatus)
    (rows : list ModelHealthRow) : list ModelHealthRow :=
  List.filter (fun row =>
    if negb (match providerFilter with Some p => String.eqb (r_provider row) p | None => true end) then false
    else if negb (match statusFilter with Some s => bool_decide (row_status row = s) | None => true end) then false
    else true) rows.

Inductive SortField :=
| ByModel | ByProvider | ByModelType
| ByLatency | ByP95 | BySuccess | ByCost | ByRequests | ByStatus.
#[export] Instance SortField_eq_dec : EqDecision SortField.
Proof. solve_decision. Defined.

Inductive SortDirection := Asc | Desc.

(** The number of a row in a column that is not one of text *)
Definition sort_number (f : SortField) (r : ModelHealthRow) : num :=
  match f with
  | ByRequests => r_samples r
  | ByStatus => STATUS_SORT_WEIGHT (row_status r)
  | ByLatency => r_latency r
  | ByP95 => r_p95 r
  | ByCost => r_cost r
  | _ => r_success r
  end.

Definition sort_text (f : SortField) (r : ModelHealthRow) : option string :=
  match f with
  | ByModel => Some (r_model r)
  | ByProvider => Some (r_provider r)
  | ByModelType => Some (mh_model_type (row_item r))
  | _ => None
  end.

Section Sorting.
Context `{Collation}.

Definition compareValues (f : SortField) (a b : ModelHealthRow) : num :=
  match sort_text f a, sort_text f b with
  | Some l, Some r => num_of_Z (localeCompare l r)
  | _, _ => num_sub (sort_number f a) (sort_number f b)
  end.

(** The comparison of the table: NaN is not zero, and then counts as zero. *)
Definition compare_rows (f : SortField) (d : SortDirection) (a b : ModelHealthRow) : Z :=
  let primary := compareValues f a b in
  if negb (num_eqb primary num_zero)
  then num_sign (match d with Asc => primary | Desc => SFopp primary end)
  else if negb (num_eqb (r_success a) (r_success b)) then num_sign (num_sub (r_success b) (r_success a))
  else if negb (num_eqb (r_latency a) (r_latency b)) then num_sign (num_sub (r_latency a) (r_latency b))
  else localeCompare (r_model a) (r_model b).

Definition sortedRows (f : SortField) (d : SortDirection) (filtered : list ModelHealthRow) : list ModelHealthRow :=
  sort_with (compare_rows f d) filtered.

(** [b.success - a.success || a.latency - b.latency || localeCompare], and the other rankings *)
Definition reliabilityRanking : list ModelHealthRow -> list ModelHealthRow :=
  sort_with (cmp_or (cmp_or (cmp_down r_success) (cmp_num r_latency)) (cmp_text r_model)).
Definition latencyRanking : list ModelHealthRow -> list ModelHealthRow :=
  sort_with (cmp_or (cmp_or (cmp_num r_latency) (cmp_down r_success)) (cmp_text r_model)).
Definition costRanking : list ModelHealthRow -> list ModelHealthRow :=
  sort_with (cmp_or (cmp_or (cmp_num r_cost) (cmp_down r_success)) (cmp_text r_model)).
End Sorting.

Definition handleSort (field : SortField) (s : SortField * SortDirection) : SortField * SortDirection :=
  if bool_decide (field = s.1) then (s.1, match s.2 with Asc => Desc | Desc => Asc end)
  else (field, match field with ByModel | ByProvider | ByModelType => Asc | _ => Desc end).

(** ** Key figures *)

Definition fastestModel (rows : list ModelHealthRow) : option ModelHealthRow :=
  best_by (fun row best => num_ltb (r_latency row) (r_latency best)) rows.
Definition cheapestModel (rows : list ModelHealthRow) : option ModelHealthRow :=
  best_by (fun row best => num_ltb (r_cost row) (r_cost best))
    (List.filter (fun row => num_geb (r_samples row) (num_of_Z 1)) rows).
Definition mostReliableModel (rows : list ModelHealthRow) : option ModelHealthRow :=
  best_by (fun row best => num_gtb (r_success row) (r_success best)) rows.
Definition failingModelsCount (rows : list ModelHealthRow) : nat :=
  List.length (List.filter (fun row => num_ltb (r_success row) p90) rows).
Definition hasDegradedProviderAlert (rows : list ModelHealthRow) : bool :=
  existsb (fun row => num_ltb (r_success row) p90) rows.

(** ** The recommendation *)

Definition isRecommendationEligible (row : ModelHealthRow) : bool :=
  (negb (bool_decide (row_status row = Failing)) && num_geb (r_success row) p90 &&
   num_gtb (r_success row) num_zero)%bool.

Definition recommendationCandidates (rows : list ModelHealthRow) : list ModelHealthRow :=
  List.filter isRecommendationEligible rows.

Definition cheapestEligibleModel (rows : list ModelHealthRow) : option ModelHealthRow :=
  best_by (fun row best => num_ltb (r_cost row) (r_cost best)) (recommendationCandidates rows).

Definition recommend_step (best : option ModelHealthRow) (row : ModelHealthRow) : option ModelHealthRow :=
  if negb (num_is_finite (row_cost_per_latency row)) then best
  else if num_leb (row_cost_per_latency row) num_zero then best
  else match best with
       | None => Some row
       | Some b => if num_ltb (row_cost_per_latency row) (row_cost_per_latency b) then Some row else Some b
       end.
Definition recommendedModel (rows : list ModelHealthRow) : option ModelHealthRow :=
  fold_left recommend_step (recommendationCandidates rows) None.

Definition noRecommendationAvailable (rows : list ModelHealthRow) : bool :=
  (Nat.ltb 0 (List.length rows) && Nat.eqb (List.length (recommendationCandidates rows)) 0)%bool.

Definition is_recommended (rows : list ModelHealthRow) (row : ModelHealthRow) : bool :=
  match recommendedModel rows with
  | Some r => String.eqb (modelRowKey row) (modelRowKey r)
  | None => false
  end.

Definition getRecommendationState (rows : list ModelHealthRow) (row : ModelHealthRow) : RecommendationState :=
  if negb (isRecommendationEligible row) then Excluded
  else if is_recommended rows row then Recommended
  else Eligible.

Fixpoint index_of (k : string) (ranking : list ModelHealthRow) : option nat :=
  match ranking with
  | [] => None
  | r :: rest => if String.eqb (modelRowKey r) k then Some 0 else option_map S (index_of k rest)
  end.

Definition getRankLabel (ranking : list ModelHealthRow) (row : option ModelHealthRow) : string :=
  match row with
  | None => "—"
  | Some r => match index_of (modelRowKey r) ranking with
              | None => "—"
              | Some i => Z_to_string (Z.of_nat (S i)) ++ " of " ++ Z_to_string (Z.of_nat (List.length ranking))
              end
  end.

Definition statusExplanation (explainRow : option ModelHealthRow) : string :=
  match explainRow with
  | None => ""
  | Some r =>
      if num_geb (r_success r) p98 then "This model is marked healthy because its success rate is at least 98%."
      else if num_geb (r_success r) p90
      then "This model is marked degraded because its success rate is below 98% but still above 90%."
      else "This model is marked failing because its success rate is below 90%."
  end.

Definition failing_text : string := "This model is not recommended because it is failing.".
Definition recommendationExplanation (rows : list ModelHealthRow) (explainRow : option ModelHealthRow) : string :=
  match explainRow with
  | None => ""
  | Some r =>
      if negb (isRecommendationEligible r) then
        if bool_decide (row_status r = Failing) then failing_text
        else if num_eqb (r_success r) num_zero
        then "This model is not recommended because its success rate is 0%."
        else "This model is not recommended because its success rate is below the minimum threshold."
      else if is_recommended rows r
      then "This model is recommended because, among eligible models, it currently offers the best balance of reliability, latency, and cost."
      else "This model is eligible, but another model currently offers a better balance of reliability, latency, and cost."
  end.

(** ** Latency between windows *)

Record Watch := mkWatch {
  w_previousRows : option (list ModelHealthRow);
  w_previousWindow : num;
  w_regressions : list string;
}.

Definition regressed (previous : list ModelHealthRow) (row : ModelHealthRow) : bool :=
  match map_get (r_model row) (js_map (map (fun p => (r_model p, p)) previous)) with
  | None => false
  | Some prev =>
      if num_leb (r_latency prev) num_zero then false
      else num_gtb (r_latency row) (num_mul (r_latency prev) (number_of_string "1.3"))
  end.

(** The effect, run after the rows or the window changed *)
Definition watch_step (windowHours : num) (rows : list ModelHealthRow) (s : Watch) : Watch :=
  match rows with
  | [] => s
  | _ =>
      let regressions :=
        match w_previousRows s with
        | Some previous =>
            if negb (num_eqb (w_previousWindow s) windowHours)
            then map r_model (List.filter (regressed previous) rows) else w_regressions s
        | None => w_regressions s
        end in
      mkWatch (Some rows) windowHours regressions
  end.

(** [value.length <= 18 ? value : value.slice(0, 16) + '…'] *)
Definition formatModelTick (value : string) : string :=
  if Nat.leb (str_units value) 18 then value else str_first 16 value ++ "…".

(** ** The order of the table *)

(** Rows whose numbers are finite; a cost per latency may be infinite. *)
Definition row_ok (r : ModelHealthRow) : Prop :=
  num_ok (r_success r) = true /\ num_ok (r_latency r) = true /\ num_ok (r_cost r) = true /\
  num_ok (r_samples r) = true /\ num_ok (r_p95 r) = true /\
  (num_is_finite (row_cost_per_latency r) = true -> num_ok (row_cost_per_latency r) = true).

Section Order.
Context `{Collation}.

(** A column's order, and the one that breaks ties: reliable first, then fast, then by name *)
Definition column_order (f : SortField) : ModelHealthRow -> ModelHealthRow -> Z :=
  match f with
  | ByModel => cmp_text r_model
  | ByProvider => cmp_text r_provider
  | ByModelType => cmp_text (fun r => mh_model_type (row_item r))
  | _ => cmp_num (sort_number f)
  end.
Definition tie_order : ModelHealthRow -> ModelHealthRow -> Z :=
  cmp_or (cmp_or (cmp_down r_success) (cmp_num r_latency)) (cmp_text r_model).
Definition table_order (f : SortField) (d : SortDirection) : ModelHealthRow -> ModelHealthRow -> Z :=
  cmp_or (match d with Asc => column_order f | Desc => cmp_rev (column_order f) end) tie_order.

Lemma sort_number_ok (f : SortField) (r : ModelHealthRow) : row_ok r -> num_ok (sort_number f r) = true.
Proof. intros (H1 & H2 & H3 & H4 & H5 & _). destruct f; cbn; try done. by destruct (row_status r). Qed.

Lemma column_ordered (f : SortField) : ordered_on row_ok (column_order f).
Proof.
  assert (Ht : forall key, ordered_on row_ok (cmp_text key))
    by (intros key; eapply ordered_weaken; [|apply cmp_text_ordered]; done).
  assert (Hn : ordered_on row_ok (cmp_num (sort_number f)))
    by (eapply ordered_weaken; [|apply cmp_num_ordered]; intros x; apply sort_number_ok).
  destruct f; first [exact Hn|apply Ht].
Qed.

Lemma tie_ordered : ordered_on row_ok tie_order.
Proof.
  unfold tie_order. repeat apply cmp_or_ordered; (eapply ordered_weaken; [|auto with orders]);
    intros x (H1 & H2 & _); done.
Qed.

Lemma table_ordered (f : SortField) (d : SortDirection) : ordered_on row_ok (table_order f d).
Proof.
  apply cmp_or_ordered; [|apply tie_ordered]. destruct d; [|apply cmp_rev_ordered]; apply column_ordered.
Qed.

(** What the code compares is that order. *)
Lemma tie_spec (a b : ModelHealthRow) :
  row_ok a -> row_ok b ->
  (if negb (num_eqb (r_success a) (r_success b)) then num_sign (num_sub (r_success b) (r_success a))
   else if negb (num_eqb (r_latency a) (r_latency b)) then num_sign (num_sub (r_latency a) (r_latency b))
   else localeCompare (r_model a) (r_model b)) = tie_order a b.
Proof.
  intros (S1 & L1 & _) (S2 & L2 & _). unfold tie_order, cmp_or, cmp_down, cmp_num, cmp_text.
  rewrite !eqb_units, !sign_sub by done.
  destruct (Z.eqb_spec (Z.sgn (units (r_success b) - units (r_success a))) 0);
    repeat match goal with |- context [Z.eqb ?x ?y] => destruct (Z.eqb_spec x y) end; cbn [negb];
    try reflexivity; exfalso; lia.
Qed.

Lemma compare_rows_spec (f : SortField) (d : SortDirection) (a b : ModelHealthRow) :
  row_ok a -> row_ok b -> Z.sgn (compare_rows f d a b) = Z.sgn (table_order f d a b).
Proof.
  intros Ha Hb. unfold compare_rows, table_order. cbv zeta. rewrite tie_spec by done. unfold cmp_or at 1.
  assert (Hc : num_eqb (compareValues f a b) num_zero = (column_order f a b =? 0)%Z /\
               num_sign (compareValues f a b) = Z.sgn (column_order f a b)).
  { pose proof (sort_number_ok f a Ha) as Na. pose proof (sort_number_ok f b Hb) as Nb.
    unfold compareValues. destruct f; cbn [sort_text column_order];
      (split; [first [apply eqb_of_Z|rewrite eqb_sub_units by done; unfold cmp_num; rewrite sign_sub by done]|
               first [apply sign_of_Z|unfold cmp_num; rewrite !sign_sub by done; by rewrite Z.sgn_sgn]]).
    all: repeat match goal with |- context [Z.eqb ?x ?y] => destruct (Z.eqb_spec x y) end; lia. }
  destruct Hc as [Hz Hs]. rewrite Hz.
  destruct d; cbn [cmp_rev].
  - destruct (Z.eqb_spec (column_order f a b) 0) as [E|E]; cbn [negb]; [done|]. by rewrite Hs, Z.sgn_sgn.
  - unfold cmp_rev. destruct (Z.eqb_spec (column_order f a b) 0) as [E|E]; cbn [negb].
    + by rewrite E.
    + rewrite sign_opp, Hs. destruct (Z.eqb_spec (- column_order f a b) 0); lia.
Qed.

(** The table of model health is sorted as its header says.  Whatever column and direction
    are chosen, the rows shown are those that pass the filters, ordered by the column in that
    direction, and among equals the reliable before the less reliable, then the faster, then by
    name; for finite numbers no rounding of a difference disturbs the order. *)
Theorem health_table_sorted (f : SortField) (d : SortDirection) (p : option string)
    (st : option HealthStatus) (rows : list ModelHealthRow) :
  Forall row_ok rows ->
  let shown := sortedRows f d (filteredRows p st rows) in
  Permutation shown (List.filter (fun r =>
    (match p with Some q => String.eqb (r_provider r) q | None => true end &&
     match st with Some q => bool_decide (row_status r = q) | None => true end)%bool) rows) /\
  StronglySorted (fun a b => (table_order f d a b <= 0)%Z) shown.
Proof.
  intros Hok shown. split.
  - unfold shown, sortedRows. rewrite sort_with_perm. unfold filteredRows.
    erewrite List.filter_ext; [reflexivity|]. intros r. cbn.
    destruct p as [q|]; [destruct (String.eqb (r_provider r) q)|]; (destruct st as [q'|]; [destruct (bool_decide _)|]); done.
  - assert (Hall : Forall row_ok (filteredRows p st rows)).
    { apply List.Forall_forall. intros r [Hr _]%filter_In. rewrite List.Forall_forall in Hok. by apply Hok. }
    assert (Hs : Forall row_ok shown).
    { apply List.Forall_forall. intros r Hr. apply (Permutation_in _ (sort_with_perm _ _)) in Hr.
      rewrite List.Forall_forall in Hall. by apply Hall. }
    pose proof (sort_sorted_on row_ok (compare_rows f d)
      (ordered_ext _ _ _ (compare_rows_spec f d) (table_ordered f d)) _ Hall) as Hsorted.
    fold (sortedRows f d (filteredRows p st rows)) in Hsorted. fold shown in Hsorted. clearbody shown.
    induction Hsorted as [|a l Hl IH Ha]; [constructor|]. apply List.Forall_cons_iff in Hs as [Hra Hrl].
    constructor; [by apply IH|]. apply List.Forall_forall. intros b Hb. rewrite List.Forall_forall in Ha, Hrl.
    specialize (Ha b Hb). pose proof (compare_rows_spec f d a b Hra (Hrl b Hb)). lia.
Qed.
End Order.

(** ** The recommended model *)

(** Rows that may be recommended *)
Definition priced (r : ModelHealthRow) : bool :=
  (num_is_finite (row_cost_per_latency r) && negb (num_leb (row_cost_per_latency r) num_zero))%bool.

Lemma recommend_filter (l : list ModelHealthRow) (best : option ModelHealthRow) :
  fold_left recommend_step l best =
  fold_left (best_step (fun row b => num_ltb (row_cost_per_latency row) (row_cost_per_latency b)))
    (List.filter priced l) best.
Proof.
  revert best. induction l as [|r l IH]; intros best; [done|]. cbn [fold_left List.filter].
  unfold recommend_step at 2, priced at 1. destruct (num_is_finite _); cbn [negb andb]; [|apply IH].
  destruct (num_leb _ _); cbn [negb]; [apply IH|]. cbn [fold_left]. by rewrite IH.
Qed.

(** Eligibility is one threshold, for rows the view made: what fails it is failing. *)
Lemma eligible_threshold (item : ModelHealthUsageRow) :
  isRecommendationEligible (view_row item) = num_geb (mh_success_rate item) p90.
Proof.
  unfold isRecommendationEligible, view_row, getStatus, r_success. cbn [row_status row_item].
  destruct (num_geb (mh_success_rate item) p90) eqn:E; [|by rewrite andb_false_r].
  assert (num_gtb (mh_success_rate item) num_zero = true) as ->.
  { revert E. unfold num_geb, num_gtb, SFleb, SFltb. change p90 with (S754_finite false 8106479329266893 (-53)).
    by destruct (mh_success_rate item) as [[]|[]| |[] m e]. }
  by destruct (num_geb (mh_success_rate item) p98).
Qed.


Definition demo_item (model : string) (latency success cost : Z) : ModelHealthUsageRow :=
  mkHealth model "openai" (num_of_Z latency) (Some (num_of_Z latency)) (num_div (num_of_Z success) (num_of_Z 100))
    (num_of_Z cost) (num_of_Z 10) (num_of_Z 1) "llm".
Definition demo_data : list ModelHealthUsageRow :=
  [demo_item "slow" 900 99 3; demo_item "flaky" 100 50 1; demo_item "fast" 200 95 2; demo_item "idle" 0 100 1].
#[local] Existing Instance code_collation.

Lemma demo_rows_ok (l : list ModelHealthRow) : Permutation l (rows_of demo_data) -> Forall row_ok l.
Proof.
  intros Hp. apply List.Forall_forall. intros r Hr%(Permutation_in _ Hp). revert r Hr. apply List.Forall_forall.
  repeat (apply List.Forall_cons; [vm_compute; repeat split; congruence|]). apply List.Forall_nil.
Qed.

Lemma health_table_sorted_witness :
  let shown := sortedRows ByLatency Asc (filteredRows None (Some Healthy) (rows_of demo_data)) in
  Permutation shown (List.filter (fun r => (true && bool_decide (row_status r = Healthy))%bool) (rows_of demo_data)) /\
  StronglySorted (fun a b => (table_order ByLatency Asc a b <= 0)%Z) shown.
Proof. apply (health_table_sorted ByLatency Asc None (Some Healthy) (rows_of demo_data)). by apply demo_rows_ok. Defined.

