(* ===== verification/ObservabilityPage.v ===== *)
(** * The observability page

    src/frontend/src/app/(app)/observability/page.tsx: the access to the page, the drilldowns it
    asks for, the sorted request logs and their paging, the totals over the API keys, the
    statistics of the logs by model and by provider, and the tables of model performance and
    provider health.  [date_time] is [new Date(v).getTime()], which the time zone of the browser
    enters. *)

From S2P Require Import Prelude JsNumber JsText JsValue JsArray NumOrder Effects Csv UsageApi HealthView.
From Stdlib Require Import SpecFloat Sorting.Sorted.
Local Open Scope string_scope.

(** ** Texts *)

(** [s.replace(/0+$/, '')] and [s.replace(/\.$/, '')] *)
Fixpoint drop_zeros_rev (s : list ascii) : list ascii :=
  match s with
  | "0"%char :: s' => drop_zeros_rev s'
  | _ => s
  end.
Definition drop_zeros (s : string) : string :=
  string_of_list_ascii (rev (drop_zeros_rev (rev (list_ascii_of_string s)))).
Definition drop_dot (s : string) : string :=
  match rev (list_ascii_of_string s) with
  | "."%char :: s' => string_of_list_ascii (rev s')
  | _ => s
  end.

Definition cent : num := number_of_string "0.01".

Definition formatSmallCurrency (value : option num) : string :=
  match value with
  | None => "—"
  | Some v =>
      if negb (num_is_finite v) then "—"
      else if num_ltb (num_abs v) cent then "$" ++ drop_dot (drop_zeros (to_fixed 6 v))
      else "$" ++ to_fixed 2 v
  end.

(** [String(v ?? '-').trim() || '-'] *)
Definition name_or_dash (v : js) : string := text_or_dash (str_trim (str_of v "-")).

(** ** Access and drilldowns *)

Inductive access := AccessLoading | AccessFailed (e : exn) | AccessGranted.

Definition canFetchObservability (user isRefreshingSession : bool) (a : access) : bool :=
  (user && negb isRefreshingSession && match a with AccessGranted => true | _ => false end)%bool.

Inductive ViewMode :=
| ModeObservability | ModeExplorer | ModeRouting | ModeModelHealth
| ModeSemanticCache | ModeSemanticRouting | ModeSemanticCorrelation | ModeRouterPerformance.

(** What the page renders: a placeholder, a refusal, an error, or the view in use *)
Inductive page_view := Skeletons | AccessLimited | LoadError (message : string) | Viewing (v : ViewMode).

Definition ObservabilityPage (user isRefreshingSession : bool) (a : access) (viewMode : ViewMode) : page_view :=
  if (user && isRefreshingSession)%bool then Skeletons
  else if user then
    match a with
    | AccessFailed err =>
        if match exn_status err with Some st => (st =? 403) || (st =? 401) | None => false end%Z%bool
        then AccessLimited else LoadError (exn_message err)
    | AccessLoading => Skeletons
    | AccessGranted => Viewing viewMode
    end
  else Viewing viewMode.

(** One request per API key; a key whose request fails has no drilldown. *)
Definition fetchDrilldowns (windowHours : num) (rows : list UsageRow) : M (list Drilldown) :=
  drilldowns ← promise_all (fun row =>
    try_catch (fetchApiKeyDrilldown (u_api_key_id row) windowHours None) (fun _ => mret None)) rows;
  mret (omap id drilldowns).

(** ** The request logs *)

(** An entry of the gateway's list: its fields may be anything the JSON holds. *)
Record LogEntry := mkLog {
  lg_timestamp : js;
  lg_tenant_id : js;
  lg_model : js;
  lg_provider : js;
  lg_latency_ms : js;
  lg_status : js;
}.

Inductive LogSortField := LogTimestamp | LogTenant | LogModel | LogProvider | LogLatency.
#[export] Instance LogSortField_eq_dec : EqDecision LogSortField.
Proof. solve_decision. Defined.

(** [x || 0] under a subtraction *)
Definition num_or_zero (v : js) : num := if truthy v then js_to_number v else num_zero.

Section Logs.
Context `{Collation} (date_time : js -> num).

Definition log_compare (f : LogSortField) (a b : LogEntry) : num :=
  let text g := num_of_Z (localeCompare (str_lower (str_of (g a) "")) (str_lower (str_of (g b) ""))) in
  match f with
  | LogTimestamp => num_sub (date_time (lg_timestamp a)) (date_time (lg_timestamp b))
  | LogLatency => num_sub (num_or_zero (lg_latency_ms a)) (num_or_zero (lg_latency_ms b))
  | LogTenant => text lg_tenant_id
  | LogModel => text lg_model
  | LogProvider => text lg_provider
  end.

Definition directed (f : LogSortField) (d : SortDirection) (a b : LogEntry) : Z :=
  let compare := log_compare f a b in
  num_sign (match d with Asc => compare | Desc => SFopp compare end).

Definition sortedLogs (f : LogSortField) (d : SortDirection) (logs : list LogEntry) : list LogEntry :=
  sort_with (directed f d) logs.

(** Where the two columns of numbers are finite, the table is ordered. *)
Definition log_finite (a : LogEntry) : Prop :=
  num_ok (date_time (lg_timestamp a)) = true /\ num_ok (num_or_zero (lg_latency_ms a)) = true.

Definition log_order (f : LogSortField) : LogEntry -> LogEntry -> Z :=
  let text g := cmp_text (fun a => str_lower (str_of (g a) "")) in
  match f with
  | LogTimestamp => cmp_num (fun a => date_time (lg_timestamp a))
  | LogLatency => cmp_num (fun a => num_or_zero (lg_latency_ms a))
  | LogTenant => text lg_tenant_id
  | LogModel => text lg_model
  | LogProvider => text lg_provider
  end.

Lemma log_order_ordered (f : LogSortField) : ordered_on log_finite (log_order f).
Proof.
  destruct f; cbn.
  1, 5: eapply ordered_weaken; [|apply cmp_num_ordered]; unfold log_finite; cbn; tauto.
  all: eapply ordered_weaken; [|apply cmp_text_ordered]; done.
Qed.

Lemma directed_sign (f : LogSortField) (d : SortDirection) (a b : LogEntry) :
  Z.sgn (directed f d a b) = Z.sgn (match d with Asc => log_order f a b | Desc => cmp_rev (log_order f) a b end).
Proof.
  unfold directed, log_order, log_compare, cmp_rev, cmp_num, cmp_text.
  destruct d, f; rewrite ?sign_opp, ?sign_of_Z; lia.
Qed.

Lemma directed_ordered (f : LogSortField) (d : SortDirection) : ordered_on log_finite (directed f d).
Proof.
  eapply ordered_ext; [intros x y _ _; apply directed_sign|].
  destruct d; [|apply cmp_rev_ordered]; apply log_order_ordered.
Qed.
End Logs.

Definition handleLogSortChange (field : LogSortField) (s : LogSortField * SortDirection)
    : LogSortField * SortDirection :=
  if bool_decide (field = s.1) then (s.1, match s.2 with Asc => Desc | Desc => Asc end)
  else (field, Asc).

(** ** Totals over the API keys *)

Definition totalRequests (rows : list UsageRow) : num := sum_by u_requests rows.
Definition weigh (f : UsageRow -> option num) (row : UsageRow) : num :=
  num_mul (default num_zero (f row)) (u_requests row).
Definition totalCost (rows : list UsageRow) : num := sum_by (weigh u_avg_cost_per_request_effective) rows.
Definition weighted (f : UsageRow -> option num) (rows : list UsageRow) : num :=
  if num_leb (totalRequests rows) num_zero then num_zero
  else num_div (sum_by (weigh f) rows) (totalRequests rows).
Definition weightedSuccessRate : list UsageRow -> num := weighted u_success_rate.
Definition weightedAvgLatency : list UsageRow -> num := weighted u_avg_latency_ms.

(** ** Statistics of the logs *)

Record LogStats := mkStats {
  ls_count : num;
  ls_successCount : num;
  ls_latencies : list num;
  ls_providers : list (string * num);
}.

Definition one : num := num_of_Z 1.
Definition isSuccess (log : LogEntry) : bool :=
  let status := str_lower (str_of (lg_status log) "") in
  (String.eqb status "success" || String.eqb status "ok")%bool.
Definition log_latency (log : LogEntry) : num := num_of (lg_latency_ms log) num_zero.

Definition no_stats : LogStats := mkStats num_zero num_zero [] [].
Definition add_log (with_providers : bool) (prev : option LogStats) (log : LogEntry) : LogStats :=
  let e := default no_stats prev in
  let provider := name_or_dash (lg_provider log) in
  mkStats (num_add (ls_count e) one)
    (num_add (ls_successCount e) (if isSuccess log then one else num_zero))
    (ls_latencies e ++ [log_latency log])%list
    (if with_providers
     then map_set provider (num_add (default num_zero (map_get provider (ls_providers e))) one) (ls_providers e)
     else ls_providers e).

Definition logStatsByModel : list LogEntry -> list (string * LogStats) :=
  group_by (fun log => Some (name_or_dash (lg_model log))) (add_log true).
Definition logStatsByProvider : list LogEntry -> list (string * LogStats) :=
  group_by (fun log => Some (name_or_dash (lg_provider log))) (add_log false).

(** [Math.max(0, Math.min(n - 1, i))] as an index: NaN is none, and an infinite [i] is clamped. *)
Definition clamp_index (n : nat) (i : num) : option nat :=
  match i with
  | S754_nan => None
  | S754_infinity s => Some (if s then O else pred n)
  | _ => (fun z => Z.to_nat (Z.max 0 (Z.min (Z.of_nat n - 1) z))) <$> num_to_Z i
  end.

Definition percentile (values : list num) (pct : num) : num :=
  match values with
  | [] => num_zero
  | _ =>
      let sorted := sort_with (cmp_num (fun v => v)) values in
      let index := clamp_index (List.length sorted)
        (num_sub (num_ceil (num_mul (num_div pct (num_of_Z 100)) (num_length sorted))) one) in
      default num_zero (index ≫= fun i => sorted !! i)
  end.

(** ** The model performance table *)

Record PerformanceRow := mkPerformance {
  pf_model : string;
  pf_provider : string;
  pf_avg_latency_ms : num;
  pf_p95_latency_ms : num;
  pf_success_rate : num;
  pf_avg_cost_usd : num;
  pf_samples : num;
}.

Definition text_or (a b : string) : string := if String.eqb a "" then b else a.

(** The catalogue by id in lower case: the last model with an id wins. *)
Definition modelCatalogMap (modelsCatalog : list CatalogModel) : list (string * string) :=
  js_map (omap (fun model =>
    let id := str_lower (str_trim (cm_id model)) in
    if String.eqb id "" then None else Some (id, str_trim (default "" (cm_provider model)))) modelsCatalog).

(** The provider most logs of a model name; among equals the first *)
Definition providerFromLogs (stats : option LogStats) : string :=
  (fold_left (fun best e => if num_gtb e.2 best.2 then e else best)
             (default [] (ls_providers <$> stats)) ("", num_zero)).1.

Definition mean_latency (stats : option LogStats) : num :=
  match stats with
  | Some st => if num_gtb (ls_count st) num_zero
               then num_div (sum_by (fun v => v) (ls_latencies st)) (ls_count st) else num_zero
  | None => num_zero
  end.
Definition success_share (stats : option LogStats) : num :=
  match stats with
  | Some st => if num_gtb (ls_count st) num_zero
               then num_div (ls_successCount st) (ls_count st) else num_zero
  | None => num_zero
  end.

Definition model_key (row : ModelCount) : option string := Some (name_or_dash (JStr (mc_model row))).

(** The counts by model, and an empty one for a model that was only measured *)
Definition performance_agg (drilldowns : list Drilldown) (modelPerformance : list ModelHealthUsageRow)
    : list (string * (num * num)) :=
  fold_left (fun agg model =>
    let modelId := name_or_dash (JStr (mh_model model)) in
    match map_get modelId agg with
    | Some _ => agg
    | None => map_set modelId (num_zero, num_zero) agg
    end) modelPerformance
    (group_by model_key add_count (List.concat (map dd_requests_by_model drilldowns))).

Definition model_performance_row (modelPerformance : list ModelHealthUsageRow)
    (stats : option LogStats) (catalog : option string) (model : string) (entry : num * num)
    : PerformanceRow :=
  let perf := List.find (fun row => String.eqb (mh_model row) model) modelPerformance in
  mkPerformance model
    (text_or (default "" (mh_provider <$> perf))
       (text_or (default "" catalog) (text_or (providerFromLogs stats) "-")))
    (match perf with Some p => mh_avg_latency_ms p | None => mean_latency stats end)
    (match perf ≫= mh_p95_latency_ms with
     | Some p95 => p95
     | None => match stats with Some st => percentile (ls_latencies st) (num_of_Z 95) | None => num_zero end
     end)
    (match perf with Some p => mh_success_rate p | None => success_share stats end)
    (if num_gtb entry.1 num_zero then num_div entry.2 entry.1 else num_zero)
    (if num_gtb entry.1 num_zero then entry.1
     else match perf with
          | Some p => mh_samples p
          | None => default num_zero (ls_count <$> stats)
          end).

Definition modelPerformanceRows (drilldowns : list Drilldown) (modelPerformance : list ModelHealthUsageRow)
    (logs : list LogEntry) (modelsCatalog : list CatalogModel) : list PerformanceRow :=
  sort_with (cmp_down pf_samples)
    (map (fun '(model, entry) =>
            model_performance_row modelPerformance (map_get model (logStatsByModel logs))
              (map_get (str_lower model) (modelCatalogMap modelsCatalog)) model entry)
         (performance_agg drilldowns modelPerformance)).

(** ** Provider health and traffic *)

(** A row of the gateway's panel, read with [??] *)
Record PanelRow := mkPanelRow {
  pn_provider : js;
  pn_success_rate : option num;
  pn_avg_latency : option num;
  pn_total_requests : option num;
}.

Record ProviderHealthRow := mkProviderHealth {
  ph_provider : string;
  ph_success_rate : num;
  ph_avg_latency : num;
  ph_total_requests : num;
}.

Definition provider_key (row : string * num) : option string := Some (name_or_dash (JStr row.1)).
Definition add_requests (prev : option num) (row : string * num) : num :=
  num_add (default num_zero prev) row.2.

(** Requests by provider: the API keys' counts, and the panel's where no key was counted *)
Definition requestMap (drilldowns : list Drilldown) (panelProviders : list PanelRow) : list (string * num) :=
  fold_left (fun m row =>
    let provider := name_or_dash (pn_provider row) in
    match map_get provider m with
    | Some _ => m
    | None => map_set provider (default num_zero (pn_total_requests row)) m
    end) panelProviders
    (group_by provider_key add_requests (List.concat (map dd_requests_by_provider drilldowns))).

Definition provider_health_row (requests : option num) (stats : option LogStats)
    (panelProviders : list PanelRow) (provider : string) : ProviderHealthRow :=
  let panelRow := List.find (fun row => match pn_provider row with
                                        | JStr p => String.eqb p provider | _ => false end) panelProviders in
  let avgLatency := match panelRow ≫= pn_avg_latency with Some v => v | None => mean_latency stats end in
  mkProviderHealth provider
    (match panelRow ≫= pn_success_rate with
     | Some v => v
     | None => match stats with
               | Some st => if num_gtb (ls_count st) num_zero
                            then num_mul (num_div (ls_successCount st) (ls_count st)) (num_of_Z 100)
                            else num_zero
               | None => num_zero
               end
     end)
    (number_of_string (to_fixed 1 avgLatency))
    (match requests with
     | Some n => n
     | None => match panelRow ≫= pn_total_requests with
               | Some n => n
               | None => default num_zero (ls_count <$> stats)
               end
     end).

Definition providerHealthRows (drilldowns : list Drilldown) (panelProviders : list PanelRow)
    (logs : list LogEntry) : list ProviderHealthRow :=
  let requests := requestMap drilldowns panelProviders in
  let stats := logStatsByProvider logs in
  let providers := js_set (map_keys requests ++ map_keys stats)%list in
  sort_with (cmp_down ph_total_requests) 
    (map (fun provider => provider_health_row (map_get provider requests) (map_get provider stats)
                            panelProviders provider) providers).

Record TrafficPoint := mkTraffic { tp_time_bucket : string; tp_requests : num; tp_errors : num }.

Definition bucket_key (row : string * num * num) : option string :=
  if String.eqb row.1.1 "" then None else Some row.1.1.
Definition add_traffic (prev : option (num * num)) (row : string * num * num) : num * num :=
  let '(requests, errors) := default (num_zero, num_zero) prev in
  (num_add requests row.1.2, num_add errors row.2).

(** The panel's points, or, when it has none, those of the API keys by bucket *)
Definition trafficData (date_time : js -> num) (panel : list TrafficPoint) (drilldowns : list Drilldown)
    : list TrafficPoint :=
  match panel with
  | _ :: _ => panel
  | [] =>
      sort_with (cmp_num (fun p => date_time (JStr (tp_time_bucket p))))
        (map (fun e => mkTraffic e.1 e.2.1 e.2.2)
           (group_by bucket_key add_traffic (List.concat (map dd_traffic_over_time drilldowns))))
  end.

(** ** Paging of the logs *)

(** The gateway's pagination, whose fields are integers; [total] is the list's own count. *)
Record LogsAnswer := mkLogsAnswer {
  la_count : Z;
  la_limit : option Z;
  la_offset : option Z;
  la_total : option Z;
  la_fallback_total : option Z;
}.

Definition logLimit : Z := 50.

(** The answer is absent while the page loads. *)
Definition currentOffset (logsPage : Z) (a : option LogsAnswer) : Z :=
  default (logsPage * logLimit)%Z (a ≫= la_offset).
Definition currentLimit (a : option LogsAnswer) : Z := default logLimit (a ≫= la_limit).
Definition currentPage (logsPage : Z) (a : option LogsAnswer) : Z :=
  (currentOffset logsPage a / currentLimit a)%Z.
Definition totalLogs (a : option LogsAnswer) : Z :=
  match a ≫= la_total with Some t => t | None => default 0%Z (a ≫= la_fallback_total) end.
(** [Math.ceil] of the quotient *)
Definition totalPages (a : option LogsAnswer) : Z :=
  Z.max 1 (- ((- totalLogs a) / currentLimit a)).

Definition pageButtons (logsPage : Z) (a : option LogsAnswer) : list Z :=
  List.filter (fun p => (Z.max 0 (currentPage logsPage a - 2) <=? p)
                        && (p <=? Z.min (totalPages a - 1) (currentPage logsPage a + 2)))%Z%bool
    (seqZ 0 (totalPages a)).

Inductive page_button := PreviousPage | PageNumber (p : Z) | NextLogsPage.

Definition button_enabled (logsPage : Z) (a : option LogsAnswer) (b : page_button) : bool :=
  match b with
  | PreviousPage => negb (currentPage logsPage a =? 0)%Z
  | PageNumber p => bool_decide (p ∈ pageButtons logsPage a)
  | NextLogsPage => negb (totalPages a - 1 <=? currentPage logsPage a)%Z
  end.

Definition press (logsPage : Z) (a : option LogsAnswer) (b : page_button) : Z :=
  match b with
  | PreviousPage => Z.max 0 (logsPage - 1)
  | PageNumber p => p
  | NextLogsPage => Z.min (totalPages a - 1) (logsPage + 1)
  end.

(** The first and last row the footer names *)
Definition showing (logsPage : Z) (a : option LogsAnswer) : Z * Z :=
  let n := default 0%Z (la_count <$> a) in
  ((if n =? 0 then 0 else currentOffset logsPage a + 1)%Z,
   Z.min (currentOffset logsPage a + n) (totalLogs a)).

(** ** The tables against references *)

(** What the logs of one name say, each figure computed from those logs alone *)
Definition stats_of (with_providers : bool) (l : list LogEntry) : LogStats :=
  mkStats (sum_by (fun _ => one) l) (sum_by (fun log => if isSuccess log then one else num_zero) l)
    (map log_latency l)
    (if with_providers
     then group_by (fun log => Some (name_or_dash (lg_provider log)))
                   (fun prev _ => num_add (default num_zero prev) one) l
     else []).

Lemma stats_value (p : bool) (l : list LogEntry) :
  group_value (add_log p) l = match l with [] => None | _ => Some (stats_of p l) end.
Proof.
  set (F := fun log => if isSuccess log then one else num_zero).
  assert (H : forall l a b c d, fold_left (fun acc e => Some (add_log p acc e)) l (Some (mkStats a b c d))
    = Some (mkStats (fold_left (fun s _ => num_add s one) l a) (fold_left (fun s x => num_add s (F x)) l b)
              (c ++ map log_latency l)
              (if p then fold_left (group_step (fun log => Some (name_or_dash (lg_provider log)))
                                      (fun prev _ => num_add (default num_zero prev) one)) l d else d))).
  { clear l. induction l as [|x l IH]; intros a b c d; cbn [fold_left map].
    - rewrite app_nil_r. by destruct p.
    - unfold add_log at 2. cbn [default ls_count ls_successCount ls_latencies ls_providers].
      rewrite IH, <- app_assoc. by destruct p. }
  destruct l as [|x l]; [done|]. unfold group_value. cbn [fold_left]. unfold add_log at 2, no_stats.
  cbn [default ls_count ls_successCount ls_latencies ls_providers]. rewrite H. by destruct p.
Qed.

Definition logs_of (field : LogEntry -> js) (logs : list LogEntry) (name : string) : list LogEntry :=
  List.filter (has_key (fun log => Some (name_or_dash (field log))) name) logs.
Definition some_stats (p : bool) (l : list LogEntry) : option LogStats :=
  match l with [] => None | _ => Some (stats_of p l) end.

Lemma model_stats_get (logs : list LogEntry) (m : string) :
  map_get m (logStatsByModel logs) = some_stats true (logs_of lg_model logs m).
Proof. unfold logStatsByModel. by rewrite group_by_get, stats_value. Qed.
Lemma provider_stats_get (logs : list LogEntry) (p : string) :
  map_get p (logStatsByProvider logs) = some_stats false (logs_of lg_provider logs p).
Proof. unfold logStatsByProvider. by rewrite group_by_get, stats_value. Qed.

(** Filling in a default where a key is missing *)
Section FillIn.
Context {E A : Type} (key : E -> string) (def : E -> A).

Definition fill_step (m : list (string * A)) (e : E) : list (string * A) :=
  match map_get (key e) m with Some _ => m | None => map_set (key e) (def e) m end.

Lemma fill_keys (l : list E) (m : list (string * A)) :
  map_keys (fold_left fill_step l m) = fold_left set_add (map key l) (map_keys m).
Proof.
  revert m. induction l as [|e l IH]; intros m; cbn [fold_left map]; [done|].
  rewrite IH. f_equal. unfold fill_step. destruct (map_get (key e) m) as [v|] eqn:G.
  - unfold set_add. assert (Hin : In (key e) (map_keys m)) by (apply map_get_In in G; by apply (in_map fst) in G).
    by apply set_has_In in Hin as ->.
  - apply map_set_keys.
Qed.

Lemma fill_get (l : list E) (m : list (string * A)) (k : string) :
  map_get k (fold_left fill_step l m)
  = match map_get k m with
    | Some v => Some v
    | None => def <$> List.find (fun e => String.eqb k (key e)) l
    end.
Proof.
  revert m. induction l as [|e l IH]; intros m; cbn [fold_left List.find]; [by destruct (map_get k m)|].
  rewrite IH. unfold fill_step. destruct (map_get (key e) m) as [v|] eqn:G.
  - destruct (map_get k m) eqn:Gk; [done|]. destruct (String.eqb_spec k (key e)) as [->|]; [congruence|done].
  - rewrite map_get_set. destruct (String.eqb_spec k (key e)) as [->|]; [by rewrite G|done].
Qed.
End FillIn.

(** The count rows of a model, over all API keys *)
Definition named_counts (drilldowns : list Drilldown) (m : string) : list ModelCount :=
  List.filter (has_key model_key m) (List.concat (map dd_requests_by_model drilldowns)).

Lemma performance_get (drilldowns : list Drilldown) (mp : list ModelHealthUsageRow) (k : string) :
  In k (map_keys (performance_agg drilldowns mp)) ->
  map_get k (performance_agg drilldowns mp)
  = Some (sum_by mc_requests (named_counts drilldowns k), sum_by mc_effective_spend (named_counts drilldowns k)).
Proof.
  unfold performance_agg. set (l := List.concat _).
  change (fun agg model => _) with (fill_step (A := num * num) (fun r => name_or_dash (JStr (mh_model r)))
                                       (fun _ => (num_zero, num_zero))).
  rewrite fill_keys, fill_get, group_by_get, group_value_counts, group_by_keys.
  unfold named_counts. fold l. intros [Hk|Hk]%set_fold_In.
  - destruct (List.filter _ l) eqn:E; [|by rewrite <- E].
    apply js_set_In, has_key_In in Hk. congruence.
  - destruct (List.filter _ l) eqn:E; [|by rewrite <- E].
    apply in_map_iff in Hk as (r & <- & Hr). destruct (List.find _ mp) eqn:F; [done|].
    apply (List.find_none _ _ F) in Hr. by rewrite String.eqb_refl in Hr.
Qed.

Definition performance_models (drilldowns : list Drilldown) (mp : list ModelHealthUsageRow) : list string :=
  js_set (omap model_key (List.concat (map dd_requests_by_model drilldowns))
            ++ map (fun r => name_or_dash (JStr (mh_model r))) mp)%list.

Lemma performance_keys (drilldowns : list Drilldown) (mp : list ModelHealthUsageRow) :
  map_keys (performance_agg drilldowns mp) = performance_models drilldowns mp.
Proof.
  unfold performance_agg, performance_models.
  change (fun agg model => _) with (fill_step (A := num * num) (fun r => name_or_dash (JStr (mh_model r)))
                                       (fun _ => (num_zero, num_zero))).
  by rewrite fill_keys, group_by_keys; unfold js_set; rewrite fold_left_app.
Qed.

Lemma performance_entries (drilldowns : list Drilldown) (mp : list ModelHealthUsageRow) :
  performance_agg drilldowns mp
  = map (fun k => (k, (sum_by mc_requests (named_counts drilldowns k),
                       sum_by mc_effective_spend (named_counts drilldowns k))))
        (performance_models drilldowns mp).
Proof.
  rewrite <- performance_keys. apply map_of_values; [|apply performance_get].
  rewrite performance_keys. apply js_set_NoDup.
Qed.

(** One row per model counted or measured, from that model's counts and logs alone *)
Definition reference_performance (drilldowns : list Drilldown) (mp : list ModelHealthUsageRow)
    (logs : list LogEntry) (catalog : list CatalogModel) : list PerformanceRow :=
  map (fun m => model_performance_row mp (some_stats true (logs_of lg_model logs m))
                  (map_get (str_lower m) (modelCatalogMap catalog)) m
                  (sum_by mc_requests (named_counts drilldowns m),
                   sum_by mc_effective_spend (named_counts drilldowns m)))
      (performance_models drilldowns mp).

(** The requests by provider: the sum over the keys, or the first panel row of that name *)
Definition provider_requests (drilldowns : list Drilldown) (panel : list PanelRow) (p : string) : option num :=
  match List.filter (has_key provider_key p) (List.concat (map dd_requests_by_provider drilldowns)) with
  | [] => (fun r => default num_zero (pn_total_requests r))
            <$> List.find (fun r => String.eqb p (name_or_dash (pn_provider r))) panel
  | l => Some (sum_by snd l)
  end.

Lemma group_value_requests (l : list (string * num)) :
  group_value add_requests l = match l with [] => None | _ => Some (sum_by snd l) end.
Proof.
  assert (H : forall l a, fold_left (fun acc e => Some (add_requests acc e)) l (Some a)
    = Some (fold_left (fun s x => num_add s x.2) l a)).
  { clear l. induction l as [|x l IH]; intros a; cbn; [done|]. apply IH. }
  destruct l as [|x l]; [done|]. apply H.
Qed.

Lemma requestMap_get (drilldowns : list Drilldown) (panel : list PanelRow) (p : string) :
  map_get p (requestMap drilldowns panel) = provider_requests drilldowns panel p.
Proof.
  unfold requestMap, provider_requests.
  change (fun m row => _) with (fill_step (fun r => name_or_dash (pn_provider r))
                                  (fun r => default num_zero (pn_total_requests r))).
  rewrite fill_get, group_by_get, group_value_requests. by destruct (List.filter _ _).
Qed.

Definition health_providers (drilldowns : list Drilldown) (panel : list PanelRow) (logs : list LogEntry)
    : list string :=
  (map (fun r => name_or_dash (JStr r.1)) (List.concat (map dd_requests_by_provider drilldowns))
     ++ map (fun r => name_or_dash (pn_provider r)) panel
     ++ map (fun l => name_or_dash (lg_provider l)) logs)%list.

Lemma requestMap_keys (drilldowns : list Drilldown) (panel : list PanelRow) (p : string) :
  In p (map_keys (requestMap drilldowns panel))
  <-> In p (map (fun r => name_or_dash (JStr r.1)) (List.concat (map dd_requests_by_provider drilldowns)))
      \/ In p (map (fun r => name_or_dash (pn_provider r)) panel).
Proof.
  unfold requestMap.
  change (fun m row => _) with (fill_step (fun r => name_or_dash (pn_provider r))
                                  (fun r => default num_zero (pn_total_requests r))).
  rewrite fill_keys, group_by_keys, set_fold_In, js_set_In.
  induction (List.concat _) as [|r l IH]; cbn; tauto.
Qed.

Lemma provider_keys (logs : list LogEntry) :
  map_keys (logStatsByProvider logs) = js_set (map (fun l => name_or_dash (lg_provider l)) logs).
Proof. apply group_by_keys. Qed.

Lemma same_providers (drilldowns : list Drilldown) (panel : list PanelRow) (logs : list LogEntry) :
  Permutation (js_set (map_keys (requestMap drilldowns panel) ++ map_keys (logStatsByProvider logs)))
              (js_set (health_providers drilldowns panel logs)).
Proof.
  apply NoDup_Permutation; rewrite ?NoDup_ListNoDup; auto using js_set_NoDup. intros p.
  rewrite !list_elem_of_In, !js_set_In. unfold health_providers.
  rewrite !in_app_iff, requestMap_keys, provider_keys, js_set_In. tauto.
Qed.

(** One row per provider that a key, the panel or a log names *)
Definition reference_providers (drilldowns : list Drilldown) (panel : list PanelRow) (logs : list LogEntry)
    : list ProviderHealthRow :=
  map (fun p => provider_health_row (provider_requests drilldowns panel p)
                  (some_stats false (logs_of lg_provider logs p)) panel p)
      (js_set (health_providers drilldowns panel logs)).

Lemma samples_sorted {A} (key : A -> num) (rows sorted : list A) :
  sorted = sort_with (cmp_down key) rows -> Forall (fun r => num_ok (key r) = true) rows ->
  StronglySorted (fun a b => num_leb (key b) (key a) = true) sorted.
Proof.
  intros -> Hok. pose proof (sort_sorted_on _ _ (cmp_down_ordered key) rows Hok) as Hs.
  assert (Hok' : Forall (fun r => num_ok (key r) = true) (sort_with (cmp_down key) rows)).
  { rewrite List.Forall_forall in *. intros r Hr. apply Hok. by apply js_sort_elem in Hr. }
  clear Hok. induction Hs as [|r l Hs IH Hall]; [constructor|].
  apply List.Forall_cons_iff in Hok' as [Hr Hl]. constructor; [auto|].
  rewrite List.Forall_forall in *. intros x Hx. rewrite leb_units by auto.
  specialize (Hall x Hx). unfold cmp_down in Hall. rewrite sign_sub in Hall by auto. lia.
Qed.

(** C36: the tables of the observability page are exact.  The maps the page fills in passes over the
    drilldowns, the measurements, the panel and the logs give, for all of them, exactly one row for
    each model a key counted or the gateway measured, and for each provider a key, the panel or a
    log names: its requests and spend are summed over the rows of that name in all drilldowns, and
    its log figures come from the logs of that name alone.  Where the ranked figures are finite
    the rows are shown from the largest to the smallest. *)
Theorem observability_tables_exact (drilldowns : list Drilldown) (mp : list ModelHealthUsageRow)
    (panel : list PanelRow) (logs : list LogEntry) (catalog : list CatalogModel) :
  let models := modelPerformanceRows drilldowns mp logs catalog in
  let providers := providerHealthRows drilldowns panel logs in
  models = sort_with (cmp_down pf_samples) (reference_performance drilldowns mp logs catalog)
  /\ Permutation providers (reference_providers drilldowns panel logs)
  /\ List.NoDup (map pf_model models) /\ List.NoDup (map ph_provider providers)
  /\ (Forall (fun r => num_ok (pf_samples r) = true) models ->
      StronglySorted (fun a b => num_leb (pf_samples b) (pf_samples a) = true) models)
  /\ (Forall (fun r => num_ok (ph_total_requests r) = true) providers ->
      StronglySorted (fun a b => num_leb (ph_total_requests b) (ph_total_requests a) = true) providers).
Proof.
  assert (Hm : modelPerformanceRows drilldowns mp logs catalog
    = sort_with (cmp_down pf_samples) (reference_performance drilldowns mp logs catalog)).
  { unfold modelPerformanceRows, reference_performance. f_equal. rewrite performance_entries, map_map.
    apply map_ext. intros m. by rewrite model_stats_get. }
  assert (Hp : Permutation (providerHealthRows drilldowns panel logs) (reference_providers drilldowns panel logs)).
  { unfold providerHealthRows, reference_providers. rewrite sort_with_perm, same_providers.
    erewrite map_ext; [done|]. intros p. by rewrite requestMap_get, provider_stats_get. }
  cbn zeta. split; [done|]. split; [done|]. repeat split.
  - rewrite Hm, sort_with_perm. unfold reference_performance. rewrite map_map. cbn.
    rewrite map_id. apply js_set_NoDup.
  - rewrite Hp. unfold reference_providers. rewrite map_map. cbn. rewrite map_id. apply js_set_NoDup.
  - rewrite Hm at 1. rewrite sort_with_perm. intros H. by apply (samples_sorted _ _ _ Hm).
  - unfold providerHealthRows. cbn zeta. rewrite sort_with_perm at 1. intros H.
    by apply (samples_sorted _ _ _ eq_refl).
Qed.

(** ** The 95th percentile of a page of logs *)

Definition p95_index (n : nat) : option nat :=
  clamp_index n (num_sub (num_ceil (num_mul (num_div (num_of_Z 95) (num_of_Z 100)) (num_of_Z (Z.of_nat n)))) one).

(** The rounded product has the exact rank for every list a page can hold. *)
Lemma p95_index_exact (n : nat) :
  (1 <= n <= 100)%nat -> exists k, p95_index n = Some k /\ (100 * k < 95 * n <= 100 * (k + 1))%nat.
Proof.
  intros Hn.
  assert (H : forallb (fun n => match p95_index n with
                                | Some k => Nat.ltb (100 * k) (95 * n) && Nat.leb (95 * n) (100 * (k + 1))
                                | None => false
                                end) (seq 1 100) = true) by (vm_compute; reflexivity).
  rewrite forallb_forall in H. specialize (H n ltac:(apply in_seq; lia)).
  destruct (p95_index n) as [k|]; [|done]. exists k. split; [done|].
  apply andb_prop in H as [H1%Nat.ltb_lt H2%Nat.leb_le]. lia.
Qed.

Definition count {A} (p : A -> bool) (l : list A) : nat := List.length (List.filter p l).

Lemma count_perm {A} (p : A -> bool) (l l' : list A) : Permutation l l' -> count p l = count p l'.
Proof.
  unfold count. induction 1 as [|x l l' H IH|x y l|l l' l'' H1 IH1 H2 IH2]; cbn; [done| | |by rewrite IH1].
  - destruct (p x); cbn; lia.
  - by destruct (p x), (p y).
Qed.

Lemma count_app {A} (p : A -> bool) (l l' : list A) : count p (l ++ l') = (count p l + count p l')%nat.
Proof. unfold count. by rewrite List.filter_app, List.length_app. Qed.

Lemma count_all {A} (p : A -> bool) (l : list A) : Forall (fun x => p x = true) l -> count p l = List.length l.
Proof. unfold count. induction 1 as [|x l Hx Hl IH]; cbn; [done|]. rewrite Hx. cbn. lia. Qed.

Lemma count_none {A} (p : A -> bool) (l : list A) : Forall (fun x => p x = false) l -> count p l = O.
Proof. unfold count. induction 1 as [|x l Hx Hl IH]; cbn; [done|]. by rewrite Hx. Qed.

Lemma count_le {A} (p : A -> bool) (l : list A) : (count p l <= List.length l)%nat.
Proof. apply filter_length_le. Qed.

Lemma sorted_split {A} (R : A -> A -> Prop) (l1 l2 : list A) (x : A) :
  StronglySorted R (l1 ++ x :: l2) -> Forall (fun y => R y x) l1 /\ Forall (R x) l2.
Proof.
  induction l1 as [|y l1 IH]; cbn; intros H; inversion H as [|? ? Hs Hall]; subst.
  - split; [constructor|done].
  - destruct (IH Hs) as [H1 H2]. split; [|done]. constructor; [|done].
    rewrite List.Forall_forall in Hall. apply Hall, in_elt.
Qed.

(** The element of rank [k] of the sorted values: at least [k + 1] are up to it, at most [k] below. *)
Lemma rank_counts (values : list num) (k : nat) (x : num) :
  Forall (fun v => num_ok v = true) values -> sort_with (cmp_num (fun v => v)) values !! k = Some x ->
  In x values /\ (k + 1 <= count (fun v => num_leb v x) values)%nat
  /\ (count (fun v => num_ltb v x) values <= k)%nat.
Proof.
  intros Hok Hk. pose proof (sort_sorted_on _ _ (cmp_num_ordered (fun v => v)) values Hok) as Hs.
  pose proof (sort_with_perm (cmp_num (fun v => v)) values) as Hp.
  assert (Hin : In x values) by (rewrite <- Hp; by apply list_elem_of_In, list_elem_of_lookup_2 with k).
  split; [done|]. rewrite <- (count_perm _ _ _ Hp), <- (count_perm (fun v => num_ltb v x) _ _ Hp).
  assert (Hok' : Forall (fun v => num_ok v = true) (sort_with (cmp_num (fun v => v)) values)) by (by rewrite Hp).
  rewrite List.Forall_forall in Hok. specialize (Hok x Hin). clear Hp Hin.
  destruct (list_elem_of_split_length _ _ _ Hk) as (l1 & l2 & E & Hl). rewrite E in *.
  apply sorted_split in Hs as [H1 H2].
  apply List.Forall_app in Hok' as [O1 [_ O2]%List.Forall_cons_iff].
  rewrite !count_app. rewrite List.Forall_forall in *. split.
  - rewrite (count_all _ l1).
    + unfold count. cbn [List.filter]. rewrite leb_units, Z.leb_refl by done. cbn [List.length]. lia.
    + apply List.Forall_forall. intros y Hy. rewrite leb_units by auto.
      specialize (H1 y Hy). unfold cmp_num in H1. rewrite sign_sub in H1 by auto. lia.
  - rewrite (count_none _ (x :: l2)); [pose proof (count_le (fun v => num_ltb v x) l1); lia|].
    apply List.Forall_forall. intros y [<-|Hy]; rewrite ltb_units by auto; [lia|].
    specialize (H2 y Hy). unfold cmp_num in H2. rewrite sign_sub in H2 by auto. lia.
Qed.

(** C38: the p95 latency is the nearest rank.  For every nonempty list of up to a hundred finite
    latencies (the page asks for fifty logs), the 95th percentile the page shows is one of them,
    at least 95 percent of them are no larger and less than 95 percent are smaller: the binary64
    product that picks the index never rounds to a neighbouring rank. *)
Theorem p95_nearest_rank (values : list num) :
  values <> [] -> (List.length values <= 100)%nat -> Forall (fun v => num_ok v = true) values ->
  let p := percentile values (num_of_Z 95) in
  In p values
  /\ (95 * List.length values <= 100 * count (fun v => num_leb v p) values)%nat
  /\ (100 * count (fun v => num_ltb v p) values < 95 * List.length values)%nat.
Proof.
  intros Hne Hlen Hok. set (n := List.length values) in *.
  assert (Hn : List.length (sort_with (cmp_num (fun v => v)) values) = n) by apply js_sort_length.
  destruct (p95_index_exact n) as (k & Hk & Hrank); [destruct values; [done|cbn in *; lia]|].
  destruct (lookup_lt_is_Some_2 (sort_with (cmp_num (fun v => v)) values) k) as [x Hx]; [lia|].
  assert (Hp : percentile values (num_of_Z 95) = x).
  { unfold percentile. destruct values as [|v vs]; [done|]. unfold num_length. rewrite Hn.
    unfold p95_index in Hk. rewrite Hk. cbn [mbind option_bind]. by rewrite Hx. }
  rewrite Hp. destruct (rank_counts values k x Hok Hx) as (Hin & Hle & Hlt). split; [done|]. cbn zeta. lia.
Qed.

Lemma p95_nearest_rank_witness :
  let values := map num_of_Z [30; 10; 20]%Z in
  percentile values (num_of_Z 95) = num_of_Z 30
  /\ In (percentile values (num_of_Z 95)) values.
Proof.
  split; [vm_compute; reflexivity|].
  apply (p95_nearest_rank (map num_of_Z [30; 10; 20]%Z)); [discriminate|cbn; lia|].
  repeat constructor.
Defined.

(** ** Paging and failed drilldowns *)

(** The gateway's answer to the request for a page *)
Definition answer_of (logsPage rows total : Z) : option LogsAnswer :=
  Some (mkLogsAnswer rows (Some logLimit) (Some (logsPage * logLimit)%Z) (Some total) None).

Lemma pages_of_answer (logsPage rows total : Z) :
  (0 <= total)%Z ->
  currentPage logsPage (answer_of logsPage rows total) = logsPage
  /\ (1 <= totalPages (answer_of logsPage rows total))%Z
  /\ (total <= totalPages (answer_of logsPage rows total) * logLimit < total + 2 * logLimit)%Z.
Proof.
  intros Ht. unfold currentPage, totalPages, currentOffset, currentLimit, totalLogs, answer_of, logLimit. cbn.
  rewrite Z.div_mul by lia. split; [done|].
  pose proof (Z.div_mod (- total) 50 ltac:(lia)). pose proof (Z.mod_pos_bound (- total) 50 ltac:(lia)). lia.
Qed.

Lemma pageButtons_spec (logsPage rows total p : Z) :
  (0 <= total)%Z ->
  let a := answer_of logsPage rows total in
  In p (pageButtons logsPage a)
  <-> (0 <= p < totalPages a /\ logsPage - 2 <= p <= logsPage + 2)%Z.
Proof.
  intros Ht a. destruct (pages_of_answer logsPage rows total Ht) as (Hc & H1 & _).
  unfold pageButtons. fold a in Hc, H1. rewrite filter_In, <- list_elem_of_In, elem_of_seqZ, Hc.
  rewrite andb_true_iff, !Z.leb_le. lia.
Qed.

(** The paging of the logs stays within the list: on any page of the answers the gateway gives, an enabled button leads to a page
    that exists, the numbered buttons are the page and up to two on each side, and every log is on
    a page that can be reached by numbered buttons and [Next]. *)
Theorem logs_paging_bounded (logsPage rows total : Z) :
  (0 <= total)%Z -> (0 <= logsPage < totalPages (answer_of logsPage rows total))%Z ->
  let a := answer_of logsPage rows total in
  (forall b, button_enabled logsPage a b = true -> (0 <= press logsPage a b < totalPages a)%Z)
  /\ In logsPage (pageButtons logsPage a)
  /\ (forall p, In p (pageButtons logsPage a) -> (Z.abs (p - logsPage) <= 2)%Z)
  /\ (button_enabled logsPage a NextLogsPage = false -> (total <= (logsPage + 1) * logLimit)%Z).
Proof.
  intros Ht Hp a. pose proof (pageButtons_spec logsPage rows total) as Hb. cbn zeta in Hb. fold a in Hb.
  destruct (pages_of_answer logsPage rows total Ht) as (Hc & H1 & H2). fold a in Hc, H1, H2, Hp.
  repeat split.
  - destruct b as [|p|]; cbn in *; [lia| |lia].
    apply bool_decide_eq_true in H. apply list_elem_of_In, Hb in H; lia.
  - destruct b as [|p|]; cbn in *; [lia| |lia].
    apply bool_decide_eq_true in H. apply list_elem_of_In, Hb in H; lia.
  - apply Hb; lia.
  - intros p Hin%Hb; lia.
  - cbn [button_enabled]. rewrite Hc. unfold logLimit in *. intros H%negb_false_iff%Z.leb_le. nia.
Qed.

Lemma collect_ok {A} (l : list A) : collect (map Ok l) = Ok l.
Proof. induction l as [|a l IH]; cbn; [done|]. by rewrite IH. Qed.

Lemma promise_all_total {A B} (f : A -> M B) (w : World) (l : list A) (s : State) :
  (forall a s, exists b s', f a w s = (Ok b, s')) -> exists bs s', promise_all f l w s = (Ok bs, s').
Proof.
  intros Hf.
  assert (H : exists bs s', settle_all f l w s = (Ok (map Ok bs), s')).
  { revert s. induction l as [|a l IH]; intros s; [by exists [], s|].
    destruct (Hf a s) as (b & s1 & E). destruct (IH s1) as (bs & s2 & E2).
    exists (b :: bs), s2. cbn. unfold settle, mbind, M_bind. rewrite E. cbn. by rewrite E2. }
  destruct H as (bs & s' & E). exists bs, s'. unfold promise_all, mbind, M_bind. by rewrite E, collect_ok.
Qed.

(** The query of the drilldowns never fails: whatever the gateway answers or refuses for any key,
    the page gets the drilldowns of the others, so the error it prepares for this query is never
    shown. *)
Theorem drilldowns_never_fail (w : World) (s : State) (h : num) (rows : list UsageRow) :
  exists ds s', fetchDrilldowns h rows w s = (Ok ds, s').
Proof.
  unfold fetchDrilldowns, mbind, M_bind.
  destruct (promise_all_total (fun row => try_catch (fetchApiKeyDrilldown (u_api_key_id row) h None)
              (fun _ => mret None)) w rows s) as (bs & s' & ->); [|by eexists _, _].
  intros row s0. unfold try_catch. destruct (fetchApiKeyDrilldown _ _ _ _ _) as [[b|e] s1]; by eexists _, _.
Qed.
