(* ===== verification/RoutingInsights.v ===== *)
(** * The routing insights view

    src/frontend/src/features/observability/components/routing-insights-view.tsx: its filters and
    paging as a state machine, the options of the filters, the sorted decisions, and the
    distributions of decision reasons, error types, fallbacks and failure causes.  The counters of
    the view are integers far below 2^53 and are kept as integers; shares are binary64. *)

From S2P Require Import Prelude JsNumber JsText JsValue JsArray NumOrder Effects UsageApi HealthView ObservabilityPage.
From Stdlib Require Import SpecFloat Sorting.Sorted.
Local Open Scope string_scope.

(** ** Counting by a key *)

Definition count_by {E} (key : E -> option string) : list E -> list (string * Z) :=
  group_by key (fun prev _ => default 0 prev + 1)%Z.
Definition total_count (m : list (string * Z)) : Z := foldr Z.add 0%Z (map snd m).

Lemma count_by_get {E} (key : E -> option string) (l : list E) (k : string) :
  default 0%Z (map_get k (count_by key l)) = Z.of_nat (count (has_key key k) l).
Proof.
  unfold count_by. rewrite group_by_get. unfold count. generalize (List.filter (has_key key k) l). clear l.
  assert (H : forall (l : list E) a, fold_left (fun acc _ => Some (default 0 acc + 1)%Z) l (Some a)
                                     = Some (a + Z.of_nat (List.length l))%Z).
  { induction l as [|x l IH]; intros a; cbn [fold_left List.length]; [f_equal; lia|].
    rewrite IH. unfold default, from_option, id. f_equal. lia. }
  intros [|x l]; [done|]. unfold group_value. cbn [fold_left]. rewrite H.
  unfold default, from_option, id. cbn [List.length]. lia.
Qed.

Lemma total_set (k : string) (v : Z) (m : list (string * Z)) :
  List.NoDup (map_keys m) -> (total_count (map_set k v m) = total_count m - default 0 (map_get k m) + v)%Z.
Proof.
  unfold total_count. induction m as [|[k' v'] m IH]; cbn; intros H; [lia|].
  apply List.NoDup_cons_iff in H as [Hk H]. destruct (String.eqb k k') eqn:E; cbn; [lia|]. rewrite IH by done. lia.
Qed.

(** The counts of all keys add up to the elements that have one. *)
Lemma count_by_total {E} (key : E -> option string) (l : list E) :
  total_count (count_by key l) = Z.of_nat (count (fun e => bool_decide (is_Some (key e))) l).
Proof.
  enough (H : forall m, List.NoDup (map_keys m) ->
    total_count (fold_left (group_step key (fun prev _ => default 0 prev + 1)%Z) l m)
    = (total_count m + Z.of_nat (count (fun e => bool_decide (is_Some (key e))) l))%Z).
  { unfold count_by, group_by. rewrite H by constructor. cbn. lia. }
  unfold count. induction l as [|e l IH]; intros m Hm; cbn [fold_left List.filter]; [cbn; lia|].
  unfold group_step at 2. destruct (key e) as [k|] eqn:K.
  - rewrite IH by (by apply map_set_NoDup). rewrite total_set by done.
    rewrite bool_decide_eq_true_2 by done. cbn [List.length]. lia.
  - rewrite IH by done. rewrite bool_decide_eq_false_2; [done|]. intros [? ?]. congruence.
Qed.

(** [sort((a, b) => b[1] - a[1])] *)
Definition most_first : list (string * Z) -> list (string * Z) := sort_with (fun a b => b.2 - a.2)%Z.

Lemma most_first_sorted (m : list (string * Z)) : StronglySorted (fun a b => (b.2 <= a.2)%Z) (most_first m).
Proof.
  assert (Ho : ordered_on (fun _ : string * Z => True) (fun a b => b.2 - a.2)%Z) by (split; intros; lia).
  pose proof (sort_sorted_on _ _ Ho m ltac:(by apply List.Forall_forall)) as H.
  unfold most_first. induction H as [|a l Hs IH Hall]; constructor; auto.
  eapply List.Forall_impl; [|exact Hall]. cbn. lia.
Qed.

(** A row of a distribution: name, count, and the share of the total in percent *)
Record CountRow := mkCount { cr_name : string; cr_count : Z; cr_percentage : num }.

Definition share (total count : Z) : num :=
  if (0 <? total)%Z then num_mul (num_div (num_of_Z count) (num_of_Z total)) (num_of_Z 100) else num_zero.
Definition count_rows (total : Z) : list (string * Z) -> list CountRow :=
  map (fun e => mkCount e.1 e.2 (share total e.2)).

(** ** Texts *)

Definition STRATEGY_COLORS : list (string * string) :=
  [("smart", "#3b82f6"); ("round_robin", "#6b7280"); ("priority", "#9333ea")].
Definition TIME_RANGE_OPTIONS : list (string * Z) :=
  [("Last 1h", 1); ("Last 6h", 6); ("Last 24h", 24); ("Last 7 days", 168); ("Last 30 days", 720)]%Z.

Inductive StatusVariant := DefaultVariant | Destructive | Secondary.
Definition getStatusVariant (status : string) : StatusVariant :=
  if (String.eqb status "success" || String.eqb status "ok")%bool then DefaultVariant
  else if String.eqb status "error" then Destructive else Secondary.

Definition getStatusBadgeClassName (status : string) : string :=
  if (String.eqb status "success" || String.eqb status "ok")%bool
  then "bg-green-100 text-green-800 border-green-200 hover:bg-green-100"
  else if String.eqb status "error" then "bg-red-100 text-red-800 border-red-200 hover:bg-red-100" else "".

Definition getStrategyBadgeClassName (strategy : string) : string :=
  if String.eqb strategy "smart" then "bg-blue-100 text-blue-800 border-blue-200 hover:bg-blue-100"
  else if String.eqb strategy "round_robin" then "bg-gray-100 text-gray-800 border-gray-200 hover:bg-gray-100"
  else if String.eqb strategy "priority" then "bg-purple-100 text-purple-800 border-purple-200 hover:bg-purple-100"
  else "".

Definition windowLabel (hours : Z) : string :=
  match List.find (fun o => (o.2 =? hours)%Z) TIME_RANGE_OPTIONS with
  | Some o => o.1
  | None => "Last " ++ Z_to_string hours ++ "h"
  end.

Definition sort_indicator {F} `{EqDecision F} (field sortField : F) (d : SortDirection) : string :=
  if bool_decide (sortField = field) then match d with Asc => "↑" | Desc => "↓" end else "".

(** ** Decisions *)

Record RoutingDecision := mkDecision {
  dc_timestamp : string;
  dc_tenant_id : string;
  dc_request_id : string;
  dc_selected_model : string;
  dc_provider : string;
  dc_strategy : string;
  dc_route_group : option string;
  dc_fallback_used : js;
  dc_fallback_attempts : js;
  dc_status : string;
  dc_latency_ms : num;
  dc_decision_reason : option string;
  dc_error_type : option string;
}.

Definition log_of (d : RoutingDecision) : LogEntry :=
  mkLog (JStr (dc_timestamp d)) (JStr (dc_tenant_id d)) (JStr (dc_selected_model d))
    (JStr (dc_provider d)) (JNum (dc_latency_ms d)) (JStr (dc_status d)).

(** [Array.from(new Set(xs.filter(Boolean))).sort()] *)
Definition options_of (l : list string) : list string :=
  js_sort by_code (js_set (List.filter (fun s => negb (String.eqb s "")) l)).
Definition tenantOptions (decisions : list RoutingDecision) : list string := options_of (map dc_tenant_id decisions).
Definition modelOptions (decisions : list RoutingDecision) : list string := options_of (map dc_selected_model decisions).
Definition providerOptions (decisions : list RoutingDecision) : list string := options_of (map dc_provider decisions).
Definition strategyOptions (decisions : list RoutingDecision) : list string := options_of (map dc_strategy decisions).

Definition filteredDecisions (strategy : option string) (decisions : list RoutingDecision) : list RoutingDecision :=
  match truthy_env strategy with
  | None => decisions
  | Some s => List.filter (fun d => String.eqb (dc_strategy d) s) decisions
  end.

Definition sortedDecisions `{Collation} (date_time : js -> num) (f : LogSortField) (d : SortDirection)
    (filtered : list RoutingDecision) : list RoutingDecision :=
  sort_with (fun a b => directed date_time f d (log_of a) (log_of b)) filtered.

Definition handleSortChange (field : LogSortField) (s : LogSortField * SortDirection)
    : LogSortField * SortDirection :=
  if bool_decide (field = s.1) then (s.1, match s.2 with Asc => Desc | Desc => Asc end)
  else (field, Asc).

Definition hasRouteGroup (sorted : list RoutingDecision) : bool :=
  existsb (fun d => match truthy_env (dc_route_group d) with Some _ => true | None => false end) sorted.

(** The share of smart routing among the decisions that name a strategy *)
Definition smart_share (decisions : list RoutingDecision) : string :=
  let totalWithStrategy := count (fun d => negb (String.eqb (dc_strategy d) "")) decisions in
  let smartCount := count (fun d => String.eqb (dc_strategy d) "smart") decisions in
  if Nat.eqb totalWithStrategy 0 then "—"
  else to_fixed 1 (num_mul (num_div (num_of_Z (Z.of_nat smartCount)) (num_of_Z (Z.of_nat totalWithStrategy)))
                           (num_of_Z 100)) ++ "%".

(** ** Distributions *)

(** [d.decision_reason?.trim() || 'unknown'] *)
Definition reason_key (d : RoutingDecision) : option string :=
  Some (text_or (str_trim (default "" (dc_decision_reason d))) "unknown").
Definition decisionReasonDistribution (decisions : list RoutingDecision) : list CountRow :=
  count_rows (Z.of_nat (List.length decisions)) (most_first (count_by reason_key decisions)).

Definition failureRows (decisions : list RoutingDecision) : list RoutingDecision :=
  List.filter (fun d => let s := str_lower (dc_status d) in
                        negb (String.eqb s "ok" || String.eqb s "success")) decisions.

Definition error_key (d : RoutingDecision) : option string :=
  let errorType := str_trim (default "" (dc_error_type d)) in
  if String.eqb errorType "" then None else Some errorType.
Definition errorTypeDistribution (failures : list RoutingDecision) : list CountRow :=
  let counts := count_by error_key failures in count_rows (total_count counts) (most_first counts).

Definition cause_key (d : RoutingDecision) : option string :=
  Some (text_or (str_trim (default "" (dc_error_type d))) "unknown").
Definition topFailureCauses (failures : list RoutingDecision) : list CountRow :=
  count_rows (Z.of_nat (List.length failures)) (take 5 (most_first (count_by cause_key failures))).

(** [summary.total_requests] and [summary.fallback_requests] as numbers *)
Definition fallbackUsageData (totalRequests fallbackRequests : num) : list (string * num * num) :=
  let noFallback := num_max num_zero (num_sub totalRequests fallbackRequests) in
  let pct n := if num_gtb totalRequests num_zero
               then num_mul (num_div n totalRequests) (num_of_Z 100) else num_zero in
  [("No fallback", noFallback, pct noFallback); ("Fallback used", fallbackRequests, pct fallbackRequests)].

Definition attempts_key (d : RoutingDecision) : option string :=
  match dc_fallback_used d with
  | JBool false => Some "0"
  | JBool true =>
      match dc_fallback_attempts d with
      | JNum n => if num_is_finite n then Some (num_to_string (num_max num_zero (num_round n))) else Some "unknown"
      | _ => Some "unknown"
      end
  | _ => None
  end.

Definition attempts_order (a b : string * Z) : Z :=
  if String.eqb a.1 "unknown" then 1
  else if String.eqb b.1 "unknown" then -1
  else num_sign (num_sub (number_of_string a.1) (number_of_string b.1)).

Definition attempts_text (attempts : string) : string :=
  if String.eqb attempts "unknown" then "unknown attempts"
  else attempts ++ " attempt" ++ (if String.eqb attempts "1" then "" else "s").

Definition fallbackAttemptsDistribution (decisions : list RoutingDecision) : list (string * Z) :=
  map (fun e => (attempts_text e.1, e.2)) (sort_with attempts_order (count_by attempts_key decisions)).

(** The chart of the strategies: the gateway's counts with a colour *)
Definition strategyUsage (distribution : list (string * num)) : list (string * num * string) :=
  map (fun e => (e.1, e.2, default "#94a3b8" (map_get e.1 STRATEGY_COLORS))) distribution.

(** ** Filters and paging *)

Record ViewFilters := mkViewFilters {
  vf_tenant_id : option string;
  vf_model : option string;
  vf_provider : option string;
  vf_strategy : option string;
  vf_status : option string;
  vf_fallback_used : option bool;
  vf_window_hours : Z;
  vf_limit : Z;
  vf_offset : Z;
}.

Record ViewState := mkView { v_filters : ViewFilters; v_currentPage : Z }.

Definition initial_view : ViewState := mkView (mkViewFilters None None None None None None 24 50 0) 0.

(** The value an input gives: [all] stands for the empty text, which is no filter. *)
Inductive filter_change :=
| TenantChanged (v : string) | ModelChanged (v : string) | ProviderChanged (v : string)
| StrategyChanged (v : string) | StatusChanged (v : string) | FallbackChanged (v : string)
| WindowChanged (hours : Z).

Definition chosen (v : string) : option string :=
  let value := if String.eqb v "all" then "" else v in
  if String.eqb value "" then None else Some value.

Definition updateFilter (c : filter_change) (s : ViewState) : ViewState :=
  let '(mkViewFilters t m p st su fb w l _) := v_filters s in
  mkView
    match c with
    | TenantChanged v => mkViewFilters (chosen v) m p st su fb w l 0
    | ModelChanged v => mkViewFilters t (chosen v) p st su fb w l 0
    | ProviderChanged v => mkViewFilters t m (chosen v) st su fb w l 0
    | StrategyChanged v => mkViewFilters t m p (chosen v) su fb w l 0
    | StatusChanged v => mkViewFilters t m p st (chosen v) fb w l 0
    | FallbackChanged v =>
        mkViewFilters t m p st su (if String.eqb v "all" then None else Some (String.eqb v "true")) w l 0
    | WindowChanged h => mkViewFilters t m p st su fb h l 0
    end 0.

Definition goToPage (page : Z) (s : ViewState) : ViewState :=
  let safePage := Z.max 0 page in
  let '(mkViewFilters t m p st su fb w l _) := v_filters s in
  let limit := (if l =? 0 then 50 else l)%Z in
  mkView (mkViewFilters t m p st su fb w limit (safePage * limit)) safePage.

Inductive view_event := FilterChange (c : filter_change) | GoTo (page : Z).
Definition view_step (s : ViewState) (e : view_event) : ViewState :=
  match e with FilterChange c => updateFilter c s | GoTo p => goToPage p s end.

(** What the view asks the hook for: the strategy is not among it. *)
Definition query_of (f : ViewFilters) : InsightsFilters :=
  mkInsightsFilters (vf_tenant_id f) (vf_model f) (vf_provider f) (vf_status f) (vf_fallback_used f)
    (Some (num_of_Z (vf_window_hours f))) (Some (num_of_Z (vf_limit f))) (Some (num_of_Z (vf_offset f))).

(** ** Theorems *)

Definition in_step (s : ViewState) : Prop :=
  vf_limit (v_filters s) = 50%Z /\ (0 <= v_currentPage s)%Z
  /\ vf_offset (v_filters s) = (v_currentPage s * vf_limit (v_filters s))%Z.

Lemma step_in_step (s : ViewState) (e : view_event) : in_step s -> in_step (view_step s e).
Proof.
  destruct s as [[t m p st su fb w l o] pg]. unfold in_step. cbn. intros (-> & Hp & ->).
  destruct e as [[]|page]; cbn; lia.
Qed.

(** The filters and the page stay in step: whatever the user changes and wherever they go, the rows asked for are
    those of the page that is shown, and a change of a filter starts at the first page. *)
Theorem insights_page_in_step (events : list view_event) (c : filter_change) :
  let s := fold_left view_step events initial_view in
  in_step s /\ v_currentPage (view_step s (FilterChange c)) = 0%Z
  /\ vf_offset (v_filters (view_step s (FilterChange c))) = 0%Z.
Proof.
  cbn zeta. split.
  - assert (H : in_step initial_view) by (unfold in_step; cbn; lia). revert H.
    generalize initial_view. induction events as [|e l IH]; intros s Hs; cbn; [done|]. apply IH. by apply step_in_step.
  - destruct (fold_left _ _ _) as [[] ?]. by destruct c.
Qed.

(** A strategy is chosen on the page alone: the query does not change with it, so the rows hidden
    by it stay counted in the pages. *)
Lemma strategy_not_queried (v : string) (s : ViewState) :
  query_of (v_filters (updateFilter (StrategyChanged v) s)) = query_of (v_filters (updateFilter (StrategyChanged "all") s)).
Proof. by destruct s as [[] ?]. Qed.

Lemma count_rows_counts (total : Z) (m : list (string * Z)) :
  map (fun r => (cr_name r, cr_count r)) (count_rows total m) = m.
Proof. unfold count_rows. rewrite map_map. rewrite <- (map_id m) at 2. apply map_ext. by intros []. Qed.

Lemma total_perm (m m' : list (string * Z)) : Permutation m m' -> total_count m = total_count m'.
Proof. unfold total_count. induction 1; cbn; lia. Qed.

Lemma count_by_entry {E} (key : E -> option string) (l : list E) (k : string) (n : Z) :
  In (k, n) (count_by key l) -> n = Z.of_nat (count (has_key key k) l) /\ (0 < n)%Z.
Proof.
  intros H. pose proof (map_In_get k n _ (group_by_NoDup _ _ _) H) as G.
  pose proof (count_by_get key l k) as C. unfold count_by in C. rewrite G in C. cbn in C. split; [done|].
  assert (Hk : In k (js_set (omap key l))).
  { rewrite <- (group_by_keys key (fun prev _ => default 0 prev + 1)%Z). by apply (in_map fst) in H. }
  apply js_set_In, has_key_In in Hk. unfold count in C. destruct (List.filter _ l); [done|cbn in C; lia].
Qed.

(** What a table of counts promises: the names are distinct, each is counted exactly, the largest
    come first, and the counts add up. *)
Definition exact_counts {E} (key : E -> option string) (l : list E) (rows : list CountRow) : Prop :=
  List.NoDup (map cr_name rows)
  /\ Forall (fun r => cr_count r = Z.of_nat (count (has_key key (cr_name r)) l) /\ (0 < cr_count r)%Z) rows
  /\ StronglySorted (fun a b => (cr_count b <= cr_count a)%Z) rows.

Lemma rows_exact {E} (key : E -> option string) (l : list E) (total : Z) (n : nat) :
  exact_counts key l (count_rows total (take n (most_first (count_by key l)))).
Proof.
  set (m := most_first (count_by key l)).
  assert (Hp : Permutation m (count_by key l)) by apply sort_with_perm.
  unfold exact_counts, count_rows. split; [|split].
  - rewrite map_map. cbn. rewrite <- firstn_map. apply (NoDup_ListNoDup (take n (map fst m))).
    eapply sublist_NoDup; [|apply sublist_take].
    rewrite NoDup_ListNoDup. change (List.NoDup (map_keys m)). unfold map_keys. rewrite Hp. apply group_by_NoDup.
  - apply List.Forall_map, List.Forall_forall. intros [k c] Hin. cbn.
    apply count_by_entry. rewrite <- Hp. rewrite <- (firstn_skipn n m). apply in_app_iff. by left.
  - pose proof (most_first_sorted (count_by key l)) as Hs. fold m in Hs.
    revert n. clear Hp. induction Hs as [|a r Hs IH Hall]; intros [|n]; cbn; try constructor.
    + apply IH.
    + rewrite List.Forall_forall in *. intros x (y & <- & Hy)%in_map_iff. cbn.
      apply Hall. rewrite <- (firstn_skipn n r). apply in_app_iff. by left.
Qed.

(** The causes left out of the top list are no more frequent than those in it. *)
Lemma take_largest (n : nat) (m : list (string * Z)) (a b : string * Z) :
  In a (take n (most_first m)) -> In b m -> ~ In b (take n (most_first m)) -> (b.2 <= a.2)%Z.
Proof.
  pose proof (most_first_sorted m) as Hs. intros Ha Hb Hnb.
  assert (Hb' : In b (drop n (most_first m))).
  { rewrite <- (sort_with_perm (fun a b => b.2 - a.2)%Z m) in Hb. fold (most_first m) in Hb.
    rewrite <- (firstn_skipn n (most_first m)) in Hb. apply in_app_iff in Hb as [Hb|Hb]; [done|exact Hb]. }
  clear Hb Hnb. revert n Ha Hb'. induction Hs as [|x l Hs IH Hall]; intros [|n]; cbn; try done.
  intros [<-|Ha] Hb; [|by apply (IH n)]. rewrite List.Forall_forall in Hall. apply Hall.
  rewrite <- (firstn_skipn n l). apply in_app_iff. by right.
Qed.

Lemma count_always {E} (l : list E) : count (fun _ => true) l = List.length l.
Proof. apply count_all. by apply List.Forall_forall. Qed.

Lemma total_rows {E} (key : E -> option string) (l : list E) (total : Z) :
  total_count (map (fun r => (cr_name r, cr_count r)) (count_rows total (most_first (count_by key l))))
  = Z.of_nat (count (fun e => bool_decide (is_Some (key e))) l).
Proof.
  rewrite count_rows_counts, <- count_by_total. apply total_perm, sort_with_perm.
Qed.

(** the distributions of the routing insights are exact.  In the tables of decision reasons, of error types and
    of top failure causes the names are distinct, each count is the number of decisions (of failed
    ones in the last two) that have it, and the most frequent come first.  The reasons add up to
    all decisions, the error types to the failures that have one, and a cause left out of the
    five is no more frequent than any of them. *)
Theorem insights_distributions_exact (decisions : list RoutingDecision) :
  let failures := failureRows decisions in
  let total rows := total_count (map (fun r => (cr_name r, cr_count r)) rows) in
  exact_counts reason_key decisions (decisionReasonDistribution decisions)
  /\ exact_counts error_key failures (errorTypeDistribution failures)
  /\ exact_counts cause_key failures (topFailureCauses failures)
  /\ total (decisionReasonDistribution decisions) = Z.of_nat (List.length decisions)
  /\ total (errorTypeDistribution failures)
     = Z.of_nat (count (fun d => negb (String.eqb (str_trim (default "" (dc_error_type d))) "")) failures)
  /\ (List.length (topFailureCauses failures) <= 5)%nat
  /\ (forall shown name, In shown (topFailureCauses failures) -> ~ In name (map cr_name (topFailureCauses failures)) ->
        (Z.of_nat (count (has_key cause_key name) failures) <= cr_count shown)%Z).
Proof.
  cbn zeta. set (failures := failureRows decisions).
  assert (Hall : forall {E} (key : E -> option string) l t,
    exact_counts key l (count_rows t (most_first (count_by key l)))).
  { intros E key l t. pose proof (rows_exact key l t (List.length (most_first (count_by key l)))) as H.
    by rewrite firstn_all in H. }
  split; [apply Hall|]. split; [apply Hall|]. split; [apply rows_exact|].
  split; [|split; [|split]].
  - unfold decisionReasonDistribution. rewrite total_rows, <- count_always. f_equal.
  - unfold errorTypeDistribution. cbn zeta. rewrite total_rows. f_equal. unfold count. f_equal.
    apply List.filter_ext. intros d. unfold error_key. by destruct (String.eqb _ _).
  - unfold topFailureCauses, count_rows. rewrite List.length_map. apply firstn_le_length.
  - unfold topFailureCauses, count_rows. intros shown name (a & <- & Ha)%in_map_iff Hn. cbn.
    rewrite <- count_by_get. destruct (map_get name _) as [c|] eqn:G; cbn.
    + apply (take_largest 5 (count_by cause_key failures) a (name, c) Ha); [by apply map_get_In|].
      intros Hin. apply Hn. rewrite map_map. cbn. by apply (in_map fst) in Hin.
    + assert (Hin : In a (count_by cause_key failures)).
      { rewrite <- (sort_with_perm (fun a b => b.2 - a.2)%Z). rewrite <- (firstn_skipn 5 (sort_with _ _)).
        apply in_app_iff. by left. }
      destruct a as [k n]. apply count_by_entry in Hin as [_ ?]. cbn. lia.
Qed.
