(* ===== verification/RequestExplorer.v ===== *)
(** * The request explorer

    src/frontend/src/features/observability/components/request-explorer-dialog.tsx: filters, paging
    and options, the sorted requests, and the drawer with its replay as a state machine whose
    steps are the user's clicks and the answers of the gateway. *)

From S2P Require Import Prelude JsNumber JsText JsValue JsArray NumOrder Effects UsageApi HealthView ObservabilityPage RoutingInsights.
From Stdlib Require Import SpecFloat Sorting.Sorted.
Local Open Scope string_scope.

(** ** Texts *)

(** [toLocaleString] and [getTime] of a date are the browser's. *)
Definition formatTimestamp (date_time : string -> num) (locale : string -> string) (timestamp : string) : string :=
  if String.eqb timestamp "" then "-"
  else if num_is_nan (date_time timestamp) then "-"
  else locale timestamp.

Definition pad2 (n : Z) : string :=
  let s := Z_to_string n in if Nat.ltb (String.length s) 2 then "0" ++ s else s.

(** [local]: year, month from 0, day, hours, minutes and seconds in the browser's time zone *)
Definition formatSnapshotTimestamp (date_time : string -> num) (local : string -> Z * Z * Z * Z * Z * Z)
    (timestamp : option string) : string :=
  match truthy_env timestamp with
  | None => "-"
  | Some t =>
      if num_is_nan (date_time t) then t
      else let '(y, mo, d, h, mi, s) := local t in
           Z_to_string y ++ "-" ++ pad2 (mo + 1) ++ "-" ++ pad2 d ++ " "
             ++ pad2 h ++ ":" ++ pad2 mi ++ ":" ++ pad2 s
  end.

Definition formatUsdCost (value : num) : string := "$" ++ to_fixed 6 value.

Definition formatDeltaVsSelected (modelCost : num) (selectedCost : option num) (isSelected : bool) : string :=
  if isSelected then "selected"
  else match selectedCost with
       | None => "-"
       | Some c =>
           if (negb (num_truthy c) || num_leb c num_zero)%bool then "-"
           else
             let delta := num_mul (num_div (num_sub modelCost c) c) (num_of_Z 100) in
             let rounded := num_round delta in
             (if num_gtb rounded num_zero then "+" else "") ++ num_to_string rounded ++ "%"
       end.

Definition statusLabel (status : string) : string := if String.eqb status "ok" then "success" else status.

(** ** Requests *)

Record RequestLogDetail := mkDetail {
  rd_request_id : string;
  rd_timestamp : string;
  rd_tenant_id : string;
  rd_model : string;
  rd_provider : string;
  rd_strategy : string;
  rd_latency_ms : num;
  rd_status : string;
  rd_fallback_used : bool;
}.

Definition detail_log (r : RequestLogDetail) : LogEntry :=
  mkLog (JStr (rd_timestamp r)) (JStr (rd_tenant_id r)) (JStr (rd_model r)) (JStr (rd_provider r))
    (JNum (rd_latency_ms r)) (JStr (rd_status r)).

Definition tenantOptions (requests : list RequestLogDetail) : list string := options_of (map rd_tenant_id requests).
Definition modelOptions (requests : list RequestLogDetail) : list string := options_of (map rd_model requests).
Definition providerOptions (requests : list RequestLogDetail) : list string := options_of (map rd_provider requests).
Definition statusOptions (requests : list RequestLogDetail) : list string := options_of (map rd_status requests).

(** The two known statuses are always offered. *)
Definition normalizedStatusOptions (requests : list RequestLogDetail) : list string :=
  js_sort by_code (set_add (set_add (js_set (statusOptions requests)) "ok") "error").

Definition sortedRequests `{Collation} (date_time : js -> num) (f : LogSortField) (d : SortDirection)
    (requests : list RequestLogDetail) : list RequestLogDetail :=
  sort_with (fun a b => directed date_time f d (detail_log a) (detail_log b)) requests.

Definition handleSortChange (field : LogSortField) (s : LogSortField * SortDirection)
    : LogSortField * SortDirection :=
  if bool_decide (field = s.1) then (s.1, match s.2 with Asc => Desc | Desc => Asc end)
  else (field, Asc).

(** ** Filters and paging *)

Record ViewFilters := mkViewFilters {
  vf_tenant_id : option string;
  vf_model : option string;
  vf_provider : option string;
  vf_status : option string;
  vf_fallback_used : option bool;
  vf_time_range : option string;
  vf_limit : Z;
  vf_offset : Z;
}.
Record ViewState := mkView { v_filters : ViewFilters; v_currentPage : Z }.

Definition initial_view : ViewState := mkView (mkViewFilters None None None None None (Some "24h") 50 0) 0.

Inductive filter_change :=
| TenantChanged (v : string) | ModelChanged (v : string) | ProviderChanged (v : string)
| StatusChanged (v : string) | FallbackChanged (v : string) | RangeChanged (v : string).

Definition updateFilter (c : filter_change) (s : ViewState) : ViewState :=
  let '(mkViewFilters t m p su fb r l _) := v_filters s in
  mkView
    match c with
    | TenantChanged v => mkViewFilters (chosen v) m p su fb r l 0
    | ModelChanged v => mkViewFilters t (chosen v) p su fb r l 0
    | ProviderChanged v => mkViewFilters t m (chosen v) su fb r l 0
    | StatusChanged v => mkViewFilters t m p (chosen v) fb r l 0
    | FallbackChanged v =>
        mkViewFilters t m p su (if String.eqb v "all" then None else Some (String.eqb v "true")) r l 0
    | RangeChanged v => mkViewFilters t m p su fb (if String.eqb v "" then None else Some v) l 0
    end 0.

Definition goToPage (page : Z) (s : ViewState) : ViewState :=
  let safePage := Z.max 0 page in
  let '(mkViewFilters t m p su fb r l _) := v_filters s in
  let limit := Z.min 200 (if l =? 0 then 50 else l)%Z in
  mkView (mkViewFilters t m p su fb r limit (safePage * limit)) safePage.

Inductive view_event := FilterChange (c : filter_change) | GoTo (page : Z).
Definition view_step (s : ViewState) (e : view_event) : ViewState :=
  match e with FilterChange c => updateFilter c s | GoTo p => goToPage p s end.

(** What the view asks the hook for *)
Definition query_of (f : ViewFilters) : ExplorerFilters :=
  mkExplorerFilters (vf_tenant_id f) (vf_model f) (vf_provider f) (vf_status f) (vf_fallback_used f)
    (vf_time_range f) None None (Some (num_of_Z (vf_limit f))) (Some (num_of_Z (vf_offset f))).

(** The pages of the answer: [total] is the pagination's, the answer's, or the rows shown. *)
Definition totalPages (pg_total data_total pg_limit : option Z) (shown : Z) (f : ViewFilters) : Z :=
  let total := match pg_total with Some t => t | None => default shown data_total end in
  let limit := default (vf_limit f) pg_limit in
  Z.max 1 (- ((- total) / limit)).

Definition pageButtons (currentPage pages : Z) : list Z :=
  List.filter (fun p => (Z.max 0 (currentPage - 2) <=? p) && (p <=? Z.min (pages - 1) (currentPage + 2)))%Z%bool
    (seqZ 0 pages).

(** ** The drawer and the replay *)

(** The state of the replay mutation: the request under way, and the last answer *)
Record Drawer := mkDrawer {
  dr_selected : option string;
  dr_open : bool;
  dr_showRaw : bool;
  dr_modalOpen : bool;
  dr_replayError : option string;
  dr_pending : option string;
  dr_replayed : option (string * js);
}.

Definition closed_drawer : Drawer := mkDrawer None false false false None None None.

Inductive drawer_event :=
| RowClick (request_id : string)
| CloseDrawer
| CloseModal
| ToggleRaw
| Replay
| ReplayAnswer (o : outcome js).

Definition handleRowClick (request_id : string) (d : Drawer) : Drawer :=
  mkDrawer (Some request_id) true false false None (dr_pending d) (dr_replayed d).

(** The button is disabled while a replay runs or the request has no id; a new run clears the
    data of the last one. *)
Definition handleReplayRequest (d : Drawer) : Drawer :=
  match truthy_env (dr_selected d), dr_pending d with
  | Some id, None => mkDrawer (dr_selected d) (dr_open d) (dr_showRaw d) (dr_modalOpen d) None (Some id) None
  | _, _ => d
  end.

Definition drawer_step (d : Drawer) (e : drawer_event) : Drawer :=
  let '(mkDrawer sel open raw modal err pending replayed) := d in
  match e with
  | RowClick id => handleRowClick id d
  | CloseDrawer => mkDrawer sel false raw modal err pending replayed
  | CloseModal => mkDrawer sel open raw false err pending replayed
  | ToggleRaw => mkDrawer sel open (negb raw) modal err pending replayed
  | Replay => if open then handleReplayRequest d else d
  | ReplayAnswer o =>
      match pending, o with
      | Some id, Ok v => mkDrawer sel open raw true err None (Some (id, v))
      | Some _, Throw _ => mkDrawer sel open raw modal (Some "Replay failed.") None replayed
      | None, _ => d
      end
  end.

(** The snapshot of the routing is asked for while the drawer shows a request with an id. *)
Definition snapshot_query (d : Drawer) : option string :=
  if dr_open d then truthy_env (dr_selected d) else None.

Definition navigateToReplay (selected : option string) : option string :=
  (fun id => "/routing/replay?request_id=" ++ encodeURIComponent id) <$> truthy_env selected.

(** What the dialog shows of the replay *)
Definition replaySelectedModel (replayData : js) : js :=
  js_or (opt_get replayData "selected_model") (opt_get (opt_get replayData "routing_snapshot") "selected_model").
Definition replaySelectedCost (replayData : js) : js :=
  let model := replaySelectedModel replayData in
  let costs := opt_get (opt_get replayData "routing_snapshot") "estimated_costs_usd" in
  if (truthy model && truthy costs)%bool then opt_get costs (js_to_string model) else JUndef.

(** ** Theorems *)

Definition in_step (s : ViewState) : Prop :=
  vf_limit (v_filters s) = 50%Z /\ (0 <= v_currentPage s)%Z
  /\ vf_offset (v_filters s) = (v_currentPage s * vf_limit (v_filters s))%Z.

Lemma explorer_step_in_step (s : ViewState) (e : view_event) : in_step s -> in_step (view_step s e).
Proof.
  destruct s as [[t m p su fb r l o] pg]. unfold in_step. cbn. intros (-> & Hp & ->).
  destruct e as [[]|page]; cbn; lia.
Qed.

(** The rows asked for are those of the page shown, and a change of a filter starts at the first page. *)
Theorem explorer_page_in_step (events : list view_event) (c : filter_change) :
  let s := fold_left view_step events initial_view in
  in_step s /\ v_currentPage (view_step s (FilterChange c)) = 0%Z
  /\ vf_offset (v_filters (view_step s (FilterChange c))) = 0%Z.
Proof.
  cbn zeta. split.
  - assert (H : in_step initial_view) by (unfold in_step; cbn; lia). revert H.
    generalize initial_view. induction events as [|e l IH]; intros s Hs; cbn; [done|]. apply IH. by apply explorer_step_in_step.
  - destruct (fold_left _ _ _) as [[] ?]. by destruct c.
Qed.

(** The sorted requests are the requests, and in the order of the column and direction chosen. *)
Theorem explorer_sorted `{Collation} (date_time : js -> num) (f : LogSortField) (d : SortDirection)
    (requests : list RequestLogDetail) :
  Forall (fun r => log_finite date_time (detail_log r)) requests ->
  Permutation (sortedRequests date_time f d requests) requests
  /\ StronglySorted (fun a b => (directed date_time f d (detail_log a) (detail_log b) <= 0)%Z)
       (sortedRequests date_time f d requests).
Proof.
  intros Hok. split; [apply sort_with_perm|].
  apply (sort_sorted_on (fun r => log_finite date_time (detail_log r))); [|done].
  destruct (directed_ordered date_time f d) as [Hs Ht]. split; eauto.
Qed.

(** One replay runs at a time: the answer that comes is that of the request under way, and a row
    click does not lose it. *)
Lemma replay_kept (d : Drawer) (id : string) (e : drawer_event) :
  dr_pending d = Some id -> (forall o, e <> ReplayAnswer o) -> dr_pending (drawer_step d e) = Some id.
Proof.
  destruct d as [sel op raw modal err pend rep]. cbn. intros -> He. destruct e; cbn; try done.
  - destruct op; [|done]. unfold handleReplayRequest. cbn. by destruct (truthy_env sel).
  - by destruct (He o).
Qed.

(** A replay that fails after the user has opened another request is reported in the drawer of
    that other request. *)
Theorem replay_failure_misplaced (a b : string) (e : exn) :
  a <> "" ->
  let d := fold_left drawer_step [RowClick a; Replay; RowClick b; ReplayAnswer (Throw e)] closed_drawer in
  dr_selected d = Some b /\ dr_open d = true /\ dr_replayError d = Some "Replay failed.".
Proof. intros Ha. by destruct a. Qed.
