(* ===== verification/ReplayPage.v ===== *)
(** * The replay page

    src/frontend/src/app/(app)/routing/replay/page.tsx: loading the routing snapshot of a request,
    replaying it, the comparison of the two, and the page as a state machine whose steps are the
    user's inputs and the answers in whatever order they arrive. *)

From S2P Require Import Prelude JsNumber JsText JsValue JsArray Json Effects AuthRoutes UsageApi ObservabilityPage RequestExplorer.
Local Open Scope string_scope.

(** ** Requests *)

(** [const err = await res.json().catch(() => ({ error: { message } })); throw new Error(...)] *)
Definition raise_error (res : HttpResponse) (unreadable fallback : string) : M js :=
  err ← try_catch (res_json res)
          (fun _ => mret (JObj [("error", JObj [("message", JStr unreadable)])]));
  error ← get err "error";
  throw (JsError (js_to_string (js_or (opt_get error "message") (JStr fallback)))).

Definition snapshot_request (id : string) : HttpRequest :=
  mkHttpRequest "GET" ("/api/routing/requests/" ++ encodeURIComponent id ++ "/routing") [] None.
Definition replay_request (id : string) : HttpRequest :=
  mkHttpRequest "POST" ("/api/routing/replay/" ++ encodeURIComponent id) [] None.

Definition loadSnapshot (id : string) : M js :=
  res ← page_fetch (snapshot_request id);
  if negb (res_ok res) then
    raise_error res "Failed to load snapshot" "Routing snapshot not found for this request ID"
  else res_json res.

Definition runReplay (id : string) : M js :=
  res ← page_fetch (replay_request id);
  if negb (res_ok res) then
    raise_error res "Failed to run replay" "Replay failed. Check permissions or request availability."
  else res_json res.

Definition nl : string := String (ascii_of_nat 10) "".
Definition snapshot_hint : string :=
  nl ++ nl ++ "This may happen if:" ++ nl ++ "- the request predates snapshot support" ++ nl
    ++ "- the request ID is incorrect" ++ nl ++ "- the request belongs to another tenant".

(** ** The page *)

Inductive operation := Load (id : string) | Run (id : string).

Record PageState := mkPage {
  p_requestId : string;
  p_snapshot : option js;
  p_replay : option js;
  p_loadingSnapshot : bool;
  p_loadingReplay : bool;
  p_error : option string;
  p_inFlight : list operation;
}.

Definition initial_page : PageState := mkPage "" None None false false None [].

Definition handleLoadSnapshotForId (id : string) (s : PageState) : PageState :=
  mkPage (p_requestId s) None None true (p_loadingReplay s) None (p_inFlight s ++ [Load id])%list.

Definition with_error (e : string) (s : PageState) : PageState :=
  mkPage (p_requestId s) (p_snapshot s) (p_replay s) (p_loadingSnapshot s) (p_loadingReplay s) (Some e) (p_inFlight s).

Definition handleLoadSnapshot (s : PageState) : PageState :=
  if String.eqb (str_trim (p_requestId s)) "" then with_error "Please enter a request ID" s
  else handleLoadSnapshotForId (str_trim (p_requestId s)) s.

Definition handleReplay (s : PageState) : PageState :=
  if String.eqb (str_trim (p_requestId s)) "" then with_error "Please enter a request ID" s
  else mkPage (p_requestId s) (p_snapshot s) None (p_loadingSnapshot s) true None
         (p_inFlight s ++ [Run (str_trim (p_requestId s))])%list.

Definition handleClear (s : PageState) : PageState :=
  mkPage "" None None (p_loadingSnapshot s) (p_loadingReplay s) None (p_inFlight s).

(** The effect that follows a change of the address, once access is granted *)
Definition url_effect (user accessGranted : bool) (urlRequestId : option string) (s : PageState) : PageState :=
  if negb user then s else if negb accessGranted then s
  else match urlRequestId with
       | Some id =>
           if String.eqb (str_trim id) "" then s
           else handleLoadSnapshotForId (str_trim id)
                  (mkPage (str_trim id) (p_snapshot s) (p_replay s) (p_loadingSnapshot s) (p_loadingReplay s)
                     (p_error s) (p_inFlight s))
       | None => s
       end.

(** The page only asks whether what it holds is truthy. *)
Definition held (data : js) : option js := if truthy data then Some data else None.

(** What an answer does to the page *)
Definition answered (op : operation) (o : outcome js) (rest : list operation) (s : PageState) : PageState :=
  match op, o with
  | Load _, Ok data => mkPage (p_requestId s) (held data) (p_replay s) false (p_loadingReplay s) (p_error s) rest
  | Load _, Throw e =>
      mkPage (p_requestId s) (p_snapshot s) (p_replay s) false (p_loadingReplay s)
        (Some (exn_message e ++ snapshot_hint)) rest
  | Run _, Ok data => mkPage (p_requestId s) (p_snapshot s) (held data) (p_loadingSnapshot s) false (p_error s) rest
  | Run _, Throw e =>
      mkPage (p_requestId s) (p_snapshot s) (p_replay s) (p_loadingSnapshot s) false (Some (exn_message e)) rest
  end.

Inductive page_event :=
| TypeId (text : string)
| PressEnter
| ClickLoad
| ClickReplay
| ClickClear
| Address (urlRequestId : option string)
| Answered (i : nat) (o : outcome js).

(** The buttons are disabled while their request runs; the Enter key is not. *)
Definition page_step (s : PageState) (e : page_event) : PageState :=
  match e with
  | TypeId t => mkPage t (p_snapshot s) (p_replay s) (p_loadingSnapshot s) (p_loadingReplay s) (p_error s) (p_inFlight s)
  | PressEnter => handleLoadSnapshot s
  | ClickLoad => if (p_loadingSnapshot s || String.eqb (str_trim (p_requestId s)) "")%bool then s else handleLoadSnapshot s
  | ClickReplay => if (p_loadingReplay s || match p_snapshot s with None => true | Some _ => false end)%bool
                   then s else handleReplay s
  | ClickClear => handleClear s
  | Address id => url_effect true true id s
  | Answered i o => match p_inFlight s !! i with
                    | Some op => answered op o (delete i (p_inFlight s)) s
                    | None => s
                    end
  end.

Definition getStatusBadge (s : PageState) : string :=
  match p_error s, p_replay s, p_snapshot s with
  | Some _, _, _ => "Error"
  | None, Some _, _ => "Replay Completed"
  | None, None, Some _ => "Snapshot Loaded"
  | None, None, None => "Idle"
  end.

(** ** The comparison *)

(** [===] on values of two different answers: objects and arrays are never the same. *)
Definition same_value (a b : js) : bool :=
  match a, b with
  | JUndef, JUndef | JNull, JNull => true
  | JBool x, JBool y => Bool.eqb x y
  | JNum x, JNum y => num_eqb x y
  | JStr x, JStr y => String.eqb x y
  | _, _ => false
  end.

(** [None] is the TypeError of a snapshot or a replay without its routing. *)
Definition compareFields (snapshot replay : option js) : option (list (string * js * js)) :=
  match snapshot, replay with
  | Some sn, Some rp =>
      let s := opt_get sn "routing_snapshot" in
      let r := opt_get rp "routing_snapshot" in
      if (nullish s || nullish r)%bool then None
      else
        let of_snapshot f := (f, opt_get s f, opt_get r f) in
        Some [("request_id", opt_get sn "request_id", opt_get rp "request_id");
              ("tenant_id", opt_get sn "tenant_id", opt_get rp "tenant_id");
              of_snapshot "provider"; of_snapshot "selected_model"; of_snapshot "route_group";
              of_snapshot "routing_strategy";
              ("fallback_attempts", JStr (js_to_string (opt_get s "fallback_attempts")),
               JStr (js_to_string (opt_get r "fallback_attempts")))]
  | _, _ => Some []
  end.

Definition allMatch (snapshot replay : option js) : option bool :=
  forallb (fun row => same_value row.1.2 row.2) <$> compareFields snapshot replay.

(** The sentence under the comparison, by [allMatch] *)
Definition comparison_text (m : bool) : string :=
  if m then "Match means the deterministic replay selected the same model as the original routing decision."
  else "Diff detected: The replay selected a different model than the original routing decision. This may happen if routing configuration has changed since the request occurred.".

Definition replayRoutingSnapshotForDiagnostics (replay : option js) : js :=
  match replay with
  | None => JUndef
  | Some rp => let s := opt_get rp "routing_snapshot" in
               js_coalesce (opt_get rp "routing_snapshot_full") (if truthy s then s else JUndef)
  end.
Definition replayDecisionReason (replay : option js) : js :=
  let rp := default JUndef replay in
  js_or (opt_get rp "decision_reason")
    (match opt_get (opt_get rp "decision_snapshot") "reason" with JStr r => JStr r | _ => JStr "—" end).

(** ** From the explorer to the replay page *)

Lemma split_once_none (sep : ascii) (s : string) : lacks sep s = true -> split_once sep s = (s, None).
Proof.
  induction s as [|c s IH]; cbn; [done|]. intros [Hc Hs]%andb_prop.
  rewrite negb_true_iff in Hc. by rewrite Hc, IH.
Qed.

Lemma split_none (sep : ascii) (s : string) : lacks sep s = true -> str_split sep s = [s].
Proof.
  induction s as [|c s IH]; cbn; [done|]. intros [Hc Hs]%andb_prop.
  rewrite negb_true_iff in Hc. by rewrite Hc, IH.
Qed.

(** A query string written by hand reads back. *)
Lemma query_of_encoded (name v : string) :
  lacks "&" name = true -> lacks "=" name = true -> form_decode_text name = name ->
  parse_params (name ++ "=" ++ encodeURIComponent v) = [(name, v)].
Proof.
  intros Ha He Hd. unfold parse_params.
  rewrite split_none by (rewrite !lacks_app, Ha, encode_lacks by auto; reflexivity).
  cbn [List.filter]. assert (Hne : String.eqb (name ++ "=" ++ encodeURIComponent v) "" = false) by (by destruct name).
  rewrite Hne. cbn [negb map]. f_equal. unfold parse_form_pair. cbn [String.append].
  rewrite split_once_app by done. by rewrite Hd, form_decode_uri.
Qed.

(** the explorer's replay button opens that request.  For every request id without outer
    blanks the explorer's address carries an id that the replay page reads back unchanged, whatever
    characters it has; with access granted the page then shows it as its input, discards what it
    held before and asks for the snapshot of that request, and nothing else. *)
Theorem explorer_link_opens_replay (id : string) (s : PageState) :
  id <> "" -> str_trim id = id ->
  exists q, navigateToReplay (Some id) = Some ("/routing/replay?" ++ q)
  /\ params_get "request_id" (parse_params q) = Some id
  /\ page_step s (Address (params_get "request_id" (parse_params q)))
     = mkPage id None None true (p_loadingReplay s) None (p_inFlight s ++ [Load id])
  /\ forall w st, sent (loadSnapshot id w st).2 = (sent st ++ [snapshot_request id])%list.
Proof.
  intros Hne Htrim. exists ("request_id=" ++ encodeURIComponent id).
  assert (Hq : params_get "request_id" (parse_params ("request_id=" ++ encodeURIComponent id)) = Some id)
    by exact (f_equal _ (query_of_encoded "request_id" id eq_refl eq_refl eq_refl)).
  split; [|split; [done|split]].
  - unfold navigateToReplay, truthy_env. by destruct id.
  - rewrite Hq. cbn [page_step]. unfold url_effect. cbn [negb]. rewrite Htrim.
    by destruct (String.eqb_spec id "").
  - intros w st. apply fetch_once. intros res. unfold raise_error, quiet. solve_sends.
Qed.

Lemma explorer_link_opens_replay_witness :
  str_trim "chatcmpl-1 & co" = "chatcmpl-1 & co"
  /\ exists q, navigateToReplay (Some "chatcmpl-1 & co") = Some ("/routing/replay?" ++ q).
Proof.
  split; [vm_compute; reflexivity|].
  destruct (explorer_link_opens_replay "chatcmpl-1 & co" initial_page) as (q & H & _);
    [discriminate|vm_compute; reflexivity|]. by exists q.
Defined.

(** ** The page under any order of answers *)

#[local] Arguments count : simpl never.
Definition is_run (op : operation) : bool := match op with Run _ => true | Load _ => false end.

(** A spinner turns only while its request is under way, and one replay runs at a time. *)
Definition settled (s : PageState) : Prop :=
  (p_loadingSnapshot s = true -> Exists (fun op => is_run op = false) (p_inFlight s))
  /\ count is_run (p_inFlight s) = (if p_loadingReplay s then 1 else 0)%nat.

Lemma exists_snoc {A} (P : A -> Prop) (l : list A) (x : A) : P x \/ Exists P l -> Exists P (l ++ [x]).
Proof. rewrite Exists_app. intros [H|H]; [right; by constructor|by left]. Qed.

Lemma delete_split {A} (l : list A) (i : nat) (x : A) :
  l !! i = Some x -> exists l1 l2, l = (l1 ++ x :: l2)%list /\ delete i l = (l1 ++ l2)%list.
Proof.
  intros H. exists (take i l), (drop (S i) l). split; [by rewrite take_drop_middle|by rewrite delete_take_drop].
Qed.

Lemma load_settled (id : string) (s : PageState) : settled s -> settled (handleLoadSnapshotForId id s).
Proof.
  intros [_ Hr]. split; cbn; [intros _; apply exists_snoc; by left|].
  rewrite count_app, Hr. unfold count. cbn. lia.
Qed.

Lemma replay_settled (s : PageState) : p_loadingReplay s = false -> settled s -> settled (handleReplay s).
Proof.
  intros Hl [Hs Hr]. unfold handleReplay. destruct (String.eqb _ _); [by split|]. split; cbn.
  - intros H. apply exists_snoc. right. auto.
  - rewrite count_app, Hr, Hl. reflexivity.
Qed.

Lemma answer_settled (s : PageState) (i : nat) (op : operation) (o : outcome js) :
  p_inFlight s !! i = Some op -> settled s -> settled (answered op o (delete i (p_inFlight s)) s).
Proof.
  intros Hi [Hs Hr]. destruct (delete_split _ _ _ Hi) as (l1 & l2 & E & ->). rewrite E in Hs, Hr.
  rewrite count_app in Hr. unfold settled.
  destruct op, o; cbn; rewrite count_app; (split; [try done|]).
  1, 2: rewrite <- Hr; unfold count; cbn; lia.
  1, 3: intros H; specialize (Hs H); rewrite !Exists_app, Exists_cons in *; cbn in Hs;
        destruct Hs as [?|[?|?]]; [by left|discriminate|by right].
  all: unfold count in *; cbn in *; destruct (p_loadingReplay s); lia.
Qed.

Lemma step_settled (s : PageState) (e : page_event) : settled s -> settled (page_step s e).
Proof.
  intros H. destruct e as [t| | | | |id|i o]; cbn [page_step]; [done| | | |done| |].
  - unfold handleLoadSnapshot. destruct (String.eqb _ _); [done|by apply load_settled].
  - destruct (_ || _)%bool; [done|]. unfold handleLoadSnapshot. destruct (String.eqb _ _); [done|by apply load_settled].
  - destruct (p_loadingReplay s) eqn:E; cbn [orb]; [done|]. destruct (p_snapshot s); [by apply replay_settled|done].
  - unfold url_effect. cbn [negb]. destruct id as [id|]; [|done]. destruct (String.eqb _ _); [done|].
    apply load_settled. exact H.
  - destruct (p_inFlight s !! i) as [op|] eqn:E; [by apply answer_settled|done].
Qed.

(** C34: the replay page always settles.  After any sequence of inputs, changes of the address and
    answers in any order, at most one replay is under way and its button is disabled exactly then;
    a spinner turns only while a request of its kind is under way, so once every request has been
    answered the page shows no spinner, whichever of them failed. *)
Theorem replay_page_settles (events : list page_event) :
  let s := fold_left page_step events initial_page in
  settled s /\ (p_inFlight s = [] -> p_loadingSnapshot s = false /\ p_loadingReplay s = false).
Proof.
  assert (H : settled (fold_left page_step events initial_page)).
  { assert (H0 : settled initial_page) by (by split). revert H0. generalize initial_page.
    induction events as [|e l IH]; intros s Hs; cbn; [done|]. by apply IH, step_settled. }
  cbn zeta. split; [done|]. destruct H as [Hs Hr]. intros E. rewrite E in *. split.
  - destruct (p_loadingSnapshot _); [|done]. specialize (Hs eq_refl). inversion Hs.
  - by destruct (p_loadingReplay _).
Qed.

(** ** What the page gets wrong *)

Lemma load_given (s : PageState) :
  str_trim (p_requestId s) <> "" -> handleLoadSnapshot s = handleLoadSnapshotForId (str_trim (p_requestId s)) s.
Proof. intros H%String.eqb_neq. unfold handleLoadSnapshot. by rewrite H. Qed.

(** The Enter key starts a second load while the first runs, and the answer that comes last
    wins: the page ends with the second id in its input and the snapshot of the first, with no
    request under way and no error. *)
Theorem stale_snapshot_shown (a b : string) (va vb : js) :
  str_trim a <> "" -> str_trim b <> "" -> truthy va = true ->
  fold_left page_step [TypeId a; PressEnter; TypeId b; PressEnter; Answered 1 (Ok vb); Answered 0 (Ok va)] initial_page
  = mkPage b (Some va) None false false None [].
Proof.
  intros Ha Hb Hv. cbn -[handleLoadSnapshot].
  rewrite (load_given (mkPage a None None false false None [])) by exact Ha. cbn -[handleLoadSnapshot].
  rewrite load_given by exact Hb. cbn.
  unfold held. by rewrite Hv.
Qed.

(** The comparison matches exactly when its seven fields do. *)
Lemma allMatch_fields (sn rp : js) :
  allMatch (Some sn) (Some rp) = Some true ->
  let s := opt_get sn "routing_snapshot" in
  let r := opt_get rp "routing_snapshot" in
  Forall (fun f => same_value (opt_get s f) (opt_get r f) = true)
    ["provider"; "selected_model"; "route_group"; "routing_strategy"]
  /\ same_value (opt_get sn "request_id") (opt_get rp "request_id") = true
  /\ same_value (opt_get sn "tenant_id") (opt_get rp "tenant_id") = true.
Proof.
  unfold allMatch, compareFields. cbn zeta. destruct (_ || _)%bool; [done|]. cbn -[same_value].
  intros [= H]. rewrite !andb_true_iff in H. destruct H as (H1 & H2 & H3 & H4 & H5 & H6 & H7 & _).
  repeat constructor; done.
Qed.

(** The sentence of a difference says that another model was selected, also when only the
    fallback attempts differ. *)
Theorem diff_with_same_model (id tenant : js) :
  let answer attempts :=
    JObj [("request_id", id); ("tenant_id", tenant);
          ("routing_snapshot", JObj [("selected_model", JStr "m"); ("fallback_attempts", JNum attempts)])] in
  allMatch (Some (answer num_zero)) (Some (answer (num_of_Z 1))) = Some false
  /\ same_value (opt_get (opt_get (answer num_zero) "routing_snapshot") "selected_model")
                (opt_get (opt_get (answer (num_of_Z 1)) "routing_snapshot") "selected_model") = true.
Proof. split; [|reflexivity]. unfold allMatch. cbn -[same_value js_to_string num_of_Z].
  assert (H : same_value (JStr (js_to_string (JNum num_zero))) (JStr (js_to_string (JNum (num_of_Z 1)))) = false)
    by (vm_compute; reflexivity).
  rewrite H. rewrite ?andb_false_r. done.
Qed.

(** The route refuses a request without a session with an error that is a text; the page reads
    the message of an object, and reports a snapshot that was not found. *)
Theorem expired_session_reads_not_found (w : World) (s : State) (id st : string) (hs : list (string * string)) :
  net w (sent s) (snapshot_request id)
    = Ok (mkHttpResponse 401 st hs (json_stringify (JObj [("error", JStr "Authentication required")]))) ->
  (loadSnapshot id w s).1 = Throw (JsError "Routing snapshot not found for this request ID").
Proof. intros H. unfold loadSnapshot, mbind, M_bind, page_fetch. rewrite H. vm_compute. reflexivity. Qed.
