(* ===== verification/SemanticViews.v ===== *)
(** * The semantic views and the router performance

    src/frontend/src/features/observability/components: the views of the semantic cache, of
    semantic routing and of their correlation, and the view of the router's latencies: what they
    ask for, what they make of an answer, and what they show while it loads or fails. *)

From S2P Require Import Prelude JsNumber JsText JsValue JsArray NumOrder Json Effects Csv UsageApi ObservabilityApi.
Local Open Scope string_scope.

(** A part of a view: its skeleton, the text of a failure or of an empty answer, or its content *)
Inductive Part (A : Type) := PartLoading | PartError (text : string) | PartEmpty (text : string) | PartShown (content : A).
Arguments PartLoading {A}.
Arguments PartError {A}.
Arguments PartEmpty {A}.
Arguments PartShown {A}.

Definition table_part {A} (isLoading failed : bool) (error empty : string) (rows : list A) : Part (list A) :=
  if isLoading then PartLoading else if failed then PartError error
  else match rows with [] => PartEmpty empty | _ => PartShown rows end.
Definition card_part {A} (isLoading failed : bool) (error : string) (content : A) : Part A :=
  if isLoading then PartLoading else if failed then PartError error else PartShown content.

(** [data.k || d] of an answer that was read *)
Definition field_or (data : js) (k : string) (d : js) : js := js_or (opt_get data k) d.
Definition zeros_of (ks : list string) : js := JObj (map (fun k => (k, js_of_Z 0)) ks).

Definition fetch_stats (url failure : string) (shape : js -> js) : M js :=
  resp ← page_get url;
  if negb (res_ok resp) then throw (JsError (failure ++ ": " ++ Z_to_string (res_status resp)))
  else data ← res_json resp; _ ← get data "object"; mret (shape data).

(** ** semantic-cache-view.tsx *)

Module SemanticCache.

Definition summary_keys : list string := ["total_entries"; "total_hits"; "avg_hits_per_entry"; "active_entries"; "expired_entries"].
Definition cache_stats (data : js) : js :=
  JObj [("object", field_or data "object" (JStr "semantic_cache_stats")); ("summary", field_or data "summary" (zeros_of summary_keys));
        ("top_prompts", field_or data "top_prompts" (JArr [])); ("top_models", field_or data "top_models" (JArr []));
        ("top_route_groups", field_or data "top_route_groups" (JArr []));
        ("expiration", field_or data "expiration" (zeros_of ["active"; "expired"]))].
(** A limit of 0 is not sent. *)
Definition cache_url (limit : num) : string :=
  with_query "/api/observability/semantic-cache" (if num_truthy limit then [("limit", num_to_string limit)] else []).
Definition fetchSemanticCacheStats (limit : num) : M js :=
  fetch_stats (cache_url limit) "Failed to fetch semantic cache stats" cache_stats.

Section View.
(** [toLocaleString] of a number, and of a date's text *)
Context (locale : num -> string) (locale_date : string -> string).

Definition formatDateTime (v : js) : string := if truthy v then locale_date (js_to_string v) else "—".
(** [data?.summary.k.toLocaleString() ?? '0'] *)
Definition stat (data : js) (part k : string) (show : num -> string) (d : string) : string :=
  if nullish data then d else show (js_to_number (opt_get (opt_get data part) k)).
Definition cache_cards (data : js) : list (string * string) :=
  [("Total Entries", stat data "summary" "total_entries" locale "0"); ("Total Hits", stat data "summary" "total_hits" locale "0");
   ("Avg Hits / Entry", stat data "summary" "avg_hits_per_entry" (to_fixed 2) "0.00");
   ("Active Entries", stat data "summary" "active_entries" locale "0"); ("Expired Entries", stat data "summary" "expired_entries" locale "0")].
Definition prompt_cells (prompt : js) : list string :=
  let f := opt_get prompt in
  [js_to_string (f "request_text"); js_to_string (f "hit_count"); js_to_string (js_or (f "model") (JStr "—"));
   js_to_string (js_or (f "route_group") (JStr "unknown")); formatDateTime (f "last_hit_at"); formatDateTime (f "expires_at")].
Definition count_cells (name : string) (r : js) : list string :=
  [name; js_to_string (opt_get r "entries"); js_to_string (opt_get r "total_hits")].

Record CacheView := mkCacheView {
  cv_cards : Part (list (string * string));
  cv_prompts : Part (list (list string));
  cv_models : Part (list (list string));
  cv_groups : Part (list (list string));
  cv_expiration : Part (string * string);
}.
Definition SemanticCacheView (isLoading failed : bool) (data : js) : CacheView :=
  let rows k := js_array (opt_get data k) in
  mkCacheView
    (card_part isLoading failed "Failed to load semantic cache analytics" (cache_cards data))
    (table_part isLoading failed "Failed to load prompts" "No cached prompts found." (map prompt_cells (rows "top_prompts")))
    (table_part isLoading failed "Failed to load models" "No cached models found."
       (map (fun m => count_cells (js_to_string (opt_get m "model")) m) (rows "top_models")))
    (table_part isLoading failed "Failed to load route groups" "No cached route groups found."
       (map (fun g => count_cells (js_to_string (js_or (opt_get g "route_group") (JStr "unknown"))) g) (rows "top_route_groups")))
    (card_part isLoading failed "Failed to load expiration data"
       (stat data "expiration" "active" locale "0", stat data "expiration" "expired" locale "0")).
End View.
End SemanticCache.

(** ** semantic-routing-view.tsx *)

Module SemanticRouting.

Definition routing_stats (data : js) : js :=
  JObj [("object", field_or data "object" (JStr "semantic_routing_stats"));
        ("coverage", field_or data "coverage" (zeros_of ["total_requests"; "matched_requests"; "coverage_rate"]));
        ("top_routes", field_or data "top_routes" (JArr [])); ("top_anchors", field_or data "top_anchors" (JArr []))].
Definition fetchSemanticRoutingStats : M js :=
  fetch_stats "/api/observability/semantic-routing" "Failed to fetch semantic routing stats" routing_stats.

Definition coverage (data : js) (k : string) : num := js_to_number (opt_get (opt_get data "coverage") k).
(** [data && matched === 0 && total > 0] *)
Definition hasNoMatches (data : js) : bool :=
  (truthy data && num_eqb (coverage data "matched_requests") num_zero && num_gtb (coverage data "total_requests") num_zero)%bool.

Record RoutingView := mkRoutingView {
  rv_cards : Part (list (string * string));
  rv_noMatches : bool;
  rv_routes : Part (list (string * string));
  rv_anchors : Part (list (string * string));
}.
Definition SemanticRoutingView (locale : num -> string) (isLoading failed : bool) (data : js) : RoutingView :=
  let count k := if nullish data then "0" else locale (coverage data k) in
  let rate := if nullish data then num_zero else num_of (opt_get (opt_get data "coverage") "coverage_rate") num_zero in
  let matches r := js_to_string (opt_get r "matches") in
  mkRoutingView
    (card_part isLoading failed "Failed to load semantic routing analytics"
       [("Total Requests", count "total_requests"); ("Matched Requests", count "matched_requests");
        ("Coverage Rate", to_fixed 1 (num_mul rate (num_of_Z 100)) ++ "%")])
    (hasNoMatches data)
    (table_part isLoading failed "Failed to load route groups" "No route groups found."
       (map (fun r => (js_to_string (js_or (opt_get r "route_group") (JStr "unknown")), matches r)) (js_array (opt_get data "top_routes"))))
    (table_part isLoading failed "Failed to load anchors" "No anchors found."
       (map (fun r => (js_to_string (opt_get r "anchor"), matches r)) (js_array (opt_get data "top_anchors")))).
End SemanticRouting.

(** ** semantic-correlation-view.tsx *)

Module SemanticCorrelation.

Record CorrelationGroup := mkGroup { cg_route_group : string; cg_cache_hits : num; cg_total_requests : num; cg_hit_rate : num }.
Definition correlation_stats (data : js) : js :=
  JObj [("object", field_or data "object" (JStr "semantic_correlation")); ("by_route_group", field_or data "by_route_group" (JArr []))].
Definition fetchSemanticCorrelation : M js :=
  fetch_stats "/api/observability/semantic-correlation" "Failed to fetch semantic correlation" correlation_stats.
Definition group_of (v : js) : CorrelationGroup :=
  let n k := js_to_number (opt_get v k) in
  mkGroup (js_to_string (js_or (opt_get v "route_group") (JStr "unknown"))) (n "cache_hits") (n "total_requests") (n "hit_rate").

Record Summary := mkSummary { su_groups : nat; su_requests : num; su_hits : num; su_rate : num }.
Definition summary (groups : list CorrelationGroup) : Summary :=
  match groups with
  | [] => mkSummary 0 num_zero num_zero num_zero
  | _ =>
      let totalRequests := sum_by cg_total_requests groups in
      let totalCacheHits := sum_by cg_cache_hits groups in
      mkSummary (List.length groups) totalRequests totalCacheHits
        (if num_gtb totalRequests num_zero then num_div totalCacheHits totalRequests else num_zero)
  end.

Definition percent_text (rate : num) : string := to_fixed 1 (num_mul rate (num_of_Z 100)) ++ "%".
(** The width of the bar *)
Definition bar_width (g : CorrelationGroup) : num := num_min (num_mul (cg_hit_rate g) (num_of_Z 100)) (num_of_Z 100).

Definition SemanticCorrelationView (locale : num -> string) (isLoading failed : bool) (groups : list CorrelationGroup)
    : Part (list (string * string)) * Part (list (list string * num)) :=
  let s := summary groups in
  (card_part isLoading failed "Failed to load semantic correlation analytics"
     [("Total Route Groups", locale (num_of_Z (Z.of_nat (su_groups s)))); ("Total Requests", locale (su_requests s));
      ("Total Cache Hits", locale (su_hits s)); ("Avg Hit Rate", percent_text (su_rate s))],
   table_part isLoading failed "Failed to load route group data" "No route group correlation data available."
     (map (fun g => ([cg_route_group g; locale (cg_total_requests g); locale (cg_cache_hits g); percent_text (cg_hit_rate g)], bar_width g))
        groups)).

(** A bar is never wider than its track. *)
Lemma bar_fits (g : CorrelationGroup) : num_gtb (bar_width g) (num_of_Z 100) = false.
Proof.
  unfold bar_width. set (x := num_mul _ _).
  assert (H : num_min x (num_of_Z 100) = if num_is_nan x then num_nan else if num_ltb (num_of_Z 100) x then num_of_Z 100 else x)
    by (by destruct x).
  rewrite H. change (num_gtb ?a ?b) with (num_ltb b a). destruct (num_is_nan x); [done|].
  by destruct (num_ltb (num_of_Z 100) x) eqn:E.
Qed.

(** The summary adds up the groups, and its rate is that of the totals: 0 without requests. *)
Lemma summary_totals (groups : list CorrelationGroup) :
  su_groups (summary groups) = List.length groups /\ su_requests (summary groups) = sum_by cg_total_requests groups /\
  su_hits (summary groups) = sum_by cg_cache_hits groups /\
  su_rate (summary groups) = if num_gtb (su_requests (summary groups)) num_zero
                             then num_div (su_hits (summary groups)) (su_requests (summary groups)) else num_zero.
Proof. by destruct groups. Qed.
End SemanticCorrelation.

(** ** router-performance-view.tsx *)

Module RouterPerformance.

Record FiltersState := mkPerfFilters { pf_from : string; pf_to : string }.

Section View.
(** The moment a datetime-local input names in the browser's zone, None for an invalid text; the
    text of a moment in the browser's locale; and the offset of the zone in minutes *)
Context (parse_local : string -> option Z) (locale_date : string -> string) (getTimezoneOffset : Z).

Definition toIsoString (value : string) : option string :=
  if String.eqb value "" then None else iso_string <$> parse_local value.

(** [.toISOString().slice(0, 16)] of a moment on the clock of the browser *)
Definition local_text (ms : Z) : string := str_first 16 (iso_string (ms - getTimezoneOffset * 60000)).
Definition initial (now : Z) : FiltersState := mkPerfFilters (local_text (now - 24 * 60 * 60 * 1000)) (local_text now).

Definition performance_params (f : FiltersState) : list (string * string) :=
  let given k o ps := match o with Some v => params_set k v ps | None => ps end in
  params_set "bucket" "hour" (given "to" (toIsoString (pf_to f)) (given "from" (toIsoString (pf_from f)) [])).
Definition performance_url (f : FiltersState) : string := with_query "/api/observability/router-performance" (performance_params f).
Definition fetchRouterPerformance (f : FiltersState) : M js := get_or_raise (performance_url f) "Failed to fetch router performance".

(** [value.toFixed(1)] with its unit, a dash for anything but a finite number *)
Definition formatLatency (v : option num) : string :=
  match v with Some n => if num_is_finite n then to_fixed 1 n ++ " ms" else "—" | None => "—" end.
Definition formatBucketLabel (v : string) : string :=
  if String.eqb v "" then "—" else match parse_local v with Some _ => locale_date v | None => v end.

(** The sum of both phases where one of them is known *)
Definition avg_router_only_ms (row : TimeseriesRow) : option num :=
  match ts_avg_router_pre_ms row, ts_avg_router_post_ms row with
  | None, None => None
  | pre, post => Some (num_add (default num_zero pre) (default num_zero post))
  end.
Definition lineData (timeseries : list TimeseriesRow) : list (TimeseriesRow * string * option num) :=
  map (fun e => (e, formatBucketLabel (ts_bucket_start e), avg_router_only_ms e)) timeseries.

Definition breakdown (source : js) (labels : list string) (keep : js -> bool) : list (string * js) :=
  List.filter (fun item => keep item.2) (map (fun label => (label, opt_get source label)) labels).
Definition routerBreakdownData (preBreakdown : js) : list (string * js) :=
  breakdown preBreakdown ["tenant_config"; "tool_routes"; "dynamic_routes"; "decision_ops"; "budget_pressure"; "semantic"; "model_resolution"]
    (fun v => negb (is_undefined v) && js_gt v (JNum num_zero)).
Definition toolRoutesData (toolBreakdown : js) : list (string * js) :=
  breakdown toolBreakdown ["embedding_model"; "embedding_generate"; "semantic_db"; "match_eval"] (fun v => negb (is_undefined v)).

Definition router_cards (summary : js) : list (string * string) :=
  let n k := opt_num (opt_get summary k) in
  let card title k := (title, formatLatency (n k)) in
  [card "Pre Avg" "avg_router_pre_ms"; card "Pre P50" "p50_router_pre_ms"; card "Pre P95" "p95_router_pre_ms";
   card "Post Avg" "avg_router_post_ms"; card "Post P50" "p50_router_post_ms"; card "Post P95" "p95_router_post_ms";
   ("Router Total Avg", formatLatency (match n "avg_router_pre_ms", n "avg_router_post_ms" with
                                       | Some pre, Some post => Some (num_add pre post)
                                       | _, _ => None
                                       end))].
Definition total_cards (summary : js) : list (string * string) :=
  let card title k := (title, formatLatency (opt_num (opt_get summary k))) in
  [card "Total Avg" "avg_total_latency_ms"; card "Total P50" "p50_total_latency_ms"; card "Total P95" "p95_total_latency_ms";
   card "LLM Avg" "avg_llm_latency_ms"; card "LLM P50" "p50_llm_latency_ms"; card "LLM P95" "p95_llm_latency_ms"].
Definition detail_cells (row : TimeseriesRow) : list string :=
  formatBucketLabel (ts_bucket_start row) :: num_to_string (default num_zero (ts_requests row)) ::
  map formatLatency [ts_avg_router_pre_ms row; ts_avg_llm_latency_ms row; ts_avg_router_post_ms row; ts_avg_total_latency_ms row;
                     ts_p95_router_pre_ms row; ts_p95_llm_latency_ms row; ts_p95_router_post_ms row].

Inductive CardsPane := CardsDenied | CardsError (message : string) | CardsSkeleton | Cards (router total : list (string * string)).
Record PerformanceView := mkPerf {
  pv_cards : CardsPane;
  pv_line : Part (list (TimeseriesRow * string * option num));
  pv_router : Part (list (string * js));
  pv_tools : Part (list (string * js));
  pv_detail : Part (list (list string));
  pv_canExport : bool;
}.

Definition isAccessDenied (e : exn) : bool :=
  match exn_status e with Some s => existsb (Z.eqb s) [401; 403]%Z | None => false end.

Definition RouterPerformanceView (isLoading : bool) (error : option exn) (summary breakdowns : js) (timeseries : list TimeseriesRow)
    : PerformanceView :=
  let part {A} (rows : list A) := table_part isLoading false "" "No data" rows in
  mkPerf
    (match error with
     | Some e => if isAccessDenied e then CardsDenied
                 else CardsError (if String.eqb (exn_message e) "" then "Unable to load router performance data." else exn_message e)
     | None => if isLoading then CardsSkeleton else Cards (router_cards summary) (total_cards summary)
     end)
    (part (lineData timeseries))
    (part (routerBreakdownData (js_or (opt_get breakdowns "pre_breakdown_avg_ms") (JObj []))))
    (part (toolRoutesData (js_or (opt_get breakdowns "tool_routes_breakdown_avg_ms") (JObj []))))
    (part (map detail_cells timeseries))
    (negb (Nat.eqb (List.length timeseries) 0)).

(** ** What is asked for and shown *)

(** The request carries the bounds that name a moment, each under its own name, and always the
    bucket; the handler reads from the address exactly what the page meant. *)
Theorem performance_request_read (f : FiltersState) (k : string) :
  params_get k (parse_params (params_to_string (performance_params f))) =
    if String.eqb k "bucket" then Some "hour"
    else if String.eqb k "to" then toIsoString (pf_to f)
    else if String.eqb k "from" then toIsoString (pf_from f)
    else None.
Proof.
  rewrite parse_params_to_string. unfold performance_params. rewrite params_get_set.
  destruct (String.eqb_spec k "bucket") as [->|]; [done|].
  destruct (toIsoString (pf_to f)) as [t|], (toIsoString (pf_from f)) as [u|]; rewrite ?params_get_set; cbn [params_get];
    destruct (String.eqb_spec k "to") as [->|]; try done; by destruct (String.eqb_spec k "from") as [->|].
Qed.

(** The chart of the router has, in the order of its labels, exactly the phases with a positive time. *)
Lemma breakdown_exact (pre : js) (label : string) (v : js) :
  In (label, v) (routerBreakdownData pre) <->
  In label ["tenant_config"; "tool_routes"; "dynamic_routes"; "decision_ops"; "budget_pressure"; "semantic"; "model_resolution"] /\
  v = opt_get pre label /\ js_gt v (JNum num_zero) = true.
Proof.
  unfold routerBreakdownData, breakdown. rewrite filter_In, in_map_iff. cbn [snd]. split.
  - intros [(l & E & Hl) Hk]. injection E as <- <-. apply andb_prop in Hk as [_ Hk]. auto.
  - intros (Hl & -> & Hg). split; [by exists label|]. rewrite Hg, andb_true_r. by destruct (opt_get pre label).
Qed.

(** An error of the query leaves charts and table saying that there is no data. *)
Theorem failure_reads_as_no_data (e : exn) :
  let view := RouterPerformanceView false (Some e) (JObj []) (JObj []) [] in
  pv_line view = PartEmpty "No data" /\ pv_router view = PartEmpty "No data" /\ pv_detail view = PartEmpty "No data".
Proof. by repeat split. Qed.
End View.
End RouterPerformance.

(** ** Answers without fields *)

(** An answer that is an empty object is read as zeros and empty tables by each semantic view. *)
Lemma empty_stats (locale : num -> string) (locale_date : string -> string) :
  let cache := SemanticCache.SemanticCacheView locale locale_date false false (SemanticCache.cache_stats (JObj [])) in
  let routing := SemanticRouting.SemanticRoutingView locale false false (SemanticRouting.routing_stats (JObj [])) in
  SemanticCache.cv_expiration cache = PartShown (locale num_zero, locale num_zero) /\
  SemanticCache.cv_prompts cache = PartEmpty "No cached prompts found." /\
  SemanticRouting.rv_noMatches routing = false /\ SemanticRouting.rv_routes routing = PartEmpty "No route groups found.".
Proof. by repeat split. Qed.
