(* ===== verification/FinopsPage.v ===== *)
(** * The FinOps page

    src/frontend/src/app/(app)/budgets/page.tsx: the functions that fetch and normalize what
    its views show, the paging loop of its dashboard, and the tables and key figures it
    computes.  Rows that are only shown are objects; rows the page computes with are
    records. *)

From S2P Require Import Prelude JsNumber JsText JsValue JsArray Json Effects.
From S2P Require Import GatewayClient Routes FinopsApi Csv UsageApi.
From Stdlib Require Import SpecFloat Sorting.Sorted.
Local Open Scope string_scope.

Inductive WindowHours := W24 | W168 | W720.

Definition window_hours (w : WindowHours) : Z :=
  match w with W24 => 24 | W168 => 168 | W720 => 720 end.
Definition window_text (w : WindowHours) : string := Z_to_string (window_hours w).

(** ** Small functions *)

Definition resolveProviderFromModel (modelName : string) (modelProviderMap : list (string * string))
    : string :=
  let normalized := str_lower (str_trim modelName) in
  if String.eqb normalized "" then "other"
  else match truthy_env (map_get normalized modelProviderMap) with
       | Some mapped => mapped
       | None =>
           let has p := str_includes p normalized in
           if (has "gpt" || has "openai" || has "o1" || has "o3")%bool then "openai"
           else if has "gemini" then "gemini"
           else if (has "claude" || has "anthropic")%bool then "anthropic"
           else if (has "grok" || has "xai")%bool then "xai"
           else if (has "llama" || has "meta")%bool then "meta"
           else if has "mistral" then "mistral"
           else "other"
       end.

(** A number that is there and finite *)
Definition finite_value (v : option num) : option num :=
  match v with Some n => if num_is_finite n then Some n else None | None => None end.

Definition formatSmallPercent (value : option num) : string :=
  match finite_value value with
  | None => "-"
  | Some v => if num_leb v num_zero then "0.0%"
              else if num_ltb v (number_of_string "0.01") then to_fixed 3 v ++ "%"
              else to_fixed 1 v ++ "%"
  end.

(** [s.replace(/0+$/, '').replace(/\.$/, '')] *)
Definition strip_dot (s : string) : string :=
  match str_rev s with
  | String "." r => str_rev r
  | _ => s
  end.

Definition formatSmallCurrency (value : num) : string :=
  if num_ltb value (number_of_string "0.01")
  then "$" ++ strip_dot (strip_trailing "0" (to_fixed 6 value))
  else "$" ++ to_fixed 2 value.

Definition getSuccessRateClass (successRate : option num) : string :=
  match finite_value successRate with
  | None => ""
  | Some r => let pct := num_mul r (num_of_Z 100) in
              if num_geb pct (num_of_Z 98) then "text-green-700"
              else if num_geb pct (num_of_Z 90) then "text-orange-700"
              else "text-red-700"
  end.

Definition formatAvgCostUsd (value : option num) : string :=
  match finite_value value with
  | None => "$0.000000"
  | Some v => if num_leb v num_zero then "$0.000000"
              else if num_ltb v (number_of_string "0.001") then "$" ++ to_fixed 6 v
              else if num_ltb v (number_of_string "0.01") then "$" ++ to_fixed 4 v
              else "$" ++ to_fixed 2 v
  end.

Definition formatLatencyMs (ms : js) : string :=
  let v := js_to_number ms in
  if (negb (num_is_finite v) || num_ltb v num_zero)%bool then "-"
  else if num_ltb v (num_of_Z 1000) then num_to_string (num_round v) ++ " ms"
  else to_fixed 1 (num_div v (num_of_Z 1000)) ++ " s".

(** ** Usage summaries and budget overview *)

(** An answer that is not ok: 401 and 403 through assertFinopsUnauthorized, the others with
    the error of the body or a message *)
Definition raise_failure {A} (resp : HttpResponse) (message : string) : M A :=
  _ ← assertFinopsUnauthorized resp;
  err ← try_catch (res_json resp) (fun _ => mret (JObj [("error", JStr message)]));
  error ← get err "error";
  throw (error_with_status (match error with JStr s => s | _ => message end) (res_status resp)).

Definition fetchUsageSummaries (month : string) : M js :=
  resp ← page_get ("/api/finops/usage-summaries?month=" ++ encodeURIComponent month);
  if negb (res_ok resp) then raise_failure resp "Failed to fetch usage summaries"
  else data ← res_json resp; d ← get data "data"; mret (js_or d (JArr [])).

Definition fetchBudgetOverview : M js :=
  resp ← page_get "/api/budgets/overview";
  if negb (res_ok resp) then raise_failure resp "Failed to fetch budget overview"
  else res_json resp.

Record OverviewRow := mkOverviewRow {
  ov_tenant_id : string;
  ov_current_spend : num;
  ov_budget_limit : num;
  ov_utilization_pct : option num;
  ov_status : string;
  ov_enforcement_mode : option string;
  ov_warn_pct : option num;
  ov_hard_pct : option num;
  ov_remaining_usd : option num;
}.

(** [a ?? b ?? c ?? ...] over the properties of a row *)
Fixpoint coalesce (r : js) (keys : list string) (d : js) : js :=
  match keys with
  | [] => d
  | k :: keys' => if nullish (opt_get r k) then coalesce r keys' d else opt_get r k
  end.

(** One row; None for a row without a tenant.  A null element is a TypeError. *)
Definition overviewRow (r : js) : M (option OverviewRow) :=
  _ ← get r "tenant_id";
  let tenantId := str_trim (js_to_string (coalesce r ["tenant_id"; "tenantId"] (JStr ""))) in
  if String.eqb tenantId "" then mret None
  else
    let currentSpend := js_to_number
      (coalesce r ["current_spend"; "current_spend_usd"; "spend_usd"; "spend"] (js_of_Z 0)) in
    let budgetLimit := js_to_number
      (coalesce r ["budget_limit"; "budget_usd"; "monthly_usd"; "limit_usd"] (js_of_Z 0)) in
    let utilizationPct :=
      match finite_value (opt_num (opt_get r "utilization_pct")) with
      | Some u => Some u
      | None => if num_gtb budgetLimit num_zero
                then Some (num_mul (num_div currentSpend budgetLimit) (num_of_Z 100)) else None
      end in
    let mode := coalesce r ["enforcement_mode"; "mode"] JUndef in
    mret (Some (mkOverviewRow tenantId currentSpend budgetLimit utilizationPct
      (js_to_string (coalesce r ["status"; "budget_status"] (JStr "not_configured")))
      (truthy_env (opt_text mode)) (opt_num (opt_get r "warn_pct")) (opt_num (opt_get r "hard_pct"))
      (opt_num (opt_get r "remaining_usd")))).

Definition overview_items (o : js) : list js :=
  match opt_get o "data" with
  | JArr l => l
  | _ => match opt_get o "tenants" with
         | JArr l => l
         | _ => js_array (opt_get o "rows")
         end
  end.

Definition normalizeBudgetOverviewPayload (raw : js) : M (list OverviewRow) :=
  if negb (is_object raw) then mret []
  else rows ← map_elems overviewRow (overview_items raw); mret (omap (fun r => r) rows).

(** ** Fetching pages *)

(** [if (v && v !== 'all') qs.set(k, v)], and the same of a text that is not blank *)
Definition set_filter (k : string) (v : option string) (qs : list (string * string))
    : list (string * string) :=
  match truthy_env v with
  | Some t => if String.eqb t "all" then qs else params_set k t qs
  | None => qs
  end.
Definition set_trimmed (k : string) (v : option string) (qs : list (string * string))
    : list (string * string) :=
  match v with
  | Some t => if String.eqb (str_trim t) "" then qs else params_set k (str_trim t) qs
  | None => qs
  end.
Definition set_window (limit offset : option Z) (qs : list (string * string)) : list (string * string) :=
  params_set "offset" (Z_to_string (default 0%Z offset))
    (params_set "limit" (Z_to_string (default 50%Z limit)) qs).

Record PageParams := mkPageParams {
  p_tenant : option string;
  p_model : option string;
  p_provider : option string;
  p_status : option string;
  p_subject : option string;
  p_limit : option Z;
  p_offset : option Z;
}.

Definition js_of_num_opt (n : option num) : js := match n with Some x => JNum x | None => JNull end.
Definition js_of_text_opt (s : option string) : js := match s with Some x => JStr x | None => JNull end.

(** The pagination of an answer, with what was asked for where it is silent *)
Definition pagination_of (p : js) (limit offset : option Z) (returned total : js) : js :=
  let num k d := JNum (js_to_number (js_coalesce (opt_get p k) d)) in
  JObj [("limit", num "limit" (js_of_Z (default 50%Z limit)));
        ("offset", num "offset" (js_of_Z (default 0%Z offset)));
        ("returned", num "returned" returned); ("total", num "total" total)].
Definition empty_pagination (limit offset : option Z) : js :=
  JObj [("limit", js_of_Z (default 50%Z limit)); ("offset", js_of_Z (default 0%Z offset));
        ("returned", js_of_Z 0); ("total", js_of_Z 0)].

(** [typeof v === 'string' ? v : d] *)
Definition text_else (v : js) (d : string) : js := match v with JStr _ => v | _ => JStr d end.
Definition js_length {A} (l : list A) : js := JNum (num_length l).

(** A GET whose denials are raised and whose other failures are [fallback] of the answer *)
Definition get_or_fallback {A} (url : string) (fallback : HttpResponse -> M A) (read : js -> M A) : M A :=
  resp ← page_get url;
  if negb (res_ok resp) then _ ← assertFinopsUnauthorized resp; fallback resp
  else raw ← res_json resp; read raw.

(** [raw?.data ?? raw] *)
Definition payload_of (raw : js) : js := js_coalesce (opt_get raw "data") raw.

(** *** Anomalies *)

Definition fetchAnomalyExplain (windowDays : Z) : M js :=
  get_or_fallback ("/api/finops/anomalies/explain?" ++ params_to_string [("window_days", Z_to_string windowDays)])
    (fun _ => mret (JObj [("data", JArr []); ("object", JStr "anomaly_explain");
                          ("window_days", js_of_Z windowDays)]))
    (fun raw => mret (JObj [("data", JArr (js_array (opt_get raw "data")));
                            ("object", text_else (opt_get raw "object") "anomaly_explain");
                            ("window_days", JNum (js_to_number (js_coalesce (opt_get raw "window_days")
                                                                  (js_of_Z windowDays))))])).

Definition anomaly_filters (w : WindowHours) (p : PageParams) : list (string * string) :=
  set_filter "provider" (p_provider p) (set_filter "model" (p_model p)
    (set_filter "tenant_id" (p_tenant p) [("window_hours", window_text w)])).

Definition fetchAnomalies (w : WindowHours) (p : PageParams) : M js :=
  get_or_fallback
    ("/api/finops/anomalies?"
       ++ params_to_string (set_window (p_limit p) (p_offset p)
            (set_filter "status" (p_status p) (anomaly_filters w p))))
    (fun _ => mret (JObj [("data", JArr []); ("object", JStr "list");
                          ("pagination", empty_pagination (p_limit p) (p_offset p))]))
    (fun raw =>
       let payload := payload_of raw in
       let data := js_array (opt_get payload "data") in
       mret (JObj [("data", JArr data); ("object", text_else (opt_get payload "object") "list");
                   ("pagination", pagination_of (opt_get payload "pagination") (p_limit p) (p_offset p)
                                    (js_length data) (js_length data))])).

Definition fetchAnomalyStats (w : WindowHours) (p : PageParams) : M js :=
  let summary s := JObj (map (fun k => (k, number_of (opt_get s k)))
    ["active_anomalies"; "cost_spike_24h_usd"; "affected_tenants"; "affected_models"]) in
  get_or_fallback ("/api/finops/anomalies/stats?" ++ params_to_string (anomaly_filters w p))
    (fun _ => mret (JObj [("summary", summary JUndef); ("timeline", JArr []); ("top_tenants", JArr []);
                          ("deviation_histogram", JArr []); ("object", JStr "anomaly_stats");
                          ("window_hours", js_of_Z (window_hours w))]))
    (fun raw =>
       let payload := payload_of raw in
       let list k := JArr (js_array (opt_get payload k)) in
       mret (JObj [("summary", summary (opt_get payload "summary")); ("timeline", list "timeline");
                   ("top_tenants", list "top_tenants"); ("deviation_histogram", list "deviation_histogram");
                   ("object", text_else (opt_get payload "object") "anomaly_stats");
                   ("window_hours", JNum (js_to_number (js_coalesce (opt_get payload "window_hours")
                                                          (js_of_Z (window_hours w)))))])).

(** *** Usage of API keys and JWT subjects *)

Definition null_num (v : js) : js := js_of_num_opt (opt_num v).
Definition null_text (v : js) : js := js_of_text_opt (opt_text v).
(** [row.last_seen == null ? (row.last_seen_at == null ? null : ...) : String(row.last_seen)] *)
Definition either_text (a b : js) : js := if nullish a then null_text b else null_text a.

Definition api_key_usage_row (row : js) : M js :=
  id ← get row "api_key_id";
  let f := opt_get row in
  mret (JObj [("api_key_id", text_of id); ("api_key_name", text_of (f "api_key_name"));
    ("tenant_id", text_of (f "tenant_id")); ("requests", number_of (f "requests"));
    ("total_cost_usd", number_of (js_coalesce (f "spend") (f "total_cost_usd")));
    ("avg_cost_per_request_effective", null_num (f "avg_cost_per_request_effective"));
    ("success_rate", null_num (f "success_rate")); ("avg_latency_ms", null_num (f "avg_latency_ms"));
    ("top_model", null_text (f "top_model")); ("top_provider", null_text (f "top_provider"));
    ("last_seen_at", either_text (f "last_seen") (f "last_seen_at"))]).

Definition jwt_sub_usage_row (row : js) : M js :=
  sub ← get row "jwt_sub";
  let f := opt_get row in
  mret (JObj [("jwt_sub", text_of sub); ("tenant_id", text_of (f "tenant_id"));
    ("requests", number_of (f "requests")); ("prompt_tokens", number_of (f "prompt_tokens"));
    ("completion_tokens", number_of (f "completion_tokens"));
    ("total_tokens", number_of (f "total_tokens"));
    ("total_cost_usd", number_of (js_coalesce (js_coalesce (f "total_cost_usd") (f "cost_usd")) (f "spend")));
    ("avg_cost_per_request_effective", null_num (f "avg_cost_per_request_effective"));
    ("first_seen", null_text (f "first_seen")); ("last_seen", null_text (f "last_seen"));
    ("success_rate", null_num (f "success_rate")); ("avg_latency_ms", null_num (f "avg_latency_ms"));
    ("top_model", null_text (f "top_model")); ("top_provider", null_text (f "top_provider"))]).

Definition field_num (k : string) (row : js) : num := js_to_number (opt_get row k).

(** The summary of a usage list: [active], [highest] and [most] are the names of its
    properties, which differ between API keys and subjects *)
Definition usage_summary (active highest most : string) (summaryRaw : js) (data : list js) : js :=
  if negb (truthy summaryRaw) then JUndef
  else
    let f := opt_get summaryRaw in
    let num v d := JNum (js_to_number (js_coalesce v (JNum d))) in
    JObj [(active, num (f active) (num_length data));
          ("total_requests", num (f "total_requests") (sum_by (field_num "requests") data));
          ("total_spend", num (f "total_spend") (sum_by (field_num "total_cost_usd") data));
          ("avg_success_rate", null_num (f "avg_success_rate"));
          (highest, null_text (f highest)); (most, null_text (f most))].

(** The answer of both usage lists *)
Definition usage_list (active highest most : string) (row : js -> M js) (p : PageParams) (raw : js) : M js :=
  let payload := payload_of raw in
  data ← map_elems row (js_array (opt_get payload "data"));
  let summaryRaw := opt_get payload "summary" in
  mret (JObj [("data", JArr data); ("summary", usage_summary active highest most summaryRaw data);
    ("object", text_else (opt_get payload "object") "list");
    ("pagination", pagination_of (opt_get payload "pagination") (p_limit p) (p_offset p) (js_length data)
                     (js_coalesce (opt_get summaryRaw active) (js_length data)))]).

Definition empty_usage_list (p : PageParams) : js :=
  JObj [("data", JArr []); ("object", JStr "list"); ("pagination", empty_pagination (p_limit p) (p_offset p))].

Definition fetchApiKeysUsageList (w : WindowHours) (p : PageParams) : M js :=
  let qs := set_window (p_limit p) (p_offset p)
    (set_trimmed "api_key_name" (p_subject p) (set_filter "status" (p_status p)
      (set_filter "model" (p_model p) (set_filter "provider" (p_provider p)
        (set_filter "tenant_id" (p_tenant p) [("window_hours", window_text w)]))))) in
  get_or_fallback ("/api/finops/api-keys/usage?" ++ params_to_string qs)
    (fun _ => mret (empty_usage_list p))
    (usage_list "total_active_api_keys" "highest_spend_key" "most_active_key" api_key_usage_row p).

(** The instants from the start of the window to now *)
Definition window_params (w : WindowHours) (now : Z) : list (string * string) :=
  [("from", iso_string (now - window_hours w * 60 * 60 * 1000)); ("to", iso_string now)].

Definition fetchJwtSubsUsage (w : WindowHours) (p : PageParams) : M js :=
  now ← date_now;
  let qs := set_window (p_limit p) (p_offset p)
    (params_set "sort_order" "desc" (params_set "sort_by" "cost_usd"
      (set_trimmed "jwt_sub" (p_subject p) (set_filter "status" (p_status p)
        (set_filter "model" (p_model p) (set_filter "provider" (p_provider p)
          (set_filter "tenant_id" (p_tenant p) (window_params w now)))))))) in
  get_or_fallback ("/api/finops/jwt-subs/usage?" ++ params_to_string qs)
    (fun _ => mret (empty_usage_list p))
    (usage_list "total_active_jwt_subs" "highest_spend_sub" "most_active_sub" jwt_sub_usage_row p).

(** None is null. *)
Definition fetchJwtSubUsageDetail (jwtSub : string) (w : WindowHours) (tenant : option string)
    (groupBy : string) : M (option (js * list js)) :=
  now ← date_now;
  let qs := params_set "group_by" groupBy (set_filter "tenant_id" tenant (window_params w now)) in
  get_or_fallback ("/api/finops/jwt-subs/" ++ encodeURIComponent jwtSub ++ "/usage?" ++ params_to_string qs)
    (fun _ => mret None)
    (fun raw => let payload := payload_of raw in
                mret (Some (opt_get payload "summary", js_array (opt_get payload "breakdown")))).

(** A row of a breakdown, called [name] *)
Definition breakdown_row (name missing : string) (row : js) : M js :=
  g ← get row "group";
  let f := opt_get row in
  mret (JObj [(name, JStr (js_to_string (js_coalesce (js_coalesce g (f name)) (JStr missing))));
    ("requests", number_of (f "requests"));
    ((if String.eqb name "bucket" then "total_cost_usd" else "cost_usd"),
     number_of (js_coalesce (f "total_cost_usd") (f "cost_usd")));
    ("total_tokens", number_of (f "total_tokens"))]).

Definition breakdown_of (d : option (js * list js)) : list js :=
  match d with Some (_, l) => l | None => [] end.

Definition fetchJwtSubDrilldown (jwtSub : string) (w : WindowHours) (tenant : option string) : M js :=
  details ← promise_all (fetchJwtSubUsageDetail jwtSub w tenant) ["model"; "provider"; "day"];
  match details with
  | [Some (summary0, byModel); byProvider; byDay] =>
      let summary := opt_get (js_coalesce summary0 (JObj [])) in
      models ← map_elems (breakdown_row "model" "-") byModel;
      providers ← map_elems (breakdown_row "provider" "-") (breakdown_of byProvider);
      days ← map_elems (breakdown_row "bucket" "") (breakdown_of byDay);
      mret (JObj [("jwt_sub", JStr jwtSub);
        ("summary", JObj [("requests", number_of (summary "requests"));
           ("total_cost_usd", number_of (js_coalesce (js_coalesce (summary "total_cost_usd")
                                           (summary "total_spend_usd")) (summary "spend")));
           ("prompt_tokens", number_of (summary "prompt_tokens"));
           ("completion_tokens", number_of (summary "completion_tokens"));
           ("total_tokens", number_of (summary "total_tokens"))]);
        ("requests_by_model", JArr models); ("requests_by_provider", JArr providers);
        ("traffic_over_time", JArr days)])
  | _ => mret JNull
  end.

(** *** The drilldown of one API key *)

Definition drilldown_url (apiKeyId : string) (w : WindowHours) : string :=
  "/api/finops/api-keys/" ++ encodeURIComponent apiKeyId ++ "/usage?"
    ++ params_to_string [("window_hours", window_text w); ("limit", "50"); ("offset", "0")].

Definition count_row (name missing : string) (cost : bool) (row : js) : M js :=
  n ← get row name;
  let f := opt_get row in
  mret (JObj ([(name, JStr (str_of n missing)); ("requests", number_of (f "requests"))]
    ++ (if cost then [("cost_usd", number_of (js_coalesce (f "cost_usd") (f "spend")))] else []))%list).

Definition traffic_row (row : js) : M js :=
  b ← get row "bucket";
  mret (JObj [("bucket", text_of b); ("requests", number_of (opt_get row "requests"));
              ("errors", number_of (opt_get row "errors"))]).

Definition recent_row (row : js) : M js :=
  id ← get row "request_id";
  let f := opt_get row in
  mret (JObj [("request_id", text_of id); ("timestamp", text_of (f "timestamp"));
    ("model", JStr (str_of (f "model") "-")); ("provider", JStr (str_of (f "provider") "-"));
    ("latency_ms", number_of (f "latency_ms")); ("status", JStr (str_of (f "status") "-"));
    ("fallback_used", JBool (truthy (f "fallback_used")));
    ("cost_usd", number_of (js_coalesce (f "cost_usd") (f "spend")));
    ("error_type", text_of (f "error_type"))]).

(** The first of four places the gateway may put the percentiles of the latency *)
Definition latency_source (payload : js) : js :=
  let summary := opt_get payload "summary" in
  js_coalesce (js_coalesce (js_coalesce (opt_get payload "latency_stats") (opt_get summary "latency_stats"))
    (opt_get payload "latency_percentiles")) (opt_get summary "latency_percentiles").

Definition fetchApiKeyUsageDrilldown (apiKeyId : string) (w : WindowHours) : M js :=
  get_or_fallback (drilldown_url apiKeyId w) (fun _ => mret JNull) (fun raw =>
    let payload := payload_of raw in
    let list k := js_array (opt_get payload k) in
    let s := opt_get (opt_get payload "summary") in
    let lat := opt_get (latency_source payload) in
    models ← map_elems (count_row "model" "-" true) (list "requests_by_model");
    providers ← map_elems (count_row "provider" "-" false) (list "requests_by_provider");
    traffic ← map_elems traffic_row (list "traffic_over_time");
    recent ← map_elems recent_row (list "recent_requests");
    mret (JObj [("api_key_id", JStr (str_of (opt_get payload "api_key_id") apiKeyId));
      ("api_key_name", JStr (str_of (opt_get payload "api_key_name") "-"));
      ("tenant_id", JStr (str_of (opt_get payload "tenant_id") "-"));
      ("summary", JObj [("requests", number_of (s "requests"));
         ("total_cost_usd", number_of (js_coalesce (s "total_cost_usd") (s "spend")));
         ("avg_cost_per_request_effective", null_num (s "avg_cost_per_request_effective"));
         ("success_rate", null_num (s "success_rate")); ("avg_latency_ms", null_num (s "avg_latency_ms"));
         ("top_model", null_text (s "top_model")); ("top_provider", null_text (s "top_provider"));
         ("last_seen_at", either_text (s "last_seen_at") (s "last_seen"))]);
      ("requests_by_model", JArr models); ("requests_by_provider", JArr providers);
      ("traffic_over_time", JArr traffic); ("recent_requests", JArr recent);
      ("latency_percentiles", JObj
         [("p50", number_of (js_coalesce (lat "p50") (lat "p50_ms")));
          ("p95", number_of (js_coalesce (lat "p95") (lat "p95_ms")));
          ("max", number_of (js_coalesce (js_coalesce (lat "max") (lat "p100")) (lat "max_ms")))])])).

(** *** Raw usage *)

Section RawUsage.
(** [new Date(text).getTime()] in the browser's time zone; None is an invalid date. *)
Context (parse_date : string -> option Z).

(** [v ? new Date(v).toISOString() : '']: a RangeError on an invalid date *)
Definition to_iso (v : option string) : M string :=
  match truthy_env v with
  | None => mret ""
  | Some t => match parse_date t with
              | Some ms => mret (iso_string ms)
              | None => throw (JsError "Invalid time value")
              end
  end.

Definition raw_row (names : list string) (row : js) : M js :=
  t ← get row "timestamp";
  let f := opt_get row in
  mret (JObj ([("timestamp", text_of t)] ++ map (fun k => (k, text_of (f k))) names
    ++ map (fun k => (k, number_of (f k)))
         ["latency_ms"; "cost_usd"; "prompt_tokens"; "cached_tokens"; "completion_tokens"; "total_tokens"])%list).

(** The answer of both raw lists; [kind] is the name of the list. *)
Definition raw_failure (kind message : string) (p : PageParams) (resp : HttpResponse) : M js :=
  err ← try_catch (res_json resp) (fun _ => mret (JObj [("error", JStr message)]));
  let unavailable := ((res_status resp =? 404)%Z || (res_status resp =? 502)%Z)%bool in
  mret (JObj [("data", JArr []); ("object", JStr kind);
    ("pagination", empty_pagination (p_limit p) (p_offset p));
    ("endpoint_available", JBool (negb unavailable));
    ("error_message", JStr (js_to_string (js_coalesce (opt_get err "error") (JStr message))))]).

Definition raw_list (kind : string) (names : list string) (p : PageParams) (raw : js) : M js :=
  let payload := payload_of raw in
  let rows := js_array (opt_get payload "data") in
  data ← map_elems (raw_row names) rows;
  mret (JObj [("data", JArr data); ("object", text_else (opt_get payload "object") kind);
    ("pagination", pagination_of (opt_get payload "pagination") (p_limit p) (p_offset p)
                     (js_length rows) (js_length rows));
    ("endpoint_available", JBool true)]).

(** [if (iso) qs.set(k, iso)] *)
Definition set_iso (k iso : string) (qs : list (string * string)) : list (string * string) :=
  if String.eqb iso "" then qs else params_set k iso qs.

Definition raw_query (fromIso toIso subject_key : string) (p : PageParams) : string :=
  params_to_string (set_window (p_limit p) (p_offset p)
    (set_filter "status" (p_status p) (set_filter "provider" (p_provider p)
      (set_filter "model" (p_model p) (set_filter subject_key (p_subject p)
        (set_filter "tenant_id" (p_tenant p) (set_iso "to" toIso (set_iso "from" fromIso [])))))))).

Definition fetchApiKeyRawUsage (from to : option string) (p : PageParams) : M js :=
  fromIso ← to_iso from;
  toIso ← to_iso to;
  get_or_fallback ("/api/finops/api-keys/requests?" ++ raw_query fromIso toIso "api_key_name" p)
    (raw_failure "api_key_raw_usage" "Failed to fetch API key raw usage" p)
    (raw_list "api_key_raw_usage"
       ["tenant_id"; "api_key_name"; "api_key_id"; "request_id"; "model"; "provider"; "status"] p).

Definition fetchJwtSubRawUsage (from to : option string) (p : PageParams) : M js :=
  fromIso ← to_iso from;
  toIso ← to_iso to;
  get_or_fallback ("/api/finops/jwt-subs/requests?" ++ raw_query fromIso toIso "jwt_sub" p)
    (raw_failure "jwt_sub_raw_usage" "Failed to fetch JWT sub raw usage" p)
    (raw_list "jwt_sub_raw_usage"
       ["tenant_id"; "jwt_sub"; "request_id"; "model"; "provider"; "status"] p).
End RawUsage.

(** *** Monetization *)

Record MonetizationRow := mkMonetizationRow {
  mz_api_key_id : string;
  mz_api_key_name : string;
  mz_tenant_id : string;
  mz_requests : num;
  mz_spend : num;
  mz_avg_cost_per_request_effective : option num;
  mz_avg_price_per_request : option num;
  mz_total_price : option num;
  mz_margin : option num;
  mz_margin_pct : option num;
  mz_avg_latency_ms : option num;
  mz_success_rate : option num;
  mz_top_model : option string;
  mz_last_seen : option string;
}.

(** What a row of the gateway's list is on the page *)
Definition monetization_of (row : js) : MonetizationRow :=
  let f := opt_get row in
  mkMonetizationRow (str_of (f "api_key_id") "") (str_of (f "api_key_name") "") (str_of (f "tenant_id") "")
    (num_of (f "requests") num_zero) (num_of (js_coalesce (f "spend") (f "total_cost_usd")) num_zero)
    (opt_num (f "avg_cost_per_request_effective")) (opt_num (f "avg_price_per_request"))
    (opt_num (f "total_price")) (opt_num (f "margin")) (opt_num (f "margin_pct"))
    (opt_num (f "avg_latency_ms")) (opt_num (f "success_rate")) (opt_text (f "top_model"))
    (if nullish (f "last_seen") then opt_text (f "last_seen_at") else opt_text (f "last_seen")).

Definition monetizationRow (row : js) : M MonetizationRow :=
  _ ← get row "api_key_id"; mret (monetization_of row).

Definition monetization_url (w : WindowHours) (limit offset : option Z) : string :=
  "/api/finops/api-keys/usage?"
    ++ params_to_string (set_window limit offset [("window_hours", window_text w)]).

Definition fetchApiKeysMonetization (w : WindowHours) (limit offset : option Z)
    : M (option (list MonetizationRow * js)) :=
  get_or_fallback (monetization_url w limit offset) (fun _ => mret None) (fun raw =>
    let payload := payload_of raw in
    let rows := js_array (opt_get payload "data") in
    data ← map_elems monetizationRow rows;
    mret (Some (data, pagination_of (opt_get payload "pagination") limit offset
                        (js_length rows) (js_length rows)))).

Record MonetizedModel := mkMonetizedModel {
  mm_model : string;
  mm_requests : num;
  mm_spend : num;
  mm_effective_spend : num;
  mm_prices : list (option num);
}.

(** The prices are avg_cost_per_request_effective, avg_price_per_request, total_price, margin
    and margin_pct. *)
Definition monetizedModel (row : js) : M MonetizedModel :=
  s ← get row "spend";
  let f := opt_get row in
  let tokenSpend := num_of (js_coalesce s (f "cost_usd")) num_zero in
  let effective_spend := default tokenSpend (finite_value (opt_num (f "effective_spend"))) in
  mret (mkMonetizedModel (str_of (f "model") "-") (num_of (f "requests") num_zero) tokenSpend effective_spend
    (map (fun k => opt_num (f k))
       ["avg_cost_per_request_effective"; "avg_price_per_request"; "total_price"; "margin"; "margin_pct"])).

Definition monetized_request (row : js) : M js :=
  id ← get row "request_id";
  let f := opt_get row in
  mret (JObj [("request_id", text_of id); ("timestamp", text_of (f "timestamp"));
    ("model", JStr (str_of (f "model") "-")); ("provider", JStr (str_of (f "provider") "-"));
    ("status", JStr (str_of (f "status") "-")); ("latency_ms", null_num (f "latency_ms"));
    ("cost_usd", number_of (js_coalesce (f "cost_usd") (f "spend")))]).

Record MonetizationDetail := mkMonetizationDetail {
  md_api_key_id : string;
  md_api_key_name : string;
  md_tenant_id : string;
  md_summary : js;
  md_requests_by_model : list MonetizedModel;
  md_recent_requests : list js;
}.

Definition monetization_summary (s : string -> js) : js :=
  JObj ([("requests", number_of (s "requests"));
         ("spend", number_of (js_coalesce (s "spend") (s "total_cost_usd")))]
    ++ map (fun k => (k, null_num (s k)))
         ["avg_cost_per_request_effective"; "avg_price_per_request"; "total_price"; "margin"; "margin_pct";
          "avg_latency_ms"; "success_rate"]
    ++ [("last_seen", either_text (s "last_seen") (s "last_seen_at"));
        ("top_model", null_text (s "top_model")); ("top_provider", null_text (s "top_provider"))])%list.

Definition fetchApiKeyMonetizationDrilldown (apiKeyId : string) (w : WindowHours)
    : M (option MonetizationDetail) :=
  get_or_fallback (drilldown_url apiKeyId w) (fun _ => mret None) (fun raw =>
    let payload := payload_of raw in
    models ← map_elems monetizedModel (js_array (opt_get payload "requests_by_model"));
    recent ← map_elems monetized_request (js_array (opt_get payload "recent_requests"));
    mret (Some (mkMonetizationDetail (str_of (opt_get payload "api_key_id") apiKeyId)
      (str_of (opt_get payload "api_key_name") "-") (str_of (opt_get payload "tenant_id") "-")
      (monetization_summary (opt_get (opt_get payload "summary"))) models recent))).

Definition jwt_monetization_row (row : js) : M js :=
  sub ← get row "jwt_sub";
  let f := opt_get row in
  mret (JObj ([("jwt_sub", text_of sub); ("tenant_id", text_of (f "tenant_id"));
    ("requests", number_of (f "requests")); ("total_tokens", number_of (f "total_tokens"));
    ("total_cost_usd", number_of (js_coalesce (js_coalesce (f "total_cost_usd") (f "cost_usd")) (f "spend")))]
    ++ map (fun k => (k, null_num (f k)))
         ["avg_cost_per_request_effective"; "avg_price_per_request"; "total_price"; "margin"; "margin_pct"]
    ++ [("first_seen", null_text (f "first_seen")); ("last_seen", null_text (f "last_seen"))])%list).

Definition fetchJwtMonetization (w : WindowHours) (limit offset : option Z) : M js :=
  get_or_fallback
    ("/api/finops/jwt-subs/usage?" ++ params_to_string (set_window limit offset [("window_hours", window_text w)]))
    (fun _ => mret JNull)
    (fun raw =>
       let payload := payload_of raw in
       let rows := js_array (opt_get payload "data") in
       data ← map_elems jwt_monetization_row rows;
       mret (JObj [("data", JArr data);
         ("pagination", pagination_of (opt_get payload "pagination") limit offset
                          (js_length rows) (js_length rows))])).

(** ** The dashboard *)

(** The loop that collects all API keys.  It has no bound: [fuel] pages are taken, and None
    says that the loop has not ended by then. *)
Fixpoint dashboard_loop (fuel : nat) (w : WindowHours) (offset : Z) : M (option (list MonetizationRow)) :=
  match fuel with
  | O => mret None
  | S fuel' =>
      page ← fetchApiKeysMonetization w (Some 200%Z) (Some offset);
      match page with
      | None | Some ([], _) => mret (Some [])
      | Some (data, _) =>
          if Nat.ltb (List.length data) 200 then mret (Some data)
          else rest ← dashboard_loop fuel' w (offset + 200);
               mret (app data <$> rest)
      end
  end.

Definition model_key (row : MonetizedModel) : option string :=
  truthy_env (Some (str_lower (str_trim (mm_model row)))).

(** [existing?.x || 0] of a number *)
Definition or_zero (n : num) : num := if num_truthy n then n else num_zero.

Definition add_model (existing : option (string * num * num)) (row : MonetizedModel) : string * num * num :=
  match existing with
  | Some (model, requests, spend) =>
      ((if String.eqb model "" then mm_model row else model), num_add (or_zero requests) (mm_requests row),
       num_add (or_zero spend) (mm_effective_spend row))
  | None => (mm_model row, num_add num_zero (mm_requests row), num_add num_zero (mm_effective_spend row))
  end.

Definition byModel (drilldowns : list (option MonetizationDetail)) : list (string * (string * num * num)) :=
  group_by model_key add_model (List.concat (map md_requests_by_model (omap (fun d => d) drilldowns))).

(** The query of the dashboard: a drilldown that fails counts as none. *)
Definition dashboardModelAggregation (fuel : nat) (w : WindowHours) : M (option (list (string * num * num))) :=
  allKeys ← dashboard_loop fuel w 0;
  match allKeys with
  | None => mret None
  | Some [] => mret (Some [])
  | Some keys =>
      drilldowns ← promise_all
        (fun row => try_catch (fetchApiKeyMonetizationDrilldown (mz_api_key_id row) w) (fun _ => mret None))
        keys;
      mret (Some (map snd (byModel drilldowns)))
  end.

(** The rows of the model table, with provider and type from the catalogue *)
Definition dashboardModelRows (rows : list (string * num * num)) (allModels : list (string * string * string))
    : list ModelRow :=
  let metaMap := js_map (map (fun m : string * string * string => let '(id, provider, type) := m in
    (str_lower (str_trim id), (provider, if String.eqb type "" then "llm" else type))) allModels) in
  map (fun r : string * num * num => let '(model, requests, spend) := r in
    let meta := map_get (str_lower (str_trim model)) metaMap in
    mkModelRow model (fst <$> meta) (snd <$> meta) requests spend (avg_cost requests spend)) rows.

(** ** Budgets, key figures and analytics *)

(** The tenants the statistics batch may not see are left out of every table. *)
Definition visible {A} (tenant : A -> string) (forbidden : list string) (l : list A) : list A :=
  List.filter (fun x => negb (set_has (tenant x) forbidden)) l.

(** tenantIdsForRequestStats: the tenants of the usage and of the budgets, once, sorted *)
Definition tenantIdsForRequestStats (usage budgets : list string) : list string :=
  js_sort by_code (fold_left set_add budgets (js_set usage)).

Definition configuredBudgets (budgetsVisible : list TenantBudget) : list TenantBudget :=
  List.filter (fun b => negb (String.eqb (tb_status b) "not_configured")) budgetsVisible.

Definition with_status (s : string) (l : list TenantBudget) : list TenantBudget :=
  List.filter (fun b => String.eqb (tb_status b) s) l.

Definition totalRemaining (l : list TenantBudget) : num :=
  fold_left (fun sum b => num_add sum
    (num_sub (effectiveLimit b) (default (tb_current_spend_usd b) (tb_effective_spend_usd b)))) l num_zero.

Definition activeOverrides (budgetsVisible : list TenantBudget) : nat :=
  List.length (List.filter (fun b => tb_enforcement_paused b || bool_decide (is_Some (tb_override_limit_usd b)))%bool
                      budgetsVisible).

Definition projectedOverruns (windowHours : num) (configured : list TenantBudget) : nat :=
  List.length (List.filter (fun b => num_geb (projected_spend windowHours (tb_current_spend_usd b))
                                        (effectiveLimit b)) configured).

Record Kpis := mkKpis {
  k_totalSpendMonth : num;
  k_totalBudgetUsd : num;
  k_utilizationPct : num;
  k_tenantsAtRisk : nat;
  k_tenantsOver : nat;
  k_spendByTenantRows : list (string * num);
  k_riskRows : list RiskRow;
}.

(** [b > 0 ? (a / b) * 100 : 0] *)
Definition pct_of (a b : num) : num :=
  if num_gtb b num_zero then num_mul (num_div a b) (num_of_Z 100) else num_zero.

Definition budget_risk (b : TenantBudget) : RiskRow :=
  let budgetUsd := num_add (tb_current_spend_usd b) (tb_remaining_usd b) in
  mkRiskRow (tb_tenant_id b) (tb_current_spend_usd b) budgetUsd (pct_of (tb_current_spend_usd b) budgetUsd)
    (tb_status b) (tb_enforcement_mode b) (tb_warn_pct b) (tb_hard_pct b).

Definition overview_risk (r : OverviewRow) : RiskRow :=
  let budgetUsd :=
    if num_gtb (ov_budget_limit r) num_zero then ov_budget_limit r
    else match ov_remaining_usd r with
         | Some remaining => num_add (ov_current_spend r) remaining
         | None => ov_current_spend r
         end in
  mkRiskRow (ov_tenant_id r) (ov_current_spend r) budgetUsd
    (default (pct_of (ov_current_spend r) budgetUsd) (finite_value (ov_utilization_pct r)))
    (ov_status r) (ov_enforcement_mode r) (ov_warn_pct r) (ov_hard_pct r).

(** finopsDashboardKpis: from the overview when it was fetched and has rows, else from the
    budgets *)
Definition finopsDashboardKpis (isSuccess : bool) (overview : list OverviewRow)
    (budgetsVisible : list TenantBudget) : Kpis :=
  if negb (isSuccess && negb (Nat.eqb (List.length overview) 0))%bool then
    let configured := configuredBudgets budgetsVisible in
    let totalSpendMonth := sum_by tb_current_spend_usd budgetsVisible in
    let totalBudgetUsd := sum_by effectiveLimit configured in
    mkKpis totalSpendMonth totalBudgetUsd (pct_of totalSpendMonth totalBudgetUsd)
      (List.length (with_status "warning" configured)) (List.length (with_status "exceeded" configured))
      (map (fun b => (tb_tenant_id b, tb_current_spend_usd b)) budgetsVisible)
      (map budget_risk configured)
  else
    let totalSpendMonth := sum_by ov_current_spend overview in
    let totalBudgetUsd := sum_by (fun r => num_max num_zero (ov_budget_limit r)) overview in
    let count s := List.length (List.filter (fun r => String.eqb (str_lower (ov_status r)) s) overview) in
    mkKpis totalSpendMonth totalBudgetUsd (pct_of totalSpendMonth totalBudgetUsd)
      (count "warning") (count "exceeded")
      (map (fun r => (ov_tenant_id r, ov_current_spend r)) overview) (map overview_risk overview).

(** The provider of each model of the performance list: the first one named *)
Definition modelProviderMap (modelPerf : list (string * string)) : list (string * string) :=
  fold_left (fun map mp =>
    let model := str_lower (str_trim mp.1) in
    let provider := str_trim mp.2 in
    if (String.eqb model "" || String.eqb provider "" || bool_decide (is_Some (map_get model map)))%bool
    then map else map_set model provider map) modelPerf [].

Record UsageSummary := mkUsageSummary {
  us_tenant_id : string;
  us_total_cost_usd : num;
  us_total_requests : num;
  us_models : list (string * num * num);
}.

Record TenantAnalytics := mkTenantAnalytics {
  ta_row : AnalyticsRow;
  ta_models : list (string * num * num);
}.

Record AnalyticsFilters := mkAnalyticsFilters {
  af_tenant : string;
  af_status : string;
  af_anomaly : string;
  af_model : string;
  af_provider : string;
}.

Definition analytics_row (usage : option UsageSummary) (budget : option TenantBudget)
    (stats : option TenantRequestStatsRow) (tenantId : string) : TenantAnalytics :=
  let models := js_sort (descending (fun m : string * num * num => m.1.2)) (default [] (us_models <$> usage)) in
  let budgetUsd := match budget with
                   | Some b => match tb_override_limit_usd b with
                               | Some limit => Some limit
                               | None => tb_monthly_usd b
                               end
                   | None => None
                   end in
  let spendUsd := match usage with
                  | Some u => us_total_cost_usd u
                  | None => default num_zero (tb_current_spend_usd <$> budget)
                  end in
  let util := match budgetUsd with
              | Some b => if num_gtb b num_zero
                          then Some (num_mul (num_div spendUsd b) (num_of_Z 100)) else None
              | None => None
              end in
  mkTenantAnalytics
    (mkAnalyticsRow tenantId (default num_zero (us_total_requests <$> usage)) spendUsd
       (s ← stats; s_success_rate s) (s ← stats; s_avg_latency_ms s)
       ((fun m : string * num * num => m.1.1) <$> head models) budgetUsd
       ((fun b => num_sub b spendUsd) <$> budgetUsd) util
       (default "healthy" (tb_status <$> budget)))
    models.

Definition analytics_match (f : AnalyticsFilters) (providers : list (string * string)) (r : TenantAnalytics)
    : bool :=
  let status := an_status (ta_row r) in
  let any p := existsb (fun m : string * num * num => p m.1.1) (ta_models r) in
  (String.eqb (af_tenant f) "all" || String.eqb (an_tenant_id (ta_row r)) (af_tenant f))
  && (String.eqb (af_status f) "all" || String.eqb status (af_status f))
  && negb (String.eqb (af_anomaly f) "with_alerts" && String.eqb status "healthy")
  && negb (String.eqb (af_anomaly f) "no_alerts" && negb (String.eqb status "healthy"))
  && (String.eqb (af_model f) "all" || any (fun m => String.eqb m (af_model f)))
  && (String.eqb (af_provider f) "all"
      || any (fun m => String.eqb (resolveProviderFromModel m providers) (af_provider f))).

(** The tenants of the analytics: of the usage, then of the budgets *)
Definition analytics_tenants (usage : list UsageSummary) (configured : list TenantBudget) : list string :=
  js_set (js_set (map us_tenant_id usage) ++ js_set (map tb_tenant_id configured))%list.

Definition analyticsRows (usage : list UsageSummary) (configured : list TenantBudget)
    (stats : list TenantRequestStatsRow) (providers : list (string * string)) (f : AnalyticsFilters)
    : list TenantAnalytics :=
  let usageByTenant := js_map (map (fun u => (us_tenant_id u, u)) usage) in
  let budgetByTenant := js_map (map (fun b => (tb_tenant_id b, b)) configured) in
  let statsByTenant := js_map (map (fun r => (s_tenant_id r, r)) stats) in
  let rows := map (fun t => analytics_row (map_get t usageByTenant) (map_get t budgetByTenant)
                              (map_get t statsByTenant) t) (analytics_tenants usage configured) in
  js_sort (descending (fun r => an_spend_usd (ta_row r)))
    (List.filter (analytics_match f providers) rows).

(** ** Denials *)

(** Every answer is a denial. *)
Definition denying (w : World) : Prop :=
  forall past r, exists resp, net w past r = Ok resp /\ denied_status (res_status resp) = true.

(** The computation rejects with the status of a denial. *)
Definition surfaces {A} (w : World) (m : M A) : Prop :=
  forall s, exists e z s', m w s = (Throw e, s') /\ exn_status e = Some z /\ denied_status z = true.

Section Denials.
Context (w : World) (Hw : denying w).

Lemma surfaces_bind {A B} (m : M A) (f : A -> M B) : surfaces w m -> surfaces w (m ≫= f).
Proof.
  intros Hm s. destruct (Hm s) as (e & z & s' & Hr & Hz). exists e, z, s'. split; [|done].
  unfold mbind, M_bind. by rewrite Hr.
Qed.

Lemma surfaces_after {A B} (m : M A) (f : A -> M B) :
  (forall s, exists a s', m w s = (Ok a, s')) -> (forall a, surfaces w (f a)) -> surfaces w (m ≫= f).
Proof.
  intros Hm Hf s. destruct (Hm s) as (a & s' & Hr). unfold mbind, M_bind. rewrite Hr. apply Hf.
Qed.

Lemma denied_not_ok (resp : HttpResponse) : denied_status (res_status resp) = true -> res_ok resp = false.
Proof.
  unfold denied_status, res_ok. intros [H%Z.eqb_eq|H%Z.eqb_eq]%orb_true_iff; rewrite H; done.
Qed.

Lemma unauthorized_surfaces (resp : HttpResponse) :
  denied_status (res_status resp) = true -> surfaces w (assertFinopsUnauthorized resp).
Proof.
  intros Hd s. unfold assertFinopsUnauthorized. rewrite Hd. cbn [negb].
  assert (Hb : exists v, res_json_or_empty resp w s = (Ok v, s)).
  { unfold res_json_or_empty, try_catch. rewrite res_json_eval. destruct (body_json resp); by eexists. }
  destruct Hb as (v & Hb). unfold mbind, M_bind. rewrite Hb. cbn. eauto 6.
Qed.

(** A fetch that hands its failures to assertFinopsUnauthorized *)
Lemma fetch_surfaces {A} (url : string) (f : HttpResponse -> M A) :
  (forall resp, denied_status (res_status resp) = true -> surfaces w (f resp)) ->
  surfaces w (page_get url ≫= f).
Proof.
  intros Hf s. unfold page_get, page_fetch, mbind, M_bind.
  destruct (Hw (sent s) (mkHttpRequest "GET" url [] None)) as (resp & -> & Hd). by apply Hf.
Qed.

Lemma fallback_surfaces {A} (url : string) (fb : HttpResponse -> M A) (read : js -> M A) :
  surfaces w (get_or_fallback url fb read).
Proof.
  apply fetch_surfaces. intros resp Hd. rewrite (denied_not_ok resp Hd). cbn [negb].
  by apply surfaces_bind, unauthorized_surfaces.
Qed.

Lemma failure_surfaces {A} (url message : string) (k : HttpResponse -> M A) :
  surfaces w (resp ← page_get url; if negb (res_ok resp) then raise_failure resp message else k resp).
Proof.
  apply fetch_surfaces. intros resp Hd. rewrite (denied_not_ok resp Hd). cbn [negb].
  by apply surfaces_bind, unauthorized_surfaces.
Qed.

Lemma now_runs (s : State) : exists a s', date_now w s = (Ok a, s').
Proof. by repeat eexists. Qed.

Lemma to_iso_runs (date : string -> Z) (v : option string) (s : State) :
  exists a s', to_iso (fun t => Some (date t)) v w s = (Ok a, s').
Proof. unfold to_iso. destruct (truthy_env v); by repeat eexists. Qed.

(** [Promise.all] rejects when its first element does. *)
Lemma promise_all_surfaces {A B} (f : A -> M B) (x : A) (l : list A) :
  surfaces w (f x) -> surfaces w (promise_all f (x :: l)).
Proof.
  intros Hf s. destruct (Hf s) as (e & z & s1 & Hr & Hz).
  assert (Hrest : forall s, exists os s', settle_all f l w s = (Ok os, s')).
  { clear. induction l as [|y l IH]; intros s; [by repeat eexists|]. cbn [settle_all].
    unfold settle, mbind, M_bind. destruct (f y w s) as [o s']. destruct (IH s') as (os & s2 & ->).
    by repeat eexists. }
  destruct (Hrest s1) as (os & s2 & Hos). exists e, z, s2. split; [|done].
  unfold promise_all. cbn [settle_all]. unfold settle at 1, mbind, M_bind. by rewrite Hr, Hos.
Qed.
End Denials.

#[export] Hint Resolve fallback_surfaces failure_surfaces now_runs to_iso_runs : effects.

(** Steps over the clock and the dates to the fetch. *)
Ltac surface :=
  repeat (apply surfaces_after; [solve [auto with effects]|intros; cbv beta zeta]);
  first [by apply fallback_surfaces | by apply failure_surfaces].

(** A computation for its effects alone *)
Definition discard {A} (m : M A) : M unit := _ ← m; mret tt.

(** The queries of the page; the dates of the raw lists are valid. *)
Definition finops_queries (win : WindowHours) (p : PageParams) (id month : string) (from to : option string)
    (date : string -> Z) : list (M unit) :=
  [discard (fetchUsageSummaries month); discard fetchBudgetOverview; discard (fetchAnomalyExplain 30);
   discard (fetchAnomalies win p); discard (fetchAnomalyStats win p);
   discard (fetchApiKeysUsageList win p); discard (fetchJwtSubsUsage win p);
   discard (fetchJwtSubDrilldown id win (p_tenant p)); discard (fetchApiKeyUsageDrilldown id win);
   discard (fetchApiKeyRawUsage (fun t => Some (date t)) from to p);
   discard (fetchJwtSubRawUsage (fun t => Some (date t)) from to p);
   discard (fetchApiKeysMonetization win (p_limit p) (p_offset p));
   discard (fetchApiKeyMonetizationDrilldown id win);
   discard (fetchJwtMonetization win (p_limit p) (p_offset p))].

(** no query of the FinOps page shows a denial as empty data.  When the server answers
    401 or 403, every query rejects with an error that carries that status, whatever its
    parameters, although other failures of most of them count as an empty list. *)
Theorem finops_denials_surface (w : World) (win : WindowHours) (p : PageParams) (id month : string)
    (from to : option string) (date : string -> Z) :
  denying w -> Forall (surfaces w) (finops_queries win p id month from to date).
Proof.
  intros Hw. unfold finops_queries, discard. repeat constructor; apply surfaces_bind;
    try first [by apply fallback_surfaces | by apply failure_surfaces].
  - surface.
  - apply surfaces_bind, promise_all_surfaces. surface.
  - surface.
  - surface.
Qed.

Definition no_params : PageParams := mkPageParams None None None None None None None.

Lemma finops_denials_surface_witness :
  Forall (surfaces (demo_world [] (fun _ => reply 403 "")))
    (finops_queries W24 no_params "k1" "2025-01" None None (fun _ => 0%Z)).
Proof.
  apply (finops_denials_surface (demo_world [] (fun _ => reply 403 ""))).
  intros past r. by eexists.
Defined.

(** ** The loop of the dashboard *)

Definition monetization_request (win : WindowHours) (offset : Z) : HttpRequest :=
  mkHttpRequest "GET" (monetization_url win (Some 200%Z) (Some offset)) [] None.

(** A page that the server answers with [rows] *)
Lemma monetization_run (w : World) (win : WindowHours) (offset : Z) (resp : HttpResponse) (rows : list js)
    (s : State) :
  net w (sent s) (monetization_request win offset) = Ok resp -> res_ok resp = true ->
  body_json resp = Ok (JObj [("data", JObj [("data", JArr rows)])]) ->
  Forall (fun x => nullish x = false) rows ->
  exists p, fetchApiKeysMonetization win (Some 200%Z) (Some offset) w s
            = (Ok (Some (map monetization_of rows, p)),
               mkState (sent s ++ [monetization_request win offset])%list (ticks s)).
Proof.
  intros Hn Ho Hb Hrows. unfold fetchApiKeysMonetization, get_or_fallback, page_get, page_fetch.
  unfold mbind at 1, M_bind at 1. fold (monetization_request win offset). rewrite Hn, Ho. cbn [negb].
  unfold mbind at 1, M_bind at 1. rewrite res_json_eval, Hb.
  unfold payload_of. cbn [opt_get obj_get String.eqb Ascii.eqb Bool.eqb js_coalesce nullish js_array].
  unfold mbind at 1, M_bind at 1. rewrite (map_elems_run monetizationRow monetization_of).
  - cbn. by eexists.
  - revert Hrows. apply List.Forall_impl. intros x Hx. unfold monetizationRow, get. by rewrite Hx.
Qed.

Lemma dashboard_loop_run (w : World) (win : WindowHours) (rows : list js) (fuel i : nat) (s : State) :
  serves w (monetization_request win) rows -> Forall (fun x => nullish x = false) rows ->
  200 * i <= List.length rows < 200 * (i + fuel) ->
  exists s', dashboard_loop fuel win (Z.of_nat (200 * i)) w s
             = (Ok (Some (map monetization_of (drop (200 * i) rows))), s').
Proof.
  intros Hs Hrows. revert i s. induction fuel as [|fuel IH]; intros i s Hi; [lia|]. cbn [dashboard_loop].
  destruct (Hs (sent s) (200 * i) ltac:(lia)) as (resp & Hn & Ho & Hb).
  destruct (monetization_run w win _ resp _ s Hn Ho Hb) as (p & Hp); [by apply Forall_take, Forall_drop|].
  set (s1 := mkState _ _) in Hp. unfold mbind, M_bind. rewrite Hp.
  destruct (map monetization_of (take 200 (drop (200 * i) rows))) eqn:E.
  - apply map_eq_nil in E. rewrite <- (take_all_drop rows), E; [by eexists|rewrite E; cbn; lia].
  - rewrite <- E, length_map, length_take, length_drop.
    destruct (Nat.ltb_spec (Nat.min 200 (List.length rows - 200 * i)) 200) as [Hlt|Hge].
    + rewrite take_ge by (rewrite length_drop; lia). by eexists.
    + replace (Z.of_nat (200 * i) + 200)%Z with (Z.of_nat (200 * S i)) by lia.
      destruct (IH (S i) s1 ltac:(lia)) as (s' & ->). exists s'. cbn. f_equal.
      rewrite <- map_app. do 2 f_equal.
      rewrite <- (take_drop 200 (drop (200 * i) rows)) at 2. rewrite drop_drop.
      by replace (200 * i + 200) with (200 * S i) by lia.
Qed.

(** A server that answers every page with 200 rows, as one does that ignores the offset *)
Definition always_full (w : World) (win : WindowHours) : Prop :=
  forall past offset, exists resp rows,
    net w past (monetization_request win offset) = Ok resp /\ res_ok resp = true /\
    body_json resp = Ok (JObj [("data", JObj [("data", JArr rows)])]) /\
    List.length rows = 200 /\ Forall (fun x => nullish x = false) rows.

Lemma dashboard_loop_diverges (w : World) (win : WindowHours) (fuel : nat) (offset : Z) (s : State) :
  always_full w win ->
  exists s', dashboard_loop fuel win offset w s = (Ok None, s') /\
             List.length (sent s') = List.length (sent s) + fuel.
Proof.
  intros Hw. revert offset s. induction fuel as [|fuel IH]; intros offset s; cbn [dashboard_loop].
  { exists s. split; [done|lia]. }
  destruct (Hw (sent s) offset) as (resp & rows & Hn & Ho & Hb & Hl & Hr).
  destruct (monetization_run w win offset resp rows s Hn Ho Hb Hr) as (p & Hp).
  set (s1 := mkState _ _) in Hp. unfold mbind, M_bind. rewrite Hp.
  destruct rows as [|x rows]; [done|]. cbn [map].
  replace (List.length (monetization_of x :: map monetization_of rows)) with 200
    by (cbn [List.length] in Hl |- *; by rewrite length_map). cbn [Nat.ltb Nat.leb].
  destruct (IH (offset + 200)%Z s1) as (s' & -> & Hlen). exists s'. split; [done|].
  rewrite Hlen. unfold s1. cbn [sent]. rewrite length_app. cbn. lia.
Qed.

(** the dashboard pages through the API keys as long as pages are full.  Against a server
    that holds finitely many rows and answers each page with the 200 rows from the offset,
    the loop ends, after one page more than it has full ones, with every row in order.
    Against a server whose pages are always full it never ends: after any number of pages it
    has sent that many requests and is still going, as nothing bounds it. *)
Theorem dashboard_paging (w : World) (win : WindowHours) (s : State) :
  (forall rows fuel,
     serves w (monetization_request win) rows -> Forall (fun x => nullish x = false) rows ->
     List.length rows < 200 * fuel ->
     exists s', dashboard_loop fuel win 0 w s = (Ok (Some (map monetization_of rows)), s')) /\
  (always_full w win -> forall fuel,
     exists s', dashboard_loop fuel win 0 w s = (Ok None, s') /\
                List.length (sent s') = List.length (sent s) + fuel).
Proof.
  split.
  - intros rows fuel Hs Hr Hl. apply (dashboard_loop_run w win rows fuel 0 s Hs Hr). lia.
  - intros Hw fuel. by apply dashboard_loop_diverges.
Qed.

Definition one_key_world (drill : Z) : World :=
  demo_world [] (fun r =>
    if String.eqb (http_url r) (http_url (monetization_request W24 0))
    then reply_json 200 (JObj [("data", JObj [("data", JArr [JObj [("api_key_id", JStr "a")]])])])
    else if String.eqb (http_url r) (http_url (monetization_request W24 1))
    then reply_json 200 (JObj [("data", JObj [("data", JArr [])])])
    else reply drill "").

Lemma dashboard_paging_witness :
  exists s', dashboard_loop 1 W24 0 (one_key_world 404) start
             = (Ok (Some (map monetization_of [JObj [("api_key_id", JStr "a")]])), s').
Proof.
  apply (proj1 (dashboard_paging (one_key_world 404) W24 start) [JObj [("api_key_id", JStr "a")]] 1).
  - intros past k Hk. cbn in Hk. assert (Hc : k = 0 \/ k = 1) by lia.
    destruct Hc as [->| ->]; (eexists; split; [|split]); [vm_compute; reflexivity..| |].
    all: vm_compute; reflexivity.
  - repeat constructor.
  - cbn. lia.
Defined.

(** ** Tenants the caller may not see *)

Lemma visible_In {A} (tenant : A -> string) (forbidden : list string) (l : list A) (x : A) :
  In x (visible tenant forbidden l) -> ~ In (tenant x) forbidden.
Proof.
  unfold visible. rewrite filter_In. intros [_ Hx] Hin. apply set_has_In in Hin. by rewrite Hin in Hx.
Qed.

Lemma analytics_row_tenant (u : option UsageSummary) (b : option TenantBudget)
    (st : option TenantRequestStatsRow) (t : string) :
  an_tenant_id (ta_row (analytics_row u b st t)) = t.
Proof. done. Qed.

(** The tenants of the analytics are tenants of the usage or of the configured budgets. *)
Lemma analyticsRows_tenant (usage : list UsageSummary) (configured : list TenantBudget)
    (stats : list TenantRequestStatsRow) (providers : list (string * string)) (f : AnalyticsFilters)
    (r : TenantAnalytics) :
  In r (analyticsRows usage configured stats providers f) ->
  In (an_tenant_id (ta_row r)) (map us_tenant_id usage) \/
  In (an_tenant_id (ta_row r)) (map tb_tenant_id configured).
Proof.
  unfold analyticsRows. rewrite js_sort_elem, filter_In, in_map_iff.
  intros [(t & <- & Ht) _]. rewrite analytics_row_tenant. unfold analytics_tenants in Ht.
  rewrite js_set_In, in_app_iff, !js_set_In in Ht. done.
Qed.

Lemma kpis_tenants (ok : bool) (overview : list OverviewRow) (budgets : list TenantBudget) (t : string) :
  In t (map fst (k_spendByTenantRows (finopsDashboardKpis ok overview budgets))
        ++ map rr_tenant_id (k_riskRows (finopsDashboardKpis ok overview budgets)))%list ->
  In t (map ov_tenant_id overview) \/ In t (map tb_tenant_id budgets).
Proof.
  unfold finopsDashboardKpis. destruct (negb _); cbn [k_spendByTenantRows k_riskRows];
    rewrite !map_map, in_app_iff; cbn [fst rr_tenant_id budget_risk overview_risk].
  - intros [H|H]; right; [done|]. apply in_map_iff in H as (b & <- & Hb).
    apply filter_In in Hb as [Hb _]. by apply (in_map tb_tenant_id).
  - intros [H|H]; by left.
Qed.

(** The tenants every table of the page can show, given the lists the caller may see *)
Definition shown_tenants (usage : list UsageSummary) (budgets : list TenantBudget)
    (overview : list OverviewRow) (stats : list TenantRequestStatsRow) (providers : list (string * string))
    (f : AnalyticsFilters) (isSuccess : bool) (forbidden : list string) : list string :=
  let usageV := visible us_tenant_id forbidden usage in
  let budgetsV := visible tb_tenant_id forbidden budgets in
  let kpis := finopsDashboardKpis isSuccess (visible ov_tenant_id forbidden overview) budgetsV in
  (map (fun r => an_tenant_id (ta_row r)) (analyticsRows usageV (configuredBudgets budgetsV) stats providers f)
   ++ map fst (k_spendByTenantRows kpis) ++ map rr_tenant_id (k_riskRows kpis)
   ++ map tb_tenant_id budgetsV)%list.

Lemma visible_tenants {A} (tenant : A -> string) (forbidden : list string) (l : list A) (t : string) :
  In t (map tenant (visible tenant forbidden l)) -> ~ In t forbidden.
Proof. rewrite in_map_iff. intros (x & <- & Hx). by apply (visible_In tenant forbidden l). Qed.

Lemma shown_not_forbidden usage budgets overview stats providers f isSuccess forbidden (t : string) :
  In t (shown_tenants usage budgets overview stats providers f isSuccess forbidden) -> ~ In t forbidden.
Proof.
  unfold shown_tenants. rewrite !in_app_iff. intros [H|[H|[H|H]]].
  - apply in_map_iff in H as (r & <- & Hr). apply analyticsRows_tenant in Hr as [Hr|Hr].
    + by apply (visible_tenants us_tenant_id forbidden usage).
    + apply in_map_iff in Hr as (b & Hb & Hin). apply filter_In in Hin as [Hin _]. rewrite <- Hb.
      by apply (visible_In tb_tenant_id forbidden budgets).
  - assert (Hk := kpis_tenants isSuccess (visible ov_tenant_id forbidden overview)
                    (visible tb_tenant_id forbidden budgets) t ltac:(apply in_app_iff; by left)).
    destruct Hk as [Hk|Hk]; by apply (visible_tenants _ _ _ _ Hk).
  - assert (Hk := kpis_tenants isSuccess (visible ov_tenant_id forbidden overview)
                    (visible tb_tenant_id forbidden budgets) t ltac:(apply in_app_iff; by right)).
    destruct Hk as [Hk|Hk]; by apply (visible_tenants _ _ _ _ Hk).
  - by apply (visible_tenants tb_tenant_id forbidden budgets).
Qed.

Lemma stats_ids (usage budgets : list string) :
  List.NoDup (tenantIdsForRequestStats usage budgets) /\
  forall t, In t (tenantIdsForRequestStats usage budgets) <-> In t usage \/ In t budgets.
Proof.
  unfold tenantIdsForRequestStats. split.
  - eapply Permutation_NoDup; [apply Permutation_sym, js_sort_perm|]. apply set_fold_NoDup, js_set_NoDup.
  - intros t. by rewrite js_sort_elem, set_fold_In, js_set_In.
Qed.

(** the page asks about every tenant and hides the forbidden ones.  The statistics batch
    probes each tenant of the usage and of the budgets exactly once; when each answer is a
    denial or readable statistics it returns, and a tenant whose answer was 401 or 403 is in
    no table of the page: not in the analytics, not in the key figures, not in the risk
    table, not among the budgets. *)
Theorem forbidden_tenants_hidden (w : World) (h : num) (s : State) (usage : list UsageSummary)
    (budgets : list TenantBudget) (overview : list OverviewRow) (providers : list (string * string))
    (f : AnalyticsFilters) (isSuccess : bool) :
  let ids := tenantIdsForRequestStats (map us_tenant_id usage) (map tb_tenant_id budgets) in
  let answers := batch_answers w (sent s) ids h in
  Forall (fun a => usable_answer a.2) answers ->
  List.NoDup ids /\
  (forall t, In t (map us_tenant_id usage) \/ In t (map tb_tenant_id budgets) -> In t (map fst answers)) /\
  exists stats forbidden s',
    fetchTenantRequestStatsBatch ids h w s = (Ok (stats, forbidden), s') /\
    forall t o, In (t, o) answers -> denied_answer o = true ->
      ~ In t (shown_tenants usage budgets overview stats providers f isSuccess forbidden).
Proof.
  intros ids answers Hu. destruct (stats_ids (map us_tenant_id usage) (map tb_tenant_id budgets)) as [Hnd Hin].
  assert (Hfst : forall l past, map fst (batch_answers w past l h) = l).
  { induction l as [|x l IH]; intros past; cbn; [done|]. by rewrite IH. }
  split; [done|]. split.
  - intros t Ht. unfold answers. rewrite Hfst. by apply Hin.
  - destruct (batch_run w ids h s Hu) as (rows & Hrun & _). do 3 eexists. split; [exact Hrun|].
    intros t o Ho Hd Hs%shown_not_forbidden. apply Hs. unfold tenants_where.
    apply in_map_iff. exists (t, o). split; [done|]. by apply filter_In.
Qed.

Definition acme_usage : list UsageSummary :=
  [mkUsageSummary "acme" num_zero num_zero []; mkUsageSummary "globex" num_zero num_zero []].

Lemma forbidden_tenants_hidden_witness :
  let w := demo_world [] (fun r => if str_includes "acme" (http_url r) then reply 403 "no" else reply 200 "{}") in
  exists stats forbidden s',
    fetchTenantRequestStatsBatch ["acme"; "globex"] (num_of_Z 24) w start = (Ok (stats, forbidden), s') /\
    forall t o, In (t, o) (batch_answers w [] ["acme"; "globex"] (num_of_Z 24)) -> denied_answer o = true ->
      ~ In t (shown_tenants acme_usage [] [] stats [] (mkAnalyticsFilters "all" "all" "all" "all" "all")
                true forbidden).
Proof.
  intros w.
  refine (proj2 (proj2 (forbidden_tenants_hidden w (num_of_Z 24) start acme_usage [] [] []
            (mkAnalyticsFilters "all" "all" "all" "all" "all") true _))).
  constructor; [|constructor; [|constructor]].
  - eexists. split; [reflexivity|]. by left.
  - eexists. split; [reflexivity|]. right. split; [done|]. exists (JObj []). split; [done|constructor].
Defined.

(** ** Drilldowns that are denied *)

Lemma promise_all_const {A B} (w : World) (f : A -> M B) (b : B) (l : list A) (s : State) :
  (forall a s, exists s', f a w s = (Ok b, s')) ->
  exists s', promise_all f l w s = (Ok (map (fun _ => b) l), s').
Proof.
  intros Hf.
  assert (H : forall l s, exists s', settle_all f l w s = (Ok (map (fun _ => Ok b) l), s')).
  { clear l s. induction l as [|a l IH]; intros s; [by eexists|]. cbn [settle_all].
    unfold settle, mbind, M_bind. destruct (Hf a s) as (s1 & ->). destruct (IH s1) as (s2 & ->).
    by eexists. }
  destruct (H l s) as (s' & Hs). exists s'. unfold promise_all, mbind, M_bind. rewrite Hs.
  assert (Hc : collect (map (fun _ : A => Ok b) l) = Ok (map (fun _ => b) l)).
  { clear. induction l as [|a l IH]; cbn; [done|]. by rewrite IH. }
  by rewrite Hc.
Qed.

(** on the dashboard a denial looks like no usage.  The API keys are listed, but when the
    gateway denies every drilldown with 401 or 403 the model table is empty without an error,
    since the drilldowns are caught one by one; the statement of the module they use is that
    such answers surface as errors. *)
Theorem dashboard_swallows_denials (w : World) (win : WindowHours) (rows : list js) (fuel : nat) (s : State) :
  serves w (monetization_request win) rows -> Forall (fun x => nullish x = false) rows ->
  List.length rows < 200 * fuel ->
  (forall past id, exists resp, net w past (mkHttpRequest "GET" (drilldown_url id win) [] None) = Ok resp /\
                                denied_status (res_status resp) = true) ->
  exists s', dashboardModelAggregation fuel win w s = (Ok (Some []), s').
Proof.
  intros Hs Hr Hl Hd. unfold dashboardModelAggregation.
  destruct (dashboard_loop_run w win rows fuel 0 s Hs Hr ltac:(lia)) as (s1 & Hrun).
  unfold mbind at 1, M_bind at 1. change (Z.of_nat (200 * 0)) with 0%Z in Hrun. rewrite Hrun.
  change (drop (200 * 0) rows) with rows. destruct (map monetization_of rows) as [|k ks]; [by eexists|].
  set (f := fun row => try_catch _ _).
  assert (Hf : forall a s, exists s', f a w s = (Ok None, s')).
  { intros a s0. unfold f, try_catch, fetchApiKeyMonetizationDrilldown, get_or_fallback, page_get, page_fetch.
    destruct (Hd (sent s0) (mz_api_key_id a)) as (resp & Hn & Hden).
    unfold mbind at 1, M_bind at 1. rewrite Hn, (denied_not_ok resp Hden). cbn [negb].
    destruct (surfaces_bind w _ (fun _ : unit => mret (None : option MonetizationDetail))
                (unauthorized_surfaces w resp Hden)
                (mkState (sent s0 ++ [mkHttpRequest "GET" (drilldown_url (mz_api_key_id a) win) [] None])
                         (ticks s0))) as (e & z & s' & Hrun' & _).
    rewrite Hrun'. by eexists. }
  destruct (promise_all_const w f None (k :: ks) s1 Hf) as (s2 & Hp).
  exists s2. unfold mbind, M_bind. rewrite Hp. cbn [mret M_ret]. do 3 f_equal.
  unfold byModel. by replace (omap (fun d : option MonetizationDetail => d) (map (fun _ => None) (k :: ks)))
    with (@nil MonetizationDetail) by (clear; induction (k :: ks); done).
Qed.

Lemma dashboard_swallows_denials_witness :
  exists s', dashboardModelAggregation 1 W24 (one_key_world 403) start = (Ok (Some []), s').
Proof.
  apply (dashboard_swallows_denials (one_key_world 403) W24 [JObj [("api_key_id", JStr "a")]] 1).
  - intros past k Hk. cbn in Hk. assert (Hc : k = 0 \/ k = 1) by lia.
    destruct Hc as [->| ->]; (eexists; split; [|split]); [vm_compute; reflexivity..| |].
    all: vm_compute; reflexivity.
  - repeat constructor.
  - cbn. lia.
  - intros past id. exists (mkHttpResponse 403 "" [] (Some "")). split; [|done].
    unfold one_key_world, demo_world. cbn [net http_url].
    assert (H : forall t, lacks "/" t = true ->
              String.eqb (drilldown_url id W24) ("/api/finops/api-keys/" ++ t) = false).
    { intros t Ht. apply String.eqb_neq. intros E. cbn in E. repeat injection E as E.
      rewrite <- E, lacks_app in Ht. cbn in Ht. by rewrite andb_false_r in Ht. }
    change (http_url (monetization_request W24 0))
      with ("/api/finops/api-keys/" ++ "usage?window_hours=24&limit=200&offset=0").
    change (http_url (monetization_request W24 1))
      with ("/api/finops/api-keys/" ++ "usage?window_hours=24&limit=200&offset=1").
    by rewrite !H.
Defined.
