(* ===== verification/ConsoleClient.v ===== *)
(** * The hooks of the configuration pages

    src/frontend/src/features/{tenants,providers,models,route-groups,global-config}/api: the
    functions that ask the console's own server, and the options of the queries and mutations
    they are passed to.  The cache of react-query is a library.  What a mutation does to it is
    the list of calls its callbacks make, and [settles] is the library's documented contract:
    onSuccess after the function's promise resolves, onError after it rejects. *)

From stdpp Require Import list.
From S2P Require Import Prelude JsNumber JsText JsValue JsArray Json Effects Routes FinopsApi UsageApi.
Local Open Scope string_scope.

(** ** Shared *)

Definition json_headers : list (string * string) := [("Content-Type", "application/json")].

(** [fetch(url, { method, headers: json, body: JSON.stringify(v) })] *)
Definition page_send (method url : string) (v : js) : M HttpResponse :=
  page_fetch (mkHttpRequest method url json_headers (json_stringify v)).
(** [fetch(url, { method })] *)
Definition page_call (method url : string) : M HttpResponse :=
  page_fetch (mkHttpRequest method url [] None).

(** [new Error(v)] of a value that is not undefined *)
Definition error_of (v : js) : exn := JsError (js_to_string v).

(** [const error = await response.json(); throw new Error(error.error || fallback)] *)
Definition raise_error {A} (response : HttpResponse) (fallback : string) : M A :=
  error ← res_json response;
  e ← get error "error";
  throw (error_of (js_or e (JStr fallback))).

(** The same with a status, for the queries that must not retry a denial: the body may be
    missing, and only a text is shown. *)
Definition raise_status {A} (response : HttpResponse) (fallback : string) : M A :=
  errorBody ← res_json_or_empty response;
  e ← get errorBody "error";
  throw (error_with_status (match e with JStr s => s | _ => fallback end) (res_status response)).

Definition checked (fallback : string) (response : HttpResponse) : M js :=
  if negb (res_ok response) then raise_error response fallback else res_json response.
Definition checked_status (fallback : string) (response : HttpResponse) : M js :=
  if negb (res_ok response) then raise_status response fallback else res_json response.

(** [data.data || []] *)
Definition data_rows (data : js) : M js := d ← get data "data"; mret (js_or d (JArr [])).

(** ** tenants/api/use-tenants.ts *)

Definition fetchTenants : M js :=
  response ← page_get "/api/tenants"; checked "Failed to fetch tenants" response.

Definition fetchTenantConfig (tenantId : string) : M js :=
  response ← page_get ("/api/tenants/" ++ tenantId); checked "Failed to fetch tenant config" response.

Definition createTenant (tenant_id environment : string) : M js :=
  response ← page_send "POST" "/api/tenants"
               (JObj [("tenant_id", JStr tenant_id); ("environment", JStr environment)]);
  checked "Failed to create tenant" response.

(** [monthly_usd] and [timezone] are undefined when they are not given. *)
Definition updateTenantBudget (tenantId : string) (monthly_usd timezone version : js) : M js :=
  response ← page_send "PATCH" ("/api/tenants/" ++ tenantId ++ "/budget")
               (JObj [("monthly_usd", monthly_usd); ("timezone", timezone); ("version", version)]);
  checked "Failed to update tenant budget" response.

Definition deleteTenant (tenantId : string) : M unit :=
  response ← page_call "DELETE" ("/api/tenants/" ++ tenantId);
  if negb (res_ok response) then raise_error response "Failed to delete tenant" else mret tt.

Definition fetchTenantApiKeys (tenantId : string) : M js :=
  response ← page_get ("/api/tenants/" ++ tenantId ++ "/api-keys");
  data ← checked "Failed to fetch tenant API keys" response;
  data_rows data.

Definition fetchTenantUsage (tenantId : string) (month : option string) : M js :=
  let queryParam := match truthy_env month with Some m => "?month=" ++ m | None => "" end in
  response ← page_get ("/api/tenants/" ++ tenantId ++ "/usage" ++ queryParam);
  checked "Failed to fetch tenant usage" response.

Record TenantBudgetStatus := mkBudgetStatus {
  bs_spend_usd : num;
  bs_budget_usd : num;
  bs_pct : num;
  bs_enforcement_mode : option string;
  bs_warn_pct : option num;
  bs_hard_pct : option num;
}.

Definition fetchTenantBudgetStatus (tenantId : string) : M TenantBudgetStatus :=
  response ← page_get ("/api/tenants/" ++ tenantId ++ "/budgets/status");
  raw ← checked "Failed to fetch tenant budget status" response;
  _ ← get raw "spend_usd";
  let f := opt_get raw in
  mret (mkBudgetStatus (num_of (f "spend_usd") num_zero) (num_of (f "budget_usd") num_zero)
          (num_of (f "pct") num_zero) (opt_text (f "enforcement_mode"))
          (opt_num (f "warn_pct")) (opt_num (f "hard_pct"))).

Definition createApiKey (tenantId name : string) (scopes expires_at : js) : M js :=
  response ← page_send "POST" ("/api/tenants/" ++ tenantId ++ "/api-keys/create")
               (JObj [("name", JStr name); ("scopes", scopes); ("expires_at", expires_at)]);
  checked "Failed to create API key" response.

Definition rotateApiKey (tenantId keyId : string) : M js :=
  response ← page_call "POST" ("/api/tenants/" ++ tenantId ++ "/api-keys/" ++ keyId ++ "/rotate");
  checked "Failed to rotate API key" response.

Definition revokeApiKey (tenantId keyId : string) : M js :=
  response ← page_call "POST" ("/api/tenants/" ++ tenantId ++ "/api-keys/" ++ keyId ++ "/revoke");
  checked "Failed to revoke API key" response.

Definition updateTenantConfig (tenantId : string) (version : num) (patch : obj) : M js :=
  response ← page_send "PATCH" ("/api/tenants/" ++ tenantId ++ "/config")
               (JObj [("version", JNum version); ("patch", JObj patch)]);
  checked "Failed to update tenant config" response.

(** ** providers/api *)

Definition fetchProviders : M js :=
  response ← page_get "/api/providers";
  data ← checked_status "Failed to fetch providers" response;
  data_rows data.

(** [{ ...data.data, version: data.version }] *)
Definition fetchProvider (providerId : string) : M js :=
  response ← page_get ("/api/providers/" ++ providerId);
  data ← checked_status "Failed to fetch provider" response;
  d ← get data "data";
  mret (JObj (obj_set "version" (opt_get data "version") (obj_spread [] (GatewayClient.entries d)))).

Definition updateProvider (providerId : string) (config : obj) (version : num) : M js :=
  response ← page_send "PATCH" ("/api/providers/" ++ providerId)
               (JObj [("config", JObj config); ("version", JNum version)]);
  checked "Failed to update provider" response.

Definition updateProviderCredentials (providerId : string) (credentials : obj) (version : num)
  : M js :=
  response ← page_send "POST" ("/api/providers/" ++ providerId ++ "/credentials")
               (JObj [("credentials", JObj credentials); ("version", JNum version)]);
  checked "Failed to update credentials" response.

(** [getVersionForProviderMutation]: [cached] is what the cache holds for the global
    configuration. *)
Definition getVersionForProviderMutation (cached : option js) (fallback : num) : num :=
  match cached with
  | Some c => match opt_get c "version" with JNum n => n | _ => fallback end
  | None => fallback
  end.

(** ** models/api/use-models.ts *)

Definition fetchModels : M js :=
  response ← page_get "/api/models";
  data ← checked "Failed to fetch models" response;
  data_rows data.

Definition fetchModel (modelId : string) : M js :=
  response ← page_get ("/api/models/" ++ modelId);
  data ← checked "Failed to fetch model" response;
  get data "data".

Definition fetchModelBenchmarks (windowHours : num) : M js :=
  response ← page_get ("/api/benchmarks/models?window_hours=" ++ num_to_string windowHours);
  data ← checked "Failed to fetch benchmarks" response;
  data_rows data.

Definition createModel (model : obj) : M js :=
  response ← page_send "POST" "/api/models" (JObj model);
  checked "Failed to create model" response.

(** [{ ...model, version }] *)
Definition updateModel (modelId : string) (model : obj) (version : num) : M js :=
  response ← page_send "PATCH" ("/api/models/" ++ modelId)
               (JObj (obj_set "version" (JNum version) (obj_spread [] model)));
  checked "Failed to update model" response.

(** A 204 has no body to read. *)
Definition deleted (fallback done : string) (response : HttpResponse) : M js :=
  if negb (res_ok response) then raise_error response fallback
  else if (res_status response =? 204)%Z then mret (JObj [("message", JStr done)])
  else res_json response.

Definition deleteModel (modelId : string) : M js :=
  response ← page_call "DELETE" ("/api/models/" ++ modelId);
  deleted "Failed to delete model" "Model deleted successfully" response.

(** ** route-groups/api/use-route-groups.ts *)

Definition route_group_url (tenantId routeGroupId : string) : string :=
  "/api/route-groups/" ++ encodeURIComponent routeGroupId ++ "?tenantId=" ++ encodeURIComponent tenantId.

Definition fetchRouteGroups (tenantId : string) : M js :=
  response ← page_get ("/api/route-groups?tenantId=" ++ encodeURIComponent tenantId);
  data ← checked "Failed to fetch route groups" response;
  data_rows data.

Definition fetchRouteGroup (tenantId routeGroupId : string) : M js :=
  response ← page_get (route_group_url tenantId routeGroupId);
  data ← checked "Failed to fetch route group" response;
  get data "data".

Definition createRouteGroup (tenantId id : string) (models : list string) : M js :=
  response ← page_send "POST" "/api/route-groups"
               (JObj [("id", JStr id); ("models", JArr (map JStr models)); ("tenantId", JStr tenantId)]);
  checked "Failed to create route group" response.

Definition updateRouteGroup (tenantId routeGroupId : string) (models : list string) (version : num)
  : M js :=
  response ← page_send "PATCH" (route_group_url tenantId routeGroupId)
               (JObj [("models", JArr (map JStr models)); ("version", JNum version)]);
  checked "Failed to update route group" response.

Definition deleteRouteGroup (tenantId routeGroupId : string) : M js :=
  response ← page_call "DELETE" (route_group_url tenantId routeGroupId);
  deleted "Failed to delete route group" "Route group deleted successfully" response.

(** ** global-config/api/use-global-config.ts *)

(** The storage of the page: [None] outside a browser, or when reading it is refused. *)
Definition Storage : Type := option (list (string * string)).

(** [localStorage.getItem('router_api_url') || localStorage.getItem('gateway_api_endpoint')] *)
Definition stored_endpoint (items : list (string * string)) : option string :=
  match truthy_env (params_get "router_api_url" items) with
  | Some raw => Some raw
  | None => truthy_env (params_get "gateway_api_endpoint" items)
  end.

Definition getRuntimeEndpoint (storage : Storage) : option string :=
  match storage with
  | None => None
  | Some items =>
      match stored_endpoint items with
      | None => None
      | Some raw =>
          let value := strip_trailing "/" (str_trim raw) in
          if String.eqb value "" then None
          else if ConfigApi.all_digits value then Some ("http://localhost:" ++ value)
          else if (starts_with "localhost:" value || starts_with "127.0.0.1:" value)%bool
          then Some ("http://" ++ value)
          else if negb (ConfigApi.has_scheme value) then Some ("http://" ++ value)
          else Some value
      end
  end.

Definition getHeadersWithEndpoint (storage : Storage) : list (string * string) :=
  match truthy_env (getRuntimeEndpoint storage) with
  | Some endpoint => [("Content-Type", "application/json"); ("x-runtime-endpoint", endpoint)]
  | None => [("Content-Type", "application/json")]
  end.

Definition fetchGlobalConfig (storage : Storage) : M js :=
  response ← page_fetch (mkHttpRequest "GET" "/api/global-config" (getHeadersWithEndpoint storage) None);
  checked_status "Failed to fetch global config" response.

Definition updateGlobalConfig (storage : Storage) (config : obj) (version : num) : M js :=
  response ← page_fetch (mkHttpRequest "PATCH" "/api/global-config" (getHeadersWithEndpoint storage)
               (json_stringify (JObj [("config", JObj config); ("version", JNum version)])));
  checked "Failed to update global config" response.

Definition fetchGlobalConfigChanges (storage : Storage) (limit offset : num) : M js :=
  response ← page_fetch (mkHttpRequest "GET"
               ("/api/global-config/changes?limit=" ++ num_to_string limit
                  ++ "&offset=" ++ num_to_string offset) (getHeadersWithEndpoint storage) None);
  checked_status "Failed to fetch global config changes" response.

(** The retry option of the list of changes *)
Definition retryChanges (failureCount : nat) (error : exn) : bool :=
  if (match exn_status error with Some s => denied_status s | None => false end) then false
  else if str_includes "404" (exn_message error) then false
  else Nat.ltb failureCount 3.

(** ** What the callbacks of a mutation do *)

Inductive Effect : Type :=
| Invalidate (queryKey : list js)
| Remove (queryKey : list js)
| SetVersion (version : num)
| ShowToast (props : obj)
| Raise (e : exn).

(** [setQueryData(['globalConfig'], (old) => old ? { ...old, version } : old)] *)
Definition set_version (version : num) (cached : option js) : option js :=
  match cached with
  | Some old => if truthy old
                then Some (JObj (obj_set "version" (JNum version)
                             (obj_spread [] (GatewayClient.entries old))))
                else cached
  | None => None
  end.

(** [data.k]: on null the callback ends in a TypeError. *)
Definition reading (data : js) (k : string) (next : js -> list Effect) : list Effect :=
  if nullish data then [Raise (JsError "Cannot read properties of null or undefined")]
  else next (opt_get data k).

Definition success_toast (title description : string) : Effect :=
  ShowToast [("title", JStr title); ("description", JStr description)].
Definition error_toast (error : exn) : Effect :=
  ShowToast [("title", JStr "Error"); ("description", JStr (exn_message error));
             ("variant", JStr "destructive")].

(** The options of a mutation *)
Record MutationHook (V : Type) := mkHook {
  mutationFn : V -> M js;
  onSuccess : js -> V -> list Effect;
  onError : exn -> list Effect;
}.
Arguments mkHook {V}.
Arguments mutationFn {V}.
Arguments onSuccess {V}.
Arguments onError {V}.

(** A mutation run from a state, with what its callback does *)
Inductive settles {V} (hook : MutationHook V) (v : V) (w : World) (s : State) : list Effect -> Prop :=
| settles_ok data s' : mutationFn hook v w s = (Ok data, s') -> settles hook v w s (onSuccess hook data v)
| settles_error e s' : mutationFn hook v w s = (Throw e, s') -> settles hook v w s (onError hook e).

Definition quietly (m : M unit) : M js := _ ← m; mret JUndef.
Definition report (error : exn) : list Effect := [error_toast error].

(** ** The mutations of the pages *)

Definition key (name : string) : list js := [JStr name].
Definition key_of (name : string) (id : js) : list js := [JStr name; id].
Definition in_quotes (s : string) : string := String quote (s ++ String quote "").

Definition useCreateTenant : MutationHook (string * string) :=
  mkHook (fun v => createTenant v.1 v.2)
    (fun data _ =>
       Invalidate (key "tenants") ::
       reading data "tenant_id" (fun id =>
         [success_toast "Tenant created"
            ("Tenant " ++ in_quotes (js_to_string id) ++ " was created successfully.")]))
    report.

Record BudgetVars := mkBudgetVars {
  bv_tenantId : string;
  bv_monthly_usd : js;
  bv_timezone : js;
  bv_version : js;
}.

Definition useUpdateTenantBudget : MutationHook BudgetVars :=
  mkHook (fun v => updateTenantBudget (bv_tenantId v) (bv_monthly_usd v) (bv_timezone v) (bv_version v))
    (fun data _ =>
       reading data "tenant_id" (fun id =>
         [Invalidate (key_of "tenant" id); Invalidate (key "tenants");
          success_toast "Budget updated"
            ("Budget for " ++ in_quotes (js_to_string id) ++ " was updated successfully.")]))
    report.

Definition useDeleteTenant : MutationHook string :=
  mkHook (fun tenantId => quietly (deleteTenant tenantId))
    (fun _ tenantId =>
       [Invalidate (key "tenants"); Remove (key_of "tenant" (JStr tenantId));
        success_toast "Tenant deleted" ("Tenant " ++ in_quotes tenantId ++ " was deleted successfully.")])
    report.

Record KeyVars := mkKeyVars {
  kv_tenantId : string;
  kv_name : string;
  kv_scopes : js;
  kv_expires_at : js;
}.

Definition useCreateTenantApiKey : MutationHook KeyVars :=
  mkHook (fun v => createApiKey (kv_tenantId v) (kv_name v) (kv_scopes v) (kv_expires_at v))
    (fun _ v =>
       [Invalidate (key_of "tenantApiKeys" (JStr (kv_tenantId v)));
        success_toast "API key created" "Your new API key has been created successfully."])
    report.

Definition useRotateTenantApiKey : MutationHook (string * string) :=
  mkHook (fun v => rotateApiKey v.1 v.2)
    (fun _ v => [Invalidate (key_of "tenantApiKeys" (JStr v.1))])
    report.

Definition useRevokeTenantApiKey : MutationHook (string * string) :=
  mkHook (fun v => revokeApiKey v.1 v.2)
    (fun _ v =>
       [Invalidate (key_of "tenantApiKeys" (JStr v.1));
        success_toast "API key revoked" "The API key has been revoked successfully."])
    report.

Record ConfigVars := mkConfigVars {
  cv_tenantId : string;
  cv_version : num;
  cv_patch : obj;
}.

Definition useUpdateTenantConfig : MutationHook ConfigVars :=
  mkHook (fun v => updateTenantConfig (cv_tenantId v) (cv_version v) (cv_patch v))
    (fun data _ =>
       reading data "tenant_id" (fun id =>
         [Invalidate (key_of "tenant" id);
          success_toast "Configuration updated" "Tenant configuration was updated successfully."]))
    report.

(** The error of this one is not shown. *)
Definition useUpdateTenantPiiConfig : MutationHook ConfigVars :=
  mkHook (fun v => updateTenantConfig (cv_tenantId v) (cv_version v) (cv_patch v))
    (fun data _ =>
       reading data "tenant_id" (fun id =>
         [Invalidate (key_of "tenant" id); ShowToast [("title", JStr "PII configuration updated")]]))
    (fun _ => [ShowToast [("title", JStr "Failed to update PII configuration");
                          ("variant", JStr "destructive")]]).

Record ProviderVars := mkProviderVars {
  pv_providerId : string;
  pv_config : obj;
  pv_version : num;
}.

(** The version of the answer goes into the cached configuration before anything is fetched
    again. *)
Definition provider_written (description : string) (data : js) (v : ProviderVars) : list Effect :=
  ((match opt_get data "version" with JNum n => [SetVersion n] | _ => [] end) ++
   [Invalidate (key "providers"); Invalidate (key_of "provider" (JStr (pv_providerId v)));
    Invalidate (key "globalConfig"); Invalidate (key "globalConfigChanges");
    success_toast "Success" description])%list.

Definition useUpdateProvider : MutationHook ProviderVars :=
  mkHook (fun v => updateProvider (pv_providerId v) (pv_config v) (pv_version v))
    (provider_written "Provider updated successfully") report.

Definition useUpdateProviderCredentials : MutationHook ProviderVars :=
  mkHook (fun v => updateProviderCredentials (pv_providerId v) (pv_config v) (pv_version v))
    (provider_written "Credentials updated successfully") report.

Definition useCreateModel : MutationHook obj :=
  mkHook createModel
    (fun _ _ => [Invalidate (key "models"); Invalidate (key "globalConfig");
                 success_toast "Success" "Model created successfully"])
    report.

Record ModelVars := mkModelVars {
  mv_modelId : string;
  mv_model : obj;
  mv_version : num;
}.

Definition useUpdateModel : MutationHook ModelVars :=
  mkHook (fun v => updateModel (mv_modelId v) (mv_model v) (mv_version v))
    (fun _ v => [Invalidate (key "models"); Invalidate (key_of "model" (JStr (mv_modelId v)));
                 Invalidate (key "globalConfig"); success_toast "Success" "Model updated successfully"])
    report.

Definition useDeleteModel : MutationHook string :=
  mkHook deleteModel
    (fun _ modelId => [Remove (key_of "model" (JStr modelId)); Invalidate (key "models");
                       Invalidate (key "globalConfig"); success_toast "Success" "Model deleted successfully"])
    report.

Definition useCreateRouteGroup (tenantId : string) : MutationHook (string * list string) :=
  mkHook (fun v => createRouteGroup tenantId v.1 v.2)
    (fun _ _ => [Invalidate (key_of "routeGroups" (JStr tenantId));
                 success_toast "Success" "Route group created successfully"])
    report.

Record GroupVars := mkGroupVars {
  gv_routeGroupId : string;
  gv_models : list string;
  gv_version : num;
}.

Definition group_key (tenantId routeGroupId : string) : list js :=
  [JStr "routeGroup"; JStr tenantId; JStr routeGroupId].

Definition useUpdateRouteGroup (tenantId : string) : MutationHook GroupVars :=
  mkHook (fun v => updateRouteGroup tenantId (gv_routeGroupId v) (gv_models v) (gv_version v))
    (fun _ v => [Invalidate (key_of "routeGroups" (JStr tenantId));
                 Invalidate (group_key tenantId (gv_routeGroupId v));
                 success_toast "Success" "Route group updated successfully"])
    report.

Definition useDeleteRouteGroup (tenantId : string) : MutationHook string :=
  mkHook (fun id => deleteRouteGroup tenantId id)
    (fun _ id => [Remove (group_key tenantId id); Invalidate (key_of "routeGroups" (JStr tenantId));
                  success_toast "Success" "Route group deleted successfully"])
    report.

Definition useUpdateGlobalConfig (storage : Storage) : MutationHook (obj * num) :=
  mkHook (fun v => updateGlobalConfig storage v.1 v.2)
    (fun data _ =>
       Invalidate (key "globalConfig") :: Invalidate (key "globalConfigChanges") ::
       reading data "version" (fun version =>
         [success_toast "Global config updated"
            ("Configuration updated to version " ++ js_to_string version ++ ".")]))
    report.
