(* ===== verification/CatalogClient.v ===== *)
(** * The hooks of the catalogue, budget, benchmark and dashboard pages, and the semantic client

    src/frontend/src/features/{model-catalog,tool-catalog,budgets,benchmarks,dashboard}/api and
    src/frontend/src/features/semantic/api/client.ts. *)

From S2P Require Import Prelude JsNumber JsText JsValue JsArray Json Effects Routes FinopsApi UsageApi ConsoleClient.
Local Open Scope string_scope.

(** ** model-catalog/api/use-model-catalog.ts *)

Record CatalogFilters := mkCatalogFilters {
  cf_provider : option string;
  cf_type : option string;
  cf_active : option bool;
}.

(** [if (v) params.set(k, v)] *)
Definition set_given (k : string) (v : option string) (ps : list (string * string))
    : list (string * string) :=
  match truthy_env v with Some t => params_set k t ps | None => ps end.

Definition with_query (path : string) (ps : list (string * string)) : string :=
  let query := params_to_string ps in
  if String.eqb query "" then path else path ++ "?" ++ query.

(** No filters are filters that are all undefined. *)
Definition fetchModelCatalog (f : CatalogFilters) : M js :=
  let params := set_given "type" (cf_type f) (set_given "provider" (cf_provider f) []) in
  let params := match cf_active f with
                | Some b => params_set "active" (if b then "true" else "false") params
                | None => params
                end in
  response ← page_get (with_query "/api/model-catalog" params);
  data ← checked "Failed to fetch model catalog" response;
  data_rows data.

Definition createModelCatalogEntry (entry : obj) : M js :=
  response ← page_send "POST" "/api/model-catalog" (JObj entry);
  checked "Failed to create model catalog entry" response.

(** The address of an entry: its two names are path segments. *)
Definition entry_url (base provider id : string) : string :=
  base ++ "/" ++ encodeURIComponent provider ++ "/" ++ encodeURIComponent id.

Definition updateModelCatalogEntry (provider id : string) (data : obj) : M js :=
  response ← page_send "PUT" (entry_url "/api/model-catalog" provider id) (JObj data);
  checked "Failed to update model catalog entry" response.

Definition deleteModelCatalogEntry (provider id : string) : M unit :=
  response ← page_call "DELETE" (entry_url "/api/model-catalog" provider id);
  if (negb (res_ok response) && negb (res_status response =? 204)%Z)%bool
  then raise_error response "Failed to delete model catalog entry" else mret tt.

Record EntryVars := mkEntryVars {
  ev_provider : string;
  ev_id : string;
  ev_data : obj;
}.

Definition refresh_list (name description : string) : list Effect :=
  [Invalidate (key name); success_toast "Success" description].

Definition useCreateModelCatalogEntry : MutationHook obj :=
  mkHook createModelCatalogEntry
    (fun _ _ => refresh_list "model-catalog" "Model catalog entry created successfully") report.
Definition useUpdateModelCatalogEntry : MutationHook EntryVars :=
  mkHook (fun v => updateModelCatalogEntry (ev_provider v) (ev_id v) (ev_data v))
    (fun _ _ => refresh_list "model-catalog" "Model catalog entry updated successfully") report.
Definition useDeleteModelCatalogEntry : MutationHook (string * string) :=
  mkHook (fun v => quietly (deleteModelCatalogEntry v.1 v.2))
    (fun _ _ => refresh_list "model-catalog" "Model catalog entry deleted successfully") report.

(** ** tool-catalog/api/use-tool-catalog.ts *)

Definition fetchToolCatalog (provider : option string) : M js :=
  response ← page_get (with_query "/api/tool-catalog" (set_given "provider" provider []));
  data ← checked "Failed to fetch tool catalog" response;
  data_rows data.

Definition createToolCatalogEntry (entry : obj) : M js :=
  response ← page_send "POST" "/api/tool-catalog" (JObj entry);
  checked "Failed to create tool catalog entry" response.

Definition updateToolCatalogEntry (provider id : string) (data : obj) : M js :=
  response ← page_send "PUT" (entry_url "/api/tool-catalog" provider id) (JObj data);
  checked "Failed to update tool catalog entry" response.

Definition deleteToolCatalogEntry (provider id : string) : M unit :=
  response ← page_call "DELETE" (entry_url "/api/tool-catalog" provider id);
  if (negb (res_ok response) && negb (res_status response =? 204)%Z)%bool
  then raise_error response "Failed to delete tool catalog entry" else mret tt.

Definition useCreateToolCatalogEntry : MutationHook obj :=
  mkHook createToolCatalogEntry
    (fun _ _ => refresh_list "tool-catalog" "Tool catalog entry created successfully") report.
Definition useUpdateToolCatalogEntry : MutationHook EntryVars :=
  mkHook (fun v => updateToolCatalogEntry (ev_provider v) (ev_id v) (ev_data v))
    (fun _ _ => refresh_list "tool-catalog" "Tool catalog entry updated successfully") report.
Definition useDeleteToolCatalogEntry : MutationHook (string * string) :=
  mkHook (fun v => quietly (deleteToolCatalogEntry v.1 v.2))
    (fun _ _ => refresh_list "tool-catalog" "Tool catalog entry deleted successfully") report.

(** ** budgets/api/use-budgets.ts *)

Definition fetchTenantBudgets : M js :=
  response ← page_get "/api/budgets/tenants";
  data ← checked_status "Failed to fetch tenant budgets" response;
  data_rows data.

(** [updateTenantBudget] of the budgets page: [{ ...request, version }] *)
Definition updateTenantBudget (tenantId : string) (request : obj) (version : num) : M js :=
  response ← page_send "PATCH" ("/api/budgets/tenants/" ++ tenantId)
               (JObj (obj_set "version" (JNum version) (obj_spread [] request)));
  checked "Failed to update budget" response.

Definition useUpdateTenantBudget : MutationHook (string * obj * num) :=
  mkHook (fun v => updateTenantBudget v.1.1 v.1.2 v.2)
    (fun _ _ => refresh_list "tenantBudgets" "Budget updated successfully") report.

(** ** benchmarks/api/use-benchmarks.ts *)

Definition parseErrorMessage (body : js) : string :=
  let fallback := "Failed to fetch benchmark model aggregates" in
  if negb (is_object body) then fallback
  else match opt_get body "error" with
       | JStr e => e
       | JObj m => if obj_has "message" m then str_of (opt_get (JObj m) "message") fallback else fallback
       | _ => fallback
       end.

Definition fetchBenchmarkModels (windowHours : num) : M js :=
  response ← page_get ("/api/benchmarks/models?window_hours=" ++ num_to_string windowHours);
  if negb (res_ok response) then
    body ← res_json_or_empty response;
    throw (error_with_status (parseErrorMessage body) (res_status response))
  else data ← res_json response; data_rows data.

(** The retry option: a denial is final, anything else is tried three times more. *)
Definition retryBenchmarks (failureCount : nat) (error : exn) : bool :=
  if (match exn_status error with Some s => denied_status s | None => false end) then false
  else Nat.ltb failureCount 3.

(** ** dashboard/api *)

(** [ensureValid] is the provider's [ensureValidSession]. *)
Definition fetchDashboard (ensureValid : M bool) : M js :=
  isValid ← ensureValid;
  if negb isValid then throw (JsError "Session expired")
  else response ← page_get "/api/dashboard"; checked "Failed to fetch dashboard data" response.

Definition unknown_error : js := JObj [("error", JObj [("message", JStr "Unknown error")])].

Definition fetchSystemHealth : M js :=
  res ← page_get "/api/system-health";
  if negb (res_ok res) then
    err ← try_catch (res_json res) (fun _ => mret unknown_error);
    e ← get err "error";
    throw (error_of (js_or (opt_get e "message") (JStr "Health check failed")))
  else res_json res.

Record HealthState := mkHealth {
  hs_data : js;
  hs_isLoading : bool;
  hs_error : option string;
}.

(** [run]: the state of the hook after a check that started from [h]. *)
Definition run_health (h : HealthState) : M HealthState := fun w s =>
  match fetchSystemHealth w s with
  | (Ok result, s') => (Ok (mkHealth result false None), s')
  | (Throw e, s') => (Ok (mkHealth (hs_data h) false (Some (exn_message e))), s')
  end.

(** ** semantic/api/client.ts *)

(** [payload.error || payload.message] of an error body *)
Definition handleResponse (res : HttpResponse) : M js :=
  if negb (res_ok res) then
    payload ← res_json_or_empty res;
    e ← get payload "error";
    throw (error_of (js_or (js_or e (opt_get payload "message")) (JStr "Request failed")))
  else res_json res.

Record AnchorParams := mkAnchorParams {
  ap_limit : option num;
  ap_offset : option num;
  ap_includeAnchorText : bool;
  ap_tenantId : option string;
}.

Definition set_num (k : string) (v : option num) (ps : list (string * string))
    : list (string * string) :=
  match v with Some n => params_set k (num_to_string n) ps | None => ps end.

Definition anchor_params (p : AnchorParams) : list (string * string) :=
  let search := set_num "offset" (ap_offset p) (set_num "limit" (ap_limit p) []) in
  let search := if ap_includeAnchorText p then params_set "include_anchor_text" "true" search else search in
  set_given "tenant_id" (ap_tenantId p) search.

Definition listSemanticAnchors (p : AnchorParams) : M js :=
  res ← page_get ("/api/semantic/anchors?" ++ params_to_string (anchor_params p));
  payload ← handleResponse res;
  mret (match payload with
        | JArr l => JObj [("data", JArr l)]
        | JObj _ =>
            match js_or (opt_get payload "anchors") (opt_get payload "data") with
            | JArr l => JObj [("data", JArr l); ("pagination", opt_get payload "pagination");
                              ("tenant_id", opt_get payload "tenant_id")]
            | _ => payload
            end
        | _ => payload
        end).

(** The tenant goes into the query, the rest of the payload is the body. *)
Definition createSemanticAnchor (tenantId : option string) (bodyPayload : obj) : M js :=
  res ← page_send "POST" (with_query "/api/semantic/anchors" (set_given "tenant_id" tenantId []))
          (JObj bodyPayload);
  handleResponse res.

Definition tenant_query (tenantId : string) : string := params_to_string [("tenant_id", tenantId)].
Definition anchor_url (tenantId name : string) : string :=
  "/api/semantic/anchors/" ++ encodeURIComponent name ++ "?" ++ tenant_query tenantId.

Definition patchSemanticAnchor (tenantId name : string) (payload : obj) : M js :=
  res ← page_send "PATCH" (anchor_url tenantId name) (JObj payload);
  handleResponse res.

(** [throw new Error(payload.error || fallback)], an unreadable body being empty *)
Definition raise_payload {A} (res : HttpResponse) (fallback : string) : M A :=
  payload ← res_json_or_empty res;
  e ← get payload "error";
  throw (error_of (js_or e (JStr fallback))).

Definition deleteSemanticAnchor (tenantId name : string) : M unit :=
  res ← page_call "DELETE" (anchor_url tenantId name);
  if negb (res_ok res) then raise_payload res "Failed to delete anchor" else mret tt.

Definition runSemanticTest (text : string) (tenantId : js) : M js :=
  res ← page_send "POST" "/api/semantic/test" (JObj [("text", JStr text); ("tenant_id", tenantId)]);
  handleResponse res.

Definition listAdminModels : M (list js) :=
  res ← page_get "/api/admin/models";
  payload ← handleResponse res;
  mret (match payload with JArr l => l | _ => js_array (opt_get payload "data") end).

Definition suggestSemanticAnchors (dataset : list string) (max_clusters tenantId : js) : M js :=
  res ← page_send "POST" "/api/semantic/suggest"
          (JObj [("dataset", JArr (map JStr dataset)); ("max_clusters", max_clusters);
                 ("tenant_id", tenantId)]);
  handleResponse res.

Definition calibrateSemanticThreshold (dataset : list (string * string)) (tenantId : string) : M js :=
  res ← page_send "POST" "/api/semantic/calibrate"
          (JObj [("dataset", JArr (map (fun d => JObj [("text", JStr d.1); ("route", JStr d.2)]) dataset));
                 ("tenant_id", JStr tenantId)]);
  handleResponse res.

Definition listSemanticRoutes (tenantId : string) : M (list js) :=
  res ← page_get ("/api/semantic/routes?" ++ tenant_query tenantId);
  payload ← handleResponse res;
  mret (match payload with
        | JArr l => l
        | _ => match opt_get payload "routes" with
               | JArr l => l
               | _ => js_array (opt_get payload "data")
               end
        end).

Definition createSemanticRoute (tenantId : string) (payload : obj) : M js :=
  res ← page_send "POST" ("/api/semantic/routes?" ++ tenant_query tenantId) (JObj payload);
  handleResponse res.

Definition deleteSemanticRoute (tenantId name : string) : M unit :=
  res ← page_call "DELETE" ("/api/semantic/routes/" ++ encodeURIComponent name ++ "?"
                              ++ tenant_query tenantId);
  if negb (res_ok res) then raise_payload res "Failed to delete route" else mret tt.

Definition getSemanticThreshold (tenantId : string) : M js :=
  res ← page_get ("/api/semantic/threshold?tenant_id=" ++ encodeURIComponent tenantId);
  handleResponse res.

Definition updateSemanticThreshold (tenant_id : string) (threshold_default : num) : M js :=
  res ← page_send "PATCH" "/api/semantic/threshold"
          (JObj [("tenant_id", JStr tenant_id); ("threshold_default", JNum threshold_default)]);
  handleResponse res.
