(* ===== verification/DashboardPage.v ===== *)
(** * The dashboard

    src/frontend/src/app/(app)/dashboard/page.tsx and src/frontend/src/features/dashboard/components:
    the cards of the dashboard with what they count, the best models, the version of the
    console, the health card over its hook, and the panels that read the global configuration
    under its several spellings. *)

From S2P Require Import Prelude JsNumber JsText JsValue JsArray NumOrder Json Effects Oidc BrowserAuth Shell Csv ConfigView UsageApi ConsoleClient CatalogClient.
Import ConfigRead.
Local Open Scope string_scope.

(** ** The version of the console *)

(** The effect of the page: None leaves the dash.  The answer of a page that was left is dropped. *)
Definition loadVersion (mounted : bool) : M (option (js * js)) :=
  try_catch
    (res ← page_get "/api/version";
     if negb (res_ok res) then mret None
     else v ← res_json res;
          version ← get v "version"; details ← get v "details";
          mret (if mounted then Some (version, details) else None))
    (fun _ => mret None).

(** ** What the cards count *)

Definition bench_of (v : js) : BenchmarkModelAggregate :=
  let n k := js_to_number (opt_get v k) in
  mkBenchmark (js_to_string (opt_get v "model")) (js_to_string (opt_get v "provider")) (n "avg_latency_ms") (n "p95_latency_ms")
    (n "success_rate") (n "avg_cost_usd") (n "samples").

(** [modelBenchmarks && modelBenchmarks.length > 0 ? modelBenchmarks : (data?.benchmarks ?? [])] *)
Definition benchmarks (modelBenchmarks data : js) : list BenchmarkModelAggregate :=
  map bench_of (match js_array modelBenchmarks with
                | [] => js_array (js_coalesce (opt_get data "benchmarks") (JArr []))
                | rows => rows
                end).

Definition totalBudgetUSD (tenantBudgets : js) : option num :=
  if truthy tenantBudgets then Some (sum_by (fun b => num_of (opt_get b "monthly_usd") num_zero) (js_array tenantBudgets))
  else None.

Definition fastestModel (rows : list BenchmarkModelAggregate) : option BenchmarkModelAggregate :=
  best_by (fun b best => num_ltb (bm_avg_latency_ms b) (bm_avg_latency_ms best)) rows.
Definition withCost (rows : list BenchmarkModelAggregate) : list BenchmarkModelAggregate :=
  List.filter (fun b => num_gtb (bm_avg_cost_usd b) num_zero) rows.
Definition cheapestModel (rows : list BenchmarkModelAggregate) : option BenchmarkModelAggregate :=
  best_by (fun b best => num_ltb (bm_avg_cost_usd b) (bm_avg_cost_usd best)) (withCost rows).
Definition mostReliableModel (rows : list BenchmarkModelAggregate) : option BenchmarkModelAggregate :=
  best_by (fun b best => num_gtb (bm_success_rate b) (bm_success_rate best)) rows.

Definition array_length (v : js) : option nat := match v with JArr l => Some (List.length l) | _ => None end.
(** [Object.keys] of an object or an array *)
Definition keys_count (v : js) : option nat :=
  match v with JObj m => Some (List.length m) | JArr l => Some (List.length l) | _ => None end.
Definition first_count (a b : option nat) : nat := match a, b with Some n, _ | None, Some n => n | None, None => 0 end.

Definition modelsCount (globalConfig data : js) : nat :=
  first_count (array_length (opt_get globalConfig "models")) (array_length (opt_get data "models")).
Definition providersCount (globalConfig data : js) : nat :=
  first_count (keys_count (opt_get globalConfig "providers")) (array_length (opt_get data "providers")).
Definition routeGroupsCount (globalConfig data : js) : nat :=
  first_count (array_length (opt_get globalConfig "route_groups")) (array_length (opt_get data "routeGroups")).

(** ** The cards *)

Record StatCard := mkCard { sc_title : string; sc_value : string; sc_description : string; sc_href : option string }.

Inductive Pane (A : Type) := Skeletons | Failed (message : string) | Shown (content : A).
Arguments Skeletons {A}.
Arguments Failed {A}.
Arguments Shown {A}.

Section Cards.
(** [toLocaleString('en-US', { maximumFractionDigits: 0 })] *)
Context (locale : num -> string).

Definition nat_text (n : nat) : string := Z_to_string (Z.of_nat n).
Definition model_card (title : string) (best : option BenchmarkModelAggregate) (text : BenchmarkModelAggregate -> string) : StatCard :=
  match best with
  | Some b => mkCard title (bm_model b) (text b) (Some "/observability")
  | None => mkCard title "—" "No benchmark data" (Some "/observability")
  end.

Definition summaryCards (data globalConfig modelBenchmarks tenantBudgets : js) : option (list StatCard) :=
  if (negb (truthy data) && negb (truthy globalConfig))%bool then None
  else
    let version := opt_get data "version" in
    let text v d := js_to_string (js_or v (JStr d)) in
    let rows := benchmarks modelBenchmarks data in
    Some [mkCard "Backend Version" (text (opt_get version "backend_version") "Unknown")
            (text (opt_get version "release_notes") "No release notes") None;
          mkCard "Tenants" (nat_text (match array_length (opt_get data "tenants") with Some n => n | None => 0 end)) "View tenants" (Some "/tenants");
          mkCard "Models" (nat_text (modelsCount globalConfig data)) "View models" (Some "/models");
          mkCard "Providers" (nat_text (providersCount globalConfig data)) "View providers" (Some "/providers");
          mkCard "Route Groups" (nat_text (routeGroupsCount globalConfig data)) "View route groups" (Some "/route-groups");
          mkCard "Total Budget" (match totalBudgetUSD tenantBudgets with Some sum => "$" ++ locale sum | None => "—" end)
            "Sum of monthly budgets" (Some "/budgets");
          model_card "Fastest Model" (fastestModel rows) (fun b => to_fixed 0 (bm_avg_latency_ms b) ++ " ms avg latency");
          model_card "Cheapest Model" (cheapestModel rows) (fun b => "$" ++ to_fixed 6 (bm_avg_cost_usd b) ++ " avg cost");
          model_card "Most Reliable" (mostReliableModel rows)
            (fun b => to_fixed 1 (num_mul (bm_success_rate b) (num_of_Z 100)) ++ "% success rate")].

(** ** The page *)

(** [SystemInfoPanel]: the rows, the notes among them only when there are some *)
Definition SystemInfoPanel (version : js) : list (string * string) :=
  if negb (truthy version) then []
  else
    let t k := js_to_string (js_or (opt_get version k) (JStr "Unknown")) in
    [("Service", t "service"); ("Version", t "backend_version"); ("Git Commit", t "git_commit"); ("Build Time", t "build_time")] ++
    (if truthy (opt_get version "release_notes") then [("Release Notes", js_to_string (opt_get version "release_notes"))] else []).

Definition pane {A} (isLoading : bool) (error : option exn) (data : js) (content : A) : Pane A :=
  if (isLoading && negb (truthy data))%bool then Skeletons
  else match error with
       | Some e => if truthy data then Shown content else Failed (exn_message e)
       | None => Shown content
       end.

Record DashboardView := mkDashboard {
  dv_feVersion : string;
  dv_details : option string;
  dv_cards : Pane (option (list StatCard));
  dv_system : Pane (list (string * string));
}.

Definition DashboardContent (isLoading : bool) (error : option exn) (data globalConfigData modelBenchmarks tenantBudgets : js)
    (feVersion : option (js * js)) : DashboardView :=
  mkDashboard
    (match feVersion with Some (v, _) => str_of v "—" | None => "—" end)
    (match feVersion with Some (_, d) => if truthy d then Some (js_to_string d) else None | None => None end)
    (pane isLoading error data (summaryCards data (opt_get globalConfigData "config") modelBenchmarks tenantBudgets))
    (pane isLoading error data (if truthy data then SystemInfoPanel (opt_get data "version") else [])).
End Cards.

(** ** The health card *)

Record CheckRow := mkCheck { ck_label : string; ck_status : js; ck_error : option string; ck_tables : option (js * js * list js) }.

Definition check_row (label : string) (item : js) : CheckRow :=
  mkCheck label (opt_get item "status")
    (if truthy (opt_get item "error") then Some (js_to_string (opt_get item "error")) else None)
    (if is_undefined (opt_get item "expected") then None
     else Some (opt_get item "found", opt_get item "expected", js_array (opt_get item "missing"))).

Definition loadingItem : js := JObj [("status", JStr "loading")].
Definition health_item (h : HealthState) (k : string) : js :=
  if (hs_isLoading h && negb (truthy (hs_data h)))%bool then loadingItem else js_coalesce (opt_get (hs_data h) k) loadingItem.

(** The message over the rows, and the rows; the icon and colour of a status *)
Definition SystemHealthCard (h : HealthState) : option string * list CheckRow :=
  (match hs_error h with Some e => if truthy (hs_data h) || String.eqb e "" then None else Some e | None => None end,
   map (fun lk => check_row lk.1 (health_item h lk.2))
     [("Gateway", "gateway"); ("PostgreSQL", "postgres"); ("Tables", "tables"); ("Redis", "redis"); ("Keycloak", "keycloak")]).

Inductive Icon := Spinner | CheckCircle | MinusCircle | XCircle.
Definition StatusIcon (status : js) : Icon :=
  if is_str status "loading" then Spinner else if is_str status "ok" then CheckCircle
  else if is_str status "disabled" then MinusCircle else XCircle.

(** ** The panels over the global configuration *)

Inductive Cell := NotAvailable | NotConfigured | TextCell (text : string) | BadgeCell (on : bool) (label : string).

Inductive PanelView := PanelLoading | PanelFailed (message : string) | PanelShown (cards : list (string * list (string * Cell))).
Definition panel_view (isLoading : bool) (error : option exn) (cards : list (string * list (string * Cell))) : PanelView :=
  if isLoading then PanelLoading
  else match error with Some e => PanelFailed (exn_message e) | None => PanelShown cards end.

Definition is_blank (v : js) : bool := match v with JNull => true | JStr "" => true | _ => false end.
Definition core_ValueText (v : js) : Cell :=
  if is_undefined v then NotAvailable else if is_blank v then NotConfigured else TextCell (js_to_string v).
Definition BooleanBadge (v : js) (yesLabel noLabel : string) : Cell :=
  if is_undefined v then NotAvailable else if is_blank v then NotConfigured
  else BadgeCell (truthy v) (if truthy v then yesLabel else noLabel).

Definition circuit_enabled_paths : list string :=
  ["circuit_breaker.Defaults.Enabled"; "circuit_breaker.defaults.enabled"; "circuit_breaker.enabled"; "CircuitBreaker.Defaults.Enabled"].
Definition circuit_backend_paths : list string := ["circuit_breaker.Backend"; "circuit_breaker.backend"; "CircuitBreaker.Backend"].
Definition auth_mode_paths : list string := ["auth.mode"; "auth.Mode"; "Auth.Mode"].
Definition rate_backend_paths : list string := ["rate_limit.Backend"; "rate_limit.backend"; "RateLimit.Backend"].

Definition SystemCorePanel (config : js) : list (string * list (string * Cell)) :=
  let text paths := core_ValueText (getFirstValue config paths) in
  let flag paths := BooleanBadge (getFirstValue config paths) in
  [("Circuit Breaker",
    [("Enabled", flag circuit_enabled_paths "Enabled" "Disabled"); ("Backend", text circuit_backend_paths);
     ("Fail Open", flag ["circuit_breaker.fail_open"; "circuit_breaker.FailOpen"; "circuit_breaker.Defaults.FailOpen";
                         "circuit_breaker.Redis.fail_open"; "circuit_breaker.Redis.FailOpen"; "CircuitBreaker.fail_open";
                         "CircuitBreaker.FailOpen"; "CircuitBreaker.Defaults.FailOpen"] "Yes" "No");
     ("Redis Address", text ["circuit_breaker.Redis.Addr"; "circuit_breaker.Redis.addr"; "circuit_breaker.redis.addr";
                             "CircuitBreaker.Redis.Addr"; "CircuitBreaker.redis.addr"])]);
   ("Auth",
    [("Mode", text auth_mode_paths); ("JWT Issuer", text ["auth.jwt.issuer"; "auth.jwt.Issuer"]);
     ("Audience", text ["auth.jwt.audience"; "auth.jwt.Audience"]);
     ("Auth Role Model", flag ["auth.jwt.rbac"; "auth.jwt.required_claims"] "Available" "Not Available")]);
   ("Rate Limit",
    [("Backend", text rate_backend_paths);
     ("Redis", text ["rate_limit.Redis.Addr"; "rate_limit.redis.addr"; "RateLimit.Redis.Addr"]);
     ("Key Prefix", text ["rate_limit.Redis.KeyPrefix"; "rate_limit.redis.key_prefix"; "RateLimit.Redis.KeyPrefix"]);
     ("Fail Open", flag ["rate_limit.Redis.FailOpen"; "rate_limit.Redis.fail_open"; "rate_limit.redis.fail_open";
                         "RateLimit.Redis.FailOpen"] "Yes" "No")])].

Definition formatAuthSummary (mode : string) : string :=
  let normalized := str_lower mode in
  if String.eqb mode "" then "Not available"
  else if String.eqb normalized "both" then "JWT + API Keys"
  else if String.eqb normalized "jwt" then "JWT"
  else if (String.eqb normalized "api_key" || String.eqb normalized "api-key")%bool then "API Keys"
  else mode.
Definition formatBackendSummary (backend : string) : string :=
  if String.eqb backend "" then "Not available"
  else if str_includes "redis" (str_lower backend) then "Redis-backed" else backend.
Definition text_or_empty (v : js) : string := if truthy v then js_to_string v else "".
Definition circuitSummary (enabled backend : js) : string :=
  if nullish enabled then "Not available"
  else (if truthy enabled then "Enabled" else "Disabled") ++ (if truthy backend then ", " ++ js_to_string backend else "").
Definition SecurityRuntimePanel (config : js) : list (string * list (string * Cell)) :=
  [("Auth", [("Auth", TextCell (formatAuthSummary (text_or_empty (getFirstValue config auth_mode_paths))))]);
   ("Rate Limit", [("Rate Limit", TextCell (formatBackendSummary (text_or_empty (getFirstValue config rate_backend_paths))))]);
   ("Circuit Breaker", [("Circuit Breaker", TextCell (circuitSummary (getFirstValue config circuit_enabled_paths)
                                                        (getFirstValue config circuit_backend_paths)))])].

Definition FeatureFlagsPanel (config : js) : list (string * Cell) :=
  map (fun f => (f.1, let v := getFirstValue config f.2 in
                      if nullish v then NotAvailable
                      else BadgeCell (truthy v) (if truthy v then "Enabled" else "Disabled")))
    [("Budget Enforcement", ["budget.enforcement_enabled"; "budget_enforcement"]);
     ("Dynamic Routes", ["routing.dynamic_routes"; "routing.dynamic_routes_enabled"; "dynamic_routes"]);
     ("Semantic Cache", ["semantic.cache_enabled"; "semantic_cache"]);
     ("Semantic Routing", ["semantic.enabled"; "semantic_routing"]);
     ("Tool Routing", ["tool_routing.enabled"; "tool_routing_enabled"])].

Definition overview_ValueText (v : js) : Cell := if (nullish v || is_blank v)%bool then NotAvailable else TextCell (js_to_string v).
Definition formatWeight (v : js) : js :=
  if nullish v then JUndef
  else let n := js_to_number v in if num_is_finite n then JStr (to_fixed 2 n) else JUndef.
Definition weight_paths (lower upper flat : string) : list string :=
  ["routing.smart.weights." ++ lower; "routing.smart.weights." ++ upper; "routing.Smart.Weights." ++ upper;
   "smart_routing.weights." ++ lower; "smart_routing.weight_" ++ flat; "benchmarking.routing_integration.weight_" ++ flat].

(** The cards, and the names of the stages *)
Definition RoutingOverviewPanel (config : js) : list (string * list (string * Cell)) * list js :=
  let first := getFirstValue config in
  let enabled := first ["routing.fallback.enabled"; "routing.fallback_enabled"; "routing.fallback.Enabled"] in
  ([("Strategy", [("Strategy", overview_ValueText (first ["routing.strategy"; "routing_strategy"; "routing.Strategy"]))]);
    ("Smart Routing Weights",
     [("Cost", overview_ValueText (formatWeight (first (weight_paths "cost" "Cost" "cost"))));
      ("Latency", overview_ValueText (formatWeight (first (weight_paths "latency" "Latency" "latency"))));
      ("Errors", overview_ValueText (formatWeight (first (weight_paths "errors" "Errors" "error_rate"))))]);
    ("Fallback",
     [("Enabled", if nullish enabled then NotAvailable
                  else BadgeCell (truthy enabled) (if truthy enabled then "Enabled" else "Disabled"));
      ("Timeout", overview_ValueText (formatDurationMs (first ["routing.fallback.timeout_ms"; "routing.fallback_timeout_ms";
                                                              "routing.fallback.TimeoutMs"])));
      ("Max Attempts", overview_ValueText (first ["routing.fallback.max_attempts"; "routing.max_attempts"; "routing.fallback.MaxAttempts"]))])],
   js_array (first ["routing.smart.stages"; "routing.smart.Stages"; "routing.Smart.Stages"; "smart_routing.stages"; "routing.stages"])).

(** A row of the table of benchmarks *)
Definition benchmark_cells (b : BenchmarkModelAggregate) : list string :=
  [bm_model b; bm_provider b; num_to_string (num_round (bm_avg_latency_ms b)) ++ "ms";
   num_to_string (num_round (bm_p95_latency_ms b)) ++ "ms"; to_fixed 1 (num_mul (bm_success_rate b) (num_of_Z 100)) ++ "%";
   "$" ++ to_fixed 6 (bm_avg_cost_usd b); num_to_string (bm_samples b)].

(** ** The best models *)

Definition row_ok (row : BenchmarkModelAggregate) : Prop :=
  num_ok (bm_avg_cost_usd row) = true /\ num_ok (bm_avg_latency_ms row) = true /\ num_ok (bm_success_rate row) = true.

(** The three models of the dashboard: with rows of finite numbers each is one of the rows, none is
    faster, none of those that cost something is cheaper, none is more reliable; and a card is
    empty only when there is no row, or for the cheapest no row that costs something. *)
Theorem dashboard_best_models (rows : list BenchmarkModelAggregate) :
  Forall row_ok rows ->
  match fastestModel rows with
  | Some b => In b rows /\ Forall (fun r => num_ltb (bm_avg_latency_ms r) (bm_avg_latency_ms b) = false) rows
  | None => rows = []
  end /\
  match cheapestModel rows with
  | Some b => In b rows /\ num_gtb (bm_avg_cost_usd b) num_zero = true /\
              Forall (fun r => num_gtb (bm_avg_cost_usd r) num_zero = true -> num_ltb (bm_avg_cost_usd r) (bm_avg_cost_usd b) = false) rows
  | None => Forall (fun r => num_gtb (bm_avg_cost_usd r) num_zero = false) rows
  end /\
  match mostReliableModel rows with
  | Some b => In b rows /\ Forall (fun r => num_gtb (bm_success_rate r) (bm_success_rate b) = false) rows
  | None => rows = []
  end.
Proof.
  intros Hok. rewrite List.Forall_forall in Hok. split; [|split].
  - apply best_least_by. apply List.Forall_forall. intros r Hr. apply Hok, Hr.
  - assert (Hc : Forall (fun r => num_ok (bm_avg_cost_usd r) = true) (withCost rows)).
    { apply List.Forall_forall. intros r [Hr _]%filter_In. apply Hok, Hr. }
    pose proof (best_least_by bm_avg_cost_usd (withCost rows) Hc) as H. unfold cheapestModel.
    assert (Hin : forall r, In r rows -> num_gtb (bm_avg_cost_usd r) num_zero = true -> In r (withCost rows))
      by (intros; by apply filter_In).
    destruct (best_by _ _) as [b|].
    + destruct H as [[Hb Hp]%filter_In Hmin]. rewrite List.Forall_forall in *. auto.
    + apply List.Forall_forall. intros r Hr. destruct (num_gtb _ _) eqn:E; [|done].
      specialize (Hin r Hr E). by rewrite H in Hin.
  - apply best_most_by. apply List.Forall_forall. intros r Hr. apply Hok, Hr.
Qed.

(** ** The page shows data it has *)

(** Once the dashboard has been read, a later error of a refetch hides neither the cards nor the
    system information; an error is shown exactly while there is no data. *)
Theorem dashboard_keeps_data (locale : num -> string) (isLoading : bool) (error : option exn)
    (data globalConfigData modelBenchmarks tenantBudgets : js) (fe : option (js * js)) :
  let view := DashboardContent locale isLoading error data globalConfigData modelBenchmarks tenantBudgets fe in
  (truthy data = true ->
     (exists cards, dv_cards view = Shown (Some cards)) /\ dv_system view = Shown (SystemInfoPanel (opt_get data "version"))) /\
  (forall m, dv_cards view = Failed m <-> isLoading = false /\ truthy data = false /\ exists e, error = Some e /\ m = exn_message e).
Proof.
  cbn. unfold pane, summaryCards. split.
  - intros ->. rewrite andb_false_r. destruct error; eauto.
  - intros m. destruct isLoading, (truthy data), error as [e|]; cbn; split; try done;
      try (intros [? [? [? [[=] ?]]]]; done); try (intros (? & ? & ? & ? & ?); done).
    + intros [= <-]. eauto.
    + intros (_ & _ & e' & [= ->] & ->). done.
Qed.

(** ** The health card *)

(** A check that fails after one that succeeded leaves the old rows with no word of the failure. *)
Theorem failed_recheck_unreported (h : HealthState) (w : World) (s s' : State) (e : exn) :
  fetchSystemHealth w s = (Throw e, s') -> truthy (hs_data h) = true -> hs_isLoading h = false -> hs_error h = None ->
  exists h', run_health h w s = (Ok h', s') /\ SystemHealthCard h' = SystemHealthCard h.
Proof.
  intros Hf Hd Hl He. unfold run_health. rewrite Hf. eexists. split; [done|].
  unfold SystemHealthCard, health_item. cbn. by rewrite Hd, Hl, He.
Qed.

(** A first check that fails leaves every row loading for good. *)
Theorem failed_check_keeps_loading (w : World) (s s' : State) (e : exn) :
  fetchSystemHealth w s = (Throw e, s') ->
  exists h', run_health (mkHealth JNull true None) w s = (Ok h', s') /\ hs_isLoading h' = false /\
             Forall (fun row => StatusIcon (ck_status row) = Spinner) (SystemHealthCard h').2.
Proof.
  intros Hf. unfold run_health. rewrite Hf. eexists. split; [done|]. split; [done|]. repeat constructor.
Qed.

(** ** The panels *)

(** Two panels read the circuit breaker in the same places: where the one has a badge, the other
    starts with its label. *)
Theorem panels_agree_on_circuit (config : js) (on : bool) (label : string) :
  BooleanBadge (getFirstValue config circuit_enabled_paths) "Enabled" "Disabled" = BadgeCell on label ->
  exists rest, circuitSummary (getFirstValue config circuit_enabled_paths) (getFirstValue config circuit_backend_paths) = label ++ rest.
Proof.
  unfold BooleanBadge, circuitSummary. set (v := getFirstValue config circuit_enabled_paths).
  destruct (is_undefined v) eqn:Hu; [done|]. destruct (is_blank v) eqn:Hb; [done|]. intros [= _ <-].
  assert (Hn : nullish v = false) by (by destruct v). rewrite Hn. eauto.
Qed.

(** ** Links of the dashboard *)

(** The dashboard is shown to every role, with links to pages the role may not open. *)
Theorem dashboard_links_denied :
  Forall (fun href => shows href (signed_in User) = false) ["/route-groups"; "/budgets"; "/observability"] /\
  shows "/dashboard" (signed_in User) = true.
Proof. split; [repeat constructor|]; reflexivity. Qed.
