(* ===== verification/ConsoleFacts.v ===== *)
(** * What the pages' writes do

    The mutations of [ConsoleClient] and [CatalogClient] as one table; how a refused write is
    reported; which queries a successful one refreshes; and a write followed through the
    console's own route to the gateway. *)

From stdpp Require Import list.
From S2P Require Import Prelude JsNumber JsText JsValue JsArray Json JsonRoundTrip Effects GatewayClient GatewayFacts Routes ModelsApi TenantsApi FinopsApi UsageApi ConsoleClient CatalogClient.
Local Open Scope string_scope.

(** ** The mutations *)

(** A mutation, with the keys of the queries of its feature that show what it changes. *)
Inductive AnyHook : Type :=
| Hook {V : Type} (h : MutationHook V) (shown : js -> V -> list (list js)).

Definition tenant_keys (data : js) : list (list js) := [key_of "tenant" (opt_get data "tenant_id")].

Definition reporting_mutations (storage : Storage) (tenantId : string) : list AnyHook :=
  [Hook useCreateTenant (fun _ _ => [key "tenants"]);
   Hook ConsoleClient.useUpdateTenantBudget (fun data _ => key "tenants" :: tenant_keys data);
   Hook useDeleteTenant (fun _ id => [key "tenants"; key_of "tenant" (JStr id)]);
   Hook useCreateTenantApiKey (fun _ v => [key_of "tenantApiKeys" (JStr (kv_tenantId v))]);
   Hook useRotateTenantApiKey (fun _ v => [key_of "tenantApiKeys" (JStr v.1)]);
   Hook useRevokeTenantApiKey (fun _ v => [key_of "tenantApiKeys" (JStr v.1)]);
   Hook useUpdateTenantConfig (fun data _ => tenant_keys data);
   Hook useUpdateProvider (fun _ v => [key "providers"; key_of "provider" (JStr (pv_providerId v));
                                       key "globalConfig"]);
   Hook useUpdateProviderCredentials (fun _ v => [key "providers"; key_of "provider" (JStr (pv_providerId v));
                                                  key "globalConfig"]);
   Hook useCreateModel (fun _ _ => [key "models"; key "globalConfig"]);
   Hook useUpdateModel (fun _ v => [key "models"; key_of "model" (JStr (mv_modelId v)); key "globalConfig"]);
   Hook useDeleteModel (fun _ id => [key "models"; key_of "model" (JStr id); key "globalConfig"]);
   Hook (useCreateRouteGroup tenantId) (fun _ _ => [key_of "routeGroups" (JStr tenantId)]);
   Hook (useUpdateRouteGroup tenantId) (fun _ v => [key_of "routeGroups" (JStr tenantId);
                                                    group_key tenantId (gv_routeGroupId v)]);
   Hook (useDeleteRouteGroup tenantId) (fun _ id => [key_of "routeGroups" (JStr tenantId);
                                                     group_key tenantId id]);
   Hook (useUpdateGlobalConfig storage) (fun _ _ => [key "globalConfig"; key "globalConfigChanges"]);
   Hook useCreateModelCatalogEntry (fun _ _ => [key "model-catalog"]);
   Hook useUpdateModelCatalogEntry (fun _ _ => [key "model-catalog"]);
   Hook useDeleteModelCatalogEntry (fun _ _ => [key "model-catalog"]);
   Hook useCreateToolCatalogEntry (fun _ _ => [key "tool-catalog"]);
   Hook useUpdateToolCatalogEntry (fun _ _ => [key "tool-catalog"]);
   Hook useDeleteToolCatalogEntry (fun _ _ => [key "tool-catalog"]);
   Hook CatalogClient.useUpdateTenantBudget (fun _ _ => [key "tenantBudgets"])].

(** The mutation of the PII page keeps its error to itself. *)
Definition all_mutations (storage : Storage) (tenantId : string) : list AnyHook :=
  Hook useUpdateTenantPiiConfig (fun data _ => tenant_keys data)
    :: reporting_mutations storage tenantId.

(** ** A refused write *)

(** An answer that refuses with a text the pages can show *)
Definition refuses (res : HttpResponse) (text : string) : Prop :=
  res_ok res = false /\
  exists t body, res_body res = Some t /\ json_parse t = Some body /\
                 opt_get body "error" = JStr text /\ text <> "".

(** [m] sends one request and, when it is refused, rejects with the text. *)
Definition reports_refusal {A} (m : M A) : Prop :=
  forall w s res text, (forall q, net w (sent s) q = Ok res) -> refuses res text ->
  exists q, m w s = (Throw (JsError text), mkState (sent s ++ [q])%list (ticks s)).

Lemma raise_error_refused {A} (res : HttpResponse) (text fallback : string) (w : World) (s : State) :
  refuses res text -> @raise_error A res fallback w s = (Throw (JsError text), s).
Proof.
  intros (_ & t & body & Hb & Hp & He & Hne).
  unfold raise_error, res_json, res_text, parse_text, get, mbind, M_bind. rewrite Hb. cbn. rewrite Hp.
  cbn. assert (nullish body = false) as -> by (by destruct body). cbn. rewrite He. unfold js_or, truthy.
  by destruct (String.eqb_spec text "").
Qed.

Lemma reports_fetch {A} (q : HttpRequest) (k : HttpResponse -> M A) :
  (forall res text w s, refuses res text -> k res w s = (Throw (JsError text), s)) ->
  reports_refusal (response ← page_fetch q; k response).
Proof.
  intros Hk w s res text Hn Hr. exists q. unfold page_fetch, mbind, M_bind. rewrite Hn.
  by apply Hk.
Qed.

Lemma checked_refused (fallback : string) (res : HttpResponse) (text : string) (w : World) (s : State) :
  refuses res text -> checked fallback res w s = (Throw (JsError text), s).
Proof. intros H. unfold checked. rewrite (proj1 H). cbn [negb]. by apply raise_error_refused. Qed.

Lemma deleted_refused (fallback done : string) (res : HttpResponse) (text : string) (w : World) (s : State) :
  refuses res text -> deleted fallback done res w s = (Throw (JsError text), s).
Proof. intros H. unfold deleted. rewrite (proj1 H). cbn [negb]. by apply raise_error_refused. Qed.

Lemma refused_not_204 (res : HttpResponse) (text : string) :
  refuses res text -> (res_status res =? 204)%Z = false.
Proof.
  intros [H _]. apply Z.eqb_neq. intros E. unfold res_ok in H. by rewrite E in H.
Qed.

Lemma reports_quietly (m : M unit) : reports_refusal m -> reports_refusal (quietly m).
Proof.
  intros H w s res text Hn Hr. destruct (H w s res text Hn Hr) as [q E]. exists q.
  unfold quietly, mbind, M_bind. by rewrite E.
Qed.

Create HintDb refusal.
#[export] Hint Resolve checked_refused deleted_refused raise_error_refused reports_quietly : refusal.

(** A function of the pages that is one fetch and a check *)
Ltac refusal :=
  try apply reports_quietly; apply reports_fetch; intros res text w s Hr;
  rewrite ?(proj1 Hr), ?(refused_not_204 res text Hr); cbn [negb andb]; auto with refusal.

Lemma mutations_report (storage : Storage) (tenantId : string) :
  Forall (fun a => match a with Hook h _ =>
            (forall v, reports_refusal (mutationFn h v)) /\ (forall e, onError h e = [error_toast e]) end)
    (reporting_mutations storage tenantId).
Proof. repeat constructor; intros v; cbn; refusal. Qed.

(** C30: A write the console's server refuses with a text is reported with that text: for
    each of the 23 mutations that show their errors, whatever is written, one request is sent,
    the only effect is the error toast with the server's text, and no cached query is touched. *)
Theorem refused_writes_reported (storage : Storage) (tenantId : string) (V : Type)
    (h : MutationHook V) (shown : js -> V -> list (list js)) (v : V) (w : World) (s : State)
    (res : HttpResponse) (text : string) :
  In (Hook h shown) (reporting_mutations storage tenantId) ->
  (forall q, net w (sent s) q = Ok res) -> refuses res text ->
  (exists q, sent (mutationFn h v w s).2 = (sent s ++ [q])%list) /\
  forall fx, settles h v w s fx <-> fx = [error_toast (JsError text)].
Proof.
  intros Hin Hn Hr.
  assert (H := mutations_report storage tenantId). rewrite List.Forall_forall in H.
  destruct (H _ Hin) as [Hm He]. destruct (Hm v w s res text Hn Hr) as [q E].
  split; [exists q; by rewrite E|]. intros fx. split.
  - intros [data s' E'|e s' E']; rewrite E in E'; [done|]. injection E' as <- _. by rewrite He.
  - intros ->. rewrite <- He. eapply settles_error, E.
Qed.

Definition conflict : HttpResponse :=
  mkHttpResponse 409 "" [] (Some (json_str (error_body "version conflict"))).

Lemma refused_writes_reported_witness :
  let w := demo_world [] (fun _ => Ok conflict) in
  let v := mkConfigVars "acme" (num_of_Z 3) [] in
  (exists q, sent (mutationFn useUpdateTenantConfig v w start).2 = [q]) /\
  forall fx, settles useUpdateTenantConfig v w start fx <->
             fx = [error_toast (JsError "version conflict")].
Proof.
  apply (refused_writes_reported None "acme" ConfigVars useUpdateTenantConfig
           (fun data _ => tenant_keys data) (mkConfigVars "acme" (num_of_Z 3) [])
           (demo_world [] (fun _ => Ok conflict)) start conflict "version conflict").
  - cbn. do 6 right. left. reflexivity.
  - reflexivity.
  - split; [reflexivity|]. exists (json_str (error_body "version conflict")), (error_body "version conflict").
    split; [reflexivity|split; [vm_compute; reflexivity|split; [reflexivity|discriminate]]].
Defined.

(** ** A successful write *)

(** The effect makes react-query fetch the queries under [p] again, or forget them. *)
Definition refreshes (fx : list Effect) (k : list js) : Prop :=
  exists p, (In (Invalidate p) fx \/ In (Remove p) fx) /\ p `prefix_of` k.

Lemma refreshes_invalidate (fx : list Effect) (k : list js) :
  In (Invalidate k) fx -> refreshes fx k.
Proof. intros H. exists k. by split; [left|]. Qed.
Lemma refreshes_remove (fx : list Effect) (k : list js) :
  In (Remove k) fx -> refreshes fx k.
Proof. intros H. exists k. by split; [right|]. Qed.

Ltac refreshed := first [by apply refreshes_invalidate; cbn; auto 10|by apply refreshes_remove; cbn; auto 10].

(** After a write the server answers with an object, no query that shows what was
    written stays fresh: for each of the 24 mutations every such query is invalidated or
    removed, and the callback does not fail. *)
Theorem writes_refresh_queries (storage : Storage) (tenantId : string) (V : Type)
    (h : MutationHook V) (shown : js -> V -> list (list js)) (v : V) (m : obj) :
  In (Hook h shown) (all_mutations storage tenantId) ->
  Forall (refreshes (onSuccess h (JObj m) v)) (shown (JObj m) v) /\
  forall e, ~ In (Raise e) (onSuccess h (JObj m) v).
Proof.
  assert (H : Forall (fun a => match a with Hook h shown => forall v,
    Forall (refreshes (onSuccess h (JObj m) v)) (shown (JObj m) v) /\
    forall e, ~ In (Raise e) (onSuccess h (JObj m) v) end) (all_mutations storage tenantId)).
  2: { rewrite List.Forall_forall in H. intros Hin. exact (H _ Hin v). }
  unfold all_mutations, reporting_mutations.
  repeat apply List.Forall_cons; try apply List.Forall_nil; intros v'.
  all: cbn [onSuccess useUpdateProvider useUpdateProviderCredentials]; unfold provider_written.
  all: split; [repeat apply List.Forall_cons; try apply List.Forall_nil|intros e].
  all: try (destruct (opt_get (JObj m) "version")).
  all: first [refreshed|cbn; intuition discriminate].
Qed.

Lemma writes_refresh_queries_witness :
  let data := [("tenant_id", JStr "acme"); ("version", js_of_Z 4)] in
  let v := mkConfigVars "acme" (num_of_Z 3) [] in
  Forall (refreshes (onSuccess useUpdateTenantConfig (JObj data) v)) [key_of "tenant" (JStr "acme")] /\
  forall e, ~ In (Raise e) (onSuccess useUpdateTenantConfig (JObj data) v).
Proof.
  apply (writes_refresh_queries None "acme" ConfigVars useUpdateTenantConfig (fun data _ => tenant_keys data)
           (mkConfigVars "acme" (num_of_Z 3) []) [("tenant_id", JStr "acme"); ("version", js_of_Z 4)]).
  cbn. do 7 right. left. reflexivity.
Defined.

(** ** A write through the console's server *)

(** The request a route gets when the page sends [q], whose query is [query]. *)
Definition as_request (query : string) (q : HttpRequest) : Request :=
  mkRequest (map (fun h => (str_lower h.1, h.2)) (http_headers q)) query (default "" (http_body q)).

(** The page's server answers [q] with what [handler] does in the world [server]. *)
Definition served (server : World) (handler : Request -> M NextResponse) (query : string)
    (q : HttpRequest) : outcome NextResponse * State :=
  handler (as_request query q) server start.

Definition config_request (tenantId : string) (version : num) (patch : obj) : HttpRequest :=
  mkHttpRequest "PATCH" ("/api/tenants/" ++ tenantId ++ "/config") json_headers
    (Some (json_str (JObj [("version", JNum version); ("patch", JObj patch)]))).

(** The gateway's request for a configuration write *)
Definition gateway_write (base tenantId : string) (version : num) (patch : obj)
    (credential : string * string) : HttpRequest :=
  gateway_request base (config_path tenantId)
    (mkInit "PATCH" [("If-Match-Version", num_to_string version)] (json_stringify (JObj patch)))
    credential.

Lemma carried_config_body (version : num) (patch : obj) :
  num_reads version -> carried (JObj patch) ->
  carried (JObj [("version", JNum version); ("patch", JObj patch)]).
Proof.
  intros Hv Hp. apply carried_obj. split; [done|].
  apply List.Forall_cons; [exact Hv|]. by apply List.Forall_cons; [exact Hp|].
Qed.

Lemma config_route_runs (server : World) (request : Request) (tenantId base k : string)
    (version : num) (patch : obj) (result : js) (s : State) :
  json_parse (req_body request) = Some (JObj [("version", JNum version); ("patch", JObj patch)]) ->
  configured server (request_token server request) base k ->
  is_undefined result = false ->
  let q := gateway_write base tenantId version patch (credential_of (request_token server request) k) in
  GatewayFacts.serves server s q result ->
  tenant_config_PATCH tenantId request server s = (Ok (mkResponse 200 (BodyJson result) []), after s [q]).
Proof.
  intros Hb Hc Hu q Hs. unfold tenant_config_PATCH, open_route, try_catch.
  assert (Hj : req_json request server s = (Ok (JObj [("version", JNum version); ("patch", JObj patch)]), s))
    by (unfold req_json, parse_text; by rewrite Hb).
  rewrite (bind_run _ _ server s s _ Hj).
  rewrite (yields_bind server _ _ _ s (yields_get server (JObj _) "version" eq_refl)). cbn [opt_get].
  cbv zeta. cbn [obj_get String.eqb Ascii.eqb Bool.eqb is_undefined is_object negb].
  rewrite (bind_run _ _ server s s _ (token_eval request server s)).
  unfold patchTenantConfigGeneric. unfold mbind at 1, M_bind at 1.
  rewrite send_versioned_eval by done. fold (config_path tenantId). cbn [js_to_string].
  rewrite (gateway_ok server _ base k _ _ s result Hc Hs).
  unfold next_json, next_json_status. cbn. by rewrite Hu.
Qed.

(** C7: A tenant configuration written on a page reaches the gateway as it is: the page's
    write becomes exactly one request of the server, a PATCH of the tenant's configuration
    with the page's patch as its body, guarded by the page's version; and what the gateway
    answers is what the page gets. *)
Theorem page_write_reaches_gateway (page server : World) (tenantId base k : string) (version : num)
    (patch : obj) (result : js) (s : State) :
  let q := config_request tenantId version patch in
  let run := served server (tenant_config_PATCH tenantId) "" q in
  let tok := request_token server (as_request "" q) in
  let g := gateway_write base tenantId version patch (credential_of tok k) in
  num_reads version -> carried (JObj patch) -> carried result ->
  net page (sent s) q = Ok (http_of run.1) ->
  configured server tok base k -> GatewayFacts.serves server start g result ->
  updateTenantConfig tenantId version patch page s = (Ok result, after s [q]) /\
  sent run.2 = [g].
Proof.
  intros q run tok g Hv Hp Hr Hnet Hc Hs.
  assert (Hrun : run = (Ok (mkResponse 200 (BodyJson result) []), after start [g])).
  { apply config_route_runs; [|exact Hc|by destruct result|exact Hs].
    apply json_parse_str. by apply carried_config_body. }
  split; [|by rewrite Hrun].
  unfold updateTenantConfig, page_send, page_fetch, mbind, M_bind.
  change (json_stringify (JObj [("version", JNum version); ("patch", JObj patch)]))
    with (Some (json_str (JObj [("version", JNum version); ("patch", JObj patch)]))).
  fold (config_request tenantId version patch). fold q. rewrite Hnet, Hrun.
  unfold checked, res_json, res_text, parse_text, mbind, M_bind. cbn -[json_parse json_str].
  by rewrite json_parse_str.
Qed.

Definition demo_answer : js := JObj [("message", JStr "updated"); ("tenant_id", JStr "acme"); ("version", js_of_Z 4)].
Definition demo_server : World := demo_world [("admin_access_token", "jwt")] (fun _ => reply_json 200 demo_answer).
Definition demo_page_patch : obj := [("budgets", JObj [("monthly_usd", js_of_Z 100)])].
Definition demo_page : World :=
  demo_world [] (fun q => Ok (http_of (served demo_server (tenant_config_PATCH "acme") "" q).1)).

Lemma page_write_reaches_gateway_witness :
  updateTenantConfig "acme" (num_of_Z 3) demo_page_patch demo_page start =
    (Ok demo_answer, after start [config_request "acme" (num_of_Z 3) demo_page_patch]) /\
  sent (served demo_server (tenant_config_PATCH "acme") "" (config_request "acme" (num_of_Z 3) demo_page_patch)).2
    = [gateway_write "http://gw:8000" "acme" (num_of_Z 3) demo_page_patch (credential_of (Some "jwt") "")].
Proof.
  apply (page_write_reaches_gateway demo_page demo_server "acme" "http://gw:8000" "" (num_of_Z 3)
           demo_page_patch demo_answer start).
  - split; vm_compute; reflexivity.
  - vm_compute. repeat split; reflexivity.
  - vm_compute. repeat split; reflexivity.
  - reflexivity.
  - split; [reflexivity..|left; reflexivity].
  - eexists. split; [reflexivity|split; [reflexivity|split; [discriminate|vm_compute; reflexivity]]].
Defined.

(** ** Versions *)

Definition group_request (tenantId routeGroupId : string) (models : list string) (version : num)
  : HttpRequest :=
  mkHttpRequest "PATCH" (route_group_url tenantId routeGroupId) json_headers
    (json_stringify (JObj [("models", JArr (map JStr models)); ("version", JNum version)])).

Lemma carried_group_body (models : list string) (version : num) :
  num_reads version -> carried (JObj [("models", JArr (map JStr models)); ("version", JNum version)]).
Proof.
  intros Hv. apply carried_obj. split; [done|]. apply List.Forall_cons.
  - apply carried_arr. cbn [snd]. by induction models; constructor.
  - by apply List.Forall_cons; [exact Hv|].
Qed.

(** A route group's handler reads nothing of the body but its models. *)
Lemma group_route_models (server : World) (routeGroupId : string) (headers : list (string * string))
    (query t1 t2 : string) (b1 b2 : obj) (s : State) :
  json_parse t1 = Some (JObj b1) -> json_parse t2 = Some (JObj b2) ->
  obj_get "models" b1 = obj_get "models" b2 ->
  route_group_PATCH routeGroupId (mkRequest headers query t1) server s =
  route_group_PATCH routeGroupId (mkRequest headers query t2) server s.
Proof.
  intros H1 H2 Hm. unfold route_group_PATCH, admin_route, try_catch.
  set (r1 := mkRequest headers query t1). set (r2 := mkRequest headers query t2).
  destruct (truthy_env (request_token server r2)) as [t|] eqn:Et.
  2: { rewrite (guarded_with_admin (fun _ _ => _) server r1 s Et).
       by rewrite (guarded_with_admin (fun _ _ => _) server r2 s Et). }
  rewrite (with_admin_run server r1 t Et), (with_admin_run server r2 t Et). unfold with_tenant_id.
  change (Effects.query "tenantId" r1) with (Effects.query "tenantId" r2).
  destruct (truthy_env (Effects.query _ _)) as [tenantId|]; [|done].
  unfold req_json, parse_text, get, mbind, M_bind. cbn [r1 r2 req_body]. rewrite H1, H2.
  cbn. by rewrite Hm.
Qed.

(** A route group written on a page is not protected by the version the page read:
    whatever version the page sends along, the server does and answers the same, because its
    route guards the write with the version it reads itself. *)
Theorem group_writes_ignore_version (server : World) (tenantId routeGroupId query : string)
    (models : list string) (v1 v2 : num) :
  num_reads v1 -> num_reads v2 ->
  served server (route_group_PATCH routeGroupId) query (group_request tenantId routeGroupId models v1) =
  served server (route_group_PATCH routeGroupId) query (group_request tenantId routeGroupId models v2).
Proof.
  intros H1 H2. unfold served, as_request, group_request, json_stringify.
  cbn [is_undefined http_headers http_body default].
  apply (group_route_models server routeGroupId _ query _ _
           [("models", JArr (map JStr models)); ("version", JNum v1)]
           [("models", JArr (map JStr models)); ("version", JNum v2)]); [| |done].
  all: apply json_parse_str; by apply carried_group_body.
Qed.

(** A write with an old version is guarded with the version just read, seven. *)
Lemma group_writes_ignore_version_witness :
  let server := demo_world [("admin_access_token", "jwt")] (fun _ => reply_json 200 demo_groups) in
  let run v := served server (route_group_PATCH "fast") "tenantId=acme"
                 (group_request "acme" "fast" ["m3"] (num_of_Z v)) in
  run 1%Z = run 7%Z /\
  map (fun r => params_get "If-Match-Version" (http_headers r)) (sent (run 1%Z).2) = [None; Some "7"].
Proof.
  split.
  - apply (group_writes_ignore_version (demo_world [("admin_access_token", "jwt")]
             (fun _ => reply_json 200 demo_groups)) "acme" "fast" "tenantId=acme" ["m3"]
             (num_of_Z 1) (num_of_Z 7)); split; vm_compute; reflexivity.
  - vm_compute. reflexivity.
Defined.

(** What the effects of a mutation leave of the cached configuration, before anything is
    fetched again. *)
Definition cached_after (fx : list Effect) (cached : option js) : option js :=
  fold_left (fun c e => match e with SetVersion n => set_version n c | _ => c end) fx cached.

Lemma quiet_checked (w : World) (fallback : string) (res : HttpResponse) :
  quiet w (checked fallback res).
Proof. unfold checked, raise_error, quiet. solve_sends. Qed.

(** Two provider writes in a row do not conflict with each other: once the first is
    answered with a version, the second is sent with that version and not with the one the
    page had, as long as the configuration is cached; the rest of the cached configuration
    stays as it was. *)
Theorem provider_versions_chain (m data : obj) (first second : ProviderVars) (n fallback : num)
    (w : World) (s : State) :
  List.NoDup (map fst m) -> opt_get (JObj data) "version" = JNum n ->
  let cached := cached_after (onSuccess useUpdateProvider (JObj data) first) (Some (JObj m)) in
  let second' := mkProviderVars (pv_providerId second) (pv_config second)
                   (getVersionForProviderMutation cached fallback) in
  (exists c, cached = Some c /\ opt_get c "version" = JNum n /\
             forall f, f <> "version" -> opt_get c f = opt_get (JObj m) f) /\
  sent (mutationFn useUpdateProvider second' w s).2 =
    (sent s ++ [mkHttpRequest "PATCH" ("/api/providers/" ++ pv_providerId second) json_headers
                  (json_stringify (JObj [("config", JObj (pv_config second)); ("version", JNum n)]))])%list.
Proof.
  intros Hm Hv cached second'.
  assert (Hc : cached = Some (JObj (obj_set "version" (JNum n) (obj_spread [] m)))).
  { unfold cached. cbn [onSuccess useUpdateProvider]. unfold provider_written. by rewrite Hv. }
  assert (Hget : opt_get (JObj (obj_set "version" (JNum n) (obj_spread [] m))) "version" = JNum n).
  { cbn [opt_get]. by rewrite obj_get_set_eq. }
  split.
  - eexists. split; [exact Hc|]. split; [exact Hget|]. intros f Hf. cbn [opt_get].
    rewrite obj_get_set_ne by done. rewrite obj_get_spread by done. by destruct (obj_get f m).
  - unfold second', useUpdateProvider, updateProvider, page_send, page_fetch.
    cbn [mutationFn pv_providerId pv_config pv_version].
    assert (getVersionForProviderMutation cached fallback = n) as ->.
    { unfold getVersionForProviderMutation. rewrite Hc. by rewrite Hget. }
    unfold mbind, M_bind. destruct (net w (sent s) _) as [res|e]; [|done].
    by rewrite (quiet_sent w _ _ (quiet_checked w _ res)).
Qed.

Definition demo_first : ProviderVars := mkProviderVars "openai" [("enabled", JBool false)] (num_of_Z 3).

Lemma provider_versions_chain_witness :
  let data := [("message", JStr "ok"); ("version", js_of_Z 4)] in
  let w := demo_world [] (fun _ => reply_json 200 (JObj data)) in
  let cached := cached_after (onSuccess useUpdateProvider (JObj data) demo_first)
                  (Some (JObj [("version", js_of_Z 3); ("config", JObj [])])) in
  (exists c, cached = Some c /\ opt_get c "version" = js_of_Z 4 /\
             forall f, f <> "version" ->
               opt_get c f = opt_get (JObj [("version", js_of_Z 3); ("config", JObj [])]) f) /\
  sent (mutationFn useUpdateProvider
          (mkProviderVars "openai" [("enabled", JBool false)]
             (getVersionForProviderMutation cached (num_of_Z 3))) w start).2 =
    [mkHttpRequest "PATCH" "/api/providers/openai" json_headers
       (json_stringify (JObj [("config", JObj [("enabled", JBool false)]); ("version", js_of_Z 4)]))].
Proof.
  apply (provider_versions_chain [("version", js_of_Z 3); ("config", JObj [])]
           [("message", JStr "ok"); ("version", js_of_Z 4)] demo_first demo_first (num_of_Z 4) (num_of_Z 3)
           (demo_world [] (fun _ => reply_json 200 (JObj [("message", JStr "ok"); ("version", js_of_Z 4)])))
           start).
  - repeat constructor; cbn; intuition discriminate.
  - reflexivity.
Defined.
