(* ===== verification/RoutingPage.v ===== *)
(** * The routing page

    src/frontend/src/app/(app)/routing/page.tsx: what the page reads out of a tenant's
    configuration, the edits it allows, when it counts them as unsaved, and what it saves.
    The stages come from the gateway and are only cast to their type, so they are values of
    [js] here; [None] is the TypeError of a value that does not have the shape the code reads. *)

From stdpp Require Import list.
From S2P Require Import Prelude JsNumber JsText JsValue JsArray Json JsonRoundTrip Effects UsageApi ConsoleClient.
From Stdlib Require Import SpecFloat.
Local Open Scope string_scope.

(** ** Summaries of a rule *)

(** [Number.isFinite(v)] *)
Definition is_finite (v : js) : bool := match v with JNum n => num_is_finite n | _ => false end.
Definition is_true (v : js) : bool := match v with JBool b => b | _ => false end.
(** [Array.isArray(v) && v.length > 0] *)
Definition nonempty_array (v : js) : bool := match v with JArr (_ :: _) => true | _ => false end.
Definition adding (b : bool) (label : string) : list string := if b then [label] else [].

Definition summarizeRuleWhen (w : js) : list string :=
  if negb (is_object w) then []
  else
    let v := opt_get w "max_prompt_tokens" in
    let n := js_to_number v in
    ((if nullish v then []
      else [if num_is_finite n then ("tokens > " ++ num_to_string n)%string else "tokens > N"]) ++
     adding (nonempty_array (opt_get w "contains")) "contains keywords" ++
     adding (is_object (opt_get w "prompt_length")) "length condition" ++
     adding (is_object (opt_get w "semantic_similarity")) "semantic similarity")%list.

Definition ACTION_BADGE_ORDER : list string :=
  ["Block"; "Prefer models"; "Ban models"; "Use anchor"; "Constraints"].

Definition rule_badges (rule : js) : list string :=
  if negb (is_object rule) then []
  else let a := opt_get rule "action" in
       if negb (is_object a) then []
       else (adding (is_true (opt_get a "block")) "Block" ++
             adding (nonempty_array (opt_get a "prefer_models")) "Prefer models" ++
             adding (nonempty_array (opt_get a "ban_models")) "Ban models" ++
             adding (is_true (opt_get a "use_anchor")) "Use anchor" ++
             adding (is_object (opt_get a "set_constraints")) "Constraints")%list.

Definition aggregateActionBadges (rules : list js) : list string :=
  let badges := fold_left (fun s r => fold_left set_add (rule_badges r) s) rules [] in
  List.filter (fun b => set_has b badges) ACTION_BADGE_ORDER.

Definition collectWhenSummaries (rules : list js) : list string :=
  fold_left (fun order rule =>
    if is_object rule then fold_left set_add (summarizeRuleWhen (opt_get rule "when")) order else order)
    rules [].

(** ** The rule that is saved *)

Definition put_if (b : bool) (k : string) (v : js) (m : obj) : obj := if b then obj_set k v m else m.

(** [if (v && v.length > 0) out = [...v]]: [inl] is the TypeError of an object that has a
    length and cannot be spread. *)
Definition spread_nonempty (v : js) : unit + option js :=
  match v with
  | JArr (x :: l) => inr (Some (JArr (x :: l)))
  | JStr s => inr (if String.eqb s "" then None else Some (JArr (map JStr (utf8_chars s))))
  | JObj _ => if js_gt (opt_get v "length") (js_of_Z 0) then inl () else inr None
  | _ => inr None
  end.

Definition put_spread (k : string) (v : js) (m : obj) : option obj :=
  match spread_nonempty v with
  | inl _ => None
  | inr (Some l) => Some (obj_set k l m)
  | inr None => Some m
  end.

Definition put_finite (src : js) (m : obj) (k : string) : obj :=
  put_if (is_finite (opt_get src k)) k (opt_get src k) m.

Definition finalizeWhen (w : js) : option obj :=
  let tokens := opt_get w "max_prompt_tokens" in
  let out := match tokens with
             | JNum n => put_if (num_is_finite n && num_geb n (num_of_Z 1)) "max_prompt_tokens"
                           (JNum (num_floor n)) []
             | _ => []
             end in
  match put_spread "contains" (opt_get w "contains") out with
  | None => None
  | Some out =>
      let pl := opt_get w "prompt_length" in
      let cleaned := fold_left (put_finite pl) ["gt"; "gte"; "lt"; "lte"] [] in
      let out := put_if (truthy pl && negb (Nat.eqb (List.length cleaned) 0)) "prompt_length"
                   (JObj cleaned) out in
      let threshold := opt_get (opt_get w "semantic_similarity") "threshold" in
      Some (put_if (is_finite threshold) "semantic_similarity" (JObj [("threshold", threshold)]) out)
  end.

Definition finalizeAction (a : js) : option obj :=
  let block := is_true (opt_get a "block") in
  let reason := opt_get a "reason" in
  let text := str_trim (js_to_string reason) in
  let out := put_if (block && negb (nullish reason) && negb (String.eqb text "")) "reason" (JStr text)
               (put_if block "block" (JBool true) []) in
  match put_spread "prefer_models" (opt_get a "prefer_models") out with
  | None => None
  | Some out =>
      match put_spread "ban_models" (opt_get a "ban_models") out with
      | None => None
      | Some out =>
          let out := put_if (is_true (opt_get a "use_anchor")) "use_anchor" (JBool true) out in
          let sc := opt_get a "set_constraints" in
          let c := fold_left (put_finite sc) ["max_cost_per_1m"; "max_latency_ms"] [] in
          Some (put_if (truthy sc && negb (Nat.eqb (List.length c) 0)) "set_constraints" (JObj c) out)
      end
  end.

(** ** The fields of the rule dialog *)

Definition with_field (v : js) (k : string) (x : js) : js :=
  JObj (obj_set k x (obj_spread [] (GatewayClient.entries v))).

(** An input that is cleared takes its field away; one that is no number leaves it. *)
Definition patch_number (read : string -> num) (k raw : string) (cur : obj) : obj :=
  if String.eqb (str_trim raw) "" then obj_del k cur
  else let n := read raw in if num_is_finite n then obj_set k (JNum n) cur else cur.

Definition patchPromptLength (w : js) (field raw : string) : js :=
  let cur := obj_spread [] (GatewayClient.entries (js_coalesce (opt_get w "prompt_length") (JObj []))) in
  let cur := patch_number number_of_string field raw cur in
  let empty := forallb (fun k => nullish (opt_get (JObj cur) k)) ["gt"; "gte"; "lt"; "lte"] in
  with_field w "prompt_length" (if empty then JUndef else JObj cur).

Definition patchRuleConstraint (a : js) (k raw : string) : js :=
  let sc := obj_spread [] (GatewayClient.entries (js_coalesce (opt_get a "set_constraints") (JObj []))) in
  let sc := patch_number parse_float k raw sc in
  let empty := forallb (fun k => nullish (opt_get (JObj sc) k)) ["max_cost_per_1m"; "max_latency_ms"] in
  with_field a "set_constraints" (if empty then JUndef else JObj sc).

(** [cur.includes(id) ? cur.filter((x) => x !== id) : [...cur, id]] *)
Definition toggle_in (cur : list js) (modelId : string) : list js :=
  if existsb (fun x => is_str x modelId) cur
  then List.filter (fun x => negb (is_str x modelId)) cur
  else (cur ++ [JStr modelId])%list.

(** The lists the checkboxes edit are arrays; another value has no includes. *)
Definition toggleRuleModel (a : js) (field modelId : string) : option js :=
  match js_coalesce (opt_get a field) (JArr []) with
  | JArr cur => let next := toggle_in cur modelId in
                Some (with_field a field (match next with [] => JUndef | _ => JArr next end))
  | _ => None
  end.

Definition set_max_tokens (w : js) (v : string) : js :=
  with_field w "max_prompt_tokens"
    (if String.eqb v "" then JUndef
     else let n := number_of_string v in if num_is_finite n then JNum n else JUndef).

Definition set_contains (w : js) (text : string) : js :=
  let lines := List.filter (fun s => negb (String.eqb s "")) (map str_trim (str_split "010" text)) in
  with_field w "contains" (match lines with [] => JUndef | _ => JArr (map JStr lines) end).

Definition set_threshold (w : js) (v : string) : js :=
  let t := parse_float v in
  with_field w "semantic_similarity"
    (if (String.eqb v "" || negb (num_is_finite t))%bool then JUndef else JObj [("threshold", JNum t)]).

Definition set_block (a : js) (checked : bool) : js :=
  with_field (with_field a "block" (if checked then JBool true else JUndef)) "reason"
    (if checked then opt_get a "reason" else JUndef).

Definition set_reason (a : js) (text : string) : js :=
  with_field a "reason" (if String.eqb text "" then JUndef else JStr text).

Definition set_use_anchor (a : js) (checked : bool) : js :=
  with_field a "use_anchor" (if checked then JBool true else JUndef).

(** ** The stages *)

(** [JSON.parse(JSON.stringify(v))] *)
Definition js_clone (v : js) : option js := json_parse (json_str v).

(** [l[i]] and [l[i] = v]: an assignment past the end leaves holes. *)
Definition js_nth (i : nat) (l : list js) : js := match l !! i with Some v => v | None => JUndef end.
Definition arr_set (i : nat) (v : js) (l : list js) : list js :=
  if Nat.ltb i (List.length l) then <[i := v]> l
  else (l ++ repeat JUndef (i - List.length l) ++ [v])%list.

(** [[...v]] *)
Definition spread_array (v : js) : option (list js) :=
  match v with
  | JArr l => Some l
  | JStr s => Some (map JStr (utf8_chars s))
  | _ => None
  end.

(** [v[i]] *)
Definition js_index (v : js) (i : nat) : option js :=
  match v with
  | JUndef | JNull => None
  | JArr l => Some (js_nth i l)
  | JStr s => Some (match utf8_chars s !! i with Some c => JStr c | None => JUndef end)
  | _ => Some (opt_get v (Z_to_string (Z.of_nat i)))
  end.

(** The updater of [handleSaveRule] *)
Definition save_rule (stageIndex : nat) (ruleIndex : option nat) (newRule : js) (prev : list js)
  : option (list js) :=
  match js_clone (JArr prev) with
  | Some (JArr next) =>
      let stage := js_nth stageIndex next in
      if negb (truthy stage) then Some prev
      else match spread_array (opt_get stage "rules") with
           | None => None
           | Some rules =>
               let rules := match ruleIndex with
                            | None => (rules ++ [newRule])%list
                            | Some i => arr_set i newRule rules
                            end in
               Some (arr_set stageIndex (with_field stage "rules" (JArr rules)) next)
           end
  | _ => None
  end.

(** [l.filter((_, i) => i !== index)] *)
Definition remove_at {A} (index : nat) (l : list A) : list A := (take index l ++ drop (S index) l)%list.

Definition delete_rule (index ruleIndex : nat) (prev : list js) : option (list js) :=
  match js_clone (JArr prev) with
  | Some (JArr next) =>
      let st := js_nth index next in
      if negb (truthy st) then Some prev
      else match opt_get st "rules" with
           | JArr rules => Some (arr_set index (with_field st "rules" (JArr (remove_at ruleIndex rules))) next)
           | _ => None
           end
  | _ => None
  end.

Definition rename_stage (index : nat) (name : string) (prev : list js) : list js :=
  let cur := js_nth index prev in
  if negb (truthy cur) then prev else arr_set index (with_field cur "name" (JStr name)) prev.

Definition swap (i j : nat) (l : list js) : list js :=
  arr_set j (js_nth i l) (arr_set i (js_nth j l) l).

Definition move_up (index : nat) (prev : list js) : list js :=
  match index with O => prev | S i => swap i (S i) prev end.
Definition move_down (index : nat) (prev : list js) : list js :=
  if Nat.leb (List.length prev) (S index) then prev else swap index (S index) prev.

Definition new_stage : js := JObj [("name", JStr "new_stage"); ("rules", JArr [])].

(** ** The rule dialog *)

Record RuleDialog := mkRuleDialog {
  rd_open : bool;
  rd_stageIndex : nat;
  rd_ruleIndex : option nat;
  rd_when : js;
  rd_action : js;
}.

Definition closed_dialog : RuleDialog := mkRuleDialog false 0 None (JObj []) (JObj []).

(** [JSON.parse(JSON.stringify(rule.k ?? {}))] *)
Definition clone_part (rule : js) (k : string) : option js :=
  js_clone (js_coalesce (opt_get rule k) (JObj [])).

Definition openRuleDialog (stages : list js) (stageIndex : nat) (ruleIndex : option nat)
    (d : RuleDialog) : option RuleDialog :=
  match ruleIndex with
  | None => Some (mkRuleDialog true stageIndex None (JObj []) (JObj []))
  | Some i =>
      let stage := js_nth stageIndex stages in
      match (if nullish stage then Some JUndef else js_index (opt_get stage "rules") i) with
      | None => None
      | Some rule =>
          if negb (truthy rule) then Some d
          else match clone_part rule "when", clone_part rule "action" with
               | Some w, Some a => Some (mkRuleDialog true stageIndex (Some i) w a)
               | _, _ => None
               end
      end
  end.

Definition rule_js (w a : obj) : js := JObj [("when", JObj w); ("action", JObj a)].

(** [handleSaveRule]: the stages and the dialog it leaves *)
Definition handleSaveRule (stages : list js) (d : RuleDialog) : option (list js * RuleDialog) :=
  match finalizeWhen (rd_when d), finalizeAction (rd_action d) with
  | Some w, Some a =>
      match save_rule (rd_stageIndex d) (rd_ruleIndex d) (rule_js w a) stages with
      | Some stages' => Some (stages', closed_dialog)
      | None => None
      end
  | _, _ => None
  end.

(** ** What the page reads *)

Record TenantConfig := mkTenantConfig {
  tc_tenant_id : string;
  tc_version : num;
  tc_config : js;
}.

Record RoutingState := mkRouting {
  r_strategy : string;
  r_weights : num * num * num;
  r_fallback : bool * num * num;
  r_overrides : bool * bool;
  r_precedence : string * string;
  r_groups : obj;
  r_stages : list js;
}.

Definition dec (s : string) : num := number_of_string s.

Definition only_strings (l : list js) : list js := List.filter is_string l.

Definition normalizeRouteGroups (value : js) : obj :=
  if negb (is_object value) then []
  else fold_left (fun result kv => match kv.2 with
                                   | JArr models => obj_set kv.1 (JArr (only_strings models)) result
                                   | _ => result
                                   end) (GatewayClient.entries value) [].

(** [v || {}] *)
Definition or_empty (v : js) : js := js_or v (JObj []).
Definition routing_of (config : js) : js := or_empty (opt_get config "routing").
Definition smart_of (config : js) : js := or_empty (opt_get (routing_of config) "smart").
Definition selection_of (config : js) : js := or_empty (opt_get config "selection").

Definition read_strategy (config : js) : js :=
  js_coalesce (opt_get (routing_of config) "strategy")
    (js_coalesce (opt_get config "routing_strategy") (JStr "smart")).
Definition read_weight (weights : js) (k d : string) : num := num_of (opt_get weights k) (dec d).
Definition read_weights (weights : js) : num * num * num :=
  (read_weight weights "cost" "0.4", read_weight weights "latency" "0.3", read_weight weights "errors" "0.3").
Definition read_fallback (fb : js) : bool * num * num :=
  (truthy (opt_get fb "enabled"), num_of (opt_get fb "timeout_ms") (num_of_Z 20000),
   num_of (opt_get fb "max_attempts") (num_of_Z 1)).
Definition read_overrides (sel : js) : bool * bool :=
  (truthy (opt_get sel "allow_model_override"), truthy (opt_get sel "allow_route_group_override")).
Definition read_precedence (sel : js) : string * string :=
  let p := opt_get sel "precedence" in
  (str_of (opt_get p "model") "header", str_of (opt_get p "conflict_policy") "error").
Definition read_groups (config : js) : obj :=
  normalizeRouteGroups (js_coalesce (opt_get (selection_of config) "route_groups")
    (js_coalesce (opt_get config "route_groups") (JObj []))).
Definition stages_of (config : js) : list js := js_array (opt_get (smart_of config) "stages").

(** The editable copy of the stages *)
Definition copy_stages (raw : js) : option (list js) :=
  match raw with
  | JArr _ => match js_clone raw with Some (JArr stages) => Some stages | _ => None end
  | _ => Some []
  end.

(** The effect that fills the page: without a configuration it ends in a TypeError. *)
Definition load (tc : TenantConfig) : option RoutingState :=
  let config := tc_config tc in
  if nullish config then None
  else match copy_stages (opt_get (smart_of config) "stages") with
       | None => None
       | Some stages =>
           Some (mkRouting (js_to_string (read_strategy config))
             (read_weights (or_empty (opt_get (smart_of config) "weights")))
             (read_fallback (or_empty (opt_get (routing_of config) "fallback")))
             (read_overrides (selection_of config)) (read_precedence (selection_of config))
             (read_groups config) stages)
       end.

(** ** Unsaved changes *)

Definition strategyDirty (config : js) (st : RoutingState) : bool :=
  negb (is_str (read_strategy config) (r_strategy st)).

(** [a !== b] on numbers *)
Definition num_differs (a b : num) : bool := negb (num_eqb a b).

Definition weightsDirty (config : js) (st : RoutingState) : bool :=
  let '(c, l, e) := read_weights (opt_get (smart_of config) "weights") in
  let '(c', l', e') := r_weights st in
  num_differs c c' || num_differs l l' || num_differs e e'.

Definition fallbackDirty (config : js) (st : RoutingState) : bool :=
  let '(e, t, m) := read_fallback (opt_get (routing_of config) "fallback") in
  let '(e', t', m') := r_fallback st in
  negb (Bool.eqb e e') || num_differs t t' || num_differs m m'.

Definition selectionDirty (config : js) (st : RoutingState) : bool :=
  let sel := opt_get config "selection" in
  let '(a, b) := read_overrides sel in
  let '(a', b') := r_overrides st in
  let '(m, c) := read_precedence sel in
  let '(m', c') := r_precedence st in
  negb (Bool.eqb a a') || negb (Bool.eqb b b') || negb (String.eqb m m') || negb (String.eqb c c').

(** The models of a group, which are texts *)
Definition texts (v : js) : list string :=
  omap (fun x => match x with JStr s => Some s | _ => None end) (js_array v).

(** Two lists, sorted, compared element by element *)
Definition lists_differ (a b : list string) : bool :=
  negb (Nat.eqb (List.length a) (List.length b)) ||
  existsb (fun p => negb (String.eqb p.1 p.2)) (combine a b).

Definition sorted_differ (a b : list string) : bool :=
  lists_differ (js_sort by_code a) (js_sort by_code b).

Definition groups_differ (current next : obj) : bool :=
  if negb (Nat.eqb (List.length current) (List.length next)) then true
  else existsb (fun k =>
         match obj_get k next with
         | None => true
         | Some v => negb (truthy v) ||
                     sorted_differ (texts (opt_get (JObj current) k)) (texts v)
         end) (js_sort by_code (map fst current)).

Definition routeGroupsDirty (config : js) (st : RoutingState) : bool :=
  groups_differ
    (normalizeRouteGroups (js_coalesce (opt_get (opt_get config "selection") "route_groups")
       (js_coalesce (opt_get config "route_groups") (JObj [])))) (r_groups st).

Definition stagesDirty (config : js) (st : RoutingState) : bool :=
  negb (String.eqb (json_str (JArr (stages_of config))) (json_str (JArr (r_stages st)))).

Definition in_unit (w : num) : bool := num_geb w (num_of_Z 0) && num_leb w (num_of_Z 1).

Definition weightsValid (st : RoutingState) : bool :=
  let '(c, l, e) := r_weights st in
  forallb in_unit [c; l; e] &&
  num_ltb (num_abs (num_sub (num_add (num_add c l) e) (num_of_Z 1))) (dec "0.001").

Definition fallbackValid (st : RoutingState) : bool :=
  let '(enabled, timeout, attempts) := r_fallback st in
  negb enabled || (num_is_finite timeout && num_gtb timeout (num_of_Z 0) && num_geb attempts (num_of_Z 1)).

(** ** Saving *)

Inductive Section_ : Type := Strategy | Weights | Fallback | Selection | Stages.

(** Whether the section's button is enabled while nothing is being saved *)
Definition can_save (tc : TenantConfig) (st : RoutingState) (sec : Section_) : bool :=
  let config := tc_config tc in
  match sec with
  | Strategy => strategyDirty config st
  | Weights => String.eqb (r_strategy st) "smart" && weightsDirty config st && weightsValid st
  | Fallback => fallbackDirty config st && fallbackValid st
  | Selection => selectionDirty config st
  | Stages => stagesDirty config st
  end.

Definition save_patch (st : RoutingState) (sec : Section_) : obj :=
  match sec with
  | Strategy => [("routing", JObj [("strategy", JStr (r_strategy st))])]
  | Weights =>
      let '(c, l, e) := r_weights st in
      [("routing", JObj [("smart", JObj [("weights",
         JObj [("cost", JNum c); ("latency", JNum l); ("errors", JNum e)])])])]
  | Fallback =>
      let '(enabled, timeout, attempts) := r_fallback st in
      [("routing", JObj [("fallback",
         JObj [("enabled", JBool enabled); ("timeout_ms", JNum timeout); ("max_attempts", JNum attempts)])])]
  | Selection =>
      let '(m, g) := r_overrides st in
      let '(p, c) := r_precedence st in
      [("selection", JObj [("allow_model_override", JBool m); ("allow_route_group_override", JBool g);
         ("precedence", JObj [("model", JStr p); ("conflict_policy", JStr c)])])]
  | Stages => [("routing", JObj [("smart", JObj [("stages", JArr (r_stages st))])])]
  end.

(** [handleSave]: nothing is sent before a configuration is there. *)
Definition handleSave (tc : option TenantConfig) (patch : obj) : M unit :=
  match tc with
  | None => mret tt
  | Some c => _ ← updateTenantConfig (tc_tenant_id c) (tc_version c) patch; mret tt
  end.

(** [handleRouteGroupSave]: the groups it leaves on the page and sends *)
Definition handleRouteGroupSave (edit : bool) (originalName : option string) (dialogName : string)
    (models : list string) (groups : obj) : option obj :=
  let name := str_trim dialogName in
  if String.eqb name "" then None
  else
    let next := obj_spread [] groups in
    let next := match truthy_env originalName with
                | Some old => if (edit && negb (String.eqb old name))%bool then obj_del old next else next
                | None => next
                end in
    Some (obj_set name (JArr (map JStr models)) next).

(** ** The other inputs *)

Definition clampNumber (value lo hi : num) : num := num_min hi (num_max lo value).
(** The value a weight's input leaves *)
Definition weight_input (text : string) : num :=
  clampNumber (number_of_string text) (num_of_Z 0) (num_of_Z 1).
