(* ===== verification/RoutingFacts.v ===== *)
(** * The routing page: what counts as unsaved, and how the stages are edited *)

From stdpp Require Import list.
From S2P Require Import Prelude JsNumber JsText JsValue JsArray Json JsonRoundTrip Effects ConsoleClient RoutingPage.
From Stdlib Require Import SpecFloat.
Local Open Scope string_scope.

(** ** Comparing lists and groups *)

Lemma lists_differ_spec (a b : list string) : lists_differ a b = false <-> a = b.
Proof.
  unfold lists_differ. revert b. induction a as [|x a IH]; intros [|y b]; cbn; try done.
  specialize (IH b). destruct (String.eqb_spec x y) as [->|Hne]; cbn [negb orb].
  - rewrite IH. split; [by intros ->|by intros [= ->]].
  - rewrite orb_true_r. split; [done|]. by intros [= -> _].
Qed.

Lemma sorted_differ_spec (a b : list string) : sorted_differ a b = false <-> Permutation a b.
Proof. unfold sorted_differ. by rewrite lists_differ_spec, sort_code_perm. Qed.

(** The groups of the page: each name once, each with a list *)
Definition group_map (m : obj) : Prop :=
  List.NoDup (map fst m) /\ Forall (fun kv => is_array kv.2 = true) m.

Lemma group_map_get (m : obj) (k : string) :
  group_map m -> In k (map fst m) -> exists l, obj_get k m = Some (JArr l).
Proof.
  intros [_ Hv] Hk. destruct (obj_get k m) as [v|] eqn:E.
  - apply obj_get_In in E. rewrite List.Forall_forall in Hv. specialize (Hv _ E).
    destruct v; try done. by eexists.
  - exfalso. apply (obj_has_In k m); [|done]. unfold obj_has. by rewrite E.
Qed.

Lemma get_In_fst (m : obj) (k : string) (v : js) : obj_get k m = Some v -> In k (map fst m).
Proof. intros H. apply obj_get_In in H. by apply (in_map fst) in H. Qed.

(** Two sets of groups with the same names and, for each, the same models in some order *)
Definition same_groups (a b : obj) : Prop :=
  (forall k, In k (map fst a) <-> In k (map fst b)) /\
  forall k, Permutation (texts (opt_get (JObj a) k)) (texts (opt_get (JObj b) k)).

Lemma same_keys_length (a b : obj) :
  List.NoDup (map fst a) -> List.NoDup (map fst b) ->
  (forall k, In k (map fst a) <-> In k (map fst b)) -> List.length a = List.length b.
Proof.
  intros Ha Hb H. rewrite <- (length_map fst a), <- (length_map fst b).
  apply Nat.le_antisymm; apply List.NoDup_incl_length; try done; intros k; apply H.
Qed.

Lemma absent_texts (m : obj) (k : string) : ~ In k (map fst m) -> texts (opt_get (JObj m) k) = [].
Proof.
  intros H. cbn [opt_get]. destruct (obj_get k m) eqn:E; [|done]. by apply get_In_fst in E.
Qed.

Lemma existsb_false {A} (p : A -> bool) (l : list A) :
  existsb p l = false <-> forall x, In x l -> p x = false.
Proof.
  induction l as [|y l IH]; cbn; [by split|]. rewrite orb_false_iff, IH. split.
  - intros [Hy Hl] x [<-|Hx]; auto.
  - intros H. split; auto.
Qed.

Lemma groups_differ_spec (current next : obj) :
  group_map current -> group_map next ->
  groups_differ current next = false <-> same_groups current next.
Proof.
  intros Hc Hn. unfold groups_differ.
  assert (Hkey : existsb (fun k => match obj_get k next with
      | None => true
      | Some v => negb (truthy v) || sorted_differ (texts (opt_get (JObj current) k)) (texts v)
      end) (js_sort by_code (map fst current)) = false <->
    forall k, In k (map fst current) -> In k (map fst next) /\
      Permutation (texts (opt_get (JObj current) k)) (texts (opt_get (JObj next) k))).
  { rewrite existsb_false. split; intros H k Hk.
    - specialize (H k (proj2 (js_sort_elem by_code _ k) Hk)).
      destruct (obj_get k next) as [v|] eqn:E; [|done]. apply orb_false_iff in H as [_ H].
      split; [by eapply get_In_fst|]. apply sorted_differ_spec in H. cbn [opt_get] in *. by rewrite E.
    - apply js_sort_elem in Hk. destruct (H k Hk) as [Hin Hp].
      destruct (group_map_get next k Hn Hin) as [l E]. cbn [opt_get] in *. rewrite E in *.
      cbn [truthy negb orb]. by apply sorted_differ_spec. }
  destruct (Nat.eqb_spec (List.length current) (List.length next)) as [El|El]; cbn [negb].
  - rewrite Hkey. split.
    + intros H. assert (Hincl : incl (map fst next) (map fst current)).
      { apply List.NoDup_length_incl; [apply Hc|by rewrite !length_map, El|intros k Hk; by apply H]. }
      split; [intros k; split; [apply H|apply Hincl]|]. intros k.
      destruct (in_dec string_dec k (map fst current)) as [Hk|Hk]; [by apply H|].
      rewrite (absent_texts _ _ Hk), absent_texts; [done|]. intros Hk'. by apply Hk, Hincl.
    + intros [Hk Hp] k Hin. split; [by apply Hk|apply Hp].
  - split; [done|]. intros [Hk _]. destruct El. by apply same_keys_length; [apply Hc|apply Hn|].
Qed.


Definition demo_current : obj := [("fast", JArr [JStr "a"; JStr "b"]); ("cheap", JArr [JStr "c"])].
Definition demo_reordered : obj := [("cheap", JArr [JStr "c"]); ("fast", JArr [JStr "b"; JStr "a"])].

Lemma demo_group_maps : group_map demo_current /\ group_map demo_reordered.
Proof. repeat split; repeat constructor; cbn; intuition discriminate. Defined.


(** ** A page that was just filled *)

Lemma or_empty_get (v : js) (k : string) : opt_get (or_empty v) k = opt_get v k.
Proof. unfold or_empty, js_or. destruct (truthy v) eqn:E; [done|]. by destruct v. Qed.

Lemma read_weights_or (v : js) : read_weights (or_empty v) = read_weights v.
Proof. unfold read_weights, read_weight. by rewrite !or_empty_get. Qed.
Lemma read_fallback_or (v : js) : read_fallback (or_empty v) = read_fallback v.
Proof. unfold read_fallback. by rewrite !or_empty_get. Qed.
Lemma read_overrides_or (v : js) : read_overrides (or_empty v) = read_overrides v.
Proof. unfold read_overrides. by rewrite !or_empty_get. Qed.
Lemma read_precedence_or (v : js) : read_precedence (or_empty v) = read_precedence v.
Proof. unfold read_precedence. by rewrite !or_empty_get. Qed.

Lemma normalize_group_map (v : js) : group_map (normalizeRouteGroups v).
Proof.
  unfold normalizeRouteGroups. destruct (negb _); [by repeat constructor|].
  assert (H : forall l acc, group_map acc -> group_map (fold_left (fun result kv =>
    match kv.2 with JArr models => obj_set kv.1 (JArr (only_strings models)) result | _ => result end) l acc)).
  { induction l as [|[k x] l IH]; intros acc Ha; cbn; [done|]. apply IH.
    destruct x; try done. destruct Ha as [Hd Hv]. split; [by apply obj_set_NoDup|].
    by apply (obj_set_values (fun v => is_array v = true)). }
  apply H. by repeat constructor.
Qed.

Lemma groups_differ_refl (m : obj) : group_map m -> groups_differ m m = false.
Proof. intros H. by apply groups_differ_spec. Qed.

(** The types the page expects of a configuration: the strategy is a text, what should be
    numbers is not NaN, and the stages survive a trip through JSON. *)
Record typed_config (config : js) : Prop := {
  typed_present : nullish config = false;
  typed_strategy : is_string (read_strategy config) = true;
  typed_weights : let '(c, l, e) := read_weights (opt_get (smart_of config) "weights") in
                  num_eqb c c = true /\ num_eqb l l = true /\ num_eqb e e = true;
  typed_fallback : let '(_, t, m) := read_fallback (opt_get (routing_of config) "fallback") in
                   num_eqb t t = true /\ num_eqb m m = true;
  typed_stages : is_array (opt_get (smart_of config) "stages") = true ->
                 carried (opt_get (smart_of config) "stages");
}.

Lemma copy_carried (v : js) : (is_array v = true -> carried v) -> copy_stages v = Some (js_array v).
Proof.
  intros H. destruct v; try done. specialize (H eq_refl). unfold copy_stages, js_clone.
  by rewrite json_parse_str.
Qed.

(** A page that was just filled has nothing to save: from a configuration of the expected
    types the routing page loads, none of its sections counts as changed, its route groups
    included, and none of its save buttons is enabled. *)
Theorem loaded_page_is_clean (tc : TenantConfig) :
  typed_config (tc_config tc) ->
  exists st, load tc = Some st /\ routeGroupsDirty (tc_config tc) st = false /\
             forall sec, can_save tc st sec = false.
Proof.
  intros [Hp Hs Hw Hf Hst]. unfold load. rewrite Hp, copy_carried by done.
  eexists. split; [reflexivity|].
  rewrite read_weights_or, read_fallback_or. unfold selection_of.
  rewrite read_overrides_or, read_precedence_or. split.
  - unfold routeGroupsDirty, read_groups, selection_of. cbn [r_groups]. rewrite or_empty_get.
    apply groups_differ_refl, normalize_group_map.
  - unfold can_save, strategyDirty, weightsDirty, fallbackDirty, selectionDirty, stagesDirty, stages_of.
    cbn [r_strategy r_weights r_fallback r_overrides r_precedence r_stages]. intros [].
    + destruct (read_strategy _); try done. cbn. by rewrite String.eqb_refl.
    + destruct (read_weights _) as [[c l] e]. destruct Hw as (Hc & Hl & He).
      unfold num_differs. rewrite Hc, Hl, He. by rewrite andb_false_r.
    + destruct (read_fallback _) as [[b t] m]. destruct Hf as (Ht & Hm).
      unfold num_differs. rewrite Ht, Hm. by destruct b.
    + destruct (read_overrides _) as [a b], (read_precedence _) as [m c].
      rewrite !String.eqb_refl. by destruct a, b.
    + by rewrite String.eqb_refl.
Qed.

Definition demo_tenant : TenantConfig :=
  mkTenantConfig "acme" (num_of_Z 7)
    (JObj [("routing", JObj [("strategy", JStr "smart");
              ("smart", JObj [("weights", JObj [("cost", JNum (dec "0.5"))]);
                              ("stages", JArr [new_stage])])]);
           ("selection", JObj [("route_groups", JObj demo_current)])]).

Lemma loaded_page_is_clean_witness :
  exists st, load demo_tenant = Some st /\ routeGroupsDirty (tc_config demo_tenant) st = false /\
             forall sec, can_save demo_tenant st sec = false.
Proof.
  apply (loaded_page_is_clean demo_tenant). split.
  - reflexivity.
  - reflexivity.
  - vm_compute. repeat split; reflexivity.
  - vm_compute. repeat split; reflexivity.
  - intros _. vm_compute. repeat split; reflexivity.
Defined.

(** ** Editing the stages *)

Inductive edit : Type :=
| AddStage
| RenameStage (index : nat) (name : string)
| MoveUp (index : nat)
| MoveDown (index : nat)
| RemoveStage (index : nat)
| DeleteRule (index ruleIndex : nat)
| SaveRule (d : RuleDialog).

Definition edit_step (e : edit) (l : list js) : option (list js) :=
  match e with
  | AddStage => Some (l ++ [new_stage])%list
  | RenameStage i name => Some (rename_stage i name l)
  | MoveUp i => Some (move_up i l)
  | MoveDown i => Some (move_down i l)
  | RemoveStage i => Some (remove_at i l)
  | DeleteRule i j => delete_rule i j l
  | SaveRule d => fst <$> handleSaveRule l d
  end.

(** A stage of the type the page expects, which survives a trip through JSON *)
Definition stage_ok (st : js) : Prop :=
  carried st /\ exists m rules, st = JObj m /\ obj_get "rules" m = Some (JArr rules).
Definition rules_at (i : nat) (l : list js) : list js := js_array (opt_get (js_nth i l) "rules").

(** The buttons there are: one per stage on the page, one per rule, and the dialog of a rule
    that is there, with values that survive JSON. *)
Definition offered (e : edit) (l : list js) : Prop :=
  match e with
  | AddStage => True
  | RenameStage i _ | MoveUp i | MoveDown i | RemoveStage i => i < List.length l
  | DeleteRule i j => i < List.length l /\ j < List.length (rules_at i l)
  | SaveRule d =>
      rd_stageIndex d < List.length l /\
      (match rd_ruleIndex d with
       | Some j => j < List.length (rules_at (rd_stageIndex d) l)
       | None => True
       end) /\
      exists w a, finalizeWhen (rd_when d) = Some w /\ finalizeAction (rd_action d) = Some a /\
                  carried (rule_js w a)
  end.

(** Stage [i] has its field [k] set to [v]; everything else stays. *)
Definition changes_only (i : nat) (k : string) (v : js) (l l' : list js) : Prop :=
  List.length l' = List.length l /\ (forall j, j <> i -> js_nth j l' = js_nth j l) /\
  opt_get (js_nth i l') k = v /\
  forall f, f <> k -> opt_get (js_nth i l') f = opt_get (js_nth i l) f.

(** Stages [i] and [j] change places; everything else stays. *)
Definition exchanged (i j : nat) (l l' : list js) : Prop :=
  js_nth i l' = js_nth j l /\ js_nth j l' = js_nth i l /\
  forall n, n <> i -> n <> j -> js_nth n l' = js_nth n l.

Definition edit_spec (e : edit) (l l' : list js) : Prop :=
  match e with
  | AddStage => l' = (l ++ [new_stage])%list
  | RenameStage i name => changes_only i "name" (JStr name) l l'
  | MoveUp i => match i with O => l' = l | S j => Permutation l l' /\ exchanged j i l l' end
  | MoveDown i => if Nat.eqb (S i) (List.length l) then l' = l
                  else Permutation l l' /\ exchanged i (S i) l l'
  | RemoveStage i => l = (take i l' ++ js_nth i l :: drop i l')%list
  | DeleteRule i j =>
      changes_only i "rules" (JArr (remove_at j (rules_at i l))) l l'
  | SaveRule d =>
      exists w a, finalizeWhen (rd_when d) = Some w /\ finalizeAction (rd_action d) = Some a /\
      changes_only (rd_stageIndex d) "rules"
        (JArr (match rd_ruleIndex d with
               | None => rules_at (rd_stageIndex d) l ++ [rule_js w a]
               | Some j => <[j := rule_js w a]> (rules_at (rd_stageIndex d) l)
               end)%list) l l'
  end.

Lemma arr_set_in (i : nat) (v : js) (l : list js) :
  i < List.length l -> arr_set i v l = <[i := v]> l.
Proof. intros H. unfold arr_set. by apply Nat.ltb_lt in H as ->. Qed.

Lemma js_nth_insert (i j : nat) (v : js) (l : list js) :
  i < List.length l -> js_nth j (<[i := v]> l) = if Nat.eqb j i then v else js_nth j l.
Proof.
  intros H. unfold js_nth. destruct (Nat.eqb_spec j i) as [->|Hne].
  - by rewrite list_lookup_insert_eq.
  - by rewrite list_lookup_insert_ne by congruence.
Qed.

Lemma stage_at (i : nat) (l : list js) :
  Forall stage_ok l -> i < List.length l ->
  exists m rules, js_nth i l = JObj m /\ l !! i = Some (JObj m) /\ carried (JObj m) /\
                  obj_get "rules" m = Some (JArr rules) /\ rules_at i l = rules.
Proof.
  intros Hl Hi. destruct (lookup_lt_is_Some_2 l i Hi) as [st Est].
  destruct (Forall_lookup_1 stage_ok l i st Hl Est) as [Hc (m & rules & -> & Hr)].
  exists m, rules. unfold rules_at, js_nth. rewrite Est. cbn. by rewrite Hr.
Qed.

(** A field written on a stage *)
Lemma field_on_stage (i : nat) (k : string) (v : js) (l : list js) (m : obj) (rules : list js) :
  Forall stage_ok l -> i < List.length l -> js_nth i l = JObj m -> carried (JObj m) ->
  carried v -> (if String.eqb k "rules" then v = JArr rules else obj_get "rules" m = Some (JArr rules)) ->
  let l' := arr_set i (with_field (JObj m) k v) l in
  Forall stage_ok l' /\ changes_only i k v l l'.
Proof.
  intros Hl Hi Hm Hc Hv Hk l'. unfold l'. rewrite arr_set_in by done.
  unfold with_field. cbn [GatewayClient.entries]. apply carried_obj in Hc as Hc'. destruct Hc' as [-> _].
  split.
  - apply Forall_insert; [exact Hl|]. split; [by apply carried_set|].
    exists (obj_set k v m), rules. split; [done|]. destruct (String.eqb_spec k "rules") as [->|Hne].
    + by rewrite obj_get_set_eq, Hk.
    + by rewrite obj_get_set_ne.
  - split; [by rewrite length_insert|]. split.
    { intros j Hj. rewrite js_nth_insert by done. by destruct (Nat.eqb_spec j i). }
    rewrite js_nth_insert by done. rewrite Nat.eqb_refl, Hm. cbn [opt_get]. split.
    + by rewrite obj_get_set_eq.
    + intros f Hf. by rewrite obj_get_set_ne by congruence.
Qed.

Lemma clone_stages (l : list js) : Forall stage_ok l -> js_clone (JArr l) = Some (JArr l).
Proof.
  intros H. apply json_parse_str, carried_arr. eapply List.Forall_impl; [|exact H]. by intros st [? _].
Qed.

Lemma rules_carried (m : obj) (rules : list js) :
  carried (JObj m) -> obj_get "rules" m = Some (JArr rules) -> Forall carried rules.
Proof.
  intros [_ H]%carried_obj Hr%obj_get_In. rewrite List.Forall_forall in H.
  apply carried_arr, (H _ Hr).
Qed.

Lemma remove_Forall {A} (P : A -> Prop) (j : nat) (l : list A) : Forall P l -> Forall P (remove_at j l).
Proof. intros H. unfold remove_at. apply List.Forall_app. split; [by apply Forall_take|by apply Forall_drop]. Qed.

Lemma exchange (i j : nat) (l : list js) :
  i <> j -> i < List.length l -> j < List.length l ->
  Permutation l (swap i j l) /\ exchanged i j l (swap i j l).
Proof.
  intros Hij Hi Hj. unfold swap. rewrite (arr_set_in i), arr_set_in by (rewrite ?length_insert; done).
  split.
  - unfold js_nth. destruct (lookup_lt_is_Some_2 l i Hi) as [x Ex], (lookup_lt_is_Some_2 l j Hj) as [y Ey].
    rewrite Ex, Ey. apply Permutation_inj. split; [by rewrite !length_insert|].
    exists (fun n => if Nat.eqb n i then j else if Nat.eqb n j then i else n). split.
    + intros a b. repeat case_match; repeat match goal with
        | H : Nat.eqb _ _ = true |- _ => apply Nat.eqb_eq in H
        | H : Nat.eqb _ _ = false |- _ => apply Nat.eqb_neq in H end; subst; congruence.
    + intros n. destruct (Nat.eqb_spec n i) as [->|Hni].
      { by rewrite list_lookup_insert_eq by (by rewrite length_insert). }
      destruct (Nat.eqb_spec n j) as [->|Hnj].
      { rewrite list_lookup_insert_ne by congruence. by rewrite list_lookup_insert_eq. }
      by rewrite !list_lookup_insert_ne by congruence.
  - repeat split; intros; rewrite !js_nth_insert by (rewrite ?length_insert; done).
    + rewrite Nat.eqb_refl. by destruct (Nat.eqb_spec i j).
    + by rewrite Nat.eqb_refl.
    + destruct (Nat.eqb_spec n j); [done|]. by destruct (Nat.eqb_spec n i).
Qed.

Lemma removed_split (i : nat) (l : list js) :
  i < List.length l -> l = (take i (remove_at i l) ++ js_nth i l :: drop i (remove_at i l))%list.
Proof.
  intros Hi. unfold remove_at. assert (Ht : List.length (take i l) = i) by (rewrite length_take; lia).
  rewrite take_app_length', drop_app_length' by done. destruct (lookup_lt_is_Some_2 l i Hi) as [x Ex].
  unfold js_nth. rewrite Ex. by rewrite take_drop_middle.
Qed.

(** An edit the page offers succeeds, keeps the stages in shape and does what it says. *)
Lemma edit_correct (e : edit) (l : list js) :
  Forall stage_ok l -> offered e l ->
  exists l', edit_step e l = Some l' /\ Forall stage_ok l' /\ edit_spec e l l'.
Proof.
  intros Hl. destruct e as [|i name|i|i|i|i j|d]; cbn [edit_step edit_spec offered]; intros Ho.
  - eexists. split; [done|]. split; [|done]. apply List.Forall_app. split; [done|].
    constructor; [|done]. split; [by vm_compute|]. by eexists _, _.
  - destruct (stage_at i l Hl Ho) as (m & rules & Hm & _ & Hc & Hr & _).
    eexists. split; [done|]. unfold rename_stage. rewrite Hm. by apply (field_on_stage i "name" _ l m rules).
  - eexists. split; [done|]. destruct i as [|j]; cbn [move_up]; [done|].
    destruct (exchange j (S j) l) as [Hp He]; [lia..|]. split; [|done]. by rewrite <- Hp.
  - eexists. split; [done|]. unfold move_down.
    destruct (Nat.eqb_spec (S i) (List.length l)) as [E|E].
    { by rewrite (proj2 (Nat.leb_le _ _)) by lia. }
    rewrite (proj2 (Nat.leb_gt _ _)) by lia.
    destruct (exchange i (S i) l) as [Hp He]; [lia..|]. split; [|done]. by rewrite <- Hp.
  - eexists. split; [done|]. split; [by apply remove_Forall|by apply removed_split].
  - destruct Ho as [Hi Hj]. destruct (stage_at i l Hl Hi) as (m & rules & Hm & _ & Hc & Hr & Hra).
    rewrite Hra. unfold delete_rule. rewrite clone_stages by done. rewrite Hm. cbn [truthy negb opt_get].
    rewrite Hr. eexists. split; [done|]. apply (field_on_stage i "rules" _ l m (remove_at j rules)); try done.
    apply carried_arr, remove_Forall. by eapply rules_carried.
  - destruct Ho as (Hi & Hj & w & a & Hw & Ha & Hrule).
    destruct (stage_at _ l Hl Hi) as (m & rules & Hm & _ & Hc & Hr & Hra).
    unfold handleSaveRule, save_rule. rewrite Hw, Ha, clone_stages by done. rewrite Hm.
    cbn [truthy negb opt_get]. rewrite Hr. cbn [spread_array].
    assert (Hcr := rules_carried m rules Hc Hr). rewrite Hra in *.
    destruct (rd_ruleIndex d) as [j|]; eexists; (split; [reflexivity|]).
    + rewrite (arr_set_in j) by done.
      destruct (field_on_stage (rd_stageIndex d) "rules" (JArr (<[j := rule_js w a]> rules)) l m
                  (<[j := rule_js w a]> rules)) as [Hok Hch]; try done.
      { apply carried_arr. by apply Forall_insert. }
      split; [done|]. by exists w, a.
    + destruct (field_on_stage (rd_stageIndex d) "rules" (JArr (rules ++ [rule_js w a])) l m
                  (rules ++ [rule_js w a])) as [Hok Hch]; try done.
      { apply carried_arr, List.Forall_app. split; [done|]. by constructor. }
      split; [done|]. by exists w, a.
Qed.

(** The stages after edits the page offers, from the stages it loaded *)
Inductive edited (l0 : list js) : list js -> Prop :=
| edited_start : edited l0 l0
| edited_next e l l' : edited l0 l -> offered e l -> edit_step e l = Some l' -> edited l0 l'.

Lemma edited_ok (l0 l : list js) : Forall stage_ok l0 -> edited l0 l -> Forall stage_ok l.
Proof.
  intros H0. induction 1 as [|e l l' _ IH Ho Hs]; [done|].
  destruct (edit_correct e l IH Ho) as (l1 & E & Hok & _). rewrite E in Hs. by injection Hs as <-.
Qed.

(** The stage editor never fails and never damages what it does not edit.  From stages of
    the expected shape, after any number of edits, every edit the page offers succeeds: adding,
    renaming, moving, removing a stage, deleting or saving a rule.  It leaves stages of that
    shape, moves are exchanges of neighbours, and a change of a name or of the rules leaves
    every other field of the stage and every other stage as they were. *)
Theorem stage_editor_safe (l0 l : list js) (e : edit) :
  Forall stage_ok l0 -> edited l0 l -> offered e l ->
  exists l', edit_step e l = Some l' /\ Forall stage_ok l' /\ edit_spec e l l'.
Proof. intros H0 Hr Ho. apply edit_correct; [by eapply edited_ok|done]. Qed.

Definition demo_stages : list js :=
  [JObj [("name", JStr "guardrails"); ("rules", JArr [rule_js [] [("block", JBool true)]])];
   JObj [("name", JStr "fallback"); ("rules", JArr [])]].

Lemma demo_stages_ok : Forall stage_ok demo_stages.
Proof.
  repeat constructor; try (by vm_compute; repeat split; reflexivity); by eexists _, _.
Defined.

(** Two stages exchanged, then a rule saved on the second *)
Lemma stage_editor_safe_witness :
  let l := move_down 0 demo_stages in
  let d := mkRuleDialog true 0 None (set_max_tokens (JObj []) "100.5") (set_block (JObj []) true) in
  exists l', edit_step (SaveRule d) l = Some l' /\ Forall stage_ok l' /\ edit_spec (SaveRule d) l l'.
Proof.
  apply (stage_editor_safe demo_stages (move_down 0 demo_stages)
           (SaveRule (mkRuleDialog true 0 None (set_max_tokens (JObj []) "100.5") (set_block (JObj []) true)))).
  - apply demo_stages_ok.
  - apply (edited_next _ (MoveDown 0) demo_stages); [constructor|cbn; lia|reflexivity].
  - split; [cbn; lia|]. split; [exact I|]. eexists _, _.
    split; [vm_compute; reflexivity|]. split; [vm_compute; reflexivity|].
    vm_compute. repeat split; reflexivity.
Defined.
