(* ===== verification/RoutingView.v ===== *)
(** * What the routing page shows

    src/frontend/src/app/(app)/routing/page.tsx from its header down: the badges, the cards of the stages
    and their rules, the inputs of the rule dialog as a machine, the notes of the sections, the counts of
    the semantic summary, and the dialog of a route group. *)

From stdpp Require Import list.
From S2P Require Import Prelude JsNumber JsText JsValue JsArray Effects Routes UsageApi ConsoleClient SemanticViews RoutingPage.
Local Open Scope string_scope.

(** ** Options *)

(** A strategy: its value, label and detail *)
Definition STRATEGY_OPTIONS : list (string * (string * string)) :=
  [("smart", ("Smart", "Stages + pesos coste / latencia / errores")); ("round_robin", ("Round Robin", "Reparto round-robin por tenant"));
   ("latency", ("Latency", "Orden por EWMA de latencia")); ("cost", ("Cost", "Orden por coste estimado"));
   ("header", ("Header", "Sin lógica, extrae por orden de candidatos"))].
Definition STRATEGY_BY_VALUE (value : string) : option (string * string) := map_get value STRATEGY_OPTIONS.
Definition PRECEDENCE_OPTIONS : list (string * string) := [("header", "Header"); ("route_group", "Route group"); ("default", "Default")].
Definition CONFLICT_OPTIONS : list (string * string) :=
  [("error", "Error"); ("prefer_model", "Prefer model"); ("prefer_route_group", "Prefer route group")].
Definition STAGE_META : list (string * (string * string)) :=
  [("guardrails", ("Guardrails", "Blocks or modifies requests based on rules."));
   ("semantic_intent", ("Semantic Intent", "Uses anchors and threshold to determine intent."));
   ("structured_output", ("Structured Output", "Prefers specific models for structured tasks."));
   ("route_group_resolution", ("Route Group Resolution", "Maps requests into configured route groups."));
   ("model_selection", ("Model Selection", "Chooses the best model for the request."));
   ("fallback", ("Fallback", "Handles routing failures and retries."))].

(** ** Sections *)

Definition thresholdDefault (config : js) : option num :=
  match opt_get (or_empty (opt_get (routing_of config) "semantic")) "threshold_default" with JNum n => Some n | _ => None end.
Definition threshold_text (config : js) : string := match thresholdDefault config with Some n => to_fixed 2 n | None => "—" end.
Definition fallback_enabled (st : RoutingState) : bool := (r_fallback st).1.1.
Definition header_badges (config : js) (st : RoutingState) : list string :=
  ["Strategy: " ++ match STRATEGY_BY_VALUE (r_strategy st) with Some o => o.1 | None => r_strategy st end;
   "Threshold: " ++ threshold_text config; "Fallback: " ++ (if fallback_enabled st then "Enabled" else "Disabled")].
Definition strategy_detail (st : RoutingState) : option string := snd <$> STRATEGY_BY_VALUE (r_strategy st).

(** The card of a stage: its name, its description, and its rules with their badges and conditions *)
Definition pipelineStages (stages : list js) : list string :=
  map (fun st => match opt_get st "name" with
                 | JStr n => match map_get n STAGE_META with Some m => m.2 | None => "Routing stage." end
                 | _ => "Routing stage."
                 end) stages.
Record RuleCard := mkRuleCard { rc_badges : list string; rc_whens : string; rc_empty : bool }.
Definition rule_card (rule : js) : RuleCard :=
  let badges := aggregateActionBadges [rule] in
  let whens := collectWhenSummaries [rule] in
  mkRuleCard badges (str_join " · " whens) (match badges, whens with [], [] => true | _, _ => false end).
Record StageCard := mkStageCard { sc_name : string; sc_description : string; sc_rules : list RuleCard; sc_up : bool; sc_down : bool }.
Definition stage_card (total i : nat) (stage : js) (description : string) : StageCard :=
  mkStageCard (str_of (opt_get stage "name") "") description (map rule_card (js_array (opt_get stage "rules")))
    (negb (Nat.eqb i 0)) (Nat.ltb i (total - 1)).
Definition stages_section (stages : list js) : Part (list StageCard) :=
  table_part false false "" "Add routing stages to control how requests are evaluated before model selection."
    (zip_with (fun i p => stage_card (List.length stages) i p.1 p.2) (seq 0 (List.length stages)) (zip stages (pipelineStages stages))).

(** The weights are shown while the strategy is smart; the note says what is wrong with them. *)
Definition weights_note (st : RoutingState) : option string :=
  if String.eqb (r_strategy st) "smart"
  then let '(c, l, e) := r_weights st in
       Some ("Total: " ++ to_fixed 2 (num_add (num_add c l) e) ++ " " ++ (if weightsValid st then "" else "(must equal 1.00)"))
  else None.
Definition fallback_note (st : RoutingState) : option string :=
  if fallbackValid st then None else Some "Timeout must be greater than 0 and max attempts must be at least 1.".
Definition overrides_note (st : RoutingState) : option string :=
  match r_overrides st with
  | (false, false) => Some "Header overrides are disabled for this tenant."
  | (true, true) => None
  | _ => Some "Conflict policy only applies when both model and route group overrides are enabled."
  end.
(** Whether the two selectors can be used *)
Definition precedence_enabled (st : RoutingState) : bool := ((r_overrides st).1 || (r_overrides st).2)%bool.
Definition conflict_enabled (st : RoutingState) : bool := ((r_overrides st).1 && (r_overrides st).2)%bool.

(** *** The semantic summary *)

Definition fetchSemanticRoutesSummary (tenant : option string) : M js :=
  res ← page_get ("/api/semantic/routes?tenant_id=" ++ encodeURIComponent (default "" tenant));
  if negb (res_ok res) then
    payload ← try_catch (res_json res) (fun _ => mret (JObj []));
    error ← get payload "error";
    throw (error_of (js_or error (JStr "Failed to fetch semantic routes")))
  else res_json res.
(** [semanticAnchorsQuery.data?.data?.length ?? 0]; an ellipsis while it loads *)
Definition count_of (field : string) (data : js) : nat := List.length (js_array (opt_get data field)).
Definition summary_counts (config : js) (anchorsLoading routesLoading : bool) (anchors routes : js) : list (string * string) :=
  let shown (loading : bool) (n : nat) := if loading then "…" else Z_to_string (Z.of_nat n) in
  [("Threshold", threshold_text config); ("Anchors", shown anchorsLoading (count_of "data" anchors));
   ("Semantic routes", shown routesLoading (count_of "routes" routes))].

(** The models a rule or a group can name: those allowed, or all when none is named *)
Definition allowedModels (config : js) : list string :=
  omap (fun v => match v with JStr s => Some s | _ => None end) (js_array (opt_get config "allowed_models")).
Definition routeGroupModelOptions (config : js) (adminModels : list string) : list string :=
  match allowedModels config with
  | [] => adminModels
  | allowed => List.filter (fun m => set_has m (js_set allowed)) adminModels
  end.

Inductive RoutingPageView :=
| SelectATenant
| RoutingLoading
| RoutingShown (badges : list string) (detail : option string) (stages : Part (list StageCard)) (notes : list (option string))
    (summary : list (string * string)).
Definition RoutingContent (tenant : option string) (isLoading : bool) (config : js) (st : RoutingState) (anchorsLoading routesLoading : bool)
    (anchors routes : js) : RoutingPageView :=
  match truthy_env tenant with
  | None => SelectATenant
  | Some _ =>
      if isLoading then RoutingLoading
      else RoutingShown (header_badges config st) (strategy_detail st) (stages_section (r_stages st))
             [weights_note st; fallback_note st; overrides_note st] (summary_counts config anchorsLoading routesLoading anchors routes)
  end.

(** ** The inputs of the sections *)

Inductive form_event :=
| SetStrategy (v : string)
| SetCost (text : string)
| SetLatency (text : string)
| SetErrors (text : string)
| SetFallback (checked : bool)
| SetTimeout (text : string)
| SetAttempts (text : string)
| SetModelOverride (checked : bool)
| SetGroupOverride (checked : bool)
| SetPrecedence (v : string)
| SetConflict (v : string).

(** The weights have inputs while the strategy is smart; the selectors are disabled as [precedence_enabled] and
    [conflict_enabled] say. *)
Definition form_step (s : RoutingState) (e : form_event) : RoutingState :=
  let '(mkRouting strategy (c, l, er) (fe, ft, fa) (om, og) (pm, cp) groups stages) := s in
  let weights w := if String.eqb strategy "smart" then mkRouting strategy w (fe, ft, fa) (om, og) (pm, cp) groups stages else s in
  let fallback f := mkRouting strategy (c, l, er) f (om, og) (pm, cp) groups stages in
  let selection o p := mkRouting strategy (c, l, er) (fe, ft, fa) o p groups stages in
  match e with
  | SetStrategy v => mkRouting v (c, l, er) (fe, ft, fa) (om, og) (pm, cp) groups stages
  | SetCost t => weights (weight_input t, l, er)
  | SetLatency t => weights (c, weight_input t, er)
  | SetErrors t => weights (c, l, weight_input t)
  | SetFallback b => fallback (b, ft, fa)
  | SetTimeout t => fallback (fe, number_of_string t, fa)
  | SetAttempts t => fallback (fe, ft, number_of_string t)
  | SetModelOverride b => selection (b, og) (pm, cp)
  | SetGroupOverride b => selection (om, b) (pm, cp)
  | SetPrecedence v => if precedence_enabled s then selection (om, og) (v, cp) else s
  | SetConflict v => if conflict_enabled s then selection (om, og) (pm, v) else s
  end.

(** ** The rule dialog *)

Inductive rule_event :=
| SetMaxTokens (v : string)
| SetContains (text : string)
| SetPromptLength (field v : string)
| SetThreshold (v : string)
| SetBlock (checked : bool)
| SetReason (text : string)
| ToggleModel (field modelId : string)
| SetUseAnchor (checked : bool)
| SetConstraint (key v : string)
| CancelRule.

Definition with_when (w : js) (d : RuleDialog) : RuleDialog := mkRuleDialog (rd_open d) (rd_stageIndex d) (rd_ruleIndex d) w (rd_action d).
Definition with_action (a : js) (d : RuleDialog) : RuleDialog := mkRuleDialog (rd_open d) (rd_stageIndex d) (rd_ruleIndex d) (rd_when d) a.
(** None where an update of the state would throw *)
Definition rule_step (d : RuleDialog) (e : rule_event) : option RuleDialog :=
  match e with
  | SetMaxTokens v => Some (with_when (set_max_tokens (rd_when d) v) d)
  | SetContains text => Some (with_when (set_contains (rd_when d) text) d)
  | SetPromptLength field v => Some (with_when (patchPromptLength (rd_when d) field v) d)
  | SetThreshold v => Some (with_when (set_threshold (rd_when d) v) d)
  | SetBlock checked => Some (with_action (set_block (rd_action d) checked) d)
  | SetReason text => Some (with_action (set_reason (rd_action d) text) d)
  | ToggleModel field modelId => (fun a => with_action a d) <$> toggleRuleModel (rd_action d) field modelId
  | SetUseAnchor checked => Some (with_action (set_use_anchor (rd_action d) checked) d)
  | SetConstraint key v => Some (with_action (patchRuleConstraint (rd_action d) key v) d)
  | CancelRule => Some (mkRuleDialog false (rd_stageIndex d) (rd_ruleIndex d) (rd_when d) (rd_action d))
  end.
(** What the text area shows: [(when.contains ?? []).join('\n')] *)
Definition contains_text (d : RuleDialog) : string := js_join (String "010" "") (js_array (opt_get (rd_when d) "contains")).

(** ** The dialog of a route group *)

Record GroupDialog := mkGroupDialog { gd_open : bool; gd_edit : bool; gd_originalName : option string; gd_name : string; gd_models : list string }.
Definition closed_group : GroupDialog := mkGroupDialog false false None "" [].
Inductive group_event := TypeGroupName (text : string) | CheckModel (model : string) (checked : bool) | CloseGroup | SaveGroup.
(** The sets of the dialog's state there are; its inputs are rendered only while it is open. *)
Definition group_step (d : GroupDialog) (e : group_event) : GroupDialog :=
  match e with
  | TypeGroupName text => if gd_open d then mkGroupDialog true (gd_edit d) (gd_originalName d) text (gd_models d) else d
  | CheckModel m checked =>
      if gd_open d
      then mkGroupDialog true (gd_edit d) (gd_originalName d) (gd_name d)
             (if checked then gd_models d ++ [m] else List.filter (fun x => negb (String.eqb x m)) (gd_models d))%list
      else d
  | CloseGroup => if gd_open d then closed_group else d
  | SaveGroup => if (gd_open d && negb (String.eqb (str_trim (gd_name d)) ""))%bool then closed_group else d
  end.

(** ** Laws *)

Lemma join_newline (ls : list string) :
  ls <> [] -> str_join (String "010" "") (ls ++ [""]) = str_join (String "010" "") ls ++ String "010" "".
Proof.
  induction ls as [|l ls IH]; intros H; [done|]. destruct ls as [|l' ls]; [done|].
  change (l ++ (String "010" "" ++ str_join (String "010" "") ((l' :: ls) ++ [""])) =
          (l ++ (String "010" "" ++ str_join (String "010" "") (l' :: ls))) ++ String "010" "").
  rewrite IH by done. by rewrite !str_app_assoc.
Qed.

Lemma trailing_newline_dropped (ls : list string) :
  Forall (clean_item "010") ls -> split_clean "010" (str_join (String "010" "") ls ++ String "010" "") = ls.
Proof.
  intros H. destruct (decide (ls = [])) as [->|Hne]; [done|]. rewrite <- join_newline by done. unfold split_clean.
  rewrite split_join; [|by destruct ls|].
  - rewrite map_app, List.filter_app. cbn. rewrite app_nil_r. by apply (keep_clean "010").
  - apply List.Forall_app. split; [|by repeat constructor]. eapply List.Forall_impl; [|exact H]. by intros s (_ & _ & ?).
Qed.

(** The end of a line cannot be typed: the text area of the keywords drops a new empty line at once, so
    the next key goes on with the last keyword. *)
Theorem keyword_newline_lost (d : RuleDialog) (w : obj) (ls : list string) :
  rd_when d = JObj w -> opt_get (JObj w) "contains" = JArr (map JStr ls) -> ls <> [] -> Forall (clean_item "010") ls ->
  exists d', rule_step d (SetContains (contains_text d ++ String "010" "")) = Some d' /\ contains_text d' = contains_text d.
Proof.
  intros Hw Hc Hne Hls. eexists. split; [reflexivity|]. unfold contains_text. rewrite Hw, Hc. cbn [with_when rd_when js_array].
  rewrite !join_texts. unfold set_contains. fold (split_clean "010" (str_join (String "010" "") ls ++ String "010" "")).
  rewrite trailing_newline_dropped by done. destruct ls as [|l ls]; [done|]. unfold with_field.
  cbn [opt_get]. rewrite obj_get_set_eq. cbn [js_array]. by rewrite join_texts.
Qed.

(** No event opens the dialog of a route group, so nothing on the page saves one. *)
Theorem group_dialog_never_opens (events : list group_event) : fold_left group_step events closed_group = closed_group.
Proof. induction events as [|e events IH]; [done|]. by destruct e. Qed.

(** the cards of the stages.  There is one card per stage, in order, with one rule card per rule; up is offered
    for all but the first, down for all but the last. *)
Theorem stage_cards_exact (stages : list js) (cards : list StageCard) :
  stages_section stages = PartShown cards ->
  List.length cards = List.length stages /\
  forall i st card, stages !! i = Some st -> cards !! i = Some card ->
    List.length (sc_rules card) = List.length (js_array (opt_get st "rules")) /\
    (sc_up card = true <-> (0 < i)%nat) /\ (sc_down card = true <-> (S i < List.length stages)%nat).
Proof.
  unfold stages_section, table_part. set (l := zip_with _ _ _). intros H.
  assert (Hc : cards = l) by (by destruct l; [|injection H]). subst cards.
  assert (Hlen : List.length (zip stages (pipelineStages stages)) = List.length stages).
  { unfold pipelineStages. rewrite length_zip, List.length_map. lia. }
  split; [subst l; rewrite length_zip_with, length_seq, Hlen; lia|]. intros i st card Hst Hcard.
  subst l. apply lookup_zip_with_Some in Hcard as (j & [st' d] & -> & Hj & Hp). apply lookup_zip_Some in Hp as [Hp _].
  rewrite Hp in Hst. injection Hst as ->. apply lookup_seq in Hj as [-> Hi]. cbn [stage_card sc_rules sc_up sc_down].
  rewrite List.length_map. split; [done|]. rewrite Nat.add_0_l. split.
  - rewrite negb_true_iff, Nat.eqb_neq. lia.
  - rewrite Nat.ltb_lt. lia.
Qed.

(** The inputs of the sections leave the groups and the stages alone, and a conflict policy is only ever changed while
    both overrides are on. *)
Theorem form_inputs_local (s : RoutingState) (e : form_event) :
  r_groups (form_step s e) = r_groups s /\ r_stages (form_step s e) = r_stages s /\
  ((r_precedence (form_step s e)).2 <> (r_precedence s).2 -> conflict_enabled s = true).
Proof.
  destruct s as [strategy [[c l] er] [[fe ft] fa] [om og] [pm cp] groups stages].
  destruct e; cbn -[weight_input]; repeat case_match; cbn; done.
Qed.
