(* ===== verification/SemanticPage.v ===== *)
(** * The semantic page

    src/frontend/src/app/(app)/semantic/page.tsx: the anchor form and what submitting it
    sends, the options the form offers, the inputs of the playground, the suggestions and the
    calibration, and the threshold with its unsaved draft. *)

From S2P Require Import Prelude JsNumber JsText JsValue JsArray Json Effects UsageApi ConsoleClient CatalogClient.
From Stdlib Require Import SpecFloat.
Local Open Scope string_scope.

(** ** Lists of texts *)

Definition normalize_step (acc : list string * list string) (value : string) : list string * list string :=
  let '(seen, result) := acc in
  let trimmed := str_trim value in
  if (String.eqb trimmed "" || set_has trimmed seen)%bool then acc
  else (set_add seen trimmed, (result ++ [trimmed])%list).

Definition normalizeStringArray (values : list string) : list string :=
  snd (fold_left normalize_step values ([], [])).

Definition arraysEqualIgnoreOrder (a b : list string) : bool :=
  if negb (Nat.eqb (List.length a) (List.length b)) then false
  else forallb (fun p => String.eqb p.1 p.2) (combine (js_sort by_code a) (js_sort by_code b)).

(** [text.split('\n').map((line) => line.trim()).filter(Boolean)] *)
Definition nonempty_lines : string -> list string := split_clean "010".

(** ** The anchor form *)

Record SemanticAnchor := mkAnchor {
  an_name : string;
  an_route_group : string;
  an_preferred_models : option (list string);
  an_modality : option string;
  an_anchor_text : option string;
}.

Record AnchorFormState := mkForm {
  fo_name : string;
  fo_route_group : string;
  fo_anchor_text : string;
  fo_modality : string;
  fo_preferred_models : list string;
  fo_tenant_id : string;
}.

Definition EMPTY_ANCHOR_FORM : AnchorFormState := mkForm "" "" "" "text" [] "".

(** The dialog: a new anchor, with what is suggested for it, or one that is edited *)
Record Defaults := mkDefaults {
  df_name : option string;
  df_route_group : option string;
  df_text : option string;
  df_modality : option string;
  df_preferred_models : option (list string);
  df_tenant_id : option string;
}.

Inductive AnchorDialog : Type :=
| Creating (defaults : Defaults)
| Editing (anchor : SemanticAnchor).

(** [a ?? b ?? d] *)
Definition first_of {A} (a b : option A) (d : A) : A :=
  match a, b with Some x, _ => x | None, Some y => y | None, None => d end.

(** The effect that fills the form *)
Definition fill_form (dialog : option AnchorDialog) (selectedTenantId firstTenant : option string)
  : AnchorFormState :=
  match dialog with
  | None => EMPTY_ANCHOR_FORM
  | Some (Editing a) =>
      mkForm (an_name a) (an_route_group a) (default "" (an_anchor_text a))
        (default "text" (an_modality a)) (default [] (an_preferred_models a)) ""
  | Some (Creating d) =>
      mkForm (default "" (df_name d)) (default "" (df_route_group d)) (default "" (df_text d))
        (default "text" (df_modality d)) (default [] (df_preferred_models d))
        (match df_tenant_id d with Some t => t | None => first_of selectedTenantId firstTenant "" end)
  end.

(** [handleOpenCreateAnchor]: what is given overrides the selected tenant. *)
Definition handleOpenCreateAnchor (selectedTenantId : option string) (d : Defaults) : AnchorDialog :=
  Creating (mkDefaults (df_name d) (df_route_group d) (df_text d) (df_modality d)
    (df_preferred_models d)
    (match df_tenant_id d with Some t => Some t | None => Some (default "" selectedTenantId) end)).

Definition preferredChanged (form : AnchorFormState) (anchor : SemanticAnchor) : bool :=
  negb (arraysEqualIgnoreOrder (normalizeStringArray (fo_preferred_models form))
          (normalizeStringArray (default [] (an_preferred_models anchor)))).

Definition strings_js (l : list string) : js := JArr (map JStr l).

(** The properties of an edited anchor that are sent *)
Definition patch_payload (form : AnchorFormState) (anchor : SemanticAnchor) : obj :=
  let rg := str_trim (fo_route_group form) in
  let text := str_trim (fo_anchor_text form) in
  let p := if String.eqb rg (an_route_group anchor) then [] else [("route_group", JStr rg)] in
  let p := if String.eqb text (default "" (an_anchor_text anchor)) then p
           else obj_set "anchor_text" (JStr text) p in
  if preferredChanged form anchor
  then obj_set "preferred_models" (strings_js (normalizeStringArray (fo_preferred_models form))) p
  else p.

Definition create_payload (form : AnchorFormState) : obj :=
  let text := str_trim (fo_anchor_text form) in
  let models := normalizeStringArray (fo_preferred_models form) in
  let p := [("name", JStr (str_trim (fo_name form))); ("route_group", JStr (str_trim (fo_route_group form)));
            ("modality", JStr (fo_modality form))] in
  let p := if String.eqb text "" then p else obj_set "text" (JStr text) p in
  match models with [] => p | _ => obj_set "preferred_models" (strings_js models) p end.

(** What submitting the form asks for *)
Inductive AnchorWrite : Type :=
| CreateAnchor (tenantId : string) (payload : obj)
| PatchAnchor (name : string) (payload : obj).

Definition handleSubmitAnchor (dialog : option AnchorDialog) (disabled : bool) (form : AnchorFormState)
    (selectedTenantId : option string) : option AnchorWrite :=
  match dialog with
  | None => None
  | Some d =>
      if disabled then None
      else if (String.eqb (str_trim (fo_name form)) "" || String.eqb (str_trim (fo_route_group form)) "")%bool
      then None
      else match d with
           | Creating _ =>
               match truthy_env (Some (fo_tenant_id form)) with
               | Some t => Some (CreateAnchor t (create_payload form))
               | None => match truthy_env selectedTenantId with
                         | Some t => Some (CreateAnchor t (create_payload form))
                         | None => None
                         end
               end
           | Editing a => match patch_payload form a with
                          | [] => None
                          | p => Some (PatchAnchor (an_name a) p)
                          end
           end
  end.

(** ** The mutations of the page *)

(** [if (!selectedTenantId) throw new Error('Select a tenant')] *)
Definition for_tenant (selectedTenantId : option string) (write : string -> M js) : M js :=
  match truthy_env selectedTenantId with
  | None => throw (JsError "Select a tenant")
  | Some t => write t
  end.

Definition title_toast (title : string) : Effect := ShowToast [("title", JStr title)].
Definition failed (title : string) (error : exn) : list Effect :=
  [ShowToast [("title", JStr title); ("description", JStr (exn_message error));
              ("variant", JStr "destructive")]].
Definition routes_key (selectedTenantId : option string) : list js :=
  key_of "semantic-routes" (match selectedTenantId with Some t => JStr t | None => JNull end).

(** The tenant of the form and the payload *)
Definition createAnchorMutation : MutationHook (string * obj) :=
  mkHook (fun v => createSemanticAnchor (Some v.1) v.2)
    (fun _ _ => [Invalidate (key "semantic-anchors"); title_toast "Anchor created"])
    (failed "Failed to create anchor").

Definition updateAnchorMutation (selectedTenantId : option string) : MutationHook (string * obj) :=
  mkHook (fun v => for_tenant selectedTenantId (fun t => patchSemanticAnchor t v.1 v.2))
    (fun _ _ => [Invalidate (key "semantic-anchors"); title_toast "Anchor updated"])
    (failed "Failed to update anchor").

Definition deleteAnchorMutation (selectedTenantId : option string) : MutationHook string :=
  mkHook (fun name => for_tenant selectedTenantId (fun t => quietly (deleteSemanticAnchor t name)))
    (fun _ _ => [Invalidate (key "semantic-anchors"); title_toast "Anchor deleted"])
    (failed "Failed to delete anchor").

Definition createRouteMutation (selectedTenantId : option string) : MutationHook obj :=
  mkHook (fun payload => for_tenant selectedTenantId (fun t => createSemanticRoute t payload))
    (fun _ _ => [Invalidate (routes_key selectedTenantId); title_toast "Route created"])
    (failed "Failed to create route").

Definition deleteRouteMutation (selectedTenantId : option string) : MutationHook string :=
  mkHook (fun name => for_tenant selectedTenantId (fun t => quietly (deleteSemanticRoute t name)))
    (fun _ _ => [Invalidate (routes_key selectedTenantId); title_toast "Route deleted"])
    (failed "Failed to delete route").

Definition updateThresholdMutation : MutationHook (string * num) :=
  mkHook (fun v => updateSemanticThreshold v.1 v.2)
    (fun data _ =>
       title_toast "Threshold updated" ::
       reading data "tenant_id" (fun id => [Invalidate (key_of "semantic-threshold" id)]))
    (failed "Failed to update threshold").

(** The mutation a submitted form is passed to *)
Definition run_write (selectedTenantId : option string) (wr : AnchorWrite) : M js :=
  match wr with
  | CreateAnchor t payload => mutationFn createAnchorMutation (t, payload)
  | PatchAnchor name payload => mutationFn (updateAnchorMutation selectedTenantId) (name, payload)
  end.

(** Confirming a deletion: nothing is deleted when nothing was chosen. *)
Definition handleDeleteAnchor (anchorToDelete : option SemanticAnchor) : option string :=
  option_map an_name anchorToDelete.
Definition handleDeleteRoute (disabled : bool) (routeToDelete : option string) : option string :=
  if disabled then None else routeToDelete.

Definition removePreferredModel (modelId : string) (models : list string) : list string :=
  List.filter (fun id => negb (String.eqb id modelId)) models.

Definition togglePreferredModel (modelId : string) (checked : bool) (models : list string) : list string :=
  let exists_ := existsb (String.eqb modelId) models in
  if (checked && negb exists_)%bool then (models ++ [modelId])%list
  else if (negb checked && exists_)%bool then removePreferredModel modelId models
  else models.

(** ** The options of the page *)

Section Options.
Context `{Collation}.

Record AdminModel := mkAdminModel {
  am_id : string;
  am_provider : option string;
  am_route_groups : list string;
}.

Definition filteredModelOptions (models : list AdminModel) (allowed : list string) (search : string)
  : list AdminModel :=
  let base := match allowed with
              | [] => models
              | _ => List.filter (fun m => set_has (am_id m) (js_set allowed)) models
              end in
  let sorted := js_sort (by_text am_id) base in
  let needle := str_lower (str_trim search) in
  if String.eqb needle "" then sorted
  else List.filter (fun m =>
         str_includes needle (str_lower (am_id m)) ||
         match am_provider m with Some p => str_includes needle (str_lower p) | None => false end ||
         existsb (fun g => str_includes needle (str_lower g)) (am_route_groups m)) sorted.

Definition routeGroupOptions (groups : list string) (current : string) : list string :=
  js_sort (by_text (fun s => s))
    (if (negb (String.eqb current "") && negb (existsb (String.eqb current) groups))%bool
     then (groups ++ [current])%list else groups).

(** The non-empty trimmed texts, added to a set *)
Definition add_trimmed (seen : list string) (l : list string) : list string :=
  fold_left (fun s x => let t := str_trim x in if String.eqb t "" then s else set_add s t) l seen.

Definition routeGroupsFromAnchors (anchors : list SemanticAnchor) : list string :=
  js_sort (by_text (fun s => s)) (add_trimmed [] (map an_route_group anchors)).

Definition calibrationRouteOptions (fromAnchors : list string) (rows : list (string * string)) : list string :=
  js_sort (by_text (fun s => s)) (add_trimmed (js_set fromAnchors) (map snd rows)).
End Options.

Definition filteredAnchors (anchors : list SemanticAnchor) (searchTerm : string) : list SemanticAnchor :=
  if String.eqb (str_trim searchTerm) "" then anchors
  else let needle := str_lower searchTerm in
       List.filter (fun a => str_includes needle (str_lower (an_name a)) ||
                             str_includes needle (str_lower (an_route_group a))) anchors.

Definition embeddingModel (config : js) : string :=
  match opt_get (opt_get (opt_get config "routing") "semantic") "embedding_model" with
  | JStr s => s
  | _ => ""
  end.
Definition disableSemanticActions (config : js) : bool :=
  String.eqb (str_trim (embeddingModel config)) "".

Definition isSemanticRoutingEnabled (config : js) : bool :=
  match opt_get (opt_get (opt_get config "routing") "smart") "stages" with
  | JArr stages =>
      match List.find (fun st => is_str (opt_get st "name") "semantic_intent") stages with
      | Some st => match opt_get st "rules" with JArr (_ :: _) => true | _ => false end
      | None => false
      end
  | _ => false
  end.

(** ** The tools of the page *)

(** What a button answers: an error the page shows, a toast, or a request *)
Inductive Answer (A : Type) : Type :=
| Ignored
| Refused (title text : string)
| Runs (m : M A).
Arguments Ignored {A}.
Arguments Refused {A}.
Arguments Runs {A}.

Definition handleRunPlayground (disabled : bool) (input : string) (tenant : option string) : Answer js :=
  if disabled then Ignored
  else if String.eqb (str_trim input) "" then Refused "" "Enter text to test"
  else match truthy_env tenant with
       | None => Refused "" "Select a tenant before testing"
       | Some t => Runs (runSemanticTest (str_trim input) (JStr t))
       end.

Definition handleSuggestAnchors (disabled : bool) (text : string) (maxClusters : num)
    (tenant : option string) : Answer js :=
  if disabled then Ignored
  else match nonempty_lines text with
       | [] => Refused "Dataset required" "Add at least one line"
       | dataset =>
           match truthy_env tenant with
           | None => Refused "Tenant required" "Select a tenant before generating suggestions"
           | Some t => Runs (suggestSemanticAnchors dataset (JNum maxClusters) (JStr t))
           end
       end.

Definition calibration_dataset (rows : list (string * string)) : list (string * string) :=
  List.filter (fun r => negb (String.eqb r.1 "") && negb (String.eqb r.2 ""))
    (map (fun r => (str_trim r.1, str_trim r.2)) rows).

Definition handleCalibrate (disabled : bool) (rows : list (string * string)) (tenant : option string)
  : Answer js :=
  if disabled then Ignored
  else match truthy_env tenant with
       | None => Refused "Tenant required" "Select a tenant before calibrating"
       | Some t => match calibration_dataset rows with
                   | [] => Refused "Dataset required" "Add at least one labeled row"
                   | dataset => Runs (calibrateSemanticThreshold dataset t)
                   end
       end.

Definition handleCreateRoute (disabled : bool) (tenant : option string)
    (name action description utterances : string) : Answer js :=
  if disabled then Ignored
  else match truthy_env tenant with
       | None => Refused "Tenant required" "Select a tenant before creating a route"
       | Some t =>
           let name := str_trim name in
           let action := str_trim action in
           if (String.eqb name "" || String.eqb action "")%bool then Ignored
           else let description := str_trim description in
                Runs (mutationFn (createRouteMutation (Some t))
                  ([("name", JStr name); ("action", JStr action)] ++
                   (if String.eqb description "" then [] else [("description", JStr description)]) ++
                   [("utterances", strings_js (nonempty_lines utterances))])%list)
       end.

(** ** The threshold *)

(** The selected tenant, what the cache has of its threshold, the draft of the input, and the
    recommendation of the last calibration *)
Record Threshold := mkThreshold {
  th_tenant : option string;
  th_current : option num;
  th_draft : option num;
  th_recommended : option num;
}.

Definition displayThreshold (st : Threshold) : num :=
  match th_draft st with Some d => d | None => default num_zero (th_current st) end.

Definition thresholdDirty (st : Threshold) : bool :=
  match th_draft st, th_current st with
  | Some d, Some c => negb (num_eqb d c)
  | Some _, None => true
  | None, _ => false
  end.

(** The effect after a render: an empty draft takes the value of the cache. *)
Definition draft_effect (st : Threshold) : Threshold :=
  match th_current st, th_draft st with
  | Some c, None => mkThreshold (th_tenant st) (Some c) (Some c) (th_recommended st)
  | _, _ => st
  end.

Definition with_draft (d : option num) (st : Threshold) : Threshold :=
  mkThreshold (th_tenant st) (th_current st) d (th_recommended st).

(** [Fetched]: an answer of the threshold's query is in the cache.  [Saved]: the mutation's
    onSuccess, which invalidates that query and clears the draft; the query's next answer is
    another event. *)
Inductive threshold_event : Type :=
| SelectTenant (tenant : string) (cached : option num)
| Fetched (value : option num)
| TypeDraft (text : string)
| SlideDraft (text : string)
| Saved
| Calibrated (recommended : num).

Definition threshold_event_step (ev : threshold_event) (st : Threshold) : Threshold :=
  match ev with
  | SelectTenant t cached => mkThreshold (Some t) cached None (th_recommended st)
  | Fetched v => mkThreshold (th_tenant st) v (th_draft st) (th_recommended st)
  | TypeDraft text => let value := number_of_string text in
                      with_draft (if num_is_finite value then Some value else None) st
  | SlideDraft text => with_draft (Some (number_of_string text)) st
  | Saved => with_draft None st
  | Calibrated r => mkThreshold (th_tenant st) (th_current st) (th_draft st) (Some r)
  end.

Definition threshold_step (st : Threshold) (ev : threshold_event) : Threshold :=
  draft_effect (threshold_event_step ev st).

(** The button that saves the draft: the tenant and the value it sends *)
Definition save_threshold (disabled : bool) (st : Threshold) : option (string * num) :=
  if (disabled || negb (thresholdDirty st))%bool then None
  else match truthy_env (th_tenant st), th_draft st with
       | Some t, Some d => Some (t, number_of_string (to_fixed 4 d))
       | _, _ => None
       end.

Definition handleApplyRecommendedThreshold (disabled : bool) (st : Threshold) : option (string * num) :=
  if disabled then None
  else match th_recommended st, truthy_env (th_tenant st) with
       | Some r, Some t => Some (t, r)
       | _, _ => None
       end.

(** ** Laws *)

Lemma combine_eqb (a b : list string) :
  List.length a = List.length b ->
  forallb (fun p => String.eqb p.1 p.2) (combine a b) = true <-> a = b.
Proof.
  revert b. induction a as [|x a IH]; intros [|y b] H; cbn in *; try done.
  rewrite andb_true_iff, String.eqb_eq, IH by lia. split; [by intros [-> ->]|by intros [= -> ->]].
Qed.

Lemma arraysEqual_perm (a b : list string) :
  arraysEqualIgnoreOrder a b = true <-> Permutation a b.
Proof.
  unfold arraysEqualIgnoreOrder. destruct (Nat.eqb_spec (List.length a) (List.length b)) as [E|E]; cbn [negb].
  - rewrite combine_eqb by (by rewrite !js_sort_length). apply sort_code_perm.
  - split; [done|]. intros H. destruct E. by apply Permutation_length.
Qed.

Lemma normalize_fold (values seen : list string) :
  fold_left normalize_step values (seen, seen) =
  (fold_left set_add (List.filter (fun s => negb (String.eqb s "")) (map str_trim values)) seen,
   fold_left set_add (List.filter (fun s => negb (String.eqb s "")) (map str_trim values)) seen).
Proof.
  revert seen. induction values as [|v values IH]; intros seen; cbn [fold_left map List.filter]; [done|].
  unfold normalize_step at 2. destruct (String.eqb_spec (str_trim v) "") as [E|E]; cbn [orb negb]; [apply IH|].
  cbn [fold_left].
  assert (Ha : set_add seen (str_trim v) =
               if set_has (str_trim v) seen then seen else (seen ++ [str_trim v])%list) by done.
  destruct (set_has (str_trim v) seen); rewrite Ha; apply IH.
Qed.

(** The normal form of a list: its trimmed, non-empty texts, each once. *)
Lemma normalize_set (values : list string) :
  normalizeStringArray values = js_set (List.filter (fun s => negb (String.eqb s "")) (map str_trim values)).
Proof. unfold normalizeStringArray. by rewrite normalize_fold. Qed.

Lemma normalize_elem (values : list string) (x : string) :
  In x (normalizeStringArray values) <-> x <> "" /\ exists v, In v values /\ str_trim v = x.
Proof.
  rewrite normalize_set, js_set_In, filter_In, in_map_iff, negb_true_iff, String.eqb_neq. split.
  - intros [(v & <- & Hv) Hx]. eauto.
  - intros [Hx (v & Hv & <-)]. eauto.
Qed.

Lemma normalize_NoDup (values : list string) : List.NoDup (normalizeStringArray values).
Proof. rewrite normalize_set. apply js_set_NoDup. Qed.

(** The models of two forms are the same: the same trimmed names, blanks aside *)
Definition same_models (a b : list string) : Prop :=
  forall x, x <> "" -> (exists v, In v a /\ str_trim v = x) <-> (exists v, In v b /\ str_trim v = x).

Lemma same_models_perm (a b : list string) :
  Permutation (normalizeStringArray a) (normalizeStringArray b) <-> same_models a b.
Proof.
  split.
  - intros H x Hx. assert (Hin : In x (normalizeStringArray a) <-> In x (normalizeStringArray b)).
    { split; intros Hi; [|symmetry in H]; by eapply Permutation_in. }
    rewrite !normalize_elem in Hin. tauto.
  - intros H. apply Permutation.NoDup_Permutation; [apply normalize_NoDup..|]. intros x.
    rewrite !normalize_elem. specialize (H x). tauto.
Qed.

(** C32: Saving an edited anchor sends exactly what was changed.  The patch has the route
    group, the text or the models if and only if the trimmed form differs from the anchor in
    them, models compared as sets of trimmed names; each with the form's value; nothing else is
    ever sent, and nothing at all when nothing was changed. *)
Theorem anchor_patch_exact (form : AnchorFormState) (anchor : SemanticAnchor) :
  let p := patch_payload form anchor in
  obj_get "route_group" p =
    (if String.eqb (str_trim (fo_route_group form)) (an_route_group anchor) then None
     else Some (JStr (str_trim (fo_route_group form)))) /\
  obj_get "anchor_text" p =
    (if String.eqb (str_trim (fo_anchor_text form)) (default "" (an_anchor_text anchor)) then None
     else Some (JStr (str_trim (fo_anchor_text form)))) /\
  (same_models (fo_preferred_models form) (default [] (an_preferred_models anchor)) ->
     obj_get "preferred_models" p = None) /\
  (~ same_models (fo_preferred_models form) (default [] (an_preferred_models anchor)) ->
     obj_get "preferred_models" p = Some (strings_js (normalizeStringArray (fo_preferred_models form)))) /\
  forall k, k <> "route_group" -> k <> "anchor_text" -> k <> "preferred_models" -> obj_get k p = None.
Proof.
  intros p. unfold p, patch_payload, preferredChanged.
  rewrite <- !same_models_perm, <- !arraysEqual_perm.
  destruct (arraysEqualIgnoreOrder _ _); cbn [negb];
    destruct (String.eqb (str_trim (fo_route_group form)) _), (String.eqb (str_trim (fo_anchor_text form)) _).
  all: repeat split; intros; try done.
  all: repeat (rewrite obj_get_set_eq || rewrite obj_get_set_ne by congruence); cbn; try done.
  all: destruct (String.eqb_spec k "route_group"); done.
Qed.

(** *** The threshold after a save *)

(** A threshold that was saved comes back as an unsaved change to the old one.  Clearing
    the draft lets the effect take the cached value, which is still the one before the save;
    when the query's answer arrives the page shows the old value, counts it as unsaved, and its
    button writes the old value again. *)
Theorem saved_threshold_reverts (st : Threshold) (t : string) (old new draft : num) :
  th_tenant st = Some t -> t <> "" -> th_current st = Some old -> th_draft st = Some draft ->
  num_eqb old new = false ->
  let st' := threshold_step (threshold_step st Saved) (Fetched (Some new)) in
  th_current st' = Some new /\ displayThreshold st' = old /\ thresholdDirty st' = true /\
  save_threshold false st' = Some (t, number_of_string (to_fixed 4 old)).
Proof.
  intros Ht Hne Hc Hd Hold st'. destruct st as [tenant current d r]. cbn in *. subst.
  unfold st', save_threshold, displayThreshold, thresholdDirty. cbn. rewrite Hold. cbn.
  by destruct (String.eqb_spec t "").
Qed.

Lemma saved_threshold_reverts_witness :
  let st := mkThreshold (Some "acme") (Some (number_of_string "0.7")) (Some (number_of_string "0.85")) None in
  let st' := threshold_step (threshold_step st Saved) (Fetched (Some (number_of_string "0.85"))) in
  th_current st' = Some (number_of_string "0.85") /\ displayThreshold st' = number_of_string "0.7" /\
  thresholdDirty st' = true /\
  save_threshold false st' = Some ("acme", number_of_string (to_fixed 4 (number_of_string "0.7"))).
Proof.
  apply (saved_threshold_reverts
    (mkThreshold (Some "acme") (Some (number_of_string "0.7")) (Some (number_of_string "0.85")) None)
    "acme" (number_of_string "0.7") (number_of_string "0.85") (number_of_string "0.85"));
    first [reflexivity|discriminate|vm_compute; reflexivity].
Defined.

(** *** The recommendation of a calibration *)

(** Without a tenant nothing is sent: the writes of anchors and routes only say so. *)
Lemma semantic_writes_need_tenant (tenant : option string) (w : World) (s : State) :
  truthy_env tenant = None ->
  let refused V (h : MutationHook V) v title :=
    (mutationFn h v w s).2 = s /\
    forall fx, settles h v w s fx <-> fx = failed title (JsError "Select a tenant") in
  (forall v, refused _ (updateAnchorMutation tenant) v "Failed to update anchor") /\
  (forall v, refused _ (deleteAnchorMutation tenant) v "Failed to delete anchor") /\
  (forall v, refused _ (createRouteMutation tenant) v "Failed to create route") /\
  (forall v, refused _ (deleteRouteMutation tenant) v "Failed to delete route").
Proof.
  intros Ht. cbn zeta.
  assert (R : forall V (h : MutationHook V) v k title,
    mutationFn h v = for_tenant tenant k -> onError h = failed title ->
    (mutationFn h v w s).2 = s /\
    forall fx, settles h v w s fx <-> fx = failed title (JsError "Select a tenant")).
  { intros V h v k title Hf He. unfold for_tenant in Hf. rewrite Ht in Hf.
    assert (E : mutationFn h v w s = (Throw (JsError "Select a tenant"), s)) by (rewrite Hf; reflexivity).
    split; [now rewrite E|]. intros fx. rewrite <- He. split.
    - intros [data s' H|e s' H]; congruence.
    - intros ->. eapply settles_error; exact E. }
  repeat split; try (eapply R; reflexivity); (eapply (R _ _ _ _ _ eq_refl eq_refl)).
Qed.

(** The recommendation stays when another tenant is selected, and would be written to it. *)
Lemma recommendation_outlives_tenant (st : Threshold) (r : num) (t : string) (cached : option num) :
  t <> "" ->
  handleApplyRecommendedThreshold false
    (threshold_step (threshold_step st (Calibrated r)) (SelectTenant t cached)) = Some (t, r).
Proof.
  intros Ht.
  assert (Hk : forall s, th_recommended (draft_effect s) = th_recommended s /\
                         th_tenant (draft_effect s) = th_tenant s).
  { intros [te [c|] [d|] rc]; done. }
  unfold handleApplyRecommendedThreshold, threshold_step.
  rewrite (proj1 (Hk _)), (proj2 (Hk _)). cbn [threshold_event_step th_recommended th_tenant].
  rewrite (proj1 (Hk _)). unfold truthy_env. cbn [threshold_event_step th_recommended].
  by destruct (String.eqb_spec t "").
Qed.
