(* ===== verification/SemanticTables.v ===== *)
(** * What the semantic page shows

    src/frontend/src/app/(app)/semantic/page.tsx from its header down: the results of the playground, the
    suggestions and the calibration as a machine over their answers, the rows of the calibration, the
    dialogs, and the tables of anchors and routes with the texts they show when they are empty. *)

From S2P Require Import Prelude JsNumber JsText JsValue JsArray NumOrder Effects UsageApi CatalogClient SemanticViews SemanticPage.
Local Open Scope string_scope.

(** ** The tools of the page as a machine *)

Record SemState := mkSem {
  se_tenant : option string;
  se_playgroundInput : string;
  se_playgroundResult : option (string * js);
  se_playgroundError : option string;
  se_suggestions : option (list js);
  se_calibrationRows : list (string * string);
  se_calibrationResult : option js;
}.
(** A result carries the tenant it was asked for, which the page itself does not keep. *)
Definition initial_sem (tenants : list string) : SemState := mkSem (head tenants) "" None None None [("", "")] None.

Definition with_playground (result : option (string * js)) (error : option string) (s : SemState) : SemState :=
  mkSem (se_tenant s) (se_playgroundInput s) result error (se_suggestions s) (se_calibrationRows s) (se_calibrationResult s).
Definition with_rows (rows : list (string * string)) (s : SemState) : SemState :=
  mkSem (se_tenant s) (se_playgroundInput s) (se_playgroundResult s) (se_playgroundError s) (se_suggestions s) rows (se_calibrationResult s).

Inductive sem_event :=
| SelectTenant (tenant : string)
| TypePlayground (text : string)
| RunPlayground
| PlaygroundAnswered (tenant : string) (data : js)
| PlaygroundFailed (e : exn)
| SuggestAnswered (data : js)
| CalibrateAnswered (data : js)
| SetRowText (i : nat) (text : string)
| SetRowRoute (i : nat) (route : string)
| RemoveRow (i : nat)
| AddRow.

(** [rows.filter((_, idx) => idx !== index)] *)
Definition remove_row {A} (i : nat) (rows : list A) : list A := (take i rows ++ drop (S i) rows)%list.
(** The button of the last row is disabled. *)
Definition sem_step (disabled : bool) (s : SemState) (e : sem_event) : SemState :=
  let rows := se_calibrationRows s in
  match e with
  | SelectTenant t => mkSem (Some t) (se_playgroundInput s) (se_playgroundResult s) (se_playgroundError s) (se_suggestions s) rows (se_calibrationResult s)
  | TypePlayground text =>
      if disabled then s
      else mkSem (se_tenant s) text (se_playgroundResult s) (se_playgroundError s) (se_suggestions s) rows (se_calibrationResult s)
  | RunPlayground => match handleRunPlayground disabled (se_playgroundInput s) (se_tenant s) with
                     | Refused _ text => with_playground None (Some text) s
                     | _ => s
                     end
  | PlaygroundAnswered t data => with_playground (Some (t, data)) None s
  | PlaygroundFailed err => with_playground None (Some (exn_message err)) s
  | SuggestAnswered data =>
      mkSem (se_tenant s) (se_playgroundInput s) (se_playgroundResult s) (se_playgroundError s) (Some (js_array (js_or (opt_get data "anchors") (JArr []))))
        rows (se_calibrationResult s)
  | CalibrateAnswered data =>
      mkSem (se_tenant s) (se_playgroundInput s) (se_playgroundResult s) (se_playgroundError s) (se_suggestions s) rows (Some data)
  | SetRowText i text => if disabled then s else with_rows (alter (fun r => (text, r.2)) i rows) s
  | SetRowRoute i route => if disabled then s else with_rows (alter (fun r => (r.1, route)) i rows) s
  | RemoveRow i => if (disabled || Nat.eqb (List.length rows) 1)%bool then s else with_rows (remove_row i rows) s
  | AddRow => if disabled then s else with_rows (rows ++ [("", "")])%list s
  end.

(** ** Views *)

(** The banners above the sections *)
Definition embedding_label (config : js) : string := if disableSemanticActions config then "Not configured" else embeddingModel config.
Definition routing_banner (tenant : option string) (isLoading : bool) (config : js) : option string :=
  match truthy_env tenant with
  | Some t => if isLoading then None
              else Some ("Semantic Routing is " ++ (if isSemanticRoutingEnabled config then "enabled" else "disabled") ++ " for tenant " ++ t)
  | None => None
  end.

Definition anchor_cells (tenantLabel : option string) (includeAnchorText : bool) (vector_dims : SemanticAnchor -> option num) (a : SemanticAnchor)
    : list string :=
  ([default "—" tenantLabel; an_name a; an_route_group a; match an_preferred_models a with Some ((_ :: _) as l) => str_join ", " l | _ => "—" end;
    match truthy_env (an_modality a) with Some m => m | None => "text" end;
    match vector_dims a with Some n => num_to_string n | None => "—" end] ++
   (if includeAnchorText then [match truthy_env (an_anchor_text a) with Some t => t | None => "Not available" end] else []))%list.
Definition no_anchors : string := "Create anchors or use suggestions to bootstrap semantic routing".
Definition anchors_section (isLoading : bool) (error : option exn) (anchors : list SemanticAnchor) (searchTerm : string) : Part (list SemanticAnchor) :=
  table_part isLoading (bool_decide (is_Some error)) (match error with Some e => exn_message e | None => "" end) no_anchors
    (filteredAnchors anchors searchTerm).

(** The card of the playground: the threshold, whether the top match passed, and its rows *)
Definition playground_card (result : js) : string * string * list (string * string) :=
  let top := opt_get result "top_match" in
  ("Threshold " ++ to_fixed 2 (js_to_number (opt_get result "threshold")),
   (if truthy top then if truthy (opt_get top "passed") then "Passed" else "Failed" else "No match"),
   (if truthy top
    then [("Top anchor", js_to_string (opt_get top "anchor")); ("Route group", js_to_string (opt_get top "route_group"));
          ("Similarity", to_fixed 3 (js_to_number (opt_get top "similarity")));
          ("Decision", js_to_string (js_or (opt_get (opt_get result "decision") "result") (JStr "—")))]
    else [("", "No anchor exceeded the threshold.")])).
Definition playground_view (s : SemState) : option string * option (string * string * list (string * string)) :=
  (se_playgroundError s, (fun r => playground_card r.2) <$> se_playgroundResult s).

(** A white-space character of ASCII *)
Definition is_white (c : ascii) : bool := let n := code c in ((Nat.leb 9 n && Nat.leb n 13) || Nat.eqb n 32)%bool.
(** [text.replace(/\s+/g, '_')]: each run of white space is one underscore *)
Fixpoint underscores (in_space : bool) (text : string) : string :=
  match text with
  | EmptyString => ""
  | String c rest => if is_white c then if in_space then underscores true rest else String "_" (underscores true rest)
                     else String c (underscores false rest)
  end.
Definition suggestion_defaults (suggestion : js) : Defaults :=
  let anchor := js_to_string (opt_get suggestion "anchor") in
  mkDefaults (Some (underscores false anchor)) (Some "") (Some anchor) None None None.
Definition suggestion_rows (s : SemState) : list (string * string) :=
  map (fun g => (js_to_string (opt_get g "anchor"), js_to_string (opt_get g "examples"))) (default [] (se_suggestions s)).

Definition calibration_card (result : js) : list (string * string) :=
  let n k := to_fixed 2 (num_of (opt_get result k) num_zero) in
  [("Recommended threshold", to_fixed 2 (js_to_number (opt_get result "recommended_threshold"))); ("Precision", n "precision"); ("Recall", n "recall");
   ("F1", n "f1")].

Definition route_cells (route : js) : list string :=
  let f := opt_get route in
  [js_to_string (f "name"); js_to_string (js_or (f "description") (JStr "—")); js_to_string (f "action");
   match opt_num (f "threshold") with Some n => to_fixed 2 n | None => "—" end; Z_to_string (Z.of_nat (List.length (js_array (f "utterances"))))].
Definition routes_section (isLoading : bool) (error : option exn) (routes : list js) : Part (list (list string)) :=
  table_part isLoading (bool_decide (is_Some error)) (match error with Some e => exn_message e | None => "" end)
    "Add semantic routes to drive tool-routing decisions" (map route_cells routes).

(** The dialog of an anchor: its title, and whether its button is disabled *)
Definition dialog_title (d : option AnchorDialog) : string := match d with Some (Editing _) => "Edit anchor" | _ => "Create anchor" end.

Definition anchorHasChanges (d : AnchorDialog) (form : AnchorFormState) : bool :=
  match d with
  | Editing a => (negb (String.eqb (str_trim (fo_route_group form)) (an_route_group a)) ||
                  negb (String.eqb (str_trim (fo_anchor_text form)) (default "" (an_anchor_text a))) || preferredChanged form a)%bool
  | Creating _ => true
  end.
Definition anchorSubmitDisabled (createPending updatePending : bool) (d : AnchorDialog) (form : AnchorFormState) (selectedTenantId : option string)
    : bool :=
  (createPending || updatePending || String.eqb (str_trim (fo_name form)) "" || String.eqb (str_trim (fo_route_group form)) "" ||
   match d with
   | Editing _ => negb (anchorHasChanges d form)
   | Creating _ => match truthy_env (Some (fo_tenant_id form)), truthy_env selectedTenantId with None, None => true | _, _ => false end
   end)%bool.

(** ** Laws *)

(** the button of the anchor dialog.  While no write is under way it is enabled exactly when submitting the
    form sends something. *)
Theorem anchor_button_sends (d : AnchorDialog) (form : AnchorFormState) (tenant : option string) :
  anchorSubmitDisabled false false d form tenant = false <-> handleSubmitAnchor (Some d) false form tenant <> None.
Proof.
  unfold anchorSubmitDisabled, handleSubmitAnchor. cbn [orb].
  destruct (String.eqb (str_trim (fo_name form)) ""); [done|]. destruct (String.eqb (str_trim (fo_route_group form)) ""); [done|].
  cbn [orb]. destruct d as [df|a].
  - destruct (truthy_env (Some (fo_tenant_id form))), (truthy_env tenant); done.
  - cbn [anchorHasChanges]. unfold patch_payload.
    destruct (String.eqb (str_trim (fo_route_group form)) _), (String.eqb (str_trim (fo_anchor_text form)) _), (preferredChanged form a); done.
Qed.

(** the state of the tools.  Whatever is pressed and answered, the playground shows an error or a result
    but never both, and the calibration keeps a row. *)
Theorem semantic_tools_inv (tenants : list string) (events : list (bool * sem_event)) :
  let s := fold_left (fun s e => sem_step e.1 s e.2) events (initial_sem tenants) in
  (se_playgroundError s = None \/ se_playgroundResult s = None) /\ se_calibrationRows s <> [].
Proof.
  cbn zeta. set (inv s := (se_playgroundError s = None \/ se_playgroundResult s = None) /\ se_calibrationRows s <> []).
  assert (Hstep : forall d s e, inv s -> inv (sem_step d s e)).
  { intros d s e [Hp Hr]. unfold inv. destruct e as [t|t| |t x|x|x|x|i t|i t|i|]; cbn [sem_step].
    - done.
    - by destruct d.
    - destruct (handleRunPlayground _ _ _); cbn; [done| |done]. split; [by right|done].
    - split; [by left|done].
    - split; [by right|done].
    - done.
    - done.
    - destruct d; [done|]. split; [done|]. cbn. intros E%(f_equal List.length). rewrite length_alter in E.
      by apply nil_length_inv in E.
    - destruct d; [done|]. split; [done|]. cbn. intros E%(f_equal List.length). rewrite length_alter in E.
      by apply nil_length_inv in E.
    - destruct (d || _)%bool eqn:E; [done|]. split; [done|]. cbn. apply orb_false_iff in E as [_ E%Nat.eqb_neq].
      intros H%(f_equal List.length). unfold remove_row in H. rewrite length_app, length_take, length_drop in H. cbn in H.
      destruct (se_calibrationRows s) as [|r [|r' rows]]; cbn in *; try done. destruct i; cbn in *; lia.
    - destruct d; [done|]. split; [done|]. cbn. by destruct (se_calibrationRows s). }
  assert (H : forall evs s, inv s -> inv (fold_left (fun s e => sem_step e.1 s e.2) evs s)).
  { induction evs as [|e evs IH]; intros s Hs; [done|]. by apply IH, Hstep. }
  apply H. split; [by left|done].
Qed.

Lemma underscores_plain (s : string) (b : bool) : str_all (fun c => negb (is_white c)) (underscores b s) = true.
Proof.
  revert b. induction s as [|c s IH]; intros b; cbn; [done|]. destruct (is_white c) eqn:E; [destruct b; cbn; apply IH|].
  cbn. rewrite E. apply IH.
Qed.

(** The name a suggestion proposes has no white space. *)
Theorem suggested_name_plain (suggestion : js) (name : string) :
  df_name (suggestion_defaults suggestion) = Some name -> str_all (fun c => negb (is_white c)) name = true.
Proof. intros [= <-]. apply underscores_plain. Qed.

(** The result of the playground stays when another tenant is selected. *)
Theorem playground_outlives_tenant (disabled : bool) (s : SemState) (a b : string) (data : js) :
  let s' := sem_step disabled (sem_step disabled s (PlaygroundAnswered a data)) (SelectTenant b) in
  se_tenant s' = Some b /\ playground_view s' = (None, Some (playground_card data)).
Proof. done. Qed.

(** A search without a match is shown as a tenant without anchors. *)
Theorem unmatched_search_reads_empty (a : SemanticAnchor) :
  an_name a = "billing" -> an_route_group a = "default" -> anchors_section false None [a] "zzz" = PartEmpty no_anchors.
Proof. intros Hn Hr. unfold anchors_section, filteredAnchors. cbn. by rewrite Hn, Hr. Qed.
