(* ===== verification/ToolsPage.v ===== *)
(** * The tools page

    src/frontend/src/app/(app)/tools/page.tsx: reading the result of a tool-routing test, the
    forms that create and edit a tool route with what makes them valid, the mutations, and the
    dialog that fetches the utterances of a route while it is open. *)

From S2P Require Import Prelude JsNumber JsText JsValue JsArray Json JsonRoundTrip Effects GatewayClient GatewayFacts Routes AuthRoutes CatalogApi UsageApi ConsoleClient CatalogClient ConsoleFacts SemanticPage.
Local Open Scope string_scope.

(** ** The result of a test *)

Inductive TestStatus := Matched | NoMatch | TestError.

Record ToolRoutingTestResult := mkTestResult {
  tt_status : TestStatus;
  tt_matched : bool;
  tt_route : option string;
  tt_action : option string;
  tt_similarity : option num;
  tt_skippedModelRouting : bool;
  tt_rawContent : option string;
  tt_errorMessage : option string;
}.

(** [x && typeof x.k === 'string' ? x.k : undefined], and the same of a number *)
Definition text_field (k : string) (v : js) : option string :=
  match opt_get v k with JStr s => Some s | _ => None end.
Definition number_field (k : string) (v : js) : option num :=
  match opt_get v k with JNum n => Some n | _ => None end.

(** The text of the first choice of a completion *)
Definition choice_content (payload : js) : js :=
  match opt_get payload "choices" with
  | JArr (choice :: _) => js_coalesce (opt_get (opt_get choice "message") "content") (JStr "")
  | _ => JStr ""
  end.

(** The object in a content that looks like one; JNull when there is none *)
Definition content_json (content : js) : js :=
  match content with
  | JStr s => if starts_with "{" (str_trim s)
              then match json_parse s with Some v => v | None => JNull end
              else JNull
  | _ => JNull
  end.

Definition no_match : ToolRoutingTestResult :=
  mkTestResult NoMatch false None None None false None None.

Definition parseToolRoutingResult (payload : js) (headers : list (string * string)) : ToolRoutingTestResult :=
  let toolRoute := params_get "x-tool-route" headers in
  let toolAction := params_get "x-tool-action" headers in
  let similarityHeader := params_get "x-tool-route-similarity" headers in
  match truthy_env toolRoute, truthy_env toolAction with
  | None, None =>
      let model := js_to_string (js_coalesce (opt_get payload "model") (JStr "")) in
      if String.eqb model "tool-route" then
        let content := choice_content payload in
        let contentJson := content_json content in
        mkTestResult Matched true (text_field "route" contentJson) (text_field "tool" contentJson)
          (number_field "similarity" contentJson) true
          (match content with JStr s => Some s | _ => None end) None
      else no_match
  | _, _ =>
      mkTestResult Matched true toolRoute toolAction
        (option_map number_of_string (truthy_env similarityHeader)) true None None
  end.

(** ** The test *)

Definition test_body (model prompt : string) : js :=
  JObj [("model", JStr model);
        ("messages", JArr [JObj [("role", JStr "user"); ("content", JStr prompt)]])].

Definition test_url (tenantId : string) : string :=
  "/api/tool-routing/test?tenant_id=" ++ encodeURIComponent tenantId.

(** The mutation of the test and its callbacks: what becomes of the result on the page.  The
    page always gets one: an error is a result of its own. *)
Definition run_tool_test (tenantId : option string) (testModel testPrompt : string)
  : M ToolRoutingTestResult :=
  try_catch
    (res ← page_send "POST" (test_url (default "" tenantId)) (test_body (str_trim testModel) (str_trim testPrompt));
     payload ← res_json_or_empty res;
     if negb (res_ok res) then
       throw (JsError (match opt_get payload "error" with
                       | JStr s => s
                       | _ => "Request failed (" ++ Z_to_string (res_status res) ++ ")"
                       end))
     else mret (parseToolRoutingResult payload (res_headers res)))
    (fun e => mret (mkTestResult TestError false None None None false None (Some (exn_message e)))).

(** ** Routes and their forms *)

Record ToolRoute := mkToolRoute {
  to_name : string;
  to_description : option string;
  to_action : string;
  to_threshold : option num;
}.

Record RouteForm := mkRouteForm {
  rf_name : string;
  rf_action : string;
  rf_description : string;
  rf_threshold : string;
  rf_utterances : string;
}.

Definition EMPTY_FORM : RouteForm := mkRouteForm "" "" "" "0.80" "".

(** [s || undefined] *)
Definition or_undefined (s : string) : js := if String.eqb s "" then JUndef else JStr s.

Definition create_body (f : RouteForm) : js :=
  JObj [("name", JStr (str_trim (rf_name f))); ("action", JStr (str_trim (rf_action f)));
        ("description", or_undefined (str_trim (rf_description f)));
        ("threshold", JNum (number_of_string (rf_threshold f)));
        ("utterances", strings_js (nonempty_lines (rf_utterances f)))].

Definition edit_body (f : RouteForm) : js :=
  JObj [("description", or_undefined (str_trim (rf_description f)));
        ("action", JStr (str_trim (rf_action f)));
        ("threshold", JNum (number_of_string (rf_threshold f)));
        ("utterances", strings_js (nonempty_lines (rf_utterances f)))].

Definition thresholdInvalid (text : string) : bool :=
  let n := number_of_string text in
  (String.eqb (str_trim text) "" || negb (num_is_finite n) || num_ltb n num_zero || num_gtb n (num_of_Z 1))%bool.

(** [createDisabled] and [editDisabled], which read the same *)
Definition formDisabled (tenant : option string) (f : RouteForm) : bool :=
  ((match truthy_env tenant with None => true | Some _ => false end) ||
   String.eqb (str_trim (rf_name f)) "" || String.eqb (str_trim (rf_action f)) "" ||
   thresholdInvalid (rf_threshold f) ||
   (match nonempty_lines (rf_utterances f) with [] => true | _ => false end))%bool.

Definition routes_url (tenantId : string) : string :=
  "/api/semantic/routes?tenant_id=" ++ encodeURIComponent tenantId.
Definition route_url (tenantId name : string) : string :=
  "/api/semantic/routes/" ++ encodeURIComponent name ++ "?tenant_id=" ++ encodeURIComponent tenantId.

Definition or_raise (fallback : string) (res : HttpResponse) : M js :=
  if negb (res_ok res) then raise_payload res fallback else res_json res.

Definition fetchToolRoutes (tenant : option string) : M js :=
  res ← page_get (routes_url (default "" tenant)); or_raise "Failed to fetch tool routes" res.

Definition tenant_required {A} (tenant : option string) (k : string -> M A) : M A :=
  match truthy_env tenant with
  | None => throw (JsError "Tenant required")
  | Some t => k t
  end.

Definition tool_routes_key (tenant : option string) : list js :=
  key_of "tool-routes" (match tenant with Some t => JStr t | None => JNull end).

Definition createToolRoute (tenant : option string) : MutationHook RouteForm :=
  mkHook (fun f => tenant_required tenant (fun t =>
            res ← page_send "POST" (routes_url t) (create_body f);
            or_raise "Failed to create tool route" res))
    (fun _ _ => [title_toast "Tool route created"; Invalidate (tool_routes_key tenant)])
    (failed "Failed to create tool route").

(** The variable is [routeToDelete]. *)
Definition deleteToolRoute (tenant : option string) : MutationHook (option ToolRoute) :=
  mkHook (fun r => tenant_required tenant (fun t =>
            match r with
            | None => throw (JsError "Tenant required")
            | Some r =>
                res ← page_call "DELETE" (route_url t (to_name r));
                or_raise "Failed to delete tool route" res
            end))
    (fun _ _ => [title_toast "Tool route deleted"; Invalidate (tool_routes_key tenant)])
    (failed "Failed to delete tool route").

(** The variables are [routeToEdit] and [editForm]. *)
Definition editToolRoute (tenant : option string) : MutationHook (option ToolRoute * RouteForm) :=
  mkHook (fun v => tenant_required tenant (fun t =>
            match v.1 with
            | None => throw (JsError "Tenant required")
            | Some r =>
                res ← page_send "PATCH" (route_url t (to_name r)) (edit_body v.2);
                or_raise "Failed to update tool route" res
            end))
    (fun _ _ => [title_toast "Tool route updated"; Invalidate (tool_routes_key tenant)])
    (failed "Failed to update tool route").

(** ** The edit dialog

    Opening it shows what the list knows at once and asks the server for the utterances.  The
    answers come in any order: each flight is the name it was sent for. *)

Record EditState := mkEdit {
  ed_route : option ToolRoute;
  ed_form : RouteForm;
  ed_loading : bool;
  ed_flights : list string;
}.

Definition prefill (r : ToolRoute) : RouteForm :=
  mkRouteForm (to_name r) (to_action r) (default "" (to_description r))
    (match to_threshold r with Some t => num_to_string t | None => "0.80" end) "".

Definition with_utterances (f : RouteForm) (text : string) : RouteForm :=
  mkRouteForm (rf_name f) (rf_action f) (rf_description f) (rf_threshold f) text.

(** The utterances an answer fills in; None where it is not ok or cannot be read, which leaves
    the form. *)
Definition detail_utterances (o : outcome HttpResponse) : option string :=
  match o with
  | Ok res =>
      if negb (res_ok res) then None
      else match res_body res with
           | None => None
           | Some text =>
               match json_parse text with
               | None => None
               | Some detail =>
                   if nullish detail then None
                   else match opt_get detail "utterances" with
                        | JArr l => Some (js_join (String "010" "") l)
                        | _ => Some ""
                        end
               end
           end
  | Throw _ => None
  end.

Inductive edit_event : Type :=
| OpenEdit (r : ToolRoute)
| Detail (i : nat) (o : outcome HttpResponse)
| TypeForm (f : RouteForm)
| CloseEdit
| EditSaved.

Definition edit_event_step (ev : edit_event) (st : EditState) : EditState :=
  match ev with
  | OpenEdit r => mkEdit (Some r) (prefill r) true (ed_flights st ++ [to_name r])%list
  | Detail i o =>
      match nth_error (ed_flights st) i with
      | None => st
      | Some _ =>
          mkEdit (ed_route st)
            (match detail_utterances o with
             | Some text => with_utterances (ed_form st) text
             | None => ed_form st
             end) false
            (firstn i (ed_flights st) ++ skipn (S i) (ed_flights st))%list
      end
  | TypeForm f =>
      mkEdit (ed_route st)
        (if ed_loading st then with_utterances f (rf_utterances (ed_form st)) else f)
        (ed_loading st) (ed_flights st)
  | CloseEdit | EditSaved => mkEdit None (ed_form st) (ed_loading st) (ed_flights st)
  end.

Definition edit_run (evs : list edit_event) (st : EditState) : EditState :=
  fold_left (fun st ev => edit_event_step ev st) evs st.

Definition edit_start : EditState := mkEdit None EMPTY_FORM false [].

(** ** Reading a test end to end *)

Lemma tenant_query_read (tenantId : string) (headers : list (string * string)) (body : string) :
  query "tenant_id" (mkRequest headers ("tenant_id=" ++ encodeURIComponent tenantId) body) = Some tenantId.
Proof.
  assert (P : parse_form_pair ("tenant_id" ++ String "=" (encodeURIComponent tenantId)) = ("tenant_id", tenantId)).
  { unfold parse_form_pair. rewrite split_once_app by done. by rewrite form_decode_uri. }
  unfold query, searchParams, parse_params. cbn [req_query].
  rewrite str_split_lacks by (by rewrite lacks_app, AuthRoutes.encode_segment).
  change (params_get "tenant_id"
            [parse_form_pair ("tenant_id" ++ String "=" (encodeURIComponent tenantId))] = Some tenantId).
  by rewrite P.
Qed.

(** The copied headers are the gateway's, as long as none is empty. *)
Lemma tool_headers_get (res : HttpResponse) (k : string) :
  (forall h, params_get h (res_headers res) <> Some "") ->
  In k ["x-tool-route"; "x-tool-action"; "x-tool-route-similarity"] ->
  params_get k (tool_headers res) = params_get k (res_headers res).
Proof.
  intros Hne Hin. unfold tool_headers. cbn [fold_left].
  assert (G : forall h acc, params_get k (ConfigApi.set_given h (params_get h (res_headers res)) acc)
                = if String.eqb k h then match params_get h (res_headers res) with
                                          | Some v => Some v | None => params_get k acc end
                  else params_get k acc).
  { intros h acc. unfold ConfigApi.set_given, truthy_env. specialize (Hne h).
    destruct (params_get h (res_headers res)) as [v|]; [|by destruct (String.eqb k h)].
    destruct (String.eqb_spec v "") as [->|]; [done|]. apply params_get_set. }
  rewrite !G. destruct Hin as [<-|[<-|[<-|[]]]]; cbn; by destruct (params_get _ (res_headers res)).
Qed.

Definition test_request (tenantId model prompt : string) : HttpRequest :=
  mkHttpRequest "POST" (test_url tenantId) json_headers
    (Some (json_str (test_body (str_trim model) (str_trim prompt)))).

Lemma test_body_carried (model prompt : string) : carried (test_body model prompt).
Proof. cbn. repeat split. Qed.

Lemma parse_headers_only (payload : js) (h1 h2 : list (string * string)) :
  (forall k, In k ["x-tool-route"; "x-tool-action"; "x-tool-route-similarity"] ->
             params_get k h1 = params_get k h2) ->
  parseToolRoutingResult payload h1 = parseToolRoutingResult payload h2.
Proof. intros H. unfold parseToolRoutingResult. rewrite !H by (cbn; tauto). done. Qed.

(** C25: The page shows what the gateway decided.  A test sent from the page runs through the
    console's route with its ephemeral key, and the result on the page is the reading of the
    gateway's own answer: its three routing headers, or its body where they are missing. *)
Theorem tool_test_shows_decision (page server : World) (tenantId base k model prompt text : string)
    (created : js) (res : HttpResponse) (s : State) :
  let q := test_request tenantId model prompt in
  let query := "tenant_id=" ++ encodeURIComponent tenantId in
  let run := served server tool_test_POST query q in
  let tok := request_token server (as_request query q) in
  let create := gateway_request base (key_path tenantId) key_request (credential_of tok k) in
  let use := inference_request base (opt_get created "key") (test_body (str_trim model) (str_trim prompt)) in
  tenantId <> "" -> configured server tok base k -> GatewayFacts.serves server start create created ->
  truthy (opt_get created "key") = true -> truthy (opt_get created "id") = true ->
  net server [create] use = Ok res -> res_body res = Some text -> res_ok res = true ->
  json_status (res_status res) = true -> (forall h, params_get h (res_headers res) <> Some "") ->
  net page (sent s) q = Ok (http_of run.1) ->
  run_tool_test (Some tenantId) model prompt page s
  = (Ok (parseToolRoutingResult (default (JObj []) (json_parse text)) (res_headers res)), after s [q]).
Proof.
  intros q query run tok create use Ht Hc Hs Hk Hi Hu Hb Hok Hst Hh Hnet.
  assert (Hrun : run.1 = Ok (mkResponse (res_status res) (BodyRaw text) (tool_headers res))).
  { destruct (tool_test_run server (as_request query q) start base k tenantId
                (test_body (str_trim model) (str_trim prompt)) created Hc) as (s' & rest & Hr & _);
      [|apply json_parse_str, test_body_carried|exact Hs|exact Hk|exact Hi|].
    - unfold as_request, query. rewrite tenant_query_read. cbn. by destruct (String.eqb_spec tenantId "").
    - unfold run, served. rewrite Hr. cbn [fst sent start app]. fold tok create use.
      unfold test_answer. by rewrite Hu, Hb, Hst. }
  rewrite <- (parse_headers_only _ (tool_headers res)) by (intros; by apply tool_headers_get).
  unfold run_tool_test, try_catch, page_send, page_fetch, mbind, M_bind.
  change (json_stringify (test_body (str_trim model) (str_trim prompt)))
    with (Some (json_str (test_body (str_trim model) (str_trim prompt)))).
  cbn [default id]. fold (test_request tenantId model prompt). fold q. rewrite Hnet, Hrun.
  unfold res_json_or_empty, res_json, res_text, parse_text, try_catch, mbind, M_bind.
  cbn -[json_parse parseToolRoutingResult]. destruct (json_parse text); cbn -[parseToolRoutingResult];
    unfold res_ok; cbn -[parseToolRoutingResult]; unfold res_ok in Hok; by rewrite Hok.
Qed.

Definition tool_server : World :=
  demo_world [("admin_access_token", "jwt")]
    (fun r => if String.eqb (http_url r) "http://gw:8000/v1/chat/completions"
              then Ok (mkHttpResponse 200 "" [("x-tool-route", "weather"); ("x-tool-route-similarity", "0.5")]
                         (Some "{}"))
              else reply_json 200 (JObj [("key", JStr "k"); ("id", JStr "7")])).
Definition tool_page : World :=
  demo_world [] (fun q => Ok (http_of (served tool_server tool_test_POST "tenant_id=acme" q).1)).

Lemma tool_test_shows_decision_witness :
  run_tool_test (Some "acme") "gpt" " hi " tool_page start
  = (Ok (parseToolRoutingResult (JObj []) [("x-tool-route", "weather"); ("x-tool-route-similarity", "0.5")]),
     after start [test_request "acme" "gpt" " hi "]).
Proof.
  refine (tool_test_shows_decision tool_page tool_server "acme" "http://gw:8000" "" "gpt" " hi " "{}"
           (JObj [("key", JStr "k"); ("id", JStr "7")])
           (mkHttpResponse 200 "" [("x-tool-route", "weather"); ("x-tool-route-similarity", "0.5")] (Some "{}"))
           start _ _ _ _ _ _ _ _ _ _ _).
  - discriminate.
  - split; [reflexivity..|left; reflexivity].
  - eexists. split; [reflexivity|split; [reflexivity|split; [discriminate|vm_compute; reflexivity]]].
  - reflexivity.
  - reflexivity.
  - vm_compute. reflexivity.
  - reflexivity.
  - reflexivity.
  - reflexivity.
  - intros h. cbn. destruct (String.eqb h "x-tool-route"); [discriminate|].
    destruct (String.eqb h "x-tool-route-similarity"); discriminate.
  - reflexivity.
Defined.

(** A request whose answer is read sends nothing else. *)
Lemma quiet_or_raise (w : World) (fallback : string) (res : HttpResponse) : quiet w (or_raise fallback res).
Proof. unfold or_raise, raise_payload, quiet. destruct (negb (res_ok res)); solve_sends. Qed.

Lemma write_sends_one (method url fallback : string) (v : js) (w : World) (s : State) :
  sent ((res ← page_send method url v; or_raise fallback res) w s).2
  = (sent s ++ [mkHttpRequest method url json_headers (json_stringify v)])%list.
Proof.
  unfold page_send, page_fetch, mbind, M_bind. destruct (net _ _ _); [|done].
  by rewrite (quiet_sent w _ _ (quiet_or_raise w _ _)).
Qed.

(** Only complete routes are saved.  While a form can be saved, creating and editing each
    send exactly one request, with a name and an action that are not blank, a threshold from 0
    to 1, and at least one utterance, none of them blank. *)
Theorem tool_route_saves_valid (tenant : option string) (f : RouteForm) (r : ToolRoute) (w : World) (s : State) :
  formDisabled tenant f = false ->
  let t := number_of_string (rf_threshold f) in
  let lines := nonempty_lines (rf_utterances f) in
  (exists id, tenant = Some id /\ id <> "" /\
     sent (mutationFn (createToolRoute tenant) f w s).2
     = (sent s ++ [mkHttpRequest "POST" (routes_url id) json_headers (json_stringify (create_body f))])%list /\
     sent (mutationFn (editToolRoute tenant) (Some r, f) w s).2
     = (sent s ++ [mkHttpRequest "PATCH" (route_url id (to_name r)) json_headers (json_stringify (edit_body f))])%list) /\
  str_trim (rf_name f) <> "" /\ str_trim (rf_action f) <> "" /\
  num_is_finite t = true /\ num_ltb t num_zero = false /\ num_gtb t (num_of_Z 1) = false /\
  lines <> [] /\ Forall (fun u => u <> "" /\ exists raw, u = str_trim raw) lines.
Proof.
  intros H. cbv zeta. unfold formDisabled, thresholdInvalid in H.
  rewrite !orb_false_iff in H. destruct H as [[[[Ht Hn] Ha] [[[_ Hf] Hlo] Hhi]] Hu].
  apply String.eqb_neq in Hn, Ha. apply negb_false_iff in Hf.
  destruct (truthy_env tenant) as [id|] eqn:Et; [|discriminate Ht].
  split; [|repeat split; try done; [|apply (split_clean_items "010")]].
  - exists id. unfold createToolRoute, editToolRoute, tenant_required. cbn [mutationFn fst snd].
    rewrite Et, !write_sends_one. unfold truthy_env in Et.
    destruct tenant as [x|]; [|done]. destruct (String.eqb_spec x ""); [done|]. by injection Et as ->.
  - intros E. by rewrite E in Hu.
Qed.

Lemma tool_route_saves_valid_witness :
  let f := mkRouteForm " weather " "get_weather" "" "0.5" "is it raining" in
  str_trim (rf_name f) <> "".
Proof.
  exact (proj1 (proj2 (tool_route_saves_valid (Some "acme")
    (mkRouteForm " weather " "get_weather" "" "0.5" "is it raining")
    (mkToolRoute "weather" None "get_weather" None) (demo_world [] (fun _ => reply 200 "{}")) start
    ltac:(vm_compute; reflexivity)))).
Defined.

(** ** Editing *)

(** An answer that carries the utterances of a route *)
Definition carries (o : outcome HttpResponse) (us : list string) : Prop :=
  exists res text detail, o = Ok res /\ res_ok res = true /\ res_body res = Some text /\
    json_parse text = Some (JObj detail) /\ obj_get "utterances" detail = Some (strings_js us).

Lemma carried_utterances (o : outcome HttpResponse) (us : list string) :
  carries o us -> detail_utterances o = Some (str_join (String "010" "") us).
Proof.
  intros (res & text & detail & -> & Hok & Hb & Hp & Hu). unfold detail_utterances.
  rewrite Hok, Hb, Hp. cbn [negb nullish opt_get]. rewrite Hu. unfold strings_js. by rewrite join_texts.
Qed.

(** What the server holds of a route is what its form shows unchanged. *)
Definition faithful_route (r : ToolRoute) (t : num) (us : list string) : Prop :=
  str_trim (to_action r) = to_action r /\
  str_trim (default "" (to_description r)) = default "" (to_description r) /\
  to_threshold r = Some t /\ number_of_string (num_to_string t) = t /\ Forall (clean_item "010") us.

Definition route_write (tenant : string) (r : ToolRoute) (t : num) (us : list string) : HttpRequest :=
  mkHttpRequest "PATCH" (route_url tenant (to_name r)) json_headers
    (json_stringify (JObj [("description", or_undefined (default "" (to_description r)));
                           ("action", JStr (to_action r)); ("threshold", JNum t);
                           ("utterances", strings_js us)])).

(** Saving a form that was filled from a route sends back what the server holds, with the
    utterances that were filled in. *)
Lemma filled_form_sends (tenant : string) (r : ToolRoute) (t : num) (us us' : list string) (w : World) (s : State) :
  tenant <> "" -> faithful_route r t us' -> Forall (clean_item "010") us ->
  sent (mutationFn (editToolRoute (Some tenant))
          (Some r, with_utterances (prefill r) (str_join (String "010" "") us)) w s).2
  = (sent s ++ [route_write tenant r t us])%list.
Proof.
  intros Ht (Ha & Hd & Hth & Hn & _) Hus. unfold editToolRoute, tenant_required.
  cbn [mutationFn fst snd truthy_env]. destruct (String.eqb_spec tenant ""); [done|]. rewrite write_sends_one.
  unfold edit_body, prefill, with_utterances. cbn [rf_description rf_action rf_threshold rf_utterances].
  by rewrite Ha, Hd, Hth, Hn, (split_clean_join "010" us Hus : nonempty_lines _ = us).
Qed.

(** Opening a route and saving it unchanged changes nothing.  When no other detail is
    under way and the server's answer arrives, the dialog holds the route, and saving sends
    one request to its address with its own description, action, threshold and utterances. *)
Theorem tool_edit_unchanged (st : EditState) (tenant : string) (r : ToolRoute) (t : num) (us : list string)
    (o : outcome HttpResponse) (w : World) (s : State) :
  ed_flights st = [] -> tenant <> "" -> faithful_route r t us -> carries o us ->
  let st' := edit_run [OpenEdit r; Detail 0 o] st in
  ed_route st' = Some r /\ ed_loading st' = false /\ ed_flights st' = [] /\
  sent (mutationFn (editToolRoute (Some tenant)) (ed_route st', ed_form st') w s).2
  = (sent s ++ [route_write tenant r t us])%list.
Proof.
  intros Hf Ht Hr Hc. cbn [edit_run fold_left edit_event_step ed_flights].
  rewrite Hf. cbn [app nth_error]. rewrite (carried_utterances _ _ Hc). repeat split.
  by apply (filled_form_sends tenant r t us us w s Ht Hr), Hr.
Qed.

(** A detail that arrives late is saved to another route.  When the dialog of [a] was closed
    and that of [b] opened before the server answered for [a], the answer for [a] replaces the
    utterances in the form of [b], and saving writes them to [b]. *)
Theorem stale_detail_saved (tenant : string) (a b : ToolRoute) (t : num) (us us' : list string)
    (o o' : outcome HttpResponse) (w : World) (s : State) :
  tenant <> "" -> faithful_route b t us' -> Forall (clean_item "010") us -> carries o us -> carries o' us' ->
  let st := edit_run [OpenEdit a; CloseEdit; OpenEdit b; Detail 1 o'; Detail 0 o] edit_start in
  ed_route st = Some b /\ ed_loading st = false /\ ed_flights st = [] /\
  sent (mutationFn (editToolRoute (Some tenant)) (ed_route st, ed_form st) w s).2
  = (sent s ++ [route_write tenant b t us])%list.
Proof.
  intros Ht Hr Hus Hc Hc'.
  unfold edit_run, edit_start. cbn [fold_left edit_event_step ed_flights app nth_error firstn skipn].
  rewrite (carried_utterances _ _ Hc), (carried_utterances _ _ Hc'). repeat split.
  by apply (filled_form_sends tenant b t us us' w s Ht Hr).
Qed.

Definition weather : ToolRoute := mkToolRoute "weather" (Some "forecasts") "get_weather" (Some (num_of_Z 1)).
Definition detail_of (us : list string) : outcome HttpResponse :=
  reply_json 200 (JObj [("utterances", strings_js us)]).

Lemma tool_edit_unchanged_witness :
  let st := edit_run [OpenEdit weather; Detail 0 (detail_of ["is it raining"; "sunny"])] edit_start in
  ed_route st = Some weather.
Proof.
  refine (proj1 (tool_edit_unchanged edit_start "acme" weather (num_of_Z 1) ["is it raining"; "sunny"]
           (detail_of ["is it raining"; "sunny"]) (demo_world [] (fun _ => reply 200 "{}")) start _ _ _ _)).
  - reflexivity.
  - discriminate.
  - repeat split; try reflexivity. repeat constructor; discriminate.
  - do 3 eexists. split; [reflexivity|]. split; [reflexivity|]. split; [reflexivity|].
    split; vm_compute; reflexivity.
Defined.

Lemma stale_detail_saved_witness :
  let st := edit_run [OpenEdit (mkToolRoute "news" None "get_news" None); CloseEdit; OpenEdit weather;
                      Detail 1 (detail_of ["sunny"]); Detail 0 (detail_of ["headlines"])] edit_start in
  ed_route st = Some weather.
Proof.
  refine (proj1 (stale_detail_saved "acme" (mkToolRoute "news" None "get_news" None) weather (num_of_Z 1)
           ["headlines"] ["sunny"] (detail_of ["headlines"]) (detail_of ["sunny"])
           (demo_world [] (fun _ => reply 200 "{}")) start _ _ _ _ _)).
  - discriminate.
  - repeat split; try reflexivity. repeat constructor; discriminate.
  - repeat constructor; discriminate.
  - do 3 eexists. split; [reflexivity|]. split; [reflexivity|]. split; [reflexivity|].
    split; vm_compute; reflexivity.
  - do 3 eexists. split; [reflexivity|]. split; [reflexivity|]. split; [reflexivity|].
    split; vm_compute; reflexivity.
Defined.
