(* ===== verification/ToolsView.v ===== *)
(** * What the tools page shows

    src/frontend/src/app/(app)/tools/page.tsx from its queries down: the badges and the banner, the table of
    the routes, the test with the model it is sent to and the card of its result, and the dialogs.  The
    routes are counted on three pages from one endpoint. *)

From S2P Require Import Prelude JsNumber JsText JsValue JsArray Effects UsageApi ConsoleClient CatalogClient SemanticViews RoutingPage RoutingView ToolsPage.
Local Open Scope string_scope.

(** ** The page *)

Definition toolRoutes (response : js) : list js := js_array (opt_get response "data").
Definition fallbackEnabled (config : js) : bool :=
  truthy (js_coalesce (opt_get (or_empty (opt_get (routing_of config) "fallback")) "enabled") (JBool false)).
(** [config?.tool_routing_enabled !== false] *)
Definition isToolRoutingEnabled (config : js) : bool := match opt_get config "tool_routing_enabled" with JBool false => false | _ => true end.
Definition tools_badges (config response : js) : list string :=
  ["Routes: " ++ Z_to_string (Z.of_nat (List.length (toolRoutes response))); "Threshold: " ++ threshold_text config;
   "Fallback: " ++ (if fallbackEnabled config then "Enabled" else "Disabled")].
(** The banner, and the warning below it *)
Definition tools_banner (tenant : string) (config : js) : string * bool :=
  ("Tool Routing is " ++ (if isToolRoutingEnabled config then "enabled" else "disabled") ++ " for tenant " ++ tenant,
   negb (isToolRoutingEnabled config)).

Definition tool_cells (route : js) : list string :=
  let f := opt_get route in
  [js_to_string (f "name"); js_to_string (js_or (f "description") (JStr "—")); js_to_string (f "action");
   match f "threshold" with JNum n => to_fixed 2 n | _ => "—" end; Z_to_string (Z.of_nat (List.length (js_array (f "utterances"))))].
Definition tools_table (isLoadingRoutes : bool) (routesError : option exn) (response : js) : Part (list (list string)) :=
  table_part isLoadingRoutes (bool_decide (is_Some routesError)) (match routesError with Some e => exn_message e | None => "" end)
    "Create a route to enable deterministic tool decisions." (map tool_cells (toolRoutes response)).

(** The card of a result: its badges, its fields, the raw content *)
Inductive TestCard := TestFailed (message : string) | TestShown (badges : list string) (fields : list (string * string)) (raw : option string).
Definition test_card (r : ToolRoutingTestResult) : TestCard :=
  let or_dash o := match truthy_env o with Some s => s | None => "—" end in
  match tt_status r with
  | TestError => TestFailed (default "" (tt_errorMessage r))
  | _ => TestShown [(if tt_matched r then "Matched" else "No match"); "Model skipped: " ++ (if tt_skippedModelRouting r then "Yes" else "No")]
           [("Route", or_dash (tt_route r)); ("Action", or_dash (tt_action r));
            ("Similarity", match tt_similarity r with Some n => to_fixed 4 n | None => "—" end)] (truthy_env (tt_rawContent r))
  end.

Inductive ToolsPageView :=
| ToolsNoTenant
| ToolsShown (badges : list string) (banner : option (string * bool)) (table : Part (list (list string))) (test : option TestCard) (anchors : string).
Definition ToolsContent (tenant : option string) (configLoading routesLoading anchorsLoading : bool) (config response anchors : js)
    (routesError : option exn) (testResult : option ToolRoutingTestResult) : ToolsPageView :=
  match truthy_env tenant with
  | None => ToolsNoTenant
  | Some t =>
      ToolsShown (tools_badges config response) (if configLoading then None else Some (tools_banner t config))
        (tools_table routesLoading routesError response) (test_card <$> testResult)
        (if anchorsLoading then "…" else Z_to_string (Z.of_nat (count_of "data" anchors)))
  end.

(** ** The test and the dialogs as a machine *)

Record ToolsState := mkTools {
  ts_tenant : option string;
  ts_prompt : string;
  ts_model : string;
  ts_result : option ToolRoutingTestResult;
  ts_flights : list string;
  ts_createOpen : bool;
  ts_createForm : RouteForm;
  ts_delete : option ToolRoute;
}.
Definition initial_tools (tenants : list string) : ToolsState := mkTools (head tenants) "" "" None [] false EMPTY_FORM None.

Definition testDisabled (s : ToolsState) : bool :=
  (match truthy_env (ts_tenant s) with None => true | Some _ => false end || String.eqb (str_trim (ts_prompt s)) ""
   || String.eqb (str_trim (ts_model s)) "")%bool.

(** [ConfigLoaded] carries the models the tenant allows; [TestAnswered] the place of its test among those
    under way, each of which is the tenant it was sent for. *)
Inductive tools_event :=
| ChooseTenant (tenant : string)
| ConfigLoaded (allowed : list string)
| TypePrompt (text : string)
| ChooseModel (model : string)
| RunTest
| TestAnswered (i : nat) (r : ToolRoutingTestResult)
| OpenCreate
| TypeCreate (f : RouteForm)
| CancelCreate
| Created
| AskDelete (r : ToolRoute)
| CancelDelete
| Deleted.

Definition with_test (model : string) (result : option ToolRoutingTestResult) (flights : list string) (s : ToolsState) : ToolsState :=
  mkTools (ts_tenant s) (ts_prompt s) model result flights (ts_createOpen s) (ts_createForm s) (ts_delete s).
Definition with_create (open : bool) (f : RouteForm) (s : ToolsState) : ToolsState :=
  mkTools (ts_tenant s) (ts_prompt s) (ts_model s) (ts_result s) (ts_flights s) open f (ts_delete s).
Definition with_delete (d : option ToolRoute) (s : ToolsState) : ToolsState :=
  mkTools (ts_tenant s) (ts_prompt s) (ts_model s) (ts_result s) (ts_flights s) (ts_createOpen s) (ts_createForm s) d.

(** Choosing another tenant clears the result; the same one changes nothing.  While a test is under way its
    button is disabled. *)
Definition tools_step (s : ToolsState) (e : tools_event) : ToolsState :=
  match e with
  | ChooseTenant t =>
      if decide (ts_tenant s = Some t) then s
      else mkTools (Some t) (ts_prompt s) (ts_model s) None (ts_flights s) (ts_createOpen s) (ts_createForm s) (ts_delete s)
  | ConfigLoaded allowed =>
      match ts_model s, allowed with
      | "", m :: _ => with_test m (ts_result s) (ts_flights s) s
      | _, _ => s
      end
  | TypePrompt text => mkTools (ts_tenant s) text (ts_model s) (ts_result s) (ts_flights s) (ts_createOpen s) (ts_createForm s) (ts_delete s)
  | ChooseModel m => with_test m (ts_result s) (ts_flights s) s
  | RunTest =>
      match ts_tenant s, ts_flights s with
      | Some t, [] => if testDisabled s then s else with_test (ts_model s) (ts_result s) [t] s
      | _, _ => s
      end
  | TestAnswered i r =>
      match ts_flights s !! i with
      | None => s
      | Some _ => with_test (ts_model s) (Some r) (delete i (ts_flights s)) s
      end
  | OpenCreate => with_create true (ts_createForm s) s
  | TypeCreate f => if ts_createOpen s then with_create true f s else s
  | CancelCreate => with_create false (ts_createForm s) s
  | Created => with_create false EMPTY_FORM s
  | AskDelete r => with_delete (Some r) s
  | CancelDelete | Deleted => with_delete None s
  end.
Definition delete_text (s : ToolsState) : option string :=
  let quoted t := String "034" (t ++ String "034" "") in
  (fun r => "Delete tool route " ++ quoted (to_name r) ++ " from tenant " ++ quoted (default "" (ts_tenant s)) ++ "?") <$> ts_delete s.
(** The note below the threshold of a form *)
Definition threshold_note (text : string) : option string :=
  if (thresholdInvalid text && negb (String.eqb (str_trim text) ""))%bool then Some "Threshold must be between 0 and 1" else None.

(** ** Laws *)

(** A form that can be sent shows no note about its threshold. *)
Theorem sendable_form_no_note (tenant : option string) (f : RouteForm) : formDisabled tenant f = false -> threshold_note (rf_threshold f) = None.
Proof.
  unfold formDisabled, threshold_note. intros H. repeat (apply orb_false_iff in H as [H ?]). destruct (thresholdInvalid _); [done|]. done.
Qed.

(** What the gateway answers to a list of the routes *)
Definition route_list (tenant : string) (routes : list js) : js :=
  JObj [("object", JStr "list"); ("tenant_id", JStr tenant); ("data", JArr routes)].

(** The tools page shows a row per route; the summary of the routing page reads the same answer from a field it
    does not have, so it shows that there is none. *)
Theorem semantic_routes_never_counted (tenant : string) (routes : list js) (config anchors : js) :
  List.length (toolRoutes (route_list tenant routes)) = List.length routes /\
  map_get "Semantic routes" (summary_counts config false false anchors (route_list tenant routes)) = Some "0".
Proof. done. Qed.

(** A new name typed into the dialog of a route is not sent: the request for two forms that differ in the name alone
    is the same, to the address of the old name. *)
Theorem rename_not_sent (tenant : option string) (r : option ToolRoute) (f : RouteForm) (name : string) (w : World) (s : State) :
  mutationFn (editToolRoute tenant) (r, mkRouteForm name (rf_action f) (rf_description f) (rf_threshold f) (rf_utterances f)) w s =
  mutationFn (editToolRoute tenant) (r, f) w s.
Proof. done. Qed.

(** A test under way when the tenant changes is shown for the new tenant, and the model chosen for the old tenant is
    sent for the new one, allowed there or not. *)
Theorem test_outlives_tenant (s : ToolsState) (t t' : string) (allowed : list string) (r : ToolRoutingTestResult) :
  ts_tenant s = Some t -> t <> t' -> t <> "" -> ts_flights s = [] -> testDisabled s = false -> ts_model s <> "" ->
  let s' := fold_left tools_step [RunTest; ChooseTenant t'; ConfigLoaded allowed; TestAnswered 0 r] s in
  ts_tenant s' = Some t' /\ ts_result s' = Some r /\ ts_model s' = ts_model s.
Proof.
  intros Ht Hne Ht0 Hf Hd Hm. destruct s as [tenant prompt model result flights co cf del]. cbn in *. subst.
  rewrite Hd. cbn. rewrite decide_False by congruence. cbn. by destruct model.
Qed.

(** There is never more than one test under way. *)
Theorem one_test_at_a_time (s : ToolsState) (evs : list tools_event) :
  (List.length (ts_flights s) <= 1)%nat -> (List.length (ts_flights (fold_left tools_step evs s)) <= 1)%nat.
Proof.
  revert s. induction evs as [|e evs IH]; intros s H; [done|]. apply IH. clear IH.
  destruct s as [tenant prompt model result [|x [|y flights]] co cf del]; cbn in H; [| |lia].
  - destruct e; cbn; repeat case_match; cbn; try done; try lia.
  - destruct e as [| | | | |[|i] r| | | | | | |]; cbn; repeat case_match; cbn; try done; try lia. all: destruct i; cbn; lia.
Qed.
