(* ===== verification/SettingsPage.v ===== *)
(** * The settings page

    src/frontend/src/app/(app)/settings/page.tsx: the endpoint of the console in the
    browser's storage, the connection test, and the form of the authentication settings with
    what saving it writes into the global configuration. *)

From S2P Require Import Prelude JsNumber JsText JsValue JsArray Json JsonRoundTrip Effects GatewayClient ConfigApi UsageApi ConsoleClient ConsoleFacts.
Local Open Scope string_scope.

(** ** The endpoint *)

(** The page's state with what it keeps in the browser: the items of localStorage and the
    cookie it sets *)
Record Endpoint := mkEndpoint {
  ep_text : string;
  ep_hasChanges : bool;
  ep_items : list (string * string);
  ep_cookie : option string;
}.

(** The page's normalizeEndpoint reads like the one of the route that tests a connection. *)
Definition page_normalizeEndpoint : string -> string := ConfigApi.normalizeEndpoint.

Section Settings.
(** NEXT_PUBLIC_API_BASE_URL, NEXT_PUBLIC_API_URL or http://localhost:8000, fixed by the build *)
Context (DEFAULT_ENDPOINT : string).

(** The effect that fills the input *)
Definition load_endpoint (items : list (string * string)) : string :=
  page_normalizeEndpoint (default DEFAULT_ENDPOINT (stored_endpoint items)).

Definition handleEndpointChange (value : string) (st : Endpoint) : Endpoint :=
  mkEndpoint value true (ep_items st) (ep_cookie st).

Definition store_endpoint (endpoint : string) (items : list (string * string)) : list (string * string) :=
  params_set "gateway_api_endpoint" endpoint (params_set "router_api_url" endpoint items).

Definition endpoint_cookie (endpoint : string) : string :=
  "router_api_url=" ++ encodeURIComponent endpoint ++ "; path=/; max-age=31536000; samesite=lax".

(** Saving and resetting: the new state, and whether the page is loaded again *)
Definition handleSaveEndpoint (st : Endpoint) : Endpoint * bool :=
  let normalized := page_normalizeEndpoint (ep_text st) in
  if String.eqb normalized "" then (st, false)
  else (mkEndpoint normalized false (store_endpoint normalized (ep_items st))
          (Some (endpoint_cookie normalized)), true).

Definition handleReset (st : Endpoint) : Endpoint * bool :=
  let normalized := page_normalizeEndpoint DEFAULT_ENDPOINT in
  (mkEndpoint normalized false (store_endpoint normalized (ep_items st))
     (Some (endpoint_cookie normalized)), true).
End Settings.

(** ** The connection test *)

Inductive ConnectionState :=
| ConnSuccess (lastTestAt : string) (responseTimeMs : js)
| ConnError (lastTestAt errorMessage : string).

Definition test_endpoint_url (endpoint : string) : string :=
  "/api/settings/test-connection?endpoint=" ++ encodeURIComponent (page_normalizeEndpoint endpoint).

Definition stamped (f : string -> ConnectionState) : M ConnectionState :=
  t ← date_now; mret (f (iso_string t)).

Definition handleTestConnection (apiEndpoint : string) : M ConnectionState :=
  startTime ← date_now;
  try_catch
    (res ← page_get (test_endpoint_url apiEndpoint);
     endTime ← date_now;
     if negb (res_ok res) then
       err ← res_json_or_empty res;
       stamped (fun t => ConnError t (js_to_string (js_or (opt_get err "error")
                           (JStr ("HTTP " ++ Z_to_string (res_status res))))))
     else
       data ← res_json res;
       if truthy (opt_get data "ok") then
         stamped (fun t => ConnSuccess t (js_coalesce (opt_get data "responseTimeMs")
                             (js_of_Z (endTime - startTime))))
       else stamped (fun t => ConnError t (js_to_string (js_or (opt_get data "error") (JStr "Unavailable")))))
    (fun e => stamped (fun t => ConnError t (exn_message e))).

(** The test of the identity provider: success or not, and its message *)
Definition test_keycloak (jwksUrl issuer audience : string) : M (bool * string) :=
  try_catch
    (res ← page_send "POST" "/api/settings/auth/keycloak/test"
             (JObj [("jwks_url", JStr jwksUrl); ("issuer", JStr issuer); ("audience", JStr audience)]);
     data ← res_json_or_empty res;
     if (res_ok res && truthy (opt_get data "ok"))%bool
     then mret (true, js_to_string (js_or (opt_get data "message")
                        (JStr "Connection successful. JWKS endpoint is reachable.")))
     else mret (false, js_to_string (js_or (opt_get data "message")
                         (JStr ("Failed to connect (HTTP " ++ Z_to_string (res_status res) ++ ")")))))
    (fun e => mret (false, exn_message e)).

(** ** The authentication settings *)

Record AuthForm := mkAuthForm {
  au_mode : js;
  au_issuer : js;
  au_audience : js;
  au_jwks_url : js;
  au_tenant_claim : js;
  au_roles_claim : js;
  au_user_roles : string;
  au_admin_roles : string;
  au_local_admin_roles : string;
  au_finance_roles : string;
  au_auditor_roles : string;
}.

Definition obj_or_empty (v : js) : js := js_or v (JObj []).

(** [(rbac.k || [d]).join(',')]; None for a value without a join, which is a TypeError *)
Definition joined_roles (rbac : js) (k d : string) : option string :=
  match js_or (opt_get rbac k) (JArr [JStr d]) with
  | JArr l => Some (js_join "," l)
  | _ => None
  end.

(** [authInitial] and the effect that fills the form from the global configuration *)
Definition prefill_auth (data : js) : option AuthForm :=
  let auth := obj_or_empty (opt_get (obj_or_empty (opt_get data "config")) "auth") in
  let jwt := obj_or_empty (opt_get auth "jwt") in
  let rclaims := obj_or_empty (opt_get jwt "required_claims") in
  let rbac := obj_or_empty (opt_get jwt "rbac") in
  let text v k d := js_or (opt_get v k) (JStr d) in
  match joined_roles rbac "user_roles" "user", joined_roles rbac "admin_roles" "admin",
        joined_roles rbac "local_admin_roles" "local_admin", joined_roles rbac "finance_roles" "finance",
        joined_roles rbac "auditor_roles" "audit" with
  | Some user, Some admin, Some local, Some finance, Some auditor =>
      Some (mkAuthForm (text auth "mode" "both")
        (text jwt "issuer" "http://localhost:8080/realms/router") (text jwt "audience" "account")
        (text jwt "jwks_url" "http://host.docker.internal:8080/realms/router/protocol/openid-connect/certs")
        (text rclaims "tenant_id" "tenant_id") (text rclaims "roles" "roles")
        user admin local finance auditor)
  | _, _, _, _, _ => None
  end.

Definition role_list (text : string) : js := JArr (map JStr (split_clean "," text)).

Definition auth_object (f : AuthForm) : js :=
  JObj [("mode", au_mode f);
        ("jwt", JObj [("issuer", au_issuer f); ("audience", au_audience f); ("jwks_url", au_jwks_url f);
           ("required_claims", JObj [("tenant_id", au_tenant_claim f); ("roles", au_roles_claim f)]);
           ("rbac", JObj [("user_roles", role_list (au_user_roles f));
                          ("admin_roles", role_list (au_admin_roles f));
                          ("local_admin_roles", role_list (au_local_admin_roles f));
                          ("finance_roles", role_list (au_finance_roles f));
                          ("auditor_roles", role_list (au_auditor_roles f))])])].

(** The configuration that is written *)
Definition next_config (data : js) (f : AuthForm) : obj :=
  obj_set "auth" (auth_object f) (obj_spread [] (GatewayClient.entries (obj_or_empty (opt_get data "config")))).

Definition can_save_auth (f : AuthForm) : bool :=
  truthy (au_issuer f) && truthy (au_audience f) && truthy (au_jwks_url f).

(** The save button; the version is a number, as its type says.  None: nothing is sent. *)
Definition save_auth (storage : Storage) (data : js) (f : AuthForm) : option (M js) :=
  if negb (truthy data) then None
  else match opt_get data "version" with
       | JNum n => Some (mutationFn (useUpdateGlobalConfig storage) (next_config data f, n))
       | _ => None
       end.

(** ** Saving *)

(** The authentication settings as the gateway holds them *)
Record AuthSettings := mkAuthSettings {
  as_mode : string;
  as_issuer : string;
  as_audience : string;
  as_jwks_url : string;
  as_tenant_claim : string;
  as_roles_claim : string;
  as_user_roles : list string;
  as_admin_roles : list string;
  as_local_admin_roles : list string;
  as_finance_roles : list string;
  as_auditor_roles : list string;
}.

Definition settings_object (a : AuthSettings) : js :=
  let roles l := JArr (map JStr l) in
  JObj [("mode", JStr (as_mode a));
        ("jwt", JObj [("issuer", JStr (as_issuer a)); ("audience", JStr (as_audience a));
           ("jwks_url", JStr (as_jwks_url a));
           ("required_claims", JObj [("tenant_id", JStr (as_tenant_claim a)); ("roles", JStr (as_roles_claim a))]);
           ("rbac", JObj [("user_roles", roles (as_user_roles a)); ("admin_roles", roles (as_admin_roles a));
                          ("local_admin_roles", roles (as_local_admin_roles a));
                          ("finance_roles", roles (as_finance_roles a));
                          ("auditor_roles", roles (as_auditor_roles a))])])].

(** No text is empty, and no role is blank or has a comma or white space around it. *)
Definition complete_settings (a : AuthSettings) : Prop :=
  Forall (fun s => s <> "") [as_mode a; as_issuer a; as_audience a; as_jwks_url a; as_tenant_claim a; as_roles_claim a] /\
  Forall (Forall (clean_item ",")) [as_user_roles a; as_admin_roles a; as_local_admin_roles a;
                                    as_finance_roles a; as_auditor_roles a].

(** The form the settings fill *)
Definition form_of (a : AuthSettings) : AuthForm :=
  let text l := str_join "," l in
  mkAuthForm (JStr (as_mode a)) (JStr (as_issuer a)) (JStr (as_audience a)) (JStr (as_jwks_url a))
    (JStr (as_tenant_claim a)) (JStr (as_roles_claim a)) (text (as_user_roles a)) (text (as_admin_roles a))
    (text (as_local_admin_roles a)) (text (as_finance_roles a)) (text (as_auditor_roles a)).

Lemma text_given (s d : string) : s <> "" -> js_or (JStr s) (JStr d) = JStr s.
Proof. intros H. unfold js_or. cbn. by destruct (String.eqb_spec s ""). Qed.

Lemma settings_prefill (d m : obj) (a : AuthSettings) :
  obj_get "config" d = Some (JObj m) -> obj_get "auth" m = Some (settings_object a) -> complete_settings a ->
  prefill_auth (JObj d) = Some (form_of a).
Proof.
  intros Hc Ha [Ht _]. unfold prefill_auth. cbn [opt_get]. rewrite Hc. cbn [obj_or_empty js_or truthy opt_get].
  rewrite Ha. unfold settings_object, joined_roles. cbn -[js_join]. rewrite !join_texts.
  repeat (apply List.Forall_cons_iff in Ht as [? Ht]).
  unfold form_of. by rewrite !text_given.
Qed.

Lemma settings_saved (a : AuthSettings) : complete_settings a -> auth_object (form_of a) = settings_object a.
Proof.
  intros [_ Hr]. repeat (apply List.Forall_cons_iff in Hr as [? Hr]).
  unfold auth_object, settings_object, form_of, role_list. cbn [au_mode au_issuer au_audience au_jwks_url
    au_tenant_claim au_roles_claim au_user_roles au_admin_roles au_local_admin_roles au_finance_roles au_auditor_roles].
  by rewrite !(split_clean_join ",").
Qed.

(** C26: Saving the authentication settings writes them and nothing else.  One request is
    sent, with the version the page has; the configuration in it has the form's settings and
    every other section as it was.  And a form that was filled from complete settings and not
    edited can be saved, and writes back exactly the configuration that was read. *)
Theorem auth_save_faithful (storage : Storage) (d m : obj) (a : AuthSettings) (n : num) (w : World) (s : State) :
  obj_get "config" d = Some (JObj m) -> obj_spread [] m = m -> obj_get "version" d = Some (JNum n) ->
  (forall f, let next := next_config (JObj d) f in
     (exists run, save_auth storage (JObj d) f = Some run /\
        sent (run w s).2 = (sent s ++ [mkHttpRequest "PATCH" "/api/global-config" (getHeadersWithEndpoint storage)
          (json_stringify (JObj [("config", JObj next); ("version", JNum n)]))])%list) /\
     obj_get "auth" next = Some (auth_object f) /\
     forall k, k <> "auth" -> obj_get k next = obj_get k m) /\
  (obj_get "auth" m = Some (settings_object a) -> complete_settings a ->
     exists f, prefill_auth (JObj d) = Some f /\ can_save_auth f = true /\ next_config (JObj d) f = m).
Proof.
  intros Hc Hm Hv.
  assert (Hn : forall f, next_config (JObj d) f = obj_set "auth" (auth_object f) m).
  { intros f. unfold next_config. cbn [opt_get]. rewrite Hc. cbn [obj_or_empty js_or truthy entries]. by rewrite Hm. }
  split.
  - intros f. cbn zeta. rewrite Hn. split; [|split].
    + eexists. split; [unfold save_auth; cbn [truthy negb opt_get]; rewrite Hv; reflexivity|].
      rewrite Hn. unfold useUpdateGlobalConfig, updateGlobalConfig, page_fetch, mbind, M_bind. cbn [mutationFn fst snd].
      destruct (net _ _ _); [|done]. by rewrite (quiet_sent w _ _ (quiet_checked w _ _)).
    + apply obj_get_set_eq.
    + intros k Hk. by apply obj_get_set_ne.
  - intros Ha Hs. exists (form_of a). split; [by apply (settings_prefill d m)|]. split.
    + destruct Hs as [Ht _]. repeat (apply List.Forall_cons_iff in Ht as [? Ht]).
      unfold can_save_auth, form_of. cbn [au_issuer au_audience au_jwks_url truthy].
      by rewrite !(proj2 (String.eqb_neq _ "")) by done.
    + rewrite Hn, settings_saved by done. by apply obj_set_same.
Qed.

Definition demo_settings : AuthSettings :=
  mkAuthSettings "jwt" "https://id" "account" "https://id/certs" "tenant_id" "roles" ["user"] ["admin"; "root"] [] ["finance"] ["audit"].

Lemma auth_save_faithful_witness :
  exists f, prefill_auth (JObj [("config", JObj [("auth", settings_object demo_settings)]); ("version", js_of_Z 3)])
            = Some f /\ can_save_auth f = true /\
    next_config (JObj [("config", JObj [("auth", settings_object demo_settings)]); ("version", js_of_Z 3)]) f
    = [("auth", settings_object demo_settings)].
Proof.
  refine (proj2 (auth_save_faithful None [("config", JObj [("auth", settings_object demo_settings)]); ("version", js_of_Z 3)]
            [("auth", settings_object demo_settings)] demo_settings (num_of_Z 3)
            (demo_world [] (fun _ => reply 200 "{}")) start _ _ _) _ _); try reflexivity.
  split; repeat constructor; discriminate.
Defined.

(** The hooks read the endpoint the page stored, normalized by the same rules. *)
Lemma saved_endpoint_read (endpoint : string) (items : list (string * string)) :
  endpoint <> "" -> page_normalizeEndpoint endpoint <> "" ->
  getRuntimeEndpoint (Some (store_endpoint endpoint items)) = Some (page_normalizeEndpoint endpoint).
Proof.
  intros He Hn. unfold getRuntimeEndpoint, stored_endpoint, store_endpoint, truthy_env.
  rewrite !params_get_set. cbn [String.eqb Ascii.eqb Bool.eqb].
  rewrite (proj2 (String.eqb_neq _ "")) by done.
  unfold page_normalizeEndpoint, normalizeEndpoint in *. cbv zeta in *.
  destruct (String.eqb _ ""); [done|]. destruct (all_digits _); [done|].
  destruct (_ || _)%bool; [done|]. by destruct (negb _).
Qed.

(** A saved endpoint reaches the requests for the global configuration. *)
Lemma saved_endpoint_sent (st : Endpoint) :
  let n := page_normalizeEndpoint (ep_text st) in
  n <> "" -> page_normalizeEndpoint n = n ->
  let '(st', reloads) := handleSaveEndpoint st in
  reloads = true /\ ep_text st' = n /\ (forall D, load_endpoint D (ep_items st') = n) /\
  In ("x-runtime-endpoint", n) (getHeadersWithEndpoint (Some (ep_items st'))).
Proof.
  cbv zeta. intros Hn Hs. unfold handleSaveEndpoint. rewrite (proj2 (String.eqb_neq _ "")) by done.
  cbn [ep_text ep_items]. repeat split.
  - intros D. unfold load_endpoint, stored_endpoint, store_endpoint, truthy_env.
    rewrite !params_get_set. cbn [String.eqb Ascii.eqb Bool.eqb].
    rewrite (proj2 (String.eqb_neq _ "")) by done. exact Hs.
  - unfold getHeadersWithEndpoint. rewrite saved_endpoint_read by (rewrite ?Hs; done). rewrite Hs.
    unfold truthy_env. rewrite (proj2 (String.eqb_neq _ "")) by done. cbn. auto.
Qed.
