(* ===== verification/ModelDialogs.v ===== *)
(** * The model dialogs

    src/frontend/src/features/models/components: create-model-dialog.tsx,
    edit-model-dialog.tsx and observable-fields-editor.tsx: how a form is filled from a model
    or a catalogue entry, what it refuses, and the model or update it submits. *)

From S2P Require Import Prelude JsNumber JsText JsValue JsArray Json JsonRoundTrip Effects ConfigPatch UsageApi GatewayFacts ConsoleClient ConsoleFacts.
Local Open Scope string_scope.

(** ** Observable fields *)

Record ObservableField := mkField { of_path : string; of_type : string; of_role : string }.

Definition update_field (index : nat) (patch : ObservableField -> ObservableField)
    (value : list ObservableField) : list ObservableField :=
  imap (fun i f => if Nat.eqb i index then patch f else f) value.
Definition remove_field (index : nat) (value : list ObservableField) : list ObservableField :=
  (firstn index value ++ skipn (S index) value)%list.
Definition add_field (value : list ObservableField) : list ObservableField :=
  (value ++ [mkField "" "text" "input"])%list.

Definition normalize_field (f : ObservableField) : ObservableField :=
  mkField (str_trim (of_path f)) (of_type f) (of_role f).

Definition valid_field (f : ObservableField) : bool :=
  (negb (String.eqb (of_path f) "") &&
   existsb (String.eqb (of_type f)) ["text"; "json"; "number"] &&
   existsb (String.eqb (of_role f)) ["input"; "output"])%bool.

Definition field_key (f : ObservableField) : string := of_path f ++ "::" ++ of_type f ++ "::" ++ of_role f.

(** The loop over the keys: the first one seen before ends it. *)
Fixpoint has_repeated (seen : list string) (keys : list string) : bool :=
  match keys with
  | [] => false
  | k :: keys' => if set_has k seen then true else has_repeated (set_add seen k) keys'
  end.

(** The error of the observable fields of an ML model, which both dialogs check alike *)
Definition fields_error (fields : list ObservableField) : option string :=
  let normalized := map normalize_field fields in
  if existsb (fun f => negb (valid_field f)) normalized
  then Some "Observable fields must include path, type, and role"
  else if has_repeated [] (map field_key normalized)
  then Some "Observable fields contain duplicate rows"
  else None.

Definition field_js (f : ObservableField) : js :=
  JObj [("path", JStr (str_trim (of_path f))); ("type", JStr (of_type f)); ("role", JStr (of_role f))].
Definition observable_js (fields : list ObservableField) : js :=
  JObj [("fields", JArr (map field_js fields))].

(** ** The form *)

(** The text inputs of both dialogs; the mock part is only in the one that edits. *)
Record ModelForm := mkModelForm {
  mf_modelId : string;
  mf_provider : string;
  mf_enabled : bool;
  mf_type : string;
  mf_infra : string;
  mf_baseUrl : string;
  mf_endpoint : string;
  mf_fields : list ObservableField;
  mf_prompt : string;
  mf_cached : string;
  mf_completion : string;
  mf_markup : string;
}.

Record MockForm := mkMockForm {
  mk_enabled : bool;
  mk_delayMin : string;
  mk_delayMax : string;
  mk_errorRate : string;
  mk_errorStatus : string;
  mk_errorMessage : string;
  mk_fixedResponse : string;
}.

(** The value of the markup input *)
Definition markup_value (text : string) : num :=
  if String.eqb (str_trim text) "" then num_zero else number_of_string text.

(** [!Number.isFinite(v) || v < 0] *)
Definition bad_amount (v : num) : bool := (negb (num_is_finite v) || num_ltb v num_zero)%bool.

Definition mapped_type (typeSelection : string) : string :=
  if String.eqb typeSelection "LLM" then ""
  else if String.eqb typeSelection "Embedding" then "embedding" else "ml".

(** [s ? parse(s) : undefined] *)
Definition parsed (parse : string -> num) (s : string) : js :=
  if String.eqb s "" then JUndef else JNum (parse s).
Definition given (s : string) : js := if String.eqb s "" then JUndef else JStr s.

Definition is_ml (f : ModelForm) : bool := String.eqb (mf_type f) "ML".
Definition is_embedding (f : ModelForm) : bool := String.eqb (mf_type f) "Embedding".

(** The prices, when there are any *)
Definition pricing_part (f : ModelForm) : obj :=
  if (negb (String.eqb (mf_prompt f) "") || negb (String.eqb (mf_cached f) "") ||
      negb (String.eqb (mf_completion f) "") || is_embedding f)%bool
  then [("pricing", JObj [("prompt_per_1m", parsed parse_float (mf_prompt f));
                          ("cached_input_per_1m", parsed parse_float (mf_cached f));
                          ("completion_per_1m", if is_embedding f then JNum num_zero
                                                else parsed parse_float (mf_completion f))])]
  else [].

Definition bedrock_part (f : ModelForm) : obj :=
  if String.eqb (mf_provider f) "bedrock"
  then [("provider_model_id", JStr (str_trim (mf_modelId f))); ("name", JStr (str_trim (mf_modelId f)))]
  else [].

Definition address_part (f : ModelForm) : obj :=
  if is_ml f
  then [("execution", JObj [("endpoint", JStr (str_trim (mf_endpoint f)))]);
        ("observable", observable_js (mf_fields f))]
  else [("base_url", JStr (str_trim (mf_baseUrl f)))].

Definition amounts_part (f : ModelForm) : obj :=
  [("Enabled", JBool (mf_enabled f)); ("type", JStr (mapped_type (mf_type f)));
   ("infrastructure_monthly_usd", JNum (number_of_string (mf_infra f)));
   ("markup_percentage", JNum (markup_value (mf_markup f)))].

(** ** Creating *)

(** The checks of handleSubmit, in their order *)
Definition create_error (existingModelIds : list string) (f : ModelForm) : option string :=
  if String.eqb (str_trim (mf_modelId f)) "" then Some "Model ID is required"
  else if String.eqb (mf_provider f) "" then Some "Provider is required"
  else if String.eqb (mf_type f) "" then Some "Type is required"
  else if (is_ml f && String.eqb (str_trim (mf_endpoint f)) "")%bool
  then Some "Execution endpoint is required for ML models"
  else match (if is_ml f then fields_error (mf_fields f) else None) with
       | Some e => Some e
       | None =>
           if existsb (String.eqb (str_trim (mf_modelId f))) existingModelIds
           then Some "A model with this ID already exists"
           else if bad_amount (number_of_string (mf_infra f))
           then Some "Infrastructure monthly cost must be 0 or greater"
           else if bad_amount (markup_value (mf_markup f))
           then Some "Model Markup % must be a number ≥ 0"
           else None
       end.

Definition created_model (routeGroups : list string) (f : ModelForm) : obj :=
  ([("id", JStr (str_trim (mf_modelId f))); ("provider", JStr (mf_provider f));
    ("route_groups", JArr (map JStr routeGroups))] ++
   amounts_part f ++ bedrock_part f ++ address_part f ++
   (if is_ml f then [] else pricing_part f))%list.

(** The submission: an error, or the mutation that runs *)
Definition submit_create (existingModelIds routeGroups : list string) (f : ModelForm) : string + M js :=
  match create_error existingModelIds f with
  | Some e => inl e
  | None => inr (mutationFn useCreateModel (created_model routeGroups f))
  end.

Definition toggleRouteGroup (group : string) (prev : list string) : list string :=
  if existsb (String.eqb group) prev then List.filter (fun g => negb (String.eqb g group)) prev
  else (prev ++ [group])%list.

(** Selecting another provider clears what a catalogue entry may have filled. *)
Definition with_catalog (f : ModelForm) (modelId prompt cached completion infra : string) : ModelForm :=
  mkModelForm modelId (mf_provider f) (mf_enabled f) (mf_type f) infra (mf_baseUrl f) (mf_endpoint f)
    (mf_fields f) prompt cached completion (mf_markup f).

Definition handleProviderSelect (p : string) (f : ModelForm) : ModelForm :=
  with_catalog (mkModelForm (mf_modelId f) p (mf_enabled f) (mf_type f) (mf_infra f) (mf_baseUrl f)
                  (mf_endpoint f) (mf_fields f) (mf_prompt f) (mf_cached f) (mf_completion f) (mf_markup f))
    "" "" "" "" "0".

Definition handleCatalogEntrySelect (entries : list js) (entryId : string) (f : ModelForm) : ModelForm :=
  if String.eqb entryId "" then with_catalog f "" "" "" "" "0"
  else match List.find (fun e => is_str (opt_get e "id") entryId) entries with
       | None => f
       | Some e =>
           let text k := js_to_string (opt_get e k) in
           with_catalog f (text "id") (text "prompt_per_1m") (text "cached_input_per_1m")
             (text "completion_per_1m") (text "infrastructure_monthly_usd")
       end.

(** ** Editing *)

(** [v || ''] of a text, and [v?.toString?.() || ''] *)
Definition text_or_blank (v : js) : string := if truthy v then js_to_string v else "".
Definition shown (v : js) : string := if nullish v then "" else js_to_string v.

Definition coalesce3 (v : js) (a b c : string) : js :=
  js_coalesce (js_coalesce (opt_get v a) (opt_get v b)) (opt_get v c).

(** The id an edited model shows: for Bedrock the upstream id, when it is not blank *)
Definition edited_id (provider : string) (model : js) : string :=
  let pmid := opt_get model "provider_model_id" in
  if (String.eqb provider "bedrock" && negb (nullish pmid) &&
      negb (String.eqb (str_trim (js_to_string pmid)) ""))%bool
  then str_trim (js_to_string pmid) else js_to_string (opt_get model "id").

Definition type_selection (type : js) : string :=
  if is_str type "embedding" then "Embedding" else if is_str type "ml" then "ML" else "LLM".

(** The fields of a model; None where a field is null, whose properties cannot be read *)
Definition field_of (v : js) : option ObservableField :=
  if nullish v then None
  else Some (mkField (js_to_string (opt_get v "path")) (js_to_string (opt_get v "type"))
               (js_to_string (opt_get v "role"))).

(** The effect that fills the form; the properties have the types of the interface Model. *)
Definition load_model (model : js) : option ModelForm :=
  let rawEnabled := js_coalesce (opt_get model "Enabled") (opt_get model "enabled") in
  let provider := text_or_blank (opt_get model "provider") in
  let infra := opt_get model "infrastructure_monthly_usd" in
  let pr := opt_get model "pricing" in
  let mp := opt_get model "markup_percentage" in
  match mapM field_of (js_array (opt_get (opt_get model "observable") "fields")) with
  | None => None
  | Some fields =>
      Some (mkModelForm (edited_id provider model) provider
        (if nullish rawEnabled then true else truthy rawEnabled)
        (type_selection (opt_get model "type"))
        (if is_undefined infra then "0" else js_to_string infra)
        (text_or_blank (opt_get model "base_url"))
        (text_or_blank (opt_get (opt_get model "execution") "endpoint")) fields
        (shown (coalesce3 pr "prompt_per_1m" "PromptPer1M" "promptPer1M"))
        (shown (coalesce3 pr "cached_input_per_1m" "CachedInputPer1M" "cachedInputPer1M"))
        (if is_str (opt_get model "type") "embedding" then "0"
         else shown (coalesce3 pr "completion_per_1m" "CompletionPer1M" "completionPer1M"))
        (if (negb (nullish mp) && num_is_finite (js_to_number mp))%bool then js_to_string mp else "0"))
  end.

Definition load_mock (model : js) : MockForm :=
  let mock := opt_get model "mock" in
  mkMockForm (truthy (js_coalesce (opt_get mock "enabled") (JBool false)))
    (shown (opt_get mock "delay_min_ms")) (shown (opt_get mock "delay_max_ms"))
    (shown (opt_get mock "error_rate")) (shown (opt_get mock "error_status"))
    (text_or_blank (opt_get mock "error_message")) (text_or_blank (opt_get mock "fixed_response")).

Definition edit_error (f : ModelForm) : option string :=
  if bad_amount (number_of_string (mf_infra f)) then Some "Infrastructure monthly cost must be 0 or greater"
  else if bad_amount (markup_value (mf_markup f)) then Some "Model Markup % must be a number ≥ 0"
  else if (is_ml f && String.eqb (str_trim (mf_endpoint f)) "")%bool
  then Some "Execution endpoint is required for ML models"
  else if (String.eqb (mf_provider f) "bedrock" && String.eqb (str_trim (mf_modelId f)) "")%bool
  then Some "Model ID is required for Bedrock models"
  else if is_ml f then fields_error (mf_fields f) else None.

Definition mock_part (hadMock : bool) (k : MockForm) : obj :=
  let filled s := negb (String.eqb s "") in
  if (mk_enabled k || filled (mk_delayMin k) || filled (mk_delayMax k) || filled (mk_errorRate k) ||
      filled (mk_errorStatus k) || filled (mk_errorMessage k) || filled (mk_fixedResponse k) || hadMock)%bool
  then [("mock", JObj [("enabled", JBool (mk_enabled k));
                       ("delay_min_ms", parsed parse_int (mk_delayMin k));
                       ("delay_max_ms", parsed parse_int (mk_delayMax k));
                       ("error_rate", parsed parse_float (mk_errorRate k));
                       ("error_status", parsed parse_int (mk_errorStatus k));
                       ("error_message", given (mk_errorMessage k));
                       ("fixed_response", given (mk_fixedResponse k))])]
  else [].

Definition edited_update (model : js) (f : ModelForm) (k : MockForm) : obj :=
  ([("provider", JStr (mf_provider f))] ++ amounts_part f ++ bedrock_part f ++ address_part f ++
   pricing_part f ++ mock_part (truthy (opt_get (opt_get model "mock") "enabled")) k)%list.

(** [model.version || 1]; the version is a number when it is there. *)
Definition model_version (model : js) : num :=
  match opt_get model "version" with JNum n => if num_truthy n then n else num_of_Z 1 | _ => num_of_Z 1 end.

Definition submit_edit (model : js) (f : ModelForm) (k : MockForm) : string + M js :=
  match edit_error f with
  | Some e => inl e
  | None => inr (mutationFn useUpdateModel
                  (mkModelVars (js_to_string (opt_get model "id")) (edited_update model f k)
                     (model_version model)))
  end.

(** Selecting another provider in the dialog *)
Definition handleProviderChange (p : string) (model : js) (f : ModelForm) : ModelForm :=
  mkModelForm (edited_id p model) p (mf_enabled f) (mf_type f) (mf_infra f) (mf_baseUrl f) (mf_endpoint f)
    (mf_fields f) (mf_prompt f) (mf_cached f) (mf_completion f) (mf_markup f).

(** ** What an edit asks of the gateway *)

Import ModelPatch.

(** The body of the page's request *)
Definition edit_body (model : js) (f : ModelForm) (k : MockForm) : obj :=
  obj_set "version" (JNum (model_version model)) (obj_spread [] (edited_update model f k)).

(** The fields of the update, case by case *)
Ltac update_cases :=
  unfold edited_update, bedrock_part, address_part, pricing_part, mock_part; cbv zeta;
  destruct (String.eqb _ "bedrock"), (is_ml _), (_ || is_embedding _)%bool,
    (_ || truthy (opt_get (opt_get _ "mock") "enabled"))%bool.

Lemma edit_body_eq (model : js) (f : ModelForm) (k : MockForm) :
  edit_body model f k = (edited_update model f k ++ [("version", JNum (model_version model))])%list.
Proof. unfold edit_body. update_cases; reflexivity. Qed.

Lemma edit_body_keys (model : js) (f : ModelForm) (k : MockForm) : List.NoDup (map fst (edit_body model f k)).
Proof.
  rewrite edit_body_eq. update_cases; cbn; repeat (apply List.NoDup_cons; [cbn; intuition discriminate|]); constructor.
Qed.

(** A number the gateway is sent for a text input *)
Definition number_sent (parse : string -> num) (text : string) : option num :=
  if (negb (String.eqb text "") && num_is_finite (parse text))%bool then Some (parse text) else None.
Definition pair_of {A} (wrap : A -> js) (name : string) (v : option A) : obj :=
  match v with Some x => [(name, wrap x)] | None => [] end.

Definition prices_sent (f : ModelForm) : obj :=
  (pair_of JNum "PromptPer1M" (number_sent parse_float (mf_prompt f)) ++
   pair_of JNum "CompletionPer1M" (if is_embedding f then Some num_zero
                                   else number_sent parse_float (mf_completion f)))%list.

Definition mock_sent (k : MockForm) : obj :=
  ([("Enabled", JBool (mk_enabled k))] ++
   pair_of JNum "DelayMinMs" (option_map num_trunc (number_sent parse_int (mk_delayMin k))) ++
   pair_of JNum "DelayMaxMs" (option_map num_trunc (number_sent parse_int (mk_delayMax k))) ++
   pair_of JNum "ErrorRate" (number_sent parse_float (mk_errorRate k)) ++
   pair_of JNum "ErrorStatus" (option_map num_trunc (number_sent parse_int (mk_errorStatus k))) ++
   pair_of JStr "ErrorMessage" (truthy_env (Some (mk_errorMessage k))) ++
   pair_of JStr "FixedResponse" (truthy_env (Some (mk_fixedResponse k))))%list.

(** The part of the patch before the nested objects *)
Definition amounts_sent (f : ModelForm) : obj :=
  [("Enabled", JBool (mf_enabled f)); ("Provider", JStr (mf_provider f));
   ("Type", JStr (mapped_type (mf_type f)));
   ("infrastructure_monthly_usd", JNum (number_of_string (mf_infra f)));
   ("markup_percentage", JNum (markup_value (mf_markup f)))].

(** The patch of the model the gateway is asked for *)
Definition patch_sent (model : js) (f : ModelForm) (k : MockForm) : obj :=
  (amounts_sent f ++
   bedrock_part f ++ address_part f ++
   match prices_sent f with [] => [] | prices => [("Pricing", JObj prices)] end ++
   match mock_part (truthy (opt_get (opt_get model "mock") "enabled")) k with
   | [] => []
   | _ => [("Mock", JObj (mock_sent k))]
   end)%list.

Section Wire.
Context (m : obj) (Hm : List.NoDup (map fst m)).

Lemma wire_opt (key : string) (v : js) :
  obj_get key m = Some v -> is_undefined v = false -> opt_get (JObj (wire_props m)) key = on_wire v.
Proof. intros Hk Hv. cbn. by rewrite wire_props_get, Hk, Hv. Qed.

Lemma wire_missing (key : string) : obj_get key m = None -> opt_get (JObj (wire_props m)) key = JUndef.
Proof. intros Hk. cbn. by rewrite wire_props_get, Hk. Qed.

Lemma numFrom_wire (snake pascal text : string) (parse : string -> num) :
  obj_get snake m = Some (parsed parse text) -> obj_get pascal m = None ->
  numFrom (wire_props m) snake pascal = number_sent parse text.
Proof.
  intros Hs Hp. unfold numFrom, isPresent, obj_has, field, number_sent, parsed in *.
  rewrite !wire_props_get, Hs, Hp by done. destruct (String.eqb text ""); [done|]. cbn.
  destruct (num_is_finite (parse text)) eqn:E; cbn; by rewrite ?E.
Qed.

Lemma intFrom_wire (snake pascal text : string) (parse : string -> num) :
  obj_get snake m = Some (parsed parse text) -> obj_get pascal m = None ->
  intFrom (wire_props m) snake pascal = option_map num_trunc (number_sent parse text).
Proof. intros Hs Hp. unfold intFrom. rewrite (numFrom_wire _ _ text parse) by done. by destruct (number_sent _ _). Qed.

Lemma put_text_wire (snake pascal text : string) (o : obj) :
  obj_get snake m = Some (given text) -> obj_get pascal m = None ->
  put (isPresent (wire_props m) snake pascal) pascal (mockText (wire_props m) snake pascal) o =
  match truthy_env (Some text) with Some t => obj_set pascal (JStr t) o | None => o end.
Proof.
  intros Hs Hp. unfold isPresent, obj_has, mockText, field, given, truthy_env in *.
  rewrite !wire_props_get, Hs, Hp by done. by destruct (String.eqb text "").
Qed.
End Wire.

Lemma pricing_wire (f : ModelForm) (p : obj) :
  pricing_part f = [("pricing", JObj p)] -> pricingPayload (wire_props p) = prices_sent f.
Proof.
  unfold pricing_part. destruct (_ || is_embedding f)%bool; [|done]. intros [= <-].
  unfold pricingPayload, prices_sent.
  assert (Hd : forall a b c : js, List.NoDup (map fst [("prompt_per_1m", a); ("cached_input_per_1m", b); ("completion_per_1m", c)]))
    by (intros a b c; cbn; repeat (apply List.NoDup_cons; [cbn; intuition discriminate|]); constructor).
  rewrite (numFrom_wire _ (Hd _ _ _) "prompt_per_1m" "PromptPer1M" (mf_prompt f) parse_float) by done.
  destruct (is_embedding f).
  - rewrite (numFrom_wire _ (Hd _ _ _) "completion_per_1m" "CompletionPer1M" "0" (fun _ => num_zero)) by done.
    by destruct (number_sent parse_float (mf_prompt f)).
  - rewrite (numFrom_wire _ (Hd _ _ _) "completion_per_1m" "CompletionPer1M" (mf_completion f) parse_float) by done.
    by destruct (number_sent parse_float (mf_prompt f)), (number_sent parse_float (mf_completion f)).
Qed.

Lemma mock_wire (hadMock : bool) (k : MockForm) (p : obj) :
  mock_part hadMock k = [("mock", JObj p)] -> mockPayload (wire_props p) = mock_sent k.
Proof.
  unfold mock_part. cbv zeta. destruct (_ || hadMock)%bool; [|done]. intros [= <-].
  set (p := [_; _; _; _; _; _; _]).
  assert (Hd : List.NoDup (map fst p))
    by (cbn; repeat (apply List.NoDup_cons; [cbn; intuition discriminate|]); constructor).
  unfold mockPayload, mock_sent. cbv zeta.
  rewrite (put_text_wire p Hd _ _ (mk_fixedResponse k)), (put_text_wire p Hd _ _ (mk_errorMessage k)) by done.
  rewrite (intFrom_wire p Hd _ _ (mk_errorStatus k) parse_int), (intFrom_wire p Hd _ _ (mk_delayMax k) parse_int),
    (intFrom_wire p Hd _ _ (mk_delayMin k) parse_int), (numFrom_wire p Hd _ _ (mk_errorRate k) parse_float) by done.
  unfold isPresent, obj_has, field. rewrite !(wire_props_get p _ Hd). cbn [obj_get p].
  generalize (number_sent parse_int (mk_delayMin k)) (number_sent parse_int (mk_delayMax k))
    (number_sent parse_float (mk_errorRate k)) (number_sent parse_int (mk_errorStatus k))
    (truthy_env (Some (mk_errorMessage k))) (truthy_env (Some (mk_fixedResponse k))).
  by intros [] [] [] [] [] [].
Qed.

Lemma fields_wire (fields : list ObservableField) :
  fields_error fields = None ->
  observablePayload (wire_props [("fields", JArr (map field_js fields))]) = Some (observable_js fields).
Proof.
  unfold fields_error. cbv zeta. destruct (existsb _ _) eqn:E; [done|]. intros _.
  unfold observablePayload, field. cbn. rewrite map_map.
  assert (H : mapM mapField (map (fun f => on_wire (field_js f)) fields) =
              Some (map (fun f => (str_trim (of_path f), of_type f, of_role f)) fields)).
  { clear E. induction fields as [|f l IH]; [done|]. cbn -[str_trim] in IH |- *. rewrite IH. cbn -[str_trim]. by rewrite str_trim_twice. }
  rewrite H. cbn -[str_trim]. unfold observable_js. repeat f_equal. clear H.
  induction fields as [|f l IH]; [done|]. cbn -[str_trim valid_field] in E |- *. apply orb_false_iff in E as [Ef El].
  apply negb_false_iff, andb_prop in Ef as [Ef _]. apply andb_prop in Ef as [Ef _]. cbn -[str_trim] in Ef.
  rewrite Ef. cbn -[str_trim]. by rewrite IH.
Qed.

(** A property of the body as the server reads it *)
Lemma edit_get (model : js) (f : ModelForm) (k : MockForm) (key : string) :
  opt_get (on_wire (JObj (edit_body model f k))) key =
  match obj_get key (edited_update model f k ++ [("version", JNum (model_version model))])%list with
  | Some v => if is_undefined v then JUndef else on_wire v
  | None => JUndef
  end.
Proof.
  rewrite on_wire_obj. cbn [opt_get]. rewrite wire_props_get by apply edit_body_keys. rewrite edit_body_eq.
  destruct (obj_get _ _) as [v|]; [|done]. by destruct (is_undefined v).
Qed.

Ltac read_body :=
  repeat match goal with x := _ |- _ => subst x end; rewrite edit_get; update_cases; reflexivity.

Definition prop_of (key : string) (part : obj) : js :=
  match obj_get key part with Some v => on_wire v | None => JUndef end.

Lemma edit_scalars (model : js) (f : ModelForm) (k : MockForm) :
  edit_error f = None ->
  scalarPayload (on_wire (JObj (edit_body model f k))) =
  (amounts_sent f ++
   bedrock_part f ++ (if is_ml f then [] else address_part f))%list.
Proof.
  intros He. set (W := on_wire (JObj (edit_body model f k))). unfold edit_error, bad_amount in He.
  destruct (num_is_finite (number_of_string (mf_infra f))) eqn:Ei; [|done].
  destruct (num_ltb (number_of_string (mf_infra f)) num_zero); [done|].
  destruct (num_is_finite (markup_value (mf_markup f))) eqn:Em; [|done].
  destruct (num_ltb (markup_value (mf_markup f)) num_zero); [done|]. cbn -[str_trim fields_error] in He.
  assert (opt_get W "Enabled" = JBool (mf_enabled f)) as HE by read_body.
  assert (opt_get W "provider" = JStr (mf_provider f)) as HP by read_body.
  assert (opt_get W "type" = JStr (mapped_type (mf_type f))) as HT by read_body.
  assert (opt_get W "infrastructure_monthly_usd" = on_wire (JNum (number_of_string (mf_infra f)))) as HI by read_body.
  assert (opt_get W "markup_percentage" = on_wire (JNum (markup_value (mf_markup f)))) as HM by read_body.
  assert (opt_get W "provider_model_id" = prop_of "provider_model_id" (bedrock_part f)) as HB by read_body.
  assert (opt_get W "name" = prop_of "name" (bedrock_part f)) as HN by read_body.
  assert (opt_get W "base_url" = prop_of "base_url" (address_part f)) as HU by read_body.
  unfold scalarPayload. cbv zeta. rewrite HE, HP, HT, HI, HM, HB, HN, HU. cbn [on_wire]. rewrite Ei, Em.
  cbn [js_coalesce nullish is_undefined negb truthy put]. unfold put_finite. cbn [is_undefined js_to_number].
  rewrite Ei, Em. unfold bedrock_part, address_part, put_trimmed in *.
  destruct (String.eqb (mf_provider f) "bedrock"), (is_ml f); cbn -[str_trim fields_error] in He |- *;
    rewrite ?str_trim_twice; try reflexivity.
  all: destruct (String.eqb (str_trim (mf_modelId f)) ""); [by repeat case_match|]; cbn -[str_trim].
  all: by rewrite ?str_trim_twice.
Qed.

(** The nested objects, from the part of the body they are in *)
Lemma prices_cases (f : ModelForm) :
  (pricing_part f = [] /\ prices_sent f = []) \/
  exists p, pricing_part f = [("pricing", JObj p)] /\ pricingPayload (wire_props p) = prices_sent f.
Proof.
  destruct (pricing_part f) as [|[key v] rest] eqn:E.
  - left. split; [done|]. unfold pricing_part in E. destruct (_ || is_embedding f)%bool eqn:Ec; [done|].
    apply orb_false_iff in Ec as [Ec Eb]. apply orb_false_iff in Ec as [Ec Ek].
    apply orb_false_iff in Ec as [Ep _]. apply negb_false_iff in Ep, Ek.
    unfold prices_sent, number_sent. by rewrite Eb, Ep, Ek.
  - right. assert (H := E). unfold pricing_part in H. destruct (_ || is_embedding f)%bool; [|done].
    injection H as <- <- <-. eexists. split; [reflexivity|]. by apply pricing_wire.
Qed.

Lemma mock_cases (hadMock : bool) (k : MockForm) :
  mock_part hadMock k = [] \/
  exists p, mock_part hadMock k = [("mock", JObj p)] /\ mockPayload (wire_props p) = mock_sent k.
Proof.
  destruct (mock_part hadMock k) as [|[key v] rest] eqn:E; [by left|right].
  assert (H := E). unfold mock_part in H. cbv zeta in H. destruct (_ || hadMock)%bool; [|done].
  injection H as <- <- <-. eexists. split; [reflexivity|]. by apply (mock_wire hadMock).
Qed.

(** An ML model that is not refused *)
Lemma edit_ml (f : ModelForm) :
  edit_error f = None -> is_ml f = true ->
  String.eqb (str_trim (mf_endpoint f)) "" = false /\ fields_error (mf_fields f) = None.
Proof.
  unfold edit_error. intros He Hml. rewrite Hml in He. cbn [andb] in He.
  by repeat (case_match; try done).
Qed.

Lemma edit_address (f : ModelForm) :
  edit_error f = None ->
  let out := withNested "execution" (prop_of "execution" (address_part f)) executionPayload
               (amounts_sent f ++ bedrock_part f ++ (if is_ml f then [] else address_part f))%list in
  let observable := prop_of "observable" (address_part f) in
  (if is_object observable
   then match observablePayload (own observable) with
        | Some v => Some (obj_set "observable" v out)
        | None => None
        end
   else Some out) = Some (amounts_sent f ++ bedrock_part f ++ address_part f)%list.
Proof.
  intros He. cbv zeta. unfold address_part. destruct (is_ml f) eqn:Hml; [|done].
  destruct (edit_ml f He Hml) as [Hend Hfs]. apply fields_wire in Hfs.
  change (prop_of "observable" _) with (on_wire (observable_js (mf_fields f))).
  unfold observable_js at 1 2. rewrite on_wire_obj. cbn [is_object own]. rewrite Hfs.
  unfold withNested, prop_of. cbn -[str_trim]. unfold executionPayload. cbn -[str_trim].
  rewrite str_trim_twice, Hend. cbn -[str_trim]. unfold bedrock_part. by destruct (String.eqb _ "bedrock").
Qed.

Lemma edit_patch (model : js) (f : ModelForm) (k : MockForm) :
  edit_error f = None ->
  buildAdminModelPatchPayload (on_wire (JObj (edit_body model f k))) = Some (patch_sent model f k).
Proof.
  intros He. unfold buildAdminModelPatchPayload. rewrite edit_scalars by done.
  replace (nullish (on_wire (JObj (edit_body model f k)))) with false by done. cbv zeta.
  set (W := on_wire (JObj (edit_body model f k))). unfold patch_sent.
  set (had := truthy (opt_get (opt_get model "mock") "enabled")).
  assert (opt_get W "execution" = prop_of "execution" (address_part f)) as HX by read_body.
  assert (opt_get W "observable" = prop_of "observable" (address_part f)) as HO by read_body.
  assert (opt_get W "pricing" = prop_of "pricing" (pricing_part f)) as HP by read_body.
  assert (opt_get W "mock" = prop_of "mock" (mock_part had k)) as HM by read_body.
  rewrite HX, HO, HP, HM. clearbody W had. rewrite edit_address by done.
  f_equal. unfold withNested, prop_of.
  destruct (mock_cases had k) as [->|(m & -> & Hk)], (prices_cases f) as [[-> ->]|(p & -> & Hp)];
    cbn [obj_get String.eqb Ascii.eqb Bool.eqb is_object]; rewrite ?on_wire_obj; cbn [is_object own];
    rewrite ?Hk, ?Hp; unfold bedrock_part, address_part;
    try destruct (prices_sent f); destruct (String.eqb _ "bedrock"), (is_ml f); reflexivity.
Qed.

(** ** What the forms accept *)

Definition amount_ok (n : num) : Prop := num_is_finite n = true /\ num_ltb n num_zero = false.

Lemma bad_amount_ok (n : num) : bad_amount n = false <-> amount_ok n.
Proof. unfold bad_amount, amount_ok. by rewrite orb_false_iff, negb_false_iff. Qed.

Lemma has_repeated_false (keys seen : list string) :
  has_repeated seen keys = false <-> List.NoDup keys /\ forall k, In k keys -> ~ In k seen.
Proof.
  revert seen. induction keys as [|k keys IH]; intros seen; cbn.
  - split; [|done]. intros _. split; [constructor|tauto].
  - destruct (set_has k seen) eqn:E.
    + split; [done|]. intros [_ H]. apply set_has_In in E. by destruct (H k (or_introl eq_refl)).
    + assert (Hn : ~ In k seen) by (intros H%set_has_In; congruence). rewrite IH, List.NoDup_cons_iff.
      setoid_rewrite set_add_In. split.
      * intros [Hd H]. split; [split; [|done]|]; [intros Hin; by destruct (H k Hin); right|].
        intros x [<-|Hx]; [done|]. intros Hs. by apply (H x Hx); left.
      * intros [[Hk Hd] H]. split; [done|]. intros x Hx [Hs| ->]; [|done]. by apply (H x (or_intror Hx)).
Qed.

(** Rows that are valid have the same key only if they are the same. *)
Lemma field_key_inj (a b : ObservableField) :
  valid_field a = true -> valid_field b = true -> field_key a = field_key b -> a = b.
Proof.
  destruct a as [p t r], b as [p' t' r']. unfold valid_field. cbn -[String.eqb].
  rewrite !andb_true_iff, !orb_true_iff, !String.eqb_eq. intros [[_ Ht] Hr] [[_ Ht'] Hr'].
  unfold field_key. cbn [of_path of_type of_role]. intros E%(f_equal str_rev).
  rewrite !str_rev_append in E. rewrite <- (str_rev_rev p), <- (str_rev_rev p').
  revert E. generalize (str_rev p) (str_rev p'). intros q q'.
  intuition; subst; cbn in *; congruence.
Qed.

Lemma fields_accepted (fields : list ObservableField) :
  fields_error fields = None <->
  Forall (fun f => valid_field f = true) (map normalize_field fields) /\
  List.NoDup (map normalize_field fields).
Proof.
  unfold fields_error. cbv zeta. generalize (map normalize_field fields) as l. clear fields. intros l.
  destruct (existsb (fun f => negb (valid_field f)) l) eqn:E.
  - split; [done|]. intros [H _]. apply existsb_exists in E as (x & Hx & Hv).
    rewrite List.Forall_forall in H. by rewrite (H x Hx) in Hv.
  - assert (H : Forall (fun f => valid_field f = true) l).
    { apply List.Forall_forall. intros x Hx. destruct (valid_field x) eqn:Ev; [done|].
      assert (existsb (fun f => negb (valid_field f)) l = true) by
        (apply existsb_exists; exists x; by rewrite Ev). congruence. }
    destruct (has_repeated [] (map field_key l)) eqn:Er.
    + split; [done|]. intros [_ Hd]. assert (Hk : List.NoDup (map field_key l)).
      { apply NoDup_map_NoDup_ForallPairs; [|done]. intros a b Ha Hb.
        rewrite List.Forall_forall in H. apply field_key_inj; auto. }
      assert (has_repeated [] (map field_key l) = false) by (apply has_repeated_false; auto). congruence.
    + split; [|done]. intros _. split; [done|]. apply has_repeated_false in Er as [Hd _].
      by apply List.NoDup_map_inv in Hd.
Qed.

Lemma nonblank (s : string) : String.eqb s "" = false <-> s <> "".
Proof. apply String.eqb_neq. Qed.

(** Both dialogs submit exactly the forms with sensible values: amounts are finite and not
    negative, an ML model has an endpoint and valid rows without repetition, a Bedrock model
    an id; a model is created under a new id, with a provider and a type. *)
Lemma model_forms_validate (ids : list string) (f : ModelForm) :
  let amounts := amount_ok (number_of_string (mf_infra f)) /\ amount_ok (markup_value (mf_markup f)) in
  let ml := is_ml f = true -> str_trim (mf_endpoint f) <> "" /\
    Forall (fun r => valid_field r = true) (map normalize_field (mf_fields f)) /\
    List.NoDup (map normalize_field (mf_fields f)) in
  (create_error ids f = None <->
   str_trim (mf_modelId f) <> "" /\ mf_provider f <> "" /\ mf_type f <> "" /\ ml /\
   ~ In (str_trim (mf_modelId f)) ids /\ amounts) /\
  (edit_error f = None <->
   amounts /\ ml /\ (mf_provider f = "bedrock" -> str_trim (mf_modelId f) <> "")).
Proof.
  cbv zeta. rewrite <- !bad_amount_ok, <- !fields_accepted, <- !nonblank, <- set_has_In, <- String.eqb_eq.
  unfold create_error, edit_error, set_has. rewrite not_true_iff_false.
  split; destruct (is_ml f), (String.eqb (mf_provider f) "bedrock"), (fields_error (mf_fields f)); cbn [andb];
    repeat match goal with |- context [if ?b then _ else _] => destruct b end; intuition (discriminate || auto).
Qed.


Definition demo_ml_form : ModelForm :=
  mkModelForm "scorer" "openai" true "ML" "12.5" "" " http://ml/score "
    [mkField " $.q " "text" "input"; mkField "$.score" "number" "output"] "" "" "" " ".
Definition demo_no_mock : MockForm := mkMockForm false "" "" "" "" "" "".
Definition demo_model : js := JObj [("id", JStr "scorer"); ("version", js_of_Z 7)].


(** The cached-input price of the form never reaches the gateway: whatever it says, the
    patch is the same. *)
Theorem cached_price_lost (model : js) (f : ModelForm) (k : MockForm) (cached : string) :
  edit_error f = None ->
  let f' := mkModelForm (mf_modelId f) (mf_provider f) (mf_enabled f) (mf_type f) (mf_infra f) (mf_baseUrl f)
              (mf_endpoint f) (mf_fields f) (mf_prompt f) cached (mf_completion f) (mf_markup f) in
  buildAdminModelPatchPayload (on_wire (JObj (edit_body model f' k))) =
  buildAdminModelPatchPayload (on_wire (JObj (edit_body model f k))).
Proof. intros He f'. rewrite (edit_patch model f k He). by apply (edit_patch model f' k). Qed.

Lemma cached_price_lost_witness :
  buildAdminModelPatchPayload (on_wire (JObj (edit_body demo_model
    (mkModelForm "scorer" "openai" true "ML" "12.5" "" " http://ml/score "
      [mkField " $.q " "text" "input"; mkField "$.score" "number" "output"] "" "0.5" "" " ") demo_no_mock))) =
  buildAdminModelPatchPayload (on_wire (JObj (edit_body demo_model demo_ml_form demo_no_mock))).
Proof. apply (cached_price_lost demo_model demo_ml_form demo_no_mock "0.5"). vm_compute. reflexivity. Defined.
