(* ===== verification/TenantStore.v ===== *)
(** * The configuration store of the gateway

    src/backend/internal/storage/postgres.go: what the gateway does with a patch of a tenant's
    configuration.  Keys are brought to snake case and the patch is merged by RFC 7396.  A map
    of Go has no order; the lists here keep the order of insertion, and what is proved of a
    merged document is what its lookups give. *)

From S2P Require Import Prelude JsNumber JsText JsValue Json JsonRoundTrip.
From Stdlib Require Import Sorting.Sorted.
Local Open Scope string_scope.

(** ** Snake case *)

Definition isUpper (c : ascii) : bool := (Nat.leb 65 (code c) && Nat.leb (code c) 90)%bool.
Definition isLower (c : ascii) : bool := (Nat.leb 97 (code c) && Nat.leb (code c) 122)%bool.
Definition toLower (c : ascii) : ascii := if isUpper c then byte (code c + 32) else c.

(** The loop, from the character before the rest *)
Fixpoint snake_from (prev : ascii) (s : string) : string :=
  match s with
  | EmptyString => ""
  | String c rest =>
      let next_lower := match rest with String d _ => isLower d | EmptyString => false end in
      if (isUpper c && (negb (isUpper prev) || next_lower))%bool
      then String "_" (String (toLower c) (snake_from c rest))
      else String (toLower c) (snake_from c rest)
  end.

Definition toSnakeCase (s : string) : string :=
  match s with EmptyString => "" | String c rest => String (toLower c) (snake_from c rest) end.

Fixpoint normalizeConfigKeys (data : js) : js :=
  match data with
  | JObj m => JObj ((fix go (m acc : list (string * js)) : list (string * js) :=
                       match m with
                       | [] => acc
                       | (k, x) :: m' => go m' (obj_set (toSnakeCase k) (normalizeConfigKeys x) acc)
                       end) m [])
  | JArr l => JArr (map normalizeConfigKeys l)
  | _ => data
  end.

(** ** The merge *)

(** What a key holds after the patch's value for it; None is no entry. *)
Fixpoint merge_value (current : option js) (v : js) : option js :=
  match v with
  | JNull => None
  | JObj p =>
      match current with
      | Some (JObj t) =>
          Some (JObj ((fix go (p t : list (string * js)) : list (string * js) :=
                         match p with
                         | [] => t
                         | (k, x) :: p' =>
                             go p' (match merge_value (obj_get k t) x with
                                    | Some y => obj_set k y t
                                    | None => obj_del k t
                                    end)
                         end) p t))
      | _ => Some v
      end
  | _ => Some v
  end.

Definition mergeMaps (target patch : obj) : obj :=
  match merge_value (Some (JObj target)) (JObj patch) with Some (JObj m) => m | _ => [] end.

(** ** Reading and patching *)

Inductive store_error := TenantNotFound | ErrVersionConflict (expected current : Z).

Definition props (v : js) : obj := match v with JObj m => m | _ => [] end.

(** The row of a tenant: its configuration, an object, and its version *)
Definition GetTenantConfig (row : option (obj * Z)) : option (obj * Z) :=
  match row with
  | None => None
  | Some (config, version) => Some (props (normalizeConfigKeys (JObj config)), version)
  end.

Definition PatchTenantConfig (row : option (obj * Z)) (ifMatchVersion : Z) (mergePatch : obj)
  : store_error + (obj * Z) :=
  match GetTenantConfig row with
  | None => inl TenantNotFound
  | Some (current, currentVersion) =>
      if negb (currentVersion =? ifMatchVersion)%Z
      then inl (ErrVersionConflict ifMatchVersion currentVersion)
      else inr (mergeMaps current (props (normalizeConfigKeys (JObj mergePatch))), (currentVersion + 1)%Z)
  end.

(** ** Documents in snake case *)

Definition lower_key (k : string) : bool := str_all (fun c => negb (isUpper c)) k.

Fixpoint snake (v : js) : Prop :=
  match v with
  | JArr l => (fix go (l : list js) : Prop := match l with [] => True | x :: l' => snake x /\ go l' end) l
  | JObj m => enumerated m /\
      (fix go (m : list (string * js)) : Prop :=
         match m with [] => True | (k, x) :: m' => (lower_key k = true /\ snake x) /\ go m' end) m
  | _ => True
  end.

Lemma snake_arr (l : list js) : snake (JArr l) <-> Forall snake l.
Proof. induction l as [|x l IH]; [by split|]. rewrite List.Forall_cons_iff, <- IH. done. Qed.

Lemma snake_obj (m : obj) :
  snake (JObj m) <-> enumerated m /\ Forall (fun kv => lower_key kv.1 = true /\ snake kv.2) m.
Proof.
  cbn. apply and_iff_compat_l. induction m as [|[k x] m IH]; [by split|].
  rewrite List.Forall_cons_iff, <- IH. done.
Qed.

Lemma toLower_lower (c : ascii) : isUpper c = false -> toLower c = c.
Proof. unfold toLower. by intros ->. Qed.

Lemma snake_from_lower (s : string) (prev : ascii) : lower_key s = true -> snake_from prev s = s.
Proof.
  revert prev. induction s as [|c s IH]; intros prev; [done|]. unfold lower_key in *. cbn -[isUpper].
  intros [Hc Hs]%andb_prop. apply negb_true_iff in Hc. rewrite Hc. cbn [andb].
  by rewrite toLower_lower, IH.
Qed.

Lemma toSnakeCase_lower (k : string) : lower_key k = true -> toSnakeCase k = k.
Proof.
  destruct k as [|c k]; [done|]. unfold lower_key. cbn -[isUpper]. intros [Hc Hk]%andb_prop.
  apply negb_true_iff in Hc. by rewrite toLower_lower, snake_from_lower.
Qed.

Lemma normalize_snake (v : js) : snake v -> normalizeConfigKeys v = v.
Proof.
  induction v as [| | | | |l IH|m IH] using js_nested_ind; try done.
  - rewrite snake_arr. intros H. cbn. f_equal.
    induction l as [|x l IHl]; [done|]. apply List.Forall_cons_iff in IH as [Hx IH].
    apply List.Forall_cons_iff in H as [Sx H]. cbn. by rewrite Hx, IHl.
  - rewrite snake_obj. intros [He H]. cbn. f_equal. apply (spread_enumerated m []) in He.
    cbn in He. rewrite <- He at 2. unfold obj_spread. generalize (@nil (string * js)) as acc. clear He.
    induction m as [|[k x] m IHm]; intros acc; [done|]. apply List.Forall_cons_iff in IH as [Hx IH].
    apply List.Forall_cons_iff in H as [[Sk Sx] H]. cbn in *. by rewrite Hx, toSnakeCase_lower, IHm.
Qed.

(** ** What a merge leaves *)

Definition merge_props : obj -> obj -> obj :=
  fix go (p t : list (string * js)) : list (string * js) :=
    match p with
    | [] => t
    | (k, x) :: p' =>
        go p' (match merge_value (obj_get k t) x with Some y => obj_set k y t | None => obj_del k t end)
    end.

Lemma merge_value_obj (t p : obj) : merge_value (Some (JObj t)) (JObj p) = Some (JObj (merge_props p t)).
Proof. done. Qed.

(** A key of the merged map holds the old value where the patch has none, and otherwise the
    merge of the two. *)
Lemma merge_get (t p : obj) (k : string) :
  List.NoDup (map fst p) ->
  obj_get k (mergeMaps t p) =
  match obj_get k p with None => obj_get k t | Some v => merge_value (obj_get k t) v end.
Proof.
  unfold mergeMaps. rewrite merge_value_obj. revert t. induction p as [|[k' x] p IH]; intros t Hd; [done|].
  cbn [map fst] in Hd. apply List.NoDup_cons_iff in Hd as [Hk Hd]. cbn [merge_props obj_get]. rewrite IH by done.
  destruct (String.eqb_spec k k') as [->|Hne].
  - rewrite (obj_get_not_In k' p Hk).
    by destruct (merge_value (obj_get k' t) x); rewrite ?obj_get_set_eq, ?obj_get_del_eq.
  - assert (E : obj_get k (match merge_value (obj_get k' t) x with
                           | Some y => obj_set k' y t | None => obj_del k' t end) = obj_get k t)
      by (destruct (merge_value _ _); by rewrite ?obj_get_set_ne, ?obj_get_del_ne by done).
    by rewrite E.
Qed.

Lemma enumerated_del (k : string) (m : obj) : enumerated m -> enumerated (obj_del k m).
Proof.
  intros [Hd Hs]. split; [by apply obj_del_NoDup|]. clear Hd.
  induction Hs as [|a m Hs IH Ha]; cbn; [constructor|]. destruct (negb _); [|exact IH].
  constructor; [exact IH|]. apply List.Forall_forall. intros x [Hx _]%filter_In.
  rewrite List.Forall_forall in Ha. by apply Ha.
Qed.

Lemma snake_set (k : string) (v : js) (m : obj) :
  snake (JObj m) -> lower_key k = true -> snake v -> snake (JObj (obj_set k v m)).
Proof.
  rewrite !snake_obj. intros [He H] Hk Hv. split; [by apply enumerated_set|]. by apply obj_set_Forall.
Qed.

Lemma snake_del (k : string) (m : obj) : snake (JObj m) -> snake (JObj (obj_del k m)).
Proof.
  rewrite !snake_obj. intros [He H]. split; [by apply enumerated_del|].
  apply List.Forall_forall. intros x [Hx _]%filter_In. rewrite List.Forall_forall in H. by apply H.
Qed.

Lemma snake_get (k : string) (m : obj) (v : js) : snake (JObj m) -> obj_get k m = Some v -> snake v.
Proof.
  rewrite snake_obj. intros [_ H] Hk%obj_get_In. rewrite List.Forall_forall in H. apply (H _ Hk).
Qed.

Lemma merge_snake (p : js) :
  snake p -> forall current r, (forall c, current = Some c -> snake c) ->
  merge_value current p = Some r -> snake r.
Proof.
  induction p as [| | | | | |m IH] using js_nested_ind; intros Hp current r Hc E;
    try (by injection E as <-); [done|].
  destruct current as [[| | | | | |t]|]; try (by injection E as <-).
  rewrite merge_value_obj in E. injection E as <-. specialize (Hc _ eq_refl).
  apply snake_obj in Hp as [_ Hp]. revert t Hc.
  induction m as [|[k x] m IHm]; intros t Ht; [done|].
  apply List.Forall_cons_iff in IH as [Hx IH]. apply List.Forall_cons_iff in Hp as [[Hk Sx] Hp]. cbn in Hx, Hk, Sx.
  cbn [merge_props]. apply IHm; [done|done|].
  destruct (merge_value (obj_get k t) x) as [y|] eqn:E; [|by apply snake_del].
  apply snake_set; [done|done|]. eapply Hx; [done| |exact E]. intros c Hc. by eapply snake_get.
Qed.

(** A patch in snake case of a document in snake case: the write is accepted when the version
    matches, and what is read afterwards is the merge. *)
Lemma patched_read (config patch : obj) (version : Z) :
  snake (JObj config) -> snake (JObj patch) ->
  PatchTenantConfig (Some (config, version)) version patch = inr (mergeMaps config patch, (version + 1)%Z) /\
  GetTenantConfig (Some (mergeMaps config patch, (version + 1)%Z)) = Some (mergeMaps config patch, (version + 1)%Z).
Proof.
  intros Hc Hp. assert (Hm : snake (JObj (mergeMaps config patch))).
  { apply (merge_snake (JObj patch) Hp (Some (JObj config))); [|done]. by intros c [= <-]. }
  unfold PatchTenantConfig, GetTenantConfig.
  rewrite (normalize_snake _ Hc), (normalize_snake _ Hp), (normalize_snake _ Hm). cbn [props].
  by rewrite Z.eqb_refl.
Qed.

(** ** Reading a merged document *)

Definition merged (current : option js) (v : js) : js := default JUndef (merge_value current v).

(** Values that replace what was there *)
Definition replaces (v : js) : bool := match v with JNull | JObj _ => false | _ => true end.

Lemma merged_replaces (current : option js) (v : js) : replaces v = true -> merged current v = v.
Proof. by destruct v. Qed.

Lemma merged_top (t p : obj) : JObj (mergeMaps t p) = merged (Some (JObj t)) (JObj p).
Proof. done. Qed.

(** What was below a key *)
Definition below (current : option js) (k : string) : option js :=
  match current with Some (JObj t) => obj_get k t | _ => None end.

(** Below an object of the patch: a key of it holds the merge of its value with what was
    there, and another key what it held. *)
Lemma merged_get (current : option js) (q : obj) (k : string) (v : js) :
  List.NoDup (map fst q) -> obj_get k q = Some v -> v <> JNull ->
  opt_get (merged current (JObj q)) k = merged (below current k) v.
Proof.
  intros Hd Hk Hn. assert (Hv : forall o, opt_get (JObj o) k = default JUndef (obj_get k o)) by done.
  assert (Hnone : default JUndef (Some v) = merged None v) by (destruct v; congruence || done).
  destruct current as [[| | | | | |t]|]; cbn [below]; try (rewrite <- Hnone, <- Hk; done).
  rewrite <- merged_top, Hv, merge_get, Hk by done. done.
Qed.

Lemma merged_field (current : option js) (q : obj) (k : string) (v : js) :
  List.NoDup (map fst q) -> obj_get k q = Some v -> replaces v = true -> opt_get (merged current (JObj q)) k = v.
Proof.
  intros Hd Hk Hr. rewrite (merged_get current q k v Hd Hk); [|by intros ->]. by apply merged_replaces.
Qed.

Lemma merged_other (current : option js) (q : obj) (k : string) :
  List.NoDup (map fst q) -> obj_get k q = None ->
  opt_get (merged current (JObj q)) k = default JUndef (below current k).
Proof.
  intros Hd Hk. assert (Hq : opt_get (JObj q) k = JUndef) by (cbn; by rewrite Hk).
  destruct current as [[| | | | | |t]|]; try exact Hq.
  rewrite <- merged_top. cbn [opt_get]. by rewrite merge_get, Hk.
Qed.

(** A key the patch sets to null is gone, or null. *)
Lemma merged_null (current : option js) (q : obj) (k : string) :
  List.NoDup (map fst q) -> obj_get k q = Some JNull -> nullish (opt_get (merged current (JObj q)) k) = true.
Proof.
  intros Hd Hk. assert (Hq : nullish (opt_get (JObj q) k) = true) by (cbn; by rewrite Hk).
  destruct current as [[| | | | | |t]|]; try exact Hq.
  rewrite <- merged_top. cbn [opt_get]. by rewrite merge_get, Hk.
Qed.

Lemma merged_top_get (t p : obj) (k : string) (v : js) :
  List.NoDup (map fst p) -> obj_get k p = Some v -> opt_get (JObj (mergeMaps t p)) k = merged (obj_get k t) v.
Proof. intros Hd Hk. cbn [opt_get]. by rewrite merge_get, Hk. Qed.

Lemma merged_top_other (t p : obj) (k : string) :
  List.NoDup (map fst p) -> obj_get k p = None -> opt_get (JObj (mergeMaps t p)) k = opt_get (JObj t) k.
Proof. intros Hd Hk. cbn [opt_get]. by rewrite merge_get, Hk. Qed.

Lemma snake_opt (v : js) (k : string) : snake v -> snake (opt_get v k).
Proof.
  destruct v as [| | | | |l|m]; try done.
  - intros _. cbn. by destruct (String.eqb k "length").
  - intros H. cbn [opt_get]. destruct (obj_get k m) eqn:E; [|done]. by eapply snake_get.
Qed.
