(* ===== verification/GlobalStore.v ===== *)
(** * The global configuration store of the gateway

    src/backend/internal/storage/postgres.go and src/backend/internal/httpapi: the versions of the
    global configuration, how a patch is merged and brought to its canonical form, the rollback,
    and what an administrator reads.  A map of Go is iterated in any order; where two keys fall
    together the model takes the order of the list, and the theorems that depend on it quantify
    over the orders. *)

From S2P Require Import Prelude JsNumber JsText JsValue Json JsonRoundTrip ConfigPatch GatewayClient TenantStore.
Local Open Scope string_scope.

(** ** The canonical form *)

(** [ProviderModelID] becomes [provider_model_id] unless that is there. *)
Definition canonical_model (item : js) : js :=
  match item with
  | JObj m =>
      JObj (obj_del "ProviderModelID"
        (if obj_has "provider_model_id" m then m
         else match obj_get "ProviderModelID" m with
              | Some v => obj_set "provider_model_id" v m
              | None => m
              end))
  | _ => item
  end.
Definition canonicalizeGlobalConfigModels (root : obj) : obj :=
  match obj_get "models" root with
  | Some (JArr arr) => obj_set "models" (JArr (map canonical_model arr)) root
  | _ => root
  end.

(** The first of the keys that holds a text *)
Fixpoint stringFieldFromMap (m : obj) (keys : list string) : string :=
  match keys with
  | [] => ""
  | k :: keys' => match obj_get k m with Some (JStr s) => s | _ => stringFieldFromMap m keys' end
  end.
Fixpoint boolPtrFromMap (m : obj) (keys : list string) : option bool :=
  match keys with
  | [] => None
  | k :: keys' => match obj_get k m with
                  | Some (JBool b) => Some b
                  | Some (JNum n) => Some (negb (num_eqb n num_zero))
                  | _ => boolPtrFromMap m keys'
                  end
  end.

Record ProviderConfig := mkProviderConfig {
  pc_Type : string;
  pc_BaseURL : string;
  pc_APIKeyEnv : string;
  pc_Enabled : option bool;
  pc_AwsAccessKeyID : string;
  pc_AwsSecretAccessKey : string;
  pc_AwsRegion : string;
}.

(** The field APIKey of the struct is not among those that are read. *)
Definition providerConfigFromFlexibleMap (m : obj) : ProviderConfig :=
  mkProviderConfig (stringFieldFromMap m ["Type"; "type"]) (stringFieldFromMap m ["BaseURL"; "base_url"])
    (stringFieldFromMap m ["APIKeyEnv"; "api_key_env"]) (boolPtrFromMap m ["Enabled"; "enabled"])
    (stringFieldFromMap m ["AwsAccessKeyID"; "aws_access_key_id"])
    (stringFieldFromMap m ["AwsSecretAccessKey"; "aws_secret_access_key"])
    (stringFieldFromMap m ["AwsRegion"; "aws_region"]).

Definition omit_empty (k v : string) : obj := if String.eqb v "" then [] else [(k, JStr v)].

(** The struct as json.Marshal writes it *)
Definition marshal_provider (pc : ProviderConfig) : obj :=
  ([("Type", JStr (pc_Type pc)); ("BaseURL", JStr (pc_BaseURL pc)); ("APIKeyEnv", JStr (pc_APIKeyEnv pc));
    ("Enabled", match pc_Enabled pc with Some b => JBool b | None => JNull end)]
     ++ omit_empty "aws_access_key_id" (pc_AwsAccessKeyID pc)
     ++ omit_empty "aws_secret_access_key" (pc_AwsSecretAccessKey pc)
     ++ omit_empty "aws_region" (pc_AwsRegion pc))%list.

Definition canonicalizeProviderConfigMap (m : obj) : obj :=
  match m with [] => m | _ => marshal_provider (providerConfigFromFlexibleMap m) end.

Definition canonical_provider (entry : js) : js :=
  match entry with JObj m => JObj (canonicalizeProviderConfigMap m) | _ => entry end.
Definition canonicalizeGlobalConfigProviders (root : obj) : obj :=
  match obj_get "providers" root with
  | Some (JObj p) => obj_set "providers" (JObj (map (fun e => (e.1, canonical_provider e.2)) p)) root
  | _ => root
  end.

Definition FinalizeGlobalConfigJSON (config : obj) : obj :=
  canonicalizeGlobalConfigProviders (canonicalizeGlobalConfigModels (props (normalizeConfigKeys (JObj config)))).

(** ** Versions *)

(** The tables: every version with its document, the active one, and the log of the changes *)
Record GlobalDb := mkDb {
  db_versions : list (Z * obj);
  db_active : option Z;
  db_log : list (Z * Z);
}.

Inductive global_error := NotInitialized | VersionConflict (expected current : Z) | VersionNotFound (v : Z).

Fixpoint version_doc (v : Z) (l : list (Z * obj)) : option obj :=
  match l with [] => None | (i, d) :: l' => if (v =? i)%Z then Some d else version_doc v l' end.

(** The greatest id; the ids are positive. *)
Definition latest_version (db : GlobalDb) : Z := foldr Z.max 0%Z (map fst (db_versions db)).
Definition row_of (db : GlobalDb) (v : Z) : option (obj * Z) := (fun d => (d, v)) <$> version_doc v (db_versions db).
Definition joined_row (db : GlobalDb) : option (obj * Z) := db_active db ≫= row_of db.

(** The row the query joins; without one the latest version is taken, and made active. *)
Definition GetGlobalConfig (db : GlobalDb) : option (obj * Z) :=
  match joined_row db with
  | Some r => Some r
  | None => row_of db (latest_version db)
  end.
Definition repaired (db : GlobalDb) : GlobalDb :=
  match joined_row db with
  | Some _ => db
  | None => match row_of db (latest_version db) with
            | Some (_, v) => mkDb (db_versions db) (Some v) (db_log db)
            | None => db
            end
  end.

(** The next value of the sequence of ids *)
Definition next_version (db : GlobalDb) : Z := 1 + latest_version db.

Definition PutGlobalConfig (ifMatchVersion : Z) (config : obj) (db : GlobalDb) : global_error + (GlobalDb * Z) :=
  match db_active db with
  | None => inl NotInitialized
  | Some currentVersion =>
      if negb (currentVersion =? ifMatchVersion)%Z then inl (VersionConflict ifMatchVersion currentVersion)
      else let v := next_version db in
           inr (mkDb (db_versions db ++ [(v, config)]) (Some v) (db_log db ++ [(currentVersion, v)]), v)
  end.

Definition PatchGlobalConfig (ifMatchVersion : Z) (mergePatch : obj) (db : GlobalDb) : global_error + (GlobalDb * Z) :=
  match GetGlobalConfig db with
  | None => inl NotInitialized
  | Some (current, currentVersion) =>
      if negb (currentVersion =? ifMatchVersion)%Z then inl (VersionConflict ifMatchVersion currentVersion)
      else PutGlobalConfig ifMatchVersion
             (FinalizeGlobalConfigJSON (mergeMaps current (props (normalizeConfigKeys (JObj mergePatch))))) (repaired db)
  end.

Definition RollbackGlobalConfig (ifMatchVersion targetVersion : Z) (db : GlobalDb) : global_error + GlobalDb :=
  match db_active db with
  | None => inl NotInitialized
  | Some currentVersion =>
      if negb (currentVersion =? ifMatchVersion)%Z then inl (VersionConflict ifMatchVersion currentVersion)
      else match version_doc targetVersion (db_versions db) with
           | None => inl (VersionNotFound targetVersion)
           | Some _ => inr (mkDb (db_versions db) (Some targetVersion) (db_log db ++ [(currentVersion, targetVersion)]))
           end
  end.

(** A version that exists is made the active one, whatever the caller knew of it. *)
Definition ApplyGlobalConfigVersion (version : Z) (db : GlobalDb) : global_error + GlobalDb :=
  match version_doc version (db_versions db), db_active db with
  | None, _ => inl (VersionNotFound version)
  | Some _, None => inl NotInitialized
  | Some _, Some currentVersion =>
      inr (mkDb (db_versions db) (Some version) (db_log db ++ [(currentVersion, version)]))
  end.

Definition SeedGlobalConfig (config : obj) (db : GlobalDb) : GlobalDb * bool :=
  match db_active db with
  | Some _ => (db, false)
  | None => (mkDb (db_versions db ++ [(next_version db, config)]) (Some (next_version db)) (db_log db), true)
  end.

(** ** What an administrator reads *)

Definition redact_entry (entry : js) : js :=
  match entry with
  | JObj pm =>
      JObj (map (fun e => match e.2 with
                          | JStr v => if (existsb (String.eqb e.1) ["api_key"; "APIKey"; "aws_secret_access_key"; "AwsSecretAccessKey"]
                                          && negb (String.eqb v ""))%bool
                                      then (e.1, JStr "***") else e
                          | _ => e
                          end) pm)
  | _ => entry
  end.
Definition redactProviderSecretsInGlobalConfigMap (root : obj) : obj :=
  match obj_get "providers" root with
  | Some (JObj p) => obj_set "providers" (JObj (map (fun e => (e.1, redact_entry e.2)) p)) root
  | _ => root
  end.

(** Without a stored configuration the one of the gateway's file is read, as version 0. *)
Definition AdminGetGlobalConfig (fromYAML : obj) (db : GlobalDb) : obj * Z :=
  let '(config, version) := default (fromYAML, 0%Z) (GetGlobalConfig db) in
  (redactProviderSecretsInGlobalConfigMap config, version).

(** The patch of the route, for a body that asks for no rollback: the keys are normalized before
    they reach the store. *)
Definition AdminPatchGlobalConfig (ifMatchVersion : Z) (body : obj) (db : GlobalDb) : global_error + (GlobalDb * Z) :=
  PatchGlobalConfig ifMatchVersion (props (normalizeConfigKeys (JObj body))) db.

(** ** Merging a document into itself *)

(** No null in it, which a merge patch would take for a deletion *)
Fixpoint null_free (v : js) : Prop :=
  match v with
  | JNull => False
  | JObj m => (fix go (m : list (string * js)) : Prop :=
                 match m with [] => True | (_, x) :: m' => null_free x /\ go m' end) m
  | _ => True
  end.

Lemma null_free_obj (m : obj) : null_free (JObj m) <-> Forall (fun kv => null_free kv.2) m.
Proof. induction m as [|[k x] m IH]; [by split|]. rewrite List.Forall_cons_iff, <- IH. done. Qed.

Lemma obj_In_get (k : string) (v : js) (m : obj) : List.NoDup (map fst m) -> In (k, v) m -> obj_get k m = Some v.
Proof.
  induction m as [|[k' v'] m IH]; [done|]. cbn. intros [Hk Hd]%List.NoDup_cons_iff [[= -> ->]|Hin].
  - by rewrite String.eqb_refl.
  - destruct (String.eqb_spec k k') as [->|]; [|by apply IH]. destruct Hk. by apply (in_map fst) in Hin.
Qed.

Lemma merge_self (v : js) : snake v -> null_free v -> merge_value (Some v) v = Some v.
Proof.
  induction v as [| | | | | |m IH] using js_nested_ind; try done.
  intros Hs Hn. rewrite merge_value_obj. do 2 f_equal.
  apply null_free_obj in Hn. apply snake_obj in Hs as [He Hs].
  assert (Hget : forall k x, In (k, x) m -> obj_get k m = Some x) by (intros; apply obj_In_get; [apply He|done]).
  enough (H : forall p, incl p m -> merge_props p m = m) by (apply H; apply incl_refl).
  induction p as [|[k x] p IHp]; intros Hp; [done|]. cbn [merge_props].
  assert (Hin : In (k, x) m) by (apply Hp; by left). rewrite (Hget k x Hin).
  rewrite List.Forall_forall in IH, Hs, Hn. destruct (Hs _ Hin) as [_ Sx].
  pose proof (IH _ Hin Sx (Hn _ Hin)) as Hx. cbn in Hx. rewrite Hx, obj_set_same by (by apply Hget).
  apply IHp. intros y Hy. apply Hp. by right.
Qed.

(** ** Lookups through the canonical form *)

(** Documents whose sections have lower-case names, each once *)
Definition plain_sections (m : obj) : Prop := enumerated m /\ Forall (fun kv => lower_key kv.1 = true) m.

Lemma plain_set (k : string) (v : js) (m : obj) :
  plain_sections m -> lower_key k = true -> plain_sections (obj_set k v m).
Proof. intros [He H] Hk. split; [by apply enumerated_set|]. by apply obj_set_Forall. Qed.

Lemma normalize_go (m acc : obj) (k : string) :
  List.NoDup (map fst m) -> Forall (fun kv => lower_key kv.1 = true) m ->
  obj_get k ((fix go (m acc : list (string * js)) : list (string * js) :=
                match m with
                | [] => acc
                | (k, x) :: m' => go m' (obj_set (toSnakeCase k) (normalizeConfigKeys x) acc)
                end) m acc)
  = match obj_get k m with Some v => Some (normalizeConfigKeys v) | None => obj_get k acc end.
Proof.
  revert acc. induction m as [|[k' x] m IH]; intros acc Hd Hl; [done|]. cbn in Hd.
  apply List.NoDup_cons_iff in Hd as [Hk Hd]. apply List.Forall_cons_iff in Hl as [Hl' Hl]. cbn [obj_get].
  rewrite IH by done. cbn in Hl'. rewrite toSnakeCase_lower by done.
  destruct (String.eqb_spec k k') as [->|Hne].
  - rewrite (obj_get_not_In k' m Hk). apply obj_get_set_eq.
  - destruct (obj_get k m); [done|]. by apply obj_get_set_ne.
Qed.

Lemma normalize_get (m : obj) (k : string) :
  plain_sections m -> obj_get k (props (normalizeConfigKeys (JObj m))) = normalizeConfigKeys <$> obj_get k m.
Proof.
  intros [[Hd _] Hl]. cbn. rewrite normalize_go by done. by destruct (obj_get k m).
Qed.

Lemma finalize_get (m : obj) (k : string) :
  plain_sections m -> k <> "models" -> k <> "providers" ->
  obj_get k (FinalizeGlobalConfigJSON m) = normalizeConfigKeys <$> obj_get k m.
Proof.
  intros Hm Hk Hp. rewrite <- normalize_get by done.
  unfold FinalizeGlobalConfigJSON, canonicalizeGlobalConfigProviders, canonicalizeGlobalConfigModels.
  set (r := props _). destruct (obj_get "models" r) as [[]|];
    repeat (destruct (obj_get "providers" _) as [[]|]); rewrite ?obj_get_set_ne by done; done.
Qed.

Lemma merge_plain (t p : obj) : plain_sections t -> plain_sections p -> plain_sections (mergeMaps t p).
Proof.
  intros Ht [_ Hp]. unfold mergeMaps. rewrite merge_value_obj. revert t Ht.
  induction p as [|[k x] p IH]; intros t Ht; [done|]. apply List.Forall_cons_iff in Hp as [Hk Hp].
  cbn [merge_props]. apply IH; [done|]. destruct (merge_value _ x); [by apply plain_set|].
  destruct Ht as [He Hl]. split; [by apply enumerated_del|].
  apply List.Forall_forall. intros e [He' _]%filter_In. rewrite List.Forall_forall in Hl. by apply Hl.
Qed.

Lemma normalize_plain (m : obj) : plain_sections m -> plain_sections (props (normalizeConfigKeys (JObj m))).
Proof.
  intros [[Hd _] Hl]. cbn. assert (H : plain_sections []) by (split; [by repeat constructor|constructor]).
  revert H. generalize (@nil (string * js)) as acc. clear Hd.
  induction m as [|[k x] m IH]; intros acc Ha; [done|]. apply List.Forall_cons_iff in Hl as [Hk Hl].
  apply IH; [done|]. cbn in Hk. rewrite toSnakeCase_lower by done. by apply plain_set.
Qed.

(** The document after a patch, section by section: what was there where the patch has none or
    the same, and the merge of the two elsewhere *)
Lemma patched_section (current patch : obj) (k : string) :
  plain_sections current -> plain_sections patch -> k <> "models" -> k <> "providers" ->
  obj_get k (FinalizeGlobalConfigJSON (mergeMaps current (props (normalizeConfigKeys (JObj patch)))))
  = normalizeConfigKeys <$>
      match obj_get k patch with
      | None => obj_get k current
      | Some v => merge_value (obj_get k current) (normalizeConfigKeys v)
      end.
Proof.
  intros Hc Hp Hm Hpr. rewrite finalize_get; [|apply merge_plain; [done|by apply normalize_plain]|done|done].
  rewrite merge_get by apply (normalize_plain _ Hp). rewrite normalize_get by done.
  by destruct (obj_get k patch).
Qed.

(** ** The history *)

Inductive global_op :=
| OpPut (version : Z) (config : obj)
| OpPatch (version : Z) (patch : obj)
| OpRollback (version target : Z)
| OpApply (version : Z)
| OpSeed (config : obj).

(** An operation that fails is rolled back and leaves the tables as they are, but for the repair
    a patch starts with. *)
Definition run_op (db : GlobalDb) (op : global_op) : GlobalDb :=
  match op with
  | OpPut v c => match PutGlobalConfig v c db with inr (db', _) => db' | inl _ => db end
  | OpPatch v p => match PatchGlobalConfig v p db with inr (db', _) => db' | inl _ => repaired db end
  | OpRollback v t => match RollbackGlobalConfig v t db with inr db' => db' | inl _ => db end
  | OpApply v => match ApplyGlobalConfigVersion v db with inr db' => db' | inl _ => db end
  | OpSeed c => (SeedGlobalConfig c db).1
  end.

(** The active version is one of the versions. *)
Definition active_exists (db : GlobalDb) : Prop := exists v d, db_active db = Some v /\ version_doc v (db_versions db) = Some d.

Lemma version_doc_app (v : Z) (l l' : list (Z * obj)) :
  version_doc v (l ++ l') = match version_doc v l with Some d => Some d | None => version_doc v l' end.
Proof. induction l as [|[i d] l IH]; cbn; [done|]. by destruct (v =? i)%Z. Qed.

Lemma next_version_fresh (db : GlobalDb) (v : Z) (d : obj) :
  version_doc v (db_versions db) = Some d -> (v < next_version db)%Z.
Proof.
  unfold next_version, latest_version. induction (db_versions db) as [|[i x] l IH]; cbn [version_doc map foldr fst]; [done|].
  destruct (Z.eqb_spec v i) as [->|]; intros H; [lia|]. specialize (IH H). lia.
Qed.

Lemma put_active (db db' : GlobalDb) (v : Z) (c : obj) (n : Z) :
  PutGlobalConfig v c db = inr (db', n) -> GetGlobalConfig db' = Some (c, n) /\ n = next_version db
  /\ db_versions db' = (db_versions db ++ [(n, c)])%list.
Proof.
  unfold PutGlobalConfig. destruct (db_active db) as [cur|]; [|done]. destruct (negb _); [done|].
  intros [= <- <-]. split; [|done]. unfold GetGlobalConfig, joined_row, row_of. cbn.
  rewrite version_doc_app. destruct (version_doc (next_version db) (db_versions db)) eqn:E.
  - apply next_version_fresh in E. lia.
  - cbn. by rewrite Z.eqb_refl.
Qed.

Lemma patch_put (db : GlobalDb) (v : Z) (p : obj) (db' : GlobalDb) (n : Z) :
  PatchGlobalConfig v p db = inr (db', n) ->
  exists c, PutGlobalConfig v c (repaired db) = inr (db', n).
Proof.
  unfold PatchGlobalConfig. destruct (GetGlobalConfig db) as [[cur cv]|]; [|done].
  destruct (negb _); [done|]. eauto.
Qed.

Lemma active_repaired (db : GlobalDb) : active_exists db -> repaired db = db.
Proof. intros (v & d & Ha & Hd). unfold repaired, joined_row, row_of. rewrite Ha. cbn. by rewrite Hd. Qed.

(** A version once written is never rewritten, and what is active stays one of the versions. *)
Lemma run_op_history (db : GlobalDb) (op : global_op) :
  active_exists db ->
  active_exists (run_op db op)
  /\ (forall v d, version_doc v (db_versions db) = Some d -> version_doc v (db_versions (run_op db op)) = Some d).
Proof.
  intros Ha.
  assert (Hput : forall v c db' n, PutGlobalConfig v c db = inr (db', n) -> active_exists db' /\
    forall v d, version_doc v (db_versions db) = Some d -> version_doc v (db_versions db') = Some d).
  { intros v c db' n E. destruct (put_active _ _ _ _ _ E) as (G & -> & Ev). split.
    - exists (next_version db), c. unfold PutGlobalConfig in E. destruct (db_active db); [|done].
      destruct (negb _); [done|]. injection E as <-. cbn. split; [done|]. rewrite version_doc_app.
      destruct (version_doc _ (db_versions db)) eqn:F; [apply next_version_fresh in F; lia|].
      cbn. by rewrite Z.eqb_refl.
    - intros v' d' H. rewrite Ev, version_doc_app. by rewrite H. }
  destruct op as [v c|v p|v t|v|c]; cbn.
  - destruct (PutGlobalConfig v c db) as [|[db' n]] eqn:E; [done|]. by eapply Hput.
  - destruct (PatchGlobalConfig v p db) as [|[db' n]] eqn:E; [by rewrite active_repaired|].
    apply patch_put in E as [c E]. rewrite active_repaired in E by done. by eapply Hput.
  - unfold RollbackGlobalConfig. destruct (db_active db) as [cur|]; [|done]. destruct (negb _); [done|].
    destruct (version_doc t (db_versions db)) as [d|] eqn:E; [|done]. split; [|done]. exists t, d. done.
  - unfold ApplyGlobalConfigVersion. destruct (version_doc v (db_versions db)) as [d|] eqn:E; [|done].
    destruct (db_active db); [|done]. split; [|done]. by exists v, d.
  - unfold SeedGlobalConfig. destruct Ha as (v & d & Hv & Hd). rewrite Hv. split; [|done]. by exists v, d.
Qed.

(** C11: the history of the global configuration.  After any writes, patches, rollbacks,
    activations and seeds, accepted or refused, every version that was ever recorded still has its document and the active
    configuration is one of them; a write with a version that is not the active one changes
    nothing; and a rollback that is accepted makes exactly the document of its target the active
    one again. *)
Theorem global_history_kept (db : GlobalDb) (ops : list global_op) :
  active_exists db ->
  let db' := fold_left run_op ops db in
  active_exists db'
  /\ (forall v d, version_doc v (db_versions db) = Some d -> version_doc v (db_versions db') = Some d)
  /\ (forall v c p t, db_active db' <> Some v ->
        run_op db' (OpPut v c) = db' /\ run_op db' (OpPatch v p) = db' /\ run_op db' (OpRollback v t) = db')
  /\ (forall v t d, db_active db' = Some v -> version_doc t (db_versions db) = Some d ->
        GetGlobalConfig (run_op db' (OpRollback v t)) = Some (d, t)).
Proof.
  intros Ha. cbn zeta.
  assert (H : active_exists (fold_left run_op ops db) /\ forall v d, version_doc v (db_versions db) = Some d ->
    version_doc v (db_versions (fold_left run_op ops db)) = Some d).
  { revert db Ha. induction ops as [|op ops IH]; intros db Ha; cbn; [done|].
    destruct (run_op_history db op Ha) as [Ha' Hk]. destruct (IH _ Ha') as [H1 H2]. auto. }
  destruct H as [H1 H2]. split; [done|]. split; [done|]. split.
  - intros v c p t Hv. destruct H1 as (cur & d & Hc & Hd). rewrite Hc in Hv.
    assert (Hne : (cur =? v)%Z = false) by (apply Z.eqb_neq; congruence).
    assert (Hg : GetGlobalConfig (fold_left run_op ops db) = Some (d, cur))
      by (unfold GetGlobalConfig, joined_row, row_of; rewrite Hc; cbn; by rewrite Hd).
    cbn. unfold PutGlobalConfig, PatchGlobalConfig, RollbackGlobalConfig. rewrite Hg, Hc, Hne. cbn.
    rewrite active_repaired; [done|]. by exists cur, d.
  - intros v t d Hv Ht. apply H2 in Ht. cbn. unfold RollbackGlobalConfig. rewrite Hv, Z.eqb_refl. cbn.
    rewrite Ht. unfold GetGlobalConfig, joined_row, row_of. cbn. by rewrite Ht.
Qed.

Lemma global_history_kept_witness :
  GetGlobalConfig (run_op (fold_left run_op [OpPut 1 [("auth", JObj [])]] (mkDb [(1%Z, [])] (Some 1%Z) []))
                     (OpRollback 2 1)) = Some ([], 1%Z).
Proof.
  apply (global_history_kept (mkDb [(1%Z, [])] (Some 1%Z) []) [OpPut 1 [("auth", JObj [])]]);
    [by exists 1%Z, []|reflexivity|reflexivity].
Defined.
