(* ===== verification/GlobalConfigPage.v ===== *)
(** * The global configuration page

    src/frontend/src/app/(app)/global-config/page.tsx and
    src/frontend/src/features/global-config/components: what the page shows, the editors of
    the sections, and what a save sends to the gateway and leaves in its store
    ([GlobalStore]). *)

From S2P Require Import Prelude JsNumber JsText JsValue JsArray Json JsonRoundTrip Effects ConfigPatch GatewayClient UsageApi ConfigView ConsoleClient ConsoleFacts RoutingPage SettingsPage TenantStore GlobalStore.
Import ConfigRead.
Local Open Scope string_scope.

(** ** The view *)

Inductive GlobalConfigView :=
| GcDenied
| GcLoading
| GcError (message : string)
| GcNone
| GcShown (config version : js) (changeLog : bool).

Record GlobalQuery := mkGlobalQuery {
  gq_data : js;
  gq_isLoading : bool;
  gq_error : option string;
}.

(** [changesError?.message?.includes('404')] hides the log of the changes. *)
Definition GlobalConfigContent (role : js) (config changes : GlobalQuery) : GlobalConfigView :=
  if negb (is_str role "admin") then GcDenied
  else if gq_isLoading config then GcLoading
  else match gq_error config with
       | Some message => GcError message
       | None =>
           if negb (truthy (gq_data config)) then GcNone
           else GcShown (opt_get (gq_data config) "config") (opt_get (gq_data config) "version")
                  (negb (match gq_error changes with Some m => str_includes "404" m | None => false end))
       end.

Inductive ChangeLogView := ClLoading | ClError (message : string) | ClEmpty | ClRows (rows : list js).
Definition GlobalConfigChangeLog (changes : js) (isLoading : bool) (error : option string) : ChangeLogView :=
  if isLoading then ClLoading
  else match error with
       | Some message => ClError message
       | None => match changes with
                 | JArr (c :: l) => ClRows (c :: l)
                 | _ => ClEmpty
                 end
       end.

(** A query that is not enabled is never sent: it has no data, no error and is not loading. *)
Definition disabled_query : GlobalQuery := mkGlobalQuery JUndef false None.
Definition page_changes : GlobalQuery := disabled_query.

(** [section?.Backend ?? section?.backend], for the badges of the overview *)
Definition backend_of (section : js) : js := js_coalesce (opt_get section "Backend") (opt_get section "backend").
Definition backend_label (section : js) : string :=
  if truthy (backend_of section) then js_to_string (backend_of section) else "—".
Definition providers_count (config : js) : nat :=
  if truthy (opt_get config "providers") then List.length (entries (opt_get config "providers")) else 0%nat.
Definition models_count (config : js) : js :=
  if truthy (opt_get config "models") then opt_get (opt_get config "models") "length" else js_of_Z 0.

(** ** The authentication editor *)

Record RbacForm := mkRbacForm {
  rb_mode : string;
  rb_issuer : string;
  rb_audience : string;
  rb_jwksUrl : string;
  rb_tenantIdClaim : string;
  rb_rolesClaim : string;
  rb_userRoles : string;
  rb_adminRoles : string;
  rb_financeRoles : string;
}.

(** [String(v?.k || d)] *)
Definition text_or (v : js) (k d : string) : string := js_to_string (js_or (opt_get v k) (JStr d)).

Definition roles_text (rbac : js) (k d : string) : string :=
  match opt_get rbac k with JArr l => js_join ", " l | _ => text_or rbac k d end.

Definition rbac_form (auth : js) : RbacForm :=
  let jwt := opt_get auth "jwt" in
  let requiredClaims := opt_get jwt "required_claims" in
  let rbac := opt_get jwt "rbac" in
  mkRbacForm (text_or auth "mode" "api_key") (text_or jwt "issuer" "") (text_or jwt "audience" "")
    (text_or jwt "jwks_url" "") (text_or requiredClaims "tenant_id" "tenant_id")
    (text_or requiredClaims "roles" "roles") (roles_text rbac "user_roles" "user")
    (roles_text rbac "admin_roles" "admin") (roles_text rbac "finance_roles" "finance").

Definition isJwtEnabled (f : RbacForm) : bool := String.eqb (rb_mode f) "jwt" || String.eqb (rb_mode f) "both".

Definition rbac_handleSave (f : RbacForm) : obj :=
  ("mode", JStr (rb_mode f)) ::
  (if isJwtEnabled f then
     [("jwt", JObj [("issuer", JStr (rb_issuer f)); ("audience", JStr (rb_audience f));
        ("jwks_url", JStr (rb_jwksUrl f));
        ("required_claims", JObj [("tenant_id", JStr (rb_tenantIdClaim f)); ("roles", JStr (rb_rolesClaim f))]);
        ("rbac", JObj [("user_roles", role_list (rb_userRoles f)); ("admin_roles", role_list (rb_adminRoles f));
                       ("finance_roles", role_list (rb_financeRoles f))])])]
   else []).

(** ** The routing infrastructure editor *)

(** [{ ...prev.section, [field]: value }] and the same one level below *)
Definition set_field (o : js) (field : string) (v : js) : js := JObj (obj_set field v (obj_spread [] (entries o))).
Definition set_section (section field : string) (v : js) (prev : obj) : obj :=
  obj_set section (set_field (opt_get (JObj prev) section) field v) prev.

Inductive infra_edit :=
| RateLimitChange (field value : string)
| RateLimitRedisChange (field : string) (value : js)
| CircuitBreakerChange (field value : string)
| CircuitBreakerRedisChange (field : string) (value : js)
| CircuitBreakerDefaultsChange (field : string) (value : js).

Definition infra_step (prev : obj) (e : infra_edit) : obj :=
  let below section part field v :=
    set_section section part (set_field (opt_get (opt_get (JObj prev) section) part) field v) prev in
  match e with
  | RateLimitChange field v => set_section "rate_limit" field (JStr v) prev
  | RateLimitRedisChange field v => below "rate_limit" "Redis" field v
  | CircuitBreakerChange field v => set_section "circuit_breaker" field (JStr v) prev
  | CircuitBreakerRedisChange field v => below "circuit_breaker" "Redis" field v
  | CircuitBreakerDefaultsChange field v => below "circuit_breaker" "Defaults" field v
  end.

(** The editor starts from a copy of three sections of the page's configuration. *)
Definition infra_open (config : js) : option obj :=
  match js_clone (JObj (map (fun k => (k, opt_get config k)) ["smart_routing"; "rate_limit"; "circuit_breaker"])) with
  | Some (JObj m) => Some m
  | _ => None
  end.

(** What the inputs for the two backends show *)
Definition backend_input (edited : obj) (section : string) : js :=
  js_or (opt_get (opt_get (JObj edited) section) "Backend") (JStr "").

(** ** The providers editor *)

Definition handleProviderChange (key field : string) (v : js) (prev : obj) : obj :=
  obj_set key (set_field (opt_get (JObj prev) key) field v) prev.
Definition handleEnabledChange (key value : string) (prev : obj) : obj :=
  handleProviderChange key "Enabled"
    (if String.eqb value "false" then JBool false else if String.eqb value "true" then JBool true else JNull) prev.

(** The option the select shows *)
Definition enabled_option (provider : js) : string :=
  match opt_get provider "Enabled" with JNull => "null" | v => if truthy v then "true" else "false" end.

(** ** DecisionOps *)

Definition formatTTL (seconds : num) : string :=
  num_to_string seconds ++ "s — " ++ num_to_string (num_floor (num_div seconds (num_of_Z 60))) ++ " min — "
  ++ to_fixed 2 (num_div seconds (num_of_Z 3600)) ++ "h".

Definition currentTTL (config : js) : js := js_coalesce (opt_get config "workflow_conversation_ttl_seconds") (js_of_Z 3600).

Record TtlState := mkTtlState {
  tt_isEditing : bool;
  tt_inputValue : string;
  tt_inputError : option string;
}.

Definition ttl_valid (inputValue : string) : bool :=
  negb (num_is_nan (parse_int inputValue)) && num_gtb (parse_int inputValue) num_zero.

Inductive ttl_event := TtlEdit | TtlCancel | TtlInput (text : string) | TtlSave.

(** The state, and the update that is handed to the page *)
Definition ttl_step (config : js) (st : TtlState) (e : ttl_event) : TtlState * option obj :=
  match e with
  | TtlEdit => (mkTtlState true (js_to_string (currentTTL config)) None, None)
  | TtlCancel => (mkTtlState false (tt_inputValue st) None, None)
  | TtlInput text => (mkTtlState (tt_isEditing st) text None, None)
  | TtlSave =>
      if negb (ttl_valid (tt_inputValue st))
      then (mkTtlState (tt_isEditing st) (tt_inputValue st) (Some "Must be a positive integer (seconds)"), None)
      else (mkTtlState false (tt_inputValue st) (tt_inputError st),
            Some [("workflow_conversation_ttl_seconds", JNum (parse_int (tt_inputValue st)))])
  end.

(** ** The saves *)

Inductive SectionUpdate :=
| ProvidersUpdate (updatedProviders : obj)
| ModelsUpdate (updatedModels : list js)
| RoutingInfraUpdate (updated : obj)
| DecisionOpsUpdate (updated : obj)
| AuthUpdate (updatedAuth : obj).

Definition updated_document (base : obj) (u : SectionUpdate) : obj :=
  match u with
  | ProvidersUpdate p => obj_set "providers" (JObj p) base
  | ModelsUpdate l => obj_set "models" (JArr l) base
  | RoutingInfraUpdate m | DecisionOpsUpdate m => obj_spread base m
  | AuthUpdate a => obj_set "auth" (JObj a) base
  end.

(** [cachedData?.version ?? version] *)
Definition getLatestVersion (cached : js) (version : num) : option num :=
  match js_coalesce (opt_get cached "version") (JNum version) with JNum n => Some n | _ => None end.

(** The handlers of the page: the whole document the console has, with the section replaced.
    None: a version that is no number, which its type excludes. *)
Definition section_save (storage : Storage) (cached : js) (config : obj) (version : num) (u : SectionUpdate)
  : option (M js) :=
  (fun n => mutationFn (useUpdateGlobalConfig storage)
              (updated_document (getLatestGlobalConfigRecord cached config) u, n))
    <$> getLatestVersion cached version.

(** ** The rows of the model catalogue *)

Record CatalogRow := mkCatalogRow {
  cr_name : string;
  cr_provider : string;
  cr_type : string;
  cr_prompt : string;
  cr_completion : string;
  cr_mock : option (option (num * num) * option num);
}.

(** The label of the mock: its delays and its error rate, where the row shows them.  [model.Mock]
    alone is read for these, and [model.mock] for whether it is enabled. *)
Definition mock_cell (model : js) : option (option (num * num) * option num) :=
  let mock := opt_get model "Mock" in
  let both a b := js_coalesce (opt_get mock a) (opt_get mock b) in
  let given k := negb (is_undefined (opt_get mock k)) in
  if truthy (js_coalesce (opt_get mock "Enabled") (opt_get (opt_get model "mock") "enabled")) then
    Some (if given "DelayMinMs" || given "delay_min_ms" || given "DelayMaxMs" || given "delay_max_ms"
          then Some (js_to_number (js_coalesce (both "DelayMinMs" "delay_min_ms") (js_of_Z 0)),
                     js_to_number (js_coalesce (both "DelayMaxMs" "delay_max_ms") (js_of_Z 0)))
          else None,
          if given "ErrorRate" || given "error_rate"
          then Some (num_mul (js_to_number (both "ErrorRate" "error_rate")) (num_of_Z 100)) else None)
  else None.

Definition catalog_row (model : js) : CatalogRow :=
  let both a b d := js_to_string (js_coalesce (js_coalesce (opt_get model a) (opt_get model b)) (JStr d)) in
  let pricing := readPricingFields (js_coalesce (opt_get model "Pricing") (opt_get model "pricing")) in
  let type := both "Type" "type" "" in
  mkCatalogRow (both "Name" "name" "—") (both "Provider" "provider" "—")
    (if String.eqb type "" then "llm" else type)
    ("$" ++ to_fixed 2 pricing.1) ("$" ++ to_fixed 2 pricing.2) (mock_cell model).

(** ** Normalized documents *)

Lemma toLower_plain (c : ascii) : isUpper (toLower c) = false.
Proof. destruct c as [[] [] [] [] [] [] [] []]; reflexivity. Qed.

Lemma snake_from_plain (s : string) (prev : ascii) : lower_key (snake_from prev s) = true.
Proof.
  unfold lower_key. revert prev. induction s as [|c s IH]; intros prev; [done|]. cbn [snake_from].
  destruct (_ && _)%bool; cbn [str_all]; by rewrite toLower_plain, IH.
Qed.

Lemma toSnakeCase_plain (s : string) : lower_key (toSnakeCase s) = true.
Proof.
  destruct s as [|c s]; [done|]. unfold lower_key. cbn [toSnakeCase str_all].
  rewrite toLower_plain. apply snake_from_plain.
Qed.

Lemma normalize_is_snake (v : js) : snake (normalizeConfigKeys v).
Proof.
  induction v as [| | | | |l IH|m IH] using js_nested_ind; try done.
  - cbn [normalizeConfigKeys]. apply snake_arr. by induction IH; constructor.
  - cbn [normalizeConfigKeys].
    assert (H : snake (JObj [])) by (apply snake_obj; split; [split|]; repeat constructor).
    revert H. generalize (@nil (string * js)) as acc.
    induction IH as [|[k x] m Hx _ IHm]; intros acc Ha; [done|].
    apply IHm, snake_set; [done|apply toSnakeCase_plain|exact Hx].
Qed.

Lemma normalize_twice (v : js) : normalizeConfigKeys (normalizeConfigKeys v) = normalizeConfigKeys v.
Proof. apply normalize_snake, normalize_is_snake. Qed.

(** What the store holds after a patch: sections named in lower case, and with the exception of
    the models and the providers all keys inside them too *)
Definition stored_document (d : obj) : Prop :=
  plain_sections d /\ forall k x, k <> "models" -> k <> "providers" -> obj_get k d = Some x -> snake x.

Lemma canonical_models_plain (m : obj) : plain_sections m -> plain_sections (canonicalizeGlobalConfigModels m).
Proof.
  unfold canonicalizeGlobalConfigModels. destruct (obj_get "models" m) as [[]|]; try done. intros. by apply plain_set.
Qed.

Lemma canonical_providers_plain (m : obj) : plain_sections m -> plain_sections (canonicalizeGlobalConfigProviders m).
Proof.
  unfold canonicalizeGlobalConfigProviders. destruct (obj_get "providers" m) as [[]|]; try done. intros. by apply plain_set.
Qed.

Lemma finalize_stored (m : obj) : plain_sections m -> stored_document (FinalizeGlobalConfigJSON m).
Proof.
  intros Hm. split.
  - apply canonical_providers_plain, canonical_models_plain, normalize_plain, Hm.
  - intros k x Hk Hp. rewrite finalize_get by done. destruct (obj_get k m); [|done].
    intros [= <-]. apply normalize_is_snake.
Qed.

(** ** The document a save sends *)

Definition touched (u : SectionUpdate) : list string :=
  match u with
  | ProvidersUpdate _ => ["providers"]
  | ModelsUpdate _ => ["models"]
  | RoutingInfraUpdate m | DecisionOpsUpdate m => map fst m
  | AuthUpdate _ => ["auth"]
  end.

Definition update_of (u : SectionUpdate) : obj :=
  match u with
  | ProvidersUpdate p => [("providers", JObj p)]
  | ModelsUpdate l => [("models", JArr l)]
  | RoutingInfraUpdate m | DecisionOpsUpdate m => m
  | AuthUpdate a => [("auth", JObj a)]
  end.

Lemma updated_spread (base : obj) (u : SectionUpdate) : updated_document base u = obj_spread base (update_of u).
Proof. by destruct u. Qed.

Lemma updated_plain (base : obj) (u : SectionUpdate) :
  plain_sections base -> Forall (fun k => lower_key k = true) (touched u) ->
  plain_sections (updated_document base u).
Proof.
  intros Hb Ht. rewrite updated_spread.
  assert (H : Forall (fun kv => lower_key kv.1 = true) (update_of u)).
  { destruct u; cbn in *; try by repeat constructor. all: by apply List.Forall_map in Ht. }
  clear Ht. revert base Hb. induction H as [|[k x] m Hk _ IH]; intros base Hb; [done|].
  cbn. apply IH. by apply plain_set.
Qed.

Lemma redact_get (doc : obj) (k : string) :
  k <> "providers" -> obj_get k (redactProviderSecretsInGlobalConfigMap doc) = obj_get k doc.
Proof.
  intros Hk. unfold redactProviderSecretsInGlobalConfigMap.
  destruct (obj_get "providers" doc) as [[]|]; try done. by apply obj_get_set_ne.
Qed.

Lemma redact_plain (doc : obj) : plain_sections doc -> plain_sections (redactProviderSecretsInGlobalConfigMap doc).
Proof.
  intros H. unfold redactProviderSecretsInGlobalConfigMap.
  destruct (obj_get "providers" doc) as [[]|]; try done. by apply plain_set.
Qed.

(** What the gateway holds for a section after a save: what was there where the save does not
    touch it, and the merge of the two elsewhere *)
Lemma saved_section (doc : obj) (u : SectionUpdate) (k : string) :
  stored_document doc -> Forall (fun k => lower_key k = true) (touched u) -> List.NoDup (touched u) ->
  k <> "models" -> k <> "providers" ->
  obj_get k (FinalizeGlobalConfigJSON (mergeMaps doc (props (normalizeConfigKeys (JObj (props (normalizeConfigKeys
    (JObj (updated_document (redactProviderSecretsInGlobalConfigMap doc) u)))))))))
  = match obj_get k (update_of u) with
    | Some x => merge_value (obj_get k doc) (normalizeConfigKeys x)
    | None => match obj_get k doc with Some x => normalizeConfigKeys <$> merge_value (Some x) x | None => None end
    end.
Proof.
  intros [Hd Hs] Ht Hnd Hm Hp. assert (Hu := updated_plain _ u (redact_plain _ Hd) Ht).
  rewrite patched_section by (done || by apply normalize_plain).
  rewrite normalize_get by done. rewrite updated_spread, obj_get_spread by by destruct u.
  rewrite redact_get by done. specialize (Hs k).
  destruct (obj_get k (update_of u)) as [x|] eqn:E; cbn.
  - rewrite normalize_twice. destruct (merge_value _ _) as [y|] eqn:M; [|done]. cbn. f_equal. apply normalize_snake.
    eapply (merge_snake _ (normalize_is_snake x)); [|exact M]. intros c Hc. by apply Hs.
  - destruct (obj_get k doc) as [x|] eqn:F; [|done]. cbn.
    by rewrite normalize_twice, !(normalize_snake x) by (by apply Hs).
Qed.

(** The state of the gateway with a document active, and the console's cache of what it read *)
Definition holds (db : GlobalDb) (doc : obj) (v : Z) : Prop :=
  db_active db = Some v /\ version_doc v (db_versions db) = Some doc /\ stored_document doc.
Definition cache_of (fromYAML : obj) (db : GlobalDb) : js :=
  let '(doc, v) := AdminGetGlobalConfig fromYAML db in JObj [("config", JObj doc); ("version", js_of_Z v)].

Lemma holds_get (db : GlobalDb) (doc : obj) (v : Z) :
  holds db doc v -> GetGlobalConfig db = Some (doc, v) /\ repaired db = db.
Proof.
  intros (Ha & Hd & _). split; [|apply active_repaired; by exists v, doc].
  unfold GetGlobalConfig, joined_row, row_of. rewrite Ha. cbn. by rewrite Hd.
Qed.

Lemma save_accepted (db : GlobalDb) (doc body : obj) (v : Z) :
  holds db doc v -> plain_sections body ->
  exists db' n, AdminPatchGlobalConfig v body db = inr (db', n) /\
    holds db' (FinalizeGlobalConfigJSON (mergeMaps doc (props (normalizeConfigKeys (JObj (props (normalizeConfigKeys (JObj body)))))))) n.
Proof.
  intros Hh Hb. destruct (holds_get _ _ _ Hh) as [Hg Hrep]. destruct Hh as (Ha & _ & Hd).
  unfold AdminPatchGlobalConfig, PatchGlobalConfig. rewrite Hg, Hrep, Z.eqb_refl. cbn [negb].
  set (doc' := FinalizeGlobalConfigJSON _).
  destruct (PutGlobalConfig v doc' db) as [|[db' n]] eqn:E.
  { unfold PutGlobalConfig in E. rewrite Ha, Z.eqb_refl in E. done. }
  exists db', n. split; [done|]. destruct (put_active _ _ _ _ _ E) as (G & En & _).
  assert (Ha' : db_active db' = Some n)
    by (unfold PutGlobalConfig in E; rewrite Ha, Z.eqb_refl in E; cbn in E; by injection E as <- <-).
  split; [done|]. split.
  - unfold GetGlobalConfig, joined_row in G. rewrite Ha' in G. cbn in G. unfold row_of in G.
    destruct (version_doc n (db_versions db')) eqn:D; [by injection G as ->|]. cbn in G.
    destruct (version_doc (latest_version db') (db_versions db')) eqn:L; [|done].
    injection G as _ Hn. by rewrite Hn, D in L.
  - apply finalize_stored, merge_plain; [apply Hd|]. by do 2 apply normalize_plain.
Qed.


Definition demo_global : obj :=
  [("workflow_conversation_ttl_seconds", js_of_Z 3600); ("rate_limit", JObj [("backend", JStr "redis")])].
Definition demo_db : GlobalDb := mkDb [(4%Z, demo_global)] (Some 4%Z) [].

Lemma demo_holds : holds demo_db demo_global 4.
Proof.
  split; [done|]. split; [done|]. split.
  - split; [by apply spread_fixed|]. by repeat constructor.
  - intros k x _ _ H%obj_get_In. destruct H as [[= <- <-]|[[= <- <-]|[]]]; [done|].
    apply snake_obj. split; [by apply spread_fixed|]. by repeat constructor.
Qed.


(** ** The authentication editor leaves what it does not show *)

Lemma trim_space (s : string) : str_trim (String " " s) = str_trim s.
Proof. reflexivity. Qed.

Lemma split_spaced (ls : list string) :
  Forall (clean_item ",") ls -> split_clean "," (str_join ", " ls) = ls.
Proof.
  intros H. destruct ls as [|l ls]; [done|]. revert l H. unfold split_clean.
  assert (Hsp : forall ls l, Forall (clean_item ",") (l :: ls) ->
    str_split "," (str_join ", " (l :: ls)) = l :: map (String " ") ls).
  { induction ls0 as [|l' ls0 IH]; intros l H; apply List.Forall_cons_iff in H as [(_ & _ & Hl) H].
    - by apply str_split_lacks.
    - change (str_join ", " (l :: l' :: ls0)) with (l ++ String "," (String " " (str_join ", " (l' :: ls0)))).
      rewrite str_split_app by done. f_equal.
      assert (E : str_split "," (String " " (str_join ", " (l' :: ls0))) =
                  match str_split "," (str_join ", " (l' :: ls0)) with
                  | x :: r => String " " x :: r | [] => [" "] end) by reflexivity.
      rewrite E, IH by done. done. }
  intros l H. rewrite Hsp by done. cbn [map]. rewrite map_map, (map_ext _ _ trim_space).
  by apply (keep_clean ",") in H.
Qed.

(** The form the settings fill in the editor *)
Definition rbac_form_of (a : AuthSettings) : RbacForm :=
  let text l := str_join ", " l in
  mkRbacForm (as_mode a) (as_issuer a) (as_audience a) (as_jwks_url a) (as_tenant_claim a) (as_roles_claim a)
    (text (as_user_roles a)) (text (as_admin_roles a)) (text (as_finance_roles a)).

Lemma text_or_given (m : obj) (k s d : string) :
  obj_get k m = Some (JStr s) -> s <> "" -> text_or (JObj m) k d = s.
Proof. intros H Hs. unfold text_or. cbn [opt_get]. rewrite H. by rewrite text_given. Qed.

Lemma rbac_form_settings (a : AuthSettings) : complete_settings a -> rbac_form (settings_object a) = rbac_form_of a.
Proof.
  intros [Ht _]. repeat (apply List.Forall_cons_iff in Ht as [? Ht]).
  unfold rbac_form, settings_object, roles_text, rbac_form_of.
  cbn [opt_get obj_get String.eqb Ascii.eqb Bool.eqb]. rewrite !join_texts.
  by repeat (erewrite text_or_given; [|reflexivity|done]).
Qed.

Lemma snake_texts (l : list string) : snake (JArr (map JStr l)).
Proof. apply snake_arr. by induction l; constructor. Qed.

(** For a document written out with keys in snake case *)
Ltac snake_literal :=
  first [ exact I
        | apply snake_texts
        | apply snake_obj; split;
          [ apply spread_fixed; reflexivity
          | repeat (apply List.Forall_cons; [split; [reflexivity | cbn [snd]; snake_literal] |]); apply List.Forall_nil ] ].

Lemma rbac_merge (a : AuthSettings) :
  let roles l := JArr (map JStr l) in
  merge_value (Some (settings_object a))
    (normalizeConfigKeys (JObj [("mode", JStr (as_mode a));
       ("jwt", JObj [("issuer", JStr (as_issuer a)); ("audience", JStr (as_audience a)); ("jwks_url", JStr (as_jwks_url a));
          ("required_claims", JObj [("tenant_id", JStr (as_tenant_claim a)); ("roles", JStr (as_roles_claim a))]);
          ("rbac", JObj [("user_roles", roles (as_user_roles a)); ("admin_roles", roles (as_admin_roles a));
                         ("finance_roles", roles (as_finance_roles a))])])]))
  = Some (settings_object a).
Proof.
  cbn zeta. unfold settings_object.
  rewrite normalize_snake by snake_literal. reflexivity.
Qed.


Definition demo_auth_db : GlobalDb := mkDb [(2%Z, [("auth", settings_object demo_settings)])] (Some 2%Z) [].


(** ** The providers through a save *)

Definition provider_field (db : GlobalDb) (id field : string) : js :=
  match GetGlobalConfig db with
  | Some (doc, _) => opt_get (opt_get (opt_get (JObj doc) "providers") id) field
  | None => JUndef
  end.

(** A gateway with one provider, stored as the canonical form writes it *)
Definition provider_db (pc : ProviderConfig) : GlobalDb :=
  mkDb [(1%Z, [("providers", JObj [("bedrock", JObj (marshal_provider pc))])])] (Some 1%Z) [].

Definition bedrock_with (secret : string) : ProviderConfig :=
  mkProviderConfig "aws_bedrock" "" "" (Some true) "AKIA" secret "us-east-1".

Definition saved_with (db : GlobalDb) (u : SectionUpdate) : option GlobalDb :=
  match GetGlobalConfig db with
  | None => None
  | Some (doc, v) =>
      match AdminPatchGlobalConfig v (updated_document (redactProviderSecretsInGlobalConfigMap doc) u) db with
      | inr (db', _) => Some db'
      | inl _ => None
      end
  end.

(** A save of the conversation lifetime overwrites the secret of a provider: what was read has
    it replaced by three stars, and the whole document is sent back. *)
Theorem section_save_overwrites_secret (c : ascii) (secret : string) :
  let db := provider_db (bedrock_with (String c secret)) in
  provider_field db "bedrock" "aws_secret_access_key" = JStr (String c secret) /\
  exists db', saved_with db (DecisionOpsUpdate [("workflow_conversation_ttl_seconds", js_of_Z 60)]) = Some db' /\
    provider_field db' "bedrock" "aws_secret_access_key" = JStr "***".
Proof. split; [reflexivity|]. eexists. split; reflexivity. Qed.

(** The fields of a stored provider *)
Definition stored_fields : list string :=
  ["Type"; "BaseURL"; "APIKeyEnv"; "Enabled"; "aws_access_key_id"; "aws_secret_access_key"; "aws_region"].

Lemma marshal_only (pc : ProviderConfig) (k : string) : ~ In k stored_fields -> obj_get k (marshal_provider pc) = None.
Proof.
  intros H. apply obj_get_not_In. contradict H. revert H. unfold marshal_provider, omit_empty.
  rewrite !map_app, !in_app_iff.
  destruct (String.eqb _ ""), (String.eqb _ ""), (String.eqb _ ""); cbn; tauto.
Qed.

Lemma canonical_only (p : obj) (id : string) (m : obj) (k : string) :
  ~ In k stored_fields -> obj_get id (map (fun e => (e.1, canonical_provider e.2)) p) = Some (JObj m) -> obj_get k m = None.
Proof.
  intros Hk. induction p as [|[i e] p IH]; [done|]. cbn [map fst snd obj_get].
  destruct (String.eqb id i); [|done]. intros [= E]. destruct e as [| | | | | |o]; try discriminate E.
  cbn in E. injection E as <-. destruct o as [|kv o]; [done|]. by apply marshal_only.
Qed.

(** A key entered in the credentials dialog never reaches the store: a stored provider has none of
    the fields the console writes it to. *)
Theorem saved_credentials_dropped (db db' : GlobalDb) (v n : Z) (body doc p m : obj) (id k : string) :
  AdminPatchGlobalConfig v body db = inr (db', n) -> GetGlobalConfig db' = Some (doc, n) ->
  obj_get "providers" doc = Some (JObj p) -> obj_get id p = Some (JObj m) ->
  ~ In k stored_fields -> obj_get k m = None.
Proof.
  unfold AdminPatchGlobalConfig, PatchGlobalConfig. destruct (GetGlobalConfig db) as [[cur cv]|]; [|done].
  destruct (negb _); [done|]. intros E Hg Hp Hm Hk. destruct (put_active _ _ _ _ _ E) as (G & _ & _).
  rewrite G in Hg. injection Hg as <-. revert Hp.
  unfold FinalizeGlobalConfigJSON, canonicalizeGlobalConfigProviders. set (r := canonicalizeGlobalConfigModels _).
  destruct (obj_get "providers" r) as [[| | | | | |q]|] eqn:Q; try (rewrite Q; congruence).
  rewrite obj_get_set_eq. intros [= <-]. by eapply canonical_only.
Qed.

Lemma saved_credentials_dropped_witness :
  let r := AdminPatchGlobalConfig 1 (props (providers_patch "openai"
             (key_patch (JObj [("api_key", JStr "sk-1")]) "now"))) (mkDb [(1%Z, [])] (Some 1%Z) []) in
  exists db' n doc p m, r = inr (db', n) /\ GetGlobalConfig db' = Some (doc, n) /\
    obj_get "providers" doc = Some (JObj p) /\ obj_get "openai" p = Some (JObj m) /\ obj_get "credentials" m = None.
Proof.
  do 5 eexists. split; [reflexivity|]. split; [reflexivity|]. split; [reflexivity|]. split; [reflexivity|].
  eapply (saved_credentials_dropped (mkDb [(1%Z, [])] (Some 1%Z) []) _ 1 _
            (props (providers_patch "openai" (key_patch (JObj [("api_key", JStr "sk-1")]) "now"))) _ _ _ "openai");
    [reflexivity|reflexivity|reflexivity|reflexivity|]. cbn. intuition discriminate.
Defined.

(** The editor's option "Yes (default)" does not enable a disabled provider: the null it sends
    removes [enabled], and the stored field is [Enabled]. *)
Theorem default_enabled_ignored :
  let db := provider_db (mkProviderConfig "openai" "https://api" "KEY" (Some false) "" "" "") in
  let edited := handleEnabledChange "bedrock" "null"
                  [("bedrock", JObj (marshal_provider (mkProviderConfig "openai" "https://api" "KEY" (Some false) "" "" "")))] in
  enabled_option (opt_get (JObj edited) "bedrock") = "null" /\
  exists db', saved_with db (ProvidersUpdate edited) = Some db' /\
    provider_field db' "bedrock" "Enabled" = JBool false.
Proof. split; [reflexivity|]. eexists. split; reflexivity. Qed.

(** An edit of a provider meets the stored field under another name: after the merge both are
    there, and the order in which the map is walked decides which of them stays. *)
Theorem provider_edit_races :
  let merged := mergeMaps (marshal_provider (mkProviderConfig "openai" "https://old" "KEY" None "" "" ""))
                  (props (normalizeConfigKeys (JObj [("BaseURL", JStr "https://new")]))) in
  exists merged', Permutation merged merged' /\
    (providerConfigFromFlexibleMap (props (normalizeConfigKeys (JObj merged)))).(pc_BaseURL) = "https://new" /\
    (providerConfigFromFlexibleMap (props (normalizeConfigKeys (JObj merged')))).(pc_BaseURL) = "https://old".
Proof. cbn zeta. eexists (rev _). split; [apply Permutation_rev|]. split; reflexivity. Qed.

(** ** The routing infrastructure through a save *)

(** Of a stored document the editor shows no backend, whatever it is: it reads [Backend], and the
    stored keys are in lower case. *)
Theorem infra_editor_shows_blank (doc m : obj) (section : string) :
  stored_document doc -> In section ["rate_limit"; "circuit_breaker"] ->
  obj_get section doc = Some (JObj m) -> backend_input doc section = JStr "".
Proof.
  intros [_ Hs] Hin Hg. unfold backend_input. cbn [opt_get]. rewrite Hg. cbn [opt_get].
  assert (Sm : snake (JObj m)) by (apply (Hs section); [destruct Hin as [<-|[<-|[]]]; done..|done]).
  destruct (obj_get "Backend" m) as [x|] eqn:E; [|done]. apply obj_get_In in E.
  apply snake_obj in Sm as [_ Sm]. rewrite List.Forall_forall in Sm. by destruct (Sm _ E).
Qed.

Lemma infra_editor_shows_blank_witness :
  backend_input demo_global "rate_limit" = JStr "" /\ backend_label (opt_get (JObj demo_global) "rate_limit") = "redis".
Proof.
  split; [|reflexivity].
  apply (infra_editor_shows_blank demo_global [("backend", JStr "redis")] "rate_limit");
    [apply demo_holds|by left|reflexivity].
Defined.

(** A backend typed in the editor is sent beside the stored one, and the two fall together in
    the gateway: the order in which the map is walked decides which of them is kept. *)
Theorem infra_edit_races :
  let edited := infra_step [("rate_limit", JObj [("backend", JStr "memory")])] (RateLimitChange "Backend" "redis") in
  exists m m', obj_get "rate_limit" edited = Some (JObj m) /\ Permutation m m' /\
    normalizeConfigKeys (JObj m) = JObj [("backend", JStr "redis")] /\
    normalizeConfigKeys (JObj m') = JObj [("backend", JStr "memory")].
Proof. cbn zeta. eexists _, (rev _). split; [reflexivity|]. split; [apply Permutation_rev|]. split; reflexivity. Qed.

(** ** The rest of the page *)

(** The log of the changes is not asked for, so the page always shows that there are none. *)
Theorem change_log_always_empty (config version : js) :
  GlobalConfigContent (JStr "admin") (mkGlobalQuery (JObj [("config", config); ("version", version)]) false None) page_changes
    = GcShown config version true /\
  GlobalConfigChangeLog (opt_get (gq_data page_changes) "data") (gq_isLoading page_changes) (gq_error page_changes) = ClEmpty.
Proof. done. Qed.

(** The row of a stored model, whose keys are in lower case, never shows the delays and the error
    rate of its mock. *)
Theorem mock_details_hidden (m : obj) :
  obj_get "Mock" m = None -> mock_cell (JObj m) = None \/ mock_cell (JObj m) = Some (None, None).
Proof. intros H. unfold mock_cell. cbn [opt_get]. rewrite H. cbn. case_match; auto. Qed.

(** A lifetime is handed on only when it is a positive number, and then it is the one that is shown. *)
Theorem ttl_saved (config : js) (st : TtlState) (u : obj) :
  (ttl_step config st TtlSave).2 = Some u ->
  exists n, u = [("workflow_conversation_ttl_seconds", JNum n)] /\ num_gtb n num_zero = true /\ num_is_nan n = false /\
    forall base, currentTTL (JObj (updated_document base (DecisionOpsUpdate u))) = JNum n.
Proof.
  cbn. unfold ttl_valid. destruct (num_is_nan _) eqn:En; [done|]. cbn.
  destruct (num_gtb _ _) eqn:Eg; [|done]. intros [= <-]. eexists. split; [done|]. split; [done|]. split; [done|].
  intros base. unfold currentTTL. cbn. by rewrite obj_get_set_eq.
Qed.

Lemma ttl_saved_witness :
  exists n, [("workflow_conversation_ttl_seconds", js_of_Z 90)] = [("workflow_conversation_ttl_seconds", JNum n)] /\
    num_gtb n num_zero = true /\ num_is_nan n = false /\
    forall base, currentTTL (JObj (updated_document base
      (DecisionOpsUpdate [("workflow_conversation_ttl_seconds", js_of_Z 90)]))) = JNum n.
Proof. apply (ttl_saved JUndef (mkTtlState true "90" None)). reflexivity. Defined.
