(* ===== verification/ProvidersPage.v ===== *)
(** * The providers page

    src/frontend/src/app/(app)/providers/page.tsx with the dialogs of
    src/frontend/src/features/providers/components: what the page shows, what an edit, a switch
    and new credentials send, and what of it the gateway's store keeps. *)

From S2P Require Import Prelude JsNumber JsText JsValue JsArray Json JsonRoundTrip Effects ConfigPatch GatewayClient UsageApi ConfigView ConsoleClient ConsoleFacts TenantStore GlobalStore GlobalConfigPage.
Import ConfigPatch.ProviderPatch ConfigView.ProviderView.
Local Open Scope string_scope.

(** ** The coding provider *)

Inductive LicenseState (A : Type) :=
| LicLoading
| Licensed (data : A)
| NotLicensed
| Unavailable (error : option string).
Arguments LicLoading {A}. Arguments Licensed {A} _. Arguments NotLicensed {A}. Arguments Unavailable {A} _.

(** The query functions of the providers page and of the models page: a refusal means there is no
    license. *)
Definition license_query (url : string) (failed : HttpResponse -> string) : M (LicenseState js) :=
  res ← page_get url;
  if (res_status res =? 403)%Z then mret NotLicensed
  else if negb (res_ok res) then mret (Unavailable (Some (failed res)))
  else data ← res_json res; mret (Licensed data).

Definition fetchClaudeCode : M (LicenseState js) :=
  license_query "/api/providers/claude-code" (fun _ => "Provider unavailable").
Definition fetchCodingModels : M (LicenseState js) :=
  license_query "/api/providers/claude-code/coding_models" (fun res => "Error " ++ Z_to_string (res_status res)).

(** [query.isLoading ? loading : (query.data ?? unavailable)] *)
Definition license_state (isLoading : bool) (data : option (LicenseState js)) : LicenseState js :=
  if isLoading then LicLoading else default (Unavailable None) data.

(** ** The page *)

Inductive ProvidersPageView :=
| PvDenied
| PvError (message : string)
| PvShown (providers : list ProviderWithVersion) (loading : bool).

Record GlobalConfigQuery := mkGcQuery {
  gc_data : js;
  gc_isLoading : bool;
  gc_error : option (string * js);
}.

(** Data a failed query still has are not used. *)
Definition globalConfigData (q : GlobalConfigQuery) : js :=
  match gc_error q with Some _ => JUndef | None => gc_data q end.

Definition ProvidersContent `{Collation} (user isRefreshingSession : bool) (q : GlobalConfigQuery) : ProvidersPageView :=
  match gc_error q with
  | Some (message, status) =>
      if (num_eqb (js_to_number status) (num_of_Z 403) || num_eqb (js_to_number status) (num_of_Z 401)) && is_number status
      then PvDenied else PvError message
  | None => PvShown (providersFromGlobalConfig (globalConfigData q)) (user && (gc_isLoading q || isRefreshingSession))
  end.

Inductive SelectedItem := SelProvider (id : string) | SelCoding.
Definition selectedProvider (providers : list ProviderWithVersion) (selected : option SelectedItem)
  : option ProviderWithVersion :=
  match selected with
  | Some (SelProvider i) =>
      if String.eqb i "" then None else List.find (fun p => String.eqb (id p) i) providers
  | _ => None
  end.

(** ** The switch and the dialogs *)

Definition provider_vars (cached : option js) (fallback : num) (p : ProviderWithVersion) (config : obj) : ProviderVars :=
  mkProviderVars (id p) config (getVersionForProviderMutation cached fallback).

Definition toggle_config (enabled : bool) : obj := [("Enabled", JBool enabled)].
Definition handleToggleEnabled (cached : option js) (fallback : num) (selected : option ProviderWithVersion) (enabled : bool)
  : option (M js) :=
  (fun p => mutationFn useUpdateProvider (provider_vars cached fallback p (toggle_config enabled))) <$> selected.

Record ProviderForm := mkProviderForm {
  pf_base_url : string;
  pf_api_version : string;
  pf_organization : string;
  pf_project : string;
  pf_timeout_ms : option num;
  pf_max_retries : option num;
}.

Definition text_of (s : option string) : string := default "" s.

Definition load_provider (p : ProviderWithVersion) : ProviderForm :=
  mkProviderForm (text_of (base_url p)) (text_of (api_version p)) (text_of (organization p)) (text_of (project p))
    (timeout_ms p) (max_retries p).

(** The bounds of the numbers; NaN is what an emptied input gives. *)
Definition bounded (lo hi : Z) (n : option num) : bool :=
  match n with
  | None => true
  | Some x => num_is_nan x || (num_geb x (num_of_Z lo) && num_geb (num_of_Z hi) x)
  end.
Definition providerSchema (is_url : string -> bool) (f : ProviderForm) : bool :=
  (is_url (pf_base_url f) || String.eqb (pf_base_url f) "")
  && bounded 1000 120000 (pf_timeout_ms f) && bounded 0 10 (pf_max_retries f).

Definition given_text (k s : string) : obj := if String.eqb s "" then [] else [(k, JStr s)].

(** [cleanData] of [onSubmitDefault]; a timeout of zero is not given. *)
Definition clean_data (f : ProviderForm) : obj :=
  (given_text "base_url" (pf_base_url f) ++ given_text "api_version" (pf_api_version f)
   ++ given_text "organization" (pf_organization f) ++ given_text "project" (pf_project f)
   ++ match pf_timeout_ms f with
      | Some n => if (truthy (JNum n) && negb (num_is_nan n))%bool then [("timeout_ms", JNum n)] else []
      | None => []
      end
   ++ match pf_max_retries f with
      | Some n => if negb (num_is_nan n) then [("max_retries", JNum n)] else []
      | None => []
      end)%list.

Definition onSubmitDefault (cached : option js) (fallback : num) (provider : option ProviderWithVersion) (f : ProviderForm)
  : option (M js) :=
  (fun p => mutationFn useUpdateProvider (provider_vars cached fallback p (clean_data f))) <$> provider.

Record BedrockForm := mkBedrockForm {
  bf_access_key : string;
  bf_secret_key : string;
  bf_region : string;
}.
Definition load_bedrock (p : ProviderWithVersion) : BedrockForm :=
  mkBedrockForm (text_of (aws_access_key_id p)) "" (text_of (aws_region p)).
Definition bedrockSchema (f : BedrockForm) : bool :=
  forallb (fun s => negb (String.eqb s "")) [bf_access_key f; bf_secret_key f; bf_region f].
Definition bedrock_config (f : BedrockForm) : obj :=
  [("type", JStr "aws_bedrock"); ("aws_access_key_id", JStr (str_trim (bf_access_key f)));
   ("aws_secret_access_key", JStr (str_trim (bf_secret_key f))); ("aws_region", JStr (str_trim (bf_region f)))].
Definition onSubmitBedrock (cached : option js) (fallback : num) (provider : option ProviderWithVersion) (f : BedrockForm)
  : option (M js) :=
  (fun p => mutationFn useUpdateProvider (provider_vars cached fallback p (bedrock_config f))) <$> provider.

(** The credentials dialog; for the first kind the three texts are the key, the secret and the
    organization. *)
Definition opt_text_field (k s : string) : string * js := (k, if String.eqb s "" then JUndef else JStr s).
Definition key_credentials (apiKey apiSecret organization : string) : obj :=
  [("api_key", JStr apiKey); opt_text_field "api_secret" apiSecret; opt_text_field "organization" organization].
Definition aws_credentials (ak sk region : string) : obj :=
  [("aws_access_key_id", JStr ak); ("aws_secret_access_key", JStr sk); ("aws_region", JStr region)].

Definition credentials_handleSubmit (cached : option js) (fallback : num) (provider : option ProviderWithVersion)
    (t1 t2 t3 : string) : option (M js) :=
  match provider with
  | None => None
  | Some p =>
      let send c := Some (mutationFn useUpdateProviderCredentials (provider_vars cached fallback p c)) in
      if isAwsBedrockProvider p then
        if existsb (fun s => String.eqb (str_trim s) "") [t1; t2; t3] then None
        else send (aws_credentials (str_trim t1) (str_trim t2) (str_trim t3))
      else if String.eqb (str_trim t1) "" then None else send (key_credentials t1 t2 t3)
  end.

(** ** Normalized maps, whatever the order they are walked in *)

Lemma normalize_walk (m acc : obj) (k : string) (x : js) :
  (forall k0 v, In (k0, v) m -> toSnakeCase k0 = k -> normalizeConfigKeys v = x) ->
  obj_get k ((fix go (m acc : list (string * js)) : list (string * js) :=
                match m with
                | [] => acc
                | (k, x) :: m' => go m' (obj_set (toSnakeCase k) (normalizeConfigKeys x) acc)
                end) m acc)
  = if existsb (fun e => String.eqb (toSnakeCase e.1) k) m then Some x else obj_get k acc.
Proof.
  revert acc. induction m as [|[k0 v0] m IH]; intros acc H; [done|]. cbn [existsb fst].
  rewrite IH by (intros k1 v1 Hin; apply (H k1 v1); by right).
  destruct (String.eqb_spec (toSnakeCase k0) k) as [E|Hne]; cbn [orb].
  - rewrite (H k0 v0 (or_introl eq_refl) E), <- E, obj_get_set_eq. by case (existsb _ m).
  - rewrite obj_get_set_ne by done. done.
Qed.

(** A key that holds the same value under each of its names *)
Lemma normalize_any (m m' : obj) (k : string) (x : js) :
  (forall e, In e m <-> In e m') -> Forall (fun e => String.eqb (toSnakeCase e.1) k = true -> normalizeConfigKeys e.2 = x) m ->
  existsb (fun e => String.eqb (toSnakeCase e.1) k) m = true ->
  obj_get k (props (normalizeConfigKeys (JObj m'))) = Some x.
Proof.
  intros Hp Hf He. cbn. rewrite normalize_walk with (x := x).
  - replace (existsb _ m') with true; [done|]. symmetry. apply existsb_exists.
    apply existsb_exists in He as (e & Hin & He). exists e. split; [by apply Hp|done].
  - intros k0 v0 Hin E. rewrite List.Forall_forall in Hf. apply (Hf (k0, v0)); [by apply Hp|].
    by apply String.eqb_eq.
Qed.

Lemma normalize_upper (m : obj) (k : string) :
  lower_key k = false -> obj_get k (props (normalizeConfigKeys (JObj m))) = None.
Proof.
  intros Hk. destruct (obj_get k _) as [x|] eqn:E; [|done]. apply obj_get_In in E.
  pose proof (normalize_is_snake (JObj m)) as H. cbn [normalizeConfigKeys props] in *.
  apply snake_obj in H as [_ H]. rewrite List.Forall_forall in H. destruct (H _ E) as [Hl _]. cbn [fst] in Hl. by rewrite Hk in Hl.
Qed.

Definition bool_field (b : option bool) : js := match b with Some b => JBool b | None => JNull end.

Definition provider_fields (pc : ProviderConfig) : obj :=
  [("type", JStr (pc_Type pc)); ("base_url", JStr (pc_BaseURL pc)); ("api_key_env", JStr (pc_APIKeyEnv pc));
   ("enabled", bool_field (pc_Enabled pc)); ("aws_access_key_id", JStr (pc_AwsAccessKeyID pc));
   ("aws_secret_access_key", JStr (pc_AwsSecretAccessKey pc)); ("aws_region", JStr (pc_AwsRegion pc))].

(** What is read of a provider whose fields agree under all their names *)
Lemma flexible_any (m m' : obj) (pc : ProviderConfig) :
  (forall e, In e m <-> In e m') ->
  (forall k v, In (k, v) (provider_fields pc) ->
     Forall (fun e => String.eqb (toSnakeCase e.1) k = true -> normalizeConfigKeys e.2 = v) m /\
     existsb (fun e => String.eqb (toSnakeCase e.1) k) m = true) ->
  providerConfigFromFlexibleMap (props (normalizeConfigKeys (JObj m'))) = pc.
Proof.
  intros Hp H.
  assert (G : forall k v, In (k, v) (provider_fields pc) -> obj_get k (props (normalizeConfigKeys (JObj m'))) = Some v)
    by (intros k v Hk; destruct (H k v Hk); by apply (normalize_any m)).
  unfold providerConfigFromFlexibleMap, stringFieldFromMap, boolPtrFromMap.
  rewrite (normalize_upper m' "Type"), (normalize_upper m' "BaseURL"), (normalize_upper m' "APIKeyEnv"),
    (normalize_upper m' "Enabled"), (normalize_upper m' "AwsAccessKeyID"),
    (normalize_upper m' "AwsSecretAccessKey"), (normalize_upper m' "AwsRegion") by reflexivity.
  rewrite (G "type" (JStr (pc_Type pc))) by (cbn; tauto).
  rewrite (G "base_url" (JStr (pc_BaseURL pc))) by (cbn; tauto).
  rewrite (G "api_key_env" (JStr (pc_APIKeyEnv pc))) by (cbn; tauto).
  rewrite (G "enabled" (bool_field (pc_Enabled pc))) by (cbn; tauto).
  rewrite (G "aws_access_key_id" (JStr (pc_AwsAccessKeyID pc))) by (cbn; tauto).
  rewrite (G "aws_secret_access_key" (JStr (pc_AwsSecretAccessKey pc))) by (cbn; tauto).
  rewrite (G "aws_region" (JStr (pc_AwsRegion pc))) by (cbn; tauto).
  by destruct pc as [? ? ? [[]|] ? ? ?].
Qed.

(** ** Credentials of AWS providers *)

(** The entry of the store after a patch of a provider, with the maps walked in some order *)
Definition patched_entries (stored : obj) (config : obj) : obj :=
  mergeMaps stored (props (normalizeConfigKeys (JObj (canonicalizeProviderPatchForGlobalConfig config)))).

Definition bedrock_entries (pc : ProviderConfig) (t1 t2 t3 : string) : obj :=
  [("Type", JStr (pc_Type pc)); ("BaseURL", JStr (pc_BaseURL pc)); ("APIKeyEnv", JStr (pc_APIKeyEnv pc));
   ("Enabled", bool_field (pc_Enabled pc)); ("type", JStr "aws_bedrock"); ("aws_access_key_id", JStr t1);
   ("aws_secret_access_key", JStr t2); ("aws_region", JStr t3)].

(** The entry then has the type under two names and the rest under one. *)
Lemma bedrock_patched (pc : ProviderConfig) (f : BedrockForm) (e : string * js) :
  In e (bedrock_entries pc (str_trim (bf_access_key f)) (str_trim (bf_secret_key f)) (str_trim (bf_region f)))
  <-> In e (patched_entries (marshal_provider pc) (bedrock_config f)).
Proof.
  destruct pc as [ty bu ak en a1 a2 a3], f as [f1 f2 f3].
  unfold marshal_provider, omit_empty, bedrock_config, patched_entries, bedrock_entries.
  cbn [pc_Type pc_BaseURL pc_APIKeyEnv pc_Enabled pc_AwsAccessKeyID pc_AwsSecretAccessKey pc_AwsRegion
       bf_access_key bf_secret_key bf_region].
  generalize (str_trim f1) (str_trim f2) (str_trim f3). intros t1 t2 t3.
  fold (bool_field en). generalize (bool_field en). intros b.
  destruct (String.eqb a1 ""), (String.eqb a2 ""), (String.eqb a3 ""); vm_compute; tauto.
Qed.



(** ** Fields the store does not keep *)

(** The version, organization, project, timeout and retries of the edit dialog are sent, and none
    of them is in the entry the gateway stores, whatever the entry was. *)
Theorem edit_fields_dropped (stored : obj) (f : ProviderForm) (k : string) :
  In k ["ApiVersion"; "api_version"; "Organization"; "organization"; "Project"; "project";
        "TimeoutMs"; "timeout_ms"; "MaxRetries"; "max_retries"] ->
  obj_get k (canonicalizeProviderConfigMap (props (normalizeConfigKeys (JObj (patched_entries stored (clean_data f)))))) = None.
Proof.
  intros Hk. unfold canonicalizeProviderConfigMap. destruct (props _) as [|e r]; [done|].
  apply marshal_only. intros H. repeat (destruct Hk as [<-|Hk]; [by repeat (destruct H as [?|H])|]). destruct Hk.
Qed.

(** The switch of a provider writes [enabled] beside the stored [Enabled]: which of them is kept
    depends on the order in which the gateway walks the map. *)
Theorem provider_toggle_races (ty bu ak : string) :
  let merged := patched_entries (marshal_provider (mkProviderConfig ty bu ak (Some false) "" "" "")) (toggle_config true) in
  exists merged', Permutation merged merged' /\
    pc_Enabled (providerConfigFromFlexibleMap (props (normalizeConfigKeys (JObj merged)))) = Some true /\
    pc_Enabled (providerConfigFromFlexibleMap (props (normalizeConfigKeys (JObj merged')))) = Some false.
Proof. cbn zeta. eexists (rev _). split; [apply Permutation_rev|]. split; reflexivity. Qed.

(** An emptied field is not sent, so a value once stored cannot be removed in the dialog. *)
Theorem emptied_field_kept (pc : ProviderConfig) (f : ProviderForm) :
  pf_base_url f = "" ->
  obj_get "base_url" (clean_data f) = None /\ obj_get "BaseURL" (patched_entries (marshal_provider pc) (clean_data f))
    = Some (JStr (pc_BaseURL pc)).
Proof.
  intros Hb. assert (Hc : obj_get "base_url" (clean_data f) = None).
  { apply obj_get_not_In. unfold clean_data, given_text. rewrite Hb. cbn [String.eqb app].
    rewrite !map_app, !in_app_iff.
    destruct (String.eqb _ ""), (String.eqb _ ""), (String.eqb _ ""), (pf_timeout_ms f), (pf_max_retries f);
      repeat (case_match; cbn); cbn; intuition discriminate. }
  split; [done|].
  unfold patched_entries. rewrite merge_get.
  - rewrite normalize_upper by done. done.
  - pose proof (normalize_is_snake (JObj (canonicalizeProviderPatchForGlobalConfig (clean_data f)))) as H.
    cbn [normalizeConfigKeys props] in *. apply snake_obj in H as [[H _] _]. exact H.
Qed.
