(* ===== verification/AdminPages.v ===== *)
(** * The tenants, models, benchmarks and configuration history pages

    src/frontend/src/app/(app)/tenants, models, benchmarks and config-history, with the tables and
    panels of src/frontend/src/features they are made of: what is listed and chosen, what is
    fetched and written, and what each page shows of an answer. *)

From Stdlib Require Import SpecFloat.
From S2P Require Import Prelude JsNumber JsText JsValue JsArray NumOrder Json JsonRoundTrip Effects UsageApi Csv ConfigView ConsoleClient ConsoleFacts GlobalStore ProvidersPage.
Local Open Scope string_scope.

(** ** The tenants page *)

Module TenantsPage.

(** Of the characters outside ASCII only two have an upper case inside it, which no name has. *)
Fixpoint str_upper (s : string) : string :=
  match s with EmptyString => "" | String c s' => String (ProviderView.upper_ascii c) (str_upper s') end.

Definition normalizeEnvironment (value : js) : option string :=
  match value with
  | JStr s => let upper := str_upper s in
              if existsb (String.eqb upper) ["DEV"; "STAGING"; "PROD"] then Some upper else None
  | _ => None
  end.

(** The query of the environments: a tenant whose configuration cannot be read has none. *)
Definition tenant_environment (tenantId : string) : M (string * js) :=
  try_catch
    (res ← page_get ("/api/tenants/" ++ encodeURIComponent tenantId);
     if negb (res_ok res) then mret (tenantId, JUndef)
     else data ← res_json res;
          e ← get data "environment";
          mret (tenantId, js_coalesce e (opt_get (opt_get data "config") "environment")))
    (fun _ => mret (tenantId, JUndef)).
Definition fetchEnvironments (tenantIds : list string) : M (list (string * js)) :=
  rows ← promise_all tenant_environment tenantIds; mret (js_map rows).

Definition tenant_id (tenant : js) : string := js_to_string (opt_get tenant "tenant_id").

Definition resolveEnvironment (environments : list (string * js)) (tenant : js) : option string :=
  let configEnv := opt_get (opt_get tenant "config") "environment" in
  let listEnv := js_coalesce (opt_get tenant "environment") (if is_string configEnv then configEnv else JUndef) in
  normalizeEnvironment (js_coalesce listEnv (default JUndef (map_get (tenant_id tenant) environments))).

Definition matches_filter (environments : list (string * js)) (environmentFilter : string) (tenant : js) : bool :=
  if String.eqb environmentFilter "All" then true
  else match resolveEnvironment environments tenant with
       | Some env => String.eqb env environmentFilter
       | None => false
       end.

Definition filteredTenants (environments : list (string * js)) (environmentFilter searchQuery : string) (tenants : list js)
  : list js :=
  List.filter (fun t => str_includes (str_lower searchQuery) (str_lower (tenant_id t)))
    (List.filter (matches_filter environments environmentFilter) tenants).

Inductive TenantList := TlLoading | TlEmpty (title : string) (create : bool) | TlRows (tenants : list js).
Definition tenant_list (loading : bool) (environments : list (string * js)) (environmentFilter searchQuery : string)
    (tenants : option (list js)) : TenantList :=
  if loading then TlLoading
  else match filteredTenants environments environmentFilter searchQuery <$> tenants with
       | Some (t :: l) => TlRows (t :: l)
       | _ => if String.eqb searchQuery "" then TlEmpty "No tenants configured" true else TlEmpty "No tenants found" false
       end.

Inductive tenant_event := Select (id : string) | CreateSuccess (id : string) | DeleteSuccess.
Definition tenant_select (st : option string) (e : tenant_event) : option string :=
  match e with Select i | CreateSuccess i => Some i | DeleteSuccess => None end.

Lemma environment_settles (tenantId : string) (w : World) (s : State) :
  exists e s', tenant_environment tenantId w s = (Ok (tenantId, e), s').
Proof.
  unfold tenant_environment, try_catch. set (body := mbind _ _).
  assert (H : forall v s', body w s = (Ok v, s') -> v.1 = tenantId).
  { intros v s'. subst body. unfold mbind, M_bind at 1. destruct (page_get _ w s) as [[res|e] s1]; [|done].
    destruct (negb _); [by intros [= <- <-]|]. unfold M_bind at 1. destruct (res_json res w s1) as [[d|e] s2]; [|done].
    unfold M_bind. destruct (get d "environment" w s2) as [[x|e] s3]; [|done]. by intros [= <- <-]. }
  destruct (body w s) as [[[i e]|x] s1] eqn:E; [|by do 2 eexists].
  specialize (H _ _ eq_refl). cbn in H. subst i. by do 2 eexists.
Qed.

Lemma settle_environments (ids : list string) (w : World) (s : State) :
  exists rows s', settle_all tenant_environment ids w s = (Ok (map Ok rows), s') /\ map fst rows = ids.
Proof.
  revert s. induction ids as [|i ids IH]; intros s; [by exists [], s|].
  destruct (environment_settles i w s) as (e & s1 & E). destruct (IH s1) as (rows & s2 & Er & Hr).
  exists ((i, e) :: rows), s2. cbn [map fst]. rewrite Hr. split; [|done].
  cbn [settle_all]. unfold mbind, M_bind, settle. rewrite E, Er. done.
Qed.

Lemma collect_all_ok {A} (l : list A) : collect (map Ok l) = Ok l.
Proof. induction l as [|a l IH]; [done|]. cbn. by rewrite IH. Qed.

Lemma js_map_keys {A} (l : list (string * A)) : map_keys (js_map l) = js_set (map fst l).
Proof.
  unfold js_map, js_set. change (@nil string) with (map_keys (@nil (string * A))). generalize (@nil (string * A)).
  induction l as [|[k v] l IH]; intros acc; [done|]. cbn [fold_left map fst snd].
  rewrite IH. by rewrite map_set_keys.
Qed.

Lemma filter_both {A} (p q : A -> bool) (l : list A) :
  List.filter p (List.filter q l) = List.filter (fun x => q x && p x)%bool l.
Proof. induction l as [|x l IH]; [done|]. cbn. destruct (q x); cbn; [destruct (p x)|]; by rewrite ?IH. Qed.

(** the list of tenants.  Reading the environments never fails: whatever the gateway answers
    for each of them, every tenant is in the result; and the list shows exactly the tenants whose
    environment and name fit the filters, in their order, where the environment of the list's row
    comes before the one of the tenant's own configuration. *)
Theorem tenants_listed (tenants : list js) (environmentFilter searchQuery : string) (w : World) (s : State) :
  exists environments s', fetchEnvironments (map tenant_id tenants) w s = (Ok environments, s') /\
    (forall t, In t tenants -> In (tenant_id t) (map_keys environments)) /\
    (forall t, In t (filteredTenants environments environmentFilter searchQuery tenants) <->
       In t tenants /\ str_includes (str_lower searchQuery) (str_lower (tenant_id t)) = true /\
       (environmentFilter = "All" \/ resolveEnvironment environments t = Some environmentFilter)) /\
    (exists keep, filteredTenants environments environmentFilter searchQuery tenants = List.filter keep tenants) /\
    (forall t e, In t tenants -> opt_get t "environment" = JStr e ->
       resolveEnvironment environments t = normalizeEnvironment (JStr e)).
Proof.
  destruct (settle_environments (map tenant_id tenants) w s) as (rows & s' & E & Hr).
  exists (js_map rows), s'. split.
  { unfold fetchEnvironments, promise_all, mbind, M_bind. rewrite E, collect_all_ok. done. }
  split; [|split; [|split]].
  - intros t Ht. rewrite js_map_keys, Hr. by apply js_set_In, in_map.
  - intros t. unfold filteredTenants. rewrite !filter_In. unfold matches_filter.
    destruct (String.eqb_spec environmentFilter "All") as [->|Hne]; [tauto|].
    destruct (resolveEnvironment _ t) as [env|]; [|intuition congruence].
    destruct (String.eqb_spec env environmentFilter); intuition congruence.
  - eexists. apply filter_both.
  - intros t e _ He. unfold resolveEnvironment. by rewrite He.
Qed.

(** With nothing typed, a filter that no tenant fits is reported as if there were no tenants. *)
Theorem filtered_out_reads_unconfigured :
  tenant_list false [] "PROD" "" (Some [JObj [("tenant_id", JStr "acme"); ("environment", JStr "dev")]])
  = TlEmpty "No tenants configured" true.
Proof. reflexivity. Qed.

End TenantsPage.

(** ** The configuration history page *)

Module ConfigHistory.

(** [new Error(errorBody?.error?.message || fallback)] with the status *)
Definition history_failed {A} (what : string) (resp : HttpResponse) : M A :=
  errorBody ← res_json_or_empty resp;
  let message := js_or (opt_get (opt_get errorBody "error") "message")
                   (JStr ("Failed to fetch config " ++ what ++ ": " ++ Z_to_string (res_status resp))) in
  throw (error_with_status (js_to_string message) (res_status resp)).

Definition given_param (k : string) (v : option string) : list (string * string) :=
  match truthy_env v with Some x => [(k, x)] | None => [] end.

Definition fetchConfigHistory (scope tenantId : option string) : M js :=
  let params := (given_param "scope" scope ++ given_param "tenant_id" tenantId ++ [("limit", "50")])%list in
  resp ← page_get ("/api/admin/config/history?" ++ params_to_string params);
  if negb (res_ok resp) then history_failed "history" resp else res_json resp.

Definition fetchConfigVersions (scope : string) (tenantId : option string) : M js :=
  let params := (("scope", scope) :: given_param "tenant_id" tenantId ++ [("limit", "50")])%list in
  resp ← page_get ("/api/admin/config/versions?" ++ params_to_string params);
  if negb (res_ok resp) then history_failed "versions" resp else res_json resp.

Inductive Scope := ScopeGlobal | ScopeTenant.
Definition scope_text (s : Scope) : string := match s with ScopeGlobal => "global" | ScopeTenant => "tenant" end.

Record HistoryState := mkHistory {
  hs_diff : bool;
  hs_scope : Scope;
  hs_tenantId : string;
  hs_dialogOpen : bool;
  hs_selectedVersion : option num;
}.

(** The queries of the page: the tenant is given for its scope only, and without one nothing is
    asked. *)
Definition canShowData (st : HistoryState) : bool :=
  match hs_scope st with ScopeGlobal => true | ScopeTenant => negb (String.eqb (hs_tenantId st) "") end.
Definition scoped_tenant (st : HistoryState) : option string :=
  match hs_scope st with ScopeTenant => Some (hs_tenantId st) | ScopeGlobal => None end.
Definition queries_enabled (st : HistoryState) : bool := negb (hs_diff st) && canShowData st.
Definition page_queries (st : HistoryState) : list (M js) :=
  if queries_enabled st
  then [fetchConfigHistory (Some (scope_text (hs_scope st))) (scoped_tenant st);
        fetchConfigVersions (scope_text (hs_scope st)) (scoped_tenant st)]
  else [].

Definition applyMutation (version : num) : M js :=
  res ← page_send "POST" "/api/admin/config/global/apply" (JObj [("version", JNum version)]);
  if negb (res_ok res) then
    err ← res_json_or_empty res;
    throw (error_of (js_or (opt_get err "error")
      (JStr ("Failed to apply version (HTTP " ++ Z_to_string (res_status res) ++ ")"))))
  else res_json res.

Definition apply_done (st : HistoryState) : HistoryState * list Effect :=
  (mkHistory (hs_diff st) (hs_scope st) (hs_tenantId st) false None,
   [ShowToast [("title", JStr "Configuration version applied successfully.")];
    Invalidate (key "config-versions"); Invalidate (key "config-history")]).
Definition apply_failed (error : exn) : list Effect :=
  [ShowToast [("title", JStr "Failed to apply configuration version."); ("description", JStr (exn_message error));
              ("variant", JStr "destructive")]].

Inductive history_event :=
| SetScope (s : Scope) | SetTenant (id : string) | OpenDiff | CloseDiff
| ChooseVersion (v : num) | DialogChange (open : bool).
Definition history_step (st : HistoryState) (e : history_event) : HistoryState :=
  match e with
  | SetScope s => mkHistory (hs_diff st) s (hs_tenantId st) (hs_dialogOpen st) (hs_selectedVersion st)
  | SetTenant i => mkHistory (hs_diff st) (hs_scope st) i (hs_dialogOpen st) (hs_selectedVersion st)
  | OpenDiff => mkHistory true (hs_scope st) (hs_tenantId st) (hs_dialogOpen st) (hs_selectedVersion st)
  | CloseDiff => mkHistory false (hs_scope st) (hs_tenantId st) (hs_dialogOpen st) (hs_selectedVersion st)
  | ChooseVersion v => mkHistory (hs_diff st) (hs_scope st) (hs_tenantId st) true (Some v)
  | DialogChange b => mkHistory (hs_diff st) (hs_scope st) (hs_tenantId st) b (hs_selectedVersion st)
  end.

(** The statuses of the errors of the two queries *)
Definition one_of (l : list Z) (e : option exn) : bool :=
  match e with
  | Some x => match exn_status x with Some s => existsb (Z.eqb s) l | None => false end
  | None => false
  end.
Definition isGlobalDenied (st : HistoryState) (historyError versionsError : option exn) : bool :=
  match hs_scope st with
  | ScopeGlobal => one_of [400; 403]%Z historyError || one_of [400; 403]%Z versionsError
  | ScopeTenant => false
  end.
Definition isTenantVersionsUnavailable (st : HistoryState) (versionsError : option exn) : bool :=
  match hs_scope st with ScopeTenant => one_of [403]%Z versionsError | ScopeGlobal => false end.

Inductive Panel := PnLoading | PnHidden | PnError | PnEmpty | PnRows (rows : list js).
Inductive HistoryView := HvTenantRequired | HvDenied | HvPanels (versions history : Panel).

Definition rows_of (data : js) : list js := js_array (opt_get data "data").
Definition panel (loading : bool) (error : option exn) (data : js) : Panel :=
  if loading then PnLoading
  else match error with
       | Some _ => PnError
       | None => match rows_of data with [] => PnEmpty | r :: l => PnRows (r :: l) end
       end.

Definition ConfigHistoryContent (st : HistoryState) (vLoading hLoading : bool) (vError hError : option exn) (vData hData : js)
  : HistoryView :=
  if negb (canShowData st) then HvTenantRequired
  else if isGlobalDenied st hError vError then HvDenied
  else HvPanels (if isTenantVersionsUnavailable st vError then PnHidden else panel vLoading vError vData)
         (panel hLoading hError hData).

(** The label of a version in the log *)
Definition version_label (v : num) : string := if num_eqb v num_zero then "initial" else "v" ++ num_to_string v.
(** The button to apply a version is there for the global scope and a version that is not current. *)
Definition apply_offered (st : HistoryState) (row : js) : bool :=
  match hs_scope st with ScopeGlobal => negb (truthy (opt_get row "is_current")) | ScopeTenant => false end.

(** *** The diff viewer *)

Definition fetchConfigDiff (scope tenantId fromVersion toVersion : string) : M js :=
  let params := params_set "to_version" toVersion (params_set "from_version" fromVersion
                  (("scope", scope) :: given_param "tenant_id" (Some tenantId))) in
  resp ← page_get ("/api/admin/config/diff?" ++ params_to_string params);
  if negb (res_ok resp) then throw (JsError ("Failed to fetch config diff: " ++ Z_to_string (res_status resp)))
  else
    data ← res_json resp;
    _ ← get data "object";
    let f k d := (k, js_or (opt_get data k) d) in
    mret (JObj [f "object" (JStr "config_diff"); f "scope" (JStr "global"); f "tenant_id" (JStr "");
                f "from_version" (js_of_Z 0); f "to_version" (js_of_Z 0); f "before" (JObj []); f "after" (JObj []);
                f "changed_fields" (JArr [])]).

Record DiffState := mkDiff {
  df_scope : string;
  df_tenantId : string;
  df_from : string;
  df_to : string;
  df_shouldFetch : bool;
}.
Definition diff_open (params : list (string * string)) : DiffState :=
  let p k := default "" (params_get k params) in
  mkDiff (if String.eqb (p "scope") "" then "global" else p "scope") (p "tenant_id") (p "from_version") (p "to_version")
    (negb (String.eqb (p "from_version") "") && negb (String.eqb (p "to_version") "")).
Definition both_versions (st : DiffState) : bool := negb (String.eqb (df_from st) "") && negb (String.eqb (df_to st) "").
Definition handleCompare (st : DiffState) : DiffState :=
  if both_versions st then mkDiff (df_scope st) (df_tenantId st) (df_from st) (df_to st) true else st.
Definition diff_query (st : DiffState) : option (M js) :=
  if (df_shouldFetch st && both_versions st)%bool
  then Some (fetchConfigDiff (df_scope st) (df_tenantId st) (df_from st) (df_to st)) else None.

(** *** Applying a version *)

(** applying a version of the global configuration.  The page sends one request with the
    chosen version; when the gateway has the version, the configuration that is read afterwards
    is exactly its document, and the versions are as they were; when it has not, nothing changes.
    A refusal is shown and an answer closes the dialog and has both lists read again. *)
Theorem applied_version_active (db : GlobalDb) (v : Z) (n : num) (st : HistoryState) (w : World) (s : State) :
  active_exists db ->
  sent (applyMutation n w s).2 =
    (sent s ++ [mkHttpRequest "POST" "/api/admin/config/global/apply" json_headers
                  (json_stringify (JObj [("version", JNum n)]))])%list /\
  (forall d, version_doc v (db_versions db) = Some d ->
     exists db', ApplyGlobalConfigVersion v db = inr db' /\ GetGlobalConfig db' = Some (d, v) /\
                 db_versions db' = db_versions db) /\
  (version_doc v (db_versions db) = None -> run_op db (OpApply v) = db) /\
  (hs_dialogOpen (apply_done st).1 = false /\ hs_selectedVersion (apply_done st).1 = None /\
   In (Invalidate (key "config-versions")) (apply_done st).2 /\ In (Invalidate (key "config-history")) (apply_done st).2).
Proof.
  intros (cur & d0 & Ha & Hd0). split; [|split; [|split]].
  - unfold applyMutation, page_send, page_fetch, mbind, M_bind. destruct (net w (sent s) _) as [res|e]; [|done].
    rewrite (quiet_sent w (if negb (res_ok res) then _ else _)); [done|]. unfold quiet. solve_sends.
  - intros d Hd. unfold ApplyGlobalConfigVersion. rewrite Hd, Ha. eexists. split; [done|]. split; [|done].
    unfold GetGlobalConfig, joined_row, row_of. cbn. by rewrite Hd.
  - intros Hn. cbn. unfold ApplyGlobalConfigVersion. by rewrite Hn.
  - cbn. tauto.
Qed.

Lemma applied_version_active_witness :
  exists db', ApplyGlobalConfigVersion 1 (mkDb [(1%Z, [("auth", JObj [])]); (2%Z, [])] (Some 2%Z) []) = inr db' /\
    GetGlobalConfig db' = Some ([("auth", JObj [])], 1%Z) /\
    db_versions db' = [(1%Z, [("auth", JObj [])]); (2%Z, [])].
Proof.
  apply (applied_version_active (mkDb [(1%Z, [("auth", JObj [])]); (2%Z, [])] (Some 2%Z) []) 1 (num_of_Z 1)
           (mkHistory false ScopeGlobal "" true (Some (num_of_Z 1))) (demo_world [] (fun _ => reply 200 "{}")) start);
    [by exists 2%Z, []|reflexivity].
Defined.

End ConfigHistory.

(** ** The benchmarks page *)

Module BenchmarksPage.

Definition WINDOW_OPTIONS : list string := ["1"; "6"; "24"; "72"; "168"].

Definition formatSuccessRate (value : num) : string := to_fixed 1 (num_mul value (num_of_Z 100)) ++ "%".
Definition formatCost (value : num) : string := "$" ++ to_fixed 6 value.

Definition getWeightedAverage (values : list (num * num)) : num :=
  match values with
  | [] => num_zero
  | _ => let totalWeight := sum_by snd values in
         if num_eqb totalWeight num_zero then num_zero
         else num_div (sum_by (fun v => num_mul v.1 v.2) values) totalWeight
  end.

Definition is_failing (row : BenchmarkModelAggregate) : bool := String.eqb (getHealthStatus (bm_success_rate row)) "failing".
Definition nonFailingRows (rows : list BenchmarkModelAggregate) : list BenchmarkModelAggregate :=
  List.filter (fun row => negb (is_failing row)) rows.
Definition bestOfRows (rows : list BenchmarkModelAggregate) : list BenchmarkModelAggregate :=
  match nonFailingRows rows with [] => rows | l => l end.
Definition bestOfFallback (rows : list BenchmarkModelAggregate) : bool :=
  Nat.eqb (List.length (nonFailingRows rows)) 0 && Nat.ltb 0 (List.length rows).

Definition avgLatency (rows : list BenchmarkModelAggregate) : num :=
  getWeightedAverage (map (fun r => (bm_avg_latency_ms r, bm_samples r)) rows).
Definition avgSuccessRate (rows : list BenchmarkModelAggregate) : num :=
  getWeightedAverage (map (fun r => (bm_success_rate r, bm_samples r)) rows).

Definition cheapestModel (rows : list BenchmarkModelAggregate) : option BenchmarkModelAggregate :=
  best_by (fun row best => num_ltb (bm_avg_cost_usd row) (bm_avg_cost_usd best)) (bestOfRows rows).
Definition fastestModel (rows : list BenchmarkModelAggregate) : option BenchmarkModelAggregate :=
  best_by (fun row best => num_ltb (bm_avg_latency_ms row) (bm_avg_latency_ms best)) (bestOfRows rows).
Definition mostReliableModel (rows : list BenchmarkModelAggregate) : option BenchmarkModelAggregate :=
  best_by (fun row best => num_gtb (bm_success_rate row) (bm_success_rate best)) (bestOfRows rows).

(** The table of the page *)
Definition table_compare (a b : BenchmarkModelAggregate) : Z :=
  if negb (num_eqb (bm_success_rate b) (bm_success_rate a)) then cmp_down bm_success_rate a b
  else cmp_num bm_avg_latency_ms a b.
Definition sortedRows (rows : list BenchmarkModelAggregate) : list BenchmarkModelAggregate := sort_with table_compare rows.

Inductive BenchmarksView := BvDenied | BvError (message : string) | BvShown (rows : list BenchmarkModelAggregate) (loading : bool).
Definition BenchmarksContent (user : bool) (error : option exn) (isLoading : bool) (data : option (list BenchmarkModelAggregate))
  : BenchmarksView :=
  match error with
  | Some e => match exn_status e with
              | Some s => if existsb (Z.eqb s) [403; 401]%Z then BvDenied else BvError (exn_message e)
              | None => BvError (exn_message e)
              end
  | None => BvShown (default [] data) (user && isLoading)
  end.

(** Clearing the history: the answer to the request is not looked at; [refetch] is the query's. *)
Definition handleClearHistory (confirmed : bool) (refetch : M unit) : M unit :=
  if negb confirmed then mret tt
  else _ ← page_call "DELETE" "/api/benchmarks/models"; refetch.

(** *** The best models *)

Definition row_ok (row : BenchmarkModelAggregate) : Prop :=
  num_ok (bm_avg_cost_usd row) = true /\ num_ok (bm_avg_latency_ms row) = true /\ num_ok (bm_success_rate row) = true.

Lemma best_rows_ok (rows : list BenchmarkModelAggregate) :
  Forall row_ok rows -> Forall row_ok (bestOfRows rows) /\ incl (bestOfRows rows) rows.
Proof.
  intros H. assert (Hi : incl (bestOfRows rows) rows).
  { unfold bestOfRows. destruct (nonFailingRows rows) eqn:E; [apply incl_refl|].
    rewrite <- E. intros x [Hx _]%filter_In. done. }
  split; [|done]. rewrite List.Forall_forall in *. auto.
Qed.

(** the best models of the benchmarks page.  With rows of finite numbers, each of the three is
    one of the rows and no candidate has a lower cost, a lower latency or a higher success rate;
    the candidates are the rows that do not fail, and all rows only when every one fails; and
    there is a best model whenever there is a row. *)
Theorem benchmark_best_of (rows : list BenchmarkModelAggregate) :
  Forall row_ok rows -> rows <> [] ->
  exists cheap fast reliable,
    cheapestModel rows = Some cheap /\ fastestModel rows = Some fast /\ mostReliableModel rows = Some reliable /\
    Forall (fun b => In b rows /\ (is_failing b = true -> Forall (fun r => is_failing r = true) rows)) [cheap; fast; reliable] /\
    Forall (fun r => num_ltb (bm_avg_cost_usd r) (bm_avg_cost_usd cheap) = false /\
                     num_ltb (bm_avg_latency_ms r) (bm_avg_latency_ms fast) = false /\
                     num_gtb (bm_success_rate r) (bm_success_rate reliable) = false) (bestOfRows rows).
Proof.
  intros Hok Hne. destruct (best_rows_ok rows Hok) as [Hb Hi].
  assert (Hbne : bestOfRows rows <> []) by (unfold bestOfRows; by destruct (nonFailingRows rows)).
  assert (Hf : forall b, In b (bestOfRows rows) -> In b rows /\ (is_failing b = true -> Forall (fun r => is_failing r = true) rows)).
  { intros b Hin. split; [by apply Hi|]. intros Hfail. unfold bestOfRows in Hin.
    destruct (nonFailingRows rows) as [|x l] eqn:E.
    - apply List.Forall_forall. intros r Hr. destruct (is_failing r) eqn:F; [done|].
      assert (Hr' : In r (nonFailingRows rows)) by (apply filter_In; by rewrite F). by rewrite E in Hr'.
    - rewrite <- E in Hin. apply filter_In in Hin as [_ Hin]. by rewrite Hfail in Hin. }
  pose proof (best_least_by bm_avg_cost_usd _ (List.Forall_impl _ (fun r H => proj1 H) Hb)) as H1.
  pose proof (best_least_by bm_avg_latency_ms _ (List.Forall_impl _ (fun r H => proj1 (proj2 H)) Hb)) as H2.
  pose proof (best_most_by bm_success_rate _ (List.Forall_impl _ (fun r H => proj2 (proj2 H)) Hb)) as H3.
  unfold cheapestModel, fastestModel, mostReliableModel.
  destruct (best_by _ (bestOfRows rows)) as [c|]; [|done]. destruct (best_by _ (bestOfRows rows)) as [f|]; [|done].
  destruct (best_by _ (bestOfRows rows)) as [r|]; [|done].
  destruct H1 as [I1 H1], H2 as [I2 H2], H3 as [I3 H3].
  exists c, f, r. do 3 (split; [done|]). split; [by repeat (apply List.Forall_cons; [by apply Hf|])|].
  rewrite List.Forall_forall in *. auto.
Qed.

Definition demo_row (model : string) (latency cost : Z) (rate : string) : BenchmarkModelAggregate :=
  mkBenchmark model "openai" (num_of_Z latency) (num_of_Z latency) (number_of_string rate) (num_of_Z cost) (num_of_Z 3).

Lemma benchmark_best_of_witness :
  exists cheap fast reliable,
    cheapestModel [demo_row "a" 300 2 "0.995"; demo_row "b" 100 1 "0.5"] = Some cheap /\
    fastestModel [demo_row "a" 300 2 "0.995"; demo_row "b" 100 1 "0.5"] = Some fast /\
    mostReliableModel [demo_row "a" 300 2 "0.995"; demo_row "b" 100 1 "0.5"] = Some reliable.
Proof.
  destruct (benchmark_best_of [demo_row "a" 300 2 "0.995"; demo_row "b" 100 1 "0.5"]) as (c & f & r & H1 & H2 & H3 & _);
    [repeat constructor|done|]. by exists c, f, r.
Defined.

(** A refused request to clear the history looks like one that was carried out. *)
Theorem refused_clear_unreported (refetch : M unit) (w : World) (s : State) (res : HttpResponse) :
  net w (sent s) (mkHttpRequest "DELETE" "/api/benchmarks/models" [] None) = Ok res ->
  handleClearHistory true refetch w s
  = refetch w (page_call "DELETE" "/api/benchmarks/models" w s).2.
Proof.
  intros H. unfold handleClearHistory, page_call, page_fetch, mbind, M_bind. cbn [negb]. by rewrite H.
Qed.

End BenchmarksPage.

(** ** The models page *)

Module ModelsPage.

Definition CODING_FAMILIES : list string := ["haiku"; "sonnet"; "opus"].

Record Selection := mkSelection {
  ms_model : option string;
  ms_family : option string;
}.

Inductive select_event := SelectModel (id : string) | SelectFamily (family : string) | ModelDeleted.
Definition select_step (st : Selection) (e : select_event) : Selection :=
  match e with
  | SelectModel i => mkSelection (Some i) None
  | SelectFamily f => mkSelection None (Some f)
  | ModelDeleted => mkSelection None (ms_family st)
  end.

Definition selectedCodingModel (st : Selection) (state : LicenseState js) : option js :=
  match ms_family st, state with
  | Some f, Licensed (JArr data) => List.find (fun m => is_str (opt_get m "family") f) data
  | _, _ => None
  end.

Definition selectedBenchmark (st : Selection) (benchmarks : list js) : option js :=
  List.find (fun b => match ms_model st with Some i => is_str (opt_get b "model") i | None => false end) benchmarks.

(** The rows of the table *)
Definition normalizeType (type : js) : string :=
  if is_str type "embedding" then "Embedding" else if is_str type "ml" then "ML" else "LLM".

Definition formatInfraCost (value : js) : string :=
  let amount := js_to_number (js_coalesce value (js_of_Z 0)) in
  if negb (num_is_finite amount) then "$0"
  else if num_eqb (num_floor amount) amount then "$" ++ num_to_string amount else "$" ++ to_fixed 2 amount.

Definition model_matches (searchQuery : string) (model : js) : bool :=
  let has k := str_includes (str_lower searchQuery) (str_lower (js_to_string (opt_get model k))) in
  has "id" || has "provider".
Definition filteredModels (searchQuery : string) (models : list js) : list js := List.filter (model_matches searchQuery) models.

Definition isEnabled (model : js) : bool :=
  let raw := js_coalesce (opt_get model "Enabled") (opt_get model "enabled") in
  if nullish raw then true else truthy raw.

(** The first two route groups, and how many more there are *)
Definition group_badges (model : js) : list js * nat :=
  let groups := js_array (opt_get model "route_groups") in (firstn 2 groups, (List.length groups - 2)%nat).

(** *** The prices of a coding model *)

Record PriceState := mkPrice {
  pr_input : string;
  pr_output : string;
  pr_saving : bool;
  pr_error : option string;
  pr_success : bool;
}.

Definition price_load (model : js) : PriceState :=
  mkPrice (js_to_string (opt_get model "input_price")) (js_to_string (opt_get model "output_price")) false None false.

Definition price_ok (text : string) : bool :=
  let v := parse_float text in negb (num_is_nan v) && negb (num_ltb v num_zero).

Definition isDirty (model : js) (st : PriceState) : bool :=
  negb (String.eqb (js_to_string (opt_get model "input_price")) (pr_input st))
  || negb (String.eqb (js_to_string (opt_get model "output_price")) (pr_output st)).

(** The state after the save, and whether the list of coding models is read again *)
Definition price_save (model : js) (st : PriceState) : M (PriceState * bool) :=
  let settled e ok := mkPrice (pr_input st) (pr_output st) false e ok in
  if negb (price_ok (pr_input st) && price_ok (pr_output st))
  then mret (mkPrice (pr_input st) (pr_output st) (pr_saving st) (Some "Prices must be valid numbers >= 0") (pr_success st), false)
  else
    try_catch
      (res ← page_send "PUT" "/api/providers/claude-code/coding_models"
               (JArr [JObj [("family", opt_get model "family"); ("input_price", JNum (parse_float (pr_input st)));
                            ("output_price", JNum (parse_float (pr_output st)))]]);
       if negb (res_ok res) then
         data ← res_json_or_empty res;
         let msg := js_coalesce (js_coalesce (opt_get (opt_get data "error") "message") (opt_get data "error"))
                      (JStr ("Error " ++ Z_to_string (res_status res))) in
         mret (settled (Some (js_to_string msg)) false, false)
       else mret (settled None true, true))
      (fun _ => mret (settled (Some "Failed to save pricing") false, false)).

(** Never are a model and a coding family chosen at once. *)
Definition one_selected (st : Selection) : Prop := ms_model st = None \/ ms_family st = None.

Lemma selection_exclusive (events : list select_event) :
  one_selected (fold_left select_step events (mkSelection None None)).
Proof.
  assert (H : forall st, one_selected st -> one_selected (fold_left select_step events st)).
  { induction events as [|e events IH]; intros st Hs; [done|]. apply IH. destruct e; cbn; unfold one_selected; cbn; auto. }
  apply H. by left.
Qed.

Lemma json_or_empty_ok (res : HttpResponse) (w : World) (s : State) : exists d, res_json_or_empty res w s = (Ok d, s).
Proof.
  unfold res_json_or_empty, try_catch, res_json, res_text, parse_text, mbind, M_bind.
  destruct (res_body res) as [t|]; [|by eexists]. cbn. destruct (json_parse t); by eexists.
Qed.

(** saving the prices of a coding model.  A save always ends, with the button released and
    either an error or a success and never both; a price that is no number or is negative sends
    nothing; and a save that sends a request reports success exactly when the gateway accepted it,
    and only then has the list read again. *)
Theorem price_save_settles (model : js) (st : PriceState) (w : World) (s : State) :
  pr_saving st = false ->
  exists st' again s', price_save model st w s = (Ok (st', again), s') /\ pr_saving st' = false /\
    (price_ok (pr_input st) && price_ok (pr_output st) = false -> s' = s /\ pr_error st' <> None)%bool /\
    (price_ok (pr_input st) && price_ok (pr_output st) = true ->
       exists r, sent s' = (sent s ++ [r])%list /\ http_method r = "PUT" /\
         (again = true <-> pr_error st' = None) /\ pr_success st' = again /\
         (again = true <-> exists res, net w (sent s) r = Ok res /\ res_ok res = true))%bool.
Proof.
  intros Hs. unfold price_save. destruct (_ && _)%bool eqn:Ep; cbn [negb].
  2:{ do 3 eexists. split; [reflexivity|]. split; [done|]. split; [|done]. by intros _. }
  set (r := mkHttpRequest "PUT" "/api/providers/claude-code/coding_models" json_headers
    (json_stringify (JArr [JObj [("family", opt_get model "family"); ("input_price", JNum (parse_float (pr_input st)));
                                 ("output_price", JNum (parse_float (pr_output st)))]]))).
  unfold try_catch, page_send, page_fetch, mbind, M_bind. fold r.
  destruct (net w (sent s) r) as [res|e] eqn:En.
  - destruct (res_ok res) eqn:Eo; cbn [negb].
    + do 3 eexists. split; [reflexivity|]. do 2 (split; [done|]). intros _. exists r. cbn. repeat split; try done. by exists res.
    + destruct (json_or_empty_ok res w (mkState (sent s ++ [r])%list (ticks s))) as [d ->].
      do 3 eexists. split; [reflexivity|]. do 2 (split; [done|]). intros _. exists r. cbn. repeat split; try done.
      intros (res' & H & Ho). rewrite En in H. injection H as <-. by rewrite Eo in Ho.
  - do 3 eexists. split; [reflexivity|]. do 2 (split; [done|]). intros _. exists r. cbn. repeat split; try done.
    intros (res' & H & _). by rewrite En in H.
Qed.

Lemma price_save_settles_witness :
  exists st' again s',
    price_save (JObj [("family", JStr "opus")]) (mkPrice "1.5" "7" false None false)
      (demo_world [] (fun _ => reply 200 "{}")) start = (Ok (st', again), s') /\ pr_saving st' = false.
Proof.
  destruct (price_save_settles (JObj [("family", JStr "opus")]) (mkPrice "1.5" "7" false None false)
    (demo_world [] (fun _ => reply 200 "{}")) start eq_refl) as (st' & a & s' & H & Hs & _). by exists st', a, s'.
Defined.

End ModelsPage.
