(* ===== verification/TenantDialogs.v ===== *)
(** * The dialogs of a tenant

    src/frontend/src/features/tenants/components: the dialogs that edit the features, the rate
    limit, the traffic split, the routing, the PII hook and the budget of a tenant, and the one
    that creates a tenant.  Each fills a form from the configuration and submits a patch of it;
    the theorems follow a patch through the gateway's store and back into the form.

    The properties read into a form have the types of the interface TenantConfig.  A schema of
    zod is the boolean that its documentation gives it; [z.coerce.number()] is [Number]. *)

From S2P Require Import Prelude JsNumber JsText JsValue JsArray Json JsonRoundTrip Effects AuthRoutes GatewayFacts UsageApi ConsoleClient ConsoleFacts RoutingPage TenantStore.
Local Open Scope string_scope.

(** Every dialog submits the patch of a configuration with its version. *)
Definition submit_patch (tc : TenantConfig) (patch : obj) : M js :=
  mutationFn useUpdateTenantConfig (mkConfigVars (tc_tenant_id tc) (tc_version tc) patch).

(** ** edit-features-dialog.tsx *)

Definition default_rules : js :=
  JArr [JObj [("action", JObj [("use_anchor", JBool true)]); ("when", JObj [("semantic_similarity", JObj [])])]].
Definition defaultSemanticStage : js := JObj [("name", JStr "semantic_intent"); ("rules", default_rules)].

Definition smart_stages (config : js) : js := opt_get (opt_get (opt_get config "routing") "smart") "stages".
Definition is_semantic (stage : js) : bool := is_str (opt_get stage "name") "semantic_intent".
(** [Array.isArray(rules) && rules.length > 0] *)
Definition has_rules (rules : js) : bool := match rules with JArr (_ :: _) => true | _ => false end.

Definition getSemanticRoutingEnabled (config : js) : bool :=
  match smart_stages config with
  | JArr stages => match List.find is_semantic stages with
                   | None => false
                   | Some semanticStage => has_rules (opt_get semanticStage "rules")
                   end
  | _ => false
  end.

Definition getToolRoutingEnabled (config : js) : bool :=
  match opt_get config "tool_routing_enabled" with JBool false => false | _ => true end.

(** A semantic stage is given rules when it has none. *)
Definition fill_rules (stage : js) : js :=
  if negb (is_semantic stage) then stage
  else if has_rules (opt_get stage "rules") then stage
  else JObj (obj_set "rules" default_rules (obj_spread [] (GatewayClient.entries stage))).

Definition buildSemanticRoutingStages (config : js) (enabled : bool) : option (list js) :=
  match smart_stages config with
  | JArr stages =>
      let hasSemanticStage := existsb is_semantic stages in
      if negb enabled then
        if negb hasSemanticStage then None
        else Some (List.filter (fun stage => negb (is_semantic stage)) stages)
      else if negb hasSemanticStage then Some (stages ++ [defaultSemanticStage])%list
      else Some (map fill_rules stages)
  | _ => if enabled then Some [defaultSemanticStage] else None
  end.

Record Features := mkFeatures {
  ft_semantic_routing : bool;
  ft_semantic_cache : bool;
  ft_tool_routing : bool;
  ft_budget_enforcement : bool;
  ft_embeddingModel : string;
  ft_cacheTTL : num;
}.

Definition is_true (v : js) : bool := match v with JBool true => true | _ => false end.

Definition load_features (config : js) : Features :=
  let scCache := opt_get config "semantic_cache" in
  mkFeatures (getSemanticRoutingEnabled config) (is_true (opt_get scCache "enabled"))
    (getToolRoutingEnabled config) (is_true (opt_get (opt_get config "budget_enforcement") "enabled"))
    (match opt_get (opt_get (opt_get config "routing") "semantic") "embedding_model" with
     | JStr s => s | _ => "" end)
    (match opt_get scCache "ttl_seconds" with
     | JNum n => if num_ltb num_zero n then n else num_of_Z 86400
     | _ => num_of_Z 86400 end).

(** The input of the time to live *)
Definition ttl_input (text : string) : num :=
  let v := parse_int text in
  if (num_is_nan v || num_ltb v (num_of_Z 1))%bool then num_of_Z 86400 else v.

Definition features_patch (config : js) (f : Features) : obj :=
  let patchRouting :=
    ([("semantic", JObj [("embedding_model", JStr (ft_embeddingModel f))])] ++
     match buildSemanticRoutingStages config (ft_semantic_routing f) with
     | Some stages => [("smart", JObj [("stages", JArr stages)])]
     | None => []
     end)%list in
  [("semantic_cache", JObj [("enabled", JBool (ft_semantic_cache f));
                            ("embedding_model", JStr (ft_embeddingModel f));
                            ("ttl_seconds", JNum (ft_cacheTTL f))]);
   ("budget_enforcement", JObj [("enabled", JBool (ft_budget_enforcement f))]);
   ("tool_routing_enabled", JBool (ft_tool_routing f));
   ("routing", JObj patchRouting)].

Definition submit_features (tc : TenantConfig) (f : Features) : M js :=
  submit_patch tc (features_patch (tc_config tc) f).

(** The embedding models offered: those of the global configuration the tenant is allowed *)
Definition embeddingModels (models : list js) (allowed : list js) : list (string * string) :=
  let allowedModels := js_set (omap (fun v => match v with JStr s => Some s | _ => None end) allowed) in
  let text v k := js_to_string (js_coalesce (opt_get v k) (JStr "")) in
  List.filter (fun m => (negb (String.eqb m.1 "") && set_has m.1 allowedModels)%bool)
    (map (fun v => (text v "Name", text v "Provider"))
       (List.filter (fun v => String.eqb (text v "Type") "embedding") models)).

(** ** edit-rate-limit-dialog.tsx *)

Definition SCOPE_VALUES : list string := ["tenant"; "api_key"; "jwt_sub"].

Record TenantRateLimit := mkRateLimit { rl_rpm : num; rl_burst : num; rl_scope : string }.

Definition parseRateLimit (raw : js) : option TenantRateLimit :=
  if negb (is_object raw) then None
  else
    let rpm := js_to_number (opt_get raw "rpm") in
    let burst := js_to_number (opt_get raw "burst") in
    if (negb (num_is_finite rpm) || negb (num_is_finite burst))%bool then None
    else match opt_get raw "scope" with
         | JStr scope => if existsb (String.eqb scope) SCOPE_VALUES then Some (mkRateLimit rpm burst scope) else None
         | _ => None
         end.

Definition load_rate_limit (config : js) : TenantRateLimit :=
  default (mkRateLimit (num_of_Z 60) (num_of_Z 5) "tenant") (parseRateLimit (opt_get config "rate_limit")).

Definition rateLimitSchema (d : TenantRateLimit) : bool :=
  (num_leb (num_of_Z 1) (rl_rpm d) && num_leb (num_of_Z 1) (rl_burst d) &&
   existsb (String.eqb (rl_scope d)) SCOPE_VALUES)%bool.

Definition rate_limit_patch (d : TenantRateLimit) : obj :=
  [("rate_limit", JObj [("rpm", JNum (rl_rpm d)); ("burst", JNum (rl_burst d)); ("scope", JStr (rl_scope d))])].

(** ** edit-traffic-split-dialog.tsx *)

Record TrafficSplitEntry := mkSplitEntry { se_model : string; se_weight : num }.
Record TrafficSplitGroup := mkSplitGroup { sg_name : string; sg_entries : list TrafficSplitEntry }.

Definition entry_js (e : TrafficSplitEntry) : js :=
  JObj [("model", JStr (se_model e)); ("weight", JNum (se_weight e))].

(** An entry, and the groups, when they have their types *)
Definition entry_of (v : js) : option TrafficSplitEntry :=
  match opt_get v "model", opt_get v "weight" with
  | JStr m, JNum w => Some (mkSplitEntry m w)
  | _, _ => None
  end.
Definition group_of (kv : string * js) : option TrafficSplitGroup :=
  match kv.2 with
  | JArr entries => option_map (mkSplitGroup kv.1) (mapM entry_of entries)
  | _ => None
  end.
Definition load_groups (config : js) : option (list TrafficSplitGroup) :=
  match opt_get config "traffic_split" with
  | JObj trafficSplit => mapM group_of trafficSplit
  | _ => Some []
  end.

Definition addGroup (newGroupName : string) (groups : list TrafficSplitGroup) : list TrafficSplitGroup :=
  let name := str_trim newGroupName in
  if String.eqb name "" then groups
  else if existsb (fun g => String.eqb (sg_name g) name) groups then groups
  else (groups ++ [mkSplitGroup name []])%list.
Definition removeGroup (name : string) (prev : list TrafficSplitGroup) : list TrafficSplitGroup :=
  List.filter (fun g => negb (String.eqb (sg_name g) name)) prev.

Definition map_group (groupName : string) (f : list TrafficSplitEntry -> list TrafficSplitEntry)
    (prev : list TrafficSplitGroup) : list TrafficSplitGroup :=
  map (fun g => if String.eqb (sg_name g) groupName then mkSplitGroup (sg_name g) (f (sg_entries g)) else g) prev.
Definition addEntry (groupName : string) : list TrafficSplitGroup -> list TrafficSplitGroup :=
  map_group groupName (fun entries => entries ++ [mkSplitEntry "" num_zero])%list.
Definition removeEntry (groupName : string) (index : nat) : list TrafficSplitGroup -> list TrafficSplitGroup :=
  map_group groupName (fun entries => firstn index entries ++ skipn (S index) entries)%list.
Definition updateEntry (groupName : string) (index : nat) (patch : TrafficSplitEntry -> TrafficSplitEntry)
  : list TrafficSplitGroup -> list TrafficSplitGroup :=
  map_group groupName (imap (fun i e => if Nat.eqb i index then patch e else e)).

Definition getTotalWeight (entries : list TrafficSplitEntry) : num :=
  fold_left (fun sum e => num_add sum (if num_truthy (se_weight e) then se_weight e else num_zero)) entries num_zero.

Definition group_error (g : TrafficSplitGroup) : option string :=
  let group s := "Group " ++ in_quotes (sg_name g) ++ s in
  let models := map se_model (sg_entries g) in
  if Nat.eqb (List.length (sg_entries g)) 0 then Some (group " has no models")
  else if num_leb (getTotalWeight (sg_entries g)) num_zero then Some (group " must have total weight > 0")
  else if negb (Nat.eqb (List.length (js_set models)) (List.length models))
  then Some (group " has duplicate models")
  else None.

(** The loop ends at the first group that is refused. *)
Fixpoint split_error (groups : list TrafficSplitGroup) : option string :=
  match groups with
  | [] => None
  | g :: groups' => match group_error g with Some e => Some e | None => split_error groups' end
  end.

Definition group_pair (g : TrafficSplitGroup) : string * js := (sg_name g, JArr (map entry_js (sg_entries g))).
Definition split_patch (groups : list TrafficSplitGroup) : obj :=
  [("traffic_split", JObj (obj_spread [] (map group_pair groups)))].

Definition submit_split (tc : TenantConfig) (groups : list TrafficSplitGroup) : string + M js :=
  match split_error groups with
  | Some e => inl e
  | None => inr (submit_patch tc (split_patch groups))
  end.

(** ** edit-routing-dialog.tsx *)

Definition strategies : list string := ["smart"; "round_robin"; "latency"; "cost"; "header"].

Record RoutingForm := mkRoutingForm {
  rf_strategy : string;
  rf_models : list string;
  rf_groups : list string;
  rf_default : option string;
}.

Definition texts (v : js) : list string :=
  omap (fun x => match x with JStr s => Some s | _ => None end) (js_array v).

Definition load_routing (config : js) : RoutingForm :=
  let routing := opt_get config "routing" in
  let rawStrategy := js_coalesce (js_coalesce (opt_get routing "strategy") (opt_get config "routing_strategy"))
                       (JStr "smart") in
  mkRoutingForm (match rawStrategy with
                 | JStr s => if existsb (String.eqb s) strategies then s else "smart"
                 | _ => "smart" end)
    (texts (opt_get config "allowed_models")) (texts (opt_get config "route_groups"))
    (opt_text (opt_get routing "route_group")).

Definition toggle (x : string) (prev : list string) : list string :=
  if existsb (String.eqb x) prev then List.filter (fun y => negb (String.eqb y x)) prev else (prev ++ [x])%list.

Definition routing_patch (d : RoutingForm) : obj :=
  ([("routing", JObj [("strategy", JStr (rf_strategy d));
                      ("route_group", match rf_default d with Some g => JStr g | None => JNull end)])] ++
   (if Nat.ltb 0 (List.length (rf_models d)) then [("allowed_models", JArr (map JStr (rf_models d)))] else []) ++
   [("route_groups", JArr (map JStr (rf_groups d)))])%list.

Definition submit_routing (tc : TenantConfig) (d : RoutingForm) : M js := submit_patch tc (routing_patch d).

(** The ids the dialogs offer: [m.model_id || m.id || ''], without the blank ones *)
Definition ids_of (first second : string) (rows : list js) : list string :=
  List.filter (fun s => negb (String.eqb s ""))
    (map (fun m => js_to_string (js_or (js_or (opt_get m first) (opt_get m second)) (JStr ""))) rows).

(** ** Features are read back *)

Ltac keys_distinct := cbn; repeat (apply List.NoDup_cons; [cbn; intuition discriminate|]); constructor.

(** A literal in snake case, its open parts being assumptions *)
Ltac solve_snake :=
  try assumption; lazymatch goal with
  | |- snake (JObj _) =>
      apply snake_obj; split; [split; [keys_distinct|repeat constructor]|];
      repeat (apply List.Forall_cons; [split; [reflexivity|cbn [snd]; solve_snake]|]); apply List.Forall_nil
  | |- snake (JArr (_ :: _)) =>
      apply snake_arr; repeat (apply List.Forall_cons; [solve_snake|]); apply List.Forall_nil
  | |- snake _ => exact I
  | |- _ => idtac
  end.

(** Lookups in a merged document *)
Ltac read_side := first [eassumption|reflexivity|keys_distinct].
Ltac read_merged := repeat first [erewrite merged_top_get by read_side|erewrite merged_field by read_side].

Definition others (stages : list js) : list js := List.filter (fun s => negb (is_semantic s)) stages.
Definition stages_enabled (stages : list js) : bool :=
  match List.find is_semantic stages with Some s => has_rules (opt_get s "rules") | None => false end.

Section Stage.
Context (stage : js) (Hstage : snake stage).

Lemma fill_cases :
  fill_rules stage = stage \/
  exists m, stage = JObj m /\ is_semantic stage = true /\ fill_rules stage = JObj (obj_set "rules" default_rules m).
Proof.
  unfold fill_rules. destruct (is_semantic stage) eqn:E; [|by left]. destruct (has_rules _); [by left|right].
  destruct stage as [| | | | |l|m]; try done. exists m. split; [done|]. split; [done|].
  apply snake_obj in Hstage as [He _]. cbn [negb GatewayClient.entries].
  by rewrite (spread_enumerated m [] He).
Qed.

Lemma fill_semantic : is_semantic (fill_rules stage) = is_semantic stage.
Proof.
  destruct fill_cases as [->|(m & Es & Hs & ->)]; [done|]. rewrite Hs. rewrite Es in Hs.
  unfold is_semantic in *. cbn [opt_get] in *. by rewrite obj_get_set_ne.
Qed.

Lemma fill_has_rules : is_semantic stage = true -> has_rules (opt_get (fill_rules stage) "rules") = true.
Proof.
  unfold fill_rules. intros ->. cbn [negb]. destruct (has_rules (opt_get stage "rules")) eqn:E; [done|].
  cbn [opt_get]. by rewrite obj_get_set_eq.
Qed.

Lemma fill_snake : snake (fill_rules stage).
Proof.
  destruct fill_cases as [->|(m & Es & _ & ->)]; [done|]. rewrite Es in Hstage. apply snake_set; [done|done|].
  cbn. repeat (split; [|done]). repeat constructor; cbn; intuition discriminate.
Qed.
End Stage.

Lemma default_stage_snake : snake defaultSemanticStage.
Proof. cbn. repeat (split || constructor || (cbn; intuition discriminate)). Qed.

Lemma enabled_find (config : js) : getSemanticRoutingEnabled config = stages_enabled (js_array (smart_stages config)).
Proof. unfold getSemanticRoutingEnabled, stages_enabled. by destruct (smart_stages config). Qed.

Section Stages.
Context (stages : list js) (Hstages : Forall snake stages).

Lemma fill_others : others (map fill_rules stages) = others stages.
Proof.
  unfold others. induction Hstages as [|s l Hs Hl IH]; [done|]. cbn [map List.filter].
  rewrite fill_semantic, IH by done. destruct (is_semantic s) eqn:E; cbn [negb]; [done|].
  f_equal. unfold fill_rules. by rewrite E.
Qed.

Lemma fill_enabled : existsb is_semantic stages = true -> stages_enabled (map fill_rules stages) = true.
Proof.
  unfold stages_enabled. induction Hstages as [|s l Hs Hl IH]; [done|]. cbn [map List.find existsb].
  rewrite fill_semantic by done. destruct (is_semantic s) eqn:E; [|exact (IH Hl)]. intros _. by apply fill_has_rules.
Qed.

Lemma fill_all_snake : Forall snake (map fill_rules stages).
Proof. induction Hstages; cbn; constructor; auto using fill_snake. Qed.

Lemma none_semantic : existsb is_semantic stages = false -> others stages = stages /\ stages_enabled stages = false.
Proof.
  clear Hstages. unfold others, stages_enabled. induction stages as [|s l IH]; [done|].
  cbn [existsb List.filter List.find]. intros [Hs Hl]%orb_false_iff. destruct (IH Hl) as [H1 H2]. by rewrite Hs, H1.
Qed.
End Stages.

Lemma others_idem (stages : list js) : existsb is_semantic (others stages) = false.
Proof.
  unfold others. induction stages as [|s l IH]; [done|]. cbn. destruct (is_semantic s) eqn:E; cbn; [done|].
  by rewrite E.
Qed.

(** Switching semantic routing: the stages say so, the others stay as they are, and nothing
    is sent only when nothing would change. *)
Lemma built_stages (config : js) (enabled : bool) :
  snake config ->
  match buildSemanticRoutingStages config enabled with
  | Some stages => stages_enabled stages = enabled /\ others stages = others (js_array (smart_stages config)) /\
                   Forall snake stages
  | None => getSemanticRoutingEnabled config = enabled
  end.
Proof.
  intros Hc. rewrite enabled_find. unfold buildSemanticRoutingStages.
  assert (Hs : snake (smart_stages config)) by (unfold smart_stages; auto using snake_opt).
  destruct (smart_stages config) as [| | | | |stages|]; cbn [js_array];
    try (destruct enabled; [|done]; repeat split; auto using default_stage_snake).
  apply snake_arr in Hs. destruct (existsb is_semantic stages) eqn:E, enabled; cbn [negb].
  - auto using fill_enabled, fill_others, fill_all_snake.
  - fold (others stages). destruct (none_semantic _ (others_idem stages)) as [-> ->]. split; [done|]. split; [done|].
    apply List.Forall_forall. intros x [Hx _]%filter_In. rewrite List.Forall_forall in Hs. by apply Hs.
  - destruct (none_semantic _ E) as [Ho _]. unfold stages_enabled, others in *. rewrite List.filter_app, Ho.
    split; [|split; [by rewrite app_nil_r|apply List.Forall_app; auto using default_stage_snake]].
    clear Ho Hs. induction stages as [|s l IH]; [done|]. cbn in E |- *. apply orb_false_iff in E as [-> E]. by apply IH.
  - by apply none_semantic.
Qed.

Section Saved.
Context (c : obj) (Hc : snake (JObj c)) (f : Features).

Abbreviation patch := (features_patch (JObj c) f).
Abbreviation c' := (mergeMaps c patch).

Lemma features_keys : List.NoDup (map fst patch).
Proof. keys_distinct. Qed.

Lemma features_snake : snake (JObj patch).
Proof.
  pose proof (built_stages (JObj c) (ft_semantic_routing f) Hc) as H. unfold features_patch.
  destruct (buildSemanticRoutingStages _ _) as [stages|]; cbn [app].
  - destruct H as (_ & _ & Hs). apply snake_arr in Hs. solve_snake.
  - solve_snake.
Qed.

Lemma features_stages :
  getSemanticRoutingEnabled (JObj c') = ft_semantic_routing f /\
  others (js_array (smart_stages (JObj c'))) = others (js_array (smart_stages (JObj c))).
Proof.
  pose proof (built_stages (JObj c) (ft_semantic_routing f) Hc) as H.
  rewrite enabled_find. unfold smart_stages.
  erewrite merged_top_get by (apply features_keys || reflexivity). cbn zeta.
  destruct (buildSemanticRoutingStages (JObj c) (ft_semantic_routing f)) as [stages|]; cbn [app].
  - rewrite (merged_get _ _ "smart" (JObj [("stages", JArr stages)])) by (keys_distinct || done).
    erewrite merged_field by read_side.
    by destruct H as (? & ? & _).
  - rewrite merged_other by (keys_distinct || done). rewrite enabled_find in H. unfold smart_stages in H |- *.
    cbn [opt_get] in H |- *.
    by destruct (obj_get "routing" c) as [[| | | | |l|m]|].
Qed.

Lemma features_embedding :
  opt_get (opt_get (opt_get (JObj c') "routing") "semantic") "embedding_model" = JStr (ft_embeddingModel f).
Proof.
  pose proof features_keys as Hk. erewrite merged_top_get by read_side. cbn zeta.
  rewrite (merged_get _ _ "semantic" (JObj [("embedding_model", JStr (ft_embeddingModel f))]));
    [by read_merged| |done|done].
  destruct (buildSemanticRoutingStages _ _); keys_distinct.
Qed.
End Saved.

Lemma features_loaded (c : obj) (f : Features) :
  snake (JObj c) -> num_ltb num_zero (ft_cacheTTL f) = true -> load_features (JObj (mergeMaps c (features_patch (JObj c) f))) = f.
Proof.
  intros Hc Ht. destruct (features_stages c Hc f) as [H3 _]. pose proof (features_keys c f) as Hk.
  unfold load_features. rewrite H3, (features_embedding c f). unfold getToolRoutingEnabled. read_merged.
  rewrite merged_replaces by done. rewrite Ht. by destruct f as [? [] [] []].
Qed.

(** C28: The features dialog saves what it shows.  Through the patch and the gateway's merge, the
    form filled from the saved configuration is the form that was saved; the stages of the
    router other than the semantic ones stay as they were, and so does every section the
    dialog does not show and the rest of the budget enforcement. *)
Theorem features_read_back (c : obj) (f : Features) (version : Z) :
  snake (JObj c) -> num_ltb num_zero (ft_cacheTTL f) = true ->
  exists c', PatchTenantConfig (Some (c, version)) version (features_patch (JObj c) f) = inr (c', (version + 1)%Z) /\
    GetTenantConfig (Some (c', (version + 1)%Z)) = Some (c', (version + 1)%Z) /\
    load_features (JObj c') = f /\
    others (js_array (smart_stages (JObj c'))) = others (js_array (smart_stages (JObj c))) /\
    (forall k, ~ In k ["semantic_cache"; "budget_enforcement"; "tool_routing_enabled"; "routing"] ->
       opt_get (JObj c') k = opt_get (JObj c) k) /\
    (forall k, k <> "enabled" -> k <> "length" ->
       opt_get (opt_get (JObj c') "budget_enforcement") k = opt_get (opt_get (JObj c) "budget_enforcement") k).
Proof.
  intros Hc Ht. exists (mergeMaps c (features_patch (JObj c) f)).
  destruct (patched_read c (features_patch (JObj c) f) version Hc (features_snake c Hc f)) as [H1 H2].
  destruct (features_stages c Hc f) as [H3 H4]. pose proof (features_keys c f) as Hk.
  split; [done|]. split; [done|]. split; [by apply features_loaded|split; [done|split]].
  - intros k Hn. apply merged_top_other; [done|]. apply obj_get_not_In. exact Hn.
  - intros k He Hl. erewrite merged_top_get by read_side. rewrite merged_other; [|keys_distinct|].
    + cbn [opt_get]. destruct (obj_get "budget_enforcement" c) as [[| | | | |l|m]|]; try done.
      cbn. apply String.eqb_neq in Hl. by rewrite Hl.
    + cbn. apply String.eqb_neq in He. by rewrite He.
Qed.

Definition demo_tenant_doc : obj :=
  [("allowed_models", JArr [JStr "gpt-4"]);
   ("budget_enforcement", JObj [("enabled", JBool true); ("mode", JStr "block")]);
   ("routing", JObj [("smart", JObj [("stages", JArr [JObj [("name", JStr "length"); ("rules", JArr [])]])]);
                     ("strategy", JStr "smart")])].
Definition demo_features : Features := mkFeatures true true false false "embed-3" (num_of_Z 600).

Lemma features_read_back_witness :
  exists c', PatchTenantConfig (Some (demo_tenant_doc, 4%Z)) 4 (features_patch (JObj demo_tenant_doc) demo_features)
      = inr (c', 5%Z) /\
    GetTenantConfig (Some (c', 5%Z)) = Some (c', 5%Z) /\ load_features (JObj c') = demo_features /\
    others (js_array (smart_stages (JObj c'))) = [JObj [("name", JStr "length"); ("rules", JArr [])]] /\
    (forall k, ~ In k ["semantic_cache"; "budget_enforcement"; "tool_routing_enabled"; "routing"] ->
       opt_get (JObj c') k = opt_get (JObj demo_tenant_doc) k) /\
    (forall k, k <> "enabled" -> k <> "length" ->
       opt_get (opt_get (JObj c') "budget_enforcement") k = opt_get (opt_get (JObj demo_tenant_doc) "budget_enforcement") k).
Proof.
  apply (features_read_back demo_tenant_doc demo_features 4).
  - unfold demo_tenant_doc. solve_snake.
  - reflexivity.
Defined.

(** ** Rate limits, traffic splits and routing are read back *)

(** What the schema accepts, when finite, is read back. *)
Lemma rate_limit_read_back (c : obj) (d : TenantRateLimit) (version : Z) :
  snake (JObj c) -> rateLimitSchema d = true -> num_is_finite (rl_rpm d) = true -> num_is_finite (rl_burst d) = true ->
  exists c', PatchTenantConfig (Some (c, version)) version (rate_limit_patch d) = inr (c', (version + 1)%Z) /\
    load_rate_limit (JObj c') = d.
Proof.
  intros Hc Hs Hr Hb. exists (mergeMaps c (rate_limit_patch d)). split.
  - apply patched_read; [done|]. unfold rate_limit_patch. solve_snake.
  - unfold load_rate_limit, parseRateLimit. erewrite merged_top_get by read_side. cbn zeta.
    assert (Ho : forall cur q, is_object (merged cur (JObj q)) = true)
      by (intros [[| | | | | |]|] q; done).
    rewrite Ho. read_merged. cbn [js_to_number]. rewrite Hr, Hb. cbn [negb orb].
    apply andb_prop in Hs as [_ ->]. by destruct d.
Qed.

Lemma js_set_full (l : list string) : List.length (js_set l) = List.length l -> List.NoDup l.
Proof.
  intros H. apply (List.NoDup_incl_NoDup (js_set_NoDup l)); [lia|]. intros x Hx. by apply js_set_In.
Qed.

Lemma split_error_none (groups : list TrafficSplitGroup) :
  split_error groups = None -> Forall (fun g => group_error g = None) groups.
Proof.
  induction groups as [|g l IH]; cbn; [constructor|]. destruct (group_error g) eqn:E; [done|].
  intros H. constructor; auto.
Qed.

(** A group that is accepted *)
Lemma group_accepted (g : TrafficSplitGroup) :
  group_error g = None ->
  sg_entries g <> [] /\ num_leb (getTotalWeight (sg_entries g)) num_zero = false /\
  List.NoDup (map se_model (sg_entries g)).
Proof.
  unfold group_error. cbv zeta. destruct (sg_entries g) as [|e l]; [done|]. cbn [List.length Nat.eqb].
  destruct (num_leb _ _); [done|]. destruct (Nat.eqb _ _) eqn:E; cbn [negb]; [|done].
  intros _. split; [done|]. split; [done|]. apply js_set_full. by apply Nat.eqb_eq.
Qed.

Lemma entries_read (l : list TrafficSplitEntry) : mapM entry_of (map entry_js l) = Some l.
Proof. induction l as [|[m w] l IH]; [done|]. cbn. by rewrite IH. Qed.

Section Split.
Context (groups : list TrafficSplitGroup) (Hnames : List.NoDup (map sg_name groups)).

Abbreviation q := (obj_spread [] (map group_pair groups)).

Lemma split_names : map fst (map group_pair groups) = map sg_name groups.
Proof. clear Hnames. rewrite map_map. done. Qed.

Lemma split_get (name : string) : obj_get name q = obj_get name (map group_pair groups).
Proof.
  rewrite obj_get_spread by (by rewrite split_names). by destruct (obj_get name (map group_pair groups)).
Qed.

Lemma split_group (g : TrafficSplitGroup) :
  In g groups -> obj_get (sg_name g) q = Some (JArr (map entry_js (sg_entries g))).
Proof.
  rewrite split_get. induction groups as [|h l IH]; [done|]. cbn in Hnames |- *. apply List.NoDup_cons_iff in Hnames as [Hh Hl].
  intros [->|Hg]; [by rewrite String.eqb_refl|]. destruct (String.eqb_spec (sg_name g) (sg_name h)) as [E|_]; [|by apply IH].
  destruct Hh. rewrite <- E. by apply in_map.
Qed.

Lemma split_distinct : List.NoDup (map fst q).
Proof. apply obj_spread_NoDup. constructor. Qed.

Lemma split_snake : Forall (fun g => lower_key (sg_name g) = true) groups -> snake (JObj (split_patch groups)).
Proof.
  intros Hl. assert (Hq : snake (JObj q)); [|unfold split_patch; solve_snake].
  apply snake_obj. split; [apply enumerated_spread; by repeat constructor|].
  assert (H : forall acc, Forall (fun kv => lower_key kv.1 = true /\ snake kv.2) acc ->
    Forall (fun kv => lower_key kv.1 = true /\ snake kv.2) (obj_spread acc (map group_pair groups)));
    [|by apply H].
  clear Hnames. induction Hl as [|g l Hg Hl IH]; intros acc Ha; [done|]. apply IH, obj_set_Forall; [|done].
  split; [done|]. cbn. apply snake_arr. clear. induction (sg_entries g); cbn [map]; constructor; [|done].
  unfold entry_js. solve_snake.
Qed.
End Split.


Definition demo_split : list TrafficSplitGroup :=
  [mkSplitGroup "premium" [mkSplitEntry "gpt-4" (num_of_Z 80); mkSplitEntry "claude" (num_of_Z 20)]].
Definition demo_split_doc : obj :=
  [("traffic_split", JObj [("basic", JArr [JObj [("model", JStr "gpt-4"); ("weight", js_of_Z 1)]])])].


(** A group that was removed in the dialog is still there after the save: the patch does not
    name it, and the merge keeps what a patch does not name. *)
Theorem removed_group_stays (c split : obj) (groups : list TrafficSplitGroup) (name : string) (version : Z) :
  snake (JObj c) -> List.NoDup (map sg_name groups) -> Forall (fun g => lower_key (sg_name g) = true) groups ->
  obj_get "traffic_split" c = Some (JObj split) ->
  exists c', PatchTenantConfig (Some (c, version)) version (split_patch (removeGroup name groups)) = inr (c', (version + 1)%Z) /\
    opt_get (opt_get (JObj c') "traffic_split") name = opt_get (JObj split) name.
Proof.
  intros Hc Hn Hl Hs. set (rest := removeGroup name groups).
  assert (Hin : forall g, In g rest -> In g groups /\ sg_name g <> name).
  { intros g [Hg Hne]%filter_In. split; [done|]. apply negb_true_iff, String.eqb_neq in Hne. done. }
  assert (Hrn : List.NoDup (map sg_name rest)).
  { subst rest. unfold removeGroup. clear -Hn. induction groups as [|g l IH]; [done|]. cbn in Hn |- *.
    apply List.NoDup_cons_iff in Hn as [Hg Hn]. destruct (negb _); [|by apply IH]. cbn. constructor; [|by apply IH].
    intros (x & Ex & [Hx _]%filter_In)%in_map_iff. apply Hg. rewrite <- Ex. by apply in_map. }
  exists (mergeMaps c (split_patch rest)). split.
  - apply patched_read; [done|]. apply split_snake. apply List.Forall_forall. intros g Hg.
    rewrite List.Forall_forall in Hl. by apply Hl, Hin.
  - erewrite merged_top_get by read_side. rewrite Hs. rewrite merged_other; [done|apply split_distinct|].
    rewrite split_get by done. apply obj_get_not_In. rewrite split_names.
    intros (g & Eg & Hg)%in_map_iff. by apply (Hin g Hg).
Qed.

Lemma removed_group_stays_witness :
  exists c', PatchTenantConfig (Some (demo_split_doc, 4%Z)) 4
      (split_patch (removeGroup "basic" [mkSplitGroup "basic" [mkSplitEntry "gpt-4" (num_of_Z 1)]])) = inr (c', 5%Z) /\
    opt_get (opt_get (JObj c') "traffic_split") "basic" = JArr [JObj [("model", JStr "gpt-4"); ("weight", js_of_Z 1)]].
Proof.
  apply (removed_group_stays demo_split_doc
    [("basic", JArr [JObj [("model", JStr "gpt-4"); ("weight", js_of_Z 1)]])]
    [mkSplitGroup "basic" [mkSplitEntry "gpt-4" (num_of_Z 1)]] "basic" 4).
  - unfold demo_split_doc. solve_snake.
  - keys_distinct.
  - repeat constructor.
  - reflexivity.
Defined.

(** The names of groups are keys, and the store brings them to snake case: a group called
    Premium is stored under another name. *)
Lemma split_name_changed (version : Z) :
  let stored := PatchTenantConfig (Some ([], version)) version
                  (split_patch [mkSplitGroup "Premium" [mkSplitEntry "gpt-4" (num_of_Z 1)]]) in
  exists c', stored = inr (c', (version + 1)%Z) /\
    opt_get (opt_get (JObj c') "traffic_split") "Premium" = JUndef /\
    is_array (opt_get (opt_get (JObj c') "traffic_split") "premium") = true.
Proof. eexists. unfold PatchTenantConfig. cbn -[Z.add Z.eqb]. by rewrite Z.eqb_refl. Qed.

Lemma texts_strings (l : list string) : texts (JArr (map JStr l)) = l.
Proof. unfold texts. cbn. induction l as [|s l IH]; [done|]. cbn. by rewrite IH. Qed.

Lemma routing_snake (d : RoutingForm) : snake (JObj (routing_patch d)).
Proof.
  assert (Ht : forall l, snake (JArr (map JStr l)))
    by (intros l; apply snake_arr; induction l; constructor; done).
  pose proof (Ht (rf_models d)). pose proof (Ht (rf_groups d)). unfold routing_patch.
  destruct (Nat.ltb _ _), (rf_default d); cbn [app]; solve_snake.
Qed.

(** The routing dialog saves what it shows: the strategy, the default route group (none
    clears it) and the route groups are read back from the merged configuration; so are the
    allowed models, but for an empty list, which leaves the stored ones. *)
Theorem routing_read_back (c : obj) (d : RoutingForm) (version : Z) :
  snake (JObj c) -> In (rf_strategy d) strategies ->
  exists c', PatchTenantConfig (Some (c, version)) version (routing_patch d) = inr (c', (version + 1)%Z) /\
    GetTenantConfig (Some (c', (version + 1)%Z)) = Some (c', (version + 1)%Z) /\
    load_routing (JObj c') =
      mkRoutingForm (rf_strategy d)
        (if Nat.ltb 0 (List.length (rf_models d)) then rf_models d else rf_models (load_routing (JObj c)))
        (rf_groups d) (rf_default d).
Proof.
  intros Hc Hs. exists (mergeMaps c (routing_patch d)).
  destruct (patched_read c (routing_patch d) version Hc (routing_snake d)) as [H1 H2].
  split; [done|]. split; [done|].
  assert (Hd : List.NoDup (map fst (routing_patch d)))
    by (unfold routing_patch; destruct (Nat.ltb _ _); keys_distinct).
  unfold load_routing. cbn [rf_models]. erewrite merged_top_get with (k := "routing") by read_side.
  erewrite (merged_top_get c _ "route_groups"); [|done|unfold routing_patch; by destruct (Nat.ltb _ _)].
  rewrite (merged_replaces _ (JArr (map JStr (rf_groups d)))) by done. rewrite texts_strings.
  erewrite (merged_field _ _ "strategy") by read_side. cbn [js_coalesce nullish].
  assert (existsb (String.eqb (rf_strategy d)) strategies = true) as ->
    by (apply existsb_exists; exists (rf_strategy d); by rewrite String.eqb_refl).
  f_equal.
  - revert Hd. unfold routing_patch. destruct (Nat.ltb _ _); intros Hd.
    + erewrite merged_top_get by read_side. rewrite merged_replaces by done. apply texts_strings.
    + by rewrite merged_top_other.
  - destruct (rf_default d) as [g|].
    + by erewrite merged_field by read_side.
    + unfold opt_text. rewrite merged_null; [done|keys_distinct|done].
Qed.

Lemma routing_read_back_witness :
  let d := mkRoutingForm "cost" [] ["fast"] None in
  exists c', PatchTenantConfig (Some (demo_tenant_doc, 4%Z)) 4 (routing_patch d) = inr (c', 5%Z) /\
    GetTenantConfig (Some (c', 5%Z)) = Some (c', 5%Z) /\
    load_routing (JObj c') = mkRoutingForm "cost" ["gpt-4"] ["fast"] None.
Proof.
  apply (routing_read_back demo_tenant_doc (mkRoutingForm "cost" [] ["fast"] None) 4).
  - unfold demo_tenant_doc. solve_snake.
  - cbn. tauto.
Defined.

(** ** edit-pii-dialog.tsx *)

Record PiiForm := mkPiiForm {
  pii_enabled : bool;
  pii_request_url : string;
  pii_response_url : string;
  pii_timeout_ms : num;
  pii_failure_policy : string;
  pii_api_key : string;
}.

Definition text (v : js) : string := match v with JStr s => s | _ => "" end.

Definition load_pii (config : js) : PiiForm :=
  let current := opt_get (opt_get (opt_get config "hooks") "global") "external_pii" in
  mkPiiForm (is_true (opt_get current "enabled")) (text (opt_get current "request_url"))
    (text (opt_get current "response_url"))
    (match opt_get current "timeout_ms" with JNum n => n | _ => num_of_Z 3000 end)
    (if is_str (opt_get current "failure_policy") "deny" then "deny" else "accept")
    (text (opt_get current "api_key")).

Section Pii.
(** [new URL(value).protocol]; None where the constructor throws *)
Context (protocol_of : string -> option string).

Definition isValidHttpUrl (value : string) : bool :=
  match protocol_of value with
  | Some p => (String.eqb p "http:" || String.eqb p "https:")%bool
  | None => false
  end.

Definition url_error (name label url : string) : list (string * string) :=
  if (String.eqb url "" || negb (isValidHttpUrl url))%bool
  then [(name, label ++ " URL must be a valid URL")] else [].

Definition timeout_error (n : num) : list (string * string) :=
  if (num_ltb n (num_of_Z 500) || num_ltb (num_of_Z 10000) n)%bool
  then [("timeout_ms", "Timeout must be between 500 and 10000 ms")] else [].

(** The errors of the three checks a test of the connection makes *)
Definition validateForTest (f : PiiForm) : list (string * string) :=
  (url_error "request_url" "Request" (pii_request_url f) ++
   url_error "response_url" "Response" (pii_response_url f) ++ timeout_error (pii_timeout_ms f))%list.

Definition validate (f : PiiForm) : list (string * string) :=
  if pii_enabled f then
    (validateForTest f ++
     (if (negb (String.eqb (pii_failure_policy f) "accept") && negb (String.eqb (pii_failure_policy f) "deny"))%bool
      then [("failure_policy", "Failure policy must be accept or deny")] else []))%list
  else [].

Definition external_pii (f : PiiForm) : obj :=
  ([("enabled", JBool (pii_enabled f)); ("request_url", JStr (str_trim (pii_request_url f)));
    ("response_url", JStr (str_trim (pii_response_url f))); ("timeout_ms", JNum (pii_timeout_ms f));
    ("failure_policy", JStr (pii_failure_policy f))] ++
   (if String.eqb (pii_api_key f) "" then [] else [("api_key", JStr (str_trim (pii_api_key f)))]))%list.
Definition pii_patch (f : PiiForm) : obj :=
  [("hooks", JObj [("global", JObj [("external_pii", JObj (external_pii f))])])].

(** The submission: the errors, or the mutation *)
Definition submit_pii (tc : TenantConfig) (f : PiiForm) : list (string * string) + M js :=
  match validate f with
  | [] => inr (mutationFn useUpdateTenantPiiConfig (mkConfigVars (tc_tenant_id tc) (tc_version tc) (pii_patch f)))
  | errors => inl errors
  end.

(** What a test of the connection shows: errors of the form, a toast, or the result *)
Inductive PiiTest := TestErrors (errors : list (string * string)) | TestToast (title : string) | TestResult (data : js).

Definition pii_test_body (f : PiiForm) : js :=
  JObj [("request_url", JStr (str_trim (pii_request_url f))); ("response_url", JStr (str_trim (pii_response_url f)));
        ("timeout_ms", JNum (pii_timeout_ms f)); ("api_key", JStr (str_trim (pii_api_key f)))].

Definition onTestConnection (tenantId : string) (f : PiiForm) : M PiiTest :=
  match validateForTest f with
  | [] =>
      try_catch
        (res ← page_send "POST" ("/api/tenants/" ++ tenantId ++ "/pii/test-connection") (pii_test_body f);
         if negb (res_ok res) then mret (TestToast "Failed to test PII connection")
         else data ← res_json res; mret (TestResult data))
        (fun _ => mret (TestToast "Could not reach the gateway"))
  | errors => mret (TestErrors errors)
  end.
End Pii.

(** ** create-tenant-dialog.tsx *)

Definition is_letter (c : ascii) : bool := (isUpper c || isLower c)%bool.
Definition is_word (c : ascii) : bool :=
  (is_letter c || (Nat.leb 48 (code c) && Nat.leb (code c) 57) || Ascii.eqb c "_" || Ascii.eqb c "-")%bool.

(** [/^[a-zA-Z][a-zA-Z0-9_-]{0,63}$/], and one of the environments *)
Definition tenant_id_ok (id : string) : bool :=
  match id with
  | EmptyString => false
  | String c rest => (is_letter c && str_all is_word rest && Nat.leb (String.length rest) 63)%bool
  end.
Definition tenantSchema (tenant_id environment : string) : bool :=
  (tenant_id_ok tenant_id && existsb (String.eqb environment) ["DEV"; "STAGING"; "PROD"])%bool.

Definition submit_tenant (tenant_id environment : string) : option (M js) :=
  if tenantSchema tenant_id environment then Some (mutationFn useCreateTenant (tenant_id, environment)) else None.

(** ** The PII hook is read back *)

Lemma opt_below (v : js) (k : string) :
  k <> "length" -> opt_get v k = default JUndef (below (Some v) k).
Proof. intros Hk. destruct v as [| | | | |l|m]; try done. cbn. apply String.eqb_neq in Hk. by rewrite Hk. Qed.

Lemma opt_default (current : option js) (k : string) :
  k <> "length" -> opt_get (default JUndef current) k = default JUndef (below current k).
Proof. intros Hk. destruct current as [v|]; [by apply opt_below|done]. Qed.

Definition stored_pii (c : obj) : js :=
  opt_get (opt_get (opt_get (JObj c) "hooks") "global") "external_pii".

Section PiiSaved.
Context (c : obj) (f : PiiForm).

Lemma external_distinct : List.NoDup (map fst (external_pii f)).
Proof. unfold external_pii. destruct (String.eqb _ _); keys_distinct. Qed.

Lemma pii_snake : snake (JObj (pii_patch f)).
Proof. unfold pii_patch, external_pii. destruct (String.eqb _ _); cbn [app]; solve_snake. Qed.

(** The merged section, over what was stored *)
Lemma pii_section :
  exists current, stored_pii (mergeMaps c (pii_patch f)) = merged current (JObj (external_pii f)) /\
                  forall k, k <> "length" -> default JUndef (below current k) = opt_get (stored_pii c) k.
Proof.
  exists (below (below (obj_get "hooks" c) "global") "external_pii"). unfold stored_pii. split.
  - erewrite merged_top_get by read_side. erewrite merged_get by read_side || done.
    by erewrite merged_get by read_side || done.
  - intros k Hk. change (opt_get (JObj c) "hooks") with (default JUndef (obj_get "hooks" c)).
    by rewrite !opt_default.
Qed.
End PiiSaved.

(** The PII dialog saves what it shows, its addresses without surrounding white space; an
    API key is stored when one is given, and an emptied key leaves the stored one. *)
Theorem pii_read_back (c : obj) (f : PiiForm) (version : Z) :
  snake (JObj c) -> In (pii_failure_policy f) ["accept"; "deny"] ->
  exists c', PatchTenantConfig (Some (c, version)) version (pii_patch f) = inr (c', (version + 1)%Z) /\
    GetTenantConfig (Some (c', (version + 1)%Z)) = Some (c', (version + 1)%Z) /\
    load_pii (JObj c') =
      mkPiiForm (pii_enabled f) (str_trim (pii_request_url f)) (str_trim (pii_response_url f)) (pii_timeout_ms f)
        (pii_failure_policy f)
        (if String.eqb (pii_api_key f) "" then pii_api_key (load_pii (JObj c)) else str_trim (pii_api_key f)).
Proof.
  intros Hc Hp. exists (mergeMaps c (pii_patch f)).
  destruct (patched_read c (pii_patch f) version Hc (pii_snake f)) as [H1 H2].
  split; [done|]. split; [done|]. destruct (pii_section c f) as (current & Hs & Ho).
  pose proof (external_distinct f) as Hd. unfold load_pii. cbn [pii_api_key].
  change (opt_get (opt_get (opt_get (JObj (mergeMaps c (pii_patch f))) "hooks") "global") "external_pii")
    with (stored_pii (mergeMaps c (pii_patch f))).
  change (opt_get (opt_get (opt_get (JObj c) "hooks") "global") "external_pii") with (stored_pii c).
  rewrite Hs. rewrite <- (Ho "api_key" ltac:(done)).
  assert (Hk : text (opt_get (merged current (JObj (external_pii f))) "api_key") =
    if String.eqb (pii_api_key f) "" then text (default JUndef (below current "api_key")) else str_trim (pii_api_key f)).
  { destruct (String.eqb (pii_api_key f) "") eqn:E.
    - rewrite merged_other; [done|done|]. unfold external_pii. by rewrite E.
    - erewrite merged_field; [|done|unfold external_pii; by rewrite E|done]. done. }
  rewrite Hk. erewrite !merged_field by read_side. cbn [is_true text is_str].
  destruct Hp as [Hp|[Hp|[]]]; rewrite <- Hp; by destruct (pii_enabled f).
Qed.

Definition demo_pii : PiiForm :=
  mkPiiForm true " https://pii/in " "https://pii/out" (num_of_Z 800) "deny" "".
Definition demo_pii_doc : obj :=
  [("hooks", JObj [("global", JObj [("external_pii", JObj [("api_key", JStr "s3cret"); ("enabled", JBool false)])])])].

Lemma pii_read_back_witness :
  exists c', PatchTenantConfig (Some (demo_pii_doc, 4%Z)) 4 (pii_patch demo_pii) = inr (c', 5%Z) /\
    GetTenantConfig (Some (c', 5%Z)) = Some (c', 5%Z) /\
    load_pii (JObj c') = mkPiiForm true "https://pii/in" "https://pii/out" (num_of_Z 800) "deny" "s3cret".
Proof.
  apply (pii_read_back demo_pii_doc demo_pii 4).
  - unfold demo_pii_doc. solve_snake.
  - cbn. tauto.
Defined.

(** A tenant's id stands for itself in an address. *)
Lemma tenant_id_plain (id environment : string) :
  tenantSchema id environment = true -> encodeURIComponent id = id /\ id <> "" /\ String.length id <= 64.
Proof.
  unfold tenantSchema, tenant_id_ok. destruct id as [|c rest]; [done|].
  intros [[[Hc Hr]%andb_prop Hl]%andb_prop _]%andb_prop. apply Nat.leb_le in Hl.
  assert (Hw : forall d, is_word d = true -> uri_unreserved d = true)
    by (intros [[] [] [] [] [] [] [] []]; vm_compute; congruence).
  split; [|split; [done|cbn; lia]]. cbn [encodeURIComponent]. rewrite Hw by (unfold is_word; by rewrite Hc).
  f_equal. clear Hc Hl. induction rest as [|d rest IH]; [done|]. cbn in Hr. apply andb_prop in Hr as [Hd Hr].
  cbn [encodeURIComponent]. by rewrite (Hw d Hd), IH.
Qed.

(** ** edit-budget-dialog.tsx *)

Definition enforcementModes : list string := ["report_only"; "block"; "degrade"].

(** The values of the form, after the coercions of the schema *)
Record BudgetForm := mkBudgetForm {
  bf_monthly_usd : option num;
  bf_timezone : string;
  bf_enabled : bool;
  bf_mode : string;
  bf_warn_pct_ui : num;
  bf_hard_pct_ui : num;
  bf_block_status : num;
  bf_degrade_route_group : string;
  bf_include_cost_in_error : bool;
  bf_tag_budgets_enabled : bool;
  bf_tag_budget_keys : string;
  bf_tag_budget_monthly_by_tag : string;
}.

Definition within (lo hi : Z) (n : num) : bool := (num_leb (num_of_Z lo) n && num_leb n (num_of_Z hi))%bool.

Definition budgetSchema (d : BudgetForm) : bool :=
  (match bf_monthly_usd d with Some n => num_leb num_zero n | None => true end &&
   existsb (String.eqb (bf_mode d)) enforcementModes &&
   within 0 100 (bf_warn_pct_ui d) && within 0 100 (bf_hard_pct_ui d) &&
   num_eqb (num_trunc (bf_block_status d)) (bf_block_status d) && within 100 599 (bf_block_status d) &&
   negb (num_leb (bf_hard_pct_ui d) (bf_warn_pct_ui d)) &&
   negb (String.eqb (bf_mode d) "degrade" && String.eqb (bf_degrade_route_group d) ""))%bool.

Definition newline : string := String (byte 10) "".

(** [JSON.stringify(v, null, 2)], at an indentation *)
Fixpoint json_pretty (indent : string) (v : js) : string :=
  let inner := indent ++ "  " in
  let block opening closing items :=
    match items with
    | [] => opening ++ closing
    | _ => opening ++ newline ++ inner ++ str_join ("," ++ newline ++ inner) items ++ newline ++ indent ++ closing
    end in
  match v with
  | JArr l => block "[" "]" (map (json_pretty inner) l)
  | JObj m =>
      block "{" "}" ((fix go (m : list (string * js)) : list string :=
                        match m with
                        | [] => []
                        | (k, x) :: m' => if is_undefined x then go m'
                                          else (json_quote k ++ ": " ++ json_pretty inner x) :: go m'
                        end) m)
  | _ => json_str v
  end.

(** [(v ?? d) * 100] *)
Definition as_pct (v : js) (d : num) : num :=
  num_mul (match v with JNum n => n | _ => d end) (num_of_Z 100).

Definition load_budget (config : js) : BudgetForm :=
  let be := opt_get config "budget_enforcement" in
  let tagBudgets := opt_get be "tag_budgets" in
  let budgets := opt_get config "budgets" in
  mkBudgetForm (match opt_get budgets "monthly_usd" with JNum n => Some n | _ => None end)
    (match opt_get budgets "timezone" with JStr "" => "UTC" | JStr z => z | _ => "UTC" end)
    (is_true (opt_get be "enabled"))
    (match opt_get be "mode" with JStr m => m | _ => "report_only" end)
    (as_pct (opt_get (opt_get be "thresholds") "warn_pct") (number_of_string "0.8"))
    (as_pct (opt_get (opt_get be "thresholds") "hard_pct") (num_of_Z 1))
    (match opt_get be "block_status" with JNum n => n | _ => num_of_Z 429 end)
    (text (opt_get be "degrade_route_group"))
    (is_true (opt_get be "include_cost_in_error"))
    (is_true (opt_get tagBudgets "enabled"))
    (str_join "," (texts (opt_get tagBudgets "keys")))
    (json_pretty "" (js_coalesce (opt_get tagBudgets "monthly_usd_by_tag") (JObj []))).

Definition routeGroups (config : js) : list string :=
  match opt_get (opt_get config "selection") "route_groups" with
  | JObj ((_ :: _) as m) => map fst m
  | _ => texts (opt_get config "route_groups")
  end.

Definition parseTagBudgetsMonthly (raw : string) : option obj :=
  if (String.eqb raw "" || String.eqb (str_trim raw) "")%bool then None
  else match json_parse raw with
       | None => None
       | Some json =>
           if nullish json then None
           else Some (fold_left (fun parsed kv =>
                        let n := js_to_number kv.2 in
                        if num_is_finite n then obj_set kv.1 (JNum n) parsed else parsed)
                      (GatewayClient.entries json) [])
       end.

Definition budget_patch (d : BudgetForm) : obj :=
  let pct n := JNum (num_div n (num_of_Z 100)) in
  [("budgets", JObj [("monthly_usd", match bf_monthly_usd d with Some n => JNum n | None => JUndef end);
                     ("timezone", JStr (bf_timezone d))]);
   ("budget_enforcement", JObj
     ([("enabled", JBool (bf_enabled d)); ("mode", JStr (bf_mode d));
       ("thresholds", JObj [("warn_pct", pct (bf_warn_pct_ui d)); ("hard_pct", pct (bf_hard_pct_ui d))]);
       ("include_cost_in_error", JBool (bf_include_cost_in_error d))] ++
      (if String.eqb (bf_mode d) "block" then [("block_status", JNum (bf_block_status d))] else []) ++
      (if String.eqb (bf_mode d) "degrade" then [("degrade_route_group", JStr (bf_degrade_route_group d))] else []) ++
      [("tag_budgets", JObj
         ([("enabled", JBool (bf_tag_budgets_enabled d));
           ("keys", JArr (map JStr (split_clean "," (bf_tag_budget_keys d))))] ++
          match parseTagBudgetsMonthly (bf_tag_budget_monthly_by_tag d) with
          | Some monthlyByTag => [("monthly_usd_by_tag", JObj monthlyByTag)]
          | None => []
          end))]))].

Definition submit_budget (tc : TenantConfig) (d : BudgetForm) : option (M js) :=
  if budgetSchema d then Some (submit_patch tc (budget_patch d)) else None.

(** Thresholds are shown as percentages and divided again when they are saved.  The product is
    not exact, and 0.57 is shown as 56.99999999999999; but the division takes every whole
    percentage back to the threshold that was stored. *)
Definition stored_threshold (n : nat) : num := num_div (num_of_Z (Z.of_nat n)) (num_of_Z 100).

#[local] Instance num_eq_decision : EqDecision num.
Proof. solve_decision. Defined.

Lemma whole_percentage_kept (n : nat) :
  n <= 100 -> num_div (as_pct (JNum (stored_threshold n)) num_zero) (num_of_Z 100) = stored_threshold n.
Proof.
  intros Hn. assert (H : forallb (fun n => bool_decide (num_div (as_pct (JNum (stored_threshold n)) num_zero) (num_of_Z 100) = stored_threshold n)) (List.seq 0 101) = true) by (vm_compute; reflexivity).
  rewrite forallb_forall in H. specialize (H n). rewrite in_seq in H. specialize (H ltac:(lia)).
  by apply bool_decide_eq_true in H.
Qed.

Lemma percentage_shown : num_to_string (as_pct (JNum (stored_threshold 57)) num_zero) = "56.99999999999999".
Proof. vm_compute. reflexivity. Qed.
