(* ===== verification/GlobalConfigView.v ===== *)
(** * What the global configuration page shows

    src/frontend/src/features/global-config/components: the cards of the sections, the inputs of their
    editors, the section that switches between the two, and the sections the page lists.  The summary, the
    editor of the whole document, the editor of the models and three sections that no page renders are
    modelled as they stand. *)

From stdpp Require Import list.
From S2P Require Import Prelude JsNumber JsText JsValue JsArray Json Effects GatewayClient UsageApi ConsoleClient SettingsPage GlobalStore GlobalConfigPage TenantDialogs.
Local Open Scope string_scope.

(** ** Fields of a card *)

(** A field that is not undefined: its label and its text *)
Definition shown_if (label : string) (text : js -> string) (v : js) : list (string * string) :=
  if is_undefined v then [] else [(label, text v)].
Definition number_text (v : js) : string := num_to_string (js_to_number v).
Definition with_unit (unit : string) (v : js) : string := number_text v ++ " " ++ unit.
Definition yes_no (v : js) : string := if truthy v then "Yes" else "No".
Definition enabled_text (v : js) : string := if truthy v then "Enabled" else "Disabled".
(** [o?.A ?? o?.a] *)
Definition either (o : js) (a b : string) : js := js_coalesce (opt_get o a) (opt_get o b).

Definition VersionStatusSection (config : js) (version : num) : list (string * string) :=
  [("Active Version", "v" ++ num_to_string version); ("Providers", Z_to_string (Z.of_nat (providers_count config)));
   ("Models", js_to_string (models_count config)); ("Circuit Breaker", backend_label (opt_get config "circuit_breaker"));
   ("Rate Limit", backend_label (opt_get config "rate_limit"))].

(** *** Routing infrastructure *)

Definition redis_fields (section : js) : list (string * string) :=
  let redis := either section "Redis" "redis" in
  (shown_if "Redis Address" js_to_string (either redis "Addr" "addr") ++ shown_if "DB" number_text (either redis "DB" "db") ++
   shown_if "Key Prefix" js_to_string (either redis "KeyPrefix" "key_prefix") ++
   shown_if "Fail Open" yes_no (either redis "FailOpen" "fail_open") ++
   shown_if "Dial Timeout" (with_unit "ms") (either redis "DialTimeoutMs" "dial_timeout_ms") ++
   shown_if "Op Timeout" (with_unit "ms") (either redis "OpTimeoutMs" "op_timeout_ms"))%list.
Definition backend_field (section : js) : list (string * string) := shown_if "Backend" js_to_string (backend_of section).
Definition rate_limit_card (rateLimit : js) : option (list (string * string)) :=
  if truthy rateLimit then Some (backend_field rateLimit ++ redis_fields rateLimit)%list else None.
Definition circuit_breaker_card (circuitBreaker : js) : option (list (string * string)) :=
  if truthy circuitBreaker
  then Some (backend_field circuitBreaker ++
             shown_if "Enabled" yes_no (either (either circuitBreaker "Defaults" "defaults") "Enabled" "enabled") ++
             redis_fields circuitBreaker)%list
  else None.
Definition RoutingInfraSection (config : js) : option (list (string * string)) * option (list (string * string)) :=
  (rate_limit_card (opt_get config "rate_limit"), circuit_breaker_card (opt_get config "circuit_breaker")).

(** *** Providers *)

Definition providerLogoMap : list (string * string) :=
  [("openai", "/openai_logo.png"); ("anthropic", "/anthropic_logo.png"); ("gemini", "/gemini_logo.png"); ("grok", "/grok_logo.png");
   ("local", "/local_logo.png"); ("xai", "/xai_logo.png")].
Record ProviderCard := mkProviderCard { pk_key : string; pk_fields : list (string * string); pk_logo : option string }.
Definition enabled_badge (v : js) : string := match v with JNull => "Yes (default)" | _ => yes_no v end.
Definition provider_card (key : string) (provider : js) : ProviderCard :=
  let f := opt_get provider in
  mkProviderCard key
    (shown_if "" js_to_string (f "Type") ++ shown_if "Base URL" js_to_string (f "BaseURL") ++
     shown_if "Credential Env Var" (fun v => ("$" ++ js_to_string v)%string) (f "APIKeyEnv") ++ shown_if "Enabled" enabled_badge (f "Enabled"))%list
    (map_get (str_lower key) providerLogoMap).
(** None: there is no provider, and the section says so *)
Definition ProvidersSection (config : js) : option (list ProviderCard) :=
  let providers := opt_get config "providers" in
  if negb (truthy providers) then None
  else match entries providers with [] => None | es => Some (map (fun e => provider_card e.1 e.2) es) end.

(** *** Authentication *)

Definition roleGroups : list (string * string) :=
  [("admin_roles", "Admin Roles"); ("local_admin_roles", "Local Admin Roles"); ("finance_roles", "Finance Roles");
   ("audit_roles", "Audit Roles"); ("user_roles", "User Roles")].
Definition role_badges (v : js) : list string := match v with JArr l => map js_to_string l | _ => [js_to_string v] end.
Record AuthCard := mkAuthCard { ac_fields : list (string * string); ac_claims : list (string * string); ac_roles : list (string * list string) }.
(** None: there is no authentication, and the section says so *)
Definition AuthRbacSection (config : js) : option AuthCard :=
  let auth := opt_get config "auth" in
  let jwt := opt_get auth "jwt" in
  let requiredClaims := opt_get jwt "required_claims" in
  let rbac := opt_get jwt "rbac" in
  if negb (truthy auth) then None
  else Some (mkAuthCard
    (shown_if "Auth Mode" js_to_string (opt_get auth "mode") ++ shown_if "JWT Issuer" js_to_string (opt_get jwt "issuer") ++
     shown_if "JWT Audience" js_to_string (opt_get jwt "audience") ++ shown_if "JWKS URL" js_to_string (opt_get jwt "jwks_url"))%list
    (if truthy requiredClaims
     then (shown_if "Tenant ID:" js_to_string (opt_get requiredClaims "tenant_id") ++
           shown_if "Roles:" js_to_string (opt_get requiredClaims "roles"))%list
     else [])
    (if truthy rbac
     then map (fun g => (g.2, role_badges (opt_get rbac g.1))) (List.filter (fun g => negb (is_undefined (opt_get rbac g.1))) roleGroups)
     else [])).

(** *** The model catalogue and the TTL *)

(** [globalQuery?.config?.models ?? config.models] *)
Definition section_models (cached config : js) : js := js_coalesce (opt_get (opt_get cached "config") "models") (opt_get config "models").
Definition ModelsSection (cached config : js) : option (list CatalogRow) :=
  match section_models cached config with
  | JArr (m :: l) => Some (map catalog_row (m :: l))
  | _ => None
  end.

Inductive TtlView := TtlShown (text : string) | TtlEditing (input : string) (error : option string) (equivalent : option string).
Definition DecisionOpsSection (config : js) (st : TtlState) : TtlView :=
  if tt_isEditing st
  then TtlEditing (tt_inputValue st) (tt_inputError st)
         (if ttl_valid (tt_inputValue st) then Some (formatTTL (parse_int (tt_inputValue st))) else None)
  else TtlShown (formatTTL (js_to_number (currentTTL config))).

(** ** The sections of the page *)

Definition section_titles (config : js) : list string :=
  (["Configuration Overview"; "Providers"; "Model Catalog"; "Routing Infrastructure"; "DecisionOps"] ++
   (if truthy (opt_get config "auth") then ["Authentication & RBAC"] else []) ++
   (if is_undefined (opt_get config "benchmarking") then [] else ["Benchmarking"]))%list.

(** A section with an editor: what is edited, while it is *)
Section Editing.
Context {S U : Type} (open : S) (save : S -> U) {E : Type} (edit : S -> E -> S).

Inductive section_event := OpenEditor | EditInput (e : E) | SaveEditor | CancelEditor.
(** The inputs and the two buttons below them are rendered while the section is edited. *)
Definition section_step (st : option S) (ev : section_event) : option S * option U :=
  match ev, st with
  | OpenEditor, None => (Some open, None)
  | EditInput e, Some s => (Some (edit s e), None)
  | SaveEditor, Some s => (None, Some (save s))
  | CancelEditor, Some s => (None, None)
  | _, _ => (st, None)
  end.
Fixpoint section_run (st : option S) (evs : list section_event) : option S * list U :=
  match evs with
  | [] => (st, [])
  | ev :: evs =>
      let '(st, sent) := section_step st ev in
      let '(st', more) := section_run st evs in
      (st', match sent with Some u => u :: more | None => more end)
  end.
End Editing.
Arguments section_event : clear implicits.
Arguments OpenEditor {E}.
Arguments EditInput {E} e.
Arguments SaveEditor {E}.
Arguments CancelEditor {E}.

(** *** The inputs of the editors *)

(** [parseInt(text) || d] and [parseFloat(text) || d] *)
Definition or_num (n : num) (d : Z) : js := if truthy (JNum n) then JNum n else js_of_Z d.
Definition int_or (d : Z) (text : string) : js := or_num (parse_int text) d.
Definition float_or (d : Z) (text : string) : js := or_num (parse_float text) d.
Definition is_true (text : string) : js := JBool (String.eqb text "true").

Definition redis_input (field text : string) : js :=
  if existsb (String.eqb field) ["DB"; "DialTimeoutMs"; "OpTimeoutMs"] then int_or 0 text
  else if String.eqb field "FailOpen" then is_true text else JStr text.
Definition defaults_input (field text : string) : js :=
  if String.eqb field "Enabled" then is_true text
  else if String.eqb field "FailureRateThreshold" then float_or 0 text else int_or 0 text.
Inductive infra_input := RateBackend (text : string) | RateRedis (field text : string) | BreakerBackend (text : string)
  | BreakerRedis (field text : string) | BreakerDefaults (field text : string).
Definition infra_change (e : infra_input) : infra_edit :=
  match e with
  | RateBackend text => RateLimitChange "Backend" text
  | RateRedis field text => RateLimitRedisChange field (redis_input field text)
  | BreakerBackend text => CircuitBreakerChange "Backend" text
  | BreakerRedis field text => CircuitBreakerRedisChange field (redis_input field text)
  | BreakerDefaults field text => CircuitBreakerDefaultsChange field (defaults_input field text)
  end.
(** What the inputs of a section show: the texts, the numbers and the choices *)
Definition infra_shown (edited : obj) (section part field : string) : js :=
  let v := opt_get (opt_get (opt_get (JObj edited) section) part) field in
  if existsb (String.eqb field) ["Addr"; "KeyPrefix"] then js_or v (JStr "")
  else if existsb (String.eqb field) ["FailOpen"; "Enabled"] then JStr (if truthy v then "true" else "false")
  else js_coalesce v (js_of_Z 0).

Inductive provider_input := ProviderField (key field text : string) | ProviderEnabled (key value : string).
Definition provider_change (prev : obj) (e : provider_input) : obj :=
  match e with
  | ProviderField key field text => handleProviderChange key field (JStr text) prev
  | ProviderEnabled key value => handleEnabledChange key value prev
  end.

Inductive rbac_input := RbMode (s : string) | RbIssuer (s : string) | RbAudience (s : string) | RbJwksUrl (s : string)
  | RbTenantIdClaim (s : string) | RbRolesClaim (s : string) | RbUserRoles (s : string) | RbAdminRoles (s : string)
  | RbFinanceRoles (s : string).
(** The fields below the mode are rendered while the mode uses tokens. *)
Definition rbac_change (f : RbacForm) (e : rbac_input) : RbacForm :=
  match f, e with
  | mkRbacForm m i a j t r u ad fi, RbMode s => mkRbacForm s i a j t r u ad fi
  | mkRbacForm m i a j t r u ad fi, _ =>
      if negb (isJwtEnabled f) then f
      else match e with
           | RbMode s => mkRbacForm s i a j t r u ad fi
           | RbIssuer s => mkRbacForm m s a j t r u ad fi
           | RbAudience s => mkRbacForm m i s j t r u ad fi
           | RbJwksUrl s => mkRbacForm m i a s t r u ad fi
           | RbTenantIdClaim s => mkRbacForm m i a j s r u ad fi
           | RbRolesClaim s => mkRbacForm m i a j t s u ad fi
           | RbUserRoles s => mkRbacForm m i a j t r s ad fi
           | RbAdminRoles s => mkRbacForm m i a j t r u s fi
           | RbFinanceRoles s => mkRbacForm m i a j t r u ad s
           end
  end.
Definition auth_run (auth : js) : list (section_event rbac_input) -> option RbacForm * list obj :=
  section_run (rbac_form auth) rbac_handleSave rbac_change None.

(** ** The raw document *)

Record JsonView := mkJsonView { jv_show : bool; jv_copied : bool; jv_clipboard : option string }.
Inductive json_event := ToggleJson | CopyJson | CopiedTimeout.
Definition json_step (config : js) (st : JsonView) (e : json_event) : JsonView :=
  match e with
  | ToggleJson => mkJsonView (negb (jv_show st)) (jv_copied st) (jv_clipboard st)
  | CopyJson => if jv_show st then mkJsonView true true (Some (json_pretty "" config)) else st
  | CopiedTimeout => mkJsonView (jv_show st) false (jv_clipboard st)
  end.
Definition GlobalConfigJsonView (config : js) (st : JsonView) : option string :=
  if jv_show st then Some (json_pretty "" config) else None.

(** ** Parts no page renders *)

(** The dialog of the whole document: what it sends, or the error it shows *)
Record DocDialog := mkDocDialog { dd_json : string; dd_error : option string }.
Definition doc_open (currentConfig : js) : DocDialog := mkDocDialog (json_pretty "" currentConfig) None.
Definition doc_handleSave (cached : js) (currentVersion : num) (pending : bool) (d : DocDialog) : DocDialog * option (js * js) :=
  if (pending || String.eqb (str_trim (dd_json d)) "")%bool then (d, None)
  else match json_parse (dd_json d) with
       | Some parsed => (mkDocDialog (dd_json d) None, Some (parsed, js_coalesce (opt_get cached "version") (JNum currentVersion)))
       | None => (mkDocDialog (dd_json d) (Some "Unexpected token in JSON"), None)
       end.

(** [getNestedValue(config, path)] *)
Fixpoint nested_value (current : js) (keys : list string) : js :=
  match keys with
  | [] => current
  | key :: keys => match current with
                   | JObj m => match obj_get key m with Some v => nested_value v keys | None => JUndef end
                   | _ => JUndef
                   end
  end.
Definition getNestedValue (config : js) (path : string) : js := nested_value config (str_split "." path).
Definition summary_part (config : js) (path title : string) (fields : js -> list (string * string))
  : list (string * list (string * string)) :=
  let part := getNestedValue config path in if truthy part then [(title, fields part)] else [].
Definition GlobalConfigSummary (config : js) : list (string * list (string * string)) :=
  let text label k o := shown_if label js_to_string (opt_get o k) in
  let choice label k o := shown_if label yes_no (opt_get o k) in
  let switch label k o := shown_if label enabled_text (opt_get o k) in
  (summary_part config "routing" "Routing" (fun o =>
     text "Strategy" "strategy" o ++ choice "Fallback Enabled" "fallback_enabled" o ++
     switch "Cost Optimizer" "cost_optimizer_enabled" o ++ text "Max Attempts" "max_attempts" o) ++
   summary_part config "benchmarking" "Benchmarking" (fun o =>
     choice "Enabled" "enabled" o ++ shown_if "Interval" (fun v => (js_to_string v ++ " min")%string) (opt_get o "interval_minutes") ++
     shown_if "Timeout" (fun v => (js_to_string v ++ " ms")%string) (opt_get o "timeout_ms") ++ text "Max Concurrency" "max_concurrency" o) ++
   summary_part config "semantic" "Semantic / Embeddings" (fun o =>
     choice "Enabled" "enabled" o ++ text "Embedding Model" "embedding_model" o ++
     text "Similarity Threshold" "similarity_threshold" o ++ choice "Cache Enabled" "cache_enabled" o) ++
   summary_part config "tool_routing" "Tool Routing" (fun o => choice "Enabled" "enabled" o ++ text "Threshold" "threshold" o) ++
   summary_part config "budget" "Budget / FinOps" (fun o =>
     shown_if "Default Monthly Budget" (fun v => ("$" ++ js_to_string v)%string) (opt_get o "default_monthly_usd") ++
     switch "Enforcement" "enforcement_enabled" o))%list.

Definition ConfigStatusSection (config : js) (version : num) : list (string * string) :=
  let dynamicConfig := opt_get config "dynamic_config" in
  ([("Active Version", ("v" ++ num_to_string version)%string); ("Dynamic Config", enabled_text (opt_get dynamicConfig "enabled"))] ++
   shown_if "Config Source" js_to_string (opt_get dynamicConfig "source") ++
   shown_if "Refresh Interval" (with_unit "ms") (opt_get dynamicConfig "refresh_interval_ms") ++
   shown_if "Cache TTL" (with_unit "ms") (opt_get dynamicConfig "cache_ttl_ms"))%list.
Definition ServerRuntimeSection (config : js) : list (string * string) :=
  let server := opt_get config "server" in
  let database := opt_get config "database" in
  (shown_if "Host" js_to_string (opt_get server "host") ++ shown_if "Port" number_text (opt_get server "port") ++
   shown_if "Request Timeout" (with_unit "ms") (opt_get server "request_timeout_ms") ++
   shown_if "DB Max Open Connections" number_text (opt_get database "max_open_conns") ++
   shown_if "DB Max Idle Connections" number_text (opt_get database "max_idle_conns"))%list.
(** None: benchmarking is not configured.  The fields, the integration with the routing, the request *)
Definition BenchmarkingSection (config : js) : option (list (string * string) * option (list (string * string)) * option string) :=
  let b := opt_get config "benchmarking" in
  let routingIntegration := opt_get b "routing_integration" in
  let request := opt_get b "request" in
  if negb (truthy b) then None
  else Some
    ((shown_if "Enabled" yes_no (opt_get b "enabled") ++ shown_if "Interval" (with_unit "min") (opt_get b "interval_minutes") ++
      shown_if "Timeout" (with_unit "ms") (opt_get b "timeout_ms") ++ shown_if "Max Concurrency" number_text (opt_get b "max_concurrency") ++
      shown_if "Fail Open" yes_no (opt_get b "fail_open") ++
      shown_if "Retain Days" (with_unit "days") (opt_get (opt_get b "storage") "retain_days"))%list,
     (if truthy routingIntegration
      then Some (shown_if "Enabled" yes_no (opt_get routingIntegration "enabled") ++
                 shown_if "Weight Latency" number_text (opt_get routingIntegration "weight_latency") ++
                 shown_if "Weight Error Rate" number_text (opt_get routingIntegration "weight_error_rate"))%list
      else None),
     if truthy request then Some (json_pretty "" request) else None).

(** The editor of the models *)
Record ModelsEditor := mkModelsEditor { me_models : list js; me_expanded : option nat }.
Definition new_model : js :=
  JObj [("Name", JStr ""); ("Provider", JStr ""); ("Type", JStr "");
        ("Pricing", JObj [("prompt_per_1m", js_of_Z 0); ("completion_per_1m", js_of_Z 0)]);
        ("Mock", JObj [("Enabled", JBool false); ("DelayMinMs", js_of_Z 0); ("DelayMaxMs", js_of_Z 0); ("ErrorRate", js_of_Z 0);
                       ("ErrorStatus", js_of_Z 500); ("ErrorMessage", JStr ""); ("FixedResponse", JStr "")])].
Definition mock_input (field text : string) : js :=
  if String.eqb field "Enabled" then is_true text
  else if existsb (String.eqb field) ["DelayMinMs"; "DelayMaxMs"] then int_or 0 text
  else if String.eqb field "ErrorRate" then float_or 0 text
  else if String.eqb field "ErrorStatus" then int_or 500 text
  else JStr text.
Definition set_below (part field : string) (v model : js) : js := set_field model part (set_field (opt_get model part) field v).
Inductive models_event := ModelChange (i : nat) (field text : string) | PricingChange (i : nat) (field text : string)
  | MockChange (i : nat) (field text : string) | AddModel | DeleteModel (i : nat) | ToggleMock (i : nat).
(** The inputs are those of the rows, so an index is that of a row; those of the mock are there for the
    expanded row alone. *)
Definition models_step (st : ModelsEditor) (e : models_event) : ModelsEditor :=
  let on_models f := mkModelsEditor (f (me_models st)) (me_expanded st) in
  match e with
  | ModelChange i field text =>
      if existsb (String.eqb field) ["Pricing"; "Mock"] then st else on_models (alter (fun m => set_field m field (JStr text)) i)
  | PricingChange i field text => on_models (alter (set_below "Pricing" field (float_or 0 text)) i)
  | MockChange i field text =>
      if decide (me_expanded st = Some i) then on_models (alter (set_below "Mock" field (mock_input field text)) i) else st
  | AddModel => on_models (fun l => l ++ [new_model])%list
  | DeleteModel i => on_models (fun l => delete i l)
  | ToggleMock i => mkModelsEditor (me_models st) (if decide (me_expanded st = Some i) then None else Some i)
  end.

(** ** Laws *)

Lemma texts_shown (l : list string) : map js_to_string (map JStr l) = l.
Proof. rewrite map_map. apply map_id. Qed.

(** What the section of the authentication shows of stored settings: every field, and the roles of
    administrators, local administrators, finance and users.  The roles of the auditors are stored as
    [auditor_roles] by the settings page, while the section looks for [audit_roles]: they are never shown. *)
Theorem auditors_never_shown (doc : obj) (a : AuthSettings) :
  obj_get "auth" doc = Some (settings_object a) ->
  AuthRbacSection (JObj doc) = Some (mkAuthCard
    [("Auth Mode", as_mode a); ("JWT Issuer", as_issuer a); ("JWT Audience", as_audience a); ("JWKS URL", as_jwks_url a)]
    [("Tenant ID:", as_tenant_claim a); ("Roles:", as_roles_claim a)]
    [("Admin Roles", as_admin_roles a); ("Local Admin Roles", as_local_admin_roles a); ("Finance Roles", as_finance_roles a);
     ("User Roles", as_user_roles a)]).
Proof.
  intros H. unfold AuthRbacSection. cbn [opt_get]. rewrite H. cbn. by rewrite !texts_shown.
Qed.

Definition is_save {E} (ev : section_event E) : bool := match ev with SaveEditor => true | _ => false end.
Section EditingLaws.
Context {S U E : Type} (open : S) (save : S -> U) (edit : S -> E -> S).

Lemma run_edits (s : S) (es : list E) (evs : list (section_event E)) :
  section_run open save edit (Some s) (map EditInput es ++ evs) = section_run open save edit (Some (fold_left edit es s)) evs.
Proof. revert s. induction es as [|e es IH]; intros s; [done|]. cbn. rewrite IH. by destruct (section_run open save edit _ evs). Qed.

(** No run hands over more updates than it has clicks on save. *)
Lemma run_sends (evs : list (section_event E)) (st : option S) :
  (List.length (section_run open save edit st evs).2 <= List.length (List.filter is_save evs))%nat.
Proof.
  revert st. induction evs as [|ev evs IH]; intros st; [done|]. cbn [section_run List.filter].
  pose proof (IH (section_step open save edit st ev).1) as H.
  destruct (section_step open save edit st ev) as [st' sent] eqn:Es. cbn [fst] in H. destruct (section_run open save edit st' evs) as [st'' more].
  cbn [snd] in *. destruct ev, st; injection Es as <- <-; cbn [is_save List.length]; lia.
Qed.

(** An editor that is opened, edited and saved hands over its edits applied to what it opened, once; one
    that is cancelled hands over nothing and starts again from what the section shows; and no run hands
    over more updates than it has clicks on save. *)
Theorem section_editor_exact (es es' : list E) (evs : list (section_event E)) (st : option S) :
  section_run open save edit None (OpenEditor :: map EditInput es ++ [SaveEditor]) = (None, [save (fold_left edit es open)]) /\
  section_run open save edit None (OpenEditor :: map EditInput es ++ CancelEditor :: OpenEditor :: map EditInput es' ++ [SaveEditor]) =
    (None, [save (fold_left edit es' open)]) /\
  (List.length (section_run open save edit st evs).2 <= List.length (List.filter is_save evs))%nat.
Proof.
  split_and!.
  - cbn. by rewrite run_edits.
  - cbn. rewrite run_edits. cbn. by rewrite run_edits.
  - apply run_sends.
Qed.
End EditingLaws.

(** The card of a provider in the form the gateway stores shows its type, address, variable and switch;
    nothing it shows depends on the stored credentials. *)
Theorem provider_card_hides_secrets (key : string) (pc pc' : ProviderConfig) :
  pc_Type pc = pc_Type pc' -> pc_BaseURL pc = pc_BaseURL pc' -> pc_APIKeyEnv pc = pc_APIKeyEnv pc' -> pc_Enabled pc = pc_Enabled pc' ->
  provider_card key (JObj (marshal_provider pc)) = provider_card key (JObj (marshal_provider pc')) /\
  pk_fields (provider_card key (JObj (marshal_provider pc))) =
    [("", pc_Type pc); ("Base URL", pc_BaseURL pc); ("Credential Env Var", "$" ++ pc_APIKeyEnv pc);
     ("Enabled", match pc_Enabled pc with None => "Yes (default)" | Some b => if b then "Yes" else "No" end)].
Proof.
  destruct pc as [t u k e ? ? ?], pc' as [t' u' k' e' ? ? ?]. cbn [pc_Type pc_BaseURL pc_APIKeyEnv pc_Enabled].
  intros -> -> -> ->. split; [|by destruct e' as [[]|]]. by destruct e'.
Qed.

(** The panel of a mock belongs to a row's place, not to its model: when a model above it is deleted, the
    panel shows, and edits, the next one. *)
Theorem deleted_model_moves_panel (st : ModelsEditor) (i j : nat) (field text : string) :
  me_expanded st = Some i -> (j <= i)%nat ->
  let st' := models_step st (DeleteModel j) in
  me_expanded st' = Some i /\ me_models st' !! i = me_models st !! S i /\
  me_models (models_step st' (MockChange i field text)) !! i =
    set_below "Mock" field (mock_input field text) <$> me_models st !! S i.
Proof.
  intros He Hj. cbn -[mock_input set_below]. rewrite He. split; [done|]. rewrite list_lookup_delete_ge by lia. split; [done|].
  rewrite decide_True by done. cbn -[mock_input set_below]. rewrite list_lookup_alter_eq.
  by rewrite list_lookup_delete_ge by lia.
Qed.
