(* ===== verification/ExplorerView.v ===== *)
(** * What the request explorer and the replay page show

    src/frontend/src/features/observability/components/request-explorer-dialog.tsx: the headers and rows of
    the table, the controls of the filters and of the pages, the drawer of a request and the dialog of its
    replay; request-logs-table.tsx, the same table on the observability page; and
    src/frontend/src/app/(app)/routing/replay/page.tsx from its guards down. *)

From S2P Require Import Prelude JsNumber JsText JsValue JsArray NumOrder Effects GatewayClient AdminPages UsageApi HealthView ObservabilityPage RoutingInsights RequestExplorer ReplayPage TenantDialogs.
Local Open Scope string_scope.

(** [v || d] and [v ?? d] in a cell *)
Definition text_or_dash (d : string) (v : js) : string := if truthy v then js_to_string v else d.
Definition given_or_dash (d : string) (v : js) : string := if nullish v then d else js_to_string v.
(** A value in JSX: undefined, null and booleans render nothing *)
Definition cell (v : js) : string := match v with JUndef | JNull | JBool _ => "" | _ => js_to_string v end.

Module Explorer.

Section WithDates.
Context (date_time : string -> num) (locale : string -> string).

(** ** Table *)

Inductive BadgeVariant := Default | Destructive | Secondary.
Definition getStatusVariant (status : string) : BadgeVariant :=
  if (String.eqb status "success" || String.eqb status "ok")%bool then Default
  else if String.eqb status "error" then Destructive else Secondary.
Inductive BadgeTone := Green | Red | Plain.
Definition getStatusBadgeClassName (status : string) : BadgeTone :=
  if (String.eqb status "success" || String.eqb status "ok")%bool then Green
  else if String.eqb status "error" then Red else Plain.
Definition SortHeader (field : LogSortField) (sort : LogSortField * SortDirection) : string :=
  if bool_decide (sort.1 = field) then match sort.2 with Asc => "↑" | Desc => "↓" end else "".

Definition timestamp_cell (row : js) : string :=
  match opt_get row "timestamp" with JStr t => formatTimestamp date_time locale t | _ => "-" end.
Definition status_cell (row : js) : string := statusLabel (str_of (opt_get row "status") "").
Definition fallback_cell (row : js) : string := if truthy (opt_get row "fallback_used") then "Yes" else "-".
Definition cache_cell (row : js) : string :=
  if truthy (opt_get row "cache_status") then TenantsPage.str_upper (js_to_string (opt_get row "cache_status")) else "-".
Definition request_cells (row : js) : list string :=
  let f k := cell (opt_get row k) in
  [timestamp_cell row; f "tenant_id"; f "model"; f "provider"; f "request_id"; f "strategy"; f "latency_ms"; status_cell row;
   fallback_cell row; cache_cell row].
(** The table of the observability page, which has no request id and no strategy, and shows the status and whatever
    the browser writes for the date as they are *)
Definition RequestLogsTable (logs : list js) : option (list (list string)) :=
  match logs with
  | [] => None
  | _ => Some (map (fun row => let f k := cell (opt_get row k) in
                    [locale (js_to_string (opt_get row "timestamp")); f "tenant_id"; f "model"; f "provider"; f "latency_ms"; f "status";
                     fallback_cell row; cache_cell row]) logs)
  end.

(** ** Controls *)

Definition filter_value (o : option string) : string := match truthy_env o with Some v => v | None => "all" end.
Definition filter_values (f : ViewFilters) : list string :=
  [filter_value (vf_tenant_id f); filter_value (vf_model f); filter_value (vf_provider f); filter_value (vf_status f);
   match vf_fallback_used f with None => "all" | Some true => "true" | Some false => "false" end;
   match truthy_env (vf_time_range f) with Some v => v | None => "24h" end].
(** Whether the two arrows can be used, and the text between them *)
Definition pager (currentPage pages : Z) : bool * string * bool :=
  (negb (currentPage =? 0)%Z, "Page " ++ Z_to_string (currentPage + 1) ++ " of " ++ Z_to_string pages, (currentPage <? pages - 1)%Z).

(** ** The drawer *)

Definition request_info (r : js) : list (string * string) :=
  let f k := cell (opt_get r k) in
  [("Request ID", f "request_id"); ("Timestamp", timestamp_cell r); ("Tenant", f "tenant_id"); ("Model", f "model");
   ("Provider", f "provider"); ("Strategy", f "strategy"); ("Status", status_cell r); ("Latency (ms)", f "latency_ms");
   ("Fallback", fallback_cell r); ("Attempt", given_or_dash "-" (opt_get r "attempt"))].
Definition diagnostics (r : js) : list (string * string) :=
  ([("Decision Reason", text_or_dash "—" (opt_get r "decision_reason")); ("Error Type", text_or_dash "—" (opt_get r "error_type"));
    ("PII Request Decision", text_or_dash "—" (opt_get r "pii_webhook_request_decision"));
    ("PII Response Decision", text_or_dash "—" (opt_get r "pii_webhook_response_decision"))] ++
   (match entries (opt_get r "metadata") with [] => [] | _ => [("Metadata", json_pretty "" (opt_get r "metadata"))] end))%list.
Definition candidates (selected : js) (models : js) : list (string * bool) :=
  match models with JArr l => map (fun m => (js_to_string m, same_value m selected)) l | _ => [] end.
Definition routing_details (d : js) : list (string * string) * list (string * bool) * list (string * string) :=
  let f k := text_or_dash "-" (opt_get d k) in
  ([("Selected Model", f "selected_model"); ("Provider", f "provider"); ("Routing Strategy", f "routing_strategy");
    ("Fallback Attempts", given_or_dash "-" (opt_get d "fallback_attempts"));
    ("Cost Optimizer", if truthy (opt_get d "cost_optimizer_applied") then "Yes" else "No")],
   candidates (opt_get d "selected_model") (opt_get d "candidate_models"),
   map (fun e => (e.1, cell e.2)) (entries (opt_get d "estimated_costs_usd"))).
Definition snapshots (r : js) : list (string * string) :=
  let part title k := if truthy (opt_get r k) then [(title, json_pretty "" (opt_get r k))] else [] in
  (part "Routing Snapshot (JSON)" "routing_snapshot" ++ part "Decision Snapshot (JSON)" "decision_snapshot")%list.
Record DrawerView := mkDrawerView {
  dv_info : list (string * string);
  dv_diagnostics : list (string * string);
  dv_routing : option (list (string * string) * list (string * bool) * list (string * string));
  dv_snapshots : list (string * string);
  dv_raw : option string;
  dv_replayError : option string;
}.
(** The drawer of the request that was selected, with the routing that was asked for *)
Definition drawer_view (d : Drawer) (selected : option js) (snapshotLoading : bool) (routingSnapshot : js) : option DrawerView :=
  if negb (dr_open d) then None
  else (fun r =>
    let details := opt_get routingSnapshot "routing_snapshot" in
    mkDrawerView (request_info r) (diagnostics r)
      (if (negb snapshotLoading && truthy details)%bool then Some (routing_details details) else None) (snapshots r)
      (if dr_showRaw d then Some (json_pretty "" (js_coalesce (opt_get r "raw_request") r)) else None) (dr_replayError d)) <$> selected.

Record CopyState := mkCopy { cp_clipboard : option string; cp_copied : bool }.
Definition handleCopyRequestId (request_id : js) (allowed : bool) (s : CopyState) : CopyState :=
  if (truthy request_id && allowed)%bool then mkCopy (Some (js_to_string request_id)) true else s.

(** ** The dialog of the replay *)

Definition cost_rows (replayData : js) : list (string * bool * string * string) :=
  let selected := replaySelectedModel replayData in
  let selectedCost := match replaySelectedCost replayData with JNum n => Some n | _ => None end in
  map (fun e => let is_sel := is_str selected e.1 in
         let cost := js_to_number e.2 in
         (e.1, is_sel, formatUsdCost cost, formatDeltaVsSelected cost selectedCost is_sel))
    (entries (opt_get (opt_get replayData "routing_snapshot") "estimated_costs_usd")).
Definition replay_fields (local : string -> Z * Z * Z * Z * Z * Z) (replayData : js) : list (string * string) :=
  let details := opt_get replayData "routing_snapshot" in
  [("Snapshot Time", formatSnapshotTimestamp date_time local (match opt_get details "timestamp" with JStr t => Some t | _ => None end));
   ("Selected Model", text_or_dash "-" (replaySelectedModel replayData));
   ("Provider", text_or_dash "-" (js_or (opt_get replayData "provider") (opt_get details "provider")));
   ("Routing Strategy", text_or_dash "-" (opt_get details "routing_strategy"))].
Record ReplayDialog := mkReplayDialog {
  rp_fields : list (string * string);
  rp_candidates : list (string * bool);
  rp_costs : list (string * bool * string * string);
  rp_reason : string;
  rp_snapshots : list (string * string);
}.
Definition replay_dialog (local : string -> Z * Z * Z * Z * Z * Z) (d : Drawer) : option ReplayDialog :=
  if negb (dr_modalOpen d) then None
  else (fun r =>
    let data := snd r in
    let part title k := if truthy (opt_get data k) then [(title, json_pretty "" (opt_get data k))] else [] in
    mkReplayDialog (replay_fields local data)
      (candidates (replaySelectedModel data) (opt_get (opt_get data "routing_snapshot") "candidate_models")) (cost_rows data)
      (text_or_dash "—" (opt_get data "decision_reason"))
      (part "Decision Snapshot" "decision_snapshot" ++ part "Routing Snapshot" "routing_snapshot_full")%list) <$> dr_replayed d.

End WithDates.
End Explorer.

Module Replay.

(** The access query: its outcome with the status of its error *)
Inductive Access := AccessLoading | AccessFailed (status : option Z) (message : string) | AccessGranted.

Record SnapshotView := mkSnapshotView {
  sv_fields : list (string * string);
  sv_candidates : list (string * bool);
  sv_json : option string;
}.
Record ReplayView := mkReplayView {
  rv_fields : list (string * string);
  rv_reason : string;
  rv_match : bool;
  rv_rows : list (string * string * string * bool);
  rv_routing : option string;
  rv_decision : option string;
  rv_json : option string;
}.
Record Page := mkReplayPage {
  pg_badge : string;
  pg_canLoad : bool;
  pg_canReplay : bool;
  pg_error : option string;
  pg_hint : bool;
  pg_skeletons : bool * bool;
  pg_snapshot : option SnapshotView;
  pg_replay : option ReplayView;
}.
Inductive PageView := ReplayWaiting | ReplayDenied | ReplayUnverified (message : string) | ReplayShown (page : Page).

(** A part that renders, or the TypeError of one that reads what is not there *)
Definition all_of {A B} (o : option A) (f : A -> option B) : option (option B) :=
  match o with None => Some None | Some a => Some <$> f a end.

(** None: a snapshot without its routing, or a routing whose candidates are no array, has no [map]. *)
Definition snapshot_view (locale : js -> string) (showJson : bool) (snapshot : js) : option SnapshotView :=
  let r := opt_get snapshot "routing_snapshot" in
  match opt_get r "candidate_models" with
  | JArr models =>
      let f k := cell (opt_get r k) in
      Some (mkSnapshotView
        [("Request ID", cell (opt_get snapshot "request_id")); ("Tenant", cell (opt_get snapshot "tenant_id")); ("Provider", f "provider");
         ("Selected Model", f "selected_model"); ("Route Group", f "route_group"); ("Routing Strategy", f "routing_strategy");
         ("Fallback Attempts", f "fallback_attempts"); ("Timestamp", locale (opt_get r "timestamp"))]
        (map (fun m => (cell m, same_value m (opt_get r "selected_model"))) models)
        (if showJson then Some (json_pretty "" snapshot) else None))
  | _ => None
  end.

Definition replay_view (showJson : bool) (snapshot : option js) (replay : js) : option ReplayView :=
  rows ← compareFields snapshot (Some replay);
  let f k := cell (opt_get replay k) in
  let shown v := if truthy v then Some (json_pretty "" v) else None in
  Some (mkReplayView [("Mode", f "mode"); ("Provider", f "provider"); ("Selected Model", f "selected_model"); ("Tenant", f "tenant_id")]
    (cell (replayDecisionReason (Some replay))) (forallb (fun row => same_value row.1.2 row.2) rows)
    (map (fun row => (row.1.1, cell row.1.2, cell row.2, same_value row.1.2 row.2)) rows)
    (shown (replayRoutingSnapshotForDiagnostics (Some replay))) (shown (opt_get replay "decision_snapshot"))
    (if showJson then Some (json_pretty "" replay) else None)).

(** None: the page throws while it renders *)
Definition ReplayPage (user refreshing : bool) (access : Access) (locale : js -> string) (showSnapshotJson showReplayJson : bool)
    (s : PageState) : option PageView :=
  if (user && refreshing)%bool then Some ReplayWaiting
  else match user, access with
       | true, AccessFailed status message =>
           Some (if match status with Some c => (c =? 403)%Z || (c =? 401)%Z | None => false end then ReplayDenied else ReplayUnverified message)
       | true, AccessLoading => Some ReplayWaiting
       | _, _ =>
           _ ← compareFields (p_snapshot s) (p_replay s);
           snap ← all_of (p_snapshot s) (snapshot_view locale showSnapshotJson);
           rep ← all_of (p_replay s) (replay_view showReplayJson (p_snapshot s));
           Some (ReplayShown (mkReplayPage (getStatusBadge s)
             (negb (p_loadingSnapshot s || String.eqb (str_trim (p_requestId s)) ""))
             (negb (p_loadingReplay s || match p_snapshot s with None => true | Some _ => false end)) (p_error s)
             (match p_snapshot s, p_error s with None, None => negb (p_loadingSnapshot s) | _, _ => false end)
             (p_loadingSnapshot s, p_loadingReplay s) snap rep))
       end.

End Replay.
Import Explorer Replay.

(** ** Laws *)

(** The two tables agree on a request with a date that can be read and a status other than ok: the row of the
    explorer with the request id and the strategy taken out. *)
Theorem tables_agree (date_time : string -> num) (locale : string -> string) (row : js) (timestamp status : string) :
  opt_get row "timestamp" = JStr timestamp -> timestamp <> "" -> num_is_nan (date_time timestamp) = false ->
  opt_get row "status" = JStr status -> status <> "ok" ->
  RequestLogsTable locale [row] =
    Some [match request_cells date_time locale row with
          | [t; te; m; p; _; _; l; s; f; c] => [t; te; m; p; l; s; f; c]
          | other => other
          end].
Proof.
  intros Ht Hne Hd Hs Hok. cbn. unfold status_cell, statusLabel, timestamp_cell, formatTimestamp. rewrite Ht, Hs. cbn.
  by rewrite (proj2 (String.eqb_neq _ _) Hok), (proj2 (String.eqb_neq _ _) Hne), Hd.
Qed.

(** The pager is in step with the buttons between its arrows: an arrow is offered exactly when the page it leads to
    is one of the pages of the answer. *)
Theorem pager_in_range (currentPage pages : Z) :
  (0 <= currentPage < pages)%Z ->
  let '(prev, _, next) := pager currentPage pages in
  (prev = true <-> In (currentPage - 1)%Z (pageButtons currentPage pages)) /\
  (next = true <-> In (currentPage + 1)%Z (pageButtons currentPage pages)).
Proof.
  intros H. unfold pager, pageButtons. rewrite !List.filter_In, <- !list_elem_of_In, !elem_of_seqZ.
  rewrite negb_true_iff, Z.eqb_neq, Z.ltb_lt, !andb_true_iff, !Z.leb_le. lia.
Qed.

(** What an answer must have for the page to render it *)
Definition renderable_snapshot (v : js) : Prop := exists models, opt_get (opt_get v "routing_snapshot") "candidate_models" = JArr models.
Definition renderable_replay (v : js) : Prop := nullish (opt_get v "routing_snapshot") = false.

Lemma snapshot_has_routing (v : js) : renderable_snapshot v -> nullish (opt_get v "routing_snapshot") = false.
Proof. intros [models H]. by destruct (opt_get v "routing_snapshot"). Qed.

Lemma all_of_renders {A B} (o : option A) (f : A -> option B) :
  (forall a, o = Some a -> is_Some (f a)) -> exists r, all_of o f = Some r /\ (r = None <-> o = None).
Proof.
  intros H. destruct o as [a|]; cbn; [|by exists None]. destruct (H a eq_refl) as [b ->]. by exists (Some b).
Qed.

Lemma compare_renders (snapshot replay : option js) :
  (forall v, snapshot = Some v -> renderable_snapshot v) -> (forall v, replay = Some v -> renderable_replay v) ->
  is_Some (compareFields snapshot replay).
Proof.
  intros Hs Hr. destruct snapshot as [sn|], replay as [rp|]; try by eexists.
  cbn. rewrite (snapshot_has_routing sn (Hs sn eq_refl)), (Hr rp eq_refl). by eexists.
Qed.

(** The replay page renders every state whose snapshot and replay carry their routing, and throws for a snapshot whose
    candidates are null, whatever else is on the page. *)
Theorem replay_page_renders (user : bool) (locale : js -> string) (showSnapshot showReplay : bool) (s : PageState) :
  ((forall v, p_snapshot s = Some v -> renderable_snapshot v) -> (forall v, p_replay s = Some v -> renderable_replay v) ->
   exists view, ReplayPage user false AccessGranted locale showSnapshot showReplay s = Some (ReplayShown view) /\
     (pg_snapshot view = None <-> p_snapshot s = None) /\ (pg_replay view = None <-> p_replay s = None)) /\
  (forall v, p_snapshot s = Some v -> opt_get (opt_get v "routing_snapshot") "candidate_models" = JNull ->
   ReplayPage user false AccessGranted locale showSnapshot showReplay s = None).
Proof.
  unfold ReplayPage. rewrite andb_false_r. split.
  - intros Hs Hr. destruct (compare_renders _ _ Hs Hr) as [rows Hrows].
    destruct (all_of_renders (p_snapshot s) (snapshot_view locale showSnapshot)) as (sv & Hsv & Hsn).
    { intros v Hv. destruct (Hs v Hv) as [models Hm]. unfold snapshot_view. rewrite Hm. by eexists. }
    destruct (all_of_renders (p_replay s) (replay_view showReplay (p_snapshot s))) as (rv & Hrv & Hrn).
    { intros v Hv. unfold replay_view. rewrite <- Hv, Hrows. by eexists. }
    rewrite Hrows, Hsv, Hrv. by destruct user; cbn; eexists.
  - intros v Hv Hc. rewrite Hv. cbn [all_of]. unfold snapshot_view. rewrite Hc.
    destruct user; cbn [mbind option_bind]; by destruct (compareFields _ _).
Qed.
