(* ===== verification/EntryDialogs.v ===== *)
(** * The dialogs of catalogues, API keys and route groups

    src/frontend/src/features/model-catalog, tool-catalog and route-groups, and the API key
    dialog of src/frontend/src/features/tenants/components: the forms with what fills them,
    their checks, and what they submit. *)

From S2P Require Import Prelude JsNumber JsText JsValue JsArray Json JsonRoundTrip Effects GatewayClient UsageApi ConsoleClient CatalogClient ConsoleFacts TenantDialogs.
Local Open Scope string_scope.

(** ** Amounts typed as text *)

(** [!Number.isFinite(v) || v < 0] of [parseFloat(text)] *)
Definition bad_price (text : string) : bool :=
  let v := parse_float text in negb (num_is_finite v) || num_ltb v num_zero.

Definition checks (l : list (bool * string)) : option string :=
  match List.find fst l with Some (_, message) => Some message | None => None end.

Definition blank (s : string) : bool := String.eqb (str_trim s) "".

(** ** The model catalogue *)

Record ModelEntryForm := mkModelEntry {
  me_id : string;
  me_provider : string;
  me_displayName : string;
  me_type : string;
  me_prompt : string;
  me_cached : string;
  me_completion : string;
  me_infra : string;
  me_isActive : js;
  me_longContext : js;
  me_longStart : string;
  me_longPrompt : string;
  me_longCached : string;
  me_longCompletion : string;
}.

Definition empty_model_entry : ModelEntryForm :=
  mkModelEntry "" "" "" "" "0" "0" "0" "0" (JBool true) (JBool false) "272000" "0" "0" "0".

Definition load_model_entry (entry : js) : ModelEntryForm :=
  if negb (truthy entry) then empty_model_entry
  else
    let t k := js_to_string (opt_get entry k) in
    mkModelEntry (t "id") (t "provider") (t "display_name") (t "type") (t "prompt_per_1m") (t "cached_input_per_1m")
      (t "completion_per_1m") (t "infrastructure_monthly_usd") (opt_get entry "is_active") (opt_get entry "long_context")
      (t "long_context_start_tokens") (t "long_context_prompt_per_1m") (t "long_context_cached_input_per_1m")
      (t "long_context_completion_per_1m").

(** [!Number.isFinite(v) || v <= 0], and the check of the tokens *)
Definition not_positive (v : num) : bool := negb (num_is_finite v) || num_leb v num_zero.
Definition bad_tokens (text : string) : bool :=
  let v := parse_int text in
  negb (num_is_finite v && num_eqb (num_floor v) v) || num_ltb v (num_of_Z 1).

Definition model_entry_error (f : ModelEntryForm) : option string :=
  let long := truthy (me_longContext f) in
  checks [(blank (me_id f), "Model ID is required"); (blank (me_provider f), "Provider is required");
          (String.eqb (me_type f) "", "Type is required");
          (bad_price (me_prompt f), "Prompt price must be 0 or greater");
          (bad_price (me_cached f), "Cached input price must be 0 or greater");
          (bad_price (me_completion f), "Completion price must be 0 or greater");
          (bad_price (me_infra f), "Infrastructure monthly cost must be 0 or greater");
          (long && bad_tokens (me_longStart f), "Long context start tokens must be a positive integer")%bool;
          (long && not_positive (parse_float (me_longPrompt f)), "Long context input price must be greater than 0")%bool;
          (long && not_positive (parse_float (me_longCompletion f)), "Long context output price must be greater than 0")%bool].

Definition model_entry_data (f : ModelEntryForm) : obj :=
  let amount t := JNum (parse_float t) in
  [("display_name", JStr (str_trim (me_displayName f))); ("type", JStr (me_type f));
   ("prompt_per_1m", amount (me_prompt f)); ("cached_input_per_1m", amount (me_cached f));
   ("completion_per_1m", amount (me_completion f)); ("infrastructure_monthly_usd", amount (me_infra f));
   ("is_active", me_isActive f); ("long_context", me_longContext f);
   ("long_context_start_tokens", JNum (parse_int (me_longStart f)));
   ("long_context_prompt_per_1m", amount (me_longPrompt f));
   ("long_context_cached_input_per_1m", amount (me_longCached f));
   ("long_context_completion_per_1m", amount (me_longCompletion f))].

(** The message, or what is sent: an update of the entry the dialog was opened with, or a new one *)
Definition model_entry_submit (entry : js) (f : ModelEntryForm) : string + M js :=
  match model_entry_error f with
  | Some message => inl message
  | None =>
      inr (if truthy entry
           then mutationFn useUpdateModelCatalogEntry
                  (mkEntryVars (js_to_string (opt_get entry "provider")) (js_to_string (opt_get entry "id")) (model_entry_data f))
           else mutationFn useCreateModelCatalogEntry
                  (("id", JStr (str_trim (me_id f))) :: ("provider", JStr (str_trim (me_provider f))) :: model_entry_data f))
  end.

(** ** The tool catalogue *)

Record ToolEntryForm := mkToolEntry {
  te_id : string;
  te_provider : string;
  te_displayName : string;
  te_toolType : string;
  te_unit : string;
  te_price : string;
  te_isActive : js;
}.

Definition load_tool_entry (entry : js) : ToolEntryForm :=
  if negb (truthy entry) then mkToolEntry "" "" "" "" "call" "0" (JBool true)
  else
    let t k := js_to_string (opt_get entry k) in
    mkToolEntry (t "id") (t "provider") (t "display_name") (t "tool_type")
      (js_to_string (js_or (opt_get entry "unit") (JStr "call"))) (t "price_per_unit") (opt_get entry "is_active").

Definition tool_entry_error (f : ToolEntryForm) : option string :=
  checks [(blank (te_id f), "Tool ID is required"); (blank (te_provider f), "Provider is required");
          (bad_price (te_price f), "Price per unit must be 0 or greater")].

Definition tool_entry_data (f : ToolEntryForm) : obj :=
  [("display_name", JStr (str_trim (te_displayName f))); ("tool_type", JStr (str_trim (te_toolType f)));
   ("unit", JStr (te_unit f)); ("price_per_unit", JNum (parse_float (te_price f))); ("is_active", te_isActive f)].

Definition tool_entry_submit (entry : js) (f : ToolEntryForm) : string + M js :=
  match tool_entry_error f with
  | Some message => inl message
  | None =>
      inr (if truthy entry
           then mutationFn useUpdateToolCatalogEntry
                  (mkEntryVars (js_to_string (opt_get entry "provider")) (js_to_string (opt_get entry "id")) (tool_entry_data f))
           else mutationFn useCreateToolCatalogEntry
                  (("id", JStr (str_trim (te_id f))) :: ("provider", JStr (str_trim (te_provider f))) :: tool_entry_data f))
  end.

(** ** API keys *)

Inductive ExpirationOption := Never | Days30 | Days90 | Custom.

Record KeyForm := mkKeyForm {
  kf_name : string;
  kf_scopes : list string;
  kf_expiration : ExpirationOption;
  kf_customDate : string;
}.
Definition empty_key_form : KeyForm := mkKeyForm "" ["inference"] Never "".

Section ApiKeys.
(** The moment a number of days later on the browser's calendar, and the moment a date input
    names; None is an invalid date, whose text is a RangeError. *)
Context (add_days : Z -> Z -> Z) (parse_date : string -> option Z).

Definition getExpiresAt (f : KeyForm) : M js :=
  match kf_expiration f with
  | Never => mret JNull
  | Custom => if String.eqb (kf_customDate f) "" then mret JNull
              else match parse_date (kf_customDate f) with
                   | Some ms => mret (JStr (iso_string ms))
                   | None => throw (JsError "Invalid time value")
                   end
  | Days30 => now ← date_now; mret (JStr (iso_string (add_days now 30)))
  | Days90 => now ← date_now; mret (JStr (iso_string (add_days now 90)))
  end.

Definition key_submit (tenantId : string) (f : KeyForm) : option (M js) :=
  if blank (kf_name f) then None
  else Some (expires_at ← getExpiresAt f;
             mutationFn useCreateTenantApiKey
               (mkKeyVars tenantId (str_trim (kf_name f)) (JArr (map JStr (kf_scopes f))) expires_at)).
End ApiKeys.

(** The key the page shows once *)
Definition created_key (data : js) : js := js_or (js_or (opt_get data "key") (opt_get data "api_key")) (JStr "").
Definition toggleScope (scope : string) (f : KeyForm) : KeyForm :=
  mkKeyForm (kf_name f) (toggle scope (kf_scopes f)) (kf_expiration f) (kf_customDate f).

(** ** Route groups *)

Definition create_group_submit (tenantId id : string) (selectedModels : list string) : string + M js :=
  if blank id then inl "Route group ID is required"
  else inr (mutationFn (useCreateRouteGroup tenantId) (str_trim id, selectedModels)).

Definition edit_group_load (routeGroup : js) : list js := js_array (js_or (opt_get routeGroup "models") (JArr [])).
Definition edit_group_submit (tenantId : string) (routeGroup : js) (selectedModels : list string) : option (M js) :=
  if negb (truthy routeGroup) then None
  else match js_or (opt_get routeGroup "version") (js_of_Z 1) with
       | JNum version => Some (mutationFn (useUpdateRouteGroup tenantId)
                                 (mkGroupVars (js_to_string (opt_get routeGroup "id")) selectedModels version))
       | _ => None
       end.

(** The page: the tenant that is chosen first, the group that is open, and the search *)
Record GroupsState := mkGroups { gs_tenant : option string; gs_group : option string }.
Definition tenants_arrived (tenants : list string) (st : GroupsState) : GroupsState :=
  match gs_tenant st, tenants with
  | None, t :: _ => mkGroups (Some t) None
  | _, _ => st
  end.
Definition choose_tenant (t : string) (st : GroupsState) : GroupsState :=
  match gs_tenant st with
  | Some t' => if String.eqb t t' then st else mkGroups (Some t) None
  | None => mkGroups (Some t) None
  end.
Definition choose_group (g : string) (st : GroupsState) : GroupsState := mkGroups (gs_tenant st) (Some g).

Definition group_matches (searchQuery : string) (group : js) : bool :=
  let has v := str_includes (str_lower searchQuery) (str_lower (js_to_string v)) in
  has (opt_get group "id") || existsb has (js_array (js_or (opt_get group "models") (JArr []))).

(** ** What an accepted form sends *)

Lemma checks_none (l : list (bool * string)) : checks l = None <-> Forall (fun c => c.1 = false) l.
Proof.
  unfold checks. induction l as [|[[] m] l IH]; cbn [List.find fst]; [by split|..].
  - split; [done|]. intros H. by apply List.Forall_cons_iff in H as [].
  - rewrite List.Forall_cons_iff, IH. cbn. tauto.
Qed.

Definition amount_ok (v : js) : Prop := exists n, v = JNum n /\ num_is_finite n = true /\ num_ltb n num_zero = false.

Lemma good_price (text : string) : bad_price text = false -> amount_ok (JNum (parse_float text)).
Proof.
  unfold bad_price, amount_ok. intros H. exists (parse_float text).
  destruct (num_is_finite _); [|done]. by destruct (num_ltb _ _).
Qed.

(** A catalogue entry with its amounts, as the gateway holds it *)
Record ModelEntry := mkEntry {
  en_id : string;
  en_provider : string;
  en_display_name : string;
  en_type : string;
  en_prompt : num;
  en_cached : num;
  en_completion : num;
  en_infra : num;
  en_is_active : bool;
  en_long : bool;
  en_long_start : num;
  en_long_prompt : num;
  en_long_cached : num;
  en_long_completion : num;
}.

Definition entry_fields (e : ModelEntry) : obj :=
  [("display_name", JStr (en_display_name e)); ("type", JStr (en_type e)); ("prompt_per_1m", JNum (en_prompt e));
   ("cached_input_per_1m", JNum (en_cached e)); ("completion_per_1m", JNum (en_completion e));
   ("infrastructure_monthly_usd", JNum (en_infra e)); ("is_active", JBool (en_is_active e));
   ("long_context", JBool (en_long e)); ("long_context_start_tokens", JNum (en_long_start e));
   ("long_context_prompt_per_1m", JNum (en_long_prompt e)); ("long_context_cached_input_per_1m", JNum (en_long_cached e));
   ("long_context_completion_per_1m", JNum (en_long_completion e))].
Definition entry_object (e : ModelEntry) : js := JObj (("id", JStr (en_id e)) :: ("provider", JStr (en_provider e)) :: entry_fields e).

(** A number whose text names it, which every number is up to the limits of the printer *)
Definition text_names (read : string -> num) (n : num) : Prop := read (num_to_string n) = n.

Definition entry_ok (e : ModelEntry) : Prop :=
  blank (en_id e) = false /\ blank (en_provider e) = false /\ en_type e <> "" /\ str_trim (en_display_name e) = en_display_name e /\
  Forall (text_names parse_float) [en_prompt e; en_cached e; en_completion e; en_infra e; en_long_prompt e; en_long_cached e; en_long_completion e] /\
  text_names parse_int (en_long_start e) /\
  Forall (fun n => num_is_finite n = true /\ num_ltb n num_zero = false) [en_prompt e; en_cached e; en_completion e; en_infra e] /\
  (en_long e = true -> bad_tokens (num_to_string (en_long_start e)) = false /\
                       not_positive (en_long_prompt e) = false /\ not_positive (en_long_completion e) = false).

(** The model catalogue dialog.  An entry that is opened and saved without an edit sends one
    update to its own address with exactly the fields it had; and whatever is typed, a form that is
    accepted has a name, a provider and a type, its four prices are finite and not negative, and
    with a long context its limit is a positive integer and its two prices are positive. *)
Theorem catalog_entry_saved (e : ModelEntry) (entry : js) (f : ModelEntryForm) (run : M js) :
  entry_ok e ->
  model_entry_submit (entry_object e) (load_model_entry (entry_object e))
    = inr (mutationFn useUpdateModelCatalogEntry (mkEntryVars (en_provider e) (en_id e) (entry_fields e))) /\
  (model_entry_submit entry f = inr run ->
     blank (me_id f) = false /\ blank (me_provider f) = false /\ me_type f <> "" /\
     Forall (fun k => amount_ok (opt_get (JObj (model_entry_data f)) k))
       ["prompt_per_1m"; "cached_input_per_1m"; "completion_per_1m"; "infrastructure_monthly_usd"] /\
     (truthy (me_longContext f) = true ->
        bad_tokens (me_longStart f) = false /\ not_positive (parse_float (me_longPrompt f)) = false /\
        not_positive (parse_float (me_longCompletion f)) = false)).
Proof.
  intros (Hid & Hp & Ht & Hd & Hn & Hs & Ha & Hl). split.
  - repeat (apply List.Forall_cons_iff in Hn as [? Hn]). repeat (apply List.Forall_cons_iff in Ha as [[??] Ha]).
    unfold text_names in *.
    assert (He : model_entry_error (load_model_entry (entry_object e)) = None).
    { apply checks_none. unfold load_model_entry, entry_object, entry_fields, bad_price.
      cbn [truthy negb opt_get obj_get String.eqb Ascii.eqb Bool.eqb js_to_string me_id me_provider me_type me_prompt me_cached
           me_completion me_infra me_longContext me_longStart me_longPrompt me_longCompletion].
      repeat match goal with H : parse_float _ = _ |- _ => rewrite H end.
      assert (Ht' : String.eqb (en_type e) "" = false) by (by apply String.eqb_neq).
      repeat (apply List.Forall_cons; cbn [fst]); try done.
      1-4: repeat match goal with H : num_is_finite _ = true |- _ => rewrite H end;
           repeat match goal with H : num_ltb _ _ = false |- _ => rewrite H end; done.
      all: destruct (en_long e); [|done]; destruct (Hl eq_refl) as (? & ? & ?); done. }
    unfold model_entry_submit. rewrite He. do 2 f_equal.
    unfold model_entry_data, load_model_entry, entry_object, entry_fields.
    cbn [truthy negb opt_get obj_get String.eqb Ascii.eqb Bool.eqb js_to_string me_displayName me_type me_prompt me_cached
         me_completion me_infra me_isActive me_longContext me_longStart me_longPrompt me_longCached me_longCompletion].
    repeat match goal with H : parse_float _ = _ |- _ => rewrite H end. by rewrite Hs, Hd.
  - unfold model_entry_submit. destruct (model_entry_error f) eqn:E; [done|]. intros _.
    apply checks_none in E. repeat (apply List.Forall_cons_iff in E as [? E]). cbn [fst] in *.
    repeat split; try done; [by apply String.eqb_neq| |by destruct (truthy _)..].
    repeat constructor; by apply good_price.
Qed.

Definition demo_entry : ModelEntry :=
  mkEntry "gpt-4o" "openai" "GPT-4o" "llm" (number_of_string "2.5") (number_of_string "1.25") (num_of_Z 10) num_zero true true
    (num_of_Z 272000) (num_of_Z 5) (num_of_Z 2) (num_of_Z 20).

Lemma catalog_entry_saved_witness :
  model_entry_submit (entry_object demo_entry) (load_model_entry (entry_object demo_entry))
    = inr (mutationFn useUpdateModelCatalogEntry (mkEntryVars "openai" "gpt-4o" (entry_fields demo_entry))).
Proof.
  refine (proj1 (catalog_entry_saved demo_entry JUndef empty_model_entry (mret JUndef) _)).
  repeat split; try reflexivity; try discriminate; repeat constructor.
Defined.

(** The price of cached input in a long context is not checked: a negative one is accepted, and
    an emptied one is sent as null. *)
Theorem long_cached_price_unchecked :
  let form text := mkModelEntry "m" "p" "" "llm" "1" "1" "1" "0" (JBool true) (JBool true) "1000" "2" text "4" in
  model_entry_error (form "-3") = None /\ model_entry_error (form "") = None /\
  opt_get (JObj (model_entry_data (form "-3"))) "long_context_cached_input_per_1m" = JNum (num_of_Z (-3)) /\
  opt_get (on_wire (JObj (model_entry_data (form "")))) "long_context_cached_input_per_1m" = JNull.
Proof. repeat split; reflexivity. Qed.

(** A key with a custom expiry and no date never expires. *)
Theorem custom_without_date_never_expires (add_days : Z -> Z -> Z) (parse_date : string -> option Z)
    (name : string) (scopes : list string) (w : World) (s : State) :
  getExpiresAt add_days parse_date (mkKeyForm name scopes Custom "") w s
  = getExpiresAt add_days parse_date (mkKeyForm name scopes Never "") w s.
Proof. reflexivity. Qed.

(** Creating a route group under a name that is taken overwrites that group: the two operations
    of the gateway client do the same. *)
Theorem create_overwrites_group (tenantId g : string) (models : js) (tok : option string) (w : World) (s : State) :
  createRouteGroupInTenantConfig tenantId g models tok w s = updateRouteGroupInTenantConfig tenantId g models tok w s.
Proof. reflexivity. Qed.

(** Choosing another tenant always closes the group that was open. *)
Lemma tenant_closes_group (t : string) (st : GroupsState) :
  gs_tenant (choose_tenant t st) = Some t /\ (gs_tenant st <> Some t -> gs_group (choose_tenant t st) = None).
Proof.
  unfold choose_tenant. destruct st as [[t'|] g]; cbn; [|done].
  destruct (String.eqb_spec t t') as [->|]; cbn; split; done.
Qed.
