(* ===== verification/TenantDetail.v ===== *)
(** * The details of a tenant

    src/frontend/src/features/tenants/components: the panel that shows a tenant's configuration
    section by section, its form of the Claude Code settings, the dialog of the output limit, and
    the table of API keys with the dialogs that rotate and revoke a key. *)

From S2P Require Import Prelude JsNumber JsText JsValue JsArray Json JsonRoundTrip Effects UsageApi ConsoleClient CatalogClient ConsoleFacts AdminPages RoutingPage TenantStore TenantDialogs.
Local Open Scope string_scope.

(** ** Rows of a section: a label with the text beside it *)

Definition row : Type := string * string.
Definition js_text (v : js) : string := js_to_string v.

(** *** tenant-routing-section.tsx *)

Definition STRATEGY_LABELS : list (string * string) :=
  [("smart", "Smart"); ("round_robin", "Round Robin"); ("latency", "Latency"); ("cost", "Cost"); ("header", "Header");
   ("decision_ops", "DecisionOps")].

(** A list of names is shown when it has some. *)
Definition badges (label : string) (names : js) : list row :=
  match names with JArr ((_ :: _) as l) => map (fun v => (label, js_text v)) l | _ => [] end.

Definition split_rows (trafficSplit : js) : list row :=
  match trafficSplit with
  | JObj ((_ :: _) as groups) =>
      flat_map (fun g => ("Traffic Split", g.1) ::
                  map (fun s => (js_text (opt_get s "model"), js_text (opt_get s "weight") ++ "%")) (js_array g.2)) groups
  | _ => [("Traffic Split", "No traffic split configured")]
  end.

Definition TenantRoutingSection (routingStrategy defaultRouteGroup allowedModels routeGroups trafficSplit : js) : list row :=
  [("Routing Strategy", if truthy routingStrategy
                        then default (js_text routingStrategy) (map_get (js_text routingStrategy) STRATEGY_LABELS)
                        else "Not configured")] ++
  (if is_str routingStrategy "decision_ops" then []
   else [("Default Route Group", if truthy defaultRouteGroup then js_text defaultRouteGroup else "None (all allowed models)")]) ++
  badges "Allowed Models" allowedModels ++ badges "Route Groups" routeGroups ++ split_rows trafficSplit.

(** *** tenant-features-section.tsx, tenant-security-section.tsx, tenant-rate-limit-section.tsx *)

Definition enabled_text (b : bool) : string := if b then "Enabled" else "Disabled".

Definition TenantFeaturesSection (config : js) : list row :=
  [("Semantic Routing", enabled_text (getSemanticRoutingEnabled config));
   ("Semantic Cache", enabled_text (is_true (opt_get (opt_get config "semantic_cache") "enabled")));
   ("Tool Routing", enabled_text (getToolRoutingEnabled config));
   ("Budget Enforcement", enabled_text (is_true (opt_get (opt_get config "budget_enforcement") "enabled")))].

Definition TenantSecuritySection (externalPii : js) : list row :=
  if negb (is_true (opt_get externalPii "enabled")) then [("External PII Webhook", "Disabled")]
  else [("External PII Webhook", "Enabled");
        ("Request URL", js_text (js_or (opt_get externalPii "request_url") (JStr "—")));
        ("Response URL", js_text (js_or (opt_get externalPii "response_url") (JStr "—")));
        ("Timeout (ms)", js_text (js_coalesce (opt_get externalPii "timeout_ms") (js_of_Z 3000)) ++ " ms");
        ("Failure Policy", if is_str (opt_get externalPii "failure_policy") "deny" then "Deny" else "Accept")].

Definition TenantRateLimitSection (rateLimit : js) : list row :=
  if negb (truthy rateLimit) then [("", "No rate limit configured")]
  else [("Requests per Minute (RPM)", js_text (opt_get rateLimit "rpm")); ("Burst", js_text (opt_get rateLimit "burst"));
        ("Scope", js_text (opt_get rateLimit "scope"))].

(** *** The budget, the environment and the output limit of tenant-config-detail.tsx *)

Definition hundred (v : num) : num := num_mul v (num_of_Z 100).
Definition threshold (enforcement : js) (k : string) (d : num) : string :=
  to_fixed 0 (hundred (num_of (opt_get (opt_get enforcement "thresholds") k) d)) ++ "%".

Definition budget_rows (config : js) : list row :=
  let budgets := opt_get config "budgets" in
  let enforcement := opt_get config "budget_enforcement" in
  [("Monthly Budget", if is_undefined (opt_get budgets "monthly_usd") then "No budget configured"
                      else "$" ++ js_text (opt_get budgets "monthly_usd"))] ++
  (if truthy (opt_get budgets "timezone") then [("Timezone", js_text (opt_get budgets "timezone"))] else []) ++
  [("Enabled", enabled_text (truthy (opt_get enforcement "enabled")));
   ("Mode", js_text (js_coalesce (opt_get enforcement "mode") (JStr "report_only")));
   ("Warn %", threshold enforcement "warn_pct" (number_of_string "0.8"));
   ("Hard %", threshold enforcement "hard_pct" (num_of_Z 1))].

Definition pct_text (o : option num) : string :=
  match o with Some v => to_fixed 0 (hundred v) ++ "%" | None => "—" end.
Definition runtime_rows (loading : bool) (error : option exn) (status : option TenantBudgetStatus) : option (list row) :=
  if loading then None
  else Some (match error, status with
             | Some _, _ => [("Runtime Status", "Could not load budget runtime status")]
             | None, Some b =>
                 [("Runtime Status", "$" ++ to_fixed 2 (bs_spend_usd b) ++ " / $" ++ to_fixed 2 (bs_budget_usd b) ++
                                     " (" ++ to_fixed 1 (hundred (bs_pct b)) ++ "%)");
                  ("Mode", default "—" (bs_enforcement_mode b)); ("Warn", pct_text (bs_warn_pct b)); ("Hard", pct_text (bs_hard_pct b))]
             | None, None => [("Runtime Status", "No runtime status available")]
             end).

(** [environment] is the one beside the configuration *)
Definition environment_text (environment config : js) : string :=
  js_text (js_or (js_or environment (opt_get config "environment")) (JStr "—")).

(** [(max_output_tokens ?? 0) === 0 ? 'Unlimited' : String(max_output_tokens)] *)
Definition output_text (config : js) : string :=
  match js_coalesce (opt_get config "max_output_tokens") (JNum num_zero) with
  | JNum n => if num_eqb n num_zero then "Unlimited" else num_to_string n
  | v => js_text v
  end.

(** *** The form of the Claude Code settings *)

Definition CC_DEFAULT_TIMEZONE : string := "America/Buenos_Aires".
Record ClaudeForm := mkClaudeForm { cc_enabled : js; cc_budget : string; cc_timezone : js }.

Definition load_claude (config : js) : ClaudeForm :=
  let cc := opt_get config "claude_code" in
  mkClaudeForm (js_coalesce (opt_get cc "enabled") (JBool false))
    (js_to_string (js_coalesce (opt_get cc "monthly_budget") (JNum num_zero)))
    (js_coalesce (opt_get cc "timezone") (JStr CC_DEFAULT_TIMEZONE)).

Definition claude_budget (text : string) : num :=
  let v := parse_float text in if (num_is_nan v || num_ltb v num_zero)%bool then num_zero else v.
Definition claude_patch (f : ClaudeForm) : obj :=
  [("claude_code", JObj [("enabled", cc_enabled f); ("monthly_budget", JNum (claude_budget (cc_budget f)));
                         ("timezone", cc_timezone f)])].
Definition handleClaudeCodeSave (tc : option TenantConfig) (f : ClaudeForm) : option (M js) :=
  match tc with Some c => Some (submit_patch c (claude_patch f)) | None => None end.

(** The licence is asked for once; every refusal reads as none. *)
Definition claudeCodeLicense : M bool := res ← page_get "/api/providers/claude-code"; mret (res_ok res).

(** ** edit-output-limit-dialog.tsx *)

(** [reset({ max_output_tokens: raw != null ? Number(raw) : 0 })] *)
Definition load_output_limit (config : js) : num :=
  let raw := opt_get config "max_output_tokens" in if nullish raw then num_zero else js_to_number raw.
(** The schema: a number that is an integer and not below 0 *)
Definition outputLimitSchema (n : num) : bool :=
  (num_is_finite n && num_eqb (num_floor n) n && num_leb num_zero n)%bool.
Definition output_limit_patch (n : num) : obj := [("max_output_tokens", JNum n)].
Definition submit_output_limit (tc : option TenantConfig) (text : string) : option (M js) :=
  let n := number_of_string text in
  match tc with
  | Some c => if outputLimitSchema n then Some (submit_patch c (output_limit_patch n)) else None
  | None => None
  end.

(** ** api-keys-table.tsx *)

Inductive KeyStatus := KeyActive | KeyRevoked | KeyExpired.

Section KeysTable.
(** The moment of a date's text, None for an invalid one; the date in the browser's locale *)
Context (parse_date : string -> option Z) (locale_date : string -> string).

(** A comparison with an invalid date is false. *)
Definition getStatus (now : Z) (k : js) : KeyStatus :=
  if truthy (opt_get k "revoked_at") then KeyRevoked
  else if (truthy (opt_get k "expires_at") &&
           match parse_date (js_text (opt_get k "expires_at")) with Some t => (t <? now)%Z | None => false end)%bool then KeyExpired
  else KeyActive.

Definition ago (n : Z) (unit : string) : string := Z_to_string n ++ " " ++ unit ++ (if (1 <? n)%Z then "s" else "") ++ " ago".
Definition relative (diff : Z) : option string :=
  let mins := (diff / 60000)%Z in
  let hours := (diff / 3600000)%Z in
  let days := (diff / 86400000)%Z in
  if (mins <? 1)%Z then Some "Just now"
  else if (mins <? 60)%Z then Some (Z_to_string mins ++ " min ago")
  else if (hours <? 24)%Z then Some (ago hours "hour")
  else if (days <? 7)%Z then Some (ago days "day")
  else None.
Definition formatDate (now : Z) (v : js) : string :=
  if negb (truthy v) then "Never"
  else match parse_date (js_text v) with
       | Some t => default (locale_date (js_text v)) (relative (now - t))
       | None => locale_date (js_text v)
       end.
Definition formatExpiration (v : js) : string := if truthy v then locale_date (js_text v) else "Never".

Record KeyRow := mkKeyRow {
  kr_id : string;
  kr_cells : list string;
  kr_scopes : list string;
  kr_status : KeyStatus;
  kr_actions : bool;
}.
Definition key_row (now : Z) (k : js) : KeyRow :=
  let status := getStatus now k in
  mkKeyRow (js_text (js_or (opt_get k "id") (JStr "")))
    [js_text (opt_get k "name"); js_text (opt_get k "prefix") ++ "***"; formatDate now (opt_get k "created_at");
     formatDate now (opt_get k "last_used_at"); formatExpiration (opt_get k "expires_at")]
    (match opt_get k "scopes" with JArr ((_ :: _) as l) => map js_text l | _ => ["All"] end)
    status (match status with KeyActive => true | _ => false end).
End KeysTable.

(** The section of the keys *)
Inductive AccessView := AvLoading | AvError (message : string) | AvEmpty | AvTable (keys : list js).
Definition TenantAccessSection (isLoading : bool) (error : option exn) (apiKeys : js) : AccessView :=
  if isLoading then AvLoading
  else match error, apiKeys with
       | Some e, _ => AvError (exn_message e)
       | None, JArr ((_ :: _) as l) => AvTable l
       | None, _ => AvEmpty
       end.

(** The section of the usage; [locale] and [currency] are the formats of Intl *)
Inductive UsageView := UvLoading | UvError (message : string) | UvNone | UvShown (rows : list row).
Definition TenantUsageSection (locale currency : num -> string) (isLoading : bool) (error : option exn) (usage : js) : UsageView :=
  if isLoading then UvLoading
  else match error with
       | Some e => UvError (exn_message e)
       | None => if truthy usage
                 then let n k := js_to_number (opt_get usage k) in
                      UvShown [("Current Month", js_text (opt_get usage "month")); ("Requests", locale (n "requests"));
                               ("Tokens", locale (n "tokens")); ("Cost", currency (n "cost_usd"))]
                 else UvNone
       end.

(** ** The panel *)

(** The answers of the three queries of the panel *)
Record PanelQueries := mkPanelQueries {
  pq_budget : bool * option exn * option TenantBudgetStatus;
  pq_keys : bool * option exn * js;
  pq_usage : bool * option exn * js;
}.

(** The environment's colour *)
Definition getEnvironmentBadgeClass (env : js) : string :=
  let e := TenantsPage.str_upper (js_text (js_or env (JStr ""))) in
  if String.eqb e "DEV" then "bg-green-100 text-green-800 border-green-200"
  else if String.eqb e "STAGING" then "bg-blue-100 text-blue-800 border-blue-200"
  else if String.eqb e "PROD" then "bg-red-100 text-red-800 border-red-200"
  else "".

Inductive TenantDetail :=
| TdLoading
| TdSelect
| TdShown (sections : list (string * list row)) (runtime : option (list row)) (claude : option ClaudeForm) (access : AccessView)
    (usage : UsageView).

Section Panel.
Context (locale currency : num -> string).
Definition TenantConfigDetail (isLoading : bool) (tc : option TenantConfig) (environment : js) (licensed : bool)
    (form : ClaudeForm) (q : PanelQueries) : TenantDetail :=
  if isLoading then TdLoading
  else match tc with
       | None => TdSelect
       | Some c =>
           let config := tc_config c in
           let routing := opt_get config "routing" in
           let '(budgetLoading, budgetError, budgetStatus) := pq_budget q in
           let '(keysLoading, keysError, apiKeys) := pq_keys q in
           let '(usageLoading, usageError, usage) := pq_usage q in
           TdShown
             [("Summary", [("Tenant ID", tc_tenant_id c); ("Config Version", num_to_string (tc_version c))]);
              ("Environment", [("", environment_text environment config)]); ("Budget", budget_rows config);
              ("Routing", TenantRoutingSection
                 (js_coalesce (opt_get routing "strategy") (opt_get config "routing_strategy")) (opt_get routing "route_group")
                 (opt_get config "allowed_models") (opt_get config "route_groups") (opt_get config "traffic_split"));
              ("Features", TenantFeaturesSection config);
              ("Security", TenantSecuritySection (opt_get (opt_get (opt_get config "hooks") "global") "external_pii"));
              ("Rate Limit", TenantRateLimitSection (opt_get config "rate_limit"));
              ("Output Limit", [("LLM maximum output tokens:", output_text config)]);
              ("Traffic Split", if truthy (opt_get config "traffic_split") then [] else [("", "No traffic split configured")])]
             (runtime_rows budgetLoading budgetError budgetStatus) (if licensed then Some form else None)
             (TenantAccessSection keysLoading keysError apiKeys) (TenantUsageSection locale currency usageLoading usageError usage)
       end.
End Panel.

(** ** The dialogs of a key *)

(** The rotation: the key the dialog is for, whether it asks, the request of the dialog that is
    under way, the requests of dialogs that are gone, and the secret that is shown.  The dialog
    exists while [ro_key] is given. *)
Record Rotation := mkRotation {
  ro_key : option string;
  ro_open : bool;
  ro_pending : option string;
  ro_orphans : list string;
  ro_secretOpen : bool;
  ro_secret : string;
}.
Definition no_rotation : Rotation := mkRotation None false None [] false "".

(** The key in the answer to a rotation *)
Definition rotated_key (data : js) : string :=
  js_text (js_or (js_or (js_or (opt_get (opt_get data "new") "key") (opt_get data "key")) (opt_get data "api_key")) (JStr "")).

Inductive rotation_event :=
| AskRotate (keyId : string)
| Dismiss
| CancelRotate
| ConfirmRotate
| Rotated (data : js)
| RotateFailed
| OrphanAnswered
| CloseSecret.

(** [onDone] removes the dialog with its state: the callback of the answer it waits for is not
    called any more. *)
Definition onDone (r : Rotation) : Rotation :=
  mkRotation None false None (match ro_pending r with Some k => ro_orphans r ++ [k] | None => ro_orphans r end) false "".

Definition rotation_step (ev : rotation_event) (r : Rotation) : Rotation :=
  match ev with
  | AskRotate keyId => mkRotation (Some keyId) true (ro_pending r) (ro_orphans r) (ro_secretOpen r) (ro_secret r)
  | Dismiss => mkRotation (ro_key r) false (ro_pending r) (ro_orphans r) (ro_secretOpen r) (ro_secret r)
  | CancelRotate => if ro_open r then onDone r else r
  | ConfirmRotate =>
      match ro_key r, ro_pending r with
      | Some k, None => if ro_open r then mkRotation (Some k) true (Some k) (ro_orphans r) (ro_secretOpen r) (ro_secret r) else r
      | _, _ => r
      end
  | Rotated data =>
      match ro_pending r with
      | Some _ => mkRotation (ro_key r) false None (ro_orphans r) true (rotated_key data)
      | None => r
      end
  | RotateFailed => mkRotation (ro_key r) (ro_open r) None (ro_orphans r) (ro_secretOpen r) (ro_secret r)
  | OrphanAnswered => mkRotation (ro_key r) (ro_open r) (ro_pending r) (tail (ro_orphans r)) (ro_secretOpen r) (ro_secret r)
  | CloseSecret => if ro_secretOpen r then onDone r else r
  end.
Definition rotation_run (evs : list rotation_event) (r : Rotation) : Rotation := fold_left (fun s ev => rotation_step ev s) evs r.

(** What the page shows of a new key *)
Definition shown_secret (r : Rotation) : option string :=
  match ro_key r with Some _ => if ro_secretOpen r then Some (ro_secret r) else None | None => None end.

Definition handleRotate (tenantId keyId : string) : M js := mutationFn useRotateTenantApiKey (tenantId, keyId).
Definition handleRevoke (tenantId keyId : string) : M js := mutationFn useRevokeTenantApiKey (tenantId, keyId).
Definition handleDelete (tenantId : string) : option (M js) :=
  if String.eqb tenantId "" then None else Some (mutationFn useDeleteTenant tenantId).

(** ** What is saved is what is shown *)

(** C31: the details of a tenant show what its dialogs saved.  Through the merge of the gateway, the
    badges of the features, the rows of the rate limit, the output limit and the Claude Code form
    are those of the form that was accepted; a budget that is no number or negative is 0. *)
Theorem detail_shows_saved (c : obj) (f : Features) (d : TenantRateLimit) (limit : num) (enabled : bool) (budget tz : string) :
  snake (JObj c) -> num_ltb num_zero (ft_cacheTTL f) = true -> outputLimitSchema limit = true ->
  TenantFeaturesSection (JObj (mergeMaps c (features_patch (JObj c) f))) =
    [("Semantic Routing", enabled_text (ft_semantic_routing f)); ("Semantic Cache", enabled_text (ft_semantic_cache f));
     ("Tool Routing", enabled_text (ft_tool_routing f)); ("Budget Enforcement", enabled_text (ft_budget_enforcement f))] /\
  TenantRateLimitSection (opt_get (JObj (mergeMaps c (rate_limit_patch d))) "rate_limit") =
    [("Requests per Minute (RPM)", num_to_string (rl_rpm d)); ("Burst", num_to_string (rl_burst d)); ("Scope", rl_scope d)] /\
  output_text (JObj (mergeMaps c (output_limit_patch limit))) = (if num_eqb limit num_zero then "Unlimited" else num_to_string limit) /\
  load_output_limit (JObj (mergeMaps c (output_limit_patch limit))) = limit /\
  load_claude (JObj (mergeMaps c (claude_patch (mkClaudeForm (JBool enabled) budget (JStr tz))))) =
    mkClaudeForm (JBool enabled) (num_to_string (claude_budget budget)) (JStr tz) /\
  num_ltb (claude_budget budget) num_zero = false /\ num_is_nan (claude_budget budget) = false.
Proof.
  intros Hc Ht Hl. split; [|split; [|split; [|split; [|split; [|split]]]]].
  - rewrite <- (features_loaded c f Hc Ht) at 2 3 4 5. reflexivity.
  - erewrite merged_top_get by read_side. unfold TenantRateLimitSection.
    assert (Hm : forall cur q, truthy (merged cur (JObj q)) = true) by (intros [[| | | | | |]|] q; done).
    rewrite Hm. cbn [negb]. by read_merged.
  - unfold output_text. erewrite merged_top_get by read_side. by rewrite merged_replaces.
  - unfold load_output_limit. erewrite merged_top_get by read_side. by rewrite merged_replaces.
  - unfold load_claude. erewrite merged_top_get by read_side. by read_merged.
  - unfold claude_budget. destruct (num_is_nan _); [done|]. by destruct (num_ltb (parse_float budget) num_zero) eqn:E.
  - unfold claude_budget. destruct (num_is_nan (parse_float budget)) eqn:E; [done|].
    by destruct (num_ltb (parse_float budget) num_zero).
Qed.

Lemma detail_shows_saved_witness :
  TenantFeaturesSection (JObj (mergeMaps demo_tenant_doc (features_patch (JObj demo_tenant_doc) demo_features))) =
    [("Semantic Routing", "Enabled"); ("Semantic Cache", "Enabled"); ("Tool Routing", "Disabled"); ("Budget Enforcement", "Disabled")].
Proof.
  refine (proj1 (detail_shows_saved demo_tenant_doc demo_features (mkRateLimit (num_of_Z 60) (num_of_Z 5) "tenant")
                   (num_of_Z 4096) true "12.5" "UTC" _ _ _)); [|reflexivity..].
  unfold demo_tenant_doc. solve_snake.
Defined.

(** ** The age of a key *)

(** Before seven days the text names the age in the largest unit that fits, rounded down; a moment
    of the last minute, or to come, is now. *)
Theorem age_rounded_down (diff : Z) :
  match relative diff with
  | Some text =>
      ((diff < 60000)%Z /\ text = "Just now") \/
      (exists n, (1 <= n < 60 /\ 60000 * n <= diff < 60000 * (n + 1))%Z /\ text = Z_to_string n ++ " min ago") \/
      (exists n, (1 <= n < 24 /\ 3600000 * n <= diff < 3600000 * (n + 1))%Z /\ text = ago n "hour") \/
      (exists n, (1 <= n < 7 /\ 86400000 * n <= diff < 86400000 * (n + 1))%Z /\ text = ago n "day")
  | None => (7 * 86400000 <= diff)%Z
  end.
Proof.
  unfold relative.
  pose proof (Z.div_mod diff 60000 ltac:(done)). pose proof (Z.mod_pos_bound diff 60000 ltac:(done)).
  pose proof (Z.div_mod diff 3600000 ltac:(done)). pose proof (Z.mod_pos_bound diff 3600000 ltac:(done)).
  pose proof (Z.div_mod diff 86400000 ltac:(done)). pose proof (Z.mod_pos_bound diff 86400000 ltac:(done)).
  destruct (Z.ltb_spec (diff / 60000) 1); [left; split; [lia|done]|].
  destruct (Z.ltb_spec (diff / 60000) 60); [right; left; eexists; split; [|done]; lia|].
  destruct (Z.ltb_spec (diff / 3600000) 24); [right; right; left; eexists; split; [|done]; lia|].
  destruct (Z.ltb_spec (diff / 86400000) 7); [right; right; right; eexists; split; [|done]; lia|]. lia.
Qed.

(** A key can be rotated or revoked exactly while it is neither revoked nor past its expiry. *)
Theorem actions_of_active_keys (parse_date : string -> option Z) (locale_date : string -> string) (now : Z) (k : js) :
  kr_actions (key_row parse_date locale_date now k) = true <->
  truthy (opt_get k "revoked_at") = false /\
  (forall t, truthy (opt_get k "expires_at") = true -> parse_date (js_text (opt_get k "expires_at")) = Some t -> (now <= t)%Z).
Proof.
  unfold key_row, getStatus. cbn [kr_actions]. destruct (truthy (opt_get k "revoked_at")); [split; [done|by intros []]|].
  destruct (truthy (opt_get k "expires_at")); cbn [andb]; [|by split; [intros _; split|]].
  destruct (parse_date _) as [t|]; [|by split; [intros _; split|]].
  destruct (Z.ltb_spec t now); split; try done.
  - intros [_ H']. specialize (H' t eq_refl eq_refl). lia.
  - intros _. split; [done|]. intros ? _ [= <-]. lia.
Qed.

(** ** A rotated key is shown *)

Definition rotation_inv (r : Rotation) : Prop :=
  (ro_pending r <> None -> ro_key r <> None) /\ (ro_secretOpen r = true -> ro_key r <> None) /\ (ro_open r = true -> ro_key r <> None).

Lemma rotation_step_inv (ev : rotation_event) (r : Rotation) : rotation_inv r -> rotation_inv (rotation_step ev r).
Proof.
  destruct r as [[k|] open pending orphans sec secret]; intros (H1 & H2 & H3); cbn in H1, H2, H3;
    destruct ev, open, pending as [k'|], sec; unfold rotation_inv; cbn; naive_solver.
Qed.

Lemma rotation_reaches_inv (evs : list rotation_event) (r : Rotation) : rotation_inv r -> rotation_inv (rotation_run evs r).
Proof.
  revert r. induction evs as [|ev evs IH]; intros r H; [done|]. apply IH, rotation_step_inv, H.
Qed.

Definition keeps_secret (ev : rotation_event) : bool :=
  match ev with CloseSecret | CancelRotate | Rotated _ => false | _ => true end.



(** A cancel while the rotation is under way loses the new key: the key of the gateway is rotated, and
    no state after its answer shows it. *)
Theorem cancelled_rotation_loses_key (k : string) (later : list rotation_event) :
  Forall (fun ev => ev = OrphanAnswered) later ->
  let r := rotation_run ([AskRotate k; ConfirmRotate; CancelRotate] ++ later) no_rotation in
  shown_secret r = None /\ ro_pending r = None.
Proof.
  intros H. unfold rotation_run. rewrite fold_left_app.
  change (fold_left _ [AskRotate k; ConfirmRotate; CancelRotate] no_rotation) with (mkRotation None false None [k] false "").
  generalize [k] as orphans. induction H as [|ev later -> _ IH]; intros orphans; [done|]. apply IH.
Qed.
