(* ===== verification/DetailPanels.v ===== *)
(** * Details and tables of models, providers, route groups and budgets

    src/frontend/src/features/{models,providers,route-groups,budgets}/components: the panels that
    show one model, one provider, the Claude Code licence and one route group, the table of the
    budgets with its orders, and the dialogs that edit a budget and delete a route group. *)

From S2P Require Import Prelude JsNumber JsText JsValue JsArray NumOrder Json JsonRoundTrip Effects Csv ConfigView UsageApi ConsoleClient CatalogClient ConsoleFacts ProvidersPage AdminPages TenantDetail.
From Stdlib Require Import Sorting.Sorted.
Local Open Scope string_scope.

(** ** model-detail-panel.tsx *)

Module ModelPanel.

Inductive HealthLabel := NoData | Failing | Degraded | Healthy.

Definition getStatusDisplay (benchmark : option BenchmarkModelAggregate) : HealthLabel :=
  match benchmark with
  | None => NoData
  | Some b =>
      if num_eqb (bm_samples b) num_zero then NoData
      else if num_eqb (bm_success_rate b) num_zero then Failing
      else if num_ltb (bm_success_rate b) (number_of_string "0.95") then Degraded
      else Healthy
  end.

Definition formatLatency (ms : num) : string :=
  if num_ltb ms (num_of_Z 1000) then to_fixed 0 ms ++ "ms" else to_fixed 2 (num_div ms (num_of_Z 1000)) ++ "s".
Definition formatCost (usd : num) : string :=
  if num_ltb usd (number_of_string "0.001") then "<$0.001" else "$" ++ to_fixed 4 usd.
Definition formatMarkupPercent (model : js) : string :=
  (match opt_get model "markup_percentage" with
   | JNum n => if num_is_finite n then num_to_string n else "0"
   | _ => "0"
   end) ++ "%".

(** The badges under the name *)
Definition summary_badges (model : js) : list string :=
  let raw := js_coalesce (opt_get model "Enabled") (opt_get model "enabled") in
  (if nullish raw then [] else [if truthy raw then "Enabled" else "Disabled"]) ++
  (if truthy (opt_get (opt_get model "mock") "enabled") then ["Mock"] else []).

Definition routing_rows (model : js) : list row :=
  let is_ml := is_str (opt_get model "type") "ml" in
  [("Provider", js_text (opt_get model "provider"))] ++
  match opt_get model "route_groups" with
  | JArr ((_ :: _) as l) => map (fun g => ("Route Groups", js_text g)) l
  | _ => [("Route Groups", "None")]
  end ++
  (if is_ml then [("Execution endpoint", js_text (js_or (opt_get (opt_get model "execution") "endpoint") (JStr "—")))] else []) ++
  (if (truthy (opt_get model "base_url") && negb is_ml)%bool then [("Base URL (override)", js_text (opt_get model "base_url"))] else []).

Definition mock_rows (model : js) : list row :=
  let mock := opt_get model "mock" in
  let f := opt_get mock in
  let given k := negb (is_undefined (f k)) in
  if negb (truthy (f "enabled")) then []
  else
    (if (given "delay_min_ms" && given "delay_max_ms")%bool
     then [("Delay", js_text (f "delay_min_ms") ++ " - " ++ js_text (f "delay_max_ms") ++ " ms")] else []) ++
    (if (given "error_rate" && js_gt (f "error_rate") (JNum num_zero))%bool
     then [("Error Rate", to_fixed 0 (hundred (js_to_number (f "error_rate"))) ++ "%")] else []) ++
    (if given "error_status" then [("Error Status", js_text (f "error_status"))] else []) ++
    (if truthy (f "error_message") then [("Error Message", js_text (f "error_message"))] else []) ++
    (if truthy (f "fixed_response") then [("Fixed Response", str_first 20 (js_text (f "fixed_response")) ++ "...")] else []).

Definition observable_rows (model : js) : option (list (list string)) :=
  if negb (is_str (opt_get model "type") "ml") then None
  else Some (map (fun field => map (fun k => js_text (opt_get field k)) ["path"; "type"; "role"])
               (js_array (opt_get (opt_get model "observable") "fields"))).

Definition pricing_rows (model : js) : list row :=
  let price label k := if is_undefined (opt_get (opt_get model "pricing") k) then []
                       else [(label, "$" ++ to_fixed 2 (js_to_number (opt_get (opt_get model "pricing") k)))] in
  price "Prompt" "prompt_per_1m" ++ price "Completion" "completion_per_1m".

(** The section of the performance is there with samples only. *)
Definition performance_rows (benchmark : option BenchmarkModelAggregate) : list row :=
  match benchmark with
  | None => []
  | Some b =>
      let isFailing := num_eqb (bm_success_rate b) num_zero in
      if negb (num_gtb (bm_samples b) num_zero) then []
      else [("Success Rate", to_fixed 1 (hundred (bm_success_rate b)) ++ "%"); ("Samples", num_to_string (bm_samples b) ++ " samples");
            ("Avg Latency", if isFailing then "N/A" else formatLatency (bm_avg_latency_ms b))] ++
           (if (negb isFailing && num_gtb (bm_p95_latency_ms b) num_zero)%bool
            then [("P95", "P95: " ++ formatLatency (bm_p95_latency_ms b))] else []) ++
           [("Avg Cost", formatCost (bm_avg_cost_usd b)); ("Provider", bm_provider b)]
  end.

(** The hours of the window: the text that is typed, and the hours in force *)
Record WindowInput := mkWindow { wi_text : string; wi_hours : num }.
Inductive window_event := TypeHours (text : string) | BlurHours | EnterHours.
Definition accepted_hours (text : string) : option num :=
  let hours := parse_int text in if (negb (num_is_nan hours) && num_gtb hours num_zero)%bool then Some hours else None.
Definition window_step (ev : window_event) (st : WindowInput) : WindowInput :=
  match ev with
  | TypeHours text => mkWindow text (wi_hours st)
  | BlurHours => match accepted_hours (wi_text st) with
                 | Some hours => mkWindow (wi_text st) hours
                 | None => mkWindow (num_to_string (wi_hours st)) (wi_hours st)
                 end
  | EnterHours => match accepted_hours (wi_text st) with Some hours => mkWindow (wi_text st) hours | None => st end
  end.

(** Whatever is typed, the hours that are asked for are positive. *)
Theorem window_positive (evs : list window_event) (st : WindowInput) :
  num_gtb (wi_hours st) num_zero = true -> num_gtb (wi_hours (fold_left (fun s ev => window_step ev s) evs st)) num_zero = true.
Proof.
  assert (Ha : forall t h, accepted_hours t = Some h -> num_gtb h num_zero = true).
  { intros t h. unfold accepted_hours. destruct (num_is_nan _); [done|]. cbn [negb andb].
    destruct (num_gtb (parse_int t) num_zero) eqn:E; [|done]. by intros [= <-]. }
  revert st. induction evs as [|ev evs IH]; intros st H; [done|]. apply IH. destruct ev; cbn; [done|..];
    destruct (accepted_hours _) eqn:E; cbn; eauto.
Qed.

End ModelPanel.

(** ** provider-list.tsx, provider-detail-panel.tsx and claude-code-detail-panel.tsx *)

Module ProviderPanel.
Import ProviderView.

Definition getStatusBadge (p : ProviderWithVersion) : string :=
  match status p with Ready => "Ready" | MissingCredentials => "Missing Credentials" | Disabled => "Disabled" end.
Definition getSourceLabel (s : key_source) : string :=
  match s with SourceEnv => "Environment" | SourceStored => "Stored" | SourceMissing => "Missing" end.

(** The title, the line under it and the badge *)
Definition provider_item (p : ProviderWithVersion) : string * string * string :=
  (providerDisplayTitle (id p), type p ++ " • " ++ getSourceLabel (api_key_source p), getStatusBadge p).

Definition given (o : option string) : option string := match o with Some "" => None | _ => o end.
Definition given_row (label : string) (o : option string) : list row := match given o with Some s => [(label, s)] | None => [] end.

Definition connection_rows (p : ProviderWithVersion) : list row :=
  if isAwsBedrockProvider p then [("Type", "aws_bedrock"); ("Region", default "—" (given (aws_region p)))]
  else
    given_row "Base URL" (base_url p) ++ given_row "API Version" (api_version p) ++ given_row "Organization" (organization p) ++
    match timeout_ms p with
    | Some n => if num_truthy n then [("Timeout", num_to_string n ++ "ms")] else []
    | None => []
    end ++
    match max_retries p with Some n => [("Max Retries", num_to_string n)] | None => [] end ++
    match given (base_url p), given (api_version p), given (organization p) with
    | None, None, None => [("", "Using default connection settings")]
    | _, _, _ => []
    end.

Section Credentials.
Context (locale : string -> string).
Definition credential_rows (p : ProviderWithVersion) : list row :=
  if isAwsBedrockProvider p
  then [("AWS Access Key ID", maskAwsAccessKeyId (aws_access_key_id p));
        ("AWS Secret Access Key", match aws_secret_configured p with Some true => "***" | _ => "—" end);
        ("Source", getSourceLabel (api_key_source p))]
  else [("API Key", if has_api_key p then "Configured" else "Missing"); ("Source", getSourceLabel (api_key_source p))] ++
       match given (last_credential_update p) with Some d => [("Last Updated", locale d)] | None => [] end.
End Credentials.

Definition capabilities (p : ProviderWithVersion) : list string :=
  ["Chat"] ++ (if isAwsBedrockProvider p then [] else ["Streaming"]) ++
  (if (String.eqb (id p) "openai" || String.eqb (id p) "anthropic")%bool then ["Tool Calling"] else []) ++
  (if String.eqb (id p) "gemini" then ["Embeddings"] else []).

Definition bedrockMaskedJsonPreview (p : ProviderWithVersion) : obj :=
  [("type", JStr "aws_bedrock");
   ("aws_access_key_id", JStr (match given (aws_access_key_id p) with Some k => maskAwsAccessKeyId (Some k) | None => "—" end));
   ("aws_secret_access_key", JStr "***"); ("aws_region", JStr (default "" (given (aws_region p))))].

Definition claude_rows (data : js) : list row :=
  let yes k := if truthy (opt_get data k) then "Yes" else "No" in
  let dash k := js_text (js_or (opt_get data k) (JStr "—")) in
  [("Status", if is_str (opt_get data "status") "ready" then "Ready" else js_text (opt_get data "status"));
   ("Enabled", yes "enabled"); ("Licensed", yes "licensed"); ("Has API Key", yes "has_api_key");
   ("API Key Source", dash "api_key_source"); ("Base URL", dash "base_url"); ("Feature", js_text (opt_get data "feature"))].
Definition ClaudeCodeDetailPanel (state : LicenseState js) : list row :=
  match state with
  | Licensed data => claude_rows data
  | NotLicensed => [("Claude Code", "Not Licensed"); ("", "Claude Code feature not licensed")]
  | Unavailable error => [("Claude Code", "Unavailable"); ("", default "Could not load Claude Code provider status." error)]
  | LicLoading => []
  end.

(** What the panel shows of a Bedrock provider does not depend on the middle of its key: two keys of
    more than eight units with the same first and last four, or two shorter ones, look the same,
    in the rows and in the raw view. *)
Theorem bedrock_key_masked (locale : string -> string) (p : ProviderWithVersion) (k : string) :
  let with_key k := mkProvider (id p) (type p) (enabled p) (has_api_key p) (api_key_source p) (base_url p) (status p) (api_version p)
    (organization p) (project p) (timeout_ms p) (max_retries p) (last_credential_update p) (version p) (Some k) (aws_region p)
    (aws_secret_configured p) in
  forall k', k <> "" -> k' <> "" -> isAwsBedrockProvider p = true ->
  Nat.leb (str_units k) 8 = Nat.leb (str_units k') 8 ->
  (Nat.leb (str_units k) 8 = false -> str_first 4 k = str_first 4 k' /\ str_last 4 k = str_last 4 k') ->
  credential_rows locale (with_key k) = credential_rows locale (with_key k') /\
  bedrockMaskedJsonPreview (with_key k) = bedrockMaskedJsonPreview (with_key k').
Proof.
  intros with_key k' Hk Hk' Hb Hlen Hends. unfold credential_rows, bedrockMaskedJsonPreview.
  assert (Hm : maskAwsAccessKeyId (Some k) = maskAwsAccessKeyId (Some k')).
  { destruct k as [|c k]; [done|]. destruct k' as [|c' k']; [done|]. unfold maskAwsAccessKeyId. rewrite <- Hlen.
    destruct (Nat.leb _ _); [done|]. by destruct (Hends eq_refl) as [-> ->]. }
  assert (Hi : forall x, isAwsBedrockProvider (with_key x) = true) by done.
  rewrite !Hi. cbn [aws_access_key_id aws_secret_configured api_key_source aws_region with_key]. rewrite Hm. split; [done|].
  assert (Hg : forall x, x <> "" -> given (Some x) = Some x) by (by intros []). rewrite !Hg by done. by rewrite Hm.
Qed.

End ProviderPanel.

(** ** The route groups *)

Module GroupPanel.

Definition group_models (group : js) : list js := js_array (js_or (opt_get group "models") (JArr [])).
Definition plural (n : nat) : string := if Nat.eqb n 1 then "" else "s".
Definition nat_text (n : nat) : string := Z_to_string (Z.of_nat n).

(** The title, the line under it and the names *)
Definition RouteGroupDetailPanel (group : js) : option (string * string * list string) :=
  if negb (truthy group) then None
  else let n := List.length (group_models group) in
       Some (js_text (opt_get group "id"), nat_text n ++ " model" ++ plural n ++ " in group", map js_text (group_models group)).

(** A row of the table: the name, the count, two models and how many more there are *)
Definition group_row (group : js) : string * nat * list string * nat :=
  let models := group_models group in
  (js_text (opt_get group "id"), List.length models, map js_text (take 2 models), List.length models - 2).

(** The names the dialog of the deletion lists, and the deletion *)
Definition delete_preview (group : js) : list string * option nat :=
  let models := group_models group in
  (map js_text (take 5 models), if Nat.ltb 5 (List.length models) then Some (List.length models - 5) else None).
Definition delete_group (tenantId : string) (group : js) : option (M js) :=
  if truthy group then Some (mutationFn (useDeleteRouteGroup tenantId) (js_text (opt_get group "id"))) else None.

(** The previews account for every model: those listed and those counted are all. *)
Lemma previews_complete (group : js) :
  let '(_, n, shown, more) := group_row group in
  List.length shown + more = n /\
  List.length (delete_preview group).1 + default 0 (delete_preview group).2 = n.
Proof.
  unfold group_row, delete_preview. cbn [fst snd]. rewrite !length_map, !length_take. split; [lia|].
  destruct (Nat.ltb_spec 5 (List.length (group_models group))); cbn [from_option id]; unfold id; lia.
Qed.
End GroupPanel.

(** ** The table of budgets *)

Module BudgetsTable.

Inductive SortField := BySpend | ByLimit | ByUsage | ByStatus | ByProjected.
Inductive SortDirection := Asc | Desc.
#[export] Instance SortField_eq_dec : EqDecision SortField.
Proof. solve_decision. Defined.

Definition getStatusVariant (status : string) : string :=
  if String.eqb status "healthy" then "default" else if String.eqb status "warning" then "secondary" else "destructive".

Definition formatProgressPct (value : num) : string :=
  if (negb (num_is_finite value) || num_leb value num_zero)%bool then "0.0%"
  else if num_ltb value (number_of_string "0.01") then to_fixed 3 value ++ "%" else to_fixed 1 value ++ "%".

Definition handleSort (field : SortField) (st : SortField * SortDirection) : SortField * SortDirection :=
  if decide (st.1 = field) then (st.1, match st.2 with Asc => Desc | Desc => Asc end) else (field, Desc).

(** What the page passes, or the table's own placeholder *)
Definition default_projection (currentSpend : num) : num :=
  let elapsedFraction := number_of_string "0.5" in
  if num_gtb elapsedFraction num_zero then num_div currentSpend elapsedFraction else currentSpend.

Definition limit_of (b : TenantBudget) : num := default num_zero (tb_monthly_usd b).
Definition spend_of (b : TenantBudget) : num := default (tb_current_spend_usd b) (tb_effective_spend_usd b).
Definition usagePct (b : TenantBudget) : num :=
  if num_gtb (limit_of b) num_zero then num_mul (num_div (spend_of b) (limit_of b)) (num_of_Z 100) else num_zero.
(** A status that is not listed has no rank *)
Definition statusOrder (status : string) : num :=
  match map_get status [("exceeded", 3); ("warning", 2); ("healthy", 1); ("not_configured", 0)]%Z with
  | Some n => num_of_Z n
  | None => num_nan
  end.

Section Sorted.
Context (project : num -> num).

Definition sort_key (field : SortField) (b : TenantBudget) : num :=
  match field with
  | BySpend => spend_of b
  | ByLimit => limit_of b
  | ByUsage => usagePct b
  | ByStatus => statusOrder (tb_status b)
  | ByProjected => project (tb_current_spend_usd b)
  end.

Definition by_index (l r : TenantBudget * nat) : Z := Z.of_nat l.2 - Z.of_nat r.2.
Definition compare_budgets (field : SortField) (dir : SortDirection) (l r : TenantBudget * nat) : Z :=
  let key x := sort_key field x.1 in
  cmp_or (match dir with Asc => cmp_num key | Desc => cmp_rev (cmp_num key) end) by_index l r.

Fixpoint indexed {A} (from : nat) (l : list A) : list (A * nat) :=
  match l with [] => [] | x :: l' => (x, from) :: indexed (S from) l' end.
Definition sorted_pairs (field : SortField) (dir : SortDirection) (budgets : list TenantBudget) : list (TenantBudget * nat) :=
  sort_with (compare_budgets field dir) (indexed 0 budgets).
Definition sortedBudgets (field : SortField) (dir : SortDirection) (budgets : list TenantBudget) : list TenantBudget :=
  map fst (sorted_pairs field dir budgets).

(** The cells of a row; [currency] is formatCurrency *)
Record BudgetRow := mkRow {
  br_tenant : string;
  br_spend : string;
  br_reserved : option string;
  br_limit : string;
  br_progress : string;
  br_projected : string;
  br_overrun : bool;
  br_status : string;
}.
Definition budget_row (currency : num -> string) (b : TenantBudget) : BudgetRow :=
  let reservedUsd := default num_zero (tb_reserved_usd b) in
  let projectedSpend := project (tb_current_spend_usd b) in
  mkRow (tb_tenant_id b) (currency (spend_of b) ++ " / " ++ currency (limit_of b))
    (if num_gtb reservedUsd num_zero then Some (currency (tb_current_spend_usd b) ++ " + " ++ currency reservedUsd ++ " reserved") else None)
    (match tb_monthly_usd b with Some m => currency m | None => "—" end)
    (formatProgressPct (usagePct b)) (currency projectedSpend) (num_geb projectedSpend (limit_of b)) (tb_status b).
End Sorted.

(** ** edit-budget-dialog.tsx *)

(** The two inputs: [monthly] is [budget.monthly_usd?.toString() ?? ''] *)
Definition load_budget (budget : js) : string * js :=
  (match opt_get budget "monthly_usd" with v => if nullish v then "" else js_to_string v end,
   js_coalesce (opt_get budget "timezone") (JStr "UTC")).

Definition budget_submit (budget : js) (version : num) (monthlyUsd timezone : string) : option (string + M js) :=
  if negb (truthy budget) then None
  else
    let monthlyValue := if String.eqb monthlyUsd "" then None else Some (parse_float monthlyUsd) in
    Some (match monthlyValue with
          | Some v => if (num_is_nan v || num_leb v num_zero)%bool then inl "Monthly limit must be greater than 0"
                      else inr (mutationFn CatalogClient.useUpdateTenantBudget
                                  (js_text (opt_get budget "tenant_id"), [("monthly_usd", JNum v); ("timezone", JStr timezone)], version))
          | None => inr (mutationFn CatalogClient.useUpdateTenantBudget
                           (js_text (opt_get budget "tenant_id"), [("monthly_usd", JUndef); ("timezone", JStr timezone)], version))
          end).

(** ** The order of the table *)

Lemma indexed_fst {A} (l : list A) (n : nat) : map fst (indexed n l) = l.
Proof. revert n. induction l; intros n; cbn; f_equal; auto. Qed.

Lemma by_index_ordered (P : TenantBudget * nat -> Prop) : ordered_on P by_index.
Proof. split; unfold by_index; lia. Qed.

Definition field_order (project : num -> num) (field : SortField) (dir : SortDirection) (a b : TenantBudget) : bool :=
  match dir with
  | Asc => num_leb (sort_key project field a) (sort_key project field b)
  | Desc => num_leb (sort_key project field b) (sort_key project field a)
  end.

Lemma compare_le (project : num -> num) (field : SortField) (dir : SortDirection) (x y : TenantBudget * nat) :
  num_ok (sort_key project field x.1) = true -> num_ok (sort_key project field y.1) = true ->
  (compare_budgets project field dir x y <= 0)%Z ->
  field_order project field dir x.1 y.1 = true /\ (field_order project field dir y.1 x.1 = true -> x.2 <= y.2).
Proof.
  intros Hx Hy. unfold compare_budgets, cmp_or, field_order, by_index, cmp_num, cmp_rev.
  destruct dir; rewrite !sign_sub, !leb_units by done.
  - destruct (Z.eqb_spec (Z.sgn (units (sort_key project field x.1) - units (sort_key project field y.1))) 0);
      intros H; (split; [apply Z.leb_le|rewrite Z.leb_le; intros]); lia.
  - destruct (Z.eqb_spec (- Z.sgn (units (sort_key project field x.1) - units (sort_key project field y.1))) 0);
      intros H; (split; [apply Z.leb_le|rewrite Z.leb_le; intros]); lia.
Qed.

(** C39: the table of the budgets.  In every state its buttons can reach, it shows each budget once, in
    the order of the chosen column and direction, and budgets that are equal there keep the order
    they came in; a second click on a column turns the direction, another column starts with the
    largest. *)
Theorem budgets_table_sorted (project : num -> num) (clicks : list SortField) (budgets : list TenantBudget) :
  let '(field, dir) := fold_left (fun st f => handleSort f st) clicks (ByUsage, Desc) in
  Forall (fun b => num_ok (sort_key project field b) = true) budgets ->
  Permutation (sortedBudgets project field dir budgets) budgets /\
  StronglySorted (fun x y => field_order project field dir x.1 y.1 = true /\
                             (field_order project field dir y.1 x.1 = true -> x.2 <= y.2))
    (sorted_pairs project field dir budgets) /\
  handleSort field (field, dir) = (field, match dir with Asc => Desc | Desc => Asc end) /\
  (forall other, other <> field -> handleSort other (field, dir) = (other, Desc)).
Proof.
  destruct (fold_left _ clicks _) as [field dir]. intros Hok.
  assert (Hp : Permutation (sorted_pairs project field dir budgets) (indexed 0 budgets)) by apply sort_with_perm.
  assert (Hpairs : Forall (fun x => num_ok (sort_key project field x.1) = true) (indexed 0 budgets)).
  { apply (proj1 (List.Forall_map fst (fun b => num_ok (sort_key project field b) = true) (indexed 0 budgets))).
    by rewrite indexed_fst. }
  assert (Ho : ordered_on (fun x => num_ok (sort_key project field x.1) = true) (compare_budgets project field dir)).
  { unfold compare_budgets. apply cmp_or_ordered; [|apply by_index_ordered].
    destruct dir; [|apply cmp_rev_ordered]; exact (cmp_num_ordered (fun x : TenantBudget * nat => sort_key project field x.1)). }
  split; [|split; [|split]].
  - unfold sortedBudgets. rewrite Hp, indexed_fst. done.
  - pose proof (sort_sorted_on _ _ Ho _ Hpairs) as Hs. fold (sorted_pairs project field dir budgets) in Hs.
    apply (Permutation_Forall (Permutation_sym Hp)) in Hpairs. clear Hp. revert Hpairs.
    induction Hs as [|x l Hs IH Hall]; intros Hl; [constructor|]. apply List.Forall_cons_iff in Hl as [Hx Hl].
    constructor; [exact (IH Hl)|]. rewrite List.Forall_forall in *. intros y Hy. apply compare_le; auto.
  - unfold handleSort. by rewrite decide_True.
  - intros other Hne. unfold handleSort. by rewrite decide_False.
Qed.

Definition demo_budget (t : string) (limit spend : Z) (status : string) : TenantBudget :=
  mkBudget t (Some (num_of_Z limit)) None None None (num_of_Z spend) None None num_zero status false None.

Lemma budgets_table_sorted_witness :
  Permutation (sortedBudgets default_projection BySpend Asc [demo_budget "a" 10 9 "warning"; demo_budget "b" 10 2 "healthy"])
    [demo_budget "a" 10 9 "warning"; demo_budget "b" 10 2 "healthy"].
Proof.
  exact (proj1 (budgets_table_sorted default_projection [BySpend; BySpend]
                  [demo_budget "a" 10 9 "warning"; demo_budget "b" 10 2 "healthy"] ltac:(repeat constructor))).
Defined.

(** The table measures the effective spend against the monthly limit, the export the confirmed spend
    against an override: the same budget reads full in the one and a tenth used in the other. *)
Theorem table_and_export_differ :
  let b := mkBudget "t" (Some (num_of_Z 100)) None None None (num_of_Z 20) (Some (num_of_Z 80)) (Some (num_of_Z 100)) num_zero
             "warning" false (Some (num_of_Z 200)) in
  formatProgressPct (usagePct b) = "100.0%" /\ formatProgressPct (Csv.progressPct b) = "10.0%".
Proof. split; reflexivity. Qed.

(** A tenant without a budget and without spend is marked as a projected overrun. *)
Theorem unset_budget_overruns (currency : num -> string) :
  let b := mkBudget "t" None None None None num_zero None None num_zero "not_configured" false None in
  br_overrun (budget_row default_projection currency b) = true.
Proof. reflexivity. Qed.

(** An emptied limit is not sent: the write leaves the stored limit as it is. *)
Theorem emptied_limit_kept (budget : js) (version : num) (timezone : string) (w : World) (s : State) :
  truthy budget = true ->
  exists m, budget_submit budget version "" timezone = Some (inr m) /\
    m w s = CatalogClient.updateTenantBudget (js_text (opt_get budget "tenant_id")) [("monthly_usd", JUndef); ("timezone", JStr timezone)] version w s /\
    obj_has "monthly_usd" (GatewayClient.entries (on_wire (JObj [("monthly_usd", JUndef); ("timezone", JStr timezone)]))) = false.
Proof. intros Hb. unfold budget_submit. rewrite Hb. eexists. by repeat split. Qed.
End BudgetsTable.
