(* ===== verification/LogsPage.v ===== *)
(** * The logs page

    src/frontend/src/app/(app)/logs/page.tsx: the filters of its four tabs, the queries and
    exports they ask for, the paging, and the name an export is stored under.  What a
    datetime-local input means depends on the time zone of the browser: [to_iso] is
    [new Date(value).toISOString()], with [None] for the RangeError of an invalid date. *)

From S2P Require Import Prelude JsNumber JsText JsValue JsArray Json Effects FinopsApi UsageApi ConsoleClient.
From Stdlib Require Import SpecFloat.
Local Open Scope string_scope.

(** ** Texts of the tables *)

Definition dash : string := "—".

(** [value.length] counts UTF-16 units. *)
Definition truncateText (value : option string) (max : nat) : string :=
  match truthy_env value with
  | None => dash
  | Some t => if Nat.leb (str_units t) max then t else str_first (max - 3) t ++ "..."
  end.

Definition previewJson (value : js) : string :=
  if (negb (truthy value) || match GatewayClient.entries value with [] => true | _ => false end)%bool then dash
  else truncateText (json_stringify value) 160.

(** [NaN], null and undefined have no text. *)
Definition formatLatencyMs (value : option num) : string :=
  match value with
  | Some n => if num_is_nan n then dash else num_to_string (num_round n) ++ " ms"
  | None => dash
  end.

Definition previewObservable (observable : js) : string :=
  match GatewayClient.entries observable with
  | [] => dash
  | entries =>
      if Nat.ltb 2 (List.length entries)
      then Z_to_string (Z.of_nat (List.length entries)) ++ " fields"
      else str_join ", " (map (fun kv => if is_object kv.2 then kv.1 ++ "={...}"
                                         else kv.1 ++ "=" ++ js_to_string kv.2) entries)
  end.

Inductive badge : Type := Green | Red | Plain.
Definition getStatusBadgeClass (status : option string) : badge :=
  let normalized := str_lower (default "" status) in
  if (String.eqb normalized "ok" || String.eqb normalized "success")%bool then Green
  else if String.eqb normalized "error" then Red else Plain.

(** ** Paging *)

Record PaginationState := mkPaging {
  ps_limit : num;
  ps_offset : num;
  ps_returned : num;
  ps_total : num;
}.

(** [data] is undefined before the first answer. *)
Definition log_rows (data : js) : list js := js_array (js_coalesce (opt_get data "data") (JArr [])).

Definition buildPagination (data : js) (limit offset : num) : PaginationState :=
  let rows := log_rows data in
  let p := js_coalesce (opt_get data "pagination") (JObj []) in
  let limit' := num_of (opt_get p "limit") limit in
  let offset' := num_of (opt_get p "offset") offset in
  let returned := num_of (opt_get p "returned") (num_length rows) in
  mkPaging limit' offset' returned (num_of (opt_get p "total") (num_add offset' returned)).

(** Whether the next page is offered: this one is full. *)
Definition hasNext (data : js) (limit offset : num) : bool :=
  num_eqb (num_length (log_rows data)) (ps_limit (buildPagination data limit offset)).

(** ** The filters *)

Inductive LogsTab : Type := Audit | Compliance | Conversation | Ml.

(** The filters of all tabs in one record; a tab uses those it has inputs for.  Limits and
    offsets are integers. *)
Record Filters := mkFilters {
  f_from : string;
  f_to : string;
  f_tenant_id : string;
  f_jwt_sub : string;
  f_model : string;
  f_status : string;
  f_limit : Z;
  f_offset : Z;
}.

Definition initial_filters (tab : LogsTab) (from to : string) : Filters :=
  mkFilters from to "" "" "" (match tab with Audit => "ok" | _ => "" end) 50 0.

Inductive filter_event : Type :=
| SetFrom (v : string)
| SetTo (v : string)
| SetTenant (v : string)
| SetJwtSub (v : string)
| SetModel (v : string)
| SetStatus (v : string)
| PrevPage
| NextPage.

(** Every filter starts again at the first page; [Prev] and [Next] move by a page. *)
Definition filter_step (f : Filters) (ev : filter_event) : Filters :=
  let '(mkFilters from to tenant sub model status limit offset) := f in
  match ev with
  | SetFrom v => mkFilters v to tenant sub model status limit 0
  | SetTo v => mkFilters from v tenant sub model status limit 0
  | SetTenant v => mkFilters from to v sub model status limit 0
  | SetJwtSub v => mkFilters from to tenant v model status limit 0
  | SetModel v => mkFilters from to tenant sub v status limit 0
  | SetStatus v => mkFilters from to tenant sub model (if String.eqb v "all" then "" else v) limit 0
  | PrevPage => mkFilters from to tenant sub model status limit (Z.max 0 (offset - limit))
  | NextPage => mkFilters from to tenant sub model status limit (offset + limit)
  end.

Definition ready (tab : LogsTab) (f : Filters) : bool :=
  let given s := negb (String.eqb s "") in
  given (f_from f) && given (f_to f) &&
  match tab with
  | Audit => given (f_tenant_id f) && given (f_status f)
  | Compliance => true
  | Conversation | Ml => given (f_tenant_id f)
  end.

(** ** Queries and exports *)

Section Time.
Context (to_iso : string -> option string).

(** [toRfc3339]: an empty input is an empty text. *)
Definition toRfc3339 (value : string) : M string :=
  if String.eqb value "" then mret ""
  else match to_iso value with
       | Some t => mret t
       | None => throw (JsError "Invalid time value")
       end.

Definition set_text (k v : string) (ps : list (string * string)) : list (string * string) :=
  if String.eqb v "" then ps else params_set k v ps.

Definition page_params (f : Filters) (ps : list (string * string)) : list (string * string) :=
  params_set "offset" (Z_to_string (f_offset f)) (params_set "limit" (Z_to_string (f_limit f)) ps).

(** The parameters of a tab's query, from its two dates *)
Definition log_params (tab : LogsTab) (f : Filters) (from to : string) : list (string * string) :=
  let ps := [("from", from); ("to", to)] in
  page_params f
    match tab with
    | Audit => set_text "jwt_sub" (f_jwt_sub f)
                 (params_set "status" (f_status f) (params_set "tenant_id" (f_tenant_id f) ps))
    | Compliance => ps
    | Conversation => set_text "jwt_sub" (f_jwt_sub f) (params_set "tenant_id" (f_tenant_id f) ps)
    | Ml => set_text "status" (f_status f)
              (set_text "model" (f_model f) (params_set "tenant_id" (f_tenant_id f) ps))
    end.

Definition tab_path (tab : LogsTab) : string :=
  match tab with
  | Audit => "/api/logs/audit"
  | Compliance => "/api/logs/compliance"
  | Conversation => "/api/logs/conversations"
  | Ml => "/api/logs/ml"
  end.

Definition tab_error (tab : LogsTab) : string :=
  match tab with
  | Audit => "Failed to load audit logs"
  | Compliance => "Failed to load compliance events"
  | Conversation => "Failed to load conversation logs"
  | Ml => "Failed to load ML logs"
  end.

(** The query function of a tab *)
Definition fetchLogs (tab : LogsTab) (f : Filters) : M js :=
  from ← toRfc3339 (f_from f);
  to ← toRfc3339 (f_to f);
  res ← page_get (tab_path tab ++ "?" ++ params_to_string (log_params tab f from to));
  if negb (res_ok res) then
    payload ← res_json_or_empty res;
    throw (error_with_status
             (js_to_string (js_or (opt_get payload "error") (JStr (tab_error tab)))) (res_status res))
  else res_json res.

Definition getExportUrl (tab : LogsTab) (params : list (string * string)) : string :=
  tab_path tab ++ "/export?" ++ params_to_string params.

(** An export asks for the dates and the tenant only. *)
Definition export_params (tab : LogsTab) (f : Filters) (from to : string) : list (string * string) :=
  let ps := [("from", from); ("to", to)] in
  match tab with
  | Compliance => ps
  | _ => set_text "tenant_id" (f_tenant_id f) ps
  end.
End Time.

(** ** The name of an export *)

(** The characters a regular expression calls white space, of those a header can have *)
Definition is_space (c : ascii) : bool := Ascii.eqb c " " || Ascii.eqb c "009".
Fixpoint skip_spaces (s : string) : string :=
  match s with
  | String c s' => if is_space c then skip_spaces s' else s
  | EmptyString => s
  end.

(** The longest prefix of characters that satisfy [p] *)
Fixpoint take_while (p : ascii -> bool) (s : string) : string :=
  match s with
  | String c s' => if p c then String c (take_while p s') else ""
  | EmptyString => ""
  end.

(** The first match of [find] at any position of [s] *)
Fixpoint search (find : string -> option string) (s : string) : option string :=
  match find s with
  | Some m => Some m
  | None => match s with String _ s' => search find s' | EmptyString => None end
  end.

(** [prefix] at the start of [s], in any case of letters: what follows *)
Definition after_prefix (prefix s : string) : option string :=
  if starts_with prefix (str_lower s) then Some (str_drop (String.length prefix) s) else None.

Definition not_semicolon (c : ascii) : bool := negb (Ascii.eqb c ";").
Definition not_quote_semicolon (c : ascii) : bool := negb (Ascii.eqb c ";" || Ascii.eqb c quote).
Definition nonempty_text (s : string) : option string := if String.eqb s "" then None else Some s.

(** The first expression of [resolveExportFilename], an encoded name up to a semicolon *)
Definition utf8_filename (s : string) : option string :=
  match after_prefix "filename*" s with
  | None => None
  | Some r => match after_prefix "=" (skip_spaces r) with
              | None => None
              | Some r => match after_prefix "utf-8''" (skip_spaces r) with
                          | None => None
                          | Some r => nonempty_text (take_while not_semicolon r)
                          end
              end
  end.

(** The second expression of [resolveExportFilename], the name in quotes or not.  When only
    white space is left for the name, the expression gives some of it back; its text is
    trimmed. *)
Definition plain_filename (s : string) : option string :=
  match after_prefix "filename" s with
  | None => None
  | Some r => match after_prefix "=" (skip_spaces r) with
              | None => None
              | Some r =>
                  let t := skip_spaces r in
                  let t := match t with String c u => if Ascii.eqb c quote then u else t | _ => t end in
                  match nonempty_text (take_while not_quote_semicolon t) with
                  | Some n => Some n
                  | None => nonempty_text (take_while not_quote_semicolon r)
                  end
              end
  end.

Definition resolveExportFilename (contentDisposition : option string) : option string :=
  match truthy_env contentDisposition with
  | None => None
  | Some cd =>
      match search utf8_filename cd with
      | Some n => match decodeURIComponent (str_trim n) with
                  | Some t => Some t
                  | None => Some (str_trim n)
                  end
      | None => str_trim <$> search plain_filename cd
      end
  end.

(** ** The download *)

(** What the button does: it logs out, shows a toast, or stores a file. *)
Inductive Download : Type :=
| LoggedOut
| ToastShown (description : string)
| Stored (filename text : string).

Definition handleDownloadCsv (to_iso : string -> option string) (accessToken : option string)
    (tab : LogsTab) (f : Filters) : M Download :=
  match truthy_env accessToken with
  | None => mret LoggedOut
  | Some token =>
      from ← toRfc3339 to_iso (f_from f);
      to ← toRfc3339 to_iso (f_to f);
      try_catch
        (res ← page_fetch (mkHttpRequest "GET" (getExportUrl tab (export_params tab f from to))
                 [("Authorization", "Bearer " ++ token)] None);
         if (res_status res =? 401)%Z then mret LoggedOut
         else if (res_status res =? 403)%Z
         then mret (ToastShown "You do not have permission to export data")
         else if negb (res_ok res) then throw (JsError "Failed to download CSV")
         else
           text ← res_text res;
           mret (Stored (default "export.csv"
                   (resolveExportFilename (params_get "content-disposition" (res_headers res)))) text))
        (fun _ => mret (ToastShown "Failed to download CSV"))
  end.

(** ** The pages of a tab *)

(** The filters a tab can have: the inputs and the two buttons of the paging, [Prev] only
    where there is an earlier page *)
Inductive reached (tab : LogsTab) (from to : string) : Filters -> Prop :=
| reached_start : reached tab from to (initial_filters tab from to)
| reached_step f ev :
    reached tab from to f -> (ev = PrevPage -> f_offset f <> 0%Z) ->
    reached tab from to (filter_step f ev).

Lemma reached_pages (tab : LogsTab) (from to : string) (f : Filters) :
  reached tab from to f -> f_limit f = 50%Z /\ exists k, f_offset f = (50 * k)%Z /\ (0 <= k)%Z.
Proof.
  induction 1 as [|f ev _ [Hl (k & Hk & Hk0)] Hev]; [split; [done|by exists 0%Z]|].
  destruct f as [fr t te su mo st li off]. cbn in Hl, Hk. subst.
  destruct ev; cbn [filter_step f_limit f_offset]; (split; [done|]); try (by exists 0%Z).
  - cbn in Hev. specialize (Hev eq_refl). exists (k - 1)%Z. lia.
  - exists (k + 1)%Z. lia.
Qed.

(** The value of a parameter that is set last *)
Lemma page_params_get (f : Filters) (ps : list (string * string)) :
  params_get "limit" (page_params f ps) = Some (Z_to_string (f_limit f)) /\
  params_get "offset" (page_params f ps) = Some (Z_to_string (f_offset f)).
Proof.
  unfold page_params. rewrite !params_get_set. cbn [String.eqb Ascii.eqb Bool.eqb].
  by rewrite ?params_get_set.
Qed.

(** The logs page asks for whole pages.  Whatever is typed, selected and paged, each tab's
    query has the limit fifty and an offset that is a page boundary, not below zero; and a
    change of any filter starts again at the first page. *)
Theorem log_queries_page_aligned (tab : LogsTab) (from to : string) (f : Filters) (ev : filter_event)
    (from' to' : string) :
  reached tab from to f ->
  (exists k, (0 <= k)%Z /\
     params_get "limit" (log_params tab f from' to') = Some "50" /\
     params_get "offset" (log_params tab f from' to') = Some (Z_to_string (50 * k))) /\
  (ev <> PrevPage -> ev <> NextPage -> f_offset (filter_step f ev) = 0%Z).
Proof.
  intros Hr. destruct (reached_pages tab from to f Hr) as [Hl (k & Hk & Hk0)]. split.
  - exists k. split; [done|]. unfold log_params.
    destruct (page_params_get f match tab with
      | Audit => set_text "jwt_sub" (f_jwt_sub f)
          (params_set "status" (f_status f) (params_set "tenant_id" (f_tenant_id f) [("from", from'); ("to", to')]))
      | Compliance => [("from", from'); ("to", to')]
      | Conversation => set_text "jwt_sub" (f_jwt_sub f)
          (params_set "tenant_id" (f_tenant_id f) [("from", from'); ("to", to')])
      | Ml => set_text "status" (f_status f) (set_text "model" (f_model f)
          (params_set "tenant_id" (f_tenant_id f) [("from", from'); ("to", to')]))
      end) as [H1 H2]. rewrite H1, H2, Hl, Hk. done.
  - destruct f, ev; done.
Qed.

Lemma log_queries_page_aligned_witness :
  let f := filter_step (filter_step (initial_filters Ml "a" "b") NextPage) NextPage in
  (exists k, (0 <= k)%Z /\
     params_get "limit" (log_params Ml f "x" "y") = Some "50" /\
     params_get "offset" (log_params Ml f "x" "y") = Some (Z_to_string (50 * k))) /\
  (SetModel "m" <> PrevPage -> SetModel "m" <> NextPage -> f_offset (filter_step f (SetModel "m")) = 0%Z).
Proof.
  apply (log_queries_page_aligned Ml "a" "b"
    (filter_step (filter_step (initial_filters Ml "a" "b") NextPage) NextPage) (SetModel "m") "x" "y").
  repeat (apply reached_step; [|discriminate]). apply reached_start.
Defined.
