(* ===== verification/LogsView.v ===== *)
(** * What the logs page shows

    src/frontend/src/app/(app)/logs/page.tsx from its pagination down: the tabs with their tables, the
    rows that can be opened, the dialog of an ML request, and what a tab shows while its query waits,
    fails or is not allowed. *)

From S2P Require Import Prelude JsNumber JsText JsValue JsArray NumOrder Json Effects UsageApi SemanticViews TenantDialogs LogsPage.
Local Open Scope string_scope.

(** ** Tabs *)

(** The buttons above the tables *)
Definition tab_buttons : list (string * LogsTab) := [("Audit Logs", Audit); ("Conversation Logs", Conversation); ("ML Logs", Ml)].

(** The state of the page that its buttons change: the tab, the opened row of each table, the ML
    request in the dialog *)
Record LogsState := mkLogs {
  ls_tab : LogsTab;
  ls_audit : option string;
  ls_compliance : option string;
  ls_conversation : option string;
  ls_ml : option js;
}.
Definition initial_logs : LogsState := mkLogs Audit None None None None.

Inductive logs_event :=
| PressTab (label : string)
| ToggleAudit (rowId : string)
| ToggleCompliance (rowId : string)
| ToggleConversation (rowId : string)
| OpenMl (row : js)
| CloseMl.

(** [setExpanded(isExpanded ? null : rowId)] *)
Definition toggle_row (rowId : string) (expanded : option string) : option string :=
  if bool_decide (expanded = Some rowId) then None else Some rowId.
Definition logs_step (s : LogsState) (e : logs_event) : LogsState :=
  let '(mkLogs tab a c v m) := s in
  match e with
  | PressTab label => mkLogs (default tab (map_get label tab_buttons)) a c v m
  | ToggleAudit r => mkLogs tab (toggle_row r a) c v m
  | ToggleCompliance r => mkLogs tab a (toggle_row r c) v m
  | ToggleConversation r => mkLogs tab a c (toggle_row r v) m
  | OpenMl row => mkLogs tab a c v (Some row)
  | CloseMl => mkLogs tab a c v None
  end.

(** ** Rows *)

Section Rows.
(** A date in the locale *)
Context (locale_date : js -> string).

Definition log_timestamp (v : js) : string := if truthy v then locale_date v else dash.
Definition or_em (v : js) : string := js_to_string (js_or v (JStr dash)).
Definition js_text_opt (v : js) : option string := match v with JStr s => Some s | _ => None end.
(** [a || b || ... || d] *)
Definition first_text (row : js) (ks : list string) (d : string) : string :=
  js_to_string (foldr (fun k rest => js_or (opt_get row k) rest) (JStr d) ks).

(** A line of a table: its cells, the text of the button that opens it if there is one, and what is
    below it while it is open *)
Record LogLine := mkLine { ll_id : string; ll_cells : list string; ll_button : option string; ll_details : option (list (string * string)) }.
Definition log_line (expanded : option string) (rowId : string) (cells : list string) (openable : bool)
    (details : list (string * string)) : LogLine :=
  let isExpanded := bool_decide (expanded = Some rowId) in
  mkLine rowId cells (if openable then Some (if isExpanded then "Hide" else "View") else None) (if isExpanded then Some details else None).
Definition index_id (i : nat) : string := "row-" ++ Z_to_string (Z.of_nat i).

(** *** Audit *)

Definition audit_id (i : nat) (row : js) : string := first_text row ["request_id"; "ts"; "timestamp"] (index_id i).
Definition audit_actor (row : js) : string := first_text row ["actor"; "jwt_sub"; "api_key_name"; "api_key_id"] dash.
Definition hasDetails (row : js) : bool :=
  (existsb (fun k => truthy (opt_get row k)) ["error_type"; "error"] || negb (is_undefined (opt_get row "fallback_used")) ||
   existsb (fun k => truthy (opt_get row k)) ["routing_snapshot"; "decision_snapshot"; "api_key_id"; "api_key_name"; "jwt_sub"])%bool.
Definition audit_cells (row : js) : list string :=
  let f := opt_get row in
  [log_timestamp (js_or (f "ts") (f "timestamp")); or_em (f "tenant_id"); or_em (f "model"); or_em (f "provider"); or_em (f "strategy");
   or_em (f "status"); str_of (f "latency_ms") dash; audit_actor row;
   (if truthy (f "request_id") then str_first 8 (js_to_string (f "request_id")) ++ "…" else dash);
   first_text row ["decision"; "decision_reason"] dash].
(** A field that is there *)
Definition detail (label k : string) (row : js) : list (string * string) :=
  if truthy (opt_get row k) then [(label, js_to_string (opt_get row k))] else [].
Definition json_detail (label k : string) (row : js) : list (string * string) :=
  if truthy (opt_get row k) then [(label, json_pretty "" (opt_get row k))] else [].
Definition audit_details (row : js) : list (string * string) :=
  (detail "Request ID: " "request_id" row ++ detail "Error Type: " "error_type" row ++ detail "Error: " "error" row ++
   (if is_undefined (opt_get row "fallback_used") then []
    else [("Fallback Used: ", if truthy (opt_get row "fallback_used") then "Yes" else "No")]) ++
   detail "JWT Sub: " "jwt_sub" row ++ detail "API Key Name: " "api_key_name" row ++ detail "API Key ID: " "api_key_id" row ++
   json_detail "Routing Snapshot" "routing_snapshot" row ++ json_detail "Decision Snapshot" "decision_snapshot" row)%list.
Definition audit_line (expanded : option string) (i : nat) (row : js) : LogLine :=
  log_line expanded (audit_id i row) (audit_cells row) (hasDetails row) (audit_details row).

(** *** Compliance and conversations *)

Definition row_id (i : nat) (row : js) : string := first_text row ["id"] (index_id i).
Definition compliance_line (expanded : option string) (i : nat) (row : js) : LogLine :=
  let f := opt_get row in
  log_line expanded (row_id i row)
    [log_timestamp (f "created_at"); or_em (f "tenant_id"); or_em (f "request_id"); or_em (f "event_type"); or_em (f "action_taken");
     previewJson (f "metadata")]
    true [("", json_pretty "" (js_coalesce (f "metadata") (JObj [])))].
Definition conversation_details (row : js) : list (string * string) :=
  let f := opt_get row in
  ([("Request ID:", or_em (f "request_id"))] ++
   (if truthy (f "workflow_id")
    then ("Workflow ID:", js_to_string (f "workflow_id")) :: detail "Conversation ID:" "conversation_id" row else []) ++
   detail "Customer ID:" "customer_id" row ++
   [("Prompt Redacted:", or_em (f "prompt_redacted")); ("Response Redacted:", or_em (f "response_redacted"));
    ("Prompt Full:", or_em (f "prompt_full")); ("Response Full:", or_em (f "response_full"))])%list.
Definition conversation_line (expanded : option string) (i : nat) (row : js) : LogLine :=
  let f := opt_get row in
  log_line expanded (row_id i row)
    [log_timestamp (f "created_at"); or_em (f "tenant_id"); or_em (f "jwt_sub"); or_em (f "workflow_id"); or_em (f "logging_mode");
     (if truthy (f "pii_detected") then "Yes" else "No"); truncateText (js_text_opt (f "prompt_preview")) 100;
     truncateText (js_text_opt (f "response_preview")) 100]
    true (conversation_details row).

(** *** ML *)

Definition ml_line (i : nat) (row : js) : LogLine :=
  let f := opt_get row in
  mkLine (first_text row ["timestamp"] "row" ++ "-" ++ Z_to_string (Z.of_nat i))
    [log_timestamp (f "timestamp"); or_em (f "tenant_id"); or_em (f "model"); or_em (f "provider"); or_em (f "status");
     formatLatencyMs (opt_num (f "latency_ms")); previewObservable (opt_get (f "metadata") "observable")]
    (Some "Details") None.
Definition ml_dialog (row : js) : list (string * string) * string :=
  let f := opt_get row in
  ([("Timestamp", log_timestamp (f "timestamp")); ("Tenant", or_em (f "tenant_id")); ("Model", or_em (f "model"));
    ("Provider", or_em (f "provider")); ("Status", or_em (f "status")); ("Latency", formatLatencyMs (opt_num (f "latency_ms")));
    ("Strategy", first_text row ["strategy"] "ml"); ("Request ID", or_em (f "request_id"));
    ("Caller", first_text row ["api_key_name"; "jwt_sub"] dash)],
   json_pretty "" (js_coalesce (opt_get (f "metadata") "observable") (JObj []))).

(** ** A tab *)

(** What react-query has of a tab: a query that is not enabled and never ran waits for nothing. *)
Inductive LogsQuery := Idle | Pending | Refused (e : exn) | Answered (data : js).
Definition query_answer (q : LogsQuery) : js := match q with Answered d => d | _ => JUndef end.

(** [Showing a - b of n], and whether Previous and Next are enabled *)
Definition renderPagination (p : PaginationState) (rowsLength : nat) (canNext : bool) : string * bool * bool :=
  ("Showing " ++ (if Nat.eqb rowsLength 0 then "0" else num_to_string (num_add (ps_offset p) (num_of_Z 1))) ++ " - " ++
   num_to_string (num_add (ps_offset p) (num_of_Z (Z.of_nat rowsLength))) ++ " of " ++ num_to_string (ps_total p),
   negb (num_eqb (ps_offset p) num_zero), canNext).

Inductive TabView :=
| Restricted
| TabLoading
| TabFailed (title message : string)
| TabTable (lines : Part (list LogLine)) (pagination : string * bool * bool) (download : bool).

Definition tab_failed (tab : LogsTab) : string :=
  "Failed to load " ++ match tab with
                       | Audit => "audit logs" | Compliance => "compliance events" | Conversation => "conversation logs" | Ml => "ML logs"
                       end.
Definition tab_empty (tab : LogsTab) : string :=
  match tab with
  | Audit => "No audit logs found for the selected filters"
  | Compliance => "No compliance events found for the selected filters"
  | Conversation => "No conversation logs found for the selected filters"
  | Ml => "No ML logs found for this tenant."
  end.
Definition tab_lines (s : LogsState) (tab : LogsTab) (rows : list js) : list LogLine :=
  let line := match tab with
              | Audit => audit_line (ls_audit s) | Compliance => compliance_line (ls_compliance s)
              | Conversation => conversation_line (ls_conversation s) | Ml => ml_line
              end in
  zip_with line (seq 0 (List.length rows)) rows.
Definition renderTab (s : LogsState) (tab : LogsTab) (f : Filters) (isDownloading : bool) (q : LogsQuery) : TabView :=
  match q with
  | Refused e =>
      if bool_decide (exn_status e = Some 403%Z) then Restricted
      else TabFailed (tab_failed tab) (if String.eqb (exn_message e) "" then "Unknown error" else exn_message e)
  | Pending => TabLoading
  | _ =>
      let data := query_answer q in
      let rows := log_rows data in
      let limit := num_of_Z (f_limit f) in
      let offset := num_of_Z (f_offset f) in
      TabTable (table_part false false "" (tab_empty tab) (tab_lines s tab rows))
        (renderPagination (buildPagination data limit offset) (List.length rows) (hasNext data limit offset))
        (match tab with Ml => false | _ => negb (Nat.eqb (List.length rows) 0 || isDownloading) end)
  end.

(** The page: a spinner while a session is refreshed, else the tab that is chosen *)
Definition LogsPageView (user : bool) (isRefreshingSession : bool) (s : LogsState) (filters : LogsTab -> Filters) (isDownloading : bool)
    (queries : LogsTab -> LogsQuery) : option (TabView * option (list (string * string) * string)) :=
  if (user && isRefreshingSession)%bool then None
  else Some (renderTab s (ls_tab s) (filters (ls_tab s)) isDownloading (queries (ls_tab s)), ml_dialog <$> ls_ml s).
End Rows.

(** ** Opening rows *)

Lemma map_zipped {A B C D} (f : A -> B -> C) (g : C -> D) (l : list A) (k : list B) :
  map g (zip_with f l k) = zip_with (fun x y => g (f x y)) l k.
Proof. revert k. induction l as [|x l IH]; intros [|y k]; cbn; [done..|]. by rewrite IH. Qed.

(** the opened rows of the audit table.  A row is open exactly when its id is the opened one: pressing the
    button of a closed row opens the rows of that id and closes all others, pressing it again closes
    them; a row that cannot be opened by its own button has none of the details the button is for. *)
Theorem audit_rows_open (locale_date : js -> string) (s : LogsState) (rows : list js) (rowId : string) :
  let lines st := tab_lines locale_date st Audit rows in
  let s1 := logs_step s (ToggleAudit rowId) in
  (forall st l, In l (lines st) -> (ll_details l <> None <-> ls_audit st = Some (ll_id l))) /\
  map ll_id (lines s1) = map ll_id (lines s) /\
  (ls_audit s <> Some rowId -> (forall l, In l (lines s1) -> (ll_details l <> None <-> ll_id l = rowId)) /\
                               ls_audit (logs_step s1 (ToggleAudit rowId)) = None) /\
  (ls_audit s = Some rowId -> forall l, In l (lines s1) -> ll_details l = None).
Proof.
  cbn zeta. set (lines st := tab_lines locale_date st Audit rows).
  assert (Hopen : forall st l, In l (lines st) -> (ll_details l <> None <-> ls_audit st = Some (ll_id l))).
  { intros st l Hl. unfold lines, tab_lines in Hl. apply list_elem_of_In, elem_of_lookup_zip_with in Hl as (i & n & r & -> & _ & _).
    unfold audit_line, log_line. cbn [ll_details ll_id]. case_bool_decide; naive_solver. }
  assert (Hs : ls_audit (logs_step s (ToggleAudit rowId)) = toggle_row rowId (ls_audit s)) by (by destruct s).
  split; [exact Hopen|]. split; [|split].
  - unfold lines, tab_lines. by rewrite !map_zipped.
  - intros Hn. split.
    + intros l Hl. rewrite (Hopen _ _ Hl), Hs. unfold toggle_row. rewrite bool_decide_eq_false_2 by done. naive_solver.
    + destruct s as [t a c v m]. cbn. unfold toggle_row. cbn in Hn. rewrite (bool_decide_eq_false_2 (a = Some rowId)) by done.
      by rewrite bool_decide_eq_true_2.
  - intros He l Hl. destruct (ll_details l) eqn:E; [|done]. pose proof (proj1 (Hopen _ _ Hl)) as H. rewrite E, Hs in H.
    unfold toggle_row in H. rewrite He, bool_decide_eq_true_2 in H by done. by discriminate H.
Qed.

(** ** What a tab never does *)

(** The buttons never lead to the tab of the compliance events. *)
Theorem compliance_tab_unreachable (events : list logs_event) :
  ls_tab (fold_left logs_step events initial_logs) <> Compliance.
Proof.
  assert (H : forall s, ls_tab s <> Compliance -> ls_tab (fold_left logs_step events s) <> Compliance); [|by apply H].
  induction events as [|e events IH]; intros s Hs; [done|]. cbn [fold_left]. apply IH. destruct s as [tab a c v m], e; try done.
  cbn [logs_step ls_tab]. cbn. repeat case_match; done.
Qed.

(** A tab shows rows only of an answer, a refusal with 403 as limited access and any other as a
    failure with a text; its pages are those of the answer. *)
Theorem tab_shows_answers (locale_date : js -> string) (s : LogsState) (tab : LogsTab) (f : Filters) (downloading : bool) (q : LogsQuery) :
  match renderTab locale_date s tab f downloading q with
  | TabTable (PartShown lines) _ _ =>
      exists data, q = Answered data /\ List.length lines = List.length (log_rows data) /\ lines <> []
  | TabTable _ _ download => log_rows (query_answer q) = [] /\ download = false
  | Restricted => exists e, q = Refused e /\ exn_status e = Some 403%Z
  | TabFailed _ message => exists e, q = Refused e /\ message <> ""
  | TabLoading => q = Pending
  end.
Proof.
  assert (Hlen : forall rows, List.length (tab_lines locale_date s tab rows) = List.length rows).
  { intros rows. unfold tab_lines. rewrite length_zip_with, length_seq. lia. }
  destruct q as [| |e|data]; cbn [renderTab query_answer].
  - cbn. by destruct tab.
  - done.
  - case_bool_decide; [by exists e|]. exists e. split; [done|]. by destruct (String.eqb_spec (exn_message e) "").
  - specialize (Hlen (log_rows data)). unfold table_part.
    destruct (tab_lines locale_date s tab (log_rows data)) as [|l lines] eqn:E.
    + destruct (log_rows data) as [|r rows]; [|done]. split; [done|]. by destruct tab.
    + exists data. by repeat split.
Qed.

(** Before a tenant is chosen nothing is asked for, and the tab says that nothing was found. *)
Theorem unasked_tab_reads_empty (locale_date : js -> string) (s : LogsState) (from to : string) :
  let f := initial_filters Audit from to in
  ready Audit f = false /\
  exists pagination, renderTab locale_date s Audit f false Idle =
                     TabTable (PartEmpty "No audit logs found for the selected filters") pagination false.
Proof. cbn zeta. split; [by destruct from, to|]. by eexists. Qed.
