(* ===== verification/FinopsView.v ===== *)
(** * The state of the FinOps page

    src/frontend/src/app/(app)/budgets/page.tsx: which view is shown, the filters and pages of its
    lists as a state machine, the queries they make with the keys their answers are cached under,
    the options of the filters, the bars of the budgets, and the download of the billing report.
    The fetches themselves are in FinopsPage. *)

From S2P Require Import Prelude JsNumber JsText JsValue JsArray NumOrder Effects FinopsApi Csv UsageApi FinopsPage ConsoleClient ObservabilityPage RoutingInsights LogsPage.
From Stdlib Require Import SpecFloat Sorting.Sorted.
Local Open Scope string_scope.

(** ** Views *)

Inductive FinOpsViewMode :=
| BudgetsMode | DashboardMode | AnalyticsMode | AnomaliesMode | ApiKeysUsageMode | JwtSubUsageMode
| ApiKeysRawMode | JwtSubRawMode | MonetizationMode.
#[export] Instance FinOpsViewMode_eq_dec : EqDecision FinOpsViewMode.
Proof. solve_decision. Defined.

Definition header_text (viewMode : FinOpsViewMode) : string :=
  match viewMode with
  | BudgetsMode => "Manage spending limits and cost controls per tenant"
  | AnalyticsMode => "Tenant-first analytics using real backend endpoints"
  | AnomaliesMode => "Detect unusual spend, usage, and provider anomalies"
  | MonetizationMode => "Monetization and margin tracking for API keys and JWT subs"
  | ApiKeysUsageMode => "Per-key traffic, spend, reliability, and latency insights"
  | JwtSubUsageMode => "Per-subject traffic, spend, and usage insights"
  | ApiKeysRawMode => "Raw per-request activity attributed to API keys"
  | JwtSubRawMode => "Raw per-request activity attributed to JWT subjects"
  | DashboardMode => "Cost-first dashboard aggregated from real backend endpoints"
  end.

(** A query: loading, failed or answered.  A failed query has no data, whatever it had before. *)
Inductive query (A : Type) := Loading | Failed (e : exn) | Data (a : A).
Arguments Loading {A}. Arguments Failed {A} e. Arguments Data {A} a.

Definition query_data {A} (empty : A) (q : query A) : A := match q with Data a => a | _ => empty end.
Definition query_error {A} (q : query A) : option exn := match q with Failed e => Some e | _ => None end.

Inductive finops_view := Limited | FailedToLoad (title message : string) | Showing (viewMode : FinOpsViewMode).

Definition access_denied (e : exn) : bool :=
  match exn_status e with Some s => (s =? 403) || (s =? 401) | None => false end%Z%bool.

(** The order of the early returns: budgets, usage summaries, tenants the gateway withholds *)
Definition BudgetsPage {A B} (budgets : query A) (usage : query B)
    (stats : query (list js * list string)) (viewMode : FinOpsViewMode) : finops_view :=
  match query_error budgets with
  | Some e => if access_denied e then Limited else FailedToLoad "Failed to load budgets" (exn_message e)
  | None =>
      match query_error usage with
      | Some e => if access_denied e then Limited else FailedToLoad "Failed to load usage summaries" (exn_message e)
      | None =>
          let forbiddenTenantIdsFromStats := (query_data ([], []) stats).2 in
          let isLoadingTenantStats := match stats with Loading => true | _ => false end in
          if (negb (Nat.eqb (List.length forbiddenTenantIdsFromStats) 0) && negb isLoadingTenantStats)%bool
          then Limited else Showing viewMode
      end
  end.

(** ** Filters and pages *)

(** The inputs of one list; [all] is no filter, and the subject is an API key name or a JWT sub. *)
Record ListState := mkList {
  l_from : string;
  l_to : string;
  l_tenant : string;
  l_subject : string;
  l_model : string;
  l_provider : string;
  l_status : string;
  l_page : Z;
}.

Inductive MonetizationTab := ApiKeysTab | JwtSubsTab.

Record FinopsState := mkFinops {
  fs_window : WindowHours;
  fs_view : FinOpsViewMode;
  fs_month : string;
  fs_anomalies : ListState;
  fs_apiKeys : ListState;
  fs_jwtSubs : ListState;
  fs_rawKeys : ListState;
  fs_rawSubs : ListState;
  fs_tab : MonetizationTab;
  fs_keyPage : Z;
  fs_subPage : Z;
  fs_selectedKey : option string;
  fs_selectedSub : option string;
  fs_selectedMonetization : option string;
  fs_anomalyDrawer : bool;
}.

Definition listLimit : Z := 50.

(** The dates are those of the first render. *)
Definition plain_list (subject : string) : ListState := mkList "" "" "all" subject "all" "all" "all" 0.
Definition raw_list_start (from to : string) : ListState := mkList from to "all" "all" "all" "all" "all" 0.
Definition initial_finops (month from to : string) : FinopsState :=
  mkFinops W720 DashboardMode month (plain_list "all") (plain_list "") (plain_list "")
    (raw_list_start from to) (raw_list_start from to) ApiKeysTab 0 0 None None None false.

Inductive list_event :=
| ChangeFrom (v : string) | ChangeTo (v : string) | ChangeTenant (v : string) | ChangeSubject (v : string)
| ChangeModel (v : string) | ChangeProvider (v : string) | ChangeStatus (v : string)
| ResetFilters | Previous | Next.

Definition is_filter (e : list_event) : bool := match e with Previous | Next => false | _ => true end.

(** An input of a list; [restart] is whether its handlers also return to the first page. *)
Definition list_step (restart : bool) (start s : ListState) (e : list_event) : ListState :=
  let '(mkList f t te su m p st pg) := s in
  let pg' := if restart then 0%Z else pg in
  match e with
  | ChangeFrom v => mkList v t te su m p st pg'
  | ChangeTo v => mkList f v te su m p st pg'
  | ChangeTenant v => mkList f t v su m p st pg'
  | ChangeSubject v => mkList f t te v m p st pg'
  | ChangeModel v => mkList f t te su v p st pg'
  | ChangeProvider v => mkList f t te su m v st pg'
  | ChangeStatus v => mkList f t te su m p v pg'
  | ResetFilters => start
  | Previous => mkList f t te su m p st (Z.max 0 (pg - 1))
  | Next => mkList f t te su m p st (pg + 1)
  end.

(** The inputs of each list: those of the anomalies keep the page. *)
Definition anomalies_step : ListState -> list_event -> ListState := list_step false (plain_list "all").
Definition apiKeys_step : ListState -> list_event -> ListState := list_step true (plain_list "").
Definition jwtSubs_step : ListState -> list_event -> ListState := list_step true (plain_list "").
Definition rawKeys_step (defaultRawFrom defaultRawTo : string) : ListState -> list_event -> ListState :=
  list_step true (raw_list_start defaultRawFrom defaultRawTo).
Definition rawSubs_step (defaultRawFrom defaultRawTo : string) : ListState -> list_event -> ListState :=
  list_step true (raw_list_start defaultRawFrom defaultRawTo).

Inductive finops_event :=
| SetWindow (w : WindowHours)
| SetView (v : FinOpsViewMode)
| SetMonth (m : string)
| AnomalyInput (e : list_event)
| ApiKeyInput (e : list_event)
| JwtSubInput (e : list_event)
| RawKeyInput (e : list_event)
| RawSubInput (e : list_event)
| SetTab (t : MonetizationTab)
| KeyPage (next : bool)
| SubPage (next : bool)
| OpenKey (id : option string)
| OpenSub (sub : option string)
| OpenMonetization (id : option string)
| AnomalyDrawer (is_open : bool).

Definition turn (next : bool) (page : Z) : Z := if next then (page + 1)%Z else Z.max 0 (page - 1).

(** The default dates are those of the render the handler belongs to. *)
Definition finops_step (defaultRawFrom defaultRawTo : string) (s : FinopsState) (e : finops_event) : FinopsState :=
  let '(mkFinops w v m an ak js rk rs tab kp sp sk ss sm ad) := s in
  match e with
  | SetWindow w' => mkFinops w' v m an ak js rk rs tab kp sp sk ss sm ad
  | SetView v' => mkFinops w v' m an ak js rk rs tab kp sp sk ss sm ad
  | SetMonth m' => mkFinops w v m' an ak js rk rs tab kp sp sk ss sm ad
  | AnomalyInput e => mkFinops w v m (anomalies_step an e) ak js rk rs tab kp sp sk ss sm ad
  | ApiKeyInput e => mkFinops w v m an (apiKeys_step ak e) js rk rs tab kp sp sk ss sm ad
  | JwtSubInput e => mkFinops w v m an ak (jwtSubs_step js e) rk rs tab kp sp sk ss sm ad
  | RawKeyInput e => mkFinops w v m an ak js (rawKeys_step defaultRawFrom defaultRawTo rk e) rs tab kp sp sk ss sm ad
  | RawSubInput e => mkFinops w v m an ak js rk (rawSubs_step defaultRawFrom defaultRawTo rs e) tab kp sp sk ss sm ad
  | SetTab ApiKeysTab => mkFinops w v m an ak js rk rs ApiKeysTab 0 sp sk ss sm ad
  | SetTab JwtSubsTab => mkFinops w v m an ak js rk rs JwtSubsTab kp 0 sk ss sm ad
  | KeyPage next => mkFinops w v m an ak js rk rs tab (turn next kp) sp sk ss sm ad
  | SubPage next => mkFinops w v m an ak js rk rs tab kp (turn next sp) sk ss sm ad
  | OpenKey id => mkFinops w v m an ak js rk rs tab kp sp id ss sm ad
  | OpenSub sub => mkFinops w v m an ak js rk rs tab kp sp sk sub sm ad
  | OpenMonetization id => mkFinops w v m an ak js rk rs tab kp sp sk ss id ad
  | AnomalyDrawer b => mkFinops w v m an ak js rk rs tab kp sp sk ss sm b
  end.

(** ** Queries and their keys *)

(** React Query keeps an answer under the serialised key: texts, integers, or an absent value. *)
Inductive key_part := KText (s : string) | KInt (z : Z) | KNone.
Definition query_key := list key_part.
Definition key_opt (s : option string) : key_part := match s with Some t => KText t | None => KNone end.
Definition key_window (w : WindowHours) : key_part := KInt (window_hours w).

(** What an answer is for: the computation of the query function *)
Record finops_query := mkQuery {
  q_key : query_key;
  q_enabled : bool;
  q_run : M unit;
}.

Definition viewing (v : FinOpsViewMode) (s : FinopsState) : bool := bool_decide (fs_view s = v).
Definition given {A} (o : option A) : bool := match o with Some _ => true | None => false end.

(** The parameters a list sends *)
Definition params_of (l : ListState) : PageParams :=
  mkPageParams (Some (l_tenant l)) (Some (l_model l)) (Some (l_provider l)) (Some (l_status l))
    (Some (l_subject l)) (Some listLimit) (Some (l_page l * listLimit)%Z).

Section Queries.
Context (parse_date : string -> option Z).

Definition usageSummariesQuery (s : FinopsState) : finops_query :=
  mkQuery [KText "finops"; KText "usage-summaries"; KText (fs_month s)] true
    (discard (fetchUsageSummaries (fs_month s))).

Definition anomalyExplainQuery (s : FinopsState) : finops_query :=
  mkQuery [KText "anomaly-explain"; KInt 30] (fs_anomalyDrawer s) (discard (fetchAnomalyExplain 30)).

Definition anomaliesQuery (s : FinopsState) : finops_query :=
  let l := fs_anomalies s in
  mkQuery [KText "finops"; KText "anomalies"; key_window (fs_window s); KText (l_tenant l); KText (l_model l);
           KText (l_provider l); KText (l_status l); KInt (l_page l); KInt listLimit]
    (viewing AnomaliesMode s)
    (discard (fetchAnomalies (fs_window s)
       (mkPageParams (Some (l_tenant l)) (Some (l_model l)) (Some (l_provider l)) (Some (l_status l)) None
          (Some listLimit) (Some (l_page l * listLimit)%Z)))).

Definition anomalyStatsQuery (s : FinopsState) : finops_query :=
  let l := fs_anomalies s in
  mkQuery [KText "finops"; KText "anomalies-stats"; key_window (fs_window s); KText (l_tenant l); KText (l_model l);
           KText (l_provider l)]
    (viewing AnomaliesMode s)
    (discard (fetchAnomalyStats (fs_window s)
       (mkPageParams (Some (l_tenant l)) (Some (l_model l)) (Some (l_provider l)) None None None None))).

Definition list_key (name : string) (s : FinopsState) (l : ListState) : query_key :=
  [KText "finops"; KText name; key_window (fs_window s); KText (l_tenant l); KText (l_provider l); KText (l_model l);
   KText (l_status l); KText (l_subject l); KInt (l_page l); KInt listLimit].

Definition apiKeyUsageQuery (s : FinopsState) : finops_query :=
  mkQuery (list_key "api-keys-usage" s (fs_apiKeys s)) (viewing ApiKeysUsageMode s)
    (discard (fetchApiKeysUsageList (fs_window s) (params_of (fs_apiKeys s)))).

Definition apiKeyDrilldownQuery (s : FinopsState) : finops_query :=
  mkQuery [KText "finops"; KText "api-key-drilldown"; key_opt (fs_selectedKey s); key_window (fs_window s)]
    (viewing ApiKeysUsageMode s && given (truthy_env (fs_selectedKey s)))%bool
    (discard (fetchApiKeyUsageDrilldown (default "undefined" (fs_selectedKey s)) (fs_window s))).

Definition monetization_key (name : string) (s : FinopsState) (page : Z) : query_key :=
  [KText "finops"; KText "monetization"; KText name; key_window (fs_window s); KInt page; KInt listLimit].

Definition monetizationApiKeysQuery (s : FinopsState) : finops_query :=
  mkQuery (monetization_key "api-keys" s (fs_keyPage s))
    (viewing MonetizationMode s && match fs_tab s with ApiKeysTab => true | JwtSubsTab => false end)%bool
    (discard (fetchApiKeysMonetization (fs_window s) (Some listLimit) (Some (fs_keyPage s * listLimit)%Z))).

Definition monetizationDrilldownQuery (s : FinopsState) : finops_query :=
  mkQuery [KText "finops"; KText "monetization"; KText "api-key-drilldown"; key_opt (fs_selectedMonetization s);
           key_window (fs_window s)]
    (viewing MonetizationMode s && given (truthy_env (fs_selectedMonetization s)))%bool
    (discard (fetchApiKeyMonetizationDrilldown (default "undefined" (fs_selectedMonetization s)) (fs_window s))).

Definition monetizationJwtQuery (s : FinopsState) : finops_query :=
  mkQuery (monetization_key "jwt-subs" s (fs_subPage s))
    (viewing MonetizationMode s && match fs_tab s with JwtSubsTab => true | ApiKeysTab => false end)%bool
    (discard (fetchJwtMonetization (fs_window s) (Some listLimit) (Some (fs_subPage s * listLimit)%Z))).

Definition jwtSubUsageQuery (s : FinopsState) : finops_query :=
  mkQuery (list_key "jwt-subs-usage" s (fs_jwtSubs s)) (viewing JwtSubUsageMode s)
    (discard (fetchJwtSubsUsage (fs_window s) (params_of (fs_jwtSubs s)))).

Definition jwtSubDrilldownQuery (s : FinopsState) : finops_query :=
  mkQuery [KText "finops"; KText "jwt-sub-drilldown"; key_opt (fs_selectedSub s); key_window (fs_window s);
           KText (l_tenant (fs_jwtSubs s))]
    (viewing JwtSubUsageMode s && given (truthy_env (fs_selectedSub s)))%bool
    (discard (fetchJwtSubDrilldown (default "undefined" (fs_selectedSub s)) (fs_window s)
                (Some (l_tenant (fs_jwtSubs s))))).

Definition raw_key (name : string) (l : ListState) : query_key :=
  [KText "finops"; KText name; KText (l_from l); KText (l_to l); KText (l_tenant l); KText (l_subject l);
   KText (l_model l); KText (l_provider l); KText (l_status l); KInt (l_page l); KInt listLimit].

Definition apiKeyRawQuery (s : FinopsState) : finops_query :=
  let l := fs_rawKeys s in
  mkQuery (raw_key "api-keys-raw-usage" l) (viewing ApiKeysRawMode s)
    (discard (fetchApiKeyRawUsage parse_date (Some (l_from l)) (Some (l_to l)) (params_of l))).

Definition jwtSubRawQuery (s : FinopsState) : finops_query :=
  let l := fs_rawSubs s in
  mkQuery (raw_key "jwt-subs-raw-usage" l) (viewing JwtSubRawMode s)
    (discard (fetchJwtSubRawUsage parse_date (Some (l_from l)) (Some (l_to l)) (params_of l))).

Definition page_queries (s : FinopsState) : list finops_query :=
  [usageSummariesQuery s; anomalyExplainQuery s; anomaliesQuery s; anomalyStatsQuery s; apiKeyUsageQuery s;
   apiKeyDrilldownQuery s; monetizationApiKeysQuery s; monetizationDrilldownQuery s; monetizationJwtQuery s;
   jwtSubUsageQuery s; jwtSubDrilldownQuery s; apiKeyRawQuery s; jwtSubRawQuery s].
End Queries.

(** The statistics of the tenants are kept under the ids joined by commas. *)
Definition tenantStatsKey (s : FinopsState) (ids : list string) : query_key :=
  [KText "finops"; KText "tenant-request-stats"; KText (fs_month s); key_window (fs_window s);
   KText (str_join "," ids)].

(** ** What the answers become *)

(** [String(row.f ?? '') === filter], with no filter keeping all rows *)
Definition named_rows (field filter : string) (rows : list js) : list js :=
  if String.eqb filter "" then rows
  else List.filter (fun row => String.eqb (str_of (opt_get row field) "") filter) rows.
Definition apiKeyUsageRows (response : js) (apiKeyNameFilter : string) : list js :=
  named_rows "api_key_name" apiKeyNameFilter (js_array (opt_get response "data")).
Definition jwtSubUsageRows (response : js) (jwtSubFilter : string) : list js :=
  named_rows "jwt_sub" jwtSubFilter (js_array (opt_get response "data")).

(** [Array.from(new Set(rows.map(r => String(r.f ?? '').trim()).filter(Boolean))).sort()] *)
Definition name_options (field : string) (response : js) : list string :=
  options_of (map (fun row => str_trim (str_of (opt_get row field) "")) (js_array (opt_get response "data"))).
Definition apiKeyNameOptions : js -> list string := name_options "api_key_name".
Definition jwtSubOptions : js -> list string := name_options "jwt_sub".

(** Raw rows from the latest to the oldest *)
Definition raw_rows (date_time : js -> num) (response : js) : list js :=
  sort_with (cmp_down (fun row => date_time (opt_get row "timestamp"))) (js_array (opt_get response "data")).

(** The paging of a list: the answer's, or an empty one; [Next] is offered while rows are left. *)
Record PageInfo := mkPageInfo { pi_offset : Z; pi_returned : Z; pi_total : Z }.
Definition next_offered (p : option PageInfo) : bool :=
  match p with
  | Some p => negb (pi_total p <=? pi_offset p + pi_returned p)%Z
  | None => negb (0 <=? 0 + 0)%Z
  end.

(** The width of a bar in percent: at least two, so that it can be seen *)
Definition bar_max (maxValue : option num) (values : list num) : num :=
  match maxValue with
  | Some m => if num_truthy m then m else fold_left num_max values num_zero
  | None => fold_left num_max values num_zero
  end.
Definition bar_width (max value : num) : num :=
  if num_gtb max num_zero then num_max (num_mul (num_div value max) (num_of_Z 100)) (num_of_Z 2) else num_zero.

(** ** The billing report *)

(** The headers have the expressions of the logs page. *)
Definition resolveBillingFilename : option string -> option string := resolveExportFilename.

Inductive billing_outcome := ReportStored (filename text : string) | ReportToast (description : string).

Definition handleDownloadBillingReport (w : WindowHours) : M billing_outcome :=
  try_catch
    (resp ← page_get ("/api/finops/billing/report?window_hours=" ++ encodeURIComponent (window_text w));
     if negb (res_ok resp) then
       _ ← assertFinopsUnauthorized resp; throw (JsError "Failed to download billing report.")
     else
       text ← res_text resp;
       mret (ReportStored (default "billing_report.csv"
               (resolveBillingFilename (params_get "content-disposition" (res_headers resp)))) text))
    (fun _ => mret (ReportToast "Failed to download billing report.")).

(** ** The cache *)

Lemma window_hours_inj (w w' : WindowHours) : window_hours w = window_hours w' -> w = w'.
Proof. by destruct w, w'. Qed.
Lemma key_opt_inj (o o' : option string) : key_opt o = key_opt o' -> o = o'.
Proof. destruct o, o'; cbn; congruence. Qed.



(** The statistics of the tenants are the exception: ids with a comma share a key. *)
Theorem tenant_stats_key_collides (s : FinopsState) :
  tenantStatsKey s ["a"; "b"] = tenantStatsKey s ["a,b"].
Proof. reflexivity. Qed.

(** Without commas the key names the ids. *)
Lemma tenant_stats_key_ids (s s' : FinopsState) (ids ids' : list string) :
  Forall (fun i => lacks "," i = true) ids -> Forall (fun i => lacks "," i = true) ids' -> ids <> [] -> ids' <> [] ->
  tenantStatsKey s ids = tenantStatsKey s' ids' -> ids = ids' /\ fs_window s = fs_window s'.
Proof.
  intros H H' Hn Hn' E. unfold tenantStatsKey, key_window in E. injection E as _ Ew Ei. split; [|by apply window_hours_inj].
  rewrite <- (split_join "," ids Hn H), <- (split_join "," ids' Hn' H'). by rewrite Ei.
Qed.

(** ** Pages *)

Definition pages_of (s : FinopsState) : list Z :=
  [l_page (fs_anomalies s); l_page (fs_apiKeys s); l_page (fs_jwtSubs s); l_page (fs_rawKeys s);
   l_page (fs_rawSubs s); fs_keyPage s; fs_subPage s].

(** The page an event may turn: none below the first *)
Lemma list_step_page (restart : bool) (start s : ListState) (e : list_event) :
  l_page start = 0%Z -> (0 <= l_page s)%Z -> (0 <= l_page (list_step restart start s e))%Z.
Proof. intros H0 H. destruct s, e, restart; cbn in *; lia. Qed.

Lemma step_pages (from to : string) (s : FinopsState) (e : finops_event) :
  Forall (fun p => (0 <= p)%Z) (pages_of s) -> Forall (fun p => (0 <= p)%Z) (pages_of (finops_step from to s e)).
Proof.
  destruct s as [w v m an ak sb rk rs tab kp sp sk ss sm ad]. unfold pages_of. cbn.
  intros H. rewrite !List.Forall_cons_iff in H. destruct H as (? & ? & ? & ? & ? & ? & ? & _).
  destruct e as [| | |e|e|e|e|e|[]|[]|[]| | | |]; repeat apply List.Forall_cons; try apply List.Forall_nil;
    try done; try (apply list_step_page; done); cbn; lia.
Qed.

(** What an honest gateway says of a page of [total] rows *)
Definition page_info (page total : Z) : PageInfo :=
  mkPageInfo (page * listLimit) (Z.max 0 (Z.min listLimit (total - page * listLimit))) total.

(** the pages of the FinOps lists.  Whatever is clicked, no list asks for a page below the
    first.  In the lists of API keys and JWT subjects, raw or not, every filter and the reset
    return to the first page; an input of the API keys leaves the pages of the other lists.  A
    [Next] that is offered by the gateway's answer leads to a page with rows. *)
Theorem finops_pages_sound (month from to : string) (events : list (string * string * finops_event)) :
  let s := fold_left (fun s e => finops_step e.1.1 e.1.2 s e.2) events (initial_finops month from to) in
  Forall (fun p => (0 <= p)%Z) (pages_of s)
  /\ (forall l start e, In start [plain_list ""; raw_list_start from to] -> is_filter e = true ->
        l_page (list_step true start l e) = 0%Z)
  /\ (forall e, pages_of (finops_step from to s (ApiKeyInput e))
                = let p := pages_of s in
                  [nth 0 p 0; l_page (apiKeys_step (fs_apiKeys s) e); nth 2 p 0; nth 3 p 0; nth 4 p 0;
                   nth 5 p 0; nth 6 p 0])%Z
  /\ (forall page total, (0 <= page)%Z -> next_offered (Some (page_info page total)) = true ->
        (0 < pi_returned (page_info (page + 1) total))%Z).
Proof.
  cbn zeta. split; [|split; [|split]].
  - assert (H : Forall (fun p => (0 <= p)%Z) (pages_of (initial_finops month from to))) by (repeat constructor; cbn; lia).
    revert H. generalize (initial_finops month from to). induction events as [|e l IH]; intros s Hs; cbn; [done|].
    by apply IH, step_pages.
  - intros l start e Hs He. destruct l, e; cbn in *; try done.
    by destruct Hs as [<-|[<-|[]]].
  - intros e. by destruct (fold_left _ _ _).
  - intros page total Hp. unfold next_offered, page_info, listLimit. cbn. intros H%negb_true_iff%Z.leb_gt. lia.
Qed.

(** The anomalies keep their page: from a later page, a filter with fewer rows shows none, and
    the list says there is nothing further. *)
Theorem anomaly_filter_strands (s : ListState) (v : string) (total : Z) :
  (0 < l_page s)%Z -> (0 <= total <= l_page s * listLimit)%Z ->
  let s' := anomalies_step s (ChangeTenant v) in
  pi_returned (page_info (l_page s') total) = 0%Z /\ next_offered (Some (page_info (l_page s') total)) = false.
Proof.
  destruct s. unfold next_offered, page_info, listLimit. cbn. intros Hp Ht. split; [lia|].
  apply negb_false_iff, Z.leb_le. lia.
Qed.

(** A change of the window keeps every page, with the same effect. *)
Lemma window_keeps_pages (from to : string) (s : FinopsState) (w : WindowHours) :
  pages_of (finops_step from to s (SetWindow w)) = pages_of s.
Proof. by destruct s. Qed.

(** The page is withheld whenever one of its three answers is a denial, and never shows data of a
    query that failed. *)
Theorem finops_denials_hide {A B} (budgets : query A) (usage : query B) (stats : query (list js * list string))
    (v : FinOpsViewMode) :
  BudgetsPage budgets usage stats v = Showing v ->
  query_error budgets = None /\ query_error usage = None /\ (query_data ([], []) stats).2 = [].
Proof.
  unfold BudgetsPage. destruct budgets as [|e|a]; cbn; [|by destruct (access_denied e)|];
    (destruct usage as [|e|b]; cbn; [|by destruct (access_denied e)|]);
    destruct stats as [|e|[rows forbidden]]; cbn; try done;
    destruct forbidden; cbn; done.
Qed.

(** The billing report always ends: a file, or the toast; a denial is the toast too. *)
Lemma billing_never_throws (w : World) (s : State) (win : WindowHours) :
  exists r s', handleDownloadBillingReport win w s = (Ok r, s').
Proof.
  unfold handleDownloadBillingReport, try_catch. match goal with |- context [match ?m with _ => _ end] =>
    destruct m as [[r|e] s'] end; by eexists _, _.
Qed.
