(* ===== verification/FinopsTables.v ===== *)
(** * What the FinOps page shows

    src/frontend/src/app/(app)/budgets/page.tsx from its navigation down: the cards, rankings,
    tables and drawers of its nine views, as functions of the data that [FinopsPage] fetches and
    derives and of the state of [FinopsView].  Rows have the fields their fetch gives them.
    Milliseconds of dates are integers below 2^53, whose quotients by a minute or an hour floor to
    the integer quotient. *)

From S2P Require Import Prelude JsNumber JsText JsValue JsArray NumOrder Effects Csv UsageApi RoutingInsights SemanticViews FinopsPage FinopsView.
From Stdlib Require Import Sorting.Sorted.
Local Open Scope string_scope.

(** ** Rankings and bars *)

(** [[...rows].sort((a, b) => b.k - a.k).slice(0, n)] *)
Definition ranking {A} (n : nat) (key : A -> num) (rows : list A) : list A := take n (sort_with (cmp_down key) rows).

(** [Math.max(...rows.map(key), 0) || 1] *)
Definition scale {A} (key : A -> num) (rows : list A) : num :=
  let m := fold_left num_max (map key rows) num_zero in if num_truthy m then m else num_of_Z 1.
(** [Math.max((value / max) * 100, 2)] *)
Definition width_of (max value : num) : num := num_max (num_mul (num_div value max) (num_of_Z 100)) (num_of_Z 2).

(** A bar: its label, the text beside it and its width in percent *)
Record Bar := mkBar { bar_label : string; bar_text : string; bar_size : num }.
Definition bars_of {A} (label text : A -> string) (key : A -> num) (all shown : list A) : list Bar :=
  map (fun x => mkBar (label x) (text x) (width_of (scale key all) (key x))) shown.

(** [v == null ? '-' : show(v)] and [text || '-'] *)
Definition given_or (o : option num) (show : num -> string) : string := match o with Some v => show v | None => "-" end.
Definition or_dash (v : js) : string := js_to_string (js_or v (JStr "-")).
Definition null_dash (v : js) : string := str_of v "-".
Definition times_100 (v : num) : num := num_mul v (num_of_Z 100).
Definition rate_text (digits : nat) (v : num) : string := to_fixed digits (times_100 v) ++ "%".
Definition ms_text (v : num) : string := to_fixed 1 v ++ " ms".

(** The rows below a list: [Showing a to b of n], and whether Previous and Next are offered *)
Definition showing_text (what : string) (p : PageInfo) : option string :=
  if (0 <? pi_total p)%Z
  then Some ("Showing " ++ Z_to_string (pi_offset p + 1) ++ " to " ++ Z_to_string (Z.min (pi_offset p + pi_returned p) (pi_total p)) ++
             " of " ++ Z_to_string (pi_total p) ++ " " ++ what)
  else None.

(** ** Navigation *)

Definition finopsNav : list (string * FinOpsViewMode) :=
  [("Dashboard", DashboardMode); ("Budgets", BudgetsMode); ("Analytics", AnalyticsMode); ("Anomaly Detection", AnomaliesMode);
   ("Monetization", MonetizationMode); ("API Keys Usage", ApiKeysUsageMode); ("JWT-SUB Usage", JwtSubUsageMode);
   ("API Keys Raw", ApiKeysRawMode); ("JWT-SUB Raw", JwtSubRawMode)].
(** The controls a view has: the window, the month *)
Definition window_control (v : FinOpsViewMode) : bool :=
  match v with BudgetsMode | AnalyticsMode | AnomaliesMode | ApiKeysUsageMode | JwtSubUsageMode | MonetizationMode => true | _ => false end.
Definition month_control (v : FinOpsViewMode) : bool := match v with AnalyticsMode | DashboardMode => true | _ => false end.

Section Formats.
(** toLocaleString of a number, formatCurrency, formatCurrencyFloorCents, a date in the locale, and
    the milliseconds of a date, None for an invalid one *)
Context (locale currency currency_floor : num -> string) (date_text : js -> string) (date_ms : js -> option Z).

Definition date_or_dash (v : js) : string := if truthy v then date_text v else "-".
Definition count_text (n : nat) : string := Z_to_string (Z.of_nat n).

(** ** Budgets *)

Definition consumption (b : TenantBudget) : num :=
  if num_gtb (effectiveLimit b) num_zero then times_100 (num_div (tb_current_spend_usd b) (effectiveLimit b)) else num_zero.

(** [BarChartSection] *)
Definition BarChartSection (value : TenantBudget -> num) (label : num -> TenantBudget -> string) (maxValue : option num)
    (budgets : list TenantBudget) : list Bar :=
  let max := bar_max maxValue (map value budgets) in
  map (fun b => mkBar (tb_tenant_id b) (label (value b) b) (bar_width max (value b))) budgets.

Definition budget_charts (configured : list TenantBudget) : option (list Bar * list Bar) :=
  match configured with
  | [] => None
  | _ => Some (BarChartSection consumption (fun v _ => formatSmallPercent (Some v)) (Some (num_of_Z 100)) configured,
               BarChartSection tb_current_spend_usd
                 (fun _ b => currency (tb_current_spend_usd b) ++ " / " ++ currency (effectiveLimit b)) None configured)
  end.

Definition totalReserved (configured : list TenantBudget) : num := sum_by (fun b => default num_zero (tb_reserved_usd b)) configured.
Definition budget_cards (windowHours : num) (budgetsVisible : list TenantBudget) : list (string * string) :=
  let configured := configuredBudgets budgetsVisible in
  [("Config Budgets", count_text (List.length configured));
   ("Total Spend", currency (sum_by tb_current_spend_usd configured)); ("Reserved", currency (totalReserved configured));
   ("Remaining Budget", currency (totalRemaining configured));
   ("Budgets Exceeded", count_text (List.length (with_status "exceeded" configured)));
   ("In Warning", count_text (List.length (with_status "warning" configured)));
   ("Active Overrides", count_text (activeOverrides budgetsVisible));
   ("Proj Overruns", count_text (projectedOverruns windowHours configured))].

(** The table, or why there is none *)
Definition allocations (isLoading : bool) (budgets budgetsVisible : list TenantBudget) (forbidden : list string)
    : Part (list TenantBudget) * string :=
  let description := match budgets, forbidden with
                     | _ :: _, _ :: _ => "Some tenants are hidden because request/traffic data is not accessible (access denied)."
                     | _, _ => "No tenants available to configure budgets"
                     end in
  (table_part isLoading false "" (match budgets with _ :: _ => "No accessible tenant budgets" | [] => "No tenants found" end) budgetsVisible,
   description).

(** ** Analytics *)

Definition mean_of (l : list num) : num := num_div (sum_by (fun x => x) l) (num_max (num_length l) (num_of_Z 1)).
Definition success_rates (rows : list TenantAnalytics) : list num := omap (fun r => an_success_rate (ta_row r)) rows.
Definition with_analytics_status (s : string) (rows : list TenantAnalytics) : nat :=
  List.length (List.filter (fun r => String.eqb (an_status (ta_row r)) s) rows).

Definition analytics_cards (rows : list TenantAnalytics) : list (string * string) :=
  [("Total Tenants Active", count_text (List.length rows)); ("Total Requests", locale (sum_by (fun r => an_requests (ta_row r)) rows));
   ("Total Spend", currency (sum_by (fun r => an_spend_usd (ta_row r)) rows));
   ("Avg Success Rate", match success_rates rows with [] => "-" | l => to_fixed 1 (num_mul (mean_of l) (num_of_Z 100)) ++ "%" end);
   ("Tenants in Warning", count_text (with_analytics_status "warning" rows));
   ("Tenants Over Budget", count_text (with_analytics_status "exceeded" rows))].

(** The options of the filters: [Array.from(new Set(l)).sort()] *)
Definition tenant_options (usage : list UsageSummary) : list string := js_sort by_code (js_set (map us_tenant_id usage)).
Definition usage_model_options (usage : list UsageSummary) : list string :=
  js_sort by_code (js_set (flat_map (fun u => map (fun m : string * num * num => m.1.1) (us_models u)) usage)).
Definition perf_provider_options (modelPerf : list (string * string)) : list string := options_of (map snd modelPerf).
Definition perf_model_options (modelPerf : list (string * string)) : list string := options_of (map fst modelPerf).
Definition reset_filters : AnalyticsFilters := mkAnalyticsFilters "all" "all" "all" "all" "all".

Definition an_tenant (r : TenantAnalytics) : string := an_tenant_id (ta_row r).
Definition top_by_requests (rows : list TenantAnalytics) : list TenantAnalytics := ranking 5 (fun r => an_requests (ta_row r)) rows.
Definition top_by_spend (rows : list TenantAnalytics) : list TenantAnalytics := ranking 5 (fun r => an_spend_usd (ta_row r)) rows.
(** Rows with a value, by it *)
Definition top_given {A} (n : nat) (key : A -> option num) (rows : list A) : list A :=
  ranking n (fun r => default num_zero (key r)) (List.filter (fun r => bool_decide (is_Some (key r))) rows).
Definition top_by_utilization : list TenantAnalytics -> list TenantAnalytics := top_given 5 (fun r => an_utilization_pct (ta_row r)).
Definition top_by_success : list TenantAnalytics -> list TenantAnalytics := top_given 10 (fun r => an_success_rate (ta_row r)).

Definition requests_section (isLoadingUsage : bool) (rows : list TenantAnalytics) : Part (list Bar) :=
  table_part isLoadingUsage false "" "No usage found for the selected month."
    (bars_of an_tenant (fun r => locale (an_requests (ta_row r)) ++ " reqs") (fun r => an_requests (ta_row r)) rows (top_by_requests rows)).
Definition spend_section (isLoadingUsage : bool) (rows : list TenantAnalytics) : Part (list Bar) :=
  table_part isLoadingUsage false "" "No spend found for the selected month."
    (bars_of an_tenant (fun r => currency (an_spend_usd (ta_row r))) (fun r => an_spend_usd (ta_row r)) rows (top_by_spend rows)).
(** It is empty when no row has a budget; its bars are those of the rows with a utilization, at
    their own length. *)
Definition utilization_section (isLoading : bool) (rows : list TenantAnalytics) : Part (list Bar) :=
  if isLoading then PartLoading
  else if existsb (fun r => bool_decide (is_Some (an_budget_usd (ta_row r)))) rows
  then PartShown (map (fun r => let util := default num_zero (an_utilization_pct (ta_row r)) in
                                mkBar (an_tenant r) (to_fixed 1 util ++ "%") util) (top_by_utilization rows))
  else PartEmpty "No configured budgets found.".
Definition success_section (isLoadingTenantStats : bool) (rows : list TenantAnalytics) : Part (list Bar) :=
  if isLoadingTenantStats then PartLoading
  else match success_rates rows with
       | [] => PartEmpty "No tenant request stats available in selected window."
       | _ => PartShown (map (fun r => let rate := times_100 (default num_zero (an_success_rate (ta_row r))) in
                                       mkBar (an_tenant r) (to_fixed 1 rate ++ "%") (num_max rate (num_of_Z 2))) (top_by_success rows))
       end.
Definition risk_map (rows : list TenantAnalytics) : list (string * nat) :=
  map (fun s => (s, with_analytics_status s rows)) ["healthy"; "warning"; "exceeded"].

Definition analytics_row_cells (r : AnalyticsRow) : list string :=
  [an_tenant_id r; locale (an_requests r); currency (an_spend_usd r); given_or (an_success_rate r) (rate_text 1);
   given_or (an_avg_latency_ms r) ms_text; default "-" (an_top_model r); given_or (an_budget_usd r) currency;
   given_or (an_remaining_budget_usd r) currency_floor; formatSmallPercent (an_utilization_pct r); an_status r].

Definition analytics_table (rows : list TenantAnalytics) : Part (list (list string)) :=
  table_part false false "" "No tenant analytics data for selected filters." (map (fun r => analytics_row_cells (ta_row r)) rows).

(** *** The drawer of a tenant *)

Definition model_requests (m : string * num * num) : num := m.1.2.
Definition model_cost (m : string * num * num) : num := m.2.
Definition model_name (m : string * num * num) : string := m.1.1.

(** Requests by provider: one pass over the models *)
Definition requests_by_provider (providers : list (string * string)) (models : list (string * num * num)) : list (string * num) :=
  group_by (fun m => Some (resolveProviderFromModel (model_name m) providers))
    (fun prev m => num_add (or_zero (default num_zero prev)) (model_requests m)) models.

Record TenantDrawer := mkTenantDrawer {
  td_overview : list (string * string);
  td_budget : list (string * string);
  td_by_requests : list Bar;
  td_by_spend : list Bar;
  td_by_provider : list Bar;
  td_alerts : string;
}.
Definition tenant_drawer (windowHours : num) (providers : list (string * string)) (row : TenantAnalytics) : TenantDrawer :=
  let r := ta_row row in
  let models := ta_models row in
  let byProvider := sort_with (cmp_down snd) (requests_by_provider providers models) in
  mkTenantDrawer
    [("Requests:", locale (an_requests r)); ("Total Cost:", currency (an_spend_usd r));
     ("Success:", given_or (an_success_rate r) (rate_text 1)); ("Avg Latency:", given_or (an_avg_latency_ms r) ms_text)]
    [("Budget:", given_or (an_budget_usd r) currency); ("Remaining:", given_or (an_remaining_budget_usd r) currency_floor);
     ("Projected:", currency (projected_spend windowHours (an_spend_usd r))); ("Status:", an_status r)]
    (bars_of model_name (fun m => locale (model_requests m)) model_requests models (take 10 models))
    (bars_of model_name (fun m => currency (model_cost m)) model_cost models (ranking 10 model_cost models))
    (bars_of fst (fun p => locale p.2) snd byProvider byProvider)
    (if String.eqb (an_status r) "exceeded" then "Budget exceeded for this tenant in current period."
     else if String.eqb (an_status r) "warning" then "Tenant is approaching budget limit."
     else "No active alerts in available analytics sources.").

(** ** Usage of API keys and JWT subjects *)

(** [Number(row.k ?? 0)] *)
Definition rnum (k : string) (row : js) : num := num_of (opt_get row k) num_zero.
(** [api_key_name || api_key_id], and [jwt_sub || '-'] *)
Definition key_label (row : js) : string := js_to_string (js_or (opt_get row "api_key_name") (opt_get row "api_key_id")).
Definition sub_label (row : js) : string := or_dash (opt_get row "jwt_sub").

(** The mean of the rows' success rates in percent *)
Definition rows_success (rows : list js) : option num :=
  match omap (fun r => opt_num (opt_get r "success_rate")) rows with
  | [] => None
  | l => Some (num_mul (num_div (sum_by (fun x => x) l) (num_length l)) (num_of_Z 100))
  end.

(** The names of the properties in which the two lists differ *)
Record UsageNames := mkUsageNames { un_active : string; un_highest : string; un_most : string; un_name : string }.
Definition key_names : UsageNames := mkUsageNames "total_active_api_keys" "highest_spend_key" "most_active_key" "api_key_name".
Definition sub_names : UsageNames := mkUsageNames "total_active_jwt_subs" "highest_spend_sub" "most_active_sub" "jwt_sub".

Definition highest_spend (rows : list js) : option js := head (sort_with (cmp_down (rnum "total_cost_usd")) rows).
Definition most_active (rows : list js) : option js := head (sort_with (cmp_down (rnum "requests")) rows).

(** A card: its value, and the description below it *)
Definition usage_cards (n : UsageNames) (windowHours : Z) (summary : js) (total : js) (rows : list js) : list (string * string) :=
  let s := opt_get summary in
  let avgSuccess := match opt_num (s "avg_success_rate") with Some v => Some (times_100 v) | None => rows_success rows end in
  let named k best := js_to_string (js_or (js_or (s k) (match best with Some r => opt_get r (un_name n) | None => JUndef end)) (JStr "-")) in
  let described best show := match best with Some r => show r | None => "No data" end in
  [(js_to_string (js_coalesce (js_coalesce (s (un_active n)) total) (js_length rows)), Z_to_string windowHours ++ "h window");
   (locale (js_to_number (js_coalesce (s "total_requests") (JNum (sum_by (rnum "requests") rows)))), "Visible leaderboard");
   (currency (js_to_number (js_coalesce (s "total_spend") (JNum (sum_by (rnum "total_cost_usd") rows)))), "Visible leaderboard");
   (match avgSuccess with Some v => to_fixed 1 v ++ "%" | None => "-" end, "Visible leaderboard");
   (named (un_highest n) (highest_spend rows), described (highest_spend rows) (fun r => currency (field_num "total_cost_usd" r)));
   (named (un_most n) (most_active rows), described (most_active rows) (fun r => locale (field_num "requests" r) ++ " reqs"))].

(** The three rankings of a list *)
Definition usage_top_requests (label : js -> string) (rows : list js) : list Bar :=
  bars_of label (fun r => locale (field_num "requests" r)) (field_num "requests") rows (ranking 8 (field_num "requests") rows).
Definition usage_top_spend (label : js -> string) (rows : list js) : list Bar :=
  bars_of label (fun r => currency (field_num "total_cost_usd" r)) (field_num "total_cost_usd") rows
    (ranking 8 (field_num "total_cost_usd") rows).
Definition usage_top_success (label : js -> string) (rows : list js) : list Bar :=
  map (fun r => let rate := times_100 (rnum "success_rate" r) in mkBar (label r) (to_fixed 1 rate ++ "%") (num_max rate (num_of_Z 2)))
    (top_given 8 (fun r => opt_num (opt_get r "success_rate")) rows).
Definition usage_rankings (what : string) (label : js -> string) (isLoading : bool) (rows : list js) : list (Part (list Bar)) :=
  [table_part isLoading false "" ("No " ++ what ++ " usage data available") (usage_top_requests label rows);
   table_part isLoading false "" ("No " ++ what ++ " spend data available") (usage_top_spend label rows);
   table_part isLoading false "" "No success rate data available" (usage_top_success label rows)].

(** The average cost of a row: the gateway's, or spend over requests *)
Definition average_cost (row : js) : string :=
  formatAvgCostUsd (Some (match opt_num (opt_get row "avg_cost_per_request_effective") with
                          | Some v => v
                          | None => num_div (rnum "total_cost_usd" row) (num_max (num_of_Z 1) (rnum "requests" row))
                          end)).
(** The type of a model of the catalogue *)
Definition model_type (modelTypeMap : list (string * string)) (model : js) : string :=
  match map_get (js_to_string model) modelTypeMap with
  | None => "unknown"
  | Some t => if String.eqb t "ml" then "ml" else if String.eqb t "embedding" then "embedding" else "llm"
  end.

Definition leaderboard (rows : list js) : list js := sort_with (cmp_down (rnum "total_cost_usd")) rows.
Definition key_usage_cells (modelTypeMap : list (string * string)) (row : js) : list string :=
  let f := opt_get row in
  [key_label row; js_to_string (f "tenant_id"); locale (rnum "requests" row); currency (rnum "total_cost_usd" row); average_cost row;
   given_or (opt_num (f "success_rate")) (rate_text 1); given_or (opt_num (f "avg_latency_ms")) ms_text; null_dash (f "top_model");
   (if truthy (f "top_model") then model_type modelTypeMap (f "top_model") else "-"); null_dash (f "top_provider");
   date_or_dash (f "last_seen_at")].
Definition sub_usage_cells (row : js) : list string :=
  let f := opt_get row in
  [sub_label row; or_dash (f "tenant_id"); locale (rnum "requests" row); locale (rnum "prompt_tokens" row);
   locale (rnum "completion_tokens" row); locale (rnum "total_tokens" row); currency (rnum "total_cost_usd" row); average_cost row;
   date_or_dash (f "first_seen"); date_or_dash (f "last_seen")].

Inductive UsageListView :=
| UsageFailed (title message : string)
| UsageShown (cards : option (list (string * string))) (rankings : list (Part (list Bar))) (table : Part (list (list string)))
    (paging : option string).
Definition ApiKeysUsage (q : query js) (windowHours : Z) (nameFilter : string) (p : PageInfo) (modelTypeMap : list (string * string))
    : UsageListView :=
  match q with
  | Failed e => UsageFailed "Unable to load API key usage" (exn_message e)
  | _ =>
      let isLoading := match q with Loading => true | _ => false end in
      let response := query_data JUndef q in
      let rows := apiKeyUsageRows response nameFilter in
      UsageShown (if isLoading then None else Some (usage_cards key_names windowHours (opt_get response "summary") (js_of_Z (pi_total p)) rows))
        (usage_rankings "API key" key_label isLoading rows)
        (table_part isLoading false "" "No API key usage data in the selected window"
           (map (key_usage_cells modelTypeMap) (leaderboard rows)))
        (showing_text "API keys" p)
  end.
Definition JwtSubUsage (q : query js) (windowHours : Z) (subFilter : string) (p : PageInfo) : UsageListView :=
  match q with
  | Failed e => UsageFailed "Unable to load JWT sub usage" (exn_message e)
  | _ =>
      let isLoading := match q with Loading => true | _ => false end in
      let response := query_data JUndef q in
      let rows := jwtSubUsageRows response subFilter in
      UsageShown (if isLoading then None else Some (usage_cards sub_names windowHours (opt_get response "summary") (js_of_Z (pi_total p)) rows))
        (usage_rankings "JWT sub" sub_label isLoading rows)
        (table_part isLoading false "" "No JWT sub usage data in the selected window" (map sub_usage_cells (leaderboard rows)))
        (showing_text "JWT subs" p)
  end.

(** *** The drawer of an API key *)

Definition percentiles (drill : js) : option (list (string * string)) :=
  let p := js_or (opt_get drill "latency_percentiles") (JObj (map (fun k => (k, js_of_Z 0)) ["p50"; "p95"; "max"])) in
  let ks := ["p50"; "p95"; "max"] in
  let zero v := match v with JNum n => (negb (num_is_finite n) || num_eqb n num_zero)%bool | _ => true end in
  if forallb (fun k => zero (opt_get p k)) ks then None else Some (map (fun k => (k, formatLatencyMs (opt_get p k))) ks).

Definition cost_rows (drill : js) : list js := ranking 10 (rnum "cost_usd") (js_array (opt_get drill "requests_by_model")).
Definition cost_distribution (drill : js) : list Bar :=
  let rows := cost_rows drill in
  let stated := rnum "total_cost_usd" (opt_get drill "summary") in
  let total := if num_truthy stated then stated else sum_by (rnum "cost_usd") rows in
  bars_of (fun r => or_dash (opt_get r "model"))
    (fun r => let cost := rnum "cost_usd" r in
              locale (rnum "requests" r) ++ " req • " ++ currency cost ++ " • " ++ to_fixed 1 (pct_of cost total) ++ "%")
    (rnum "cost_usd") rows rows.
Definition provider_rows (drill : js) : list (string * string) :=
  map (fun r => (or_dash (opt_get r "provider"), locale (rnum "requests" r) ++ " req"))
    (sort_with (cmp_down (rnum "requests")) (js_array (opt_get drill "requests_by_provider"))).

(** The errors of the recent requests, by type *)
Definition drill_error_key (r : js) : option string :=
  if String.eqb (str_lower (js_to_string (js_or (opt_get r "status") (JStr "")))) "ok" then None
  else let e := str_trim (js_to_string (js_or (opt_get r "error_type") (JStr ""))) in
       Some (if String.eqb e "" then "unknown" else e).
Definition error_rows (recents : list js) : list (string * Z) := take 10 (most_first (count_by drill_error_key recents)).

(** The traffic of the recent requests when the gateway has none: counts and spend per bucket of a
    minute or an hour, in a Map by the start of the bucket *)
Record Bucket := mkBucket { bk_ts : Z; bk_count : Z; bk_spend : num }.
Definition minute_ms : Z := 60000.
Definition hour_ms : Z := 3600000.
Definition request_times (recent : list js) : list Z := omap (fun r => date_ms (opt_get r "timestamp")) recent.
(** [Math.max(0, Math.max(...times) - Math.min(...times))], which is 0 for no times *)
Definition range_ms (times : list Z) : Z :=
  match times with [] => 0 | t :: l => Z.max 0 (fold_left Z.max l t - fold_left Z.min l t) end.
Definition bucket_ms (recent : list js) : Z :=
  if ((range_ms (request_times recent) <=? 2 * hour_ms)%Z && Nat.leb (List.length recent) 200)%bool then minute_ms else hour_ms.
Definition bucket_of (size t : Z) : Z := (t / size * size)%Z.
Fixpoint bump (b : Z) (cost : num) (m : list Bucket) : list Bucket :=
  match m with
  | [] => [mkBucket b 1 (num_add num_zero cost)]
  | x :: m' => if (bk_ts x =? b)%Z then mkBucket b (bk_count x + 1) (num_add (bk_spend x) cost) :: m' else x :: bump b cost m'
  end.
Definition buckets (size : Z) (recent : list js) : list Bucket :=
  fold_left (fun m r => match date_ms (opt_get r "timestamp") with
                        | Some t => bump (bucket_of size t) (rnum "cost_usd" r) m
                        | None => m
                        end) recent [].
(** [rows.slice(-n)] *)
Definition slice_last {A} (n : nat) (l : list A) : list A := drop (List.length l - n) l.
Definition timeline (recent : list js) : list Bucket :=
  slice_last 24 (sort_with (fun a b => bk_ts a - bk_ts b)%Z (buckets (bucket_ms recent) recent)).

Inductive Traffic := NoTraffic | GatewayTraffic (rows : list (string * string)) | DerivedTraffic (rows : list Bucket).
Definition traffic_view (drill : js) : Traffic :=
  match js_array (opt_get drill "traffic_over_time"), js_array (opt_get drill "recent_requests") with
  | (_ :: _) as l, _ =>
      GatewayTraffic (map (fun r => (date_text (opt_get r "bucket"),
        locale (rnum "requests" r) ++ " req / " ++ locale (rnum "errors" r) ++ " err")) (slice_last 12 l))
  | [], [] => NoTraffic
  | [], recent => DerivedTraffic (timeline recent)
  end.

Definition recent_text (modelTypeMap : list (string * string)) (r : js) : string * string * string :=
  let f := opt_get r in
  (or_dash (f "model") ++ (if truthy (f "model") then "(" ++ model_type modelTypeMap (f "model") ++ ")" else ""),
   date_text (f "timestamp"),
   or_dash (f "provider") ++ " • " ++ js_to_string (f "latency_ms") ++ " ms • " ++ js_to_string (f "status") ++ " • " ++
   currency (rnum "cost_usd" r) ++ " " ++ (if truthy (f "fallback_used") then "• fallback" else "")).

(** What stands below the row in a drawer *)
Inductive DrillPart (A : Type) := DrawerError (message : string) | DrawerLoading | DrawerMissing (text : string) | DrawerShown (content : A).
Arguments DrawerError {A}.
Arguments DrawerLoading {A}.
Arguments DrawerMissing {A}.
Arguments DrawerShown {A}.
Definition drawer_part {A B} (q : query A) (missing : string) (content : A -> option B) : DrillPart B :=
  match q with
  | Failed e => DrawerError (exn_message e)
  | Loading => DrawerLoading
  | Data d => match content d with Some c => DrawerShown c | None => DrawerMissing missing end
  end.

Definition key_summary_rows (drill : js) : list (string * string) :=
  let s := opt_get drill "summary" in
  let f := opt_get s in
  [("API Key:", or_dash (opt_get drill "api_key_name")); ("Tenant:", or_dash (opt_get drill "tenant_id"));
   ("Requests:", locale (field_num "requests" s)); ("Total Cost:", currency (field_num "total_cost_usd" s));
   ("Avg Cost / Request:", average_cost s); ("Success Rate:", given_or (opt_num (f "success_rate")) (rate_text 1));
   ("Avg Latency:", given_or (opt_num (f "avg_latency_ms")) ms_text); ("Top Model:", null_dash (f "top_model"));
   ("Top Provider:", null_dash (f "top_provider")); ("Last Seen:", date_or_dash (f "last_seen_at"))].
Record KeyDrawer := mkKeyDrawer {
  kd_summary : list (string * string);
  kd_percentiles : option (list (string * string));
  kd_costs : list Bar;
  kd_providers : list (string * string);
  kd_errors : list (string * Z);
  kd_traffic : Traffic;
  kd_recent : list (string * string * string);
}.
Definition key_drawer (modelTypeMap : list (string * string)) (q : query js) : DrillPart KeyDrawer :=
  drawer_part q "Detailed drilldown data is not available yet for this API key." (fun drill =>
    let recent := js_array (opt_get drill "recent_requests") in
    if truthy drill
    then Some (mkKeyDrawer (key_summary_rows drill) (percentiles drill) (cost_distribution drill) (provider_rows drill)
                 (error_rows recent) (traffic_view drill) (map (recent_text modelTypeMap) (take 10 recent)))
    else None).

(** *** The drawer of a subject: its breakdowns are shown in the order they came in *)

Record SubDrawer := mkSubDrawer {
  sd_summary : list (string * string);
  sd_costs : list Bar;
  sd_providers : list Bar;
  sd_days : list (string * string);
}.
Definition sub_drawer (day_text : js -> string) (q : query js) : DrillPart SubDrawer :=
  drawer_part q "Detailed drilldown data is not available yet for this JWT subject." (fun drill =>
    let s := opt_get drill "summary" in
    let models := js_array (opt_get drill "requests_by_model") in
    let providers := js_array (opt_get drill "requests_by_provider") in
    if truthy drill
    then Some (mkSubDrawer
      ([("Requests:", locale (field_num "requests" s)); ("Total Cost:", currency (field_num "total_cost_usd" s));
        ("Prompt Tokens:", locale (field_num "prompt_tokens" s)); ("Completion Tokens:", locale (field_num "completion_tokens" s));
        ("Total Tokens:", locale (field_num "total_tokens" s))])
      (bars_of (fun r => js_to_string (opt_get r "model")) (fun r => currency (field_num "cost_usd" r)) (field_num "cost_usd") models (take 10 models))
      (bars_of (fun r => js_to_string (opt_get r "provider")) (fun r => locale (field_num "requests" r)) (field_num "requests") providers (take 10 providers))
      (map (fun r => (day_text (opt_get r "bucket"),
                      locale (field_num "requests" r) ++ " req" ++
                      (if num_truthy (field_num "total_cost_usd" r) then " • " ++ currency (field_num "total_cost_usd" r) else "")))
         (slice_last 12 (js_array (opt_get drill "traffic_over_time")))))
    else None).

(** ** Raw usage *)

Definition raw_cells (names : list string) (row : js) : list string :=
  ([date_or_dash (opt_get row "timestamp")] ++ map (fun k => or_dash (opt_get row k)) (["tenant_id"] ++ names ++ ["request_id"; "model"; "provider"; "status"]) ++
   [(locale (rnum "latency_ms" row) ++ " ms")%string; currency (rnum "cost_usd" row)] ++
   map (fun k => locale (rnum k row)) ["prompt_tokens"; "cached_tokens"; "completion_tokens"; "total_tokens"])%list.
Definition key_raw_names : list string := ["api_key_name"; "api_key_id"].
Definition sub_raw_names : list string := ["jwt_sub"].
(** The note above the table of an endpoint that is missing *)
Definition raw_note (response : js) : option string :=
  if (negb (truthy (opt_get response "endpoint_available")) && truthy (opt_get response "error_message"))%bool
  then Some ("Raw usage endpoint not available yet: " ++ js_to_string (opt_get response "error_message")) else None.
Inductive RawView :=
| RawFailed (title message : string)
| RawShown (note : option string) (table : Part (list (list string))) (paging : option string).
Definition raw_view (title empty : string) (names : list string) (date_time : js -> num) (q : query js) (p : PageInfo) : RawView :=
  match q with
  | Failed e => RawFailed title (exn_message e)
  | _ => let response := query_data JUndef q in
         RawShown (raw_note response)
           (table_part (match q with Loading => true | _ => false end) false "" empty (map (raw_cells names) (raw_rows date_time response)))
           (showing_text "requests" p)
  end.
Definition ApiKeysRaw := raw_view "Unable to load raw API key usage" "No API key request activity found in the selected range" key_raw_names.
Definition JwtSubRaw := raw_view "Unable to load raw JWT subject usage" "No JWT subject request activity found in the selected range" sub_raw_names.

(** ** Anomalies *)

Definition anomaly_cards (windowHours : Z) (stats : js) : list (string * string) :=
  let n k := js_coalesce (opt_get (opt_get stats "summary") k) (js_of_Z 0) in
  [(js_to_string (n "active_anomalies"), Z_to_string windowHours ++ "h window"); (currency (js_to_number (n "cost_spike_24h_usd")), "Above expected");
   (js_to_string (n "affected_tenants"), "Distinct tenants"); (js_to_string (n "affected_models"), "Distinct models")].
Definition anomaly_timeline (isLoading : bool) (stats : js) : Part (list (string * string)) :=
  table_part isLoading false "" "No timeline data available"
    (map (fun t => (date_text (opt_get t "bucket"), js_to_string (opt_get t "anomalies") ++ " anomalies")) (js_array (opt_get stats "timeline"))).
Definition anomalous_tenants (isLoading : bool) (stats : js) : Part (list (string * string)) :=
  table_part isLoading false "" "No tenant data available"
    (map (fun t => (js_to_string (opt_get t "tenant_id"), js_to_string (opt_get t "anomalies"))) (js_array (opt_get stats "top_tenants"))).

Inductive BadgeVariant := Destructive | DefaultBadge | SecondaryBadge.
Definition anomaly_badge (status : js) : BadgeVariant :=
  if is_str status "open" then Destructive else if is_str status "resolved" then DefaultBadge else SecondaryBadge.
Definition anomaly_row_cells (a : js) : list string :=
  let f := opt_get a in
  [date_text (f "timestamp"); js_to_string (f "tenant_id"); or_dash (f "model"); or_dash (f "provider");
   currency (field_num "expected_cost_usd" a); currency (field_num "observed_cost_usd" a); to_fixed 2 (field_num "deviation_pct" a) ++ "%";
   js_to_string (f "anomaly_type"); js_to_string (f "status")].
(** A message of either query, the list's first *)
Definition anomalies_error (listError statsError : option exn) : option string :=
  match listError, statsError with
  | None, None => None
  | _, _ => let m e := match e with Some e => exn_message e | None => "" end in
            Some (if String.eqb (m listError) "" then if String.eqb (m statsError) "" then "Request failed" else m statsError else m listError)
  end.
Inductive AnomaliesView :=
| AnomaliesFailed (message : string)
| AnomaliesShown (cards : option (list (string * string))) (timeline tenants : Part (list (string * string)))
    (table : Part (list (list string))) (paging : option string).
Definition Anomalies (windowHours : Z) (date_time : js -> num) (list_q stats_q : query js) (p : PageInfo) : AnomaliesView :=
  match anomalies_error (query_error list_q) (query_error stats_q) with
  | Some message => AnomaliesFailed message
  | None =>
      let loading {A} (q : query A) := match q with Loading => true | _ => false end in
      let stats := query_data JUndef stats_q in
      let anomalies := js_array (opt_get (query_data JUndef list_q) "data") in
      AnomaliesShown (if loading stats_q then None else Some (anomaly_cards windowHours stats))
        (anomaly_timeline (loading stats_q) stats) (anomalous_tenants (loading stats_q) stats)
        (table_part (loading list_q) false "" "No anomalies detected in the selected window"
           (map anomaly_row_cells (sort_with (cmp_down (fun a => date_time (opt_get a "timestamp"))) anomalies)))
        (showing_text "anomalies" p)
  end.

(** *** The drawer of an anomaly *)

(** [===] between values of two answers, which share no object *)
Definition strict_eq (a b : js) : bool :=
  match a, b with
  | JUndef, JUndef | JNull, JNull => true
  | JBool x, JBool y => Bool.eqb x y
  | JNum x, JNum y => num_eqb x y
  | JStr x, JStr y => String.eqb x y
  | _, _ => false
  end.
(** The drivers found for its tenant; [delta] is the currency with four to six digits *)
Definition driver_label (field : string) (d : js) : string :=
  js_to_string (js_or (js_or (opt_get d "label") (opt_get d field)) (JStr "unknown")).
Definition key_driver_label (d : js) : string :=
  js_to_string (js_or (js_or (match opt_get d "label" with JStr s => JStr (str_trim s) | v => v end) (opt_get d "api_key_name")) (JStr "unknown")).
Definition driver_rows (delta : num -> string) (label : js -> string) (l : list js) : list (string * string) :=
  map (fun d => (label d, "+" ++ delta (field_num "delta_spend" d))) l.
Definition root_cause (delta : num -> string) (explain : js) (anomaly : js) : option (list (string * list (string * string))) :=
  match List.find (fun e => strict_eq (opt_get e "tenant_id") (opt_get anomaly "tenant_id")) (js_array (opt_get explain "data")) with
  | None => None
  | Some e =>
      let drivers := opt_get e "top_drivers" in
      let l k := js_array (opt_get drivers k) in
      let part title label rows := match rows with [] => [] | _ => [(title, driver_rows delta label rows)] end in
      match (part "Top Models" (driver_label "model") (l "models") ++ part "Top Providers" (driver_label "provider") (l "providers") ++
             part "Top API Keys" key_driver_label (l "api_keys"))%list with
      | [] => None
      | rows => if truthy drivers then Some rows else None
      end
  end.
Definition anomaly_rows (a : js) : list (string * string) :=
  ((if truthy (opt_get a "anomaly_id") then [("Anomaly ID:", js_to_string (opt_get a "anomaly_id"))] else []) ++
   combine ["Timestamp"; "Tenant"; "Model"; "Provider"; "Expected Cost"; "Observed Cost"; "Deviation"; "Type"; "Status"] (anomaly_row_cells a))%list.

(** ** Monetization *)

Definition price_cells (prices : list (option num)) : list string :=
  map (fun p : option num * (num -> string) => given_or p.1 p.2)
    (combine prices [(fun v => formatAvgCostUsd (Some v)); (fun v => formatAvgCostUsd (Some v)); currency; currency; rate_text 2]).
Definition monetization_cells (r : MonetizationRow) : list string :=
  ([(if String.eqb (mz_api_key_name r) "" then mz_api_key_id r else mz_api_key_name r); mz_tenant_id r; locale (mz_requests r); currency (mz_spend r)] ++
   price_cells [mz_avg_cost_per_request_effective r; mz_avg_price_per_request r; mz_total_price r; mz_margin r; mz_margin_pct r] ++
   [given_or (mz_success_rate r) (rate_text 1); given_or (mz_avg_latency_ms r) ms_text; default "-" (mz_top_model r);
    date_or_dash (js_of_text_opt (mz_last_seen r))])%list.
Definition price_fields : list string :=
  ["avg_cost_per_request_effective"; "avg_price_per_request"; "total_price"; "margin"; "margin_pct"].
Definition jwt_monetization_cells (r : js) : list string :=
  ([or_dash (opt_get r "jwt_sub"); or_dash (opt_get r "tenant_id"); locale (field_num "requests" r); locale (field_num "total_tokens" r);
    currency (field_num "total_cost_usd" r)] ++
   price_cells (map (fun k => opt_num (opt_get r k)) price_fields) ++
   [date_or_dash (opt_get r "first_seen"); date_or_dash (opt_get r "last_seen")])%list.
Definition monetization_table {A} (what empty : string) (q : query (list A)) (cells : A -> list string) (p : PageInfo)
    : Part (list (list string)) * option string :=
  (match q with
   | Loading => PartLoading
   | Failed e => PartError (exn_message e)
   | Data rows => table_part false false "" empty (map cells rows)
   end, showing_text what p).
Definition ApiKeysMonetization (q : query (list MonetizationRow)) :=
  monetization_table "API keys" "No API key monetization data found for the selected period." q monetization_cells.
Definition JwtMonetization (q : query (list js)) :=
  monetization_table "JWT subs" "No JWT monetization data found for the selected period." q jwt_monetization_cells.

Definition monetization_model_cells (m : MonetizedModel) : list string :=
  ([mm_model m; locale (mm_requests m); currency (mm_spend m)] ++ tail (price_cells (mm_prices m)))%list.
Definition monetization_request_cells (r : js) : list string :=
  [date_or_dash (opt_get r "timestamp"); js_to_string (opt_get r "request_id"); js_to_string (opt_get r "model"); js_to_string (opt_get r "provider");
   js_to_string (opt_get r "status"); given_or (opt_num (opt_get r "latency_ms")) ms_text; currency (field_num "cost_usd" r)].
Record MonetizationDrawer := mkMonetizationDrawer {
  mo_summary : list string;
  mo_models : list (list string);
  mo_requests : list (list string);
}.
Definition monetization_drawer (q : query (option MonetizationDetail)) : DrillPart MonetizationDrawer :=
  drawer_part q "Detailed monetization data is not available yet for this API key." (fun d =>
    (fun d => let s := md_summary d in let f := opt_get s in
       mkMonetizationDrawer
         ([locale (field_num "requests" s); currency (field_num "spend" s)] ++ price_cells (map (fun k => opt_num (f k)) price_fields) ++
          [given_or (opt_num (f "success_rate")) (rate_text 1); given_or (opt_num (f "avg_latency_ms")) ms_text; null_dash (f "top_model");
           date_or_dash (f "last_seen")])%list
         (map monetization_model_cells (md_requests_by_model d)) (map monetization_request_cells (md_recent_requests d))) <$> d).

(** ** Dashboard *)

Definition dashboard_cards (month : string) (k : Kpis) : list (string * string * string) :=
  [("Total Spend (month)", currency (k_totalSpendMonth k), month); ("Total Budget", currency (k_totalBudgetUsd k), "Configured budgets");
   ("Budget Utilization", formatSmallPercent (Some (k_utilizationPct k)), "Spend / Budget");
   ("Tenants At Risk / Over", count_text (k_tenantsAtRisk k) ++ " / " ++ count_text (k_tenantsOver k), "warning / exceeded")].
Definition spend_by_tenant (isLoading : bool) (k : Kpis) : Part (list Bar) :=
  let rows := k_spendByTenantRows k in
  table_part isLoading false "" "No tenant spend data available" (bars_of fst (fun r => currency r.2) snd rows rows).
Definition spend_by_model (q : query (list ModelRow)) : Part (list Bar) :=
  match q with
  | Loading => PartLoading
  | Failed _ => PartError "Failed to load model spend data."
  | Data rows => let top := ranking 20 mr_effective_spend rows in
                 table_part false false "" "No model cost data available"
                   (bars_of mr_model (fun r => currency (mr_effective_spend r)) mr_effective_spend top top)
  end.
Definition model_efficiency_cells (r : ModelRow) : list string :=
  [mr_model r; locale (mr_requests r); currency (mr_effective_spend r); formatAvgCostUsd (Some (mr_avg_cost_per_request r));
   default "-" (mr_provider r); default "-" (mr_model_type r)].
Definition model_efficiency (q : query (list ModelRow)) : Part (list (list string)) :=
  match q with
  | Loading => PartLoading
  | Failed _ => PartError "Failed to load model cost efficiency."
  | Data rows => table_part false false "" "No model cost data available" (map model_efficiency_cells (ranking 15 mr_effective_spend rows))
  end.
Definition risk_row_cells (r : RiskRow) : list string :=
  [rr_tenant_id r; currency (rr_current_spend_usd r); currency (rr_budget_usd r); to_fixed 1 (rr_utilization_pct r) ++ "%"; rr_status r;
   default "—" (rr_enforcement_mode r); match rr_warn_pct r with Some v => num_to_string v | None => "—" end;
   match rr_hard_pct r with Some v => num_to_string v | None => "—" end].
Definition sorted_risks (k : Kpis) : list RiskRow := sort_with (cmp_down rr_utilization_pct) (k_riskRows k).
Definition risk_table (isLoading : bool) (k : Kpis) : Part (list (list string)) :=
  if isLoading then PartLoading else PartShown (map risk_row_cells (sorted_risks k)).

End Formats.

(** ** Rankings show the top *)

Definition key_ge {A} (key : A -> num) (a b : A) : Prop := num_leb (key b) (key a) = true.

(** [shown] has the [n] largest of [rows], from the largest down *)
Definition top_of {A} (n : nat) (key : A -> num) (rows shown : list A) : Prop :=
  List.length shown = Nat.min n (List.length rows) /\ StronglySorted (key_ge key) shown /\
  exists rest, Permutation rows (shown ++ rest) /\ forall a b, In a shown -> In b rest -> key_ge key a b.

Lemma sorted_app {A} (R : A -> A -> Prop) (l r : list A) :
  StronglySorted R (l ++ r) -> StronglySorted R l /\ forall a b, In a l -> In b r -> R a b.
Proof.
  induction l as [|x l IH]; cbn; [split; [constructor|done]|].
  intros [Hs Hall]%StronglySorted_inv. destruct (IH Hs) as [Hl Hlr]. rewrite List.Forall_app in Hall. destruct Hall as [Ha Hb].
  split; [by constructor|]. intros a b [<-|Hin] Hb'; [|by apply Hlr]. rewrite List.Forall_forall in Hb. by apply Hb.
Qed.

Lemma sorted_by_key {A} (key : A -> num) (rows : list A) :
  Forall (fun r => num_ok (key r) = true) rows -> StronglySorted (key_ge key) (sort_with (cmp_down key) rows).
Proof.
  intros Hok. pose proof (sort_sorted_on _ _ (cmp_down_ordered key) rows Hok) as Hs.
  assert (Hl : Forall (fun r => num_ok (key r) = true) (sort_with (cmp_down key) rows)) by (by rewrite sort_with_perm).
  induction Hs as [|x l Hs IH Hall]; constructor; apply List.Forall_cons_iff in Hl as [Hx Hl]; [by apply IH|].
  rewrite List.Forall_forall in *. intros y Hy. specialize (Hall y Hy). specialize (Hl y Hy).
  unfold key_ge, cmp_down in *. rewrite sign_sub in Hall by done. rewrite leb_units by done. lia.
Qed.

Lemma ranking_top {A} (n : nat) (key : A -> num) (rows : list A) :
  Forall (fun r => num_ok (key r) = true) rows -> top_of n key rows (ranking n key rows).
Proof.
  intros Hok. unfold top_of, ranking. set (l := sort_with (cmp_down key) rows).
  assert (Hp : Permutation l rows) by apply sort_with_perm.
  pose proof (sorted_by_key key rows Hok) as Hs. fold l in Hs. rewrite <- (take_drop n l) in Hs.
  apply sorted_app in Hs as [Hs Hge]. split; [|split; [done|]].
  - rewrite length_take. f_equal. apply Permutation_length, Hp.
  - exists (drop n l). split; [|done]. rewrite take_drop. by symmetry.
Qed.

Definition ok_at {A} (key : A -> num) (rows : list A) : Prop := Forall (fun r => num_ok (key r) = true) rows.
Definition given_rows {A} (key : A -> option num) (rows : list A) : list A := List.filter (fun r => bool_decide (is_Some (key r))) rows.
Definition or_0 {A} (key : A -> option num) (r : A) : num := default num_zero (key r).

(** the rankings of the FinOps page show the top.  The tenants by requests, spend, utilization and
    success, the rows of both usage lists, the models of the dashboard and the models of a key are
    the largest of their list, as many as there are up to the stated number, from the largest down;
    the leaderboard and the risk table have every row in that order. *)
Theorem finops_rankings_top (tenants : list TenantAnalytics) (rows : list js) (models : list ModelRow) (drill : js) (k : Kpis) :
  let req r := an_requests (ta_row r) in let spend r := an_spend_usd (ta_row r) in
  let util r := an_utilization_pct (ta_row r) in let success r := an_success_rate (ta_row r) in
  let rate r := opt_num (opt_get r "success_rate") in
  let costs := js_array (opt_get drill "requests_by_model") in
  ok_at req tenants -> ok_at spend tenants -> ok_at (or_0 util) tenants -> ok_at (or_0 success) tenants ->
  ok_at (field_num "requests") rows -> ok_at (field_num "total_cost_usd") rows -> ok_at (or_0 rate) rows ->
  ok_at (rnum "total_cost_usd") rows -> ok_at mr_effective_spend models -> ok_at (rnum "cost_usd") costs ->
  ok_at rr_utilization_pct (k_riskRows k) ->
  top_of 5 req tenants (top_by_requests tenants) /\ top_of 5 spend tenants (top_by_spend tenants) /\
  top_of 5 (or_0 util) (given_rows util tenants) (top_by_utilization tenants) /\
  top_of 10 (or_0 success) (given_rows success tenants) (top_by_success tenants) /\
  top_of 8 (field_num "requests") rows (ranking 8 (field_num "requests") rows) /\
  top_of 8 (field_num "total_cost_usd") rows (ranking 8 (field_num "total_cost_usd") rows) /\
  top_of 8 (or_0 rate) (given_rows rate rows) (top_given 8 rate rows) /\
  top_of 15 mr_effective_spend models (ranking 15 mr_effective_spend models) /\
  top_of 10 (rnum "cost_usd") costs (cost_rows drill) /\
  top_of (List.length rows) (rnum "total_cost_usd") rows (leaderboard rows) /\
  top_of (List.length (k_riskRows k)) rr_utilization_pct (k_riskRows k) (sorted_risks k).
Proof.
  cbn zeta. intros.
  assert (Hg : forall {A} n (key : A -> option num) l, ok_at (or_0 key) l -> top_of n (or_0 key) (given_rows key l) (top_given n key l)).
  { intros A n key l Hl. apply (ranking_top n (or_0 key)). unfold ok_at in Hl. rewrite List.Forall_forall in *. intros r [Hr _]%List.filter_In. by apply Hl. }
  assert (Hw : forall {A} (key : A -> num) l, ok_at key l -> top_of (List.length l) key l (sort_with (cmp_down key) l)).
  { intros A key l Hl. pose proof (ranking_top (List.length l) key l Hl) as Ht. unfold ranking in Ht.
    rewrite take_ge in Ht; [done|]. rewrite (Permutation_length (sort_with_perm (cmp_down key) l)). done. }
  repeat apply conj; try (by apply ranking_top); try (by apply Hg); by apply Hw.
Qed.

(** ** The derived timeline counts every request once *)

Section Timeline.
Context (date_ms : js -> option Z).

Definition bucket_at (b : Z) (m : list Bucket) : option Bucket := List.find (fun x => (bk_ts x =? b)%Z) m.

Lemma bump_at (b b' : Z) (cost : num) (m : list Bucket) :
  bucket_at b' (bump b cost m) =
  if (b =? b')%Z then Some (match bucket_at b m with
                            | Some x => mkBucket b (bk_count x + 1) (num_add (bk_spend x) cost)
                            | None => mkBucket b 1 (num_add num_zero cost)
                            end)
  else bucket_at b' m.
Proof.
  induction m as [|x m IH]; unfold bucket_at in *; cbn; [by destruct (Z.eqb_spec b b')|].
  destruct (Z.eqb_spec (bk_ts x) b) as [E|E]; cbn.
  - destruct (Z.eqb_spec b b') as [->|]; [done|]. destruct (Z.eqb_spec (bk_ts x) b'); [lia|done].
  - rewrite IH. destruct (Z.eqb_spec (bk_ts x) b'), (Z.eqb_spec b b'); try done. lia.
Qed.

Lemma bump_ts (b : Z) (cost : num) (m : list Bucket) :
  map bk_ts (bump b cost m) = if existsb (Z.eqb b) (map bk_ts m) then map bk_ts m else (map bk_ts m ++ [b])%list.
Proof.
  induction m as [|x m IH]; cbn; [done|]. rewrite (Z.eqb_sym b). destruct (Z.eqb_spec (bk_ts x) b) as [->|E]; [done|].
  cbn. rewrite IH. by destruct (existsb _ _).
Qed.

(** The requests of a bucket *)
Definition in_bucket (size b : Z) (r : js) : bool :=
  match date_ms (opt_get r "timestamp") with Some t => (bucket_of size t =? b)%Z | None => false end.
Definition own_requests (size : Z) (recent : list js) (b : Z) : list js := List.filter (in_bucket size b) recent.

Lemma buckets_at (size b : Z) (recent : list js) :
  bucket_at b (buckets date_ms size recent) =
  match own_requests size recent b with
  | [] => None
  | own => Some (mkBucket b (Z.of_nat (List.length own)) (sum_by (rnum "cost_usd") own))
  end.
Proof.
  unfold buckets. induction recent as [|r recent IH] using rev_ind; [done|].
  unfold own_requests in *. rewrite fold_left_app, List.filter_app. cbn [fold_left List.filter]. unfold in_bucket at 2.
  destruct (date_ms (opt_get r "timestamp")) as [t|]; [|by rewrite app_nil_r].
  rewrite bump_at. destruct (Z.eqb_spec (bucket_of size t) b) as [->|E]; [|by rewrite app_nil_r].
  rewrite IH. destruct (List.filter (in_bucket size b) recent) as [|r' l]; [done|].
  cbn [app bk_count bk_spend]. f_equal. f_equal.
  - rewrite app_comm_cons, length_app. cbn [List.length]. lia.
  - unfold sum_by. by rewrite app_comm_cons, fold_left_app.
Qed.

Lemma buckets_distinct (size : Z) (recent : list js) : List.NoDup (map bk_ts (buckets date_ms size recent)).
Proof.
  unfold buckets. induction recent as [|r recent IH] using rev_ind; [constructor|].
  rewrite fold_left_app. cbn [fold_left]. destruct (date_ms _) as [t|]; [|done]. rewrite bump_ts.
  destruct (existsb _ _) eqn:E; [done|]. apply List.NoDup_app; [done|apply List.NoDup_cons; [by intros []|apply List.NoDup_nil]|].
  intros x Hx [<-|[]]. apply Bool.not_true_iff_false in E. apply E, existsb_exists. eexists. split; [exact Hx|apply Z.eqb_refl].
Qed.

Lemma bucket_at_In (m : list Bucket) (x : Bucket) :
  List.NoDup (map bk_ts m) -> In x m <-> bucket_at (bk_ts x) m = Some x.
Proof.
  intros Hn. unfold bucket_at. split; [|by intros [H _]%List.find_some].
  induction m as [|y m IH]; cbn; [done|]. apply List.NoDup_cons_iff in Hn as [Hy Hn].
  intros [->|Hin]; [by rewrite Z.eqb_refl|]. destruct (Z.eqb_spec (bk_ts y) (bk_ts x)) as [E|]; [|by apply IH].
  exfalso. apply Hy. rewrite E. by apply in_map.
Qed.

Lemma sorted_distinct (l : list Bucket) :
  StronglySorted (fun a b => bk_ts a - bk_ts b <= 0)%Z l -> List.NoDup (map bk_ts l) -> StronglySorted (fun a b => bk_ts a < bk_ts b)%Z l.
Proof.
  induction 1 as [|x l Hs IH Hall]; intros Hn; constructor; apply List.NoDup_cons_iff in Hn as [Hx Hn]; [by apply IH|].
  rewrite List.Forall_forall in *. intros y Hy. specialize (Hall y Hy).
  assert (bk_ts x <> bk_ts y) by (intros E; apply Hx; rewrite E; by apply in_map). lia.
Qed.

(** C37: the timeline derived from the recent requests of a key.  Its buckets are minutes or hours; each has the
    number and the spend of exactly the requests that fall into it, a bucket without requests is not
    shown, and the timeline is the latest 24 of them in the order of time. *)
Theorem timeline_exact (recent : list js) :
  let size := bucket_ms date_ms recent in
  let rows := buckets date_ms size recent in
  (forall x, In x rows <-> own_requests size recent (bk_ts x) <> [] /\
     bk_count x = Z.of_nat (List.length (own_requests size recent (bk_ts x))) /\
     bk_spend x = sum_by (rnum "cost_usd") (own_requests size recent (bk_ts x))) /\
  (forall t, bucket_of size t <= t < bucket_of size t + size)%Z /\
  exists older, Permutation rows (older ++ timeline date_ms recent) /\
    List.length (timeline date_ms recent) = Nat.min 24 (List.length rows) /\
    StronglySorted (fun a b => bk_ts a < bk_ts b)%Z (older ++ timeline date_ms recent).
Proof.
  cbn zeta. set (size := bucket_ms date_ms recent). set (rows := buckets date_ms size recent).
  assert (Hsize : (0 < size)%Z) by (unfold size, bucket_ms; by destruct (_ && _)%bool).
  pose proof (buckets_distinct size recent) as Hn. split; [|split].
  - intros x. rewrite (bucket_at_In rows x Hn). unfold rows. rewrite buckets_at.
    destruct (own_requests size recent (bk_ts x)) as [|r l] eqn:E; [split; [done|by intros []]|].
    destruct x as [ts n sp]. cbn [bk_ts bk_count bk_spend]. split; [by intros [= <- <-]|]. by intros (_ & -> & ->).
  - intros t. unfold bucket_of. pose proof (Z.div_mod t size). pose proof (Z.mod_pos_bound t size). lia.
  - unfold timeline. fold size rows. set (cmp := fun a b : Bucket => (bk_ts a - bk_ts b)%Z).
    set (l := sort_with cmp rows). assert (Hp : Permutation l rows) by apply sort_with_perm.
    exists (take (List.length l - 24) l). unfold slice_last. rewrite take_drop. split; [by symmetry|]. split.
    + rewrite length_drop, <- (Permutation_length Hp). lia.
    + apply sorted_distinct; [|by rewrite Hp]. apply (sort_sorted_on (fun _ => True) cmp).
      * split; unfold cmp; intros; lia.
      * by apply List.Forall_forall.
Qed.
End Timeline.

Definition sample_row (name : string) (requests spend : Z) : js :=
  JObj [("api_key_id", JStr name); ("api_key_name", JStr name); ("tenant_id", JStr "t"); ("requests", js_of_Z requests);
        ("total_cost_usd", js_of_Z spend); ("success_rate", JNull)].
Definition ranked_tenant (name : string) (requests : Z) : TenantAnalytics :=
  mkTenantAnalytics (mkAnalyticsRow name (num_of_Z requests) (num_of_Z 1) None None None None None None "healthy") [].

Lemma finops_rankings_top_witness :
  map an_tenant (top_by_requests (map (fun n => ranked_tenant (Z_to_string n) n) [3; 9; 1; 7; 5; 8]%Z)) = ["9"; "8"; "7"; "5"; "3"] /\
  let tenants := map (fun n => ranked_tenant (Z_to_string n) n) [3; 9; 1; 7; 5; 8]%Z in
  top_of 5 (fun r => an_requests (ta_row r)) tenants (top_by_requests tenants).
Proof.
  split; [by vm_compute|]. intros tenants.
  apply (finops_rankings_top tenants [sample_row "a" 2 5; sample_row "b" 4 1]
           [mkModelRow "m" None None (num_of_Z 2) (num_of_Z 3) (num_of_Z 1)]
           (JObj [("requests_by_model", JArr [JObj [("model", JStr "m"); ("cost_usd", js_of_Z 2)]])])
           (mkKpis num_zero num_zero num_zero 0 0 [] [mkRiskRow "t" num_zero num_zero num_zero "healthy" None None None]));
    unfold ok_at; repeat constructor; by vm_compute.
Defined.

(** The requests of a provider in the drawer of a tenant are those of its models, added in their order. *)
Theorem provider_requests_exact (providers : list (string * string)) (models : list (string * num * num)) (p : string) :
  List.NoDup (map_keys (requests_by_provider providers models)) /\
  map_get p (requests_by_provider providers models) =
  match List.filter (fun m => String.eqb p (resolveProviderFromModel (model_name m) providers)) models with
  | [] => None
  | own => Some (fold_left (fun acc m => num_add (or_zero acc) (model_requests m)) own num_zero)
  end.
Proof.
  unfold requests_by_provider. split; [apply group_by_NoDup|]. rewrite group_by_get. unfold has_key, group_value.
  generalize (List.filter (fun m => String.eqb p (resolveProviderFromModel (model_name m) providers)) models).
  assert (H : forall l a, fold_left (fun acc m => Some (num_add (or_zero (default num_zero acc)) (model_requests m))) l (Some a) =
                          Some (fold_left (fun acc m => num_add (or_zero acc) (model_requests m)) l a)).
  { induction l as [|m l IH]; intros a; [done|]. cbn [fold_left]. apply IH. }
  intros [|m l]; [done|]. cbn [fold_left]. apply H.
Qed.

(** ** Where the views do not show what they mean to *)

(** The explanations of a tenant's later anomalies are never shown: every anomaly of the tenant has
    the drivers of the first explanation. *)
Theorem root_cause_of_first (delta : num -> string) (first : js) (others : list js) (anomaly : js) (tenant : string) :
  opt_get first "tenant_id" = JStr tenant -> opt_get anomaly "tenant_id" = JStr tenant ->
  root_cause delta (JObj [("data", JArr (first :: others))]) anomaly = root_cause delta (JObj [("data", JArr [first])]) anomaly.
Proof. intros Hf Ha. unfold root_cause. cbn [js_array opt_get]. cbn. rewrite Hf, Ha. cbn. by rewrite String.eqb_refl. Qed.

(** The month of the dashboard is a label: none of its figures depends on it, and the window its
    models are counted over has no control there. *)
Theorem dashboard_month_is_label (currency : num -> string) (k : Kpis) (month month' : string) :
  month_control DashboardMode = true /\ window_control DashboardMode = false /\
  map fst (dashboard_cards currency month k) = map fst (dashboard_cards currency month' k).
Proof. done. Qed.

(** A card may name one key beside the spend of another: the name is the gateway's over all keys, the
    amount that of the rows shown. *)
Theorem highest_spend_card_mixed (locale currency : num -> string) :
  let rows := [sample_row "small" 1 2] in
  let summary := JObj [("highest_spend_key", JStr "big")] in
  nth_error (usage_cards locale currency key_names 24 summary (js_of_Z 2) rows) 4 = Some ("big", currency (num_of_Z 2)).
Proof. reflexivity. Qed.

(** A driver that spent less is shown with a plus before its minus. *)
Example negative_driver_signed :
  driver_rows num_to_string (driver_label "model") [JObj [("model", JStr "m"); ("delta_spend", js_of_Z (-5))]] = [("m", "+-5")].
Proof. by vm_compute. Qed.
