(* ===== verification/RouteTable.v ===== *)
(** * The addresses of the console's server

    Which handler an address of the pages reaches.  [console_routes] lists the route.ts files
    under src/frontend/src/app/api, one entry per file with the methods it exports; a directory
    in brackets is a dynamic segment.  [route_of] is the router's documented rule: the path up to
    the query, segment by segment; a static segment matches itself, a dynamic one any single
    non-empty segment, which the handler gets decoded; entries with static segments are listed
    before those with a dynamic one in their place, and win. *)

From S2P Require Import Prelude JsNumber JsText JsValue Json Effects AuthRoutes ConsoleClient CatalogClient UsageApi LogsPage.
Local Open Scope string_scope.

Inductive segment : Type := Lit (s : string) | Dyn.

Definition console_routes : list (list segment * list string) :=
  [([Lit "api"; Lit "admin"; Lit "config"; Lit "diff"], ["GET"]);
   ([Lit "api"; Lit "admin"; Lit "config"; Lit "global"; Lit "apply"], ["POST"]);
   ([Lit "api"; Lit "admin"; Lit "config"; Lit "history"], ["GET"]);
   ([Lit "api"; Lit "admin"; Lit "config"; Lit "versions"], ["GET"]);
   ([Lit "api"; Lit "admin"; Lit "models"], ["GET"]);
   ([Lit "api"; Lit "auth"; Lit "callback"], ["POST"]);
   ([Lit "api"; Lit "auth"; Lit "config"], ["GET"]);
   ([Lit "api"; Lit "auth"; Lit "logout"], ["POST"]);
   ([Lit "api"; Lit "auth"; Lit "mock"], ["POST"; "DELETE"]);
   ([Lit "api"; Lit "auth"; Lit "refresh"], ["POST"]);
   ([Lit "api"; Lit "auth"; Lit "refresh-server"], ["POST"]);
   ([Lit "api"; Lit "auth"; Lit "session"], ["GET"]);
   ([Lit "api"; Lit "benchmarks"], ["GET"; "POST"]);
   ([Lit "api"; Lit "benchmarks"; Lit "models"], ["GET"; "DELETE"]);
   ([Lit "api"; Lit "benchmarks"; Lit "summary"], ["GET"]);
   ([Lit "api"; Lit "benchmarks"; Dyn], ["GET"]);
   ([Lit "api"; Lit "budgets"], ["GET"; "POST"]);
   ([Lit "api"; Lit "budgets"; Lit "overview"], ["GET"]);
   ([Lit "api"; Lit "budgets"; Lit "tenants"], ["GET"]);
   ([Lit "api"; Lit "budgets"; Lit "tenants"; Dyn], ["PATCH"]);
   ([Lit "api"; Lit "budgets"; Dyn], ["GET"; "PATCH"; "DELETE"]);
   ([Lit "api"; Lit "dashboard"], ["GET"]);
   ([Lit "api"; Lit "finops"; Lit "api-keys"; Lit "requests"], ["GET"]);
   ([Lit "api"; Lit "finops"; Lit "api-keys"; Lit "usage"], ["GET"]);
   ([Lit "api"; Lit "finops"; Lit "api-keys"; Dyn; Lit "usage"], ["GET"]);
   ([Lit "api"; Lit "finops"; Lit "billing"; Lit "report"], ["GET"]);
   ([Lit "api"; Lit "finops"; Lit "jwt-subs"; Lit "requests"], ["GET"]);
   ([Lit "api"; Lit "finops"; Lit "jwt-subs"; Lit "usage"], ["GET"]);
   ([Lit "api"; Lit "finops"; Lit "jwt-subs"; Dyn; Lit "usage"], ["GET"]);
   ([Lit "api"; Lit "finops"; Lit "tenant-request-stats"], ["GET"]);
   ([Lit "api"; Lit "finops"; Lit "usage-summaries"], ["GET"]);
   ([Lit "api"; Lit "global-config"], ["GET"; "PATCH"]);
   ([Lit "api"; Lit "global-config"; Lit "changes"], ["GET"]);
   ([Lit "api"; Lit "health"], ["GET"]);
   ([Lit "api"; Lit "logs"; Lit "audit"], ["GET"]);
   ([Lit "api"; Lit "logs"; Lit "audit"; Lit "export"], ["GET"]);
   ([Lit "api"; Lit "model-catalog"], ["GET"; "POST"]);
   ([Lit "api"; Lit "model-catalog"; Dyn; Dyn], ["PUT"; "DELETE"]);
   ([Lit "api"; Lit "models"], ["GET"; "POST"]);
   ([Lit "api"; Lit "models"; Dyn], ["GET"; "PATCH"; "DELETE"]);
   ([Lit "api"; Lit "observability"; Lit "cost-analytics"], ["GET"]);
   ([Lit "api"; Lit "observability"; Lit "logs"], ["GET"]);
   ([Lit "api"; Lit "observability"; Lit "metrics"], ["GET"]);
   ([Lit "api"; Lit "observability"; Lit "model-performance"], ["GET"]);
   ([Lit "api"; Lit "observability"; Lit "real-metrics"], ["GET"]);
   ([Lit "api"; Lit "observability"; Lit "request-explorer"], ["GET"]);
   ([Lit "api"; Lit "observability"; Lit "request-explorer"; Dyn; Lit "replay"], ["POST"]);
   ([Lit "api"; Lit "observability"; Lit "request-explorer"; Dyn; Lit "routing"], ["GET"]);
   ([Lit "api"; Lit "observability"; Lit "router-performance"], ["GET"]);
   ([Lit "api"; Lit "observability"; Lit "routing-insights"], ["GET"]);
   ([Lit "api"; Lit "observability"; Lit "semantic-cache"], ["GET"]);
   ([Lit "api"; Lit "observability"; Lit "semantic-correlation"], ["GET"]);
   ([Lit "api"; Lit "observability"; Lit "semantic-routing"], ["GET"]);
   ([Lit "api"; Lit "providers"], ["GET"]);
   ([Lit "api"; Lit "providers"; Dyn], ["GET"; "PATCH"]);
   ([Lit "api"; Lit "providers"; Dyn; Lit "credentials"], ["POST"]);
   ([Lit "api"; Lit "route-groups"], ["GET"; "POST"]);
   ([Lit "api"; Lit "route-groups"; Dyn], ["GET"; "PATCH"; "DELETE"]);
   ([Lit "api"; Lit "routing"; Lit "replay"; Dyn], ["POST"]);
   ([Lit "api"; Lit "routing"; Lit "requests"; Dyn; Lit "routing"], ["GET"]);
   ([Lit "api"; Lit "semantic"; Lit "anchors"], ["GET"; "POST"]);
   ([Lit "api"; Lit "semantic"; Lit "anchors"; Dyn], ["PATCH"; "DELETE"]);
   ([Lit "api"; Lit "semantic"; Lit "calibrate"], ["POST"]);
   ([Lit "api"; Lit "semantic"; Lit "routes"], ["GET"; "POST"]);
   ([Lit "api"; Lit "semantic"; Lit "routes"; Dyn], ["GET"; "PATCH"; "DELETE"]);
   ([Lit "api"; Lit "semantic"; Lit "suggest"], ["POST"]);
   ([Lit "api"; Lit "semantic"; Lit "test"], ["POST"]);
   ([Lit "api"; Lit "semantic"; Lit "threshold"], ["GET"; "PATCH"]);
   ([Lit "api"; Lit "settings"; Lit "auth"; Lit "keycloak"; Lit "test"], ["POST"]);
   ([Lit "api"; Lit "settings"; Lit "test-connection"], ["GET"]);
   ([Lit "api"; Lit "system-health"], ["GET"]);
   ([Lit "api"; Lit "tenants"], ["GET"; "POST"]);
   ([Lit "api"; Lit "tenants"; Dyn], ["GET"; "DELETE"]);
   ([Lit "api"; Lit "tenants"; Dyn; Lit "api-keys"], ["GET"]);
   ([Lit "api"; Lit "tenants"; Dyn; Lit "api-keys"; Lit "create"], ["POST"]);
   ([Lit "api"; Lit "tenants"; Dyn; Lit "api-keys"; Dyn; Lit "revoke"], ["POST"]);
   ([Lit "api"; Lit "tenants"; Dyn; Lit "api-keys"; Dyn; Lit "rotate"], ["POST"]);
   ([Lit "api"; Lit "tenants"; Dyn; Lit "budget"], ["PATCH"]);
   ([Lit "api"; Lit "tenants"; Dyn; Lit "budgets"; Lit "status"], ["GET"]);
   ([Lit "api"; Lit "tenants"; Dyn; Lit "config"], ["PATCH"]);
   ([Lit "api"; Lit "tenants"; Dyn; Lit "pii"; Lit "test-connection"], ["POST"]);
   ([Lit "api"; Lit "tenants"; Dyn; Lit "usage"], ["GET"]);
   ([Lit "api"; Lit "tool-catalog"], ["GET"; "POST"]);
   ([Lit "api"; Lit "tool-catalog"; Dyn; Dyn], ["PUT"; "DELETE"]);
   ([Lit "api"; Lit "tool-routing"; Lit "test"], ["POST"]);
   ([Lit "api"; Lit "version"], ["GET"])].

(** The path of an address: what comes before the query or the fragment *)
Definition url_path (url : string) : string :=
  take_while (fun c => negb (Ascii.eqb c "?" || Ascii.eqb c "#")) url.

Definition path_segments (url : string) : list string :=
  match str_split "/" (url_path url) with "" :: l => l | l => l end.

(** The decoded dynamic segments of a path that fits a pattern *)
Fixpoint fits (pattern : list segment) (path : list string) : option (list string) :=
  match pattern, path with
  | [], [] => Some []
  | Lit s :: pattern', t :: path' => if String.eqb s t then fits pattern' path' else None
  | Dyn :: pattern', t :: path' =>
      if String.eqb t "" then None
      else match decodeURIComponent t, fits pattern' path' with
           | Some v, Some vs => Some (v :: vs)
           | _, _ => None
           end
  | _, _ => None
  end.

Definition first_route (method : string) (path : list string) : list (list segment * list string) ->
    option (list string) :=
  fix go rs := match rs with
               | [] => None
               | (pattern, methods) :: rs' =>
                   match fits pattern path with
                   | Some vs => if existsb (String.eqb method) methods then Some vs else None
                   | None => go rs'
                   end
               end.

(** The parameters of the handler that answers, or [None] when there is none *)
Definition route_of (method url : string) : option (list string) :=
  first_route method (path_segments url) console_routes.

(** ** Encoded names *)

(** A name that a path segment can carry: dots alone are resolved by the browser. *)
Definition segment_name (s : string) : Prop :=
  utf8_valid s = true /\ s <> "" /\ s <> "." /\ s <> "..".

Lemma encode_not_empty (s : string) : s <> "" -> String.eqb (encodeURIComponent s) "" = false.
Proof. destruct s as [|c s]; [done|]. intros _. cbn. by destruct (uri_unreserved c). Qed.

Lemma path_app (a b : string) :
  lacks "?" a = true -> lacks "#" a = true -> url_path (a ++ b) = a ++ url_path b.
Proof.
  unfold url_path. induction a as [|c a IH]; cbn [lacks take_while String.append]; [done|].
  intros [H1 H1']%andb_true_iff [H2 H2']%andb_true_iff.
  apply negb_true_iff in H1, H2. rewrite H1, H2. cbn. by rewrite IH.
Qed.

Lemma path_encoded (s b : string) : url_path (encodeURIComponent s ++ b) = encodeURIComponent s ++ url_path b.
Proof. apply path_app; by apply encode_segment. Qed.

Lemma split_encoded (s b : string) :
  str_split "/" (encodeURIComponent s ++ String "/" b) = encodeURIComponent s :: str_split "/" b.
Proof. by apply str_split_app, encode_segment. Qed.
Lemma split_encoded_last (s : string) : str_split "/" (encodeURIComponent s) = [encodeURIComponent s].
Proof. by apply str_split_lacks, encode_segment. Qed.

Lemma path_query (q : string) : url_path (String "?" q) = "".
Proof. done. Qed.
Lemma path_empty : url_path "" = "".
Proof. done. Qed.

Lemma split_not_nil (s : string) : str_split "/" s <> [].
Proof.
  destruct s as [|d s]; [done|]. cbn. destruct (Ascii.eqb d "/"); [done|]. by destruct (str_split "/" s).
Qed.

Lemma split_slash (x y : string) :
  str_split "/" (x ++ String "/" y) = (str_split "/" x ++ str_split "/" y)%list.
Proof.
  induction x as [|c x IH]; [done|]. cbn [String.append str_split].
  destruct (Ascii.eqb c "/"); [cbn; by rewrite IH|]. rewrite IH.
  destruct (str_split "/" x) eqn:E; [by apply split_not_nil in E|done].
Qed.

(** The segments of an address: a static prefix, an encoded name and a static suffix that may
    end in a query *)
Lemma segments_encoded (dir a rest : string) :
  lacks "?" dir = true -> lacks "#" dir = true ->
  path_segments (String "/" dir ++ String "/" (encodeURIComponent a ++ rest)) =
  (str_split "/" dir ++ str_split "/" (encodeURIComponent a ++ url_path rest))%list.
Proof.
  intros H1 H2. unfold path_segments. rewrite path_app by (cbn; done).
  change (url_path (String "/" ?x)) with (String "/" (url_path x)). rewrite path_encoded.
  cbn [String.append str_split Ascii.eqb Bool.eqb]. by rewrite split_slash.
Qed.

(** A handler gets the name an address was built with. *)
Lemma decode_name (s : string) : segment_name s -> decodeURIComponent (encodeURIComponent s) = Some s.
Proof. intros [H _]. by apply decode_encode. Qed.

Lemma path_encoded_last (s : string) : url_path (encodeURIComponent s) = encodeURIComponent s.
Proof. rewrite <- (str_app_nil (encodeURIComponent s)) at 1. by rewrite path_encoded, str_app_nil. Qed.

(** An address with two encoded names, and one with a name before a static end or a query *)
Lemma segments_two (dir a b : string) :
  lacks "?" dir = true -> lacks "#" dir = true ->
  path_segments (entry_url (String "/" dir) a b) =
  (str_split "/" dir ++ [encodeURIComponent a; encodeURIComponent b])%list.
Proof.
  intros H1 H2. unfold entry_url.
  change (String "/" dir ++ "/" ++ encodeURIComponent a ++ "/" ++ encodeURIComponent b)
    with (String "/" dir ++ String "/" (encodeURIComponent a ++ String "/" (encodeURIComponent b))).
  rewrite segments_encoded by done.
  change (url_path (String "/" ?x)) with (String "/" (url_path x)).
  by rewrite path_encoded_last, split_encoded, split_encoded_last.
Qed.

Lemma segments_name (dir a q : string) :
  lacks "?" dir = true -> lacks "#" dir = true ->
  path_segments (String "/" dir ++ String "/" (encodeURIComponent a ++ String "?" q)) =
  (str_split "/" dir ++ [encodeURIComponent a])%list.
Proof.
  intros H1 H2. rewrite segments_encoded by done. by rewrite path_query, str_app_nil, split_encoded_last.
Qed.

Lemma segments_under (dir a tail q : string) :
  lacks "?" dir = true -> lacks "#" dir = true -> lacks "?" tail = true -> lacks "#" tail = true ->
  lacks "/" tail = true -> url_path q = "" ->
  path_segments (String "/" dir ++ String "/" (encodeURIComponent a ++ String "/" (tail ++ q))) =
  (str_split "/" dir ++ [encodeURIComponent a; tail])%list.
Proof.
  intros H1 H2 H3 H4 H5 Hq. rewrite segments_encoded by done.
  change (url_path (String "/" ?x)) with (String "/" (url_path x)).
  rewrite path_app, Hq, str_app_nil, split_encoded by done. by rewrite (str_split_lacks "/" tail H5).
Qed.

(** Only patterns of the path's length matter. *)
Definition of_length (n : nat) (rs : list (list segment * list string)) : list (list segment * list string) :=
  List.filter (fun r => Nat.eqb (List.length r.1) n) rs.

Lemma fits_length (pattern : list segment) (path vs : list string) :
  fits pattern path = Some vs -> List.length pattern = List.length path.
Proof.
  revert path vs. induction pattern as [|[s|] pattern IH]; intros [|t path] vs; cbn; try done.
  - destruct (String.eqb s t); [|done]. by intros ->%IH.
  - destruct (String.eqb t ""); [done|]. destruct (decodeURIComponent t); [|done].
    destruct (fits pattern path) eqn:E; [|done]. by apply IH in E as ->.
Qed.

Lemma first_route_length (m : string) (path : list string) (rs : list (list segment * list string)) :
  first_route m path rs = first_route m path (of_length (List.length path) rs).
Proof.
  induction rs as [|[pattern methods] rs IH]; [done|]. cbn [of_length List.filter fst].
  destruct (Nat.eqb_spec (List.length pattern) (List.length path)) as [E|E].
  - cbn. by destruct (fits pattern path).
  - cbn. destruct (fits pattern path) eqn:Ef; [by apply fits_length in Ef|]. apply IH.
Qed.

(** Runs the table on an address whose segments are known. *)
Ltac run_table :=
  match goal with |- context [(str_split "/" ?d ++ _)%list] =>
    let l := eval vm_compute in (str_split "/" d) in change (str_split "/" d) with l end;
  rewrite first_route_length; cbn [List.length app];
  match goal with |- context [of_length ?n console_routes] =>
    let rs := eval vm_compute in (of_length n console_routes) in
    change (of_length n console_routes) with rs end;
  unfold first_route; cbn -[encodeURIComponent decodeURIComponent];
  rewrite ?encode_not_empty, ?decode_name by naive_solver; done.

(** A name with any characters reaches its route.  The addresses of the catalogues, the
    route groups, the semantic anchors, the explorer and the usage of a key encode the names
    they contain: for every name but the empty one and the dots a browser resolves, the router
    finds the handler, and gives it back exactly the names of the page, slashes, question marks
    and other scripts included. *)
Theorem encoded_names_reach_routes (a b : string) :
  segment_name a -> segment_name b ->
  (forall m, In m ["PUT"; "DELETE"] ->
     route_of m (entry_url "/api/model-catalog" a b) = Some [a; b] /\
     route_of m (entry_url "/api/tool-catalog" a b) = Some [a; b]) /\
  (forall m, In m ["GET"; "PATCH"; "DELETE"] -> route_of m (route_group_url b a) = Some [a]) /\
  (forall m, In m ["PATCH"; "DELETE"] -> route_of m (anchor_url b a) = Some [a]) /\
  route_of "GET" ("/api/observability/request-explorer/" ++ encodeURIComponent a ++ "/routing") = Some [a] /\
  route_of "POST" ("/api/observability/request-explorer/" ++ encodeURIComponent a ++ "/replay") = Some [a] /\
  (forall w l, route_of "GET" (http_url (drilldown_request a w l)) = Some [a]).
Proof.
  intros Ha Hb.
  assert (Hn : forall x, segment_name x -> x <> "") by (unfold segment_name; tauto).
  unfold route_of. repeat split; intros.
  - rewrite (segments_two "api/model-catalog") by reflexivity.
    repeat destruct H as [<-|H]; try done; run_table.
  - rewrite (segments_two "api/tool-catalog") by reflexivity.
    repeat destruct H as [<-|H]; try done; run_table.
  - change (route_group_url b a) with (String "/" "api/route-groups" ++
      String "/" (encodeURIComponent a ++ String "?" ("tenantId=" ++ encodeURIComponent b))).
    rewrite (segments_name "api/route-groups" a ("tenantId=" ++ encodeURIComponent b)) by reflexivity.
    repeat destruct H as [<-|H]; try done; run_table.
  - change (anchor_url b a) with (String "/" "api/semantic/anchors" ++
      String "/" (encodeURIComponent a ++ String "?" (tenant_query b))).
    rewrite (segments_name "api/semantic/anchors" a (tenant_query b)) by reflexivity.
    repeat destruct H as [<-|H]; try done; run_table.
  - change ("/api/observability/request-explorer/" ++ encodeURIComponent a ++ "/routing")
      with (String "/" "api/observability/request-explorer" ++
            String "/" (encodeURIComponent a ++ String "/" ("routing" ++ ""))).
    rewrite (segments_under "api/observability/request-explorer" a "routing" "") by reflexivity. run_table.
  - change ("/api/observability/request-explorer/" ++ encodeURIComponent a ++ "/replay")
      with (String "/" "api/observability/request-explorer" ++
            String "/" (encodeURIComponent a ++ String "/" ("replay" ++ ""))).
    rewrite (segments_under "api/observability/request-explorer" a "replay" "") by reflexivity. run_table.
  - set (q := String "?" (params_to_string [("window_hours", num_to_string w); ("limit", num_to_string l);
                                            ("offset", "0")])).
    change (http_url (drilldown_request a w l)) with (String "/" "api/finops/api-keys" ++
      String "/" (encodeURIComponent a ++ String "/" ("usage" ++ q))).
    rewrite (segments_under "api/finops/api-keys" a "usage" q) by reflexivity. run_table.
Qed.

(** A model of a vendor, whose names hold a slash and other scripts *)
Lemma encoded_names_reach_routes_witness :
  route_of "DELETE" (entry_url "/api/model-catalog" "meta-llama" "Llama 3/8B?é") =
    Some ["meta-llama"; "Llama 3/8B?é"].
Proof.
  refine (proj1 (proj1 (encoded_names_reach_routes "meta-llama" "Llama 3/8B?é" _ _) "DELETE" _)).
  - split; [reflexivity|]. split; [discriminate|split; discriminate].
  - split; [reflexivity|]. split; [discriminate|split; discriminate].
  - right. left. reflexivity.
Defined.

(** ** Names that are not encoded *)

(** A text without the characters that end a segment or a path *)
Definition bare (s : string) : bool := lacks "/" s && lacks "?" s && lacks "#" s.

Lemma bare_split (s : string) :
  bare s = true -> lacks "/" s = true /\ lacks "?" s = true /\ lacks "#" s = true.
Proof. unfold bare. by intros [[? ?]%andb_true_iff ?]%andb_true_iff. Qed.

Lemma segments_bare (dir a b : string) :
  lacks "?" dir = true -> lacks "#" dir = true -> bare a = true -> bare b = true ->
  path_segments (String "/" dir ++ String "/" (a ++ String "/" b)) = (str_split "/" dir ++ [a; b])%list.
Proof.
  intros H1 H2 (Ha1 & Ha2 & Ha3)%bare_split (Hb1 & Hb2 & Hb3)%bare_split.
  unfold path_segments. rewrite path_app by (cbn; done).
  change (url_path (String "/" ?x)) with (String "/" (url_path x)). rewrite path_app by done.
  change (url_path (String "/" ?x)) with (String "/" (url_path x)).
  rewrite <- (str_app_nil b) at 1. rewrite path_app, path_empty, str_app_nil by done.
  cbn [String.append str_split Ascii.eqb Bool.eqb]. rewrite !split_slash.
  by rewrite (str_split_lacks "/" a Ha1), (str_split_lacks "/" b Hb1).
Qed.

(** A model whose id has a slash cannot be read, changed or deleted from its page: the
    model hooks put the id into the address as it is, so the address has a segment more than
    the model's route, and no handler of the console answers it, whatever the method. *)
Theorem slashed_models_unreachable (a b m : string) (w : World) (s : State) :
  bare a = true -> bare b = true ->
  let id := a ++ String "/" b in
  sent (deleteModel id w s).2 =
    (sent s ++ [mkHttpRequest "DELETE" ("/api/models/" ++ id) [] None])%list /\
  route_of m ("/api/models/" ++ id) = None.
Proof.
  intros Ha Hb id. split.
  - unfold deleteModel, page_call, page_fetch, mbind, M_bind.
    destruct (net w (sent s) _) as [res|e]; [|done].
    assert (Hq : quiet w (deleted "Failed to delete model" "Model deleted successfully" res))
      by (unfold deleted, raise_error, quiet; solve_sends).
    by rewrite (quiet_sent w _ _ Hq).
  - unfold route_of. change ("/api/models/" ++ id) with (String "/" "api/models" ++ String "/" id).
    unfold id. rewrite (segments_bare "api/models" a b) by done. run_table.
Qed.

Lemma slashed_models_unreachable_witness :
  let w := demo_world [] (fun _ => reply 404 "") in
  sent (deleteModel "meta-llama/Llama-3" w start).2 =
    [mkHttpRequest "DELETE" "/api/models/meta-llama/Llama-3" [] None] /\
  route_of "DELETE" "/api/models/meta-llama/Llama-3" = None.
Proof.
  apply (slashed_models_unreachable "meta-llama" "Llama-3" "DELETE" (demo_world [] (fun _ => reply 404 "")) start);
    reflexivity.
Defined.

(** ** Pages without a handler *)

(** Three of the four tabs of the logs page, their exports, and the anomalies of the
    budgets page ask for addresses no handler of the console answers, with whatever query. *)
Theorem pages_without_handlers (tab : LogsTab) (m q : string) :
  tab <> Audit ->
  route_of m (tab_path tab ++ String "?" q) = None /\
  route_of m (tab_path tab ++ "/export" ++ String "?" q) = None /\
  Forall (fun path => route_of m (path ++ String "?" q) = None)
    ["/api/finops/anomalies"; "/api/finops/anomalies/stats"; "/api/finops/anomalies/explain"].
Proof.
  intros Ht.
  assert (H : forall p, lacks "?" p = true -> lacks "#" p = true ->
                route_of m (p ++ String "?" q) = first_route m
                  (match str_split "/" p with "" :: l => l | l => l end) console_routes).
  { intros p H1 H2. unfold route_of, path_segments. by rewrite path_app, path_query, str_app_nil by done. }
  destruct tab; [done| | |].
  all: split; [|split]; [..|repeat (apply List.Forall_cons); try apply List.Forall_nil].
  all: rewrite ?(str_app_nil ""); rewrite <- ?str_app_assoc.
  all: rewrite H by reflexivity; reflexivity.
Qed.

Lemma pages_without_handlers_witness :
  route_of "GET" "/api/logs/ml?limit=50" = None /\ route_of "GET" "/api/logs/ml/export?limit=50" = None /\
  Forall (fun path => route_of "GET" (path ++ "?limit=50") = None)
    ["/api/finops/anomalies"; "/api/finops/anomalies/stats"; "/api/finops/anomalies/explain"].
Proof. apply (pages_without_handlers Ml "GET" "limit=50"). discriminate. Defined.
